(* ===== verification/_CoqProject ===== *)
-Q . S2P
Prelude.v
Binary64.v
Json.v
Models.v
Fixtures.v
WorkerTopology.v
Planner.v
Reconcile.v
Paths.v
InferRuntimeConfig.v
ExecutionPlan.v
SchedulingPolicy.v
AssignmentStore.v
AssignmentReconciliation.v
RuntimeStatus.v
TelemetryBuffer.v
TelemetryStore.v
TelemetryViews.v
RuntimeSupport.v
SchedulerStore.v
StateCodecs.v
StateJson.v
ComposeRenderer.v
PlaneRealization.v
ObservationMatcher.v
ControllerStore.v
PlaneService.v
SchedulerView.v
SchedulerDomain.v
SchedulerExecution.v
StateAggregate.v
SchedulerService.v
SchedulerMachine.v
InteractionText.v
InteractionStream.v
ModelAdapter.v
InteractionPolicy.v
InteractionSession.v
InteractionContract.v
InteractionStreamSession.v
V2Validator.v
V2Renderer.v
V2Rendered.v
HostLocalState.v
HostPaths.v
HostCommands.v
HostDisks.v
HostRuntime.v
HostApply.v
HostApplied.v
HostAssignments.v
WebAuthn.v
AuthStore.v
AuthSupport.v
AuthService.v
AuthGuarantees.v
