(* ===== verification/Prelude.v ===== *)
(** * naim: a verification of the node control plane

    The repository is the control plane of a cluster of GPU hosts.  An operator
    describes a plane (nodes, disks, instances, an inference runtime with a group
    of workers); the controller turns that desired state into work for the host
    daemons and watches what they report.  This library models the program's own
    logic on that path and proves what makes it correct.

    ** The program and the files

    - The desired state ([common/include/naim/state/models.h]) is [Models]; its
      worker groups and stable ports
      ([common/include/naim/state/worker_group_topology.h]) are [WorkerTopology].
    - The planners of [common/src/planning] are pure functions of a current and a
      desired state.  [Planner] ([planner.cpp]) builds the compose services of
      each node, [Reconcile] ([reconcile.cpp]) the diff shown to the operator,
      [ExecutionPlan] ([execution_plan.cpp]) the ordered host operations of each
      node, [SchedulingPolicy] ([scheduling_policy.cpp]) admission, GPU
      allocation, placement candidates and rollout actions.
      [InferRuntimeConfig] ([common/src/runtime/infer_runtime_config.cpp]) is the
      document an infer instance boots from; [ExecutionPlan] compares its text,
      and its ports must agree with those of [Planner].
    - The work queue between the controller and the hosts
      ([common/src/state/assignment_repository.cpp], the table
      [host_assignments]) is [AssignmentStore]; the service that closes obsolete
      or converged claims
      ([controller/src/host/host_assignment_reconciliation_service.cpp]) is
      [AssignmentReconciliation], proved against the class [AssignmentQueue]
      that the table implements.
    - What hosts report ([common/src/runtime/runtime_status.cpp]) is
      [RuntimeStatus]: records, JSON codecs, the status file.  The controller
      keeps it in a ring buffer ([TelemetryBuffer], from
      [controller/src/telemetry/telemetry_frame_ring_buffer.cpp] and its
      helpers), owned by the live store with its durable table, configuration and
      stream counters ([TelemetryStore], from [telemetry_live_store.cpp] and the
      services it composes), and shows it in snapshots, health documents and
      metrics ([TelemetryViews]).
    - Desired states travel as JSON ([common/src/state/state_json.cpp] and its two
      codec files): [StateCodecs] has the codecs of the parts, [StateJson] the
      documents, their normalisation, placement aliases and the slice of a node.
      Documents of the second format are checked by [V2Validator]
      ([desired_state_v2_validator.cpp]) and rendered to states by [V2Renderer]
      ([desired_state_v2_renderer.cpp]); [V2Rendered] has what a rendered state
      promises.  [ComposeRenderer] ([compose_renderer.cpp]) is the text of a
      compose plan.
    - The controller's database is [SchedulerStore] (the tables of
      [scheduler_repository.cpp]) and [ControllerStore] (planes, observations,
      availability, events, disk runtime, with the queue and the scheduler tables
      in one record, and the state-and-error monad [prog] its clients run in).
      [RuntimeSupport] ([controller_runtime_support_service.cpp],
      [scheduler_domain_support.cpp]) reads timestamps, availability and reports.
    - From planes to work: [PlaneRealization] ([plane_realization_service.cpp])
      turns a state into artifacts and assignments, [ObservationMatcher]
      ([plane_observation_matcher.cpp] and the deletion guard of
      [controller_composition_support.cpp]) decides what a host shows of a plane,
      [PlaneService] ([plane_service.cpp], [plane_deletion_support.cpp],
      [plane_lifecycle_support.cpp]) starts, stops and deletes planes.
    - The scheduler ([controller/src/scheduler]): [SchedulerDomain]
      ([scheduler_domain_service.cpp]) derives the life cycle of rollouts, the
      controller gate and the rebalance plan from a view of the store
      ([StateAggregate], from [state_aggregate_loader.cpp]); [SchedulerView]
      presents them; [SchedulerExecution] ([scheduler_execution_support.cpp])
      changes states and verifies moves; [SchedulerService]
      ([scheduler_service.cpp]) runs the decisions on the store, one tick at a
      time; [SchedulerMachine] is the abstract machine of an active action that
      the tick refines.
    - Conversations ([controller/src/interaction]): [InteractionText] cleans text
      and removes completion markers from streams, [InteractionStream] decodes
      chunked HTTP bodies and server-sent events, [ModelAdapter]
      ([common/src/runtime/model_adapter.cpp]) treats model families,
      [InteractionPolicy] resolves completion policies and builds continuation
      requests, [InteractionSession] runs a session of segments,
      [InteractionContract] validates requests and builds every payload,
      [InteractionStreamSession] relays streamed segments and sessions
      ([interaction_service.cpp] and the helpers it composes).
    - The host daemon ([hostd]): [HostLocalState] (the records of what was applied),
      [HostPaths], [HostCommands] (processes, quoting, docker compose and images),
      [HostDisks] (images, loop devices, mounts), [HostRuntime] (status of the
      instances, evictions), [HostApply] (a node state is applied: the operations
      of its plan, models, readiness, the post-deploy script), [HostApplied] (what
      applying promises) and [HostAssignments] (the daemon claims an assignment,
      carries it out and settles it: [hostd_assignment_service.cpp] against the
      class [IHostdAssignmentSupport], and the implementation of that class).
    - Who comes in: [WebAuthn] ([controller/src/auth/webauthn_service.cpp]), the
      verification of passkeys from the bytes of the browser to the verdict;
      [AuthStore] ([auth_repository.cpp], the tables of users, invitations, keys and
      sessions), [AuthSupport] ([auth_support_service.cpp]: tokens, cookies, pending
      flows, sessions, the admission to a plane), [AuthService]
      ([auth_http_service.cpp], the handlers) and [AuthGuarantees] (what they promise).
    - Shared: [Prelude] (errors, strings, sorting, maps, automation), [Binary64]
      ([double]), [Paths] ([std::filesystem::path]), [Json] (JSON values and the
      interface of the JSON library), [Fixtures] (concrete planes on which the
      witnesses evaluate the definitions).

    ** How code becomes definitions

    A C++ function is a Rocq function of the same name; a struct is a record whose
    fields carry a prefix; an overload or a method of a class whose name is taken
    carries the type or class name ([DiskKind_ToString], [NodeHealth_Build]).
    Exceptions are the [Throw] values of [result].  A long function is a
    composition of definitions for its parts, named in lower case
    ([EvaluateSchedulingPolicy] for instance runs its loops one after the other
    where the source interleaves loops that do not depend on each other).  Helpers
    that several translation units repeat verbatim are modelled once.

    Numbers: [double] is IEEE 754 binary64, computed with the rounding of the
    machine.  [std::uint32_t] and [std::uint64_t] wrap where the code can exceed
    them.  A sum of type [int] that no check bounds wraps as on the machine
    ([int32_wrap]: the memory caps of a GPU, the token totals of a session); elsewhere
    [int] is unbounded, and ranges are hypotheses where a theorem depends on them
    ([CapsFit], [RuntimeStatus]).
    [std::map] and [std::set] are [gmap] and [gset], iterated in key order;
    [std::sort] is an insertion sort, which [std_sort_unique] shows to be the
    only possible result when ties are equal elements.

    State: an SQL table is its list of rows (or a map over its primary key), a
    statement a function on it, a transaction their composition; the current
    time is an argument, constant within a transaction.  Operations of the queue
    and of the telemetry store form step relations ([evolves], [reachable], [history],
    [RingRun], [StoreRun]), and invariants are proved by induction on runs.  The
    deletion of a plane is a step of the queue too.

    The daemon runs in [hprog], a state and error monad over a [World] of files,
    database, operating system and the log of commands; the effect of a command is
    a parameter ([HostOs]) that may be any function.  The world lists the files before
    and after each step of the outside ([w_outside]), so that a theorem may ask that
    this run of the daemon met no command, pause or removal that changed a file it
    depends on ([outside_left]), and nothing of commands that are not run.
    Directories are the prefixes of files.  The handlers of
    authentication run in [auth], a state and exception monad; every request is a run
    of the step relation [permitted].  The parser of [WebAuthn] tells what throws from
    what the language leaves undefined ([outcome]).  Events of a streamed session are
    serialised when they are sent, which may throw, also while a failure is reported.

    Parameters: the environment ([getenv]), the clock, SHA-256 and ECDSA ([OpenSsl]),
    random tokens, password hashes and ssh-keygen ([AuthEnvironment]), what SQLite refuses
    ([SqliteFault]), the operating system of a host ([HostOs], [HostLocks]), and the JSON library ([dump] alone for the runtime
    configuration; the class [JsonLibrary], with its documented laws and the
    instance [tree_json], for codecs and documents).

    Fuel: loops that consume a buffer ([decode_chunks], [consume_frames],
    [remove_markers] and the like) have the length of the buffer as fuel and
    return [None] when it is used up; that it never is, or for which input it is
    ([chunk_size_overflow_loops]), is proved.  Sessions have the number of
    continuations their policy permits ([session_terminates]).  The CBOR parser has one
    step more than its input has bytes ([parse_ends]).  Polling has as many
    rounds as its sleeps fit before the deadline ([poll_until_deadline]).  The decimal
    exponent of a printed double ([floor_log10] in [Binary64]) is searched within
    400 steps, more than the decimal range (-324 to 308) of a double.  All other
    recursions are structural.

    ** What is proved

    - Planning: replaying an execution plan on an abstract host succeeds and
      reaches exactly the desired state, an unchanged state plans nothing; a
      reconcile plan names each change once and applying it gives the desired
      resources; compose plans partition the disks and services by node and
      publish managed ports on the loopback address only; runtime configuration
      and compose plan agree on ports.
    - Scheduling: a state whose memory caps add up within [int] is admitted exactly
      when every worker is valid and no GPU is over its limits; victims are a minimal prefix of the eviction order;
      candidates are complete; rollout actions come in well-formed evict and
      retry pairs.
    - Topology: replicas are full, ranks distinct, hybrid replicas node-local.
    - Queue: over every history, deletions of planes included, ids are never used
      again and attempts stay within their budgets; rows only move
      along the life cycle, a claim takes the first eligible assignment, leases
      expire, enqueueing leaves one active assignment per target, reconciliation
      closes exactly what it should.
    - Telemetry: buffers hold exactly the accepted frames less a pruned front;
      a stream without a replay request misses nothing; under any faults the store
      accepts exactly the frames that are newer than the accepted ones of their node
      and keeps them within its capacity; durable frames come back after a restart;
      codecs round-trip; snapshot and health agree on the status; downsampling
      conserves samples.
    - Desired states: a normal state survives its JSON text up to the GPU devices of
      its nodes, of which the text has those of the memory map only ([as_written]);
      a document decoded without a placement target is normal; placement targets move
      a state whole or not at all; the compose plan of a slice is that of the plane.
    - Documents of the second format: a rendered plane is placed on its nodes, its
      workers follow their assignments and are grouped in the replicas the document
      asks for, disks belong to their owners, dependencies exist, names are
      distinct when those of the apps are, and the compose planner accepts it.
    - Planes: assignments go to exactly the eligible nodes and carry a state whose
      plan is the controller's (for planes in normal form); starting, stopping and deleting touch nothing of
      another plane, whatever fails; a deletion completes exactly when its
      clean-up is over and leaves none of its rows in the tables of planes, assignments,
      rollouts, the scheduler, disks and events and no observation that names it (the
      session tables are not cleared by the code).
    - Scheduler: the rebalance plan proposes exactly the moves that nothing speaks
      against, to the candidate that a declarative choice names; the gate opens exactly when the cluster is settled, every tick is a step of the
      machine of an active action, and an action that is advanced regularly ends.
    - Conversations: filtering a stream by pieces is filtering the whole; events
      survive any chunking and any cut of the reads; a relayed segment of delta events
      is exactly the text the runtime sent; sessions end and account for their
      segments; a streamed session closes its event stream unless its failure report
      cannot be serialised; policies are bounded and accepted requests
      normalised; visible text has no control tokens.
    - The host daemon: it carries out exactly the planned operations and in its own
      order still reaches the desired state; a project is started from the file
      that was rendered, unless something outside changed it in between; devices are
      formatted only when blkid printed nothing for them and disks end up ready; the
      records of states that can be stored form a map over planes and stay true
      whether applying returns or throws; a claimed assignment is always settled and no other one
      touched; a quoted value is one word to the shell.
    - WebAuthn: a response is verified exactly when it is a signed, fresh answer to
      the challenge by the credential; the CBOR parser inverts the encoding and ends
      within its input, undefined only on a length that wraps; base64url gives every byte back.
    - Accounts: a request makes a session only for whom it proved to be; only the
      administrator changes invitations and secured users, only a user its keys; a
      plane admits exactly the live sessions meant for it; users and invitations stay
      consistent in every reachable world; a challenge is good for one session.
    - Defects of the code stated as theorems: [victim_comparator_not_weak_order],
      [memory_shortage_not_preempting], [equal_sequences_overwrite],
      [namesake_blocks_deletion], [stream_session_never_continues],
      [session_marker_never_seen], [chunk_size_overflow_loops], [hyphen_never_found],
      [primary_apps_share_name], [replicas_lost_in_json], [interaction_without_infer],
      [retry_skips_readiness], [wait_counts_other_services], [service_name_unquoted],
      [sanitized_planes_share_image], [logout_keeps_session], [overflowing_caps_admitted],
      [wrapped_length_undefined] and the unreachable overloaded status in
      [health_status_exact].

    ** What is not modelled

    Sockets, threads, the HTTP router, the web UI and the model runtimes are outside;
    requests of authentication are handled one after the other; so are failures of the
    file system where it is not a parameter, and the exhaustion of memory or stack.
    Of the host daemon, fetching models, collecting telemetry, the back end over HTTP,
    knowledge vaults, the HTTP proxy and self updates are arguments ([HostModels],
    [HostJobs]); what is only printed is left out.
    Connections, clocks and the body of an upstream request are arguments of the
    interaction executors, which the theorems leave arbitrary.  [StateJson] takes
    the renderer of the second format as an argument, which [V2Renderer.Render]
    instantiates; the projector back to that format, the relational copy of a
    desired state and the preparation of a state by [DesiredStatePolicyService]
    are arguments of the definitions that call them.  The preparation is a pure
    argument: the rows of the skill catalogue that it writes are in no modelled table. *)

From stdpp Require Export base tactics list gmap strings sorting pretty.
From Stdlib Require Export Lia.

#[global] Open Scope Z_scope.
Export Ascii.AsciiSyntax.
Delimit Scope char_scope with char.

Declare Scope naim_scope.
Delimit Scope naim_scope with naim.
#[global] Open Scope naim_scope.

(** * Errors: C++ exceptions as values *)

(** A C++ function that may throw [std::runtime_error] returns a [result]. *)
Inductive result (A : Type) : Type :=
  | Ok (a : A)
  | Throw (msg : string).
Arguments Ok {_} _.
Arguments Throw {_} _.

#[export] Instance result_ret : MRet result := fun A a => Ok a.
#[export] Instance result_bind : MBind result := fun A B f m =>
  match m with Ok a => f a | Throw e => Throw e end.

(** [for (x : l) acc = f(acc, x)] where the body may throw. *)
Fixpoint foldR {A S} (f : S -> A -> result S) (acc : S) (l : list A) : result S :=
  match l with
  | [] => Ok acc
  | x :: l' => acc' ← f acc x; foldR f acc' l'
  end.

(** [for (x : l) out.push_back(f(x))] where [f] may throw. *)
Fixpoint mapR {A B} (f : A -> result B) (l : list A) : result (list B) :=
  match l with
  | [] => Ok []
  | x :: l' => y ← f x; ys ← mapR f l'; Ok (y :: ys)
  end.

Definition is_ok {A} (r : result A) : bool :=
  match r with Ok _ => true | Throw _ => false end.

(** * Boolean equality, as C++'s [==] on values *)

Definition eqb {A} `{EqDecision A} (x y : A) : bool := bool_decide (x = y).
Notation "x ==? y" := (eqb x y) (at level 70) : naim_scope.
Notation "x !=? y" := (negb (eqb x y)) (at level 70) : naim_scope.

(** [value.empty()] on strings and vectors, [has_value()] on optionals. *)
Definition str_empty (s : string) : bool := match s with EmptyString => true | _ => false end.
Definition vec_empty {A} (l : list A) : bool := match l with [] => true | _ => false end.
Definition has_value {A} (o : option A) : bool := match o with Some _ => true | None => false end.
Definition value_or {A} (o : option A) (d : A) : A := default d o.

(** * Strings *)

(** [std::to_string] and [ostream <<] on integers. *)
Definition to_string (z : Z) : string := pretty z.

(** The character [10]. *)
Definition newline : string := String (Ascii.ascii_of_nat 10) EmptyString.

(** The double quote, which a string literal cannot spell here. *)
Definition quote : string := String (Ascii.ascii_of_nat 34) EmptyString.
Definition quoted (s : string) : string := quote +:+ s +:+ quote.

(** The [JoinStrings] helper each translation unit repeats. *)
Fixpoint JoinStrings (values : list string) (separator : string) : string :=
  match values with
  | [] => ""
  | [v] => v
  | v :: rest => v +:+ separator +:+ JoinStrings rest separator
  end.

(** [s.rfind(p, 0) == 0] *)
Definition starts_with (p s : string) : bool := String.prefix p s.

(** [s.find(sub) != npos] *)
Fixpoint str_contains (sub s : string) : bool :=
  starts_with sub s ||
  match s with EmptyString => false | String _ s' => str_contains sub s' end.

(** [static_cast<unsigned char>(c)] *)
Definition char_code (c : Ascii.ascii) : Z := Z.of_N (Ascii.N_of_ascii c).
Fixpoint list_of_string (s : string) : list Ascii.ascii :=
  match s with EmptyString => [] | String c s' => c :: list_of_string s' end.
Fixpoint string_of_list (l : list Ascii.ascii) : string :=
  match l with [] => EmptyString | c :: l' => String c (string_of_list l') end.

(** * Strict total orders on keys, as [std::less] *)

Class KeyOrder (K : Type) := {
  klt : K -> K -> bool;
  klt_irrefl : forall x, klt x x = false;
  klt_trans : forall x y z, klt x y = true -> klt y z = true -> klt x z = true;
  klt_total : forall x y, klt x y = false -> klt y x = false -> x = y;
}.

(** * [std::sort] *)

(** Insertion after every element that is not greater, as the insertion phase
    of libstdc++'s [std::sort] does. *)
Fixpoint sort_insert {A} (lt : A -> A -> bool) (x : A) (l : list A) : list A :=
  match l with
  | [] => [x]
  | y :: l' => if lt x y then x :: l else y :: sort_insert lt x l'
  end.

Definition std_sort {A} (lt : A -> A -> bool) (l : list A) : list A :=
  foldl (fun acc x => sort_insert lt x acc) [] l.

(** The comparator requirement of [std::sort]: a strict weak ordering. *)
Class StrictWeakOrder {A} (lt : A -> A -> bool) := {
  swo_asym : forall x y, lt x y = true -> lt y x = false;
  swo_cotrans : forall x y z, lt x z = true -> lt x y = true \/ lt y z = true;
}.

(** [not_after lt x y]: [y] is not required to come before [x]. *)
Definition not_after {A} (lt : A -> A -> bool) (x y : A) : Prop := lt y x = false.

(** * [std::map] and [std::set]: iteration in key order *)

Definition map_items {K V} `{Countable K, KeyOrder K} (m : gmap K V) : list (K * V) :=
  std_sort (fun x y => klt x.1 y.1) (map_to_list m).
Definition map_keys {K V} `{Countable K, KeyOrder K} (m : gmap K V) : list K :=
  (map_items m).*1.
Definition set_items {K} `{Countable K, KeyOrder K} (s : gset K) : list K :=
  std_sort klt (elements s).

(** [map.emplace(k, v)]: keeps an existing entry. *)
Definition map_emplace {K V} `{Countable K} (k : K) (v : V) (m : gmap K V) : gmap K V :=
  match m !! k with Some _ => m | None => <[k := v]> m end.

(** * Machine integers *)

Definition uint32_wrap (z : Z) : Z := z `mod` 2 ^ 32.
Definition uint64_wrap (z : Z) : Z := z `mod` 2 ^ 64.
(** The conversion to a signed type: two's complement. *)
Definition int32_wrap (z : Z) : Z := let u := uint32_wrap z in if u <? 2 ^ 31 then u else u - 2 ^ 32.
Definition int64_wrap (z : Z) : Z := let u := uint64_wrap z in if u <? 2 ^ 63 then u else u - 2 ^ 64.
Definition int_min : Z := - 2 ^ 31.
Definition int_max : Z := 2 ^ 31 - 1.
Definition fits_int (z : Z) : Prop := int_min <= z <= int_max.

Lemma int32_wrap_mod z : exists q, int32_wrap z = z + 2 ^ 32 * q.
Proof.
  unfold int32_wrap, uint32_wrap. pose proof (Z.div_mod z (2 ^ 32) ltac:(lia)).
  destruct (_ <? _); [exists (- (z / 2 ^ 32)) | exists (- (z / 2 ^ 32) - 1)]; lia.
Qed.

Lemma int32_wrap_small z : fits_int z -> int32_wrap z = z.
Proof.
  unfold fits_int, int_min, int_max, int32_wrap, uint32_wrap. intros [H1 H2]. destruct (Z.le_gt_cases 0 z).
  - rewrite Z.mod_small by lia. by replace (z <? 2 ^ 31) with true by lia.
  - replace (z `mod` 2 ^ 32) with (z + 2 ^ 32); [by replace (z + 2 ^ 32 <? 2 ^ 31) with false by lia; lia|].
    apply (Z.mod_unique z (2 ^ 32) (-1)); lia.
Qed.

(** Wrapping after every addition or once at the end is the same. *)
Lemma int32_wrap_add a b : int32_wrap (int32_wrap a + b) = int32_wrap (a + b).
Proof.
  unfold int32_wrap at 1 3. replace (uint32_wrap (int32_wrap a + b)) with (uint32_wrap (a + b)); [done|].
  unfold uint32_wrap. destruct (int32_wrap_mod a) as [q ->].
  replace (a + 2 ^ 32 * q + b) with (a + b + q * 2 ^ 32) by lia. by rewrite Z_mod_plus_full.
Qed.

(** [std::find_if] over a vector. *)
Fixpoint find_if {A} (p : A -> bool) (l : list A) : option A :=
  match l with
  | [] => None
  | x :: l' => if p x then Some x else find_if p l'
  end.

(** The last element satisfying a predicate (a loop that overwrites [result]). *)
Definition find_last_if {A} (p : A -> bool) (l : list A) : option A :=
  foldl (fun acc x => if p x then Some x else acc) None l.

(** [std::any_of]. *)
Definition any_of {A} (p : A -> bool) (l : list A) : bool := existsb p l.

(** * Automation *)

Create HintDb naim.

Ltac destruct_if :=
  match goal with
  | |- context [if ?b then _ else _] => destruct b eqn:?
  | H : context [if ?b then _ else _] |- _ => destruct b eqn:?
  end.

(** Turns boolean tests of the code into the propositions they decide. *)
Ltac to_prop :=
  unfold eqb in *;
  repeat match goal with
  | H : negb _ = false |- _ => apply negb_false_iff in H
  | H : _ && _ = true |- _ => apply andb_true_iff in H as [? ?]
  | H : bool_decide _ = true |- _ => apply bool_decide_eq_true in H
  | H : negb _ = true |- _ => apply negb_true_iff in H
  | H : _ || _ = false |- _ => apply orb_false_iff in H as [? ?]
  | H : bool_decide _ = false |- _ => apply bool_decide_eq_false in H
  | H : (_ <? _) = true |- _ => apply Z.ltb_lt in H
  | H : (_ <? _) = false |- _ => apply Z.ltb_ge in H
  | H : (_ <=? _) = true |- _ => apply Z.leb_le in H
  | H : (_ <=? _) = false |- _ => apply Z.leb_gt in H
  end.

(** Inverts a successful bind chain in a hypothesis. *)
Ltac bind_inv :=
  repeat match goal with
  | H : Ok _ = Ok _ |- _ => injection H as H; try subst
  | H : Throw _ = Ok _ |- _ => discriminate H
  | H : mret _ = Ok _ |- _ => injection H as H; try subst
  | H : (_ ≫= _) = Ok _ |- _ =>
      let E := fresh "E" in
      unfold mbind, result_bind in H;
      match type of H with
      | match ?m with _ => _ end = _ => destruct m eqn:E; [|discriminate H]
      end
  | H : match ?m with Ok _ => _ | Throw _ => _ end = Ok _ |- _ =>
      let E := fresh "E" in destruct m eqn:E; [|discriminate H]
  end.

(** * Lemmas on results *)

Lemma mapR_Forall2 {A B} (f : A -> result B) l l' :
  mapR f l = Ok l' <-> Forall2 (fun x y => f x = Ok y) l l'.
Proof.
  revert l'. induction l as [|x l IH]; intros l'; simpl.
  - split; [intros; bind_inv; constructor | inversion 1; done].
  - split.
    + intros H. bind_inv. constructor; [done|]. by apply IH.
    + inversion 1 as [|? y ? ys Hy Hys]; subst.
      unfold mbind, result_bind. rewrite Hy. apply IH in Hys. by rewrite Hys.
Qed.

Lemma mapR_ok_iff {A B} (f : A -> result B) l :
  is_ok (mapR f l) = true <-> Forall (fun x => is_ok (f x) = true) l.
Proof.
  induction l as [|x l IH]; simpl; [by split|].
  rewrite Forall_cons, <-IH. unfold mbind, result_bind.
  destruct (f x); simpl; [|split; [done | by intros [??]]].
  destruct (mapR f l); simpl; naive_solver.
Qed.

Lemma mapR_ext {A B} (f g : A -> result B) l :
  (forall x, x ∈ l -> f x = g x) -> mapR f l = mapR g l.
Proof.
  induction l as [|x l IH]; intros H; [done|]. cbn. rewrite H by left.
  by rewrite IH by (intros; apply H; by right).
Qed.

Lemma mapR_filter {A B} (f : A -> result B) (p : A -> bool) (q : B -> bool) l ys :
  (forall x y, f x = Ok y -> q y = p x) -> mapR f l = Ok ys ->
  mapR f (List.filter p l) = Ok (List.filter q ys).
Proof.
  intros Hpq. revert ys. induction l as [|x l IH]; intros ys; cbn; [by intros [= <-]|].
  intros H. bind_inv. cbn. rewrite (Hpq _ _ E). destruct (p x); [|by apply IH].
  cbn. by rewrite E, (IH _ eq_refl).
Qed.

(** * Lemmas on boolean equality and searches *)

Lemma eqb_true {A} `{EqDecision A} (x y : A) : (x ==? y) = true <-> x = y.
Proof. apply bool_decide_eq_true. Qed.
Lemma eqb_false {A} `{EqDecision A} (x y : A) : (x ==? y) = false <-> x <> y.
Proof. apply bool_decide_eq_false. Qed.
Lemma eqb_refl {A} `{EqDecision A} (x : A) : (x ==? x) = true.
Proof. by apply eqb_true. Qed.


Lemma str_empty_true s : str_empty s = true <-> s = "".
Proof. by destruct s. Qed.
Lemma str_empty_false s : str_empty s = false <-> s <> "".
Proof. by destruct s. Qed.
Lemma vec_empty_true {A} (l : list A) : vec_empty l = true <-> l = [].
Proof. by destruct l. Qed.
Lemma vec_empty_false {A} (l : list A) : vec_empty l = false <-> l <> [].
Proof. by destruct l. Qed.

Lemma find_if_Some {A} (p : A -> bool) l x :
  find_if p l = Some x -> p x = true /\ x ∈ l.
Proof.
  induction l as [|y l IH]; simpl; [done|]. destruct (p y) eqn:E.
  - intros [= ->]. split; [done | left].
  - intros H. apply IH in H as [??]. split; [done | by right].
Qed.

Lemma find_if_None {A} (p : A -> bool) l :
  find_if p l = None <-> forall x, x ∈ l -> p x = false.
Proof.
  induction l as [|y l IH]; simpl.
  - split; [|done]. intros _ x Hx. by apply elem_of_nil in Hx.
  - destruct (p y) eqn:E.
    + split; [done|]. intros H. rewrite (H y) in E; [done | left].
    + rewrite IH. setoid_rewrite elem_of_cons. naive_solver.
Qed.

Lemma find_if_is_Some {A} (p : A -> bool) l :
  is_Some (find_if p l) <-> exists x, x ∈ l /\ p x = true.
Proof.
  split.
  - intros [x Hx]. apply find_if_Some in Hx as [??]. by exists x.
  - intros (x & Hx & Hp). destruct (find_if p l) eqn:E; [by eexists|].
    rewrite find_if_None in E. rewrite E in Hp; done.
Qed.

Lemma any_of_true {A} (p : A -> bool) l :
  any_of p l = true <-> exists x, x ∈ l /\ p x = true.
Proof.
  unfold any_of. rewrite existsb_exists.
  setoid_rewrite list_elem_of_In. done.
Qed.

Lemma any_of_false {A} (p : A -> bool) l :
  any_of p l = false <-> forall x, x ∈ l -> p x = false.
Proof.
  rewrite <-not_true_iff_false, any_of_true. split.
  - intros H x Hx. destruct (p x) eqn:E; [|done]. by exfalso; apply H; exists x.
  - intros H (x & Hx & Hp). by rewrite H in Hp.
Qed.

(** * Lemmas on [std_sort] *)

Section sort.
Context {A : Type} (lt : A -> A -> bool).

Lemma sort_insert_perm x l : sort_insert lt x l ≡ₚ x :: l.
Proof.
  induction l as [|y l IH]; simpl; [done|].
  destruct (lt x y); [done|]. rewrite IH. by rewrite Permutation_swap.
Qed.

Lemma std_sort_perm_aux l acc :
  foldl (fun acc x => sort_insert lt x acc) acc l ≡ₚ acc ++ l.
Proof.
  revert acc. induction l as [|x l IH]; intros acc; simpl.
  - by rewrite app_nil_r.
  - rewrite IH, sort_insert_perm. by rewrite <-Permutation_middle.
Qed.

Lemma std_sort_perm l : std_sort lt l ≡ₚ l.
Proof. apply std_sort_perm_aux. Qed.

Lemma elem_of_std_sort x l : x ∈ std_sort lt l <-> x ∈ l.
Proof. by rewrite std_sort_perm. Qed.

Lemma length_std_sort l : length (std_sort lt l) = length l.
Proof. by rewrite std_sort_perm. Qed.

Lemma std_sort_nil_iff l : std_sort lt l = [] <-> l = [].
Proof. rewrite <-!length_zero_iff_nil, length_std_sort. done. Qed.

Context `{!StrictWeakOrder lt}.

Lemma sort_insert_sorted x l :
  StronglySorted (not_after lt) l -> StronglySorted (not_after lt) (sort_insert lt x l).
Proof.
  induction 1 as [|y l Hl IH Hy]; simpl.
  - repeat constructor.
  - destruct (lt x y) eqn:E; unfold not_after in *.
    + constructor; [by constructor|]. constructor; [by apply swo_asym|].
      eapply Forall_impl; [exact Hy|]. intros z Hz; simpl in *.
      destruct (lt z x) eqn:Ezx; [|done].
      destruct (swo_cotrans z y x Ezx); [congruence|].
      by rewrite (swo_asym _ _ E) in *.
    + constructor; [done|]. rewrite sort_insert_perm. by constructor.
Qed.

Lemma std_sort_sorted l : StronglySorted (not_after lt) (std_sort lt l).
Proof.
  unfold std_sort. assert (StronglySorted (not_after lt) []) as H by constructor.
  revert H. generalize (@nil A). induction l as [|x l IH]; intros acc Hacc; simpl; [done|].
  apply IH. by apply sort_insert_sorted.
Qed.

(** When ties are equal elements the result of a sort is unique: the model's
    choice of algorithm does not matter. *)
Lemma std_sort_unique l l' :
  (forall x y, x ∈ l -> y ∈ l -> lt x y = false -> lt y x = false -> x = y) ->
  l' ≡ₚ l -> StronglySorted (not_after lt) l' -> l' = std_sort lt l.
Proof.
  intros Htot Hp Hs. apply (StronglySorted_unique_strong (not_after lt)).
  - intros x y Hx Hy H1 H2. apply Htot; [| | exact H2 | exact H1].
    + by rewrite <-Hp.
    + by rewrite <-std_sort_perm.
  - done.
  - apply std_sort_sorted.
  - by rewrite std_sort_perm.
Qed.

Lemma std_sort_sorted_id l :
  (forall x y, x ∈ l -> y ∈ l -> lt x y = false -> lt y x = false -> x = y) ->
  StronglySorted (not_after lt) l -> std_sort lt l = l.
Proof. intros Htot Hs. symmetry. by apply std_sort_unique. Qed.
End sort.

#[export] Instance klt_swo {K} `{KeyOrder K} : StrictWeakOrder (klt (K:=K)).
Proof.
  split.
  - intros x y Hxy. destruct (klt y x) eqn:Hyx; [|done].
    by rewrite <-(klt_irrefl x), (klt_trans x y x Hxy Hyx).
  - intros x y z Hxz. destruct (klt x y) eqn:Hxy; [by left|]. right.
    destruct (klt y z) eqn:Hyz; [done|].
    destruct (klt z y) eqn:Hzy.
    + by rewrite (klt_trans x z y Hxz Hzy) in Hxy.
    + by rewrite (klt_total y z Hyz Hzy) in Hxy; congruence.
Qed.

(** A comparator that projects to a smaller order is again admissible. *)
Lemma swo_proj {A B} (f : A -> B) (lt : B -> B -> bool) :
  StrictWeakOrder lt -> StrictWeakOrder (fun x y => lt (f x) (f y)).
Proof. intros H. split; intros; [by apply swo_asym | by apply swo_cotrans]. Qed.

(** The lexicographic comparators of the code: first key, then a tie break. *)
Lemma swo_lex {A B} `{KeyOrder B, EqDecision B} (f : A -> B) (lt : A -> A -> bool) :
  StrictWeakOrder lt ->
  StrictWeakOrder (fun x y => if f x !=? f y then klt (f x) (f y) else lt x y).
Proof.
  intros Hlt. split.
  - intros x y. unfold eqb. repeat case_bool_decide; simpl; try congruence; apply swo_asym.
  - intros x y z. unfold eqb.
    case_bool_decide as Hxz; case_bool_decide as Hxy; case_bool_decide as Hyz;
      simpl; intros Hk; try congruence.
    + by apply swo_cotrans.
    + destruct (klt (f x) (f y)) eqn:E1; [by left|]. right.
      rewrite <-Hxz. destruct (klt (f y) (f x)) eqn:E2; [done|].
      by apply klt_total in E1.
    + right. by rewrite <-Hxy.
    + left. by rewrite Hyz.
    + by apply swo_cotrans.
Qed.

(** * [std::string] and pair keys *)

Lemma string_ltb_leb x y : String.ltb x y = negb (String.leb y x).
Proof.
  unfold String.ltb, String.leb. rewrite (String.compare_antisym y x).
  by destruct (String.compare x y).
Qed.

#[export] Program Instance string_order : KeyOrder string := {| klt := String.ltb |}.
Next Obligation.
  intros x. rewrite string_ltb_leb. apply negb_false_iff, Is_true_true_1.
  change (String.le x x). reflexivity.
Qed.
Next Obligation.
  intros x y z. rewrite !string_ltb_leb, !negb_true_iff.
  rewrite <-!not_true_iff_false, <-!Is_true_true.
  change (~ String.le y x -> ~ String.le z y -> ~ String.le z x).
  intros H1 H2 H3. destruct (total String.le x y) as [H|H]; [|done].
  apply H2. by transitivity x.
Qed.
Next Obligation.
  intros x y. rewrite !string_ltb_leb, !negb_false_iff, <-!Is_true_true.
  change (String.le y x -> String.le x y -> x = y). intros. by apply (anti_symm String.le).
Qed.

#[export] Program Instance pair_order {A B} `{EqDecision A, KeyOrder A, KeyOrder B} :
  KeyOrder (A * B) :=
  {| klt := fun x y => if x.1 !=? y.1 then klt x.1 y.1 else klt x.2 y.2 |}.
Next Obligation. intros ?????[a b]; simpl. rewrite eqb_refl. simpl. apply klt_irrefl. Qed.
Next Obligation.
  intros ?????[a b] [c d] [e f]; simpl. unfold eqb.
  repeat case_bool_decide; simpl; subst; try done; try congruence; try apply klt_trans.
  intros Hac Hca. by rewrite (swo_asym _ _ Hac) in Hca.
Qed.
Next Obligation.
  intros ?????[a b] [c d]; simpl. unfold eqb.
  repeat case_bool_decide; simpl; subst; try congruence.
  - intros. f_equal. by apply klt_total.
  - intros Hl Hr. by apply klt_total in Hl.
Qed.

#[export] Program Instance Z_order : KeyOrder Z := {| klt := Z.ltb |}.
Next Obligation. intros. apply Z.ltb_irrefl. Qed.
Next Obligation. intros. lia. Qed.
Next Obligation. intros. lia. Qed.

(** * Lemmas on maps *)

Section maps.
Context {K V : Type} `{Countable K, !KeyOrder K}.
Implicit Types (m : gmap K V).

Lemma elem_of_map_items m k v : (k, v) ∈ map_items m <-> m !! k = Some v.
Proof. unfold map_items. by rewrite elem_of_std_sort, elem_of_map_to_list. Qed.

Lemma elem_of_map_keys m k : k ∈ map_keys m <-> is_Some (m !! k).
Proof.
  unfold map_keys. rewrite list_elem_of_fmap. split.
  - intros ([k' v] & -> & Hin). apply elem_of_map_items in Hin. by eexists.
  - intros [v Hv]. exists (k, v). split; [done|]. by apply elem_of_map_items.
Qed.

Lemma NoDup_map_keys m : NoDup (map_keys m).
Proof.
  unfold map_keys, map_items. rewrite std_sort_perm. apply NoDup_fst_map_to_list.
Qed.

Lemma map_items_empty_iff m : map_items m = [] <-> m = ∅.
Proof. unfold map_items. rewrite std_sort_nil_iff. apply map_to_list_empty_iff. Qed.

Lemma map_items_empty : map_items (∅ : gmap K V) = [].
Proof. by apply map_items_empty_iff. Qed.

(** Keys come out strictly increasing. *)
Lemma map_keys_sorted m : StronglySorted (fun x y => klt x y = true) (map_keys m).
Proof.
  pose proof (NoDup_map_keys m) as Hnd. unfold map_keys in *.
  assert (StronglySorted (not_after (fun x y : K * V => klt x.1 y.1)) (map_items m)) as Hs.
  { apply std_sort_sorted. apply swo_proj. apply _. }
  induction Hs as [|[k v] l Hl IH Hk]; simpl in *; [constructor|].
  apply NoDup_cons in Hnd as [Hn Hnd]. constructor; [auto|].
  apply Forall_fmap. rewrite Forall_forall in *. intros [k' v'] Hin. simpl.
  specialize (Hk _ Hin). unfold not_after in Hk; simpl in Hk.
  destruct (klt k k') eqn:E; [done|]. exfalso. apply Hn.
  rewrite (klt_total _ _ E Hk). apply list_elem_of_fmap. by exists (k', v').
Qed.

Lemma lookup_map_emplace m k v k' :
  map_emplace k v m !! k' = if decide (k = k') then Some (default v (m !! k')) else m !! k'.
Proof.
  unfold map_emplace. destruct (m !! k) eqn:E; case_decide; subst; simplify_map_eq; done.
Qed.
End maps.

Lemma elem_of_set_items {K} `{Countable K, !KeyOrder K} (s : gset K) k :
  k ∈ set_items s <-> k ∈ s.
Proof. unfold set_items. by rewrite elem_of_std_sort, elem_of_elements. Qed.

Lemma NoDup_set_items {K} `{Countable K, !KeyOrder K} (s : gset K) : NoDup (set_items s).
Proof. unfold set_items. rewrite std_sort_perm. apply NoDup_elements. Qed.

(** Maps built by a loop of [result[key(x)] = value(x)]: the last writer wins. *)
Definition map_of_list_by {A K V} `{Countable K} (key : A -> K) (value : A -> V) (l : list A)
    : gmap K V :=
  foldl (fun m x => <[key x := value x]> m) ∅ l.

Lemma map_of_list_by_snoc {A K V} `{Countable K} (key : A -> K) (value : A -> V) l x :
  map_of_list_by key value (l ++ [x]) = <[key x := value x]> (map_of_list_by key value l).
Proof. unfold map_of_list_by. by rewrite foldl_app. Qed.

Lemma map_of_list_by_Some {A K V} `{Countable K} (key : A -> K) (value : A -> V) l k v :
  map_of_list_by key value l !! k = Some v -> exists x, x ∈ l /\ key x = k /\ value x = v.
Proof.
  induction l as [|x l IH] using rev_ind; [done|].
  rewrite map_of_list_by_snoc, lookup_insert. case_decide as Hk.
  - intros [= <-]. exists x. split; [set_solver | done].
  - intros Hv. destruct (IH Hv) as (y & ? & ?). exists y. split; [set_solver | done].
Qed.

Lemma map_of_list_by_is_Some {A K V} `{Countable K} (key : A -> K) (value : A -> V) l k :
  is_Some (map_of_list_by key value l !! k) <-> k ∈ key <$> l.
Proof.
  induction l as [|x l IH] using rev_ind.
  - simpl. unfold map_of_list_by; simpl. rewrite lookup_empty. split; [by intros [??] | set_solver].
  - rewrite map_of_list_by_snoc, lookup_insert, fmap_app, elem_of_app, <-IH.
    simpl. rewrite list_elem_of_singleton.
    case_decide; [|naive_solver]. subst. split; [by right | by intros _; eexists].
Qed.

Lemma map_of_list_by_lookup {A K V} `{Countable K} (key : A -> K) (value : A -> V) l x :
  NoDup (key <$> l) -> x ∈ l -> map_of_list_by key value l !! key x = Some (value x).
Proof.
  induction l as [|y l IH] using rev_ind; [set_solver|].
  rewrite map_of_list_by_snoc, fmap_app, NoDup_app. intros (Hnd & Hdis & _) Hx.
  rewrite lookup_insert. case_decide as Hk.
  - apply elem_of_app in Hx as [Hx|Hx].
    + exfalso. apply (Hdis (key x)); [by apply list_elem_of_fmap_2 | simpl; set_solver].
    + by apply list_elem_of_singleton in Hx as ->.
  - apply IH; [done|]. apply elem_of_app in Hx as [Hx|Hx]; [done|].
    by apply list_elem_of_singleton in Hx as ->.
Qed.

(** * Lemmas on [List.filter] *)

Lemma elem_of_filterb {A} (p : A -> bool) l x : x ∈ List.filter p l <-> x ∈ l /\ p x = true.
Proof. by rewrite list_elem_of_In, filter_In, <-list_elem_of_In. Qed.

Lemma filter_filter_same {A} (p : A -> bool) l : List.filter p (List.filter p l) = List.filter p l.
Proof.
  induction l as [|x l IH]; [done|]. cbn. destruct (p x) eqn:E; [|done]. cbn. by rewrite E, IH.
Qed.

Lemma find_if_filter {A} (p q : A -> bool) l :
  (forall x, p x = true -> q x = true) -> find_if p (List.filter q l) = find_if p l.
Proof.
  intros Hpq. induction l as [|x l IH]; [done|]. cbn. destruct (q x) eqn:E; cbn.
  - by rewrite IH.
  - destruct (p x) eqn:Ep; [|done]. by rewrite (Hpq x Ep) in E.
Qed.

Lemma mapR_find {A B} (f : A -> result B) (p : A -> bool) (q : B -> bool) l ys y :
  (forall x y, f x = Ok y -> q y = p x) -> mapR f l = Ok ys -> find_if q ys = Some y ->
  exists x, find_if p l = Some x /\ f x = Ok y.
Proof.
  intros Hpq. revert ys. induction l as [|x l IH]; intros ys; cbn.
  - by intros [= <-].
  - intros H. bind_inv. cbn. rewrite (Hpq _ _ E). destruct (p x); [|by apply IH].
    intros [= <-]. by exists x.
Qed.

Lemma NoDup_fmap_filterb {A B} (f : A -> B) (p : A -> bool) l :
  NoDup (f <$> l) -> NoDup (f <$> List.filter p l).
Proof.
  induction l as [|x l IH]; [constructor|]. rewrite fmap_cons. intros [Hn Hnd]%NoDup_cons.
  cbn [List.filter]. destruct (p x); [|auto]. rewrite fmap_cons. constructor; [|auto].
  intros (y & Hy & Hin)%list_elem_of_fmap. apply Hn. rewrite Hy.
  apply list_elem_of_fmap_2. by apply elem_of_filterb in Hin as [Hin _].
Qed.

Lemma NoDup_filterb {A} (p : A -> bool) l : NoDup l -> NoDup (List.filter p l).
Proof.
  intros Hnd. rewrite <-(list_fmap_id (List.filter p l)).
  apply NoDup_fmap_filterb. by rewrite list_fmap_id.
Qed.

Lemma filterb_perm {A} (p : A -> bool) l l' : l ≡ₚ l' -> List.filter p l ≡ₚ List.filter p l'.
Proof.
  induction 1; simpl; repeat destruct_if; try done.
  - by constructor.
  - apply Permutation_swap.
  - by etrans.
Qed.
