(* ===== verification/Binary64.v ===== *)
(** * C++ [double]

    GPU fractions are [double] in the source.  They are modelled by the
    Standard Library's executable specification of IEEE 754 binary64
    ([SpecFloat] at precision 53, emax 1024, round to nearest even), so every
    comparison against [kFractionEpsilon], every accumulation and every printed
    fraction is computed with the rounding of the machine operation.  Also here:
    the two decimal renderings the code uses, [std::to_string] ([%f]) and
    [ostream <<] ([%.6g]). *)

From Stdlib Require Import SpecFloat.
From S2P Require Import Prelude.

Abbreviation double := spec_float.

#[export] Instance spec_float_eq_dec : EqDecision spec_float.
Proof. unfold EqDecision, Decision. intros x y. decide equality; apply (decide (_ = _)). Defined.

(** ** Arithmetic and comparisons *)

Definition dadd (x y : double) : double := SFadd 53 1024 x y.
Definition dsub (x y : double) : double := SFsub 53 1024 x y.
Definition dmul (x y : double) : double := SFmul 53 1024 x y.
Definition ddiv (x y : double) : double := SFdiv 53 1024 x y.
Definition dabs (x : double) : double := SFabs x.
Definition dlt (x y : double) : bool := SFltb x y.
Definition dle (x y : double) : bool := SFleb x y.
Definition dgt (x y : double) : bool := SFltb y x.
Definition dge (x y : double) : bool := SFleb y x.

(** [static_cast<double>] of an integer. *)
Definition double_of_Z (z : Z) : double := binary_normalize 53 1024 z 0 false.

Definition d0 : double := S754_zero false.
Definition d1 : double := S754_finite false 4503599627370496 (-52).
Definition d10 : double := S754_finite false 5629499534213120 (-49).
(** The literal [1e-9]. *)
Definition d1e_9 : double := S754_finite false 4835703278458517 (-82).

(** [std::max(a, b)] returns [a] unless [a < b]. *)
Definition dmax (a b : double) : double := if dlt a b then b else a.

(** [static_cast<int>]: truncation toward zero. *)
Definition trunc_int (x : double) : Z :=
  match x with
  | S754_finite s m e =>
      let q := if 0 <=? e then Zpos m * 2 ^ e else Zpos m / 2 ^ (- e) in
      if s then - q else q
  | _ => 0
  end.

(** ** Decimal rendering *)

(** [num / den] rounded to the nearest integer, ties to even. *)
Definition round_half_even (num den : Z) : Z :=
  let q := num / den in
  let r := num `mod` den in
  if 2 * r <? den then q
  else if den <? 2 * r then q + 1
  else if Z.even q then q else q + 1.

Definition ratio (m : positive) (e : Z) : Z * Z :=
  if 0 <=? e then (Zpos m * 2 ^ e, 1) else (Zpos m, 2 ^ (- e)).

Fixpoint zeros (n : nat) : string :=
  match n with O => "" | S n' => "0" +:+ zeros n' end.

(** A non-negative integer padded on the left to [w] digits. *)
Definition pad_left (w : nat) (z : Z) : string :=
  let s := to_string z in zeros (w - String.length s) +:+ s.

Definition sign_text (s : bool) : string := if s then "-" else "".

(** [std::to_string(double)]: six decimals. *)
Definition to_string_double (x : double) : string :=
  match x with
  | S754_zero s => sign_text s +:+ "0.000000"
  | S754_infinity s => sign_text s +:+ "inf"
  | S754_nan => "nan"
  | S754_finite s m e =>
      let '(num, den) := ratio m e in
      let n := round_half_even (num * 10 ^ 6) den in
      sign_text s +:+ to_string (n / 10 ^ 6) +:+ "." +:+ pad_left 6 (n `mod` 10 ^ 6)
  end.

(** Largest [k] with [10^k * den <= num], searched from [k] upwards. *)
Fixpoint log10_up (fuel : nat) (num den k : Z) : Z :=
  match fuel with
  | O => k
  | S f => if 10 ^ (k + 1) * den <=? num then log10_up f num den (k + 1) else k
  end.

(** Same for [num < den]: largest [-k] with [den <= num * 10^k]. *)
Fixpoint log10_down (fuel : nat) (num den k : Z) : Z :=
  match fuel with
  | O => - k
  | S f => if den <=? num * 10 ^ k then - k else log10_down f num den (k + 1)
  end.

(** 400 steps exceed the decimal exponent range of binary64 (-324 .. 308). *)
Definition floor_log10 (num den : Z) : Z :=
  if den <=? num then log10_up 400 num den 0 else log10_down 400 num den 1.

Fixpoint strip_zeros_rev (l : list Ascii.ascii) : list Ascii.ascii :=
  match l with
  | "0"%char :: l' => strip_zeros_rev l'
  | _ => l
  end.
Definition strip_zeros (s : string) : string :=
  string_of_list (rev (strip_zeros_rev (rev (list_of_string s)))).

(** An integer part and a fraction without trailing zeros. *)
Definition decimal (whole frac : string) : string :=
  let f := strip_zeros frac in
  if str_empty f then whole else whole +:+ "." +:+ f.

(** [ostream << double] with the default precision: [%.6g]. *)
Definition ostream_double (x : double) : string :=
  match x with
  | S754_zero s => sign_text s +:+ "0"
  | S754_infinity s => sign_text s +:+ "inf"
  | S754_nan => "nan"
  | S754_finite s m e =>
      let '(num, den) := ratio m e in
      let x0 := floor_log10 num den in
      let scale := 5 - x0 in
      let d0' := if 0 <=? scale then round_half_even (num * 10 ^ scale) den
                 else round_half_even num (den * 10 ^ (- scale)) in
      let '(digits, x1) := if d0' =? 10 ^ 6 then (10 ^ 5, x0 + 1) else (d0', x0) in
      let text := to_string digits in
      sign_text s +:+
      (if (-4 <=? x1) && (x1 <? 6) then
         if 0 <=? x1 then
           decimal (String.substring 0 (Z.to_nat (x1 + 1)) text)
                   (String.substring (Z.to_nat (x1 + 1)) 6 text)
         else decimal "0" (zeros (Z.to_nat (- x1 - 1)) +:+ text)
       else
         decimal (String.substring 0 1 text) (String.substring 1 5 text) +:+ "e" +:+
         (if x1 <? 0 then "-" else "+") +:+ pad_left 2 (Z.abs x1))
  end.

(** ** Facts *)

Example render_tenth :
  (ostream_double (ddiv d1 d10), to_string_double (ddiv d1 d10)) = ("0.1", "0.100000").
Proof. vm_compute. reflexivity. Qed.
Example render_epsilon :
  (ostream_double d1e_9, ostream_double (dadd d1 d1e_9), to_string_double d1e_9)
  = ("1e-09", "1", "0.000000").
Proof. vm_compute. reflexivity. Qed.
Example render_large :
  (ostream_double (double_of_Z 1234567), ostream_double (double_of_Z 123456), ostream_double d0)
  = ("1.23457e+06", "123456", "0").
Proof. vm_compute. reflexivity. Qed.
Example truncation : trunc_int (dmul (ddiv d1 (double_of_Z 3)) d10) = 3.
Proof. vm_compute. reflexivity. Qed.

Lemma dlt_dle x y : dlt x y = true -> dle x y = true.
Proof. unfold dlt, dle, SFltb, SFleb. by destruct (SFcompare x y) as [[]|]. Qed.

(** [std::max(0.0, x)] is never negative and never NaN. *)
Lemma dmax_zero_nonneg x : dle d0 (dmax d0 x) = true.
Proof. unfold dmax. destruct (dlt d0 x) eqn:E; [by apply dlt_dle | done]. Qed.
