(* ===== verification/Json.v ===== *)
(** * JSON values and the JSON library

    The sources build and read [nlohmann::json] values.  A value is a tree; an
    object keeps the fields in the order the code writes them, and member access
    is by key.  What the library itself computes is not part of the repository:
    conversions out of a value, iteration, [dump] and [parse] are the operations
    of the class [JsonLibrary], whose laws state the documented behaviour the
    code relies on.  [tree_json] at the end of the file is a concrete instance. *)

From Stdlib Require Import SpecFloat.
From S2P Require Import Prelude Binary64.

#[warnings="-register-all"]
Inductive json :=
  | JNull
  | JBool (b : bool)
  | JInt (z : Z)
  | JDouble (d : double)
  | JString (s : string)
  | JArray (items : list json)
  | JObject (fields : list (string * json)).

(** ** Object members *)

Fixpoint assoc {A} (key : string) (fields : list (string * A)) : option A :=
  match fields with
  | [] => None
  | (k, v) :: rest => if String.eqb k key then Some v else assoc key rest
  end.

(** [value.contains(key)] followed by [value.at(key)]. *)
Definition member (value : json) (key : string) : option json :=
  match value with JObject fields => assoc key fields | _ => None end.

Definition is_object (value : json) : bool := match value with JObject _ => true | _ => false end.
Definition is_string (value : json) : bool := match value with JString _ => true | _ => false end.
Definition is_array (value : json) : bool := match value with JArray _ => true | _ => false end.

(** [value.value(key, default)]: the default only when the key is absent; the
    library throws on a value that is not an object. *)
Definition json_value {A} (get : json -> result A) (value : json) (key : string) (d : A)
    : result A :=
  match value with
  | JObject fields => match assoc key fields with Some x => get x | None => Ok d end
  | _ => Throw "type_error.306"
  end.

(** [value.at(key).get<A>()]. *)
Definition json_at {A} (get : json -> result A) (value : json) (key : string) : result A :=
  match value with
  | JObject fields =>
      match assoc key fields with Some x => get x | None => Throw "out_of_range.403" end
  | _ => Throw "type_error.304"
  end.

(** [if (value.contains(key) && !value.at(key).is_null()) field = value.at(key).get<A>()]
    on a field that starts empty. *)
Definition json_optional {A} (get : json -> result A) (value : json) (key : string)
    : result (option A) :=
  match member value key with
  | None | Some JNull => Ok None
  | Some x => y ← get x; Ok (Some y)
  end.

(** The same guarded by [is_object()]. *)
Definition json_optional_object {A} (from_json : json -> result A) (value : json) (key : string)
    : result (option A) :=
  match member value key with
  | Some x => if is_object x then y ← from_json x; Ok (Some y) else Ok None
  | None => Ok None
  end.

(** The same guarded by [is_array()], on a vector that starts empty. *)
Definition json_array {A} (get : json -> result (list A)) (value : json) (key : string)
    : result (list A) :=
  match member value key with
  | Some x => if is_array x then get x else Ok []
  | None => Ok []
  end.

(** An object whose optional fields are written only when present. *)
Definition present (fields : list (string * option json)) : list (string * json) :=
  omap (fun kv => pair kv.1 <$> kv.2) fields.
Definition object (fields : list (string * option json)) : json := JObject (present fields).

(** [json(std::map<std::string, A>)]. *)
Definition map_json {A} (to_json : A -> json) (m : gmap string A) : json :=
  JObject (map (fun kv => (kv.1, to_json kv.2)) (map_items m)).

(** ** What a serialised text can carry *)

(** Numbers a JSON text preserves: integers of the 64-bit types, finite doubles
    (a NaN or an infinity is written as [null]). *)
Definition json_int_ok (z : Z) : bool := (- 2 ^ 63 <=? z) && (z <? 2 ^ 64).
Definition double_ok (d : double) : bool :=
  match d with
  | S754_zero _ => true
  | S754_finite _ _ _ => valid_binary 53 1024 d
  | _ => false
  end.

Fixpoint json_ok (j : json) : bool :=
  match j with
  | JInt z => json_int_ok z
  | JDouble d => double_ok d
  | JArray items => forallb json_ok items
  | JObject fields => forallb (fun kv => json_ok kv.2) fields
  | _ => true
  end.

(** The library keeps an object in a [std::map]: a parsed object has its
    fields in key order. *)
Definition key_lt {A} (x y : string * A) : bool := klt x.1 y.1.
Fixpoint canon (j : json) : json :=
  match j with
  | JArray items => JArray (map canon items)
  | JObject fields => JObject (std_sort key_lt (map (fun kv => (kv.1, canon kv.2)) fields))
  | _ => j
  end.

(** ** Blank text *)

(** [text.find_first_not_of(" \t\r\n") == npos] *)
Fixpoint is_blank (text : string) : bool :=
  match text with
  | EmptyString => true
  | String c rest =>
      let n := Ascii.nat_of_ascii c in
      ((n =? 32)%nat || (n =? 9)%nat || (n =? 13)%nat || (n =? 10)%nat) && is_blank rest
  end.

(** ** The library's operations and laws *)

Class JsonLibrary := {
  get_int : json -> result Z;
  get_uint64 : json -> result Z;
  get_bool : json -> result bool;
  get_string : json -> result string;
  get_double : json -> result double;
  get_json : json -> result json;
  get_strings : json -> result (list string);
  get_string_map : json -> result (gmap string string);
  get_int_map : json -> result (gmap string Z);
  items : json -> list json;
  dump : json -> result string;
  parse : string -> result json;

  get_int_law : forall z, int_min <= z <= int_max -> get_int (JInt z) = Ok z;
  get_uint64_law : forall z, 0 <= z < 2 ^ 64 -> get_uint64 (JInt z) = Ok z;
  get_bool_law : forall b, get_bool (JBool b) = Ok b;
  get_string_law : forall s, get_string (JString s) = Ok s;
  get_double_law : forall d, get_double (JDouble d) = Ok d;
  get_json_law : forall j, get_json j = Ok j;
  get_strings_law : forall l, get_strings (JArray (map JString l)) = Ok l;
  get_string_map_law : forall m, get_string_map (map_json JString m) = Ok m;
  get_int_map_law : forall m, map_Forall (fun _ z => int_min <= z <= int_max) m ->
    get_int_map (map_json JInt m) = Ok m;
  items_array : forall l, items (JArray l) = l;
  parse_dump : forall j t, json_ok j = true -> dump j = Ok t -> parse t = Ok (canon j);
  parse_newline : forall t j, parse t = Ok j -> parse (t +:+ newline) = Ok j;
  parse_blank : forall t, is_blank t = true -> is_ok (parse t) = false;
}.

(** ** Lemmas *)

Lemma assoc_elem_of {A} key (fields : list (string * A)) v :
  NoDup fields.*1 -> assoc key fields = Some v <-> (key, v) ∈ fields.
Proof.
  induction fields as [|[k x] l IH]; simpl; [set_solver|].
  intros [Hn Hnd]%NoDup_cons. destruct (String.eqb_spec k key) as [->|Hne].
  - rewrite elem_of_cons. split; [intros [= ->]; by left|].
    intros [[= ->]|Hin]; [done|]. destruct Hn. by apply list_elem_of_fmap_2' with (key, v).
  - rewrite (IH Hnd), elem_of_cons. naive_solver.
Qed.

Lemma assoc_perm {A} key (l l' : list (string * A)) :
  l ≡ₚ l' -> NoDup l.*1 -> assoc key l = assoc key l'.
Proof.
  intros Hp Hnd. assert (NoDup l'.*1) as Hnd' by (by rewrite <-Hp).
  apply option_eq. intros v. by rewrite !assoc_elem_of, Hp by done.
Qed.

Lemma assoc_map {A B} (f : A -> B) key (l : list (string * A)) :
  assoc key (map (fun kv => (kv.1, f kv.2)) l) = f <$> assoc key l.
Proof. induction l as [|[k x] l IH]; simpl; [done|]. by destruct (String.eqb k key). Qed.

Lemma keys_map {A B} (f : A -> B) (l : list (string * A)) :
  (map (fun kv => (kv.1, f kv.2)) l).*1 = l.*1.
Proof. induction l as [|[k x] l IH]; simpl; [done|]. by f_equal. Qed.

(** Reading a member of a parsed object: the order of the fields is irrelevant. *)
Lemma member_canon fields key :
  NoDup fields.*1 -> member (canon (JObject fields)) key = canon <$> assoc key fields.
Proof.
  intros Hnd. simpl. rewrite (assoc_perm _ _ (map (fun kv => (kv.1, canon kv.2)) fields)).
  - apply assoc_map.
  - apply std_sort_perm.
  - by rewrite std_sort_perm, keys_map.
Qed.

Lemma json_value_canon {A} (get : json -> result A) fields key d :
  NoDup fields.*1 ->
  json_value get (canon (JObject fields)) key d =
  match assoc key fields with Some x => get (canon x) | None => Ok d end.
Proof.
  intros Hnd. pose proof (member_canon fields key Hnd) as H. simpl in *.
  rewrite H. by destruct (assoc key fields).
Qed.

Lemma canon_strings l : canon (JArray (map JString l)) = JArray (map JString l).
Proof. cbn. f_equal. rewrite map_map. by apply map_ext. Qed.

Lemma strings_json_ok l : forallb json_ok (map JString l) = true.
Proof. by induction l. Qed.

(** Reading a member of an object with optional fields. *)
Lemma assoc_present key fields :
  NoDup fields.*1 -> assoc key (present fields) = mjoin (assoc key fields).
Proof.
  induction fields as [|[k v] l IH]; intros Hnd; [done|].
  apply NoDup_cons in Hnd as [Hk Hnd]. unfold present in *. cbn. destruct v as [v|]; cbn.
  - destruct (String.eqb k key); [done | by apply IH].
  - rewrite IH by done. destruct (String.eqb_spec k key) as [->|]; [|done].
    destruct (assoc key l) as [o|] eqn:E; [|done]. destruct Hk.
    apply assoc_elem_of in E; [|done]. by apply list_elem_of_fmap_2' with (key, o).
Qed.

Lemma present_keys fields : (present fields).*1 `sublist_of` fields.*1.
Proof.
  induction fields as [|[k [v|]] l IH]; cbn; [constructor | by constructor | by constructor].
Qed.

Lemma present_NoDup fields : NoDup fields.*1 -> NoDup (present fields).*1.
Proof. intros Hnd. eapply sublist_NoDup; [done | apply present_keys]. Qed.

Lemma member_of_object fields key :
  NoDup fields.*1 -> member (canon (object fields)) key = canon <$> mjoin (assoc key fields).
Proof.
  intros Hnd. unfold object. rewrite member_canon by (by apply present_NoDup).
  by rewrite assoc_present.
Qed.

Lemma json_value_object {A} (get : json -> result A) fields key d :
  NoDup fields.*1 ->
  json_value get (canon (object fields)) key d =
  match mjoin (assoc key fields) with Some x => get (canon x) | None => Ok d end.
Proof.
  intros Hnd. unfold object. rewrite json_value_canon by (by apply present_NoDup).
  by rewrite assoc_present.
Qed.

Lemma json_at_object {A} (get : json -> result A) fields key :
  NoDup fields.*1 ->
  json_at get (canon (object fields)) key =
  match mjoin (assoc key fields) with
  | Some x => get (canon x)
  | None => Throw "out_of_range.403"
  end.
Proof.
  intros Hnd. pose proof (member_of_object fields key Hnd) as H. unfold object in *. cbn in *.
  rewrite H. by destruct (mjoin (assoc key fields)).
Qed.

Lemma json_ok_object fields :
  forallb (fun kv => from_option json_ok true kv.2) fields = true -> json_ok (object fields) = true.
Proof.
  unfold object, present. cbn. induction fields as [|[k [v|]] l IH]; cbn; [done | | done].
  intros [Hv Hl]%andb_true_iff. rewrite Hv. by apply IH.
Qed.

(** A map is already in key order. *)
Lemma canon_map_json {A} (to_json : A -> json) (m : gmap string A) :
  (forall x, canon (to_json x) = to_json x) -> canon (map_json to_json m) = map_json to_json m.
Proof.
  intros Hc. unfold map_json. cbn. f_equal. rewrite map_map. cbn.
  rewrite (map_ext _ (fun kv : string * A => (kv.1, to_json kv.2)))
    by (intros [k v]; cbn; by rewrite Hc).
  pose proof (NoDup_map_keys m) as Hnd. unfold map_keys in Hnd.
  assert (Hs : StronglySorted (not_after key_lt) (map (fun kv : string * A => (kv.1, to_json kv.2))
    (map_items m))).
  { assert (StronglySorted (not_after (fun x y : string * A => klt x.1 y.1)) (map_items m)) as H
      by (apply std_sort_sorted, swo_proj, _).
    induction H as [|x l Hl IH Hx]; cbn; constructor.
    - apply IH. cbn in Hnd. by apply NoDup_cons in Hnd as [_ Hnd].
    - apply Forall_forall. intros y (z & <- & Hz)%list_elem_of_In%in_map_iff.
      rewrite Forall_forall in Hx. apply (Hx z). by apply list_elem_of_In. }
  assert (StrictWeakOrder (key_lt (A:=json))) as Hswo.
  { exact (swo_proj (fun x : string * json => x.1) klt _). }
  apply std_sort_sorted_id; [exact Hswo | | exact Hs].
  intros x y (x' & <- & Hx)%list_elem_of_In%in_map_iff (y' & <- & Hy)%list_elem_of_In%in_map_iff.
  unfold key_lt. cbn. intros H1 H2. pose proof (klt_total (K:=string) x'.1 y'.1 H1 H2) as Hk.
  destruct x' as [k v], y' as [k' v']; cbn in *. subst k'.
  apply list_elem_of_In in Hx, Hy.
  apply elem_of_map_items in Hx, Hy. rewrite Hx in Hy. by injection Hy as ->.
Qed.

Lemma is_object_canon j : is_object (canon j) = is_object j.
Proof. by destruct j. Qed.

(** ** A concrete library *)

(** A text form good enough to show that the laws can hold together: the bits of
    an injective numbering of the trees, as characters. *)
Fixpoint bits_text (p : positive) : string :=
  match p with
  | xH => ""
  | xO q => String "0"%char (bits_text q)
  | xI q => String "1"%char (bits_text q)
  end.
Fixpoint text_bits (s : string) : positive :=
  match s with
  | EmptyString => xH
  | String c s' =>
      if Ascii.eqb c "0"%char then xO (text_bits s')
      else if Ascii.eqb c "1"%char then xI (text_bits s') else xH
  end.

Lemma text_bits_text p : text_bits (bits_text p) = p.
Proof. induction p as [p IH|p IH|]; cbn; [by rewrite IH | by rewrite IH | done]. Qed.
Lemma text_bits_newline s : text_bits (s +:+ newline) = text_bits s.
Proof.
  induction s as [|c s IH]; [done|]. change (String c s +:+ newline) with (String c (s +:+ newline)).
  cbn [text_bits]. by rewrite IH.
Qed.

Definition leaf : Type := unit + (bool + (Z + ((bool * positive * Z) + (bool + string)))).

Definition double_code (d : double) : option (bool * positive * Z) :=
  match d with
  | S754_finite s m e => Some (s, m, e)
  | _ => None
  end.

Fixpoint json_tree (j : json) : gen_tree leaf :=
  match j with
  | JNull => GenLeaf (inl ())
  | JBool b => GenLeaf (inr (inl b))
  | JInt z => GenLeaf (inr (inr (inl z)))
  | JDouble d =>
      match double_code d with
      | Some c => GenLeaf (inr (inr (inr (inl c))))
      | None => GenLeaf (inr (inr (inr (inr (inl (match d with S754_zero s => s | _ => false end))))))
      end
  | JString s => GenLeaf (inr (inr (inr (inr (inr s)))))
  | JArray l => GenNode 0 (map json_tree l)
  | JObject fields =>
      GenNode 1 (map (fun kv => GenNode 2 [GenLeaf (inr (inr (inr (inr (inr kv.1))))); json_tree kv.2])
                   fields)
  end.

Fixpoint tree_value (t : gen_tree leaf) : json :=
  match t with
  | GenLeaf (inl _) => JNull
  | GenLeaf (inr (inl b)) => JBool b
  | GenLeaf (inr (inr (inl z))) => JInt z
  | GenLeaf (inr (inr (inr (inl c)))) => JDouble (S754_finite c.1.1 c.1.2 c.2)
  | GenLeaf (inr (inr (inr (inr (inl s))))) => JDouble (S754_zero s)
  | GenLeaf (inr (inr (inr (inr (inr s))))) => JString s
  | GenNode 0 l => JArray (map tree_value l)
  | GenNode _ l =>
      JObject (map (fun t => match t with
                             | GenNode _ [GenLeaf (inr (inr (inr (inr (inr k))))); v] => (k, tree_value v)
                             | _ => ("", JNull)
                             end) l)
  end.

Section json_induction.
Context (P : json -> Prop)
  (Hnull : P JNull) (Hbool : forall b, P (JBool b)) (Hint : forall z, P (JInt z))
  (Hdouble : forall d, P (JDouble d)) (Hstring : forall s, P (JString s))
  (Harray : forall l, Forall P l -> P (JArray l))
  (Hobject : forall l, Forall (fun kv => P kv.2) l -> P (JObject l)).
Fixpoint json_ind' (j : json) : P j :=
  match j with
  | JNull => Hnull
  | JBool b => Hbool b
  | JInt z => Hint z
  | JDouble d => Hdouble d
  | JString s => Hstring s
  | JArray l => Harray l ((fix go l : Forall P l :=
      match l with [] => Forall_nil_2 _ | x :: l' => Forall_cons_2 _ _ _ (json_ind' x) (go l') end) l)
  | JObject l => Hobject l ((fix go (l : list (string * json)) : Forall (fun kv => P kv.2) l :=
      match l with
      | [] => Forall_nil_2 _
      | x :: l' => Forall_cons_2 _ _ _ (json_ind' x.2) (go l')
      end) l)
  end.
End json_induction.

Lemma tree_value_tree j : json_ok j = true -> tree_value (json_tree j) = j.
Proof.
  induction j as [| | |d| |l IH|l IH] using json_ind'; cbn; intros Hok; try done.
  - by destruct d.
  - f_equal. rewrite map_map. rewrite forallb_forall in Hok. rewrite Forall_forall in IH.
    rewrite <-(map_id l) at 2. apply map_ext_in. intros x Hx.
    apply IH; [by apply list_elem_of_In | auto].
  - f_equal. rewrite map_map. rewrite forallb_forall in Hok. rewrite Forall_forall in IH.
    rewrite <-(map_id l) at 2. apply map_ext_in. intros [k x] Hx. cbn. f_equal.
    apply (IH (k, x)); [by apply list_elem_of_In | by apply (Hok (k, x))].
Qed.

Definition tree_strings (j : json) : result (list string) :=
  match j with
  | JArray l => mapR (fun x => match x with JString s => Ok s | _ => Throw "type_error.302" end) l
  | _ => Throw "type_error.302"
  end.

Lemma tree_strings_array l : tree_strings (JArray (map JString l)) = Ok l.
Proof.
  cbn. apply mapR_Forall2. induction l; cbn; constructor; auto.
Qed.

(** Reading a map back from its object. *)
Definition tree_map {A} (get : json -> result A) (j : json) : result (gmap string A) :=
  match j with
  | JObject fields =>
      l ← mapR (fun kv => v ← get kv.2; Ok (kv.1, v)) fields;
      Ok (list_to_map l)
  | _ => Throw "type_error.302"
  end.

Lemma tree_map_law {A} (to_json : A -> json) (get : json -> result A) m :
  (forall x, get (to_json x) = Ok x) -> tree_map get (map_json to_json m) = Ok m.
Proof.
  intros Hg. unfold tree_map, map_json.
  assert (mapR (fun kv => v ← get kv.2; Ok (kv.1, v))
            (map (fun kv : string * A => (kv.1, to_json kv.2)) (map_items m)) = Ok (map_items m)) as ->.
  { apply mapR_Forall2. induction (map_items m) as [|[k v] l IH]; cbn; constructor; [|done].
    cbn. by rewrite Hg. }
  cbn. f_equal. unfold map_items. apply map_eq. intros k. apply option_eq. intros v.
  rewrite <-elem_of_list_to_map.
  - by rewrite elem_of_std_sort, elem_of_map_to_list.
  - rewrite std_sort_perm. apply NoDup_fst_map_to_list.
Qed.

Definition tree_parse (t : string) : result json :=
  match t with
  | String "j" bits =>
      match decode (A:=gen_tree leaf) (text_bits bits) with
      | Some tree => Ok (canon (tree_value tree))
      | None => Throw "parse_error.101"
      end
  | _ => Throw "parse_error.101"
  end.
Definition tree_dump (j : json) : result string :=
  Ok (String "j" (bits_text (encode (json_tree j)))).

Lemma tree_parse_dump j t : json_ok j = true -> tree_dump j = Ok t -> tree_parse t = Ok (canon j).
Proof.
  unfold tree_dump, tree_parse. intros Hok [= <-].
  by rewrite text_bits_text, decode_encode, tree_value_tree.
Qed.

Lemma tree_parse_newline t j : tree_parse t = Ok j -> tree_parse (t +:+ newline) = Ok j.
Proof.
  unfold tree_parse. destruct t as [|c t]; [done|].
  change (String c t +:+ newline) with (String c (t +:+ newline)).
  destruct c as [[] [] [] [] [] [] [] []]; try done. by rewrite text_bits_newline.
Qed.

Lemma tree_parse_blank t : is_blank t = true -> tree_parse t = Throw "parse_error.101".
Proof. destruct t as [|[[] [] [] [] [] [] [] []] t]; done. Qed.

Definition tree_json : JsonLibrary.
Proof.
  refine {|
    get_int j := match j with JInt z => Ok z | _ => Throw "type_error.302" end;
    get_uint64 j := match j with JInt z => Ok z | _ => Throw "type_error.302" end;
    get_bool j := match j with JBool b => Ok b | _ => Throw "type_error.302" end;
    get_string j := match j with JString s => Ok s | _ => Throw "type_error.302" end;
    get_double j := match j with JDouble d => Ok d | _ => Throw "type_error.302" end;
    get_json j := Ok j;
    get_strings := tree_strings;
    get_string_map := tree_map (fun j => match j with JString s => Ok s | _ => Throw "type_error.302" end);
    get_int_map := tree_map (fun j => match j with JInt z => Ok z | _ => Throw "type_error.302" end);
    items j := match j with JArray l => l | JObject fields => fields.*2 | JNull => [] | _ => [j] end;
    dump := tree_dump;
    parse := tree_parse;
    get_strings_law := tree_strings_array;
    get_string_map_law m := tree_map_law JString _ m (fun _ => eq_refl);
    get_int_map_law m _ := tree_map_law JInt _ m (fun _ => eq_refl);
    parse_dump := tree_parse_dump;
    parse_newline := tree_parse_newline;
  |}; try done.
  intros t Ht. by rewrite tree_parse_blank.
Defined.
