(* ===== verification/Models.v ===== *)
(** * The shared state model

    The types of [common/include/naim/state/models.h]: instance roles, disks,
    node inventories, inference settings, worker groups and the desired state of
    a plane, with the inline predicates of that header and the enum codecs of
    [common/src/planning/planner.cpp].

    Enumerations keep the constructors of the source; structs are records whose
    fields carry a short prefix (C++ structs share field names, Rocq projections
    cannot).  [std::map] is [gmap], [std::vector] is [list], [std::optional] is
    [option], [int] is [Z] and [double] is binary64. *)

From S2P Require Import Prelude Binary64.

(** ** Enumerations *)

Inductive InstanceRole :=
  | Infer | Worker | App | Skills | Browsing | Interaction | VoiceModule | VoiceMaker.

Inductive DiskKind :=
  | PlaneShared | InferPrivate | WorkerPrivate | AppPrivate | SkillsPrivate
  | BrowsingPrivate | InteractionPrivate | VoiceModulePrivate | VoiceMakerPrivate.

Inductive GpuShareMode := Exclusive | Shared | BestEffort.
Inductive PlacementMode := Manual | Auto | Movable.
Inductive PlaneMode := Compute | Llm.
Inductive HostExecutionMode := InferOnly | WorkerOnly | Mixed.

#[export] Instance InstanceRole_eq_dec : EqDecision InstanceRole.
Proof. solve_decision. Defined.
#[export] Instance DiskKind_eq_dec : EqDecision DiskKind.
Proof. solve_decision. Defined.
#[export] Instance GpuShareMode_eq_dec : EqDecision GpuShareMode.
Proof. solve_decision. Defined.
#[export] Instance PlacementMode_eq_dec : EqDecision PlacementMode.
Proof. solve_decision. Defined.
#[export] Instance PlaneMode_eq_dec : EqDecision PlaneMode.
Proof. solve_decision. Defined.
#[export] Instance HostExecutionMode_eq_dec : EqDecision HostExecutionMode.
Proof. solve_decision. Defined.

Definition IsPrivateDiskKind (kind : DiskKind) : bool :=
  (kind ==? InferPrivate) || (kind ==? WorkerPrivate) || (kind ==? AppPrivate) ||
  (kind ==? SkillsPrivate) || (kind ==? BrowsingPrivate) || (kind ==? InteractionPrivate) ||
  (kind ==? VoiceModulePrivate) || (kind ==? VoiceMakerPrivate).

Definition IsNodeLocalDiskKind (kind : DiskKind) : bool := IsPrivateDiskKind kind.

Definition InstanceNeedsSharedDiskMount (role : InstanceRole) : bool :=
  (role ==? Infer) || (role ==? Worker) || (role ==? App) || (role ==? Skills) ||
  (role ==? Browsing) || (role ==? Interaction) || (role ==? VoiceModule) ||
  (role ==? VoiceMaker).

Definition InstanceNeedsPrivateDisk (role : InstanceRole) : bool :=
  (role ==? Worker) || (role ==? App) || (role ==? Skills) || (role ==? Browsing) ||
  (role ==? Interaction) || (role ==? VoiceModule) || (role ==? VoiceMaker).

(** ** Structs *)

Record PublishedPort := mkPublishedPort {
  port_host_ip : string;
  port_host_port : Z;
  port_container_port : Z;
}.
#[export] Instance PublishedPort_eq_dec : EqDecision PublishedPort.
Proof. solve_decision. Defined.

Record DiskSpec := mkDiskSpec {
  disk_name : string;
  disk_kind : DiskKind;
  disk_plane_name : string;
  disk_owner_name : string;
  disk_node_name : string;
  disk_host_path : string;
  disk_container_path : string;
  disk_size_gb : Z;
}.
#[export] Instance DiskSpec_eq_dec : EqDecision DiskSpec.
Proof. solve_decision. Defined.

Record AppModelMountSpec := mkAppModelMountSpec {
  mount_name : string;
  mount_source_path : string;
  mount_source_node_name : string;
  mount_source_paths : list string;
  mount_host_path : string;
  mount_mount_path : string;
  mount_env_var : string;
  mount_required : bool;
}.
#[export] Instance AppModelMountSpec_eq_dec : EqDecision AppModelMountSpec.
Proof. solve_decision. Defined.

Record InstanceSpec := mkInstanceSpec {
  inst_name : string;
  inst_role : InstanceRole;
  inst_plane_name : string;
  inst_node_name : string;
  inst_image : string;
  inst_command : string;
  inst_private_disk_name : string;
  inst_shared_disk_name : string;
  inst_depends_on : list string;
  inst_environment : gmap string string;
  inst_labels : gmap string string;
  inst_published_ports : list PublishedPort;
  inst_gpu_device : option string;
  inst_placement_mode : PlacementMode;
  inst_share_mode : GpuShareMode;
  inst_gpu_fraction : double;
  inst_priority : Z;
  inst_preemptible : bool;
  inst_memory_cap_mb : option Z;
  inst_private_disk_size_gb : Z;
  inst_app_model_mounts : list AppModelMountSpec;
}.
#[export] Instance InstanceSpec_eq_dec : EqDecision InstanceSpec.
Proof. solve_decision. Defined.

Record NodeInventory := mkNodeInventory {
  node_name : string;
  node_platform : string;
  node_execution_mode : HostExecutionMode;
  node_gpu_devices : list string;
  node_gpu_memory_mb : gmap string Z;
}.
#[export] Instance NodeInventory_eq_dec : EqDecision NodeInventory.
Proof. solve_decision. Defined.

Definition EffectiveNodeGpuDevices (node : NodeInventory) : list string :=
  let devices := map_keys (node_gpu_memory_mb node) in
  let devices :=
    foldl (fun devices gpu_device =>
             if any_of (fun d => d ==? gpu_device) devices then devices
             else devices ++ [gpu_device])
          devices (node_gpu_devices node) in
  std_sort klt devices.

Definition NodeHasConfiguredGpuDevices (node : NodeInventory) : bool :=
  negb (vec_empty (EffectiveNodeGpuDevices node)).

Record RuntimeGpuNode := mkRuntimeGpuNode {
  gpun_name : string;
  gpun_node_name : string;
  gpun_gpu_device : string;
  gpun_placement_mode : PlacementMode;
  gpun_share_mode : GpuShareMode;
  gpun_gpu_fraction : double;
  gpun_priority : Z;
  gpun_preemptible : bool;
  gpun_memory_cap_mb : option Z;
  gpun_enabled : bool;
}.
#[export] Instance RuntimeGpuNode_eq_dec : EqDecision RuntimeGpuNode.
Proof. solve_decision. Defined.

Record InferenceRuntimeSettings := mkInferenceRuntimeSettings {
  inf_primary_infer_node : string;
  inf_runtime_engine : string;
  inf_data_parallel_mode : string;
  inf_data_parallel_lb_mode : string;
  inf_api_server_count : Z;
  inf_worker_group_id : string;
  inf_distributed_backend : string;
  inf_worker_selection_policy : string;
  inf_net_if : string;
  inf_models_root : string;
  inf_model_cache_dir : string;
  inf_runtime_log_dir : string;
  inf_api_port : Z;
  inf_max_model_len : Z;
  inf_tensor_parallel_size : Z;
  inf_pipeline_parallel_size : Z;
  inf_max_num_seqs : Z;
  inf_gpu_memory_utilization : double;
  inf_enforce_eager : bool;
  inf_gguf_cache_dir : string;
  inf_infer_log_dir : string;
  inf_llama_port : Z;
  inf_llama_ctx_size : Z;
  inf_llama_threads : Z;
  inf_llama_gpu_layers : Z;
  inf_inference_healthcheck_retries : Z;
  inf_inference_healthcheck_interval_sec : Z;
  inf_rendezvous_port : Z;
}.

(** The literal [0.9]. *)
Definition d0_9 : double := SpecFloat.S754_finite false 8106479329266893 (-53).

(** The member initialisers of [InferenceRuntimeSettings]. *)
Definition InferenceRuntimeSettings_default : InferenceRuntimeSettings :=
  {| inf_primary_infer_node := "";
     inf_runtime_engine := "llama.cpp";
     inf_data_parallel_mode := "off";
     inf_data_parallel_lb_mode := "external";
     inf_api_server_count := 0;
     inf_worker_group_id := "";
     inf_distributed_backend := "llama_rpc";
     inf_worker_selection_policy := "prefer-free-then-share";
     inf_net_if := "eth0";
     inf_models_root := "/naim/shared/models";
     inf_model_cache_dir := "/naim/shared/models/cache";
     inf_runtime_log_dir := "/naim/shared/logs/infer";
     inf_api_port := 8000;
     inf_max_model_len := 8192;
     inf_tensor_parallel_size := 1;
     inf_pipeline_parallel_size := 1;
     inf_max_num_seqs := 16;
     inf_gpu_memory_utilization := d0_9;
     inf_enforce_eager := false;
     inf_gguf_cache_dir := "/naim/shared/models/gguf";
     inf_infer_log_dir := "/naim/shared/logs/infer";
     inf_llama_port := 8000;
     inf_llama_ctx_size := 8192;
     inf_llama_threads := 8;
     inf_llama_gpu_layers := 99;
     inf_inference_healthcheck_retries := 300;
     inf_inference_healthcheck_interval_sec := 5;
     inf_rendezvous_port := 29500 |}.

Record WorkerGroupMemberSpec := mkWorkerGroupMemberSpec {
  wgm_name : string;
  wgm_infer_instance_name : string;
  wgm_node_name : string;
  wgm_gpu_device : string;
  wgm_rpc_port : Z;
  wgm_rank : Z;
  wgm_replica_group_id : string;
  wgm_replica_index : Z;
  wgm_replica_size : Z;
  wgm_replica_leader : bool;
  wgm_data_parallel_rank : Z;
  wgm_data_parallel_size : Z;
  wgm_data_parallel_size_local : Z;
  wgm_data_parallel_start_rank : Z;
  wgm_data_parallel_api_endpoint : bool;
  wgm_data_parallel_head_address : string;
  wgm_data_parallel_rpc_port : Z;
  wgm_gpu_fraction : double;
  wgm_share_mode : GpuShareMode;
  wgm_priority : Z;
  wgm_preemptible : bool;
  wgm_memory_cap_mb : option Z;
  wgm_enabled : bool;
  wgm_leader : bool;
}.

Record WorkerGroupSpec := mkWorkerGroupSpec {
  wg_group_id : string;
  wg_infer_instance_name : string;
  wg_distributed_backend : string;
  wg_rendezvous_host : string;
  wg_rendezvous_port : Z;
  wg_expected_workers : Z;
  wg_worker_selection_policy : string;
  wg_members : list WorkerGroupMemberSpec;
}.

Record GatewaySettings := mkGatewaySettings {
  gw_listen_host : string;
  gw_listen_port : Z;
  gw_server_name : string;
}.

Record BootstrapModelSpec := mkBootstrapModelSpec {
  boot_model_id : string;
  boot_served_model_name : option string;
  boot_materialization_mode : string;
  boot_local_path : option string;
  boot_source_node_name : option string;
  boot_source_paths : list string;
  boot_source_format : option string;
  boot_source_quantization : option string;
  boot_desired_output_format : option string;
  boot_quantization : option string;
  boot_keep_source : bool;
  boot_writeback_enabled : bool;
  boot_writeback_if_missing : bool;
  boot_writeback_target_node_name : option string;
  boot_source_url : option string;
  boot_source_urls : list string;
  boot_target_filename : option string;
  boot_sha256 : option string;
}.

Record CompletionPolicy := mkCompletionPolicy {
  cp_response_mode : string;
  cp_max_tokens : Z;
  cp_target_completion_tokens : option Z;
  cp_max_continuations : Z;
  cp_max_total_completion_tokens : Z;
  cp_max_elapsed_time_ms : Z;
  cp_semantic_goal : option string;
}.

Record InteractionSettings := mkInteractionSettings {
  ia_image : option string;
  ia_system_prompt : option string;
  ia_analysis_system_prompt : option string;
  ia_thinking_enabled : bool;
  ia_default_temperature : option double;
  ia_default_top_p : option double;
  ia_default_response_language : string;
  ia_supported_response_languages : list string;
  ia_follow_user_language : bool;
  ia_completion_policy : option CompletionPolicy;
  ia_long_completion_policy : option CompletionPolicy;
  ia_analysis_completion_policy : option CompletionPolicy;
  ia_analysis_long_completion_policy : option CompletionPolicy;
}.

Record SkillsSettings := mkSkillsSettings {
  sk_enabled : bool;
  sk_factory_skill_ids : list string;
}.

Record BrowsingPolicySettings := mkBrowsingPolicySettings {
  bp_cef_enabled : bool;
  bp_browser_session_enabled : bool;
  bp_rendered_browser_enabled : bool;
  bp_login_enabled : bool;
  bp_allowed_domains : list string;
  bp_blocked_domains : list string;
  bp_blocked_targets : list string;
  bp_response_review_enabled : bool;
  bp_policy_version : string;
  bp_max_search_results : Z;
  bp_max_fetch_bytes : Z;
}.

Record BrowsingSettings := mkBrowsingSettings {
  br_enabled : bool;
  br_policy : option BrowsingPolicySettings;
}.

Record KnowledgeContextPolicySettings := mkKnowledgeContextPolicySettings {
  kcp_include_graph : bool;
  kcp_max_graph_depth : Z;
  kcp_token_budget : Z;
}.

Record KnowledgeSettings := mkKnowledgeSettings {
  kn_enabled : bool;
  kn_service_id : string;
  kn_selection_mode : string;
  kn_selected_knowledge_ids : list string;
  kn_context_policy : KnowledgeContextPolicySettings;
}.

Record TurboQuantFeatureSpec := mkTurboQuantFeatureSpec {
  tq_enabled : bool;
  tq_cache_type_k : option string;
  tq_cache_type_v : option string;
}.

Record ContextCompressionFeatureSpec := mkContextCompressionFeatureSpec {
  cc_enabled : bool;
  cc_mode : string;
  cc_target : string;
  cc_memory_priority : string;
}.

Record VoiceListenerFeatureSpec := mkVoiceListenerFeatureSpec {
  vl_enabled : bool;
  vl_wake_phrase : string;
  vl_language : string;
  vl_model : AppModelMountSpec;
  vl_image : option string;
}.

Record VoiceMakerFeatureSpec := mkVoiceMakerFeatureSpec {
  vm_enabled : bool;
  vm_language : string;
  vm_voice_mode : string;
  vm_instruct : string;
  vm_output_format : string;
  vm_model : AppModelMountSpec;
  vm_image : option string;
}.

Record SecuredConnectionFeatureSpec := mkSecuredConnectionFeatureSpec {
  sc_enabled : bool;
  sc_user_ids : list string;
}.

Record ExternalAppHostConfig := mkExternalAppHostConfig {
  ah_address : string;
  ah_ssh_key_path : option string;
  ah_username : option string;
  ah_password : option string;
}.

Record DesiredState := mkDesiredState {
  ds_plane_name : string;
  ds_plane_shared_disk_name : string;
  ds_control_root : string;
  ds_plane_mode : PlaneMode;
  ds_protected_plane : bool;
  ds_post_deploy_script : option string;
  ds_placement_target : option string;
  ds_bootstrap_model : option BootstrapModelSpec;
  ds_interaction : option InteractionSettings;
  ds_skills : option SkillsSettings;
  ds_browsing : option BrowsingSettings;
  ds_knowledge : option KnowledgeSettings;
  ds_turboquant : option TurboQuantFeatureSpec;
  ds_context_compression : option ContextCompressionFeatureSpec;
  ds_voice_listener : option VoiceListenerFeatureSpec;
  ds_voice_maker : option VoiceMakerFeatureSpec;
  ds_secured_connection : option SecuredConnectionFeatureSpec;
  ds_app_host : option ExternalAppHostConfig;
  ds_inference : InferenceRuntimeSettings;
  ds_worker_group : WorkerGroupSpec;
  ds_gateway : GatewaySettings;
  ds_runtime_gpu_nodes : list RuntimeGpuNode;
  ds_nodes : list NodeInventory;
  ds_disks : list DiskSpec;
  ds_instances : list InstanceSpec;
}.

Record ComposeVolume := mkComposeVolume {
  vol_source : string;
  vol_target : string;
  vol_read_only : bool;
}.

Record ComposeService := mkComposeService {
  svc_name : string;
  svc_image : string;
  svc_command : string;
  svc_depends_on : list string;
  svc_environment : gmap string string;
  svc_labels : gmap string string;
  svc_volumes : list ComposeVolume;
  svc_published_ports : list PublishedPort;
  svc_extra_hosts : list string;
  svc_security_opts : list string;
  svc_privileged : bool;
  svc_use_nvidia_runtime : bool;
  svc_gpu_device : option string;
  svc_gpu_devices : list string;
  svc_shm_size : option string;
  svc_healthcheck : string;
}.

Record NodeComposePlan := mkNodeComposePlan {
  ncp_plane_name : string;
  ncp_node_name : string;
  ncp_disks : list DiskSpec;
  ncp_services : list ComposeService;
}.

(** The member initialisers of the remaining structs a [DesiredState] holds. *)
Definition WorkerGroupSpec_default : WorkerGroupSpec :=
  {| wg_group_id := ""; wg_infer_instance_name := ""; wg_distributed_backend := "llama_rpc";
     wg_rendezvous_host := ""; wg_rendezvous_port := 29500; wg_expected_workers := 0;
     wg_worker_selection_policy := "prefer-free-then-share"; wg_members := [] |}.

Definition GatewaySettings_default : GatewaySettings :=
  {| gw_listen_host := "0.0.0.0"; gw_listen_port := 80; gw_server_name := "_" |}.

Definition DesiredState_default : DesiredState :=
  {| ds_plane_name := ""; ds_plane_shared_disk_name := ""; ds_control_root := "";
     ds_plane_mode := Compute; ds_protected_plane := false; ds_post_deploy_script := None;
     ds_placement_target := None; ds_bootstrap_model := None; ds_interaction := None;
     ds_skills := None; ds_browsing := None; ds_knowledge := None; ds_turboquant := None;
     ds_context_compression := None; ds_voice_listener := None; ds_voice_maker := None;
     ds_secured_connection := None; ds_app_host := None;
     ds_inference := InferenceRuntimeSettings_default;
     ds_worker_group := WorkerGroupSpec_default; ds_gateway := GatewaySettings_default;
     ds_runtime_gpu_nodes := []; ds_nodes := []; ds_disks := []; ds_instances := [] |}.

(** ** Enum codecs *)

Definition InstanceRole_ToString (role : InstanceRole) : string :=
  match role with
  | Infer => "infer" | Worker => "worker" | App => "app" | Skills => "skills"
  | Browsing => "webgateway" | Interaction => "interaction"
  | VoiceModule => "voice-module" | VoiceMaker => "voice-maker"
  end.

Definition DiskKind_ToString (kind : DiskKind) : string :=
  match kind with
  | PlaneShared => "plane-shared" | InferPrivate => "infer-private"
  | WorkerPrivate => "worker-private" | AppPrivate => "app-private"
  | SkillsPrivate => "skills-private" | BrowsingPrivate => "webgateway-private"
  | InteractionPrivate => "interaction-private" | VoiceModulePrivate => "voice-module-private"
  | VoiceMakerPrivate => "voice-maker-private"
  end.

Definition GpuShareMode_ToString (mode : GpuShareMode) : string :=
  match mode with Exclusive => "exclusive" | Shared => "shared" | BestEffort => "best-effort" end.

Definition ParseGpuShareMode (value : string) : result GpuShareMode :=
  if value ==? "exclusive" then Ok Exclusive
  else if value ==? "shared" then Ok Shared
  else if value ==? "best-effort" then Ok BestEffort
  else Throw ("unknown gpu share mode '" +:+ value +:+ "'").

Definition PlacementMode_ToString (mode : PlacementMode) : string :=
  match mode with Manual => "manual" | Auto => "auto" | Movable => "movable" end.

Definition ParsePlacementMode (value : string) : result PlacementMode :=
  if value ==? "manual" then Ok Manual
  else if value ==? "auto" then Ok Auto
  else if value ==? "movable" then Ok Movable
  else Throw ("unknown placement mode '" +:+ value +:+ "'").

Definition PlaneMode_ToString (mode : PlaneMode) : string :=
  match mode with Compute => "compute" | Llm => "llm" end.

Definition ParsePlaneMode (value : string) : result PlaneMode :=
  if (value ==? "compute") || str_empty value then Ok Compute
  else if value ==? "llm" then Ok Llm
  else Throw ("unknown plane mode '" +:+ value +:+ "'").

Definition HostExecutionMode_ToString (mode : HostExecutionMode) : string :=
  match mode with InferOnly => "infer-only" | WorkerOnly => "worker-only" | Mixed => "mixed" end.

Definition ParseHostExecutionMode (value : string) : result HostExecutionMode :=
  if value ==? "infer-only" then Ok InferOnly
  else if value ==? "worker-only" then Ok WorkerOnly
  else if (value ==? "mixed") || str_empty value then Ok Mixed
  else Throw ("unknown host execution mode '" +:+ value +:+ "'").

(** ** Properties *)

(** Every enum that the controller persists as text reads back as itself. *)
Theorem mode_codecs_roundtrip :
  (forall m, ParseGpuShareMode (GpuShareMode_ToString m) = Ok m) /\
  (forall m, ParsePlacementMode (PlacementMode_ToString m) = Ok m) /\
  (forall m, ParsePlaneMode (PlaneMode_ToString m) = Ok m) /\
  (forall m, ParseHostExecutionMode (HostExecutionMode_ToString m) = Ok m).
Proof. repeat split; intros []; reflexivity. Qed.

#[export] Instance DiskKind_ToString_inj : Inj (=) (=) DiskKind_ToString.
Proof. intros [] []; done. Qed.
#[export] Instance InstanceRole_ToString_inj : Inj (=) (=) InstanceRole_ToString.
Proof. intros [] []; done. Qed.

Lemma effective_devices_fold_elem (l devices : list string) d :
  d ∈ foldl (fun devices gpu_device =>
               if any_of (fun d => d ==? gpu_device) devices then devices
               else devices ++ [gpu_device]) devices l
  <-> d ∈ devices \/ d ∈ l.
Proof.
  revert devices. induction l as [|x l IH]; intros devices; simpl; [set_solver|].
  rewrite IH. destruct (any_of _ _) eqn:E; [|set_solver].
  apply any_of_true in E as (y & Hy & ->%eqb_true). set_solver.
Qed.

Lemma effective_devices_fold_NoDup (l devices : list string) :
  NoDup devices ->
  NoDup (foldl (fun devices gpu_device =>
                  if any_of (fun d => d ==? gpu_device) devices then devices
                  else devices ++ [gpu_device]) devices l).
Proof.
  revert devices. induction l as [|x l IH]; intros devices Hnd; simpl; [done|].
  apply IH. destruct (any_of _ _) eqn:E; [done|].
  apply NoDup_app. repeat split; [done | | apply NoDup_singleton].
  intros y Hy ->%list_elem_of_singleton. rewrite any_of_false in E.
  specialize (E _ Hy). by rewrite eqb_refl in E.
Qed.

Lemma elem_of_effective_devices node d :
  d ∈ EffectiveNodeGpuDevices node <->
  is_Some (node_gpu_memory_mb node !! d) \/ d ∈ node_gpu_devices node.
Proof.
  unfold EffectiveNodeGpuDevices.
  by rewrite elem_of_std_sort, effective_devices_fold_elem, elem_of_map_keys.
Qed.

Lemma effective_devices_NoDup node : NoDup (EffectiveNodeGpuDevices node).
Proof.
  unfold EffectiveNodeGpuDevices. rewrite std_sort_perm.
  apply effective_devices_fold_NoDup, NoDup_map_keys.
Qed.

(** The effective GPU list of a node is sorted, free of duplicates, and
    holds exactly the devices named by the memory map or the device list. *)
Theorem effective_devices_spec node :
  StronglySorted (not_after klt) (EffectiveNodeGpuDevices node) /\
  NoDup (EffectiveNodeGpuDevices node) /\
  (forall d, d ∈ EffectiveNodeGpuDevices node <->
             is_Some (node_gpu_memory_mb node !! d) \/ d ∈ node_gpu_devices node).
Proof.
  split; [apply std_sort_sorted, _ | split].
  - apply effective_devices_NoDup.
  - intros d. apply elem_of_effective_devices.
Qed.
