(* ===== verification/Fixtures.v ===== *)
(** * Concrete inputs

    Small planes on which the witnesses of the component files evaluate the
    definitions: builders for instances, nodes and disks, and one two-node plane
    with an infer instance and three GPU workers. *)

From S2P Require Import Prelude Binary64 Models.

Definition fx_instance (name : string) (role : InstanceRole) (node shared_disk : string)
    (gpu : option string) (share : GpuShareMode) (fraction : double) (priority : Z)
    (preemptible : bool) (memory : option Z) : InstanceSpec :=
  {| inst_name := name; inst_role := role; inst_plane_name := "demo"; inst_node_name := node;
     inst_image := "naim/runtime:dev"; inst_command := "run"; inst_private_disk_name := "";
     inst_shared_disk_name := shared_disk; inst_depends_on := [];
     inst_environment := ∅; inst_labels := ∅; inst_published_ports := [];
     inst_gpu_device := gpu; inst_placement_mode := Auto; inst_share_mode := share;
     inst_gpu_fraction := fraction; inst_priority := priority; inst_preemptible := preemptible;
     inst_memory_cap_mb := memory; inst_private_disk_size_gb := 0; inst_app_model_mounts := [] |}.

Definition fx_with_ports (ports : list PublishedPort) (env : gmap string string)
    (i : InstanceSpec) : InstanceSpec :=
  {| inst_name := inst_name i; inst_role := inst_role i; inst_plane_name := inst_plane_name i;
     inst_node_name := inst_node_name i; inst_image := inst_image i;
     inst_command := inst_command i; inst_private_disk_name := inst_private_disk_name i;
     inst_shared_disk_name := inst_shared_disk_name i; inst_depends_on := inst_depends_on i;
     inst_environment := env; inst_labels := inst_labels i; inst_published_ports := ports;
     inst_gpu_device := inst_gpu_device i; inst_placement_mode := inst_placement_mode i;
     inst_share_mode := inst_share_mode i; inst_gpu_fraction := inst_gpu_fraction i;
     inst_priority := inst_priority i; inst_preemptible := inst_preemptible i;
     inst_memory_cap_mb := inst_memory_cap_mb i;
     inst_private_disk_size_gb := inst_private_disk_size_gb i;
     inst_app_model_mounts := inst_app_model_mounts i |}.

Definition fx_disk (name node path : string) (size : Z) : DiskSpec :=
  {| disk_name := name; disk_kind := PlaneShared; disk_plane_name := "demo";
     disk_owner_name := "demo"; disk_node_name := node; disk_host_path := path;
     disk_container_path := "/naim/shared"; disk_size_gb := size |}.

Definition fx_node (name : string) (memory : gmap string Z) : NodeInventory :=
  {| node_name := name; node_platform := "linux"; node_execution_mode := Mixed;
     node_gpu_devices := []; node_gpu_memory_mb := memory |}.

Definition fx_state (nodes : list NodeInventory) (disks : list DiskSpec)
    (instances : list InstanceSpec) : DesiredState :=
  {| ds_plane_name := "demo"; ds_plane_shared_disk_name := "shared";
     ds_control_root := "/naim/shared/control/demo"; ds_plane_mode := Llm;
     ds_protected_plane := false; ds_post_deploy_script := None;
     ds_placement_target := None; ds_bootstrap_model := None; ds_interaction := None;
     ds_skills := None; ds_browsing := None; ds_knowledge := None; ds_turboquant := None;
     ds_context_compression := None; ds_voice_listener := None; ds_voice_maker := None;
     ds_secured_connection := None; ds_app_host := None;
     ds_inference := InferenceRuntimeSettings_default;
     ds_worker_group := WorkerGroupSpec_default; ds_gateway := GatewaySettings_default;
     ds_runtime_gpu_nodes := []; ds_nodes := nodes; ds_disks := disks;
     ds_instances := instances |}.

(** The literal [0.5]. *)
Definition d0_5 : double := SpecFloat.S754_finite false 4503599627370496 (-53).

(** The literal [0.25]. *)
Definition d0_25 : double := SpecFloat.S754_finite false 4503599627370496 (-54).

Definition fx_nodes : list NodeInventory :=
  [fx_node "node-a" (<["0" := 24576]> (<["1" := 24576]> ∅));
   fx_node "node-b" (<["0" := 24576]> ∅)].
Definition fx_disks : list DiskSpec :=
  [fx_disk "shared" "node-a" "/var/naim/a" 100; fx_disk "shared" "node-b" "/var/naim/b" 100].

Definition fx_infer : InstanceSpec :=
  fx_with_ports [mkPublishedPort "0.0.0.0" 8000 8000; mkPublishedPort "0.0.0.0" 9000 9000]
    (<["NAIM_GATEWAY_PORT" := "8081"]> ∅)
    (fx_instance "infer-demo" Infer "node-a" "shared" None Exclusive d0 100 false None).
Definition fx_batch : InstanceSpec :=
  fx_instance "worker-batch" Worker "node-a" "shared" (Some "0") BestEffort d0_5 10 true (Some 8192).
Definition fx_shared : InstanceSpec :=
  fx_instance "worker-shared" Worker "node-b" "shared" (Some "0") Shared d0_5 50 false (Some 8192).
Definition fx_exclusive : InstanceSpec :=
  fx_instance "worker-main" Worker "node-a" "shared" (Some "1") Exclusive d1 100 false (Some 16384).

Definition fx_plane : DesiredState :=
  fx_state fx_nodes fx_disks [fx_infer; fx_batch; fx_shared; fx_exclusive].
