(* ===== verification/WorkerTopology.v ===== *)
(** * Worker group topology

    [common/include/naim/state/worker_group_topology.h]: the stable RPC port of
    a llama-rpc worker (a 32-bit FNV-1a hash), the packing of the enabled members
    of a worker group into data-parallel replicas, and its validation.

    [int] arguments of [/] and [%] are never negative in this file, so Rocq's
    floor division agrees with C++'s truncating one. *)

From S2P Require Import Prelude Binary64 Models.

(** ** Stable ports *)

Definition kLlamaRpcWorkerPublishedPortBase : Z := 40000.
Definition kLlamaRpcWorkerPublishedPortSpan : Z := 20000.

Definition StablePortHash (value : string) : Z :=
  foldl (fun hash ch =>
           let hash := Z.lxor hash (char_code ch) in
           uint32_wrap (hash * 16777619))
        2166136261 (list_of_string value).

Definition StableLlamaRpcWorkerPort (plane_name worker_name : string) : Z :=
  let offset :=
    StablePortHash (plane_name +:+ ":" +:+ worker_name +:+ ":llama-rpc")
      `mod` kLlamaRpcWorkerPublishedPortSpan in
  kLlamaRpcWorkerPublishedPortBase + offset.

(** ** Modes and counts *)

Definition kDataParallelModeOff : string := "off".
Definition kDataParallelLbModeHybrid : string := "hybrid".

Definition CanonicalDataParallelMode (inference : InferenceRuntimeSettings) : string :=
  if str_empty (inf_data_parallel_mode inference) then kDataParallelModeOff
  else inf_data_parallel_mode inference.

Definition DataParallelEnabled (inference : InferenceRuntimeSettings) : bool :=
  CanonicalDataParallelMode inference !=? kDataParallelModeOff.

Definition NativeDataParallelEnabled (inference : InferenceRuntimeSettings) : bool :=
  DataParallelEnabled inference.

Definition HybridDataParallelEnabled (inference : InferenceRuntimeSettings) : bool :=
  NativeDataParallelEnabled inference &&
  (inf_data_parallel_lb_mode inference ==? kDataParallelLbModeHybrid).

Definition WorkersPerReplica (worker_group : WorkerGroupSpec) : Z :=
  Z.max 1 (wg_expected_workers worker_group).

Definition EligibleWorkerMemberCount (worker_group : WorkerGroupSpec) : Z :=
  Z.of_nat (length (List.filter wgm_enabled (wg_members worker_group))).

Definition DefaultWorkersPerReplica (_ : InferenceRuntimeSettings)
    (eligible_worker_members : Z) : Z :=
  Z.max 1 eligible_worker_members.

Definition ExpectedReplicaGroupCount (inference : InferenceRuntimeSettings)
    (worker_group : WorkerGroupSpec) : Z :=
  let eligible_members := EligibleWorkerMemberCount worker_group in
  if eligible_members <=? 0 then 0
  else if negb (DataParallelEnabled inference) then 1
  else eligible_members / WorkersPerReplica worker_group.

Definition ReplicaGroupIdFor (worker_group : WorkerGroupSpec) (replica_index : Z) : string :=
  let prefix := if str_empty (wg_group_id worker_group) then "worker-group"
                else wg_group_id worker_group in
  prefix +:+ "-replica-" +:+ to_string (Z.max 0 replica_index).

(** ** Validation *)

(** State of the hybrid check: the eligible index, the node the current
    replica started on, and the workers seen per node and GPU. *)
Record PackingCheck := mkPackingCheck {
  pk_eligible_index : Z;
  pk_replica_node_name : string;
  pk_node_gpu_workers : gmap string (gmap string string);
}.

Definition check_hybrid_member (workers_per_replica : Z) (st : PackingCheck)
    (member : WorkerGroupMemberSpec) : result PackingCheck :=
  if negb (wgm_enabled member) then Ok st
  else if str_empty (wgm_node_name member) then
    Throw "data_parallel_lb_mode=hybrid requires enabled worker members to have node_name"
  else
    let local_rank := pk_eligible_index st `mod` workers_per_replica in
    replica_node_name ←
      (if local_rank =? 0 then Ok (wgm_node_name member)
       else if wgm_node_name member !=? pk_replica_node_name st then
         Throw ("data_parallel_lb_mode=hybrid requires node-local replica packing; worker '" +:+
                wgm_name member +:+ "' is assigned to node '" +:+ wgm_node_name member +:+
                "' but replica started on node '" +:+ pk_replica_node_name st +:+ "'")
       else Ok (pk_replica_node_name st));
    node_gpu_workers ←
      (if str_empty (wgm_gpu_device member) then Ok (pk_node_gpu_workers st)
       else
         let workers_by_gpu := default ∅ (pk_node_gpu_workers st !! wgm_node_name member) in
         match workers_by_gpu !! wgm_gpu_device member with
         | Some existing =>
             Throw ("data_parallel_lb_mode=hybrid requires unique gpu_device per node-local " +:+
                    "data-parallel rank; worker '" +:+ wgm_name member +:+ "' reuses gpu '" +:+
                    wgm_gpu_device member +:+ "' on node '" +:+ wgm_node_name member +:+
                    "' already assigned to worker '" +:+ existing +:+ "'")
         | None =>
             Ok (<[wgm_node_name member :=
                     <[wgm_gpu_device member := wgm_name member]> workers_by_gpu]>
                   (pk_node_gpu_workers st))
         end);
    Ok {| pk_eligible_index := pk_eligible_index st + 1;
          pk_replica_node_name := replica_node_name;
          pk_node_gpu_workers := node_gpu_workers |}.

Definition ValidateReplicaPacking (inference : InferenceRuntimeSettings)
    (worker_group : WorkerGroupSpec) : result unit :=
  if negb (DataParallelEnabled inference) then Ok tt
  else
    let eligible_members := EligibleWorkerMemberCount worker_group in
    let workers_per_replica := WorkersPerReplica worker_group in
    if (eligible_members <=? 0) || (workers_per_replica <=? 0) then Ok tt
    else if negb (eligible_members `mod` workers_per_replica =? 0) then
      Throw ("data_parallel_mode=" +:+ inf_data_parallel_mode inference +:+
             " requires eligible worker count (" +:+ to_string eligible_members +:+
             ") to be divisible by worker_group.expected_workers (" +:+
             to_string workers_per_replica +:+ ")")
    else if HybridDataParallelEnabled inference then
      _ ← foldR (check_hybrid_member workers_per_replica)
                {| pk_eligible_index := 0; pk_replica_node_name := ""; pk_node_gpu_workers := ∅ |}
                (wg_members worker_group);
      Ok tt
    else Ok tt.

(** ** Assignment *)

(** The per-node replica counts and first ranks of the hybrid mode. *)
Record NodeReplicas := mkNodeReplicas {
  nr_replica_index : Z;
  nr_counts : gmap string Z;
  nr_start_ranks : gmap string Z;
}.

Definition count_node_replica (data_parallel : bool) (workers_per_replica : Z)
    (st : NodeReplicas) (member : WorkerGroupMemberSpec) : NodeReplicas :=
  if negb (wgm_enabled member) then st
  else
    let current_replica_index :=
      if data_parallel then nr_replica_index st / workers_per_replica else 0 in
    let local_rank :=
      if data_parallel then nr_replica_index st `mod` workers_per_replica
      else nr_replica_index st in
    let node := wgm_node_name member in
    if local_rank =? 0 then
      {| nr_replica_index := nr_replica_index st + 1;
         nr_counts := <[node := default 0 (nr_counts st !! node) + 1]> (nr_counts st);
         nr_start_ranks :=
           match nr_start_ranks st !! node with
           | None => <[node := current_replica_index]> (nr_start_ranks st)
           | Some rank => <[node := Z.min rank current_replica_index]> (nr_start_ranks st)
           end |}
    else
      {| nr_replica_index := nr_replica_index st + 1;
         nr_counts := nr_counts st;
         nr_start_ranks := nr_start_ranks st |}.

Definition node_replicas (inference : InferenceRuntimeSettings)
    (worker_group : WorkerGroupSpec) : NodeReplicas :=
  let start := {| nr_replica_index := 0; nr_counts := ∅; nr_start_ranks := ∅ |} in
  if HybridDataParallelEnabled inference then
    foldl (count_node_replica (DataParallelEnabled inference) (WorkersPerReplica worker_group))
          start (wg_members worker_group)
  else start.

Definition data_parallel_head_address (worker_group : WorkerGroupSpec) : string :=
  let head := match find_if wgm_enabled (wg_members worker_group) with
              | Some member => wgm_name member
              | None => ""
              end in
  if str_empty head then
    if str_empty (wg_rendezvous_host worker_group) then wg_infer_instance_name worker_group
    else wg_rendezvous_host worker_group
  else head.

Definition assigned_rpc_port (worker_group : WorkerGroupSpec) : Z :=
  if 0 <? wg_rendezvous_port worker_group then wg_rendezvous_port worker_group + 100 else 29600.

(** The branch for a member that is not enabled. *)
Definition clear_member (workers_per_replica : Z) (member : WorkerGroupMemberSpec)
    : WorkerGroupMemberSpec :=
  {| wgm_name := wgm_name member;
     wgm_infer_instance_name := wgm_infer_instance_name member;
     wgm_node_name := wgm_node_name member;
     wgm_gpu_device := wgm_gpu_device member;
     wgm_rpc_port := wgm_rpc_port member;
     wgm_rank := 0;
     wgm_replica_group_id := "";
     wgm_replica_index := 0;
     wgm_replica_size := workers_per_replica;
     wgm_replica_leader := false;
     wgm_data_parallel_rank := 0;
     wgm_data_parallel_size := 1;
     wgm_data_parallel_size_local := 1;
     wgm_data_parallel_start_rank := 0;
     wgm_data_parallel_api_endpoint := false;
     wgm_data_parallel_head_address := "";
     wgm_data_parallel_rpc_port := 0;
     wgm_gpu_fraction := wgm_gpu_fraction member;
     wgm_share_mode := wgm_share_mode member;
     wgm_priority := wgm_priority member;
     wgm_preemptible := wgm_preemptible member;
     wgm_memory_cap_mb := wgm_memory_cap_mb member;
     wgm_enabled := wgm_enabled member;
     wgm_leader := false |}.

(** The branch for the enabled member with the given eligible index. *)
Definition assign_member (inference : InferenceRuntimeSettings) (worker_group : WorkerGroupSpec)
    (eligible_index : Z) (member : WorkerGroupMemberSpec) : WorkerGroupMemberSpec :=
  let data_parallel := DataParallelEnabled inference in
  let workers_per_replica := WorkersPerReplica worker_group in
  let replica_count := ExpectedReplicaGroupCount inference worker_group in
  let replicas := node_replicas inference worker_group in
  let replica_index := if data_parallel then eligible_index / workers_per_replica else 0 in
  let local_rank :=
    if data_parallel then eligible_index `mod` workers_per_replica else eligible_index in
  let replica_leader := local_rank =? 0 in
  let hybrid := HybridDataParallelEnabled inference && negb (str_empty (wgm_node_name member)) in
  let size_local :=
    if hybrid then
      match nr_counts replicas !! wgm_node_name member with
      | Some count => Z.max 1 count
      | None => 1
      end
    else 1 in
  let start_rank :=
    if hybrid then
      match nr_start_ranks replicas !! wgm_node_name member with
      | Some rank => Z.max 0 rank
      | None => replica_index
      end
    else replica_index in
  {| wgm_name := wgm_name member;
     wgm_infer_instance_name := wgm_infer_instance_name member;
     wgm_node_name := wgm_node_name member;
     wgm_gpu_device := wgm_gpu_device member;
     wgm_rpc_port := wgm_rpc_port member;
     wgm_rank := local_rank;
     wgm_replica_group_id := ReplicaGroupIdFor worker_group replica_index;
     wgm_replica_index := replica_index;
     wgm_replica_size := workers_per_replica;
     wgm_replica_leader := replica_leader;
     wgm_data_parallel_rank := replica_index;
     wgm_data_parallel_size := Z.max 1 replica_count;
     wgm_data_parallel_size_local := size_local;
     wgm_data_parallel_start_rank := start_rank;
     wgm_data_parallel_api_endpoint :=
       if hybrid then replica_leader && (replica_index =? start_rank) else replica_leader;
     wgm_data_parallel_head_address := data_parallel_head_address worker_group;
     wgm_data_parallel_rpc_port := assigned_rpc_port worker_group;
     wgm_gpu_fraction := wgm_gpu_fraction member;
     wgm_share_mode := wgm_share_mode member;
     wgm_priority := wgm_priority member;
     wgm_preemptible := wgm_preemptible member;
     wgm_memory_cap_mb := wgm_memory_cap_mb member;
     wgm_enabled := wgm_enabled member;
     wgm_leader := replica_leader |}.

Fixpoint assign_members (inference : InferenceRuntimeSettings) (worker_group : WorkerGroupSpec)
    (eligible_index : Z) (members : list WorkerGroupMemberSpec) : list WorkerGroupMemberSpec :=
  match members with
  | [] => []
  | member :: rest =>
      if wgm_enabled member then
        assign_member inference worker_group eligible_index member
          :: assign_members inference worker_group (eligible_index + 1) rest
      else
        clear_member (WorkersPerReplica worker_group) member
          :: assign_members inference worker_group eligible_index rest
  end.

Definition AssignReplicaTopology (inference : InferenceRuntimeSettings)
    (worker_group : WorkerGroupSpec) : WorkerGroupSpec :=
  {| wg_group_id := wg_group_id worker_group;
     wg_infer_instance_name := wg_infer_instance_name worker_group;
     wg_distributed_backend := wg_distributed_backend worker_group;
     wg_rendezvous_host := wg_rendezvous_host worker_group;
     wg_rendezvous_port := wg_rendezvous_port worker_group;
     wg_expected_workers := wg_expected_workers worker_group;
     wg_worker_selection_policy := wg_worker_selection_policy worker_group;
     wg_members := assign_members inference worker_group 0 (wg_members worker_group) |}.

(** ** Lemmas: what assignment leaves alone *)

Lemma assign_member_enabled inf wg i m : wgm_enabled (assign_member inf wg i m) = wgm_enabled m.
Proof. done. Qed.

(** The enabled members, in order, get consecutive eligible indices. *)
Lemma filter_assign_members inf wg i ms :
  List.filter wgm_enabled (assign_members inf wg i ms) =
  imap (fun k m => assign_member inf wg (i + Z.of_nat k) m) (List.filter wgm_enabled ms).
Proof.
  revert i. induction ms as [|m ms IH]; intros i; simpl; [done|].
  destruct (wgm_enabled m) eqn:E; simpl; rewrite E.
  - rewrite IH. simpl. f_equal; [by rewrite Z.add_0_r|].
    apply imap_ext. intros k x _. simpl. f_equal. lia.
  - apply IH.
Qed.

Lemma length_enabled_assign inf wg i ms :
  length (List.filter wgm_enabled (assign_members inf wg i ms)) =
  length (List.filter wgm_enabled ms).
Proof. by rewrite filter_assign_members, length_imap. Qed.

Lemma fmap_imap_seqZ {A B} (f : Z -> A -> A) (g : A -> B) (h : Z -> B) (l : list A) i :
  (forall k x, g (f k x) = h k) ->
  g <$> imap (fun k x => f (i + Z.of_nat k) x) l = h <$> seqZ i (Z.of_nat (length l)).
Proof.
  intros Hg. revert i. induction l as [|x l IH]; intros i; simpl; [done|].
  rewrite seqZ_cons by lia. rewrite fmap_cons, Hg, Z.add_0_r. f_equal.
  replace (Z.pred (Z.of_nat (S (length l)))) with (Z.of_nat (length l)) by lia.
  rewrite <-(IH (Z.succ i)) by done. f_equal. apply imap_ext. intros k y _. simpl. f_equal. lia.
Qed.

Lemma length_filter_fmap {A B} (g : A -> B) (p : B -> bool) (l : list A) :
  length (List.filter (fun x => p (g x)) l) = length (List.filter p (g <$> l)).
Proof.
  induction l as [|x l IH]; simpl; [done|]. destruct (p (g x)); simpl; by rewrite IH.
Qed.

Lemma filter_andb {A} (p q : A -> bool) (l : list A) :
  List.filter (fun x => p x && q x) l = List.filter q (List.filter p l).
Proof.
  induction l as [|x l IH]; simpl; [done|].
  destruct (p x); simpl; [destruct (q x)|]; by rewrite IH.
Qed.

Lemma filter_all_true {A} (p : A -> bool) (l : list A) :
  (forall x, x ∈ l -> p x = true) -> List.filter p l = l.
Proof.
  induction l as [|x l IH]; simpl; [done|]. intros H.
  rewrite H by left. f_equal. apply IH. intros y Hy. apply H. by right.
Qed.

Lemma filter_all_false {A} (p : A -> bool) (l : list A) :
  (forall x, x ∈ l -> p x = false) -> List.filter p l = [].
Proof.
  induction l as [|x l IH]; simpl; [done|]. intros H.
  rewrite H by left. apply IH. intros y Hy. apply H. by right.
Qed.

(** Blocks of [w] consecutive indices: block [r] holds [w] of them, and one
    whose remainder is zero. *)
Lemma block_div w q k : 0 < w -> 0 <= q -> k ∈ seqZ (w * q) w -> k / w = q.
Proof.
  intros Hw Hq Hk. apply elem_of_seqZ in Hk.
  symmetry. apply (Z.div_unique_pos k w q (k - w * q)); lia.
Qed.

Lemma count_block w (q : nat) r :
  0 < w -> 0 <= r < Z.of_nat q ->
  List.filter (fun k => k / w =? r) (seqZ 0 (w * Z.of_nat q)) = seqZ (w * r) w.
Proof.
  intros Hw. induction q as [|q IH]; intros Hr; [lia|].
  replace (w * Z.of_nat (S q)) with (w * Z.of_nat q + w) by lia.
  rewrite seqZ_app by lia. rewrite List.filter_app, Z.add_0_l.
  destruct (decide (r = Z.of_nat q)) as [->|Hne].
  - rewrite filter_all_false, filter_all_true; [done| |].
    + intros k Hk. by rewrite (block_div w (Z.of_nat q)), Z.eqb_refl by lia || done.
    + intros k Hk. apply elem_of_seqZ in Hk. apply Z.eqb_neq.
      assert (k / w < Z.of_nat q); [|lia]. apply Z.div_lt_upper_bound; lia.
  - rewrite IH, (filter_all_false _ (seqZ (w * Z.of_nat q) w)); [by rewrite app_nil_r| |lia].
    intros k Hk. rewrite (block_div w (Z.of_nat q)) by lia || done. apply Z.eqb_neq. lia.
Qed.

Lemma count_block_leader w r :
  0 < w -> 0 <= r -> List.filter (fun k => k `mod` w =? 0) (seqZ (w * r) w) = [w * r].
Proof.
  intros Hw Hr. rewrite seqZ_cons by lia. simpl.
  replace ((w * r) `mod` w) with 0 by (rewrite Z.mul_comm; symmetry; apply Z_mod_mult).
  simpl. f_equal. apply filter_all_false.
  intros k Hk. apply elem_of_seqZ in Hk. apply Z.eqb_neq.
  replace k with (k - w * r + r * w) by lia.
  rewrite Z_mod_plus_full, Z.mod_small; lia.
Qed.

(** ** Lemmas: validation *)

Lemma validate_divisible inf wg :
  DataParallelEnabled inf = true -> 0 < EligibleWorkerMemberCount wg ->
  ValidateReplicaPacking inf wg = Ok tt ->
  EligibleWorkerMemberCount wg =
    WorkersPerReplica wg * ExpectedReplicaGroupCount inf wg.
Proof.
  intros Hdp Hpos. unfold ValidateReplicaPacking, ExpectedReplicaGroupCount. rewrite Hdp. simpl.
  assert (1 <= WorkersPerReplica wg) by (unfold WorkersPerReplica; lia).
  destruct (Z.leb_spec (EligibleWorkerMemberCount wg) 0); [lia|].
  destruct (Z.leb_spec (WorkersPerReplica wg) 0); [lia|]. simpl.
  destruct (Z.eqb_spec (EligibleWorkerMemberCount wg `mod` WorkersPerReplica wg) 0);
    simpl; [|done].
  intros _. apply Z_div_exact_full_2; lia.
Qed.

Lemma replica_index_seq inf wg :
  DataParallelEnabled inf = true ->
  (fun m => (wgm_replica_index m, wgm_rank m)) <$>
    List.filter wgm_enabled (wg_members (AssignReplicaTopology inf wg)) =
  (fun k => (k / WorkersPerReplica wg, k `mod` WorkersPerReplica wg)) <$>
    seqZ 0 (EligibleWorkerMemberCount wg).
Proof.
  intros Hdp. simpl. rewrite filter_assign_members.
  apply (fmap_imap_seqZ (assign_member inf wg)). intros k x. simpl. by rewrite Hdp.
Qed.

(** ** Properties *)

(** The published RPC port of a worker always lies in [40000, 60000), for
    every plane and worker name. *)
Theorem stable_port_bounds plane worker :
  40000 <= StableLlamaRpcWorkerPort plane worker < 60000.
Proof.
  unfold StableLlamaRpcWorkerPort, kLlamaRpcWorkerPublishedPortBase,
    kLlamaRpcWorkerPublishedPortSpan.
  pose proof (Z.mod_pos_bound
    (StablePortHash (plane +:+ ":" +:+ worker +:+ ":llama-rpc")) 20000). lia.
Qed.

Lemma assigned_leader_iff inf wg m :
  m ∈ List.filter wgm_enabled (wg_members (AssignReplicaTopology inf wg)) ->
  wgm_replica_leader m = (wgm_rank m =? 0).
Proof.
  simpl. rewrite filter_assign_members. intros Hm.
  apply list_elem_of_lookup in Hm as [k Hk]. rewrite list_lookup_imap in Hk.
  destruct (_ !! k); simplify_eq/=. done.
Qed.

(** When the packing is valid, every data-parallel replica of the assigned
    group has exactly [WorkersPerReplica] enabled members, one of which leads. *)
Theorem replica_groups_full inf wg r :
  DataParallelEnabled inf = true -> 0 < EligibleWorkerMemberCount wg ->
  ValidateReplicaPacking inf wg = Ok tt ->
  0 <= r < ExpectedReplicaGroupCount inf wg ->
  let group := List.filter (fun m => wgm_enabled m && (wgm_replica_index m =? r))
                           (wg_members (AssignReplicaTopology inf wg)) in
  Z.of_nat (length group) = WorkersPerReplica wg /\
  length (List.filter wgm_replica_leader group) = 1%nat.
Proof.
  intros Hdp Hpos Hval Hr. cbv zeta. rewrite filter_andb.
  set (E := List.filter wgm_enabled (wg_members (AssignReplicaTopology inf wg))).
  assert (Hw : 0 < WorkersPerReplica wg) by (unfold WorkersPerReplica; lia).
  assert (Hfilter : List.filter (fun k => k / WorkersPerReplica wg =? r)
            (seqZ 0 (EligibleWorkerMemberCount wg)) =
          seqZ (WorkersPerReplica wg * r) (WorkersPerReplica wg)).
  { rewrite (validate_divisible inf wg) by done.
    rewrite <-(Z2Nat.id (ExpectedReplicaGroupCount inf wg)) by lia.
    apply count_block; lia. }
  pose proof (replica_index_seq inf wg Hdp) as Hseq. fold E in Hseq.
  split.
  - rewrite (length_filter_fmap (fun m => (wgm_replica_index m, wgm_rank m)) (fun x => x.1 =? r)).
    rewrite Hseq, <-length_filter_fmap. simpl. rewrite Hfilter, length_seqZ. lia.
  - rewrite <-filter_andb.
    rewrite (List.filter_ext_in _ (fun m => (wgm_replica_index m =? r) && (wgm_rank m =? 0))).
    + rewrite (length_filter_fmap (fun m => (wgm_replica_index m, wgm_rank m))
                                  (fun x => (x.1 =? r) && (x.2 =? 0))).
      rewrite Hseq, <-length_filter_fmap. simpl.
      rewrite filter_andb, Hfilter, count_block_leader; [done | lia..].
    + intros m Hm. f_equal. apply (assigned_leader_iff inf wg), list_elem_of_In, Hm.
Qed.

Lemma foldl_count_assign inf wg dp w i ms st :
  foldl (count_node_replica dp w) st (assign_members inf wg i ms) =
  foldl (count_node_replica dp w) st ms.
Proof.
  revert i st. induction ms as [|m ms IH]; intros i st; simpl; [done|].
  destruct (wgm_enabled m) eqn:E; simpl; rewrite IH; f_equal.
Qed.

Lemma find_enabled_assign inf wg i ms :
  wgm_name <$> find_if wgm_enabled (assign_members inf wg i ms) =
  wgm_name <$> find_if wgm_enabled ms.
Proof.
  revert i. induction ms as [|m ms IH]; intros i; simpl; [done|].
  destruct (wgm_enabled m) eqn:E; simpl; rewrite E; [done | apply IH].
Qed.

Lemma eligible_assign inf wg :
  EligibleWorkerMemberCount (AssignReplicaTopology inf wg) = EligibleWorkerMemberCount wg.
Proof. unfold EligibleWorkerMemberCount. simpl. by rewrite length_enabled_assign. Qed.

Lemma head_address_assign inf wg :
  data_parallel_head_address (AssignReplicaTopology inf wg) = data_parallel_head_address wg.
Proof.
  unfold data_parallel_head_address. simpl.
  pose proof (find_enabled_assign inf wg 0 (wg_members wg)) as H.
  destruct (find_if _ (assign_members _ _ _ _)), (find_if _ (wg_members wg));
    simplify_eq/=; try done. by rewrite H.
Qed.

(** Assigning against the assigned group reads the same inputs. *)
Lemma assign_member_stable inf wg i m :
  assign_member inf (AssignReplicaTopology inf wg) i (assign_member inf wg i m) =
  assign_member inf wg i m.
Proof.
  unfold assign_member at 1. rewrite head_address_assign.
  unfold ExpectedReplicaGroupCount, node_replicas. rewrite eligible_assign.
  simpl. rewrite foldl_count_assign. reflexivity.
Qed.

Lemma assign_members_stable inf wg i ms :
  assign_members inf (AssignReplicaTopology inf wg) i (assign_members inf wg i ms) =
  assign_members inf wg i ms.
Proof.
  revert i. induction ms as [|m ms IH]; intros i; simpl; [done|].
  destruct (wgm_enabled m) eqn:E; simpl; rewrite E, IH; [|done].
  f_equal. apply assign_member_stable.
Qed.

Lemma assign_topology_twice inf wg :
  AssignReplicaTopology inf (AssignReplicaTopology inf wg) = AssignReplicaTopology inf wg.
Proof. unfold AssignReplicaTopology at 1. simpl. rewrite assign_members_stable. reflexivity. Qed.

(** Assigning a topology twice is the same as assigning it once: ranks,
    leaders and head address depend only on the operator's inputs. *)
Theorem assign_topology_idempotent inf wg :
  AssignReplicaTopology inf (AssignReplicaTopology inf wg) = AssignReplicaTopology inf wg.
Proof. apply assign_topology_twice. Qed.

(** ** Hybrid load balancing: node-local replicas *)

Abbreviation indexed := (Z * WorkerGroupMemberSpec)%type.

(** What the hybrid check knows of the members it has accepted. *)
Record hybrid_inv (w : Z) (st : PackingCheck) (P : list indexed) : Prop := {
  hi_bound : forall k m, (k, m) ∈ P -> 0 <= k < pk_eligible_index st;
  hi_current : forall k m, (k, m) ∈ P ->
    k / w = (pk_eligible_index st - 1) / w -> wgm_node_name m = pk_replica_node_name st;
  hi_local : forall k1 m1 k2 m2, (k1, m1) ∈ P -> (k2, m2) ∈ P ->
    k1 / w = k2 / w -> wgm_node_name m1 = wgm_node_name m2;
  hi_recorded : forall k m, (k, m) ∈ P -> wgm_gpu_device m <> "" ->
    exists by_gpu, pk_node_gpu_workers st !! wgm_node_name m = Some by_gpu /\
                   is_Some (by_gpu !! wgm_gpu_device m);
  hi_unique : forall k1 m1 k2 m2, (k1, m1) ∈ P -> (k2, m2) ∈ P -> wgm_gpu_device m1 <> "" ->
    wgm_node_name m1 = wgm_node_name m2 -> wgm_gpu_device m1 = wgm_gpu_device m2 -> k1 = k2;
}.

Lemma check_member_ok w st m st' :
  wgm_enabled m = true -> check_hybrid_member w st m = Ok st' ->
  pk_eligible_index st' = pk_eligible_index st + 1 /\
  pk_replica_node_name st' = wgm_node_name m /\
  (pk_eligible_index st `mod` w <> 0 -> pk_replica_node_name st = wgm_node_name m) /\
  ((wgm_gpu_device m = "" /\ pk_node_gpu_workers st' = pk_node_gpu_workers st) \/
   (wgm_gpu_device m <> "" /\
    let by_gpu := default ∅ (pk_node_gpu_workers st !! wgm_node_name m) in
    by_gpu !! wgm_gpu_device m = None /\
    pk_node_gpu_workers st' =
      <[wgm_node_name m := <[wgm_gpu_device m := wgm_name m]> by_gpu]>
        (pk_node_gpu_workers st))).
Proof.
  intros Hen. unfold check_hybrid_member. rewrite Hen. simpl.
  destruct (str_empty (wgm_node_name m)) eqn:Hn; [done|].
  unfold mbind, result_bind.
  destruct (Z.eqb_spec (pk_eligible_index st `mod` w) 0) as [Hr|Hr].
  2: destruct (wgm_node_name m !=? pk_replica_node_name st) eqn:Hs; [done | to_prop].
  all: destruct (str_empty (wgm_gpu_device m)) eqn:Hg;
    [apply str_empty_true in Hg | apply str_empty_false in Hg;
     destruct (default ∅ _ !! wgm_gpu_device m) eqn:Hlk; [done|]];
    intros [= <-]; simpl; repeat split; try done; try congruence; eauto.
Qed.

Lemma hybrid_inv_snoc_map w st st' m :
  check_hybrid_member w st m = Ok st' -> wgm_enabled m = true ->
  forall node gpu by_gpu, pk_node_gpu_workers st !! node = Some by_gpu ->
  is_Some (by_gpu !! gpu) ->
  exists by_gpu', pk_node_gpu_workers st' !! node = Some by_gpu' /\ is_Some (by_gpu' !! gpu).
Proof.
  intros Hc Hen node gpu by_gpu Hnode Hgpu.
  apply check_member_ok in Hc as (_ & _ & _ & [(_ & ->) | (_ & Hnone & ->)]); [by eauto| |done].
  destruct (decide (wgm_node_name m = node)) as [<-|Hne].
  - rewrite lookup_insert_eq. eexists; split; [done|]. rewrite Hnode in *. simpl in *.
    rewrite lookup_insert_ne; [done|]. intros <-. rewrite Hnone in Hgpu. by destruct Hgpu.
  - rewrite lookup_insert_ne by done. eauto.
Qed.

Lemma hybrid_inv_step w st st' m P :
  0 < w -> 0 <= pk_eligible_index st ->
  hybrid_inv w st P -> wgm_enabled m = true -> check_hybrid_member w st m = Ok st' ->
  hybrid_inv w st' (P ++ [(pk_eligible_index st, m)]).
Proof.
  intros Hw Hi HI Hen Hc.
  pose proof (hybrid_inv_snoc_map w st st' m Hc Hen) as Hkeep.
  apply check_member_ok in Hc as (Hidx & Hrn & Hmid & Hgpu); [|done].
  remember (pk_eligible_index st) as i eqn:Hieq.
  (* earlier members of the replica that index [i] belongs to *)
  assert (Hsame : forall k m', (k, m') ∈ P -> k / w = i / w -> wgm_node_name m' = wgm_node_name m).
  { intros k m' Hk Hdiv. pose proof (hi_bound _ _ _ HI _ _ Hk) as Hb. rewrite <-Hieq in Hb.
    destruct (decide (i `mod` w = 0)) as [Hz|Hz].
    - exfalso. apply Z.mod_divide in Hz as [c Hcw]; [|lia].
      rewrite Hcw, Z.div_mul in Hdiv by lia.
      assert (k / w < c); [apply Z.div_lt_upper_bound|]; nia.
    - rewrite <-Hmid by done. apply (hi_current _ _ _ HI _ _ Hk). rewrite <-Hieq, Hdiv.
      pose proof (Z.mod_pos_bound i w Hw). pose proof (Z.div_mod i w ltac:(lia)).
      apply (Z.div_unique_pos (i - 1) w (i / w) (i `mod` w - 1)); lia. }
  assert (Hnew : forall k m', (k, m') ∈ P -> wgm_gpu_device m' <> "" ->
            wgm_node_name m' = wgm_node_name m -> wgm_gpu_device m' <> wgm_gpu_device m).
  { intros k m' Hk Hne Hnode Heq. destruct (hi_recorded _ _ _ HI _ _ Hk Hne) as (bg & Hbg & Hs).
    destruct Hgpu as [(? & _)|(_ & Hnone & _)]; [congruence|].
    rewrite Hnode in Hbg. rewrite Hbg in Hnone. simpl in Hnone. rewrite Heq, Hnone in Hs.
    by destruct Hs. }
  split.
  - intros k m'. rewrite elem_of_app, list_elem_of_singleton, Hidx.
    intros [Hk|[= -> ->]]; [pose proof (hi_bound _ _ _ HI _ _ Hk)|]; lia.
  - intros k m'. rewrite Hidx, Hrn. replace (i + 1 - 1) with i by lia.
    rewrite elem_of_app, list_elem_of_singleton. intros [Hk|[= -> ->]]; [by eapply Hsame | done].
  - intros k1 m1 k2 m2. rewrite !elem_of_app, !list_elem_of_singleton.
    intros [H1|[= -> ->]] [H2|[= -> ->]] Hd; [by eapply (hi_local _ _ _ HI)|by eapply Hsame| |done].
    symmetry. by eapply Hsame.
  - intros k m'. rewrite elem_of_app, list_elem_of_singleton. intros [Hk|[= -> ->]] Hne.
    + destruct (hi_recorded _ _ _ HI _ _ Hk Hne) as (bg & Hbg & Hs). eauto.
    + destruct Hgpu as [(? & _)|(_ & _ & ->)]; [done|].
      rewrite lookup_insert_eq. eexists; split; [done|]. by rewrite lookup_insert_eq.
  - intros k1 m1 k2 m2. rewrite !elem_of_app, !list_elem_of_singleton.
    intros [H1|[= -> ->]] [H2|[= -> ->]] Hne Hn Hg; [by eapply (hi_unique _ _ _ HI)| | |done].
    + by destruct (Hnew _ _ H1 Hne Hn).
    + rewrite Hg in Hne. by destruct (Hnew _ _ H2 Hne (eq_sym Hn)).
Qed.

Lemma hybrid_fold_inv w ms st st' P :
  0 < w -> 0 <= pk_eligible_index st -> hybrid_inv w st P ->
  foldR (check_hybrid_member w) st ms = Ok st' ->
  hybrid_inv w st' (P ++ imap (fun k m => (pk_eligible_index st + Z.of_nat k, m))
                              (List.filter wgm_enabled ms)).
Proof.
  intros Hw. revert st P. induction ms as [|m ms IH]; intros st P Hi HI; simpl.
  - intros [= <-]. by rewrite app_nil_r.
  - intros H. bind_inv. destruct (wgm_enabled m) eqn:Hen.
    + pose proof (hybrid_inv_step w st a m P Hw Hi HI Hen E) as HI'.
      apply check_member_ok in E as (Hidx & _); [|done].
      apply (IH a _ ltac:(lia) HI') in H. rewrite <-app_assoc in H. simpl in H |- *.
      rewrite Z.add_0_r. erewrite imap_ext; [exact H|].
      intros k x _. simpl. f_equal. lia.
    + unfold check_hybrid_member in E. rewrite Hen in E. simpl in E.
      injection E as ->. by apply IH.
Qed.

Lemma validated_hybrid inf wg :
  HybridDataParallelEnabled inf = true -> ValidateReplicaPacking inf wg = Ok tt ->
  exists st, hybrid_inv (WorkersPerReplica wg) st
    (imap (fun k m => (Z.of_nat k, m)) (List.filter wgm_enabled (wg_members wg))).
Proof.
  intros Hh. assert (DataParallelEnabled inf = true) as Hdp.
  { unfold HybridDataParallelEnabled, NativeDataParallelEnabled in Hh. by to_prop. }
  assert (Hnil : hybrid_inv (WorkersPerReplica wg) (mkPackingCheck 0 "" ∅) []).
  { split; intros; by match goal with H : _ ∈ [] |- _ => apply elem_of_nil in H end. }
  unfold ValidateReplicaPacking. rewrite Hdp, Hh. simpl.
  destruct (Z.leb_spec (EligibleWorkerMemberCount wg) 0) as [H0|H0]; simpl.
  - intros _. unfold EligibleWorkerMemberCount in H0.
    destruct (List.filter wgm_enabled (wg_members wg)); simpl in *; [eauto | lia].
  - assert (0 < WorkersPerReplica wg) by (unfold WorkersPerReplica; lia).
    destruct (Z.leb_spec (WorkersPerReplica wg) 0); [lia|].
    destruct (negb _); [done|]. intros Hf. bind_inv.
    apply (hybrid_fold_inv _ _ _ _ []) in E; [|done|done|exact Hnil]. eauto.
Qed.

(** In hybrid load balancing a valid packing is node-local and never reuses
    a GPU: enabled members of one replica sit on one node, and two distinct
    enabled members of a node never pin the same non-empty GPU device. *)
Theorem hybrid_replicas_node_local inf wg i j mi mj :
  HybridDataParallelEnabled inf = true -> ValidateReplicaPacking inf wg = Ok tt ->
  let E := List.filter wgm_enabled (wg_members (AssignReplicaTopology inf wg)) in
  E !! i = Some mi -> E !! j = Some mj ->
  (wgm_replica_index mi = wgm_replica_index mj -> wgm_node_name mi = wgm_node_name mj) /\
  (wgm_gpu_device mi <> "" -> wgm_node_name mi = wgm_node_name mj ->
   wgm_gpu_device mi = wgm_gpu_device mj -> i = j).
Proof.
  intros Hh Hv. cbv zeta. simpl. rewrite filter_assign_members, !list_lookup_imap.
  assert (DataParallelEnabled inf = true) as Hdp.
  { unfold HybridDataParallelEnabled, NativeDataParallelEnabled in Hh. by to_prop. }
  destruct (validated_hybrid inf wg Hh Hv) as [st HI].
  intros (xi & Hxi & ->)%fmap_Some (xj & Hxj & ->)%fmap_Some. simpl in *. rewrite Hdp.
  assert (Hin : forall k x, List.filter wgm_enabled (wg_members wg) !! k = Some x ->
    (Z.of_nat k, x) ∈ imap (fun k m => (Z.of_nat k, m)) (List.filter wgm_enabled (wg_members wg))).
  { intros k x Hk. apply list_elem_of_lookup. exists k. by rewrite list_lookup_imap, Hk. }
  apply Hin in Hxi, Hxj. split.
  - intros Hd. by apply (hi_local _ _ _ HI _ _ _ _ Hxi Hxj).
  - intros Hne Hn Hg. pose proof (hi_unique _ _ _ HI _ _ _ _ Hxi Hxj Hne Hn Hg). lia.
Qed.

(** ** Witnesses *)

Definition example_member (name node gpu : string) (enabled : bool) : WorkerGroupMemberSpec :=
  {| wgm_name := name; wgm_infer_instance_name := ""; wgm_node_name := node;
     wgm_gpu_device := gpu; wgm_rpc_port := 0; wgm_rank := 7; wgm_replica_group_id := "stale";
     wgm_replica_index := 9; wgm_replica_size := 1; wgm_replica_leader := true;
     wgm_data_parallel_rank := 0; wgm_data_parallel_size := 1; wgm_data_parallel_size_local := 1;
     wgm_data_parallel_start_rank := 0; wgm_data_parallel_api_endpoint := false;
     wgm_data_parallel_head_address := ""; wgm_data_parallel_rpc_port := 0;
     wgm_gpu_fraction := d1; wgm_share_mode := Exclusive; wgm_priority := 100;
     wgm_preemptible := false; wgm_memory_cap_mb := None; wgm_enabled := enabled;
     wgm_leader := true |}.

Definition example_group : WorkerGroupSpec :=
  {| wg_group_id := "g"; wg_infer_instance_name := "infer-a"; wg_distributed_backend := "llama_rpc";
     wg_rendezvous_host := ""; wg_rendezvous_port := 29500; wg_expected_workers := 2;
     wg_worker_selection_policy := "";
     wg_members := [example_member "w0" "n0" "0" true; example_member "off" "n9" "0" false;
                    example_member "w1" "n0" "1" true; example_member "w2" "n1" "0" true;
                    example_member "w3" "n1" "1" true] |}.

Definition example_hybrid : InferenceRuntimeSettings :=
  {| inf_primary_infer_node := ""; inf_runtime_engine := "llama.cpp";
     inf_data_parallel_mode := "replicas"; inf_data_parallel_lb_mode := "hybrid";
     inf_api_server_count := 0; inf_worker_group_id := ""; inf_distributed_backend := "llama_rpc";
     inf_worker_selection_policy := ""; inf_net_if := "eth0"; inf_models_root := "";
     inf_model_cache_dir := ""; inf_runtime_log_dir := ""; inf_api_port := 8000;
     inf_max_model_len := 8192; inf_tensor_parallel_size := 1; inf_pipeline_parallel_size := 1;
     inf_max_num_seqs := 16; inf_gpu_memory_utilization := d0_9; inf_enforce_eager := false;
     inf_gguf_cache_dir := ""; inf_infer_log_dir := ""; inf_llama_port := 8000;
     inf_llama_ctx_size := 8192; inf_llama_threads := 8; inf_llama_gpu_layers := 99;
     inf_inference_healthcheck_retries := 300; inf_inference_healthcheck_interval_sec := 5;
     inf_rendezvous_port := 29500 |}.

Lemma replica_groups_full_witness :
  let group := List.filter (fun m => wgm_enabled m && (wgm_replica_index m =? 1))
                 (wg_members (AssignReplicaTopology example_hybrid example_group)) in
  Z.of_nat (length group) = 2 /\ length (List.filter wgm_replica_leader group) = 1%nat.
Proof.
  apply (replica_groups_full example_hybrid example_group 1);
    [reflexivity | reflexivity | vm_compute; reflexivity | split; vm_compute; congruence].
Defined.

Lemma hybrid_replicas_node_local_witness :
  exists mi mj,
    List.filter wgm_enabled (wg_members (AssignReplicaTopology example_hybrid example_group))
      !! 2%nat = Some mi /\
    List.filter wgm_enabled (wg_members (AssignReplicaTopology example_hybrid example_group))
      !! 3%nat = Some mj /\
    (wgm_replica_index mi = wgm_replica_index mj -> wgm_node_name mi = wgm_node_name mj) /\
    (wgm_gpu_device mi <> "" -> wgm_node_name mi = wgm_node_name mj ->
     wgm_gpu_device mi = wgm_gpu_device mj -> 2%nat = 3%nat).
Proof.
  eexists _, _. split; [vm_compute; reflexivity|]. split; [vm_compute; reflexivity|].
  apply (hybrid_replicas_node_local example_hybrid example_group);
    vm_compute; reflexivity.
Defined.
