(* ===== verification/Planner.v ===== *)
(** * Compose planning

    [common/src/planning/planner.cpp]: from the desired state of a plane to one
    compose plan per node.  [BuildComposeService] is split into the parts of the
    C++ function that compute one field of the service each; its exceptions
    ([std::stoi] on a port variable, a missing disk) are [Throw] values.

    The value of the environment variable [NAIM_CONTROLLER_INTERNAL_HOST] is the
    argument [internal_host] ([std::getenv]). *)

From S2P Require Import Prelude Binary64 Models Fixtures WorkerTopology.

(** ** [std::stoi] *)

Definition is_space (c : Ascii.ascii) : bool :=
  let n := char_code c in (n =? 32) || ((9 <=? n) && (n <=? 13)).
Definition digit_of (c : Ascii.ascii) : option Z :=
  let n := char_code c in if (48 <=? n) && (n <=? 57) then Some (n - 48) else None.

Fixpoint skip_spaces (l : list Ascii.ascii) : list Ascii.ascii :=
  match l with
  | c :: l' => if is_space c then skip_spaces l' else l
  | [] => []
  end.

(** The value of the longest digit prefix, [None] when there is none. *)
Fixpoint read_digits (acc : option Z) (l : list Ascii.ascii) : option Z :=
  match l with
  | [] => acc
  | c :: l' =>
      match digit_of c with
      | Some d => read_digits (Some (default 0 acc * 10 + d)) l'
      | None => acc
      end
  end.

Definition stoi (text : string) : result Z :=
  let l := skip_spaces (list_of_string text) in
  let '(sign, l) :=
    match l with
    | "-"%char :: l' => (-1, l')
    | "+"%char :: l' => (1, l')
    | _ => (1, l)
    end in
  match read_digits None l with
  | None => Throw "stoi"
  | Some v =>
      let z := sign * v in
      if (int_min <=? z) && (z <=? int_max) then Ok z else Throw "stoi"
  end.

(** ** Helpers *)

Definition UsesLlamaRpcRuntime (state : DesiredState) : bool :=
  (inf_runtime_engine (ds_inference state) ==? "llama.cpp") &&
  (inf_distributed_backend (ds_inference state) ==? "llama_rpc").

Definition BuildDirectModelCacheVolume (state : DesiredState) (instance : InstanceSpec)
    : option ComposeVolume :=
  if negb (UsesLlamaRpcRuntime state) || (inst_role instance ==? Browsing) then None
  else
    match ds_bootstrap_model state with
    | None => None
    | Some bootstrap_model =>
        match boot_local_path bootstrap_model with
        | None => None
        | Some local_path =>
            if boot_materialization_mode bootstrap_model !=? "reference" then None
            else if negb (starts_with "/" local_path) then None
            else Some {| vol_source := local_path; vol_target := local_path;
                         vol_read_only := true |}
        end
    end.

Definition DefaultComposeExtraHosts (internal_host : option string) : list string :=
  let controller_alias :=
    match internal_host with
    | Some (String _ _ as host) => "controller.internal:" +:+ host
    | _ => "controller.internal:host-gateway"
    end in
  ["host.docker.internal:host-gateway"; controller_alias].

Definition IntEnvValue (environment : gmap string string) (key : string) : result (option Z) :=
  match environment !! key with
  | None => Ok None
  | Some value => if str_empty value then Ok None else v ← stoi value; Ok (Some v)
  end.

Definition InferApiPort (state : DesiredState) (instance : InstanceSpec) : result Z :=
  v ← IntEnvValue (inst_environment instance) "NAIM_INFERENCE_PORT";
  Ok (value_or v (inf_api_port (ds_inference state))).

Definition InferGatewayPort (state : DesiredState) (instance : InstanceSpec) : result Z :=
  v ← IntEnvValue (inst_environment instance) "NAIM_GATEWAY_PORT";
  Ok (value_or v (gw_listen_port (ds_gateway state))).

Definition WorkerRpcPort (worker_group_member : option WorkerGroupMemberSpec) : Z :=
  match worker_group_member with
  | Some member => if 0 <? wgm_rpc_port member then wgm_rpc_port member else 50052
  | None => 50052
  end.

Definition ManagedLlamaRpcWorkerPort (state : DesiredState) (instance : InstanceSpec)
    (worker_group_member : option WorkerGroupMemberSpec) : Z :=
  if UsesLlamaRpcRuntime state && (inst_role instance ==? Worker) then
    StableLlamaRpcWorkerPort (ds_plane_name state) (inst_name instance)
  else WorkerRpcPort worker_group_member.

Definition IsManagedInferPublishedPort (state : DesiredState) (instance : InstanceSpec)
    (port : PublishedPort) : result bool :=
  if (inst_role instance !=? Infer) || negb (port_host_port port =? port_container_port port)
  then Ok false
  else
    infer_api_port ← InferApiPort state instance;
    infer_gateway_port ← InferGatewayPort state instance;
    Ok ((port_host_port port =? infer_api_port) || (port_host_port port =? infer_gateway_port) ||
        (port_host_port port =? inf_api_port (ds_inference state)) ||
        (port_host_port port =? gw_listen_port (ds_gateway state))).

Definition IsManagedLlamaRpcWorkerPublishedPort (state : DesiredState) (instance : InstanceSpec)
    (worker_group_member : option WorkerGroupMemberSpec) (port : PublishedPort) : bool :=
  if negb (UsesLlamaRpcRuntime state) || (inst_role instance !=? Worker) ||
     negb (port_host_port port =? port_container_port port)
  then false
  else (port_host_port port =? ManagedLlamaRpcWorkerPort state instance worker_group_member) ||
       (port_host_port port =? 50052).

Definition ContainsPublishedPort (ports : list PublishedPort) (needle : PublishedPort) : bool :=
  has_value (find_if (fun port =>
    (port_host_ip port ==? port_host_ip needle) &&
    (port_host_port port =? port_host_port needle) &&
    (port_container_port port =? port_container_port needle)) ports).

Definition AppendUniquePublishedPort (ports : list PublishedPort) (port : PublishedPort)
    : list PublishedPort :=
  if ContainsPublishedPort ports port then ports else ports ++ [port].

Definition LocalWorkerGpuDevices (node_instances : list InstanceSpec) : list string :=
  foldl (fun gpu_devices candidate =>
           match inst_gpu_device candidate with
           | Some gpu_device =>
               if (inst_role candidate !=? Worker) || str_empty gpu_device then gpu_devices
               else if any_of (fun d => d ==? gpu_device) gpu_devices then gpu_devices
               else gpu_devices ++ [gpu_device]
           | None => gpu_devices
           end) [] node_instances.

Definition FindDiskByName (disks : list DiskSpec) (node_name disk_name_ : string)
    : result DiskSpec :=
  match find_if (fun disk => (disk_name disk ==? disk_name_) &&
                             (disk_node_name disk ==? node_name)) disks with
  | Some disk => Ok disk
  | None => Throw ("missing disk '" +:+ disk_name_ +:+ "' for node '" +:+ node_name +:+ "'")
  end.

Definition FindWorkerGroupMember (state : DesiredState) (instance_name : string)
    : option WorkerGroupMemberSpec :=
  find_if (fun member => wgm_name member ==? instance_name) (wg_members (ds_worker_group state)).

(** ** The parts of [BuildComposeService] *)

(** Dependencies are kept only when they run on the same node. *)
Definition service_depends_on (instance : InstanceSpec) (node_instances : list InstanceSpec)
    : list string :=
  List.filter (fun dependency =>
                 has_value (find_if (fun candidate => inst_name candidate ==? dependency)
                                    node_instances))
              (inst_depends_on instance).

(** [service.gpu_device] and [service.gpu_devices]. *)
Definition service_gpu (instance : InstanceSpec) (node_instances : list InstanceSpec)
    (state : DesiredState) : option string * list string :=
  let use_llama_rpc := UsesLlamaRpcRuntime state in
  let is_infer := inst_role instance ==? Infer in
  let gpu_devices := if use_llama_rpc && is_infer then LocalWorkerGpuDevices node_instances
                     else [] in
  let gpu_device :=
    match inst_gpu_device instance, gpu_devices with
    | None, first :: _ => Some first
    | device, _ => device
    end in
  let gpu_device :=
    if negb (has_value gpu_device) && is_infer && negb use_llama_rpc then
      match find_if (fun candidate => (inst_role candidate ==? Worker) &&
                                      has_value (inst_gpu_device candidate)) node_instances with
      | Some local_gpu_worker => inst_gpu_device local_gpu_worker
      | None => gpu_device
      end
    else gpu_device in
  (gpu_device, gpu_devices).

Definition service_is_rpc_worker (instance : InstanceSpec) (state : DesiredState) : bool :=
  UsesLlamaRpcRuntime state && (inst_role instance ==? Worker).

Definition service_rpc_port (instance : InstanceSpec) (state : DesiredState) : Z :=
  ManagedLlamaRpcWorkerPort state instance (FindWorkerGroupMember state (inst_name instance)).

Definition service_environment (instance : InstanceSpec) (node_instances : list InstanceSpec)
    (state : DesiredState) : gmap string string :=
  let env := <["NAIM_PLANE_PROTECTED" := if ds_protected_plane state then "1" else "0"]>
            (<["NAIM_PLANE_NAME" := ds_plane_name state]> (inst_environment instance)) in
  let env :=
    if service_is_rpc_worker instance state then
      let rpc_port := service_rpc_port instance state in
      <["NAIM_WORKER_RPC_ENDPOINT" := inst_name instance +:+ ":" +:+ to_string rpc_port]>
        (<["NAIM_WORKER_RPC_HOST" := "0.0.0.0"]>
          (<["NAIM_WORKER_RPC_PORT" := to_string rpc_port]> env))
    else env in
  let '(gpu_device, gpu_devices) := service_gpu instance node_instances state in
  match gpu_device with
  | Some device =>
      <["NVIDIA_VISIBLE_DEVICES" :=
          if vec_empty gpu_devices then device else JoinStrings gpu_devices ","]>
        (<["NVIDIA_DRIVER_CAPABILITIES" := "compute,utility"]>
          (<["NAIM_GPU_DEVICE" := device]> env))
  | None =>
      if UsesLlamaRpcRuntime state && (inst_role instance ==? Infer) then
        <["NVIDIA_DRIVER_CAPABILITIES" := "compute,utility"]>
          (<["NVIDIA_VISIBLE_DEVICES" := "none"]> env)
      else env
  end.

(** Whether the NVIDIA runtime branch (either of the two) is taken. *)
Definition service_uses_nvidia (instance : InstanceSpec) (node_instances : list InstanceSpec)
    (state : DesiredState) : bool :=
  has_value (service_gpu instance node_instances state).1 ||
  (UsesLlamaRpcRuntime state && (inst_role instance ==? Infer)).

Definition service_security_opts (instance : InstanceSpec) (node_instances : list InstanceSpec)
    (state : DesiredState) : list string :=
  (if inst_role instance ==? Browsing then
     ["no-new-privileges:true"; "apparmor=unconfined"; "seccomp=unconfined"] else []) ++
  (if service_uses_nvidia instance node_instances state then ["apparmor=unconfined"] else []).

Definition service_healthcheck (instance : InstanceSpec) : string :=
  match inst_role instance with
  | Infer =>
      "CMD-SHELL /runtime/infer/inferctl.sh probe-url " +:+
      "http://127.0.0.1:$${NAIM_GATEWAY_PORT:-80}/health || " +:+
      "/runtime/infer/inferctl.sh probe-url " +:+
      "http://127.0.0.1:$${NAIM_INFERENCE_PORT:-8000}/health"
  | App => "CMD-SHELL curl -fsS http://127.0.0.1:$${PORT:-8080}/health >/dev/null"
  | VoiceModule =>
      "CMD-SHELL curl -fsS http://127.0.0.1:$${NAIM_VOICE_MODULE_PORT:-18140}/health >/dev/null"
  | VoiceMaker =>
      "CMD-SHELL curl -fsS http://127.0.0.1:$${NAIM_VOICE_MAKER_PORT:-18150}/health >/dev/null"
  | _ => "CMD-SHELL test -f /tmp/naim-ready"
  end.

(** Operator ports, without the ones the platform manages itself. *)
Definition append_operator_port (instance : InstanceSpec) (state : DesiredState)
    (ports : list PublishedPort) (port : PublishedPort) : result (list PublishedPort) :=
  let worker_group_member :=
    if inst_role instance ==? Worker then FindWorkerGroupMember state (inst_name instance)
    else None in
  managed_infer ← IsManagedInferPublishedPort state instance port;
  Ok (if managed_infer || IsManagedLlamaRpcWorkerPublishedPort state instance
                            worker_group_member port
      then ports else AppendUniquePublishedPort ports port).

Definition service_ports (instance : InstanceSpec) (state : DesiredState)
    : result (list PublishedPort) :=
  let ports :=
    if service_is_rpc_worker instance state then
      let rpc_port := service_rpc_port instance state in
      AppendUniquePublishedPort [] (mkPublishedPort "0.0.0.0" rpc_port rpc_port)
    else [] in
  ports ← foldR (append_operator_port instance state) ports (inst_published_ports instance);
  if inst_role instance ==? Infer then
    infer_api_port ← InferApiPort state instance;
    infer_gateway_port ← InferGatewayPort state instance;
    Ok (AppendUniquePublishedPort
          (AppendUniquePublishedPort ports
             (mkPublishedPort "127.0.0.1" infer_api_port infer_api_port))
          (mkPublishedPort "127.0.0.1" infer_gateway_port infer_gateway_port))
  else Ok ports.

Definition disk_volume (disks : list DiskSpec) (node_name disk_name_ : string)
    : result (list ComposeVolume) :=
  if str_empty disk_name_ then Ok []
  else
    disk ← FindDiskByName disks node_name disk_name_;
    Ok [mkComposeVolume (disk_host_path disk) (disk_container_path disk) false].

Definition service_volumes (instance : InstanceSpec) (disks : list DiskSpec)
    (state : DesiredState) : result (list ComposeVolume) :=
  shared ← disk_volume disks (inst_node_name instance) (inst_shared_disk_name instance);
  private ← disk_volume disks (inst_node_name instance) (inst_private_disk_name instance);
  let direct := match BuildDirectModelCacheVolume state instance with
                | Some volume => [volume] | None => [] end in
  let mounts :=
    foldl (fun volumes model_mount =>
             if negb (str_empty (mount_host_path model_mount)) &&
                negb (str_empty (mount_mount_path model_mount)) then
               volumes ++ [mkComposeVolume (mount_host_path model_mount)
                                           (mount_mount_path model_mount) true]
             else volumes) [] (inst_app_model_mounts instance) in
  Ok (shared ++ private ++ direct ++ mounts).

Definition BuildComposeService (internal_host : option string) (instance : InstanceSpec)
    (disks : list DiskSpec) (node_instances : list InstanceSpec) (state : DesiredState)
    : result ComposeService :=
  published_ports ← service_ports instance state;
  volumes ← service_volumes instance disks state;
  let '(gpu_device, gpu_devices) := service_gpu instance node_instances state in
  Ok {| svc_name := inst_name instance;
        svc_image := inst_image instance;
        svc_command := inst_command instance;
        svc_depends_on := service_depends_on instance node_instances;
        svc_environment := service_environment instance node_instances state;
        svc_labels := inst_labels instance;
        svc_volumes := volumes;
        svc_published_ports := published_ports;
        svc_extra_hosts := DefaultComposeExtraHosts internal_host;
        svc_security_opts := service_security_opts instance node_instances state;
        svc_privileged := inst_role instance ==? Browsing;
        svc_use_nvidia_runtime := service_uses_nvidia instance node_instances state;
        svc_gpu_device := gpu_device;
        svc_gpu_devices := gpu_devices;
        svc_shm_size := None;
        svc_healthcheck := service_healthcheck instance |}.

(** ** Plans *)

Definition instances_on (state : DesiredState) (node : string) : list InstanceSpec :=
  List.filter (fun instance => inst_node_name instance ==? node) (ds_instances state).

Definition build_node_plan (internal_host : option string) (state : DesiredState)
    (node : NodeInventory) : result NodeComposePlan :=
  let node_instances := instances_on state (node_name node) in
  services ← mapR (fun instance =>
                     BuildComposeService internal_host instance (ds_disks state)
                                         node_instances state) node_instances;
  Ok {| ncp_plane_name := ds_plane_name state;
        ncp_node_name := node_name node;
        ncp_disks := List.filter (fun disk => disk_node_name disk ==? node_name node)
                                 (ds_disks state);
        ncp_services := services |}.

Definition BuildNodeComposePlans (internal_host : option string) (state : DesiredState)
    : result (list NodeComposePlan) :=
  mapR (build_node_plan internal_host state) (ds_nodes state).

Definition FindNodeComposePlan (internal_host : option string) (state : DesiredState)
    (node : string) : result (option NodeComposePlan) :=
  plans ← BuildNodeComposePlans internal_host state;
  Ok (find_if (fun plan => ncp_node_name plan ==? node) plans).

(** ** Lemmas: published ports *)

(** ** Decimal texts *)

Lemma digit_of_char d : (d < 10)%N -> digit_of (pretty_N_char d) = Some (Z.of_N d).
Proof.
  intros H. assert (d = 0 \/ d = 1 \/ d = 2 \/ d = 3 \/ d = 4 \/ d = 5 \/ d = 6 \/ d = 7 \/ d = 8 \/ d = 9)%N
    as Hd by lia. by destruct Hd as [->|[->|[->|[->|[->|[->|[->|[->|[->| ->]]]]]]]]].
Qed.

(** The digits of [x] are read as [x], and there is at least one. *)
Lemma read_digits_go (x : N) : forall text acc, (0 < x)%N ->
  (exists k, 0 <= k /\
     read_digits acc (list_of_string (pretty_N_go x text)) =
     read_digits (Some (default 0 acc * 10 ^ k + Z.of_N x)) (list_of_string text)) /\
  exists c rest d, list_of_string (pretty_N_go x text) = c :: rest /\ digit_of c = Some d.
Proof.
  induction (N.lt_wf_0 x) as [x _ IH]. intros text acc Hx. rewrite pretty_N_go_step by done.
  assert (Hd := digit_of_char (x `mod` 10) ltac:(apply N.mod_lt; lia)).
  pose proof (N.div_mod x 10 ltac:(lia)) as Hdm.
  destruct (decide (x `div` 10 = 0)%N) as [H0|H0].
  - rewrite H0, pretty_N_go_0. cbn. rewrite Hd. split; [|by eauto 10].
    exists 1. split; [lia|]. f_equal. f_equal. rewrite Z.pow_1_r.
    rewrite H0 in Hdm. clear -Hdm. set (r := (x `mod` 10)%N) in *. clearbody r. lia.
  - destruct (IH (x `div` 10)%N ltac:(apply N.div_lt; lia)
                 (String (pretty_N_char (x `mod` 10)) text) acc ltac:(by apply N.neq_0_lt_0)) as [(k & Hk & ->) Hne].
    split; [|exact Hne]. cbn. rewrite Hd. exists (k + 1). split; [lia|]. f_equal. f_equal. cbn.
    rewrite Z.pow_add_r, Z.pow_1_r by lia. clear -Hdm. set (r := (x `mod` 10)%N) in *.
    set (q := (x `div` 10)%N) in *. clearbody r q. lia.
Qed.

Lemma digit_not_space c d : digit_of c = Some d -> is_space c = false.
Proof.
  unfold digit_of, is_space. destruct_if; [|done]. intros _. to_prop.
  apply orb_false_iff. split; [apply Z.eqb_neq | apply andb_false_iff; rewrite !Z.leb_gt]; lia.
Qed.

(** [std::stoi(std::to_string(z)) == z] *)
Lemma stoi_to_string z : 0 <= z <= int_max -> stoi (to_string z) = Ok z.
Proof.
  intros Hz. destruct z as [|p|p]; [by vm_compute| |lia].
  change (to_string (Z.pos p)) with (pretty_N_go (N.pos p) "").
  destruct (read_digits_go (N.pos p) "" None ltac:(lia)) as [(k & _ & Hk) (c & rest & d & Hl & Hd)].
  unfold stoi. rewrite Hl in *. cbn [skip_spaces]. rewrite (digit_not_space c d Hd).
  assert (read_digits None (c :: rest) = Some (Z.pos p)) as Hr by (rewrite Hk; cbn; f_equal; lia).
  assert (forall b : Ascii.ascii, digit_of b = None -> c <> b) as Hc by (intros b Hb ->; congruence).
  pose proof (Hc "-"%char eq_refl) as H1. pose proof (Hc "+"%char eq_refl) as H2. clear Hc.
  assert ((match c :: rest with
           | "-"%char :: l' => (-1, l') | "+"%char :: l' => (1, l') | _ => (1, c :: rest) end)
          = (1, c :: rest)) as ->.
  { destruct c as [[] [] [] [] [] [] [] []]; try done; congruence. }
  rewrite Hr. rewrite Z.mul_1_l. 
  destruct (int_min <=? Z.pos p) eqn:E1, (Z.pos p <=? int_max) eqn:E2; try done; to_prop;
    unfold int_min, int_max in *; lia.
Qed.

Lemma contains_port_iff ports p : ContainsPublishedPort ports p = true <-> p ∈ ports.
Proof.
  unfold ContainsPublishedPort, has_value.
  destruct (find_if _ ports) as [q|] eqn:E.
  - apply find_if_Some in E as [Hq Hin]. split; [|done]. intros _.
    to_prop. destruct p, q; simpl in *. by rewrite !Z.eqb_eq in *; subst.
  - rewrite find_if_None in E. split; [done|]. intros Hp. specialize (E _ Hp).
    rewrite !eqb_refl, !Z.eqb_refl in E. done.
Qed.

Lemma elem_of_append_unique ports p q :
  q ∈ AppendUniquePublishedPort ports p <-> q ∈ ports \/ q = p.
Proof.
  unfold AppendUniquePublishedPort. destruct (ContainsPublishedPort ports p) eqn:E.
  - apply contains_port_iff in E. naive_solver.
  - set_solver.
Qed.

Lemma NoDup_append_unique ports p : NoDup ports -> NoDup (AppendUniquePublishedPort ports p).
Proof.
  intros Hnd. unfold AppendUniquePublishedPort.
  destruct (ContainsPublishedPort ports p) eqn:E; [done|].
  apply NoDup_app. split; [done|]. split; [|apply NoDup_singleton].
  intros q Hq ->%list_elem_of_singleton. apply contains_port_iff in Hq. congruence.
Qed.

#[export] Hint Resolve NoDup_append_unique NoDup_nil_2 : naim.

(** A loop invariant for folds that may throw. *)
Lemma foldR_inv {A S} (P : S -> Prop) (f : S -> A -> result S) l s s' :
  (forall s s' x, x ∈ l -> P s -> f s x = Ok s' -> P s') ->
  P s -> foldR f s l = Ok s' -> P s'.
Proof.
  revert s. induction l as [|x l IH]; intros s Hstep Hs; simpl; [by intros [= <-]|].
  intros H. bind_inv. eapply IH; [|by eapply Hstep; [left|..]|done].
  intros; eapply Hstep; [right|..]; done.
Qed.

Lemma operator_port_step instance state ports port ports' :
  append_operator_port instance state ports port = Ok ports' ->
  (NoDup ports -> NoDup ports') /\
  (forall q, q ∈ ports' -> q ∈ ports \/
     (q = port /\ IsManagedInferPublishedPort state instance q = Ok false)).
Proof.
  unfold append_operator_port. intros H. bind_inv.
  destruct (a || _) eqn:Em; [naive_solver|]. apply orb_false_iff in Em as [-> _].
  split; [apply NoDup_append_unique|]. intros q [?| ->]%elem_of_append_unique; naive_solver.
Qed.

Lemma operator_ports_fold instance state ports l ports' :
  foldR (append_operator_port instance state) ports l = Ok ports' ->
  (NoDup ports -> NoDup ports') /\
  (forall q, q ∈ ports' -> q ∈ ports \/ IsManagedInferPublishedPort state instance q = Ok false).
Proof.
  intros H. split.
  - intros Hnd. revert H. apply (foldR_inv (@NoDup PublishedPort)); [|done].
    intros s s' x _ Hs Hstep. by apply operator_port_step in Hstep as [? _]; auto.
  - revert H. apply (foldR_inv (fun ports' => forall q, q ∈ ports' -> q ∈ ports \/ _)); [|auto].
    intros s s' x _ Hs Hstep q Hq. apply operator_port_step in Hstep as [_ Hstep].
    destruct (Hstep q Hq) as [?| [-> ?]]; auto.
Qed.

Lemma service_ports_NoDup instance state ports :
  service_ports instance state = Ok ports -> NoDup ports.
Proof.
  unfold service_ports. intros H. bind_inv.
  assert (NoDup a).
  { apply operator_ports_fold in E as [Hnd _]. apply Hnd.
    destruct (service_is_rpc_worker _ _); auto with naim. }
  destruct (inst_role instance ==? Infer); bind_inv; auto with naim.
Qed.

(** A port the platform manages for an infer instance. *)
Lemma managed_infer_port_false state instance port p g :
  inst_role instance = Infer -> InferApiPort state instance = Ok p ->
  InferGatewayPort state instance = Ok g ->
  IsManagedInferPublishedPort state instance port = Ok false ->
  port_host_port port = port_container_port port ->
  port_host_port port <> p /\ port_host_port port <> g.
Proof.
  intros Hr Hp Hg. unfold IsManagedInferPublishedPort.
  rewrite Hr, eqb_refl, Hp, Hg. simpl.
  intros H Heq. rewrite Heq, Z.eqb_refl in H. simpl in H. injection H as H.
  repeat apply orb_false_iff in H as [H ?]. rewrite Heq. lia.
Qed.

Lemma service_ports_infer instance state ports p g :
  inst_role instance = Infer -> InferApiPort state instance = Ok p ->
  InferGatewayPort state instance = Ok g -> service_ports instance state = Ok ports ->
  forall q, q ∈ ports -> IsManagedInferPublishedPort state instance q = Ok false \/
    q = mkPublishedPort "127.0.0.1" p p \/ q = mkPublishedPort "127.0.0.1" g g.
Proof.
  intros Hr Hp Hg. unfold service_ports, service_is_rpc_worker. rewrite Hr, Hp, Hg.
  replace (Infer ==? Worker) with false by done. rewrite andb_false_r, eqb_refl.
  intros H q Hq. bind_inv.
  apply elem_of_append_unique in Hq as [Hq|Hq]; [|auto].
  apply elem_of_append_unique in Hq as [Hq|Hq]; [|auto].
  apply operator_ports_fold in E as [_ Hf]. destruct (Hf q Hq) as [Hn|?]; [|auto].
  by apply elem_of_nil in Hn.
Qed.

(** ** Lemmas: success and failure *)

Lemma FindDiskByName_ok disks node name :
  is_ok (FindDiskByName disks node name) = true <->
  exists disk, disk ∈ disks /\ disk_name disk = name /\ disk_node_name disk = node.
Proof.
  unfold FindDiskByName. destruct (find_if _ disks) as [d|] eqn:E; simpl.
  - apply find_if_Some in E as [Hd Hin]. to_prop. split; [|done]. intros _. by exists d.
  - rewrite find_if_None in E. split; [done|]. intros (d & Hin & <- & <-).
    specialize (E _ Hin). by rewrite !eqb_refl in E.
Qed.

Definition disk_available (disks : list DiskSpec) (node name : string) : Prop :=
  name = "" \/ exists disk, disk ∈ disks /\ disk_name disk = name /\ disk_node_name disk = node.

Lemma disk_volume_ok disks node name :
  is_ok (disk_volume disks node name) = true <-> disk_available disks node name.
Proof.
  unfold disk_volume, disk_available. destruct (str_empty name) eqn:E.
  - apply str_empty_true in E. simpl. tauto.
  - apply str_empty_false in E. rewrite <-FindDiskByName_ok.
    unfold mbind, result_bind. destruct (FindDiskByName _ _ _); simpl; naive_solver.
Qed.

Lemma service_volumes_ok instance disks state :
  is_ok (service_volumes instance disks state) = true <->
  disk_available disks (inst_node_name instance) (inst_shared_disk_name instance) /\
  disk_available disks (inst_node_name instance) (inst_private_disk_name instance).
Proof.
  unfold service_volumes. rewrite <-!disk_volume_ok. unfold mbind, result_bind.
  destruct (disk_volume disks _ (inst_shared_disk_name instance)); simpl; [|naive_solver].
  destruct (disk_volume disks _ (inst_private_disk_name instance)); simpl; naive_solver.
Qed.

Definition infer_ports_parse (state : DesiredState) (instance : InstanceSpec) : Prop :=
  inst_role instance = Infer ->
  is_ok (InferApiPort state instance) = true /\ is_ok (InferGatewayPort state instance) = true.

Lemma append_operator_port_ok instance state ports port :
  infer_ports_parse state instance ->
  is_ok (append_operator_port instance state ports port) = true.
Proof.
  intros Hp. unfold append_operator_port, IsManagedInferPublishedPort, infer_ports_parse in *.
  destruct (inst_role instance ==? Infer) eqn:Er; simpl; [|done].
  rewrite eqb_true in Er. destruct (negb _); simpl; [done|]. destruct (Hp Er) as [H1 H2].
  destruct (InferApiPort _ _); [|done]. by destruct (InferGatewayPort _ _).
Qed.

Lemma service_ports_ok instance state :
  is_ok (service_ports instance state) = true <-> infer_ports_parse state instance.
Proof.
  split.
  - unfold service_ports, infer_ports_parse. intros H Hr. rewrite Hr, eqb_refl in H.
    unfold mbind, result_bind in H. destruct (foldR _ _ _); [|done].
    destruct (InferApiPort state instance); [|done].
    by destruct (InferGatewayPort state instance).
  - intros Hp. unfold service_ports.
    assert (Hfold : forall l ports,
      is_ok (foldR (append_operator_port instance state) ports l) = true).
    { induction l as [|x l IH]; intros ports; simpl; [done|].
      pose proof (append_operator_port_ok instance state ports x Hp) as Hx.
      unfold mbind, result_bind. destruct (append_operator_port _ _ _ _); [apply IH | done]. }
    unfold mbind, result_bind.
    match goal with |- context [foldR ?f ?s ?l] => specialize (Hfold l s); destruct (foldR f s l) end;
      [|done].
    destruct (inst_role instance ==? Infer) eqn:Er; [|done]. rewrite eqb_true in Er.
    destruct (Hp Er). destruct (InferApiPort _ _); [|done]. by destruct (InferGatewayPort _ _).
Qed.

(** ** Properties *)

(** A published port list never repeats an entry. For an infer instance the
    API and gateway ports are published, and whatever the operator asked for, a
    port mapped straight to one of them is bound to the loopback address only. *)
Theorem infer_ports_loopback_only host instance disks insts state svc p g :
  inst_role instance = Infer ->
  InferApiPort state instance = Ok p -> InferGatewayPort state instance = Ok g ->
  BuildComposeService host instance disks insts state = Ok svc ->
  NoDup (svc_published_ports svc) /\
  mkPublishedPort "127.0.0.1" p p ∈ svc_published_ports svc /\
  mkPublishedPort "127.0.0.1" g g ∈ svc_published_ports svc /\
  forall port, port ∈ svc_published_ports svc ->
    port_host_port port = port_container_port port ->
    port_host_port port = p \/ port_host_port port = g ->
    port_host_ip port = "127.0.0.1".
Proof.
  intros Hr Hp Hg H. unfold BuildComposeService in H. bind_inv.
  destruct (service_gpu _ _ _). bind_inv. simpl.
  split; [by eapply service_ports_NoDup|].
  pose proof (service_ports_infer _ _ _ p g Hr Hp Hg E) as Hall.
  assert (mkPublishedPort "127.0.0.1" p p ∈ a /\ mkPublishedPort "127.0.0.1" g g ∈ a) as [? ?].
  { unfold service_ports in E. rewrite Hr, eqb_refl, Hp, Hg in E. bind_inv.
    rewrite !elem_of_append_unique. auto. }
  repeat split; [done..|]. intros port Hport Heq Hpg.
  destruct (Hall _ Hport) as [Hm|[->| ->]]; [|done|done].
  apply (managed_infer_port_false _ _ _ p g) in Hm; try done. tauto.
Qed.

(** Building a service fails exactly when an infer port variable is not an
    [int], or a disk the instance names is missing on its node. *)
Theorem compose_service_succeeds_iff host instance disks insts state :
  is_ok (BuildComposeService host instance disks insts state) = true <->
  infer_ports_parse state instance /\
  disk_available disks (inst_node_name instance) (inst_shared_disk_name instance) /\
  disk_available disks (inst_node_name instance) (inst_private_disk_name instance).
Proof.
  rewrite <-service_ports_ok, <-(service_volumes_ok _ _ state).
  unfold BuildComposeService, mbind, result_bind.
  destruct (service_ports _ _); simpl; [|naive_solver].
  destruct (service_volumes _ _ _); simpl; [|naive_solver].
  destruct (service_gpu instance insts state). simpl. naive_solver.
Qed.

Lemma build_service_name host instance disks insts state svc :
  BuildComposeService host instance disks insts state = Ok svc -> svc_name svc = inst_name instance.
Proof.
  unfold BuildComposeService. intros H. bind_inv. destruct (service_gpu _ _ _). by bind_inv.
Qed.

Lemma build_services_names host disks insts state l services :
  mapR (fun i => BuildComposeService host i disks insts state) l = Ok services ->
  svc_name <$> services = inst_name <$> l.
Proof.
  intros H%mapR_Forall2. induction H as [|i svc l services Hb _ IH]; [done|].
  rewrite !fmap_cons, IH. f_equal. by eapply build_service_name.
Qed.

(** The compose plans follow the node list: one plan per node, in order,
    with exactly the disks of that node and one service, in order, for each
    instance placed there. *)
Theorem compose_plans_partition host state plans :
  BuildNodeComposePlans host state = Ok plans ->
  ncp_node_name <$> plans = node_name <$> ds_nodes state /\
  forall plan, plan ∈ plans ->
    ncp_disks plan =
      List.filter (fun d => disk_node_name d ==? ncp_node_name plan) (ds_disks state) /\
    svc_name <$> ncp_services plan =
      inst_name <$> List.filter (fun i => inst_node_name i ==? ncp_node_name plan)
                                (ds_instances state).
Proof.
  intros H%mapR_Forall2. split.
  - induction H as [|n plan ns plans Hb _ IH]; [done|]. rewrite !fmap_cons, IH. f_equal.
    unfold build_node_plan in Hb. by bind_inv.
  - induction H as [|n plan ns plans Hb _ IH]; intros plan' Hin; [by apply elem_of_nil in Hin|].
    apply elem_of_cons in Hin as [->|Hin]; [|auto].
    unfold build_node_plan in Hb. bind_inv. simpl. split; [done|].
    by eapply build_services_names.
Qed.

(** ** Witnesses *)

Lemma infer_ports_loopback_only_witness :
  match BuildComposeService None fx_infer fx_disks [fx_infer] fx_plane with
  | Ok svc =>
      NoDup (svc_published_ports svc) /\
      mkPublishedPort "127.0.0.1" 8000 8000 ∈ svc_published_ports svc /\
      mkPublishedPort "127.0.0.1" 8081 8081 ∈ svc_published_ports svc /\
      forall port, port ∈ svc_published_ports svc ->
        port_host_port port = port_container_port port ->
        port_host_port port = 8000 \/ port_host_port port = 8081 ->
        port_host_ip port = "127.0.0.1"
  | Throw _ => False
  end.
Proof.
  destruct (BuildComposeService None fx_infer fx_disks [fx_infer] fx_plane) eqn:E.
  - apply (infer_ports_loopback_only None fx_infer fx_disks [fx_infer] fx_plane a 8000 8081);
      [reflexivity | vm_compute; reflexivity | vm_compute; reflexivity | exact E].
  - vm_compute in E. discriminate E.
Defined.

Lemma compose_plans_partition_witness :
  match BuildNodeComposePlans None fx_plane with
  | Ok plans =>
      ncp_node_name <$> plans = node_name <$> ds_nodes fx_plane /\
      forall plan, plan ∈ plans ->
        ncp_disks plan =
          List.filter (fun d => disk_node_name d ==? ncp_node_name plan) (ds_disks fx_plane) /\
        svc_name <$> ncp_services plan =
          inst_name <$> List.filter (fun i => inst_node_name i ==? ncp_node_name plan)
                                    (ds_instances fx_plane)
  | Throw _ => False
  end.
Proof.
  destruct (BuildNodeComposePlans None fx_plane) eqn:E.
  - apply (compose_plans_partition None fx_plane a E).
  - vm_compute in E. discriminate E.
Defined.
