(* ===== verification/Reconcile.v ===== *)
(** * Reconcile plans

    [common/src/planning/reconcile.cpp]: the diff between the current and the
    desired state of a plane, computed from textual signatures of nodes, disks
    and instances keyed by name.  The template [AppendResourceChanges] is a
    section over the resource type, its key and its signature. *)

From S2P Require Import Prelude Binary64 Models Fixtures.

Inductive ChangeAction := Create | Update | Delete.
#[export] Instance ChangeAction_eq_dec : EqDecision ChangeAction.
Proof. solve_decision. Defined.

Record ResourceChange := mkResourceChange {
  rc_action : ChangeAction;
  rc_resource_type : string;
  rc_resource_id : string;
  rc_details : string;
}.

Record ReconcilePlan := mkReconcilePlan {
  rp_notes : list string;
  rp_warnings : list string;
  rp_changes : list ResourceChange;
}.

(** ** Signatures *)

Definition OptionalValue (value : option string) : string := value_or value "-".

Definition bool01 (b : bool) : string := to_string (if b then 1 else 0).

Definition NodeSignature (node : NodeInventory) : string :=
  let gpu_devices := EffectiveNodeGpuDevices node in
  let gpu_memory_entries :=
    (fun gpu_device => gpu_device +:+ ":" +:+
       to_string (default 0 (node_gpu_memory_mb node !! gpu_device))) <$> gpu_devices in
  node_platform node +:+ "|" +:+ JoinStrings gpu_devices "," +:+ "|" +:+
  JoinStrings gpu_memory_entries ",".

Definition DiskKey (disk : DiskSpec) : string := disk_name disk +:+ "@" +:+ disk_node_name disk.

Definition DiskSignature (disk : DiskSpec) : string :=
  disk_plane_name disk +:+ "|" +:+ disk_owner_name disk +:+ "|" +:+
  DiskKind_ToString (disk_kind disk) +:+ "|" +:+ disk_host_path disk +:+ "|" +:+
  disk_container_path disk +:+ "|" +:+ to_string (disk_size_gb disk).

Definition SortedKeys (values : gmap string string) : list string :=
  std_sort klt (map_keys values).

Definition MapSignature (values : gmap string string) : string :=
  JoinStrings ((fun key => key +:+ "=" +:+ default "" (values !! key)) <$> SortedKeys values) ";".

Definition PublishedPortsSignature (ports : list PublishedPort) : string :=
  let entries :=
    (fun port => port_host_ip port +:+ ":" +:+ to_string (port_host_port port) +:+ ":" +:+
                 to_string (port_container_port port)) <$> ports in
  JoinStrings (std_sort klt entries) ";".

Definition AppModelMountsSignature (mounts : list AppModelMountSpec) : string :=
  let entries :=
    (fun mount =>
       let source_paths := std_sort klt (mount_source_paths mount) in
       mount_name mount +:+ "|" +:+ mount_source_path mount +:+ "|" +:+
       mount_source_node_name mount +:+ "|" +:+ JoinStrings source_paths "," +:+ "|" +:+
       mount_host_path mount +:+ "|" +:+ mount_mount_path mount +:+ "|" +:+
       mount_env_var mount +:+ "|" +:+ bool01 (mount_required mount)) <$> mounts in
  JoinStrings (std_sort klt entries) ";".

Definition InstanceSignature (instance : InstanceSpec) : string :=
  let dependencies := std_sort klt (inst_depends_on instance) in
  InstanceRole_ToString (inst_role instance) +:+ "|" +:+ inst_plane_name instance +:+ "|" +:+
  inst_node_name instance +:+ "|" +:+ inst_image instance +:+ "|" +:+
  inst_command instance +:+ "|" +:+ inst_private_disk_name instance +:+ "|" +:+
  inst_shared_disk_name instance +:+ "|" +:+ OptionalValue (inst_gpu_device instance) +:+ "|" +:+
  PlacementMode_ToString (inst_placement_mode instance) +:+ "|" +:+
  GpuShareMode_ToString (inst_share_mode instance) +:+ "|" +:+
  to_string (inst_priority instance) +:+ "|" +:+ bool01 (inst_preemptible instance) +:+ "|" +:+
  to_string (value_or (inst_memory_cap_mb instance) 0) +:+ "|" +:+
  to_string_double (inst_gpu_fraction instance) +:+ "|" +:+
  to_string (inst_private_disk_size_gb instance) +:+ "|" +:+
  PublishedPortsSignature (inst_published_ports instance) +:+ "|" +:+
  AppModelMountsSignature (inst_app_model_mounts instance) +:+ "|" +:+
  JoinStrings dependencies "," +:+ "|" +:+ MapSignature (inst_environment instance) +:+ "|" +:+
  MapSignature (inst_labels instance).

Definition PlaneSignature (state : DesiredState) : string :=
  ds_plane_name state +:+ "|" +:+ ds_plane_shared_disk_name state.

(** ** The diff *)

Section diff.
Context {T : Type} (resource_type : string) (key_fn signature_fn : T -> string).

(** The map a list of resources is diffed through. *)
Definition by_key (items : list T) : gmap string string :=
  map_of_list_by key_fn signature_fn items.

Definition change_for (current_by_key desired_by_key : gmap string string) (key : string)
    : option ResourceChange :=
  match current_by_key !! key with
  | None => Some (mkResourceChange Create resource_type key "new resource")
  | Some current_signature =>
      match desired_by_key !! key with
      | None => Some (mkResourceChange Delete resource_type key "missing from desired bundle")
      | Some desired_signature =>
          if current_signature !=? desired_signature then
            Some (mkResourceChange Update resource_type key "resource configuration changed")
          else None
      end
  end.

Definition AppendResourceChanges (current_items desired_items : list T)
    (changes : list ResourceChange) : list ResourceChange :=
  let current_by_key := by_key current_items in
  let desired_by_key := by_key desired_items in
  let all_keys : gset string := dom current_by_key ∪ dom desired_by_key in
  changes ++ omap (change_for current_by_key desired_by_key) (set_items all_keys).
End diff.

Definition AppendDesiredStateWarnings (state : DesiredState) (warnings : list string)
    : list string :=
  foldl (fun warnings instance =>
           let warnings :=
             if (inst_role instance ==? Worker) && dlt (inst_gpu_fraction instance) d1 then
               warnings ++ ["worker '" +:+ inst_name instance +:+ "' requests gpu_fraction=" +:+
                            to_string_double (inst_gpu_fraction instance) +:+
                            ", so soft GPU sharing will be required"]
             else warnings in
           if (inst_role instance ==? Worker) && negb (has_value (inst_memory_cap_mb instance)) then
             warnings ++ ["worker '" +:+ inst_name instance +:+
               "' does not set memory_cap_mb, so memory-aware GPU admission cannot be enforced"]
           else warnings)
        warnings (ds_instances state).

(** The three [AppendResourceChanges] calls every branch ends with. *)
Definition append_all_changes (nodes : list NodeInventory) (disks : list DiskSpec)
    (instances : list InstanceSpec) (desired_state : DesiredState)
    (changes : list ResourceChange) : list ResourceChange :=
  AppendResourceChanges "instance" inst_name InstanceSignature instances
    (ds_instances desired_state)
    (AppendResourceChanges "disk" DiskKey DiskSignature disks (ds_disks desired_state)
       (AppendResourceChanges "node" node_name NodeSignature nodes (ds_nodes desired_state)
          changes)).

Definition BuildReconcilePlan (current_state : option DesiredState)
    (desired_state : DesiredState) : ReconcilePlan :=
  match current_state with
  | None =>
      {| rp_notes := ["controller database is empty; all desired resources will be created"];
         rp_warnings := AppendDesiredStateWarnings desired_state [];
         rp_changes :=
           append_all_changes [] [] [] desired_state
             [mkResourceChange Create "plane" (ds_plane_name desired_state) "new plane"] |}
  | Some current =>
      let warnings :=
        if ds_plane_name current !=? ds_plane_name desired_state then
          ["bundle plane '" +:+ ds_plane_name desired_state +:+
           "' differs from current plane '" +:+ ds_plane_name current +:+ "'"]
        else [] in
      let changes :=
        if PlaneSignature current !=? PlaneSignature desired_state then
          [mkResourceChange Update "plane" (ds_plane_name desired_state) "plane metadata changed"]
        else [] in
      let changes := append_all_changes (ds_nodes current) (ds_disks current)
                       (ds_instances current) desired_state changes in
      {| rp_notes := if vec_empty changes then ["current state already matches desired bundle"]
                     else [];
         rp_warnings := AppendDesiredStateWarnings desired_state warnings;
         rp_changes := changes |}
  end.

(** ** Rendering *)

Definition ChangeAction_ToString (action : ChangeAction) : string :=
  match action with Create => "create" | Update => "update" | Delete => "delete" end.


Definition count_action (action : ChangeAction) (plan : ReconcilePlan) : Z :=
  Z.of_nat (length (List.filter (fun c => rc_action c ==? action) (rp_changes plan))).

Definition render_section (title : string) (lines : list string) : string :=
  if vec_empty lines then ""
  else title +:+ newline +:+
       String.concat "" ((fun line => "  - " +:+ line +:+ newline) <$> lines).

Definition RenderReconcilePlan (plan : ReconcilePlan) : string :=
  render_section "notes:" (rp_notes plan) +:+ render_section "warnings:" (rp_warnings plan) +:+
  "changes:" +:+ newline +:+
  "  create=" +:+ to_string (count_action Create plan) +:+ newline +:+
  "  update=" +:+ to_string (count_action Update plan) +:+ newline +:+
  "  delete=" +:+ to_string (count_action Delete plan) +:+ newline +:+
  String.concat "" ((fun change =>
    "  - [" +:+ ChangeAction_ToString (rc_action change) +:+ "] " +:+ rc_resource_type change +:+
    " " +:+ rc_resource_id change +:+
    (if str_empty (rc_details change) then "" else " :: " +:+ rc_details change) +:+ newline)
    <$> rp_changes plan).

(** ** Lemmas: one resource kind *)

(** The abstract effect of one change on the resources keyed by id. *)
Definition apply_change (desired_by_key : gmap string string) (m : gmap string string)
    (change : ResourceChange) : gmap string string :=
  match rc_action change with
  | Create | Update =>
      match desired_by_key !! rc_resource_id change with
      | Some signature => <[rc_resource_id change := signature]> m
      | None => m
      end
  | Delete => delete (rc_resource_id change) m
  end.

Lemma change_for_spec ty cur des key c :
  change_for ty cur des key = Some c ->
  rc_resource_id c = key /\ rc_resource_type c = ty /\
  (is_Some (cur !! key) \/ is_Some (des !! key) -> cur !! key <> des !! key) /\
  (rc_action c = Create <-> cur !! key = None) /\
  (rc_action c = Delete <-> is_Some (cur !! key) /\ des !! key = None) /\
  (rc_action c = Update <-> is_Some (cur !! key) /\ is_Some (des !! key)).
Proof.
  unfold change_for. destruct (cur !! key) as [x|] eqn:Ec, (des !! key) as [y|] eqn:Ed;
    [destruct (x !=? y) eqn:Exy; [|done]| | |]; intros [= <-]; simpl; to_prop;
    repeat split; try done; try congruence; try (by intros [? ?]); try (by intros [[? ?] ?]);
    intros [[? ?]|[? ?]]; congruence.
Qed.

Lemma change_for_None ty cur des key :
  is_Some (cur !! key) \/ is_Some (des !! key) ->
  change_for ty cur des key = None <-> cur !! key = des !! key.
Proof.
  unfold change_for. intros Hs.
  destruct (cur !! key) as [x|] eqn:Ec, (des !! key) as [y|] eqn:Ed; try done.
  - destruct (x !=? y) eqn:Exy; to_prop; naive_solver.
  - naive_solver.
Qed.

Lemma change_for_apply ty cur des m key k :
  m !! key = cur !! key -> is_Some (cur !! key) \/ is_Some (des !! key) ->
  from_option (apply_change des m) m (change_for ty cur des key) !! k =
  if decide (k = key) then des !! key else m !! k.
Proof.
  intros Hm Hs. unfold change_for, apply_change.
  destruct (cur !! key) as [x|] eqn:Ec, (des !! key) as [y|] eqn:Ed; simpl.
  - destruct (x !=? y) eqn:Exy; simpl; [rewrite Ed|to_prop; subst]; case_decide; subst;
      by simplify_map_eq.
  - case_decide; subst; by simplify_map_eq.
  - rewrite Ed. case_decide; subst; by simplify_map_eq.
  - naive_solver.
Qed.

Lemma apply_changes_lookup ty cur des ks m k :
  NoDup ks -> (forall k, k ∈ ks -> m !! k = cur !! k) ->
  (forall k, k ∈ ks -> is_Some (cur !! k) \/ is_Some (des !! k)) ->
  foldl (apply_change des) m (omap (change_for ty cur des) ks) !! k =
  if decide (k ∈ ks) then des !! k else m !! k.
Proof.
  revert m. induction ks as [|key ks IH]; intros m Hnd Hm Hs.
  - rewrite decide_False by apply not_elem_of_nil. done.
  - apply NoDup_cons in Hnd as [Hn Hnd].
    pose proof (fun k => change_for_apply ty cur des m key k (Hm key ltac:(left))
                           (Hs key ltac:(left))) as Hstep.
    assert (Hfold : foldl (apply_change des) m (omap (change_for ty cur des) (key :: ks)) =
      foldl (apply_change des) (from_option (apply_change des m) m (change_for ty cur des key))
            (omap (change_for ty cur des) ks)).
    { simpl. by destruct (change_for ty cur des key). }
    rewrite Hfold, IH; [|done| |by intros; apply Hs; right].
    + rewrite Hstep. destruct (decide (k = key)) as [->|Hne].
      * rewrite decide_False by done. by rewrite decide_True by left.
      * case_decide as H1; case_decide as H2; try done; set_solver.
    + intros k' Hk'. rewrite Hstep, decide_False by (by intros ->). apply Hm. by right.
Qed.

Section diff_facts.
Context {T : Type} (ty : string) (key_fn signature_fn : T -> string).
Implicit Types (current desired : list T).

Lemma elem_of_all_keys current desired k :
  k ∈ set_items (dom (by_key key_fn signature_fn current) ∪
                 dom (by_key key_fn signature_fn desired) : gset string) <->
  is_Some (by_key key_fn signature_fn current !! k) \/
  is_Some (by_key key_fn signature_fn desired !! k).
Proof. by rewrite elem_of_set_items, elem_of_union, !elem_of_dom. Qed.

Lemma elem_of_resource_changes current desired c :
  c ∈ AppendResourceChanges ty key_fn signature_fn current desired [] <->
  exists k, (is_Some (by_key key_fn signature_fn current !! k) \/
             is_Some (by_key key_fn signature_fn desired !! k)) /\
            change_for ty (by_key key_fn signature_fn current)
                          (by_key key_fn signature_fn desired) k = Some c.
Proof.
  unfold AppendResourceChanges. rewrite app_nil_l, list_elem_of_omap.
  setoid_rewrite elem_of_all_keys. done.
Qed.

Lemma resource_change_elem current desired action k :
  (exists c, c ∈ AppendResourceChanges ty key_fn signature_fn current desired [] /\
             rc_action c = action /\ rc_resource_id c = k) <->
  let cur := by_key key_fn signature_fn current !! k in
  let des := by_key key_fn signature_fn desired !! k in
  match action with
  | Create => cur = None /\ is_Some des
  | Delete => is_Some cur /\ des = None
  | Update => is_Some cur /\ is_Some des /\ cur <> des
  end.
Proof.
  setoid_rewrite elem_of_resource_changes. cbv zeta. split.
  - intros (c & (k' & Hs & Hc) & <- & <-). apply change_for_spec in Hc
      as (-> & _ & Hne & Hcr & Hde & Hup). specialize (Hne Hs).
    destruct (rc_action c) eqn:Ea.
    + apply proj1 in Hcr. specialize (Hcr eq_refl). split; [done|].
      destruct Hs as [[? ?]|?]; [congruence | done].
    + apply proj1 in Hup. destruct (Hup eq_refl). done.
    + by apply Hde.
  - intros Ha.
    assert (Hs : is_Some (by_key key_fn signature_fn current !! k) \/
                 is_Some (by_key key_fn signature_fn desired !! k))
      by (destruct action; destruct_and?; auto).
    destruct (change_for ty (by_key key_fn signature_fn current)
                (by_key key_fn signature_fn desired) k) as [c|] eqn:Ec.
    + exists c. pose proof (change_for_spec _ _ _ _ _ Ec) as (-> & _ & _ & Hcr & Hde & Hup).
      split; [by exists k|]. split; [|done].
      destruct action; destruct_and?; [by apply Hcr | by apply Hup | by apply Hde].
    + apply change_for_None in Ec; [|done]. exfalso. rewrite Ec in Ha.
      destruct action; destruct_and?; [|done|].
      * match goal with H : is_Some _ |- _ => destruct H; congruence end.
      * match goal with H : is_Some _ |- _ => destruct H; congruence end.
Qed.

Lemma resource_change_ids_NoDup current desired :
  NoDup (rc_resource_id <$> AppendResourceChanges ty key_fn signature_fn current desired []).
Proof.
  unfold AppendResourceChanges. rewrite app_nil_l.
  generalize (NoDup_set_items (dom (by_key key_fn signature_fn current) ∪
    dom (by_key key_fn signature_fn desired) : gset string)).
  induction (set_items _) as [|k ks IH]; intros Hnd; [constructor|].
  apply NoDup_cons in Hnd as [Hn Hnd]. simpl.
  destruct (change_for ty _ _ k) as [c|] eqn:Ec; [|auto].
  apply change_for_spec in Ec as (Hid & _). rewrite fmap_cons, Hid.
  apply NoDup_cons. split; [|auto]. intros (c' & Hc' & Hin)%list_elem_of_fmap.
  apply list_elem_of_omap in Hin as (k' & Hk' & Ek'). apply change_for_spec in Ek' as (Hid' & _).
  rewrite <-Hc' in Hid'. by subst.
Qed.

Lemma resource_changes_reach current desired :
  foldl (apply_change (by_key key_fn signature_fn desired)) (by_key key_fn signature_fn current)
    (AppendResourceChanges ty key_fn signature_fn current desired []) =
  by_key key_fn signature_fn desired.
Proof.
  apply map_eq. intros k. unfold AppendResourceChanges. rewrite app_nil_l, apply_changes_lookup.
  - case_decide as Hk; [done|]. rewrite elem_of_all_keys in Hk.
    destruct (by_key key_fn signature_fn current !! k) eqn:E1,
             (by_key key_fn signature_fn desired !! k) eqn:E2; naive_solver.
  - apply NoDup_set_items.
  - done.
  - intros k' Hk'. by apply elem_of_all_keys.
Qed.

Lemma resource_changes_nil current desired :
  AppendResourceChanges ty key_fn signature_fn current desired [] = [] <->
  by_key key_fn signature_fn current = by_key key_fn signature_fn desired.
Proof.
  split.
  - intros Hnil. pose proof (resource_changes_reach current desired) as H.
    rewrite Hnil in H. done.
  - intros Heq. destruct (AppendResourceChanges _ _ _ _ _ _) as [|c l] eqn:E; [done|].
    assert (c ∈ AppendResourceChanges ty key_fn signature_fn current desired []) as Hc
      by (rewrite E; left).
    apply elem_of_resource_changes in Hc as (k & Hs & Hc).
    apply change_for_spec in Hc as (_ & _ & Hne & _). exfalso. apply (Hne Hs). by rewrite Heq.
Qed.
End diff_facts.

Lemma AppendResourceChanges_app {T} ty (key_fn signature_fn : T -> string) cur des changes :
  AppendResourceChanges ty key_fn signature_fn cur des changes =
  changes ++ AppendResourceChanges ty key_fn signature_fn cur des [].
Proof. done. Qed.

Lemma append_all_changes_nil nodes disks insts desired changes :
  append_all_changes nodes disks insts desired changes = [] <->
  changes = [] /\
  by_key node_name NodeSignature nodes = by_key node_name NodeSignature (ds_nodes desired) /\
  by_key DiskKey DiskSignature disks = by_key DiskKey DiskSignature (ds_disks desired) /\
  by_key inst_name InstanceSignature insts =
    by_key inst_name InstanceSignature (ds_instances desired).
Proof.
  unfold append_all_changes.
  rewrite !(AppendResourceChanges_app _ _ _ _ _ (AppendResourceChanges _ _ _ _ _ _)).
  rewrite (AppendResourceChanges_app _ _ _ _ _ changes).
  rewrite !app_nil, !resource_changes_nil. tauto.
Qed.

(** ** Properties *)

(** Carrying out the changes of a reconcile plan for one resource kind turns
    the current resources into the desired ones, id by id and signature by
    signature. *)
Theorem reconcile_reaches_desired {T} ty (key_fn signature_fn : T -> string) current desired :
  foldl (apply_change (by_key key_fn signature_fn desired)) (by_key key_fn signature_fn current)
    (AppendResourceChanges ty key_fn signature_fn current desired []) =
  by_key key_fn signature_fn desired.
Proof. apply resource_changes_reach. Qed.

(** A diff names each resource at most once, and with the right action:
    created when only desired, deleted when only current, updated exactly when
    present on both sides with different signatures. *)
Theorem reconcile_actions_exact {T} ty (key_fn signature_fn : T -> string) current desired :
  NoDup (rc_resource_id <$> AppendResourceChanges ty key_fn signature_fn current desired []) /\
  forall action k,
    (exists c, c ∈ AppendResourceChanges ty key_fn signature_fn current desired [] /\
               rc_action c = action /\ rc_resource_id c = k) <->
    let cur := by_key key_fn signature_fn current !! k in
    let des := by_key key_fn signature_fn desired !! k in
    match action with
    | Create => cur = None /\ is_Some des
    | Delete => is_Some cur /\ des = None
    | Update => is_Some cur /\ is_Some des /\ cur <> des
    end.
Proof.
  split; [apply resource_change_ids_NoDup|]. intros. apply resource_change_elem.
Qed.

(** A reconcile plan against an existing state is empty, and says so, exactly
    when the plane, node, disk and instance signatures all agree; in particular
    reconciling a state with itself plans nothing. *)
Theorem reconcile_plan_empty_iff current desired :
  let plan := BuildReconcilePlan (Some current) desired in
  (rp_changes plan = [] <->
   PlaneSignature current = PlaneSignature desired /\
   by_key node_name NodeSignature (ds_nodes current) =
     by_key node_name NodeSignature (ds_nodes desired) /\
   by_key DiskKey DiskSignature (ds_disks current) =
     by_key DiskKey DiskSignature (ds_disks desired) /\
   by_key inst_name InstanceSignature (ds_instances current) =
     by_key inst_name InstanceSignature (ds_instances desired)) /\
  (rp_changes plan = [] <-> rp_notes plan = ["current state already matches desired bundle"]) /\
  rp_changes (BuildReconcilePlan (Some current) current) = [].
Proof.
  cbv zeta. simpl. split; [|split].
  - rewrite append_all_changes_nil.
    destruct (PlaneSignature current !=? PlaneSignature desired) eqn:E; to_prop; naive_solver.
  - destruct (append_all_changes _ _ _ _ _); simpl; naive_solver.
  - apply append_all_changes_nil. by rewrite eqb_refl.
Qed.
