(* ===== verification/Paths.v ===== *)
(** * [std::filesystem::path]

    The part of the POSIX path algebra the planners use: [operator/],
    [is_absolute] and [lexically_relative], on the textual form of a path. *)

From S2P Require Import Prelude.

Definition path_is_absolute (p : string) : bool := starts_with "/" p.

Definition ends_with_slash (p : string) : bool :=
  match rev (list_of_string p) with c :: _ => bool_decide (c = "/"%char) | [] => false end.

(** [lhs / rhs]: an absolute right-hand side replaces the left one; a separator
    is added when the left side has a file name. *)
Definition path_append (lhs rhs : string) : string :=
  if path_is_absolute rhs then rhs
  else if str_empty lhs || ends_with_slash lhs then lhs +:+ rhs
  else lhs +:+ "/" +:+ rhs.

(** The name elements after the root, collapsing repeated separators; a
    trailing separator gives a final empty element. *)
Fixpoint split_names (l cur : list Ascii.ascii) : list string :=
  match l with
  | [] => [string_of_list (rev cur)]
  | c :: l' =>
      if bool_decide (c = "/"%char) then
        match cur with
        | [] => split_names l' []
        | _ => string_of_list (rev cur) :: split_names l' []
        end
      else split_names l' (c :: cur)
  end.

(** Iteration over a path. *)
Definition path_elements (p : string) : list string :=
  match list_of_string p with
  | [] => []
  | l =>
      if path_is_absolute p then
        match split_names l [] with
        | [""] => ["/"]
        | names => "/" :: names
        end
      else split_names l []
  end.

Fixpoint drop_common (a b : list string) : list string * list string :=
  match a, b with
  | x :: a', y :: b' => if x ==? y then drop_common a' b' else (a, b)
  | _, _ => (a, b)
  end.

Definition relative_depth (rest : list string) : Z :=
  foldl (fun n e => if str_empty e || (e ==? ".") then n
                    else if e ==? ".." then n - 1 else n + 1) 0 rest.

Definition lexically_relative (p base : string) : string :=
  if xorb (path_is_absolute p) (path_is_absolute base) then ""
  else
    let '(a, b) := drop_common (path_elements p) (path_elements base) in
    match a, b with
    | [], [] => "."
    | _, _ =>
        let n := relative_depth b in
        if n <? 0 then ""
        else if (n =? 0) && match a with [] => true | e :: _ => str_empty e end then "."
        else foldl path_append "" (replicate (Z.to_nat n) ".." ++ a)
    end.

Example relative_1 : lexically_relative "/naim/shared/control/demo" "/naim/shared" = "control/demo".
Proof. reflexivity. Qed.
Example relative_2 : lexically_relative "/a/d" "/a/b/c" = "../../d".
Proof. reflexivity. Qed.
Example relative_3 : lexically_relative "/a/b/c" "/a/b/c" = ".".
Proof. reflexivity. Qed.
Example relative_4 : lexically_relative "/a/b/" "/a/b" = ".".
Proof. reflexivity. Qed.
Example append_1 : path_append (path_append "infer" "x") "infer-runtime.json"
                   = "infer/x/infer-runtime.json".
Proof. reflexivity. Qed.
Example append_2 : (path_append "a/" "b", path_append "a" "/b", path_append "a" "") = ("a/b", "/b", "a/").
Proof. reflexivity. Qed.
