(* ===== verification/InferRuntimeConfig.v ===== *)
(** * The infer runtime configuration

    [common/src/runtime/infer_runtime_config.cpp]: the JSON document an infer
    instance boots from.  A JSON value is kept as the code builds it (an object
    is its list of fields); serialisation, [json::dump(2)] of the third-party
    library, is the section variable [dump] (it throws on text that is not UTF-8). *)

From S2P Require Import Prelude Binary64 Json Models Paths WorkerTopology Planner.

Definition WorkerAssignedToInfer (member : WorkerGroupMemberSpec) (infer_instance_name : string)
    : bool :=
  wgm_enabled member &&
  (str_empty (wgm_infer_instance_name member) ||
   (wgm_infer_instance_name member ==? infer_instance_name)).

(** Scans [text] with the current token reversed in [cur]. *)
Fixpoint split_commas (text cur : list Ascii.ascii) : list string :=
  match text with
  | [] => match cur with [] => [] | _ => [string_of_list (rev cur)] end
  | ch :: rest =>
      if bool_decide (ch = ","%char) then
        match cur with
        | [] => split_commas rest []
        | _ => string_of_list (rev cur) :: split_commas rest []
        end
      else
        let n := char_code ch in
        if (n =? 32) || (n =? 9) || (n =? 10) || (n =? 13) then split_commas rest cur
        else split_commas rest (ch :: cur)
  end.

Definition SplitCommaSeparated (text : string) : list string :=
  split_commas (list_of_string text) [].

Definition ResolveInferPort (infer : InstanceSpec) (env_name : string) (fallback : Z) : result Z :=
  match inst_environment infer !! env_name with
  | None => Ok fallback
  | Some value => if str_empty value then Ok fallback else stoi value
  end.

Definition RequireInferInstanceByName (state : DesiredState) (infer_instance_name : string)
    : result InstanceSpec :=
  match find_if (fun instance =>
           (inst_role instance ==? Infer) &&
           (str_empty infer_instance_name || (inst_name instance ==? infer_instance_name)))
          (ds_instances state) with
  | Some instance => Ok instance
  | None =>
      if str_empty infer_instance_name then
        Throw "desired state does not contain an infer instance"
      else Throw ("desired state does not contain infer instance '" +:+
                  infer_instance_name +:+ "'")
  end.

Definition RequireDefaultInferInstance (state : DesiredState) : result InstanceSpec :=
  match find_if (fun instance => inst_role instance ==? Infer) (ds_instances state) with
  | Some instance => Ok instance
  | None => Throw "desired state does not contain an infer instance"
  end.

Definition SelectedWorkerNames (state : DesiredState) (infer_instance_name : string)
    : gset string :=
  list_to_set (wgm_name <$> List.filter (fun member =>
    WorkerAssignedToInfer member infer_instance_name) (wg_members (ds_worker_group state))).

(** [!selected.empty() && selected.count(name) == 0] *)
Definition worker_deselected (selected : gset string) (name : string) : bool :=
  bool_decide (selected <> ∅) && bool_decide (name ∉ selected).

Definition optional_int (key : string) (value : option Z) : list (string * json) :=
  match value with Some v => [(key, JInt v)] | None => [] end.

Definition gpu_node_fields (gpu_node : RuntimeGpuNode) : list (string * json) :=
  [("name", JString (gpun_name gpu_node));
   ("node_name", JString (gpun_node_name gpu_node));
   ("gpu_device", JString (gpun_gpu_device gpu_node));
   ("placement_mode", JString (PlacementMode_ToString (gpun_placement_mode gpu_node)));
   ("share_mode", JString (GpuShareMode_ToString (gpun_share_mode gpu_node)));
   ("gpu_fraction", JDouble (gpun_gpu_fraction gpu_node));
   ("priority", JInt (gpun_priority gpu_node));
   ("preemptible", JBool (gpun_preemptible gpu_node));
   ("enabled", JBool (gpun_enabled gpu_node))].

Definition instance_fields (instance : InstanceSpec) : list (string * json) :=
  [("name", JString (inst_name instance));
   ("node_name", JString (inst_node_name instance));
   ("gpu_device", JString (value_or (inst_gpu_device instance) ""));
   ("placement_mode", JString (PlacementMode_ToString (inst_placement_mode instance)));
   ("share_mode", JString (GpuShareMode_ToString (inst_share_mode instance)));
   ("gpu_fraction", JDouble (inst_gpu_fraction instance));
   ("priority", JInt (inst_priority instance));
   ("preemptible", JBool (inst_preemptible instance));
   ("enabled", JBool true)].

Definition BuildGpuNodesJson (state : DesiredState) (infer_instance_name : string) : json :=
  let selected_workers := SelectedWorkerNames state infer_instance_name in
  if negb (vec_empty (ds_runtime_gpu_nodes state)) then
    JArray ((fun gpu_node =>
               JObject (gpu_node_fields gpu_node ++
                        optional_int "memory_cap_mb" (gpun_memory_cap_mb gpu_node)))
            <$> List.filter (fun gpu_node => negb (worker_deselected selected_workers
                               (gpun_name gpu_node))) (ds_runtime_gpu_nodes state))
  else
    JArray ((fun instance =>
               JObject (instance_fields instance ++
                        optional_int "memory_cap_mb" (inst_memory_cap_mb instance)))
            <$> List.filter (fun instance => (inst_role instance ==? Worker) &&
                  negb (worker_deselected selected_workers (inst_name instance)))
                (ds_instances state)).

Definition BuildServingWorkersJson (state : DesiredState) (infer_instance_name : string)
    : result json :=
  infer ← RequireInferInstanceByName state infer_instance_name;
  let selected_workers := SelectedWorkerNames state infer_instance_name in
  let colocated node := ("colocated_with_primary_infer", JBool (node ==? inst_node_name infer)) in
  Ok (if negb (vec_empty (ds_runtime_gpu_nodes state)) then
        JArray ((fun gpu_node =>
                   JObject (gpu_node_fields gpu_node ++
                            optional_int "memory_cap_mb" (gpun_memory_cap_mb gpu_node) ++
                            [colocated (gpun_node_name gpu_node)]))
                <$> List.filter (fun gpu_node => negb (worker_deselected selected_workers
                                   (gpun_name gpu_node))) (ds_runtime_gpu_nodes state))
      else
        JArray ((fun instance =>
                   JObject (instance_fields instance ++ [colocated (inst_node_name instance)] ++
                            optional_int "memory_cap_mb" (inst_memory_cap_mb instance)))
                <$> List.filter (fun instance => (inst_role instance ==? Worker) &&
                      negb (worker_deselected selected_workers (inst_name instance)))
                    (ds_instances state))).

Definition member_json (state : DesiredState) (infer : InstanceSpec)
    (member : WorkerGroupMemberSpec) : json :=
  let colocated_with_primary_infer := wgm_node_name member ==? inst_node_name infer in
  let rpc_port :=
    if (inf_runtime_engine (ds_inference state) ==? "llama.cpp") &&
       (inf_distributed_backend (ds_inference state) ==? "llama_rpc")
    then StableLlamaRpcWorkerPort (ds_plane_name state) (wgm_name member)
    else wgm_rpc_port member in
  let rpc_endpoint :=
    if 0 <? rpc_port then
      if colocated_with_primary_infer && negb (str_empty (wgm_name member)) then
        wgm_name member +:+ ":" +:+ to_string rpc_port
      else if negb (str_empty (wgm_node_name member)) then
        wgm_node_name member +:+ ":" +:+ to_string rpc_port
      else ""
    else "" in
  JObject
    ([("name", JString (wgm_name member));
      ("infer_instance_name", JString (wgm_infer_instance_name member));
      ("node_name", JString (wgm_node_name member));
      ("gpu_device", JString (wgm_gpu_device member));
      ("rank", JInt (wgm_rank member));
      ("replica_group_id", JString (wgm_replica_group_id member));
      ("replica_index", JInt (wgm_replica_index member));
      ("replica_size", JInt (wgm_replica_size member));
      ("replica_leader", JBool (wgm_replica_leader member));
      ("data_parallel_rank", JInt (wgm_data_parallel_rank member));
      ("data_parallel_size", JInt (wgm_data_parallel_size member));
      ("data_parallel_size_local", JInt (wgm_data_parallel_size_local member));
      ("data_parallel_start_rank", JInt (wgm_data_parallel_start_rank member));
      ("data_parallel_api_endpoint", JBool (wgm_data_parallel_api_endpoint member));
      ("data_parallel_head_address", JString (wgm_data_parallel_head_address member));
      ("data_parallel_rpc_port", JInt (wgm_data_parallel_rpc_port member));
      ("rpc_port", JInt rpc_port);
      ("rpc_endpoint", JString rpc_endpoint);
      ("colocated_with_primary_infer", JBool colocated_with_primary_infer);
      ("gpu_fraction", JDouble (wgm_gpu_fraction member));
      ("share_mode", JString (GpuShareMode_ToString (wgm_share_mode member)));
      ("priority", JInt (wgm_priority member));
      ("preemptible", JBool (wgm_preemptible member));
      ("enabled", JBool (wgm_enabled member));
      ("leader", JBool (wgm_leader member))] ++
     optional_int "memory_cap_mb" (wgm_memory_cap_mb member)).

Definition BuildWorkerGroupJson (state : DesiredState) (infer_instance_name : string)
    : result json :=
  infer ← RequireInferInstanceByName state infer_instance_name;
  let group := ds_worker_group state in
  let selected := List.filter (fun member => WorkerAssignedToInfer member infer_instance_name)
                              (wg_members group) in
  let selected_member_count := Z.of_nat (length selected) in
  Ok (JObject
    [("group_id", JString (wg_group_id group));
     ("infer_instance_name",
        JString (if str_empty infer_instance_name then wg_infer_instance_name group
                 else infer_instance_name));
     ("distributed_backend", JString (wg_distributed_backend group));
     ("rendezvous_host", JString (wg_rendezvous_host group));
     ("rendezvous_port", JInt (wg_rendezvous_port group));
     ("expected_workers", JInt (if 0 <? selected_member_count then selected_member_count
                                else wg_expected_workers group));
     ("worker_selection_policy", JString (wg_worker_selection_policy group));
     ("members", JArray (member_json state infer <$> selected))]).

Definition InferRuntimeConfigRelativePath (infer_instance_name : string) : string :=
  if str_empty infer_instance_name then "infer-runtime.json"
  else path_append (path_append "infer" infer_instance_name) "infer-runtime.json".

Definition InferRuntimeConfigControlPath (control_root infer_instance_name : string) : string :=
  if str_empty control_root then InferRuntimeConfigRelativePath infer_instance_name
  else path_append control_root (InferRuntimeConfigRelativePath infer_instance_name).

Definition InferRuntimeStatusRelativePath (infer_instance_name : string) : string :=
  if str_empty infer_instance_name then "runtime-status.json"
  else path_append (path_append "infer" infer_instance_name) "runtime-status.json".

Definition InferRuntimeStatusControlPath (control_root infer_instance_name : string) : string :=
  if str_empty control_root then InferRuntimeStatusRelativePath infer_instance_name
  else path_append control_root (InferRuntimeStatusRelativePath infer_instance_name).

(** [environment.count(key) == 0 ? fallback : environment.at(key)] *)
Definition env_or (infer : InstanceSpec) (key fallback : string) : string :=
  default fallback (inst_environment infer !! key).

Definition inference_json (state : DesiredState) (infer : InstanceSpec) (api_port llama_port : Z)
    : json :=
  let inference := ds_inference state in
  JObject
    [("primary_infer_node", JString (inst_node_name infer));
     ("runtime_engine", JString (inf_runtime_engine inference));
     ("runtime_flavor", JString (env_or infer "NAIM_LLAMA_RUNTIME_FLAVOR" "default"));
     ("data_parallel_mode", JString (inf_data_parallel_mode inference));
     ("data_parallel_lb_mode", JString (inf_data_parallel_lb_mode inference));
     ("api_server_count", JInt (inf_api_server_count inference));
     ("worker_group_id", JString (inf_worker_group_id inference));
     ("distributed_backend", JString (inf_distributed_backend inference));
     ("worker_selection_policy", JString (inf_worker_selection_policy inference));
     ("net_if", JString (inf_net_if inference));
     ("models_root", JString (inf_models_root inference));
     ("model_cache_dir", JString (inf_model_cache_dir inference));
     ("runtime_log_dir", JString (inf_runtime_log_dir inference));
     ("api_port", JInt api_port);
     ("max_model_len", JInt (inf_max_model_len inference));
     ("tensor_parallel_size", JInt (inf_tensor_parallel_size inference));
     ("pipeline_parallel_size", JInt (inf_pipeline_parallel_size inference));
     ("max_num_seqs", JInt (inf_max_num_seqs inference));
     ("gpu_memory_utilization", JDouble (inf_gpu_memory_utilization inference));
     ("enforce_eager", JBool (inf_enforce_eager inference));
     ("gguf_cache_dir", JString (inf_gguf_cache_dir inference));
     ("infer_log_dir", JString (inf_infer_log_dir inference));
     ("llama_port", JInt llama_port);
     ("llama_ctx_size", JInt (inf_llama_ctx_size inference));
     ("llama_threads", JInt (inf_llama_threads inference));
     ("llama_gpu_layers", JInt (inf_llama_gpu_layers inference));
     ("inference_healthcheck_retries", JInt (inf_inference_healthcheck_retries inference));
     ("inference_healthcheck_interval_sec",
        JInt (inf_inference_healthcheck_interval_sec inference));
     ("rendezvous_port", JInt (inf_rendezvous_port inference))].

(** The document before serialisation. *)
Definition infer_runtime_config (state : DesiredState) (infer_instance_name : string)
    : result json :=
  infer ← RequireInferInstanceByName state infer_instance_name;
  api_port ← ResolveInferPort infer "NAIM_INFERENCE_PORT" (inf_api_port (ds_inference state));
  gateway_listen_port ←
    ResolveInferPort infer "NAIM_GATEWAY_PORT" (gw_listen_port (ds_gateway state));
  llama_port ← ResolveInferPort infer "NAIM_LLAMA_PORT" (inf_llama_port (ds_inference state));
  let replica_upstreams :=
    match inst_environment infer !! "NAIM_REPLICA_UPSTREAMS" with
    | None => []
    | Some text => SplitCommaSeparated text
    end in
  serving_workers ← BuildServingWorkersJson state (inst_name infer);
  worker_group ← BuildWorkerGroupJson state (inst_name infer);
  Ok (JObject
    [("naim_version", JString "0.1.0");
     ("instance", JObject [("name", JString (inst_name infer))]);
     ("plane", JObject [("name", JString (ds_plane_name state));
                        ("control_root", JString (ds_control_root state))]);
     ("control", JObject [("root", JString (ds_control_root state));
                          ("controller_url", JString (env_or infer "NAIM_CONTROLLER_URL"
                                                        "http://controller.internal:8080"))]);
     ("gpu_nodes", BuildGpuNodesJson state (inst_name infer));
     ("serving_workers", serving_workers);
     ("inference", inference_json state infer api_port llama_port);
     ("worker_group", worker_group);
     ("replica_upstreams", JArray (JString <$> replica_upstreams));
     ("gateway", JObject [("listen_host", JString (gw_listen_host (ds_gateway state)));
                          ("listen_port", JInt gateway_listen_port);
                          ("server_name", JString (gw_server_name (ds_gateway state)))])]).

Section render.
Context (dump : json -> result string).

Definition RenderInferRuntimeConfigJsonForInstance (state : DesiredState)
    (infer_instance_name : string) : result string :=
  value ← infer_runtime_config state infer_instance_name;
  dump value.

Definition RenderInferRuntimeConfigJson (state : DesiredState) : result string :=
  infer ← RequireDefaultInferInstance state;
  RenderInferRuntimeConfigJsonForInstance state (inst_name infer).
End render.

(** ** Lemmas: comma-separated lists *)

Definition separator (c : Ascii.ascii) : bool :=
  let n := char_code c in
  bool_decide (c = ","%char) || (n =? 32) || (n =? 9) || (n =? 10) || (n =? 13).

(** A token: not empty, and free of commas and blanks. *)
Definition clean_token (s : string) : Prop :=
  s <> "" /\ Forall (fun c => separator c = false) (list_of_string s).

Lemma string_list_roundtrip s : string_of_list (list_of_string s) = s.
Proof. induction s as [|c s IH]; simpl; [done | by rewrite IH]. Qed.
Lemma list_string_roundtrip l : list_of_string (string_of_list l) = l.
Proof. induction l as [|c l IH]; simpl; [done | by rewrite IH]. Qed.
Lemma list_of_string_app s t : list_of_string (s +:+ t) = list_of_string s ++ list_of_string t.
Proof. induction s as [|c s IH]; simpl; [done|]. f_equal. apply IH. Qed.
Lemma list_of_string_nil s : list_of_string s = [] <-> s = "".
Proof. by destruct s. Qed.

Lemma split_commas_token t text cur :
  Forall (fun c => separator c = false) t ->
  split_commas (t ++ text) cur = split_commas text (rev t ++ cur).
Proof.
  revert cur. induction t as [|c t IH]; intros cur Hf; simpl; [done|].
  apply Forall_cons in Hf as [Hc Hf]. unfold separator in Hc. cbv zeta in Hc.
  repeat apply orb_false_iff in Hc as [Hc ?]. rewrite Hc. cbv zeta.
  repeat match goal with H : (_ =? _) = false |- _ => rewrite H; clear H end. simpl.
  rewrite IH by done. by rewrite <-app_assoc.
Qed.

Lemma split_commas_tokens text cur :
  Forall (fun c => separator c = false) cur ->
  Forall clean_token (split_commas text cur).
Proof.
  assert (Hend : forall cur, cur <> [] -> Forall (fun c => separator c = false) cur ->
            clean_token (string_of_list (rev cur))).
  { intros l Hne Hf. split.
    - rewrite <-list_of_string_nil, list_string_roundtrip. intros Hr. apply Hne.
      by rewrite <-(rev_involutive l), Hr.
    - rewrite list_string_roundtrip. by apply Forall_rev. }
  revert cur. induction text as [|c text IH]; intros cur Hf; simpl.
  - destruct cur; [constructor|]. repeat constructor; by apply Hend.
  - case_bool_decide as Hc.
    + destruct cur; [by apply IH|]. constructor; [by apply Hend | by apply IH].
    + destruct (_ || _) eqn:Hs; [by apply IH|]. apply IH. constructor; [|done].
      unfold separator. rewrite bool_decide_false by done. cbv zeta. by rewrite orb_false_l.
Qed.

(** ** Properties *)

(** Splitting the upstream list yields clean tokens only, and is the inverse
    of joining clean tokens with commas. *)
Theorem split_join_roundtrip :
  (forall text, Forall clean_token (SplitCommaSeparated text)) /\
  (forall tokens, Forall clean_token tokens ->
     SplitCommaSeparated (JoinStrings tokens ",") = tokens).
Proof.
  split; [intros; apply split_commas_tokens; constructor|].
  intros tokens Hf. unfold SplitCommaSeparated.
  assert (Htok : forall t, clean_token t -> rev (list_of_string t) <> []).
  { intros t [Ht _] Hr. apply Ht. rewrite <-list_of_string_nil.
    by rewrite <-(rev_involutive (list_of_string t)), Hr. }
  induction tokens as [|t tokens IH]; [done|]. apply Forall_cons in Hf as [Ht Hf].
  destruct tokens as [|t' tokens].
  - simpl. rewrite <-(app_nil_r (list_of_string t)), split_commas_token by apply Ht. simpl.
    rewrite app_nil_r. destruct (rev (list_of_string t)) eqn:E; [by apply Htok in E|].
    rewrite <-E, rev_involutive. by rewrite string_list_roundtrip.
  - change (JoinStrings (t :: t' :: tokens) ",") with (t +:+ "," +:+ JoinStrings (t' :: tokens) ",").
    rewrite !list_of_string_app, split_commas_token by apply Ht. rewrite app_nil_r.
    destruct (rev (list_of_string t)) eqn:E; [by apply Htok in E|]. rewrite <-E.
    cbn [list_of_string app split_commas]. rewrite bool_decide_true by done.
    rewrite E, <-E, rev_involutive, string_list_roundtrip. f_equal. by apply IH.
Qed.

(** The compose service and the runtime configuration of a plane agree on
    every port: the API and gateway ports an infer service publishes are the ones
    its configuration listens on, and the RPC port the configuration dials for a
    group member is the one the llama-rpc worker of that name publishes. *)
Theorem planner_config_ports_agree state infer worker member :
  InferApiPort state infer =
    ResolveInferPort infer "NAIM_INFERENCE_PORT" (inf_api_port (ds_inference state)) /\
  InferGatewayPort state infer =
    ResolveInferPort infer "NAIM_GATEWAY_PORT" (gw_listen_port (ds_gateway state)) /\
  (service_is_rpc_worker worker state = true -> wgm_name member = inst_name worker ->
   exists fields, member_json state infer member = JObject fields /\
     ("rpc_port", JInt (service_rpc_port worker state)) ∈ fields).
Proof.
  split; [|split].
  - unfold InferApiPort, IntEnvValue, ResolveInferPort.
    destruct (inst_environment infer !! _); [|done]. destruct (str_empty s); [done|].
    by destruct (stoi s).
  - unfold InferGatewayPort, IntEnvValue, ResolveInferPort.
    destruct (inst_environment infer !! _); [|done]. destruct (str_empty s); [done|].
    by destruct (stoi s).
  - unfold service_is_rpc_worker, service_rpc_port, ManagedLlamaRpcWorkerPort. intros Hw Hname.
    rewrite Hw. apply andb_true_iff in Hw as [Hl _]. unfold UsesLlamaRpcRuntime in Hl.
    eexists. split; [reflexivity|]. rewrite Hl, Hname. apply elem_of_app. left.
    repeat first [left | right].
Qed.
