(* ===== verification/ExecutionPlan.v ===== *)
(** * Host execution plans

    [common/src/planning/execution_plan.cpp]: per node, the ordered list of host
    operations that takes the node from the current to the desired state: disks,
    services, infer runtime configurations, then the compose project.  The
    contract is an abstract host machine ([exec], [run]) on which a plan is
    replayed. *)

From S2P Require Import Prelude Binary64 Json Models Fixtures Paths InferRuntimeConfig Reconcile.

Inductive HostOperationKind :=
  | EnsureDisk | RemoveDisk | EnsureService | RemoveService
  | WriteInferRuntimeConfig | RemoveInferRuntimeConfig
  | WriteComposeFile | RemoveComposeFile | ComposeUp | ComposeDown.
#[export] Instance HostOperationKind_eq_dec : EqDecision HostOperationKind.
Proof. solve_decision. Defined.

Record HostOperation := mkHostOperation {
  op_kind : HostOperationKind;
  op_target : string;
  op_details : string;
}.

Record NodeExecutionPlan := mkNodeExecutionPlan {
  nep_plane_name : string;
  nep_node_name : string;
  nep_compose_file_path : string;
  nep_operations : list HostOperation;
}.

(** ** Signatures of this translation unit *)

Definition DiskSignature (disk : DiskSpec) : string :=
  disk_plane_name disk +:+ "|" +:+ disk_owner_name disk +:+ "|" +:+ disk_host_path disk +:+ "|" +:+
  disk_container_path disk +:+ "|" +:+ to_string (disk_size_gb disk) +:+ "|" +:+
  DiskKind_ToString (disk_kind disk).

Definition MapSignature (values : gmap string string) : string :=
  JoinStrings ((fun '(key, value) => key +:+ "=" +:+ value) <$> map_items values) ";".

Definition InstanceSignature (instance : InstanceSpec) : string :=
  inst_node_name instance +:+ "|" +:+ inst_image instance +:+ "|" +:+
  inst_command instance +:+ "|" +:+ inst_private_disk_name instance +:+ "|" +:+
  inst_shared_disk_name instance +:+ "|" +:+ OptionalValue (inst_gpu_device instance) +:+ "|" +:+
  GpuShareMode_ToString (inst_share_mode instance) +:+ "|" +:+
  to_string_double (inst_gpu_fraction instance) +:+ "|" +:+
  to_string (inst_priority instance) +:+ "|" +:+ bool01 (inst_preemptible instance) +:+ "|" +:+
  to_string (value_or (inst_memory_cap_mb instance) 0) +:+ "|" +:+
  PublishedPortsSignature (inst_published_ports instance) +:+ "|" +:+
  AppModelMountsSignature (inst_app_model_mounts instance) +:+ "|" +:+
  MapSignature (inst_environment instance) +:+ "|" +:+ MapSignature (inst_labels instance).

Definition BuildDiskMapForNode (disks : list DiskSpec) (node_name : string)
    : gmap string DiskSpec :=
  map_of_list_by DiskKey id (List.filter (fun disk => disk_node_name disk ==? node_name) disks).

Definition BuildInstanceMapForNode (instances : list InstanceSpec) (node_name : string)
    : gmap string InstanceSpec :=
  map_of_list_by inst_name id
    (List.filter (fun instance => inst_node_name instance ==? node_name) instances).

Definition map_nonempty {V} (m : gmap string V) : bool := negb (vec_empty (map_items m)).

Definition HasDesiredServices (desired_instances : gmap string InstanceSpec) : bool :=
  map_nonempty desired_instances.
Definition HasCurrentServices (current_instances : gmap string InstanceSpec) : bool :=
  map_nonempty current_instances.

Definition ComposePath (artifacts_root plane_name node_name : string) : string :=
  path_append (path_append (path_append artifacts_root plane_name) node_name) "docker-compose.yml".

Definition infer_on_node (node_name : string) (instance : InstanceSpec) : bool :=
  (inst_node_name instance ==? node_name) && (inst_role instance ==? Infer).

(** The control root below the shared disk's container path; ["control/<plane>"]
    when the configured root does not lie under it. *)
Definition relative_control_path (state : DesiredState) (shared_container_path : string)
    : string :=
  let control_text := ds_control_root state in
  let relative :=
    if negb (str_empty control_text) && path_is_absolute control_text &&
       path_is_absolute shared_container_path then
      if control_text ==? shared_container_path then "."
      else if starts_with (shared_container_path +:+ "/") control_text
      then lexically_relative control_text shared_container_path
      else ""
    else "" in
  if str_empty relative then path_append "control" (ds_plane_name state) else relative.

Definition ControlRootPathForNode (state : DesiredState) (node_name : string) : option string :=
  if negb (any_of (infer_on_node node_name) (ds_instances state)) then None
  else
    match find_if (fun disk => (disk_node_name disk ==? node_name) &&
                               (disk_kind disk ==? PlaneShared)) (ds_disks state) with
    | None => None
    | Some shared_disk =>
        Some (path_append (disk_host_path shared_disk)
                (relative_control_path state (disk_container_path shared_disk)))
    end.

Definition infers_on (state : DesiredState) (node_name : string) : list InstanceSpec :=
  List.filter (infer_on_node node_name) (ds_instances state).

Definition InferRuntimeConfigPathsForNode (state : DesiredState) (node_name : string)
    : gmap string string :=
  match ControlRootPathForNode state node_name with
  | None => ∅
  | Some control_root =>
      map_of_list_by inst_name
        (fun instance => path_append control_root
                           (InferRuntimeConfigRelativePath (inst_name instance)))
        (infers_on state node_name)
  end.

Definition HasWriteInferRuntimeConfigOperation (operations : list HostOperation)
    (infer_instance_name : string) : bool :=
  any_of (fun operation => (op_kind operation ==? WriteInferRuntimeConfig) &&
                           (op_details operation ==? infer_instance_name)) operations.

(** ** The phases of one node's plan *)

Definition ensure_disk_ops (current_disks : gmap string DiskSpec) (item : string * DiskSpec)
    : list HostOperation :=
  let '(key, disk) := item in
  match current_disks !! key with
  | None => [mkHostOperation EnsureDisk key (disk_host_path disk)]
  | Some current =>
      if DiskSignature current !=? DiskSignature disk then
        [mkHostOperation RemoveDisk key (disk_host_path current);
         mkHostOperation EnsureDisk key (disk_host_path disk)]
      else []
  end.

Definition remove_disk_ops (desired_disks : gmap string DiskSpec) (item : string * DiskSpec)
    : list HostOperation :=
  let '(key, disk) := item in
  if has_value (desired_disks !! key) then []
  else [mkHostOperation RemoveDisk key (disk_host_path disk)].

Definition ensure_service_ops (current_instances : gmap string InstanceSpec)
    (item : string * InstanceSpec) : list HostOperation :=
  let '(name, instance) := item in
  match current_instances !! name with
  | Some current =>
      if InstanceSignature current !=? InstanceSignature instance
      then [mkHostOperation EnsureService name (inst_image instance)] else []
  | None => [mkHostOperation EnsureService name (inst_image instance)]
  end.

Definition remove_service_ops (desired_instances : gmap string InstanceSpec)
    (item : string * InstanceSpec) : list HostOperation :=
  let '(name, instance) := item in
  if has_value (desired_instances !! name) then []
  else [mkHostOperation RemoveService name (inst_image instance)].

Definition write_config_ops
    (current_paths current_signatures desired_signatures : gmap string string)
    (item : string * string) : list HostOperation :=
  let '(infer_instance_name, desired_runtime_path) := item in
  let needs_write :=
    match current_paths !! infer_instance_name, current_signatures !! infer_instance_name,
          desired_signatures !! infer_instance_name with
    | Some current_path, Some current_signature, Some desired_signature =>
        (current_path !=? desired_runtime_path) || (current_signature !=? desired_signature)
    | _, _, _ => true
    end in
  if needs_write
  then [mkHostOperation WriteInferRuntimeConfig desired_runtime_path infer_instance_name] else [].

Definition remove_config_ops (desired_paths : gmap string string) (item : string * string)
    : list HostOperation :=
  let '(infer_instance_name, current_runtime_path) := item in
  if has_value (desired_paths !! infer_instance_name) then []
  else [mkHostOperation RemoveInferRuntimeConfig current_runtime_path infer_instance_name].

(** Configurations not already rewritten are rewritten before compose-up: one
    round of the loop that appends to the plan it inspects. *)
Definition refresh_config (operations : list HostOperation) (item : string * string)
    : list HostOperation :=
  let '(infer_instance_name, desired_runtime_path) := item in
  if HasWriteInferRuntimeConfigOperation operations infer_instance_name then operations
  else operations ++
       [mkHostOperation WriteInferRuntimeConfig desired_runtime_path infer_instance_name].

Section plans.
Context (dump : json -> result string).

Definition InferRuntimeSignaturesForNode (state : DesiredState) (node_name : string)
    : result (gmap string string) :=
  foldR (fun acc instance =>
           text ← RenderInferRuntimeConfigJsonForInstance dump state (inst_name instance);
           Ok (<[inst_name instance := text]> acc))
        ∅ (infers_on state node_name).

(** The body of the loop over node names. *)
Definition build_node_execution_plan (current_state : option DesiredState)
    (desired_state : DesiredState) (artifacts_root node_name : string)
    : result NodeExecutionPlan :=
  let current_disks :=
    from_option (fun s => BuildDiskMapForNode (ds_disks s) node_name) ∅ current_state in
  let desired_disks := BuildDiskMapForNode (ds_disks desired_state) node_name in
  let current_instances :=
    from_option (fun s => BuildInstanceMapForNode (ds_instances s) node_name) ∅ current_state in
  let desired_instances := BuildInstanceMapForNode (ds_instances desired_state) node_name in
  let has_current_services := HasCurrentServices current_instances in
  let has_desired_services := HasDesiredServices desired_instances in
  let current_paths :=
    from_option (fun s => InferRuntimeConfigPathsForNode s node_name) ∅ current_state in
  let desired_paths := InferRuntimeConfigPathsForNode desired_state node_name in
  current_signatures ←
    match current_state with
    | Some s => InferRuntimeSignaturesForNode s node_name
    | None => Ok ∅
    end;
  desired_signatures ← InferRuntimeSignaturesForNode desired_state node_name;
  let current_plane_name :=
    from_option ds_plane_name (ds_plane_name desired_state) current_state in
  let desired_plane_name :=
    if str_empty (ds_plane_name desired_state) then current_plane_name
    else ds_plane_name desired_state in
  let current_compose_path := ComposePath artifacts_root current_plane_name node_name in
  let desired_compose_path := ComposePath artifacts_root desired_plane_name node_name in
  let compose_path_changed :=
    has_current_services && (current_compose_path !=? desired_compose_path) in
  let operations :=
    (map_items desired_disks ≫= ensure_disk_ops current_disks) ++
    (map_items current_disks ≫= remove_disk_ops desired_disks) ++
    (map_items desired_instances ≫= ensure_service_ops current_instances) ++
    (map_items current_instances ≫= remove_service_ops desired_instances) ++
    (map_items desired_paths ≫=
       write_config_ops current_paths current_signatures desired_signatures) ++
    (map_items current_paths ≫= remove_config_ops desired_paths) in
  let has_resource_changes := negb (vec_empty operations) in
  let operations :=
    if has_current_services && (negb has_desired_services || compose_path_changed) then
      operations ++
      [mkHostOperation ComposeDown current_compose_path "docker compose down";
       mkHostOperation RemoveComposeFile current_compose_path "remove stale compose artifact"]
    else operations in
  let needs_compose_up :=
    has_desired_services &&
    (negb has_current_services || compose_path_changed || has_resource_changes) in
  let operations :=
    if needs_compose_up then
      foldl refresh_config operations (map_items desired_paths) ++
      [mkHostOperation WriteComposeFile desired_compose_path "render compose artifact";
       mkHostOperation ComposeUp desired_compose_path "docker compose up -d"]
    else operations in
  Ok {| nep_plane_name :=
          if has_desired_services then desired_plane_name else current_plane_name;
        nep_node_name := node_name;
        nep_compose_file_path :=
          if has_desired_services then desired_compose_path else current_compose_path;
        nep_operations := operations |}.

Definition plan_node_names (current_state : option DesiredState) (desired_state : DesiredState)
    : gset string :=
  list_to_set (node_name <$> ds_nodes desired_state) ∪
  from_option (fun s => list_to_set (node_name <$> ds_nodes s)) ∅ current_state.

Definition BuildNodeExecutionPlans (current_state : option DesiredState)
    (desired_state : DesiredState) (artifacts_root : string) : result (list NodeExecutionPlan) :=
  plans ← mapR (build_node_execution_plan current_state desired_state artifacts_root)
            (set_items (plan_node_names current_state desired_state));
  Ok (std_sort (fun left right => klt (nep_node_name left) (nep_node_name right))
        (List.filter (fun plan => negb (vec_empty (nep_operations plan))) plans)).
End plans.

(** ** Rendering *)

Definition HostOperationKind_ToString (kind : HostOperationKind) : string :=
  match kind with
  | EnsureDisk => "ensure-disk"
  | RemoveDisk => "remove-disk"
  | EnsureService => "ensure-service"
  | RemoveService => "remove-service"
  | WriteInferRuntimeConfig => "write-infer-runtime"
  | RemoveInferRuntimeConfig => "remove-infer-runtime"
  | WriteComposeFile => "write-compose"
  | RemoveComposeFile => "remove-compose"
  | ComposeUp => "compose-up"
  | ComposeDown => "compose-down"
  end.

Definition RenderNodeExecutionPlans (plans : list NodeExecutionPlan) : string :=
  "host-plans:" +:+ newline +:+
  String.concat "" ((fun plan =>
    "  node " +:+ nep_node_name plan +:+ ":" +:+ newline +:+
    "    compose=" +:+ nep_compose_file_path plan +:+ newline +:+
    String.concat "" ((fun operation =>
      "    - [" +:+ HostOperationKind_ToString (op_kind operation) +:+ "] " +:+
      op_target operation +:+
      (if str_empty (op_details operation) then "" else " :: " +:+ op_details operation) +:+
      newline) <$> nep_operations plan)) <$> plans).

(** ** The abstract host

    What a node holds: disks and prepared services by signature, infer runtime
    configurations with their path and contents, compose files, and the project
    that is up.  [exec target op h] is [None] when an operation is applied in a
    state that does not allow it: a disk created over an existing one, something
    removed that is not there, a project started before its file, its disks and
    its runtime configurations are in place, or stopped when it is not up. *)

Record Host := mkHost {
  host_disks : gmap string string;
  host_services : gmap string string;
  host_configs : gmap string (string * string);
  host_files : gmap string (gmap string string);
  host_up : option (string * gmap string string);
}.

Definition guard_op {A} (b : bool) (a : A) : option A := if b then Some a else None.

Definition exec (target : Host) (op : HostOperation) (h : Host) : option Host :=
  let '(mkHost disks services configs files up) := h in
  let '(mkHostOperation kind t details) := op in
  match kind with
  | EnsureDisk =>
      signature ← host_disks target !! t;
      guard_op (negb (has_value (disks !! t)))
        (mkHost (<[t := signature]> disks) services configs files up)
  | RemoveDisk =>
      guard_op (has_value (disks !! t)) (mkHost (delete t disks) services configs files up)
  | EnsureService =>
      signature ← host_services target !! t;
      Some (mkHost disks (<[t := signature]> services) configs files up)
  | RemoveService =>
      guard_op (has_value (services !! t)) (mkHost disks (delete t services) configs files up)
  | WriteInferRuntimeConfig =>
      config ← host_configs target !! details;
      Some (mkHost disks services (<[details := (t, config.2)]> configs) files up)
  | RemoveInferRuntimeConfig =>
      config ← configs !! details;
      guard_op (config.1 ==? t) (mkHost disks services (delete details configs) files up)
  | WriteComposeFile =>
      Some (mkHost disks services configs (<[t := host_services target]> files) up)
  | RemoveComposeFile =>
      guard_op (has_value (files !! t)) (mkHost disks services configs (delete t files) up)
  | ComposeUp =>
      project ← files !! t;
      guard_op (bool_decide (disks = host_disks target /\ configs = host_configs target))
        (mkHost disks services configs files (Some (t, project)))
  | ComposeDown =>
      guard_op (bool_decide (fst <$> up = Some t)) (mkHost disks services configs files None)
  end.

Fixpoint run (target : Host) (ops : list HostOperation) (h : Host) : option Host :=
  match ops with
  | [] => Some h
  | op :: ops' => h' ← exec target op h; run target ops' h'
  end.

(** What a node holds when [state] is realised on it under [plane_name]. *)
Definition host_of (artifacts_root plane_name node_name : string) (state : DesiredState)
    (signatures : gmap string string) : Host :=
  let services := InstanceSignature <$> BuildInstanceMapForNode (ds_instances state) node_name in
  let path := ComposePath artifacts_root plane_name node_name in
  {| host_disks := DiskSignature <$> BuildDiskMapForNode (ds_disks state) node_name;
     host_services := services;
     host_configs :=
       map_imap (fun name path => Some (path, default "" (signatures !! name)))
         (InferRuntimeConfigPathsForNode state node_name);
     host_files := if map_nonempty services then {[path := services]} else ∅;
     host_up := if map_nonempty services then Some (path, services) else None |}.

Definition empty_host : Host := mkHost ∅ ∅ ∅ ∅ None.

(** ** Lemmas: running a plan *)

Lemma run_app target ops ops' h : run target (ops ++ ops') h = run target ops h ≫= run target ops'.
Proof.
  revert h. induction ops as [|op ops IH]; intros h; simpl; [done|].
  destruct (exec target op h); simpl; [apply IH | done].
Qed.

Lemma map_nonempty_true {V} (m : gmap string V) : map_nonempty m = true <-> m <> ∅.
Proof.
  unfold map_nonempty. rewrite negb_true_iff, vec_empty_false. by rewrite map_items_empty_iff.
Qed.

Lemma map_nonempty_fmap {A B} (f : A -> B) (m : gmap string A) :
  map_nonempty (f <$> m) = map_nonempty m.
Proof. apply eq_bool_prop_intro; rewrite !Is_true_true, !map_nonempty_true. by rewrite fmap_empty_iff. Qed.

Section phase.
Context {A V : Type} (target : Host) (put : gmap string V -> Host).

(** [set_key new k m]: [m] with its entry for [k] replaced by that of [new]. *)
Definition set_key (new : gmap string V) (k : string) (m : gmap string V) : gmap string V :=
  partial_alter (fun _ => new !! k) k m.

Lemma lookup_set_key new k m k' :
  set_key new k m !! k' = if decide (k' = k) then new !! k else m !! k'.
Proof. unfold set_key. rewrite lookup_partial_alter. by repeat case_decide; subst. Qed.

(** A loop over distinct keys, each round of which settles its own key. *)
Lemma run_phase (ops_for : string * A -> list HostOperation) (new : gmap string V) items (m0 m : gmap string V) :
  NoDup items.*1 -> (forall k, k ∈ items.*1 -> m !! k = m0 !! k) ->
  (forall k a m', (k, a) ∈ items -> m' !! k = m0 !! k ->
     run target (ops_for (k, a)) (put m') = Some (put (set_key new k m'))) ->
  exists m', run target (items ≫= ops_for) (put m) = Some (put m') /\
    forall k, m' !! k = if decide (k ∈ items.*1) then new !! k else m !! k.
Proof.
  revert m. induction items as [|[k a] items IH]; intros m Hnd Hm Hstep.
  - exists m. split; [done|]. intros k. by rewrite decide_False by apply not_elem_of_nil.
  - rewrite fmap_cons in Hnd, Hm. apply NoDup_cons in Hnd as [Hn Hnd]. simpl in Hn.
    destruct (IH (set_key new k m)) as (m' & Hrun & Hm').
    + done.
    + intros k' Hk'. rewrite lookup_set_key, decide_False by (by intros ->).
      apply Hm. by right.
    + intros. apply Hstep; [by right | done].
    + exists m'. split.
      * simpl. rewrite run_app, Hstep; [exact Hrun | left | apply Hm; left].
      * intros k'. rewrite Hm', lookup_set_key, fmap_cons; simpl.
        destruct (decide (k' = k)) as [->|Hne].
        -- rewrite decide_False by done. by rewrite decide_True by left.
        -- apply decide_ext. rewrite elem_of_cons. naive_solver.
Qed.

(** Two such loops, over the desired and then over the current entries, turn
    the current map into the desired one. *)
Lemma run_diff (cur des : gmap string A) (curV desV : gmap string V) ensure remove :
  (forall k, is_Some (cur !! k) <-> is_Some (curV !! k)) ->
  (forall k, is_Some (des !! k) <-> is_Some (desV !! k)) ->
  (forall k a m, des !! k = Some a -> m !! k = curV !! k ->
     run target (ensure (k, a)) (put m) = Some (put (set_key desV k m))) ->
  (forall k a m, cur !! k = Some a ->
     m !! k = (if has_value (des !! k) then desV !! k else curV !! k) ->
     run target (remove (k, a)) (put m) = Some (put (set_key desV k m))) ->
  run target ((map_items des ≫= ensure) ++ (map_items cur ≫= remove)) (put curV) =
  Some (put desV).
Proof.
  intros Hc Hd He Hr. rewrite run_app.
  destruct (run_phase ensure desV (map_items des) curV curV) as (m1 & -> & Hm1).
  { apply NoDup_map_keys. } { done. }
  { intros k a m' Hk. apply elem_of_map_items in Hk. by apply He. }
  assert (Hm1' : forall k, m1 !! k = if has_value (des !! k) then desV !! k else curV !! k).
  { intros k. rewrite Hm1. change ((map_items des).*1) with (map_keys des).
    case_decide as Hk; rewrite elem_of_map_keys in Hk.
    - destruct Hk as [a ->]. done.
    - by rewrite <-eq_None_not_Some in Hk; rewrite Hk. }
  simpl. destruct (run_phase remove desV (map_items cur) m1 m1) as (m2 & -> & Hm2).
  { apply NoDup_map_keys. } { done. }
  { intros k a m' Hk Hm'. apply elem_of_map_items in Hk. rewrite Hm1' in Hm'. exact (Hr k a m' Hk Hm'). }
  do 2 f_equal. apply map_eq. intros k. rewrite Hm2, Hm1'.
  change ((map_items cur).*1) with (map_keys cur).
  case_decide as Hk; [done|]. rewrite elem_of_map_keys, Hc in Hk.
  rewrite <-eq_None_not_Some in Hk. destruct (des !! k) eqn:E; [done|].
  simpl. rewrite Hk. symmetry. apply eq_None_not_Some. rewrite <-Hd, E. by intros [??].
Qed.
End phase.

(** *** The resource phases *)

Section phases.
Context (target : Host).

Lemma run_disks (cur des : gmap string DiskSpec) services configs files up :
  host_disks target = DiskSignature <$> des ->
  run target ((map_items des ≫= ensure_disk_ops cur) ++ (map_items cur ≫= remove_disk_ops des))
    (mkHost (DiskSignature <$> cur) services configs files up) =
  Some (mkHost (DiskSignature <$> des) services configs files up).
Proof.
  intros Ht. apply (run_diff target (fun m => mkHost m services configs files up)).
  - intros k. by rewrite lookup_fmap, fmap_is_Some.
  - intros k. by rewrite lookup_fmap, fmap_is_Some.
  - intros k a m Ha Hm. rewrite lookup_fmap in Hm. unfold set_key, ensure_disk_ops.
    rewrite lookup_fmap, Ha. simpl in *.
    destruct (cur !! k) as [c|]; simpl in *.
    + destruct (DiskSignature c !=? DiskSignature a) eqn:E; to_prop; simpl.
      * rewrite Hm. simpl. rewrite Ht, lookup_fmap, Ha, lookup_delete_eq. simpl.
        by rewrite insert_delete_eq.
      * rewrite <-E, <-Hm, partial_alter_self. done.
    + rewrite Ht, lookup_fmap, Ha, Hm. done.
  - intros k a m Ha Hm. unfold set_key, remove_disk_ops. rewrite !lookup_fmap in *.
    destruct (des !! k) as [d|]; simpl in *.
    + by rewrite <-Hm, partial_alter_self.
    + rewrite Ha in Hm. simpl in Hm. by rewrite Hm.
Qed.

Lemma run_services (cur des : gmap string InstanceSpec) disks configs files up :
  host_services target = InstanceSignature <$> des ->
  run target ((map_items des ≫= ensure_service_ops cur) ++
              (map_items cur ≫= remove_service_ops des))
    (mkHost disks (InstanceSignature <$> cur) configs files up) =
  Some (mkHost disks (InstanceSignature <$> des) configs files up).
Proof.
  intros Ht. apply (run_diff target (fun m => mkHost disks m configs files up)).
  - intros k. by rewrite lookup_fmap, fmap_is_Some.
  - intros k. by rewrite lookup_fmap, fmap_is_Some.
  - intros k a m Ha Hm. rewrite lookup_fmap in Hm. unfold set_key, ensure_service_ops.
    rewrite lookup_fmap, Ha. simpl in *.
    destruct (cur !! k) as [c|]; simpl in *.
    + destruct (InstanceSignature c !=? InstanceSignature a) eqn:E; to_prop; simpl.
      * by rewrite Ht, lookup_fmap, Ha.
      * rewrite <-E, <-Hm, partial_alter_self. done.
    + by rewrite Ht, lookup_fmap, Ha.
  - intros k a m Ha Hm. unfold set_key, remove_service_ops. rewrite !lookup_fmap in *.
    destruct (des !! k) as [d|]; simpl in *.
    + by rewrite <-Hm, partial_alter_self.
    + rewrite Ha in Hm. simpl in Hm. by rewrite Hm.
Qed.

(** The configurations of a node: the path each infer's file has, with the text
    rendered for it. *)
Definition configs_of (paths signatures : gmap string string) : gmap string (string * string) :=
  map_imap (fun name path => Some (path, default "" (signatures !! name))) paths.

Lemma lookup_configs_of paths signatures k :
  configs_of paths signatures !! k =
  (fun path => (path, default "" (signatures !! k))) <$> paths !! k.
Proof. unfold configs_of. rewrite map_lookup_imap. by destruct (paths !! k). Qed.

Lemma run_configs (cp dp cs ds : gmap string string) disks services files up :
  host_configs target = configs_of dp ds ->
  (forall k, is_Some (cp !! k) -> is_Some (cs !! k)) ->
  (forall k, is_Some (dp !! k) -> is_Some (ds !! k)) ->
  run target ((map_items dp ≫= write_config_ops cp cs ds) ++ (map_items cp ≫= remove_config_ops dp))
    (mkHost disks services (configs_of cp cs) files up) =
  Some (mkHost disks services (configs_of dp ds) files up).
Proof.
  intros Ht Hcs Hds. apply (run_diff target (fun m => mkHost disks services m files up)).
  - intros k. by rewrite lookup_configs_of, fmap_is_Some.
  - intros k. by rewrite lookup_configs_of, fmap_is_Some.
  - intros k a m Ha Hm. rewrite lookup_configs_of in Hm. unfold set_key, write_config_ops.
    rewrite lookup_configs_of, Ha. destruct (Hds k) as [sd Hsd]; [by rewrite Ha|].
    rewrite Hsd. simpl in *.
    assert (Hw : run target [mkHostOperation WriteInferRuntimeConfig a k]
                   (mkHost disks services m files up) =
                 Some (mkHost disks services (partial_alter (fun _ => Some (a, sd)) k m) files up)).
    { simpl. by rewrite Ht, lookup_configs_of, Ha, Hsd. }
    destruct (cp !! k) as [c|] eqn:Ec; [|done].
    destruct (Hcs k) as [sc Hsc]; [by rewrite Ec|]. rewrite Hsc in *. simpl in *.
    destruct ((c !=? a) || (sc !=? sd)) eqn:E; [done|]. to_prop. subst.
    simpl. rewrite <-Hm, partial_alter_self. done.
  - intros k a m Ha Hm. unfold set_key, remove_config_ops. rewrite !lookup_configs_of in *.
    destruct (dp !! k) as [d|]; simpl in *.
    + by rewrite <-Hm, partial_alter_self.
    + rewrite Ha in Hm. simpl in Hm. rewrite Hm. simpl. by rewrite eqb_refl.
Qed.
End phases.

(** *** The compose phase *)

Lemma refresh_config_suffix items ops :
  exists extra, foldl refresh_config ops items = ops ++ extra /\
    Forall (fun op => exists name path, (name, path) ∈ items /\
              op = mkHostOperation WriteInferRuntimeConfig path name) extra.
Proof.
  revert ops. induction items as [|[name path] items IH]; intros ops; cbn [foldl].
  - exists []. by rewrite app_nil_r.
  - destruct (IH (refresh_config ops (name, path))) as (extra & -> & Hextra). unfold refresh_config.
    assert (Hmono : Forall (fun op => exists n p, (n, p) ∈ (name, path) :: items /\
              op = mkHostOperation WriteInferRuntimeConfig p n) extra).
    { eapply Forall_impl; [exact Hextra|]. intros op (n & p & Hin & ->). exists n, p.
      split; [by right | done]. }
    destruct (HasWriteInferRuntimeConfigOperation ops name).
    + by exists extra.
    + eexists. rewrite <-app_assoc. split; [done|]. simpl. constructor; [|done].
      exists name, path. split; [left | done].
Qed.

(** Rewriting configurations that are already in place changes nothing. *)
Lemma run_refresh target disks services files up dp ds extra :
  host_configs target = configs_of dp ds ->
  Forall (fun op => exists name path, (name, path) ∈ map_items dp /\
            op = mkHostOperation WriteInferRuntimeConfig path name) extra ->
  run target extra (mkHost disks services (configs_of dp ds) files up) =
  Some (mkHost disks services (configs_of dp ds) files up).
Proof.
  intros Ht. induction 1 as [|op extra (name & path & Hin & ->) _ IH]; simpl; [done|].
  apply elem_of_map_items in Hin. rewrite Ht, lookup_configs_of, Hin. simpl.
  rewrite insert_id; [done|]. by rewrite lookup_configs_of, Hin.
Qed.

Definition compose_host (path : string) (disks services : gmap string string)
    (configs : gmap string (string * string)) : Host :=
  mkHost disks services configs
    (if map_nonempty services then {[path := services]} else ∅)
    (if map_nonempty services then Some (path, services) else None).

Section compose.
Context (p0 p1 : string) (D0 D1 S0 S1 dp ds : gmap string string)
  (C0 : gmap string (string * string)) (R : list HostOperation).
Let target := compose_host p1 D1 S1 (configs_of dp ds).
Let path_changed := map_nonempty S0 && (p0 !=? p1).

Context (HR : forall files up, run target R (mkHost D0 S0 C0 files up) =
                               Some (mkHost D1 S1 (configs_of dp ds) files up)).

Definition down_ops : list HostOperation :=
  if map_nonempty S0 && (negb (map_nonempty S1) || path_changed) then
    R ++ [mkHostOperation ComposeDown p0 "docker compose down";
          mkHostOperation RemoveComposeFile p0 "remove stale compose artifact"]
  else R.

Lemma run_down :
  run target down_ops (compose_host p0 D0 S0 C0) =
  Some (mkHost D1 S1 (configs_of dp ds)
          (if map_nonempty S0 && map_nonempty S1 && negb path_changed then {[p0 := S0]} else ∅)
          (if map_nonempty S0 && map_nonempty S1 && negb path_changed then Some (p0, S0)
           else None)).
Proof.
  unfold down_ops, compose_host. destruct (map_nonempty S0); simpl; [|apply HR].
  destruct (map_nonempty S1 && negb path_changed) eqn:E.
  - to_prop. match goal with H : path_changed = false |- _ => rewrite H end.
    match goal with H : map_nonempty S1 = true |- _ => rewrite H end. apply HR.
  - replace (negb (map_nonempty S1) || path_changed) with true
      by (by destruct (map_nonempty S1), path_changed).
    rewrite run_app, HR. simpl. unfold guard_op. rewrite bool_decide_true by done. simpl.
    rewrite lookup_singleton_eq. simpl. by rewrite delete_singleton_eq.
Qed.

Lemma run_compose :
  run target
    (if map_nonempty S1 && (negb (map_nonempty S0) || path_changed || negb (vec_empty R)) then
       foldl refresh_config down_ops (map_items dp) ++
       [mkHostOperation WriteComposeFile p1 "render compose artifact";
        mkHostOperation ComposeUp p1 "docker compose up -d"]
     else down_ops) (compose_host p0 D0 S0 C0) = Some target.
Proof.
  destruct (map_nonempty S1) eqn:HS1; simpl.
  - destruct (refresh_config_suffix (map_items dp) down_ops) as (extra & -> & Hextra).
    destruct (negb (map_nonempty S0) || path_changed || negb (vec_empty R)) eqn:Hup.
    + rewrite !run_app, run_down, HS1. simpl. rewrite run_refresh by done. simpl.
      rewrite lookup_insert_eq. simpl. unfold guard_op. rewrite bool_decide_true by done.
      unfold target, compose_host. rewrite HS1. do 2 f_equal.
      destruct (map_nonempty S0 && true && negb path_changed) eqn:Hk; [|done].
      unfold path_changed in Hk. destruct (map_nonempty S0); [|done]. simpl in Hk. to_prop.
      subst. by rewrite insert_singleton_eq.
    + rewrite run_down, HS1. to_prop. unfold path_changed in *.
      rewrite H in *. simpl in *. to_prop. subst. rewrite bool_decide_true by done. simpl.
      apply vec_empty_true in H0. subst R. specialize (HR ∅ None). simpl in HR.
      injection HR as -> -> ->. unfold target, compose_host. by rewrite HS1.
  - rewrite run_down, HS1. rewrite andb_false_r. unfold target, compose_host. by rewrite HS1.
Qed.
End compose.

(** *** A node's plan *)

Section node_plan.
Context (dump : json -> result string).

Definition signatures_or_empty (state : option DesiredState) (node_name : string)
    : result (gmap string string) :=
  match state with
  | Some s => InferRuntimeSignaturesForNode dump s node_name
  | None => Ok ∅
  end.

Definition current_plane (current : option DesiredState) (desired : DesiredState) : string :=
  from_option ds_plane_name (ds_plane_name desired) current.

Definition desired_plane (current : option DesiredState) (desired : DesiredState) : string :=
  if str_empty (ds_plane_name desired) then current_plane current desired
  else ds_plane_name desired.

Definition host_before (root : string) (current : option DesiredState) (desired : DesiredState)
    (node_name : string) (signatures : gmap string string) : Host :=
  from_option (fun s => host_of root (current_plane current desired) node_name s signatures)
    empty_host current.

Lemma signatures_dom_aux state l (acc sigs : gmap string string) :
  foldR (fun acc instance =>
           text ← RenderInferRuntimeConfigJsonForInstance dump state (inst_name instance);
           Ok (<[inst_name instance := text]> acc)) acc l = Ok sigs ->
  forall k, is_Some (acc !! k) \/ k ∈ inst_name <$> l -> is_Some (sigs !! k).
Proof.
  revert acc. induction l as [|i l IH]; intros acc H k Hk; simpl in H.
  - injection H as <-. destruct Hk as [Hk|Hk]; [done|]. by apply elem_of_nil in Hk.
  - bind_inv. eapply IH; [exact H|]. rewrite lookup_insert.
    case_decide; [left; by eexists|]. rewrite fmap_cons, elem_of_cons in Hk. naive_solver.
Qed.

Lemma paths_have_signatures state node sigs :
  InferRuntimeSignaturesForNode dump state node = Ok sigs ->
  forall k, is_Some (InferRuntimeConfigPathsForNode state node !! k) -> is_Some (sigs !! k).
Proof.
  intros H k Hk. eapply signatures_dom_aux; [exact H|]. right.
  unfold InferRuntimeConfigPathsForNode in Hk.
  destruct (ControlRootPathForNode state node); [|by destruct Hk].
  by apply map_of_list_by_is_Some in Hk.
Qed.

Lemma node_plan_runs current desired root node plan :
  build_node_execution_plan dump current desired root node = Ok plan ->
  exists cs ds,
    signatures_or_empty current node = Ok cs /\
    InferRuntimeSignaturesForNode dump desired node = Ok ds /\
    run (host_of root (desired_plane current desired) node desired ds) (nep_operations plan)
        (host_before root current desired node cs) =
    Some (host_of root (desired_plane current desired) node desired ds).
Proof.
  intros H. unfold build_node_execution_plan in H. cbv zeta in H. bind_inv.
  match goal with H : match current with _ => _ end = Ok ?cs |- _ => exists cs; rename H into Hcs end.
  match goal with H : InferRuntimeSignaturesForNode _ desired _ = Ok ?ds |- _ =>
    exists ds; rename H into Hds end.
  split; [done|]. split; [done|]. cbn [nep_operations].
  set (cd := from_option (fun s => BuildDiskMapForNode (ds_disks s) node) ∅ current).
  set (ci := from_option (fun s => BuildInstanceMapForNode (ds_instances s) node) ∅ current).
  set (cp := from_option (fun s => InferRuntimeConfigPathsForNode s node) ∅ current).
  match goal with |- run (host_of _ _ _ _ ?ds) _ (host_before _ _ _ _ ?cs) = _ =>
    pose proof (paths_have_signatures desired node ds Hds) as Hdp;
    assert (Hcp : forall k, is_Some (cp !! k) -> is_Some (cs !! k)) by
      (destruct current; [by apply paths_have_signatures | intros k [? ?]; done]);
    assert (Hh : host_before root current desired node cs =
      compose_host (ComposePath root (current_plane current desired) node)
        (DiskSignature <$> cd) (InstanceSignature <$> ci) (configs_of cp cs)) by
      (destruct current; [done|]; unfold cd, ci, cp, configs_of; simpl; rewrite !fmap_empty;
       unfold compose_host, empty_host; by rewrite map_imap_empty)
  end.
  rewrite Hh. clear Hh Hcs Hds.
  unfold HasCurrentServices, HasDesiredServices.
  rewrite <-(map_nonempty_fmap InstanceSignature ci),
          <-(map_nonempty_fmap InstanceSignature (BuildInstanceMapForNode _ node)).
  apply run_compose. intros files up.
  match goal with |- run ?t _ _ = _ => set (target := t) end.
  change (list_bind _ _ ?f ?l) with (l ≫= f).
  rewrite (app_assoc (map_items _ ≫= ensure_disk_ops _)), run_app, run_disks by done.
  cbn [mbind option_bind].
  rewrite (app_assoc (map_items _ ≫= ensure_service_ops _)), run_app, run_services by done.
  cbn [mbind option_bind].
  by apply run_configs.
Qed.
End node_plan.

(** *** The list of plans *)

Definition operations_for (plans : list NodeExecutionPlan) (node : string) : list HostOperation :=
  from_option nep_operations [] (find_if (fun plan => nep_node_name plan ==? node) plans).

Section plan_list.
Context (dump : json -> result string) (current : option DesiredState) (desired : DesiredState)
  (root : string).

Lemma build_node_plan_name node plan :
  build_node_execution_plan dump current desired root node = Ok plan ->
  nep_node_name plan = node.
Proof. unfold build_node_execution_plan. cbv zeta. intros H. by bind_inv. Qed.

Lemma elem_of_plans plans plan :
  BuildNodeExecutionPlans dump current desired root = Ok plans ->
  plan ∈ plans <->
  nep_operations plan <> [] /\ nep_node_name plan ∈ plan_node_names current desired /\
  build_node_execution_plan dump current desired root (nep_node_name plan) = Ok plan.
Proof.
  unfold BuildNodeExecutionPlans. intros H. bind_inv. apply mapR_Forall2 in E.
  rewrite elem_of_std_sort, list_elem_of_In, filter_In, <-list_elem_of_In.
  rewrite negb_true_iff, vec_empty_false. split.
  - intros [Hin Hne]. split; [done|]. apply list_elem_of_lookup in Hin as [i Hi].
    destruct (Forall2_lookup_r _ _ _ _ _ E Hi) as (node & Hnode & Hb).
    rewrite (build_node_plan_name _ _ Hb). split; [|done].
    apply elem_of_set_items. by eapply list_elem_of_lookup_2.
  - intros (Hne & Hin & Hb). split; [|done]. apply elem_of_set_items in Hin.
    apply list_elem_of_lookup in Hin as [i Hi].
    destruct (Forall2_lookup_l _ _ _ _ _ E Hi) as (plan' & Hplan & Hb').
    rewrite Hb in Hb'. injection Hb' as <-. by eapply list_elem_of_lookup_2.
Qed.

Lemma plans_cover plans node :
  BuildNodeExecutionPlans dump current desired root = Ok plans ->
  node ∈ plan_node_names current desired ->
  exists plan, build_node_execution_plan dump current desired root node = Ok plan /\
               operations_for plans node = nep_operations plan.
Proof.
  intros H Hnode. pose proof H as H'. unfold BuildNodeExecutionPlans in H'. bind_inv.
  apply mapR_Forall2 in E. pose proof Hnode as Hin. apply elem_of_set_items in Hin.
  apply list_elem_of_lookup in Hin as [i Hi].
  destruct (Forall2_lookup_l _ _ _ _ _ E Hi) as (plan & _ & Hb). exists plan. split; [done|].
  unfold operations_for. destruct (find_if _ _) as [p|] eqn:Ef; simpl.
  - apply find_if_Some in Ef as [Hn Hp]. rewrite eqb_true in Hn. subst node.
    apply (elem_of_plans _ _ H) in Hp as (_ & _ & Hp). congruence.
  - rewrite find_if_None in Ef. destruct (nep_operations plan) eqn:Eo; [done|].
    pose proof (build_node_plan_name _ _ Hb) as Hname. subst node.
    specialize (Ef plan). rewrite eqb_refl in Ef. discriminate Ef.
    apply (elem_of_plans _ _ H). by rewrite Eo.
Qed.

Lemma plan_names_NoDup plans :
  BuildNodeExecutionPlans dump current desired root = Ok plans ->
  NoDup (nep_node_name <$> plans).
Proof.
  unfold BuildNodeExecutionPlans. intros H. bind_inv. rewrite std_sort_perm.
  assert (Hnames : nep_node_name <$> a = set_items (plan_node_names current desired)).
  { apply mapR_Forall2 in E. clear -E. induction E as [|n p ns ps Hp _ IH]; [done|].
    rewrite fmap_cons, IH. f_equal. by apply build_node_plan_name in Hp. }
  pose proof (NoDup_set_items (plan_node_names current desired)) as Hnd.
  rewrite <-Hnames in Hnd. clear -Hnd. induction a as [|p ps IH]; simpl; [constructor|].
  rewrite fmap_cons in Hnd. apply NoDup_cons in Hnd as [Hn Hnd].
  destruct (negb _); [|auto]. rewrite fmap_cons. apply NoDup_cons. split; [|auto].
  intros (q & Hq & Hin)%list_elem_of_fmap. apply Hn. rewrite Hq. apply list_elem_of_fmap_2.
  apply list_elem_of_In, filter_In in Hin as [Hin _]. by apply list_elem_of_In.
Qed.
End plan_list.

(** A state planned against itself. *)
Lemma bind_nil {A B} (f : A -> list B) l : (forall x, x ∈ l -> f x = []) -> l ≫= f = [].
Proof.
  intros H. induction l as [|x l IH]; [done|]. cbn. rewrite H by left. apply IH.
  intros. apply H. by right.
Qed.

Lemma same_state_no_operations dump state root node plan :
  build_node_execution_plan dump (Some state) state root node = Ok plan ->
  nep_operations plan = [].
Proof.
  unfold build_node_execution_plan. cbv zeta. intros H. bind_inv. cbn [nep_operations from_option].
  pose proof (paths_have_signatures _ _ _ _ E) as Hsig.
  change (list_bind _ _ ?f ?l) with (l ≫= f).
  rewrite (bind_nil (ensure_disk_ops _)), (bind_nil (remove_disk_ops _)),
    (bind_nil (ensure_service_ops _)), (bind_nil (remove_service_ops _)),
    (bind_nil (write_config_ops _ _ _)), (bind_nil (remove_config_ops _)).
  - assert (Hp : (if str_empty (ds_plane_name state) then ds_plane_name state
                  else ds_plane_name state) = ds_plane_name state) by (by destruct str_empty).
    simpl. rewrite Hp, eqb_refl. simpl. unfold HasCurrentServices, HasDesiredServices.
    by destruct (map_nonempty _).
  - intros [k v] Hk%elem_of_map_items. simpl. by rewrite Hk.
  - intros [k v] Hk%elem_of_map_items. simpl. rewrite Hk.
    destruct (Hsig k) as [sg ->]; [by eexists|]. by rewrite !eqb_refl.
  - intros [k v] Hk%elem_of_map_items. simpl. by rewrite Hk.
  - intros [k v] Hk%elem_of_map_items. simpl. by rewrite Hk, eqb_refl.
  - intros [k v] Hk%elem_of_map_items. simpl. by rewrite Hk.
  - intros [k v] Hk%elem_of_map_items. simpl. by rewrite Hk, eqb_refl.
Qed.

(** ** Properties *)

(** C1. Refinement.  On every node of either state, replaying the planned
    operations on the abstract host that holds the current state succeeds at
    every step and leaves exactly what the desired state prescribes there:
    disks, services, infer runtime configurations with their paths and
    contents, compose files and the running project. *)
Theorem execution_plans_reach_desired dump current desired root plans node :
  BuildNodeExecutionPlans dump current desired root = Ok plans ->
  node ∈ plan_node_names current desired ->
  exists cs ds,
    signatures_or_empty dump current node = Ok cs /\
    InferRuntimeSignaturesForNode dump desired node = Ok ds /\
    run (host_of root (desired_plane current desired) node desired ds)
        (operations_for plans node) (host_before root current desired node cs) =
    Some (host_of root (desired_plane current desired) node desired ds).
Proof.
  intros H Hnode. destruct (plans_cover _ _ _ _ _ _ H Hnode) as (plan & Hb & ->).
  by apply node_plan_runs.
Qed.

(** Plans come strictly ordered by node name, one per node at most, only for
    nodes of the two states, and never empty. *)
Theorem execution_plans_sorted dump current desired root plans :
  BuildNodeExecutionPlans dump current desired root = Ok plans ->
  StronglySorted (fun p q => klt (nep_node_name p) (nep_node_name q) = true) plans /\
  Forall (fun p => nep_operations p <> [] /\
                   nep_node_name p ∈ plan_node_names current desired) plans.
Proof.
  intros H. split.
  - pose proof (plan_names_NoDup _ _ _ _ _ H) as Hnd.
    assert (Hs : StronglySorted (not_after (fun p q => klt (nep_node_name p) (nep_node_name q)))
                   plans).
    { unfold BuildNodeExecutionPlans in H. bind_inv. apply std_sort_sorted.
      exact (swo_proj nep_node_name (klt (K:=string)) klt_swo). }
    clear H. induction Hs as [|p ps Hps IH Hp]; [constructor|].
    rewrite fmap_cons in Hnd. apply NoDup_cons in Hnd as [Hn Hnd]. constructor; [auto|].
    rewrite Forall_forall in *. intros q Hq. specialize (Hp q Hq). unfold not_after in Hp.
    destruct (klt (nep_node_name p) (nep_node_name q)) eqn:E; [done|]. exfalso. apply Hn.
    rewrite (klt_total _ _ E Hp). by apply list_elem_of_fmap_2.
  - apply Forall_forall. intros p Hp. apply (elem_of_plans _ _ _ _ _ _ H) in Hp. tauto.
Qed.

(** A state planned against itself needs no host operation at all: the plan is
    empty. *)
Theorem execution_plans_idempotent dump state root plans :
  BuildNodeExecutionPlans dump (Some state) state root = Ok plans -> plans = [].
Proof.
  intros H. destruct plans as [|p ps]; [done|]. exfalso.
  assert (p ∈ p :: ps) as Hp by left. apply (elem_of_plans _ _ _ _ _ _ H) in Hp as (Hne & _ & Hb).
  by apply Hne, (same_state_no_operations _ _ _ _ _ Hb).
Qed.

(** ** Witnesses *)

(** The demo plane after its shared worker is dropped from node-b. *)
Definition fx_plane_smaller : DesiredState :=
  fx_state fx_nodes fx_disks [fx_infer; fx_batch; fx_exclusive].
Definition fx_dump (_ : json) : result string := Ok "{}".

Lemma execution_plans_reach_desired_witness :
  match BuildNodeExecutionPlans fx_dump (Some fx_plane) fx_plane_smaller "/artifacts" with
  | Ok plans =>
      exists cs ds,
        signatures_or_empty fx_dump (Some fx_plane) "node-b" = Ok cs /\
        InferRuntimeSignaturesForNode fx_dump fx_plane_smaller "node-b" = Ok ds /\
        run (host_of "/artifacts" "demo" "node-b" fx_plane_smaller ds)
            (operations_for plans "node-b") (host_of "/artifacts" "demo" "node-b" fx_plane cs) =
        Some (host_of "/artifacts" "demo" "node-b" fx_plane_smaller ds)
  | Throw _ => False
  end.
Proof.
  destruct (BuildNodeExecutionPlans fx_dump (Some fx_plane) fx_plane_smaller "/artifacts") eqn:E.
  - apply (execution_plans_reach_desired fx_dump (Some fx_plane) fx_plane_smaller "/artifacts"
             _ "node-b" E).
    unfold plan_node_names. apply elem_of_union_l, elem_of_list_to_set. right. left.
  - vm_compute in E. discriminate E.
Defined.

Lemma execution_plans_sorted_witness :
  match BuildNodeExecutionPlans fx_dump None fx_plane "/artifacts" with
  | Ok plans =>
      StronglySorted (fun p q => klt (nep_node_name p) (nep_node_name q) = true) plans /\
      Forall (fun p => nep_operations p <> [] /\
                       nep_node_name p ∈ plan_node_names None fx_plane) plans
  | Throw _ => False
  end.
Proof.
  destruct (BuildNodeExecutionPlans fx_dump None fx_plane "/artifacts") eqn:E.
  - exact (execution_plans_sorted fx_dump None fx_plane "/artifacts" _ E).
  - vm_compute in E. discriminate E.
Defined.

Lemma execution_plans_idempotent_witness :
  match BuildNodeExecutionPlans fx_dump (Some fx_plane) fx_plane "/artifacts" with
  | Ok plans => plans = []
  | Throw _ => False
  end.
Proof.
  destruct (BuildNodeExecutionPlans fx_dump (Some fx_plane) fx_plane "/artifacts") eqn:E.
  - exact (execution_plans_idempotent fx_dump fx_plane "/artifacts" _ E).
  - vm_compute in E. discriminate E.
Defined.

(** The operations the smaller plane asks of node-b, as planned. *)
Example node_b_operations :
  match BuildNodeExecutionPlans fx_dump (Some fx_plane) fx_plane_smaller "/artifacts" with
  | Ok plans => (fun op => (HostOperationKind_ToString (op_kind op), op_target op)) <$>
                operations_for plans "node-b"
  | Throw _ => []
  end =
  [("remove-service", "worker-shared");
   ("compose-down", "/artifacts/demo/node-b/docker-compose.yml");
   ("remove-compose", "/artifacts/demo/node-b/docker-compose.yml")].
Proof. vm_compute. reflexivity. Qed.
