(* ===== verification/SchedulingPolicy.v ===== *)
(** * Scheduling policy

    [common/src/planning/scheduling_policy.cpp] and its header: admission of the
    workers of a desired state onto GPUs, per-GPU allocation groups and
    capacities, rebalance hints, scored placement candidates with preemption
    victims, and the rollout actions derived from them.  Fractions are binary64
    values; [int] totals are integers of unbounded size (their overflow is
    undefined behaviour in the source). *)

From S2P Require Import Prelude Binary64 Models Fixtures Reconcile.

Definition kFractionEpsilon : double := d1e_9.
Definition one_plus_epsilon : double := dadd d1 kFractionEpsilon.

(** ** The report *)

Record GpuAllocationGroup := mkGpuAllocationGroup {
  grp_node_name : string;
  grp_gpu_device : string;
  grp_worker_names : list string;
  grp_exclusive_worker_names : list string;
  grp_shared_worker_names : list string;
  grp_best_effort_worker_names : list string;
  grp_preemptible_worker_names : list string;
  grp_total_fraction : double;
  grp_remaining_fraction : double;
  grp_highest_priority : Z;
  grp_lowest_priority : Z;
  grp_total_memory_cap_mb : Z;
  grp_memory_capacity_mb : option Z;
  grp_remaining_memory_mb : option Z;
}.

Record GpuCapacitySummary := mkGpuCapacitySummary {
  cap_node_name : string;
  cap_gpu_device : string;
  cap_worker_count : Z;
  cap_guaranteed_worker_count : Z;
  cap_best_effort_worker_count : Z;
  cap_allocated_fraction : double;
  cap_free_fraction : double;
  cap_releasable_best_effort_fraction : double;
  cap_memory_capacity_mb : option Z;
  cap_allocated_memory_cap_mb : Z;
  cap_releasable_best_effort_memory_cap_mb : Z;
  cap_free_memory_mb : option Z;
  cap_preemptible_best_effort_workers : list string;
  cap_has_soft_share : bool;
  cap_is_idle : bool;
}.

Record PlacementCandidate := mkPlacementCandidate {
  cand_node_name : string;
  cand_gpu_device : string;
  cand_score : Z;
  cand_same_node : bool;
  cand_idle : bool;
  cand_fits_current_fraction : bool;
  cand_fits_current_with_preemption : bool;
  cand_fits_exclusive_fraction : bool;
  cand_fits_exclusive_with_preemption : bool;
  cand_fits_memory_cap : bool;
  cand_fits_memory_with_preemption : bool;
  cand_preemption_required : bool;
  cand_free_fraction : double;
  cand_free_memory_mb : option Z;
  cand_preemption_victims : list string;
  cand_action : string;
}.

Record WorkerPlacementRecommendation := mkWorkerPlacementRecommendation {
  rec_worker_name : string;
  rec_current_node_name : string;
  rec_current_gpu_device : string;
  rec_current_share_mode : GpuShareMode;
  rec_current_fraction : double;
  rec_current_memory_cap_mb : option Z;
  rec_candidates : list PlacementCandidate;
}.

Record PreemptionHint := mkPreemptionHint {
  hint_node_name : string;
  hint_gpu_device : string;
  hint_victim_worker_names : list string;
  hint_reason : string;
}.

Record SchedulerRolloutAction := mkSchedulerRolloutAction {
  act_step : Z;
  act_worker_name : string;
  act_action : string;
  act_target_node_name : string;
  act_target_gpu_device : string;
  act_victim_worker_names : list string;
  act_reason : string;
}.

Record SchedulingPolicyReport := mkSchedulingPolicyReport {
  rep_allocations : list GpuAllocationGroup;
  rep_capacities : list GpuCapacitySummary;
  rep_placement_recommendations : list WorkerPlacementRecommendation;
  rep_preemption_hints : list PreemptionHint;
  rep_rollout_actions : list SchedulerRolloutAction;
  rep_rebalance_hints : list string;
  rep_warnings : list string;
  rep_errors : list string;
}.

(** ** Accumulators *)

Definition NodeSupportsWorkerExecutionMode (node : NodeInventory) : bool :=
  node_execution_mode node !=? InferOnly.

Definition EffectiveWorkerSelectionPolicy (state : DesiredState) : string :=
  if negb (str_empty (wg_worker_selection_policy (ds_worker_group state)))
  then wg_worker_selection_policy (ds_worker_group state)
  else if negb (str_empty (inf_worker_selection_policy (ds_inference state)))
  then inf_worker_selection_policy (ds_inference state)
  else "prefer-free-then-share".

Record AllocationAccumulator := mkAllocationAccumulator {
  acc_worker_names : list string;
  acc_exclusive_worker_names : list string;
  acc_shared_worker_names : list string;
  acc_best_effort_worker_names : list string;
  acc_preemptible_worker_names : list string;
  acc_total_fraction : double;
  acc_best_effort_fraction : double;
  acc_highest_priority : Z;
  acc_lowest_priority : Z;
  acc_total_memory_cap_mb : Z;
  acc_best_effort_memory_cap_mb : Z;
  acc_any_memory_cap : bool;
  acc_missing_memory_cap : bool;
  acc_memory_capacity_mb : option Z;
  acc_highest_guaranteed_priority : Z;
  acc_highest_best_effort_priority : Z;
}.

Definition AllocationAccumulator_default : AllocationAccumulator :=
  {| acc_worker_names := []; acc_exclusive_worker_names := []; acc_shared_worker_names := [];
     acc_best_effort_worker_names := []; acc_preemptible_worker_names := [];
     acc_total_fraction := d0; acc_best_effort_fraction := d0;
     acc_highest_priority := int_min; acc_lowest_priority := int_max;
     acc_total_memory_cap_mb := 0; acc_best_effort_memory_cap_mb := 0;
     acc_any_memory_cap := false; acc_missing_memory_cap := false;
     acc_memory_capacity_mb := None; acc_highest_guaranteed_priority := int_min;
     acc_highest_best_effort_priority := int_min |}.

Record WorkerAllocationRecord := mkWorkerAllocationRecord {
  wr_worker_name : string;
  wr_node_name : string;
  wr_gpu_device : string;
  wr_share_mode : GpuShareMode;
  wr_gpu_fraction : double;
  wr_priority : Z;
  wr_preemptible : bool;
  wr_memory_cap_mb : option Z;
  wr_currently_soft_shared : bool;
}.

Record VictimSelection := mkVictimSelection {
  sel_worker_names : list string;
  sel_released_fraction : double;
  sel_released_memory_cap_mb : Z;
  sel_satisfies : bool;
}.

Definition vsize {A} (l : list A) : Z := Z.of_nat (length l).

Definition PreemptionReason (allocation : AllocationAccumulator) : string :=
  if negb (vec_empty (acc_best_effort_worker_names allocation)) &&
     (negb (vec_empty (acc_exclusive_worker_names allocation)) ||
      negb (vec_empty (acc_shared_worker_names allocation)))
  then "protect guaranteed workers before best-effort workers on the same GPU"
  else if vsize (acc_worker_names allocation) >? 1
  then "reduce soft-share pressure by evicting the lowest-priority best-effort workers first"
  else "free capacity for higher-priority or guaranteed work".

Definition ScorePlacementCandidate (worker : WorkerAllocationRecord)
    (capacity : GpuCapacitySummary)
    (fits_current_fraction fits_current_with_preemption fits_exclusive_fraction
     fits_exclusive_with_preemption fits_memory_cap fits_memory_with_preemption
     preemption_required : bool) : Z :=
  let score := if cap_node_name capacity ==? wr_node_name worker then 40 else 0 in
  let score := if cap_is_idle capacity then score + 60 else score in
  let score := if fits_current_fraction then score + 20
               else if fits_current_with_preemption then score + 8 else score in
  let score := if fits_exclusive_fraction then score + 40
               else if fits_exclusive_with_preemption then score + 15 else score in
  let score := if fits_memory_cap then score + 15
               else if fits_memory_with_preemption then score + 5 else score - 50 in
  let score := if preemption_required then score - 20 else score in
  let score := score + trunc_int (dmul (cap_free_fraction capacity) d10) in
  score - cap_worker_count capacity * 10.

Definition PlacementCandidatePolicyRank (policy : string) (candidate : PlacementCandidate) : Z :=
  if policy ==? "prefer-free-then-share" then
    if cand_idle candidate && negb (cand_preemption_required candidate) then 0
    else if negb (cand_idle candidate) && negb (cand_preemption_required candidate) &&
            (cand_fits_exclusive_fraction candidate || cand_fits_current_fraction candidate) then 1
    else if cand_preemption_required candidate then 2 else 3
  else if cand_preemption_required candidate then 1 else 0.

Definition needs_rebalance (worker : WorkerAllocationRecord) : bool :=
  wr_currently_soft_shared worker ||
  dlt (wr_gpu_fraction worker) (dsub d1 kFractionEpsilon) ||
  (wr_share_mode worker !=? Exclusive).

Definition PlacementAction (worker : WorkerAllocationRecord)
    (fits_current_with_preemption fits_exclusive_fraction fits_exclusive_with_preemption
     fits_current_fraction fits_memory_with_preemption : bool) : string :=
  if negb fits_memory_with_preemption then "insufficient-memory"
  else if fits_exclusive_fraction then
    if needs_rebalance worker then "upgrade-to-exclusive" else "move-equivalent"
  else if fits_exclusive_with_preemption then "preempt-best-effort-to-exclusive"
  else if fits_current_fraction then "move-with-current-fraction"
  else if fits_current_with_preemption then "preempt-best-effort-and-move"
  else "insufficient-fraction".

Definition FindAllocationAccumulator
    (allocations : gmap (string * string) AllocationAccumulator) (node_name gpu_device : string)
    : option AllocationAccumulator :=
  allocations !! (node_name, gpu_device).

(** ** Victims *)

(** The comparator of [BuildBestEffortVictimOrder]. *)
Definition victim_before (left right : WorkerAllocationRecord) : bool :=
  if wr_priority left !=? wr_priority right then wr_priority left <? wr_priority right
  else if dgt (dabs (dsub (wr_gpu_fraction left) (wr_gpu_fraction right))) kFractionEpsilon
  then dgt (wr_gpu_fraction left) (wr_gpu_fraction right)
  else if value_or (wr_memory_cap_mb left) 0 !=? value_or (wr_memory_cap_mb right) 0
  then value_or (wr_memory_cap_mb left) 0 >? value_or (wr_memory_cap_mb right) 0
  else klt (wr_worker_name left) (wr_worker_name right).

Definition is_victim (node_name gpu_device : string) (worker : WorkerAllocationRecord) : bool :=
  (wr_node_name worker ==? node_name) && (wr_gpu_device worker ==? gpu_device) &&
  (wr_share_mode worker ==? BestEffort) && wr_preemptible worker.

Definition BuildBestEffortVictimOrder (worker_records : list WorkerAllocationRecord)
    (node_name gpu_device : string) : list WorkerAllocationRecord :=
  std_sort victim_before (List.filter (is_victim node_name gpu_device) worker_records).

Definition needed_fraction (capacity : GpuCapacitySummary) (required_fraction : double) : double :=
  dmax d0 (dsub required_fraction (cap_free_fraction capacity)).

Definition needed_memory_mb (worker : WorkerAllocationRecord) (capacity : GpuCapacitySummary) : Z :=
  match wr_memory_cap_mb worker, cap_free_memory_mb capacity with
  | Some cap, Some free => Z.max 0 (cap - free)
  | _, _ => 0
  end.

(** The loop over the victim order, [break] once the need is met. *)
Fixpoint take_victims (need_fraction : double) (need_memory : Z) (selection : VictimSelection)
    (victim_order : list WorkerAllocationRecord) : VictimSelection :=
  match victim_order with
  | [] => selection
  | victim :: rest =>
      let names := sel_worker_names selection ++ [wr_worker_name victim] in
      let released := dadd (sel_released_fraction selection) (wr_gpu_fraction victim) in
      let memory := sel_released_memory_cap_mb selection + value_or (wr_memory_cap_mb victim) 0 in
      if dge (dadd released kFractionEpsilon) need_fraction && (memory >=? need_memory)
      then mkVictimSelection names released memory true
      else take_victims need_fraction need_memory
             (mkVictimSelection names released memory (sel_satisfies selection)) rest
  end.

Definition SelectMinimalVictims (worker : WorkerAllocationRecord) (capacity : GpuCapacitySummary)
    (victim_order : list WorkerAllocationRecord) (required_fraction : double) : VictimSelection :=
  let need_fraction := needed_fraction capacity required_fraction in
  let need_memory := needed_memory_mb worker capacity in
  if dle need_fraction kFractionEpsilon && (need_memory <=? 0)
  then mkVictimSelection [] d0 0 true
  else take_victims need_fraction need_memory (mkVictimSelection [] d0 0 false) victim_order.

(** ** Admission of workers *)

(** The checks on one worker, in the order of the code; the error is the message
    pushed onto [report.errors]. *)
Definition check_worker (nodes_by_name : gmap string NodeInventory) (instance : InstanceSpec)
    : result (NodeInventory * string) :=
  let worker := "worker '" +:+ inst_name instance in
  match inst_gpu_device instance with
  | None => Throw (worker +:+
      "' must pin gpu_device explicitly; implicit scheduler defaults are not allowed")
  | Some gpu_device =>
    if str_empty gpu_device then Throw (worker +:+
      "' must pin gpu_device explicitly; implicit scheduler defaults are not allowed")
    else if inst_priority instance <? 0 then
      Throw (worker +:+ "' has invalid priority=" +:+ to_string (inst_priority instance) +:+
             "; allowed range is >= 0")
    else if dle (inst_gpu_fraction instance) d0 ||
            dgt (inst_gpu_fraction instance) one_plus_epsilon then
      Throw (worker +:+ "' has invalid gpu_fraction=" +:+
             ostream_double (inst_gpu_fraction instance) +:+ "; allowed range is (0, 1]")
    else if from_option (fun cap => cap <=? 0) false (inst_memory_cap_mb instance) then
      Throw (worker +:+ "' has invalid memory_cap_mb; allowed range is > 0")
    else if (inst_share_mode instance ==? Exclusive) &&
            dgt (dabs (dsub (inst_gpu_fraction instance) d1)) kFractionEpsilon then
      Throw (worker +:+ "' uses share_mode=exclusive but gpu_fraction=" +:+
             ostream_double (inst_gpu_fraction instance) +:+
             "; exclusive workers must reserve the whole GPU")
    else if (inst_share_mode instance ==? BestEffort) && negb (inst_preemptible instance) then
      Throw (worker +:+
        "' uses share_mode=best-effort but preemptible=false; best-effort workers must be preemptible")
    else
      match nodes_by_name !! inst_node_name instance with
      | None => Throw (worker +:+ "' references unknown node '" +:+ inst_node_name instance +:+ "'")
      | Some node =>
          if negb (NodeSupportsWorkerExecutionMode node) then
            Throw (worker +:+ "' targets node '" +:+ inst_node_name instance +:+
                   "' which is not worker-capable")
          else if bool_decide (gpu_device ∈ EffectiveNodeGpuDevices node) then
            Ok (node, gpu_device)
          else
            Throw (worker +:+ "' pins missing gpu '" +:+ gpu_device +:+ "' on node '" +:+
                   inst_node_name instance +:+ "'")
      end
  end.

Definition snoc_if (b : bool) (l : list string) (x : string) : list string :=
  if b then l ++ [x] else l.

(** The update of the accumulator of the worker's GPU. *)
Definition add_worker (node : NodeInventory) (gpu_device : string) (instance : InstanceSpec)
    (a : AllocationAccumulator) : AllocationAccumulator :=
  let mode := inst_share_mode instance in
  let name := inst_name instance in
  let best_effort := mode ==? BestEffort in
  {| acc_worker_names := acc_worker_names a ++ [name];
     acc_exclusive_worker_names := snoc_if (mode ==? Exclusive) (acc_exclusive_worker_names a) name;
     acc_shared_worker_names := snoc_if (mode ==? Shared) (acc_shared_worker_names a) name;
     acc_best_effort_worker_names := snoc_if best_effort (acc_best_effort_worker_names a) name;
     acc_preemptible_worker_names :=
       snoc_if (inst_preemptible instance) (acc_preemptible_worker_names a) name;
     acc_total_fraction := dadd (acc_total_fraction a) (inst_gpu_fraction instance);
     acc_best_effort_fraction :=
       if best_effort then dadd (acc_best_effort_fraction a) (inst_gpu_fraction instance)
       else acc_best_effort_fraction a;
     acc_highest_priority := Z.max (acc_highest_priority a) (inst_priority instance);
     acc_lowest_priority := Z.min (acc_lowest_priority a) (inst_priority instance);
     acc_total_memory_cap_mb :=
       int32_wrap (acc_total_memory_cap_mb a + value_or (inst_memory_cap_mb instance) 0);
     acc_best_effort_memory_cap_mb :=
       if best_effort
       then int32_wrap (acc_best_effort_memory_cap_mb a + value_or (inst_memory_cap_mb instance) 0)
       else acc_best_effort_memory_cap_mb a;
     acc_any_memory_cap := acc_any_memory_cap a || has_value (inst_memory_cap_mb instance);
     acc_missing_memory_cap :=
       acc_missing_memory_cap a || negb (has_value (inst_memory_cap_mb instance));
     acc_memory_capacity_mb :=
       match node_gpu_memory_mb node !! gpu_device with
       | Some capacity => Some capacity
       | None => acc_memory_capacity_mb a
       end;
     acc_highest_guaranteed_priority :=
       if best_effort then acc_highest_guaranteed_priority a
       else Z.max (acc_highest_guaranteed_priority a) (inst_priority instance);
     acc_highest_best_effort_priority :=
       if best_effort then Z.max (acc_highest_best_effort_priority a) (inst_priority instance)
       else acc_highest_best_effort_priority a |}.

Definition worker_record (gpu_device : string) (instance : InstanceSpec) : WorkerAllocationRecord :=
  {| wr_worker_name := inst_name instance; wr_node_name := inst_node_name instance;
     wr_gpu_device := gpu_device; wr_share_mode := inst_share_mode instance;
     wr_gpu_fraction := inst_gpu_fraction instance; wr_priority := inst_priority instance;
     wr_preemptible := inst_preemptible instance; wr_memory_cap_mb := inst_memory_cap_mb instance;
     wr_currently_soft_shared := false |}.

(** What the loop over [state.instances] accumulates. *)
Record Admission := mkAdmission {
  adm_errors : list string;
  adm_allocations : gmap (string * string) AllocationAccumulator;
  adm_records : list WorkerAllocationRecord;
}.

Definition admit_instance (nodes_by_name : gmap string NodeInventory) (adm : Admission)
    (instance : InstanceSpec) : Admission :=
  if inst_role instance !=? Worker then adm
  else
    match check_worker nodes_by_name instance with
    | Throw error =>
        mkAdmission (adm_errors adm ++ [error]) (adm_allocations adm) (adm_records adm)
    | Ok (node, gpu_device) =>
        let key := (inst_node_name instance, gpu_device) in
        let allocation := default AllocationAccumulator_default (adm_allocations adm !! key) in
        mkAdmission (adm_errors adm)
          (<[key := add_worker node gpu_device instance allocation]> (adm_allocations adm))
          (adm_records adm ++ [worker_record gpu_device instance])
    end.

Definition nodes_by_name (nodes : list NodeInventory) : gmap string NodeInventory :=
  foldl (fun m node => map_emplace (node_name node) node m) ∅ nodes.

Definition admit_instances (state : DesiredState) : Admission :=
  foldl (admit_instance (nodes_by_name (ds_nodes state))) (mkAdmission [] ∅ [])
    (ds_instances state).

(** ** The loop over allocations

    Its rounds touch disjoint parts of the report, so each part is a function of
    its own; the worker names of every accumulator are sorted in place first. *)

Definition sort_allocation (a : AllocationAccumulator) : AllocationAccumulator :=
  {| acc_worker_names := std_sort klt (acc_worker_names a);
     acc_exclusive_worker_names := std_sort klt (acc_exclusive_worker_names a);
     acc_shared_worker_names := std_sort klt (acc_shared_worker_names a);
     acc_best_effort_worker_names := std_sort klt (acc_best_effort_worker_names a);
     acc_preemptible_worker_names := std_sort klt (acc_preemptible_worker_names a);
     acc_total_fraction := acc_total_fraction a;
     acc_best_effort_fraction := acc_best_effort_fraction a;
     acc_highest_priority := acc_highest_priority a;
     acc_lowest_priority := acc_lowest_priority a;
     acc_total_memory_cap_mb := acc_total_memory_cap_mb a;
     acc_best_effort_memory_cap_mb := acc_best_effort_memory_cap_mb a;
     acc_any_memory_cap := acc_any_memory_cap a;
     acc_missing_memory_cap := acc_missing_memory_cap a;
     acc_memory_capacity_mb := acc_memory_capacity_mb a;
     acc_highest_guaranteed_priority := acc_highest_guaranteed_priority a;
     acc_highest_best_effort_priority := acc_highest_best_effort_priority a |}.

Definition allocation_group (item : (string * string) * AllocationAccumulator)
    : GpuAllocationGroup :=
  let '((node, gpu), a) := item in
  {| grp_node_name := node; grp_gpu_device := gpu; grp_worker_names := acc_worker_names a;
     grp_exclusive_worker_names := acc_exclusive_worker_names a;
     grp_shared_worker_names := acc_shared_worker_names a;
     grp_best_effort_worker_names := acc_best_effort_worker_names a;
     grp_preemptible_worker_names := acc_preemptible_worker_names a;
     grp_total_fraction := acc_total_fraction a;
     grp_remaining_fraction := dmax d0 (dsub d1 (acc_total_fraction a));
     grp_highest_priority :=
       if acc_highest_priority a =? int_min then 0 else acc_highest_priority a;
     grp_lowest_priority :=
       if acc_lowest_priority a =? int_max then 0 else acc_lowest_priority a;
     grp_total_memory_cap_mb := acc_total_memory_cap_mb a;
     grp_memory_capacity_mb := acc_memory_capacity_mb a;
     grp_remaining_memory_mb :=
       (fun capacity => Z.max 0 (int32_wrap (capacity - acc_total_memory_cap_mb a))) <$>
       acc_memory_capacity_mb a |}.

Definition if_list {A} (b : bool) (x : A) : list A := if b then [x] else [].

Definition allocation_errors (item : (string * string) * AllocationAccumulator) : list string :=
  let '((node, gpu), a) := item in
  if_list (negb (vec_empty (acc_exclusive_worker_names a)) && (vsize (acc_worker_names a) >? 1))
    ("gpu '" +:+ gpu +:+ "' on node '" +:+ node +:+
     "' mixes share_mode=exclusive with other workers: " +:+
     JoinStrings (acc_worker_names a) ",") ++
  if_list (dgt (acc_total_fraction a) one_plus_epsilon)
    ("gpu oversubscription on node '" +:+ node +:+ "' gpu '" +:+ gpu +:+
     "': total requested fraction=" +:+ ostream_double (acc_total_fraction a) +:+
     " by workers " +:+ JoinStrings (acc_worker_names a) ",") ++
  match acc_memory_capacity_mb a with
  | Some capacity =>
      if_list (acc_total_memory_cap_mb a >? capacity)
        ("gpu memory oversubscription on node '" +:+ node +:+ "' gpu '" +:+ gpu +:+
         "': total requested memory_cap_mb=" +:+ to_string (acc_total_memory_cap_mb a) +:+
         " exceeds capacity_mb=" +:+ to_string capacity +:+
         " by workers " +:+ JoinStrings (acc_worker_names a) ",")
  | None => []
  end.

Definition allocation_warnings (item : (string * string) * AllocationAccumulator) : list string :=
  let '((node, gpu), a) := item in
  let many := vsize (acc_worker_names a) >? 1 in
  if_list (negb (has_value (acc_memory_capacity_mb a)) && acc_any_memory_cap a)
    ("gpu '" +:+ gpu +:+ "' on node '" +:+ node +:+
     "' has memory_cap_mb requests but node inventory does not expose gpu_memory_mb") ++
  if_list many
    ("soft-share group on node '" +:+ node +:+ "' gpu '" +:+ gpu +:+
     "': workers=" +:+ JoinStrings (acc_worker_names a) "," +:+
     " total_fraction=" +:+ ostream_double (acc_total_fraction a) +:+
     " shared=" +:+ to_string (vsize (acc_shared_worker_names a)) +:+
     " best_effort=" +:+ to_string (vsize (acc_best_effort_worker_names a)) +:+
     " preemptible=" +:+ to_string (vsize (acc_preemptible_worker_names a)) +:+
     from_option (fun capacity => " memory_cap_mb=" +:+ to_string (acc_total_memory_cap_mb a) +:+
                                  "/" +:+ to_string capacity)
       "" (acc_memory_capacity_mb a)) ++
  if_list (acc_missing_memory_cap a && many)
    ("soft-share group on node '" +:+ node +:+ "' gpu '" +:+ gpu +:+
     "' is missing memory_cap_mb on one or more workers; memory-aware admission will be incomplete")
  ++
  if_list (negb (vec_empty (acc_best_effort_worker_names a)) &&
           negb (acc_highest_guaranteed_priority a =? int_min) &&
           (acc_highest_best_effort_priority a >=? acc_highest_guaranteed_priority a))
    ("best-effort workers on node '" +:+ node +:+ "' gpu '" +:+ gpu +:+
     "' do not have lower priority than the rest of the group").

Definition allocation_hint (worker_records : list WorkerAllocationRecord)
    (item : (string * string) * AllocationAccumulator) : option PreemptionHint :=
  let '((node, gpu), a) := item in
  if negb (vec_empty (acc_best_effort_worker_names a)) then
    Some {| hint_node_name := node; hint_gpu_device := gpu;
            hint_victim_worker_names :=
              wr_worker_name <$> BuildBestEffortVictimOrder worker_records node gpu;
            hint_reason := PreemptionReason a |}
  else None.

Definition mark_soft_shared (r : WorkerAllocationRecord) : WorkerAllocationRecord :=
  mkWorkerAllocationRecord (wr_worker_name r) (wr_node_name r) (wr_gpu_device r) (wr_share_mode r)
    (wr_gpu_fraction r) (wr_priority r) (wr_preemptible r) (wr_memory_cap_mb r) true.

Definition mark_group (worker_records : list WorkerAllocationRecord)
    (item : (string * string) * AllocationAccumulator) : list WorkerAllocationRecord :=
  let '((node, gpu), a) := item in
  if vsize (acc_worker_names a) >? 1 then
    (fun r => if (wr_node_name r ==? node) && (wr_gpu_device r ==? gpu)
              then mark_soft_shared r else r) <$> worker_records
  else worker_records.

(** ** Capacities *)

Definition capacity_summary (allocations : gmap (string * string) AllocationAccumulator)
    (node : NodeInventory) (gpu_device : string) : GpuCapacitySummary :=
  let allocation := FindAllocationAccumulator allocations (node_name node) gpu_device in
  let get {A} (f : AllocationAccumulator -> A) (d : A) : A := from_option f d allocation in
  let memory := node_gpu_memory_mb node !! gpu_device in
  let allocated_memory := get acc_total_memory_cap_mb 0 in
  {| cap_node_name := node_name node;
     cap_gpu_device := gpu_device;
     cap_worker_count := get (fun a => vsize (acc_worker_names a)) 0;
     cap_guaranteed_worker_count :=
       get (fun a => vsize (acc_exclusive_worker_names a) + vsize (acc_shared_worker_names a)) 0;
     cap_best_effort_worker_count := get (fun a => vsize (acc_best_effort_worker_names a)) 0;
     cap_allocated_fraction := get acc_total_fraction d0;
     cap_free_fraction := get (fun a => dmax d0 (dsub d1 (acc_total_fraction a))) d1;
     cap_releasable_best_effort_fraction := get acc_best_effort_fraction d0;
     cap_memory_capacity_mb := memory;
     cap_allocated_memory_cap_mb := allocated_memory;
     cap_releasable_best_effort_memory_cap_mb := get acc_best_effort_memory_cap_mb 0;
     cap_free_memory_mb := (fun total => Z.max 0 (int32_wrap (total - allocated_memory))) <$> memory;
     cap_preemptible_best_effort_workers := get acc_best_effort_worker_names [];
     cap_has_soft_share := get (fun a => vsize (acc_worker_names a) >? 1) false;
     cap_is_idle := get (fun a => vec_empty (acc_worker_names a)) true |}.

(** The comparator shared by capacities, hints and allocations. *)
Definition by_node_gpu {A} (node gpu : A -> string) (left right : A) : bool :=
  if node left !=? node right then klt (node left) (node right) else klt (gpu left) (gpu right).

Definition raw_capacities (allocations : gmap (string * string) AllocationAccumulator)
    (nodes : list NodeInventory) : list GpuCapacitySummary :=
  nodes ≫= (fun node =>
    if negb (NodeSupportsWorkerExecutionMode node) then []
    else capacity_summary allocations node <$> EffectiveNodeGpuDevices node).

Definition idle_warning (capacities : list GpuCapacitySummary) : list string :=
  let idle_gpus := (fun c => cap_node_name c +:+ ":" +:+ cap_gpu_device c) <$>
                   List.filter cap_is_idle capacities in
  if_list (any_of cap_has_soft_share capacities && negb (vec_empty idle_gpus))
    ("idle gpu capacity exists while soft-share groups are active; consider rebalancing to " +:+
     JoinStrings idle_gpus ",").

(** ** Rebalance hints *)

Record RebalanceChoice := mkRebalanceChoice {
  rb_preferred : option GpuCapacitySummary;
  rb_fallback : option GpuCapacitySummary;
  rb_preferred_preemption : option GpuCapacitySummary;
  rb_fallback_preemption : option GpuCapacitySummary;
}.

Definition same_gpu (worker : WorkerAllocationRecord) (capacity : GpuCapacitySummary) : bool :=
  (cap_node_name capacity ==? wr_node_name worker) &&
  (cap_gpu_device capacity ==? wr_gpu_device worker).

Definition fits_memory_after_preemption (worker : WorkerAllocationRecord)
    (capacity : GpuCapacitySummary) : bool :=
  match wr_memory_cap_mb worker, cap_memory_capacity_mb capacity, cap_free_memory_mb capacity with
  | Some cap, Some _, Some free => cap <=? free + cap_releasable_best_effort_memory_cap_mb capacity
  | _, _, _ => true
  end.

Definition or_first {A} (o : option A) (x : A) : option A :=
  match o with Some y => Some y | None => Some x end.

(** The search loop; the [break] at a preferred candidate ends it. *)
Fixpoint search_rebalance (worker : WorkerAllocationRecord) (choice : RebalanceChoice)
    (capacities : list GpuCapacitySummary) : RebalanceChoice :=
  match capacities with
  | [] => choice
  | capacity :: rest =>
      let same_node := wr_node_name worker ==? cap_node_name capacity in
      if same_gpu worker capacity then search_rebalance worker choice rest
      else if negb (fits_memory_after_preemption worker capacity)
      then search_rebalance worker choice rest
      else if cap_is_idle capacity then
        if same_node then
          mkRebalanceChoice (Some capacity) (rb_fallback choice) (rb_preferred_preemption choice)
            (rb_fallback_preemption choice)
        else
          search_rebalance worker
            (mkRebalanceChoice (rb_preferred choice) (or_first (rb_fallback choice) capacity)
               (rb_preferred_preemption choice) (rb_fallback_preemption choice)) rest
      else if (cap_best_effort_worker_count capacity =? 0) ||
              negb (cap_guaranteed_worker_count capacity =? 0) ||
              vec_empty (cap_preemptible_best_effort_workers capacity)
      then search_rebalance worker choice rest
      else
        let after := dadd (dadd (cap_free_fraction capacity)
                                (cap_releasable_best_effort_fraction capacity)) kFractionEpsilon in
        if negb (dge after d1) && negb (dge after (wr_gpu_fraction worker))
        then search_rebalance worker choice rest
        else if same_node then
          search_rebalance worker
            (mkRebalanceChoice (rb_preferred choice) (rb_fallback choice) (Some capacity)
               (rb_fallback_preemption choice)) rest
        else
          search_rebalance worker
            (mkRebalanceChoice (rb_preferred choice) (rb_fallback choice)
               (rb_preferred_preemption choice)
               (or_first (rb_fallback_preemption choice) capacity)) rest
  end.

Definition rebalance_candidate (worker : WorkerAllocationRecord)
    (capacities : list GpuCapacitySummary) : option GpuCapacitySummary :=
  let choice := search_rebalance worker (mkRebalanceChoice None None None None) capacities in
  match rb_preferred choice, rb_fallback choice, rb_preferred_preemption choice with
  | Some c, _, _ => Some c
  | None, Some c, _ => Some c
  | None, None, Some c => Some c
  | None, None, None => rb_fallback_preemption choice
  end.

Definition rebalance_hint (capacities : list GpuCapacitySummary) (worker : WorkerAllocationRecord)
    : option string :=
  if negb (needs_rebalance worker) then None
  else
    candidate ← rebalance_candidate worker capacities;
    let target := cap_node_name candidate +:+ ":" +:+ cap_gpu_device candidate in
    Some ("worker '" +:+ wr_worker_name worker +:+ "' can be rebalanced from " +:+
          wr_node_name worker +:+ ":" +:+ wr_gpu_device worker +:+
          (if cap_is_idle candidate then
             " to idle gpu " +:+ target +:+ " and upgraded to share_mode=exclusive fraction=1" +:+
             (if wr_currently_soft_shared worker then " to dissolve a soft-share group"
              else if dlt (wr_gpu_fraction worker) (dsub d1 kFractionEpsilon)
              then " to avoid partial GPU reservation" else "")
           else
             " to gpu " +:+ target +:+ " after preempting best-effort workers " +:+
             JoinStrings (cap_preemptible_best_effort_workers candidate) ",") +:+
          match wr_memory_cap_mb worker, cap_memory_capacity_mb candidate with
          | Some cap, Some capacity =>
              " (memory_cap_mb=" +:+ to_string cap +:+ ", target_capacity_mb=" +:+
              to_string capacity +:+ ")"
          | _, _ => ""
          end).

(** ** Placement candidates *)

Definition placement_candidate (worker_records : list WorkerAllocationRecord)
    (worker : WorkerAllocationRecord) (capacity : GpuCapacitySummary) : PlacementCandidate :=
  let victim_order :=
    BuildBestEffortVictimOrder worker_records (cap_node_name capacity) (cap_gpu_device capacity) in
  let fits_current_fraction :=
    dge (dadd (cap_free_fraction capacity) kFractionEpsilon) (wr_gpu_fraction worker) in
  let current_selection :=
    SelectMinimalVictims worker capacity victim_order (wr_gpu_fraction worker) in
  let fits_current_with_preemption := sel_satisfies current_selection in
  let fits_exclusive_fraction :=
    cap_is_idle capacity && dge (dadd (cap_free_fraction capacity) kFractionEpsilon) d1 in
  let exclusive_selection := SelectMinimalVictims worker capacity victim_order d1 in
  let fits_exclusive_with_preemption :=
    (cap_guaranteed_worker_count capacity =? 0) && sel_satisfies exclusive_selection in
  let fits_memory_cap :=
    match wr_memory_cap_mb worker, cap_free_memory_mb capacity with
    | Some cap, Some free => free >=? cap
    | _, _ => true
    end in
  let fits_memory_with_preemption :=
    fits_current_with_preemption || fits_exclusive_with_preemption in
  let preemption_required :=
    negb (cap_is_idle capacity) &&
    ((fits_exclusive_with_preemption && negb fits_exclusive_fraction) ||
     (fits_current_with_preemption && negb fits_current_fraction)) in
  let preemption_victims :=
    if fits_exclusive_with_preemption && negb fits_exclusive_fraction
    then sel_worker_names exclusive_selection
    else sel_worker_names current_selection in
  {| cand_node_name := cap_node_name capacity;
     cand_gpu_device := cap_gpu_device capacity;
     cand_score :=
       ScorePlacementCandidate worker capacity fits_current_fraction fits_current_with_preemption
         fits_exclusive_fraction fits_exclusive_with_preemption fits_memory_cap
         fits_memory_with_preemption preemption_required - vsize preemption_victims * 5;
     cand_same_node := cap_node_name capacity ==? wr_node_name worker;
     cand_idle := cap_is_idle capacity;
     cand_fits_current_fraction := fits_current_fraction;
     cand_fits_current_with_preemption := fits_current_with_preemption;
     cand_fits_exclusive_fraction := fits_exclusive_fraction;
     cand_fits_exclusive_with_preemption := fits_exclusive_with_preemption;
     cand_fits_memory_cap := fits_memory_cap;
     cand_fits_memory_with_preemption := fits_memory_with_preemption;
     cand_preemption_required := preemption_required;
     cand_free_fraction := cap_free_fraction capacity;
     cand_free_memory_mb := cap_free_memory_mb capacity;
     cand_preemption_victims := preemption_victims;
     cand_action :=
       PlacementAction worker fits_current_with_preemption fits_exclusive_fraction
         fits_exclusive_with_preemption fits_current_fraction fits_memory_with_preemption |}.

(** The comparator of [recommendation.candidates]. *)
Definition candidate_before (selection_policy : string) (left right : PlacementCandidate) : bool :=
  let left_rank := PlacementCandidatePolicyRank selection_policy left in
  let right_rank := PlacementCandidatePolicyRank selection_policy right in
  if negb (left_rank =? right_rank) then left_rank <? right_rank
  else if negb (cand_score left =? cand_score right) then cand_score left >? cand_score right
  else if cand_same_node left !=? cand_same_node right then cand_same_node left
  else if cand_preemption_required left !=? cand_preemption_required right
  then negb (cand_preemption_required left)
  else if cand_idle left !=? cand_idle right then cand_idle left
  else if dgt (dabs (dsub (cand_free_fraction left) (cand_free_fraction right))) kFractionEpsilon
  then dgt (cand_free_fraction left) (cand_free_fraction right)
  else by_node_gpu cand_node_name cand_gpu_device left right.

Definition recommendation (selection_policy : string) (capacities : list GpuCapacitySummary)
    (worker_records : list WorkerAllocationRecord) (worker : WorkerAllocationRecord)
    : option WorkerPlacementRecommendation :=
  if negb (needs_rebalance worker) then None
  else
    let candidates :=
      std_sort (candidate_before selection_policy)
        (placement_candidate worker_records worker <$>
         List.filter (fun capacity => negb (same_gpu worker capacity)) capacities) in
    if vec_empty candidates then None
    else Some {| rec_worker_name := wr_worker_name worker;
                 rec_current_node_name := wr_node_name worker;
                 rec_current_gpu_device := wr_gpu_device worker;
                 rec_current_share_mode := wr_share_mode worker;
                 rec_current_fraction := wr_gpu_fraction worker;
                 rec_current_memory_cap_mb := wr_memory_cap_mb worker;
                 rec_candidates := candidates |}.

(** ** Rollout actions *)

Fixpoint rollout_actions (rollout_step : Z) (recommendations : list WorkerPlacementRecommendation)
    : list SchedulerRolloutAction :=
  match recommendations with
  | [] => []
  | r :: rest =>
      match rec_candidates r with
      | [] => rollout_actions rollout_step rest
      | candidate :: _ =>
          if negb (cand_preemption_required candidate) ||
             vec_empty (cand_preemption_victims candidate)
          then rollout_actions rollout_step rest
          else
            {| act_step := rollout_step; act_worker_name := rec_worker_name r;
               act_action := "evict-best-effort";
               act_target_node_name := cand_node_name candidate;
               act_target_gpu_device := cand_gpu_device candidate;
               act_victim_worker_names := cand_preemption_victims candidate;
               act_reason := "free target capacity before retrying placement for worker '" +:+
                             rec_worker_name r +:+ "'" |} ::
            {| act_step := rollout_step + 1; act_worker_name := rec_worker_name r;
               act_action := "retry-placement";
               act_target_node_name := cand_node_name candidate;
               act_target_gpu_device := cand_gpu_device candidate;
               act_victim_worker_names := [];
               act_reason := "apply deferred scheduler decision after eviction completes" |} ::
            rollout_actions (rollout_step + 2) rest
      end
  end.

(** ** The policy *)

Definition EvaluateSchedulingPolicy (state : DesiredState) : SchedulingPolicyReport :=
  let adm := admit_instances state in
  let allocations := sort_allocation <$> adm_allocations adm in
  let items := map_items allocations in
  let worker_records := foldl mark_group (adm_records adm) items in
  let capacities_raw := raw_capacities allocations (ds_nodes state) in
  let capacities := std_sort (by_node_gpu cap_node_name cap_gpu_device) capacities_raw in
  let recommendations :=
    std_sort (fun left right => klt (rec_worker_name left) (rec_worker_name right))
      (omap (recommendation (EffectiveWorkerSelectionPolicy state) capacities worker_records)
            worker_records) in
  {| rep_allocations :=
       std_sort (by_node_gpu grp_node_name grp_gpu_device) (allocation_group <$> items);
     rep_capacities := capacities;
     rep_placement_recommendations := recommendations;
     rep_preemption_hints :=
       std_sort (by_node_gpu hint_node_name hint_gpu_device)
         (omap (allocation_hint (adm_records adm)) items);
     rep_rollout_actions := rollout_actions 1 recommendations;
     rep_rebalance_hints := omap (rebalance_hint capacities) worker_records;
     rep_warnings := (items ≫= allocation_warnings) ++ idle_warning capacities_raw;
     rep_errors := adm_errors adm ++ (items ≫= allocation_errors) |}.

Definition RequireSchedulingPolicy (state : DesiredState) : result unit :=
  let report := EvaluateSchedulingPolicy state in
  if vec_empty (rep_errors report) then Ok tt
  else Throw ("desired state violates scheduling policy:" +:+
              String.concat "" ((fun error => newline +:+ "- " +:+ error) <$> rep_errors report)).

(** ** Rendering *)

Definition yes_no (b : bool) : string := if b then "yes" else "no".
Definition lines_of {A} (f : A -> string) (l : list A) : string :=
  String.concat "" ((fun x => f x +:+ newline) <$> l).
Definition titled {A} (title : string) (f : A -> string) (l : list A) : string :=
  if vec_empty l then "" else title +:+ newline +:+ lines_of f l.
Definition optional_field (label : string) (value : option Z) : string :=
  from_option (fun v => label +:+ to_string v) "" value.

Definition render_allocation (a : GpuAllocationGroup) : string :=
  "  - node=" +:+ grp_node_name a +:+ " gpu=" +:+ grp_gpu_device a +:+
  " workers=" +:+ JoinStrings (grp_worker_names a) "," +:+
  " exclusive=" +:+ JoinStrings (grp_exclusive_worker_names a) "," +:+
  " shared=" +:+ JoinStrings (grp_shared_worker_names a) "," +:+
  " best_effort=" +:+ JoinStrings (grp_best_effort_worker_names a) "," +:+
  " total_fraction=" +:+ ostream_double (grp_total_fraction a) +:+
  " remaining_fraction=" +:+ ostream_double (grp_remaining_fraction a) +:+
  " priority_range=" +:+ to_string (grp_lowest_priority a) +:+ ".." +:+
  to_string (grp_highest_priority a) +:+
  match grp_memory_capacity_mb a with
  | Some capacity => " memory_cap_mb=" +:+ to_string (grp_total_memory_cap_mb a) +:+ "/" +:+
                     to_string capacity
  | None => if grp_total_memory_cap_mb a >? 0
            then " memory_cap_mb=" +:+ to_string (grp_total_memory_cap_mb a) +:+ "/unknown" else ""
  end.

Definition render_capacity (c : GpuCapacitySummary) : string :=
  "    - node=" +:+ cap_node_name c +:+ " gpu=" +:+ cap_gpu_device c +:+
  " workers=" +:+ to_string (cap_worker_count c) +:+
  " guaranteed_workers=" +:+ to_string (cap_guaranteed_worker_count c) +:+
  " best_effort_workers=" +:+ to_string (cap_best_effort_worker_count c) +:+
  " allocated_fraction=" +:+ ostream_double (cap_allocated_fraction c) +:+
  " free_fraction=" +:+ ostream_double (cap_free_fraction c) +:+
  " releasable_best_effort_fraction=" +:+
  ostream_double (cap_releasable_best_effort_fraction c) +:+
  " idle=" +:+ yes_no (cap_is_idle c) +:+ " soft_share=" +:+ yes_no (cap_has_soft_share c) +:+
  match cap_memory_capacity_mb c with
  | Some capacity =>
      " memory_cap_mb=" +:+ to_string (cap_allocated_memory_cap_mb c) +:+ "/" +:+
      to_string capacity +:+
      (if cap_releasable_best_effort_memory_cap_mb c >? 0
       then " releasable_best_effort_memory_cap_mb=" +:+
            to_string (cap_releasable_best_effort_memory_cap_mb c) else "")
  | None => ""
  end +:+
  (if negb (vec_empty (cap_preemptible_best_effort_workers c))
   then " preemptible_best_effort=" +:+ JoinStrings (cap_preemptible_best_effort_workers c) ","
   else "").

Definition render_action (a : SchedulerRolloutAction) : string :=
  "    - step=" +:+ to_string (act_step a) +:+ " worker=" +:+ act_worker_name a +:+
  " action=" +:+ act_action a +:+
  " target=" +:+ act_target_node_name a +:+ ":" +:+ act_target_gpu_device a +:+
  (if negb (vec_empty (act_victim_worker_names a))
   then " victims=" +:+ JoinStrings (act_victim_worker_names a) "," else "") +:+
  (if negb (str_empty (act_reason a)) then " reason=" +:+ act_reason a else "").

Definition render_candidate (c : PlacementCandidate) : string :=
  "      candidate node=" +:+ cand_node_name c +:+ " gpu=" +:+ cand_gpu_device c +:+
  " score=" +:+ to_string (cand_score c) +:+ " action=" +:+ cand_action c +:+
  " same_node=" +:+ yes_no (cand_same_node c) +:+ " idle=" +:+ yes_no (cand_idle c) +:+
  " fits_current=" +:+ yes_no (cand_fits_current_fraction c) +:+
  " fits_current_after_preemption=" +:+ yes_no (cand_fits_current_with_preemption c) +:+
  " fits_exclusive=" +:+ yes_no (cand_fits_exclusive_fraction c) +:+
  " fits_exclusive_after_preemption=" +:+ yes_no (cand_fits_exclusive_with_preemption c) +:+
  " fits_memory=" +:+ yes_no (cand_fits_memory_cap c) +:+
  " fits_memory_after_preemption=" +:+ yes_no (cand_fits_memory_with_preemption c) +:+
  " preemption_required=" +:+ yes_no (cand_preemption_required c) +:+
  " free_fraction=" +:+ ostream_double (cand_free_fraction c) +:+
  optional_field " free_memory_mb=" (cand_free_memory_mb c) +:+
  (if negb (vec_empty (cand_preemption_victims c))
   then " victims=" +:+ JoinStrings (cand_preemption_victims c) "," else "").

Definition render_recommendation (r : WorkerPlacementRecommendation) : string :=
  "    - worker=" +:+ rec_worker_name r +:+
  " current=" +:+ rec_current_node_name r +:+ ":" +:+ rec_current_gpu_device r +:+
  " share_mode=" +:+ GpuShareMode_ToString (rec_current_share_mode r) +:+
  " fraction=" +:+ ostream_double (rec_current_fraction r) +:+
  optional_field " memory_cap_mb=" (rec_current_memory_cap_mb r) +:+ newline +:+
  lines_of render_candidate (rec_candidates r).

Definition RenderSchedulingPolicyReport (report : SchedulingPolicyReport) : string :=
  "scheduling-policy:" +:+ newline +:+
  (if vec_empty (rep_allocations report) then "  allocations=(empty)" +:+ newline
   else lines_of render_allocation (rep_allocations report)) +:+
  "  capacity:" +:+ newline +:+
  (if vec_empty (rep_capacities report) then "    (empty)" +:+ newline
   else lines_of render_capacity (rep_capacities report)) +:+
  titled "  warnings:" (fun w => "    - " +:+ w) (rep_warnings report) +:+
  titled "  rebalance-hints:" (fun h => "    - " +:+ h) (rep_rebalance_hints report) +:+
  titled "  preemption-hints:"
    (fun h => "    - node=" +:+ hint_node_name h +:+ " gpu=" +:+ hint_gpu_device h +:+
              " victims=" +:+ JoinStrings (hint_victim_worker_names h) "," +:+
              " reason=" +:+ hint_reason h) (rep_preemption_hints report) +:+
  titled "  rollout-actions:" render_action (rep_rollout_actions report) +:+
  (if vec_empty (rep_placement_recommendations report) then ""
   else "  placement-recommendations:" +:+ newline +:+
        String.concat "" (render_recommendation <$> rep_placement_recommendations report)) +:+
  titled "  errors:" (fun e => "    - " +:+ e) (rep_errors report).

(** ** The admission contract *)

Definition node_named (state : DesiredState) (name : string) : option NodeInventory :=
  find_if (fun node => node_name node ==? name) (ds_nodes state).

(** What one worker must satisfy. *)
Record WorkerAdmissible (node_of : string -> option NodeInventory) (w : InstanceSpec) (gpu : string)
    (node : NodeInventory) : Prop := mkWorkerAdmissible {
  wa_pinned : inst_gpu_device w = Some gpu /\ gpu <> "";
  wa_priority : 0 <= inst_priority w;
  wa_fraction : dle (inst_gpu_fraction w) d0 = false /\
                dgt (inst_gpu_fraction w) one_plus_epsilon = false;
  wa_memory : forall cap, inst_memory_cap_mb w = Some cap -> 0 < cap;
  wa_exclusive : inst_share_mode w = Exclusive ->
                 dgt (dabs (dsub (inst_gpu_fraction w) d1)) kFractionEpsilon = false;
  wa_best_effort : inst_share_mode w = BestEffort -> inst_preemptible w = true;
  wa_node : node_of (inst_node_name w) = Some node;
  wa_capable : node_execution_mode node <> InferOnly;
  wa_device : gpu ∈ EffectiveNodeGpuDevices node;
}.

(** The workers pinned to a GPU. *)
Definition on_gpu (node gpu : string) (w : InstanceSpec) : bool :=
  (inst_role w ==? Worker) && (inst_node_name w ==? node) &&
  (inst_gpu_device w ==? Some gpu).
Definition gpu_workers (state : DesiredState) (node gpu : string) : list InstanceSpec :=
  List.filter (on_gpu node gpu) (ds_instances state).

Definition sum_fractions (ws : list InstanceSpec) : double :=
  foldl (fun total w => dadd total (inst_gpu_fraction w)) d0 ws.
Definition sum_memory (ws : list InstanceSpec) : Z :=
  foldl (fun total w => total + value_or (inst_memory_cap_mb w) 0) 0 ws.

(** What the workers of one GPU must satisfy together. *)
Definition GpuAdmissible (ws : list InstanceSpec) (capacity : option Z) : Prop :=
  (forall w, w ∈ ws -> inst_share_mode w = Exclusive -> ws = [w]) /\
  dgt (sum_fractions ws) one_plus_epsilon = false /\
  (forall mb, capacity = Some mb -> sum_memory ws <= mb).

(** The memory caps of the workers of a GPU add up to an [int]. *)
Definition CapsFit (state : DesiredState) : Prop :=
  forall name gpu, sum_memory (gpu_workers state name gpu) <= int_max.

Definition Admissible (state : DesiredState) : Prop :=
  (forall w, w ∈ ds_instances state -> inst_role w = Worker ->
     exists gpu node, WorkerAdmissible (node_named state) w gpu node) /\
  (forall name gpu node, gpu_workers state name gpu <> [] -> node_named state name = Some node ->
     GpuAdmissible (gpu_workers state name gpu) (node_gpu_memory_mb node !! gpu)).

(** *** Lemmas: admission of one worker *)

Lemma lookup_nodes_by_name nodes name :
  nodes_by_name nodes !! name = find_if (fun node => node_name node ==? name) nodes.
Proof.
  unfold nodes_by_name.
  assert (H : forall m, foldl (fun m node => map_emplace (node_name node) node m) m nodes !! name =
    match m !! name with Some n => Some n
    | None => find_if (fun node => node_name node ==? name) nodes end).
  { induction nodes as [|node nodes IH]; intros m; simpl; [by destruct (m !! name)|].
    rewrite IH, lookup_map_emplace. unfold eqb.
    case_decide; case_bool_decide; try congruence; by destruct (m !! name). }
  rewrite H. by rewrite lookup_empty.
Qed.

Lemma check_worker_ok nodes w node gpu :
  check_worker nodes w = Ok (node, gpu) <-> WorkerAdmissible (fun n => nodes !! n) w gpu node.
Proof.
  unfold check_worker. split.
  - destruct (inst_gpu_device w) as [g|] eqn:Eg; [|done].
    repeat (destruct_if; [done|]).
    destruct (nodes !! inst_node_name w) as [n|] eqn:En; [|done].
    destruct (negb (NodeSupportsWorkerExecutionMode n)) eqn:Em; [done|].
    case_bool_decide as Hd; [|done]. intros [= <- <-]. unfold NodeSupportsWorkerExecutionMode in *.
    to_prop. split; try done.
    + split; [done|]. by apply str_empty_false.
    + intros cap Hcap. rewrite Hcap in *. simpl in *. lia.
    + intros Hm. match goal with H : bool_decide (_ = Exclusive) && _ = false |- _ =>
        by rewrite bool_decide_true in H end.
    + intros Hm. match goal with H : bool_decide (_ = BestEffort) && _ = false |- _ =>
        rewrite bool_decide_true in H by done; by apply negb_false_iff in H end.
  - intros [[Hg Hne] Hp [Hf1 Hf2] Hmem Hex Hbe Hn Hcap Hdev]. rewrite Hg.
    apply str_empty_false in Hne. rewrite Hne, Hf1, Hf2, Hn.
    replace (inst_priority w <? 0) with false by lia. simpl.
    replace (from_option (fun cap => cap <=? 0) false (inst_memory_cap_mb w)) with false.
    2:{ destruct (inst_memory_cap_mb w) as [cap|]; simpl; [|done]. specialize (Hmem cap eq_refl). lia. }
    unfold eqb, NodeSupportsWorkerExecutionMode, eqb.
    rewrite (bool_decide_false (node_execution_mode node = InferOnly)) by done.
    rewrite (bool_decide_true (gpu ∈ _)) by done. simpl.
    case_bool_decide as H1; [rewrite Hex by done; rewrite H1 in *; simpl; done|].
    simpl. case_bool_decide as H2; [by rewrite Hbe by done|]. done.
Qed.

Lemma admissible_node_of_ext f g w gpu node :
  (forall n, f n = g n) -> WorkerAdmissible f w gpu node <-> WorkerAdmissible g w gpu node.
Proof. intros H. split; intros []; split; try done; congruence. Qed.

(** *** Lemmas: the admission loop *)

Definition worker_errors (nodes : gmap string NodeInventory) (w : InstanceSpec) : list string :=
  if inst_role w !=? Worker then []
  else match check_worker nodes w with Throw e => [e] | Ok _ => [] end.

Definition admitted_key (nodes : gmap string NodeInventory) (w : InstanceSpec)
    : option (string * string) :=
  if inst_role w !=? Worker then None
  else match check_worker nodes w with
       | Ok (_, gpu) => Some (inst_node_name w, gpu)
       | Throw _ => None
       end.

Lemma admit_errors nodes l adm :
  adm_errors (foldl (admit_instance nodes) adm l) = adm_errors adm ++ (l ≫= worker_errors nodes).
Proof.
  revert adm. induction l as [|w l IH]; intros adm; simpl; [by rewrite app_nil_r|].
  rewrite IH. unfold worker_errors at 2, admit_instance.
  destruct (inst_role w !=? Worker); [done|].
  destruct (check_worker nodes w) as [[node gpu]|e]; simpl; [done|]. by rewrite <-app_assoc.
Qed.

Definition group_of (node : NodeInventory) (gpu : string) (ws : list InstanceSpec)
    (a : AllocationAccumulator) : AllocationAccumulator :=
  foldl (fun a w => add_worker node gpu w a) a ws.

(** One round either leaves the allocations alone or extends one of them. *)
Lemma admit_cases nodes w adm :
  (admitted_key nodes w = None /\
   adm_allocations (admit_instance nodes adm w) = adm_allocations adm) \/
  (exists node gpu, admitted_key nodes w = Some (inst_node_name w, gpu) /\
     nodes !! inst_node_name w = Some node /\
     adm_allocations (admit_instance nodes adm w) =
     <[(inst_node_name w, gpu) := add_worker node gpu w
         (default AllocationAccumulator_default
            (adm_allocations adm !! (inst_node_name w, gpu)))]> (adm_allocations adm)).
Proof.
  unfold admitted_key, admit_instance. destruct (inst_role w !=? Worker); [by left|].
  destruct (check_worker nodes w) as [[n g]|e] eqn:Ec; [right | by left].
  exists n, g. apply check_worker_ok, wa_node in Ec. done.
Qed.

Lemma admit_allocations nodes node name gpu l adm :
  nodes !! name = Some node ->
  let ws := List.filter (fun w => admitted_key nodes w ==? Some (name, gpu)) l in
  adm_allocations (foldl (admit_instance nodes) adm l) !! (name, gpu) =
  if vec_empty ws then adm_allocations adm !! (name, gpu)
  else Some (group_of node gpu ws
               (default AllocationAccumulator_default (adm_allocations adm !! (name, gpu)))).
Proof.
  intros Hnode. revert adm. induction l as [|w l IH]; intros adm; simpl; [done|].
  rewrite IH. clear IH. destruct (admit_cases nodes w adm) as [[Hk ->]|(n & g & Hk & Hn & ->)].
  - rewrite Hk. done.
  - rewrite Hk. unfold eqb. case_bool_decide as Hkey.
    + injection Hkey as Hname ->. rewrite Hname in *. assert (n = node) as -> by congruence.
      simpl. rewrite !lookup_insert_eq. simpl. destruct (List.filter _ l); done.
    + simpl. rewrite lookup_insert_ne by congruence. done.
Qed.

Lemma admit_unknown_node nodes name gpu l adm :
  nodes !! name = None ->
  adm_allocations (foldl (admit_instance nodes) adm l) !! (name, gpu) =
  adm_allocations adm !! (name, gpu).
Proof.
  intros Hnode. revert adm. induction l as [|w l IH]; intros adm; simpl; [done|].
  rewrite IH. destruct (admit_cases nodes w adm) as [[Hk ->]|(n & g & Hk & Hn & ->)]; [done|].
  rewrite lookup_insert_ne; [done|]. congruence.
Qed.

Lemma bind_nil_iff {A B} (f : A -> list B) l : l ≫= f = [] <-> forall x, x ∈ l -> f x = [].
Proof.
  induction l as [|x l IH]; cbn.
  - split; [|done]. intros _ x Hx. by apply elem_of_nil in Hx.
  - change (list_bind _ _ f l) with (l ≫= f). rewrite app_nil, IH.
    setoid_rewrite elem_of_cons. naive_solver.
Qed.

(** *** Lemmas: one allocation group *)

Lemma group_of_snoc node gpu ws w a :
  group_of node gpu (ws ++ [w]) a = add_worker node gpu w (group_of node gpu ws a).
Proof. unfold group_of. by rewrite foldl_app. Qed.

Definition share_names (mode : GpuShareMode) (ws : list InstanceSpec) : list string :=
  inst_name <$> List.filter (fun w => inst_share_mode w ==? mode) ws.

Lemma group_of_spec node gpu ws :
  let a := group_of node gpu ws AllocationAccumulator_default in
  acc_worker_names a = inst_name <$> ws /\
  acc_exclusive_worker_names a = share_names Exclusive ws /\
  acc_shared_worker_names a = share_names Shared ws /\
  acc_best_effort_worker_names a = share_names BestEffort ws /\
  acc_total_fraction a = sum_fractions ws /\
  acc_total_memory_cap_mb a = int32_wrap (sum_memory ws) /\
  acc_memory_capacity_mb a =
    (if vec_empty ws then None else node_gpu_memory_mb node !! gpu).
Proof.
  cbv zeta. induction ws as [|w ws (H1 & H2 & H3 & H4 & H5 & H6 & H7)] using rev_ind; [done|].
  rewrite group_of_snoc. unfold share_names, sum_fractions, sum_memory in *.
  rewrite !List.filter_app, !fmap_app, !foldl_app. simpl.
  rewrite H1, H2, H3, H4, H5, H6, H7, int32_wrap_add.
  replace (vec_empty (ws ++ [w])) with false by (by destruct ws).
  repeat split; unfold snoc_if;
    try (destruct_if; simpl; rewrite ?app_nil_r; done).
  by destruct (node_gpu_memory_mb node !! gpu), (vec_empty ws).
Qed.

Lemma exclusive_alone_iff ws :
  negb (vec_empty (share_names Exclusive ws)) && (vsize (inst_name <$> ws) >? 1) = false <->
  forall w, w ∈ ws -> inst_share_mode w = Exclusive -> ws = [w].
Proof.
  unfold vsize. rewrite length_fmap. split.
  - intros H w Hw Hm. apply andb_false_iff in H as [H|H].
    + apply negb_false_iff, vec_empty_true, fmap_nil_inv in H. exfalso.
      assert (w ∈ List.filter (fun w => inst_share_mode w ==? Exclusive) ws) as Hin.
      { apply list_elem_of_In, filter_In. split; [by apply list_elem_of_In | by apply eqb_true]. }
      rewrite H in Hin. by apply elem_of_nil in Hin.
    + destruct ws as [|x [|y ws]]; [by apply elem_of_nil in Hw| |cbn [length] in H; rewrite Z.gtb_ltb, Z.ltb_ge in H; lia].
      by apply list_elem_of_singleton in Hw as ->.
  - intros H. destruct (share_names Exclusive ws) as [|n l] eqn:E; [done|]. simpl.
    assert (n ∈ share_names Exclusive ws) as Hin by (rewrite E; left).
    apply list_elem_of_fmap in Hin as (w & _ & Hin).
    apply list_elem_of_In, filter_In in Hin as [Hw Hm]. rewrite eqb_true in Hm.
    rewrite (H w); [done | by apply list_elem_of_In | done].
Qed.

Lemma and_iff_compat_l_weak (P Q R : Prop) : (P -> (Q <-> R)) -> P /\ Q <-> P /\ R.
Proof. tauto. Qed.

Lemma group_errors_nil name gpu node ws :
  ws <> [] -> fits_int (sum_memory ws) ->
  allocation_errors ((name, gpu), sort_allocation
    (group_of node gpu ws AllocationAccumulator_default)) = [] <->
  GpuAdmissible ws (node_gpu_memory_mb node !! gpu).
Proof.
  intros Hws Hfits. destruct (group_of_spec node gpu ws) as (H1 & H2 & _ & _ & H5 & H6 & H7).
  rewrite int32_wrap_small in H6 by done.
  unfold allocation_errors, GpuAdmissible. cbn [sort_allocation acc_worker_names
    acc_exclusive_worker_names acc_total_fraction acc_total_memory_cap_mb acc_memory_capacity_mb].
  rewrite H1, H2, H5, H6, H7. replace (vec_empty ws) with false by (by destruct ws).
  rewrite !app_nil, <-exclusive_alone_iff.
  assert (Hif : forall b (x : string), if_list b x = [] <-> b = false) by (by intros []).
  rewrite !Hif. replace (vec_empty (std_sort klt (share_names Exclusive ws)))
    with (vec_empty (share_names Exclusive ws)).
  2:{ apply eq_bool_prop_intro. rewrite !Is_true_true, !vec_empty_true. by rewrite std_sort_nil_iff. }
  unfold vsize at 1. rewrite length_std_sort. unfold vsize.
  apply and_iff_compat_l, and_iff_compat_l.
  destruct (node_gpu_memory_mb node !! gpu) as [mb|]; [|naive_solver].
  rewrite Hif, Z.gtb_ltb, Z.ltb_ge. naive_solver.
Qed.

(** *** The whole loop *)

Section evaluate.
Context (state : DesiredState).
Let nodes := nodes_by_name (ds_nodes state).

Lemma node_named_lookup name : nodes !! name = node_named state name.
Proof. apply lookup_nodes_by_name. Qed.

Definition workers_admissible : Prop :=
  forall w, w ∈ ds_instances state -> inst_role w = Worker ->
    exists gpu node, WorkerAdmissible (node_named state) w gpu node.

Lemma no_worker_errors_iff :
  ds_instances state ≫= worker_errors nodes = [] <-> workers_admissible.
Proof.
  rewrite bind_nil_iff. apply forall_proper. intros w. apply forall_proper. intros _.
  unfold worker_errors, eqb. case_bool_decide as Hw; simpl; [|naive_solver]. split.
  - intros H _. destruct (check_worker nodes w) as [[node gpu]|] eqn:E; [|done].
    exists gpu, node. apply check_worker_ok in E.
    eapply admissible_node_of_ext; [|exact E]. intros n. first [apply node_named_lookup | symmetry; apply node_named_lookup].
  - intros H. destruct (H Hw) as (gpu & node & Ha).
    eapply (admissible_node_of_ext _ (fun n => nodes !! n)), check_worker_ok in Ha;
      [by rewrite Ha|]. intros n. first [apply node_named_lookup | symmetry; apply node_named_lookup].
Qed.

Lemma filter_ext_in {A} (f g : A -> bool) l :
  (forall x, x ∈ l -> f x = g x) -> List.filter f l = List.filter g l.
Proof.
  induction l as [|x l IH]; intros H; simpl; [done|]. rewrite (H x) by left.
  rewrite IH; [done|]. intros. apply H. by right.
Qed.

Lemma admitted_iff_pinned name gpu :
  workers_admissible ->
  List.filter (fun w => admitted_key nodes w ==? Some (name, gpu)) (ds_instances state) =
  gpu_workers state name gpu.
Proof.
  intros Hall. apply filter_ext_in. intros w Hw. unfold admitted_key, on_gpu.
  destruct (inst_role w ==? Worker) eqn:Hr; simpl; [|done]. rewrite eqb_true in Hr.
  destruct (Hall w Hw Hr) as (g & node & Ha). pose proof (wa_pinned _ _ _ _ Ha) as [Hg _].
  eapply (admissible_node_of_ext _ (fun n => nodes !! n)), check_worker_ok in Ha.
  - rewrite Ha, Hg. unfold eqb. repeat case_bool_decide; simpl; try done; congruence.
  - intros n. first [apply node_named_lookup | symmetry; apply node_named_lookup].
Qed.

Lemma admitted_allocation name gpu :
  workers_admissible ->
  adm_allocations (admit_instances state) !! (name, gpu) =
  match node_named state name with
  | Some node =>
      if vec_empty (gpu_workers state name gpu) then None
      else Some (group_of node gpu (gpu_workers state name gpu) AllocationAccumulator_default)
  | None => None
  end.
Proof.
  intros Hall. unfold admit_instances. fold nodes. rewrite <-node_named_lookup.
  destruct (nodes !! name) as [node|] eqn:En.
  - rewrite (admit_allocations _ node) by done. rewrite admitted_iff_pinned by done. done.
  - by rewrite admit_unknown_node.
Qed.

Lemma sum_memory_fits name gpu :
  workers_admissible -> CapsFit state -> fits_int (sum_memory (gpu_workers state name gpu)).
Proof.
  intros Hall Hfit. split; [|apply Hfit]. transitivity 0; [unfold int_min; lia|].
  assert (Hcaps : forall w, w ∈ gpu_workers state name gpu -> 0 <= value_or (inst_memory_cap_mb w) 0).
  { intros w Hw. apply list_elem_of_In, filter_In in Hw as [Hw Hon]. unfold on_gpu in Hon.
    apply andb_true_iff in Hon as [Hon _]. apply andb_true_iff in Hon as [Hr _]. rewrite eqb_true in Hr.
    destruct (Hall w) as (g & node & Ha); [by apply list_elem_of_In|done|].
    destruct (inst_memory_cap_mb w) as [cap|] eqn:Hc; simpl; [|lia]. pose proof (wa_memory _ _ _ _ Ha cap Hc). lia. }
  unfold sum_memory. revert Hcaps. generalize (gpu_workers state name gpu). intros ws.
  induction ws as [|w ws IH] using rev_ind; intros Hcaps; [done|]. rewrite foldl_app. simpl.
  pose proof (IH (fun x Hx => Hcaps x (proj2 (elem_of_app _ _ _) (or_introl Hx)))).
  pose proof (Hcaps w ltac:(apply elem_of_app; right; left)). lia.
Qed.

Lemma policy_errors_nil_iff :
  CapsFit state -> rep_errors (EvaluateSchedulingPolicy state) = [] <-> Admissible state.
Proof.
  intros Hfit. unfold EvaluateSchedulingPolicy. cbn [rep_errors]. rewrite app_nil.
  unfold admit_instances at 1. rewrite admit_errors. simpl. fold nodes.
  rewrite no_worker_errors_iff. unfold Admissible. fold workers_admissible.
  apply and_iff_compat_l_weak. intros Hall. rewrite bind_nil_iff. split.
  - intros H name gpu node Hne Hnode. rewrite <-(group_errors_nil name) by first [done|by apply sum_memory_fits]. apply H.
    apply elem_of_map_items. rewrite lookup_fmap, admitted_allocation, Hnode by done.
    by destruct (gpu_workers state name gpu).
  - intros H [[name gpu] a] Ha. apply elem_of_map_items in Ha.
    rewrite lookup_fmap, admitted_allocation in Ha by done.
    destruct (node_named state name) as [node|] eqn:En; [|done].
    destruct (vec_empty (gpu_workers state name gpu)) eqn:Ew; [done|].
    injection Ha as <-. rewrite vec_empty_false in Ew.
    apply group_errors_nil; [done|by apply sum_memory_fits|]. by apply H.
Qed.
End evaluate.

(** ** Victim selection *)

Definition released_fraction (victims : list WorkerAllocationRecord) : double :=
  foldl (fun total v => dadd total (wr_gpu_fraction v)) d0 victims.
Definition released_memory (victims : list WorkerAllocationRecord) : Z :=
  foldl (fun total v => total + value_or (wr_memory_cap_mb v) 0) 0 victims.

(** Evicting [victims] makes room for the request. *)
Definition enough (need_fraction : double) (need_memory : Z)
    (victims : list WorkerAllocationRecord) : bool :=
  dge (dadd (released_fraction victims) kFractionEpsilon) need_fraction &&
  (released_memory victims >=? need_memory).

Lemma take_victims_spec nf nm rest pre :
  let sel := take_victims nf nm
    (mkVictimSelection (wr_worker_name <$> pre) (released_fraction pre) (released_memory pre) false)
    rest in
  exists k, (k <= length rest)%nat /\
    sel_worker_names sel = wr_worker_name <$> pre ++ take k rest /\
    sel_satisfies sel = bool_decide (0 < k)%nat && enough nf nm (pre ++ take k rest) /\
    (forall j, (0 < j < k)%nat -> enough nf nm (pre ++ take j rest) = false) /\
    (sel_satisfies sel = false -> k = length rest /\
       forall j, (0 < j <= k)%nat -> enough nf nm (pre ++ take j rest) = false).
Proof.
  cbv zeta. revert pre. induction rest as [|v rest IH]; intros pre; simpl.
  - exists 0%nat. rewrite !app_nil_r. repeat split; try done; intros; lia.
  - assert (Hn : wr_worker_name <$> pre ++ [v] = (wr_worker_name <$> pre) ++ [wr_worker_name v])
      by (by rewrite fmap_app).
    assert (Hf : released_fraction (pre ++ [v]) = dadd (released_fraction pre) (wr_gpu_fraction v))
      by (unfold released_fraction; by rewrite foldl_app).
    assert (Hm : released_memory (pre ++ [v]) = released_memory pre + value_or (wr_memory_cap_mb v) 0)
      by (unfold released_memory; by rewrite foldl_app).
    rewrite <-Hn, <-Hf, <-Hm.
    change (dge (dadd (released_fraction (pre ++ [v])) kFractionEpsilon) nf &&
            (released_memory (pre ++ [v]) >=? nm)) with (enough nf nm (pre ++ [v])).
    destruct (enough nf nm (pre ++ [v])) eqn:E.
    + exists 1%nat. simpl. rewrite take_0, E. repeat split; try done; intros; lia.
    + destruct (IH (pre ++ [v])) as (k & Hk & H1 & H2 & H3 & H4).
      exists (S k). simpl. rewrite H1, H2. rewrite <-!app_assoc. simpl.
      split; [lia|]. split; [done|]. split.
      { destruct k as [|k]; [|done]. rewrite take_0. simpl. by rewrite E. }
      assert (Hj : forall j, (0 < S j)%nat -> (j = 0 \/ enough nf nm ((pre ++ [v]) ++ take j rest) = false)%nat ->
                enough nf nm (pre ++ v :: take j rest) = false).
      { intros j _ [->|He]; [by rewrite take_0|]. by rewrite <-app_assoc in He. }
      split.
      * intros [|j] ?; [lia|]. apply Hj; [lia|]. destruct j as [|j]; [by left|].
        right. apply H3. lia.
      * intros Hs. rewrite H2, <-app_assoc in H4. destruct (H4 Hs) as [-> H5]. split; [done|].
        intros [|j] ?; [lia|]. apply Hj; [lia|]. destruct j as [|j]; [by left|].
        right. apply H5. lia.
Qed.

(** Nothing needs evicting exactly when the empty selection is enough. *)
Lemma enough_nil nf nm :
  enough nf nm [] = dle nf kFractionEpsilon && (nm <=? 0).
Proof.
  unfold enough, released_fraction, released_memory, dge; simpl.
  replace (SpecFloat.SFadd 53 1024 d0 kFractionEpsilon) with kFractionEpsilon by reflexivity.
  by rewrite Z.geb_leb.
Qed.

Lemma select_victims_spec worker capacity order required :
  let nf := needed_fraction capacity required in
  let nm := needed_memory_mb worker capacity in
  let sel := SelectMinimalVictims worker capacity order required in
  exists k, (k <= length order)%nat /\
    sel_worker_names sel = wr_worker_name <$> take k order /\
    (sel_satisfies sel = true ->
       enough nf nm (take k order) = true /\
       forall j, (j < k)%nat -> enough nf nm (take j order) = false) /\
    (sel_satisfies sel = false ->
       k = length order /\ forall j, enough nf nm (take j order) = false).
Proof.
  cbv zeta. unfold SelectMinimalVictims. rewrite <-enough_nil.
  destruct (enough _ _ []) eqn:E0.
  - exists 0%nat. simpl. split; [lia|]. split; [done|]. split; [|done]. intros _.
    split; [done|]. lia.
  - destruct (take_victims_spec (needed_fraction capacity required)
      (needed_memory_mb worker capacity) order []) as (k & Hk & H1 & H2 & H3 & H4).
    simpl in *. change (released_fraction []) with d0 in *.
    change (released_memory []) with 0 in *.
    exists k. split; [done|]. split; [done|]. split.
    + intros Hs. rewrite H2 in Hs. apply andb_true_iff in Hs as [_ Hs]. split; [done|].
      intros [|j] Hj; [by rewrite take_0|]. apply H3. lia.
    + intros Hs. destruct (H4 Hs) as [-> H5]. split; [done|]. intros j.
      destruct j as [|j]; [by rewrite take_0|].
      destruct (decide (S j <= length order)%nat) as [Hj|Hj]; [apply H5; lia|].
      rewrite take_ge by lia. destruct order as [|v order]; [done|].
      rewrite <-(firstn_all (v :: order)). apply H5. simpl. lia.
Qed.

(** ** Records, candidates and rollout actions *)

Lemma admit_records_from nodes l adm r :
  r ∈ adm_records (foldl (admit_instance nodes) adm l) ->
  r ∈ adm_records adm \/
  exists w gpu node, w ∈ l /\ inst_role w = Worker /\
    WorkerAdmissible (fun n => nodes !! n) w gpu node /\ r = worker_record gpu w.
Proof.
  revert adm. induction l as [|w l IH]; intros adm; simpl; [by left|].
  intros [Hr|(w' & gpu & node & Hw & H)]%IH.
  - unfold admit_instance, eqb in Hr. case_bool_decide as Hw; simpl in Hr; [|by left].
    destruct (check_worker nodes w) as [[node gpu]|] eqn:E; simpl in Hr; [|by left].
    apply elem_of_app in Hr as [Hr|Hr%list_elem_of_singleton]; [by left|]. right.
    exists w, gpu, node. split; [left|]. by apply check_worker_ok in E.
  - right. exists w', gpu, node. split; [by right | done].
Qed.

Lemma mark_groups_from items recs r :
  r ∈ foldl mark_group recs items -> exists r0, r0 ∈ recs /\ (r = r0 \/ r = mark_soft_shared r0).
Proof.
  revert recs. induction items as [|[[node gpu] a] items IH]; intros recs; simpl.
  { intros Hr. exists r. by split; [|left]. }
  intros (r1 & Hr1 & H)%IH. destruct (vsize (acc_worker_names a) >? 1); [|by exists r1].
  apply list_elem_of_fmap in Hr1 as (r0 & -> & Hr0). exists r0. split; [done|].
  destruct_if; [right|]; naive_solver.
Qed.

(** The instance behind a worker record. *)
Definition record_of (state : DesiredState) (w : InstanceSpec) (r : WorkerAllocationRecord) : Prop :=
  w ∈ ds_instances state /\ inst_role w = Worker /\ inst_name w = wr_worker_name r /\
  inst_node_name w = wr_node_name r /\ inst_gpu_device w = Some (wr_gpu_device r) /\
  inst_share_mode w = wr_share_mode r /\ inst_preemptible w = wr_preemptible r.

Definition final_records (state : DesiredState) : list WorkerAllocationRecord :=
  foldl mark_group (adm_records (admit_instances state))
    (map_items (sort_allocation <$> adm_allocations (admit_instances state))).

Lemma final_records_from state r :
  r ∈ final_records state -> exists w, record_of state w r.
Proof.
  intros (r0 & Hr0 & Hr)%mark_groups_from.
  apply admit_records_from in Hr0 as [Hr0|(w & gpu & node & Hw & Hrole & Ha & ->)].
  { by apply elem_of_nil in Hr0. }
  apply wa_pinned in Ha as [Hgpu _]. exists w. destruct Hr as [-> | ->]; done.
Qed.

Lemma victim_names_from recs worker capacity order required name :
  order = BuildBestEffortVictimOrder recs (cap_node_name capacity) (cap_gpu_device capacity) ->
  name ∈ sel_worker_names (SelectMinimalVictims worker capacity order required) ->
  exists r, r ∈ recs /\ wr_worker_name r = name /\
            is_victim (cap_node_name capacity) (cap_gpu_device capacity) r = true.
Proof.
  intros -> Hin. destruct (select_victims_spec worker capacity
    (BuildBestEffortVictimOrder recs (cap_node_name capacity) (cap_gpu_device capacity)) required)
    as (k & _ & Hn & _).
  rewrite Hn in Hin. apply list_elem_of_fmap in Hin as (r & -> & Hr).
  apply (subseteq_take k) in Hr.
  unfold BuildBestEffortVictimOrder in Hr. rewrite elem_of_std_sort in Hr.
  apply list_elem_of_In, filter_In in Hr as [Hr Hv]. exists r. by rewrite list_elem_of_In.
Qed.

Lemma candidate_victims_from recs worker capacity name :
  name ∈ cand_preemption_victims (placement_candidate recs worker capacity) ->
  exists r, r ∈ recs /\ wr_worker_name r = name /\
            is_victim (cap_node_name capacity) (cap_gpu_device capacity) r = true.
Proof.
  unfold placement_candidate. cbn [cand_preemption_victims].
  destruct_if; by apply victim_names_from.
Qed.

(** What a pair of rollout actions says. *)
Definition rollout_pair_ok (state : DesiredState)
    (pair : SchedulerRolloutAction * SchedulerRolloutAction) : Prop :=
  let '(evict, retry) := pair in
  act_action evict = "evict-best-effort" /\ act_action retry = "retry-placement" /\
  act_worker_name retry = act_worker_name evict /\
  act_target_node_name retry = act_target_node_name evict /\
  act_target_gpu_device retry = act_target_gpu_device evict /\
  act_victim_worker_names evict <> [] /\ act_victim_worker_names retry = [] /\
  (exists w, w ∈ ds_instances state /\ inst_role w = Worker /\ inst_name w = act_worker_name evict /\
     (inst_node_name w, inst_gpu_device w) <>
     (act_target_node_name evict, Some (act_target_gpu_device evict))) /\
  (forall v, v ∈ act_victim_worker_names evict ->
     exists w, w ∈ ds_instances state /\ inst_role w = Worker /\ inst_name w = v /\
       inst_node_name w = act_target_node_name evict /\
       inst_gpu_device w = Some (act_target_gpu_device evict) /\
       inst_share_mode w = BestEffort /\ inst_preemptible w = true).

Definition unpair (pair : SchedulerRolloutAction * SchedulerRolloutAction)
    : list SchedulerRolloutAction := [pair.1; pair.2].

Lemma recommendation_candidates policy capacities recs worker r :
  recommendation policy capacities recs worker = Some r ->
  rec_worker_name r = wr_worker_name worker /\
  forall c, c ∈ rec_candidates r <->
    exists capacity, capacity ∈ capacities /\ same_gpu worker capacity = false /\
                     c = placement_candidate recs worker capacity.
Proof.
  unfold recommendation. destruct (negb _); [done|]. destruct (vec_empty _); [done|].
  intros [= <-]. split; [done|]. intros c. cbn [rec_candidates].
  rewrite elem_of_std_sort, list_elem_of_fmap. split.
  - intros (cap & -> & Hin). apply list_elem_of_In, filter_In in Hin as [Hin Hs].
    exists cap. rewrite list_elem_of_In, negb_true_iff in *. done.
  - intros (cap & Hin & Hs & ->). exists cap. split; [done|].
    apply list_elem_of_In, filter_In. rewrite Hs. by apply list_elem_of_In in Hin.
Qed.

Lemma recommendation_total policy capacities recs worker capacity :
  needs_rebalance worker = true -> capacity ∈ capacities -> same_gpu worker capacity = false ->
  is_Some (recommendation policy capacities recs worker).
Proof.
  intros Hneeds Hin Hs. unfold recommendation. rewrite Hneeds. simpl.
  destruct (vec_empty _) eqn:E; [|by eexists]. exfalso.
  apply vec_empty_true, std_sort_nil_iff, fmap_nil_inv in E.
  assert (capacity ∈ List.filter (fun capacity => negb (same_gpu worker capacity)) capacities) as H.
  { apply list_elem_of_In, filter_In. rewrite Hs. by apply list_elem_of_In in Hin. }
  rewrite E in H. by apply elem_of_nil in H.
Qed.

Lemma elem_of_capacities state cap :
  cap ∈ rep_capacities (EvaluateSchedulingPolicy state) <->
  exists n gpu, n ∈ ds_nodes state /\ node_execution_mode n <> InferOnly /\
    gpu ∈ EffectiveNodeGpuDevices n /\
    cap = capacity_summary (sort_allocation <$> adm_allocations (admit_instances state)) n gpu.
Proof.
  unfold EvaluateSchedulingPolicy. cbn [rep_capacities]. rewrite elem_of_std_sort.
  unfold raw_capacities. rewrite list_elem_of_bind.
  unfold NodeSupportsWorkerExecutionMode. split.
  - intros (n & Hc & Hn). unfold eqb in Hc. case_bool_decide as Hm; simpl in Hc;
      [by apply elem_of_nil in Hc|]. apply list_elem_of_fmap in Hc as (gpu & -> & Hg). eauto 10.
  - intros (n & gpu & Hn & Hm & Hg & ->). exists n. split; [|done]. unfold eqb.
    rewrite bool_decide_false by done. simpl. by apply list_elem_of_fmap_2.
Qed.

Lemma share_names_partition ws :
  Z.of_nat (length (inst_name <$> ws)) =
  Z.of_nat (length (share_names Exclusive ws)) + Z.of_nat (length (share_names Shared ws)) +
  Z.of_nat (length (share_names BestEffort ws)).
Proof.
  unfold share_names. rewrite !length_fmap. induction ws as [|w ws IH]; simpl; [done|].
  destruct (inst_share_mode w); simpl; lia.
Qed.

Lemma rollout_pairs state policy capacities recs :
  Forall (fun r => exists worker, worker ∈ final_records state /\
            recommendation policy capacities (final_records state) worker = Some r) recs ->
  forall step, exists pairs,
    rollout_actions step recs = pairs ≫= unpair /\ Forall (rollout_pair_ok state) pairs /\
    act_step <$> rollout_actions step recs = seqZ step (2 * Z.of_nat (length pairs)).
Proof.
  induction 1 as [|r recs (worker & Hw & Hr) _ IH]; intros step; simpl.
  { by exists []. }
  apply recommendation_candidates in Hr as [Hname Hc].
  destruct (rec_candidates r) as [|c cs]; [apply IH|].
  destruct (negb (cand_preemption_required c) || vec_empty (cand_preemption_victims c)) eqn:E;
    [apply IH|]. to_prop. rewrite vec_empty_false in *.
  destruct (IH (step + 2)) as (pairs & Hp & Hok & Hs). rewrite Hp in *.
  match goal with |- context [?e :: ?t :: (pairs ≫= unpair)] => exists ((e, t) :: pairs) end.
  split; [done|]. split.
  - constructor; [|done]. destruct (proj1 (Hc c) ltac:(left)) as (cap & _ & Hs' & ->).
    destruct (final_records_from _ _ Hw) as (w & Hin & Hrole & Hn & Hnode & Hgpu & _).
    simpl. repeat split; try done.
    + exists w. repeat split; try done; [congruence|]. intros [= H1 H2].
      unfold same_gpu in Hs'. rewrite Hnode in H1. rewrite Hgpu in H2. injection H2 as H2.
      by rewrite H1, H2, !eqb_refl in Hs'.
    + intros v (rv & Hrv & <- & Hv)%candidate_victims_from.
      destruct (final_records_from _ _ Hrv) as (x & Hx & Hxr & Hxn & Hxnode & Hxg & Hxs & Hxp).
      unfold is_victim in Hv. to_prop. exists x. repeat split; try done; congruence.
  - rewrite !fmap_cons. cbn [act_step]. rewrite Hs. cbn [length].
    replace (2 * Z.of_nat (S (length pairs))) with (Z.succ (Z.succ (2 * Z.of_nat (length pairs)))) by lia.
    rewrite (seqZ_cons step), (seqZ_cons (Z.succ step)) by lia. repeat f_equal; lia.
Qed.

(** ** Properties *)

(** C2. Admission is exact: a desired state passes the scheduling policy if and
    only if every worker pins an existing GPU of a worker-capable node with a
    valid priority, fraction, memory cap and share mode, and on every GPU an
    exclusive worker is alone, the fractions add up to at most 1 (plus the
    tolerance) and the memory caps fit the GPU's memory.  It holds of states in which
    the memory caps of the workers of a GPU add up to a number of type [int]; beyond,
    see [overflowing_caps_admitted]. *)
Theorem policy_admission_exact state :
  CapsFit state -> RequireSchedulingPolicy state = Ok tt <-> Admissible state.
Proof.
  intros Hfit. rewrite <-policy_errors_nil_iff by done. unfold RequireSchedulingPolicy.
  rewrite <-vec_empty_true. by destruct (vec_empty _).
Qed.


(** Rollout actions are numbered 1, 2, 3, ... and come in pairs: an eviction
    with at least one victim and then the retry for the same worker and target.
    The worker being placed does not sit on the target GPU, and every victim is
    a preemptible best-effort worker of the desired state pinned to it. *)
Theorem rollout_actions_well_formed state :
  let actions := rep_rollout_actions (EvaluateSchedulingPolicy state) in
  exists pairs, actions = pairs ≫= unpair /\ Forall (rollout_pair_ok state) pairs /\
                act_step <$> actions = seqZ 1 (2 * Z.of_nat (length pairs)).
Proof.
  cbv zeta. unfold EvaluateSchedulingPolicy. cbn [rep_rollout_actions]. fold (final_records state).
  eapply rollout_pairs. apply Forall_forall. intros r Hr.
  rewrite elem_of_std_sort, list_elem_of_omap in Hr. exact Hr.
Qed.

(** A recommendation is complete: every worker that shares its GPU, reserves
    less than a whole one or is not exclusive is offered every other GPU of
    every worker-capable node, and nothing else. *)
Theorem recommendations_complete state worker :
  worker ∈ final_records state ->
  needs_rebalance worker = true ->
  let report := EvaluateSchedulingPolicy state in
  let others := fun node gpu =>
    (node, gpu) <> (wr_node_name worker, wr_gpu_device worker) /\
    exists n, n ∈ ds_nodes state /\ node_name n = node /\
              node_execution_mode n <> InferOnly /\ gpu ∈ EffectiveNodeGpuDevices n in
  (forall node gpu, others node gpu ->
     exists r c, r ∈ rep_placement_recommendations report /\
       rec_worker_name r = wr_worker_name worker /\ c ∈ rec_candidates r /\
       cand_node_name c = node /\ cand_gpu_device c = gpu) /\
  (forall r c, recommendation (EffectiveWorkerSelectionPolicy state) (rep_capacities report)
                 (final_records state) worker = Some r ->
     c ∈ rec_candidates r -> others (cand_node_name c) (cand_gpu_device c)).
Proof.
  cbv zeta. intros Hw Hneeds.
  pose proof (elem_of_capacities state) as Hcap. split.
  - intros node gpu (Hne & n & Hn & <- & Hm & Hg).
    set (cap := capacity_summary (sort_allocation <$> adm_allocations (admit_instances state)) n gpu).
    assert (Hs : same_gpu worker cap = false).
    { unfold same_gpu, eqb. cbn [cap capacity_summary cap_node_name cap_gpu_device].
      repeat case_bool_decide; simpl; congruence. }
    assert (Hin : cap ∈ rep_capacities (EvaluateSchedulingPolicy state)) by (apply Hcap; by exists n, gpu).
    destruct (recommendation_total (EffectiveWorkerSelectionPolicy state)
      (rep_capacities (EvaluateSchedulingPolicy state)) (final_records state) worker cap)
      as [r Hr]; [done..|].
    exists r, (placement_candidate (final_records state) worker cap).
    pose proof (recommendation_candidates _ _ _ _ _ Hr) as [Hname Hc].
    repeat split; try done.
    + unfold EvaluateSchedulingPolicy. cbn [rep_placement_recommendations].
      rewrite elem_of_std_sort. apply list_elem_of_omap. by exists worker.
    + apply Hc. by exists cap.
  - intros r c Hr Hc. apply recommendation_candidates in Hr as [_ Hr].
    apply Hr in Hc as (cap & Hin & Hs & ->). apply Hcap in Hin as (n & gpu & Hn & Hm & Hg & ->).
    split; [|by exists n]. intros Heq. unfold same_gpu in Hs.
    cbn [cap_node_name cap_gpu_device capacity_summary placement_candidate cand_node_name
         cand_gpu_device] in *. injection Heq as H1 H2. by rewrite H1, H2, !eqb_refl in Hs.
Qed.

(** Capacity summaries are consistent: free fraction is never negative, free
    memory lies between zero and the capacity, a GPU is idle exactly when it
    has no workers, and in an admitted state the workers counted are the
    guaranteed and the best-effort ones together. *)
Theorem capacity_summaries_consistent state cap :
  cap ∈ rep_capacities (EvaluateSchedulingPolicy state) ->
  dle d0 (cap_free_fraction cap) = true /\
  (forall free, cap_free_memory_mb cap = Some free -> 0 <= free) /\
  (cap_is_idle cap = true <-> cap_worker_count cap = 0) /\
  (Admissible state ->
     cap_worker_count cap = cap_guaranteed_worker_count cap + cap_best_effort_worker_count cap).
Proof.
  intros (n & gpu & Hn & Hm & Hg & ->)%elem_of_capacities.
  unfold capacity_summary, FindAllocationAccumulator.
  cbn [cap_free_fraction cap_free_memory_mb cap_is_idle cap_worker_count
       cap_guaranteed_worker_count cap_best_effort_worker_count].
  rewrite lookup_fmap. split; [|split; [|split]].
  - destruct (adm_allocations _ !! _); simpl; [apply dmax_zero_nonneg | done].
  - intros free. destruct (node_gpu_memory_mb n !! gpu); simpl; [|done]. intros [= <-]. lia.
  - destruct (adm_allocations _ !! _) as [a|]; simpl; [|done]. unfold vsize.
    rewrite length_std_sort, vec_empty_true, std_sort_nil_iff, <-length_zero_iff_nil. lia.
  - intros [Hall _]. rewrite (admitted_allocation state) by done.
    destruct (node_named state (node_name n)) as [node|]; simpl; [|done].
    destruct (vec_empty _); simpl; [done|].
    destruct (group_of_spec node gpu (gpu_workers state (node_name n) gpu))
      as (-> & -> & -> & -> & _).
    unfold vsize. rewrite !length_std_sort. apply share_names_partition.
Qed.

(** ** Findings *)

Definition fx_record (name : string) (fraction : double) : WorkerAllocationRecord :=
  mkWorkerAllocationRecord name "node-a" "0" BestEffort fraction 10 true None false.

(** The comparator handed to [std::sort] for the eviction order is not a
    strict weak ordering: with fractions that differ by less than the tolerance
    pairwise but by more end to end, incomparability is not transitive, which
    [std::sort] requires. *)
Theorem victim_comparator_not_weak_order : ~ StrictWeakOrder victim_before.
Proof.
  intros [_ Hco].
  destruct (Hco (fx_record "w" (SpecFloat.S754_finite false 4503599639980575 (-53)))
                (fx_record "w" (SpecFloat.S754_finite false 4503599633675535 (-53)))
                (fx_record "w" (SpecFloat.S754_finite false 4503599627370496 (-53)))
                ltac:(vm_compute; reflexivity)) as [H|H]; vm_compute in H; discriminate H.
Qed.

(** Two 10000 MB GPUs; "big" needs 8000 MB, and the other GPU holds a small
    guaranteed worker and a best-effort one of 6000 MB. *)
Definition fx_memory_plane : DesiredState :=
  fx_state [fx_node "node-a" (<["0" := 10000]> ∅); fx_node "node-b" (<["0" := 10000]> ∅)] []
    [fx_instance "big" Worker "node-a" "shared" (Some "0") Shared d0_25 50 false (Some 8000);
     fx_instance "guard" Worker "node-b" "shared" (Some "0") Shared d0_25 50 false (Some 1000);
     fx_instance "batch" Worker "node-b" "shared" (Some "0") BestEffort d0_25 10 true (Some 6000)].

(** A target short of memory but not of fraction is offered as a plain move:
    the worker's memory cap does not fit the free memory, a victim has to be
    evicted first, and yet the candidate is marked as needing no preemption, so
    no eviction is planned for it. *)
Theorem memory_shortage_not_preempting :
  exists r c, r ∈ rep_placement_recommendations (EvaluateSchedulingPolicy fx_memory_plane) /\
    rec_candidates r = [c] /\ rec_worker_name r = "big" /\
    cand_action c = "move-with-current-fraction" /\ cand_fits_memory_cap c = false /\
    cand_preemption_victims c = ["batch"] /\ cand_preemption_required c = false /\
    List.filter (fun a => act_worker_name a ==? "big")
      (rep_rollout_actions (EvaluateSchedulingPolicy fx_memory_plane)) = [].
Proof.
  destruct (rep_placement_recommendations (EvaluateSchedulingPolicy fx_memory_plane))
    as [|r0 [|r1 [|r2 [|]]]] eqn:E; try (vm_compute in E; discriminate E).
  exists r1. vm_compute in E. injection E as <- <- <-. eexists.
  split; [right; left|]. split; [reflexivity|]. vm_compute. done.
Qed.

(** Two workers with caps of 2000000000 MB on a GPU of 24576 MB: the sum overflows
    to a negative number and the state passes. *)
Definition fx_overflow_plane : DesiredState :=
  fx_state [fx_node "node-a" (<["0" := 24576]> ∅)] []
    [fx_instance "one" Worker "node-a" "shared" (Some "0") Shared d0_25 50 false (Some 2000000000);
     fx_instance "two" Worker "node-a" "shared" (Some "0") Shared d0_25 50 false (Some 2000000000)].

Theorem overflowing_caps_admitted :
  RequireSchedulingPolicy fx_overflow_plane = Ok tt /\ ~ Admissible fx_overflow_plane.
Proof.
  split; [vm_compute; reflexivity|]. intros [_ H].
  destruct (H "node-a" "0" (fx_node "node-a" (<["0" := 24576]> ∅))) as (_ & _ & Hm);
    [vm_compute; discriminate|reflexivity|].
  specialize (Hm 24576 eq_refl). vm_compute in Hm. by apply Hm.
Qed.

(** ** Witnesses *)

(** The demo plane is admitted, so it is admissible. *)
Lemma policy_admission_exact_witness : CapsFit fx_plane /\ Admissible fx_plane.
Proof.
  assert (Hfit : CapsFit fx_plane).
  { intros name gpu. unfold gpu_workers. cbn [fx_plane fx_state ds_instances List.filter].
    repeat destruct (on_gpu name gpu _); vm_compute; discriminate. }
  split; [exact Hfit|]. apply (policy_admission_exact fx_plane Hfit). vm_compute. reflexivity.
Defined.

Lemma recommendations_complete_witness :
  match final_records fx_plane with
  | worker :: _ =>
      forall node gpu,
        (node, gpu) <> (wr_node_name worker, wr_gpu_device worker) /\
        (exists n, n ∈ ds_nodes fx_plane /\ node_name n = node /\
                   node_execution_mode n <> InferOnly /\ gpu ∈ EffectiveNodeGpuDevices n) ->
        exists r c, r ∈ rep_placement_recommendations (EvaluateSchedulingPolicy fx_plane) /\
          rec_worker_name r = wr_worker_name worker /\ c ∈ rec_candidates r /\
          cand_node_name c = node /\ cand_gpu_device c = gpu
  | [] => False
  end.
Proof.
  destruct (final_records fx_plane) as [|worker rest] eqn:E; [vm_compute in E; discriminate E|].
  apply (recommendations_complete fx_plane worker).
  - rewrite E. left.
  - vm_compute in E. injection E as <- _. vm_compute. reflexivity.
Defined.

Lemma capacity_summaries_consistent_witness :
  match rep_capacities (EvaluateSchedulingPolicy fx_plane) with
  | cap :: _ => dle d0 (cap_free_fraction cap) = true /\
                (cap_is_idle cap = true <-> cap_worker_count cap = 0)
  | [] => False
  end.
Proof.
  destruct (rep_capacities (EvaluateSchedulingPolicy fx_plane)) as [|cap rest] eqn:E;
    [vm_compute in E; discriminate E|].
  destruct (capacity_summaries_consistent fx_plane cap) as (H1 & _ & H2 & _).
  - rewrite E. left.
  - split; [exact H1 | exact H2].
Defined.

(** The demo plane is admitted. *)
Example demo_plane_admitted : RequireSchedulingPolicy fx_plane = Ok tt.
Proof. vm_compute. reflexivity. Qed.
