(* ===== verification/AssignmentStore.v ===== *)
(** * Host assignments

    [common/src/state/assignment_repository.cpp], the status codecs of
    [sqlite_store_status_codec.cpp] and the records of [sqlite_store.h]: the
    work queue between the controller and the host daemons.  The SQL table
    [host_assignments] is a list of rows in insertion order with the
    [AUTOINCREMENT] counter; each SQL statement is a function on it, a
    transaction is their composition.  [CURRENT_TIMESTAMP] is the argument [now],
    in seconds, the same throughout a transaction; a status column holds the
    enumeration its text stands for ([status_codecs_roundtrip]). *)

From S2P Require Import Prelude.

Inductive HostAssignmentStatus := Pending | Claimed | Applied | Failed | Superseded.
#[export] Instance HostAssignmentStatus_eq_dec : EqDecision HostAssignmentStatus.
Proof. solve_decision. Defined.

Inductive HostObservationStatus := ObsIdle | ObsApplying | ObsApplied | ObsFailed.
#[export] Instance HostObservationStatus_eq_dec : EqDecision HostObservationStatus.
Proof. solve_decision. Defined.

Inductive NodeAvailability := Active | Draining | Unavailable.
#[export] Instance NodeAvailability_eq_dec : EqDecision NodeAvailability.
Proof. solve_decision. Defined.

Inductive RolloutActionStatus := RolloutPending | Acknowledged | ReadyToRetry.
#[export] Instance RolloutActionStatus_eq_dec : EqDecision RolloutActionStatus.
Proof. solve_decision. Defined.

Definition HostAssignmentStatus_ToString (status : HostAssignmentStatus) : string :=
  match status with
  | Pending => "pending"
  | Claimed => "claimed"
  | Applied => "applied"
  | Failed => "failed"
  | Superseded => "superseded"
  end.

Definition ParseHostAssignmentStatus (value : string) : result HostAssignmentStatus :=
  if value ==? "pending" then Ok Pending
  else if value ==? "claimed" then Ok Claimed
  else if value ==? "applied" then Ok Applied
  else if value ==? "failed" then Ok Failed
  else if value ==? "superseded" then Ok Superseded
  else Throw ("unknown host assignment status '" +:+ value +:+ "'").

Definition HostObservationStatus_ToString (status : HostObservationStatus) : string :=
  match status with
  | ObsIdle => "idle"
  | ObsApplying => "applying"
  | ObsApplied => "applied"
  | ObsFailed => "failed"
  end.

Definition ParseHostObservationStatus (value : string) : result HostObservationStatus :=
  if value ==? "idle" then Ok ObsIdle
  else if value ==? "applying" then Ok ObsApplying
  else if value ==? "applied" then Ok ObsApplied
  else if value ==? "failed" then Ok ObsFailed
  else Throw ("unknown host observation status '" +:+ value +:+ "'").

Definition NodeAvailability_ToString (availability : NodeAvailability) : string :=
  match availability with
  | Active => "active"
  | Draining => "draining"
  | Unavailable => "unavailable"
  end.

Definition ParseNodeAvailability (value : string) : result NodeAvailability :=
  if value ==? "active" then Ok Active
  else if value ==? "draining" then Ok Draining
  else if value ==? "unavailable" then Ok Unavailable
  else Throw ("unknown node availability '" +:+ value +:+ "'").

Definition RolloutActionStatus_ToString (status : RolloutActionStatus) : string :=
  match status with
  | RolloutPending => "pending"
  | Acknowledged => "acknowledged"
  | ReadyToRetry => "ready-to-retry"
  end.

Definition ParseRolloutActionStatus (value : string) : result RolloutActionStatus :=
  if value ==? "pending" then Ok RolloutPending
  else if value ==? "acknowledged" then Ok Acknowledged
  else if value ==? "ready-to-retry" then Ok ReadyToRetry
  else Throw ("unknown rollout action status '" +:+ value +:+ "'").

Record HostAssignment := mkHostAssignment {
  ha_id : Z;
  ha_node_name : string;
  ha_plane_name : string;
  ha_desired_generation : Z;
  ha_attempt_count : Z;
  ha_max_attempts : Z;
  ha_assignment_type : string;
  ha_desired_state_json : string;
  ha_artifacts_root : string;
  ha_status : HostAssignmentStatus;
  ha_status_message : string;
  ha_progress_json : string;
}.

(** A row of [host_assignments]. *)
Record Row := mkRow {
  row_data : HostAssignment;
  row_updated_at : Z;
}.

Record Table := mkTable {
  tbl_rows : list Row;
  tbl_sequence : Z;
}.

Definition empty_table : Table := mkTable [] 0.

Definition set_status (status : HostAssignmentStatus) (message : string) (a : HostAssignment)
    : HostAssignment :=
  mkHostAssignment (ha_id a) (ha_node_name a) (ha_plane_name a) (ha_desired_generation a)
    (ha_attempt_count a) (ha_max_attempts a) (ha_assignment_type a) (ha_desired_state_json a)
    (ha_artifacts_root a) status message (ha_progress_json a).
Definition set_progress (progress : string) (a : HostAssignment) : HostAssignment :=
  mkHostAssignment (ha_id a) (ha_node_name a) (ha_plane_name a) (ha_desired_generation a)
    (ha_attempt_count a) (ha_max_attempts a) (ha_assignment_type a) (ha_desired_state_json a)
    (ha_artifacts_root a) (ha_status a) (ha_status_message a) progress.
Definition set_attempts (attempt_count max_attempts : Z) (a : HostAssignment) : HostAssignment :=
  mkHostAssignment (ha_id a) (ha_node_name a) (ha_plane_name a) (ha_desired_generation a)
    attempt_count max_attempts (ha_assignment_type a) (ha_desired_state_json a)
    (ha_artifacts_root a) (ha_status a) (ha_status_message a) (ha_progress_json a).

(** [UPDATE host_assignments SET f, updated_at = now WHERE p]; [sqlite3_changes]
    is the number of rows that match. *)
Definition update_row (now : Z) (p : Row -> bool) (f : HostAssignment -> HostAssignment) (r : Row)
    : Row :=
  if p r then mkRow (f (row_data r)) now else r.
Definition update_where (now : Z) (p : Row -> bool) (f : HostAssignment -> HostAssignment)
    (t : Table) : Table * Z :=
  (mkTable (update_row now p f <$> tbl_rows t) (tbl_sequence t),
   Z.of_nat (length (List.filter p (tbl_rows t)))).

Definition has_status (status : HostAssignmentStatus) (r : Row) : bool :=
  ha_status (row_data r) ==? status.
Definition is_active (r : Row) : bool := has_status Pending r || has_status Claimed r.
Definition has_id (id : Z) (r : Row) : bool := ha_id (row_data r) =? id.
Definition on_node (node_name : string) (r : Row) : bool := ha_node_name (row_data r) ==? node_name.
Definition on_plane (plane_name : string) (r : Row) : bool :=
  ha_plane_name (row_data r) ==? plane_name.

(** ** The repository *)

Definition InsertAssignment (now : Z) (assignment : HostAssignment) (t : Table) : Table :=
  let id := tbl_sequence t + 1 in
  let row :=
    mkHostAssignment id (ha_node_name assignment) (ha_plane_name assignment)
      (ha_desired_generation assignment) (ha_attempt_count assignment)
      (ha_max_attempts assignment) (ha_assignment_type assignment)
      (ha_desired_state_json assignment) (ha_artifacts_root assignment) (ha_status assignment)
      (ha_status_message assignment)
      (if str_empty (ha_progress_json assignment) then "{}" else ha_progress_json assignment) in
  mkTable (tbl_rows t ++ [mkRow row now]) id.

Definition SupersedeHostAssignmentsForPlane (now : Z) (plane_name status_message : string)
    (t : Table) : Table * Z :=
  update_where now (fun r => on_plane plane_name r && is_active r)
    (set_status Superseded status_message) t.

Definition ReplaceHostAssignments (now : Z) (assignments : list HostAssignment) (t : Table)
    : Table :=
  let t :=
    match assignments with
    | [] => t
    | front :: _ =>
        fst (update_where now (fun r => on_plane (ha_plane_name front) r && is_active r)
               (set_status Superseded ("superseded by desired generation " +:+
                                       to_string (ha_desired_generation front))) t)
    end in
  foldl (fun t assignment => InsertAssignment now assignment t) t assignments.

Definition enqueue_one (now : Z) (supersede_reason : string) (t : Table)
    (assignment : HostAssignment) : Table :=
  let message :=
    if str_empty supersede_reason
    then "superseded by manual resync for desired generation " +:+
         to_string (ha_desired_generation assignment)
    else supersede_reason in
  InsertAssignment now assignment
    (fst (update_where now
            (fun r => on_plane (ha_plane_name assignment) r &&
                      on_node (ha_node_name assignment) r && is_active r)
            (set_status Superseded message) t)).

Definition EnqueueHostAssignments (now : Z) (assignments : list HostAssignment)
    (supersede_reason : string) (t : Table) : Table :=
  if vec_empty assignments then t else foldl (enqueue_one now supersede_reason) t assignments.

Definition LoadHostAssignment (assignment_id : Z) (t : Table) : option HostAssignment :=
  row_data <$> find_if (has_id assignment_id) (tbl_rows t).

Definition optional_filter {A} (p : A -> Row -> bool) (value : option A) (r : Row) : bool :=
  match value with Some v => p v r | None => true end.

(** [ORDER BY id ASC]. *)
Definition LoadHostAssignments (node_name : option string) (status : option HostAssignmentStatus)
    (plane_name : option string) (t : Table) : list HostAssignment :=
  std_sort (fun left right => ha_id left <? ha_id right)
    (row_data <$> List.filter (fun r => optional_filter on_node node_name r &&
                                        optional_filter has_status status r &&
                                        optional_filter on_plane plane_name r) (tbl_rows t)).

(** *** Claiming *)

(** [LIKE 'prefix%']: case-insensitive on ASCII letters. *)
Definition ascii_lower (c : Ascii.ascii) : Ascii.ascii :=
  let n := Ascii.nat_of_ascii c in
  if (65 <=? n)%nat && (n <=? 90)%nat then Ascii.ascii_of_nat (n + 32) else c.
Fixpoint lower (s : string) : string :=
  match s with EmptyString => EmptyString | String c s' => String (ascii_lower c) (lower s') end.
Definition like_prefix (prefix s : string) : bool := starts_with (lower prefix) (lower s).

Definition runtime_http_proxy : string := "runtime-http-proxy".

(** The [CASE] of the [ORDER BY] clause. *)
Definition claim_priority (a : HostAssignment) : Z :=
  if ha_assignment_type a !=? runtime_http_proxy then 0
  else if like_prefix "runtime-http-proxy:webgateway:" (ha_plane_name a) then 30
  else if like_prefix "runtime-http-proxy:skills:" (ha_plane_name a) then 20
  else if like_prefix "runtime-http-proxy:knowledge-vault:" (ha_plane_name a) then 20
  else 10.

Definition exhausted (a : HostAssignment) : bool := ha_max_attempts a <=? ha_attempt_count a.

(** Expired leases: back to pending, or failed once the attempts are used up. *)
Definition expire_claims (now : Z) (node_name : string) (t : Table) : Table :=
  fst (update_where now
         (fun r => on_node node_name r && has_status Claimed r && (row_updated_at r <=? now - 60))
         (fun a => if exhausted a
                   then set_status Failed "claimed assignment lease expired after exhausted attempts" a
                   else set_status Pending "claimed assignment lease expired; retrying" a) t).

Definition expire_proxies (now : Z) (node_name : string) (t : Table) : Table :=
  fst (update_where now
         (fun r => on_node node_name r && (ha_assignment_type (row_data r) ==? runtime_http_proxy) &&
                   has_status Pending r && (row_updated_at r <=? now - 45))
         (set_status Failed "runtime HTTP proxy request expired before hostd claimed it") t).

Definition claimable (node_name : string) (r : Row) : bool :=
  on_node node_name r && has_status Pending r && negb (exhausted (row_data r)).

Definition claim_before (left right : HostAssignment) : bool :=
  if claim_priority left !=? claim_priority right then klt (claim_priority left) (claim_priority right)
  else klt (ha_id left) (ha_id right).

Definition claimed_progress_json : string :=
  "{" +:+ quoted "phase" +:+ ":" +:+ quoted "queued" +:+ "," +:+
  quoted "title" +:+ ":" +:+ quoted "Assignment claimed" +:+ "," +:+
  quoted "detail" +:+ ":" +:+
  quoted "Hostd accepted the assignment and is starting work." +:+ "," +:+
  quoted "percent" +:+ ":5}".

Definition mark_claimed (message : string) (a : HostAssignment) : HostAssignment :=
  set_attempts (ha_attempt_count a + 1) (ha_max_attempts a)
    (set_progress claimed_progress_json (set_status Claimed message a)).

Definition ClaimNextHostAssignment (now : Z) (node_name : string) (t : Table)
    : Table * option HostAssignment :=
  let t := expire_proxies now node_name (expire_claims now node_name t) in
  match std_sort claim_before (row_data <$> List.filter (claimable node_name) (tbl_rows t)) with
  | [] => (t, None)
  | assignment :: _ =>
      (fst (update_where now (fun r => has_id (ha_id assignment) r && has_status Pending r)
              (mark_claimed "") t),
       Some (mark_claimed (ha_status_message assignment) assignment))
  end.

(** *** Reports from the host *)

Definition UpdateHostAssignmentProgress (now assignment_id : Z) (progress_json : string)
    (t : Table) : Table * bool :=
  let '(t, changes) :=
    update_where now (fun r => has_id assignment_id r && has_status Claimed r)
      (set_progress (if str_empty progress_json then "{}" else progress_json)) t in
  (t, 0 <? changes).

Definition TransitionClaimedHostAssignment (now assignment_id : Z) (status : HostAssignmentStatus)
    (status_message : string) (t : Table) : Table * bool :=
  let '(t, changes) :=
    update_where now (fun r => has_id assignment_id r && has_status Claimed r)
      (set_status status status_message) t in
  (t, 0 <? changes).

Definition RetryFailedHostAssignment (now assignment_id : Z) (status_message : string)
    (t : Table) : Table * bool :=
  let '(t, changes) :=
    update_where now (fun r => has_id assignment_id r && has_status Failed r)
      (fun a => set_attempts (ha_attempt_count a)
                  (if ha_max_attempts a <? ha_attempt_count a + 1
                   then ha_attempt_count a + 1 else ha_max_attempts a)
                  (set_status Pending status_message a)) t in
  (t, 0 <? changes).

Definition UpdateHostAssignmentStatus (now assignment_id : Z) (status : HostAssignmentStatus)
    (status_message : string) (t : Table) : Table :=
  fst (update_where now (has_id assignment_id) (set_status status status_message) t).

(** The statement of [PlaneRepository::DeletePlane] on this table: rows go, the counter
    of [AUTOINCREMENT] stays. *)
Definition DeletePlaneAssignments (plane_name : string) (t : Table) : Table :=
  mkTable (List.filter (fun r => negb (on_plane plane_name r)) (tbl_rows t)) (tbl_sequence t).

(** ** The queue as a state machine *)

(** The operations on the table, as labels. *)
Inductive Operation :=
  | OpReplace (assignments : list HostAssignment)
  | OpEnqueue (assignments : list HostAssignment) (reason : string)
  | OpSupersedePlane (plane_name message : string)
  | OpClaim (node_name : string)
  | OpProgress (id : Z) (progress : string)
  | OpTransition (id : Z) (status : HostAssignmentStatus) (message : string)
  | OpRetry (id : Z) (message : string)
  | OpUpdateStatus (id : Z) (status : HostAssignmentStatus) (message : string).

Definition perform (now : Z) (op : Operation) (t : Table) : Table :=
  match op with
  | OpReplace l => ReplaceHostAssignments now l t
  | OpEnqueue l reason => EnqueueHostAssignments now l reason t
  | OpSupersedePlane plane message => fst (SupersedeHostAssignmentsForPlane now plane message t)
  | OpClaim node => fst (ClaimNextHostAssignment now node t)
  | OpProgress id progress => fst (UpdateHostAssignmentProgress now id progress t)
  | OpTransition id status message =>
      fst (TransitionClaimedHostAssignment now id status message t)
  | OpRetry id message => fst (RetryFailedHostAssignment now id message t)
  | OpUpdateStatus id status message => UpdateHostAssignmentStatus now id status message t
  end.

(** New assignments start within their attempt budget. *)
Definition within_budget (a : HostAssignment) : Prop :=
  0 <= ha_attempt_count a <= ha_max_attempts a.
Definition op_ok (op : Operation) : Prop :=
  match op with
  | OpReplace l | OpEnqueue l _ => Forall within_budget l
  | _ => True
  end.

Inductive reachable : Table -> Prop :=
  | reachable_empty : reachable empty_table
  | reachable_step now op t : reachable t -> op_ok op -> reachable (perform now op t)
  | reachable_delete plane t : reachable t -> reachable (DeletePlaneAssignments plane t).

(** The same runs with all the ids handed out so far, those of deleted rows included. *)
Definition row_ids (rows : list Row) : list Z := ha_id ∘ row_data <$> rows.
Definition added_ids (t t' : Table) : list Z := row_ids (drop (length (tbl_rows t)) (tbl_rows t')).
Inductive history : list Z -> Table -> Prop :=
  | history_empty : history [] empty_table
  | history_step now op ids t :
      history ids t -> op_ok op -> history (ids ++ added_ids t (perform now op t)) (perform now op t)
  | history_delete plane ids t : history ids t -> history ids (DeletePlaneAssignments plane t).

(** The status changes an operation other than [OpUpdateStatus] may make. *)
Definition edge (op : Operation) (s s' : HostAssignmentStatus) : Prop :=
  s = s' \/
  match op, s, s' with
  | (OpReplace _ | OpEnqueue _ _ | OpSupersedePlane _ _), (Pending | Claimed), Superseded => True
  | OpClaim _, Pending, (Claimed | Failed) => True
  | OpClaim _, Claimed, (Claimed | Pending | Failed) => True
  | OpTransition _ status _, Claimed, _ => s' = status
  | OpRetry _ _, Failed, Pending => True
  | OpUpdateStatus _ status _, _, _ => s' = status
  | _, _, _ => False
  end.

(** What never changes about an assignment. *)
Definition same_work (a b : HostAssignment) : Prop :=
  ha_id a = ha_id b /\ ha_node_name a = ha_node_name b /\ ha_plane_name a = ha_plane_name b /\
  ha_desired_generation a = ha_desired_generation b /\
  ha_assignment_type a = ha_assignment_type b /\
  ha_desired_state_json a = ha_desired_state_json b /\ ha_artifacts_root a = ha_artifacts_root b.

(** One row before and after an operation. *)
Definition evolves (op : Operation) (r r' : Row) : Prop :=
  same_work (row_data r) (row_data r') /\ edge op (ha_status (row_data r)) (ha_status (row_data r')) /\
  ha_attempt_count (row_data r) <= ha_attempt_count (row_data r') /\
  ha_max_attempts (row_data r) <= ha_max_attempts (row_data r').

(** Rows have distinct increasing ids below the counter, within their budget. *)
Definition table_ok (t : Table) : Prop :=
  StronglySorted Z.lt (ha_id ∘ row_data <$> tbl_rows t) /\
  Forall (fun r => ha_id (row_data r) <= tbl_sequence t /\ within_budget (row_data r)) (tbl_rows t).

(** ** Lemmas: rows evolve *)

Lemma edge_trans op s1 s2 s3 : edge op s1 s2 -> edge op s2 s3 -> edge op s1 s3.
Proof.
  unfold edge. destruct op, s1, s2, s3; simpl; intros [?|?] [?|?];
    first [done | by left | by right | by (right; congruence) | idtac].
Qed.

Lemma evolves_refl op r : evolves op r r.
Proof. unfold evolves, same_work, edge. repeat split; (done || lia || by left). Qed.

Lemma evolves_trans op r1 r2 r3 : evolves op r1 r2 -> evolves op r2 r3 -> evolves op r1 r3.
Proof.
  unfold evolves, same_work. intros (? & He1 & ? & ?) (? & He2 & ? & ?). destruct_and!.
  split; [repeat split; congruence|]. split; [by eapply edge_trans|]. lia.
Qed.

(** The rows of [t] survive, evolved, in front of new ones with ids beyond the counter. *)
Definition extends (op : Operation) (t t' : Table) : Prop :=
  exists rows new, tbl_rows t' = rows ++ new /\ Forall2 (evolves op) (tbl_rows t) rows /\
    tbl_sequence t <= tbl_sequence t' /\ Forall (fun r => tbl_sequence t < ha_id (row_data r)) new.

Definition good (op : Operation) (t t' : Table) : Prop :=
  table_ok t -> table_ok t' /\ extends op t t'.

Lemma extends_refl op t : extends op t t.
Proof.
  exists (tbl_rows t), []. rewrite app_nil_r. split; [done|]. split; [|split; [lia|constructor]].
  apply Forall_Forall2_diag, Forall_true. apply evolves_refl.
Qed.

Lemma extends_trans op t1 t2 t3 : extends op t1 t2 -> extends op t2 t3 -> extends op t1 t3.
Proof.
  intros (r1 & n1 & H1 & HF1 & Hs1 & Hn1) (r2 & n2 & H2 & HF2 & Hs2 & Hn2). rewrite H1 in HF2.
  apply Forall2_app_inv_l in HF2 as (ra & rb & HFa & HFb & ->).
  exists ra, (rb ++ n2). rewrite H2, app_assoc. split; [done|]. split; [|split; [lia|]].
  - eapply Forall2_trans; [|exact HF1|exact HFa]. apply evolves_trans.
  - apply Forall_app. split; [|eapply Forall_impl; [exact Hn2|]; cbv beta; lia].
    eapply Forall2_Forall_r; [exact HFb|]. eapply Forall_impl; [exact Hn1|].
    intros x Hx y ((Hid & _) & _). congruence.
Qed.

Lemma good_refl op t : good op t t.
Proof. intros Hok. split; [done | apply extends_refl]. Qed.

Lemma good_trans op t1 t2 t3 : good op t1 t2 -> good op t2 t3 -> good op t1 t3.
Proof.
  intros H1 H2 Hok. destruct (H1 Hok) as [Hok2 He1]. destruct (H2 Hok2) as [Hok3 He2].
  split; [done|]. by eapply extends_trans.
Qed.

Lemma update_row_id now p f r :
  (p r = true -> ha_id (f (row_data r)) = ha_id (row_data r)) ->
  ha_id (row_data (update_row now p f r)) = ha_id (row_data r).
Proof. unfold update_row. destruct (p r); [auto | done]. Qed.

Lemma update_good op now p f t :
  (forall r, r ∈ tbl_rows t -> table_ok t -> p r = true ->
     evolves op r (mkRow (f (row_data r)) now) /\
     (within_budget (row_data r) -> within_budget (f (row_data r)))) ->
  good op t (fst (update_where now p f t)).
Proof.
  intros H Hok. pose proof Hok as [Hs Hf]. split.
  - assert (Hids : ha_id ∘ row_data <$> (update_row now p f <$> tbl_rows t) =
                   ha_id ∘ row_data <$> tbl_rows t).
    { rewrite <-list_fmap_compose. apply list_fmap_ext. intros i r Hr. simpl.
      apply update_row_id. intros Hp. apply list_elem_of_lookup_2 in Hr.
      destruct (H r Hr Hok Hp) as [((Heq & _) & _) _]. by rewrite Heq. }
    split; simpl; [by rewrite Hids|]. apply Forall_fmap. rewrite Forall_forall in *.
    intros r Hr. simpl. destruct (Hf r Hr) as [Hid Hb]. unfold update_row.
    destruct (p r) eqn:Hp; [|done]. destruct (H r Hr Hok Hp) as [((Heq & _) & _) Hb'].
    simpl in *. split; [lia | auto].
  - exists (update_row now p f <$> tbl_rows t), []. simpl. rewrite app_nil_r. split; [done|].
    split; [|split; [lia|constructor]].
    apply Forall2_fmap_r, Forall_Forall2_diag, Forall_forall. intros r Hr. cbv beta.
    assert (evolves op r (update_row now p f r)); [|done]. unfold update_row.
    destruct (p r) eqn:Hp; [by destruct (H r Hr Hok Hp) | apply evolves_refl].
Qed.

Lemma insert_good op now a t : within_budget a -> good op t (InsertAssignment now a t).
Proof.
  intros Ha [Hs Hf]. split.
  - unfold InsertAssignment. split; simpl.
    + rewrite fmap_app. apply StronglySorted_app_2; [|done|by repeat constructor].
      intros x y Hx Hy%list_elem_of_singleton. subst y. simpl.
      apply list_elem_of_fmap in Hx as (r & -> & Hr). rewrite Forall_forall in Hf.
      specialize (Hf r Hr). simpl. lia.
    + apply Forall_app. split; [|by repeat constructor; simpl; [lia| |]; apply Ha].
      eapply Forall_impl; [exact Hf|]. intros r [??]; simpl. split; [lia | done].
  - exists (tbl_rows t), [mkRow (mkHostAssignment (tbl_sequence t + 1) (ha_node_name a)
      (ha_plane_name a) (ha_desired_generation a) (ha_attempt_count a) (ha_max_attempts a)
      (ha_assignment_type a) (ha_desired_state_json a) (ha_artifacts_root a) (ha_status a)
      (ha_status_message a)
      (if str_empty (ha_progress_json a) then "{}" else ha_progress_json a)) now].
    split; [done|]. split; [apply Forall_Forall2_diag, Forall_true; apply evolves_refl|].
    cbn [tbl_sequence InsertAssignment]. split; [lia|]. repeat constructor. cbn. lia.
Qed.

(** An update of the status only. *)
Lemma set_status_evolves op r now status message :
  edge op (ha_status (row_data r)) status ->
  evolves op r (mkRow (set_status status message (row_data r)) now).
Proof. intros He. unfold evolves, same_work. simpl. repeat split; (done || lia). Qed.

Lemma has_status_true status r : has_status status r = true <-> ha_status (row_data r) = status.
Proof. apply eqb_true. Qed.

Lemma is_active_true r :
  is_active r = true <-> ha_status (row_data r) = Pending \/ ha_status (row_data r) = Claimed.
Proof. unfold is_active. by rewrite orb_true_iff, !has_status_true. Qed.

(** Distinct rows have distinct ids. *)
Lemma row_unique t r r' :
  table_ok t -> r ∈ tbl_rows t -> r' ∈ tbl_rows t ->
  ha_id (row_data r) = ha_id (row_data r') -> r = r'.
Proof.
  intros [Hs _]. revert Hs. induction (tbl_rows t) as [|x l IH]; [by intros _ ?%elem_of_nil|].
  rewrite fmap_cons. intros Hs. apply StronglySorted_inv in Hs as [Hs Hx].
  rewrite Forall_fmap, Forall_forall in Hx. simpl in Hx.
  intros [->|Hr]%elem_of_cons [->|Hr']%elem_of_cons Hid; [done| | |by apply IH].
  - specialize (Hx _ Hr'). lia.
  - specialize (Hx _ Hr). lia.
Qed.

(** ** Lemmas: every operation *)

Section operations.
Context (op : Operation) (now : Z).

(** Statements that set the status of matching rows along an edge. *)
Lemma set_status_good p status message t :
  (forall r, p r = true -> edge op (ha_status (row_data r)) status) ->
  good op t (fst (update_where now p (set_status status message) t)).
Proof. intros H. apply update_good. intros r _ _ Hp. split; [by apply set_status_evolves; apply H | done]. Qed.

Lemma supersede_good p message t :
  (forall s, s = Pending \/ s = Claimed -> edge op s Superseded) ->
  (forall r, p r = true -> is_active r = true) ->
  good op t (fst (update_where now p (set_status Superseded message) t)).
Proof.
  intros He Hp. apply set_status_good. intros r Hr. apply He, is_active_true, Hp, Hr.
Qed.

Lemma inserts_good l t :
  Forall within_budget l -> good op t (foldl (fun t a => InsertAssignment now a t) t l).
Proof.
  intros Hl. revert t. induction Hl as [|a l Ha _ IH]; intros t; simpl; [apply good_refl|].
  eapply good_trans; [by apply (insert_good op now a) | apply IH].
Qed.

Lemma enqueue_good reason l t :
  (forall s, s = Pending \/ s = Claimed -> edge op s Superseded) ->
  Forall within_budget l -> good op t (foldl (enqueue_one now reason) t l).
Proof.
  intros He Hl. revert t. induction Hl as [|a l Ha _ IH]; intros t; simpl; [apply good_refl|].
  eapply good_trans; [|apply IH]. unfold enqueue_one.
  eapply good_trans; [|by apply (insert_good op now a)].
  apply supersede_good; [done|]. intros r Hr. by to_prop.
Qed.
End operations.

Lemma expire_claims_good now node t : good (OpClaim node) t (expire_claims now node t).
Proof.
  apply update_good. intros r _ _ Hp. to_prop.
  match goal with H : has_status Claimed r = true |- _ => rewrite has_status_true in H end.
  destruct (exhausted (row_data r)); (split; [apply set_status_evolves | done]);
    match goal with H : ha_status _ = _ |- _ => rewrite H end; by right.
Qed.

Lemma expire_proxies_good now node t : good (OpClaim node) t (expire_proxies now node t).
Proof.
  apply set_status_good. intros r Hp. to_prop.
  match goal with H : has_status Pending r = true |- _ => rewrite has_status_true in H; rewrite H end.
  by right.
Qed.

Lemma claim_good now node t : good (OpClaim node) t (fst (ClaimNextHostAssignment now node t)).
Proof.
  unfold ClaimNextHostAssignment. cbv zeta.
  eapply good_trans; [apply (expire_claims_good now)|].
  eapply good_trans; [apply (expire_proxies_good now)|].
  set (t2 := expire_proxies now node (expire_claims now node t)).
  destruct (std_sort _ _) as [|a rest] eqn:E; [apply good_refl|]. cbn [fst].
  apply update_good. intros r Hr Hok Hp. to_prop.
  assert (Ha : a ∈ row_data <$> List.filter (claimable node) (tbl_rows t2)).
  { rewrite <-(elem_of_std_sort claim_before), E. left. }
  apply list_elem_of_fmap in Ha as (r' & -> & Hr').
  apply list_elem_of_In, filter_In in Hr' as [Hr' Hc]. apply list_elem_of_In in Hr'.
  unfold claimable in Hc. to_prop. unfold has_id in *.
  assert (r = r') as <- by (apply (row_unique t2); [done..|lia]).
  unfold exhausted in *. to_prop.
  match goal with H : has_status Pending r = true |- _ => rewrite has_status_true in H; rename H into Hs end.
  split.
  - unfold evolves, same_work, mark_claimed; simpl. rewrite Hs.
    split; [done|]. split; [by right|]. lia.
  - unfold within_budget, mark_claimed; simpl. lia.
Qed.

Lemma perform_good now op t : op_ok op -> good op t (perform now op t).
Proof.
  destruct op as [l|l reason|plane message|node|id progress|id status message|id message|id status message];
    intros Hop; cbn [perform].
  - eapply good_trans; [|by apply inserts_good]. destruct l as [|front l]; [apply good_refl|].
    apply supersede_good; [by intros s [-> | ->]; right|]. intros r Hr. by to_prop.
  - unfold EnqueueHostAssignments. destruct (vec_empty l); [apply good_refl|].
    apply enqueue_good; [by intros s [-> | ->]; right | done].
  - apply supersede_good; [by intros s [-> | ->]; right|]. intros r Hr. by to_prop.
  - apply claim_good.
  - apply update_good. intros r _ _ _. split; [|done].
    unfold evolves, same_work; simpl. repeat split; (by left || done || lia).
  - apply set_status_good. intros r Hr. to_prop.
    match goal with H : has_status Claimed r = true |- _ => rewrite has_status_true in H; rewrite H end.
    by right.
  - apply update_good. intros r _ _ Hr. to_prop.
    match goal with H : has_status Failed r = true |- _ => rewrite has_status_true in H; rename H into Hs end.
    split.
    + unfold evolves, same_work; simpl. rewrite Hs. split; [done|]. split; [by right|].
      destruct_if; to_prop; lia.
    + unfold within_budget; simpl. destruct_if; to_prop; lia.
  - apply set_status_good. intros r Hr. right. by destruct (ha_status (row_data r)).
Qed.

Lemma delete_ok plane t : table_ok t -> table_ok (DeletePlaneAssignments plane t).
Proof.
  intros [Hs Hf]. unfold DeletePlaneAssignments. split; cbn [tbl_rows tbl_sequence].
  - revert Hs. induction (tbl_rows t) as [|r l IH]; [done|]. rewrite fmap_cons. cbn [List.filter].
    intros [Hs Hr]%StronglySorted_inv. inversion Hf as [|? ? _ Hf']. specialize (IH Hf' Hs).
    destruct (negb (on_plane plane r)); [|done]. rewrite fmap_cons. constructor; [done|].
    rewrite Forall_fmap, Forall_forall in Hr. rewrite Forall_fmap, Forall_forall. intros r' Hx. apply Hr.
    apply list_elem_of_In, filter_In in Hx as [Hx _]. by apply list_elem_of_In.
  - rewrite Forall_forall in *. intros r Hx. apply Hf.
    apply list_elem_of_In, filter_In in Hx as [Hx _]. by apply list_elem_of_In.
Qed.

Lemma reachable_ok t : reachable t -> table_ok t.
Proof.
  induction 1 as [|now op t _ IH Hop|plane t _ IH].
  - split; simpl; constructor.
  - by apply (perform_good now op t Hop).
  - by apply delete_ok.
Qed.

(** Every reachable queue has a history. *)
Lemma reachable_history t : reachable t <-> exists ids, history ids t.
Proof.
  split.
  - induction 1 as [|now op t _ [ids IH] Hop|plane t _ [ids IH]]; eexists; [apply history_empty| |].
    + by apply history_step.
    + by apply history_delete.
  - intros [ids H]. induction H; [apply reachable_empty|by apply reachable_step|by apply reachable_delete].
Qed.

Lemma extends_added op t t' :
  extends op t t' -> table_ok t' ->
  tbl_sequence t <= tbl_sequence t' /\ StronglySorted Z.lt (added_ids t t') /\
  Forall (fun id => tbl_sequence t < id <= tbl_sequence t') (added_ids t t') /\
  row_ids (tbl_rows t') = row_ids (tbl_rows t) ++ added_ids t t'.
Proof.
  intros (rows & new & Hrows & Hev & Hseq & Hnew) [Hs Hf]. unfold added_ids. rewrite Hrows in *.
  rewrite (Forall2_length _ _ _ Hev), drop_app_length. split; [done|]. unfold row_ids in *. rewrite fmap_app in *.
  apply StronglySorted_app in Hs as (_ & _ & Hs). split; [done|]. apply Forall_app in Hf as [_ Hf]. split.
  - rewrite Forall_fmap, Forall_forall in *. intros r Hr. specialize (Hnew r Hr). specialize (Hf r Hr). cbn in *. lia.
  - f_equal. clear -Hev. induction Hev as [|r r' l l' ((Hid & _) & _) _ IH]; [done|]. rewrite !fmap_cons. cbn. by rewrite Hid, IH.
Qed.

(** The ids handed out so far increase, and none is beyond the counter. *)
Lemma history_ids ids t :
  history ids t ->
  table_ok t /\ StronglySorted Z.lt ids /\ Forall (fun id => id <= tbl_sequence t) ids /\
  row_ids (tbl_rows t) ⊆ ids.
Proof.
  induction 1 as [|now op ids t _ (Hok & Hs & Hf & Hin) Hop|plane ids t _ (Hok & Hs & Hf & Hin)].
  - repeat split; try constructor. apply list_subseteq_nil.
  - destruct (perform_good now op t Hop Hok) as [Hok' Hex].
    destruct (extends_added _ _ _ Hex Hok') as (Hseq & Hsort & Hnew & Hrows). split; [done|]. split; [|split].
    + apply StronglySorted_app_2; [|done|done]. intros x y Hx Hy. rewrite Forall_forall in *.
      specialize (Hf x Hx). specialize (Hnew y Hy). lia.
    + apply Forall_app. split; eapply Forall_impl; [exact Hf| |exact Hnew|]; cbv beta; lia.
    + rewrite Hrows. set_solver.
  - split; [by apply delete_ok|]. split; [done|]. split; [done|]. intros id Hid. apply Hin. unfold row_ids in *.
    apply list_elem_of_fmap in Hid as (r & -> & Hr). apply list_elem_of_fmap. exists r. split; [done|].
    apply list_elem_of_In, filter_In in Hr as [Hr _]. by apply list_elem_of_In.
Qed.

(** ** Lemmas: claiming *)

Lemma load_present t r :
  table_ok t -> r ∈ tbl_rows t -> LoadHostAssignment (ha_id (row_data r)) t = Some (row_data r).
Proof.
  intros Hok Hr. unfold LoadHostAssignment.
  destruct (find_if (has_id _) _) as [r'|] eqn:E; simpl.
  - apply find_if_Some in E as [Hid Hr']. unfold has_id in Hid.
    f_equal. f_equal. apply (row_unique t); [done..|lia].
  - rewrite find_if_None in E. specialize (E r Hr). unfold has_id in E. lia.
Qed.

Definition proxy_row (r : Row) : bool := ha_assignment_type (row_data r) ==? runtime_http_proxy.

(** The rows a claim may hand out, seen before it runs: pending and not an
    expired proxy request, or claimed with an expired lease; with attempts left. *)
Definition eligible (now : Z) (node : string) (r : Row) : bool :=
  on_node node r && negb (exhausted (row_data r)) &&
  ((has_status Pending r && negb (proxy_row r && (row_updated_at r <=? now - 45))) ||
   (has_status Claimed r && (row_updated_at r <=? now - 60))).

(** A row after the two expiry statements. *)
Definition expire_claim_row (now : Z) (node : string) : Row -> Row :=
  update_row now
    (fun r => on_node node r && has_status Claimed r && (row_updated_at r <=? now - 60))
    (fun a => if exhausted a
              then set_status Failed "claimed assignment lease expired after exhausted attempts" a
              else set_status Pending "claimed assignment lease expired; retrying" a).
Definition expire_proxy_row (now : Z) (node : string) : Row -> Row :=
  update_row now
    (fun r => on_node node r && (ha_assignment_type (row_data r) ==? runtime_http_proxy) &&
              has_status Pending r && (row_updated_at r <=? now - 45))
    (set_status Failed "runtime HTTP proxy request expired before hostd claimed it").
Definition expired_row (now : Z) (node : string) (r : Row) : Row :=
  expire_proxy_row now node (expire_claim_row now node r).

Lemma expired_rows now node t :
  tbl_rows (expire_proxies now node (expire_claims now node t)) = expired_row now node <$> tbl_rows t.
Proof. simpl. by rewrite <-list_fmap_compose. Qed.

(** Expiry touches the status only. *)
Definition same_claim (a b : HostAssignment) : Prop :=
  same_work a b /\ ha_attempt_count a = ha_attempt_count b /\ ha_max_attempts a = ha_max_attempts b.

Lemma update_row_same now p f r :
  (forall a, same_claim a (f a)) -> same_claim (row_data r) (row_data (update_row now p f r)).
Proof. intros Hf. unfold update_row. destruct (p r); [apply Hf | done]. Qed.

Lemma set_status_same a status message : same_claim a (set_status status message a).
Proof. done. Qed.

Lemma expired_row_same now node r : same_claim (row_data r) (row_data (expired_row now node r)).
Proof.
  unfold expired_row, same_claim, same_work.
  destruct (update_row_same now (fun r => on_node node r &&
      (ha_assignment_type (row_data r) ==? runtime_http_proxy) && has_status Pending r &&
      (row_updated_at r <=? now - 45))
    (set_status Failed "runtime HTTP proxy request expired before hostd claimed it")
    (expire_claim_row now node r)) as [H1 H2]; [intros; apply set_status_same|].
  destruct (update_row_same now
    (fun r => on_node node r && has_status Claimed r && (row_updated_at r <=? now - 60))
    (fun a => if exhausted a
              then set_status Failed "claimed assignment lease expired after exhausted attempts" a
              else set_status Pending "claimed assignment lease expired; retrying" a) r) as [H3 H4];
    [by intros a; destruct (exhausted a)|].
  fold (expire_claim_row now node r) in H3, H4.
  fold (expire_proxy_row now node (expire_claim_row now node r)) in H1, H2.
  unfold same_work in *. destruct_and!. repeat split; congruence.
Qed.

Lemma same_claim_facts a b :
  same_claim a b -> claim_priority a = claim_priority b /\ exhausted a = exhausted b /\
                    ha_id a = ha_id b /\ ha_node_name a = ha_node_name b.
Proof.
  intros [(Hid & Hn & Hp & _ & Ht & _) [Ha Hm]]. unfold claim_priority, exhausted.
  by rewrite Hid, Hn, Hp, Ht, Ha, Hm.
Qed.

Lemma claim_before_ext a a' b b' :
  same_claim a a' -> same_claim b b' -> claim_before a b = claim_before a' b'.
Proof.
  intros (H1 & _ & H2 & _)%same_claim_facts (H3 & _ & H4 & _)%same_claim_facts.
  unfold claim_before. by rewrite H1, H2, H3, H4.
Qed.

Lemma claimable_expired now node r :
  claimable node (expired_row now node r) = eligible now node r.
Proof.
  destruct (same_claim_facts _ _ (expired_row_same now node r)) as (_ & Hex & _ & Hn).
  unfold claimable, eligible. rewrite <-Hex. unfold on_node at 1. rewrite <-Hn.
  fold (on_node node r). destruct (on_node node r) eqn:Eon; simpl; [|done].
  destruct (exhausted (row_data r)) eqn:Ee; [by rewrite !andb_false_r|].
  rewrite andb_true_r. simpl. unfold expired_row.
  destruct (has_status Claimed r && (row_updated_at r <=? now - 60)) eqn:Ec.
  - assert (Hc : expire_claim_row now node r =
      mkRow (set_status Pending "claimed assignment lease expired; retrying" (row_data r)) now).
    { unfold expire_claim_row, update_row. rewrite Eon. simpl. by rewrite Ec, Ee. }
    rewrite Hc. unfold expire_proxy_row, update_row. cbn [row_updated_at].
    replace (now <=? now - 45) with false by lia. rewrite andb_false_r. by rewrite orb_true_r.
  - assert (Hc : expire_claim_row now node r = r).
    { unfold expire_claim_row, update_row. rewrite Eon. simpl. by rewrite Ec. }
    rewrite Hc, orb_false_r. unfold expire_proxy_row, update_row, proxy_row. rewrite Eon. simpl.
    destruct (ha_assignment_type (row_data r) ==? runtime_http_proxy); simpl; [|by rewrite andb_true_r].
    destruct (has_status Pending r) eqn:Ep; simpl; [|done].
    by destruct (row_updated_at r <=? now - 45).
Qed.

Lemma claim_before_swo : StrictWeakOrder claim_before.
Proof. apply swo_lex. apply (swo_proj ha_id (klt (K:=Z)) klt_swo). Qed.

Lemma filter_fmap {A B} (p : B -> bool) (f : A -> B) l :
  List.filter p (f <$> l) = f <$> List.filter (fun x => p (f x)) l.
Proof.
  induction l as [|x l IH]; [done|]. rewrite fmap_cons. cbn [List.filter]. rewrite IH.
  by destruct (p (f x)).
Qed.

Lemma claim_queue now node t :
  List.filter (claimable node) (tbl_rows (expire_proxies now node (expire_claims now node t))) =
  expired_row now node <$> List.filter (eligible now node) (tbl_rows t).
Proof.
  rewrite expired_rows, filter_fmap. f_equal. induction (tbl_rows t) as [|r l IH]; simpl; [done|].
  by rewrite claimable_expired, IH.
Qed.

(** The front of the sorted queue comes before everything else in it. *)
Lemma std_sort_front {A} (lt : A -> A -> bool) `{!StrictWeakOrder lt} l x rest :
  std_sort lt l = x :: rest -> x ∈ l /\ forall y, y ∈ l -> y ∈ rest /\ lt y x = false \/ y = x.
Proof.
  intros E. pose proof (std_sort_sorted lt l) as Hs. rewrite E in Hs.
  apply StronglySorted_inv in Hs as [_ Hs]. rewrite Forall_forall in Hs. split.
  - rewrite <-(elem_of_std_sort lt), E. left.
  - intros y Hy. rewrite <-(elem_of_std_sort lt), E in Hy.
    apply elem_of_cons in Hy as [->|Hy]; [by right|]. left. split; [done|]. by apply Hs.
Qed.

Definition claim_outcome (now : Z) (node : string) (t t' : Table) (claimed : option HostAssignment)
    : Prop :=
  match claimed with
  | None => forall r, r ∈ tbl_rows t -> eligible now node r = false
  | Some a =>
      exists r, r ∈ tbl_rows t /\ eligible now node r = true /\ same_work (row_data r) a /\
        ha_status a = Claimed /\ ha_attempt_count a = ha_attempt_count (row_data r) + 1 /\
        (forall r', r' ∈ tbl_rows t -> eligible now node r' = true ->
           r' = r \/ claim_before (row_data r) (row_data r') = true) /\
        LoadHostAssignment (ha_id a) t' = Some (set_status Claimed "" a)
  end.

Lemma claim_before_total a b :
  claim_before b a = false -> claim_before a b = true \/ ha_id a = ha_id b.
Proof.
  unfold claim_before, eqb. case_bool_decide as H1; case_bool_decide as H2; try congruence;
    cbn [negb klt Z_order]; intros H%Z.ltb_ge.
  - destruct (Z.eq_dec (ha_id a) (ha_id b)); [by right|]. left. apply Z.ltb_lt. lia.
  - left. apply Z.ltb_lt. lia.
Qed.

Lemma claim_next_spec now node t :
  table_ok t ->
  claim_outcome now node t (fst (ClaimNextHostAssignment now node t))
    (snd (ClaimNextHostAssignment now node t)).
Proof.
  intros Hok. pose proof (proj1 (claim_good now node t Hok)) as Hok'. revert Hok'.
  unfold ClaimNextHostAssignment. cbv zeta. rewrite claim_queue, <-list_fmap_compose.
  set (t2 := expire_proxies now node (expire_claims now node t)).
  set (queue := List.filter (eligible now node) (tbl_rows t)).
  assert (Hq : forall r, r ∈ queue <-> r ∈ tbl_rows t /\ eligible now node r = true).
  { intros r. unfold queue. by rewrite list_elem_of_In, filter_In, <-list_elem_of_In. }
  destruct (std_sort claim_before _) as [|a rest] eqn:E; cbn [fst snd claim_outcome]; intros Hok'.
  - intros r Hr. apply std_sort_nil_iff, fmap_nil_inv in E.
    destruct (eligible now node r) eqn:He; [|done]. exfalso.
    assert (r ∈ queue) as Hin by (by apply Hq). rewrite E in Hin. by apply elem_of_nil in Hin.
  - apply (@std_sort_front _ _ claim_before_swo) in E as [Ha Hmin].
    apply list_elem_of_fmap in Ha as (r & -> & Hr). apply Hq in Hr as [Hr He].
    pose proof (expired_row_same now node r) as Hsame. exists r.
    pose proof Hsame as [(Hid & Hw) [Hatt _]]. repeat split; try done.
    + by destruct Hw. + by destruct Hw as (_ & ? & _).
    + by destruct Hw as (_ & _ & ? & _). + by destruct Hw as (_ & _ & _ & ? & _).
    + by destruct Hw as (_ & _ & _ & _ & ? & _). + by destruct Hw as (_ & _ & _ & _ & _ & ?).
    + simpl. by rewrite Hatt.
    + intros r' Hr' He'.
      assert (Hin : row_data (expired_row now node r') ∈ row_data ∘ expired_row now node <$> queue).
      { apply list_elem_of_fmap. exists r'. split; [done|]. by apply Hq. }
      pose proof (expired_row_same now node r') as Hsame'.
      assert (Hid' : claim_before (row_data r) (row_data r') = true \/
                     ha_id (row_data r) = ha_id (row_data r')).
      { destruct (Hmin _ Hin) as [[_ Hb]|Heq].
        - apply claim_before_total. simpl in Hb.
          by rewrite (claim_before_ext _ _ _ _ Hsame' Hsame).
        - right. simpl in Heq. destruct Hsame' as [(Hid' & _) _]. rewrite Hid, Hid'. by rewrite Heq. }
      destruct Hid' as [?|Hid']; [by right|]. left. by apply (row_unique t).
    + rewrite <-claimable_expired in He. apply (load_present _ (mkRow (mark_claimed ""
        (row_data (expired_row now node r))) now)) in Hok'; [exact Hok'|].
      cbn [fst update_where tbl_rows]. apply list_elem_of_fmap. exists (expired_row now node r).
      unfold claimable in He. to_prop. split.
      * unfold update_row, has_id. rewrite Z.eqb_refl. simpl. by rewrite H1.
      * change (expired_row now node r ∈ tbl_rows t2). unfold t2. rewrite expired_rows.
        by apply list_elem_of_fmap_2.
Qed.

(** ** Lemmas: enqueueing *)

(** The active rows for a plane on a node. *)
Definition on_target (plane node : string) (r : Row) : bool := on_plane plane r && on_node node r.
Definition active_for (plane node : string) (t : Table) : list Row :=
  List.filter (fun r => on_target plane node r && is_active r) (tbl_rows t).

(** The row inserted for an assignment. *)
Definition new_row (now : Z) (t : Table) (a : HostAssignment) : Row :=
  mkRow (mkHostAssignment (tbl_sequence t + 1) (ha_node_name a) (ha_plane_name a)
    (ha_desired_generation a) (ha_attempt_count a) (ha_max_attempts a) (ha_assignment_type a)
    (ha_desired_state_json a) (ha_artifacts_root a) (ha_status a) (ha_status_message a)
    (if str_empty (ha_progress_json a) then "{}" else ha_progress_json a)) now.

Lemma filter_nil {A} (p : A -> bool) l : (forall x, x ∈ l -> p x = false) -> List.filter p l = [].
Proof.
  intros H. induction l as [|x l IH]; simpl; [done|]. rewrite (H x) by left.
  apply IH. intros. apply H. by right.
Qed.

Lemma supersede_active now message plane node p n t :
  active_for p n (fst (update_where now
    (fun r => on_plane plane r && on_node node r && is_active r) (set_status Superseded message) t)) =
  if bool_decide ((p, n) = (plane, node)) then [] else active_for p n t.
Proof.
  unfold active_for. cbn [fst update_where tbl_rows]. case_bool_decide as Heq.
  - injection Heq as -> ->. apply filter_nil. intros r (r0 & -> & _)%list_elem_of_fmap.
    unfold update_row. destruct (on_plane plane r0 && on_node node r0 && is_active r0) eqn:E; [|exact E].
    unfold is_active, has_status. simpl. by rewrite andb_false_r.
  - induction (tbl_rows t) as [|r l IH]; [done|]. rewrite fmap_cons. cbn [List.filter]. rewrite IH.
    unfold update_row. destruct (on_plane plane r && on_node node r && is_active r) eqn:E; [|done].
    assert (Ht : on_target p n r = false).
    { unfold on_target, on_plane, on_node in *. to_prop. apply andb_false_iff.
      destruct (decide (ha_plane_name (row_data r) = p)); [right|left];
        apply bool_decide_eq_false; congruence. }
    unfold on_target in *. unfold on_plane, on_node in *. simpl. by rewrite Ht.
Qed.

Lemma insert_active now a p n t :
  ha_status a = Pending ->
  active_for p n (InsertAssignment now a t) =
  active_for p n t ++ (if bool_decide ((p, n) = (ha_plane_name a, ha_node_name a))
                       then [new_row now t a] else []).
Proof.
  intros Ha. unfold active_for. cbn [InsertAssignment tbl_rows]. rewrite List.filter_app.
  f_equal. fold (new_row now t a). cbn [List.filter].
  assert (Hp : on_target p n (new_row now t a) && is_active (new_row now t a) =
               bool_decide ((p, n) = (ha_plane_name a, ha_node_name a))); [|by rewrite Hp].
  unfold on_target, on_plane, on_node, is_active, has_status, eqb, new_row.
  cbn [row_data ha_status ha_plane_name ha_node_name]. rewrite Ha. simpl. rewrite andb_true_r.
  case_bool_decide as H1; case_bool_decide as H2; case_bool_decide as H3; simpl; congruence.
Qed.

Lemma enqueue_one_active now reason a p n t :
  ha_status a = Pending ->
  active_for p n (enqueue_one now reason t a) =
  if bool_decide ((p, n) = (ha_plane_name a, ha_node_name a)) then [new_row now t a]
  else active_for p n t.
Proof.
  intros Ha. unfold enqueue_one. rewrite insert_active, supersede_active by done.
  case_bool_decide; [done|]. by rewrite app_nil_r.
Qed.

(** The last assignment of a batch for a target. *)
Definition last_for (plane node : string) (l : list HostAssignment) : option HostAssignment :=
  find_last_if (fun a => bool_decide ((plane, node) = (ha_plane_name a, ha_node_name a))) l.

Lemma last_for_snoc p n l a :
  last_for p n (l ++ [a]) =
  if bool_decide ((p, n) = (ha_plane_name a, ha_node_name a)) then Some a else last_for p n l.
Proof. unfold last_for, find_last_if. rewrite foldl_app. done. Qed.

Lemma enqueue_active now reason l p n t :
  Forall (fun a => ha_status a = Pending) l ->
  match last_for p n l with
  | Some a => exists t0, active_for p n (foldl (enqueue_one now reason) t l) = [new_row now t0 a]
  | None => active_for p n (foldl (enqueue_one now reason) t l) = active_for p n t
  end.
Proof.
  induction l as [|a l IH] using rev_ind; intros Hl; [done|].
  apply Forall_app in Hl as [Hl Ha]. rewrite Forall_singleton in Ha.
  rewrite last_for_snoc, foldl_app. cbn [foldl]. rewrite enqueue_one_active by done.
  case_bool_decide; [by eexists | by apply IH].
Qed.

(** ** Lemmas: reports *)

Lemma update_nothing now p f t :
  (forall r, r ∈ tbl_rows t -> p r = false) -> update_where now p f t = (t, 0).
Proof.
  intros H. unfold update_where. rewrite filter_nil by done. f_equal. destruct t as [rows n].
  f_equal. simpl in *. induction rows as [|r l IH]; [done|]. rewrite fmap_cons. f_equal.
  - unfold update_row. by rewrite (H r) by left.
  - apply IH. intros. apply H. by right.
Qed.

Lemma load_Some t id a :
  LoadHostAssignment id t = Some a -> exists r, r ∈ tbl_rows t /\ row_data r = a /\ ha_id a = id.
Proof.
  unfold LoadHostAssignment. destruct (find_if _ _) as [r|] eqn:E; [|done]. intros [= <-].
  apply find_if_Some in E as [Hid Hr]. exists r. unfold has_id in Hid. repeat split; [done|lia].
Qed.

Lemma load_None t id :
  LoadHostAssignment id t = None <-> forall r, r ∈ tbl_rows t -> ha_id (row_data r) <> id.
Proof.
  unfold LoadHostAssignment. rewrite fmap_None, find_if_None. unfold has_id.
  split; intros H r Hr; specialize (H r Hr); lia.
Qed.

Lemma load_other now p f t id :
  (forall r, p r = true -> ha_id (row_data r) <> id) ->
  (forall a, ha_id (f a) = ha_id a) ->
  LoadHostAssignment id (fst (update_where now p f t)) = LoadHostAssignment id t.
Proof.
  intros Hp Hf. unfold LoadHostAssignment. cbn [fst update_where tbl_rows].
  induction (tbl_rows t) as [|r l IH]; [done|]. rewrite fmap_cons. cbn [find_if].
  unfold has_id at 1. rewrite update_row_id by (intros; apply Hf). fold (has_id id r).
  destruct (has_id id r) eqn:E; [|exact IH]. simpl. f_equal. unfold update_row.
  destruct (p r) eqn:Epr; [|done]. apply Hp in Epr. unfold has_id in E. lia.
Qed.

Lemma transition_spec now id status message t :
  table_ok t ->
  let '(t', ok) := TransitionClaimedHostAssignment now id status message t in
  (forall id', id' <> id -> LoadHostAssignment id' t' = LoadHostAssignment id' t) /\
  match LoadHostAssignment id t with
  | Some a =>
      if ha_status a ==? Claimed
      then ok = true /\ LoadHostAssignment id t' = Some (set_status status message a)
      else ok = false /\ t' = t
  | None => ok = false /\ t' = t
  end.
Proof.
  intros Hok. unfold TransitionClaimedHostAssignment.
  set (p := fun r => has_id id r && has_status Claimed r).
  destruct (update_where now p (set_status status message) t) as [t' changes] eqn:E.
  assert (Ht' : t' = fst (update_where now p (set_status status message) t)) by (by rewrite E).
  split.
  { intros id' Hne. rewrite Ht'. apply load_other; [|done]. unfold p, has_id. intros r Hr. to_prop. lia. }
  assert (Hnone : (forall r, r ∈ tbl_rows t -> p r = false) -> (0 <? changes) = false /\ t' = t).
  { intros Hp. rewrite update_nothing in E by done. by injection E as <- <-. }
  destruct (LoadHostAssignment id t) as [a|] eqn:El.
  - apply load_Some in El as (r & Hr & <- & Hid). destruct (ha_status (row_data r) ==? Claimed) eqn:Es.
    + assert (Hpr : p r = true).
      { unfold p, has_id, has_status. rewrite Es. apply andb_true_iff. split; [lia | done]. }
      split.
      * injection E as _ <-. apply Z.ltb_lt.
        assert (r ∈ List.filter p (tbl_rows t)) as Hin.
        { apply list_elem_of_In, filter_In. split; [by apply list_elem_of_In | done]. }
        destruct (List.filter p (tbl_rows t)); [by apply elem_of_nil in Hin | simpl; lia].
      * assert (Hok' : table_ok t').
        { rewrite Ht'. apply (set_status_good (OpUpdateStatus id status message)); [|done].
          intros r' _. right. by destruct (ha_status (row_data r')). }
        rewrite <-Hid. apply (load_present t' (mkRow (set_status status message (row_data r)) now) Hok').
        rewrite Ht'. apply list_elem_of_fmap. exists r. unfold update_row. by rewrite Hpr.
    + apply Hnone. intros r' Hr'. unfold p. destruct (has_id id r') eqn:Ei; [|done].
      assert (r' = r) as -> by (unfold has_id in Ei; apply (row_unique t); [done..|lia]). done.
  - apply Hnone. intros r' Hr'. rewrite load_None in El. specialize (El r' Hr').
    unfold p, has_id. by replace (ha_id (row_data r') =? id) with false by lia.
Qed.

(** ** Lemmas: leases and retries *)

Lemma expired_row_fresh now node r :
  on_node node (expired_row now node r) = true ->
  has_status Claimed (expired_row now node r) = true ->
  now - 60 < row_updated_at (expired_row now node r).
Proof.
  unfold expired_row.
  assert (Hc : expire_claim_row now node r = r \/
               has_status Claimed (expire_claim_row now node r) = false).
  { unfold expire_claim_row, update_row. destruct_if; [|by left]. right. by destruct (exhausted _). }
  assert (Hp : forall x, expire_proxy_row now node x = x \/
               has_status Claimed (expire_proxy_row now node x) = false).
  { intros x. unfold expire_proxy_row, update_row. destruct_if; [by right | by left]. }
  destruct (Hp (expire_claim_row now node r)) as [-> | ->]; [|done].
  destruct Hc as [Hc| ->]; [|done]. intros Hn Hs. rewrite Hc in *.
  destruct (row_updated_at r <=? now - 60) eqn:E; [|lia]. exfalso.
  unfold expire_claim_row, update_row in Hc. rewrite Hn, Hs, E in Hc. simpl in Hc.
  rewrite <-Hc in Hs. by destruct (exhausted (row_data r)).
Qed.

Lemma retry_spec now id message t :
  table_ok t ->
  let '(t', ok) := RetryFailedHostAssignment now id message t in
  ok = true ->
  exists a, LoadHostAssignment id t' = Some a /\ ha_status a = Pending /\ exhausted a = false.
Proof.
  intros Hok. unfold RetryFailedHostAssignment.
  set (p := fun r => has_id id r && has_status Failed r).
  set (f := fun a => set_attempts _ _ _).
  destruct (update_where now p f t) as [t' changes] eqn:E. intros Hch%Z.ltb_lt.
  assert (Hok' : table_ok (perform now (OpRetry id message) t)) by (by apply perform_good).
  assert (Ht' : t' = perform now (OpRetry id message) t).
  { cbn [perform]. unfold RetryFailedHostAssignment. fold p f. by rewrite E. }
  assert (Hr : exists r, r ∈ tbl_rows t /\ p r = true).
  { injection E as _ <-. destruct (List.filter p (tbl_rows t)) as [|r l] eqn:Ef; [simpl in Hch; lia|].
    assert (In r (List.filter p (tbl_rows t))) as Hin by (rewrite Ef; left; done).
    apply filter_In in Hin as [Hin Hp]. exists r. by rewrite list_elem_of_In. }
  destruct Hr as (r & Hr & Hp). exists (f (row_data r)). split; [|split; [done|]].
  - assert (Hid : ha_id (f (row_data r)) = id) by (unfold p, has_id in Hp; to_prop; simpl; lia).
    rewrite <-Hid. rewrite <-Ht' in Hok'.
    apply (load_present t' (mkRow (f (row_data r)) now) Hok').
    injection E as <- _. apply list_elem_of_fmap. exists r. unfold update_row. by rewrite Hp.
  - unfold exhausted, f. simpl. destruct_if; to_prop; lia.
Qed.

(** ** Properties *)

(** The status codecs are exact inverses: a text parses to a status precisely
    when it is that status's text, for assignments, observations, availability
    and rollout actions. *)
Theorem status_codecs_roundtrip :
  (forall v s, ParseHostAssignmentStatus v = Ok s <-> v = HostAssignmentStatus_ToString s) /\
  (forall v s, ParseHostObservationStatus v = Ok s <-> v = HostObservationStatus_ToString s) /\
  (forall v s, ParseNodeAvailability v = Ok s <-> v = NodeAvailability_ToString s) /\
  (forall v s, ParseRolloutActionStatus v = Ok s <-> v = RolloutActionStatus_ToString s).
Proof.
  unfold ParseHostAssignmentStatus, ParseHostObservationStatus, ParseNodeAvailability,
    ParseRolloutActionStatus.
  repeat split; intros H; subst; try (by destruct s);
    repeat (destruct_if; [to_prop; subst; by injection H as <-|]); discriminate H.
Qed.

(** C29. Whatever operations run on the queue, with the rows of planes deleted in
    between: the ids handed out, in the order of their insertion, increase strictly, so
    that an id is never used again, not even that of a deleted row; the rows are in
    the order of their ids, each with an id that was handed out, and no assignment has
    been attempted more often than it is allowed. *)
Theorem queue_invariant ids t :
  history ids t ->
  StronglySorted Z.lt ids /\ row_ids (tbl_rows t) ⊆ ids /\
  StronglySorted Z.lt (row_ids (tbl_rows t)) /\ Forall (fun r => within_budget (row_data r)) (tbl_rows t).
Proof.
  intros H. destruct (history_ids ids t H) as ([Hs Hf] & Hids & _ & Hin). repeat split; try done.
  eapply Forall_impl; [exact Hf|]. by intros r [_ ?].
Qed.

(** C31. Every operation only appends rows and evolves the existing ones: what an
    assignment asks for never changes, attempt counters never decrease, and
    statuses move along the edges of the life cycle only; in particular applied
    and superseded assignments are final except for the explicit status
    override, and failed ones leave that state only through a retry. *)
Theorem queue_life_cycle now op t :
  reachable t -> op_ok op ->
  exists rows new, tbl_rows (perform now op t) = rows ++ new /\
                   Forall2 (evolves op) (tbl_rows t) rows.
Proof.
  intros Ht Hop. destruct (perform_good now op t Hop (reachable_ok t Ht)) as [_ (rows & new & ? & ? & _)].
  by exists rows, new.
Qed.

(** C3. A claim hands out the eligible assignment of the node that comes first by
    priority class and then by id, marked claimed with one more attempt, and
    stores it so; it hands out nothing exactly when no row of the node is
    eligible (pending with attempts left and not an expired proxy request, or
    claimed with a lease older than a minute). *)
Theorem claim_next_picks_first now node t :
  reachable t ->
  claim_outcome now node t (fst (ClaimNextHostAssignment now node t))
    (snd (ClaimNextHostAssignment now node t)).
Proof. intros Ht. by apply claim_next_spec, reachable_ok. Qed.

(** After a claim on a node no assignment of that node is held under an
    expired lease: every claimed row was updated within the last minute. *)
Theorem claim_leaves_no_stale_lease now node t r :
  r ∈ tbl_rows (fst (ClaimNextHostAssignment now node t)) ->
  on_node node r = true -> has_status Claimed r = true ->
  now - 60 < row_updated_at r.
Proof.
  unfold ClaimNextHostAssignment. cbv zeta.
  set (t2 := expire_proxies now node (expire_claims now node t)).
  assert (H2 : forall x, x ∈ tbl_rows t2 -> on_node node x = true -> has_status Claimed x = true ->
                 now - 60 < row_updated_at x).
  { intros x Hx. unfold t2 in Hx. rewrite expired_rows in Hx.
    apply list_elem_of_fmap in Hx as (x0 & -> & _). apply expired_row_fresh. }
  destruct (std_sort _ _) as [|a rest]; [apply H2|]. cbn [fst update_where tbl_rows].
  intros (x & -> & Hx)%list_elem_of_fmap. unfold update_row. destruct_if; [simpl; lia|].
  by apply H2.
Qed.

(** Enqueueing a batch of pending assignments leaves exactly one active row
    for every plane and node it addresses, made from the batch's last assignment
    for that target, and does not touch the active rows of other targets. *)
Theorem enqueue_one_active_per_target now l reason t plane node :
  Forall (fun a => ha_status a = Pending) l ->
  match last_for plane node l with
  | Some a => exists t0, active_for plane node (EnqueueHostAssignments now l reason t) =
                         [new_row now t0 a]
  | None => active_for plane node (EnqueueHostAssignments now l reason t) = active_for plane node t
  end.
Proof.
  intros Hl. unfold EnqueueHostAssignments. destruct l as [|a l]; [done|]. simpl vec_empty.
  cbn iota. by apply enqueue_active.
Qed.

(** A retry of a failed assignment makes it claimable again: it is pending and
    its attempt budget is raised when it was used up. *)
Theorem retry_restores_budget now id message t :
  reachable t ->
  snd (RetryFailedHostAssignment now id message t) = true ->
  exists a, LoadHostAssignment id (fst (RetryFailedHostAssignment now id message t)) = Some a /\
            ha_status a = Pending /\ exhausted a = false.
Proof.
  intros Ht. pose proof (retry_spec now id message t (reachable_ok t Ht)) as H.
  by destruct (RetryFailedHostAssignment now id message t).
Qed.

(** ** Witnesses *)

Definition fx_assignment (node plane type : string) : HostAssignment :=
  mkHostAssignment 0 node plane 7 0 3 type "{}" "/artifacts" Pending "queued" "".
Definition fx_assignments : list HostAssignment :=
  [fx_assignment "hpc1" "runtime-http-proxy:webgateway:demo:w1" runtime_http_proxy;
   fx_assignment "hpc1" "runtime-http-proxy:demo:chat" runtime_http_proxy;
   fx_assignment "hpc1" "demo" "apply-node-state"].
Definition fx_queue : Table := perform 1000 (OpEnqueue fx_assignments "resync") empty_table.
(** The apply claimed, then failed. *)
Definition fx_failed : Table :=
  perform 1020 (OpTransition 3 Failed "disk full") (perform 1010 (OpClaim "hpc1") fx_queue).

Lemma fx_queue_reachable : reachable fx_queue.
Proof.
  apply reachable_step; [apply reachable_empty|].
  repeat constructor; simpl; lia.
Qed.

Lemma fx_failed_reachable : reachable fx_failed.
Proof. repeat (apply reachable_step; [|done]). apply fx_queue_reachable. Qed.

(** The plane of the last row is deleted and three assignments are queued again: they
    get new ids. *)
Definition fx_requeued : Table :=
  perform 1100 (OpEnqueue fx_assignments "again") (DeletePlaneAssignments "demo" fx_queue).
Lemma fx_queue_history : history [1; 2; 3] fx_queue.
Proof.
  replace [1; 2; 3] with ([] ++ added_ids empty_table fx_queue) by (vm_compute; reflexivity).
  apply history_step; [apply history_empty|]. repeat constructor; simpl; lia.
Qed.
Lemma fx_requeued_history : history [1; 2; 3; 4; 5; 6] fx_requeued.
Proof.
  replace [1; 2; 3; 4; 5; 6] with ([1; 2; 3] ++ added_ids (DeletePlaneAssignments "demo" fx_queue) fx_requeued)
    by (vm_compute; reflexivity).
  apply history_step; [apply history_delete, fx_queue_history|]. repeat constructor; simpl; lia.
Qed.
Lemma queue_invariant_witness :
  row_ids (tbl_rows fx_requeued) = [1; 2; 4; 5; 6] /\ StronglySorted Z.lt [1; 2; 3; 4; 5; 6].
Proof. split; [vm_compute; reflexivity|]. apply (queue_invariant _ _ fx_requeued_history). Defined.

Lemma queue_life_cycle_witness :
  exists rows new, tbl_rows (perform 1010 (OpClaim "hpc1") fx_queue) = rows ++ new /\
                   Forall2 (evolves (OpClaim "hpc1")) (tbl_rows fx_queue) rows.
Proof. apply (queue_life_cycle 1010 (OpClaim "hpc1") fx_queue fx_queue_reachable I). Defined.

Lemma claim_next_picks_first_witness :
  claim_outcome 1010 "hpc1" fx_queue (fst (ClaimNextHostAssignment 1010 "hpc1" fx_queue))
    (snd (ClaimNextHostAssignment 1010 "hpc1" fx_queue)) /\
  (ha_plane_name <$> snd (ClaimNextHostAssignment 1010 "hpc1" fx_queue)) = Some "demo".
Proof.
  split; [apply (claim_next_picks_first 1010 "hpc1" fx_queue fx_queue_reachable)|].
  vm_compute. reflexivity.
Defined.

Lemma claim_leaves_no_stale_lease_witness :
  match find_if (has_status Claimed) (tbl_rows (fst (ClaimNextHostAssignment 1010 "hpc1" fx_queue))) with
  | Some r => 1010 - 60 < row_updated_at r
  | None => False
  end.
Proof.
  destruct (find_if _ _) as [r|] eqn:E; [|vm_compute in E; discriminate E].
  apply find_if_Some in E as [Hs Hr].
  apply (claim_leaves_no_stale_lease 1010 "hpc1" fx_queue r Hr); [|exact Hs].
  vm_compute in Hr. repeat (apply elem_of_cons in Hr as [->|Hr]; [reflexivity|]).
  by apply elem_of_nil in Hr.
Defined.

Lemma enqueue_one_active_per_target_witness :
  exists t0, active_for "demo" "hpc1"
               (EnqueueHostAssignments 2000 (fx_assignments ++ fx_assignments) "" fx_queue) =
             [new_row 2000 t0 (fx_assignment "hpc1" "demo" "apply-node-state")].
Proof.
  apply (enqueue_one_active_per_target 2000 (fx_assignments ++ fx_assignments) "" fx_queue "demo" "hpc1").
  repeat constructor.
Defined.

Lemma retry_restores_budget_witness :
  exists a, LoadHostAssignment 3 (fst (RetryFailedHostAssignment 1030 3 "again" fx_failed)) = Some a /\
            ha_status a = Pending /\ exhausted a = false.
Proof.
  apply (retry_restores_budget 1030 3 "again" fx_failed fx_failed_reachable).
  vm_compute. reflexivity.
Defined.
