(* ===== verification/AssignmentReconciliation.v ===== *)
(** * Reconciliation of claimed assignments

    [controller/src/host/host_assignment_reconciliation_service.cpp]: the
    controller closes claimed [apply-node-state] assignments that are obsolete or
    whose effect the host has already reported.  The service is written against
    the interface [AssignmentQueue] of the store; [Table] implements it. *)

From S2P Require Import Prelude AssignmentStore.

(** ** What the service needs of the store *)

Class AssignmentQueue (S : Type) := {
  queue_ok : S -> Prop;
  load_one : Z -> S -> option HostAssignment;
  load_many : option string -> option HostAssignmentStatus -> option string -> S ->
              list HostAssignment;
  transition : Z -> Z -> HostAssignmentStatus -> string -> S -> S * bool;
  load_one_id : forall id s a, queue_ok s -> load_one id s = Some a -> ha_id a = id;
  load_many_spec : forall n st p s a, queue_ok s ->
    a ∈ load_many n st p s <->
    load_one (ha_id a) s = Some a /\ (forall n', n = Some n' -> ha_node_name a = n') /\
    (forall st', st = Some st' -> ha_status a = st') /\
    (forall p', p = Some p' -> ha_plane_name a = p');
  load_many_NoDup : forall n st p s, queue_ok s -> NoDup (ha_id <$> load_many n st p s);
  transition_law : forall now id status message s, queue_ok s ->
    queue_ok (fst (transition now id status message s)) /\
    (forall id', id' <> id ->
       load_one id' (fst (transition now id status message s)) = load_one id' s) /\
    match load_one id s with
    | Some a =>
        if ha_status a ==? Claimed
        then snd (transition now id status message s) = true /\
             load_one id (fst (transition now id status message s)) =
             Some (set_status status message a)
        else snd (transition now id status message s) = false /\
             fst (transition now id status message s) = s
    | None => snd (transition now id status message s) = false /\
              fst (transition now id status message s) = s
    end;
}.

Lemma elem_of_load_many n st p t a :
  table_ok t ->
  a ∈ LoadHostAssignments n st p t <->
  LoadHostAssignment (ha_id a) t = Some a /\ (forall n', n = Some n' -> ha_node_name a = n') /\
  (forall st', st = Some st' -> ha_status a = st') /\
  (forall p', p = Some p' -> ha_plane_name a = p').
Proof.
  intros Hok. unfold LoadHostAssignments. rewrite elem_of_std_sort, list_elem_of_fmap.
  assert (Hf : forall r, optional_filter on_node n r && optional_filter has_status st r &&
      optional_filter on_plane p r = true <->
    (forall n', n = Some n' -> ha_node_name (row_data r) = n') /\
    (forall st', st = Some st' -> ha_status (row_data r) = st') /\
    (forall p', p = Some p' -> ha_plane_name (row_data r) = p')).
  { intros r. rewrite !andb_true_iff. unfold optional_filter, on_node, on_plane.
    destruct n, st, p; rewrite ?has_status_true, ?eqb_true; naive_solver. }
  split.
  - intros (r & -> & Hr). apply list_elem_of_In, filter_In in Hr as [Hr Hp].
    apply list_elem_of_In in Hr. split; [by apply load_present | by apply Hf].
  - intros [Hl Hp]. apply load_Some in Hl as (r & Hr & <- & _). exists r. split; [done|].
    apply list_elem_of_In, filter_In. split; [by apply list_elem_of_In | by apply Hf].
Qed.

Lemma load_many_ids_NoDup n st p t : table_ok t -> NoDup (ha_id <$> LoadHostAssignments n st p t).
Proof.
  intros [Hs _]. unfold LoadHostAssignments. rewrite std_sort_perm, <-list_fmap_compose.
  assert (Hnd : NoDup (ha_id ∘ row_data <$> tbl_rows t)).
  { revert Hs. induction (tbl_rows t) as [|r l IH]; intros Hs; [constructor|].
    rewrite fmap_cons in *. apply StronglySorted_inv in Hs as [Hs Hr]. constructor; [|auto].
    intros Hin. rewrite Forall_forall in Hr. specialize (Hr _ Hin). lia. }
  by apply (NoDup_fmap_filterb (ha_id ∘ row_data)).
Qed.

#[export] Program Instance table_queue : AssignmentQueue Table := {|
  queue_ok := table_ok;
  load_one := LoadHostAssignment;
  load_many := LoadHostAssignments;
  transition := TransitionClaimedHostAssignment;
|}.
Next Obligation. intros id t a _ Hl. by apply load_Some in Hl as (? & _ & _ & ?). Qed.
Next Obligation. intros. by apply elem_of_load_many. Qed.
Next Obligation. intros. by apply load_many_ids_NoDup. Qed.
Next Obligation.
  intros now id status message t Hok. split.
  - by apply (perform_good now (OpTransition id status message) t I).
  - pose proof (transition_spec now id status message t Hok) as H.
    by destruct (TransitionClaimedHostAssignment now id status message t).
Qed.

(** ** The service *)

Record PlaneRecord := mkPlaneRecord {
  plane_name : string;
  plane_shared_disk_name : string;
  plane_control_root : string;
  plane_artifacts_root : string;
  plane_plane_mode : string;
  plane_generation : Z;
  plane_applied_generation : Z;
  plane_rebalance_iteration : Z;
  plane_state : string;
  plane_created_at : string;
}.

Record HostObservation := mkHostObservation {
  obs_node_name : string;
  obs_plane_name : string;
  obs_applied_generation : option Z;
  obs_last_assignment_id : option Z;
  obs_status : HostObservationStatus;
  obs_status_message : string;
  obs_observed_state_json : string;
  obs_runtime_status_json : string;
  obs_instance_runtime_json : string;
  obs_gpu_telemetry_json : string;
  obs_disk_telemetry_json : string;
  obs_network_telemetry_json : string;
  obs_cpu_telemetry_json : string;
  obs_heartbeat_at : string;
}.

Record Result := mkResult { res_applied : Z; res_superseded : Z }.

Definition BuildPlaneNames (claimed_assignments : list HostAssignment) : list string :=
  set_items (list_to_set (ha_plane_name <$> claimed_assignments) : gset string).

Definition keep_latest (latest : gmap string HostAssignment) (assignment : HostAssignment)
    : gmap string HostAssignment :=
  match latest !! ha_node_name assignment with
  | Some current =>
      if ha_id current <? ha_id assignment
      then <[ha_node_name assignment := assignment]> latest else latest
  | None => <[ha_node_name assignment := assignment]> latest
  end.

Definition BuildLatestAssignmentsByNode (assignments : list HostAssignment)
    : gmap string HostAssignment :=
  foldl keep_latest ∅ assignments.

Definition FindObservationForNode (observations : list HostObservation) (node_name : string)
    : option HostObservation :=
  find_if (fun observation => obs_node_name observation ==? node_name) observations.

Definition ShouldSupersedeClaimedAssignment (assignment : HostAssignment)
    (latest_assignments_by_node : gmap string HostAssignment) : bool :=
  match latest_assignments_by_node !! ha_node_name assignment with
  | None => false
  | Some latest => negb (ha_id latest =? ha_id assignment)
  end.

Definition ShouldMarkClaimedAssignmentApplied (assignment : HostAssignment)
    (plane : option PlaneRecord) (observation : option HostObservation) : bool :=
  match plane with
  | None => false
  | Some plane =>
      if plane_applied_generation plane <? ha_desired_generation assignment then false
      else
        match observation with
        | None => false
        | Some observation =>
            if (obs_plane_name observation !=? ha_plane_name assignment) ||
               (obs_status observation !=? ObsApplied) then false
            else
              match obs_last_assignment_id observation with
              | None => false
              | Some last_id =>
                  if last_id <? ha_id assignment then false
                  else match obs_applied_generation observation with
                       | Some generation => ha_desired_generation assignment <=? generation
                       | None => false
                       end
              end
        end
  end.

Section service.
Context {S : Type} `{!AssignmentQueue S}.
(** [store.LoadPlane] and [store.LoadHostObservations], read from other tables. *)
Context (load_plane : string -> option PlaneRecord) (observations : list HostObservation).

Definition LoadClaimedApplyAssignments (store : S) (plane_name : option string)
    : list HostAssignment :=
  List.filter (fun a => ha_assignment_type a ==? "apply-node-state")
    (load_many None (Some Claimed) plane_name store).

Definition superseded_message : string :=
  "superseded by controller reconciliation after a newer assignment replaced it".
Definition applied_message : string :=
  "marked applied by controller reconciliation after plane convergence".

(** One round of the loop of [ReconcilePlane]. *)
Definition reconcile_assignment (now : Z) (plane : option PlaneRecord)
    (latest_assignments_by_node : gmap string HostAssignment) (acc : S * Result)
    (assignment : HostAssignment) : S * Result :=
  let '(store, result) := acc in
  if ShouldSupersedeClaimedAssignment assignment latest_assignments_by_node then
    let '(store, changed) :=
      transition now (ha_id assignment) Superseded superseded_message store in
    (store, if changed then mkResult (res_applied result) (res_superseded result + 1) else result)
  else if ShouldMarkClaimedAssignmentApplied assignment plane
            (FindObservationForNode observations (ha_node_name assignment)) then
    let '(store, changed) := transition now (ha_id assignment) Applied applied_message store in
    (store, if changed then mkResult (res_applied result + 1) (res_superseded result) else result)
  else (store, result).

Definition ReconcilePlane (now : Z) (store : S) (plane_name : string)
    (claimed_assignments : list HostAssignment) : S * Result :=
  let plane := load_plane plane_name in
  let latest_assignments_by_node :=
    BuildLatestAssignmentsByNode (load_many None None (Some plane_name) store) in
  foldl (reconcile_assignment now plane latest_assignments_by_node) (store, mkResult 0 0)
    (List.filter (fun a => ha_plane_name a ==? plane_name) claimed_assignments).

Definition Reconcile (now : Z) (store : S) (plane_name : option string) : S * Result :=
  let claimed_assignments := LoadClaimedApplyAssignments store plane_name in
  if vec_empty claimed_assignments then (store, mkResult 0 0)
  else
    foldl (fun '(store, result) candidate_plane_name =>
             let '(store, plane_result) :=
               ReconcilePlane now store candidate_plane_name claimed_assignments in
             (store, mkResult (res_applied result + res_applied plane_result)
                              (res_superseded result + res_superseded plane_result)))
          (store, mkResult 0 0) (BuildPlaneNames claimed_assignments).
End service.

(** ** Lemmas: the latest assignment of a node *)

Lemma keep_latest_spec l m node :
  (forall x, m !! node = Some x -> ha_node_name x = node) ->
  match foldl keep_latest m l !! node with
  | Some b => (m !! node = Some b \/ b ∈ l) /\ ha_node_name b = node /\
              (forall x, m !! node = Some x -> ha_id x <= ha_id b) /\
              (forall x, x ∈ l -> ha_node_name x = node -> ha_id x <= ha_id b)
  | None => m !! node = None /\ forall x, x ∈ l -> ha_node_name x <> node
  end.
Proof.
  revert m. induction l as [|a l IH]; intros m Hm; simpl.
  { destruct (m !! node) as [b|] eqn:E.
    - repeat split; [by left | by apply Hm | intros x [= <-]; lia | by intros x ?%elem_of_nil].
    - split; [done|]. by intros x ?%elem_of_nil. }
  assert (Hk : keep_latest m a !! node =
    if decide (ha_node_name a = node) then
      match m !! node with Some c => if ha_id c <? ha_id a then Some a else Some c | None => Some a end
    else m !! node).
  { unfold keep_latest. case_decide as Hn.
    - subst node. destruct (m !! ha_node_name a) as [c|] eqn:E; [destruct (ha_id c <? ha_id a)|];
        by simplify_map_eq.
    - destruct (m !! ha_node_name a); [destruct_if|]; by simplify_map_eq. }
  specialize (IH (keep_latest m a)). rewrite Hk in IH.
  case_decide as Hn.
  - assert (Hc : exists c, (m !! node = Some c \/ c = a) /\ ha_node_name c = node /\ ha_id a <= ha_id c /\
        (forall x, m !! node = Some x -> ha_id x <= ha_id c) /\
        match m !! node with Some c => if ha_id c <? ha_id a then Some a else Some c
                           | None => Some a end = Some c).
    { destruct (m !! node) as [c|] eqn:E; [destruct (ha_id c <? ha_id a) eqn:El; to_prop|].
      - exists a. repeat split; [by right | done | lia | intros x [= <-]; lia].
      - exists c. repeat split; [by left | by apply Hm | lia | intros x [= <-]; lia].
      - exists a. repeat split; [by right | done | lia | done]. }
    destruct Hc as (c & Hc & Hcn & Hca & Hcm & Heq). rewrite Heq in IH.
    specialize (IH ltac:(by intros x [= <-])).
    destruct (foldl keep_latest (keep_latest m a) l !! node) as [b|]; [|by destruct IH].
    destruct IH as (Hb & Hbn & H1 & H2). specialize (H1 c eq_refl). repeat split; [| done | |].
    + rewrite elem_of_cons. destruct Hb as [[= <-]|Hb]; [destruct Hc as [?| ->]|]; auto.
    + intros x Hx. specialize (Hcm x Hx). lia.
    + intros x [->|Hx]%elem_of_cons Hxn; [lia | by apply H2].
  - specialize (IH Hm). destruct (foldl keep_latest (keep_latest m a) l !! node) as [b|].
    + destruct IH as (Hb & Hbn & H1 & H2). repeat split; [|done|done|].
      * rewrite elem_of_cons. destruct Hb; auto.
      * intros x [->|Hx]%elem_of_cons Hxn; [done | by apply H2].
    + destruct IH as [H1 H2]. split; [done|]. intros x [->|Hx]%elem_of_cons; [done | by apply H2].
Qed.

Lemma should_supersede_iff a l :
  a ∈ l ->
  ShouldSupersedeClaimedAssignment a (BuildLatestAssignmentsByNode l) = true <->
  exists b, b ∈ l /\ ha_node_name b = ha_node_name a /\ ha_id a < ha_id b.
Proof.
  intros Ha. unfold ShouldSupersedeClaimedAssignment, BuildLatestAssignmentsByNode.
  pose proof (keep_latest_spec l ∅ (ha_node_name a)) as H. rewrite lookup_empty in H.
  specialize (H ltac:(done)).
  destruct (foldl keep_latest ∅ l !! ha_node_name a) as [b|].
  - destruct H as ([?|Hb] & Hbn & _ & Hmax); [done|]. rewrite negb_true_iff, Z.eqb_neq. split.
    + intros Hne. exists b. specialize (Hmax a Ha eq_refl). repeat split; [done|done|lia].
    + intros (c & Hc & Hcn & Hlt). specialize (Hmax c Hc Hcn). lia.
  - destruct H as [_ H]. by specialize (H a Ha).
Qed.

(** ** Lemmas: the whole run *)

Section run.
Context {S : Type} `{!AssignmentQueue S}.
Context (load_plane : string -> option PlaneRecord) (observations : list HostObservation).
Context (now : Z) (s0 : S) (Hs0 : queue_ok s0).

(** A newer assignment for the same plane and node exists. *)
Definition has_newer (s : S) (a : HostAssignment) : Prop :=
  exists b, load_one (ha_id b) s = Some b /\ ha_plane_name b = ha_plane_name a /\
            ha_node_name b = ha_node_name a /\ ha_id a < ha_id b.

Definition supersede_at (s : S) (a : HostAssignment) : bool :=
  ShouldSupersedeClaimedAssignment a
    (BuildLatestAssignmentsByNode (load_many None None (Some (ha_plane_name a)) s)).
Definition converged (a : HostAssignment) : bool :=
  ShouldMarkClaimedAssignmentApplied a (load_plane (ha_plane_name a))
    (FindObservationForNode observations (ha_node_name a)).

(** What the run decides about a claimed assignment. *)
Definition verdict (a : HostAssignment) : option HostAssignmentStatus :=
  if supersede_at s0 a then Some Superseded
  else if converged a then Some Applied else None.
Definition message_for (status : HostAssignmentStatus) : string :=
  if status ==? Superseded then superseded_message else applied_message.
Definition settled (a : HostAssignment) : HostAssignment :=
  match verdict a with Some st => set_status st (message_for st) a | None => a end.

(** Stores that hold the same assignments up to their status. *)
Definition kin (s : S) : Prop :=
  forall id, option_Forall2 same_work (load_one id s0) (load_one id s).

Lemma kin_refl : kin s0.
Proof. intros id. destruct (load_one id s0); constructor. done. Qed.

Lemma elem_of_plane_rows s p b :
  queue_ok s -> b ∈ load_many None None (Some p) s <->
  load_one (ha_id b) s = Some b /\ ha_plane_name b = p.
Proof. intros Hs. rewrite load_many_spec by done. naive_solver. Qed.

Lemma kin_has_newer s a b :
  kin s -> queue_ok s -> load_one (ha_id a) s0 = Some a -> load_one (ha_id a) s = Some b ->
  has_newer s b <-> has_newer s0 a.
Proof.
  intros Hk Hs Ha Hb. pose proof (Hk (ha_id a)) as Hab. rewrite Ha, Hb in Hab.
  inversion Hab as [? ? (Hid & Hn & Hp & _)|]; subst. unfold has_newer. split.
  - intros (c & Hc & Hcp & Hcn & Hlt). pose proof (Hk (ha_id c)) as Hcc. rewrite Hc in Hcc.
    inversion Hcc as [c0 ? (Hid' & Hn' & Hp' & _) Hc0|]; subst. exists c0.
    rewrite Hid', <-Hc0, Hn', Hp', Hcp, Hcn. repeat split; [congruence | congruence | lia].
  - intros (c & Hc & Hcp & Hcn & Hlt). pose proof (Hk (ha_id c)) as Hcc. rewrite Hc in Hcc.
    inversion Hcc as [? c0 (Hid' & Hn' & Hp' & _) Hc0|]; subst. exists c0.
    rewrite <-Hid', <-Hn', <-Hp', Hcp, Hcn. repeat split; [congruence | congruence | congruence | lia].
Qed.

Lemma supersede_at_iff s a :
  queue_ok s -> load_one (ha_id a) s = Some a -> supersede_at s a = true <-> has_newer s a.
Proof.
  intros Hs Ha. unfold supersede_at. rewrite should_supersede_iff.
  - unfold has_newer. setoid_rewrite elem_of_plane_rows; [|done]. naive_solver.
  - by apply elem_of_plane_rows.
Qed.

(** The store after some claimed assignments have been dealt with. *)
Record Progress (done : list HostAssignment) (s : S) : Prop := mkProgress {
  pr_ok : queue_ok s;
  pr_done : forall a, a ∈ done -> load_one (ha_id a) s = Some (settled a);
  pr_rest : forall id, id ∉ ha_id <$> done -> load_one id s = load_one id s0;
}.

Definition claimed_in (a : HostAssignment) : Prop :=
  load_one (ha_id a) s0 = Some a /\ ha_status a = Claimed.

Lemma progress_kin done s : Forall claimed_in done -> Progress done s -> kin s.
Proof.
  intros Hd [Hs Hdone Hrest] id. destruct (decide (id ∈ ha_id <$> done)) as [Hin|Hin].
  - apply list_elem_of_fmap in Hin as (a & -> & Ha). rewrite (Hdone a Ha).
    rewrite Forall_forall in Hd. destruct (Hd a Ha) as [-> _]. constructor.
    unfold settled. by destruct (verdict a).
  - rewrite Hrest by done. apply kin_refl.
Qed.

Definition add_verdict (r : Result) (a : HostAssignment) : Result :=
  match verdict a with
  | Some Superseded => mkResult (res_applied r) (res_superseded r + 1)
  | Some Applied => mkResult (res_applied r + 1) (res_superseded r)
  | _ => r
  end.

Lemma transition_progress done s a status message :
  claimed_in a -> ha_id a ∉ ha_id <$> done -> Progress done s ->
  settled a = set_status status message a ->
  snd (transition now (ha_id a) status message s) = true /\
  Progress (done ++ [a]) (fst (transition now (ha_id a) status message s)).
Proof.
  intros [Ha Hc] Hn [Hs Hdone Hrest] Hset.
  destruct (transition_law now (ha_id a) status message s Hs) as (Hok & Hother & Hmine).
  rewrite Hrest, Ha, Hc, eqb_refl in Hmine by done. destruct Hmine as [Hsnd Hl].
  split; [done|]. split; [done| |].
  - intros b [Hb|Hb]%elem_of_app.
    + rewrite Hother; [by apply Hdone|]. intros Heq. apply Hn. rewrite <-Heq.
      by apply list_elem_of_fmap_2.
    + apply list_elem_of_singleton in Hb as ->. by rewrite Hl, Hset.
  - intros id Hid. rewrite fmap_app, not_elem_of_app in Hid. destruct Hid as [Hid1 Hid2].
    simpl in Hid2. rewrite Hother by (intros ->; apply Hid2; left). by apply Hrest.
Qed.

Lemma reconcile_round done s a r latest :
  claimed_in a -> ha_id a ∉ ha_id <$> done -> Progress done s ->
  ShouldSupersedeClaimedAssignment a latest = supersede_at s0 a ->
  let acc := reconcile_assignment observations now (load_plane (ha_plane_name a)) latest (s, r) a in
  Progress (done ++ [a]) (fst acc) /\ snd acc = add_verdict r a.
Proof.
  intros Ha Hn Hp Hsup. cbv zeta. unfold reconcile_assignment. rewrite Hsup.
  fold (converged a).
  destruct (supersede_at s0 a) eqn:Es; [|destruct (converged a) eqn:Ec].
  - destruct (transition_progress done s a Superseded superseded_message) as [Hsnd HP]; try done.
    { unfold settled, verdict. by rewrite Es. }
    destruct (transition _ _ _ _ s) as [s' ok]. simpl in *. subst ok. simpl.
    unfold add_verdict, verdict. by rewrite Es.
  - destruct (transition_progress done s a Applied applied_message) as [Hsnd HP]; try done.
    { unfold settled, verdict. by rewrite Es, Ec. }
    destruct (transition _ _ _ _ s) as [s' ok]. simpl in *. subst ok. simpl.
    unfold add_verdict, verdict. by rewrite Es, Ec.
  - assert (Hv : verdict a = None) by (unfold verdict; by rewrite Es, Ec).
    unfold add_verdict. rewrite Hv. split; [|done]. destruct Hp as [Hs Hdone Hrest].
    destruct Ha as [Ha _]. split; simpl; [done| |].
    + intros b [Hb|Hb]%elem_of_app; [by apply Hdone|]. apply list_elem_of_singleton in Hb as ->.
      rewrite Hrest, Ha by done. unfold settled. by rewrite Hv.
    + intros id Hid. apply Hrest. rewrite fmap_app, not_elem_of_app in Hid. tauto.
Qed.

Lemma reconcile_fold latest p l done s r :
  Forall claimed_in l -> NoDup (ha_id <$> done ++ l) ->
  Forall (fun a => ha_plane_name a = p /\
            ShouldSupersedeClaimedAssignment a latest = supersede_at s0 a) l ->
  Progress done s ->
  let acc := foldl (reconcile_assignment observations now (load_plane p) latest) (s, r) l in
  Progress (done ++ l) (fst acc) /\ snd acc = foldl add_verdict r l.
Proof.
  cbv zeta. revert done s r. induction l as [|a l IH]; intros done s r Hl Hnd Hsup HP.
  { by rewrite app_nil_r. }
  apply Forall_cons in Hl as [Ha Hl]. apply Forall_cons in Hsup as [[<- Hsa] Hsup].
  assert (Hn : ha_id a ∉ ha_id <$> done).
  { rewrite fmap_app, fmap_cons, NoDup_app in Hnd. destruct Hnd as (_ & Hdis & _).
    intros Hin. apply (Hdis _ Hin). left. }
  destruct (reconcile_round done s a r latest Ha Hn HP Hsa) as [HP' Hr]. cbn [foldl].
  destruct (reconcile_assignment _ _ _ _ _ _) as [s' r']. simpl in HP', Hr. subst r'.
  assert (Happ : done ++ a :: l = (done ++ [a]) ++ l) by (by rewrite <-app_assoc).
  rewrite Happ in *. by apply IH.
Qed.

(** One plane. *)
Lemma reconcile_plane_progress done s p l r :
  Forall claimed_in done -> Forall claimed_in l -> NoDup (ha_id <$> done ++ l) ->
  Forall (fun a => ha_plane_name a = p) l -> Progress done s ->
  let acc := foldl (reconcile_assignment observations now (load_plane p)
    (BuildLatestAssignmentsByNode (load_many None None (Some p) s))) (s, r) l in
  Progress (done ++ l) (fst acc) /\ snd acc = foldl add_verdict r l.
Proof.
  intros Hdone Hl Hnd Hpl HP. apply reconcile_fold; try done.
  rewrite Forall_forall in *. intros a Ha. split; [by apply Hpl|].
  destruct (Hl a Ha) as [Ha0 _]. rewrite <-(Hpl a Ha). fold (supersede_at s a).
  assert (Has : load_one (ha_id a) s = Some a).
  { rewrite (pr_rest _ _ HP); [done|]. rewrite fmap_app, NoDup_app in Hnd.
    destruct Hnd as (_ & Hdis & _). intros Hin. apply (Hdis _ Hin). by apply list_elem_of_fmap_2. }
  apply eq_bool_prop_intro. rewrite !Is_true_true.
  rewrite !supersede_at_iff by (done || apply (pr_ok _ _ HP)).
  apply kin_has_newer; [|apply (pr_ok _ _ HP) | done..].
  apply (progress_kin done); [by apply Forall_forall | done].
Qed.

(** The loop over planes. *)
Definition of_plane (claimed : list HostAssignment) (p : string) : list HostAssignment :=
  List.filter (fun a => ha_plane_name a ==? p) claimed.

Lemma fold_add_verdict l r r' :
  foldl add_verdict (mkResult (res_applied r + res_applied r') (res_superseded r + res_superseded r')) l =
  mkResult (res_applied r + res_applied (foldl add_verdict r' l))
           (res_superseded r + res_superseded (foldl add_verdict r' l)).
Proof.
  revert r'. induction l as [|a l IH]; intros r'; [done|]. cbn [foldl]. rewrite <-IH. f_equal.
  unfold add_verdict. destruct (verdict a) as [[]|]; simpl; f_equal; lia.
Qed.

Lemma reconcile_planes_progress claimed planes done s r :
  Forall claimed_in done -> Forall claimed_in claimed ->
  NoDup (ha_id <$> done ++ (planes ≫= of_plane claimed)) -> Progress done s ->
  let acc := foldl (fun '(store, result) p =>
      let '(store, plane_result) := ReconcilePlane load_plane observations now store p claimed in
      (store, mkResult (res_applied result + res_applied plane_result)
                       (res_superseded result + res_superseded plane_result))) (s, r) planes in
  Progress (done ++ (planes ≫= of_plane claimed)) (fst acc) /\
  snd acc = foldl add_verdict r (planes ≫= of_plane claimed).
Proof.
  cbv zeta. revert done s r. induction planes as [|p planes IH]; intros done s r Hd Hc Hnd HP.
  { cbn. by rewrite app_nil_r. }
  cbn [mbind list_bind] in *. fold (planes ≫= of_plane claimed) in *.
  assert (Hpl : Forall claimed_in (of_plane claimed p) /\
                Forall (fun a => ha_plane_name a = p) (of_plane claimed p)).
  { rewrite !Forall_forall in *. split; intros a Ha; apply list_elem_of_In, filter_In in Ha as [Ha Hp];
      [by apply Hc, list_elem_of_In | by apply eqb_true]. }
  destruct Hpl as [Hpc Hpp].
  destruct (reconcile_plane_progress done s p (of_plane claimed p) (mkResult 0 0)) as [HP' Hr'];
    try done.
  { rewrite app_assoc, fmap_app, NoDup_app in Hnd. tauto. }
  cbn [foldl]. unfold ReconcilePlane at 2 4. fold (of_plane claimed p).
  destruct (foldl (reconcile_assignment _ _ _ _) _ _) as [s' r'] eqn:E.
  simpl in HP', Hr'. subst r'. rewrite app_assoc in *.
  destruct (IH (done ++ of_plane claimed p) s' (mkResult
    (res_applied r + res_applied (foldl add_verdict (mkResult 0 0) (of_plane claimed p)))
    (res_superseded r + res_superseded (foldl add_verdict (mkResult 0 0) (of_plane claimed p)))))
    as [HP2 Hr2]; try done; [by apply Forall_app|].
  split; [exact HP2|]. rewrite Hr2, foldl_app. f_equal. rewrite <-fold_add_verdict. simpl.
  rewrite !Z.add_0_r. by destruct r.
Qed.

Lemma planes_partition claimed :
  NoDup claimed -> BuildPlaneNames claimed ≫= of_plane claimed ≡ₚ claimed.
Proof.
  intros Hnd.
  assert (Hin : forall a p, a ∈ of_plane claimed p <-> a ∈ claimed /\ ha_plane_name a = p).
  { intros a p. unfold of_plane.
    by rewrite list_elem_of_In, filter_In, <-list_elem_of_In, eqb_true. }
  apply NoDup_Permutation; [|done|].
  - apply NoDup_bind.
    + intros p q a _ _ Hp Hq. apply Hin in Hp as [_ <-]. by apply Hin in Hq as [_ <-].
    + intros p _. by apply NoDup_filterb.
    + apply NoDup_set_items.
  - intros a. rewrite list_elem_of_bind. setoid_rewrite Hin. split.
    + by intros (p & [Ha _] & _).
    + intros Ha. exists (ha_plane_name a). split; [done|].
      apply elem_of_set_items, elem_of_list_to_set, list_elem_of_fmap_2, Ha.
Qed.

Definition verdicts (status : HostAssignmentStatus) (l : list HostAssignment) : Z :=
  Z.of_nat (length (List.filter (fun a => verdict a ==? Some status) l)).

Lemma count_verdicts l r :
  foldl add_verdict r l =
  mkResult (res_applied r + verdicts Applied l) (res_superseded r + verdicts Superseded l).
Proof.
  revert r. unfold verdicts. induction l as [|a l IH]; intros r; cbn [foldl List.filter].
  { destruct r. cbn [length Z.of_nat]. f_equal; simpl; lia. }
  rewrite IH. unfold add_verdict.
  destruct (verdict a) as [[]|]; cbn [res_applied res_superseded]; unfold eqb;
    repeat case_bool_decide; try congruence; cbn [length]; f_equal; lia.
Qed.
End run.

(** ** Properties *)

(** The plane and the host have both reached the assignment's generation. *)
Definition Converged (load_plane : string -> option PlaneRecord)
    (observations : list HostObservation) (a : HostAssignment) : Prop :=
  exists plane o last generation,
    load_plane (ha_plane_name a) = Some plane /\
    ha_desired_generation a <= plane_applied_generation plane /\
    FindObservationForNode observations (ha_node_name a) = Some o /\
    obs_plane_name o = ha_plane_name a /\ obs_status o = ObsApplied /\
    obs_last_assignment_id o = Some last /\ ha_id a <= last /\
    obs_applied_generation o = Some generation /\ ha_desired_generation a <= generation.

Lemma converged_iff load_plane observations a :
  converged load_plane observations a = true <-> Converged load_plane observations a.
Proof.
  unfold converged, ShouldMarkClaimedAssignmentApplied, Converged. split.
  - destruct (load_plane _) as [plane|]; [|done]. destruct_if; [done|].
    destruct (FindObservationForNode _ _) as [o|]; [|done]. destruct_if; [done|].
    destruct (obs_last_assignment_id o) as [last|] eqn:El; [|done]. destruct_if; [done|].
    destruct (obs_applied_generation o) as [g|] eqn:Eg; [|done]. intros Hg. to_prop.
    exists plane, o, last, g. repeat split; try done; lia.
  - intros (plane & o & last & g & -> & H1 & -> & -> & -> & -> & H2 & -> & H3).
    rewrite !eqb_refl. simpl.
    replace (plane_applied_generation plane <? ha_desired_generation a) with false by lia.
    replace (last <? ha_id a) with false by lia. lia.
Qed.

Section spec.
Context {S : Type} `{!AssignmentQueue S}.
Context (load_plane : string -> option PlaneRecord) (observations : list HostObservation).

(** The assignments a reconciliation run looks at. *)
Definition in_scope (s : S) (scope : option string) (a : HostAssignment) : Prop :=
  load_one (ha_id a) s = Some a /\ ha_status a = Claimed /\
  ha_assignment_type a = "apply-node-state" /\
  (forall p, scope = Some p -> ha_plane_name a = p).

Lemma elem_of_claimed s scope a :
  queue_ok s -> a ∈ LoadClaimedApplyAssignments s scope <-> in_scope s scope a.
Proof.
  intros Hs. unfold LoadClaimedApplyAssignments, in_scope.
  rewrite list_elem_of_In, filter_In, <-list_elem_of_In, eqb_true, load_many_spec by done.
  naive_solver.
Qed.

Lemma reconcile_progress now s scope :
  queue_ok s ->
  let claimed := LoadClaimedApplyAssignments s scope in
  let acc := Reconcile load_plane observations now s scope in
  exists order, order ≡ₚ claimed /\ Progress load_plane observations s order (fst acc) /\
    snd acc = mkResult (verdicts load_plane observations s Applied claimed)
                       (verdicts load_plane observations s Superseded claimed).
Proof.
  intros Hs. cbv zeta. unfold Reconcile. set (claimed := LoadClaimedApplyAssignments s scope).
  assert (Hids : NoDup (ha_id <$> claimed)).
  { unfold claimed, LoadClaimedApplyAssignments.
    by apply NoDup_fmap_filterb, load_many_NoDup. }
  pose proof (planes_partition claimed (NoDup_fmap_1 _ _ Hids)) as Hperm.
  exists (BuildPlaneNames claimed ≫= of_plane claimed). split; [done|].
  destruct (reconcile_planes_progress load_plane observations now s Hs claimed
    (BuildPlaneNames claimed) [] s (mkResult 0 0)) as [HP Hr].
  - constructor.
  - apply Forall_forall. intros a Ha. apply elem_of_claimed in Ha as (H1 & H2 & _); done.
  - simpl. by rewrite Hperm.
  - split; [done | by intros a ?%elem_of_nil | done].
  - simpl in HP, Hr.
    assert (Hcount : foldl (add_verdict load_plane observations s) (mkResult 0 0)
        (BuildPlaneNames claimed ≫= of_plane claimed) =
      mkResult (verdicts load_plane observations s Applied claimed)
               (verdicts load_plane observations s Superseded claimed)).
    { rewrite count_verdicts. cbn [res_applied res_superseded]. rewrite !Z.add_0_l.
      unfold verdicts. by f_equal; f_equal; apply Permutation_length, filterb_perm. }
    destruct (vec_empty claimed) eqn:Ev; [|by rewrite <-Hcount].
    apply vec_empty_true in Ev. rewrite Ev in *. done.
Qed.

(** C4. A reconciliation run is exact.  Every claimed [apply-node-state]
    assignment in scope ends superseded when a newer assignment exists for its
    plane and node, otherwise applied when plane and host have both reached its
    generation, and otherwise stays as it was; every other assignment is
    untouched; and the counts returned are the numbers of assignments closed
    each way. *)
Theorem reconcile_exact now s scope :
  queue_ok s ->
  let s' := fst (Reconcile load_plane observations now s scope) in
  let result := snd (Reconcile load_plane observations now s scope) in
  let claimed := LoadClaimedApplyAssignments s scope in
  (forall a, in_scope s scope a ->
     (has_newer s a -> load_one (ha_id a) s' = Some (set_status Superseded superseded_message a)) /\
     (~ has_newer s a -> Converged load_plane observations a ->
        load_one (ha_id a) s' = Some (set_status Applied applied_message a)) /\
     (~ has_newer s a -> ~ Converged load_plane observations a -> load_one (ha_id a) s' = Some a)) /\
  (forall id, (forall a, in_scope s scope a -> ha_id a <> id) -> load_one id s' = load_one id s) /\
  (let closed status := fun a => from_option ha_status Claimed (load_one (ha_id a) s') ==? status in
   res_applied result = Z.of_nat (length (List.filter (closed Applied) claimed)) /\
   res_superseded result = Z.of_nat (length (List.filter (closed Superseded) claimed))).
Proof.
  intros Hs. cbv zeta.
  destruct (reconcile_progress now s scope Hs) as (order & Hperm & HP & Hr).
  assert (Hsettled : forall a, in_scope s scope a ->
    load_one (ha_id a) (fst (Reconcile load_plane observations now s scope)) =
    Some (settled load_plane observations s a)).
  { intros a Ha. apply (pr_done _ _ _ _ _ HP). rewrite Hperm. by apply elem_of_claimed. }
  split; [|split].
  - intros a Ha. rewrite (Hsettled a Ha). destruct Ha as (Hl & _).
    unfold settled, verdict. rewrite <-converged_iff, <-(supersede_at_iff load_plane s a) by done.
    destruct (supersede_at s a), (converged load_plane observations a); naive_solver.
  - intros id Hid. apply (pr_rest _ _ _ _ _ HP). rewrite Hperm.
    intros (a & -> & Ha)%list_elem_of_fmap. apply elem_of_claimed in Ha; [|done]. by apply (Hid a).
  - rewrite Hr. cbn [res_applied res_superseded]. unfold verdicts.
    split; do 2 f_equal; apply filter_ext_in; intros a Ha%list_elem_of_In;
      apply elem_of_claimed in Ha; try done; rewrite (Hsettled a Ha);
      destruct Ha as (_ & Hst & _); unfold settled, eqb;
      destruct (verdict load_plane observations s a) as [st|]; cbn;
      rewrite ?Hst; repeat case_bool_decide; congruence.
Qed.
End spec.

(** ** Witnesses *)

(** One converged and one obsolete claimed assignment. *)
Definition fx_claimed_table : Table :=
  mkTable [mkRow (mkHostAssignment 1 "hpc1" "demo" 7 1 3 "apply-node-state" "{}" "/a" Claimed "" "{}") 10;
           mkRow (mkHostAssignment 2 "hpc2" "demo" 6 1 3 "apply-node-state" "{}" "/a" Claimed "" "{}") 10;
           mkRow (mkHostAssignment 3 "hpc2" "demo" 7 0 3 "apply-node-state" "{}" "/a" Pending "" "{}") 20] 3.
Definition fx_plane_record (name : string) : PlaneRecord :=
  mkPlaneRecord name "shared" "/control" "/a" "llm" 7 7 0 "running" "".
Definition fx_load_plane (name : string) : option PlaneRecord := Some (fx_plane_record name).
Definition fx_observation : HostObservation :=
  mkHostObservation "hpc1" "demo" (Some 7) (Some 1) ObsApplied "" "" "" "" "" "" "" "" "".
Definition fx_observations : list HostObservation := [fx_observation].

Lemma fx_claimed_table_ok : queue_ok fx_claimed_table.
Proof. change (table_ok fx_claimed_table). split; repeat constructor; simpl; lia. Qed.

Lemma reconcile_exact_witness :
  load_one (S:=Table) 1 (fst (Reconcile fx_load_plane fx_observations 100 fx_claimed_table None)) =
    Some (mkHostAssignment 1 "hpc1" "demo" 7 1 3 "apply-node-state" "{}" "/a" Applied
            applied_message "{}") /\
  snd (Reconcile fx_load_plane fx_observations 100 fx_claimed_table None) = mkResult 1 1.
Proof.
  destruct (reconcile_exact fx_load_plane fx_observations 100 fx_claimed_table None
              fx_claimed_table_ok) as (H & _ & _).
  split; [|vm_compute; reflexivity].
  apply (H (mkHostAssignment 1 "hpc1" "demo" 7 1 3 "apply-node-state" "{}" "/a" Claimed "" "{}")).
  - repeat split; try reflexivity. intros p Hp. discriminate Hp.
  - intros (b & Hb & _ & Hn & Hlt). apply load_Some in Hb as (r & Hr & <- & _).
    simpl in Hr, Hn, Hlt. rewrite !elem_of_cons in Hr.
    destruct Hr as [->|[->|[->|Hr]]]; simpl in *; try (lia || discriminate Hn). by apply elem_of_nil in Hr.
  - exists (fx_plane_record "demo"), fx_observation, 1, 7.
    repeat split; simpl; lia.
Defined.
