(* ===== verification/RuntimeStatus.v ===== *)
(** * Runtime status and host telemetry

    [common/include/naim/runtime/runtime_status.h] and
    [common/src/runtime/runtime_status.cpp]: the records a host reports about its
    processes, GPUs, disks, network and CPU, the telemetry frame that carries
    them to the controller, the runtime status of an instance, and their JSON
    codecs.  A [ToJson] overload is [<Struct>_ToJson]; reading a value may throw
    and returns a [result].  [std::uint64_t] and [int] are [Z]; [<Struct>_ok] says
    that the fields are values of their C++ types and that doubles are finite.

    The JSON library is the class [JsonLibrary] of [Json].  Files are a map from
    paths to texts; failures of the file system are not modelled. *)

From S2P Require Import Prelude Binary64 Json.

(** ** Structs and their default member initialisers *)

Record RuntimeProcessStatus := mkRuntimeProcessStatus {
  rps_instance_name : string;
  rps_instance_role : string;
  rps_node_name : string;
  rps_model_path : string;
  rps_gpu_device : string;
  rps_runtime_phase : string;
  rps_started_at : string;
  rps_last_activity_at : string;
  rps_runtime_pid : Z;
  rps_engine_pid : Z;
  rps_ready : bool;
  rps_plane_name : string;
}.

Definition RuntimeProcessStatus_default : RuntimeProcessStatus := {|
  rps_instance_name := "";
  rps_instance_role := "";
  rps_node_name := "";
  rps_model_path := "";
  rps_gpu_device := "";
  rps_runtime_phase := "";
  rps_started_at := "";
  rps_last_activity_at := "";
  rps_runtime_pid := 0;
  rps_engine_pid := 0;
  rps_ready := false;
  rps_plane_name := ""
|}.

Record GpuProcessTelemetry := mkGpuProcessTelemetry {
  gpt_pid : Z;
  gpt_used_vram_mb : Z;
  gpt_instance_name : string;
}.

Definition GpuProcessTelemetry_default : GpuProcessTelemetry := {|
  gpt_pid := 0;
  gpt_used_vram_mb := 0;
  gpt_instance_name := "unknown"
|}.

Record GpuDeviceTelemetry := mkGpuDeviceTelemetry {
  gdt_gpu_device : string;
  gdt_total_vram_mb : Z;
  gdt_used_vram_mb : Z;
  gdt_free_vram_mb : Z;
  gdt_gpu_utilization_pct : Z;
  gdt_temperature_c : Z;
  gdt_temperature_available : bool;
  gdt_processes : list GpuProcessTelemetry;
}.

Definition GpuDeviceTelemetry_default : GpuDeviceTelemetry := {|
  gdt_gpu_device := "";
  gdt_total_vram_mb := 0;
  gdt_used_vram_mb := 0;
  gdt_free_vram_mb := 0;
  gdt_gpu_utilization_pct := 0;
  gdt_temperature_c := 0;
  gdt_temperature_available := false;
  gdt_processes := []
|}.

Record GpuTelemetrySnapshot := mkGpuTelemetrySnapshot {
  gts_contract_version : Z;
  gts_degraded : bool;
  gts_source : string;
  gts_collected_at : string;
  gts_devices : list GpuDeviceTelemetry;
}.

Definition GpuTelemetrySnapshot_default : GpuTelemetrySnapshot := {|
  gts_contract_version := 1;
  gts_degraded := false;
  gts_source := "";
  gts_collected_at := "";
  gts_devices := []
|}.

Record DiskTelemetryRecord := mkDiskTelemetryRecord {
  dtr_disk_name : string;
  dtr_plane_name : string;
  dtr_node_name : string;
  dtr_mount_point : string;
  dtr_mount_source : string;
  dtr_filesystem_type : string;
  dtr_runtime_state : string;
  dtr_health : string;
  dtr_status_message : string;
  dtr_total_bytes : Z;
  dtr_used_bytes : Z;
  dtr_free_bytes : Z;
  dtr_read_ios : Z;
  dtr_write_ios : Z;
  dtr_read_bytes : Z;
  dtr_write_bytes : Z;
  dtr_io_time_ms : Z;
  dtr_weighted_io_time_ms : Z;
  dtr_io_error_count : Z;
  dtr_io_in_progress : Z;
  dtr_warning_count : Z;
  dtr_fault_count : Z;
  dtr_read_only : bool;
  dtr_mounted : bool;
  dtr_perf_counters_available : bool;
  dtr_io_error_counters_available : bool;
  dtr_fault_reasons : list string;
}.

Definition DiskTelemetryRecord_default : DiskTelemetryRecord := {|
  dtr_disk_name := "";
  dtr_plane_name := "";
  dtr_node_name := "";
  dtr_mount_point := "";
  dtr_mount_source := "";
  dtr_filesystem_type := "";
  dtr_runtime_state := "";
  dtr_health := "";
  dtr_status_message := "";
  dtr_total_bytes := 0;
  dtr_used_bytes := 0;
  dtr_free_bytes := 0;
  dtr_read_ios := 0;
  dtr_write_ios := 0;
  dtr_read_bytes := 0;
  dtr_write_bytes := 0;
  dtr_io_time_ms := 0;
  dtr_weighted_io_time_ms := 0;
  dtr_io_error_count := 0;
  dtr_io_in_progress := 0;
  dtr_warning_count := 0;
  dtr_fault_count := 0;
  dtr_read_only := false;
  dtr_mounted := false;
  dtr_perf_counters_available := false;
  dtr_io_error_counters_available := false;
  dtr_fault_reasons := []
|}.

Record DiskTelemetrySnapshot := mkDiskTelemetrySnapshot {
  dts_contract_version : Z;
  dts_degraded : bool;
  dts_source : string;
  dts_collected_at : string;
  dts_items : list DiskTelemetryRecord;
}.

Definition DiskTelemetrySnapshot_default : DiskTelemetrySnapshot := {|
  dts_contract_version := 1;
  dts_degraded := false;
  dts_source := "";
  dts_collected_at := "";
  dts_items := []
|}.

Record NetworkInterfaceTelemetry := mkNetworkInterfaceTelemetry {
  nit_interface_name : string;
  nit_oper_state : string;
  nit_link_state : string;
  nit_addresses : list string;
  nit_rx_bytes : Z;
  nit_tx_bytes : Z;
  nit_loopback : bool;
}.

Definition NetworkInterfaceTelemetry_default : NetworkInterfaceTelemetry := {|
  nit_interface_name := "";
  nit_oper_state := "";
  nit_link_state := "";
  nit_addresses := [];
  nit_rx_bytes := 0;
  nit_tx_bytes := 0;
  nit_loopback := false
|}.

Record PeerDiscoveryTelemetry := mkPeerDiscoveryTelemetry {
  pdt_peer_node_name : string;
  pdt_peer_endpoint : string;
  pdt_cluster_id : string;
  pdt_controller_url : string;
  pdt_controller_fingerprint : string;
  pdt_local_interface : string;
  pdt_remote_address : string;
  pdt_seen_udp : bool;
  pdt_tcp_reachable : bool;
  pdt_rtt_ms : Z;
  pdt_last_seen_at : string;
  pdt_last_probe_at : string;
}.

Definition PeerDiscoveryTelemetry_default : PeerDiscoveryTelemetry := {|
  pdt_peer_node_name := "";
  pdt_peer_endpoint := "";
  pdt_cluster_id := "";
  pdt_controller_url := "";
  pdt_controller_fingerprint := "";
  pdt_local_interface := "";
  pdt_remote_address := "";
  pdt_seen_udp := false;
  pdt_tcp_reachable := false;
  pdt_rtt_ms := 0;
  pdt_last_seen_at := "";
  pdt_last_probe_at := ""
|}.

Record NetworkTelemetrySnapshot := mkNetworkTelemetrySnapshot {
  nts_contract_version : Z;
  nts_degraded : bool;
  nts_source : string;
  nts_collected_at : string;
  nts_interfaces : list NetworkInterfaceTelemetry;
  nts_peer_discovery : list PeerDiscoveryTelemetry;
}.

Definition NetworkTelemetrySnapshot_default : NetworkTelemetrySnapshot := {|
  nts_contract_version := 1;
  nts_degraded := false;
  nts_source := "";
  nts_collected_at := "";
  nts_interfaces := [];
  nts_peer_discovery := []
|}.

Record CpuTelemetrySnapshot := mkCpuTelemetrySnapshot {
  cts_contract_version : Z;
  cts_degraded : bool;
  cts_source : string;
  cts_collected_at : string;
  cts_core_count : Z;
  cts_utilization_pct : double;
  cts_loadavg_1m : double;
  cts_loadavg_5m : double;
  cts_loadavg_15m : double;
  cts_temperature_c : double;
  cts_max_temperature_c : double;
  cts_temperature_available : bool;
  cts_total_memory_bytes : Z;
  cts_available_memory_bytes : Z;
  cts_used_memory_bytes : Z;
}.

Definition CpuTelemetrySnapshot_default : CpuTelemetrySnapshot := {|
  cts_contract_version := 1;
  cts_degraded := false;
  cts_source := "";
  cts_collected_at := "";
  cts_core_count := 0;
  cts_utilization_pct := d0;
  cts_loadavg_1m := d0;
  cts_loadavg_5m := d0;
  cts_loadavg_15m := d0;
  cts_temperature_c := d0;
  cts_max_temperature_c := d0;
  cts_temperature_available := false;
  cts_total_memory_bytes := 0;
  cts_available_memory_bytes := 0;
  cts_used_memory_bytes := 0
|}.

Record HostTelemetryFrame := mkHostTelemetryFrame {
  htf_contract_version : Z;
  htf_schema_version : string;
  htf_channel : string;
  htf_source : string;
  htf_node_name : string;
  htf_node_id : string;
  htf_plane_name : string;
  htf_plane_id : string;
  htf_sampled_at : string;
  htf_collected_at : string;
  htf_expires_at : string;
  htf_sequence : Z;
  htf_monotonic_ms : Z;
  htf_monotonic_timestamp_ms : Z;
  htf_interval_ms : Z;
  htf_ttl_ms : Z;
  htf_lane : string;
  htf_degraded_reason : string;
  htf_collector_duration_ms : Z;
  htf_publish_duration_ms : Z;
  htf_publisher_queue_delay_ms : Z;
  htf_telemetry_bus_depth : Z;
  htf_telemetry_dropped_frames : Z;
  htf_publish_error_count : Z;
  htf_adaptive_interval_ms : Z;
  htf_adaptive_reason : string;
  htf_last_publish_error : string;
  htf_plane_instance_count : Z;
  htf_plane_ready_instance_count : Z;
  htf_plane_not_ready_instance_count : Z;
  htf_plane_runtime_health : string;
  htf_instance_runtime : list RuntimeProcessStatus;
  htf_gpu : GpuTelemetrySnapshot;
  htf_network : NetworkTelemetrySnapshot;
  htf_cpu : CpuTelemetrySnapshot;
  htf_disk : DiskTelemetrySnapshot;
}.

Definition HostTelemetryFrame_default : HostTelemetryFrame := {|
  htf_contract_version := 1;
  htf_schema_version := "host.telemetry.v2";
  htf_channel := "host.telemetry.v1";
  htf_source := "hostd";
  htf_node_name := "";
  htf_node_id := "";
  htf_plane_name := "";
  htf_plane_id := "";
  htf_sampled_at := "";
  htf_collected_at := "";
  htf_expires_at := "";
  htf_sequence := 0;
  htf_monotonic_ms := 0;
  htf_monotonic_timestamp_ms := 0;
  htf_interval_ms := 2000;
  htf_ttl_ms := 10000;
  htf_lane := "fast";
  htf_degraded_reason := "";
  htf_collector_duration_ms := 0;
  htf_publish_duration_ms := 0;
  htf_publisher_queue_delay_ms := 0;
  htf_telemetry_bus_depth := 0;
  htf_telemetry_dropped_frames := 0;
  htf_publish_error_count := 0;
  htf_adaptive_interval_ms := 2000;
  htf_adaptive_reason := "";
  htf_last_publish_error := "";
  htf_plane_instance_count := 0;
  htf_plane_ready_instance_count := 0;
  htf_plane_not_ready_instance_count := 0;
  htf_plane_runtime_health := "unknown";
  htf_instance_runtime := [];
  htf_gpu := GpuTelemetrySnapshot_default;
  htf_network := NetworkTelemetrySnapshot_default;
  htf_cpu := CpuTelemetrySnapshot_default;
  htf_disk := DiskTelemetrySnapshot_default
|}.

Record RuntimeStatus := mkRuntimeStatus {
  rst_plane_name : string;
  rst_control_root : string;
  rst_controller_url : string;
  rst_primary_infer_node : string;
  rst_instance_name : string;
  rst_instance_role : string;
  rst_node_name : string;
  rst_data_parallel_mode : string;
  rst_data_parallel_lb_mode : string;
  rst_runtime_backend : string;
  rst_runtime_phase : string;
  rst_enabled_gpu_nodes : Z;
  rst_data_parallel_size : Z;
  rst_data_parallel_size_local_max : Z;
  rst_replica_groups_expected : Z;
  rst_replica_groups_ready : Z;
  rst_replica_groups_degraded : Z;
  rst_api_endpoints_expected : Z;
  rst_api_endpoints_ready : Z;
  rst_registry_entries : Z;
  rst_supervisor_pid : Z;
  rst_runtime_pid : Z;
  rst_engine_pid : Z;
  rst_aliases : list string;
  rst_active_model_id : string;
  rst_active_served_model_name : string;
  rst_active_runtime_profile : string;
  rst_turboquant_enabled : bool;
  rst_active_cache_type_k : string;
  rst_active_cache_type_v : string;
  rst_status_reason : string;
  rst_failure_detail : string;
  rst_cached_local_model_path : string;
  rst_model_path : string;
  rst_gpu_device : string;
  rst_rpc_endpoint : string;
  rst_gateway_listen : string;
  rst_upstream_models_url : string;
  rst_inference_health_url : string;
  rst_gateway_health_url : string;
  rst_started_at : string;
  rst_last_activity_at : string;
  rst_kv_cache_bytes : option Z;
  rst_ready : bool;
  rst_active_model_ready : bool;
  rst_gateway_plan_ready : bool;
  rst_inference_ready : bool;
  rst_gateway_ready : bool;
  rst_launch_ready : bool;
}.

Definition RuntimeStatus_default : RuntimeStatus := {|
  rst_plane_name := "";
  rst_control_root := "";
  rst_controller_url := "";
  rst_primary_infer_node := "";
  rst_instance_name := "";
  rst_instance_role := "";
  rst_node_name := "";
  rst_data_parallel_mode := "off";
  rst_data_parallel_lb_mode := "external";
  rst_runtime_backend := "";
  rst_runtime_phase := "";
  rst_enabled_gpu_nodes := 0;
  rst_data_parallel_size := 0;
  rst_data_parallel_size_local_max := 0;
  rst_replica_groups_expected := 0;
  rst_replica_groups_ready := 0;
  rst_replica_groups_degraded := 0;
  rst_api_endpoints_expected := 0;
  rst_api_endpoints_ready := 0;
  rst_registry_entries := 0;
  rst_supervisor_pid := 0;
  rst_runtime_pid := 0;
  rst_engine_pid := 0;
  rst_aliases := [];
  rst_active_model_id := "";
  rst_active_served_model_name := "";
  rst_active_runtime_profile := "";
  rst_turboquant_enabled := false;
  rst_active_cache_type_k := "";
  rst_active_cache_type_v := "";
  rst_status_reason := "";
  rst_failure_detail := "";
  rst_cached_local_model_path := "";
  rst_model_path := "";
  rst_gpu_device := "";
  rst_rpc_endpoint := "";
  rst_gateway_listen := "";
  rst_upstream_models_url := "";
  rst_inference_health_url := "";
  rst_gateway_health_url := "";
  rst_started_at := "";
  rst_last_activity_at := "";
  rst_kv_cache_bytes := None;
  rst_ready := false;
  rst_active_model_ready := false;
  rst_gateway_plan_ready := false;
  rst_inference_ready := false;
  rst_gateway_ready := false;
  rst_launch_ready := false
|}.

(** Assignments to the fields of a frame. *)
Definition frame_with_plane_counts (frame : HostTelemetryFrame)
    (count ready not_ready : Z) (health : string) : HostTelemetryFrame :=
  mkHostTelemetryFrame
    (htf_contract_version frame) (htf_schema_version frame) (htf_channel frame) (htf_source
    frame) (htf_node_name frame) (htf_node_id frame) (htf_plane_name frame) (htf_plane_id frame)
    (htf_sampled_at frame) (htf_collected_at frame) (htf_expires_at frame) (htf_sequence frame)
    (htf_monotonic_ms frame) (htf_monotonic_timestamp_ms frame) (htf_interval_ms frame)
    (htf_ttl_ms frame) (htf_lane frame) (htf_degraded_reason frame) (htf_collector_duration_ms
    frame) (htf_publish_duration_ms frame) (htf_publisher_queue_delay_ms frame)
    (htf_telemetry_bus_depth frame) (htf_telemetry_dropped_frames frame)
    (htf_publish_error_count frame) (htf_adaptive_interval_ms frame) (htf_adaptive_reason frame)
    (htf_last_publish_error frame) count ready not_ready health (htf_instance_runtime frame)
    (htf_gpu frame) (htf_network frame) (htf_cpu frame) (htf_disk frame).

Definition frame_with_disk (frame : HostTelemetryFrame) (disk : DiskTelemetrySnapshot)
    : HostTelemetryFrame :=
  mkHostTelemetryFrame
    (htf_contract_version frame) (htf_schema_version frame) (htf_channel frame) (htf_source
    frame) (htf_node_name frame) (htf_node_id frame) (htf_plane_name frame) (htf_plane_id frame)
    (htf_sampled_at frame) (htf_collected_at frame) (htf_expires_at frame) (htf_sequence frame)
    (htf_monotonic_ms frame) (htf_monotonic_timestamp_ms frame) (htf_interval_ms frame)
    (htf_ttl_ms frame) (htf_lane frame) (htf_degraded_reason frame) (htf_collector_duration_ms
    frame) (htf_publish_duration_ms frame) (htf_publisher_queue_delay_ms frame)
    (htf_telemetry_bus_depth frame) (htf_telemetry_dropped_frames frame)
    (htf_publish_error_count frame) (htf_adaptive_interval_ms frame) (htf_adaptive_reason frame)
    (htf_last_publish_error frame) (htf_plane_instance_count frame)
    (htf_plane_ready_instance_count frame) (htf_plane_not_ready_instance_count frame)
    (htf_plane_runtime_health frame) (htf_instance_runtime frame) (htf_gpu frame) (htf_network
    frame) (htf_cpu frame) disk.

Definition frame_with_identity (frame : HostTelemetryFrame)
    (schema_version channel source node_id plane_id : string) (monotonic_timestamp_ms : Z)
    : HostTelemetryFrame :=
  mkHostTelemetryFrame
    (htf_contract_version frame) schema_version channel source (htf_node_name frame) node_id
    (htf_plane_name frame) plane_id (htf_sampled_at frame) (htf_collected_at frame)
    (htf_expires_at frame) (htf_sequence frame) (htf_monotonic_ms frame) monotonic_timestamp_ms
    (htf_interval_ms frame) (htf_ttl_ms frame) (htf_lane frame) (htf_degraded_reason frame)
    (htf_collector_duration_ms frame) (htf_publish_duration_ms frame)
    (htf_publisher_queue_delay_ms frame) (htf_telemetry_bus_depth frame)
    (htf_telemetry_dropped_frames frame) (htf_publish_error_count frame)
    (htf_adaptive_interval_ms frame) (htf_adaptive_reason frame) (htf_last_publish_error frame)
    (htf_plane_instance_count frame) (htf_plane_ready_instance_count frame)
    (htf_plane_not_ready_instance_count frame) (htf_plane_runtime_health frame)
    (htf_instance_runtime frame) (htf_gpu frame) (htf_network frame) (htf_cpu frame) (htf_disk
    frame).

Definition frame_with_scope (frame : HostTelemetryFrame) (plane : string)
    (instance_runtime : list RuntimeProcessStatus)
    (disk : DiskTelemetrySnapshot)
    : HostTelemetryFrame :=
  mkHostTelemetryFrame
    (htf_contract_version frame) (htf_schema_version frame) (htf_channel frame) (htf_source
    frame) (htf_node_name frame) (htf_node_id frame) plane plane (htf_sampled_at frame)
    (htf_collected_at frame) (htf_expires_at frame) (htf_sequence frame) (htf_monotonic_ms
    frame) (htf_monotonic_timestamp_ms frame) (htf_interval_ms frame) (htf_ttl_ms frame)
    (htf_lane frame) (htf_degraded_reason frame) (htf_collector_duration_ms frame)
    (htf_publish_duration_ms frame) (htf_publisher_queue_delay_ms frame)
    (htf_telemetry_bus_depth frame) (htf_telemetry_dropped_frames frame)
    (htf_publish_error_count frame) (htf_adaptive_interval_ms frame) (htf_adaptive_reason frame)
    (htf_last_publish_error frame) (htf_plane_instance_count frame)
    (htf_plane_ready_instance_count frame) (htf_plane_not_ready_instance_count frame)
    (htf_plane_runtime_health frame) instance_runtime (htf_gpu frame) (htf_network frame)
    (htf_cpu frame) disk.

(** ** JSON codecs *)

Section codecs.
Context `{Lib : !JsonLibrary}.

(** The block [if (contains && is_number_unsigned) ... else if (is_number_integer)
    ... raw > 0] of the 64-bit fields of a frame: a negative or missing number
    leaves the default [0].  (The library stores a non-negative integer as
    unsigned or as signed; both branches give the same value.) *)
Definition member_uint64 (value : json) (key : string) : Z :=
  match member value key with Some (JInt raw) => Z.max 0 raw | _ => 0 end.

(** [if (value.contains(key) && value.at(key).is_object()) field = FromJson(...)]. *)
Definition member_object {A} (from_json : json -> result A) (value : json) (key : string) (d : A)
    : result A :=
  match member value key with
  | Some x => if is_object x then from_json x else Ok d
  | None => Ok d
  end.

Definition RuntimeProcessStatus_ToJson (status : RuntimeProcessStatus) : json := JObject [
  ("instance_name", JString (rps_instance_name status));
  ("instance_role", JString (rps_instance_role status));
  ("node_name", JString (rps_node_name status));
  ("model_path", JString (rps_model_path status));
  ("gpu_device", JString (rps_gpu_device status));
  ("runtime_phase", JString (rps_runtime_phase status));
  ("started_at", JString (rps_started_at status));
  ("last_activity_at", JString (rps_last_activity_at status));
  ("runtime_pid", JInt (rps_runtime_pid status));
  ("engine_pid", JInt (rps_engine_pid status));
  ("ready", JBool (rps_ready status));
  ("plane_name", JString (rps_plane_name status))].

Definition RuntimeProcessStatus_FromJson (value : json) : result RuntimeProcessStatus :=
  instance_name ← json_value get_string value "instance_name" "";
  instance_role ← json_value get_string value "instance_role" "";
  node_name ← json_value get_string value "node_name" "";
  model_path ← json_value get_string value "model_path" "";
  gpu_device ← json_value get_string value "gpu_device" "";
  runtime_phase ← json_value get_string value "runtime_phase" "";
  started_at ← json_value get_string value "started_at" "";
  last_activity_at ← json_value get_string value "last_activity_at" "";
  runtime_pid ← json_value get_int value "runtime_pid" 0;
  engine_pid ← json_value get_int value "engine_pid" 0;
  ready ← json_value get_bool value "ready" false;
  plane_name ← json_value get_string value "plane_name" "";
  Ok (mkRuntimeProcessStatus
    instance_name instance_role node_name model_path gpu_device runtime_phase started_at
    last_activity_at runtime_pid engine_pid ready plane_name).

Definition GpuProcessTelemetry_ToJson (process : GpuProcessTelemetry) : json := JObject [
  ("pid", JInt (gpt_pid process));
  ("used_vram_mb", JInt (gpt_used_vram_mb process));
  ("instance_name", JString (gpt_instance_name process))].

Definition GpuProcessTelemetry_FromJson (value : json) : result GpuProcessTelemetry :=
  pid ← json_value get_int value "pid" 0;
  used_vram_mb ← json_value get_int value "used_vram_mb" 0;
  instance_name ← json_value get_string value "instance_name" "unknown";
  Ok (mkGpuProcessTelemetry
    pid used_vram_mb instance_name).

Definition GpuDeviceTelemetry_ToJson (device : GpuDeviceTelemetry) : json := JObject [
  ("gpu_device", JString (gdt_gpu_device device));
  ("total_vram_mb", JInt (gdt_total_vram_mb device));
  ("used_vram_mb", JInt (gdt_used_vram_mb device));
  ("free_vram_mb", JInt (gdt_free_vram_mb device));
  ("gpu_utilization_pct", JInt (gdt_gpu_utilization_pct device));
  ("temperature_c", JInt (gdt_temperature_c device));
  ("temperature_available", JBool (gdt_temperature_available device));
  ("processes", JArray (map GpuProcessTelemetry_ToJson (gdt_processes device)))].

Definition GpuDeviceTelemetry_FromJson (value : json) : result GpuDeviceTelemetry :=
  gpu_device ← json_value get_string value "gpu_device" "";
  total_vram_mb ← json_value get_int value "total_vram_mb" 0;
  used_vram_mb ← json_value get_int value "used_vram_mb" 0;
  free_vram_mb ← json_value get_int value "free_vram_mb" 0;
  gpu_utilization_pct ← json_value get_int value "gpu_utilization_pct" 0;
  temperature_c ← json_value get_int value "temperature_c" 0;
  temperature_available ← json_value get_bool value "temperature_available" false;
  processes_json ← json_value get_json value "processes" (JArray []);
  processes ← mapR GpuProcessTelemetry_FromJson (List.filter is_object (items processes_json));
  Ok (mkGpuDeviceTelemetry
    gpu_device total_vram_mb used_vram_mb free_vram_mb gpu_utilization_pct temperature_c
    temperature_available processes).

Definition GpuTelemetrySnapshot_ToJson (snapshot : GpuTelemetrySnapshot) : json := JObject [
  ("contract_version", JInt (gts_contract_version snapshot));
  ("degraded", JBool (gts_degraded snapshot));
  ("source", JString (gts_source snapshot));
  ("collected_at", JString (gts_collected_at snapshot));
  ("devices", JArray (map GpuDeviceTelemetry_ToJson (gts_devices snapshot)))].

Definition GpuTelemetrySnapshot_FromJson (value : json) : result GpuTelemetrySnapshot :=
  contract_version ← json_value get_int value "contract_version" 1;
  degraded ← json_value get_bool value "degraded" false;
  source ← json_value get_string value "source" "";
  collected_at ← json_value get_string value "collected_at" "";
  devices_json ← json_value get_json value "devices" (JArray []);
  devices ← mapR GpuDeviceTelemetry_FromJson (List.filter is_object (items devices_json));
  Ok (mkGpuTelemetrySnapshot
    contract_version degraded source collected_at devices).

Definition DiskTelemetryRecord_ToJson (record : DiskTelemetryRecord) : json := JObject [
  ("disk_name", JString (dtr_disk_name record));
  ("plane_name", JString (dtr_plane_name record));
  ("node_name", JString (dtr_node_name record));
  ("mount_point", JString (dtr_mount_point record));
  ("mount_source", JString (dtr_mount_source record));
  ("filesystem_type", JString (dtr_filesystem_type record));
  ("runtime_state", JString (dtr_runtime_state record));
  ("health", JString (dtr_health record));
  ("status_message", JString (dtr_status_message record));
  ("total_bytes", JInt (dtr_total_bytes record));
  ("used_bytes", JInt (dtr_used_bytes record));
  ("free_bytes", JInt (dtr_free_bytes record));
  ("read_ios", JInt (dtr_read_ios record));
  ("write_ios", JInt (dtr_write_ios record));
  ("read_bytes", JInt (dtr_read_bytes record));
  ("write_bytes", JInt (dtr_write_bytes record));
  ("io_time_ms", JInt (dtr_io_time_ms record));
  ("weighted_io_time_ms", JInt (dtr_weighted_io_time_ms record));
  ("io_error_count", JInt (dtr_io_error_count record));
  ("io_in_progress", JInt (dtr_io_in_progress record));
  ("warning_count", JInt (dtr_warning_count record));
  ("fault_count", JInt (dtr_fault_count record));
  ("read_only", JBool (dtr_read_only record));
  ("mounted", JBool (dtr_mounted record));
  ("perf_counters_available", JBool (dtr_perf_counters_available record));
  ("io_error_counters_available", JBool (dtr_io_error_counters_available record));
  ("fault_reasons", JArray (map JString (dtr_fault_reasons record)))].

Definition DiskTelemetryRecord_FromJson (value : json) : result DiskTelemetryRecord :=
  disk_name ← json_value get_string value "disk_name" "";
  plane_name ← json_value get_string value "plane_name" "";
  node_name ← json_value get_string value "node_name" "";
  mount_point ← json_value get_string value "mount_point" "";
  mount_source ← json_value get_string value "mount_source" "";
  filesystem_type ← json_value get_string value "filesystem_type" "";
  runtime_state ← json_value get_string value "runtime_state" "";
  health ← json_value get_string value "health" "";
  status_message ← json_value get_string value "status_message" "";
  total_bytes ← json_value get_uint64 value "total_bytes" 0;
  used_bytes ← json_value get_uint64 value "used_bytes" 0;
  free_bytes ← json_value get_uint64 value "free_bytes" 0;
  read_ios ← json_value get_uint64 value "read_ios" 0;
  write_ios ← json_value get_uint64 value "write_ios" 0;
  read_bytes ← json_value get_uint64 value "read_bytes" 0;
  write_bytes ← json_value get_uint64 value "write_bytes" 0;
  io_time_ms ← json_value get_uint64 value "io_time_ms" 0;
  weighted_io_time_ms ← json_value get_uint64 value "weighted_io_time_ms" 0;
  io_error_count ← json_value get_uint64 value "io_error_count" 0;
  io_in_progress ← json_value get_int value "io_in_progress" 0;
  warning_count ← json_value get_int value "warning_count" 0;
  fault_count ← json_value get_int value "fault_count" 0;
  read_only ← json_value get_bool value "read_only" false;
  mounted ← json_value get_bool value "mounted" false;
  perf_counters_available ← json_value get_bool value "perf_counters_available" false;
  io_error_counters_available ← json_value get_bool value "io_error_counters_available" false;
  fault_reasons_json ← json_value get_json value "fault_reasons" (JArray []);
  fault_reasons ← mapR get_string (List.filter is_string (items fault_reasons_json));
  Ok (mkDiskTelemetryRecord
    disk_name plane_name node_name mount_point mount_source filesystem_type runtime_state
    health status_message total_bytes used_bytes free_bytes read_ios write_ios read_bytes
    write_bytes io_time_ms weighted_io_time_ms io_error_count io_in_progress
    warning_count fault_count read_only mounted perf_counters_available
    io_error_counters_available fault_reasons).

Definition DiskTelemetrySnapshot_ToJson (snapshot : DiskTelemetrySnapshot) : json := JObject [
  ("contract_version", JInt (dts_contract_version snapshot));
  ("degraded", JBool (dts_degraded snapshot));
  ("source", JString (dts_source snapshot));
  ("collected_at", JString (dts_collected_at snapshot));
  ("items", JArray (map DiskTelemetryRecord_ToJson (dts_items snapshot)))].

Definition DiskTelemetrySnapshot_FromJson (value : json) : result DiskTelemetrySnapshot :=
  contract_version ← json_value get_int value "contract_version" 1;
  degraded ← json_value get_bool value "degraded" false;
  source ← json_value get_string value "source" "";
  collected_at ← json_value get_string value "collected_at" "";
  items_json ← json_value get_json value "items" (JArray []);
  items ← mapR DiskTelemetryRecord_FromJson (List.filter is_object (items items_json));
  Ok (mkDiskTelemetrySnapshot
    contract_version degraded source collected_at items).

Definition NetworkInterfaceTelemetry_ToJson (interface : NetworkInterfaceTelemetry) : json :=
  JObject [
  ("interface_name", JString (nit_interface_name interface));
  ("oper_state", JString (nit_oper_state interface));
  ("link_state", JString (nit_link_state interface));
  ("addresses", JArray (map JString (nit_addresses interface)));
  ("rx_bytes", JInt (nit_rx_bytes interface));
  ("tx_bytes", JInt (nit_tx_bytes interface));
  ("loopback", JBool (nit_loopback interface))].

Definition NetworkInterfaceTelemetry_FromJson (value : json) : result NetworkInterfaceTelemetry :=
  interface_name ← json_value get_string value "interface_name" "";
  oper_state ← json_value get_string value "oper_state" "";
  link_state ← json_value get_string value "link_state" "";
  addresses_json ← json_value get_json value "addresses" (JArray []);
  addresses ← mapR get_string (List.filter is_string (items addresses_json));
  rx_bytes ← json_value get_uint64 value "rx_bytes" 0;
  tx_bytes ← json_value get_uint64 value "tx_bytes" 0;
  loopback ← json_value get_bool value "loopback" false;
  Ok (mkNetworkInterfaceTelemetry
    interface_name oper_state link_state addresses rx_bytes tx_bytes loopback).

Definition PeerDiscoveryTelemetry_ToJson (peer : PeerDiscoveryTelemetry) : json := JObject [
  ("peer_node_name", JString (pdt_peer_node_name peer));
  ("peer_endpoint", JString (pdt_peer_endpoint peer));
  ("cluster_id", JString (pdt_cluster_id peer));
  ("controller_url", JString (pdt_controller_url peer));
  ("controller_fingerprint", JString (pdt_controller_fingerprint peer));
  ("local_interface", JString (pdt_local_interface peer));
  ("remote_address", JString (pdt_remote_address peer));
  ("seen_udp", JBool (pdt_seen_udp peer));
  ("tcp_reachable", JBool (pdt_tcp_reachable peer));
  ("rtt_ms", JInt (pdt_rtt_ms peer));
  ("last_seen_at", JString (pdt_last_seen_at peer));
  ("last_probe_at", JString (pdt_last_probe_at peer))].

Definition PeerDiscoveryTelemetry_FromJson (value : json) : result PeerDiscoveryTelemetry :=
  peer_node_name ← json_value get_string value "peer_node_name" "";
  peer_endpoint ← json_value get_string value "peer_endpoint" "";
  cluster_id ← json_value get_string value "cluster_id" "";
  controller_url ← json_value get_string value "controller_url" "";
  controller_fingerprint ← json_value get_string value "controller_fingerprint" "";
  local_interface ← json_value get_string value "local_interface" "";
  remote_address ← json_value get_string value "remote_address" "";
  seen_udp ← json_value get_bool value "seen_udp" false;
  tcp_reachable ← json_value get_bool value "tcp_reachable" false;
  rtt_ms ← json_value get_int value "rtt_ms" 0;
  last_seen_at ← json_value get_string value "last_seen_at" "";
  last_probe_at ← json_value get_string value "last_probe_at" "";
  Ok (mkPeerDiscoveryTelemetry
    peer_node_name peer_endpoint cluster_id controller_url controller_fingerprint
    local_interface remote_address seen_udp tcp_reachable rtt_ms last_seen_at
    last_probe_at).

Definition NetworkTelemetrySnapshot_ToJson (snapshot : NetworkTelemetrySnapshot) : json := JObject [
  ("contract_version", JInt (nts_contract_version snapshot));
  ("degraded", JBool (nts_degraded snapshot));
  ("source", JString (nts_source snapshot));
  ("collected_at", JString (nts_collected_at snapshot));
  ("interfaces", JArray (map NetworkInterfaceTelemetry_ToJson (nts_interfaces snapshot)));
  ("peer_discovery", JArray (map PeerDiscoveryTelemetry_ToJson (nts_peer_discovery snapshot)))].

Definition NetworkTelemetrySnapshot_FromJson (value : json) : result NetworkTelemetrySnapshot :=
  contract_version ← json_value get_int value "contract_version" 1;
  degraded ← json_value get_bool value "degraded" false;
  source ← json_value get_string value "source" "";
  collected_at ← json_value get_string value "collected_at" "";
  interfaces_json ← json_value get_json value "interfaces" (JArray []);
  interfaces ← mapR NetworkInterfaceTelemetry_FromJson
    (List.filter is_object (items interfaces_json));
  peer_discovery_json ← json_value get_json value "peer_discovery" (JArray []);
  peer_discovery ← mapR PeerDiscoveryTelemetry_FromJson
    (List.filter is_object (items peer_discovery_json));
  Ok (mkNetworkTelemetrySnapshot
    contract_version degraded source collected_at interfaces peer_discovery).

Definition CpuTelemetrySnapshot_ToJson (snapshot : CpuTelemetrySnapshot) : json := JObject [
  ("contract_version", JInt (cts_contract_version snapshot));
  ("degraded", JBool (cts_degraded snapshot));
  ("source", JString (cts_source snapshot));
  ("collected_at", JString (cts_collected_at snapshot));
  ("core_count", JInt (cts_core_count snapshot));
  ("utilization_pct", JDouble (cts_utilization_pct snapshot));
  ("loadavg_1m", JDouble (cts_loadavg_1m snapshot));
  ("loadavg_5m", JDouble (cts_loadavg_5m snapshot));
  ("loadavg_15m", JDouble (cts_loadavg_15m snapshot));
  ("temperature_c", JDouble (cts_temperature_c snapshot));
  ("max_temperature_c", JDouble (cts_max_temperature_c snapshot));
  ("temperature_available", JBool (cts_temperature_available snapshot));
  ("total_memory_bytes", JInt (cts_total_memory_bytes snapshot));
  ("available_memory_bytes", JInt (cts_available_memory_bytes snapshot));
  ("used_memory_bytes", JInt (cts_used_memory_bytes snapshot))].

Definition CpuTelemetrySnapshot_FromJson (value : json) : result CpuTelemetrySnapshot :=
  contract_version ← json_value get_int value "contract_version" 1;
  degraded ← json_value get_bool value "degraded" false;
  source ← json_value get_string value "source" "";
  collected_at ← json_value get_string value "collected_at" "";
  core_count ← json_value get_int value "core_count" 0;
  utilization_pct ← json_value get_double value "utilization_pct" d0;
  loadavg_1m ← json_value get_double value "loadavg_1m" d0;
  loadavg_5m ← json_value get_double value "loadavg_5m" d0;
  loadavg_15m ← json_value get_double value "loadavg_15m" d0;
  temperature_c ← json_value get_double value "temperature_c" d0;
  max_temperature_c ← json_value get_double value "max_temperature_c" d0;
  temperature_available ← json_value get_bool value "temperature_available" false;
  total_memory_bytes ← json_value get_uint64 value "total_memory_bytes" 0;
  available_memory_bytes ← json_value get_uint64 value "available_memory_bytes" 0;
  used_memory_bytes ← json_value get_uint64 value "used_memory_bytes" 0;
  Ok (mkCpuTelemetrySnapshot
    contract_version degraded source collected_at core_count utilization_pct loadavg_1m
    loadavg_5m loadavg_15m temperature_c max_temperature_c temperature_available
    total_memory_bytes available_memory_bytes used_memory_bytes).

(** The closing block of [HostTelemetryFrameFromJson]: a frame without an
    instance count gets its counts from its instances.  The ready counter goes on
    from the value that was read; the subtraction is in 64-bit arithmetic. *)
Definition derive_plane_counts (frame : HostTelemetryFrame) : HostTelemetryFrame :=
  if (htf_plane_instance_count frame =? 0) && negb (vec_empty (htf_instance_runtime frame)) then
    let count := Z.of_nat (length (htf_instance_runtime frame)) in
    let ready := foldl (fun n status => if rps_ready status then uint64_wrap (n + 1) else n)
                   (htf_plane_ready_instance_count frame) (htf_instance_runtime frame) in
    let not_ready := uint64_wrap (count - ready) in
    frame_with_plane_counts frame count ready not_ready
      (if 0 <? not_ready then "changing" else "ready")
  else frame.

Definition HostTelemetryFrame_ToJson (frame : HostTelemetryFrame) : json := JObject [
  ("contract_version", JInt (htf_contract_version frame));
  ("schema_version", JString (htf_schema_version frame));
  ("channel", JString (htf_channel frame));
  ("source", JString (htf_source frame));
  ("node_name", JString (htf_node_name frame));
  ("node_id",
   JString (if str_empty (htf_node_id frame) then htf_node_name frame else htf_node_id frame));
  ("plane_name", JString (htf_plane_name frame));
  ("plane_id",
   JString (if str_empty (htf_plane_id frame) then htf_plane_name frame else htf_plane_id frame));
  ("sampled_at", JString (htf_sampled_at frame));
  ("collected_at", JString (htf_collected_at frame));
  ("expires_at", JString (htf_expires_at frame));
  ("sequence", JInt (htf_sequence frame));
  ("monotonic_ms", JInt (htf_monotonic_ms frame));
  ("monotonic_timestamp_ms",
   JInt (if 0 <? htf_monotonic_timestamp_ms frame then htf_monotonic_timestamp_ms frame
         else htf_monotonic_ms frame));
  ("interval_ms", JInt (htf_interval_ms frame));
  ("ttl_ms", JInt (htf_ttl_ms frame));
  ("lane", JString (htf_lane frame));
  ("degraded_reason", JString (htf_degraded_reason frame));
  ("collector_duration_ms", JInt (htf_collector_duration_ms frame));
  ("publish_duration_ms", JInt (htf_publish_duration_ms frame));
  ("publisher_queue_delay_ms", JInt (htf_publisher_queue_delay_ms frame));
  ("telemetry_bus_depth", JInt (htf_telemetry_bus_depth frame));
  ("telemetry_dropped_frames", JInt (htf_telemetry_dropped_frames frame));
  ("publish_error_count", JInt (htf_publish_error_count frame));
  ("adaptive_interval_ms", JInt (htf_adaptive_interval_ms frame));
  ("adaptive_reason", JString (htf_adaptive_reason frame));
  ("last_publish_error", JString (htf_last_publish_error frame));
  ("plane_instance_count", JInt (htf_plane_instance_count frame));
  ("plane_ready_instance_count", JInt (htf_plane_ready_instance_count frame));
  ("plane_not_ready_instance_count", JInt (htf_plane_not_ready_instance_count frame));
  ("plane_runtime_health", JString (htf_plane_runtime_health frame));
  ("instance_runtime", JArray (map RuntimeProcessStatus_ToJson (htf_instance_runtime frame)));
  ("gpu", GpuTelemetrySnapshot_ToJson (htf_gpu frame));
  ("network", NetworkTelemetrySnapshot_ToJson (htf_network frame));
  ("cpu", CpuTelemetrySnapshot_ToJson (htf_cpu frame));
  ("disk", DiskTelemetrySnapshot_ToJson (htf_disk frame))].

Definition HostTelemetryFrame_FromJson (value : json) : result HostTelemetryFrame :=
  contract_version ← json_value get_int value "contract_version" 1;
  schema_version ← json_value get_string value "schema_version" "host.telemetry.v2";
  channel ← json_value get_string value "channel" "host.telemetry.v1";
  source ← json_value get_string value "source" "hostd";
  node_name ← json_value get_string value "node_name" "";
  node_id ← json_value get_string value "node_id" node_name;
  plane_name ← json_value get_string value "plane_name" "";
  plane_id ← json_value get_string value "plane_id" plane_name;
  sampled_at ← json_value get_string value "sampled_at" "";
  collected_at ← json_value get_string value "collected_at" sampled_at;
  expires_at ← json_value get_string value "expires_at" "";
  let sequence := member_uint64 value "sequence" in
  let monotonic_ms := member_uint64 value "monotonic_ms" in
  let monotonic_timestamp_ms := member_uint64 value "monotonic_timestamp_ms" in
  let monotonic_timestamp_ms :=
    if monotonic_timestamp_ms =? 0 then monotonic_ms else monotonic_timestamp_ms in
  interval_ms ← json_value get_int value "interval_ms" 2000;
  ttl_ms ← json_value get_int value "ttl_ms" 10000;
  lane ← json_value get_string value "lane" "fast";
  degraded_reason ← json_value get_string value "degraded_reason" "";
  collector_duration_ms ← json_value get_uint64 value "collector_duration_ms" 0;
  publish_duration_ms ← json_value get_uint64 value "publish_duration_ms" 0;
  publisher_queue_delay_ms ← json_value get_uint64 value "publisher_queue_delay_ms" 0;
  telemetry_bus_depth ← json_value get_uint64 value "telemetry_bus_depth" 0;
  telemetry_dropped_frames ← json_value get_uint64 value "telemetry_dropped_frames" 0;
  publish_error_count ← json_value get_uint64 value "publish_error_count" 0;
  adaptive_interval_ms ← json_value get_int value "adaptive_interval_ms" interval_ms;
  adaptive_reason ← json_value get_string value "adaptive_reason" "";
  last_publish_error ← json_value get_string value "last_publish_error" "";
  plane_instance_count ← json_value get_uint64 value "plane_instance_count" 0;
  plane_ready_instance_count ← json_value get_uint64 value "plane_ready_instance_count" 0;
  plane_not_ready_instance_count ← json_value get_uint64 value "plane_not_ready_instance_count" 0;
  plane_runtime_health ← json_value get_string value "plane_runtime_health" "unknown";
  instance_runtime_json ← json_value get_json value "instance_runtime" (JArray []);
  instance_runtime ← mapR RuntimeProcessStatus_FromJson
    (List.filter is_object (items instance_runtime_json));
  gpu ← member_object GpuTelemetrySnapshot_FromJson value "gpu" GpuTelemetrySnapshot_default;
  network ← member_object NetworkTelemetrySnapshot_FromJson
    value "network" NetworkTelemetrySnapshot_default;
  cpu ← member_object CpuTelemetrySnapshot_FromJson value "cpu" CpuTelemetrySnapshot_default;
  disk ← member_object DiskTelemetrySnapshot_FromJson value "disk" DiskTelemetrySnapshot_default;
  Ok (derive_plane_counts (mkHostTelemetryFrame
    contract_version schema_version channel source node_name node_id plane_name plane_id
    sampled_at collected_at expires_at sequence monotonic_ms monotonic_timestamp_ms
    interval_ms ttl_ms lane degraded_reason collector_duration_ms publish_duration_ms
    publisher_queue_delay_ms telemetry_bus_depth telemetry_dropped_frames
    publish_error_count adaptive_interval_ms adaptive_reason last_publish_error
    plane_instance_count plane_ready_instance_count plane_not_ready_instance_count
    plane_runtime_health instance_runtime gpu network cpu disk)).

Definition RuntimeStatus_ToJson (status : RuntimeStatus) : json := JObject [
  ("plane_name", JString (rst_plane_name status));
  ("control_root", JString (rst_control_root status));
  ("controller_url", JString (rst_controller_url status));
  ("primary_infer_node", JString (rst_primary_infer_node status));
  ("instance_name", JString (rst_instance_name status));
  ("instance_role", JString (rst_instance_role status));
  ("node_name", JString (rst_node_name status));
  ("data_parallel_mode", JString (rst_data_parallel_mode status));
  ("data_parallel_lb_mode", JString (rst_data_parallel_lb_mode status));
  ("runtime_backend", JString (rst_runtime_backend status));
  ("runtime_phase", JString (rst_runtime_phase status));
  ("enabled_gpu_nodes", JInt (rst_enabled_gpu_nodes status));
  ("data_parallel_size", JInt (rst_data_parallel_size status));
  ("data_parallel_size_local_max", JInt (rst_data_parallel_size_local_max status));
  ("replica_groups_expected", JInt (rst_replica_groups_expected status));
  ("replica_groups_ready", JInt (rst_replica_groups_ready status));
  ("replica_groups_degraded", JInt (rst_replica_groups_degraded status));
  ("api_endpoints_expected", JInt (rst_api_endpoints_expected status));
  ("api_endpoints_ready", JInt (rst_api_endpoints_ready status));
  ("registry_entries", JInt (rst_registry_entries status));
  ("supervisor_pid", JInt (rst_supervisor_pid status));
  ("runtime_pid", JInt (rst_runtime_pid status));
  ("engine_pid", JInt (rst_engine_pid status));
  ("aliases", JArray (map JString (rst_aliases status)));
  ("active_model_id", JString (rst_active_model_id status));
  ("active_served_model_name", JString (rst_active_served_model_name status));
  ("active_runtime_profile", JString (rst_active_runtime_profile status));
  ("turboquant_enabled", JBool (rst_turboquant_enabled status));
  ("active_cache_type_k", JString (rst_active_cache_type_k status));
  ("active_cache_type_v", JString (rst_active_cache_type_v status));
  ("status_reason", JString (rst_status_reason status));
  ("failure_detail", JString (rst_failure_detail status));
  ("cached_local_model_path", JString (rst_cached_local_model_path status));
  ("model_path", JString (rst_model_path status));
  ("gpu_device", JString (rst_gpu_device status));
  ("rpc_endpoint", JString (rst_rpc_endpoint status));
  ("gateway_listen", JString (rst_gateway_listen status));
  ("upstream_models_url", JString (rst_upstream_models_url status));
  ("inference_health_url", JString (rst_inference_health_url status));
  ("gateway_health_url", JString (rst_gateway_health_url status));
  ("started_at", JString (rst_started_at status));
  ("last_activity_at", JString (rst_last_activity_at status));
  ("kv_cache_bytes",
   match rst_kv_cache_bytes status with Some bytes => JInt bytes | None => JNull end);
  ("ready", JBool (rst_ready status));
  ("active_model_ready", JBool (rst_active_model_ready status));
  ("gateway_plan_ready", JBool (rst_gateway_plan_ready status));
  ("inference_ready", JBool (rst_inference_ready status));
  ("gateway_ready", JBool (rst_gateway_ready status));
  ("launch_ready", JBool (rst_launch_ready status))].

Definition RuntimeStatus_FromJson (value : json) : result RuntimeStatus :=
  plane_name ← json_value get_string value "plane_name" "";
  control_root ← json_value get_string value "control_root" "";
  controller_url ← json_value get_string value "controller_url" "";
  primary_infer_node ← json_value get_string value "primary_infer_node" "";
  instance_name ← json_value get_string value "instance_name" "";
  instance_role ← json_value get_string value "instance_role" "";
  node_name ← json_value get_string value "node_name" "";
  data_parallel_mode ← json_value get_string value "data_parallel_mode" "off";
  data_parallel_lb_mode ← json_value get_string value "data_parallel_lb_mode" "external";
  runtime_backend ← json_value get_string value "runtime_backend" "";
  runtime_phase ← json_value get_string value "runtime_phase" "";
  enabled_gpu_nodes ← json_value get_int value "enabled_gpu_nodes" 0;
  data_parallel_size ← json_value get_int value "data_parallel_size" 0;
  data_parallel_size_local_max ← json_value get_int value "data_parallel_size_local_max" 0;
  replica_groups_expected ← json_value get_int value "replica_groups_expected" 0;
  replica_groups_ready ← json_value get_int value "replica_groups_ready" 0;
  replica_groups_degraded ← json_value get_int value "replica_groups_degraded" 0;
  api_endpoints_expected ← json_value get_int value "api_endpoints_expected" 0;
  api_endpoints_ready ← json_value get_int value "api_endpoints_ready" 0;
  registry_entries ← json_value get_int value "registry_entries" 0;
  supervisor_pid ← json_value get_int value "supervisor_pid" 0;
  runtime_pid ← json_value get_int value "runtime_pid" 0;
  engine_pid ← json_value get_int value "engine_pid" 0;
  aliases ← json_value get_strings value "aliases" [];
  active_model_id ← json_value get_string value "active_model_id" "";
  active_served_model_name ← json_value get_string value "active_served_model_name" "";
  active_runtime_profile ← json_value get_string value "active_runtime_profile" "";
  turboquant_enabled ← json_value get_bool value "turboquant_enabled" false;
  active_cache_type_k ← json_value get_string value "active_cache_type_k" "";
  active_cache_type_v ← json_value get_string value "active_cache_type_v" "";
  status_reason ← json_value get_string value "status_reason" "";
  failure_detail ← json_value get_string value "failure_detail" "";
  cached_local_model_path ← json_value get_string value "cached_local_model_path" "";
  model_path ← json_value get_string value "model_path" "";
  gpu_device ← json_value get_string value "gpu_device" "";
  rpc_endpoint ← json_value get_string value "rpc_endpoint" "";
  gateway_listen ← json_value get_string value "gateway_listen" "";
  upstream_models_url ← json_value get_string value "upstream_models_url" "";
  inference_health_url ← json_value get_string value "inference_health_url" "";
  gateway_health_url ← json_value get_string value "gateway_health_url" "";
  started_at ← json_value get_string value "started_at" "";
  last_activity_at ← json_value get_string value "last_activity_at" "";
  let kv_cache_bytes :=
    match member value "kv_cache_bytes" with
    | Some (JInt raw) => if 0 <=? raw then Some raw else None
    | _ => None
    end in
  ready ← json_value get_bool value "ready" false;
  active_model_ready ← json_value get_bool value "active_model_ready" false;
  gateway_plan_ready ← json_value get_bool value "gateway_plan_ready" false;
  inference_ready ← json_value get_bool value "inference_ready" false;
  gateway_ready ← json_value get_bool value "gateway_ready" false;
  launch_ready ← json_value get_bool value "launch_ready" false;
  Ok (mkRuntimeStatus
    plane_name control_root controller_url primary_infer_node instance_name instance_role
    node_name data_parallel_mode data_parallel_lb_mode runtime_backend runtime_phase
    enabled_gpu_nodes data_parallel_size data_parallel_size_local_max
    replica_groups_expected replica_groups_ready replica_groups_degraded
    api_endpoints_expected api_endpoints_ready registry_entries supervisor_pid
    runtime_pid engine_pid aliases active_model_id active_served_model_name
    active_runtime_profile turboquant_enabled active_cache_type_k active_cache_type_v
    status_reason failure_detail cached_local_model_path model_path gpu_device
    rpc_endpoint gateway_listen upstream_models_url inference_health_url
    gateway_health_url started_at last_activity_at kv_cache_bytes ready
    active_model_ready gateway_plan_ready inference_ready gateway_ready launch_ready).

(** ** Text codecs *)

Definition Serialize {A} (to_json : A -> json) (x : A) : result string := dump (to_json x).
Definition Deserialize {A} (from_json : json -> result A) (text : string) : result A :=
  value ← parse text; from_json value.

Definition SerializeHostTelemetryFrameJson := Serialize HostTelemetryFrame_ToJson.
Definition DeserializeHostTelemetryFrameJson := Deserialize HostTelemetryFrame_FromJson.
Definition SerializeRuntimeStatusJson := Serialize RuntimeStatus_ToJson.
Definition DeserializeRuntimeStatusJson := Deserialize RuntimeStatus_FromJson.
Definition SerializeGpuTelemetryJson := Serialize GpuTelemetrySnapshot_ToJson.
Definition DeserializeGpuTelemetryJson := Deserialize GpuTelemetrySnapshot_FromJson.
Definition SerializeDiskTelemetryJson := Serialize DiskTelemetrySnapshot_ToJson.
Definition DeserializeDiskTelemetryJson := Deserialize DiskTelemetrySnapshot_FromJson.
Definition SerializeNetworkTelemetryJson := Serialize NetworkTelemetrySnapshot_ToJson.
Definition DeserializeNetworkTelemetryJson := Deserialize NetworkTelemetrySnapshot_FromJson.
Definition SerializeCpuTelemetryJson := Serialize CpuTelemetrySnapshot_ToJson.
Definition DeserializeCpuTelemetryJson := Deserialize CpuTelemetrySnapshot_FromJson.

Definition SerializeRuntimeStatusListJson (statuses : list RuntimeProcessStatus) : result string :=
  dump (JArray (map RuntimeProcessStatus_ToJson statuses)).
Definition DeserializeRuntimeStatusListJson (text : string) : result (list RuntimeProcessStatus) :=
  value ← parse text;
  mapR RuntimeProcessStatus_FromJson (List.filter is_object (items value)).

(** ** [RuntimeStatusFileStore] *)

Definition Load (files : gmap string string) (path : string) : result (option RuntimeStatus) :=
  match files !! path with
  | None => Ok None
  | Some text =>
      if is_blank text then Ok None
      else match parse text with
           | Throw _ => Ok None
           | Ok value => status ← RuntimeStatus_FromJson value; Ok (Some status)
           end
  end.

(** The file is truncated before the status is serialised: when the library
    throws, an empty file stays behind. *)
Definition Save (files : gmap string string) (status : RuntimeStatus) (path : string)
    : gmap string string * result unit :=
  let files := <[path := EmptyString]> files in
  match SerializeRuntimeStatusJson status with
  | Ok text => (<[path := text +:+ newline]> files, Ok ())
  | Throw e => (files, Throw e)
  end.
End codecs.

(** ** Values of the C++ types *)

Definition int_ok (z : Z) : bool := (int_min <=? z) && (z <=? int_max).
Definition uint64_ok (z : Z) : bool := (0 <=? z) && (z <? 2 ^ 64).

Definition RuntimeProcessStatus_ok (status : RuntimeProcessStatus) : bool :=
  int_ok (rps_runtime_pid status) &&
  int_ok (rps_engine_pid status).

Definition GpuProcessTelemetry_ok (process : GpuProcessTelemetry) : bool :=
  int_ok (gpt_pid process) &&
  int_ok (gpt_used_vram_mb process).

Definition GpuDeviceTelemetry_ok (device : GpuDeviceTelemetry) : bool :=
  int_ok (gdt_total_vram_mb device) &&
  int_ok (gdt_used_vram_mb device) &&
  int_ok (gdt_free_vram_mb device) &&
  int_ok (gdt_gpu_utilization_pct device) &&
  int_ok (gdt_temperature_c device) &&
  forallb GpuProcessTelemetry_ok (gdt_processes device).

Definition GpuTelemetrySnapshot_ok (snapshot : GpuTelemetrySnapshot) : bool :=
  int_ok (gts_contract_version snapshot) &&
  forallb GpuDeviceTelemetry_ok (gts_devices snapshot).

Definition DiskTelemetryRecord_ok (record : DiskTelemetryRecord) : bool :=
  uint64_ok (dtr_total_bytes record) &&
  uint64_ok (dtr_used_bytes record) &&
  uint64_ok (dtr_free_bytes record) &&
  uint64_ok (dtr_read_ios record) &&
  uint64_ok (dtr_write_ios record) &&
  uint64_ok (dtr_read_bytes record) &&
  uint64_ok (dtr_write_bytes record) &&
  uint64_ok (dtr_io_time_ms record) &&
  uint64_ok (dtr_weighted_io_time_ms record) &&
  uint64_ok (dtr_io_error_count record) &&
  int_ok (dtr_io_in_progress record) &&
  int_ok (dtr_warning_count record) &&
  int_ok (dtr_fault_count record).

Definition DiskTelemetrySnapshot_ok (snapshot : DiskTelemetrySnapshot) : bool :=
  int_ok (dts_contract_version snapshot) &&
  forallb DiskTelemetryRecord_ok (dts_items snapshot).

Definition NetworkInterfaceTelemetry_ok (interface : NetworkInterfaceTelemetry) : bool :=
  uint64_ok (nit_rx_bytes interface) &&
  uint64_ok (nit_tx_bytes interface).

Definition PeerDiscoveryTelemetry_ok (peer : PeerDiscoveryTelemetry) : bool :=
  int_ok (pdt_rtt_ms peer).

Definition NetworkTelemetrySnapshot_ok (snapshot : NetworkTelemetrySnapshot) : bool :=
  int_ok (nts_contract_version snapshot) &&
  forallb NetworkInterfaceTelemetry_ok (nts_interfaces snapshot) &&
  forallb PeerDiscoveryTelemetry_ok (nts_peer_discovery snapshot).

Definition CpuTelemetrySnapshot_ok (snapshot : CpuTelemetrySnapshot) : bool :=
  int_ok (cts_contract_version snapshot) &&
  int_ok (cts_core_count snapshot) &&
  double_ok (cts_utilization_pct snapshot) &&
  double_ok (cts_loadavg_1m snapshot) &&
  double_ok (cts_loadavg_5m snapshot) &&
  double_ok (cts_loadavg_15m snapshot) &&
  double_ok (cts_temperature_c snapshot) &&
  double_ok (cts_max_temperature_c snapshot) &&
  uint64_ok (cts_total_memory_bytes snapshot) &&
  uint64_ok (cts_available_memory_bytes snapshot) &&
  uint64_ok (cts_used_memory_bytes snapshot).

Definition HostTelemetryFrame_ok (frame : HostTelemetryFrame) : bool :=
  int_ok (htf_contract_version frame) &&
  uint64_ok (htf_sequence frame) &&
  uint64_ok (htf_monotonic_ms frame) &&
  uint64_ok (htf_monotonic_timestamp_ms frame) &&
  int_ok (htf_interval_ms frame) &&
  int_ok (htf_ttl_ms frame) &&
  uint64_ok (htf_collector_duration_ms frame) &&
  uint64_ok (htf_publish_duration_ms frame) &&
  uint64_ok (htf_publisher_queue_delay_ms frame) &&
  uint64_ok (htf_telemetry_bus_depth frame) &&
  uint64_ok (htf_telemetry_dropped_frames frame) &&
  uint64_ok (htf_publish_error_count frame) &&
  int_ok (htf_adaptive_interval_ms frame) &&
  uint64_ok (htf_plane_instance_count frame) &&
  uint64_ok (htf_plane_ready_instance_count frame) &&
  uint64_ok (htf_plane_not_ready_instance_count frame) &&
  forallb RuntimeProcessStatus_ok (htf_instance_runtime frame) &&
  GpuTelemetrySnapshot_ok (htf_gpu frame) &&
  NetworkTelemetrySnapshot_ok (htf_network frame) &&
  CpuTelemetrySnapshot_ok (htf_cpu frame) &&
  DiskTelemetrySnapshot_ok (htf_disk frame).

Definition RuntimeStatus_ok (status : RuntimeStatus) : bool :=
  int_ok (rst_enabled_gpu_nodes status) &&
  int_ok (rst_data_parallel_size status) &&
  int_ok (rst_data_parallel_size_local_max status) &&
  int_ok (rst_replica_groups_expected status) &&
  int_ok (rst_replica_groups_ready status) &&
  int_ok (rst_replica_groups_degraded status) &&
  int_ok (rst_api_endpoints_expected status) &&
  int_ok (rst_api_endpoints_ready status) &&
  int_ok (rst_registry_entries status) &&
  int_ok (rst_supervisor_pid status) &&
  int_ok (rst_runtime_pid status) &&
  int_ok (rst_engine_pid status) &&
  match rst_kv_cache_bytes status with Some z => uint64_ok z | None => true end.

(** ** What a codec promises *)

(** Decoding what the library parses from an encoded value gives it back. *)
Class JsonCodec `{!JsonLibrary} {A} (to_json : A -> json) (from_json : json -> result A)
    (ok : A -> bool) := {
  codec_object : forall x, is_object (to_json x) = true;
  codec_json_ok : forall x, ok x = true -> json_ok (to_json x) = true;
  codec_roundtrip : forall x, ok x = true -> from_json (canon (to_json x)) = Ok x;
}.

Section codec_lemmas.
Context `{Lib : !JsonLibrary}.

Lemma int_ok_json z : int_ok z = true -> json_int_ok z = true.
Proof. unfold int_ok, json_int_ok, int_min, int_max. lia. Qed.
Lemma uint64_ok_json z : uint64_ok z = true -> json_int_ok z = true.
Proof. unfold uint64_ok, json_int_ok. lia. Qed.
Lemma get_int_ok z : int_ok z = true -> get_int (JInt z) = Ok z.
Proof. intros H. apply get_int_law. unfold int_ok in H. lia. Qed.
Lemma get_uint64_ok z : uint64_ok z = true -> get_uint64 (JInt z) = Ok z.
Proof. intros H. apply get_uint64_law. unfold uint64_ok in H. lia. Qed.

(** Reading back a vector of strings, element by element. *)
Lemma strings_roundtrip l :
  mapR get_string (List.filter is_string (items (JArray (map JString l)))) = Ok l.
Proof.
  rewrite items_array. apply mapR_Forall2.
  induction l as [|s l IH]; cbn; constructor; [apply get_string_law | done].
Qed.

Section vectors.
Context {A : Type} (to_json : A -> json) (from_json : json -> result A) (ok : A -> bool).
Context `{Codec : !JsonCodec to_json from_json ok}.

(** Reading back a vector of structs. *)
Lemma vector_roundtrip l :
  forallb ok l = true ->
  mapR from_json (List.filter is_object (items (canon (JArray (map to_json l))))) = Ok l.
Proof.
  intros Hok. cbn. rewrite items_array. apply mapR_Forall2.
  induction l as [|x l IH]; cbn in *; [constructor|].
  apply andb_true_iff in Hok as [Hx Hl].
  rewrite is_object_canon, codec_object. constructor; [by apply codec_roundtrip | auto].
Qed.

Lemma vector_json_ok l : forallb ok l = true -> forallb json_ok (map to_json l) = true.
Proof.
  rewrite !forallb_forall. intros Hok j (x & <- & Hx)%in_map_iff.
  apply codec_json_ok. auto.
Qed.

(** The text codec of a struct. *)
Lemma text_roundtrip x t :
  ok x = true -> Serialize to_json x = Ok t -> Deserialize from_json t = Ok x.
Proof.
  unfold Serialize, Deserialize. intros Hok Hd.
  rewrite (parse_dump _ _ (codec_json_ok _ Hok) Hd). by apply codec_roundtrip.
Qed.
End vectors.
End codec_lemmas.

(** ** The codecs of the structs *)

Create HintDb codec.
#[export] Hint Resolve int_ok_json uint64_ok_json strings_json_ok : codec.
#[export] Hint Extern 3 (forallb json_ok (map _ _) = true) =>
  eapply vector_json_ok; [exact _ | assumption] : codec.

(** Splits [<Struct>_ok x = true] into the facts about its fields. *)
Ltac split_ok H :=
  repeat match type of H with
  | _ && _ = true => let H2 := fresh "Hok" in apply andb_true_iff in H as [H H2]
  end.

Lemma bind_ok {A B} (x : A) (f : A -> result B) : (Ok x ≫= f) = f x.
Proof. done. Qed.

Ltac solve_keys := apply (bool_decide_unpack _); vm_compute; exact I.

(** Names the parsed object [v] and keeps only what reading its members gives. *)
Ltac name_object v Hv Hm :=
  match goal with
  | |- context [canon (JObject ?f)] =>
      let Hnd := fresh in
      assert (NoDup f.*1) as Hnd by solve_keys;
      pose proof (fun A (get : json -> result A) key d => json_value_canon get f key d Hnd) as Hv;
      pose proof (fun key => member_canon f key Hnd) as Hm;
      clear Hnd;
      set (v := canon (JObject f)) in *; clearbody v
  end.

(** The value under a key of the encoded object, by the law of its type. *)
Ltac read_value :=
  cbn [assoc String.eqb Ascii.eqb Bool.eqb fmap option_fmap option_map];
  repeat match goal with
  | |- context [canon ?j] =>
      match j with JString _ => idtac | JInt _ => idtac | JBool _ => idtac | JDouble _ => idtac end;
      change (canon j) with j
  end;
  rewrite ?get_string_law, ?get_bool_law, ?get_double_law, ?get_json_law, ?canon_strings, ?get_strings_law,
    ?strings_roundtrip;
  rewrite ?get_int_ok, ?get_uint64_ok by assumption.

(** Runs the reads at the head of a decoder. *)
Ltac read_members v Hv Hm :=
  repeat
    (first
       [ match goal with
         | |- (json_value ?g v ?k ?d ≫= _) = _ => rewrite (Hv _ g k d); read_value
         end
       | rewrite strings_roundtrip
       | match goal with
         | |- (mapR ?from (List.filter _ (items (canon (JArray (map ?to ?l))))) ≫= _) = _ =>
             rewrite (vector_roundtrip to from _ l) by eassumption
         end ];
     rewrite bind_ok; cbv beta).

Tactic Notation "solve_codec" reference(from_json) reference(to_json) reference(ok) :=
  let x := fresh "x" in let H := fresh "H" in
  split; [done | |];
  intros x H; unfold ok in H; split_ok H;
  [ unfold to_json; cbn [json_ok forallb snd]; rewrite ?andb_true_iff;
    repeat split; auto with codec
  | let v := fresh "v" in let Hv := fresh "Hv" in let Hm := fresh "Hm" in
    unfold from_json, to_json; name_object v Hv Hm; read_members v Hv Hm; by destruct x ].

Section codec_instances.
Context `{Lib : !JsonLibrary}.

#[export] Instance RuntimeProcessStatus_codec :
  JsonCodec RuntimeProcessStatus_ToJson RuntimeProcessStatus_FromJson
    RuntimeProcessStatus_ok.
Proof.
  solve_codec RuntimeProcessStatus_FromJson RuntimeProcessStatus_ToJson
    RuntimeProcessStatus_ok.
Qed.
#[export] Instance GpuProcessTelemetry_codec :
  JsonCodec GpuProcessTelemetry_ToJson GpuProcessTelemetry_FromJson
    GpuProcessTelemetry_ok.
Proof.
  solve_codec GpuProcessTelemetry_FromJson GpuProcessTelemetry_ToJson
    GpuProcessTelemetry_ok.
Qed.
#[export] Instance GpuDeviceTelemetry_codec :
  JsonCodec GpuDeviceTelemetry_ToJson GpuDeviceTelemetry_FromJson
    GpuDeviceTelemetry_ok.
Proof.
  solve_codec GpuDeviceTelemetry_FromJson GpuDeviceTelemetry_ToJson
    GpuDeviceTelemetry_ok.
Qed.
#[export] Instance GpuTelemetrySnapshot_codec :
  JsonCodec GpuTelemetrySnapshot_ToJson GpuTelemetrySnapshot_FromJson
    GpuTelemetrySnapshot_ok.
Proof.
  solve_codec GpuTelemetrySnapshot_FromJson GpuTelemetrySnapshot_ToJson
    GpuTelemetrySnapshot_ok.
Qed.
#[export] Instance DiskTelemetryRecord_codec :
  JsonCodec DiskTelemetryRecord_ToJson DiskTelemetryRecord_FromJson
    DiskTelemetryRecord_ok.
Proof.
  solve_codec DiskTelemetryRecord_FromJson DiskTelemetryRecord_ToJson
    DiskTelemetryRecord_ok.
Qed.
#[export] Instance DiskTelemetrySnapshot_codec :
  JsonCodec DiskTelemetrySnapshot_ToJson DiskTelemetrySnapshot_FromJson
    DiskTelemetrySnapshot_ok.
Proof.
  solve_codec DiskTelemetrySnapshot_FromJson DiskTelemetrySnapshot_ToJson
    DiskTelemetrySnapshot_ok.
Qed.
#[export] Instance NetworkInterfaceTelemetry_codec :
  JsonCodec NetworkInterfaceTelemetry_ToJson NetworkInterfaceTelemetry_FromJson
    NetworkInterfaceTelemetry_ok.
Proof.
  solve_codec NetworkInterfaceTelemetry_FromJson NetworkInterfaceTelemetry_ToJson
    NetworkInterfaceTelemetry_ok.
Qed.
#[export] Instance PeerDiscoveryTelemetry_codec :
  JsonCodec PeerDiscoveryTelemetry_ToJson PeerDiscoveryTelemetry_FromJson
    PeerDiscoveryTelemetry_ok.
Proof.
  solve_codec PeerDiscoveryTelemetry_FromJson PeerDiscoveryTelemetry_ToJson
    PeerDiscoveryTelemetry_ok.
Qed.
#[export] Instance NetworkTelemetrySnapshot_codec :
  JsonCodec NetworkTelemetrySnapshot_ToJson NetworkTelemetrySnapshot_FromJson
    NetworkTelemetrySnapshot_ok.
Proof.
  solve_codec NetworkTelemetrySnapshot_FromJson NetworkTelemetrySnapshot_ToJson
    NetworkTelemetrySnapshot_ok.
Qed.
#[export] Instance CpuTelemetrySnapshot_codec :
  JsonCodec CpuTelemetrySnapshot_ToJson CpuTelemetrySnapshot_FromJson
    CpuTelemetrySnapshot_ok.
Proof.
  solve_codec CpuTelemetrySnapshot_FromJson CpuTelemetrySnapshot_ToJson
    CpuTelemetrySnapshot_ok.
Qed.

#[export] Instance RuntimeStatus_codec :
  JsonCodec RuntimeStatus_ToJson RuntimeStatus_FromJson RuntimeStatus_ok.
Proof.
  split; [done | |]; intros x H; unfold RuntimeStatus_ok in H; split_ok H.
  - unfold RuntimeStatus_ToJson. cbn [json_ok forallb snd]. rewrite ?andb_true_iff.
    repeat split; auto with codec. destruct (rst_kv_cache_bytes x); cbn; auto with codec.
  - unfold RuntimeStatus_ToJson, RuntimeStatus_FromJson. name_object v Hv Hm.
    read_members v Hv Hm. rewrite (Hm "kv_cache_bytes"). cbv zeta. read_members v Hv Hm.
    read_value. destruct x as [????????????????????????????????????????? ? kv]; cbn in *.
    destruct kv as [z|]; cbn; [|done].
    unfold uint64_ok in *. by replace (0 <=? z) with true by lia.
Qed.

(** What a frame becomes on its way through JSON: empty identifiers take the
    names, a missing monotonic timestamp the monotonic clock. *)
Definition fill_identity (frame : HostTelemetryFrame) : HostTelemetryFrame :=
  frame_with_identity frame (htf_schema_version frame) (htf_channel frame) (htf_source frame)
    (if str_empty (htf_node_id frame) then htf_node_name frame else htf_node_id frame)
    (if str_empty (htf_plane_id frame) then htf_plane_name frame else htf_plane_id frame)
    (if 0 <? htf_monotonic_timestamp_ms frame then htf_monotonic_timestamp_ms frame
     else htf_monotonic_ms frame).

Lemma uint64_max0 z : uint64_ok z = true -> Z.max 0 z = z.
Proof. unfold uint64_ok. lia. Qed.

Lemma frame_json_ok f : HostTelemetryFrame_ok f = true -> json_ok (HostTelemetryFrame_ToJson f) = true.
Proof.
  intros H. unfold HostTelemetryFrame_ok in H. split_ok H.
  unfold HostTelemetryFrame_ToJson. cbn [json_ok forallb snd]. rewrite ?andb_true_iff.
  repeat split; auto with codec; try (by eapply codec_json_ok); try (by eapply vector_json_ok).
  destruct (0 <? _); auto with codec.
Qed.

Lemma frame_from_json f :
  HostTelemetryFrame_ok f = true ->
  HostTelemetryFrame_FromJson (canon (HostTelemetryFrame_ToJson f)) =
  Ok (derive_plane_counts (fill_identity f)).
Proof.
  intros H. unfold HostTelemetryFrame_ok in H. split_ok H.
  unfold HostTelemetryFrame_ToJson, HostTelemetryFrame_FromJson. name_object v Hv Hm.
  read_members v Hv Hm. unfold member_uint64, member_object. rewrite !Hm. cbv zeta.
  read_members v Hv Hm. read_value.
  rewrite !is_object_canon, !codec_object.
  rewrite !codec_roundtrip by assumption. rewrite !bind_ok.
  rewrite !uint64_max0 by (try destruct (0 <? _); assumption).
  unfold fill_identity, frame_with_identity. do 3 f_equal.
  unfold uint64_ok in *. destruct (Z.ltb_spec 0 (htf_monotonic_timestamp_ms f)); [|by destruct (_ =? 0)].
  by replace (htf_monotonic_timestamp_ms f =? 0) with false by lia.
Qed.
End codec_instances.

(** ** Theorems *)

Lemma fill_identity_id f :
  htf_node_id f <> "" -> (htf_plane_id f = "" -> htf_plane_name f = "") ->
  (htf_monotonic_timestamp_ms f <= 0 -> htf_monotonic_ms f = htf_monotonic_timestamp_ms f) ->
  fill_identity f = f.
Proof.
  intros Hn Hp Hm. unfold fill_identity.
  assert ((if str_empty (htf_node_id f) then htf_node_name f else htf_node_id f) = htf_node_id f)
    as -> by (by apply str_empty_false in Hn as ->).
  assert ((if str_empty (htf_plane_id f) then htf_plane_name f else htf_plane_id f) =
          htf_plane_id f) as ->.
  { destruct (str_empty (htf_plane_id f)) eqn:E; [|done]. apply str_empty_true in E.
    by rewrite (Hp E). }
  assert ((if 0 <? htf_monotonic_timestamp_ms f then htf_monotonic_timestamp_ms f
           else htf_monotonic_ms f) = htf_monotonic_timestamp_ms f) as ->.
  { destruct (Z.ltb_spec 0 (htf_monotonic_timestamp_ms f)); auto. }
  by destruct f.
Qed.

Lemma derive_plane_counts_id f :
  (htf_plane_instance_count f = 0 -> htf_instance_runtime f = []) -> derive_plane_counts f = f.
Proof.
  intros H. unfold derive_plane_counts. destruct (Z.eqb_spec (htf_plane_instance_count f) 0) as [E|];
    [by rewrite (H E) | done].
Qed.

Lemma frame_text_roundtrip `{Lib : !JsonLibrary} f text :
  HostTelemetryFrame_ok f = true -> SerializeHostTelemetryFrameJson f = Ok text ->
  DeserializeHostTelemetryFrameJson text = Ok (derive_plane_counts (fill_identity f)).
Proof.
  intros Hok Hd. unfold DeserializeHostTelemetryFrameJson, Deserialize.
  rewrite (parse_dump _ _ (frame_json_ok _ Hok) Hd), bind_ok. by apply frame_from_json.
Qed.

(** A telemetry frame that is serialised and read back comes back with its
    empty identifiers and missing timestamp filled in and, when it carried no
    instance count, with the counts of its instances; a frame that has them
    comes back unchanged. *)
Theorem frame_codec_roundtrip `{Lib : !JsonLibrary} (f : HostTelemetryFrame) (text : string) :
  HostTelemetryFrame_ok f = true ->
  SerializeHostTelemetryFrameJson f = Ok text ->
  DeserializeHostTelemetryFrameJson text = Ok (derive_plane_counts (fill_identity f)) /\
  (htf_node_id f <> "" -> (htf_plane_id f = "" -> htf_plane_name f = "") ->
   (htf_monotonic_timestamp_ms f <= 0 -> htf_monotonic_ms f = htf_monotonic_timestamp_ms f) ->
   (htf_plane_instance_count f = 0 -> htf_instance_runtime f = []) ->
   DeserializeHostTelemetryFrameJson text = Ok f).
Proof.
  intros Hok Hd. pose proof (frame_text_roundtrip f text Hok Hd) as H. split; [done|].
  intros Hn Hp Hm Hc. by rewrite H, fill_identity_id, derive_plane_counts_id by done.
Qed.

Definition fx_process : RuntimeProcessStatus :=
  mkRuntimeProcessStatus "worker-a" "worker" "node-a" "/models/m" "0" "running" "t0" "t1"
    101 102 true "alpha".
Definition fx_frame : HostTelemetryFrame :=
  frame_with_plane_counts
    (frame_with_scope
       (frame_with_identity HostTelemetryFrame_default "host.telemetry.v2" "host.telemetry.v1" "hostd"
          "node-a" "" 7)
       "alpha" [fx_process]
       (mkDiskTelemetrySnapshot 1 false "df" "t0"
          [mkDiskTelemetryRecord "d0" "alpha" "node-a" "/mnt" "/dev/sda" "ext4" "ready" "ok" ""
             (2 ^ 40) 5 6 1 2 3 4 5 6 0 0 0 0 false true true true ["slow"; "hot"]]))
    1 1 0 "ready".

Lemma frame_codec_roundtrip_witness :
  HostTelemetryFrame_ok fx_frame = true /\
  exists text, SerializeHostTelemetryFrameJson (Lib:=tree_json) fx_frame = Ok text /\
    DeserializeHostTelemetryFrameJson (Lib:=tree_json) text = Ok fx_frame.
Proof.
  split; [reflexivity|]. eexists. split; [reflexivity|].
  apply (frame_codec_roundtrip (Lib:=tree_json) fx_frame _ eq_refl eq_refl); try discriminate.
  intros Hle. destruct Hle. reflexivity.
Defined.

(** The snapshots of the GPUs, disks, network and CPU of a host, the runtime
    status of an instance and a list of process statuses are read back from
    their JSON text as they were written. *)
Theorem telemetry_codecs_roundtrip `{Lib : !JsonLibrary} (text : string) :
  (forall x, GpuTelemetrySnapshot_ok x = true -> SerializeGpuTelemetryJson x = Ok text ->
     DeserializeGpuTelemetryJson text = Ok x) /\
  (forall x, DiskTelemetrySnapshot_ok x = true -> SerializeDiskTelemetryJson x = Ok text ->
     DeserializeDiskTelemetryJson text = Ok x) /\
  (forall x, NetworkTelemetrySnapshot_ok x = true -> SerializeNetworkTelemetryJson x = Ok text ->
     DeserializeNetworkTelemetryJson text = Ok x) /\
  (forall x, CpuTelemetrySnapshot_ok x = true -> SerializeCpuTelemetryJson x = Ok text ->
     DeserializeCpuTelemetryJson text = Ok x) /\
  (forall x, RuntimeStatus_ok x = true -> SerializeRuntimeStatusJson x = Ok text ->
     DeserializeRuntimeStatusJson text = Ok x) /\
  (forall l, forallb RuntimeProcessStatus_ok l = true -> SerializeRuntimeStatusListJson l = Ok text ->
     DeserializeRuntimeStatusListJson text = Ok l).
Proof.
  split_and!; try (intros x; apply text_roundtrip; exact _).
  intros l Hok Hd. unfold DeserializeRuntimeStatusListJson.
  assert (json_ok (JArray (map RuntimeProcessStatus_ToJson l)) = true) as Hj
    by (eapply vector_json_ok; [exact _ | done]).
  rewrite (parse_dump _ _ Hj Hd), bind_ok. eapply vector_roundtrip; [exact _ | done].
Qed.

Lemma telemetry_codecs_roundtrip_witness :
  exists text, SerializeRuntimeStatusListJson (Lib:=tree_json) [fx_process; fx_process] = Ok text /\
    DeserializeRuntimeStatusListJson (Lib:=tree_json) text = Ok [fx_process; fx_process].
Proof.
  eexists. split; [reflexivity|].
  apply (telemetry_codecs_roundtrip (Lib:=tree_json)); reflexivity.
Defined.

(** A saved runtime status is the one that is loaded from its path, a save
    that fails leaves a file that loads as missing, and the files under other
    paths are untouched. *)
Theorem runtime_status_file_store `{Lib : !JsonLibrary} (files : gmap string string) status path :
  RuntimeStatus_ok status = true ->
  let '(files', outcome) := Save files status path in
  Load files' path = Ok (if is_ok outcome then Some status else None) /\
  forall other, other <> path -> Load files' other = Load files other.
Proof.
  intros Hok. unfold Save.
  destruct (SerializeRuntimeStatusJson status) as [text|e] eqn:E; (split;
    [|intros other Hne; unfold Load; by rewrite ?lookup_insert_ne by done]);
    unfold Load; rewrite lookup_insert_eq; [|done].
  pose proof (parse_newline _ _ (parse_dump _ _ (codec_json_ok _ Hok) E)) as Hp.
  destruct (is_blank (text +:+ newline)) eqn:Eb.
  { apply parse_blank in Eb. by rewrite Hp in Eb. }
  rewrite Hp, codec_roundtrip by done. done.
Qed.

Lemma runtime_status_file_store_witness :
  exists files, Save (Lib:=tree_json) ∅ RuntimeStatus_default "/run/status.json" = (files, Ok ()) /\
    Load (Lib:=tree_json) files "/run/status.json" = Ok (Some RuntimeStatus_default).
Proof.
  eexists. split; [reflexivity|].
  exact (proj1 (runtime_status_file_store (Lib:=tree_json) ∅ RuntimeStatus_default "/run/status.json"
    eq_refl)).
Defined.
