(* ===== verification/TelemetryBuffer.v ===== *)
(** * The telemetry ring buffer

    [controller/src/telemetry/telemetry_frame_ring_buffer.cpp], with the frame
    matcher, the frame normaliser and the sequence comparator it works with: per
    node the latest frame and a bounded history, and the queries that feed the
    event streams.  The node vector, the highest sequence and the counter of
    dropped frames, which the C++ functions take by reference, are the record
    [Ring].  64-bit counters wrap; sequences are compared only.

    [std::sort] is not stable: frames of different nodes may carry the same
    sequence and then come out in any order.  No theorem below depends on the
    order of such frames. *)

From S2P Require Import Prelude Binary64 RuntimeStatus.

(** ** State *)

Record TelemetryNodeBuffer := mkTelemetryNodeBuffer {
  tnb_latest : HostTelemetryFrame;
  tnb_history : list HostTelemetryFrame;
  tnb_dropped_frames_total : Z;
  tnb_last_pruned_sequence : Z;
}.

Record TelemetryRetentionConfig := mkTelemetryRetentionConfig {
  trc_hot_history_capacity : Z;
  trc_stream_batch_limit : Z;
  trc_durable_history_capacity : Z;
  trc_warm_bucket_ms : Z;
  trc_cold_bucket_ms : Z;
}.

Definition TelemetryRetentionConfig_default : TelemetryRetentionConfig :=
  mkTelemetryRetentionConfig 300 128 9600 10000 60000.

Record TelemetryStreamDelta := mkTelemetryStreamDelta {
  tsd_frames : list HostTelemetryFrame;
  tsd_replay_required : bool;
  tsd_replay_reason : string;
  tsd_requested_sequence : Z;
  tsd_first_available_sequence : Z;
  tsd_latest_sequence : Z;
  tsd_dropped_frames_total : Z;
}.

Record Ring := mkRing {
  ring_nodes : list TelemetryNodeBuffer;
  ring_latest_sequence : Z;
  ring_dropped_frames_total : Z;
}.

Definition empty_ring : Ring := mkRing [] 0 0.

(** ** [TelemetryFrameMatcher] *)

Definition RuntimeInstancePrefixes : list string :=
  ["infer-"; "worker-"; "skills-"; "app-"; "webgateway-"; "browsing-"; "voice-module-";
   "interaction-"].

Definition RuntimeStatusMatchesPlane (status : RuntimeProcessStatus) (plane_name : string) : bool :=
  str_empty plane_name ||
  (rps_plane_name status ==? plane_name) ||
  any_of (fun prefix =>
    let stem := prefix +:+ plane_name in
    (rps_instance_name status ==? stem) || starts_with (stem +:+ "-") (rps_instance_name status))
    RuntimeInstancePrefixes.

Definition MatchesPlane (frame : HostTelemetryFrame) (plane_name : option string) : bool :=
  match plane_name with
  | None => true
  | Some plane =>
      str_empty plane ||
      (htf_plane_name frame ==? plane) ||
      any_of (fun status => RuntimeStatusMatchesPlane status plane) (htf_instance_runtime frame)
  end.

Definition PlaneKeyForFrame (frame : HostTelemetryFrame) : string :=
  if str_empty (htf_plane_name frame) then "unassigned" else htf_plane_name frame.

Definition PlaneKeysForFrame (frame : HostTelemetryFrame) : list string :=
  if negb (str_empty (htf_plane_name frame)) then [htf_plane_name frame]
  else
    let plane_names : gset string :=
      foldl (fun names status =>
        if negb (str_empty (rps_plane_name status)) then {[rps_plane_name status]} ∪ names else names)
        ∅ (htf_instance_runtime frame) in
    if decide (plane_names = ∅) then ["unassigned"] else set_items plane_names.

Definition GpuUtilizationAverage (frame : HostTelemetryFrame) : double :=
  if vec_empty (gts_devices (htf_gpu frame)) then d0
  else
    ddiv (foldl (fun sum device => dadd sum (double_of_Z (gdt_gpu_utilization_pct device))) d0
            (gts_devices (htf_gpu frame)))
      (double_of_Z (Z.of_nat (length (gts_devices (htf_gpu frame))))).

Definition ControllerIngestDelayMs (frame : HostTelemetryFrame) (now_ms : Z) : Z :=
  if (0 <? htf_sequence frame) && (htf_sequence frame <=? now_ms) then now_ms - htf_sequence frame
  else 0.

(** ** [TelemetryFrameNormalizer] *)

Definition Normalize (frame : HostTelemetryFrame) : HostTelemetryFrame :=
  frame_with_identity frame
    (if str_empty (htf_schema_version frame) then "host.telemetry.v2" else htf_schema_version frame)
    (if str_empty (htf_channel frame) then "host.telemetry.v1" else htf_channel frame)
    (if str_empty (htf_source frame) then "hostd" else htf_source frame)
    (if str_empty (htf_node_id frame) then htf_node_name frame else htf_node_id frame)
    (if str_empty (htf_plane_id frame) then htf_plane_name frame else htf_plane_id frame)
    (if htf_monotonic_timestamp_ms frame =? 0 then htf_monotonic_ms frame
     else htf_monotonic_timestamp_ms frame).

(** ** [TelemetryFrameRingBuffer] *)

Definition SequenceLess (left right : HostTelemetryFrame) : bool :=
  htf_sequence left <? htf_sequence right.

(** The [while] loop over one history: pops frames from the front while the
    history is over capacity, counting in the node's and in the total counter. *)
Fixpoint prune_history (capacity : Z) (history : list HostTelemetryFrame)
    (dropped last_pruned total : Z) : list HostTelemetryFrame * Z * Z * Z :=
  match history with
  | front :: rest =>
      if capacity <? Z.of_nat (length history) then
        prune_history capacity rest (uint64_wrap (dropped + 1)) (htf_sequence front)
          (uint64_wrap (total + 1))
      else (history, dropped, last_pruned, total)
  | [] => ([], dropped, last_pruned, total)
  end.

Fixpoint prune_nodes (capacity : Z) (nodes : list TelemetryNodeBuffer) (total : Z)
    : list TelemetryNodeBuffer * Z :=
  match nodes with
  | [] => ([], total)
  | node :: rest =>
      let '(history, dropped, last_pruned, total) :=
        prune_history capacity (tnb_history node) (tnb_dropped_frames_total node)
          (tnb_last_pruned_sequence node) total in
      let '(rest, total) := prune_nodes capacity rest total in
      (mkTelemetryNodeBuffer (tnb_latest node) history dropped last_pruned :: rest, total)
  end.

Definition ApplyHotRetention (ring : Ring) (retention : TelemetryRetentionConfig) : Ring :=
  let '(nodes, total) :=
    prune_nodes (trc_hot_history_capacity retention) (ring_nodes ring)
      (ring_dropped_frames_total ring) in
  mkRing nodes (ring_latest_sequence ring) total.

Definition node_named (name : string) (node : TelemetryNodeBuffer) : bool :=
  htf_node_name (tnb_latest node) ==? name.

(** A frame without disk items keeps the disks of the node's latest frame. *)
Definition carry_disk (latest frame : HostTelemetryFrame) : HostTelemetryFrame :=
  if vec_empty (dts_items (htf_disk frame)) && negb (vec_empty (dts_items (htf_disk latest)))
  then frame_with_disk frame (htf_disk latest) else frame.

(** The branch on [it]: the first buffer of the node is extended, or a buffer is
    appended. *)
Fixpoint push_frame (nodes : list TelemetryNodeBuffer) (frame : HostTelemetryFrame)
    : list TelemetryNodeBuffer :=
  match nodes with
  | [] => [mkTelemetryNodeBuffer frame [frame] 0 0]
  | node :: rest =>
      if node_named (htf_node_name frame) node then
        let frame := carry_disk (tnb_latest node) frame in
        mkTelemetryNodeBuffer frame (tnb_history node ++ [frame])
          (tnb_dropped_frames_total node) (tnb_last_pruned_sequence node) :: rest
      else node :: push_frame rest frame
  end.

Definition Upsert (ring : Ring) (retention : TelemetryRetentionConfig) (frame : HostTelemetryFrame)
    : Ring * bool :=
  let stale :=
    match find_if (node_named (htf_node_name frame)) (ring_nodes ring) with
    | Some node => htf_sequence frame <=? htf_sequence (tnb_latest node)
    | None => false
    end in
  if stale then (ring, false)
  else
    (ApplyHotRetention
       (mkRing (push_frame (ring_nodes ring) frame)
          (Z.max (ring_latest_sequence ring) (htf_sequence frame))
          (ring_dropped_frames_total ring))
       retention, true).

(** [std::sort] by sequence, then the oldest frames over the limit are erased. *)
Definition newest_frames (limit : Z) (frames : list HostTelemetryFrame)
    : list HostTelemetryFrame :=
  let sorted := std_sort SequenceLess frames in
  if limit <? Z.of_nat (length sorted) then drop (length sorted - Z.to_nat limit) sorted else sorted.

Definition LoadFramesAfter (ring : Ring) (retention : TelemetryRetentionConfig) (sequence : Z)
    (plane_name : option string) : list HostTelemetryFrame :=
  newest_frames (trc_stream_batch_limit retention)
    (ring_nodes ring ≫= fun node =>
       List.filter (fun frame => (sequence <? htf_sequence frame) && MatchesPlane frame plane_name)
         (tnb_history node)).

(** The part of the loop body that looks at the first frame of a history. *)
Definition scan_node (sequence : Z) (acc : Z * bool) (node : TelemetryNodeBuffer) : Z * bool :=
  let '(first_available, replay_required) := acc in
  match tnb_history node with
  | [] => acc
  | front :: _ =>
      let node_first := htf_sequence front in
      (if first_available =? 0 then node_first else Z.min first_available node_first,
       replay_required ||
       ((0 <? sequence) && (sequence <? node_first) && (0 <? tnb_last_pruned_sequence node)))
  end.

Definition LoadStreamDeltaAfter (ring : Ring) (retention : TelemetryRetentionConfig)
    (sequence : Z) (plane_name : option string) : TelemetryStreamDelta :=
  let matched :=
    List.filter (fun node => MatchesPlane (tnb_latest node) plane_name) (ring_nodes ring) in
  let '(first_available, pruned) := foldl (scan_node sequence) (0, false) matched in
  let frames :=
    matched ≫= fun node =>
      List.filter (fun frame => sequence <? htf_sequence frame) (tnb_history node) in
  let truncated := trc_stream_batch_limit retention <? Z.of_nat (length frames) in
  {| tsd_frames := newest_frames (trc_stream_batch_limit retention) frames;
     tsd_replay_required := pruned || truncated;
     tsd_replay_reason :=
       if pruned then "requested-sequence-pruned"
       else if truncated then "stream-batch-truncated" else "";
     tsd_requested_sequence := sequence;
     tsd_first_available_sequence := first_available;
     tsd_latest_sequence := ring_latest_sequence ring;
     tsd_dropped_frames_total := ring_dropped_frames_total ring |}.

(** ** Runs *)

(** The frame an accepted [Upsert] stores. *)
Definition stored_frame (ring : Ring) (frame : HostTelemetryFrame) : HostTelemetryFrame :=
  match find_if (node_named (htf_node_name frame)) (ring_nodes ring) with
  | Some node => carry_disk (tnb_latest node) frame
  | None => frame
  end.

(** [RingRun retention ring accepted]: [ring] is what a sequence of upserts and
    changes of the retention leaves, [accepted] the frames it stored, in order,
    and [retention] the configuration in force.  The capacity is at least one,
    as [NormalizeRetention] makes it. *)
Inductive RingRun : TelemetryRetentionConfig -> Ring -> list HostTelemetryFrame -> Prop :=
  | run_start retention :
      1 <= trc_hot_history_capacity retention -> RingRun retention empty_ring []
  | run_upsert retention ring accepted frame ring' :
      RingRun retention ring accepted -> Upsert ring retention frame = (ring', true) ->
      RingRun retention ring' (accepted ++ [stored_frame ring frame])
  | run_refused retention ring accepted frame ring' :
      RingRun retention ring accepted -> Upsert ring retention frame = (ring', false) ->
      RingRun retention ring' accepted
  | run_retention retention ring accepted retention' :
      RingRun retention ring accepted -> 1 <= trc_hot_history_capacity retention' ->
      RingRun retention' (ApplyHotRetention ring retention') accepted.

Definition node_name (node : TelemetryNodeBuffer) : string := htf_node_name (tnb_latest node).
Definition frames_of (name : string) (frames : list HostTelemetryFrame)
    : list HostTelemetryFrame :=
  List.filter (fun frame => htf_node_name frame ==? name) frames.
Definition older (left right : HostTelemetryFrame) : Prop := htf_sequence left < htf_sequence right.
Definition held_frames (nodes : list TelemetryNodeBuffer) : Z :=
  foldr (fun node n => Z.of_nat (length (tnb_history node)) + n) 0 nodes.

(** The history of a node is what is left of the frames accepted for it when
    the pruned ones are taken off the front. *)
Definition node_history_exact (accepted : list HostTelemetryFrame) (node : TelemetryNodeBuffer)
    : Prop :=
  exists pruned,
    frames_of (node_name node) accepted = pruned ++ tnb_history node /\
    last (tnb_history node) = Some (tnb_latest node) /\
    StronglySorted older (pruned ++ tnb_history node) /\
    tnb_dropped_frames_total node = uint64_wrap (Z.of_nat (length pruned)) /\
    tnb_last_pruned_sequence node = from_option htf_sequence 0 (last pruned).

Record ring_exact (ring : Ring) (accepted : list HostTelemetryFrame) : Prop := {
  exact_nodes : Forall (node_history_exact accepted) (ring_nodes ring);
  exact_names : NoDup (node_name <$> ring_nodes ring);
  exact_known : forall frame, frame ∈ accepted -> htf_node_name frame ∈ node_name <$> ring_nodes ring;
  exact_latest : ring_latest_sequence ring = foldr Z.max 0 (htf_sequence <$> accepted);
  exact_dropped : ring_dropped_frames_total ring =
    uint64_wrap (Z.of_nat (length accepted) - held_frames (ring_nodes ring));
}.

Definition within_capacity (retention : TelemetryRetentionConfig) (ring : Ring) : Prop :=
  Forall (fun node => Z.of_nat (length (tnb_history node)) <= trc_hot_history_capacity retention)
    (ring_nodes ring).

(** ** Pruning *)

Definition excess (capacity : Z) (history : list HostTelemetryFrame) : nat :=
  length history - Z.to_nat capacity.

Lemma uint64_wrap_succ x n : uint64_wrap (uint64_wrap x + n) = uint64_wrap (x + n).
Proof. unfold uint64_wrap. by rewrite Zplus_mod_idemp_l. Qed.

Lemma prune_history_spec capacity history dropped last_pruned total :
  0 <= capacity ->
  prune_history capacity history (uint64_wrap dropped) last_pruned (uint64_wrap total) =
  (drop (excess capacity history) history,
   uint64_wrap (dropped + Z.of_nat (excess capacity history)),
   from_option htf_sequence last_pruned (last (take (excess capacity history) history)),
   uint64_wrap (total + Z.of_nat (excess capacity history))).
Proof.
  intros Hc. unfold excess. revert dropped last_pruned total.
  induction history as [|front rest IH]; intros dropped last_pruned total.
  - cbn. by rewrite !Z.add_0_r.
  - cbn [prune_history]. destruct (Z.ltb_spec capacity (Z.of_nat (length (front :: rest)))) as [Hlt|Hge];
      cbn [length] in *.
    + rewrite !uint64_wrap_succ, IH.
      replace (S (length rest) - Z.to_nat capacity)%nat
        with (S (length rest - Z.to_nat capacity)) by lia.
      cbn [drop take]. rewrite last_cons. f_equal; [f_equal; [f_equal|]|]; try (f_equal; lia).
      by destruct (last _).
    + replace (S (length rest) - Z.to_nat capacity)%nat with 0%nat by lia.
      cbn. by rewrite !Z.add_0_r.
Qed.

Definition prune_node (capacity : Z) (node : TelemetryNodeBuffer) : TelemetryNodeBuffer :=
  let n := excess capacity (tnb_history node) in
  mkTelemetryNodeBuffer (tnb_latest node) (drop n (tnb_history node))
    (uint64_wrap (tnb_dropped_frames_total node + Z.of_nat n))
    (from_option htf_sequence (tnb_last_pruned_sequence node) (last (take n (tnb_history node)))).

Definition counter_ok (node : TelemetryNodeBuffer) : Prop :=
  exists d, tnb_dropped_frames_total node = uint64_wrap d.

Lemma held_frames_drop capacity nodes :
  held_frames (prune_node capacity <$> nodes) =
  held_frames nodes - foldr (fun node n => Z.of_nat (excess capacity (tnb_history node)) + n) 0 nodes.
Proof.
  induction nodes as [|node nodes IH]; [done|]. cbn. rewrite length_drop.
  unfold held_frames in *. rewrite IH. unfold excess. lia.
Qed.

Lemma prune_nodes_spec capacity nodes total :
  0 <= capacity -> Forall counter_ok nodes ->
  prune_nodes capacity nodes (uint64_wrap total) =
  (prune_node capacity <$> nodes,
   uint64_wrap (total + (held_frames nodes - held_frames (prune_node capacity <$> nodes)))).
Proof.
  intros Hc Hok. rewrite held_frames_drop. revert total.
  induction Hok as [|node nodes [d Hd] _ IH]; intros total; cbn.
  - f_equal. f_equal. lia.
  - rewrite Hd, prune_history_spec, IH by done. unfold prune_node.
    rewrite Hd, uint64_wrap_succ. f_equal. f_equal. unfold held_frames. lia.
Qed.

Lemma last_drop {A} n (l : list A) : (n < length l)%nat -> last (drop n l) = last l.
Proof.
  intros Hn. rewrite <-(take_drop n l) at 2. rewrite last_app.
  destruct (last (drop n l)) eqn:E; [done|]. apply last_None in E.
  apply (f_equal length) in E. rewrite length_drop in E. cbn in E. lia.
Qed.

Lemma node_exact_counter accepted node : node_history_exact accepted node -> counter_ok node.
Proof. intros (pruned & _ & _ & _ & Hd & _). by eexists. Qed.

Lemma ApplyHotRetention_spec ring retention accepted :
  ring_exact ring accepted -> 0 <= trc_hot_history_capacity retention ->
  ApplyHotRetention ring retention =
  mkRing (prune_node (trc_hot_history_capacity retention) <$> ring_nodes ring)
    (ring_latest_sequence ring)
    (uint64_wrap (Z.of_nat (length accepted) -
       held_frames (prune_node (trc_hot_history_capacity retention) <$> ring_nodes ring))).
Proof.
  intros H Hc. unfold ApplyHotRetention. rewrite (exact_dropped _ _ H), prune_nodes_spec; [|done|].
  - f_equal. f_equal. lia.
  - eapply Forall_impl; [apply (exact_nodes _ _ H)|]. apply node_exact_counter.
Qed.

Lemma prune_node_exact capacity accepted node :
  1 <= capacity -> node_history_exact accepted node ->
  node_history_exact accepted (prune_node capacity node).
Proof.
  intros Hc (pruned & Hf & Hl & Hs & Hd & Hp). set (n := excess capacity (tnb_history node)).
  assert (tnb_history node <> []) as Hne by (intros E; by rewrite E in Hl).
  assert (n < length (tnb_history node))%nat as Hn.
  { unfold n, excess. destruct (tnb_history node); [done | cbn; lia]. }
  exists (pruned ++ take n (tnb_history node)). unfold prune_node. fold n. cbn.
  change (node_name (mkTelemetryNodeBuffer _ _ _ _)) with (node_name node).
  rewrite <-app_assoc, take_drop. split_and!; try done.
  - rewrite last_drop by done. done.
  - rewrite Hd, uint64_wrap_succ, length_app, length_take. f_equal. lia.
  - rewrite last_app, Hp. by destruct (last (take n _)).
Qed.

Lemma prune_node_capacity capacity node :
  1 <= capacity -> Z.of_nat (length (tnb_history (prune_node capacity node))) <= capacity.
Proof. intros Hc. cbn. rewrite length_drop. unfold excess. lia. Qed.

Lemma ApplyHotRetention_exact ring retention accepted :
  ring_exact ring accepted -> 1 <= trc_hot_history_capacity retention ->
  ring_exact (ApplyHotRetention ring retention) accepted /\
  within_capacity retention (ApplyHotRetention ring retention).
Proof.
  intros H Hc. rewrite (ApplyHotRetention_spec _ _ _ H) by lia.
  set (c := trc_hot_history_capacity retention) in *.
  assert (node_name <$> (prune_node c <$> ring_nodes ring) = node_name <$> ring_nodes ring) as Hn.
  { rewrite <-list_fmap_compose. by apply list_fmap_ext. }
  destruct H as [Hnodes Hnames Hknown Hlatest _]. split; [split|]; cbn.
  - apply Forall_fmap. eapply Forall_impl; [exact Hnodes|]. intros node. by apply prune_node_exact.
  - by rewrite Hn.
  - by rewrite Hn.
  - done.
  - done.
  - unfold within_capacity. cbn. apply Forall_fmap, Forall_true. intros node.
    by apply prune_node_capacity.
Qed.

(** ** Storing a frame *)

Lemma push_frame_spec nodes frame :
  match find_if (node_named (htf_node_name frame)) nodes with
  | Some node => exists before after, nodes = before ++ node :: after /\
      push_frame nodes frame = before ++ 
        mkTelemetryNodeBuffer (carry_disk (tnb_latest node) frame)
          (tnb_history node ++ [carry_disk (tnb_latest node) frame])
          (tnb_dropped_frames_total node) (tnb_last_pruned_sequence node) :: after
  | None => push_frame nodes frame = nodes ++ [mkTelemetryNodeBuffer frame [frame] 0 0]
  end.
Proof.
  induction nodes as [|node nodes IH]; [done|]. cbn [find_if push_frame].
  destruct (node_named (htf_node_name frame) node); [by exists [], nodes|].
  destruct (find_if _ nodes) as [found|].
  - destruct IH as (before & after & -> & ->). by exists (node :: before), after.
  - by rewrite IH.
Qed.

Lemma carry_disk_name latest frame : htf_node_name (carry_disk latest frame) = htf_node_name frame.
Proof. unfold carry_disk. by destruct (_ && _). Qed.
Lemma carry_disk_sequence latest frame : htf_sequence (carry_disk latest frame) = htf_sequence frame.
Proof. unfold carry_disk. by destruct (_ && _). Qed.

Lemma frames_of_app name l1 l2 : frames_of name (l1 ++ l2) = frames_of name l1 ++ frames_of name l2.
Proof. apply List.filter_app. Qed.
Lemma frames_of_one name f :
  frames_of name [f] = if htf_node_name f ==? name then [f] else [].
Proof. cbn. by destruct (_ ==? _). Qed.

(** A frame of another node does not matter to a node. *)
Lemma node_exact_other accepted node f :
  htf_node_name f <> node_name node -> node_history_exact accepted node ->
  node_history_exact (accepted ++ [f]) node.
Proof.
  intros Hne (pruned & Hf & H). exists pruned. split; [|done].
  rewrite frames_of_app, frames_of_one. apply eqb_false in Hne. by rewrite Hne, app_nil_r.
Qed.

Lemma sorted_snoc l f :
  StronglySorted older l -> (forall g, last l = Some g -> older g f) -> StronglySorted older (l ++ [f]).
Proof.
  induction 1 as [|x l Hl IH Hx]; intros Hlast; cbn.
  - repeat constructor.
  - constructor.
    + apply IH. intros g Hg. apply Hlast. rewrite last_cons, Hg. done.
    + apply Forall_app. split; [done|]. constructor; [|done]. unfold older in *.
      destruct (last l) as [g|] eqn:E.
      * assert (htf_sequence g < htf_sequence f) by (apply Hlast; by rewrite last_cons, E).
        apply last_Some_elem_of in E. rewrite Forall_forall in Hx. specialize (Hx _ E). lia.
      * apply Hlast. by rewrite last_cons, E.
Qed.

Lemma held_frames_app l1 l2 : held_frames (l1 ++ l2) = held_frames l1 + held_frames l2.
Proof. induction l1 as [|x l1 IH]; cbn; [done|]. unfold held_frames in *. rewrite IH. lia. Qed.
Lemma held_frames_cons x l :
  held_frames (x :: l) = Z.of_nat (length (tnb_history x)) + held_frames l.
Proof. done. Qed.

Lemma foldr_max_snoc l x : 0 <= foldr Z.max 0 l /\ foldr Z.max 0 (l ++ [x]) = Z.max (foldr Z.max 0 l) x.
Proof. induction l as [|y l [IH1 IH2]]; cbn; [lia|]. rewrite IH2. lia. Qed.

(** The node that receives the frame. *)
Lemma node_exact_push accepted node f :
  htf_node_name f = node_name node -> older (tnb_latest node) f ->
  node_history_exact accepted node ->
  node_history_exact (accepted ++ [f])
    (mkTelemetryNodeBuffer f (tnb_history node ++ [f]) (tnb_dropped_frames_total node)
       (tnb_last_pruned_sequence node)).
Proof.
  intros Hn Ho (pruned & Hf & Hl & Hs & Hd & Hp). exists pruned. unfold node_name. cbn.
  rewrite frames_of_app, frames_of_one, Hn, eqb_refl, Hf, <-!app_assoc. split_and!; try done.
  - by rewrite last_snoc.
  - rewrite app_assoc. apply sorted_snoc; [done|]. intros g. rewrite last_app, Hl. by intros [= <-].
Qed.

Lemma node_exact_new accepted f :
  frames_of (htf_node_name f) accepted = [] ->
  node_history_exact (accepted ++ [f]) (mkTelemetryNodeBuffer f [f] 0 0).
Proof.
  intros Hf. exists []. unfold node_name. cbn [tnb_latest].
  rewrite frames_of_app, frames_of_one, eqb_refl, Hf. split_and!; try done.
  repeat constructor.
Qed.

(** [Upsert] on a known node replaces its buffer. *)
Lemma push_exact_known ring accepted frame node before after :
  ring_exact ring accepted -> ring_nodes ring = before ++ node :: after ->
  node_name node = htf_node_name frame -> older (tnb_latest node) frame ->
  let f := carry_disk (tnb_latest node) frame in
  ring_exact
    (mkRing (before ++ mkTelemetryNodeBuffer f (tnb_history node ++ [f])
               (tnb_dropped_frames_total node) (tnb_last_pruned_sequence node) :: after)
       (Z.max (ring_latest_sequence ring) (htf_sequence frame)) (ring_dropped_frames_total ring))
    (accepted ++ [f]).
Proof.
  intros [Hnodes Hnames Hknown Hlatest Hdropped] Hring Hname Hfresh f.
  assert (htf_node_name f = node_name node) as Hf by (unfold f; by rewrite carry_disk_name).
  assert (htf_sequence f = htf_sequence frame) as Hseq by apply carry_disk_sequence.
  rewrite Hring in *. rewrite fmap_app, fmap_cons in Hnames.
  assert (forall other, other ∈ before ++ after -> htf_node_name f <> node_name other) as Hother.
  { intros other Ho E. rewrite Hf in E. apply NoDup_app in Hnames as (_ & Hd1 & [Hd2 _]%NoDup_cons).
    apply elem_of_app in Ho as [Ho|Ho].
    - apply (Hd1 (node_name other)); [by apply list_elem_of_fmap_2 | rewrite E; left].
    - apply Hd2. rewrite E. by apply list_elem_of_fmap_2. }
  apply Forall_app in Hnodes as [Hb [Hnode Ha]%Forall_cons]. rewrite Forall_forall in Hb, Ha.
  split; cbn [ring_nodes ring_latest_sequence ring_dropped_frames_total].
  - apply Forall_app. split; [|constructor].
    + apply Forall_forall. intros o Ho. apply node_exact_other; [|auto]. apply Hother. set_solver.
    + apply node_exact_push; [done | unfold older in *; lia | done].
    + apply Forall_forall. intros o Ho. apply node_exact_other; [|auto]. apply Hother. set_solver.
  - rewrite fmap_app, fmap_cons. unfold node_name at 2. cbn [tnb_latest]. by rewrite Hf.
  - intros g. rewrite fmap_app, fmap_cons. unfold node_name at 2. cbn [tnb_latest]. rewrite Hf.
    rewrite <-fmap_cons, <-fmap_app.
    intros [Hg|Hg]%elem_of_app; [auto|]. apply list_elem_of_singleton in Hg as ->.
    rewrite Hf. apply list_elem_of_fmap_2. set_solver.
  - rewrite fmap_app, Hlatest. cbn. by rewrite (proj2 (foldr_max_snoc _ _)), Hseq.
  - rewrite Hdropped, !held_frames_app, !held_frames_cons, !length_app. cbn [tnb_history length].
    rewrite length_app. cbn. f_equal. lia.
Qed.

(** [Upsert] on a new node appends a buffer. *)
Lemma push_exact_new ring accepted frame :
  ring_exact ring accepted -> htf_node_name frame ∉ node_name <$> ring_nodes ring ->
  ring_exact
    (mkRing (ring_nodes ring ++ [mkTelemetryNodeBuffer frame [frame] 0 0])
       (Z.max (ring_latest_sequence ring) (htf_sequence frame)) (ring_dropped_frames_total ring))
    (accepted ++ [frame]).
Proof.
  intros [Hnodes Hnames Hknown Hlatest Hdropped] Hnew. rewrite Forall_forall in Hnodes.
  split; cbn [ring_nodes ring_latest_sequence ring_dropped_frames_total].
  - apply Forall_app. split.
    + apply Forall_forall. intros o Ho. apply node_exact_other; [|auto].
      intros E. apply Hnew. rewrite E. by apply list_elem_of_fmap_2.
    + constructor; [|done]. apply node_exact_new.
      destruct (frames_of _ accepted) as [|g l] eqn:E; [done|].
      assert (g ∈ frames_of (htf_node_name frame) accepted) as Hg by (rewrite E; left).
      apply elem_of_filterb in Hg as [Hg He]. rewrite eqb_true in He.
      destruct Hnew. rewrite <-He. auto.
  - rewrite fmap_app. apply NoDup_app. split_and!; [done| |repeat constructor; set_solver].
    intros n Hn Hn'. cbn in Hn'. apply list_elem_of_singleton in Hn' as ->. done.
  - intros g. rewrite fmap_app. intros [Hg|Hg]%elem_of_app; apply elem_of_app; [left; auto|].
    right. apply list_elem_of_singleton in Hg as ->. set_solver.
  - rewrite fmap_app, Hlatest. cbn. by rewrite (proj2 (foldr_max_snoc _ _)).
  - rewrite Hdropped, held_frames_app, length_app. unfold held_frames at 3. cbn. f_equal. lia.
Qed.

Lemma push_exact ring accepted frame :
  ring_exact ring accepted ->
  (forall node, find_if (node_named (htf_node_name frame)) (ring_nodes ring) = Some node ->
     older (tnb_latest node) frame) ->
  ring_exact
    (mkRing (push_frame (ring_nodes ring) frame)
       (Z.max (ring_latest_sequence ring) (htf_sequence frame)) (ring_dropped_frames_total ring))
    (accepted ++ [stored_frame ring frame]).
Proof.
  intros Hex Hfresh. pose proof (push_frame_spec (ring_nodes ring) frame) as Hpush.
  unfold stored_frame. destruct (find_if _ (ring_nodes ring)) as [node|] eqn:Hfind.
  - destruct Hpush as (before & after & Hring & ->). apply find_if_Some in Hfind as [Hname _].
    unfold node_named in Hname. rewrite eqb_true in Hname.
    apply push_exact_known; auto.
  - rewrite Hpush. apply push_exact_new; [done|]. intros (node & Hn & Hin)%list_elem_of_fmap.
    rewrite find_if_None in Hfind. specialize (Hfind _ Hin).
    unfold node_named in Hfind. rewrite eqb_false in Hfind. by apply Hfind.
Qed.

Lemma Upsert_exact ring accepted retention frame ring' :
  ring_exact ring accepted -> 1 <= trc_hot_history_capacity retention ->
  Upsert ring retention frame = (ring', true) ->
  ring_exact ring' (accepted ++ [stored_frame ring frame]) /\ within_capacity retention ring'.
Proof.
  intros Hex Hc. unfold Upsert. destruct (match find_if _ _ with Some _ => _ | None => _ end) eqn:E;
    [done|]. intros [= <-]. apply ApplyHotRetention_exact; [|done]. apply push_exact; [done|].
  intros node Hn. rewrite Hn in E. unfold older. lia.
Qed.

Lemma Upsert_refused ring retention frame ring' :
  Upsert ring retention frame = (ring', false) -> ring' = ring.
Proof. unfold Upsert. destruct (match find_if _ _ with Some _ => _ | None => _ end); by intros [= <-]. Qed.

Lemma ring_run_exact retention ring accepted :
  RingRun retention ring accepted ->
  ring_exact ring accepted /\ within_capacity retention ring /\
  1 <= trc_hot_history_capacity retention.
Proof.
  induction 1 as [retention Hc | retention ring accepted frame ring' _ (IH & IHc & IH1) HU
                 | retention ring accepted frame ring' _ IH HU
                 | retention ring accepted retention' _ (IH & IHc & IH1) Hc].
  - split_and!; [split; try done; try constructor; set_solver | constructor | done].
  - by destruct (Upsert_exact _ _ _ _ _ IH IH1 HU).
  - apply Upsert_refused in HU as ->. done.
  - by destruct (ApplyHotRetention_exact _ _ _ IH Hc).
Qed.

(** ** Queries *)

Definition not_newer (left right : HostTelemetryFrame) : Prop := htf_sequence left <= htf_sequence right.

#[export] Instance SequenceLess_swo : StrictWeakOrder SequenceLess.
Proof. split; unfold SequenceLess; intros; lia. Qed.

Lemma sorted_weaken {A} (R R' : A -> A -> Prop) l :
  (forall x y, R x y -> R' x y) -> StronglySorted R l -> StronglySorted R' l.
Proof.
  intros HR. induction 1 as [|x l Hl IH Hx]; constructor; [done|].
  eapply Forall_impl; [exact Hx | auto].
Qed.

Lemma sorted_app_inv {A} (R : A -> A -> Prop) l1 l2 :
  StronglySorted R (l1 ++ l2) ->
  StronglySorted R l2 /\ forall x y, x ∈ l1 -> y ∈ l2 -> R x y.
Proof.
  induction l1 as [|z l1 IH]; cbn; [set_solver|]. intros [Hs Hz]%StronglySorted_inv.
  destruct (IH Hs) as [H1 H2]. split; [done|]. rewrite Forall_forall in Hz.
  intros x y [->|Hx]%elem_of_cons Hy; [|auto]. apply Hz. set_solver.
Qed.

(** The frames over the limit that are left out are the oldest ones. *)
Lemma newest_frames_spec limit frames :
  0 <= limit ->
  exists omitted,
    frames ≡ₚ omitted ++ newest_frames limit frames /\
    StronglySorted not_newer (newest_frames limit frames) /\
    (forall f g, f ∈ omitted -> g ∈ newest_frames limit frames -> not_newer f g) /\
    Z.of_nat (length (newest_frames limit frames)) <= limit /\
    (omitted <> [] -> Z.of_nat (length (newest_frames limit frames)) = limit) /\
    (Z.of_nat (length frames) <= limit -> omitted = []).
Proof.
  intros Hl. unfold newest_frames.
  pose proof (std_sort_perm SequenceLess frames) as Hp.
  assert (StronglySorted not_newer (std_sort SequenceLess frames)) as Hs.
  { eapply sorted_weaken; [|apply std_sort_sorted; exact _].
    intros x y. unfold not_after, SequenceLess, not_newer. lia. }
  assert (length (std_sort SequenceLess frames) = length frames) as Hlen by apply length_std_sort.
  set (s := std_sort SequenceLess frames) in *.
  destruct (Z.ltb_spec limit (Z.of_nat (length s))) as [Hlt|Hge].
  - set (n := (length s - Z.to_nat limit)%nat). exists (take n s).
    rewrite <-(take_drop n s) in Hs. apply sorted_app_inv in Hs as [Hs Ho].
    rewrite take_drop, length_drop. split_and!; try done; try lia.
  - exists []. cbn. split_and!; try done; try lia. set_solver.
Qed.

Lemma scan_node_mono sequence acc nodes :
  acc.2 = true -> (foldl (scan_node sequence) acc nodes).2 = true.
Proof.
  revert acc. induction nodes as [|node nodes IH]; intros [first replay] H; cbn in *; [done|].
  apply IH. unfold scan_node. destruct (tnb_history node); cbn; by rewrite H.
Qed.

(** A pruned history that starts after the requested sequence is noticed. *)
Lemma scan_node_pruned sequence acc nodes node front rest :
  node ∈ nodes -> tnb_history node = front :: rest -> 0 < sequence ->
  sequence < htf_sequence front -> 0 < tnb_last_pruned_sequence node ->
  (foldl (scan_node sequence) acc nodes).2 = true.
Proof.
  intros Hin Hh H0 Hlt Hp. apply list_elem_of_split in Hin as (before & after & ->).
  rewrite foldl_app. cbn. apply scan_node_mono.
  destruct (foldl _ acc before) as [first replay]. unfold scan_node. rewrite Hh. cbn.
  replace (0 <? sequence) with true by lia. replace (sequence <? htf_sequence front) with true by lia.
  replace (0 <? tnb_last_pruned_sequence node) with true by lia. apply orb_true_r.
Qed.

(** A pruned frame is older than the history that is left, and the node knows it. *)
Lemma pruned_frame accepted node f :
  node_history_exact accepted node -> f ∈ frames_of (node_name node) accepted ->
  f ∈ tnb_history node \/
  exists front rest, tnb_history node = front :: rest /\
    htf_sequence f <= tnb_last_pruned_sequence node < htf_sequence front.
Proof.
  intros (pruned & Hf & Hl & Hs & _ & Hp). rewrite Hf. intros [Hin|Hin]%elem_of_app; [|by left].
  right. destruct (tnb_history node) as [|front rest]; [done|]. exists front, rest. split; [done|].
  destruct (last pruned) as [g|] eqn:Eg; [|apply last_None in Eg as ->; set_solver].
  rewrite Hp. cbn. apply last_Some in Eg as [l ->]. rewrite <-app_assoc in Hs.
  pose proof (sorted_app_inv _ _ _ Hs) as [Hs2 Hcross]. cbn in Hs2.
  apply StronglySorted_inv in Hs2 as [_ Hg]. apply Forall_cons in Hg as [Hg _]. unfold older in *.
  apply elem_of_app in Hin as [Hin|Hin].
  - specialize (Hcross f g Hin ltac:(left)). lia.
  - apply list_elem_of_singleton in Hin as ->. lia.
Qed.

Lemma node_of_frame ring accepted f :
  ring_exact ring accepted -> f ∈ accepted ->
  exists node, node ∈ ring_nodes ring /\ node_name node = htf_node_name f /\
    f ∈ frames_of (node_name node) accepted.
Proof.
  intros Hex Hf. pose proof (exact_known _ _ Hex f Hf) as (node & Hn & Hin)%list_elem_of_fmap.
  exists node. split_and!; [done..|]. apply elem_of_filterb. split; [done|]. by apply eqb_true.
Qed.

(** ** Theorems *)

(** After any sequence of upserts and retention changes the buffer of a node
    is exactly the frames accepted for it, in strictly increasing sequence, less
    a front part that was pruned; its counters say how many frames that was and
    where it ended; the histories are within the capacity; the highest sequence
    and the total of dropped frames account for all accepted frames. *)
Theorem ring_history_exact retention ring accepted :
  RingRun retention ring accepted ->
  ring_exact ring accepted /\ within_capacity retention ring.
Proof. intros H. apply ring_run_exact in H. naive_solver. Qed.

Definition fx_sample (node plane : string) (sequence : Z) : HostTelemetryFrame :=
  mkHostTelemetryFrame 1 "host.telemetry.v2" "host.telemetry.v1" "hostd" node node plane plane
    "t" "t" "" sequence sequence sequence 2000 10000 "fast" "" 0 0 0 0 0 0 2000 "" "" 0 0 0
    "unknown" [] GpuTelemetrySnapshot_default NetworkTelemetrySnapshot_default
    CpuTelemetrySnapshot_default DiskTelemetrySnapshot_default.
Definition fx_retention : TelemetryRetentionConfig := mkTelemetryRetentionConfig 2 8 16 1000 1000.
Definition fx_samples : list HostTelemetryFrame :=
  [fx_sample "a" "alpha" 10; fx_sample "b" "beta" 11; fx_sample "a" "alpha" 12;
   fx_sample "a" "alpha" 14].

(** A run of upserts with the frames it accepts. *)
Fixpoint upserts (retention : TelemetryRetentionConfig) (ring : Ring)
    (accepted frames : list HostTelemetryFrame) : Ring * list HostTelemetryFrame :=
  match frames with
  | [] => (ring, accepted)
  | frame :: rest =>
      let '(ring', updated) := Upsert ring retention frame in
      upserts retention ring' (if updated then accepted ++ [stored_frame ring frame] else accepted) rest
  end.

Lemma upserts_run retention ring accepted frames :
  RingRun retention ring accepted ->
  RingRun retention (upserts retention ring accepted frames).1
    (upserts retention ring accepted frames).2.
Proof.
  revert ring accepted. induction frames as [|f frames IH]; intros ring accepted H; [done|].
  cbn. destruct (Upsert ring retention f) as [ring' [|]] eqn:E; apply IH.
  - by eapply run_upsert.
  - by eapply run_refused.
Qed.

Definition fx_ring : Ring := (upserts fx_retention empty_ring [] fx_samples).1.

Lemma fx_ring_run : RingRun fx_retention fx_ring fx_samples.
Proof.
  assert (RingRun fx_retention empty_ring []) as H by (constructor; done).
  by apply (upserts_run _ _ _ fx_samples) in H.
Qed.

Lemma ring_history_exact_witness :
  ring_exact fx_ring fx_samples /\ within_capacity fx_retention fx_ring /\
  (tnb_dropped_frames_total <$> ring_nodes fx_ring) = [1; 0].
Proof.
  split; [|split; [|reflexivity]]; apply (ring_history_exact _ _ _ fx_ring_run).
Defined.

Lemma pruned_or_delivered retention ring accepted sequence nodes f node :
  RingRun retention ring accepted -> 0 < sequence -> node ∈ nodes -> node ∈ ring_nodes ring ->
  f ∈ frames_of (node_name node) accepted -> sequence < htf_sequence f ->
  (foldl (scan_node sequence) (0, false) nodes).2 = false ->
  f ∈ tnb_history node.
Proof.
  intros Hrun H0 Hn Hin Hf Hlt Hscan. apply ring_run_exact in Hrun as (Hex & _).
  pose proof (exact_nodes _ _ Hex) as Hnodes. rewrite Forall_forall in Hnodes.
  destruct (pruned_frame _ _ f (Hnodes _ Hin) Hf) as [|(front & rest & Hh & Hle)]; [done|].
  rewrite (scan_node_pruned sequence _ nodes node front rest) in Hscan; try done; lia.
Qed.

(** A stream client that asks for the frames after a sequence and is not told
    to replay receives every accepted frame with a higher sequence of every
    node that matches its plane, none else, in sequence order and within the
    batch limit. *)
Theorem stream_delta_complete retention ring accepted sequence plane :
  RingRun retention ring accepted -> 0 < sequence ->
  0 <= trc_stream_batch_limit retention ->
  let delta := LoadStreamDeltaAfter ring retention sequence plane in
  tsd_replay_required delta = false ->
  (forall node f, node ∈ ring_nodes ring -> MatchesPlane (tnb_latest node) plane = true ->
     f ∈ accepted -> htf_node_name f = node_name node -> sequence < htf_sequence f ->
     f ∈ tsd_frames delta) /\
  (forall f, f ∈ tsd_frames delta ->
     f ∈ accepted /\ sequence < htf_sequence f /\
     exists node, node ∈ ring_nodes ring /\ MatchesPlane (tnb_latest node) plane = true /\
       htf_node_name f = node_name node) /\
  StronglySorted not_newer (tsd_frames delta) /\
  Z.of_nat (length (tsd_frames delta)) <= trc_stream_batch_limit retention.
Proof.
  intros Hrun H0 Hl delta. unfold delta, LoadStreamDeltaAfter.
  set (matched := List.filter _ (ring_nodes ring)).
  destruct (foldl (scan_node sequence) (0, false) matched) as [first pruned] eqn:Escan.
  set (frames := matched ≫= _). cbn. intros [-> Htrunc]%orb_false_iff.
  destruct (newest_frames_spec _ frames Hl) as (omitted & Hp & Hs & _ & Hle & _ & Hnone).
  rewrite Hnone in Hp by lia. cbn in Hp. split_and!; [| |done..].
  - intros node f Hin Hm Hf Hname Hlt. rewrite <-Hp.
    assert (node ∈ matched) as Hmatched by (by apply elem_of_filterb).
    apply list_elem_of_bind. exists node. split; [|done]. apply elem_of_filterb. split; [|lia].
    eapply (pruned_or_delivered _ _ _ sequence matched); [done..| |done|by rewrite Escan].
    apply elem_of_filterb. split; [done|]. by apply eqb_true.
  - intros f. rewrite <-Hp. intros (node & [Hf Hlt]%elem_of_filterb & Hn)%list_elem_of_bind.
    apply elem_of_filterb in Hn as [Hin Hm]. apply ring_run_exact in Hrun as (Hex & _).
    pose proof (exact_nodes _ _ Hex) as Hnodes. rewrite Forall_forall in Hnodes.
    destruct (Hnodes _ Hin) as (pr & Hpr & _).
    assert (f ∈ frames_of (node_name node) accepted) as [Hacc Hname]%elem_of_filterb
      by (rewrite Hpr; set_solver).
    rewrite eqb_true in Hname. split_and!; [done | lia | by exists node].
Qed.

Lemma stream_delta_complete_witness :
  let delta := LoadStreamDeltaAfter fx_ring fx_retention 12 (Some "alpha") in
  tsd_replay_required delta = false /\ fx_sample "a" "alpha" 14 ∈ tsd_frames delta.
Proof.
  split; [reflexivity|].
  destruct (stream_delta_complete fx_retention fx_ring fx_samples 12 (Some "alpha") fx_ring_run
    eq_refl ltac:(discriminate) eq_refl) as [H _].
  eapply H; [left | reflexivity | | reflexivity | reflexivity].
  unfold fx_samples. set_solver.
Defined.

(** [LoadFramesAfter] returns stored frames of the plane newer than the
    requested sequence, in sequence order; when there are more than the batch
    limit it returns exactly that many, and no frame it leaves out is newer than
    one it returns. *)
Theorem load_frames_newest ring retention sequence plane :
  0 <= trc_stream_batch_limit retention ->
  let wanted f := exists node, node ∈ ring_nodes ring /\ f ∈ tnb_history node /\
    sequence < htf_sequence f /\ MatchesPlane f plane = true in
  let frames := LoadFramesAfter ring retention sequence plane in
  StronglySorted not_newer frames /\
  Z.of_nat (length frames) <= trc_stream_batch_limit retention /\
  (forall f, f ∈ frames -> wanted f) /\
  (forall f, wanted f -> f ∈ frames \/
     Z.of_nat (length frames) = trc_stream_batch_limit retention /\
     forall g, g ∈ frames -> not_newer f g).
Proof.
  intros Hl wanted frames. unfold frames, LoadFramesAfter. set (all := ring_nodes ring ≫= _).
  assert (forall f, f ∈ all <-> wanted f) as Hall.
  { intros f. unfold all, wanted. rewrite list_elem_of_bind.
    setoid_rewrite elem_of_filterb. setoid_rewrite andb_true_iff. setoid_rewrite Z.ltb_lt.
    naive_solver. }
  destruct (newest_frames_spec _ all Hl) as (omitted & Hp & Hs & Ho & Hle & Heq & _).
  split_and!; [done..| |]; intros f.
  - intros Hf. apply Hall. rewrite Hp. set_solver.
  - intros Hf%Hall. rewrite Hp in Hf. apply elem_of_app in Hf as [Hf|Hf]; [|by left]. right. split; [|auto].
    apply Heq. by intros ->; apply elem_of_nil in Hf.
Qed.

Lemma load_frames_newest_witness :
  let frames := LoadFramesAfter fx_ring (mkTelemetryRetentionConfig 2 1 16 1000 1000) 0 None in
  Z.of_nat (length frames) <= 1 /\ htf_sequence <$> frames = [14].
Proof.
  split; [|reflexivity].
  apply (load_frames_newest fx_ring (mkTelemetryRetentionConfig 2 1 16 1000 1000) 0 None).
  discriminate.
Defined.
