(* ===== verification/TelemetryStore.v ===== *)
(** * The telemetry live store

    [controller/src/telemetry/telemetry_live_store.cpp] with the services it
    composes: the operational configuration and its environment variables, the
    stream metrics, and the durable ring buffer in SQLite
    ([telemetry_persistence_repository.cpp]).  The store serialises its
    operations with one mutex; each is a function on the state.

    The databases are a map from paths to the table [telemetry_ring_buffer], keyed
    by its primary key [sequence].  What SQLite may refuse is an argument of an
    operation: [SqliteFault] says which of its statements throws, if any.  The
    environment ([std::getenv]) is the argument [getenv]. *)

From S2P Require Import Prelude Binary64 Json Planner RuntimeStatus TelemetryBuffer.

(** ** State *)

Record TelemetryAlertThresholds := mkTelemetryAlertThresholds {
  tat_stale_warning_ms : Z;
  tat_stale_critical_ms : Z;
  tat_ingest_warning_ms : Z;
  tat_queue_warning_ms : Z;
  tat_browser_apply_warning_ms : Z;
}.
Definition TelemetryAlertThresholds_default : TelemetryAlertThresholds :=
  mkTelemetryAlertThresholds 15000 60000 3000 1000 250.

Record TelemetryPersistenceState := mkTelemetryPersistenceState {
  tps_enabled : bool;
  tps_db_path : string;
  tps_retention_capacity : Z;
  tps_loaded_frames_total : Z;
  tps_persisted_frames_total : Z;
  tps_pruned_frames_total : Z;
  tps_error_count : Z;
  tps_last_error : string;
}.
Definition TelemetryPersistenceState_default : TelemetryPersistenceState :=
  mkTelemetryPersistenceState false "" 0 0 0 0 0 "".

Record TelemetryStreamState := mkTelemetryStreamState {
  tss_active_clients : Z;
  tss_opened_total : Z;
  tss_closed_total : Z;
  tss_replay_required_total : Z;
  tss_send_failure_total : Z;
  tss_reconnect_total : Z;
}.
Definition TelemetryStreamState_default : TelemetryStreamState :=
  mkTelemetryStreamState 0 0 0 0 0 0.

Record TelemetryStreamMetrics := mkTelemetryStreamMetrics {
  tsm_telemetry : TelemetryStreamState;
  tsm_live : TelemetryStreamState;
}.
Definition TelemetryStreamMetrics_default : TelemetryStreamMetrics :=
  mkTelemetryStreamMetrics TelemetryStreamState_default TelemetryStreamState_default.

(** [nodes], [latest_sequence] and [dropped_frames_total] are [tls_ring]. *)
Record TelemetryLiveStoreState := mkTelemetryLiveStoreState {
  tls_ring : Ring;
  tls_retention : TelemetryRetentionConfig;
  tls_thresholds : TelemetryAlertThresholds;
  tls_persistence : TelemetryPersistenceState;
  tls_streams : TelemetryStreamMetrics;
}.
Definition TelemetryLiveStoreState_default : TelemetryLiveStoreState :=
  mkTelemetryLiveStoreState empty_ring TelemetryRetentionConfig_default
    TelemetryAlertThresholds_default TelemetryPersistenceState_default
    TelemetryStreamMetrics_default.

(** ** [TelemetryStreamMetricsService] *)

Definition increment (z : Z) : Z := uint64_wrap (z + 1).

(** [MutableStreamState]: the stream the name refers to, updated. *)
Definition MutableStreamState (streams : TelemetryStreamMetrics) (stream_name : string)
    (update : TelemetryStreamState -> TelemetryStreamState) : TelemetryStreamMetrics :=
  if stream_name ==? "live"
  then mkTelemetryStreamMetrics (tsm_telemetry streams) (update (tsm_live streams))
  else mkTelemetryStreamMetrics (update (tsm_telemetry streams)) (tsm_live streams).

Definition RecordOpened (streams : TelemetryStreamMetrics) (stream_name : string) :=
  MutableStreamState streams stream_name (fun s =>
    mkTelemetryStreamState (increment (tss_active_clients s)) (increment (tss_opened_total s))
      (tss_closed_total s) (tss_replay_required_total s) (tss_send_failure_total s)
      (if 0 <? tss_opened_total s then increment (tss_reconnect_total s) else tss_reconnect_total s)).

Definition RecordClosed (streams : TelemetryStreamMetrics) (stream_name : string) :=
  MutableStreamState streams stream_name (fun s =>
    mkTelemetryStreamState
      (if 0 <? tss_active_clients s then tss_active_clients s - 1 else tss_active_clients s)
      (tss_opened_total s) (increment (tss_closed_total s)) (tss_replay_required_total s)
      (tss_send_failure_total s) (tss_reconnect_total s)).

Definition RecordReplayRequired (streams : TelemetryStreamMetrics) (stream_name : string) :=
  MutableStreamState streams stream_name (fun s =>
    mkTelemetryStreamState (tss_active_clients s) (tss_opened_total s) (tss_closed_total s)
      (increment (tss_replay_required_total s)) (tss_send_failure_total s) (tss_reconnect_total s)).

Definition RecordSendFailure (streams : TelemetryStreamMetrics) (stream_name : string) :=
  MutableStreamState streams stream_name (fun s =>
    mkTelemetryStreamState (tss_active_clients s) (tss_opened_total s) (tss_closed_total s)
      (tss_replay_required_total s) (increment (tss_send_failure_total s)) (tss_reconnect_total s)).

(** ** [TelemetryEnvironmentReader] and [TelemetryOperationalConfig] *)

(** [std::stoull]: leading white space, an optional sign (a minus negates in
    64-bit arithmetic), digits; it throws without digits or out of range. *)
Definition stoull (text : string) : result Z :=
  let l := skip_spaces (list_of_string text) in
  let '(negative, l) :=
    match l with
    | "-"%char :: l' => (true, l')
    | "+"%char :: l' => (false, l')
    | _ => (false, l)
    end in
  match read_digits None l with
  | None => Throw "stoull"
  | Some v =>
      if v <? 2 ^ 64 then Ok (if negative then uint64_wrap (- v) else v) else Throw "stoull"
  end.

Section environment.
Context (getenv : string -> option string).

Definition Uint64 (key : string) : result (option Z) :=
  match getenv key with
  | None => Ok None
  | Some value => if str_empty value then Ok None else v ← stoull value; Ok (Some v)
  end.

(** [std::size_t] is 64 bits wide. *)
Definition Size (key : string) : result (option Z) := Uint64 key.

Definition NormalizeRetention (retention : TelemetryRetentionConfig) : TelemetryRetentionConfig :=
  let warm := Z.max 1 (trc_warm_bucket_ms retention) in
  mkTelemetryRetentionConfig
    (Z.max 1 (trc_hot_history_capacity retention))
    (Z.max 1 (trc_stream_batch_limit retention))
    (Z.max 1 (trc_durable_history_capacity retention))
    warm
    (Z.max warm (trc_cold_bucket_ms retention)).

Definition RetentionFromEnvironment (retention : TelemetryRetentionConfig)
    : result TelemetryRetentionConfig :=
  hot ← Size "NAIM_TELEMETRY_HOT_HISTORY_CAPACITY";
  batch ← Size "NAIM_TELEMETRY_STREAM_BATCH_LIMIT";
  durable ← Size "NAIM_TELEMETRY_DURABLE_HISTORY_CAPACITY";
  warm ← Uint64 "NAIM_TELEMETRY_WARM_BUCKET_MS";
  cold ← Uint64 "NAIM_TELEMETRY_COLD_BUCKET_MS";
  Ok (NormalizeRetention (mkTelemetryRetentionConfig
    (value_or hot (trc_hot_history_capacity retention))
    (value_or batch (trc_stream_batch_limit retention))
    (value_or durable (trc_durable_history_capacity retention))
    (value_or warm (trc_warm_bucket_ms retention))
    (value_or cold (trc_cold_bucket_ms retention)))).

Definition ThresholdsFromEnvironment (thresholds : TelemetryAlertThresholds)
    : result TelemetryAlertThresholds :=
  stale_warning ← Uint64 "NAIM_TELEMETRY_STALE_WARNING_MS";
  stale_critical ← Uint64 "NAIM_TELEMETRY_STALE_CRITICAL_MS";
  ingest ← Uint64 "NAIM_TELEMETRY_INGEST_WARNING_MS";
  queue ← Uint64 "NAIM_TELEMETRY_QUEUE_WARNING_MS";
  browser ← Uint64 "NAIM_TELEMETRY_BROWSER_APPLY_WARNING_MS";
  Ok (mkTelemetryAlertThresholds
    (value_or stale_warning (tat_stale_warning_ms thresholds))
    (value_or stale_critical (tat_stale_critical_ms thresholds))
    (value_or ingest (tat_ingest_warning_ms thresholds))
    (value_or queue (tat_queue_warning_ms thresholds))
    (value_or browser (tat_browser_apply_warning_ms thresholds))).
End environment.

(** ** [TelemetryPersistenceRepository] *)

(** A row, without [created_at]. *)
Record TelemetryRow := mkTelemetryRow {
  row_node_name : string;
  row_plane_name : string;
  row_schema_version : string;
  row_sampled_at : string;
  row_frame_json : string;
}.
Abbreviation Table := (gmap Z TelemetryRow).
Abbreviation Databases := (gmap string (gmap Z TelemetryRow)).

(** Which statement throws: opening the database or creating its schema, the
    insertion (or the selection, when loading), the pruning. *)
Inductive SqliteFault := NoFault | FailOpen (what : string) | FailStatement (what : string)
  | FailPrune (what : string).

Definition SafeSequenceForSqlite (sequence : Z) : Z := Z.min sequence (2 ^ 63 - 1).

(** [ORDER BY sequence DESC LIMIT ?], in ascending order.  The limit is bound as
    a signed 64-bit integer; a negative limit is none. *)
Definition select_newest (capacity : Z) (table : Table) : list (Z * TelemetryRow) :=
  let rows := map_items table in
  if capacity <? 2 ^ 63 then drop (length rows - Z.to_nat capacity) rows else rows.

Section persistence.
Context `{Lib : !JsonLibrary}.

(** [INSERT ... ON CONFLICT(sequence) DO UPDATE]. *)
Definition insert_row (frame : HostTelemetryFrame) (frame_json : string) (table : Table) : Table :=
  <[SafeSequenceForSqlite (htf_sequence frame) :=
      mkTelemetryRow (htf_node_name frame) (htf_plane_name frame) (htf_schema_version frame)
        (htf_sampled_at frame) frame_json]> table.

Definition persistence_error (state : TelemetryPersistenceState) (what : string)
    : TelemetryPersistenceState :=
  mkTelemetryPersistenceState (tps_enabled state) (tps_db_path state) (tps_retention_capacity state)
    (tps_loaded_frames_total state) (tps_persisted_frames_total state)
    (tps_pruned_frames_total state) (increment (tps_error_count state)) what.

Definition PersistFrame (fault : SqliteFault) (dbs : Databases) (state : TelemetryPersistenceState)
    (frame : HostTelemetryFrame) : Databases * TelemetryPersistenceState :=
  if negb (tps_enabled state) || str_empty (tps_db_path state) then (dbs, state)
  else
    match fault with
    | FailOpen what => (dbs, persistence_error state what)
    | _ =>
      let table := default ∅ (dbs !! tps_db_path state) in
      let opened := <[tps_db_path state := table]> dbs in
      match SerializeHostTelemetryFrameJson frame, fault with
      | Throw what, _ => (opened, persistence_error state what)
      | Ok _, FailStatement what => (opened, persistence_error state what)
      | Ok frame_json, _ =>
        let inserted := insert_row frame frame_json table in
        match fault with
        | FailPrune what =>
            (<[tps_db_path state := inserted]> dbs, persistence_error state what)
        | _ =>
            let kept : Table :=
              list_to_map (select_newest (tps_retention_capacity state) inserted) in
            let changed := Z.of_nat (size inserted - size kept) in
            (<[tps_db_path state := kept]> dbs,
             mkTelemetryPersistenceState (tps_enabled state) (tps_db_path state)
               (tps_retention_capacity state) (tps_loaded_frames_total state)
               (increment (tps_persisted_frames_total state))
               (uint64_wrap (tps_pruned_frames_total state + changed))
               (tps_error_count state) "")
        end
      end
    end.

Definition LoadFrames (fault : SqliteFault) (dbs : Databases) (db_path : string)
    (retention_capacity : Z) : Databases * result (list HostTelemetryFrame) :=
  match fault with
  | FailOpen what => (dbs, Throw what)
  | _ =>
      let table := default ∅ (dbs !! db_path) in
      (<[db_path := table]> dbs,
       match fault with
       | FailStatement what => Throw what
       | _ => mapR (fun row => DeserializeHostTelemetryFrameJson (row_frame_json row.2))
                (select_newest retention_capacity table)
       end)
  end.

Definition Configure (fault : SqliteFault) (dbs : Databases) (state : TelemetryPersistenceState)
    (db_path : string) (retention_capacity : Z)
    : Databases * TelemetryPersistenceState * list HostTelemetryFrame :=
  let capacity := Z.max 1 retention_capacity in
  let state' enabled loaded errors last_error :=
    mkTelemetryPersistenceState enabled db_path capacity loaded
      (tps_persisted_frames_total state) (tps_pruned_frames_total state) errors last_error in
  let '(dbs, loaded) := LoadFrames fault dbs db_path capacity in
  match loaded with
  | Ok frames =>
      (dbs, state' true
         (uint64_wrap (tps_loaded_frames_total state + Z.of_nat (length frames)))
         (tps_error_count state) "", frames)
  | Throw what =>
      (dbs, state' false (tps_loaded_frames_total state) (increment (tps_error_count state)) what, [])
  end.

(** ** [TelemetryLiveStore] *)

Definition with_ring (state : TelemetryLiveStoreState) (ring : Ring) : TelemetryLiveStoreState :=
  mkTelemetryLiveStoreState ring (tls_retention state) (tls_thresholds state)
    (tls_persistence state) (tls_streams state).
Definition with_persistence (state : TelemetryLiveStoreState) (persistence : TelemetryPersistenceState)
    : TelemetryLiveStoreState :=
  mkTelemetryLiveStoreState (tls_ring state) (tls_retention state) (tls_thresholds state)
    persistence (tls_streams state).
Definition with_streams (state : TelemetryLiveStoreState) (streams : TelemetryStreamMetrics)
    : TelemetryLiveStoreState :=
  mkTelemetryLiveStoreState (tls_ring state) (tls_retention state) (tls_thresholds state)
    (tls_persistence state) streams.

Definition UpsertInMemoryLocked (state : TelemetryLiveStoreState) (frame : HostTelemetryFrame)
    : TelemetryLiveStoreState * bool :=
  let '(ring, updated) := TelemetryBuffer.Upsert (tls_ring state) (tls_retention state) frame in
  (with_ring state ring, updated).

Definition Upsert (fault : SqliteFault) (dbs : Databases) (state : TelemetryLiveStoreState)
    (frame : HostTelemetryFrame) : Databases * TelemetryLiveStoreState * bool :=
  if str_empty (htf_node_name frame) then (dbs, state, false)
  else
    let frame := Normalize frame in
    let '(state, updated) := UpsertInMemoryLocked state frame in
    if updated then
      let '(dbs, persistence) := PersistFrame fault dbs (tls_persistence state) frame in
      (dbs, with_persistence state persistence, true)
    else (dbs, state, false).

Definition ConfigurePersistenceLocked (fault : SqliteFault) (dbs : Databases)
    (state : TelemetryLiveStoreState) (db_path : string) (retention_capacity : Z)
    : Databases * TelemetryLiveStoreState :=
  let '(dbs, persistence, frames) :=
    Configure fault dbs (tls_persistence state) db_path retention_capacity in
  (dbs, foldl (fun state frame => (UpsertInMemoryLocked state (Normalize frame)).1)
          (with_persistence state persistence) frames).

Definition ConfigurePersistence := ConfigurePersistenceLocked.

Definition ConfigureOperationalPolicy (state : TelemetryLiveStoreState)
    (retention : TelemetryRetentionConfig) (thresholds : TelemetryAlertThresholds)
    : TelemetryLiveStoreState :=
  let retention := NormalizeRetention retention in
  mkTelemetryLiveStoreState (ApplyHotRetention (tls_ring state) retention) retention thresholds
    (tls_persistence state) (tls_streams state).

Definition ConfigureFromEnvironment (getenv : string -> option string) (fault : SqliteFault)
    (dbs : Databases) (state : TelemetryLiveStoreState) (db_path : string)
    : result (Databases * TelemetryLiveStoreState) :=
  retention ← RetentionFromEnvironment getenv (tls_retention state);
  thresholds ← ThresholdsFromEnvironment getenv (tls_thresholds state);
  Ok (ConfigurePersistence fault dbs (ConfigureOperationalPolicy state retention thresholds) db_path
        (trc_durable_history_capacity retention)).

Definition ResetForTests (state : TelemetryLiveStoreState) : TelemetryLiveStoreState :=
  TelemetryLiveStoreState_default.

Definition RecordStreamOpened (state : TelemetryLiveStoreState) (stream_name : string) :=
  with_streams state (RecordOpened (tls_streams state) stream_name).
Definition RecordStreamClosed (state : TelemetryLiveStoreState) (stream_name : string) :=
  with_streams state (RecordClosed (tls_streams state) stream_name).
Definition RecordStreamReplayRequired (state : TelemetryLiveStoreState) (stream_name : string) :=
  with_streams state (RecordReplayRequired (tls_streams state) stream_name).
Definition RecordStreamSendFailure (state : TelemetryLiveStoreState) (stream_name : string) :=
  with_streams state (RecordSendFailure (tls_streams state) stream_name).
End persistence.

(** ** Runs of the store *)

Section runs.
Context `{Lib : !JsonLibrary}.

(** The accepted frames after a (re)configuration of the persistence: the loaded
    frames go through the ring buffer. *)
Definition accepted_after_load (fault : SqliteFault) (dbs : Databases)
    (state : TelemetryLiveStoreState) (accepted : list HostTelemetryFrame) (db_path : string)
    (retention_capacity : Z) : list HostTelemetryFrame :=
  (upserts (tls_retention state) (tls_ring state) accepted
     (Normalize <$> (Configure fault dbs (tls_persistence state) db_path retention_capacity).2)).2.

(** [StoreRun dbs state accepted]: a sequence of operations of the store, with
    any faults of SQLite and any environment, leads to [dbs] and [state] and has
    accepted the frames [accepted] since the start or the last reset. *)
Inductive StoreRun : Databases -> TelemetryLiveStoreState -> list HostTelemetryFrame -> Prop :=
  | store_start dbs : StoreRun dbs TelemetryLiveStoreState_default []
  | store_upsert fault dbs state accepted frame dbs' state' updated :
      StoreRun dbs state accepted -> Upsert fault dbs state frame = (dbs', state', updated) ->
      StoreRun dbs' state'
        (if updated then accepted ++ [stored_frame (tls_ring state) (Normalize frame)] else accepted)
  | store_persistence fault dbs state accepted db_path capacity dbs' state' :
      StoreRun dbs state accepted ->
      ConfigurePersistence fault dbs state db_path capacity = (dbs', state') ->
      StoreRun dbs' state' (accepted_after_load fault dbs state accepted db_path capacity)
  | store_policy dbs state accepted retention thresholds :
      StoreRun dbs state accepted ->
      StoreRun dbs (ConfigureOperationalPolicy state retention thresholds) accepted
  | store_environment getenv fault dbs state accepted db_path retention thresholds dbs' state' :
      StoreRun dbs state accepted ->
      RetentionFromEnvironment getenv (tls_retention state) = Ok retention ->
      ThresholdsFromEnvironment getenv (tls_thresholds state) = Ok thresholds ->
      ConfigureFromEnvironment getenv fault dbs state db_path = Ok (dbs', state') ->
      StoreRun dbs' state'
        (accepted_after_load fault dbs (ConfigureOperationalPolicy state retention thresholds)
           accepted db_path (trc_durable_history_capacity retention))
  | store_reset dbs state accepted :
      StoreRun dbs state accepted -> StoreRun dbs (ResetForTests state) []
  | store_stream dbs state accepted state' stream_name :
      StoreRun dbs state accepted ->
      state' ∈ [RecordStreamOpened state stream_name; RecordStreamClosed state stream_name;
                RecordStreamReplayRequired state stream_name;
                RecordStreamSendFailure state stream_name] ->
      StoreRun dbs state' accepted.

(** What [NormalizeRetention] guarantees. *)
Definition retention_normal (retention : TelemetryRetentionConfig) : Prop :=
  1 <= trc_hot_history_capacity retention /\ 1 <= trc_stream_batch_limit retention /\
  1 <= trc_durable_history_capacity retention /\ 1 <= trc_warm_bucket_ms retention /\
  trc_warm_bucket_ms retention <= trc_cold_bucket_ms retention.

Definition store_inv (state : TelemetryLiveStoreState) (accepted : list HostTelemetryFrame) : Prop :=
  RingRun (tls_retention state) (tls_ring state) accepted /\ retention_normal (tls_retention state).

Lemma NormalizeRetention_normal retention : retention_normal (NormalizeRetention retention).
Proof. unfold retention_normal, NormalizeRetention. cbn. lia. Qed.

Lemma policy_inv state accepted retention thresholds :
  store_inv state accepted ->
  store_inv (ConfigureOperationalPolicy state retention thresholds) accepted.
Proof.
  intros [Hrun _]. pose proof (NormalizeRetention_normal retention) as Hn. split; [|done].
  cbn. eapply run_retention; [done|]. apply Hn.
Qed.

Lemma upsert_in_memory_inv state accepted frame :
  store_inv state accepted ->
  store_inv (UpsertInMemoryLocked state frame).1
    (if (UpsertInMemoryLocked state frame).2 then accepted ++ [stored_frame (tls_ring state) frame]
     else accepted).
Proof.
  intros [Hrun Hn]. unfold UpsertInMemoryLocked.
  destruct (TelemetryBuffer.Upsert _ _ _) as [ring [|]] eqn:E; (split; [|done]).
  - by eapply run_upsert.
  - by eapply run_refused.
Qed.

(** Loading frames is a run of upserts on the ring buffer. *)
Lemma load_upserts frames state accepted :
  let state' := foldl (fun state frame => (UpsertInMemoryLocked state (Normalize frame)).1) state frames in
  tls_ring state' = (upserts (tls_retention state) (tls_ring state) accepted (Normalize <$> frames)).1 /\
  tls_retention state' = tls_retention state.
Proof.
  revert state accepted. induction frames as [|f frames IH]; intros state accepted; [done|].
  cbn [foldl fmap list_fmap upserts].
  destruct (TelemetryBuffer.Upsert (tls_ring state) (tls_retention state) (Normalize f))
    as [ring updated] eqn:E.
  replace (UpsertInMemoryLocked state (Normalize f)).1 with (with_ring state ring)
    by (unfold UpsertInMemoryLocked; by rewrite E).
  apply (IH (with_ring state ring)).
Qed.

Lemma configure_persistence_inv fault dbs state accepted db_path capacity :
  store_inv state accepted ->
  store_inv (ConfigurePersistence fault dbs state db_path capacity).2
    (accepted_after_load fault dbs state accepted db_path capacity).
Proof.
  intros [Hrun Hn]. unfold ConfigurePersistence, ConfigurePersistenceLocked, accepted_after_load.
  destruct (Configure _ _ _ _ _) as [[dbs' persistence] frames]. cbn [snd].
  destruct (load_upserts frames (with_persistence state persistence) accepted) as [Hr Hret].
  unfold store_inv. rewrite Hr, Hret. split; [|done]. by apply upserts_run.
Qed.

Lemma upsert_inv fault dbs state accepted frame dbs' state' updated :
  store_inv state accepted -> Upsert fault dbs state frame = (dbs', state', updated) ->
  store_inv state'
    (if updated then accepted ++ [stored_frame (tls_ring state) (Normalize frame)] else accepted).
Proof.
  intros Hinv. unfold Upsert. destruct (str_empty (htf_node_name frame)); [by intros [= <- <- <-]|].
  pose proof (upsert_in_memory_inv state accepted (Normalize frame) Hinv) as Hmem.
  destruct (UpsertInMemoryLocked _ _) as [state1 [|]]; cbn in Hmem.
  - destruct (PersistFrame _ _ _ _) as [dbs1 persistence]. by intros [= <- <- <-].
  - by intros [= <- <- <-].
Qed.

Lemma store_run_inv dbs state accepted : StoreRun dbs state accepted -> store_inv state accepted.
Proof.
  induction 1 as [dbs | fault dbs state accepted frame dbs' state' updated _ IH HU
                 | fault dbs state accepted db_path capacity dbs' state' _ IH HC
                 | dbs state accepted retention thresholds _ IH
                 | getenv fault dbs state accepted db_path retention thresholds dbs' state' _ IH Hr Ht HC
                 | dbs state accepted _ _ | dbs state accepted state' stream_name _ IH Hs].
  - split; [by constructor | unfold retention_normal; cbn; lia].
  - by eapply upsert_inv.
  - pose proof (configure_persistence_inv fault dbs state accepted db_path capacity IH) as H.
    by rewrite HC in H.
  - by apply policy_inv.
  - pose proof (configure_persistence_inv fault dbs _ accepted db_path
      (trc_durable_history_capacity retention) (policy_inv _ _ retention thresholds IH)) as H.
    unfold ConfigureFromEnvironment in HC. rewrite Hr, Ht, !bind_ok in HC.
    injection HC as HC. by rewrite HC in H.
  - split; [by constructor | unfold retention_normal; cbn; lia].
  - unfold store_inv in *. set_unfold in Hs. destruct Hs as [->|[->|[->|[->|[]]]]]; done.
Qed.
End runs.

(** ** The durable table *)

Lemma list_to_map_items (table : Table) : list_to_map (map_items table) = table.
Proof.
  rewrite <-(list_to_map_to_list table) at 2. symmetry. apply list_to_map_proper.
  - apply NoDup_fst_map_to_list.
  - unfold map_items. by rewrite std_sort_perm.
Qed.

Lemma length_map_items (table : Table) : length (map_items table) = size table.
Proof. unfold map_items. by rewrite length_std_sort, length_map_to_list. Qed.

Lemma select_all capacity (table : Table) :
  Z.of_nat (size table) <= capacity -> select_newest capacity table = map_items table.
Proof.
  intros H. unfold select_newest. destruct (_ <? _); [|done].
  rewrite length_map_items. replace (size table - Z.to_nat capacity)%nat with 0%nat by lia. done.
Qed.

Section durable.
Context `{Lib : !JsonLibrary}.

Definition enabled_at (path : string) (capacity : Z) (state : TelemetryPersistenceState) : Prop :=
  tps_enabled state = true /\ tps_db_path state = path /\ path <> "" /\
  tps_retention_capacity state = capacity.

(** [PersistFrame] on an enabled database that serialises the frame and has room. *)
Lemma persist_frame_room dbs state frame text path capacity table :
  enabled_at path capacity state -> SerializeHostTelemetryFrameJson frame = Ok text ->
  default ∅ (dbs !! path) = table ->
  Z.of_nat (size (insert_row frame text table)) <= capacity ->
  exists state', PersistFrame NoFault dbs state frame =
      (<[path := insert_row frame text table]> dbs, state') /\ enabled_at path capacity state'.
Proof.
  intros (He & Hp & Hne & Hc) Hs Ht Hroom. unfold PersistFrame.
  rewrite He, Hp, Hs, Hc. apply str_empty_false in Hne as Hne'. rewrite Hne'. cbn [negb orb].
  rewrite Ht, select_all, list_to_map_items by lia. eexists. split; [reflexivity|]. by split_and!.
Qed.

Definition persist_all (dbs : Databases) (state : TelemetryPersistenceState)
    (frames : list HostTelemetryFrame) : Databases * TelemetryPersistenceState :=
  foldl (fun acc frame => PersistFrame NoFault acc.1 acc.2 frame) (dbs, state) frames.

Definition row_of (frame : HostTelemetryFrame) : TelemetryRow :=
  mkTelemetryRow (htf_node_name frame) (htf_plane_name frame) (htf_schema_version frame)
    (htf_sampled_at frame)
    (match SerializeHostTelemetryFrameJson frame with Ok text => text | Throw _ => "" end).
Definition key_of (frame : HostTelemetryFrame) : Z := SafeSequenceForSqlite (htf_sequence frame).

Lemma size_map_of_list (frames : list HostTelemetryFrame) :
  (size (map_of_list_by key_of row_of frames : gmap Z TelemetryRow) <= length frames)%nat.
Proof.
  induction frames as [|f frames IH] using rev_ind; [done|].
  rewrite map_of_list_by_snoc, length_app. cbn.
  destruct (map_of_list_by key_of row_of frames !! key_of f) eqn:E.
  - rewrite map_size_insert_Some by (by eexists). lia.
  - rewrite map_size_insert_None by done. lia.
Qed.

(** With room for all of them the table holds the last frame of each sequence. *)
Lemma persist_all_table dbs state frames path capacity :
  enabled_at path capacity state -> default ∅ (dbs !! path) = ∅ ->
  Forall (fun frame => is_ok (SerializeHostTelemetryFrameJson frame) = true) frames ->
  Z.of_nat (length frames) <= capacity ->
  default ∅ ((persist_all dbs state frames).1 !! path) = map_of_list_by key_of row_of frames /\
  enabled_at path capacity (persist_all dbs state frames).2.
Proof.
  intros He Hempty. induction frames as [|f frames IH] using rev_ind; intros Hok Hlen; [done|].
  apply Forall_app in Hok as [Hok [Hf _]%Forall_cons]. rewrite length_app in Hlen. cbn in Hlen.
  destruct (IH Hok ltac:(lia)) as [Ht He']. unfold persist_all in *. rewrite foldl_app. cbn [foldl].
  destruct (SerializeHostTelemetryFrameJson f) as [text|] eqn:Es; [|done].
  assert (insert_row f text (map_of_list_by key_of row_of frames) =
          map_of_list_by key_of row_of (frames ++ [f])) as Hins.
  { rewrite map_of_list_by_snoc. unfold insert_row, row_of. by rewrite Es. }
  destruct (persist_frame_room _ _ f text path capacity _ He' Es Ht) as (state' & -> & He'').
  - rewrite Hins. pose proof (size_map_of_list (frames ++ [f])) as H.
    rewrite length_app in H. cbn in H. lia.
  - cbn. rewrite lookup_insert_eq. cbn. rewrite Hins. done.
Qed.
End durable.

Lemma sorted_fmap {A B} (R : A -> A -> Prop) (R' : B -> B -> Prop) (f : A -> B) l :
  (forall x y, R x y -> R' (f x) (f y)) -> StronglySorted R l -> StronglySorted R' (f <$> l).
Proof.
  intros HR. induction 1 as [|x l Hl IH Hx]; [constructor|]. rewrite fmap_cons. constructor; [done|].
  apply Forall_fmap. eapply Forall_impl; [exact Hx | cbn; auto].
Qed.

(** A table keyed by distinct sequences is read in sequence order. *)
Lemma map_items_by_sequence `{Lib : !JsonLibrary} (frames : list HostTelemetryFrame) :
  NoDup (key_of <$> frames) ->
  map_items (map_of_list_by key_of row_of frames : Table) =
  (fun frame => (key_of frame, row_of frame)) <$> std_sort SequenceLess frames.
Proof.
  intros Hnd. unfold map_items. symmetry. apply std_sort_unique.
  - apply swo_proj. exact _.
  - intros [k v] [k' v'] Hx Hy Hkk Hkk'. apply elem_of_map_to_list in Hx, Hy. cbn in *.
    assert (k = k') as -> by lia. by simplify_eq.
  - apply NoDup_Permutation.
    + apply (NoDup_fmap_1 fst). rewrite <-list_fmap_compose.
      change (NoDup (key_of <$> std_sort SequenceLess frames)). by rewrite std_sort_perm.
    + apply NoDup_map_to_list.
    + intros [k v]. rewrite elem_of_map_to_list, list_elem_of_fmap. split.
      * intros (f & [= -> ->] & Hf%elem_of_std_sort). by apply map_of_list_by_lookup.
      * intros (f & Hf & <- & <-)%map_of_list_by_Some. exists f. by rewrite elem_of_std_sort.
  - eapply sorted_fmap; [|apply std_sort_sorted; exact _].
    intros f g. unfold not_after, SequenceLess, key_of, SafeSequenceForSqlite. cbn. lia.
Qed.

Lemma load_rows `{Lib : !JsonLibrary} (frames : list HostTelemetryFrame) :
  Forall (fun frame => is_ok (SerializeHostTelemetryFrameJson frame) = true) frames ->
  Forall (fun frame => HostTelemetryFrame_ok frame = true) frames ->
  mapR (fun row => DeserializeHostTelemetryFrameJson (row_frame_json row.2))
    ((fun frame => (key_of frame, row_of frame)) <$> frames) =
  Ok ((fun frame => derive_plane_counts (fill_identity frame)) <$> frames).
Proof.
  intros Hs Hok. apply mapR_Forall2. induction frames as [|f frames IH]; [constructor|].
  apply Forall_cons in Hs as [Hf Hs], Hok as [Hfo Hok]. rewrite !fmap_cons. constructor; [|auto].
  unfold row_of. cbn. destruct (SerializeHostTelemetryFrameJson f) as [text|] eqn:E; [|done].
  by apply frame_text_roundtrip.
Qed.

(** ** Theorems *)

(** The frames of a node come in increasing sequence, the latest one last. *)
Lemma exact_latest_bound ring accepted node f :
  ring_exact ring accepted -> node ∈ ring_nodes ring -> f ∈ accepted ->
  htf_node_name f = TelemetryBuffer.node_name node -> htf_sequence f <= htf_sequence (tnb_latest node).
Proof.
  intros Hex Hn Hf Hname. pose proof (exact_nodes _ _ Hex) as Hnodes. rewrite Forall_forall in Hnodes.
  destruct (Hnodes _ Hn) as (pruned & Hh & Hlast & Hsort & _).
  assert (f ∈ frames_of (TelemetryBuffer.node_name node) accepted) as Hin
    by (apply elem_of_filterb; split; [done|by apply eqb_true]).
  apply last_Some in Hlast as [history Hlast]. rewrite Hlast, app_assoc in Hh, Hsort. rewrite Hh in Hin.
  apply elem_of_app in Hin as [Hin|Hin%list_elem_of_singleton]; [|subst; lia].
  apply StronglySorted_app in Hsort as (Hs & _ & _). specialize (Hs f (tnb_latest node) Hin ltac:(left)).
  unfold older in Hs. lia.
Qed.

(** A frame is accepted exactly when it is newer than all accepted ones of its node. *)
Lemma upsert_accepts ring accepted retention frame ring' updated :
  ring_exact ring accepted -> TelemetryBuffer.Upsert ring retention frame = (ring', updated) ->
  (updated = true <->
   forall f, f ∈ accepted -> htf_node_name f = htf_node_name frame -> htf_sequence f < htf_sequence frame).
Proof.
  intros Hex HU. unfold TelemetryBuffer.Upsert in HU.
  destruct (find_if (node_named (htf_node_name frame)) (ring_nodes ring)) as [node|] eqn:Ef.
  - apply find_if_Some in Ef as [Hname Hn]. unfold node_named in Hname. rewrite eqb_true in Hname.
    assert (TelemetryBuffer.node_name node = htf_node_name frame) as Hnode by done.
    destruct (Z.leb_spec (htf_sequence frame) (htf_sequence (tnb_latest node))) as [Hle|Hlt]; injection HU as <- <-.
    + split; [done|]. intros H. exfalso.
      pose proof (exact_nodes _ _ Hex) as Hnodes. rewrite Forall_forall in Hnodes.
      destruct (Hnodes _ Hn) as (pruned & Hh & Hlast & _).
      assert (tnb_latest node ∈ frames_of (TelemetryBuffer.node_name node) accepted) as [Hin _]%elem_of_filterb.
      { rewrite Hh. apply elem_of_app. right. by apply last_Some_elem_of. }
      specialize (H _ Hin Hname). lia.
    + split; [|done]. intros _ f Hf Hfn.
      pose proof (exact_latest_bound _ _ node f Hex Hn Hf ltac:(congruence)). lia.
  - injection HU as <- <-. split; [|done]. intros _ f Hf Hfn. exfalso.
    pose proof (exact_known _ _ Hex f Hf) as (node & Hname & Hn)%list_elem_of_fmap.
    rewrite find_if_None in Ef. specialize (Ef _ Hn). unfold node_named in Ef. rewrite eqb_false in Ef.
    apply Ef. by rewrite <-Hfn, Hname.
Qed.

(** C38. Whatever operations are called since the start or the last reset, in whatever
    order, under whatever environment and faults of the database: the buffer of a node
    holds exactly the frames accepted for it, in strictly increasing sequence, less a front
    part that was pruned, which its counters account for, and no more than the capacity
    in force, which is at least one; a new frame is accepted exactly when its sequence is
    above those of all accepted frames of its node. *)
Theorem store_history_exact `{Lib : !JsonLibrary} dbs state accepted :
  StoreRun dbs state accepted ->
  ring_exact (tls_ring state) accepted /\ within_capacity (tls_retention state) (tls_ring state) /\
  retention_normal (tls_retention state) /\
  forall fault frame dbs' state' updated,
    htf_node_name frame <> "" -> Upsert fault dbs state frame = (dbs', state', updated) ->
    (updated = true <->
     forall f, f ∈ accepted -> htf_node_name f = htf_node_name frame -> htf_sequence f < htf_sequence frame).
Proof.
  intros Hrun. destruct (store_run_inv _ _ _ Hrun) as [Hring Hn]. apply ring_run_exact in Hring as (Hex & Hc & _).
  split_and!; [done..|]. intros fault frame dbs' state' updated Hname HU. unfold Upsert in HU.
  apply str_empty_false in Hname. rewrite Hname in HU. unfold UpsertInMemoryLocked in HU.
  destruct (TelemetryBuffer.Upsert (tls_ring state) (tls_retention state) (Normalize frame)) as [ring' u] eqn:E.
  pose proof (upsert_accepts _ _ _ _ _ _ Hex E) as Ha. destruct u.
  - destruct (PersistFrame _ _ _ _) as [? ?]. injection HU as _ _ <-. done.
  - injection HU as _ _ <-. done.
Qed.

Definition fx_env (key : string) : option string :=
  if key ==? "NAIM_TELEMETRY_HOT_HISTORY_CAPACITY" then Some " 2" else None.

(** Three frames, the second of them stale. *)
Definition fx_store : Databases * TelemetryLiveStoreState * list HostTelemetryFrame :=
  foldl (fun '(dbs, state, accepted) frame =>
    let '(dbs', state', updated) := Upsert (Lib:=tree_json) NoFault dbs state frame in
    (dbs', state', if updated then accepted ++ [stored_frame (tls_ring state) (Normalize frame)] else accepted))
    (∅, TelemetryLiveStoreState_default, []) [fx_sample "a" "alpha" 10; fx_sample "a" "alpha" 9; fx_sample "a" "alpha" 12].

Lemma fx_store_run : StoreRun (Lib:=tree_json) fx_store.1.1 fx_store.1.2 fx_store.2.
Proof.
  unfold fx_store. cbn [foldl].
  repeat (match goal with |- context [Upsert ?a ?b ?c ?d] => let E := fresh "E" in
    destruct (Upsert a b c d) as [[? ?] ?] eqn:E; cbn [fst snd] in * end).
  do 3 (eapply (store_upsert (Lib:=tree_json)); [|eassumption]). apply store_start.
Qed.

Lemma store_history_exact_witness :
  ring_exact (tls_ring fx_store.1.2) fx_store.2 /\ htf_sequence <$> fx_store.2 = [10; 12].
Proof.
  split; [|vm_compute; reflexivity]. apply (store_history_exact (Lib:=tree_json) _ _ _ fx_store_run).
Defined.

(** Frames with distinct sequences that were persisted without faults, no
    more of them than the table keeps, are loaded after a restart: all of them,
    in sequence order, each as its JSON form carries it. *)
Theorem durable_frames_reload `{Lib : !JsonLibrary} dbs state path capacity
    (frames : list HostTelemetryFrame) :
  enabled_at path capacity state -> default ∅ (dbs !! path) = ∅ ->
  Forall (fun frame => is_ok (SerializeHostTelemetryFrameJson frame) = true) frames ->
  Forall (fun frame => HostTelemetryFrame_ok frame = true) frames ->
  Forall (fun frame => htf_sequence frame < 2 ^ 63) frames ->
  NoDup (htf_sequence <$> frames) ->
  Z.of_nat (length frames) <= capacity ->
  (LoadFrames NoFault (persist_all dbs state frames).1 path capacity).2 =
  Ok ((fun frame => derive_plane_counts (fill_identity frame)) <$> std_sort SequenceLess frames).
Proof.
  intros He Hempty Hs Hok Hseq Hnd Hlen.
  destruct (persist_all_table dbs state frames path capacity He Hempty Hs Hlen) as [Ht _].
  assert (key_of <$> frames = htf_sequence <$> frames) as Hkeys.
  { apply Forall_fmap_ext_1. eapply Forall_impl; [exact Hseq|]. intros f Hf. cbn in Hf.
    unfold key_of, SafeSequenceForSqlite. lia. }
  unfold LoadFrames. cbn [snd]. rewrite Ht, select_all, map_items_by_sequence.
  - apply load_rows; by rewrite std_sort_perm.
  - by rewrite Hkeys.
  - pose proof (size_map_of_list frames). lia.
Qed.

Definition fx_persistence : TelemetryPersistenceState :=
  mkTelemetryPersistenceState true "/db" 4 0 0 0 0 "".
Definition fx_later : list HostTelemetryFrame := [fx_sample "a" "alpha" 12; fx_sample "b" "beta" 11].

Lemma durable_frames_reload_witness :
  (LoadFrames (Lib:=tree_json) NoFault (persist_all (Lib:=tree_json) ∅ fx_persistence fx_later).1
     "/db" 4).2 =
  Ok [fx_sample "b" "beta" 11; fx_sample "a" "alpha" 12].
Proof.
  rewrite (durable_frames_reload (Lib:=tree_json) ∅ fx_persistence "/db" 4 fx_later).
  - reflexivity.
  - by split_and!.
  - reflexivity.
  - repeat constructor.
  - repeat constructor.
  - repeat constructor.
  - apply (bool_decide_unpack _). vm_compute. exact I.
  - discriminate.
Defined.

(** The primary key of the durable table is the sequence alone: when two nodes
    report frames with the same sequence, the store accepts both in memory, but
    only the later one is in the table and comes back after a restart. *)
Theorem equal_sequences_overwrite `{Lib : !JsonLibrary} retention ring ring' dbs state path capacity f g :
  enabled_at path capacity state -> default ∅ (dbs !! path) = ∅ -> 2 <= capacity ->
  is_ok (SerializeHostTelemetryFrameJson f) = true ->
  is_ok (SerializeHostTelemetryFrameJson g) = true ->
  HostTelemetryFrame_ok g = true ->
  htf_sequence f = htf_sequence g -> htf_node_name f <> htf_node_name g ->
  ring_nodes ring = [] -> TelemetryBuffer.Upsert ring retention f = (ring', true) ->
  (TelemetryBuffer.Upsert ring' retention g).2 = true /\
  (LoadFrames NoFault (persist_all dbs state [f; g]).1 path capacity).2 =
  Ok [derive_plane_counts (fill_identity g)].
Proof.
  intros He Hempty Hc Hf Hg Hok Hseq Hname Hring HU. split.
  - unfold TelemetryBuffer.Upsert, ApplyHotRetention in HU. rewrite Hring in HU.
    cbn [find_if push_frame ring_nodes prune_nodes] in HU.
    destruct (prune_history _ _ _ _ _) as [[[h d] p] t]. injection HU as <-.
    unfold TelemetryBuffer.Upsert. cbn [ring_nodes find_if tnb_latest]. unfold node_named.
    cbn [tnb_latest]. apply eqb_false in Hname. by rewrite Hname.
  - destruct (persist_all_table dbs state [f; g] path capacity He Hempty) as [Ht _];
      [by repeat constructor | cbn; lia |].
    unfold LoadFrames. cbn [snd]. rewrite Ht.
    assert (key_of f = key_of g) as Hk by (unfold key_of; by rewrite Hseq).
    assert (map_of_list_by key_of row_of [f; g] = map_of_list_by key_of row_of [g]) as ->.
    { unfold map_of_list_by. cbn. by rewrite Hk, insert_insert_eq. }
    rewrite select_all, map_items_by_sequence.
    + apply (load_rows [g]); by repeat constructor.
    + repeat constructor. set_solver.
    + pose proof (size_map_of_list [g]) as H. cbn [length] in H. lia.
Qed.

Lemma equal_sequences_overwrite_witness :
  (LoadFrames (Lib:=tree_json) NoFault
     (persist_all (Lib:=tree_json) ∅ fx_persistence [fx_sample "a" "alpha" 7; fx_sample "b" "beta" 7]).1
     "/db" 4).2 = Ok [fx_sample "b" "beta" 7].
Proof.
  eapply (equal_sequences_overwrite (Lib:=tree_json) fx_retention empty_ring _ ∅ fx_persistence "/db" 4
    (fx_sample "a" "alpha" 7) (fx_sample "b" "beta" 7)); try reflexivity; try discriminate.
  by split_and!.
Defined.
