(* ===== verification/TelemetryViews.v ===== *)
(** * The views of the telemetry live store

    What the controller shows of the store: node health, alerts, plane
    aggregates, the downsampled history, the snapshot and the health document,
    and the OpenMetrics text
    ([controller/src/telemetry/telemetry_*_builder.cpp],
    [telemetry_history_downsampler.cpp], [telemetry_frame_health_policy.cpp],
    [telemetry_open_metrics_exporter.cpp]).  The views are JSON values built as
    the sources build them; the clock is the argument [now_ms].  The vectors of
    pointers to node buffers are lists of buffers (no pointer is ever null). *)

From S2P Require Import Prelude Binary64 Json RuntimeStatus TelemetryBuffer TelemetryStore.

(** ** [TelemetryFrameHealthPolicy] *)

Definition HasGpuBoundRuntime (frame : HostTelemetryFrame) : bool :=
  any_of (fun runtime => negb (str_empty (rps_gpu_device runtime))) (htf_instance_runtime frame).

Definition HasActionableDegradedReason (frame : HostTelemetryFrame) : bool :=
  if str_empty (htf_degraded_reason frame) then false
  else if htf_degraded_reason frame !=? "gpu:unavailable" then true
  else negb (vec_empty (gts_devices (htf_gpu frame))) || HasGpuBoundRuntime frame.

(** ** [TelemetryNodeHealthBuilder] *)

(** The positive part of the time to live, as a 64-bit value. *)
Definition frame_ttl (frame : HostTelemetryFrame) : Z :=
  if 0 <? htf_ttl_ms frame then htf_ttl_ms frame else 0.

Definition frame_stale (frame : HostTelemetryFrame) (now_ms : Z) : bool :=
  (htf_sequence frame =? 0) || (frame_ttl frame =? 0) ||
  (uint64_wrap (htf_sequence frame + frame_ttl frame) <=? now_ms).

Definition node_status (frame : HostTelemetryFrame) (now_ms : Z) : string :=
  if frame_stale frame now_ms then "stale"
  else if negb (str_empty (htf_last_publish_error frame)) || HasActionableDegradedReason frame
  then "degraded" else "ok".

Definition NodeHealth_Build (frame : HostTelemetryFrame) (buffer : TelemetryNodeBuffer)
    (now_ms controller_ingest_delay_ms : Z) : json :=
  JObject [
    ("status", JString (node_status frame now_ms));
    ("last_frame_age_ms", JInt controller_ingest_delay_ms);
    ("dropped_frames_total", JInt (tnb_dropped_frames_total buffer));
    ("publisher_dropped_frames_total", JInt (htf_telemetry_dropped_frames frame));
    ("publish_error_count", JInt (htf_publish_error_count frame));
    ("publish_error", JString (htf_last_publish_error frame));
    ("degraded_reason", JString (htf_degraded_reason frame))].

(** ** [TelemetryNodeAlertBuilder] *)

Definition interval_or_adaptive (frame : HostTelemetryFrame) : Z :=
  if 0 <? htf_adaptive_interval_ms frame then htf_adaptive_interval_ms frame
  else Z.max 0 (htf_interval_ms frame).

Definition IngestWarningBudgetMs (frame : HostTelemetryFrame) (thresholds : TelemetryAlertThresholds)
    : Z :=
  Z.max (tat_ingest_warning_ms thresholds)
    (uint64_wrap (uint64_wrap (interval_or_adaptive frame * 2) + tat_ingest_warning_ms thresholds)).

Definition QueueWarningBudgetMs (frame : HostTelemetryFrame) (thresholds : TelemetryAlertThresholds)
    : Z :=
  Z.max (tat_queue_warning_ms thresholds) (interval_or_adaptive frame / 2).

Definition HasActivePublishError (frame : HostTelemetryFrame) : bool :=
  (0 <? htf_publish_error_count frame) && negb (str_empty (htf_last_publish_error frame)).

(** The fields every node alert starts with. *)
Definition node_alert (code severity : string) (frame : HostTelemetryFrame)
    (details : list (string * json)) : json :=
  JObject ([("code", JString code); ("severity", JString severity);
            ("node_name", JString (htf_node_name frame));
            ("plane_name", JString (PlaneKeyForFrame frame))] ++ details).

Definition NodeAlert_Build (buffer : TelemetryNodeBuffer) (thresholds : TelemetryAlertThresholds)
    (now_ms : Z) : list json :=
  let frame := tnb_latest buffer in
  let ingest_ms := ControllerIngestDelayMs frame now_ms in
  let ingest_warning_budget_ms := IngestWarningBudgetMs frame thresholds in
  let queue_warning_budget_ms := QueueWarningBudgetMs frame thresholds in
  (if tat_stale_critical_ms thresholds <=? ingest_ms
   then [node_alert "telemetry.node.stale" "critical" frame [("age_ms", JInt ingest_ms)]]
   else if tat_stale_warning_ms thresholds <=? ingest_ms
   then [node_alert "telemetry.node.slow" "warning" frame [("age_ms", JInt ingest_ms)]]
   else []) ++
  (if ingest_warning_budget_ms <=? ingest_ms
   then [node_alert "telemetry.controller.ingest_delay" "warning" frame
           [("delay_ms", JInt ingest_ms);
            ("expected_interval_ms", JInt (htf_adaptive_interval_ms frame));
            ("warning_budget_ms", JInt ingest_warning_budget_ms)]]
   else []) ++
  (if queue_warning_budget_ms <=? htf_publisher_queue_delay_ms frame
   then [node_alert "telemetry.publisher.queue_delay" "warning" frame
           [("delay_ms", JInt (htf_publisher_queue_delay_ms frame));
            ("expected_interval_ms", JInt (htf_adaptive_interval_ms frame));
            ("warning_budget_ms", JInt queue_warning_budget_ms)]]
   else []) ++
  (if HasActivePublishError frame
   then [node_alert "telemetry.publisher.errors" "warning" frame
           [("count", JInt (htf_publish_error_count frame));
            ("last_error", JString (htf_last_publish_error frame))]]
   else []).

(** ** [TelemetryPipelineAlertBuilder] and [TelemetryAlertBuilder] *)

Definition PipelineAlert_Build (persistence : TelemetryPersistenceState)
    (streams : TelemetryStreamMetrics) : list json :=
  let telemetry := tsm_telemetry streams in
  let live := tsm_live streams in
  (if negb (tps_enabled persistence)
   then [JObject [("code", JString "telemetry.persistence.disabled");
                  ("severity", JString "warning");
                  ("message", JString "sqlite telemetry ring buffer is disabled")]]
   else []) ++
  (if 0 <? tps_error_count persistence
   then [JObject [("code", JString "telemetry.persistence.errors");
                  ("severity", JString "warning");
                  ("message", JString "sqlite telemetry ring buffer reported errors");
                  ("count", JInt (tps_error_count persistence));
                  ("last_error", JString (tps_last_error persistence))]]
   else []) ++
  (if (0 <? tss_send_failure_total telemetry) || (0 <? tss_send_failure_total live)
   then [JObject [("code", JString "telemetry.stream.send_failures");
                  ("severity", JString "warning");
                  ("message", JString "telemetry stream clients observed send failures");
                  ("telemetry_failures", JInt (tss_send_failure_total telemetry));
                  ("live_failures", JInt (tss_send_failure_total live))]]
   else []) ++
  (if (0 <? tss_replay_required_total telemetry) || (0 <? tss_replay_required_total live)
   then [JObject [("code", JString "telemetry.stream.replay_required");
                  ("severity", JString "info");
                  ("message", JString "telemetry stream replay was required");
                  ("telemetry_replay_required_total", JInt (tss_replay_required_total telemetry));
                  ("live_replay_required_total", JInt (tss_replay_required_total live))]]
   else []).

Definition Alert_Build (buffers : list TelemetryNodeBuffer) (persistence : TelemetryPersistenceState)
    (streams : TelemetryStreamMetrics) (thresholds : TelemetryAlertThresholds) (now_ms : Z)
    : list json :=
  PipelineAlert_Build persistence streams ++
  (buffers ≫= fun buffer => NodeAlert_Build buffer thresholds now_ms).

(** ** [TelemetryPersistenceStatusBuilder], [TelemetryStreamMetricsService::BuildStatus] *)

Definition PersistenceStatus_Build (state : TelemetryPersistenceState) : json :=
  JObject [
    ("enabled", JBool (tps_enabled state));
    ("backend", JString (if tps_enabled state then "sqlite" else "memory"));
    ("db_path", JString (tps_db_path state));
    ("retention_capacity", JInt (tps_retention_capacity state));
    ("loaded_frames_total", JInt (tps_loaded_frames_total state));
    ("persisted_frames_total", JInt (tps_persisted_frames_total state));
    ("pruned_frames_total", JInt (tps_pruned_frames_total state));
    ("error_count", JInt (tps_error_count state));
    ("last_error", JString (tps_last_error state))].

Definition EncodeState (state : TelemetryStreamState) : json :=
  JObject [
    ("active_clients", JInt (tss_active_clients state));
    ("opened_total", JInt (tss_opened_total state));
    ("closed_total", JInt (tss_closed_total state));
    ("reconnect_total", JInt (tss_reconnect_total state));
    ("replay_required_total", JInt (tss_replay_required_total state));
    ("send_failure_total", JInt (tss_send_failure_total state))].

Definition StreamStatus_Build (streams : TelemetryStreamMetrics) : json :=
  JObject [("telemetry", EncodeState (tsm_telemetry streams)); ("live", EncodeState (tsm_live streams))].

(** ** [TelemetryHistoryDownsampler] *)

Record TelemetryHistoryBucketAccumulator := mkBucket {
  hba_node_name : string;
  hba_plane_name : string;
  hba_bucket_start_ms : Z;
  hba_bucket_ms : Z;
  hba_first_sequence : Z;
  hba_last_sequence : Z;
  hba_sample_count : Z;
  hba_cpu_utilization_sum : double;
  hba_gpu_utilization_sum : double;
  hba_max_gpu_utilization_pct : double;
  hba_max_queue_delay_ms : Z;
  hba_max_publish_ms : Z;
  hba_max_controller_ingest_ms : Z;
}.
Definition empty_bucket : TelemetryHistoryBucketAccumulator :=
  mkBucket "" "" 0 0 0 0 0 d0 d0 d0 0 0 0.

Section downsampler.
Context (now_ms warm_bucket_ms cold_bucket_ms horizon_ms : Z).

(** The negation of the [continue] condition. *)
Definition in_horizon (frame : HostTelemetryFrame) : bool :=
  negb ((htf_sequence frame =? 0) || (uint64_wrap (htf_sequence frame + horizon_ms) <? now_ms)).

Definition bucket_width (frame : HostTelemetryFrame) : Z :=
  let age_ms := if htf_sequence frame <=? now_ms then now_ms - htf_sequence frame else 0 in
  if age_ms <=? warm_bucket_ms then warm_bucket_ms else cold_bucket_ms.

Definition bucket_start (frame : HostTelemetryFrame) : Z :=
  uint64_wrap (htf_sequence frame / bucket_width frame * bucket_width frame).

Definition bucket_key (frame : HostTelemetryFrame) : string :=
  htf_node_name frame +:+ "|" +:+ PlaneKeyForFrame frame +:+ "|" +:+
  to_string (bucket_width frame) +:+ "|" +:+ to_string (bucket_start frame).

Definition add_sample (bucket : TelemetryHistoryBucketAccumulator) (frame : HostTelemetryFrame)
    : TelemetryHistoryBucketAccumulator :=
  let fresh := hba_sample_count bucket =? 0 in
  let gpu_util := GpuUtilizationAverage frame in
  mkBucket
    (if fresh then htf_node_name frame else hba_node_name bucket)
    (if fresh then PlaneKeyForFrame frame else hba_plane_name bucket)
    (if fresh then bucket_start frame else hba_bucket_start_ms bucket)
    (if fresh then bucket_width frame else hba_bucket_ms bucket)
    (if fresh then htf_sequence frame else hba_first_sequence bucket)
    (Z.max (hba_last_sequence bucket) (htf_sequence frame))
    (increment (hba_sample_count bucket))
    (dadd (hba_cpu_utilization_sum bucket) (cts_utilization_pct (htf_cpu frame)))
    (dadd (hba_gpu_utilization_sum bucket) gpu_util)
    (dmax (hba_max_gpu_utilization_pct bucket) gpu_util)
    (Z.max (hba_max_queue_delay_ms bucket) (htf_publisher_queue_delay_ms frame))
    (Z.max (hba_max_publish_ms bucket) (htf_publish_duration_ms frame))
    (Z.max (hba_max_controller_ingest_ms bucket) (ControllerIngestDelayMs frame now_ms)).

Definition add_to_buckets (buckets : gmap string TelemetryHistoryBucketAccumulator)
    (frame : HostTelemetryFrame) : gmap string TelemetryHistoryBucketAccumulator :=
  if in_horizon frame then
    <[bucket_key frame := add_sample (default empty_bucket (buckets !! bucket_key frame)) frame]> buckets
  else buckets.

Definition fill_buckets (buffers : list TelemetryNodeBuffer)
    : gmap string TelemetryHistoryBucketAccumulator :=
  foldl (fun buckets buffer => foldl add_to_buckets buckets (tnb_history buffer)) ∅ buffers.
End downsampler.

Definition bucket_json (bucket : TelemetryHistoryBucketAccumulator) : json :=
  let count := double_of_Z (Z.max 1 (hba_sample_count bucket)) in
  JObject [
    ("node_name", JString (hba_node_name bucket));
    ("plane_name", JString (hba_plane_name bucket));
    ("bucket_start_ms", JInt (hba_bucket_start_ms bucket));
    ("bucket_ms", JInt (hba_bucket_ms bucket));
    ("sample_count", JInt (hba_sample_count bucket));
    ("first_sequence", JInt (hba_first_sequence bucket));
    ("last_sequence", JInt (hba_last_sequence bucket));
    ("avg_cpu_utilization_pct", JDouble (ddiv (hba_cpu_utilization_sum bucket) count));
    ("avg_gpu_utilization_pct", JDouble (ddiv (hba_gpu_utilization_sum bucket) count));
    ("max_gpu_utilization_pct", JDouble (hba_max_gpu_utilization_pct bucket));
    ("max_queue_delay_ms", JInt (hba_max_queue_delay_ms bucket));
    ("max_publish_ms", JInt (hba_max_publish_ms bucket));
    ("max_controller_ingest_ms", JInt (hba_max_controller_ingest_ms bucket))].

Definition Downsampler_Build (buffers : list TelemetryNodeBuffer) (history_seconds now_ms : Z)
    (warm_bucket_ms cold_bucket_ms : Z) : list json :=
  if history_seconds <=? 0 then []
  else
    let horizon_ms := uint64_wrap (Z.max 1 history_seconds * 1000) in
    map (fun entry => bucket_json entry.2)
      (map_items (fill_buckets now_ms warm_bucket_ms cold_bucket_ms horizon_ms buffers)).

(** ** [TelemetryPlaneAggregateBuilder] *)

Record TelemetryPlaneAccumulator := mkPlaneAccumulator {
  tpa_plane_name : string;
  tpa_node_count : Z;
  tpa_stale_nodes : Z;
  tpa_degraded_nodes : Z;
  tpa_dropped_frames_total : Z;
  tpa_latest_sequence : Z;
  tpa_max_last_frame_age_ms : Z;
  tpa_max_queue_delay_ms : Z;
  tpa_max_publish_ms : Z;
  tpa_max_controller_ingest_ms : Z;
  tpa_gpu_count : Z;
  tpa_plane_instance_count : Z;
  tpa_plane_ready_instance_count : Z;
  tpa_plane_not_ready_instance_count : Z;
  tpa_gpu_utilization_sum : double;
}.
Definition empty_plane : TelemetryPlaneAccumulator :=
  mkPlaneAccumulator "" 0 0 0 0 0 0 0 0 0 0 0 0 0 d0.

(** [health.value("status", "ok")] is the status the health was built with. *)
Definition AddFrameToPlane (plane : TelemetryPlaneAccumulator) (plane_name : string)
    (frame : HostTelemetryFrame) (buffer : TelemetryNodeBuffer) (status : string)
    (ingest_ms scoped_instance_count scoped_ready_instance_count scoped_gpu_count : Z)
    (gpu_utilization_average : double) : TelemetryPlaneAccumulator :=
  mkPlaneAccumulator
    (if str_empty (tpa_plane_name plane) then plane_name else tpa_plane_name plane)
    (increment (tpa_node_count plane))
    (if status ==? "stale" then increment (tpa_stale_nodes plane) else tpa_stale_nodes plane)
    (if status ==? "stale" then tpa_degraded_nodes plane
     else if status ==? "degraded" then increment (tpa_degraded_nodes plane)
     else tpa_degraded_nodes plane)
    (uint64_wrap (tpa_dropped_frames_total plane + tnb_dropped_frames_total buffer))
    (Z.max (tpa_latest_sequence plane) (htf_sequence frame))
    (Z.max (tpa_max_last_frame_age_ms plane) ingest_ms)
    (Z.max (tpa_max_queue_delay_ms plane) (htf_publisher_queue_delay_ms frame))
    (Z.max (tpa_max_publish_ms plane) (htf_publish_duration_ms frame))
    (Z.max (tpa_max_controller_ingest_ms plane) ingest_ms)
    (uint64_wrap (tpa_gpu_count plane + scoped_gpu_count))
    (uint64_wrap (tpa_plane_instance_count plane + scoped_instance_count))
    (uint64_wrap (tpa_plane_ready_instance_count plane + scoped_ready_instance_count))
    (uint64_wrap (tpa_plane_not_ready_instance_count plane +
       uint64_wrap (scoped_instance_count - scoped_ready_instance_count)))
    (dadd (tpa_gpu_utilization_sum plane) gpu_utilization_average).

(** The instance and ready counts a frame contributes to a plane. *)
Definition scoped_counts (frame : HostTelemetryFrame) (plane_key : string) : Z * Z :=
  if str_empty (htf_plane_name frame) && (plane_key !=? "unassigned") then
    let matching :=
      List.filter (fun status => RuntimeStatusMatchesPlane status plane_key)
        (htf_instance_runtime frame) in
    (Z.of_nat (length matching), Z.of_nat (length (List.filter rps_ready matching)))
  else (htf_plane_instance_count frame, htf_plane_ready_instance_count frame).

Definition add_buffer_to_plane (now_ms : Z) (buffer : TelemetryNodeBuffer)
    (planes : gmap string TelemetryPlaneAccumulator) (plane_key : string)
    : gmap string TelemetryPlaneAccumulator :=
  let frame := tnb_latest buffer in
  let '(instances, ready) := scoped_counts frame plane_key in
  <[plane_key :=
      AddFrameToPlane (default empty_plane (planes !! plane_key)) plane_key frame buffer
        (node_status frame now_ms) (ControllerIngestDelayMs frame now_ms) instances ready
        (Z.of_nat (length (gts_devices (htf_gpu frame)))) (GpuUtilizationAverage frame)]> planes.

Definition fill_planes (buffers : list TelemetryNodeBuffer) (now_ms : Z)
    : gmap string TelemetryPlaneAccumulator :=
  foldl (fun planes buffer =>
    foldl (add_buffer_to_plane now_ms buffer) planes (PlaneKeysForFrame (tnb_latest buffer)))
    ∅ buffers.

Definition plane_json (plane : TelemetryPlaneAccumulator) : json :=
  JObject [
    ("plane_name", JString (tpa_plane_name plane));
    ("status", JString (if 0 <? tpa_stale_nodes plane then "stale"
                        else if 0 <? tpa_degraded_nodes plane then "degraded" else "ok"));
    ("node_count", JInt (tpa_node_count plane));
    ("stale_nodes", JInt (tpa_stale_nodes plane));
    ("degraded_nodes", JInt (tpa_degraded_nodes plane));
    ("dropped_frames_total", JInt (tpa_dropped_frames_total plane));
    ("latest_sequence", JInt (tpa_latest_sequence plane));
    ("max_last_frame_age_ms", JInt (tpa_max_last_frame_age_ms plane));
    ("latency", JObject [
       ("max_queue_delay_ms", JInt (tpa_max_queue_delay_ms plane));
       ("max_publish_ms", JInt (tpa_max_publish_ms plane));
       ("max_controller_ingest_ms", JInt (tpa_max_controller_ingest_ms plane))]);
    ("gpu_count", JInt (tpa_gpu_count plane));
    ("runtime", JObject [
       ("instance_count", JInt (tpa_plane_instance_count plane));
       ("ready_instance_count", JInt (tpa_plane_ready_instance_count plane));
       ("not_ready_instance_count", JInt (tpa_plane_not_ready_instance_count plane))]);
    ("avg_gpu_utilization_pct",
       JDouble (ddiv (tpa_gpu_utilization_sum plane)
                  (double_of_Z (Z.max 1 (tpa_node_count plane)))))].

Definition PlaneAggregate_Build (buffers : list TelemetryNodeBuffer) (now_ms : Z) : list json :=
  map (fun entry => plane_json entry.2) (map_items (fill_planes buffers now_ms)).

(** ** [TelemetrySnapshotBuilder::ScopeFrameToPlane] *)

Definition scope_status (plane : string) (status : RuntimeProcessStatus) : RuntimeProcessStatus :=
  if str_empty (rps_plane_name status) then
    mkRuntimeProcessStatus (rps_instance_name status) (rps_instance_role status)
      (rps_node_name status) (rps_model_path status) (rps_gpu_device status)
      (rps_runtime_phase status) (rps_started_at status) (rps_last_activity_at status)
      (rps_runtime_pid status) (rps_engine_pid status) (rps_ready status) plane
  else status.

Definition scope_disk (plane : string) (disk : DiskTelemetrySnapshot) : DiskTelemetrySnapshot :=
  mkDiskTelemetrySnapshot (dts_contract_version disk) (dts_degraded disk) (dts_source disk)
    (dts_collected_at disk)
    (List.filter (fun item => str_empty (dtr_plane_name item) || (dtr_plane_name item ==? plane))
       (dts_items disk)).

Definition ScopeFrameToPlane (frame : HostTelemetryFrame) (plane_name : option string)
    : HostTelemetryFrame :=
  match plane_name with
  | None => frame
  | Some plane =>
      if str_empty plane || (htf_plane_name frame ==? plane) then frame
      else
        let runtime :=
          map (scope_status plane)
            (List.filter (fun status => RuntimeStatusMatchesPlane status plane)
               (htf_instance_runtime frame)) in
        let count := Z.of_nat (length runtime) in
        let ready := Z.of_nat (length (List.filter rps_ready runtime)) in
        let not_ready := count - ready in
        frame_with_plane_counts
          (frame_with_scope frame plane runtime (scope_disk plane (htf_disk frame)))
          count ready not_ready
          (if count =? 0 then "no-runtime" else if 0 <? not_ready then "changing" else "ready")
  end.

Definition scope_buffer (plane_name : option string) (buffer : TelemetryNodeBuffer)
    : TelemetryNodeBuffer :=
  if value_or (plane ← plane_name; Some (negb (str_empty plane))) false then
    mkTelemetryNodeBuffer (ScopeFrameToPlane (tnb_latest buffer) plane_name)
      (map (fun frame => ScopeFrameToPlane frame plane_name) (tnb_history buffer))
      (tnb_dropped_frames_total buffer) (tnb_last_pruned_sequence buffer)
  else buffer.

Section views.
Context `{Lib : !JsonLibrary}.

(** ** [TelemetryFrameJsonBuilder] *)

(** [payload[key] = value] on an object. *)
Fixpoint assign {A} (key : string) (value : A) (fields : list (string * A)) : list (string * A) :=
  match fields with
  | [] => [(key, value)]
  | (k, v) :: rest => if String.eqb k key then (k, value) :: rest else (k, v) :: assign key value rest
  end.
Definition json_assign (payload : json) (key : string) (value : json) : result json :=
  match payload with
  | JObject fields => Ok (JObject (assign key value fields))
  | JNull => Ok (JObject [(key, value)])
  | _ => Throw "type_error.305"
  end.

Definition BuildLatencyBreakdown (frame : HostTelemetryFrame) (controller_ingest_delay_ms : Z) : json :=
  JObject [
    ("collect_ms", JInt (htf_collector_duration_ms frame));
    ("queue_ms", JInt (htf_publisher_queue_delay_ms frame));
    ("publish_ms", JInt (htf_publish_duration_ms frame));
    ("controller_ingest_ms", JInt controller_ingest_delay_ms);
    ("total_observed_ms",
       JInt (uint64_wrap (htf_collector_duration_ms frame + htf_publisher_queue_delay_ms frame +
                          htf_publish_duration_ms frame + controller_ingest_delay_ms)))].

Definition FrameJson_Build (frame : HostTelemetryFrame) (now_ms : Z) : result json :=
  text ← SerializeHostTelemetryFrameJson frame;
  payload ← parse text;
  let stale := frame_stale frame now_ms in
  let delay := ControllerIngestDelayMs frame now_ms in
  let expires_at_ms := uint64_wrap (htf_sequence frame + frame_ttl frame) in
  payload ← json_assign payload "stale" (JBool stale);
  payload ← json_assign payload "expires_in_ms"
    (JInt (if stale then 0 else uint64_wrap (expires_at_ms - now_ms)));
  payload ← json_assign payload "controller_ingest_delay_ms" (JInt delay);
  payload ← json_assign payload "last_frame_age_ms" (JInt delay);
  payload ← json_assign payload "telemetry_health_status" (JString (node_status frame now_ms));
  payload ← json_assign payload "latency_breakdown" (BuildLatencyBreakdown frame delay);
  json_assign payload "transport" (JObject [
    ("primary", JString "sse"); ("fallback", JString "snapshot-poll");
    ("sequence", JInt (htf_sequence frame));
    ("schema_version", JString (htf_schema_version frame))]).

(** ** [TelemetrySnapshotBuilder] *)

(** [alert.value(key, std::string{})]. *)
Definition alert_text (key : string) (alert : json) : result string :=
  json_value get_string alert key "".

Fixpoint HasActiveBackpressure (alerts : list json) : result bool :=
  match alerts with
  | [] => Ok false
  | alert :: rest =>
      code ← alert_text "code" alert;
      if (code ==? "telemetry.publisher.queue_delay") || (code ==? "telemetry.publisher.errors") ||
         (code ==? "telemetry.stream.send_failures")
      then Ok true else HasActiveBackpressure rest
  end.

(** The loop of [StatusFromAlerts] and of [BuildHealth]: a critical alert ends it. *)
Fixpoint severity_status (status : string) (alerts : list json) : result string :=
  match alerts with
  | [] => Ok status
  | alert :: rest =>
      severity ← alert_text "severity" alert;
      if severity ==? "critical" then Ok "critical"
      else severity_status (if severity ==? "warning" then "degraded" else status) rest
  end.

Definition StatusFromAlerts (alerts : list json) (overloaded : bool) : result string :=
  severity_status (if overloaded then "overloaded" else "ok") alerts.

Definition node_payload (now_ms : Z) (buffer : TelemetryNodeBuffer) : result json :=
  node ← FrameJson_Build (tnb_latest buffer) now_ms;
  node ← json_assign node "telemetry_health"
    (NodeHealth_Build (tnb_latest buffer) buffer now_ms
       (ControllerIngestDelayMs (tnb_latest buffer) now_ms));
  node ← json_assign node "controller_dropped_frames_total" (JInt (tnb_dropped_frames_total buffer));
  json_assign node "controller_last_pruned_sequence" (JInt (tnb_last_pruned_sequence buffer)).

(** The newest frames of a history, about one every two seconds. *)
Definition history_samples (history_seconds : Z) (buffer : TelemetryNodeBuffer)
    : list HostTelemetryFrame :=
  if history_seconds <=? 0 then []
  else drop (length (tnb_history buffer) - Z.to_nat (Z.max 1 (Z.quot history_seconds 2)))
         (tnb_history buffer).

Definition optional_plane (plane_name : option string) : json :=
  match plane_name with Some plane => JString plane | None => JNull end.

Definition retention_json (retention : TelemetryRetentionConfig)
    (persistence : TelemetryPersistenceState) : json :=
  JObject [
    ("hot_history_capacity", JInt (trc_hot_history_capacity retention));
    ("durable_history_capacity", JInt (tps_retention_capacity persistence));
    ("stream_batch_limit", JInt (trc_stream_batch_limit retention));
    ("warm_bucket_ms", JInt (trc_warm_bucket_ms retention));
    ("cold_bucket_ms", JInt (trc_cold_bucket_ms retention))].

Definition sequence_age (latest_sequence now_ms : Z) : Z :=
  if (0 <? latest_sequence) && (latest_sequence <=? now_ms) then now_ms - latest_sequence else 0.

Definition BuildSnapshot (state : TelemetryLiveStoreState) (plane_name : option string)
    (history_seconds now_ms : Z) : result json :=
  let retention := tls_retention state in
  let latest_sequence := ring_latest_sequence (tls_ring state) in
  let dropped_frames_total := ring_dropped_frames_total (tls_ring state) in
  let matched :=
    map (scope_buffer plane_name)
      (List.filter (fun buffer => MatchesPlane (tnb_latest buffer) plane_name)
         (ring_nodes (tls_ring state))) in
  nodes ← mapR (node_payload now_ms) matched;
  history ← mapR (fun frame => FrameJson_Build frame now_ms)
              (matched ≫= history_samples history_seconds);
  let alerts :=
    Alert_Build matched (tls_persistence state) (tls_streams state) (tls_thresholds state) now_ms in
  overloaded ← HasActiveBackpressure alerts;
  status ← StatusFromAlerts alerts overloaded;
  Ok (JObject [
    ("schema_version", JString "telemetry.snapshot.v2");
    ("service", JString "naim-controller");
    ("transport", JString "sse-primary");
    ("delivery_mode", JString "streaming-first");
    ("plane_name", optional_plane plane_name);
    ("latest_sequence", JInt latest_sequence);
    ("telemetry_overloaded", JBool overloaded);
    ("dropped_frames_total", JInt dropped_frames_total);
    ("history_capacity", JInt (trc_hot_history_capacity retention));
    ("stream_batch_limit", JInt (trc_stream_batch_limit retention));
    ("persistence", PersistenceStatus_Build (tls_persistence state));
    ("streams", StreamStatus_Build (tls_streams state));
    ("alerts", JArray alerts);
    ("retention", retention_json retention (tls_persistence state));
    ("telemetry_health", JObject [
       ("status", JString status);
       ("last_frame_age_ms", JInt (sequence_age latest_sequence now_ms));
       ("dropped_frames_total", JInt dropped_frames_total);
       ("stream_batch_limit", JInt (trc_stream_batch_limit retention))]);
    ("planes", JArray (PlaneAggregate_Build matched now_ms));
    ("nodes", JArray nodes);
    ("history", JArray history);
    ("downsampled_history",
       JArray (Downsampler_Build matched history_seconds now_ms (trc_warm_bucket_ms retention)
                 (trc_cold_bucket_ms retention)))]).

(** ** [TelemetryHealthBuilder] *)

Definition BuildHealth (state : TelemetryLiveStoreState) (plane_name : option string) (now_ms : Z)
    : result json :=
  let retention := tls_retention state in
  let thresholds := tls_thresholds state in
  let latest_sequence := ring_latest_sequence (tls_ring state) in
  let matched :=
    List.filter (fun buffer => MatchesPlane (tnb_latest buffer) plane_name)
      (ring_nodes (tls_ring state)) in
  let alerts := Alert_Build matched (tls_persistence state) (tls_streams state) thresholds now_ms in
  status ← severity_status "ok" alerts;
  Ok (JObject [
    ("schema_version", JString "telemetry.health.v1");
    ("service", JString "naim-controller");
    ("plane_name", optional_plane plane_name);
    ("status", JString status);
    ("observed_nodes", JInt (Z.of_nat (length matched)));
    ("latest_sequence", JInt latest_sequence);
    ("last_frame_age_ms", JInt (sequence_age latest_sequence now_ms));
    ("dropped_frames_total", JInt (ring_dropped_frames_total (tls_ring state)));
    ("stream_batch_limit", JInt (trc_stream_batch_limit retention));
    ("retention", retention_json retention (tls_persistence state));
    ("persistence", PersistenceStatus_Build (tls_persistence state));
    ("streams", StreamStatus_Build (tls_streams state));
    ("thresholds", JObject [
       ("stale_warning_ms", JInt (tat_stale_warning_ms thresholds));
       ("stale_critical_ms", JInt (tat_stale_critical_ms thresholds));
       ("ingest_warning_ms", JInt (tat_ingest_warning_ms thresholds));
       ("queue_warning_ms", JInt (tat_queue_warning_ms thresholds));
       ("browser_apply_warning_ms", JInt (tat_browser_apply_warning_ms thresholds))]);
    ("planes", JArray (PlaneAggregate_Build matched now_ms));
    ("alerts", JArray alerts)]).

(** ** [TelemetryOpenMetricsExporter] *)

Definition label_char (ch : Ascii.ascii) : Ascii.ascii :=
  let n := char_code ch in
  if ((97 <=? n) && (n <=? 122)) || ((65 <=? n) && (n <=? 90)) || ((48 <=? n) && (n <=? 57)) ||
     (n =? 95) || (n =? 45) || (n =? 46)
  then ch else "_"%char.
Definition SanitizeMetricLabel (value : string) : string :=
  string_of_list (map label_char (list_of_string value)).

(** [out << name << " " << value << "\n"]. *)
Definition metric (name : string) (value : Z) : string :=
  name +:+ " " +:+ to_string value +:+ newline.
Definition metric_type (name kind : string) : string :=
  "# TYPE " +:+ name +:+ " " +:+ kind +:+ newline.
Definition labelled (name label value : string) : string :=
  name +:+ "{" +:+ label +:+ "=" +:+ quoted (SanitizeMetricLabel value) +:+ "}".

Definition stream_metrics (streams : json) (name : string) : result string :=
  stream ← json_value get_json streams name (JObject []);
  active ← json_value get_uint64 stream "active_clients" 0;
  replays ← json_value get_uint64 stream "replay_required_total" 0;
  failures ← json_value get_uint64 stream "send_failure_total" 0;
  Ok (metric (labelled "naim_telemetry_stream_active_clients" "stream" name) active +:+
      metric (labelled "naim_telemetry_stream_replay_required_total" "stream" name) replays +:+
      metric (labelled "naim_telemetry_stream_send_failures_total" "stream" name) failures).

Definition plane_metrics (plane : json) : result string :=
  name ← json_value get_string plane "plane_name" "unassigned";
  nodes ← json_value get_uint64 plane "node_count" 0;
  stale ← json_value get_uint64 plane "stale_nodes" 0;
  latency ← json_value get_json plane "latency" (JObject []);
  ingest ← json_value get_uint64 latency "max_controller_ingest_ms" 0;
  Ok (metric (labelled "naim_telemetry_plane_nodes" "plane" name) nodes +:+
      metric (labelled "naim_telemetry_plane_stale_nodes" "plane" name) stale +:+
      metric (labelled "naim_telemetry_plane_max_ingest_ms" "plane" name) ingest).

Definition OpenMetrics_Build (health : json) : result string :=
  status ← json_value get_string health "status" "ok";
  latest ← json_value get_uint64 health "latest_sequence" 0;
  age ← json_value get_uint64 health "last_frame_age_ms" 0;
  dropped ← json_value get_uint64 health "dropped_frames_total" 0;
  persistence ← json_value get_json health "persistence" (JObject []);
  enabled ← json_value get_bool persistence "enabled" false;
  errors ← json_value get_uint64 persistence "error_count" 0;
  persisted ← json_value get_uint64 persistence "persisted_frames_total" 0;
  streams ← json_value get_json health "streams" (JObject []);
  telemetry ← stream_metrics streams "telemetry";
  live ← stream_metrics streams "live";
  planes ← json_value get_json health "planes" (JArray []);
  plane_lines ← mapR plane_metrics (items planes);
  Ok (
    metric_type "naim_telemetry_health_status" "gauge" +:+
    metric "naim_telemetry_health_status"
      (if status ==? "critical" then 2 else if status ==? "degraded" then 1 else 0) +:+
    metric_type "naim_telemetry_latest_sequence" "gauge" +:+
    metric "naim_telemetry_latest_sequence" latest +:+
    metric_type "naim_telemetry_last_frame_age_ms" "gauge" +:+
    metric "naim_telemetry_last_frame_age_ms" age +:+
    metric_type "naim_telemetry_dropped_frames_total" "counter" +:+
    metric "naim_telemetry_dropped_frames_total" dropped +:+
    metric_type "naim_telemetry_persistence_enabled" "gauge" +:+
    metric "naim_telemetry_persistence_enabled" (Z.b2z enabled) +:+
    metric_type "naim_telemetry_persistence_errors_total" "counter" +:+
    metric "naim_telemetry_persistence_errors_total" errors +:+
    metric_type "naim_telemetry_persistence_persisted_frames_total" "counter" +:+
    metric "naim_telemetry_persistence_persisted_frames_total" persisted +:+
    metric_type "naim_telemetry_stream_active_clients" "gauge" +:+
    metric_type "naim_telemetry_stream_replay_required_total" "counter" +:+
    metric_type "naim_telemetry_stream_send_failures_total" "counter" +:+
    telemetry +:+ live +:+
    metric_type "naim_telemetry_plane_nodes" "gauge" +:+
    metric_type "naim_telemetry_plane_stale_nodes" "gauge" +:+
    metric_type "naim_telemetry_plane_max_ingest_ms" "gauge" +:+
    String.concat "" plane_lines).

Definition BuildOpenMetrics (state : TelemetryLiveStoreState) (plane_name : option string)
    (now_ms : Z) : result string :=
  health ← BuildHealth state plane_name now_ms;
  OpenMetrics_Build health.
End views.

(** ** Severities *)

Definition alert_field (key : string) (alert : json) : string :=
  match member alert key with Some (JString text) => text | _ => "" end.

(** An alert whose code and severity are strings. *)
Definition alert_ok (alert : json) : Prop :=
  exists fields code severity, alert = JObject fields /\
    assoc "code" fields = Some (JString code) /\ assoc "severity" fields = Some (JString severity).

(** The status the severities of a list of alerts amount to. *)
Definition overall_status (severities : list string) : string :=
  if any_of (fun s => s ==? "critical") severities then "critical"
  else if any_of (fun s => s ==? "warning") severities then "degraded" else "ok".

Lemma node_alert_ok code severity frame details : alert_ok (node_alert code severity frame details).
Proof. by do 3 eexists. Qed.

Lemma Alert_Build_ok buffers persistence streams thresholds now_ms :
  Forall alert_ok (Alert_Build buffers persistence streams thresholds now_ms).
Proof.
  unfold Alert_Build. apply Forall_app. split.
  - unfold PipelineAlert_Build. rewrite !Forall_app.
    split_and!; destruct_if; repeat constructor; by do 3 eexists.
  - apply Forall_forall. intros alert (buffer & Ha & _)%list_elem_of_bind.
    revert Ha.
    assert (Forall alert_ok (NodeAlert_Build buffer thresholds now_ms)) as H.
    { unfold NodeAlert_Build. rewrite !Forall_app.
      split_and!; repeat destruct_if; repeat constructor; apply node_alert_ok. }
    rewrite Forall_forall in H. apply H.
Qed.

Section severities.
Context `{Lib : !JsonLibrary}.

Lemma alert_text_ok key alert :
  alert_ok alert -> key ∈ ["code"; "severity"] -> alert_text key alert = Ok (alert_field key alert).
Proof.
  intros (fields & code & severity & -> & Hc & Hs) Hkey. unfold alert_text, alert_field. cbn.
  set_unfold in Hkey. destruct Hkey as [->|[->|[]]]; rewrite ?Hc, ?Hs; apply get_string_law.
Qed.

Lemma severity_status_spec status alerts :
  Forall alert_ok alerts ->
  severity_status status alerts =
  Ok (let severities := alert_field "severity" <$> alerts in
      if any_of (fun s => s ==? "critical") severities then "critical"
      else if any_of (fun s => s ==? "warning") severities then "degraded" else status).
Proof.
  intros Hok. revert status. induction Hok as [|alert alerts Ha _ IH]; intros status; [done|].
  cbn [severity_status fmap list_fmap any_of existsb].
  rewrite (alert_text_ok _ _ Ha) by set_solver. rewrite bind_ok. cbv zeta.
  destruct (alert_field "severity" alert ==? "critical") eqn:Ec; cbn; [done|].
  rewrite IH. cbv zeta. destruct (alert_field "severity" alert ==? "warning"); cbn; [|done].
  unfold any_of. f_equal. by repeat destruct (existsb _ _).
Qed.

Lemma HasActiveBackpressure_spec alerts :
  Forall alert_ok alerts ->
  exists b, HasActiveBackpressure alerts = Ok b /\
    (b = true -> exists alert, alert ∈ alerts /\
       alert_field "code" alert ∈ ["telemetry.publisher.queue_delay"; "telemetry.publisher.errors";
                                   "telemetry.stream.send_failures"]).
Proof.
  induction 1 as [|alert alerts Ha _ (b & IH & Hb)]; [by eexists|]. cbn.
  rewrite (alert_text_ok _ _ Ha) by set_solver. rewrite bind_ok. destruct_if.
  - exists true. split; [done|]. intros _. exists alert. split; [left|].
    rewrite !orb_true_iff, !eqb_true in *. set_solver.
  - exists b. split; [done|]. intros Ht. destruct (Hb Ht) as (a & Hin & Hc). exists a. set_solver.
Qed.
End severities.

(** Every alert that counts as backpressure is a warning. *)
Lemma backpressure_is_warning buffers persistence streams thresholds now_ms alert :
  alert ∈ Alert_Build buffers persistence streams thresholds now_ms ->
  alert_field "code" alert ∈ ["telemetry.publisher.queue_delay"; "telemetry.publisher.errors";
                              "telemetry.stream.send_failures"] ->
  alert_field "severity" alert = "warning".
Proof.
  unfold Alert_Build, PipelineAlert_Build, NodeAlert_Build.
  rewrite elem_of_app, list_elem_of_bind. intros [H|(buffer & H & _)];
    revert H; rewrite !elem_of_app; intros H Hc; destruct_or?;
    repeat destruct_if; apply list_elem_of_singleton in H || (by apply elem_of_nil in H); subst;
    try reflexivity; exfalso; vm_compute in Hc; set_solver.
Qed.

(** The severities of a node's alerts. *)
Definition node_severities (frame : HostTelemetryFrame) (thresholds : TelemetryAlertThresholds)
    (now_ms : Z) : list string :=
  let ingest_ms := ControllerIngestDelayMs frame now_ms in
  (if tat_stale_critical_ms thresholds <=? ingest_ms then ["critical"]
   else if tat_stale_warning_ms thresholds <=? ingest_ms then ["warning"] else []) ++
  (if IngestWarningBudgetMs frame thresholds <=? ingest_ms then ["warning"] else []) ++
  (if QueueWarningBudgetMs frame thresholds <=? htf_publisher_queue_delay_ms frame
   then ["warning"] else []) ++
  (if HasActivePublishError frame then ["warning"] else []).

Lemma NodeAlert_severities buffer thresholds now_ms :
  alert_field "severity" <$> NodeAlert_Build buffer thresholds now_ms =
  node_severities (tnb_latest buffer) thresholds now_ms.
Proof.
  unfold NodeAlert_Build, node_severities. rewrite !fmap_app.
  repeat f_equal; by repeat destruct_if.
Qed.

Lemma scope_frame_severities frame plane_name thresholds now_ms :
  node_severities (ScopeFrameToPlane frame plane_name) thresholds now_ms =
  node_severities frame thresholds now_ms.
Proof. unfold ScopeFrameToPlane. destruct plane_name as [plane|]; [|done]. by destruct_if. Qed.

Lemma scope_buffer_severities plane_name buffer thresholds now_ms :
  node_severities (tnb_latest (scope_buffer plane_name buffer)) thresholds now_ms =
  node_severities (tnb_latest buffer) thresholds now_ms.
Proof. unfold scope_buffer. destruct_if; [apply scope_frame_severities | done]. Qed.

(** The severities of all alerts; the view of a plane does not change them. *)
Definition all_severities (state : TelemetryLiveStoreState) (matched : list TelemetryNodeBuffer)
    (now_ms : Z) : list string :=
  (alert_field "severity" <$> PipelineAlert_Build (tls_persistence state) (tls_streams state)) ++
  (matched ≫= fun buffer => node_severities (tnb_latest buffer) (tls_thresholds state) now_ms).

Lemma fmap_bind {A B C} (f : B -> C) (g : A -> list B) (l : list A) :
  f <$> (l ≫= g) = l ≫= fun x => f <$> g x.
Proof. induction l as [|x l IH]; [done|]. cbn. by rewrite fmap_app, <-IH. Qed.

Lemma Alert_severities state matched now_ms :
  alert_field "severity" <$>
    Alert_Build matched (tls_persistence state) (tls_streams state) (tls_thresholds state) now_ms =
  all_severities state matched now_ms.
Proof.
  unfold Alert_Build, all_severities. rewrite fmap_app, fmap_bind. f_equal.
  induction matched as [|b l IH]; [done|]. cbn. by rewrite NodeAlert_severities, <-IH.
Qed.

Lemma scoped_severities state matched plane_name now_ms :
  all_severities state (map (scope_buffer plane_name) matched) now_ms =
  all_severities state matched now_ms.
Proof.
  unfold all_severities. f_equal. induction matched as [|b l IH]; [done|].
  cbn. by rewrite scope_buffer_severities, <-IH.
Qed.

Lemma all_severities_critical state matched now_ms :
  any_of (fun s => s ==? "critical") (all_severities state matched now_ms) = true <->
  exists buffer, buffer ∈ matched /\
    tat_stale_critical_ms (tls_thresholds state) <= ControllerIngestDelayMs (tnb_latest buffer) now_ms.
Proof.
  rewrite any_of_true. setoid_rewrite eqb_true. split.
  - intros (s & Hs & ->). unfold all_severities in Hs. apply elem_of_app in Hs as [Hs|Hs].
    + exfalso. unfold PipelineAlert_Build in Hs. rewrite !fmap_app, !elem_of_app in Hs.
      destruct_or?; repeat destruct_if; vm_compute in Hs; set_solver.
    + apply list_elem_of_bind in Hs as (buffer & Hs & Hin). exists buffer. split; [done|].
      unfold node_severities in Hs. rewrite !elem_of_app in Hs.
      destruct_or?; repeat destruct_if; try (vm_compute in Hs; set_solver); lia.
  - intros (buffer & Hin & Hle). exists "critical". split; [|done].
    unfold all_severities. apply elem_of_app. right. apply list_elem_of_bind. exists buffer.
    split; [|done]. unfold node_severities. apply elem_of_app. left.
    replace (_ <=? _) with true by lia. left.
Qed.

(** ** Theorems *)

(** The nodes a view of a plane is about. *)
Definition plane_buffers (state : TelemetryLiveStoreState) (plane_name : option string)
    : list TelemetryNodeBuffer :=
  List.filter (fun buffer => MatchesPlane (tnb_latest buffer) plane_name) (ring_nodes (tls_ring state)).

Lemma health_status `{Lib : !JsonLibrary} state plane_name now_ms :
  exists fields, BuildHealth state plane_name now_ms = Ok (JObject fields) /\
    assoc "status" fields =
      Some (JString (overall_status (all_severities state (plane_buffers state plane_name) now_ms))).
Proof.
  unfold BuildHealth. fold (plane_buffers state plane_name).
  rewrite severity_status_spec by apply Alert_Build_ok. rewrite bind_ok, Alert_severities.
  eexists. split; reflexivity.
Qed.

(** Backpressure never decides the status: its alerts are warnings. *)
Lemma snapshot_status_severities `{Lib : !JsonLibrary} state matched now_ms overloaded :
  let alerts :=
    Alert_Build matched (tls_persistence state) (tls_streams state) (tls_thresholds state) now_ms in
  HasActiveBackpressure alerts = Ok overloaded ->
  StatusFromAlerts alerts overloaded = Ok (overall_status (all_severities state matched now_ms)).
Proof.
  intros alerts Hover. assert (Forall alert_ok alerts) as Hok by apply Alert_Build_ok.
  unfold StatusFromAlerts. rewrite severity_status_spec by done. unfold alerts.
  rewrite Alert_severities. cbv zeta. unfold overall_status. do 2 (destruct_if; [done|]).
  destruct overloaded; [|done]. exfalso.
  destruct (HasActiveBackpressure_spec alerts Hok) as (b & Hb & Hw). rewrite Hover in Hb.
  injection Hb as <-. destruct (Hw eq_refl) as (alert & Hin & Hcode).
  apply (backpressure_is_warning _ _ _ _ _ _ Hin) in Hcode.
  match goal with H : any_of (fun s => s ==? "warning") _ = false |- _ =>
    rewrite any_of_false in H; specialize (H "warning") end.
  rewrite eqb_refl in *. assert (true = false); [|done].
  match goal with H : _ -> true = false |- _ => apply H end.
  rewrite <-Alert_severities, <-Hcode. by apply list_elem_of_fmap_2.
Qed.

Lemma snapshot_status `{Lib : !JsonLibrary} state plane_name history_seconds now_ms snapshot :
  BuildSnapshot state plane_name history_seconds now_ms = Ok snapshot ->
  exists fields, snapshot = JObject fields /\ exists health,
    assoc "telemetry_health" fields = Some (JObject health) /\
    assoc "status" health =
      Some (JString (overall_status (all_severities state (plane_buffers state plane_name) now_ms))).
Proof.
  unfold BuildSnapshot. fold (plane_buffers state plane_name).
  set (matched := map (scope_buffer plane_name) _). intros H. bind_inv.
  eexists. split; [reflexivity|]. eexists. split; [reflexivity|]. cbn [assoc String.eqb].
  do 2 f_equal.
  match goal with E1 : HasActiveBackpressure _ = Ok ?b, E2 : StatusFromAlerts _ _ = Ok ?s |- _ =>
    rewrite (snapshot_status_severities _ _ _ b E1) in E2; injection E2 as <- end.
  unfold matched. by rewrite scoped_severities.
Qed.

(** ** When a snapshot can be built *)

Definition frame_presentable `{Lib : !JsonLibrary} (frame : HostTelemetryFrame) : Prop :=
  HostTelemetryFrame_ok frame = true /\ is_ok (SerializeHostTelemetryFrameJson frame) = true.

Lemma json_assign_object fields key value :
  json_assign (JObject fields) key value = Ok (JObject (assign key value fields)).
Proof. done. Qed.

Lemma FrameJson_Build_ok `{Lib : !JsonLibrary} frame now_ms :
  frame_presentable frame -> exists fields, FrameJson_Build frame now_ms = Ok (JObject fields).
Proof.
  intros [Hok Hser]. unfold FrameJson_Build.
  destruct (SerializeHostTelemetryFrameJson frame) as [text|] eqn:E; [|done].
  rewrite bind_ok, (parse_dump _ _ (frame_json_ok _ Hok) E), bind_ok.
  unfold HostTelemetryFrame_ToJson. cbn [canon]. cbv zeta.
  repeat (rewrite json_assign_object; rewrite ?bind_ok). by eexists.
Qed.

Lemma node_payload_ok `{Lib : !JsonLibrary} now_ms buffer :
  frame_presentable (tnb_latest buffer) -> is_ok (node_payload now_ms buffer) = true.
Proof.
  intros H. unfold node_payload. destruct (FrameJson_Build_ok _ now_ms H) as [fields ->].
  by repeat (rewrite ?bind_ok, json_assign_object).
Qed.

Lemma is_ok_inv {A} (r : result A) : is_ok r = true -> exists x, r = Ok x.
Proof. destruct r; [by eexists | done]. Qed.

Lemma elem_of_drop {A} (x : A) n l : x ∈ drop n l -> x ∈ l.
Proof. intros H. rewrite <-(take_drop n l). set_solver. Qed.

(** Serialisable frames of the plane are all a snapshot needs. *)
Lemma snapshot_total `{Lib : !JsonLibrary} state plane_name history_seconds now_ms :
  (forall buffer, buffer ∈ map (scope_buffer plane_name) (plane_buffers state plane_name) ->
     frame_presentable (tnb_latest buffer) /\ Forall frame_presentable (tnb_history buffer)) ->
  is_ok (BuildSnapshot state plane_name history_seconds now_ms) = true.
Proof.
  intros H. unfold BuildSnapshot. fold (plane_buffers state plane_name).
  set (matched := map (scope_buffer plane_name) _) in *.
  destruct (is_ok_inv (mapR (node_payload now_ms) matched)) as [nodes ->].
  { apply mapR_ok_iff, Forall_forall. intros b Hb. apply node_payload_ok. by apply H. }
  destruct (is_ok_inv (mapR (fun frame => FrameJson_Build frame now_ms)
    (matched ≫= history_samples history_seconds))) as [history Hh].
  { apply mapR_ok_iff, Forall_forall. intros f (b & Hf & Hb)%list_elem_of_bind.
    destruct (H b Hb) as [_ Hall]. rewrite Forall_forall in Hall.
    destruct (FrameJson_Build_ok f now_ms) as [fields ->]; [|done]. apply Hall.
    unfold history_samples in Hf. destruct (_ <=? _); [set_solver | by apply elem_of_drop in Hf]. }
  rewrite bind_ok, Hh, bind_ok. cbv zeta.
  destruct (HasActiveBackpressure_spec (Alert_Build matched (tls_persistence state)
    (tls_streams state) (tls_thresholds state) now_ms)) as (b & Hb & _); [apply Alert_Build_ok|].
  rewrite Hb, bind_ok, snapshot_status_severities by done. done.
Qed.

(** The health document is always built, and whenever a snapshot is, both give
    the same status for the plane: critical exactly when a node of the plane has
    not reported within the critical threshold, otherwise degraded or ok.  In
    particular the snapshot's overloaded status is never shown, even under
    backpressure. *)
Theorem health_status_exact `{Lib : !JsonLibrary} state plane_name history_seconds now_ms snapshot :
  BuildSnapshot state plane_name history_seconds now_ms = Ok snapshot ->
  exists health status,
    BuildHealth state plane_name now_ms = Ok health /\
    member health "status" = Some (JString status) /\
    (exists nested, member snapshot "telemetry_health" = Some nested /\
       member nested "status" = Some (JString status)) /\
    (status = "critical" <->
     exists buffer, buffer ∈ plane_buffers state plane_name /\
       tat_stale_critical_ms (tls_thresholds state) <=
       ControllerIngestDelayMs (tnb_latest buffer) now_ms) /\
    status ∈ ["ok"; "degraded"; "critical"].
Proof.
  intros (fields & -> & nested & Hn & Hs)%snapshot_status.
  destruct (health_status state plane_name now_ms) as (health & Hh & Hhs).
  exists (JObject health). eexists. split; [exact Hh|]. split; [exact Hhs|].
  split; [by eexists (JObject nested)|]. rewrite <-all_severities_critical. unfold overall_status.
  destruct (any_of (fun s => s ==? "critical") _) eqn:Ec; [set_solver|].
  by destruct_if; (split; [done | set_solver]).
Qed.

Definition fx_state : TelemetryLiveStoreState :=
  mkTelemetryLiveStoreState fx_ring fx_retention TelemetryAlertThresholds_default
    TelemetryPersistenceState_default TelemetryStreamMetrics_default.

Lemma fx_state_buffers :
  map (scope_buffer (Some "alpha")) (plane_buffers fx_state (Some "alpha")) =
  [mkTelemetryNodeBuffer (fx_sample "a" "alpha" 14)
     [fx_sample "a" "alpha" 12; fx_sample "a" "alpha" 14] 1 10].
Proof. vm_compute. reflexivity. Qed.

Lemma fx_sample_presentable node plane sequence :
  uint64_ok sequence = true -> frame_presentable (Lib:=tree_json) (fx_sample node plane sequence).
Proof.
  intros H. split; [|done]. unfold HostTelemetryFrame_ok. cbn -[uint64_ok int_ok]. by rewrite H.
Qed.

Lemma fx_state_presentable buffer :
  buffer ∈ map (scope_buffer (Some "alpha")) (plane_buffers fx_state (Some "alpha")) ->
  frame_presentable (Lib:=tree_json) (tnb_latest buffer) /\
  Forall (frame_presentable (Lib:=tree_json)) (tnb_history buffer).
Proof.
  rewrite fx_state_buffers. intros ->%list_elem_of_singleton.
  split; [by apply fx_sample_presentable|].
  constructor; [|constructor; [|constructor]]; by apply fx_sample_presentable.
Qed.

Lemma health_status_exact_witness :
  exists health status, BuildHealth (Lib:=tree_json) fx_state (Some "alpha") 70000 = Ok health /\
    member health "status" = Some (JString status) /\ status ∈ ["ok"; "degraded"; "critical"].
Proof.
  destruct (is_ok_inv _ (snapshot_total (Lib:=tree_json) fx_state (Some "alpha") 4 70000
    fx_state_presentable)) as [snapshot E].
  destruct (health_status_exact (Lib:=tree_json) _ _ _ _ _ E) as (h & s & H1 & H2 & _ & _ & H3).
  exists h, s. exact (conj H1 (conj H2 H3)).
Defined.

(** ** Downsampling *)

Definition sample_sum (l : list (string * TelemetryHistoryBucketAccumulator)) : Z :=
  foldr (fun entry n => hba_sample_count entry.2 + n) 0 l.

Lemma sample_sum_perm l l' : l ≡ₚ l' -> sample_sum l = sample_sum l'.
Proof. induction 1; cbn; unfold sample_sum in *; lia. Qed.

Section conservation.
Context (now_ms warm_bucket_ms cold_bucket_ms horizon_ms : Z).
Implicit Types (m : gmap string TelemetryHistoryBucketAccumulator).

Definition counts_ok m : Prop := forall k b, m !! k = Some b -> 0 <= hba_sample_count b.

Lemma sample_sum_insert m k b :
  sample_sum (map_to_list (<[k := b]> m)) =
  sample_sum (map_to_list m) + hba_sample_count b -
  hba_sample_count (default empty_bucket (m !! k)).
Proof.
  rewrite <-insert_delete_eq.
  rewrite (sample_sum_perm _ _ (map_to_list_insert (delete k m) k b (lookup_delete_eq m k))).
  cbn. destruct (m !! k) as [old|] eqn:E; cbn.
  - rewrite (sample_sum_perm (map_to_list m) ((k, old) :: map_to_list (delete k m)));
      [cbn; unfold sample_sum; lia|].
    rewrite <-(map_to_list_insert (delete k m) k old (lookup_delete_eq m k)).
    by rewrite insert_delete_eq, insert_id.
  - rewrite delete_id by done. unfold sample_sum. lia.
Qed.

Lemma sample_count_le m k b :
  counts_ok m -> m !! k = Some b -> hba_sample_count b <= sample_sum (map_to_list m).
Proof.
  intros Hok Hk. pose proof (sample_sum_insert (delete k m) k b) as H.
  rewrite insert_delete_eq, insert_id, lookup_delete_eq in H by done. cbn in H.
  assert (forall l : list (string * TelemetryHistoryBucketAccumulator),
    (forall e, e ∈ l -> 0 <= hba_sample_count e.2) -> 0 <= sample_sum l) as Hnn.
  { induction l as [|e l IH]; intros He; cbn; [lia|].
    pose proof (He e ltac:(left)). assert (0 <= sample_sum l) by (apply IH; set_solver).
    unfold sample_sum in *. lia. }
  assert (0 <= sample_sum (map_to_list (delete k m))); [|lia]. apply Hnn.
  intros [k' b'] He%elem_of_map_to_list. apply lookup_delete_Some in He as [_ He]. by apply (Hok k').
Qed.

Abbreviation add := (add_to_buckets now_ms warm_bucket_ms cold_bucket_ms horizon_ms).

Lemma add_to_buckets_sum m frame :
  counts_ok m -> sample_sum (map_to_list m) + 1 < 2 ^ 64 ->
  counts_ok (add m frame) /\
  sample_sum (map_to_list (add m frame)) =
  sample_sum (map_to_list m) + (if in_horizon now_ms horizon_ms frame then 1 else 0).
Proof.
  intros Hok Hlt. unfold add_to_buckets. destruct (in_horizon _ _ frame); [|split; [done | lia]].
  set (k := bucket_key _ _ _ frame). set (old := default empty_bucket (m !! k)).
  assert (0 <= hba_sample_count old <= sample_sum (map_to_list m) \/ hba_sample_count old = 0) as Hold.
  { unfold old. destruct (m !! k) as [b|] eqn:E; [|by right]. left. cbn.
    split; [by apply (Hok k) | by apply (sample_count_le m k)]. }
  set (new := add_sample _ _ _ old frame).
  assert (hba_sample_count new = hba_sample_count old + 1) as Hnew.
  { unfold new. cbn. unfold increment, uint64_wrap. apply Z.mod_small. lia. }
  split.
  - intros k' b. rewrite lookup_insert. case_decide; [|apply Hok]. intros [= <-]. lia.
  - rewrite sample_sum_insert. fold old. lia.
Qed.

Lemma add_all_sum frames m :
  counts_ok m -> sample_sum (map_to_list m) + Z.of_nat (length frames) < 2 ^ 64 ->
  counts_ok (foldl add m frames) /\
  sample_sum (map_to_list (foldl add m frames)) =
  sample_sum (map_to_list m) +
  Z.of_nat (length (List.filter (in_horizon now_ms horizon_ms) frames)).
Proof.
  revert m. induction frames as [|f frames IH]; intros m Hok Hlt; [cbn; split; [done | lia]|].
  cbn [foldl length List.filter] in *.
  destruct (add_to_buckets_sum m f Hok ltac:(lia)) as [Hok' Hsum].
  destruct (IH (add m f) Hok') as [Hok'' Hsum']; [rewrite Hsum; destruct_if; lia|].
  split; [done|]. rewrite Hsum', Hsum. destruct (in_horizon _ _ f); cbn; lia.
Qed.

Lemma fill_buckets_flat buffers :
  fill_buckets now_ms warm_bucket_ms cold_bucket_ms horizon_ms buffers =
  foldl add ∅ (buffers ≫= tnb_history).
Proof.
  unfold fill_buckets. generalize (∅ : gmap string TelemetryHistoryBucketAccumulator).
  induction buffers as [|b buffers IH]; intros m; [done|]. cbn. by rewrite IH, foldl_app.
Qed.
End conservation.

Definition json_count (bucket : json) : Z :=
  match member bucket "sample_count" with Some (JInt n) => n | _ => 0 end.

(** The downsampled history loses and doubles no sample: the sample counts of
    its buckets add up to the number of stored frames within the horizon. *)
Theorem downsample_conserves buffers history_seconds now_ms warm_bucket_ms cold_bucket_ms :
  0 < history_seconds ->
  Z.of_nat (length (buffers ≫= tnb_history)) < 2 ^ 64 ->
  foldr (fun bucket n => json_count bucket + n) 0
    (Downsampler_Build buffers history_seconds now_ms warm_bucket_ms cold_bucket_ms) =
  Z.of_nat (length (List.filter (in_horizon now_ms (uint64_wrap (history_seconds * 1000)))
                      (buffers ≫= tnb_history))).
Proof.
  intros Hpos Hlt. unfold Downsampler_Build. replace (history_seconds <=? 0) with false by lia.
  replace (Z.max 1 history_seconds) with history_seconds by lia. rewrite fill_buckets_flat.
  destruct (add_all_sum now_ms warm_bucket_ms cold_bucket_ms (uint64_wrap (history_seconds * 1000))
    (buffers ≫= tnb_history) ∅) as [_ Hsum].
  { intros k b. by rewrite lookup_empty. }
  { rewrite map_to_list_empty. cbn. lia. }
  rewrite map_to_list_empty in Hsum. cbn [sample_sum foldr] in Hsum. rewrite Z.add_0_l in Hsum.
  rewrite <-Hsum. set (m := foldl _ ∅ _).
  rewrite <-(sample_sum_perm (map_items m) (map_to_list m) (std_sort_perm _ _)).
  generalize (map_items m).
  intros l. induction l as [|e l IH]; [done|]. cbn. unfold sample_sum in *. by rewrite IH.
Qed.

Lemma downsample_conserves_witness :
  foldr (fun bucket n => json_count bucket + n) 0
    (Downsampler_Build (ring_nodes fx_ring) 60 20 10 30) = 3.
Proof. rewrite downsample_conserves; vm_compute; reflexivity. Defined.
