(* ===== verification/RuntimeSupport.v ===== *)
(** * Runtime support of the controller

    [controller/src/infra/controller_runtime_support_service.cpp] and
    [controller/src/scheduler/scheduler_domain_support.cpp]: availability
    overrides, lookups of observations, ages of SQL timestamps and the decoding
    of what a host reports.  [std::time(nullptr)] is the argument [now].
    [timegm], [gmtime], [std::get_time] and [std::put_time] are modelled for the
    one format the code uses, on the proleptic Gregorian calendar. *)

From S2P Require Import Prelude Json AssignmentStore AssignmentReconciliation RuntimeStatus.

(** ** Availability of nodes *)

Record NodeAvailabilityOverride := mkNodeAvailabilityOverride {
  nao_node_name : string;
  nao_availability : NodeAvailability;
  nao_status_message : string;
  nao_updated_at : string;
}.

Abbreviation AvailabilityMap := (gmap string NodeAvailabilityOverride).

Definition BuildAvailabilityOverrideMap (availability_overrides : list NodeAvailabilityOverride)
    : AvailabilityMap :=
  foldl (fun result o => map_emplace (nao_node_name o) o result) ∅ availability_overrides.

Definition ResolveNodeAvailability (availability_overrides : AvailabilityMap) (node_name : string)
    : NodeAvailability :=
  match availability_overrides !! node_name with
  | None => Active
  | Some o => nao_availability o
  end.

Definition IsNodeSchedulable (availability : NodeAvailability) : bool := availability ==? Active.

Definition FindHostObservationForNode (observations : list HostObservation) (node_name : string)
    : option HostObservation :=
  find_if (fun observation => obs_node_name observation ==? node_name) observations.

(** ** Calendar: [timegm] and [gmtime] *)

(** Days from 1970-01-01 of a year, month and day, counted in 400-year eras of
    146097 days that start on the first of March. *)
Definition day_of_year (m d : Z) : Z := (153 * (m + (if m >? 2 then -3 else 9)) + 2) / 5 + d - 1.
Definition day_of_era (yoe doy : Z) : Z := yoe * 365 + yoe / 4 - yoe / 100 + doy.
Definition days_from_civil (y m d : Z) : Z :=
  let y := if m <=? 2 then y - 1 else y in
  y / 400 * 146097 + day_of_era (y mod 400) (day_of_year m d) - 719468.

Definition year_of_era (doe : Z) : Z := (doe - doe / 1460 + doe / 36524 - doe / 146096) / 365.
Definition civil_of_era (doe : Z) : Z * Z * Z :=
  let yoe := year_of_era doe in
  let doy := doe - (365 * yoe + yoe / 4 - yoe / 100) in
  let mp := (5 * doy + 2) / 153 in
  let d := doy - (153 * mp + 2) / 5 + 1 in
  let m := if mp <? 10 then mp + 3 else mp - 9 in
  (yoe + (if m <=? 2 then 1 else 0), m, d).
Definition civil_from_days (days : Z) : Z * Z * Z :=
  let z := days + 719468 in
  let '(y, m, d) := civil_of_era (z mod 146097) in
  (y + z / 146097 * 400, m, d).

(** ** [std::put_time] and [std::get_time] with [%Y-%m-%d %H:%M:%S] *)

Definition digit (n : Z) : Ascii.ascii := Ascii.ascii_of_nat (Z.to_nat (48 + n)).
Definition pad2 (n : Z) (rest : string) : string :=
  String (digit (n / 10)) (String (digit (n mod 10)) rest).
Definition pad4 (n : Z) (rest : string) : string := pad2 (n / 100) (pad2 (n mod 100) rest).

Definition UtcNowSqlTimestamp (now : Z) : string :=
  let '(y, m, d) := civil_from_days (now / 86400) in
  let s := now mod 86400 in
  pad4 y (String "-" (pad2 m (String "-" (pad2 d (String " "
    (pad2 (s / 3600) (String ":" (pad2 (s mod 3600 / 60) (String ":" (pad2 (s mod 60) ""))))))))))%char.

Definition digit_value (c : Ascii.ascii) : option Z :=
  let n := char_code c in if (48 <=? n) && (n <=? 57) then Some (n - 48) else None.

(** Exactly [width] digits with a value in [lo .. hi]. *)
Fixpoint read_fixed (width : nat) (acc : Z) (s : string) : option (Z * string) :=
  match width, s with
  | O, _ => Some (acc, s)
  | S w, String c s' => v ← digit_value c; read_fixed w (acc * 10 + v) s'
  | S _, EmptyString => None
  end.
Definition read_number (width : nat) (lo hi : Z) (s : string) : option (Z * string) :=
  '(v, rest) ← read_fixed width 0 s;
  if (lo <=? v) && (v <=? hi) then Some (v, rest) else None.

Definition read_char (c : Ascii.ascii) (s : string) : option string :=
  match s with
  | String c' rest => if Ascii.eqb c' c then Some rest else None
  | EmptyString => None
  end.

Definition time_space (c : Ascii.ascii) : bool :=
  let n := char_code c in (n =? 32) || ((9 <=? n) && (n <=? 13)).
Fixpoint skip_space (s : string) : string :=
  match s with
  | String c rest => if time_space c then skip_space rest else s
  | EmptyString => s
  end.

(** [input >> std::get_time(...)] then [timegm]; leading blanks are skipped,
    what follows the seconds is not read. *)
Definition parse_timestamp (text : string) : option Z :=
  '(y, s) ← read_number 4 0 9999 (skip_space text);
  s ← read_char "-"%char s;
  '(m, s) ← read_number 2 1 12 s;
  s ← read_char "-"%char s;
  '(d, s) ← read_number 2 1 31 s;
  '(h, s) ← (if str_empty s then None else read_number 2 0 23 (skip_space s));
  s ← read_char ":"%char s;
  '(mi, s) ← read_number 2 0 59 s;
  s ← read_char ":"%char s;
  '(sec, _) ← read_number 2 0 60 s;
  Some (days_from_civil y m d * 86400 + h * 3600 + mi * 60 + sec).

Definition HeartbeatAgeSeconds (now : Z) (heartbeat_at : string) : option Z :=
  if str_empty heartbeat_at then None
  else
    match parse_timestamp heartbeat_at with
    | None => None
    | Some heartbeat_time => if heartbeat_time <? 0 then None else Some (now - heartbeat_time)
    end.

Definition TimestampAgeSeconds (now : Z) (timestamp_text : string) : option Z :=
  HeartbeatAgeSeconds now timestamp_text.

Definition HealthFromAge (age_seconds : option Z) (stale_after_seconds : Z) : string :=
  match age_seconds with
  | None => "unknown"
  | Some age => if age >? stale_after_seconds then "stale" else "online"
  end.

(** ** What a host reports *)

Section decode.
Context `{JsonLibrary}.

Definition ParseRuntimeStatus (observation : HostObservation) : result (option RuntimeStatus) :=
  if str_empty (obs_runtime_status_json observation) then Ok None
  else s ← DeserializeRuntimeStatusJson (obs_runtime_status_json observation); Ok (Some s).

Definition ParseInstanceRuntimeStatuses (observation : HostObservation)
    : result (list RuntimeProcessStatus) :=
  if str_empty (obs_instance_runtime_json observation) then Ok []
  else DeserializeRuntimeStatusListJson (obs_instance_runtime_json observation).

Definition ParseGpuTelemetry (observation : HostObservation)
    : result (option GpuTelemetrySnapshot) :=
  if str_empty (obs_gpu_telemetry_json observation) then Ok None
  else s ← DeserializeGpuTelemetryJson (obs_gpu_telemetry_json observation); Ok (Some s).

Definition ParseDiskTelemetry (observation : HostObservation)
    : result (option DiskTelemetrySnapshot) :=
  if str_empty (obs_disk_telemetry_json observation) then Ok None
  else s ← DeserializeDiskTelemetryJson (obs_disk_telemetry_json observation); Ok (Some s).

Definition ParseNetworkTelemetry (observation : HostObservation)
    : result (option NetworkTelemetrySnapshot) :=
  if str_empty (obs_network_telemetry_json observation) then Ok None
  else s ← DeserializeNetworkTelemetryJson (obs_network_telemetry_json observation); Ok (Some s).

Definition ParseCpuTelemetry (observation : HostObservation)
    : result (option CpuTelemetrySnapshot) :=
  if str_empty (obs_cpu_telemetry_json observation) then Ok None
  else s ← DeserializeCpuTelemetryJson (obs_cpu_telemetry_json observation); Ok (Some s).
End decode.

(** ** Lemmas *)

(** An override applies when it is the first one of its node. *)
Lemma lookup_overrides_aux l m node :
  foldl (fun result o => map_emplace (nao_node_name o) o result) m l !! node =
  match m !! node with
  | Some o => Some o
  | None => find_if (fun o => nao_node_name o ==? node) l
  end.
Proof.
  revert m. induction l as [|o l IH]; intros m; simpl; [by destruct (m !! node)|].
  rewrite IH, lookup_map_emplace. unfold eqb.
  case_decide; case_bool_decide; try congruence; by destruct (m !! node).
Qed.

Lemma resolve_availability overrides node :
  ResolveNodeAvailability (BuildAvailabilityOverrideMap overrides) node =
  match find_if (fun o => nao_node_name o ==? node) overrides with
  | Some o => nao_availability o
  | None => Active
  end.
Proof.
  unfold ResolveNodeAvailability, BuildAvailabilityOverrideMap.
  rewrite lookup_overrides_aux, lookup_empty.
  by destruct (find_if (fun o => nao_node_name o ==? node) overrides).
Qed.

Lemma find_observation_node observations node o :
  FindHostObservationForNode observations node = Some o ->
  o ∈ observations /\ obs_node_name o = node.
Proof.
  intros H. apply find_if_Some in H as [H Hin]. rewrite eqb_true in H. done.
Qed.

(** ** Timestamps round-trip *)

(** The year of a day of the cycle leaves a day of the year. *)
Lemma year_of_era_range doe :
  0 <= doe < 146097 ->
  let yoe := year_of_era doe in
  0 <= yoe < 400 /\ 0 <= doe - (365 * yoe + yoe / 4 - yoe / 100) <= 365.
Proof.
  intros Hd. unfold year_of_era. cbv zeta.
  Z.to_euclidean_division_equations. lia.
Qed.

(** Month and day of a day of the (March-based) year. *)
Lemma month_of_year_range doy :
  0 <= doy <= 365 ->
  let mp := (5 * doy + 2) / 153 in
  let d := doy - (153 * mp + 2) / 5 + 1 in
  let m := if mp <? 10 then mp + 3 else mp - 9 in
  1 <= m <= 12 /\ 1 <= d <= 31 /\ day_of_year m d = doy.
Proof.
  intros Hd mp d m.
  assert (Hmp : 0 <= mp <= 11) by (subst mp; Z.to_euclidean_division_equations; lia).
  assert (Hm : m + (if m >? 2 then -3 else 9) = mp /\ 1 <= m <= 12).
  { subst m. destruct (Z.ltb_spec mp 10); rewrite Z.gtb_ltb; case_match eqn:E; lia. }
  destruct Hm as [Hm Hm12]. unfold day_of_year. rewrite Hm. subst d mp.
  repeat split; try lia; Z.to_euclidean_division_equations; lia.
Qed.

(** [timegm] inverts [gmtime]. *)
Lemma days_from_civil_from_days days y m d :
  civil_from_days days = (y, m, d) ->
  days_from_civil y m d = days /\ 1 <= m <= 12 /\ 1 <= d <= 31.
Proof.
  unfold civil_from_days, civil_of_era. set (z := days + 719468).
  pose proof (Z.mod_pos_bound z 146097 eq_refl) as Hz.
  destruct (year_of_era_range _ Hz) as [Hy Hdoy].
  set (yoe := year_of_era (z mod 146097)) in *.
  set (doy := z mod 146097 - (365 * yoe + yoe / 4 - yoe / 100)) in *.
  destruct (month_of_year_range _ Hdoy) as (Hm & Hd & Hdy).
  set (mp := (5 * doy + 2) / 153) in *.
  set (d' := doy - (153 * mp + 2) / 5 + 1) in *.
  set (m' := if mp <? 10 then mp + 3 else mp - 9) in *.
  intros [= <- <- <-]. split; [|done]. unfold days_from_civil.
  assert (E : (if m' <=? 2 then yoe + (if m' <=? 2 then 1 else 0) + z / 146097 * 400 - 1
               else yoe + (if m' <=? 2 then 1 else 0) + z / 146097 * 400) =
              yoe + z / 146097 * 400) by (destruct (m' <=? 2); lia).
  rewrite E, Z.div_add, Z.mod_add, Z.div_small, Z.mod_small, Hdy by lia.
  unfold day_of_era. subst doy. pose proof (Z.div_mod z 146097). subst z. lia.
Qed.

Lemma every_digit (P : Z -> Prop) : Forall P (seqZ 0 10) -> forall n, 0 <= n <= 9 -> P n.
Proof. intros H n Hn. rewrite Forall_forall in H. apply H, elem_of_seqZ. lia. Qed.

Lemma digit_value_digit n : 0 <= n <= 9 -> digit_value (digit n) = Some n.
Proof.
  revert n. apply every_digit. by repeat constructor.
Qed.

Lemma read_pad2 n rest lo hi :
  0 <= n <= 99 -> lo <= n <= hi -> read_number 2 lo hi (pad2 n rest) = Some (n, rest).
Proof.
  intros Hn Hb. unfold read_number, pad2, read_fixed.
  rewrite digit_value_digit by (Z.to_euclidean_division_equations; lia). cbn [mbind option_bind].
  rewrite digit_value_digit by (Z.to_euclidean_division_equations; lia). cbn [mbind option_bind].
  assert ((0 * 10 + n / 10) * 10 + n mod 10 = n) as -> by (Z.to_euclidean_division_equations; lia).
  rewrite (proj2 (Z.leb_le lo n)), (proj2 (Z.leb_le n hi)) by lia. done.
Qed.

Lemma read_pad4 n rest lo hi :
  0 <= n <= 9999 -> lo <= n <= hi -> read_number 4 lo hi (pad4 n rest) = Some (n, rest).
Proof.
  intros Hn Hb. unfold read_number, pad4, pad2, read_fixed.
  do 4 (rewrite digit_value_digit by (Z.to_euclidean_division_equations; lia);
        cbn [mbind option_bind]).
  match goal with |- context [if (lo <=? ?e) && _ then _ else _] =>
    assert (e = n) as -> by (Z.to_euclidean_division_equations; lia) end.
  rewrite (proj2 (Z.leb_le lo n)), (proj2 (Z.leb_le n hi)) by lia. done.
Qed.

(** Years of the days the format can write. *)
Lemma civil_year_range days y m d :
  0 <= days < 2932897 -> civil_from_days days = (y, m, d) -> 0 <= y <= 9999.
Proof.
  intros Hb. unfold civil_from_days, civil_of_era. set (z := days + 719468).
  pose proof (Z.mod_pos_bound z 146097 eq_refl) as Hz.
  destruct (year_of_era_range _ Hz) as [Hy Hdoy].
  set (yoe := year_of_era (z mod 146097)) in *. intros [= <- _ _].
  set (doy := z mod 146097 - (365 * yoe + yoe / 4 - yoe / 100)) in *.
  assert (He : 0 <= z / 146097 <= 24) by (subst z; Z.to_euclidean_division_equations; lia).
  pose proof (Z.div_mod z 146097 ltac:(lia)) as Hdm.
  assert (Hlast : yoe + z / 146097 * 400 = 9999 -> doy <= 305).
  { intros E. assert (yoe = 399 /\ z / 146097 = 24) as [-> E2] by lia.
    rewrite E2 in Hdm. subst doy z. change (399 / 4) with 99. change (399 / 100) with 3. lia. }
  assert (Hmp : doy <= 305 -> (5 * doy + 2) / 153 < 10) by (intros; Z.to_euclidean_division_equations; lia).
  assert (Hmp0 : 0 <= (5 * doy + 2) / 153) by (Z.to_euclidean_division_equations; lia).
  destruct (Z.ltb_spec ((5 * doy + 2) / 153) 10); case_match eqn:E; lia.
Qed.

Lemma skip_space_digit n rest : 0 <= n <= 9 -> skip_space (String (digit n) rest) = String (digit n) rest.
Proof.
  revert n. apply every_digit. by repeat constructor.
Qed.

Lemma parse_format now :
  0 <= now < 253402300800 -> parse_timestamp (UtcNowSqlTimestamp now) = Some now.
Proof.
  intros Hn. unfold UtcNowSqlTimestamp.
  destruct (civil_from_days (now / 86400)) as [[y m] d] eqn:E.
  destruct (days_from_civil_from_days _ _ _ _ E) as (Hc & Hm & Hd).
  apply civil_year_range in E; [|Z.to_euclidean_division_equations; lia].
  set (s := now mod 86400).
  assert (Hs : 0 <= s < 86400) by (apply Z.mod_pos_bound; lia).
  assert (Hh : 0 <= s / 3600 <= 23) by (Z.to_euclidean_division_equations; lia).
  assert (Hmi : 0 <= s mod 3600 / 60 <= 59) by (Z.to_euclidean_division_equations; lia).
  assert (Hsec : 0 <= s mod 60 <= 59) by (Z.to_euclidean_division_equations; lia).
  unfold parse_timestamp. unfold pad4 at 1. unfold pad2 at 1.
  rewrite skip_space_digit by (Z.to_euclidean_division_equations; lia).
  change (String (digit (y / 100 / 10)) (String (digit ((y / 100) mod 10)) ?r))
    with (pad2 (y / 100) r).
  fold (pad4 y (String "-" (pad2 m (String "-" (pad2 d (String " "
    (pad2 (s / 3600) (String ":" (pad2 (s mod 3600 / 60) (String ":" (pad2 (s mod 60) ""))))))))))%char).
  rewrite read_pad4 by lia. cbn [mbind option_bind read_char Ascii.eqb Bool.eqb].
  rewrite read_pad2 by lia. cbn [mbind option_bind read_char Ascii.eqb Bool.eqb].
  rewrite read_pad2 by lia. cbn [mbind option_bind str_empty].
  change (skip_space (String " "%char ?r)) with (skip_space r). unfold pad2 at 1.
  rewrite skip_space_digit by (Z.to_euclidean_division_equations; lia).
  fold (pad2 (s / 3600) (String ":" (pad2 (s mod 3600 / 60) (String ":" (pad2 (s mod 60) ""))))%char).
  rewrite read_pad2 by lia. cbn [mbind option_bind read_char Ascii.eqb Bool.eqb].
  rewrite read_pad2 by lia. cbn [mbind option_bind read_char Ascii.eqb Bool.eqb].
  rewrite read_pad2 by lia. cbn [mbind option_bind].
  f_equal. rewrite Hc. subst s. Z.to_euclidean_division_equations; lia.
Qed.

Lemma timestamp_age now t :
  0 <= t < 253402300800 -> TimestampAgeSeconds now (UtcNowSqlTimestamp t) = Some (now - t).
Proof.
  intros Ht. unfold TimestampAgeSeconds, HeartbeatAgeSeconds.
  assert (str_empty (UtcNowSqlTimestamp t) = false) as ->.
  { unfold UtcNowSqlTimestamp. by destruct (civil_from_days (t / 86400)) as [[??]?]. }
  rewrite parse_format by done. by destruct (Z.ltb_spec t 0); [lia|].
Qed.

(** A timestamp the controller writes at second [t] is read back exactly: its
    age at [now] is [now - t], for every second from the epoch to the end of the
    year 9999, leap years included. *)
Theorem timestamp_roundtrip now t :
  0 <= t < 253402300800 ->
  parse_timestamp (UtcNowSqlTimestamp t) = Some t /\
  HeartbeatAgeSeconds now (UtcNowSqlTimestamp t) = Some (now - t).
Proof. intros Ht. split; [by apply parse_format | by apply timestamp_age]. Qed.

(** 2024-02-29 23:59:59, a leap day. *)
Lemma timestamp_roundtrip_witness :
  UtcNowSqlTimestamp 1709251199 = "2024-02-29 23:59:59" /\
  HeartbeatAgeSeconds 1709251200 (UtcNowSqlTimestamp 1709251199) = Some 1.
Proof.
  split; [by vm_compute|].
  refine (proj2 (timestamp_roundtrip 1709251200 1709251199 _)). lia.
Defined.
