(* ===== verification/SchedulerStore.v ===== *)
(** * The scheduler's tables

    [common/src/state/scheduler_repository.cpp] and its records in
    [sqlite_store.h].  [rollout_actions] is a list of rows in insertion order with
    its [AUTOINCREMENT] counter; the three runtime tables are maps by primary key.
    [CURRENT_TIMESTAMP] is the text [now].  A status column holds the enumeration
    its text stands for, the victims column the names its JSON array holds
    ([string_array_roundtrip]). *)

From S2P Require Import Prelude Json AssignmentStore SchedulingPolicy.

Record RolloutActionRecord := mkRolloutActionRecord {
  ra_id : Z;
  ra_plane_name : string;
  ra_desired_generation : Z;
  ra_step : Z;
  ra_worker_name : string;
  ra_action : string;
  ra_target_node_name : string;
  ra_target_gpu_device : string;
  ra_victim_worker_names : list string;
  ra_reason : string;
  ra_status : RolloutActionStatus;
  ra_status_message : string;
}.
#[export] Instance RolloutActionRecord_eq_dec : EqDecision RolloutActionRecord.
Proof. solve_decision. Defined.

Record SchedulerPlaneRuntime := mkSchedulerPlaneRuntime {
  spr_plane_name : string;
  spr_active_action : string;
  spr_active_worker_name : string;
  spr_phase : string;
  spr_action_generation : Z;
  spr_stable_samples : Z;
  spr_rollback_attempt_count : Z;
  spr_source_node_name : string;
  spr_source_gpu_device : string;
  spr_target_node_name : string;
  spr_target_gpu_device : string;
  spr_previous_state_json : string;
  spr_status_message : string;
  spr_started_at : string;
  spr_updated_at : string;
}.

Record SchedulerWorkerRuntime := mkSchedulerWorkerRuntime {
  swr_plane_name : string;
  swr_worker_name : string;
  swr_last_move_at : string;
  swr_last_eviction_at : string;
  swr_last_verified_generation : option Z;
  swr_last_scheduler_phase : string;
  swr_last_status_message : string;
  swr_manual_intervention_required : bool;
  swr_updated_at : string;
}.

Definition SchedulerWorkerRuntime_default : SchedulerWorkerRuntime :=
  mkSchedulerWorkerRuntime "" "" "" "" None "" "" false "".

Record SchedulerNodeRuntime := mkSchedulerNodeRuntime {
  snr_plane_name : string;
  snr_node_name : string;
  snr_last_move_at : string;
  snr_last_verified_generation : option Z;
  snr_updated_at : string;
}.

Definition SchedulerNodeRuntime_default : SchedulerNodeRuntime :=
  mkSchedulerNodeRuntime "" "" "" None "".

Record SchedulerTables := mkSchedulerTables {
  st_actions : list RolloutActionRecord;
  st_action_sequence : Z;
  st_planes : gmap string SchedulerPlaneRuntime;
  st_workers : gmap string SchedulerWorkerRuntime;
  st_nodes : gmap string SchedulerNodeRuntime;
}.

Definition empty_scheduler_tables : SchedulerTables := mkSchedulerTables [] 0 ∅ ∅ ∅.

Definition with_actions (actions : list RolloutActionRecord) (t : SchedulerTables)
    : SchedulerTables :=
  mkSchedulerTables actions (st_action_sequence t) (st_planes t) (st_workers t) (st_nodes t).
Definition with_planes (planes : gmap string SchedulerPlaneRuntime) (t : SchedulerTables)
    : SchedulerTables :=
  mkSchedulerTables (st_actions t) (st_action_sequence t) planes (st_workers t) (st_nodes t).
Definition with_workers (workers : gmap string SchedulerWorkerRuntime) (t : SchedulerTables)
    : SchedulerTables :=
  mkSchedulerTables (st_actions t) (st_action_sequence t) (st_planes t) workers (st_nodes t).
Definition with_nodes (nodes : gmap string SchedulerNodeRuntime) (t : SchedulerTables)
    : SchedulerTables :=
  mkSchedulerTables (st_actions t) (st_action_sequence t) (st_planes t) (st_workers t) nodes.

(** ** The victims column *)

Section columns.
Context `{JsonLibrary}.

Definition DeserializeStringArray (json_text : string) : result (list string) :=
  if str_empty json_text then Ok []
  else
    parsed ← parse json_text;
    match parsed with
    | JArray values =>
        foldR (fun acc item => if is_string item then s ← get_string item; Ok (acc ++ [s]) else Ok acc)
          [] values
    | _ => Ok []
    end.

Definition SerializeStringArray (values : list string) : result string :=
  dump (JArray (map JString values)).
End columns.

(** ** Rollout actions *)

Definition InsertRolloutAction (plane_name : string) (desired_generation : Z) (t : SchedulerTables)
    (action : SchedulerRolloutAction) : SchedulerTables :=
  let id := st_action_sequence t + 1 in
  let row :=
    {| ra_id := id; ra_plane_name := plane_name; ra_desired_generation := desired_generation;
       ra_step := act_step action; ra_worker_name := act_worker_name action;
       ra_action := act_action action; ra_target_node_name := act_target_node_name action;
       ra_target_gpu_device := act_target_gpu_device action;
       ra_victim_worker_names := act_victim_worker_names action; ra_reason := act_reason action;
       ra_status := RolloutPending; ra_status_message := "" |} in
  mkSchedulerTables (st_actions t ++ [row]) id (st_planes t) (st_workers t) (st_nodes t).

Definition ReplaceRolloutActions (plane_name : string) (desired_generation : Z)
    (actions : list SchedulerRolloutAction) (t : SchedulerTables) : SchedulerTables :=
  let t := with_actions (List.filter (fun a => ra_plane_name a !=? plane_name) (st_actions t)) t in
  foldl (InsertRolloutAction plane_name desired_generation) t actions.

Definition matches {A} `{EqDecision A} (wanted : option A) (value : A) : bool :=
  match wanted with Some v => value ==? v | None => true end.

(** [ORDER BY plane_name, desired_generation, step, id]. *)
Definition action_before (left right : RolloutActionRecord) : bool :=
  if ra_plane_name left !=? ra_plane_name right then klt (ra_plane_name left) (ra_plane_name right)
  else if ra_desired_generation left !=? ra_desired_generation right
  then klt (ra_desired_generation left) (ra_desired_generation right)
  else if ra_step left !=? ra_step right then klt (ra_step left) (ra_step right)
  else klt (ra_id left) (ra_id right).

Definition LoadRolloutActions (plane_name target_node_name : option string)
    (status : option RolloutActionStatus) (t : SchedulerTables) : list RolloutActionRecord :=
  std_sort action_before
    (List.filter (fun a => matches plane_name (ra_plane_name a) &&
                           matches target_node_name (ra_target_node_name a) &&
                           matches status (ra_status a)) (st_actions t)).

Definition action_with_status (status : RolloutActionStatus) (message : string)
    (a : RolloutActionRecord) : RolloutActionRecord :=
  mkRolloutActionRecord (ra_id a) (ra_plane_name a) (ra_desired_generation a) (ra_step a)
    (ra_worker_name a) (ra_action a) (ra_target_node_name a) (ra_target_gpu_device a)
    (ra_victim_worker_names a) (ra_reason a) status message.

Definition UpdateRolloutActionStatus (action_id : Z) (status : RolloutActionStatus)
    (status_message : string) (t : SchedulerTables) : SchedulerTables * bool :=
  (with_actions ((fun a => if ra_id a =? action_id then action_with_status status status_message a
                           else a) <$> st_actions t) t,
   Z.of_nat (length (List.filter (fun a => ra_id a =? action_id) (st_actions t))) =? 1).

(** ** Active action of a plane *)

(** [NULLIF(text, '')] and [COALESCE]. *)
Definition nullif_empty (text : string) : option string :=
  if str_empty text then None else Some text.

Definition runtime_with_stamps (started_at updated_at : string) (r : SchedulerPlaneRuntime)
    : SchedulerPlaneRuntime :=
  mkSchedulerPlaneRuntime (spr_plane_name r) (spr_active_action r) (spr_active_worker_name r)
    (spr_phase r) (spr_action_generation r) (spr_stable_samples r) (spr_rollback_attempt_count r)
    (spr_source_node_name r) (spr_source_gpu_device r) (spr_target_node_name r)
    (spr_target_gpu_device r) (spr_previous_state_json r) (spr_status_message r)
    started_at updated_at.

(** [excluded] is the row of the [VALUES] clause. *)
Definition UpsertSchedulerPlaneRuntime (now : string) (runtime : SchedulerPlaneRuntime)
    (t : SchedulerTables) : SchedulerTables :=
  let excluded_started_at := default now (nullif_empty (spr_started_at runtime)) in
  let started_at :=
    match st_planes t !! spr_plane_name runtime with
    | None => excluded_started_at
    | Some row => default (spr_started_at row) (nullif_empty excluded_started_at)
    end in
  with_planes (<[spr_plane_name runtime := runtime_with_stamps started_at now runtime]> (st_planes t)) t.

Definition LoadSchedulerPlaneRuntime (plane_name : string) (t : SchedulerTables)
    : option SchedulerPlaneRuntime := st_planes t !! plane_name.

Definition ClearSchedulerPlaneRuntime (plane_name : string) (t : SchedulerTables)
    : SchedulerTables := with_planes (delete plane_name (st_planes t)) t.

(** ** Workers and nodes *)

Definition UpsertSchedulerWorkerRuntime (now : string) (r : SchedulerWorkerRuntime)
    (t : SchedulerTables) : SchedulerTables :=
  with_workers
    (<[swr_worker_name r :=
         mkSchedulerWorkerRuntime (swr_plane_name r) (swr_worker_name r) (swr_last_move_at r)
           (swr_last_eviction_at r) (swr_last_verified_generation r) (swr_last_scheduler_phase r)
           (swr_last_status_message r) (swr_manual_intervention_required r) now]> (st_workers t)) t.

Definition LoadSchedulerWorkerRuntime (worker_name : string) (t : SchedulerTables)
    : option SchedulerWorkerRuntime := st_workers t !! worker_name.

Definition LoadSchedulerWorkerRuntimes (plane_name : option string) (t : SchedulerTables)
    : list SchedulerWorkerRuntime :=
  List.filter (fun r => matches plane_name (swr_plane_name r)) (map_items (st_workers t)).*2.

Definition UpsertSchedulerNodeRuntime (now : string) (r : SchedulerNodeRuntime)
    (t : SchedulerTables) : SchedulerTables :=
  with_nodes
    (<[snr_node_name r :=
         mkSchedulerNodeRuntime (snr_plane_name r) (snr_node_name r) (snr_last_move_at r)
           (snr_last_verified_generation r) now]> (st_nodes t)) t.

Definition LoadSchedulerNodeRuntime (node_name : string) (t : SchedulerTables)
    : option SchedulerNodeRuntime := st_nodes t !! node_name.

Definition LoadSchedulerNodeRuntimes (plane_name : option string) (t : SchedulerTables)
    : list SchedulerNodeRuntime :=
  List.filter (fun r => matches plane_name (snr_plane_name r)) (map_items (st_nodes t)).*2.

(** ** Lemmas *)

Lemma foldR_strings `{JsonLibrary} values acc :
  foldR (fun acc item => if is_string item then s ← get_string item; Ok (acc ++ [s]) else Ok acc)
    acc (map JString values) = Ok (acc ++ values).
Proof.
  revert acc. induction values as [|v values IH]; intros acc; cbn; [by rewrite app_nil_r|].
  rewrite get_string_law. cbn. by rewrite IH, <-app_assoc.
Qed.

(** A victims column is read back as written. *)
Lemma string_array_roundtrip `{JsonLibrary} values text :
  SerializeStringArray values = Ok text -> DeserializeStringArray text = Ok values.
Proof.
  unfold SerializeStringArray, DeserializeStringArray. intros Hd.
  destruct (str_empty text) eqn:E.
  - apply str_empty_true in E as ->. pose proof (parse_dump (JArray (map JString values)) _ (strings_json_ok values) Hd) as Hp.
    pose proof (parse_blank "" eq_refl) as Hb. by rewrite Hp in Hb.
  - rewrite (parse_dump (JArray (map JString values)) _ (strings_json_ok values) Hd), canon_strings. cbn [mbind result_bind].
    by rewrite foldR_strings.
Qed.

(** *** Action rows *)

(** Row ids are unique and below the counter. *)
Definition actions_ok (t : SchedulerTables) : Prop :=
  NoDup (ra_id <$> st_actions t) /\ Forall (fun a => ra_id a <= st_action_sequence t) (st_actions t).

Lemma actions_ok_empty : actions_ok empty_scheduler_tables.
Proof. split; constructor. Qed.

Lemma actions_ok_ext t t' :
  st_actions t' = st_actions t -> st_action_sequence t' = st_action_sequence t ->
  actions_ok t -> actions_ok t'.
Proof. unfold actions_ok. by intros -> ->. Qed.

Lemma insert_actions_ok plane generation t action :
  actions_ok t -> actions_ok (InsertRolloutAction plane generation t action).
Proof.
  intros [Hnd Hle]. split; cbn.
  - rewrite fmap_app. apply NoDup_app. split; [done|]. split; [|apply NoDup_singleton].
    intros x (a & -> & Ha)%list_elem_of_fmap Heq%list_elem_of_singleton.
    rewrite Forall_forall in Hle. specialize (Hle _ Ha). cbn in *. lia.
  - apply Forall_app. split; [|repeat constructor; cbn; lia].
    eapply Forall_impl; [exact Hle|]. cbn. intros; lia.
Qed.

Lemma filter_actions_ok p t :
  actions_ok t -> actions_ok (with_actions (List.filter p (st_actions t)) t).
Proof.
  intros [Hnd Hle]. split; cbn.
  - by apply NoDup_fmap_filterb.
  - apply Forall_forall. rewrite Forall_forall in Hle. intros a Ha.
    apply list_elem_of_In, filter_In in Ha as [Ha _]. apply Hle. by apply list_elem_of_In.
Qed.

Lemma replace_actions_ok plane generation actions t :
  actions_ok t -> actions_ok (ReplaceRolloutActions plane generation actions t).
Proof.
  intros Hok. unfold ReplaceRolloutActions.
  pose proof (filter_actions_ok (fun a => ra_plane_name a !=? plane) t Hok) as H.
  revert H. generalize (with_actions (List.filter (fun a => ra_plane_name a !=? plane)
    (st_actions t)) t) as t0. clear Hok.
  induction actions as [|action actions IH]; intros t0 H; simpl; [done|].
  apply IH. by apply insert_actions_ok.
Qed.

Lemma update_ids id status message (l : list RolloutActionRecord) :
  ra_id <$> ((fun a => if ra_id a =? id then action_with_status status message a else a) <$> l) =
  ra_id <$> l.
Proof.
  rewrite <-list_fmap_compose. apply list_fmap_ext. intros i a _. unfold compose.
  by destruct (ra_id a =? id).
Qed.

Lemma update_actions_ok id status message t :
  actions_ok t -> actions_ok (fst (UpdateRolloutActionStatus id status message t)).
Proof.
  intros [Hnd Hle]. split; cbn; [by rewrite update_ids|].
  apply Forall_fmap. eapply Forall_impl; [exact Hle|]. intros a Ha. cbn.
  by destruct (ra_id a =? id).
Qed.

#[export] Instance action_before_swo : StrictWeakOrder action_before.
Proof.
  unfold action_before.
  apply (swo_lex ra_plane_name), (swo_lex ra_desired_generation), (swo_lex ra_step).
  apply (swo_proj ra_id). apply _.
Qed.

Lemma elem_of_LoadRolloutActions plane node status t a :
  a ∈ LoadRolloutActions plane node status t <->
  a ∈ st_actions t /\ matches plane (ra_plane_name a) = true /\
  matches node (ra_target_node_name a) = true /\ matches status (ra_status a) = true.
Proof.
  unfold LoadRolloutActions. rewrite elem_of_std_sort, list_elem_of_In, filter_In.
  rewrite !andb_true_iff, <-list_elem_of_In. naive_solver.
Qed.

Lemma load_plane_actions plane t a :
  a ∈ LoadRolloutActions (Some plane) None None t <-> a ∈ st_actions t /\ ra_plane_name a = plane.
Proof.
  rewrite elem_of_LoadRolloutActions. cbn. rewrite eqb_true. naive_solver.
Qed.

(** The row an insertion adds for the [i]-th action. *)
Definition inserted_row (plane : string) (generation sequence : Z) (i : nat)
    (action : SchedulerRolloutAction) : RolloutActionRecord :=
  mkRolloutActionRecord (sequence + Z.of_nat i + 1) plane generation (act_step action)
    (act_worker_name action) (act_action action) (act_target_node_name action)
    (act_target_gpu_device action) (act_victim_worker_names action) (act_reason action)
    RolloutPending "".

Lemma insert_all plane generation actions t :
  foldl (InsertRolloutAction plane generation) t actions =
  mkSchedulerTables
    (st_actions t ++ imap (inserted_row plane generation (st_action_sequence t)) actions)
    (st_action_sequence t + Z.of_nat (length actions)) (st_planes t) (st_workers t) (st_nodes t).
Proof.
  revert t. induction actions as [|action actions IH]; intros t; simpl.
  - destruct t; cbn. by rewrite app_nil_r, Z.add_0_r.
  - rewrite IH. cbn. f_equal; [|lia]. rewrite <-app_assoc. f_equal. cbn. f_equal.
    + unfold inserted_row. f_equal. cbn. lia.
    + apply imap_ext. intros i a _. unfold compose, inserted_row. f_equal. lia.
Qed.

Lemma replace_actions_rows plane generation actions t :
  st_actions (ReplaceRolloutActions plane generation actions t) =
  List.filter (fun a => ra_plane_name a !=? plane) (st_actions t) ++
  imap (inserted_row plane generation (st_action_sequence t)) actions.
Proof. unfold ReplaceRolloutActions. by rewrite insert_all. Qed.

Lemma replace_actions_frame plane generation actions t :
  st_planes (ReplaceRolloutActions plane generation actions t) = st_planes t /\
  st_workers (ReplaceRolloutActions plane generation actions t) = st_workers t /\
  st_nodes (ReplaceRolloutActions plane generation actions t) = st_nodes t.
Proof. unfold ReplaceRolloutActions. by rewrite insert_all. Qed.

Lemma load_other_plane plane plane' generation actions t :
  plane' <> plane ->
  LoadRolloutActions (Some plane') None None (ReplaceRolloutActions plane generation actions t) =
  LoadRolloutActions (Some plane') None None t.
Proof.
  intros Hne. unfold LoadRolloutActions. f_equal. rewrite replace_actions_rows.
  rewrite List.filter_app.
  assert (List.filter (fun a => matches (Some plane') (ra_plane_name a) &&
    matches None (ra_target_node_name a) && matches None (ra_status a))
    (imap (inserted_row plane generation (st_action_sequence t)) actions) = []) as ->.
  { apply filter_nil. intros a Ha. apply elem_of_lookup_imap in Ha as (i & x & -> & _). cbn.
    by rewrite (proj2 (eqb_false plane plane')) by congruence. }
  rewrite app_nil_r. set (p := fun a : RolloutActionRecord => _).
  induction (st_actions t) as [|a l IH]; [done|].
  cbn [List.filter]. destruct (ra_plane_name a ==? plane) eqn:E; cbn [List.filter negb].
  - rewrite IH. rewrite eqb_true in E. assert (p a = false) as ->; [|done].
    unfold p. cbn. rewrite E. by rewrite (proj2 (eqb_false plane plane')) by congruence.
  - rewrite IH. done.
Qed.

(** The statement behind "retries keep the clock": the stored start of an action
    is the one passed, or the current time; the previous row never shows through. *)
Lemma upsert_plane_runtime now r t :
  now <> "" ->
  LoadSchedulerPlaneRuntime (spr_plane_name r) (UpsertSchedulerPlaneRuntime now r t) =
  Some (runtime_with_stamps (default now (nullif_empty (spr_started_at r))) now r).
Proof.
  intros Hnow. unfold LoadSchedulerPlaneRuntime, UpsertSchedulerPlaneRuntime. cbn.
  rewrite lookup_insert_eq. destruct (st_planes t !! spr_plane_name r) as [row|]; [|done].
  unfold nullif_empty. destruct (str_empty (spr_started_at r)) eqn:E; cbn.
  - by rewrite (proj2 (str_empty_false now) Hnow).
  - by rewrite E.
Qed.

Lemma NoDup_fmap_same {A B} (f : A -> B) l x y :
  NoDup (f <$> l) -> x ∈ l -> y ∈ l -> f x = f y -> x = y.
Proof.
  induction l as [|z l IH]; cbn; [set_solver|].
  intros [Hz Hnd]%NoDup_cons [->|Hx]%elem_of_cons [->|Hy]%elem_of_cons E; try done.
  - destruct Hz. rewrite E. by apply list_elem_of_fmap_2.
  - destruct Hz. rewrite <-E. by apply list_elem_of_fmap_2.
  - by apply IH.
Qed.

Lemma find_action_update id status message t a :
  actions_ok t -> a ∈ st_actions t -> ra_id a = id ->
  find_if (fun x => ra_id x =? id)
    (LoadRolloutActions (Some (ra_plane_name a)) None None
       (fst (UpdateRolloutActionStatus id status message t))) =
  Some (action_with_status status message a).
Proof.
  intros Hok Ha Hid. set (t' := fst _).
  assert (Hin : action_with_status status message a ∈ st_actions t').
  { cbn. apply list_elem_of_fmap. exists a. rewrite (proj2 (Z.eqb_eq (ra_id a) id) Hid). done. }
  destruct (find_if _ _) as [b|] eqn:E.
  - apply find_if_Some in E as [Hb Hbin]. apply Z.eqb_eq in Hb.
    apply load_plane_actions in Hbin as [Hbin _]. f_equal.
    destruct (update_actions_ok id status message t Hok) as [Hnd _]. fold t' in Hnd.
    apply (NoDup_fmap_same ra_id (st_actions t')); [done..|]. cbn. congruence.
  - rewrite find_if_None in E. specialize (E (action_with_status status message a)).
    rewrite (proj2 (Z.eqb_eq (ra_id (action_with_status status message a)) id) Hid) in E.
    discriminate E. apply load_plane_actions. split; [exact Hin | done].
Qed.

(** Replacing the rollout actions of a plane leaves exactly one pending row per
    given action, in order, under ids no earlier row had; the rows of every other
    plane and the runtime tables stay as they are. *)
Theorem replace_rollout_actions plane generation actions t :
  actions_ok t ->
  let t' := ReplaceRolloutActions plane generation actions t in
  actions_ok t' /\
  (forall a, a ∈ LoadRolloutActions (Some plane) None None t' <->
     exists i action, actions !! i = Some action /\
       a = inserted_row plane generation (st_action_sequence t) i action) /\
  (forall a b, a ∈ st_actions t -> b ∈ LoadRolloutActions (Some plane) None None t' ->
     ra_id a < ra_id b) /\
  (forall plane', plane' <> plane ->
     LoadRolloutActions (Some plane') None None t' = LoadRolloutActions (Some plane') None None t) /\
  st_planes t' = st_planes t /\ st_workers t' = st_workers t /\ st_nodes t' = st_nodes t.
Proof.
  intros Hok t'.
  assert (Hrows : forall a, a ∈ LoadRolloutActions (Some plane) None None t' <->
     exists i action, actions !! i = Some action /\
       a = inserted_row plane generation (st_action_sequence t) i action).
  { intros a. rewrite load_plane_actions. subst t'. rewrite replace_actions_rows, elem_of_app.
    rewrite elem_of_filterb, negb_true_iff, eqb_false, elem_of_lookup_imap. split.
    - intros [[[_ ?]|(i & x & -> & ?)] ?]; [done|]. by exists i, x.
    - intros (i & x & ? & ->). split; [|done]. right. by exists i, x. }
  split; [by apply replace_actions_ok|]. split; [exact Hrows|]. split.
  - intros a b Ha (i & x & _ & ->)%Hrows. destruct Hok as [_ Hle].
    rewrite Forall_forall in Hle. specialize (Hle _ Ha). cbn. lia.
  - split; [intros; by apply load_other_plane | apply replace_actions_frame].
Qed.

Definition fx_evict : SchedulerRolloutAction :=
  mkSchedulerRolloutAction 1 "worker-1" "evict-best-effort" "node-a" "0" ["worker-2"] "".
Definition fx_retry : SchedulerRolloutAction :=
  mkSchedulerRolloutAction 2 "worker-1" "retry-placement" "node-a" "0" [] "".

Lemma replace_rollout_actions_witness :
  actions_ok (ReplaceRolloutActions "alpha" 3 [fx_evict; fx_retry] empty_scheduler_tables).
Proof. exact (proj1 (replace_rollout_actions "alpha" 3 [fx_evict; fx_retry] _ actions_ok_empty)). Defined.
