(* ===== verification/StateCodecs.v ===== *)
(** * JSON codecs of the parts of a desired state

    [common/src/state/state_json_runtime_codecs.cpp],
    [state_json_settings_codecs.cpp] and the feature codecs of [state_json.cpp].
    An encoder is an [object] whose optional fields are written only when the
    source writes them; a decoder reads in the order of the source, a missing or
    mistyped member throws.  [JsonCodec] of [RuntimeStatus] is the contract: a
    value that satisfies [<Struct>_ok] is decoded from its encoding. *)

From S2P Require Import Prelude Binary64 Json Models RuntimeStatus.

Section codecs.
Context `{Lib : !JsonLibrary}.

(** ** Enumerations *)

Definition ParseDiskKind (value : string) : result DiskKind :=
  if value ==? "plane-shared" then Ok PlaneShared
  else if value ==? "infer-private" then Ok InferPrivate
  else if value ==? "worker-private" then Ok WorkerPrivate
  else if value ==? "app-private" then Ok AppPrivate
  else if value ==? "skills-private" then Ok SkillsPrivate
  else if value ==? "browsing-private" then Ok BrowsingPrivate
  else if value ==? "webgateway-private" then Ok BrowsingPrivate
  else if value ==? "interaction-private" then Ok InteractionPrivate
  else if value ==? "voice-module-private" then Ok VoiceModulePrivate
  else if value ==? "voice-maker-private" then Ok VoiceMakerPrivate
  else Throw ("unknown disk kind '" +:+ value +:+ "'").

Definition ParseInstanceRole (value : string) : result InstanceRole :=
  if value ==? "infer" then Ok Infer
  else if value ==? "worker" then Ok Worker
  else if value ==? "app" then Ok App
  else if value ==? "skills" then Ok Skills
  else if value ==? "browsing" then Ok Browsing
  else if value ==? "webgateway" then Ok Browsing
  else if value ==? "interaction" then Ok Interaction
  else if value ==? "voice-module" then Ok VoiceModule
  else if value ==? "voice-maker" then Ok VoiceMaker
  else Throw ("unknown instance role '" +:+ value +:+ "'").

(** ** Runtime codecs: encoders *)

Definition strings_json (values : list string) : json := JArray (map JString values).

Definition PublishedPort_ToJson (port : PublishedPort) : json := object [
  ("host_ip", Some (JString (port_host_ip port)));
  ("host_port", Some (JInt (port_host_port port)));
  ("container_port", Some (JInt (port_container_port port)))].

Definition NodeInventory_ToJson (node : NodeInventory) : json := object [
  ("name", Some (JString (node_name node)));
  ("platform", Some (JString (node_platform node)));
  ("execution_mode", Some (JString (HostExecutionMode_ToString (node_execution_mode node))));
  ("gpu_memory_mb", Some (map_json JInt (node_gpu_memory_mb node)))].

Definition WorkerGroupMemberSpec_ToJson (member : WorkerGroupMemberSpec) : json := object [
  ("name", Some (JString (wgm_name member)));
  ("infer_instance_name", Some (JString (wgm_infer_instance_name member)));
  ("node_name", Some (JString (wgm_node_name member)));
  ("gpu_device", Some (JString (wgm_gpu_device member)));
  ("rank", Some (JInt (wgm_rank member)));
  ("replica_group_id", Some (JString (wgm_replica_group_id member)));
  ("replica_index", Some (JInt (wgm_replica_index member)));
  ("replica_size", Some (JInt (wgm_replica_size member)));
  ("replica_leader", Some (JBool (wgm_replica_leader member)));
  ("data_parallel_rank", Some (JInt (wgm_data_parallel_rank member)));
  ("data_parallel_size", Some (JInt (wgm_data_parallel_size member)));
  ("data_parallel_size_local", Some (JInt (wgm_data_parallel_size_local member)));
  ("data_parallel_start_rank", Some (JInt (wgm_data_parallel_start_rank member)));
  ("data_parallel_api_endpoint", Some (JBool (wgm_data_parallel_api_endpoint member)));
  ("data_parallel_head_address", Some (JString (wgm_data_parallel_head_address member)));
  ("data_parallel_rpc_port", Some (JInt (wgm_data_parallel_rpc_port member)));
  ("rpc_port", Some (JInt (wgm_rpc_port member)));
  ("gpu_fraction", Some (JDouble (wgm_gpu_fraction member)));
  ("share_mode", Some (JString (GpuShareMode_ToString (wgm_share_mode member))));
  ("priority", Some (JInt (wgm_priority member)));
  ("preemptible", Some (JBool (wgm_preemptible member)));
  ("enabled", Some (JBool (wgm_enabled member)));
  ("leader", Some (JBool (wgm_leader member)));
  ("memory_cap_mb", JInt <$> wgm_memory_cap_mb member)].

Definition WorkerGroupSpec_ToJson (group : WorkerGroupSpec) : json := object [
  ("group_id", Some (JString (wg_group_id group)));
  ("infer_instance_name", Some (JString (wg_infer_instance_name group)));
  ("distributed_backend", Some (JString (wg_distributed_backend group)));
  ("rendezvous_host", Some (JString (wg_rendezvous_host group)));
  ("rendezvous_port", Some (JInt (wg_rendezvous_port group)));
  ("expected_workers", Some (JInt (wg_expected_workers group)));
  ("worker_selection_policy", Some (JString (wg_worker_selection_policy group)));
  ("members", Some (JArray (map WorkerGroupMemberSpec_ToJson (wg_members group))))].

Definition RuntimeGpuNode_ToJson (gpu_node : RuntimeGpuNode) : json := object [
  ("name", Some (JString (gpun_name gpu_node)));
  ("node_name", Some (JString (gpun_node_name gpu_node)));
  ("gpu_device", Some (JString (gpun_gpu_device gpu_node)));
  ("placement_mode", Some (JString (PlacementMode_ToString (gpun_placement_mode gpu_node))));
  ("share_mode", Some (JString (GpuShareMode_ToString (gpun_share_mode gpu_node))));
  ("gpu_fraction", Some (JDouble (gpun_gpu_fraction gpu_node)));
  ("priority", Some (JInt (gpun_priority gpu_node)));
  ("preemptible", Some (JBool (gpun_preemptible gpu_node)));
  ("enabled", Some (JBool (gpun_enabled gpu_node)));
  ("memory_cap_mb", JInt <$> gpun_memory_cap_mb gpu_node)].

Definition DiskSpec_ToJson (disk : DiskSpec) : json := object [
  ("name", Some (JString (disk_name disk)));
  ("kind", Some (JString (DiskKind_ToString (disk_kind disk))));
  ("plane_name", Some (JString (disk_plane_name disk)));
  ("owner_name", Some (JString (disk_owner_name disk)));
  ("node_name", Some (JString (disk_node_name disk)));
  ("host_path", Some (JString (disk_host_path disk)));
  ("container_path", Some (JString (disk_container_path disk)));
  ("size_gb", Some (JInt (disk_size_gb disk)))].

Definition AppModelMountSpec_ToJson (mount : AppModelMountSpec) : json := object [
  ("name", Some (JString (mount_name mount)));
  ("source_path", Some (JString (mount_source_path mount)));
  ("source_node_name", Some (JString (mount_source_node_name mount)));
  ("source_paths", Some (strings_json (mount_source_paths mount)));
  ("host_path", Some (JString (mount_host_path mount)));
  ("mount_path", Some (JString (mount_mount_path mount)));
  ("env_var", Some (JString (mount_env_var mount)));
  ("required", Some (JBool (mount_required mount)))].

Definition InstanceSpec_ToJson (instance : InstanceSpec) : json := object [
  ("name", Some (JString (inst_name instance)));
  ("role", Some (JString (InstanceRole_ToString (inst_role instance))));
  ("plane_name", Some (JString (inst_plane_name instance)));
  ("node_name", Some (JString (inst_node_name instance)));
  ("image", Some (JString (inst_image instance)));
  ("command", Some (JString (inst_command instance)));
  ("private_disk_name", Some (JString (inst_private_disk_name instance)));
  ("shared_disk_name", Some (JString (inst_shared_disk_name instance)));
  ("depends_on", Some (strings_json (inst_depends_on instance)));
  ("environment", Some (map_json JString (inst_environment instance)));
  ("labels", Some (map_json JString (inst_labels instance)));
  ("published_ports", Some (JArray (map PublishedPort_ToJson (inst_published_ports instance))));
  ("placement_mode", Some (JString (PlacementMode_ToString (inst_placement_mode instance))));
  ("share_mode", Some (JString (GpuShareMode_ToString (inst_share_mode instance))));
  ("gpu_fraction", Some (JDouble (inst_gpu_fraction instance)));
  ("priority", Some (JInt (inst_priority instance)));
  ("preemptible", Some (JBool (inst_preemptible instance)));
  ("private_disk_size_gb", Some (JInt (inst_private_disk_size_gb instance)));
  ("app_model_mounts", Some (JArray (map AppModelMountSpec_ToJson (inst_app_model_mounts instance))));
  ("gpu_device", JString <$> inst_gpu_device instance);
  ("memory_cap_mb", JInt <$> inst_memory_cap_mb instance)].

(** ** Runtime codecs: decoders *)

Definition PublishedPort_FromJson (value : json) : result PublishedPort :=
  host_ip ← json_value get_string value "host_ip" "127.0.0.1";
  host_port ← json_value get_int value "host_port" 0;
  container_port ← json_value get_int value "container_port" 0;
  Ok (mkPublishedPort host_ip host_port container_port).

Definition NodeInventory_FromJson (value : json) : result NodeInventory :=
  name ← json_at get_string value "name";
  platform ← json_at get_string value "platform";
  execution_mode_text ← json_value get_string value "execution_mode" "mixed";
  execution_mode ← ParseHostExecutionMode execution_mode_text;
  gpu_devices ← json_value get_strings value "gpu_devices" [];
  gpu_memory_mb ← json_value get_int_map value "gpu_memory_mb" ∅;
  Ok (mkNodeInventory name platform execution_mode
        (if vec_empty gpu_devices then map_keys gpu_memory_mb else gpu_devices) gpu_memory_mb).

Definition WorkerGroupMemberSpec_FromJson (value : json) : result WorkerGroupMemberSpec :=
  name ← json_at get_string value "name";
  infer_instance_name ← json_value get_string value "infer_instance_name" "";
  node_name ← json_at get_string value "node_name";
  gpu_device ← json_value get_string value "gpu_device" "";
  rank ← json_value get_int value "rank" 0;
  replica_group_id ← json_value get_string value "replica_group_id" "";
  replica_index ← json_value get_int value "replica_index" 0;
  replica_size ← json_value get_int value "replica_size" 1;
  default_leader ← json_value get_bool value "leader" false;
  replica_leader ← json_value get_bool value "replica_leader" default_leader;
  data_parallel_rank ← json_value get_int value "data_parallel_rank" replica_index;
  data_parallel_size ← json_value get_int value "data_parallel_size" 1;
  data_parallel_size_local ← json_value get_int value "data_parallel_size_local" 1;
  data_parallel_start_rank ← json_value get_int value "data_parallel_start_rank" data_parallel_rank;
  data_parallel_api_endpoint ← json_value get_bool value "data_parallel_api_endpoint" replica_leader;
  data_parallel_head_address ← json_value get_string value "data_parallel_head_address" "";
  data_parallel_rpc_port ← json_value get_int value "data_parallel_rpc_port" 0;
  rpc_port ← json_value get_int value "rpc_port" data_parallel_rpc_port;
  gpu_fraction ← json_value get_double value "gpu_fraction" d0;
  share_mode_text ← json_value get_string value "share_mode" "exclusive";
  share_mode ← ParseGpuShareMode share_mode_text;
  priority ← json_value get_int value "priority" 100;
  preemptible ← json_value get_bool value "preemptible" false;
  enabled ← json_value get_bool value "enabled" true;
  leader ← json_value get_bool value "leader" false;
  memory_cap_mb ← json_optional get_int value "memory_cap_mb";
  Ok (mkWorkerGroupMemberSpec name infer_instance_name node_name gpu_device rpc_port rank
        replica_group_id replica_index replica_size replica_leader data_parallel_rank
        data_parallel_size data_parallel_size_local data_parallel_start_rank
        data_parallel_api_endpoint data_parallel_head_address data_parallel_rpc_port gpu_fraction
        share_mode priority preemptible memory_cap_mb enabled leader).

Definition WorkerGroupSpec_FromJson (value : json) : result WorkerGroupSpec :=
  group_id ← json_value get_string value "group_id" "";
  infer_instance_name ← json_value get_string value "infer_instance_name" "";
  distributed_backend ← json_value get_string value "distributed_backend" "llama_rpc";
  rendezvous_host ← json_value get_string value "rendezvous_host" "";
  rendezvous_port ← json_value get_int value "rendezvous_port" 29500;
  expected_workers ← json_value get_int value "expected_workers" 0;
  worker_selection_policy ←
    json_value get_string value "worker_selection_policy" "prefer-free-then-share";
  members_json ← json_value get_json value "members" (JArray []);
  members ← mapR WorkerGroupMemberSpec_FromJson (List.filter is_object (items members_json));
  Ok (mkWorkerGroupSpec group_id infer_instance_name distributed_backend rendezvous_host
        rendezvous_port expected_workers worker_selection_policy members).

Definition RuntimeGpuNode_FromJson (value : json) : result RuntimeGpuNode :=
  name ← json_at get_string value "name";
  node_name ← json_at get_string value "node_name";
  gpu_device ← json_value get_string value "gpu_device" "";
  placement_mode_text ← json_value get_string value "placement_mode" "manual";
  placement_mode ← ParsePlacementMode placement_mode_text;
  share_mode_text ← json_value get_string value "share_mode" "exclusive";
  share_mode ← ParseGpuShareMode share_mode_text;
  gpu_fraction ← json_value get_double value "gpu_fraction" d0;
  priority ← json_value get_int value "priority" 100;
  preemptible ← json_value get_bool value "preemptible" false;
  memory_cap_mb ← json_optional get_int value "memory_cap_mb";
  enabled ← json_value get_bool value "enabled" true;
  Ok (mkRuntimeGpuNode name node_name gpu_device placement_mode share_mode gpu_fraction priority
        preemptible memory_cap_mb enabled).

Definition DiskSpec_FromJson (value : json) : result DiskSpec :=
  name ← json_at get_string value "name";
  kind_text ← json_at get_string value "kind";
  kind ← ParseDiskKind kind_text;
  plane_name ← json_at get_string value "plane_name";
  owner_name ← json_at get_string value "owner_name";
  node_name ← json_at get_string value "node_name";
  host_path ← json_at get_string value "host_path";
  container_path ← json_at get_string value "container_path";
  size_gb ← json_at get_int value "size_gb";
  Ok (mkDiskSpec name kind plane_name owner_name node_name host_path container_path size_gb).

Definition AppModelMountSpec_FromJson (value : json) : result AppModelMountSpec :=
  name ← json_value get_string value "name" "";
  source_path ← json_value get_string value "source_path" "";
  source_node_name ← json_value get_string value "source_node_name" "";
  source_paths ← json_value get_strings value "source_paths" [];
  host_path ← json_value get_string value "host_path" "";
  mount_path ← json_value get_string value "mount_path" "";
  env_var ← json_value get_string value "env_var" "";
  required ← json_value get_bool value "required" true;
  Ok (mkAppModelMountSpec name source_path source_node_name source_paths host_path mount_path
        env_var required).

(** [for (item : value.at(key)) if (item.is_object()) push_back(FromJson(item))]. *)
Definition object_items {A} (from_json : json -> result A) (value : json) : result (list A) :=
  mapR from_json (List.filter is_object (items value)).

Definition InstanceSpec_FromJson (value : json) : result InstanceSpec :=
  name ← json_at get_string value "name";
  role_text ← json_at get_string value "role";
  role ← ParseInstanceRole role_text;
  plane_name ← json_at get_string value "plane_name";
  node_name ← json_at get_string value "node_name";
  image ← json_at get_string value "image";
  command ← json_at get_string value "command";
  private_disk_name ← json_at get_string value "private_disk_name";
  shared_disk_name ← json_at get_string value "shared_disk_name";
  depends_on ← json_value get_strings value "depends_on" [];
  environment ← json_value get_string_map value "environment" ∅;
  labels ← json_value get_string_map value "labels" ∅;
  published_ports ← json_array (object_items PublishedPort_FromJson) value "published_ports";
  gpu_device ← json_optional get_string value "gpu_device";
  placement_mode ←
    (if has_value (member value "placement_mode")
     then text ← json_at get_string value "placement_mode"; ParsePlacementMode text
     else Ok (if (role ==? Worker) && str_empty (default "" gpu_device) then Auto else Manual));
  share_mode_text ← json_value get_string value "share_mode" "exclusive";
  share_mode ← ParseGpuShareMode share_mode_text;
  gpu_fraction ← json_value get_double value "gpu_fraction" (if role ==? Worker then d1 else d0);
  priority ← json_value get_int value "priority" 100;
  preemptible ← json_value get_bool value "preemptible" false;
  memory_cap_mb ← json_optional get_int value "memory_cap_mb";
  private_disk_size_gb ← json_value get_int value "private_disk_size_gb" 0;
  app_model_mounts ← json_array (object_items AppModelMountSpec_FromJson) value "app_model_mounts";
  Ok (mkInstanceSpec name role plane_name node_name image command private_disk_name
        shared_disk_name depends_on environment labels published_ports gpu_device placement_mode
        share_mode gpu_fraction priority preemptible memory_cap_mb private_disk_size_gb
        app_model_mounts).

(** ** Settings codecs: encoders *)

(** [if (!values.empty()) result[key] = values]. *)
Definition nonempty_strings (values : list string) : option json :=
  if vec_empty values then None else Some (strings_json values).

Definition CompletionPolicy_ToJson (policy : CompletionPolicy) : json := object [
  ("response_mode", Some (JString (cp_response_mode policy)));
  ("max_tokens", Some (JInt (cp_max_tokens policy)));
  ("max_continuations", Some (JInt (cp_max_continuations policy)));
  ("max_total_completion_tokens", Some (JInt (cp_max_total_completion_tokens policy)));
  ("max_elapsed_time_ms", Some (JInt (cp_max_elapsed_time_ms policy)));
  ("target_completion_tokens", JInt <$> cp_target_completion_tokens policy);
  ("semantic_goal", JString <$> cp_semantic_goal policy)].

Definition writeback_ToJson (b : BootstrapModelSpec) : json := object [
  ("enabled", Some (JBool (boot_writeback_enabled b)));
  ("if_missing", Some (JBool (boot_writeback_if_missing b)));
  ("target_node_name", JString <$> boot_writeback_target_node_name b)].

Definition BootstrapModelSpec_ToJson (b : BootstrapModelSpec) : json := object [
  ("model_id", Some (JString (boot_model_id b)));
  ("materialization_mode", Some (JString (boot_materialization_mode b)));
  ("served_model_name", JString <$> boot_served_model_name b);
  ("local_path", JString <$> boot_local_path b);
  ("source_node_name", JString <$> boot_source_node_name b);
  ("source_paths", nonempty_strings (boot_source_paths b));
  ("source_format", JString <$> boot_source_format b);
  ("source_quantization", JString <$> boot_source_quantization b);
  ("desired_output_format", JString <$> boot_desired_output_format b);
  ("quantization", JString <$> boot_quantization b);
  ("keep_source", if boot_keep_source b then None else Some (JBool (boot_keep_source b)));
  ("writeback", if boot_writeback_enabled b then Some (writeback_ToJson b) else None);
  ("source_url", JString <$> boot_source_url b);
  ("source_urls", nonempty_strings (boot_source_urls b));
  ("target_filename", JString <$> boot_target_filename b);
  ("sha256", JString <$> boot_sha256 b)].

Definition InteractionSettings_ToJson (interaction : InteractionSettings) : json := object [
  ("thinking_enabled", Some (JBool (ia_thinking_enabled interaction)));
  ("default_response_language", Some (JString (ia_default_response_language interaction)));
  ("supported_response_languages", Some (strings_json (ia_supported_response_languages interaction)));
  ("follow_user_language", Some (JBool (ia_follow_user_language interaction)));
  ("image", JString <$> ia_image interaction);
  ("system_prompt", JString <$> ia_system_prompt interaction);
  ("analysis_system_prompt", JString <$> ia_analysis_system_prompt interaction);
  ("default_temperature", JDouble <$> ia_default_temperature interaction);
  ("default_top_p", JDouble <$> ia_default_top_p interaction);
  ("completion_policy", CompletionPolicy_ToJson <$> ia_completion_policy interaction);
  ("long_completion_policy", CompletionPolicy_ToJson <$> ia_long_completion_policy interaction);
  ("analysis_completion_policy",
    CompletionPolicy_ToJson <$> ia_analysis_completion_policy interaction);
  ("analysis_long_completion_policy",
    CompletionPolicy_ToJson <$> ia_analysis_long_completion_policy interaction)].

Definition SkillsSettings_ToJson (skills : SkillsSettings) : json := object [
  ("enabled", Some (JBool (sk_enabled skills)));
  ("factory_skill_ids", nonempty_strings (sk_factory_skill_ids skills))].

Definition BrowsingPolicySettings_ToJson (policy : BrowsingPolicySettings) : json := object [
  ("browser_session_enabled", Some (JBool (bp_browser_session_enabled policy)));
  ("rendered_browser_enabled", Some (JBool (bp_rendered_browser_enabled policy)));
  ("login_enabled", Some (JBool (bp_login_enabled policy)));
  ("max_search_results", Some (JInt (bp_max_search_results policy)));
  ("max_fetch_bytes", Some (JInt (bp_max_fetch_bytes policy)));
  ("cef_enabled", if bp_cef_enabled policy then None else Some (JBool (bp_cef_enabled policy)));
  ("allowed_domains", nonempty_strings (bp_allowed_domains policy));
  ("blocked_domains", nonempty_strings (bp_blocked_domains policy));
  ("blocked_targets", nonempty_strings (bp_blocked_targets policy));
  ("response_review_enabled",
    if bp_response_review_enabled policy then None
    else Some (JBool (bp_response_review_enabled policy)));
  ("policy_version",
    if bp_policy_version policy !=? "webgateway-v1" then Some (JString (bp_policy_version policy))
    else None)].

Definition BrowsingSettings_ToJson (browsing : BrowsingSettings) : json := object [
  ("enabled", Some (JBool (br_enabled browsing)));
  ("policy", BrowsingPolicySettings_ToJson <$> br_policy browsing)].

Definition KnowledgeContextPolicySettings_ToJson (policy : KnowledgeContextPolicySettings) : json :=
  object [
  ("include_graph", Some (JBool (kcp_include_graph policy)));
  ("max_graph_depth", Some (JInt (kcp_max_graph_depth policy)));
  ("token_budget", Some (JInt (kcp_token_budget policy)))].

Definition KnowledgeSettings_ToJson (knowledge : KnowledgeSettings) : json := object [
  ("enabled", Some (JBool (kn_enabled knowledge)));
  ("service_id", Some (JString (kn_service_id knowledge)));
  ("selection_mode", Some (JString (kn_selection_mode knowledge)));
  ("selected_knowledge_ids", Some (strings_json (kn_selected_knowledge_ids knowledge)));
  ("context_policy", Some (KnowledgeContextPolicySettings_ToJson (kn_context_policy knowledge)))].

Definition ExternalAppHostConfig_ToJson (app_host : ExternalAppHostConfig) : json := object [
  ("address", Some (JString (ah_address app_host)));
  ("ssh_key_path", JString <$> ah_ssh_key_path app_host);
  ("username", JString <$> ah_username app_host);
  ("password", JString <$> ah_password app_host)].

(** ** Settings codecs: decoders *)

(** [for (item : value.at(key)) if (item.is_string()) push_back(item)]. *)
Definition string_items (value : json) : result (list string) :=
  mapR get_string (List.filter is_string (items value)).

Definition CompletionPolicy_FromJson (value : json) : result CompletionPolicy :=
  response_mode ← json_value get_string value "response_mode" "normal";
  max_tokens ← json_value get_int value "max_tokens" 512;
  target_completion_tokens ← json_optional get_int value "target_completion_tokens";
  max_continuations ← json_value get_int value "max_continuations" 3;
  max_total_completion_tokens ← json_value get_int value "max_total_completion_tokens" 1536;
  max_elapsed_time_ms ← json_value get_int value "max_elapsed_time_ms" 180000;
  semantic_goal ← json_optional get_string value "semantic_goal";
  Ok (mkCompletionPolicy response_mode max_tokens target_completion_tokens max_continuations
        max_total_completion_tokens max_elapsed_time_ms semantic_goal).

(** The [writeback] block: enabled, if_missing, target. *)
Definition writeback_FromJson (value : json) : result (bool * bool * option string) :=
  enabled ← json_value get_bool value "enabled" false;
  if_missing ← json_value get_bool value "if_missing" true;
  target ← json_optional get_string value "target_node_name";
  Ok (enabled, if_missing, target).

Definition BootstrapModelSpec_FromJson (value : json) : result BootstrapModelSpec :=
  model_id ← json_value get_string value "model_id" "";
  materialization_mode ← json_value get_string value "materialization_mode" "copy";
  served_model_name ← json_optional get_string value "served_model_name";
  local_path ← json_optional get_string value "local_path";
  source_node_name ← json_optional get_string value "source_node_name";
  source_paths ← json_array get_strings value "source_paths";
  source_format ← json_optional get_string value "source_format";
  source_quantization ← json_optional get_string value "source_quantization";
  desired_output_format ← json_optional get_string value "desired_output_format";
  quantization ← json_optional get_string value "quantization";
  keep_source ← json_value get_bool value "keep_source" true;
  writeback ← json_optional_object writeback_FromJson value "writeback";
  source_url ← json_optional get_string value "source_url";
  source_urls ← json_array get_strings value "source_urls";
  target_filename ← json_optional get_string value "target_filename";
  sha256 ← json_optional get_string value "sha256";
  let '(enabled, if_missing, target) := default (false, true, None) writeback in
  Ok (mkBootstrapModelSpec model_id served_model_name materialization_mode local_path
        source_node_name source_paths source_format source_quantization desired_output_format
        quantization keep_source enabled if_missing target source_url source_urls target_filename
        sha256).

Definition InteractionSettings_FromJson (value : json) : result InteractionSettings :=
  image ← json_optional get_string value "image";
  system_prompt ← json_optional get_string value "system_prompt";
  analysis_system_prompt ← json_optional get_string value "analysis_system_prompt";
  thinking_enabled ← json_value get_bool value "thinking_enabled" false;
  default_temperature ← json_optional get_double value "default_temperature";
  default_top_p ← json_optional get_double value "default_top_p";
  default_response_language ← json_value get_string value "default_response_language" "en";
  supported_response_languages ← json_value get_strings value "supported_response_languages" [];
  follow_user_language ← json_value get_bool value "follow_user_language" true;
  completion_policy ← json_optional_object CompletionPolicy_FromJson value "completion_policy";
  long_completion_policy ←
    json_optional_object CompletionPolicy_FromJson value "long_completion_policy";
  analysis_completion_policy ←
    json_optional_object CompletionPolicy_FromJson value "analysis_completion_policy";
  analysis_long_completion_policy ←
    json_optional_object CompletionPolicy_FromJson value "analysis_long_completion_policy";
  Ok (mkInteractionSettings image system_prompt analysis_system_prompt thinking_enabled
        default_temperature default_top_p default_response_language supported_response_languages
        follow_user_language completion_policy long_completion_policy analysis_completion_policy
        analysis_long_completion_policy).

Definition SkillsSettings_FromJson (value : json) : result SkillsSettings :=
  enabled ← json_value get_bool value "enabled" false;
  factory_skill_ids ← json_array string_items value "factory_skill_ids";
  Ok (mkSkillsSettings enabled factory_skill_ids).

Definition BrowsingPolicySettings_FromJson (value : json) : result BrowsingPolicySettings :=
  cef_enabled ← json_value get_bool value "cef_enabled" true;
  browser_session_enabled ← json_value get_bool value "browser_session_enabled" false;
  rendered_browser_enabled ← json_value get_bool value "rendered_browser_enabled" true;
  login_enabled ← json_value get_bool value "login_enabled" false;
  response_review_enabled ← json_value get_bool value "response_review_enabled" true;
  policy_version ← json_value get_string value "policy_version" "webgateway-v1";
  max_search_results ← json_value get_int value "max_search_results" 8;
  max_fetch_bytes ← json_value get_int value "max_fetch_bytes" 262144;
  allowed_domains ← json_array string_items value "allowed_domains";
  blocked_domains ← json_array string_items value "blocked_domains";
  blocked_targets ← json_array string_items value "blocked_targets";
  Ok (mkBrowsingPolicySettings cef_enabled browser_session_enabled rendered_browser_enabled
        login_enabled allowed_domains blocked_domains blocked_targets response_review_enabled
        policy_version max_search_results max_fetch_bytes).

Definition BrowsingSettings_FromJson (value : json) : result BrowsingSettings :=
  enabled ← json_value get_bool value "enabled" false;
  policy ← json_optional_object BrowsingPolicySettings_FromJson value "policy";
  Ok (mkBrowsingSettings enabled policy).

Definition KnowledgeContextPolicySettings_FromJson (value : json)
    : result KnowledgeContextPolicySettings :=
  include_graph ← json_value get_bool value "include_graph" true;
  max_graph_depth ← json_value get_int value "max_graph_depth" 1;
  token_budget ← json_value get_int value "token_budget" 12000;
  Ok (mkKnowledgeContextPolicySettings include_graph max_graph_depth token_budget).

Definition KnowledgeSettings_FromJson (value : json) : result KnowledgeSettings :=
  enabled ← json_value get_bool value "enabled" false;
  service_id ← json_value get_string value "service_id" "kv_default";
  selection_mode ← json_value get_string value "selection_mode" "latest";
  selected_knowledge_ids ← json_array string_items value "selected_knowledge_ids";
  context_policy ←
    json_optional_object KnowledgeContextPolicySettings_FromJson value "context_policy";
  Ok (mkKnowledgeSettings enabled service_id selection_mode selected_knowledge_ids
        (default (mkKnowledgeContextPolicySettings true 1 12000) context_policy)).

Definition ExternalAppHostConfig_FromJson (value : json) : result ExternalAppHostConfig :=
  address ← json_value get_string value "address" "";
  ssh_key_path ← json_optional get_string value "ssh_key_path";
  username ← json_optional get_string value "username";
  password ← json_optional get_string value "password";
  Ok (mkExternalAppHostConfig address ssh_key_path username password).

(** ** Features *)

Definition TurboQuantFeatureSpec_ToJson (turboquant : TurboQuantFeatureSpec) : json := object [
  ("enabled", Some (JBool (tq_enabled turboquant)));
  ("cache_type_k", JString <$> tq_cache_type_k turboquant);
  ("cache_type_v", JString <$> tq_cache_type_v turboquant)].

Definition TurboQuantFeatureSpec_FromJson (value : json) : result TurboQuantFeatureSpec :=
  enabled ← json_value get_bool value "enabled" false;
  cache_type_k ← json_optional get_string value "cache_type_k";
  cache_type_v ← json_optional get_string value "cache_type_v";
  Ok (mkTurboQuantFeatureSpec enabled cache_type_k cache_type_v).

Definition ContextCompressionFeatureSpec_ToJson (c : ContextCompressionFeatureSpec) : json := object [
  ("enabled", Some (JBool (cc_enabled c)));
  ("mode", Some (JString (cc_mode c)));
  ("target", Some (JString (cc_target c)));
  ("memory_priority", Some (JString (cc_memory_priority c)))].

Definition ContextCompressionFeatureSpec_FromJson (value : json)
    : result ContextCompressionFeatureSpec :=
  enabled ← json_value get_bool value "enabled" false;
  mode ← json_value get_string value "mode" "auto";
  target ← json_value get_string value "target" "dialog_and_knowledge";
  memory_priority ← json_value get_string value "memory_priority" "balanced";
  Ok (mkContextCompressionFeatureSpec enabled mode target memory_priority).

(** The [source] block of a voice model: [paths] only when they say more than [path]. *)
Definition voice_source_ToJson (model : AppModelMountSpec) : json := object [
  ("type", Some (JString "library"));
  ("path", Some (JString (mount_source_path model)));
  ("node", if str_empty (mount_source_node_name model) then None
           else Some (JString (mount_source_node_name model)));
  ("paths", if negb (vec_empty (mount_source_paths model)) &&
               negb (mount_source_paths model ==? [mount_source_path model])
            then Some (strings_json (mount_source_paths model)) else None)].

Definition voice_model_ToJson (name env : string) (model : AppModelMountSpec) : json := object [
  ("name", Some (JString (if str_empty (mount_name model) then name else mount_name model)));
  ("source", Some (voice_source_ToJson model));
  ("mount_path", Some (JString (mount_mount_path model)));
  ("env", Some (JString (if str_empty (mount_env_var model) then env else mount_env_var model)));
  ("required", Some (JBool (mount_required model)))].

(** [if (image.has_value() && !image->empty()) result["image"] = *image]. *)
Definition voice_image (image : option string) : option json :=
  match image with Some i => if str_empty i then None else Some (JString i) | None => None end.

Definition VoiceListenerFeatureSpec_ToJson (v : VoiceListenerFeatureSpec) : json := object [
  ("enabled", Some (JBool (vl_enabled v)));
  ("wake_phrase", Some (JString (vl_wake_phrase v)));
  ("language", Some (JString (vl_language v)));
  ("model", Some (voice_model_ToJson "whisper" "WHISPER_MODEL_PATH" (vl_model v)));
  ("image", voice_image (vl_image v))].

Definition VoiceMakerFeatureSpec_ToJson (v : VoiceMakerFeatureSpec) : json := object [
  ("enabled", Some (JBool (vm_enabled v)));
  ("language", Some (JString (vm_language v)));
  ("voice_mode", Some (JString (vm_voice_mode v)));
  ("instruct", Some (JString (vm_instruct v)));
  ("format", Some (JString (vm_output_format v)));
  ("model", Some (voice_model_ToJson "omnivoice" "OMNIVOICE_MODEL_PATH" (vm_model v)));
  ("image", voice_image (vm_image v))].

Definition AppModelMountSpec_default : AppModelMountSpec :=
  mkAppModelMountSpec "" "" "" [] "" "" "" true.

Definition voice_model_FromJson (name mount_path env : string) (value : json)
    : result AppModelMountSpec :=
  let source_json :=
    match member value "source" with
    | Some x => if is_object x then x else JObject []
    | None => JObject []
    end in
  name ← json_value get_string value "name" name;
  source_path ← json_value get_string source_json "path" "";
  source_node_name ← json_value get_string source_json "node" "";
  paths ← json_array get_strings source_json "paths";
  let source_paths :=
    if vec_empty paths && negb (str_empty source_path) then [source_path] else paths in
  mount_path ← json_value get_string value "mount_path" mount_path;
  env_var ← json_value get_string value "env" env;
  required ← json_value get_bool value "required" true;
  Ok (mkAppModelMountSpec name source_path source_node_name source_paths "" mount_path env_var
        required).

(** [if (contains("image") && at("image").is_string()) image = ...]. *)
Definition voice_image_FromJson (value : json) : result (option string) :=
  match member value "image" with
  | Some x => if is_string x then s ← get_string x; Ok (Some s) else Ok None
  | None => Ok None
  end.

Definition VoiceListenerFeatureSpec_FromJson (value : json) : result VoiceListenerFeatureSpec :=
  enabled ← json_value get_bool value "enabled" false;
  wake_phrase ← json_value get_string value "wake_phrase" "Hey Jex";
  language ← json_value get_string value "language" "auto";
  image ← voice_image_FromJson value;
  model ←
    json_optional_object
      (voice_model_FromJson "whisper" "/models/whisper/model.bin" "WHISPER_MODEL_PATH")
      value "model";
  Ok (mkVoiceListenerFeatureSpec enabled wake_phrase language
        (default AppModelMountSpec_default model) image).

Definition VoiceMakerFeatureSpec_FromJson (value : json) : result VoiceMakerFeatureSpec :=
  enabled ← json_value get_bool value "enabled" false;
  language ← json_value get_string value "language" "auto";
  voice_mode ← json_value get_string value "voice_mode" "design";
  instruct ←
    json_value get_string value "instruct" "neutral, clear voice, medium pitch, calm style";
  output_format ← json_value get_string value "format" "wav";
  image ← voice_image_FromJson value;
  model ←
    json_optional_object
      (voice_model_FromJson "omnivoice" "/models/omnivoice" "OMNIVOICE_MODEL_PATH") value "model";
  Ok (mkVoiceMakerFeatureSpec enabled language voice_mode instruct output_format
        (default AppModelMountSpec_default model) image).

Definition SecuredConnectionFeatureSpec_ToJson (s : SecuredConnectionFeatureSpec) : json := object [
  ("enabled", Some (JBool (sc_enabled s)));
  ("user_ids", Some (strings_json (sc_user_ids s)))].

Definition SecuredConnectionFeatureSpec_FromJson (value : json)
    : result SecuredConnectionFeatureSpec :=
  enabled ← json_value get_bool value "enabled" false;
  user_ids ← json_array get_strings value "user_ids";
  Ok (mkSecuredConnectionFeatureSpec enabled user_ids).
End codecs.

(** ** Reading back *)

Section readers.
Context `{Lib : !JsonLibrary}.

Lemma optional_string v k x :
  member v k = canon <$> (JString <$> x) -> json_optional get_string v k = Ok x.
Proof. unfold json_optional. intros ->. destruct x; cbn; by rewrite ?get_string_law. Qed.

Lemma optional_double v k x :
  member v k = canon <$> (JDouble <$> x) -> json_optional get_double v k = Ok x.
Proof. unfold json_optional. intros ->. destruct x; cbn; by rewrite ?get_double_law. Qed.

Lemma optional_int v k x :
  member v k = canon <$> (JInt <$> x) -> from_option int_ok true x = true ->
  json_optional get_int v k = Ok x.
Proof.
  unfold json_optional. intros ->. destruct x; cbn; [|done]. intros H. by rewrite get_int_ok.
Qed.

Lemma canon_strings_json l : canon (strings_json l) = strings_json l.
Proof. apply canon_strings. Qed.

Lemma get_strings_json l : get_strings (strings_json l) = Ok l.
Proof. apply get_strings_law. Qed.

Lemma string_items_json l : string_items (strings_json l) = Ok l.
Proof. apply strings_roundtrip. Qed.

Lemma array_strings v k l :
  member v k = canon <$> nonempty_strings l -> json_array get_strings v k = Ok l.
Proof.
  unfold json_array, nonempty_strings. intros ->. destruct l as [|x l]; [done|].
  cbn [vec_empty fmap option_fmap option_map]. rewrite canon_strings_json. apply get_strings_law.
Qed.

Lemma array_all_strings v k l :
  member v k = canon <$> Some (strings_json l) -> json_array get_strings v k = Ok l.
Proof.
  unfold json_array. intros ->. cbn [fmap option_fmap option_map]. rewrite canon_strings_json.
  apply get_strings_law.
Qed.

Lemma array_string_items v k l :
  member v k = canon <$> nonempty_strings l -> json_array string_items v k = Ok l.
Proof.
  unfold json_array, nonempty_strings. intros ->. destruct l as [|x l]; [done|].
  cbn [vec_empty fmap option_fmap option_map]. rewrite canon_strings_json. apply string_items_json.
Qed.

Lemma array_all_string_items v k l :
  member v k = canon <$> Some (strings_json l) -> json_array string_items v k = Ok l.
Proof.
  unfold json_array. intros ->. cbn [fmap option_fmap option_map]. rewrite canon_strings_json.
  apply string_items_json.
Qed.

Section structs.
Context {A : Type} (to_json : A -> json) (from_json : json -> result A) (ok : A -> bool).
Context `{Codec : !JsonCodec to_json from_json ok}.

Lemma optional_struct v k x :
  member v k = canon <$> (to_json <$> x) -> from_option ok true x = true ->
  json_optional_object from_json v k = Ok x.
Proof.
  unfold json_optional_object. intros ->. destruct x as [x|]; cbn; [|done]. intros Hx.
  rewrite is_object_canon, codec_object. by rewrite codec_roundtrip.
Qed.

Lemma array_structs v k l :
  member v k = canon <$> Some (JArray (map to_json l)) -> forallb ok l = true ->
  json_array (object_items from_json) v k = Ok l.
Proof.
  unfold json_array. intros ->. intros Hl. cbn [fmap option_fmap option_map].
  unfold object_items. rewrite (vector_roundtrip to_json from_json ok) by done. done.
Qed.

(** A vector whose elements are all read. *)
Lemma vector_all_roundtrip l :
  forallb ok l = true -> mapR from_json (items (canon (JArray (map to_json l)))) = Ok l.
Proof.
  intros Hok. cbn. rewrite items_array. apply mapR_Forall2.
  induction l as [|x l IH]; cbn in *; [constructor|].
  apply andb_true_iff in Hok as [Hx Hl]. constructor; [by apply codec_roundtrip | auto].
Qed.

Lemma struct_json_ok x : from_option ok true x = true -> from_option json_ok true (to_json <$> x) = true.
Proof. destruct x; cbn; [apply codec_json_ok | done]. Qed.
End structs.

Lemma optional_int_json_ok x :
  from_option int_ok true x = true -> from_option json_ok true (JInt <$> x) = true.
Proof. destruct x; cbn; [apply int_ok_json | done]. Qed.
Lemma optional_string_json_ok x : from_option json_ok true (JString <$> x) = true.
Proof. by destruct x. Qed.
Lemma optional_double_json_ok x :
  from_option double_ok true x = true -> from_option json_ok true (JDouble <$> x) = true.
Proof. by destruct x. Qed.
Lemma strings_json_json_ok l : json_ok (strings_json l) = true.
Proof. apply strings_json_ok. Qed.
Lemma nonempty_strings_json_ok l : from_option json_ok true (nonempty_strings l) = true.
Proof. destruct l; [done|]. apply strings_json_ok. Qed.
Lemma map_json_ok {A} (to_json : A -> json) (m : gmap string A) :
  map_Forall (fun _ x => json_ok (to_json x) = true) m -> json_ok (map_json to_json m) = true.
Proof.
  intros Hm. cbn. apply forallb_forall. intros kv (x & <- & Hx)%in_map_iff. cbn.
  destruct x as [k x]. apply (Hm k). apply list_elem_of_In in Hx. by apply elem_of_map_items in Hx.
Qed.

Lemma read_string_map v k m d :
  json_value get_string_map v k d =
    match canon <$> Some (map_json JString m) with Some x => get_string_map x | None => Ok d end ->
  json_value get_string_map v k d = Ok m.
Proof. intros ->. cbn [fmap option_fmap option_map]. rewrite canon_map_json by done. apply get_string_map_law. Qed.
End readers.

#[export] Hint Resolve optional_int_json_ok optional_string_json_ok optional_double_json_ok
  strings_json_json_ok nonempty_strings_json_ok : codec.
#[export] Hint Extern 3 (from_option json_ok true (_ <$> _) = true) =>
  eapply struct_json_ok; [exact _ | assumption] : codec.
#[export] Hint Extern 3 (json_ok (JArray _) = true) =>
  eapply vector_json_ok; [exact _ | assumption] : codec.
Ltac codec_ok := eapply codec_json_ok; assumption.

(** Names the parsed object [v]: [Hv], [Ha] and [Hm] give its members. *)
Ltac name_fields v Hv Ha Hm :=
  match goal with
  | |- context [canon (object ?f)] =>
      let Hnd := fresh in
      assert (NoDup f.*1) as Hnd by solve_keys;
      pose proof (fun A (get : json -> result A) key d => json_value_object get f key d Hnd) as Hv;
      pose proof (fun A (get : json -> result A) key => json_at_object get f key Hnd) as Ha;
      pose proof (fun key => member_of_object f key Hnd) as Hm;
      clear Hnd;
      set (v := canon (object f)) in *; clearbody v
  end.

(** One read at the head of a decoder. *)
Ltac read_scalar :=
  cbn [assoc String.eqb Ascii.eqb Bool.eqb mjoin option_join fmap option_fmap option_map];
  repeat match goal with
  | |- context [canon ?j] =>
      match j with JString _ => idtac | JInt _ => idtac | JBool _ => idtac | JDouble _ => idtac end;
      change (canon j) with j
  end;
  rewrite ?canon_strings_json, ?canon_map_json by done;
  rewrite ?get_string_law, ?get_bool_law, ?get_double_law, ?get_json_law, ?get_strings_json,
    ?get_string_map_law;
  rewrite ?get_int_ok by assumption;
  first [ rewrite get_int_map_law by assumption | idtac ].

Ltac by_member Hm := rewrite Hm; reflexivity.

Ltac read_field v Hv Ha Hm :=
  match goal with
  | |- (Ok _ ≫= _) = _ => idtac
  | |- (json_value ?g v ?k ?d ≫= _) = _ => rewrite (Hv _ g k d); read_scalar
  | |- (json_at ?g v ?k ≫= _) = _ => rewrite (Ha _ g k); read_scalar
  | |- (json_optional get_string v ?k ≫= _) = _ => erewrite (optional_string v k) by by_member Hm
  | |- (json_optional get_double v ?k ≫= _) = _ => erewrite (optional_double v k) by by_member Hm
  | |- (json_optional get_int v ?k ≫= _) = _ =>
      erewrite (optional_int v k); [| by_member Hm | assumption]
  | |- (json_array get_strings v ?k ≫= _) = _ =>
      first [ erewrite (array_strings v k) by by_member Hm
            | erewrite (array_all_strings v k) by by_member Hm ]
  | |- (json_array string_items v ?k ≫= _) = _ =>
      first [ erewrite (array_string_items v k) by by_member Hm
            | erewrite (array_all_string_items v k) by by_member Hm ]
  | |- (json_optional_object ?f v ?k ≫= _) = _ =>
      erewrite (optional_struct _ f _ v k); [| by_member Hm | assumption]
  | |- (json_array (object_items ?f) v ?k ≫= _) = _ =>
      erewrite (array_structs _ f _ v k); [| by_member Hm | assumption]
  | |- (mapR ?from (List.filter _ (items (canon (JArray (map ?to ?l))))) ≫= _) = _ =>
      rewrite (vector_roundtrip to from _ l) by eassumption
  | |- (mapR ?from (items (canon (JArray (map ?to ?l)))) ≫= _) = _ =>
      rewrite (vector_all_roundtrip to from _ l) by eassumption
  | |- (?parse (?to_string ?x) ≫= _) = _ =>
      assert (parse (to_string x) = Ok x) as -> by (by destruct x)
  end;
  rewrite bind_ok; cbv beta.

Tactic Notation "solve_object_codec" reference(from_json) reference(to_json) reference(ok) :=
  let x := fresh "x" in let H := fresh "H" in
  split; [done | |];
  intros x H; unfold ok in H; split_ok H;
  [ unfold to_json; apply json_ok_object; cbn [forallb snd from_option json_ok];
    rewrite ?andb_true_iff; repeat split; auto with codec
  | let v := fresh "v" in let Hv := fresh "Hv" in let Ha := fresh "Ha" in
    let Hm := fresh "Hm" in
    unfold from_json, to_json; name_fields v Hv Ha Hm; repeat read_field v Hv Ha Hm;
    try (by destruct x) ].

(** ** What a struct must satisfy to be read back *)

Definition PublishedPort_ok (port : PublishedPort) : bool :=
  int_ok (port_host_port port) && int_ok (port_container_port port).

#[export] Instance PublishedPort_codec `{Lib : !JsonLibrary} :
  JsonCodec PublishedPort_ToJson PublishedPort_FromJson PublishedPort_ok.
Proof. solve_object_codec PublishedPort_FromJson PublishedPort_ToJson PublishedPort_ok. Qed.

(** Only the memory map of a node is written: its device list must be the keys. *)
Definition NodeInventory_ok (node : NodeInventory) : bool :=
  bool_decide (map_Forall (fun _ z => int_ok z = true) (node_gpu_memory_mb node)) &&
  (node_gpu_devices node ==? map_keys (node_gpu_memory_mb node)).

#[export] Instance NodeInventory_codec `{Lib : !JsonLibrary} :
  JsonCodec NodeInventory_ToJson NodeInventory_FromJson NodeInventory_ok.
Proof.
  split; [done| |]; intros x [Hm Hd]%andb_true_iff; apply bool_decide_eq_true in Hm.
  - apply json_ok_object. cbn [forallb snd from_option json_ok]. rewrite ?andb_true_iff.
    repeat split. apply map_json_ok. intros k z Hz. apply int_ok_json. by apply (Hm k).
  - rewrite eqb_true in Hd.
    assert (map_Forall (fun _ z => int_min <= z <= int_max) (node_gpu_memory_mb x)) as Hi.
    { intros k z Hz. specialize (Hm k z Hz). unfold int_ok in Hm. lia. }
    unfold NodeInventory_FromJson, NodeInventory_ToJson. name_fields v Hv Ha Hmm.
    repeat read_field v Hv Ha Hmm. destruct x; cbn in *. by subst.
Qed.

Definition WorkerGroupMemberSpec_ok (m : WorkerGroupMemberSpec) : bool :=
  int_ok (wgm_rank m) && int_ok (wgm_replica_index m) && int_ok (wgm_replica_size m) &&
  int_ok (wgm_data_parallel_rank m) && int_ok (wgm_data_parallel_size m) &&
  int_ok (wgm_data_parallel_size_local m) && int_ok (wgm_data_parallel_start_rank m) &&
  int_ok (wgm_data_parallel_rpc_port m) && int_ok (wgm_rpc_port m) &&
  double_ok (wgm_gpu_fraction m) && int_ok (wgm_priority m) &&
  from_option int_ok true (wgm_memory_cap_mb m).

#[export] Instance WorkerGroupMemberSpec_codec `{Lib : !JsonLibrary} :
  JsonCodec WorkerGroupMemberSpec_ToJson WorkerGroupMemberSpec_FromJson WorkerGroupMemberSpec_ok.
Proof.
  solve_object_codec WorkerGroupMemberSpec_FromJson WorkerGroupMemberSpec_ToJson
    WorkerGroupMemberSpec_ok.
Qed.

Definition WorkerGroupSpec_ok (g : WorkerGroupSpec) : bool :=
  int_ok (wg_rendezvous_port g) && int_ok (wg_expected_workers g) &&
  forallb WorkerGroupMemberSpec_ok (wg_members g).

#[export] Instance WorkerGroupSpec_codec `{Lib : !JsonLibrary} :
  JsonCodec WorkerGroupSpec_ToJson WorkerGroupSpec_FromJson WorkerGroupSpec_ok.
Proof. solve_object_codec WorkerGroupSpec_FromJson WorkerGroupSpec_ToJson WorkerGroupSpec_ok. Qed.

Definition RuntimeGpuNode_ok (g : RuntimeGpuNode) : bool :=
  double_ok (gpun_gpu_fraction g) && int_ok (gpun_priority g) &&
  from_option int_ok true (gpun_memory_cap_mb g).

#[export] Instance RuntimeGpuNode_codec `{Lib : !JsonLibrary} :
  JsonCodec RuntimeGpuNode_ToJson RuntimeGpuNode_FromJson RuntimeGpuNode_ok.
Proof. solve_object_codec RuntimeGpuNode_FromJson RuntimeGpuNode_ToJson RuntimeGpuNode_ok. Qed.

Definition DiskSpec_ok (d : DiskSpec) : bool := int_ok (disk_size_gb d).

#[export] Instance DiskSpec_codec `{Lib : !JsonLibrary} :
  JsonCodec DiskSpec_ToJson DiskSpec_FromJson DiskSpec_ok.
Proof. solve_object_codec DiskSpec_FromJson DiskSpec_ToJson DiskSpec_ok. Qed.

Definition AppModelMountSpec_ok (m : AppModelMountSpec) : bool := true.

#[export] Instance AppModelMountSpec_codec `{Lib : !JsonLibrary} :
  JsonCodec AppModelMountSpec_ToJson AppModelMountSpec_FromJson AppModelMountSpec_ok.
Proof. solve_object_codec AppModelMountSpec_FromJson AppModelMountSpec_ToJson AppModelMountSpec_ok. Qed.

Definition InstanceSpec_ok (i : InstanceSpec) : bool :=
  forallb PublishedPort_ok (inst_published_ports i) && double_ok (inst_gpu_fraction i) &&
  int_ok (inst_priority i) && from_option int_ok true (inst_memory_cap_mb i) &&
  int_ok (inst_private_disk_size_gb i) &&
  forallb AppModelMountSpec_ok (inst_app_model_mounts i).

#[export] Instance InstanceSpec_codec `{Lib : !JsonLibrary} :
  JsonCodec InstanceSpec_ToJson InstanceSpec_FromJson InstanceSpec_ok.
Proof.
  split; [done| |]; intros x H; unfold InstanceSpec_ok in H; split_ok H.
  - unfold InstanceSpec_ToJson. apply json_ok_object. cbn [forallb snd from_option json_ok].
    rewrite ?andb_true_iff. repeat split; auto with codec; by apply map_json_ok.
  - unfold InstanceSpec_FromJson, InstanceSpec_ToJson. name_fields v Hv Ha Hm.
    repeat read_field v Hv Ha Hm. rewrite (Hm "placement_mode").
    cbn [assoc String.eqb Ascii.eqb Bool.eqb mjoin option_join fmap option_fmap option_map has_value].
    repeat read_field v Hv Ha Hm.
    rewrite Ha. read_scalar. rewrite bind_ok.
    assert (ParsePlacementMode (PlacementMode_ToString (inst_placement_mode x)) =
            Ok (inst_placement_mode x)) as -> by (by destruct (inst_placement_mode x)).
    rewrite bind_ok. repeat read_field v Hv Ha Hm. by destruct x.
Qed.

Definition CompletionPolicy_ok (p : CompletionPolicy) : bool :=
  int_ok (cp_max_tokens p) && int_ok (cp_max_continuations p) &&
  int_ok (cp_max_total_completion_tokens p) && int_ok (cp_max_elapsed_time_ms p) &&
  from_option int_ok true (cp_target_completion_tokens p).

#[export] Instance CompletionPolicy_codec `{Lib : !JsonLibrary} :
  JsonCodec CompletionPolicy_ToJson CompletionPolicy_FromJson CompletionPolicy_ok.
Proof. solve_object_codec CompletionPolicy_FromJson CompletionPolicy_ToJson CompletionPolicy_ok. Qed.

(** The write-back block is written only when enabled. *)
Definition BootstrapModelSpec_ok (b : BootstrapModelSpec) : bool :=
  boot_writeback_enabled b ||
  (boot_writeback_if_missing b && negb (has_value (boot_writeback_target_node_name b))).

Lemma writeback_roundtrip `{Lib : !JsonLibrary} b :
  writeback_FromJson (canon (writeback_ToJson b)) =
  Ok (boot_writeback_enabled b, boot_writeback_if_missing b, boot_writeback_target_node_name b).
Proof.
  unfold writeback_FromJson, writeback_ToJson. name_fields v Hv Ha Hm.
  by repeat read_field v Hv Ha Hm.
Qed.

#[export] Instance BootstrapModelSpec_codec `{Lib : !JsonLibrary} :
  JsonCodec BootstrapModelSpec_ToJson BootstrapModelSpec_FromJson BootstrapModelSpec_ok.
Proof.
  split; [done| |]; intros x H.
  - unfold BootstrapModelSpec_ToJson. apply json_ok_object. cbn [forallb snd].
    rewrite ?andb_true_iff. repeat split; auto with codec.
    + by destruct (boot_keep_source x).
    + destruct (boot_writeback_enabled x); [|done]. cbn [from_option].
      unfold writeback_ToJson. apply json_ok_object. cbn [forallb snd from_option json_ok].
      rewrite ?andb_true_iff. repeat split; auto with codec.
  - unfold BootstrapModelSpec_FromJson, BootstrapModelSpec_ToJson. name_fields v Hv Ha Hm.
    repeat read_field v Hv Ha Hm.
    assert (json_value get_bool v "keep_source" true = Ok (boot_keep_source x)) as ->.
    { rewrite Hv. cbn. destruct (boot_keep_source x); cbn; by rewrite ?get_bool_law. }
    rewrite bind_ok.
    assert (json_optional_object writeback_FromJson v "writeback" =
      Ok (if boot_writeback_enabled x
          then Some (true, boot_writeback_if_missing x, boot_writeback_target_node_name x)
          else None)) as ->.
    { unfold json_optional_object. rewrite Hm. cbn [assoc String.eqb Ascii.eqb Bool.eqb mjoin option_join].
      destruct (boot_writeback_enabled x) eqn:E; [|done]. cbn [fmap option_fmap option_map].
      rewrite is_object_canon. cbn [is_object object writeback_ToJson].
      by rewrite writeback_roundtrip, E. }
    rewrite bind_ok. repeat read_field v Hv Ha Hm. unfold BootstrapModelSpec_ok in H.
    destruct x; cbn in *. destruct boot_writeback_enabled; cbn in *; [done|].
    destruct boot_writeback_if_missing, boot_writeback_target_node_name; done.
Qed.

Definition InteractionSettings_ok (i : InteractionSettings) : bool :=
  from_option double_ok true (ia_default_temperature i) &&
  from_option double_ok true (ia_default_top_p i) &&
  from_option CompletionPolicy_ok true (ia_completion_policy i) &&
  from_option CompletionPolicy_ok true (ia_long_completion_policy i) &&
  from_option CompletionPolicy_ok true (ia_analysis_completion_policy i) &&
  from_option CompletionPolicy_ok true (ia_analysis_long_completion_policy i).

#[export] Instance InteractionSettings_codec `{Lib : !JsonLibrary} :
  JsonCodec InteractionSettings_ToJson InteractionSettings_FromJson InteractionSettings_ok.
Proof. solve_object_codec InteractionSettings_FromJson InteractionSettings_ToJson InteractionSettings_ok. Qed.

Definition SkillsSettings_ok (s : SkillsSettings) : bool := true.

#[export] Instance SkillsSettings_codec `{Lib : !JsonLibrary} :
  JsonCodec SkillsSettings_ToJson SkillsSettings_FromJson SkillsSettings_ok.
Proof. solve_object_codec SkillsSettings_FromJson SkillsSettings_ToJson SkillsSettings_ok. Qed.

Definition BrowsingPolicySettings_ok (p : BrowsingPolicySettings) : bool :=
  int_ok (bp_max_search_results p) && int_ok (bp_max_fetch_bytes p).

#[export] Instance BrowsingPolicySettings_codec `{Lib : !JsonLibrary} :
  JsonCodec BrowsingPolicySettings_ToJson BrowsingPolicySettings_FromJson BrowsingPolicySettings_ok.
Proof.
  split; [done| |]; intros x H; unfold BrowsingPolicySettings_ok in H; split_ok H.
  - unfold BrowsingPolicySettings_ToJson. apply json_ok_object. cbn [forallb snd].
    rewrite ?andb_true_iff. repeat split; auto with codec; cbn [from_option json_ok]; auto with codec.
    + by destruct (bp_cef_enabled x).
    + by destruct (bp_response_review_enabled x).
    + by destruct (bp_policy_version x !=? "webgateway-v1").
  - unfold BrowsingPolicySettings_FromJson, BrowsingPolicySettings_ToJson. name_fields v Hv Ha Hm.
    assert (json_value get_bool v "cef_enabled" true = Ok (bp_cef_enabled x)) as ->.
    { rewrite Hv. cbn. destruct (bp_cef_enabled x); cbn; by rewrite ?get_bool_law. }
    repeat read_field v Hv Ha Hm.
    assert (json_value get_bool v "response_review_enabled" true =
            Ok (bp_response_review_enabled x)) as ->.
    { rewrite Hv. cbn. destruct (bp_response_review_enabled x); cbn; by rewrite ?get_bool_law. }
    rewrite bind_ok.
    assert (json_value get_string v "policy_version" "webgateway-v1" = Ok (bp_policy_version x)) as ->.
    { rewrite Hv. cbn [assoc String.eqb Ascii.eqb Bool.eqb mjoin option_join].
      destruct (bp_policy_version x ==? "webgateway-v1") eqn:E; cbn [negb].
      - rewrite eqb_true in E. by rewrite E.
      - cbn. by rewrite get_string_law. }
    repeat read_field v Hv Ha Hm. by destruct x.
Qed.

Definition BrowsingSettings_ok (b : BrowsingSettings) : bool :=
  from_option BrowsingPolicySettings_ok true (br_policy b).

#[export] Instance BrowsingSettings_codec `{Lib : !JsonLibrary} :
  JsonCodec BrowsingSettings_ToJson BrowsingSettings_FromJson BrowsingSettings_ok.
Proof. solve_object_codec BrowsingSettings_FromJson BrowsingSettings_ToJson BrowsingSettings_ok. Qed.

Definition KnowledgeContextPolicySettings_ok (p : KnowledgeContextPolicySettings) : bool :=
  int_ok (kcp_max_graph_depth p) && int_ok (kcp_token_budget p).

#[export] Instance KnowledgeContextPolicySettings_codec `{Lib : !JsonLibrary} :
  JsonCodec KnowledgeContextPolicySettings_ToJson KnowledgeContextPolicySettings_FromJson
    KnowledgeContextPolicySettings_ok.
Proof.
  solve_object_codec KnowledgeContextPolicySettings_FromJson KnowledgeContextPolicySettings_ToJson
    KnowledgeContextPolicySettings_ok.
Qed.

Definition KnowledgeSettings_ok (k : KnowledgeSettings) : bool :=
  KnowledgeContextPolicySettings_ok (kn_context_policy k).

#[export] Instance KnowledgeSettings_codec `{Lib : !JsonLibrary} :
  JsonCodec KnowledgeSettings_ToJson KnowledgeSettings_FromJson KnowledgeSettings_ok.
Proof.
  split; [done| |]; intros x H; unfold KnowledgeSettings_ok in H.
  - unfold KnowledgeSettings_ToJson. apply json_ok_object. cbn [forallb snd from_option json_ok].
    rewrite ?andb_true_iff. repeat split; auto with codec. codec_ok.
  - unfold KnowledgeSettings_FromJson, KnowledgeSettings_ToJson. name_fields v Hv Ha Hm.
    repeat read_field v Hv Ha Hm.
    rewrite (optional_struct KnowledgeContextPolicySettings_ToJson _ _ v "context_policy"
               (Some (kn_context_policy x))) by first [by rewrite Hm | done].
    rewrite bind_ok. by destruct x.
Qed.

Definition ExternalAppHostConfig_ok (a : ExternalAppHostConfig) : bool := true.

#[export] Instance ExternalAppHostConfig_codec `{Lib : !JsonLibrary} :
  JsonCodec ExternalAppHostConfig_ToJson ExternalAppHostConfig_FromJson ExternalAppHostConfig_ok.
Proof.
  solve_object_codec ExternalAppHostConfig_FromJson ExternalAppHostConfig_ToJson
    ExternalAppHostConfig_ok.
Qed.

Definition TurboQuantFeatureSpec_ok (t : TurboQuantFeatureSpec) : bool := true.

#[export] Instance TurboQuantFeatureSpec_codec `{Lib : !JsonLibrary} :
  JsonCodec TurboQuantFeatureSpec_ToJson TurboQuantFeatureSpec_FromJson TurboQuantFeatureSpec_ok.
Proof.
  solve_object_codec TurboQuantFeatureSpec_FromJson TurboQuantFeatureSpec_ToJson
    TurboQuantFeatureSpec_ok.
Qed.

Definition ContextCompressionFeatureSpec_ok (c : ContextCompressionFeatureSpec) : bool := true.

#[export] Instance ContextCompressionFeatureSpec_codec `{Lib : !JsonLibrary} :
  JsonCodec ContextCompressionFeatureSpec_ToJson ContextCompressionFeatureSpec_FromJson
    ContextCompressionFeatureSpec_ok.
Proof.
  solve_object_codec ContextCompressionFeatureSpec_FromJson ContextCompressionFeatureSpec_ToJson
    ContextCompressionFeatureSpec_ok.
Qed.

Definition SecuredConnectionFeatureSpec_ok (s : SecuredConnectionFeatureSpec) : bool := true.

#[export] Instance SecuredConnectionFeatureSpec_codec `{Lib : !JsonLibrary} :
  JsonCodec SecuredConnectionFeatureSpec_ToJson SecuredConnectionFeatureSpec_FromJson
    SecuredConnectionFeatureSpec_ok.
Proof.
  solve_object_codec SecuredConnectionFeatureSpec_FromJson SecuredConnectionFeatureSpec_ToJson
    SecuredConnectionFeatureSpec_ok.
Qed.

(** A voice model keeps its name, its variable and its sources, not a host path:
    the names are not empty, and the source paths are what the decoder fills in. *)
Definition voice_model_ok (m : AppModelMountSpec) : bool :=
  negb (str_empty (mount_name m)) && negb (str_empty (mount_env_var m)) &&
  str_empty (mount_host_path m) &&
  (if vec_empty (mount_source_paths m) then str_empty (mount_source_path m)
   else negb (str_empty (mount_source_path m)) ||
        negb (mount_source_paths m ==? [mount_source_path m])).

Lemma voice_source_json_ok m : json_ok (voice_source_ToJson m) = true.
Proof.
  unfold voice_source_ToJson. apply json_ok_object. cbn [forallb snd from_option json_ok].
  rewrite ?andb_true_iff. repeat split.
  - by destruct (str_empty (mount_source_node_name m)).
  - destruct (_ && _); [|done]. cbn [from_option]. auto with codec.
Qed.

Lemma voice_model_json_ok name env m : json_ok (voice_model_ToJson name env m) = true.
Proof.
  unfold voice_model_ToJson. apply json_ok_object. cbn [forallb snd from_option json_ok].
  rewrite ?andb_true_iff. repeat split; auto using voice_source_json_ok.
Qed.

Lemma voice_source_node `{Lib : !JsonLibrary} v s :
  json_value get_string v "node" "" =
    match (if str_empty s then None else Some (JString s)) with
    | Some x => get_string (canon x) | None => Ok "" end ->
  json_value get_string v "node" "" = Ok s.
Proof.
  intros ->. destruct (str_empty s) eqn:E; [by apply str_empty_true in E as ->|].
  cbn. by rewrite get_string_law.
Qed.

Lemma voice_source_paths `{Lib : !JsonLibrary} m v :
  voice_model_ok m = true ->
  member v "paths" =
    canon <$> (if negb (vec_empty (mount_source_paths m)) &&
                  negb (mount_source_paths m ==? [mount_source_path m])
               then Some (strings_json (mount_source_paths m)) else None) ->
  exists paths, json_array get_strings v "paths" = Ok paths /\
    (if vec_empty paths && negb (str_empty (mount_source_path m)) then [mount_source_path m] else paths) =
    mount_source_paths m.
Proof.
  unfold voice_model_ok. intros [_ Hok]%andb_true_iff Hm.
  destruct (vec_empty (mount_source_paths m)) eqn:E1.
  - apply vec_empty_true in E1. exists []. unfold json_array. rewrite Hm. split; [done|].
    cbn. by rewrite Hok.
  - destruct (mount_source_paths m ==? [mount_source_path m]) eqn:E2; cbn in Hm.
    + exists []. unfold json_array. rewrite Hm. split; [done|]. cbn in Hok |- *.
      rewrite orb_false_r in Hok. rewrite Hok. rewrite eqb_true in E2. by rewrite E2.
    + exists (mount_source_paths m). split; [|by rewrite E1].
      apply array_all_strings. by rewrite Hm.
Qed.

Lemma voice_model_roundtrip `{Lib : !JsonLibrary} name path env m :
  voice_model_ok m = true ->
  voice_model_FromJson name path env (canon (voice_model_ToJson name env m)) = Ok m.
Proof.
  intros Hok. pose proof Hok as Hok'. unfold voice_model_ok in Hok'. split_ok Hok'.
  apply negb_true_iff in Hok', Hok2. apply str_empty_true in Hok1.
  unfold voice_model_FromJson, voice_model_ToJson. name_fields v Hv Ha Hm.
  rewrite Hok', Hok2 in *. rewrite (Hm "source").
  cbn [assoc String.eqb Ascii.eqb Bool.eqb mjoin option_join fmap option_fmap option_map].
  rewrite is_object_canon. cbn [is_object object voice_source_ToJson].
  repeat read_field v Hv Ha Hm. unfold voice_source_ToJson. name_fields w Hw Hwa Hwm.
  read_field w Hw Hwa Hwm. rewrite (voice_source_node w (mount_source_node_name m)) by (by rewrite Hw).
  rewrite bind_ok. cbv beta.
  destruct (voice_source_paths m w Hok) as (paths & -> & Hp); [by rewrite Hwm|].
  rewrite bind_ok. cbv beta. rewrite Hp. cbv zeta. repeat read_field v Hv Ha Hm.
  destruct m; cbn in *. by subst.
Qed.

(** An empty image name is not written. *)
Definition image_ok (image : option string) : bool :=
  from_option (fun i => negb (str_empty i)) true image.

Lemma voice_image_roundtrip `{Lib : !JsonLibrary} v image :
  image_ok image = true -> member v "image" = canon <$> voice_image image ->
  voice_image_FromJson v = Ok image.
Proof.
  unfold voice_image_FromJson, voice_image. intros Hi ->. destruct image as [i|]; [|done].
  cbn in Hi. apply negb_true_iff in Hi. rewrite Hi. cbn. by rewrite get_string_law.
Qed.

Lemma voice_image_json_ok image : from_option json_ok true (voice_image image) = true.
Proof. destruct image as [i|]; [|done]. cbn. by destruct (str_empty i). Qed.

Lemma voice_model_member `{Lib : !JsonLibrary} name path env m v :
  voice_model_ok m = true ->
  member v "model" = canon <$> Some (voice_model_ToJson name env m) ->
  json_optional_object (voice_model_FromJson name path env) v "model" = Ok (Some m).
Proof.
  intros Hok Hm. unfold json_optional_object. rewrite Hm. cbn [fmap option_fmap option_map].
  rewrite is_object_canon. cbn [is_object object voice_model_ToJson].
  by rewrite voice_model_roundtrip.
Qed.

Definition VoiceListenerFeatureSpec_ok (v : VoiceListenerFeatureSpec) : bool :=
  voice_model_ok (vl_model v) && image_ok (vl_image v).

#[export] Instance VoiceListenerFeatureSpec_codec `{Lib : !JsonLibrary} :
  JsonCodec VoiceListenerFeatureSpec_ToJson VoiceListenerFeatureSpec_FromJson
    VoiceListenerFeatureSpec_ok.
Proof.
  split; [done| |]; intros x [Hmodel Himage]%andb_true_iff.
  - unfold VoiceListenerFeatureSpec_ToJson. apply json_ok_object. cbn [forallb snd from_option json_ok].
    rewrite ?andb_true_iff. repeat split; auto using voice_model_json_ok, voice_image_json_ok.
  - unfold VoiceListenerFeatureSpec_FromJson, VoiceListenerFeatureSpec_ToJson.
    name_fields v Hv Ha Hm. repeat read_field v Hv Ha Hm.
    rewrite (voice_image_roundtrip v (vl_image x)) by first [done | by rewrite Hm].
    rewrite bind_ok. cbv beta.
    rewrite (voice_model_member _ _ _ (vl_model x)) by first [done | by rewrite Hm].
    by destruct x.
Qed.

Definition VoiceMakerFeatureSpec_ok (v : VoiceMakerFeatureSpec) : bool :=
  voice_model_ok (vm_model v) && image_ok (vm_image v).

#[export] Instance VoiceMakerFeatureSpec_codec `{Lib : !JsonLibrary} :
  JsonCodec VoiceMakerFeatureSpec_ToJson VoiceMakerFeatureSpec_FromJson VoiceMakerFeatureSpec_ok.
Proof.
  split; [done| |]; intros x [Hmodel Himage]%andb_true_iff.
  - unfold VoiceMakerFeatureSpec_ToJson. apply json_ok_object. cbn [forallb snd from_option json_ok].
    rewrite ?andb_true_iff. repeat split; auto using voice_model_json_ok, voice_image_json_ok.
  - unfold VoiceMakerFeatureSpec_FromJson, VoiceMakerFeatureSpec_ToJson.
    name_fields v Hv Ha Hm. repeat read_field v Hv Ha Hm.
    rewrite (voice_image_roundtrip v (vm_image x)) by first [done | by rewrite Hm].
    rewrite bind_ok. cbv beta.
    rewrite (voice_model_member _ _ _ (vm_model x)) by first [done | by rewrite Hm].
    by destruct x.
Qed.
