(* ===== verification/StateJson.v ===== *)
(** * The desired state as JSON

    [common/src/state/state_json.cpp]: the interchange form of a desired state,
    the slice of it that a node receives, and the resolution of placement
    aliases.  A document with [version = 2] is handed to the renderer of the v2
    format, the argument [render_v2] ([V2Renderer.Render]); the properties below are
    about the others. *)

From S2P Require Import Prelude Binary64 Json Models Fixtures WorkerTopology Planner RuntimeStatus StateCodecs.

(** ** Defaults *)

(** [if (field.empty()) field = value]. *)
Definition or_else (text fallback : string) : string := if str_empty text then fallback else text.
Definition positive_or (z fallback : Z) : Z := if z <=? 0 then fallback else z.

Definition NormalizeInferenceSettings (s : InferenceRuntimeSettings) : InferenceRuntimeSettings :=
  let model_cache_dir := or_else (inf_model_cache_dir s) (inf_gguf_cache_dir s) in
  let runtime_log_dir := or_else (inf_runtime_log_dir s) (inf_infer_log_dir s) in
  let api_port := positive_or (inf_api_port s) (inf_llama_port s) in
  let max_model_len := positive_or (inf_max_model_len s) (inf_llama_ctx_size s) in
  {| inf_primary_infer_node := inf_primary_infer_node s;
     inf_runtime_engine := inf_runtime_engine s;
     inf_data_parallel_mode := or_else (inf_data_parallel_mode s) "off";
     inf_data_parallel_lb_mode := or_else (inf_data_parallel_lb_mode s) "external";
     inf_api_server_count := inf_api_server_count s;
     inf_worker_group_id := or_else (inf_worker_group_id s) "default-worker-group";
     inf_distributed_backend :=
       or_else (inf_distributed_backend s)
         (if inf_runtime_engine s ==? "llama.cpp" then "llama_rpc" else "local");
     inf_worker_selection_policy := or_else (inf_worker_selection_policy s) "prefer-free-then-share";
     inf_net_if := inf_net_if s;
     inf_models_root := inf_models_root s;
     inf_model_cache_dir := model_cache_dir;
     inf_runtime_log_dir := runtime_log_dir;
     inf_api_port := api_port;
     inf_max_model_len := max_model_len;
     inf_tensor_parallel_size := inf_tensor_parallel_size s;
     inf_pipeline_parallel_size := inf_pipeline_parallel_size s;
     inf_max_num_seqs := inf_max_num_seqs s;
     inf_gpu_memory_utilization := inf_gpu_memory_utilization s;
     inf_enforce_eager := inf_enforce_eager s;
     inf_gguf_cache_dir := or_else (inf_gguf_cache_dir s) model_cache_dir;
     inf_infer_log_dir := or_else (inf_infer_log_dir s) runtime_log_dir;
     inf_llama_port := positive_or (inf_llama_port s) api_port;
     inf_llama_ctx_size := positive_or (inf_llama_ctx_size s) max_model_len;
     inf_llama_threads := inf_llama_threads s;
     inf_llama_gpu_layers := inf_llama_gpu_layers s;
     inf_inference_healthcheck_retries := inf_inference_healthcheck_retries s;
     inf_inference_healthcheck_interval_sec := inf_inference_healthcheck_interval_sec s;
     inf_rendezvous_port := inf_rendezvous_port s |}.

Section state_codec.
Context `{Lib : !JsonLibrary}.

Definition InferenceRuntimeSettings_ToJson (settings : InferenceRuntimeSettings) : json := object [
  ("primary_infer_node", Some (JString (inf_primary_infer_node settings)));
  ("runtime_engine", Some (JString (inf_runtime_engine settings)));
  ("data_parallel_mode", Some (JString (inf_data_parallel_mode settings)));
  ("data_parallel_lb_mode", Some (JString (inf_data_parallel_lb_mode settings)));
  ("api_server_count", Some (JInt (inf_api_server_count settings)));
  ("worker_group_id", Some (JString (inf_worker_group_id settings)));
  ("distributed_backend", Some (JString (inf_distributed_backend settings)));
  ("worker_selection_policy", Some (JString (inf_worker_selection_policy settings)));
  ("net_if", Some (JString (inf_net_if settings)));
  ("models_root", Some (JString (inf_models_root settings)));
  ("model_cache_dir", Some (JString (inf_model_cache_dir settings)));
  ("runtime_log_dir", Some (JString (inf_runtime_log_dir settings)));
  ("api_port", Some (JInt (inf_api_port settings)));
  ("max_model_len", Some (JInt (inf_max_model_len settings)));
  ("tensor_parallel_size", Some (JInt (inf_tensor_parallel_size settings)));
  ("pipeline_parallel_size", Some (JInt (inf_pipeline_parallel_size settings)));
  ("max_num_seqs", Some (JInt (inf_max_num_seqs settings)));
  ("gpu_memory_utilization", Some (JDouble (inf_gpu_memory_utilization settings)));
  ("enforce_eager", Some (JBool (inf_enforce_eager settings)));
  ("gguf_cache_dir", Some (JString (inf_gguf_cache_dir settings)));
  ("infer_log_dir", Some (JString (inf_infer_log_dir settings)));
  ("llama_port", Some (JInt (inf_llama_port settings)));
  ("llama_ctx_size", Some (JInt (inf_llama_ctx_size settings)));
  ("llama_threads", Some (JInt (inf_llama_threads settings)));
  ("llama_gpu_layers", Some (JInt (inf_llama_gpu_layers settings)));
  ("inference_healthcheck_retries", Some (JInt (inf_inference_healthcheck_retries settings)));
  ("inference_healthcheck_interval_sec", Some (JInt (inf_inference_healthcheck_interval_sec settings)));
  ("rendezvous_port", Some (JInt (inf_rendezvous_port settings)))].

Definition InferenceRuntimeSettings_FromJson (value : json) : result InferenceRuntimeSettings :=
  primary_infer_node ← json_value get_string value "primary_infer_node" (inf_primary_infer_node InferenceRuntimeSettings_default);
  runtime_engine ← json_value get_string value "runtime_engine" (inf_runtime_engine InferenceRuntimeSettings_default);
  data_parallel_mode ← json_value get_string value "data_parallel_mode" (inf_data_parallel_mode InferenceRuntimeSettings_default);
  data_parallel_lb_mode ← json_value get_string value "data_parallel_lb_mode" (inf_data_parallel_lb_mode InferenceRuntimeSettings_default);
  api_server_count ← json_value get_int value "api_server_count" (inf_api_server_count InferenceRuntimeSettings_default);
  worker_group_id ← json_value get_string value "worker_group_id" (inf_worker_group_id InferenceRuntimeSettings_default);
  distributed_backend ← json_value get_string value "distributed_backend" (inf_distributed_backend InferenceRuntimeSettings_default);
  worker_selection_policy ← json_value get_string value "worker_selection_policy" (inf_worker_selection_policy InferenceRuntimeSettings_default);
  net_if ← json_value get_string value "net_if" (inf_net_if InferenceRuntimeSettings_default);
  models_root ← json_value get_string value "models_root" (inf_models_root InferenceRuntimeSettings_default);
  model_cache_dir ← json_value get_string value "model_cache_dir" (inf_model_cache_dir InferenceRuntimeSettings_default);
  runtime_log_dir ← json_value get_string value "runtime_log_dir" (inf_runtime_log_dir InferenceRuntimeSettings_default);
  api_port_default ← json_value get_int value "llama_port" (inf_api_port InferenceRuntimeSettings_default);
  api_port ← json_value get_int value "api_port" api_port_default;
  max_model_len_default ← json_value get_int value "llama_ctx_size" (inf_max_model_len InferenceRuntimeSettings_default);
  max_model_len ← json_value get_int value "max_model_len" max_model_len_default;
  tensor_parallel_size ← json_value get_int value "tensor_parallel_size" (inf_tensor_parallel_size InferenceRuntimeSettings_default);
  pipeline_parallel_size ← json_value get_int value "pipeline_parallel_size" (inf_pipeline_parallel_size InferenceRuntimeSettings_default);
  max_num_seqs ← json_value get_int value "max_num_seqs" (inf_max_num_seqs InferenceRuntimeSettings_default);
  gpu_memory_utilization ← json_value get_double value "gpu_memory_utilization" (inf_gpu_memory_utilization InferenceRuntimeSettings_default);
  enforce_eager ← json_value get_bool value "enforce_eager" (inf_enforce_eager InferenceRuntimeSettings_default);
  gguf_cache_dir_default ← json_value get_string value "model_cache_dir" (inf_gguf_cache_dir InferenceRuntimeSettings_default);
  gguf_cache_dir ← json_value get_string value "gguf_cache_dir" gguf_cache_dir_default;
  infer_log_dir_default ← json_value get_string value "runtime_log_dir" (inf_infer_log_dir InferenceRuntimeSettings_default);
  infer_log_dir ← json_value get_string value "infer_log_dir" infer_log_dir_default;
  llama_port_default ← json_value get_int value "api_port" (inf_llama_port InferenceRuntimeSettings_default);
  llama_port ← json_value get_int value "llama_port" llama_port_default;
  llama_ctx_size_default ← json_value get_int value "max_model_len" (inf_llama_ctx_size InferenceRuntimeSettings_default);
  llama_ctx_size ← json_value get_int value "llama_ctx_size" llama_ctx_size_default;
  llama_threads ← json_value get_int value "llama_threads" (inf_llama_threads InferenceRuntimeSettings_default);
  llama_gpu_layers ← json_value get_int value "llama_gpu_layers" (inf_llama_gpu_layers InferenceRuntimeSettings_default);
  inference_healthcheck_retries ← json_value get_int value "inference_healthcheck_retries" (inf_inference_healthcheck_retries InferenceRuntimeSettings_default);
  inference_healthcheck_interval_sec ← json_value get_int value "inference_healthcheck_interval_sec" (inf_inference_healthcheck_interval_sec InferenceRuntimeSettings_default);
  rendezvous_port ← json_value get_int value "rendezvous_port" (inf_rendezvous_port InferenceRuntimeSettings_default);
  Ok (mkInferenceRuntimeSettings primary_infer_node runtime_engine data_parallel_mode data_parallel_lb_mode
        api_server_count worker_group_id distributed_backend worker_selection_policy net_if
        models_root model_cache_dir runtime_log_dir api_port max_model_len
        tensor_parallel_size pipeline_parallel_size max_num_seqs gpu_memory_utilization
        enforce_eager gguf_cache_dir infer_log_dir llama_port llama_ctx_size llama_threads
        llama_gpu_layers inference_healthcheck_retries inference_healthcheck_interval_sec
        rendezvous_port).

Definition GatewaySettings_ToJson (gateway : GatewaySettings) : json := object [
  ("listen_host", Some (JString (gw_listen_host gateway)));
  ("listen_port", Some (JInt (gw_listen_port gateway)));
  ("server_name", Some (JString (gw_server_name gateway)))].

Definition GatewaySettings_FromJson (value : json) : result GatewaySettings :=
  listen_host ← json_value get_string value "listen_host" "0.0.0.0";
  listen_port ← json_value get_int value "listen_port" 80;
  server_name ← json_value get_string value "server_name" "_";
  Ok (mkGatewaySettings listen_host listen_port server_name).

Definition features_ToJson (state : DesiredState) : json := object [
  ("turboquant", TurboQuantFeatureSpec_ToJson <$> ds_turboquant state);
  ("context_compression", ContextCompressionFeatureSpec_ToJson <$> ds_context_compression state);
  ("voice_listener", VoiceListenerFeatureSpec_ToJson <$> ds_voice_listener state);
  ("voice_maker", VoiceMakerFeatureSpec_ToJson <$> ds_voice_maker state);
  ("secured_connection", SecuredConnectionFeatureSpec_ToJson <$> ds_secured_connection state)].

Definition has_features (state : DesiredState) : bool :=
  has_value (ds_turboquant state) || has_value (ds_context_compression state) ||
  has_value (ds_voice_listener state) || has_value (ds_voice_maker state) ||
  has_value (ds_secured_connection state).

Definition secured_enabled (secured_connection : option SecuredConnectionFeatureSpec) : bool :=
  match secured_connection with Some s => sc_enabled s | None => false end.

Definition DesiredStateToJson (state : DesiredState) : json := object [
  ("plane_name", Some (JString (ds_plane_name state)));
  ("plane_shared_disk_name", Some (JString (ds_plane_shared_disk_name state)));
  ("control_root", Some (JString (ds_control_root state)));
  ("plane_mode", Some (JString (PlaneMode_ToString (ds_plane_mode state))));
  ("protected", Some (JBool (ds_protected_plane state ||
                             secured_enabled (ds_secured_connection state))));
  ("inference", Some (InferenceRuntimeSettings_ToJson (ds_inference state)));
  ("worker_group", Some (WorkerGroupSpec_ToJson (ds_worker_group state)));
  ("gateway", Some (GatewaySettings_ToJson (ds_gateway state)));
  ("runtime_gpu_nodes", Some (JArray (map RuntimeGpuNode_ToJson (ds_runtime_gpu_nodes state))));
  ("nodes", Some (JArray (map NodeInventory_ToJson (ds_nodes state))));
  ("disks", Some (JArray (map DiskSpec_ToJson (ds_disks state))));
  ("instances", Some (JArray (map InstanceSpec_ToJson (ds_instances state))));
  ("post_deploy_script", JString <$> ds_post_deploy_script state);
  ("placement_target", JString <$> ds_placement_target state);
  ("bootstrap_model", BootstrapModelSpec_ToJson <$> ds_bootstrap_model state);
  ("interaction", InteractionSettings_ToJson <$> ds_interaction state);
  ("skills", SkillsSettings_ToJson <$> ds_skills state);
  ("webgateway", BrowsingSettings_ToJson <$> ds_browsing state);
  ("knowledge", KnowledgeSettings_ToJson <$> ds_knowledge state);
  ("features", if has_features state then Some (features_ToJson state) else None);
  ("app_host", ExternalAppHostConfig_ToJson <$> ds_app_host state)].

(** The [features] block. *)
Record Features := mkFeatures {
  ft_turboquant : option TurboQuantFeatureSpec;
  ft_context_compression : option ContextCompressionFeatureSpec;
  ft_voice_listener : option VoiceListenerFeatureSpec;
  ft_voice_maker : option VoiceMakerFeatureSpec;
  ft_secured_connection : option SecuredConnectionFeatureSpec;
}.

Definition features_FromJson (value : json) : result Features :=
  turboquant ← json_optional_object TurboQuantFeatureSpec_FromJson value "turboquant";
  context_compression ←
    json_optional_object ContextCompressionFeatureSpec_FromJson value "context_compression";
  voice_listener ← json_optional_object VoiceListenerFeatureSpec_FromJson value "voice_listener";
  voice_maker ← json_optional_object VoiceMakerFeatureSpec_FromJson value "voice_maker";
  secured_connection ←
    json_optional_object SecuredConnectionFeatureSpec_FromJson value "secured_connection";
  Ok (mkFeatures turboquant context_compression voice_listener voice_maker secured_connection).

(** *** The worker group of a decoded state *)

(** Defaults taken from the inference settings and the plane. *)
Definition default_group (plane_name : string) (inference : InferenceRuntimeSettings)
    (group : WorkerGroupSpec) : WorkerGroupSpec :=
  {| wg_group_id :=
       or_else (or_else (wg_group_id group) (inf_worker_group_id inference))
         (plane_name +:+ "-workers");
     wg_infer_instance_name := wg_infer_instance_name group;
     wg_distributed_backend :=
       or_else (wg_distributed_backend group) (inf_distributed_backend inference);
     wg_rendezvous_host := wg_rendezvous_host group;
     wg_rendezvous_port := positive_or (wg_rendezvous_port group) (inf_rendezvous_port inference);
     wg_expected_workers := wg_expected_workers group;
     wg_worker_selection_policy :=
       or_else (wg_worker_selection_policy group) (inf_worker_selection_policy inference);
     wg_members := wg_members group |}.

Definition group_with_members (members : list WorkerGroupMemberSpec) (group : WorkerGroupSpec)
    : WorkerGroupSpec :=
  mkWorkerGroupSpec (wg_group_id group) (wg_infer_instance_name group)
    (wg_distributed_backend group) (wg_rendezvous_host group) (wg_rendezvous_port group)
    (wg_expected_workers group) (wg_worker_selection_policy group) members.

Definition group_with_names (infer_instance_name rendezvous_host : string) (expected_workers : Z)
    (group : WorkerGroupSpec) : WorkerGroupSpec :=
  mkWorkerGroupSpec (wg_group_id group) infer_instance_name (wg_distributed_backend group)
    rendezvous_host (wg_rendezvous_port group) expected_workers (wg_worker_selection_policy group)
    (wg_members group).

Definition member_of_gpu_node (rank : Z) (gpu_node : RuntimeGpuNode) : WorkerGroupMemberSpec :=
  mkWorkerGroupMemberSpec (gpun_name gpu_node) "" (gpun_node_name gpu_node)
    (gpun_gpu_device gpu_node) 0 rank "" 0 1 false 0 1 1 0 false "" 0 (gpun_gpu_fraction gpu_node)
    (gpun_share_mode gpu_node) (gpun_priority gpu_node) (gpun_preemptible gpu_node)
    (gpun_memory_cap_mb gpu_node) (gpun_enabled gpu_node) (rank =? 0).

Definition member_of_instance (rank : Z) (instance : InstanceSpec) : result WorkerGroupMemberSpec :=
  rpc_port ←
    match inst_environment instance !! "NAIM_WORKER_RPC_PORT" with
    | Some text => if str_empty text then Ok 0 else stoi text
    | None => Ok 0
    end;
  Ok (mkWorkerGroupMemberSpec (inst_name instance) "" (inst_node_name instance)
        (default "" (inst_gpu_device instance)) rpc_port rank "" 0 1 false 0 1 1 0 false "" 0
        (inst_gpu_fraction instance) (inst_share_mode instance) (inst_priority instance)
        (inst_preemptible instance) (inst_memory_cap_mb instance) true (rank =? 0)).

Fixpoint members_of_instances (rank : Z) (instances : list InstanceSpec)
    : result (list WorkerGroupMemberSpec) :=
  match instances with
  | [] => Ok []
  | instance :: rest =>
      if inst_role instance ==? Worker
      then m ← member_of_instance rank instance; ms ← members_of_instances (rank + 1) rest; Ok (m :: ms)
      else members_of_instances rank rest
  end.

Definition fill_members (gpu_nodes : list RuntimeGpuNode) (instances : list InstanceSpec)
    (group : WorkerGroupSpec) : result WorkerGroupSpec :=
  if vec_empty (wg_members group)
  then if negb (vec_empty gpu_nodes)
       then Ok (group_with_members (imap (fun i g => member_of_gpu_node (Z.of_nat i) g) gpu_nodes) group)
       else ms ← members_of_instances 0 instances; Ok (group_with_members ms group)
  else Ok group.

Definition member_with_infer (infer_instance_name : string) (m : WorkerGroupMemberSpec)
    : WorkerGroupMemberSpec :=
  mkWorkerGroupMemberSpec (wgm_name m) (or_else (wgm_infer_instance_name m) infer_instance_name)
    (wgm_node_name m) (wgm_gpu_device m) (wgm_rpc_port m) (wgm_rank m) (wgm_replica_group_id m)
    (wgm_replica_index m) (wgm_replica_size m) (wgm_replica_leader m) (wgm_data_parallel_rank m)
    (wgm_data_parallel_size m) (wgm_data_parallel_size_local m) (wgm_data_parallel_start_rank m)
    (wgm_data_parallel_api_endpoint m) (wgm_data_parallel_head_address m)
    (wgm_data_parallel_rpc_port m) (wgm_gpu_fraction m) (wgm_share_mode m) (wgm_priority m)
    (wgm_preemptible m) (wgm_memory_cap_mb m) (wgm_enabled m) (wgm_leader m).

(** Expected workers, the infer instance and the rendezvous host, then the
    replica topology. *)
Definition finish_group (inference : InferenceRuntimeSettings) (gpu_nodes : list RuntimeGpuNode)
    (instances : list InstanceSpec) (group : WorkerGroupSpec) : result WorkerGroupSpec :=
  group ← fill_members gpu_nodes instances group;
  let expected_workers :=
    positive_or (wg_expected_workers group)
      (DefaultWorkersPerReplica inference (EligibleWorkerMemberCount group)) in
  let infer_instance_name :=
    or_else (wg_infer_instance_name group)
      (from_option inst_name "" (find_if (fun i => inst_role i ==? Infer) instances)) in
  let rendezvous_host := or_else (wg_rendezvous_host group) infer_instance_name in
  let group := group_with_names infer_instance_name rendezvous_host expected_workers group in
  let group := group_with_members (member_with_infer infer_instance_name <$> wg_members group) group in
  _ ← ValidateReplicaPacking inference group;
  Ok (AssignReplicaTopology inference group).

(** *** The decoder *)

Definition IsDesiredStateV2 (value : json) : result bool :=
  if is_object value then v ← json_value get_int value "version" 0; Ok (v =? 2) else Ok false.

(** [webgateway], or the older [browsing]. *)
Definition browsing_FromJson (value : json) : result (option BrowsingSettings) :=
  match member value "webgateway" with
  | Some x =>
      if is_object x then b ← BrowsingSettings_FromJson x; Ok (Some b)
      else json_optional_object BrowsingSettings_FromJson value "browsing"
  | None => json_optional_object BrowsingSettings_FromJson value "browsing"
  end.

Definition DesiredStateFromJson (render_v2 : json -> result DesiredState) (value : json)
    : result DesiredState :=
  v2 ← IsDesiredStateV2 value;
  if (v2 : bool) then render_v2 value
  else
    plane_name ← json_at get_string value "plane_name";
    plane_shared_disk_name ← json_at get_string value "plane_shared_disk_name";
    control_root ← json_value get_string value "control_root" ("/naim/shared/control/" +:+ plane_name);
    plane_mode_text ← json_value get_string value "plane_mode" "compute";
    plane_mode ← ParsePlaneMode plane_mode_text;
    protected_plane ← json_value get_bool value "protected" false;
    post_deploy_script ← json_optional get_string value "post_deploy_script";
    placement_target ← json_optional get_string value "placement_target";
    bootstrap_model ← json_optional_object BootstrapModelSpec_FromJson value "bootstrap_model";
    interaction ← json_optional_object InteractionSettings_FromJson value "interaction";
    skills ← json_optional_object SkillsSettings_FromJson value "skills";
    browsing ← browsing_FromJson value;
    knowledge ← json_optional_object KnowledgeSettings_FromJson value "knowledge";
    features ← json_optional_object features_FromJson value "features";
    let features := default (mkFeatures None None None None None) features in
    app_host ← json_optional_object ExternalAppHostConfig_FromJson value "app_host";
    inference ← json_optional_object InferenceRuntimeSettings_FromJson value "inference";
    let inference := NormalizeInferenceSettings (default InferenceRuntimeSettings_default inference) in
    worker_group ← json_optional_object WorkerGroupSpec_FromJson value "worker_group";
    let worker_group :=
      default_group plane_name inference (default WorkerGroupSpec_default worker_group) in
    gateway ← json_optional_object GatewaySettings_FromJson value "gateway";
    gpu_nodes_json ← json_value get_json value "runtime_gpu_nodes" (JArray []);
    runtime_gpu_nodes ← mapR RuntimeGpuNode_FromJson (items gpu_nodes_json);
    nodes_json ← json_value get_json value "nodes" (JArray []);
    nodes ← mapR NodeInventory_FromJson (items nodes_json);
    disks_json ← json_value get_json value "disks" (JArray []);
    disks ← mapR DiskSpec_FromJson (items disks_json);
    instances_json ← json_value get_json value "instances" (JArray []);
    instances ← mapR InstanceSpec_FromJson (items instances_json);
    worker_group ← finish_group inference runtime_gpu_nodes instances worker_group;
    Ok {| ds_plane_name := plane_name;
          ds_plane_shared_disk_name := plane_shared_disk_name;
          ds_control_root := control_root;
          ds_plane_mode := plane_mode;
          ds_protected_plane :=
            protected_plane || secured_enabled (ft_secured_connection features);
          ds_post_deploy_script := post_deploy_script;
          ds_placement_target := placement_target;
          ds_bootstrap_model := bootstrap_model;
          ds_interaction := interaction;
          ds_skills := skills;
          ds_browsing := browsing;
          ds_knowledge := knowledge;
          ds_turboquant := ft_turboquant features;
          ds_context_compression := ft_context_compression features;
          ds_voice_listener := ft_voice_listener features;
          ds_voice_maker := ft_voice_maker features;
          ds_secured_connection := ft_secured_connection features;
          ds_app_host := app_host;
          ds_inference := inference;
          ds_worker_group := worker_group;
          ds_gateway := default GatewaySettings_default gateway;
          ds_runtime_gpu_nodes := runtime_gpu_nodes;
          ds_nodes := nodes;
          ds_disks := disks;
          ds_instances := instances |}.
End state_codec.

(** ** The slice of a node *)

Definition SliceDesiredStateForNode (state : DesiredState) (node_name : string)
    : result DesiredState :=
  let result :=
    {| ds_plane_name := ds_plane_name state;
       ds_plane_shared_disk_name := ds_plane_shared_disk_name state;
       ds_control_root := ds_control_root state;
       ds_plane_mode := ds_plane_mode state;
       ds_protected_plane := ds_protected_plane state;
       ds_post_deploy_script := ds_post_deploy_script state;
       ds_placement_target := ds_placement_target state;
       ds_bootstrap_model := ds_bootstrap_model state;
       ds_interaction := ds_interaction state;
       ds_skills := ds_skills state;
       ds_browsing := ds_browsing state;
       ds_knowledge := None;
       ds_turboquant := ds_turboquant state;
       ds_context_compression := ds_context_compression state;
       ds_voice_listener := None;
       ds_voice_maker := None;
       ds_secured_connection := ds_secured_connection state;
       ds_app_host := ds_app_host state;
       ds_inference := ds_inference state;
       ds_worker_group := ds_worker_group state;
       ds_gateway := ds_gateway state;
       ds_runtime_gpu_nodes := ds_runtime_gpu_nodes state;
       ds_nodes := List.filter (fun n => Models.node_name n ==? node_name) (ds_nodes state);
       ds_disks := List.filter (fun d => disk_node_name d ==? node_name) (ds_disks state);
       ds_instances := List.filter (fun i => inst_node_name i ==? node_name) (ds_instances state) |} in
  if vec_empty (ds_nodes result)
  then Throw ("node '" +:+ node_name +:+ "' not found in desired state")
  else Ok result.

(** ** Placement aliases *)

Definition kNodePrefix : string := "node:".

Definition ResolvePlacementTargetAliasValue (placement_target : option string) : result string :=
  match placement_target with
  | None => Ok ""
  | Some target =>
      if str_empty target then Ok ""
      else if target ==? "local" then Ok "local-hostd"
      else if starts_with kNodePrefix target
      then
        let node_name := String.substring 5 (String.length target - 5) target in
        if str_empty node_name then Throw "placement_target node alias is empty" else Ok node_name
      else Throw ("unsupported placement_target '" +:+ target +:+
                  "' (expected 'local' or 'node:<name>')")
  end.

Definition CollectPlacementReferencedNodes (state : DesiredState) : gset string :=
  list_to_set
    (List.filter (fun name => negb (str_empty name))
       (inf_primary_infer_node (ds_inference state) ::
        (wgm_node_name <$> wg_members (ds_worker_group state)) ++
        (Models.node_name <$> ds_nodes state) ++ (disk_node_name <$> ds_disks state) ++
        (inst_node_name <$> ds_instances state) ++
        (gpun_node_name <$> ds_runtime_gpu_nodes state))).

Definition inference_on (node : string) (s : InferenceRuntimeSettings) : InferenceRuntimeSettings :=
  mkInferenceRuntimeSettings node (inf_runtime_engine s) (inf_data_parallel_mode s)
    (inf_data_parallel_lb_mode s) (inf_api_server_count s) (inf_worker_group_id s)
    (inf_distributed_backend s) (inf_worker_selection_policy s) (inf_net_if s) (inf_models_root s)
    (inf_model_cache_dir s) (inf_runtime_log_dir s) (inf_api_port s) (inf_max_model_len s)
    (inf_tensor_parallel_size s) (inf_pipeline_parallel_size s) (inf_max_num_seqs s)
    (inf_gpu_memory_utilization s) (inf_enforce_eager s) (inf_gguf_cache_dir s)
    (inf_infer_log_dir s) (inf_llama_port s) (inf_llama_ctx_size s) (inf_llama_threads s)
    (inf_llama_gpu_layers s) (inf_inference_healthcheck_retries s)
    (inf_inference_healthcheck_interval_sec s) (inf_rendezvous_port s).

Definition node_named (name : string) (n : NodeInventory) : NodeInventory :=
  mkNodeInventory name (node_platform n) (node_execution_mode n) (node_gpu_devices n)
    (node_gpu_memory_mb n).
Definition disk_on (node : string) (d : DiskSpec) : DiskSpec :=
  mkDiskSpec (disk_name d) (disk_kind d) (disk_plane_name d) (disk_owner_name d) node
    (disk_host_path d) (disk_container_path d) (disk_size_gb d).
Definition instance_on (node : string) (i : InstanceSpec) : InstanceSpec :=
  mkInstanceSpec (inst_name i) (inst_role i) (inst_plane_name i) node (inst_image i)
    (inst_command i) (inst_private_disk_name i) (inst_shared_disk_name i) (inst_depends_on i)
    (inst_environment i) (inst_labels i) (inst_published_ports i) (inst_gpu_device i)
    (inst_placement_mode i) (inst_share_mode i) (inst_gpu_fraction i) (inst_priority i)
    (inst_preemptible i) (inst_memory_cap_mb i) (inst_private_disk_size_gb i)
    (inst_app_model_mounts i).
Definition gpu_node_on (node : string) (g : RuntimeGpuNode) : RuntimeGpuNode :=
  mkRuntimeGpuNode (gpun_name g) node (gpun_gpu_device g) (gpun_placement_mode g)
    (gpun_share_mode g) (gpun_gpu_fraction g) (gpun_priority g) (gpun_preemptible g)
    (gpun_memory_cap_mb g) (gpun_enabled g).
Definition member_on (node : string) (m : WorkerGroupMemberSpec) : WorkerGroupMemberSpec :=
  mkWorkerGroupMemberSpec (wgm_name m) (wgm_infer_instance_name m) node (wgm_gpu_device m)
    (wgm_rpc_port m) (wgm_rank m) (wgm_replica_group_id m) (wgm_replica_index m)
    (wgm_replica_size m) (wgm_replica_leader m) (wgm_data_parallel_rank m)
    (wgm_data_parallel_size m) (wgm_data_parallel_size_local m) (wgm_data_parallel_start_rank m)
    (wgm_data_parallel_api_endpoint m) (wgm_data_parallel_head_address m)
    (wgm_data_parallel_rpc_port m) (wgm_gpu_fraction m) (wgm_share_mode m) (wgm_priority m)
    (wgm_preemptible m) (wgm_memory_cap_mb m) (wgm_enabled m) (wgm_leader m).

(** The parts of a state that carry node names. *)
Definition with_placement (placement_target : option string) (inference : InferenceRuntimeSettings)
    (worker_group : WorkerGroupSpec) (gpu_nodes : list RuntimeGpuNode) (nodes : list NodeInventory)
    (disks : list DiskSpec) (instances : list InstanceSpec) (state : DesiredState) : DesiredState :=
  mkDesiredState (ds_plane_name state) (ds_plane_shared_disk_name state) (ds_control_root state)
    (ds_plane_mode state) (ds_protected_plane state) (ds_post_deploy_script state) placement_target
    (ds_bootstrap_model state) (ds_interaction state) (ds_skills state) (ds_browsing state)
    (ds_knowledge state) (ds_turboquant state) (ds_context_compression state)
    (ds_voice_listener state) (ds_voice_maker state) (ds_secured_connection state)
    (ds_app_host state) inference worker_group (ds_gateway state) gpu_nodes nodes disks instances.

Definition single_node_error : string :=
  "plane-level placement_target supports only single-node desired states".

Definition ResolvePlacementTargetAliases (state : DesiredState) : result DesiredState :=
  resolved_target ← ResolvePlacementTargetAliasValue (ds_placement_target state);
  if str_empty resolved_target then Ok state
  else if (1 <? Z.of_nat (size (CollectPlacementReferencedNodes state)))
  then Throw single_node_error
  else
    let inference :=
      if str_empty (inf_primary_infer_node (ds_inference state)) then ds_inference state
      else inference_on resolved_target (ds_inference state) in
    Ok (with_placement (ds_placement_target state) inference
          (group_with_members (member_on resolved_target <$> wg_members (ds_worker_group state))
             (ds_worker_group state))
          (gpu_node_on resolved_target <$> ds_runtime_gpu_nodes state)
          (node_named resolved_target <$> ds_nodes state)
          (disk_on resolved_target <$> ds_disks state)
          (instance_on resolved_target <$> ds_instances state) state).

(** The [try]/[catch] around the resolution: a state on several nodes drops its
    plane-level target instead. *)
Definition resolve_or_drop_target (state : DesiredState) : result DesiredState :=
  match ResolvePlacementTargetAliases state with
  | Ok resolved => Ok resolved
  | Throw error =>
      if has_value (ds_placement_target state) && (error ==? single_node_error)
      then Ok (with_placement None (ds_inference state) (ds_worker_group state)
                 (ds_runtime_gpu_nodes state) (ds_nodes state) (ds_disks state) (ds_instances state)
                 state)
      else Throw error
  end.

(** ** Text *)

Section text.
Context `{Lib : !JsonLibrary}.

Definition SerializeDesiredStateJson (state : DesiredState) : result string :=
  dump (DesiredStateToJson state).

Definition DeserializeDesiredStateJson (render_v2 : json -> result DesiredState)
    (json_text : string) : result DesiredState :=
  value ← parse json_text;
  state ← DesiredStateFromJson render_v2 value;
  resolve_or_drop_target state.
End text.

(** ** Round trips *)

Definition InferenceRuntimeSettings_ok (s : InferenceRuntimeSettings) : bool :=
  int_ok (inf_api_server_count s) &&
  int_ok (inf_api_port s) &&
  int_ok (inf_max_model_len s) &&
  int_ok (inf_tensor_parallel_size s) &&
  int_ok (inf_pipeline_parallel_size s) &&
  int_ok (inf_max_num_seqs s) &&
  double_ok (inf_gpu_memory_utilization s) &&
  int_ok (inf_llama_port s) &&
  int_ok (inf_llama_ctx_size s) &&
  int_ok (inf_llama_threads s) &&
  int_ok (inf_llama_gpu_layers s) &&
  int_ok (inf_inference_healthcheck_retries s) &&
  int_ok (inf_inference_healthcheck_interval_sec s) &&
  int_ok (inf_rendezvous_port s).

#[export] Instance InferenceRuntimeSettings_codec `{Lib : !JsonLibrary} :
  JsonCodec InferenceRuntimeSettings_ToJson InferenceRuntimeSettings_FromJson
    InferenceRuntimeSettings_ok.
Proof.
  solve_object_codec InferenceRuntimeSettings_FromJson InferenceRuntimeSettings_ToJson
    InferenceRuntimeSettings_ok.
Qed.

Definition GatewaySettings_ok (g : GatewaySettings) : bool := int_ok (gw_listen_port g).

#[export] Instance GatewaySettings_codec `{Lib : !JsonLibrary} :
  JsonCodec GatewaySettings_ToJson GatewaySettings_FromJson GatewaySettings_ok.
Proof. solve_object_codec GatewaySettings_FromJson GatewaySettings_ToJson GatewaySettings_ok. Qed.

(** What the text of a state can carry. *)
Definition state_json_ok (s : DesiredState) : bool :=
  from_option BootstrapModelSpec_ok true (ds_bootstrap_model s) &&
  from_option InteractionSettings_ok true (ds_interaction s) &&
  from_option SkillsSettings_ok true (ds_skills s) &&
  from_option BrowsingSettings_ok true (ds_browsing s) &&
  from_option KnowledgeSettings_ok true (ds_knowledge s) &&
  from_option TurboQuantFeatureSpec_ok true (ds_turboquant s) &&
  from_option ContextCompressionFeatureSpec_ok true (ds_context_compression s) &&
  from_option VoiceListenerFeatureSpec_ok true (ds_voice_listener s) &&
  from_option VoiceMakerFeatureSpec_ok true (ds_voice_maker s) &&
  from_option SecuredConnectionFeatureSpec_ok true (ds_secured_connection s) &&
  from_option ExternalAppHostConfig_ok true (ds_app_host s) &&
  InferenceRuntimeSettings_ok (ds_inference s) && WorkerGroupSpec_ok (ds_worker_group s) &&
  GatewaySettings_ok (ds_gateway s) && forallb RuntimeGpuNode_ok (ds_runtime_gpu_nodes s) &&
  forallb NodeInventory_ok (ds_nodes s) && forallb DiskSpec_ok (ds_disks s) &&
  forallb InstanceSpec_ok (ds_instances s).

(** The form a decoded state has: its settings are normalised, its worker group
    is complete and laid out, a secured plane is protected. *)
Definition state_normal (s : DesiredState) : Prop :=
  NormalizeInferenceSettings (ds_inference s) = ds_inference s /\
  default_group (ds_plane_name s) (ds_inference s) (ds_worker_group s) = ds_worker_group s /\
  finish_group (ds_inference s) (ds_runtime_gpu_nodes s) (ds_instances s) (ds_worker_group s) =
    Ok (ds_worker_group s) /\
  (secured_enabled (ds_secured_connection s) = true -> ds_protected_plane s = true).

Section roundtrip.
Context `{Lib : !JsonLibrary}.

Definition features_of (s : DesiredState) : Features :=
  mkFeatures (ds_turboquant s) (ds_context_compression s) (ds_voice_listener s) (ds_voice_maker s)
    (ds_secured_connection s).

Lemma features_codec s :
  state_json_ok s = true ->
  json_ok (features_ToJson s) = true /\
  features_FromJson (canon (features_ToJson s)) = Ok (features_of s).
Proof.
  intros H. unfold state_json_ok in H. split_ok H. split.
  - unfold features_ToJson. apply json_ok_object. cbn [forallb snd].
    rewrite ?andb_true_iff. repeat split; auto with codec.
  - unfold features_FromJson, features_ToJson. name_fields v Hv Ha Hm.
    by repeat read_field v Hv Ha Hm.
Qed.

Lemma features_member s v :
  state_json_ok s = true ->
  member v "features" = canon <$> (if has_features s then Some (features_ToJson s) else None) ->
  exists f, json_optional_object features_FromJson v "features" = Ok f /\
    default (mkFeatures None None None None None) f = features_of s.
Proof.
  intros Hok Hm. unfold json_optional_object. rewrite Hm. destruct (has_features s) eqn:E.
  - exists (Some (features_of s)). split; [|done]. cbn [fmap option_fmap option_map].
    rewrite is_object_canon. cbn [is_object object features_ToJson].
    by rewrite (proj2 (features_codec s Hok)).
  - exists None. split; [done|]. unfold has_features in E. unfold features_of.
    by destruct (ds_turboquant s), (ds_context_compression s), (ds_voice_listener s),
      (ds_voice_maker s), (ds_secured_connection s).
Qed.

Lemma state_json_json_ok s : state_json_ok s = true -> json_ok (DesiredStateToJson s) = true.
Proof.
  intros Hok. pose proof (proj1 (features_codec s Hok)) as Hf.
  unfold state_json_ok in Hok. split_ok Hok.
  unfold DesiredStateToJson. apply json_ok_object. cbn [forallb snd from_option json_ok].
  rewrite ?andb_true_iff. repeat split; auto with codec; try codec_ok.
  by destruct (has_features s).
Qed.

Lemma state_json_decode render s :
  state_json_ok s = true -> state_normal s ->
  DesiredStateFromJson render (canon (DesiredStateToJson s)) = Ok s.
Proof.
  intros Hok (Hinf & Hgroup & Hfinish & Hsec).
  assert (Hfeat := fun v => features_member s v Hok). unfold state_json_ok in Hok. split_ok Hok.
  unfold DesiredStateFromJson, DesiredStateToJson. name_fields v Hv Ha Hm.
  assert (IsDesiredStateV2 v = Ok false) as ->.
  { unfold IsDesiredStateV2. destruct (is_object v); [|done]. rewrite (Hv _ get_int). done. }
  rewrite bind_ok. cbv beta iota. repeat read_field v Hv Ha Hm.
  assert (browsing_FromJson v = Ok (ds_browsing s)) as ->.
  { unfold browsing_FromJson, json_optional_object. rewrite !Hm.
    cbn [assoc String.eqb Ascii.eqb Bool.eqb mjoin option_join].
    destruct (ds_browsing s) as [b|]; [|done]. cbn [fmap option_fmap option_map].
    rewrite is_object_canon. cbn [is_object object BrowsingSettings_ToJson].
    rewrite codec_roundtrip by (by cbn in *). done. }
  rewrite bind_ok. cbv beta. repeat read_field v Hv Ha Hm.
  destruct (Hfeat v) as (f & -> & Hf); [by rewrite Hm|]. rewrite bind_ok. cbv beta. rewrite Hf. cbv zeta.
  repeat read_field v Hv Ha Hm.
  rewrite (optional_struct InferenceRuntimeSettings_ToJson _ _ v "inference" (Some (ds_inference s)))
    by first [by rewrite Hm | done]. rewrite bind_ok. cbv beta. cbn [default from_option].
  cbv zeta. unfold default, from_option, id.
  rewrite Hinf.
  rewrite (optional_struct WorkerGroupSpec_ToJson _ _ v "worker_group" (Some (ds_worker_group s)))
    by first [by rewrite Hm | done]. rewrite bind_ok. cbv beta.
  rewrite (optional_struct GatewaySettings_ToJson _ _ v "gateway" (Some (ds_gateway s)))
    by first [by rewrite Hm | done]. rewrite bind_ok. cbv beta iota zeta.
  repeat read_field v Hv Ha Hm. unfold default, from_option, id. rewrite Hgroup, Hfinish, bind_ok. cbv beta.
  f_equal. destruct s; cbn in *. f_equal.
  destruct ds_protected_plane; [done|]. cbn.
  destruct (secured_enabled ds_secured_connection); [|done]. by specialize (Hsec eq_refl).
Qed.
End roundtrip.

(** *** A decoded state is in normal form *)

Lemma or_else_idem a b : or_else (or_else a b) b = or_else a b.
Proof. unfold or_else. destruct (str_empty a) eqn:E; [by destruct (str_empty b)|]. by rewrite E. Qed.
Lemma or_else_self a : or_else a a = a.
Proof. unfold or_else. by destruct (str_empty a). Qed.
Lemma positive_or_idem a b : positive_or (positive_or a b) b = positive_or a b.
Proof. unfold positive_or. destruct (a <=? 0) eqn:E; [by destruct (b <=? 0)|]. by rewrite E. Qed.

(** Two fields that fall back on each other. *)
Lemma or_else_mutual a b : or_else (or_else a b) (or_else b (or_else a b)) = or_else a b.
Proof.
  unfold or_else. destruct (str_empty a) eqn:Ea, (str_empty b) eqn:Eb; rewrite ?Ea, ?Eb; try done.
Qed.
Lemma or_else_mutual' a b : or_else (or_else b (or_else a b)) (or_else a b) = or_else b (or_else a b).
Proof.
  unfold or_else. destruct (str_empty a) eqn:Ea, (str_empty b) eqn:Eb; rewrite ?Ea, ?Eb; try done.
Qed.
Lemma positive_or_mutual a b : positive_or (positive_or a b) (positive_or b (positive_or a b)) = positive_or a b.
Proof.
  unfold positive_or. destruct (a <=? 0) eqn:Ea, (b <=? 0) eqn:Eb; rewrite ?Ea, ?Eb; try done.
Qed.
Lemma positive_or_mutual' a b :
  positive_or (positive_or b (positive_or a b)) (positive_or a b) = positive_or b (positive_or a b).
Proof.
  unfold positive_or. destruct (a <=? 0) eqn:Ea, (b <=? 0) eqn:Eb; rewrite ?Ea, ?Eb; try done.
Qed.

Lemma normalize_idempotent s :
  NormalizeInferenceSettings (NormalizeInferenceSettings s) = NormalizeInferenceSettings s.
Proof.
  unfold NormalizeInferenceSettings. cbn [inf_primary_infer_node inf_runtime_engine
    inf_data_parallel_mode inf_data_parallel_lb_mode inf_api_server_count inf_worker_group_id
    inf_distributed_backend inf_worker_selection_policy inf_net_if inf_models_root
    inf_model_cache_dir inf_runtime_log_dir inf_api_port inf_max_model_len inf_gguf_cache_dir
    inf_infer_log_dir inf_llama_port inf_llama_ctx_size inf_tensor_parallel_size
    inf_pipeline_parallel_size inf_max_num_seqs inf_gpu_memory_utilization inf_enforce_eager
    inf_llama_threads inf_llama_gpu_layers inf_inference_healthcheck_retries
    inf_inference_healthcheck_interval_sec inf_rendezvous_port].
  by rewrite !or_else_mutual, !positive_or_mutual, !or_else_mutual', !positive_or_mutual', !or_else_idem.
Qed.

Lemma default_group_idempotent plane inf g :
  default_group plane inf (default_group plane inf g) = default_group plane inf g.
Proof.
  unfold default_group. cbn [wg_group_id wg_infer_instance_name wg_distributed_backend
    wg_rendezvous_host wg_rendezvous_port wg_expected_workers wg_worker_selection_policy wg_members].
  rewrite !positive_or_idem, (or_else_idem (wg_distributed_backend g)),
    (or_else_idem (wg_worker_selection_policy g)). f_equal.
  unfold or_else. destruct (str_empty (wg_group_id g)) eqn:E1; [|by rewrite !E1].
  destruct (str_empty (inf_worker_group_id inf)) eqn:E2; [|by rewrite !E2].
  destruct (str_empty (plane +:+ "-workers")) eqn:E3; [|by rewrite E3].
  by destruct plane.
Qed.

Lemma validate_assign inf g :
  ValidateReplicaPacking inf (AssignReplicaTopology inf g) = ValidateReplicaPacking inf g.
Proof.
  unfold ValidateReplicaPacking. rewrite eligible_assign.
  change (WorkersPerReplica (AssignReplicaTopology inf g)) with (WorkersPerReplica g).
  cbn [wg_members AssignReplicaTopology].
  assert (forall w st i ms, foldR (check_hybrid_member w) st (assign_members inf g i ms) =
                            foldR (check_hybrid_member w) st ms) as Hf.
  { intros w st i ms. revert st i. induction ms as [|m ms IH]; intros st i; [done|].
    cbn [assign_members]. destruct (wgm_enabled m) eqn:E; cbn [foldR].
    - change (check_hybrid_member w st (assign_member inf g i m)) with (check_hybrid_member w st m).
      destruct (check_hybrid_member w st m); cbn; [apply IH | done].
    - change (check_hybrid_member w st (clear_member (WorkersPerReplica g) m))
        with (check_hybrid_member w st m).
      destruct (check_hybrid_member w st m); cbn; [apply IH | done]. }
  by rewrite Hf.
Qed.

Lemma with_infer_assign inf g name ms i :
  Forall (fun m => wgm_infer_instance_name m = or_else (wgm_infer_instance_name m) name) ms ->
  member_with_infer name <$> assign_members inf g i ms = assign_members inf g i ms.
Proof.
  intros H. revert i. induction H as [|m ms Hm Hms IH]; intros i; [done|].
  cbn [assign_members]. destruct (wgm_enabled m); rewrite fmap_cons, IH; f_equal;
    unfold member_with_infer; cbn; by rewrite <-Hm.
Qed.

Lemma members_of_instances_nil rank l :
  members_of_instances rank l = Ok [] -> members_of_instances 0 l = Ok [].
Proof.
  revert rank. induction l as [|i l IH]; intros rank; cbn [members_of_instances]; [done|].
  destruct (inst_role i ==? Worker); [|apply IH]. intros H. by bind_inv.
Qed.

Lemma assign_members_nil inf g i ms : assign_members inf g i ms = [] -> ms = [].
Proof. destruct ms as [|m ms]; [done|]. cbn. by destruct (wgm_enabled m). Qed.

(** Filling in members finds none only when there is nothing to fill in. *)
Lemma fill_members_again gpu_nodes instances g g1 g2 :
  fill_members gpu_nodes instances g = Ok g1 -> (wg_members g2 = [] -> wg_members g1 = []) ->
  fill_members gpu_nodes instances g2 = Ok g2.
Proof.
  intros Hfill Hnil. unfold fill_members in *.
  destruct (vec_empty (wg_members g2)) eqn:E2; [|done]. apply vec_empty_true in E2.
  specialize (Hnil E2). destruct (vec_empty (wg_members g)) eqn:E.
  - destruct gpu_nodes as [|n gpu_nodes]; cbn in *; [|by bind_inv].
    destruct (members_of_instances 0 instances) as [ms|]; [|done]. cbn in *. bind_inv.
    cbn in Hnil. subst ms. f_equal. destruct g2; cbn in *. by subst.
  - bind_inv. by rewrite Hnil in E.
Qed.

Lemma finish_group_idempotent inf gpu_nodes instances g g' :
  finish_group inf gpu_nodes instances g = Ok g' ->
  finish_group inf gpu_nodes instances g' = Ok g'.
Proof.
  unfold finish_group. intros H. bind_inv. rename E into Hfill. rename E0 into Hvalid.
  rename a into g1. set (expected := positive_or _ _) in *. set (infer := or_else _ _) in *.
  set (host := or_else _ infer) in *.
  set (g2 := group_with_members _ (group_with_names infer host expected g1)) in *.
  assert (Hfill' : fill_members gpu_nodes instances (AssignReplicaTopology inf g2) =
                   Ok (AssignReplicaTopology inf g2)).
  { apply (fill_members_again _ _ _ _ _ Hfill). intros E. apply assign_members_nil in E.
    unfold g2 in E. cbn in E. by apply fmap_nil_inv in E. }
  rewrite Hfill'. cbn [mbind result_bind].
  assert (Hexp : positive_or expected (DefaultWorkersPerReplica inf
    (EligibleWorkerMemberCount (AssignReplicaTopology inf g2))) = expected).
  { unfold expected, positive_or, DefaultWorkersPerReplica.
    destruct (wg_expected_workers g1 <=? 0) eqn:E; [|by rewrite E].
    case_match eqn:E2; [|done]. apply Z.leb_le in E2. lia. }
  cbn [wg_expected_workers wg_infer_instance_name wg_rendezvous_host AssignReplicaTopology] in *.
  change (wg_expected_workers g2) with expected.
  change (wg_infer_instance_name g2) with infer. change (wg_rendezvous_host g2) with host.
  rewrite Hexp. assert (or_else infer (from_option inst_name "" (find_if (fun i => inst_role i ==? Infer)
    instances)) = infer) as -> by apply or_else_idem.
  assert (or_else host infer = host) as -> by apply or_else_idem.
  assert (group_with_members (member_with_infer infer <$> wg_members
     (group_with_names infer host expected (AssignReplicaTopology inf g2)))
     (group_with_names infer host expected (AssignReplicaTopology inf g2)) =
     AssignReplicaTopology inf g2) as ->.
  { unfold group_with_members, group_with_names. cbn. unfold AssignReplicaTopology. f_equal.
    apply with_infer_assign. apply Forall_fmap, Forall_true. intros m. cbn. by rewrite or_else_idem. }
  rewrite validate_assign, Hvalid. cbn [mbind result_bind]. f_equal.
  apply assign_topology_twice.
Qed.

(** A group is a fixed point of the defaults by its four defaulted fields. *)
Lemma default_group_fixed plane inf g :
  default_group plane inf g = g <->
  or_else (or_else (wg_group_id g) (inf_worker_group_id inf)) (plane +:+ "-workers") = wg_group_id g /\
  or_else (wg_distributed_backend g) (inf_distributed_backend inf) = wg_distributed_backend g /\
  positive_or (wg_rendezvous_port g) (inf_rendezvous_port inf) = wg_rendezvous_port g /\
  or_else (wg_worker_selection_policy g) (inf_worker_selection_policy inf) =
    wg_worker_selection_policy g.
Proof.
  destruct g; unfold default_group; cbn. split; [intros H; injection H; auto|].
  by intros (-> & -> & -> & ->).
Qed.

(** Completing a group keeps what the defaults filled in. *)
Lemma finish_group_default plane inf gpu_nodes instances g g' :
  default_group plane inf g = g -> finish_group inf gpu_nodes instances g = Ok g' ->
  default_group plane inf g' = g'.
Proof.
  unfold finish_group. intros Hd H. bind_inv. apply default_group_fixed. cbn.
  apply default_group_fixed. unfold fill_members in E.
  destruct (vec_empty (wg_members g)); [|by bind_inv].
  destruct (negb (vec_empty gpu_nodes)).
  - bind_inv. apply default_group_fixed. cbn. by apply default_group_fixed.
  - destruct (members_of_instances 0 instances); [|done]. cbn in E. bind_inv.
    apply default_group_fixed. cbn. by apply default_group_fixed.
Qed.

(** *** Taking instances away *)

Lemma members_of_no_workers rank l :
  members_of_instances rank l = Ok [] <-> forall i, i ∈ l -> inst_role i <> Worker.
Proof.
  revert rank. induction l as [|i l IH]; intros rank; cbn [members_of_instances].
  { split; [|done]. intros _ i Hi. by apply elem_of_nil in Hi. }
  destruct (inst_role i ==? Worker) eqn:E.
  - rewrite eqb_true in E. split; [intros H; by bind_inv|]. intros H. destruct (H i); [left|done].
  - rewrite eqb_false in E. rewrite IH. split; intros H i' Hi'.
    + apply elem_of_cons in Hi' as [->|Hi']; auto.
    + apply H. by right.
Qed.

Definition named_instances (l : list InstanceSpec) : Prop := Forall (fun i => inst_name i <> "") l.

Lemma first_infer_name l :
  named_instances l ->
  from_option inst_name "" (find_if (fun i => inst_role i ==? Infer) l) = "" <->
  forall i, i ∈ l -> inst_role i <> Infer.
Proof.
  intros Hn. destruct (find_if _ l) as [i|] eqn:E; cbn.
  - apply find_if_Some in E as [Hi Hin]. rewrite eqb_true in Hi.
    unfold named_instances in Hn. rewrite Forall_forall in Hn. split.
    + intros H. by destruct (Hn i Hin).
    + intros H. by destruct (H i Hin).
  - rewrite find_if_None in E. split; [|done]. intros _ i Hi. by apply eqb_false, E.
Qed.

(** A complete group stays complete when instances go away, as they do in a
    node's slice. *)
Lemma finish_group_shrink inf gpu_nodes insts insts' g :
  named_instances insts -> (forall i, i ∈ insts' -> i ∈ insts) ->
  finish_group inf gpu_nodes insts g = Ok g -> finish_group inf gpu_nodes insts' g = Ok g.
Proof.
  intros Hn Hsub H.
  assert (exists g', finish_group inf gpu_nodes insts g = Ok g' /\ Some g' = Some g) as (g' & Hf & Hg)
    by eauto.
  clear H. unfold finish_group in Hf. bind_inv. rename E into Hfill, E0 into Hvalid. set (infer := or_else _ (from_option _ _ _)) in *.
  assert (a = g /\ fill_members gpu_nodes insts' g = Ok g) as [-> Hfill'].
  { unfold fill_members in *. destruct (vec_empty (wg_members g)) eqn:E; [|by bind_inv].
    apply vec_empty_true in E.
    assert (Hnil : wg_members a = []).
    { injection Hg as Hg. rewrite <-Hg in E. cbn in E. apply assign_members_nil in E.
      by apply fmap_nil_inv in E. }
    destruct (negb (vec_empty gpu_nodes)) eqn:Eg.
    - bind_inv. by destruct gpu_nodes.
    - bind_inv. cbn in Hnil. subst. rename E0 into Hms. rewrite members_of_no_workers in Hms.
      assert (members_of_instances 0 insts' = Ok []) as -> by (apply members_of_no_workers; auto).
      destruct g; cbn in *. by subst. }
  unfold finish_group. rewrite Hfill'. cbn [mbind result_bind].
  assert (or_else (wg_infer_instance_name g) (from_option inst_name ""
            (find_if (fun i => inst_role i ==? Infer) insts')) = infer) as ->.
  { unfold infer, or_else. destruct (str_empty (wg_infer_instance_name g)) eqn:E; [|done].
    assert (infer = "") as Hinf.
    { apply str_empty_true in E. rewrite <-E. injection Hg as Hg. exact (f_equal wg_infer_instance_name Hg). }
    unfold infer, or_else in Hinf. rewrite E in Hinf.
    rewrite Hinf. rewrite first_infer_name in Hinf by done.
    apply first_infer_name; [|auto]. apply Forall_forall. intros i Hi.
    unfold named_instances in Hn. rewrite Forall_forall in Hn. auto. }
  injection Hg as Hg. rewrite Hvalid, bind_ok. cbv beta. exact (f_equal Ok Hg).
Qed.

Lemma state_normal_shrink s r :
  named_instances (ds_instances s) -> (forall i, i ∈ ds_instances r -> i ∈ ds_instances s) ->
  ds_plane_name r = ds_plane_name s -> ds_inference r = ds_inference s ->
  ds_worker_group r = ds_worker_group s -> ds_runtime_gpu_nodes r = ds_runtime_gpu_nodes s ->
  ds_secured_connection r = ds_secured_connection s ->
  ds_protected_plane r = ds_protected_plane s -> state_normal s -> state_normal r.
Proof.
  intros Hn Hsub E1 E2 E3 E4 E5 E6 (H1 & H2 & H3 & H4).
  unfold state_normal. rewrite E1, E2, E3, E4, E5, E6. split; [done|]. split; [done|].
  split; [|done]. by apply (finish_group_shrink _ _ (ds_instances s)).
Qed.

(** A document of the first format decodes to a state in normal form. *)
Lemma decode_normal `{Lib : !JsonLibrary} render value s :
  IsDesiredStateV2 value = Ok false -> DesiredStateFromJson render value = Ok s -> state_normal s.
Proof.
  intros Hv2. unfold DesiredStateFromJson. rewrite Hv2, bind_ok. cbv beta iota zeta. intros H. bind_inv.
  unfold state_normal. cbn [ds_inference ds_plane_name ds_worker_group ds_runtime_gpu_nodes
    ds_instances ds_secured_connection ds_protected_plane].
  split; [apply normalize_idempotent|].
  match goal with Hf : finish_group _ _ _ _ = Ok _ |- _ =>
    split; [eapply finish_group_default; [apply default_group_idempotent | exact Hf]|];
    split; [by eapply finish_group_idempotent|] end.
  intros Hs. by rewrite Hs, orb_true_r.
Qed.


(** *** Slices *)

Lemma slice_inv s n r :
  SliceDesiredStateForNode s n = Ok r ->
  ds_nodes r = List.filter (fun x => Models.node_name x ==? n) (ds_nodes s) /\
  ds_disks r = List.filter (fun x => disk_node_name x ==? n) (ds_disks s) /\
  ds_instances r = List.filter (fun x => inst_node_name x ==? n) (ds_instances s).
Proof. unfold SliceDesiredStateForNode. case_match; [done|]. by intros [= <-]. Qed.

Lemma slice_ok_iff s n :
  is_ok (SliceDesiredStateForNode s n) = true <-> n ∈ Models.node_name <$> ds_nodes s.
Proof.
  unfold SliceDesiredStateForNode. cbn [ds_nodes]. rewrite list_elem_of_fmap. split.
  - destruct (vec_empty _) eqn:E; [done|]. intros _.
    destruct (List.filter _ _) as [|x l] eqn:Ef; [done|].
    assert (x ∈ List.filter (fun x => Models.node_name x ==? n) (ds_nodes s)) as Hx
      by (rewrite Ef; left).
    apply elem_of_filterb in Hx as [Hx He]. rewrite eqb_true in He. by exists x.
  - intros (x & -> & Hx). destruct (vec_empty _) eqn:E; [|done].
    apply vec_empty_true in E. assert (x ∈ @nil NodeInventory) as Hn; [|by apply elem_of_nil in Hn].
    rewrite <-E. apply elem_of_filterb. split; [done|]. by apply eqb_true.
Qed.

(** A service of the node is built from the node's part of the state alone. *)
Lemma slice_service host s n r instance insts :
  SliceDesiredStateForNode s n = Ok r -> inst_node_name instance = n ->
  BuildComposeService host instance (ds_disks r) insts r =
  BuildComposeService host instance (ds_disks s) insts s.
Proof.
  intros Hs Hn. assert (forall name, disk_volume (ds_disks r) (inst_node_name instance) name =
                                     disk_volume (ds_disks s) (inst_node_name instance) name) as Hv.
  { intros name. unfold disk_volume, FindDiskByName. rewrite (proj1 (proj2 (slice_inv _ _ _ Hs))).
    rewrite find_if_filter; [done|]. intros d Hd. apply andb_prop in Hd as [_ Hd].
    rewrite eqb_true in Hd. apply eqb_true. congruence. }
  unfold BuildComposeService, service_volumes. rewrite !Hv.
  unfold SliceDesiredStateForNode in Hs. case_match; [done|]. injection Hs as <-. reflexivity.
Qed.

Lemma slice_node_plan host s n r node :
  SliceDesiredStateForNode s n = Ok r -> Models.node_name node = n ->
  build_node_plan host r node = build_node_plan host s node.
Proof.
  intros Hs Hn. unfold build_node_plan, instances_on.
  destruct (slice_inv _ _ _ Hs) as (_ & Hd & Hi).
  rewrite Hi, Hn, filter_filter_same.
  rewrite (mapR_ext _ (fun i => BuildComposeService host i (ds_disks s)
    (List.filter (fun i => inst_node_name i ==? n) (ds_instances s)) s)).
  - rewrite Hd, filter_filter_same. f_equal. unfold SliceDesiredStateForNode in Hs.
    case_match; [done|]. by injection Hs as <-.
  - intros i [Hin Hni]%elem_of_filterb. rewrite eqb_true in Hni. by apply (slice_service host s n).
Qed.

Lemma slice_plan host s n plan :
  FindNodeComposePlan host s n = Ok (Some plan) ->
  exists slice, SliceDesiredStateForNode s n = Ok slice /\
                FindNodeComposePlan host slice n = Ok (Some plan).
Proof.
  intros H. unfold FindNodeComposePlan in H. bind_inv.
  rename a into plans, E into Hp. rename H into Hfind. unfold BuildNodeComposePlans in Hp.
  assert (Hname : forall x y, build_node_plan host s x = Ok y ->
            (ncp_node_name y ==? n) = (Models.node_name x ==? n)).
  { intros x y Hx. unfold build_node_plan in Hx. by bind_inv. }
  destruct (mapR_find _ (fun x => Models.node_name x ==? n) _ _ _ _ Hname Hp Hfind) as (node & Hnode & Hb).
  apply find_if_Some in Hnode as Hin. destruct Hin as [Hn Hin]. rewrite eqb_true in Hn.
  destruct (SliceDesiredStateForNode s n) as [r|e] eqn:Hs.
  2:{ assert (is_ok (SliceDesiredStateForNode s n) = true) as Hok; [|by rewrite Hs in Hok].
      apply slice_ok_iff. apply list_elem_of_fmap. by exists node. }
  exists r. split; [done|]. unfold FindNodeComposePlan, BuildNodeComposePlans.
  rewrite (proj1 (slice_inv _ _ _ Hs)).
  rewrite (mapR_ext _ (build_node_plan host s)).
  - rewrite (mapR_filter _ _ _ _ _ Hname Hp). rewrite bind_ok. cbv beta. rewrite find_if_filter by done. by rewrite Hfind.
  - intros x [_ Hx]%elem_of_filterb. rewrite eqb_true in Hx. by apply (slice_node_plan host s n).
Qed.

(** *** Aliases *)

Lemma collect_on t o inf g gpus nodes disks insts s :
  t <> "" ->
  CollectPlacementReferencedNodes
    (with_placement o (if str_empty (inf_primary_infer_node inf) then inf else inference_on t inf)
       (group_with_members (member_on t <$> wg_members g) g) (gpu_node_on t <$> gpus)
       (node_named t <$> nodes) (disk_on t <$> disks) (instance_on t <$> insts) s) ⊆ {[t]}.
Proof.
  intros Ht x. unfold CollectPlacementReferencedNodes. rewrite elem_of_list_to_set, elem_of_singleton.
  rewrite elem_of_filterb. cbn [with_placement ds_inference ds_worker_group wg_members group_with_members
    ds_nodes ds_disks ds_instances ds_runtime_gpu_nodes].
  rewrite elem_of_cons, !elem_of_app, <-!list_fmap_compose, !list_elem_of_fmap.
  intros [H He]. destruct (str_empty (inf_primary_infer_node inf)) eqn:E.
  - destruct H as [-> | H]; [by rewrite E in He|]. naive_solver.
  - naive_solver.
Qed.

Lemma collect_unplaced s :
  CollectPlacementReferencedNodes
    (with_placement None (ds_inference s) (ds_worker_group s) (ds_runtime_gpu_nodes s) (ds_nodes s)
       (ds_disks s) (ds_instances s) s) = CollectPlacementReferencedNodes s.
Proof. reflexivity. Qed.

Lemma subset_singleton_size (X : gset string) t : X ⊆ {[t]} -> (size X <= 1)%nat.
Proof. intros H. rewrite <-(size_singleton (C := gset string) t). by apply subseteq_size. Qed.

Lemma alias_error_other target e :
  ResolvePlacementTargetAliasValue target = Throw e -> (e ==? single_node_error) = false.
Proof.
  unfold ResolvePlacementTargetAliasValue. repeat case_match; try done; intros [= <-]; done.
Qed.

Lemma resolve_twice s s' :
  ResolvePlacementTargetAliases s = Ok s' -> ResolvePlacementTargetAliases s' = Ok s'.
Proof.
  unfold ResolvePlacementTargetAliases. intros H. bind_inv. rename a into t, E into Ha.
  destruct (str_empty t) eqn:Et.
  - injection H as <-. rewrite Ha. cbn. by rewrite Et.
  - assert (t <> "") as Hne by (intros ->; done). case_match; [done|]. injection H as <-.
    assert (Hsz : forall X : gset string, X ⊆ {[t]} -> (1 <? Z.of_nat (size X)) = false).
    { intros X HX%subset_singleton_size. apply Z.ltb_ge. lia. }
    cbn [with_placement ds_placement_target]. rewrite Ha. cbn [mbind result_bind]. rewrite Et.
    rewrite Hsz by (by apply collect_on).
    cbn [with_placement ds_inference ds_worker_group wg_members group_with_members
      ds_nodes ds_disks ds_instances ds_runtime_gpu_nodes ds_placement_target]. f_equal.
    unfold with_placement.
    cbn. f_equal.
    + destruct (str_empty (inf_primary_infer_node (ds_inference s))) eqn:E; [by rewrite E|].
      cbn. by rewrite Et.
    + unfold group_with_members. cbn. f_equal. by rewrite <-list_fmap_compose.
    + by rewrite <-list_fmap_compose.
    + by rewrite <-list_fmap_compose.
    + by rewrite <-list_fmap_compose.
    + by rewrite <-list_fmap_compose.
Qed.

Lemma resolve_keeps_target s s' :
  ResolvePlacementTargetAliases s = Ok s' -> ds_placement_target s' = ds_placement_target s.
Proof.
  unfold ResolvePlacementTargetAliases. intros H. bind_inv.
  destruct (str_empty a); [by bind_inv|]. case_match; [done|]. by injection H as <-.
Qed.

(** Without a target, what resolution leaves is the decoded state less its target. *)
Lemma resolve_unplaced s s' :
  resolve_or_drop_target s = Ok s' -> ds_placement_target s' = None ->
  s' = with_placement None (ds_inference s) (ds_worker_group s) (ds_runtime_gpu_nodes s) (ds_nodes s)
         (ds_disks s) (ds_instances s) s.
Proof.
  unfold resolve_or_drop_target. destruct (ResolvePlacementTargetAliases s) as [r|e] eqn:E.
  - intros [= <-] Hn. rewrite (resolve_keeps_target _ _ E) in Hn.
    unfold ResolvePlacementTargetAliases in E. rewrite Hn in E. cbn in E. injection E as <-.
    destruct s; cbn in *. by subst.
  - case_match; [|done]. by intros [= <-].
Qed.

Lemma resolve_no_target s : ds_placement_target s = None -> resolve_or_drop_target s = Ok s.
Proof. intros H. unfold resolve_or_drop_target, ResolvePlacementTargetAliases. by rewrite H. Qed.

Lemma fmap_fixed {A} (f : A -> A) (l : list A) : f <$> l = l <-> forall x, x ∈ l -> f x = x.
Proof.
  induction l as [|y l IH]; [split; [|done]; intros _ x Hx; by apply elem_of_nil in Hx|].
  rewrite fmap_cons. split.
  - intros [= Hy Hl] x [->|Hx]%elem_of_cons; [done|]. by apply IH.
  - intros H. rewrite (H y) by left. f_equal. apply IH. intros x Hx. apply H. by right.
Qed.

Lemma collect_shrink s r :
  ds_inference r = ds_inference s -> ds_worker_group r = ds_worker_group s ->
  ds_runtime_gpu_nodes r = ds_runtime_gpu_nodes s -> ds_nodes r ⊆ ds_nodes s ->
  ds_disks r ⊆ ds_disks s -> ds_instances r ⊆ ds_instances s ->
  CollectPlacementReferencedNodes r ⊆ CollectPlacementReferencedNodes s.
Proof.
  intros E1 E2 E3 Hn Hd Hi x. unfold CollectPlacementReferencedNodes.
  rewrite E1, E2, E3, !elem_of_list_to_set, !elem_of_filterb, !elem_of_cons, !elem_of_app,
    !list_elem_of_fmap.
  intros [H He]. split; [|done]. clear He. set_solver.
Qed.

(** A placed state stays placed when nodes, disks or instances go away. *)
Lemma resolved_shrink s r :
  ds_placement_target r = ds_placement_target s -> ds_inference r = ds_inference s ->
  ds_worker_group r = ds_worker_group s ->
  ds_runtime_gpu_nodes r = ds_runtime_gpu_nodes s -> ds_nodes r ⊆ ds_nodes s ->
  ds_disks r ⊆ ds_disks s -> ds_instances r ⊆ ds_instances s ->
  resolve_or_drop_target s = Ok s -> resolve_or_drop_target r = Ok r.
Proof.
  intros E0 E1 E2 E3 Hn Hd Hi H.
  pose proof (subseteq_size _ _ (collect_shrink s r E1 E2 E3 Hn Hd Hi)) as Hsz.
  unfold resolve_or_drop_target in *.
  destruct (ResolvePlacementTargetAliases s) as [s'|e] eqn:E.
  2:{ destruct (ds_placement_target s) eqn:Et; [|done]. case_match; [|done].
      injection H as H. by rewrite <-H in Et. }
  injection H as ->. unfold ResolvePlacementTargetAliases in *. rewrite E0. bind_inv.
  rewrite bind_ok. cbv beta. destruct (str_empty a); [done|].
  destruct (1 <? Z.of_nat (size (CollectPlacementReferencedNodes s))) eqn:Es; [done|].
  apply Z.ltb_ge in Es. rewrite (proj2 (Z.ltb_ge _ _)) by lia. injection E as E.
  rewrite E1, E2, E3.
  pose proof (f_equal ds_inference E) as F1. pose proof (f_equal ds_worker_group E) as F2.
  pose proof (f_equal ds_runtime_gpu_nodes E) as F3. pose proof (f_equal ds_nodes E) as F4.
  pose proof (f_equal ds_disks E) as F5. pose proof (f_equal ds_instances E) as F6.
  cbn [with_placement ds_inference ds_worker_group ds_runtime_gpu_nodes ds_nodes ds_disks
    ds_instances] in *.
  rewrite F1, F2, F3. rewrite fmap_fixed in F4; rewrite fmap_fixed in F5; rewrite fmap_fixed in F6.
  rewrite (proj2 (fmap_fixed _ (ds_nodes r))), (proj2 (fmap_fixed _ (ds_disks r))),
    (proj2 (fmap_fixed _ (ds_instances r))) by auto.
  f_equal. destruct r; cbn in *. unfold with_placement. cbn. by subst.
Qed.

(** *** What the text keeps

    The text of a node has no [gpu_devices]: they are read back as the keys of
    [gpu_memory_mb]. *)
Definition written_node (node : NodeInventory) : NodeInventory :=
  mkNodeInventory (Models.node_name node) (node_platform node) (node_execution_mode node)
    (map_keys (node_gpu_memory_mb node)) (node_gpu_memory_mb node).
Definition as_written (s : DesiredState) : DesiredState :=
  with_placement (ds_placement_target s) (ds_inference s) (ds_worker_group s) (ds_runtime_gpu_nodes s)
    (written_node <$> ds_nodes s) (ds_disks s) (ds_instances s) s.
Definition devices_from_memory (s : DesiredState) : Prop :=
  forall node, node ∈ ds_nodes s -> node_gpu_devices node = map_keys (node_gpu_memory_mb node).

Lemma as_written_id s : devices_from_memory s -> as_written s = s.
Proof.
  intros H. unfold as_written. rewrite (proj2 (fmap_fixed written_node (ds_nodes s))); [by destruct s|].
  intros node Hn. unfold written_node. rewrite <-(H node Hn). by destruct node.
Qed.

Lemma as_written_twice s : as_written (as_written s) = as_written s.
Proof.
  apply as_written_id. intros node Hn. cbn in Hn. apply list_elem_of_fmap in Hn as (n & -> & _). done.
Qed.

Lemma as_written_json s : DesiredStateToJson (as_written s) = DesiredStateToJson s.
Proof.
  unfold DesiredStateToJson. cbn [as_written with_placement ds_nodes].
  replace (map NodeInventory_ToJson (written_node <$> ds_nodes s)) with (map NodeInventory_ToJson (ds_nodes s));
    [done|]. induction (ds_nodes s) as [|n l IH]; [done|]. by apply (f_equal (cons (NodeInventory_ToJson n))).
Qed.

Lemma collect_as_written s : CollectPlacementReferencedNodes (as_written s) = CollectPlacementReferencedNodes s.
Proof.
  unfold CollectPlacementReferencedNodes. cbn [as_written with_placement ds_nodes].
  by rewrite <-list_fmap_compose.
Qed.

Lemma resolve_as_written s :
  resolve_or_drop_target (as_written s) =
  match resolve_or_drop_target s with Ok r => Ok (as_written r) | Throw e => Throw e end.
Proof.
  unfold resolve_or_drop_target, ResolvePlacementTargetAliases. rewrite collect_as_written.
  change (ds_placement_target (as_written s)) with (ds_placement_target s).
  destruct (ResolvePlacementTargetAliasValue _) as [target|e]; cbn [mbind result_bind].
  - destruct (str_empty target); [done|]. destruct (1 <? _).
    + destruct (has_value (ds_placement_target s) && _); done.
    + unfold as_written. cbn [with_placement ds_nodes ds_inference ds_worker_group ds_runtime_gpu_nodes ds_disks
        ds_instances ds_placement_target]. unfold with_placement. cbn. do 2 f_equal. by rewrite <-!list_fmap_compose.
  - by destruct (has_value (ds_placement_target s) && _).
Qed.

Section reload.
Context `{Lib : !JsonLibrary}.

(** Reading the text of a state in normal form gives what the text keeps of it, with
    the placement target resolved. *)
Lemma state_text_reads render s t :
  state_json_ok (as_written s) = true -> state_normal s -> SerializeDesiredStateJson s = Ok t ->
  DeserializeDesiredStateJson render t = resolve_or_drop_target (as_written s).
Proof.
  intros Hok Hnormal Hser. unfold DeserializeDesiredStateJson, SerializeDesiredStateJson in *.
  rewrite <-as_written_json in Hser.
  rewrite (parse_dump _ _ (state_json_json_ok _ Hok) Hser), bind_ok. cbv beta.
  by rewrite state_json_decode, bind_ok.
Qed.

Lemma json_ok_devices s : state_json_ok s = true -> devices_from_memory s.
Proof.
  intros H node Hn. unfold state_json_ok in H. split_ok H.
  match goal with H : forallb NodeInventory_ok _ = true |- _ => rewrite forallb_forall in H;
    apply list_elem_of_In in Hn; apply H, andb_true_iff in Hn as [_ Hn] end.
  by rewrite eqb_true in Hn.
Qed.

Lemma state_text_decode render s t :
  state_json_ok s = true -> state_normal s -> resolve_or_drop_target s = Ok s ->
  SerializeDesiredStateJson s = Ok t -> DeserializeDesiredStateJson render t = Ok s.
Proof.
  intros Hok Hnormal Hres Hser. pose proof (as_written_id s (json_ok_devices s Hok)) as Hid.
  rewrite (state_text_reads render s t); by rewrite ?Hid.
Qed.
End reload.

(** ** Properties *)



(** Placement aliases: [local] and [node:<name>] resolve to a node, any
    other non-empty target is refused with its error.  A state that names at
    most one node is moved to the target whole, so that every node name left in
    it is the target; a state on several nodes keeps its nodes and loses the
    target.  Resolving the outcome again changes nothing. *)
Theorem placement_resolution s :
  match ResolvePlacementTargetAliasValue (ds_placement_target s) with
  | Throw e => resolve_or_drop_target s = Throw e
  | Ok target => exists s',
      resolve_or_drop_target s = Ok s' /\ resolve_or_drop_target s' = Ok s' /\
      (target = "" -> s' = s) /\
      (target <> "" -> (size (CollectPlacementReferencedNodes s) <= 1)%nat ->
       ds_placement_target s' = ds_placement_target s /\
       CollectPlacementReferencedNodes s' ⊆ {[target]}) /\
      (target <> "" -> (1 < size (CollectPlacementReferencedNodes s))%nat ->
       ds_placement_target s' = None /\
       CollectPlacementReferencedNodes s' = CollectPlacementReferencedNodes s)
  end.
Proof.
  destruct (ResolvePlacementTargetAliasValue _) as [t|e] eqn:Ha.
  - unfold resolve_or_drop_target at 1. unfold ResolvePlacementTargetAliases at 1.
    rewrite Ha, bind_ok. cbv beta. destruct (str_empty t) eqn:Et.
    { exists s. apply str_empty_true in Et as ->. split; [done|]. split; [|naive_solver].
      unfold resolve_or_drop_target, ResolvePlacementTargetAliases. by rewrite Ha. }
    assert (t <> "") as Hne by (intros ->; done).
    destruct (1 <? Z.of_nat (size _)) eqn:Hsz.
    + apply Z.ltb_lt in Hsz. destruct (ds_placement_target s) eqn:Hp; [|by injection Ha as <-].
      cbn [has_value andb]. rewrite eqb_refl. eexists. split; [done|].
      split; [by apply resolve_no_target|]. rewrite collect_unplaced.
      split; [done|]. split; [lia|done].
    + apply Z.ltb_ge in Hsz. eexists. split; [done|]. split.
      * unfold resolve_or_drop_target. erewrite resolve_twice; [done|].
        unfold ResolvePlacementTargetAliases. rewrite Ha, bind_ok. cbv beta. rewrite Et.
        rewrite (proj2 (Z.ltb_ge _ _)) by lia. done.
      * split; [done|]. split; [|lia]. intros _ _. split; [done|]. by apply collect_on.
  - unfold resolve_or_drop_target, ResolvePlacementTargetAliases. rewrite Ha. cbn.
    by rewrite (alias_error_other _ _ Ha), andb_false_r.
Qed.

(** A host daemon that plans its containers from the slice it is sent gets
    exactly the plan the controller makes of the whole plane for that node: the
    same services, ports, volumes and disks.  A slice exists precisely for the
    nodes of the state. *)
Theorem slice_compose_plan host s n :
  (is_ok (SliceDesiredStateForNode s n) = true <-> n ∈ Models.node_name <$> ds_nodes s) /\
  forall plan, FindNodeComposePlan host s n = Ok (Some plan) ->
  exists slice, SliceDesiredStateForNode s n = Ok slice /\
                FindNodeComposePlan host slice n = Ok (Some plan).
Proof.
  split; [apply slice_ok_iff|]. intros plan H. destruct (slice_plan host s n plan H) as (r & Hs & Hp).
  by exists r.
Qed.


(** ** Witnesses *)

(** The fixture plane as a document, and the state read from it. *)
Definition fx_document : json := DesiredStateToJson (fx_plane).
Definition no_render (_ : json) : result DesiredState := Throw "no v2 renderer".
Definition fx_decoded : DesiredState := Eval vm_compute in
  match DesiredStateFromJson (Lib:=tree_json) no_render (canon fx_document) with
  | Ok s => s | Throw _ => fx_plane end.

Lemma fx_decoded_ok :
  DesiredStateFromJson (Lib:=tree_json) no_render (canon fx_document) = Ok fx_decoded.
Proof. vm_compute. reflexivity. Qed.


(** The state with GPU devices that no memory map has is read back without them. *)
Definition fx_extra_device : DesiredState :=
  with_placement (ds_placement_target fx_decoded) (ds_inference fx_decoded) (ds_worker_group fx_decoded)
    (ds_runtime_gpu_nodes fx_decoded)
    ((fun n => mkNodeInventory (Models.node_name n) (node_platform n) (node_execution_mode n) ["7"]
                 (node_gpu_memory_mb n)) <$> ds_nodes fx_decoded)
    (ds_disks fx_decoded) (ds_instances fx_decoded) fx_decoded.


Lemma slice_compose_plan_witness :
  match FindNodeComposePlan None fx_plane "node-a" with
  | Ok (Some plan) => exists slice, SliceDesiredStateForNode fx_plane "node-a" = Ok slice /\
      FindNodeComposePlan None slice "node-a" = Ok (Some plan)
  | _ => False
  end.
Proof.
  destruct (FindNodeComposePlan None fx_plane "node-a") as [[plan|]|] eqn:E.
  - by apply (proj2 (slice_compose_plan None fx_plane "node-a")).
  - vm_compute in E. discriminate E.
  - vm_compute in E. discriminate E.
Defined.
