(* ===== verification/ComposeRenderer.v ===== *)
(** * Rendering compose files

    [common/src/planning/compose_renderer.cpp]: the compose file of a node as
    YAML text.  The output stream is a string; [out << x] appends. *)

From S2P Require Import Prelude Models Planner.

(** ** Scalars *)

Definition dquote : Ascii.ascii := "034"%char.
Definition backslash : Ascii.ascii := "\"%char.

Fixpoint EscapeYamlDoubleQuoted (value : string) : string :=
  match value with
  | EmptyString => EmptyString
  | String ch rest =>
      let escaped := EscapeYamlDoubleQuoted rest in
      if ch ==? backslash then String backslash (String backslash escaped)
      else if ch ==? dquote then String backslash (String dquote escaped)
      else if ch ==? "010"%char then String backslash (String "n"%char escaped)
      else if ch ==? "013"%char then String backslash (String "r"%char escaped)
      else if ch ==? "009"%char then String backslash (String "t"%char escaped)
      else String ch escaped
  end.

(** [dq] writes a scalar between double quotes. *)
Definition dq (value : string) : string := quote +:+ EscapeYamlDoubleQuoted value +:+ quote.

Definition line (text : string) : string := text +:+ newline.
Definition lines {A} (f : A -> string) (l : list A) : string := String.concat "" (f <$> l).

Definition RenderKeyValueMap (indent : string) (values : gmap string string) : string :=
  lines (fun kv => line (indent +:+ kv.1 +:+ ": " +:+ dq kv.2)) (map_items values).

(** [text.substr(n)] *)
Definition str_drop (n : nat) (text : string) : string :=
  String.substring n (String.length text - n) text.

Definition RenderHealthcheckTest (indent healthcheck : string) : string :=
  if healthcheck ==? "NONE" then line (indent +:+ "test: [" +:+ dq "NONE" +:+ "]")
  else if starts_with "CMD-SHELL " healthcheck
  then line (indent +:+ "test: [" +:+ dq "CMD-SHELL" +:+ ", " +:+ dq (str_drop 10 healthcheck) +:+ "]")
  else if starts_with "CMD " healthcheck
  then line (indent +:+ "test: [" +:+ dq "CMD" +:+ ", " +:+ dq (str_drop 4 healthcheck) +:+ "]")
  else line (indent +:+ "test: [" +:+ dq "CMD-SHELL" +:+ ", " +:+ dq healthcheck +:+ "]").

Definition UniqueGpuDevices (gpu_devices : list string) : list string :=
  foldl (fun result gpu_device =>
           if bool_decide (gpu_device ∈ result) then result else result ++ [gpu_device])
        [] gpu_devices.

(** ** Splitting a command *)

Record Tokens := mkTokens {
  tk_tokens : list string;
  tk_current : string;
  tk_in_single_quotes : bool;
  tk_in_double_quotes : bool;
  tk_escape_next : bool;
}.

Definition push_char (ch : Ascii.ascii) (text : string) : string := text +:+ String ch EmptyString.

Definition token_step (s : Tokens) (ch : Ascii.ascii) : Tokens :=
  let '(mkTokens tokens current single double escape_next) := s in
  if escape_next then mkTokens tokens (push_char ch current) single double false
  else if (ch ==? backslash) && negb single then mkTokens tokens current single double true
  else if (ch ==? "'"%char) && negb double
  then mkTokens tokens current (negb single) double false
  else if (ch ==? dquote) && negb single then mkTokens tokens current single (negb double) false
  else if negb single && negb double && is_space ch
  then if str_empty current then s else mkTokens (tokens ++ [current]) "" single double false
  else mkTokens tokens (push_char ch current) single double false.

Definition SplitCommandTokens (command : string) : list string :=
  let s := foldl token_step (mkTokens [] "" false false false) (list_of_string command) in
  let current := if tk_escape_next s then push_char backslash (tk_current s) else tk_current s in
  let tokens := if str_empty current then tk_tokens s else tk_tokens s ++ [current] in
  if vec_empty tokens && negb (str_empty command) then tokens ++ [command] else tokens.

Definition RenderCommand (indent command : string) : string :=
  line (indent +:+ "command: [" +:+ JoinStrings (dq <$> SplitCommandTokens command) ", " +:+ "]").

(** ** The compose file *)

(** [if (!items.empty()) out << header; for (...) out << item]. *)
Definition block {A} (header : string) (item : A -> string) (items : list A) : string :=
  if vec_empty items then "" else line header +:+ lines item items.

Definition map_block (header : string) (values : gmap string string) : string :=
  if vec_empty (map_items values) then "" else line header +:+ RenderKeyValueMap "      " values.

Definition service_devices (service : ComposeService) : list string :=
  let gpu_devices := UniqueGpuDevices (svc_gpu_devices service) in
  match svc_gpu_device service with
  | Some device => if vec_empty gpu_devices then gpu_devices ++ [device] else gpu_devices
  | None => gpu_devices
  end.

Definition render_gpus (gpu_devices : list string) : string :=
  if vec_empty gpu_devices then ""
  else
    let device_ids := JoinStrings (quoted <$> gpu_devices) ", " in
    line "    gpus:" +:+
    line "      - driver: nvidia" +:+
    line ("        device_ids: [" +:+ device_ids +:+ "]") +:+
    line "    deploy:" +:+
    line "      resources:" +:+
    line "        reservations:" +:+
    line "          devices:" +:+
    line "            - driver: nvidia" +:+
    line ("              device_ids: [" +:+ device_ids +:+ "]") +:+
    line "              capabilities: [gpu]".

Definition mesh_network_key : string := "plane-mesh".

Definition render_service (service : ComposeService) : string :=
  line ("  " +:+ svc_name service +:+ ":") +:+
  line ("    image: " +:+ svc_image service) +:+
  RenderCommand "    " (svc_command service) +:+
  line "    restart: unless-stopped" +:+
  block "    depends_on:" (fun dependency => line ("      - " +:+ dependency)) (svc_depends_on service) +:+
  map_block "    environment:" (svc_environment service) +:+
  map_block "    labels:" (svc_labels service) +:+
  block "    security_opt:" (fun opt => line ("      - " +:+ opt)) (svc_security_opts service) +:+
  (if svc_privileged service then line "    privileged: true" else "") +:+
  block "    extra_hosts:" (fun host => line ("      - " +:+ quoted host)) (svc_extra_hosts service) +:+
  (if svc_use_nvidia_runtime service then line "    runtime: nvidia" else "") +:+
  match svc_shm_size service with
  | Some size => if str_empty size then "" else line ("    shm_size: " +:+ size)
  | None => ""
  end +:+
  block "    volumes:" (fun volume =>
    line "      - type: bind" +:+
    line ("        source: " +:+ vol_source volume) +:+
    line ("        target: " +:+ vol_target volume) +:+
    (if vol_read_only volume then line "        read_only: true" else "")) (svc_volumes service) +:+
  block "    ports:" (fun port =>
    line ("      - " +:+ quoted (port_host_ip port +:+ ":" +:+ to_string (port_host_port port) +:+
                                 ":" +:+ to_string (port_container_port port))))
    (svc_published_ports service) +:+
  line "    networks:" +:+
  line ("      " +:+ mesh_network_key +:+ ":") +:+
  line "        aliases:" +:+
  line ("          - " +:+ svc_name service) +:+
  render_gpus (service_devices service) +:+
  line "    healthcheck:" +:+
  RenderHealthcheckTest "      " (svc_healthcheck service) +:+
  line "      interval: 15s" +:+
  line "      timeout: 5s" +:+
  line "      retries: 10".

Definition RenderComposeYaml (plan : NodeComposePlan) : string :=
  line ("name: naim-" +:+ ncp_plane_name plan +:+ "-" +:+ ncp_node_name plan) +:+
  line "services:" +:+
  lines render_service (ncp_services plan) +:+
  line "networks:" +:+
  line ("  " +:+ mesh_network_key +:+ ":") +:+
  line "    external: true" +:+
  line ("    name: naim-" +:+ ncp_plane_name plan +:+ "-mesh").

(** ** Lemmas: splitting quoted words *)

Lemma str_app_cons c (a b : string) : String c a +:+ b = String c (a +:+ b).
Proof. done. Qed.

(** Quoting a word for the splitter. *)
Fixpoint escape_word (word : string) : string :=
  match word with
  | EmptyString => EmptyString
  | String c rest =>
      if (c ==? backslash) || (c ==? dquote) then String backslash (String c (escape_word rest))
      else String c (escape_word rest)
  end.
Definition quote_word (word : string) : string := quote +:+ escape_word word +:+ quote.

Lemma chars_of_string_app a b : list_of_string (a +:+ b) = list_of_string a ++ list_of_string b.
Proof. induction a as [|c a IH]; [done|]. rewrite str_app_cons. cbn. by rewrite IH. Qed.

Lemma str_app_assoc (a b c : string) : (a +:+ b) +:+ c = a +:+ b +:+ c.
Proof. induction a as [|x a IH]; [done|]. rewrite ?str_app_cons. by f_equal. Qed.
Lemma str_app_nil (a : string) : a +:+ "" = a.
Proof. induction a as [|x a IH]; [done|]. rewrite ?str_app_cons. by f_equal. Qed.

Lemma push_char_app c a w : push_char c a +:+ w = a +:+ String c w.
Proof. unfold push_char. by rewrite str_app_assoc. Qed.

Lemma split_escaped word tokens current :
  foldl token_step (mkTokens tokens current false true false) (list_of_string (escape_word word)) =
  mkTokens tokens (current +:+ word) false true false.
Proof.
  revert current. induction word as [|c word IH]; intros current; cbn [escape_word].
  { cbn. by rewrite str_app_nil. }
  destruct ((c ==? backslash) || (c ==? dquote)) eqn:E.
  - cbn [list_of_string foldl].
    assert (token_step (token_step (mkTokens tokens current false true false) backslash) c =
            mkTokens tokens (push_char c current) false true false) as -> by done.
    by rewrite IH, push_char_app.
  - apply orb_false_iff in E as [E1 E2]. cbn [list_of_string foldl].
    assert (token_step (mkTokens tokens current false true false) c =
            mkTokens tokens (push_char c current) false true false) as ->.
    { unfold token_step. rewrite E1, E2. by rewrite andb_false_r. }
    by rewrite IH, push_char_app.
Qed.

Lemma split_word word tokens :
  foldl token_step (mkTokens tokens "" false false false) (list_of_string (quote_word word)) =
  mkTokens tokens word false false false.
Proof.
  unfold quote_word. rewrite !chars_of_string_app, !foldl_app.
  change (foldl token_step (mkTokens tokens "" false false false) (list_of_string quote)) with
    (mkTokens tokens "" false true false).
  rewrite split_escaped. done.
Qed.

Lemma join_cons v rest separator :
  rest <> [] -> JoinStrings (v :: rest) separator = v +:+ separator +:+ JoinStrings rest separator.
Proof. by destruct rest. Qed.

Lemma split_words words tokens :
  Forall (fun w => w <> "") words -> words <> [] ->
  exists last, words = removelast words ++ [last] /\
  foldl token_step (mkTokens tokens "" false false false)
    (list_of_string (JoinStrings (quote_word <$> words) " ")) =
  mkTokens (tokens ++ removelast words) last false false false.
Proof.
  intros Hall. revert tokens. induction Hall as [|w words Hw Hall IH]; intros tokens Hne; [done|].
  destruct words as [|w' words].
  - exists w. split; [done|]. cbn -[list_of_string quote_word]. rewrite app_nil_r. apply split_word.
  - destruct (IH (tokens ++ [w])) as (last & Hl & Hf); [done|]. exists last. split.
    { rewrite Hl at 1. done. }
    change (quote_word <$> w :: w' :: words) with (quote_word w :: (quote_word <$> w' :: words)).
    rewrite join_cons by done.
    rewrite !chars_of_string_app, !foldl_app, split_word. cbn [list_of_string foldl].
    assert (token_step (mkTokens tokens w false false false) " "%char =
            mkTokens (tokens ++ [w]) "" false false false) as ->.
    { cbn. by destruct w. }
    rewrite Hf. cbn [removelast]. by rewrite <-app_assoc.
Qed.

(** ** Properties *)

(** Command lines: splitting the quoted words of a command gives the words
    back, and only the empty command has no token. *)
Theorem command_tokens_roundtrip words :
  Forall (fun w => w <> "") words ->
  SplitCommandTokens (JoinStrings (quote_word <$> words) " ") = words /\
  forall command, SplitCommandTokens command = [] <-> command = "".
Proof.
  intros Hall. split.
  - destruct (decide (words = [])) as [->|Hne]; [done|].
    destruct (split_words words [] Hall Hne) as (last & Hl & Hf).
    unfold SplitCommandTokens. rewrite Hf. cbn [tk_escape_next tk_current tk_tokens].
    assert (last <> "") as Hlast.
    { rewrite Forall_forall in Hall. apply Hall. rewrite Hl. set_solver. }
    destruct last as [|c last]; [done|]. cbn [str_empty].
    change ([] ++ ?x) with x. rewrite <-Hl. by destruct words.
  - intros command. unfold SplitCommandTokens. split; [|by intros ->].
    set (tokens := if str_empty _ then _ else _). destruct command; [done|]. cbn [str_empty negb].
    rewrite andb_true_r. destruct (vec_empty tokens) eqn:E; [by destruct tokens|].
    intros ->. done.
Qed.

Lemma command_tokens_roundtrip_witness :
  SplitCommandTokens (JoinStrings (quote_word <$> ["run"; "a b"; quote]) " ") = ["run"; "a b"; quote].
Proof. apply command_tokens_roundtrip. repeat constructor; discriminate. Defined.
