(* ===== verification/PlaneRealization.v ===== *)
(** * Plane realisation

    [controller/src/plane/plane_realization_service.cpp]: from a desired state to
    the assignments of its nodes and the artifacts on the controller's disk.  The
    file system is a map from paths to contents; its failures are not modelled.
    The runtime support service is always configured ([std::time] is [now]). *)

From S2P Require Import Prelude Binary64 Json Models Fixtures WorkerTopology Planner Paths InferRuntimeConfig ExecutionPlan SchedulingPolicy AssignmentStore AssignmentReconciliation RuntimeStatus RuntimeSupport StateCodecs StateJson ComposeRenderer.

(** ** Artifacts *)

Abbreviation Files := (gmap string string).

Definition BuildComposePlanMap (internal_host : option string) (state : DesiredState)
    : result (gmap string NodeComposePlan) :=
  plans ← BuildNodeComposePlans internal_host state;
  Ok (foldl (fun result plan => map_emplace (ncp_node_name plan) plan result) ∅ plans).

Definition WriteTextFile (path contents : string) (files : Files) : Files := <[path := contents]> files.
Definition RemoveFileIfExists (path : string) (files : Files) : Files := delete path files.

Definition InferRuntimeArtifactPath (artifacts_root plane_name : string) : string :=
  path_append (path_append artifacts_root plane_name) "infer-runtime.json".

Definition InferRuntimeArtifactPathForInstance (artifacts_root plane_name infer_instance_name : string)
    : string :=
  path_append (path_append artifacts_root plane_name)
    (InferRuntimeConfigRelativePath infer_instance_name).

(** Runs the body of a loop over [l] on the files; stops at the first exception
    with what has been written so far. *)
Fixpoint for_files {A} (body : A -> Files -> Files * result unit) (l : list A) (files : Files)
    : Files * result unit :=
  match l with
  | [] => (files, Ok ())
  | x :: l' =>
      match body x files with
      | (files, Ok _) => for_files body l' files
      | (files, Throw e) => (files, Throw e)
      end
  end.

Definition materialize_operation (plans : gmap string NodeComposePlan) (node_name : string)
    (operation : HostOperation) (files : Files) : Files * result unit :=
  match op_kind operation with
  | WriteComposeFile =>
      match plans !! node_name with
      | None => (files, Throw ("missing compose plan for node '" +:+ node_name +:+ "'"))
      | Some plan => (WriteTextFile (op_target operation) (RenderComposeYaml plan) files, Ok ())
      end
  | RemoveComposeFile => (RemoveFileIfExists (op_target operation) files, Ok ())
  | _ => (files, Ok ())
  end.

Definition MaterializeComposeArtifacts (internal_host : option string) (desired_state : DesiredState)
    (host_plans : list NodeExecutionPlan) (files : Files) : Files * result unit :=
  match BuildComposePlanMap internal_host desired_state with
  | Throw e => (files, Throw e)
  | Ok desired_compose_plans =>
      for_files (fun host_plan =>
          for_files (materialize_operation desired_compose_plans (nep_node_name host_plan))
            (nep_operations host_plan))
        host_plans files
  end.

Section infer.
Context (dump : json -> result string).

(** The body of the loop; [wrote_primary] is set once an infer instance was written. *)
Fixpoint materialize_infer (desired_state : DesiredState) (artifacts_root : string)
    (wrote_primary : bool) (instances : list InstanceSpec) (files : Files) : Files * result unit :=
  match instances with
  | [] => (files, Ok ())
  | instance :: rest =>
      if inst_role instance !=? Infer
      then materialize_infer desired_state artifacts_root wrote_primary rest files
      else
        match RenderInferRuntimeConfigJsonForInstance dump desired_state (inst_name instance) with
        | Throw e => (files, Throw e)
        | Ok text =>
            let files :=
              WriteTextFile (InferRuntimeArtifactPathForInstance artifacts_root
                               (ds_plane_name desired_state) (inst_name instance)) text files in
            let files :=
              if wrote_primary then files
              else WriteTextFile (InferRuntimeArtifactPath artifacts_root
                                    (ds_plane_name desired_state)) text files in
            materialize_infer desired_state artifacts_root true rest files
        end
  end.

Definition MaterializeInferRuntimeArtifact (desired_state : DesiredState) (artifacts_root : string)
    (files : Files) : Files * result unit :=
  materialize_infer desired_state artifacts_root false (ds_instances desired_state) files.
End infer.

(** ** Assignments *)

Definition BuildRolloutActionsByTargetNode (scheduling_report : SchedulingPolicyReport)
    : gmap string (list SchedulerRolloutAction) :=
  foldl (fun result action =>
           <[act_target_node_name action :=
               default [] (result !! act_target_node_name action) ++ [action]]> result)
        ∅ (rep_rollout_actions scheduling_report).

Definition BuildStoppedPlaneNodeState (desired_state : DesiredState) (node_name : string)
    : result DesiredState :=
  state ← SliceDesiredStateForNode desired_state node_name;
  Ok (with_placement (ds_placement_target state) (ds_inference state) (ds_worker_group state)
        (ds_runtime_gpu_nodes state) (ds_nodes state) (ds_disks state) [] state).

Definition with_roots (plane_shared_disk_name control_root : string) (state : DesiredState)
    : DesiredState :=
  mkDesiredState (ds_plane_name state) plane_shared_disk_name control_root
    (ds_plane_mode state) (ds_protected_plane state) (ds_post_deploy_script state)
    (ds_placement_target state)
    (ds_bootstrap_model state) (ds_interaction state) (ds_skills state) (ds_browsing state)
    (ds_knowledge state) (ds_turboquant state) (ds_context_compression state)
    (ds_voice_listener state) (ds_voice_maker state) (ds_secured_connection state)
    (ds_app_host state) (ds_inference state) (ds_worker_group state) (ds_gateway state)
    (ds_runtime_gpu_nodes state) (ds_nodes state) (ds_disks state) (ds_instances state).

Definition BuildDeletedPlaneNodeState (desired_state : DesiredState) (node_name : string)
    : result DesiredState :=
  state ← SliceDesiredStateForNode desired_state node_name;
  Ok (with_roots "" ""
        (with_placement (ds_placement_target state) (ds_inference state) (ds_worker_group state)
           (ds_runtime_gpu_nodes state) (ds_nodes state) [] [] state)).

(** A fresh assignment: the defaults of the struct and the fields every builder sets. *)
Definition new_assignment (node_name plane_name : string) (desired_generation : Z)
    (assignment_type desired_state_json artifacts_root status_message : string) : HostAssignment :=
  {| ha_id := 0; ha_node_name := node_name; ha_plane_name := plane_name;
     ha_desired_generation := desired_generation; ha_attempt_count := 0; ha_max_attempts := 3;
     ha_assignment_type := assignment_type; ha_desired_state_json := desired_state_json;
     ha_artifacts_root := artifacts_root; ha_status := Pending;
     ha_status_message := status_message; ha_progress_json := "{}" |}.

(** The workers whose rollout actions wait on a node, as the status message lists them. *)
Definition gated_workers (actions : list SchedulerRolloutAction) : gset string :=
  list_to_set (List.filter (fun name => negb (str_empty name)) (act_worker_name <$> actions)).

Definition rollout_message (by_target : gmap string (list SchedulerRolloutAction))
    (node_name : string) : string :=
  match by_target !! node_name with
  | Some (action :: rest) =>
      "scheduler rollout actions pending on target node " +:+ node_name +:+ " for workers " +:+
      JoinStrings (set_items (gated_workers (action :: rest))) ","
  | _ => ""
  end.

Section assignments.
Context `{Lib : !JsonLibrary} (now : Z) (default_stale_after_seconds : Z).

Definition ObservedSchedulingGateReason (observations : list HostObservation) (node_name : string)
    (stale_after_seconds : Z) : result (option string) :=
  match FindHostObservationForNode observations node_name with
  | None => Ok None
  | Some observation =>
      if obs_status observation ==? ObsFailed then Ok (Some "failed")
      else
        let age_seconds := HeartbeatAgeSeconds now (obs_heartbeat_at observation) in
        if HealthFromAge age_seconds stale_after_seconds ==? "stale" then Ok (Some "stale")
        else
          runtime_status ← ParseRuntimeStatus observation;
          if from_option (fun s => rst_runtime_phase s ==? "failed") false runtime_status
          then Ok (Some "runtime-failed")
          else
            gpu_telemetry ← ParseGpuTelemetry observation;
            if from_option gts_degraded false gpu_telemetry then Ok (Some "telemetry-degraded")
            else Ok None
  end.

(** [node_eligible]: neither [continue] of the loop is taken. *)
Definition node_eligible (availability : AvailabilityMap) (observations : list HostObservation)
    (node_name : string) : result bool :=
  if negb (IsNodeSchedulable (ResolveNodeAvailability availability node_name)) then Ok false
  else
    reason ← ObservedSchedulingGateReason observations node_name default_stale_after_seconds;
    Ok (negb (has_value reason)).

(** A loop that may skip an element. *)
Fixpoint collectR {A B} (body : A -> result (option B)) (l : list A) : result (list B) :=
  match l with
  | [] => Ok []
  | x :: l' =>
      y ← body x;
      ys ← collectR body l';
      Ok (match y with Some y => y :: ys | None => ys end)
  end.

Definition BuildHostAssignments (desired_state : DesiredState) (artifacts_root : string)
    (desired_generation : Z) (availability_overrides : list NodeAvailabilityOverride)
    (observations : list HostObservation) (scheduling_report : option SchedulingPolicyReport)
    : result (list HostAssignment) :=
  let availability := BuildAvailabilityOverrideMap availability_overrides in
  let by_target := from_option BuildRolloutActionsByTargetNode ∅ scheduling_report in
  collectR (fun node =>
      eligible ← node_eligible availability observations (node_name node);
      if negb eligible then Ok None
      else
        slice ← SliceDesiredStateForNode desired_state (node_name node);
        text ← SerializeDesiredStateJson slice;
        Ok (Some (new_assignment (node_name node) (ds_plane_name desired_state) desired_generation
                    "apply-node-state" text artifacts_root
                    (rollout_message by_target (node_name node)))))
    (ds_nodes desired_state).

Definition BuildStopPlaneAssignments (desired_state : DesiredState) (desired_generation : Z)
    (artifacts_root : string) (availability_overrides : list NodeAvailabilityOverride)
    : result (list HostAssignment) :=
  let availability := BuildAvailabilityOverrideMap availability_overrides in
  collectR (fun node =>
      if negb (IsNodeSchedulable (ResolveNodeAvailability availability (node_name node))) then Ok None
      else
        state ← BuildStoppedPlaneNodeState desired_state (node_name node);
        text ← SerializeDesiredStateJson state;
        Ok (Some (new_assignment (node_name node) (ds_plane_name desired_state) desired_generation
                    "stop-plane-state" text artifacts_root "plane stop lifecycle transition")))
    (ds_nodes desired_state).

Definition BuildDeletePlaneAssignments (desired_state : DesiredState) (desired_generation : Z)
    (artifacts_root : string) : result (list HostAssignment) :=
  mapR (fun node =>
      state ← BuildDeletedPlaneNodeState desired_state (node_name node);
      text ← SerializeDesiredStateJson state;
      Ok (new_assignment (node_name node) (ds_plane_name desired_state) desired_generation
            "delete-plane-state" text artifacts_root "plane delete lifecycle transition"))
    (ds_nodes desired_state).
End assignments.

Definition FindLatestHostAssignmentForNode (assignments : list HostAssignment) (node_name : string)
    : option HostAssignment :=
  find_last_if (fun a => ha_node_name a ==? node_name) assignments.
Definition FindLatestHostAssignmentForPlane (assignments : list HostAssignment) (plane_name : string)
    : option HostAssignment :=
  find_last_if (fun a => ha_plane_name a ==? plane_name) assignments.

(** ** Lemmas *)

Lemma collectR_Ok {A B} (body : A -> result (option B)) l ys :
  collectR body l = Ok ys <->
  exists os, Forall2 (fun x o => body x = Ok o) l os /\ ys = omap id os.
Proof.
  revert ys. induction l as [|x l IH]; intros ys; cbn.
  - split; [intros [= <-]; exists []; auto using Forall2_nil_2|].
    intros (os & Hos & ->). by apply Forall2_nil_inv_l in Hos as ->.
  - split.
    + intros H. bind_inv. destruct (proj1 (IH _) eq_refl) as (os & Hos & ->).
      exists (a :: os). split; [by constructor|]. by destruct a.
    + intros (os & Hos & ->). apply Forall2_cons_inv_l in Hos as (o & os' & Ho & Hos & ->).
      rewrite Ho, bind_ok. cbv beta. rewrite (proj2 (IH (omap id os'))) by eauto.
      rewrite bind_ok. by destruct o.
Qed.

(** The elements a skipping loop keeps, and what it makes of them. *)
Lemma collectR_elem {A B} (body : A -> result (option B)) l ys :
  collectR body l = Ok ys ->
  (forall x, x ∈ l -> exists o, body x = Ok o) /\
  forall y, y ∈ ys <-> exists x, x ∈ l /\ body x = Ok (Some y).
Proof.
  intros (os & Hos & ->)%collectR_Ok. split.
  - intros x (i & Hi)%list_elem_of_lookup. destruct (Forall2_lookup_l _ _ _ _ _ Hos Hi) as (o & _ & Ho).
    eauto.
  - intros y. rewrite list_elem_of_omap. split.
    + intros (o & (i & Hi)%list_elem_of_lookup & Ho).
      destruct (Forall2_lookup_r _ _ _ _ _ Hos Hi) as (x & Hx & Hb). cbn in Ho. subst o.
      exists x. split; [by eapply list_elem_of_lookup_2|done].
    + intros (x & (i & Hi)%list_elem_of_lookup & Hb).
      destruct (Forall2_lookup_l _ _ _ _ _ Hos Hi) as (o & Ho & Hb').
      assert (o = Some y) as -> by congruence.
      exists (Some y). split; [by eapply list_elem_of_lookup_2|done].
Qed.

Lemma collectR_keys {A B K} (body : A -> result (option B)) (key : A -> K) (key' : B -> K)
    (p : A -> bool) l ys :
  (forall x o, body x = Ok o -> (if p x then exists y, o = Some y /\ key' y = key x else o = None)) ->
  collectR body l = Ok ys ->
  key' <$> ys = key <$> List.filter p l /\
  forall y, y ∈ ys -> exists x, x ∈ l /\ body x = Ok (Some y).
Proof.
  intros Hbody (os & Hos & ->)%collectR_Ok.
  induction Hos as [|x o l os Ho Hos [IH1 IH2]]; [split; [done|]; intros y Hy; by apply elem_of_nil in Hy|].
  specialize (Hbody _ _ Ho). cbn [List.filter]. destruct (p x).
  - destruct Hbody as (y & -> & Hy). cbn. split; [by rewrite Hy, IH1|].
    intros y' [->|Hy']%elem_of_cons; [by exists x; split; [left|]|].
    destruct (IH2 _ Hy') as (x' & Hx' & ?). exists x'. split; [by right|done].
  - subst o. cbn. split; [done|]. intros y' Hy'.
    destruct (IH2 _ Hy') as (x' & Hx' & ?). exists x'. split; [by right|done].
Qed.

Lemma forallb_filterb {A} (p q : A -> bool) l :
  forallb p l = true -> forallb p (List.filter q l) = true.
Proof. rewrite !forallb_forall. intros H x Hx. apply H. by apply filter_In in Hx as [? _]. Qed.

Lemma slice_json_ok s n r :
  SliceDesiredStateForNode s n = Ok r -> state_json_ok s = true -> state_json_ok r = true.
Proof.
  unfold SliceDesiredStateForNode. case_match; [done|]. intros [= <-].
  unfold state_json_ok. cbn. rewrite ?andb_true_iff. intros Hok. destruct_and!.
  repeat split; auto using forallb_filterb.
Qed.

Lemma slice_normal s n r :
  SliceDesiredStateForNode s n = Ok r -> named_instances (ds_instances s) ->
  state_normal s -> state_normal r.
Proof.
  intros Hs Hn. pose proof (slice_inv _ _ _ Hs) as (_ & _ & Hi).
  apply state_normal_shrink; [done|rewrite Hi; intros i Hin; by apply elem_of_filterb in Hin as [??]|..];
    unfold SliceDesiredStateForNode in Hs; case_match; try done; by injection Hs as <-.
Qed.

Lemma slice_resolved s n r :
  SliceDesiredStateForNode s n = Ok r -> resolve_or_drop_target s = Ok s ->
  resolve_or_drop_target r = Ok r.
Proof.
  intros Hs. pose proof (slice_inv _ _ _ Hs) as (Hn & Hd & Hi).
  apply resolved_shrink; [..|rewrite Hn|rewrite Hd|rewrite Hi];
    try (intros x Hx; by apply elem_of_filterb in Hx as [??]);
    unfold SliceDesiredStateForNode in Hs; case_match; try done; by injection Hs as <-.
Qed.

Lemma slice_as_written s n r :
  SliceDesiredStateForNode s n = Ok r -> SliceDesiredStateForNode (as_written s) n = Ok (as_written r).
Proof.
  assert (H : List.filter (fun x => node_name x ==? n) (written_node <$> ds_nodes s) =
              written_node <$> List.filter (fun x => node_name x ==? n) (ds_nodes s)).
  { induction (ds_nodes s) as [|x l IH]; [done|]. rewrite fmap_cons. cbn [List.filter].
    change (node_name (written_node x)) with (node_name x). destruct (node_name x ==? n); [|done].
    rewrite fmap_cons. by f_equal. }
  unfold SliceDesiredStateForNode. cbn [as_written with_placement ds_nodes ds_disks ds_instances]. rewrite H.
  destruct (List.filter _ (ds_nodes s)) as [|x l] eqn:E; [done|]. cbn [vec_empty]. rewrite fmap_cons. cbn [vec_empty].
  intros [= <-]. unfold as_written, with_placement. cbn [ds_nodes]. by rewrite fmap_cons.
Qed.

(** What the host daemon reads from an assignment is what the text keeps of the slice. *)
Lemma slice_text_decode `{Lib : !JsonLibrary} s n r t render :
  state_json_ok (as_written s) = true -> state_normal s -> named_instances (ds_instances s) ->
  resolve_or_drop_target s = Ok s -> SliceDesiredStateForNode s n = Ok r ->
  SerializeDesiredStateJson r = Ok t -> DeserializeDesiredStateJson render t = Ok (as_written r).
Proof.
  intros Hok Hnormal Hnamed Hres Hs Hser. rewrite (state_text_reads render r t); [| |by eapply slice_normal|done].
  - by rewrite resolve_as_written, (slice_resolved _ _ _ Hs).
  - eapply slice_json_ok; [by apply slice_as_written|done].
Qed.

(** The plan of a node does not look at the GPU devices of the inventory. *)
Lemma plan_as_written host s n : FindNodeComposePlan host (as_written s) n = FindNodeComposePlan host s n.
Proof.
  unfold FindNodeComposePlan, BuildNodeComposePlans. cbn [as_written with_placement ds_nodes].
  replace (mapR (build_node_plan host (as_written s)) (written_node <$> ds_nodes s))
    with (mapR (build_node_plan host s) (ds_nodes s)); [done|].
  induction (ds_nodes s) as [|x l IH]; [done|]. rewrite fmap_cons. cbn [mapR]. by rewrite IH.
Qed.

Definition ok_true (r : result bool) : bool := match r with Ok b => b | Throw _ => false end.

(** What a plane must satisfy for its text to carry it. *)
Definition plane_ok (s : DesiredState) : Prop :=
  state_json_ok s = true /\ state_normal s /\ named_instances (ds_instances s) /\
  resolve_or_drop_target s = Ok s.

(** The weaker condition under which the text of a slice carries all but the GPU devices
    of the inventory. *)
Definition plane_carried (s : DesiredState) : Prop :=
  state_json_ok (as_written s) = true /\ state_normal s /\ named_instances (ds_instances s) /\
  resolve_or_drop_target s = Ok s.

(** ** Properties *)


Lemma empty_json_ok s disks shared root :
  state_json_ok s = true -> (disks = [] \/ disks = ds_disks s) ->
  state_json_ok (with_roots shared root
    (with_placement (ds_placement_target s) (ds_inference s) (ds_worker_group s)
       (ds_runtime_gpu_nodes s) (ds_nodes s) disks [] s)) = true.
Proof.
  unfold state_json_ok. cbn. rewrite ?andb_true_iff. intros Hok Hd. destruct_and!.
  repeat split; auto. by destruct Hd as [-> | ->].
Qed.

(** The text of a node's slice with its instances, and maybe its disks, taken away. *)
Lemma emptied_text_decode `{Lib : !JsonLibrary} s n slice disks shared root t render :
  plane_ok s -> SliceDesiredStateForNode s n = Ok slice -> (disks = [] \/ disks = ds_disks slice) ->
  let r := with_roots shared root
    (with_placement (ds_placement_target slice) (ds_inference slice) (ds_worker_group slice)
       (ds_runtime_gpu_nodes slice) (ds_nodes slice) disks [] slice) in
  SerializeDesiredStateJson r = Ok t -> DeserializeDesiredStateJson render t = Ok r.
Proof.
  intros (Hok & Hnormal & Hnamed & Hres) Hs Hd r. apply state_text_decode.
  - apply empty_json_ok; [|done]. by apply (slice_json_ok s n).
  - apply (state_normal_shrink slice); try done.
    + rewrite (proj2 (proj2 (slice_inv _ _ _ Hs))). apply Forall_forall. intros i Hi.
      apply elem_of_filterb in Hi as [Hi _]. unfold named_instances in Hnamed.
      rewrite Forall_forall in Hnamed. auto.
    + intros i Hi. by apply elem_of_nil in Hi.
    + by apply (slice_normal s n).
  - apply (resolved_shrink slice); try done.
    + cbn. destruct Hd as [-> | ->]; [apply list_subseteq_nil | done].
    + apply list_subseteq_nil.
    + by apply (slice_resolved s n).
Qed.

(** Stopping and deleting.  A stop reaches the nodes that are not draining
    or unavailable, a deletion reaches all nodes of the plane; in both cases the
    daemon decodes a state of its node without instances, after a deletion
    without disks too. *)
Theorem stop_and_delete_assignments `{Lib : !JsonLibrary} s root gen overrides stops deletes :
  plane_ok s ->
  BuildStopPlaneAssignments s gen root overrides = Ok stops ->
  BuildDeletePlaneAssignments s gen root = Ok deletes ->
  ha_node_name <$> stops =
    node_name <$> List.filter (fun node => IsNodeSchedulable
      (ResolveNodeAvailability (BuildAvailabilityOverrideMap overrides) (node_name node))) (ds_nodes s) /\
  ha_node_name <$> deletes = node_name <$> ds_nodes s /\
  (forall a, a ∈ stops -> exists r,
     (forall render, DeserializeDesiredStateJson render (ha_desired_state_json a) = Ok r) /\
     ds_plane_name r = ds_plane_name s /\ ds_instances r = [] /\
     ds_disks r = List.filter (fun d => disk_node_name d ==? ha_node_name a) (ds_disks s)) /\
  (forall a, a ∈ deletes -> exists r,
     (forall render, DeserializeDesiredStateJson render (ha_desired_state_json a) = Ok r) /\
     ds_plane_name r = ds_plane_name s /\ ds_instances r = [] /\ ds_disks r = []).
Proof.
  intros Hok Hstop Hdelete. unfold BuildStopPlaneAssignments in Hstop. cbv zeta in Hstop.
  eapply collectR_keys with (key := node_name) (key' := ha_node_name) in Hstop as [Hkeys Helem].
  2:{ instantiate (1 := fun node => IsNodeSchedulable
        (ResolveNodeAvailability (BuildAvailabilityOverrideMap overrides) (node_name node))).
      intros x o Hx. cbv beta in *. destruct (IsNodeSchedulable _); cbn [negb] in Hx; bind_inv; [|done].
      by eexists. }
  split; [exact Hkeys|]. apply mapR_Forall2 in Hdelete. split.
  { clear -Hdelete. induction Hdelete as [|x y l l' Hy _ IH]; [done|]. cbv beta in Hy. bind_inv.
    cbn. by f_equal. }
  split.
  - intros a Ha. destruct (Helem a Ha) as (node & _ & Hb). cbv beta in Hb.
    destruct (IsNodeSchedulable _); cbn [negb] in Hb; bind_inv; [|done].
    unfold BuildStoppedPlaneNodeState in E. bind_inv.
    match goal with H : SliceDesiredStateForNode _ _ = Ok ?r |- _ => rename r into slice, H into Hs end.
    eexists. split; [intros render; eapply (emptied_text_decode s _ slice (ds_disks slice)
      (ds_plane_shared_disk_name slice) (ds_control_root slice)); eauto|].
    cbn. rewrite (proj1 (proj2 (slice_inv _ _ _ Hs))). split; [|done].
    unfold SliceDesiredStateForNode in Hs. case_match; [done|]. by injection Hs as <-.
  - intros a Ha. apply list_elem_of_lookup in Ha as [i Ha].
    destruct (Forall2_lookup_r _ _ _ _ _ Hdelete Ha) as (node & _ & Hb). cbv beta in Hb. bind_inv.
    unfold BuildDeletedPlaneNodeState in E. bind_inv.
    match goal with H : SliceDesiredStateForNode _ _ = Ok ?r |- _ => rename r into slice, H into Hs end.
    eexists. split; [intros render; eapply (emptied_text_decode s _ slice [] "" ""); eauto|].
    cbn. split; [|done].
    unfold SliceDesiredStateForNode in Hs. case_match; [done|]. by injection Hs as <-.
Qed.

(** ** Witnesses *)

Lemma fx_plane_ok : plane_ok fx_decoded.
Proof.
  split; [vm_compute; reflexivity|]. split.
  { apply (decode_normal (Lib:=tree_json) no_render (canon fx_document));
      [vm_compute; reflexivity | exact fx_decoded_ok]. }
  split; [|apply resolve_no_target; vm_compute; reflexivity].
  apply Forall_forall. intros i Hi.
  assert (forallb (fun i => negb (str_empty (inst_name i))) (ds_instances fx_decoded) = true) as H
    by (vm_compute; reflexivity).
  rewrite forallb_forall in H. rewrite list_elem_of_In in Hi. specialize (H i Hi).
  intros E. by rewrite E in H.
Qed.

(** The plane as the renderer leaves it: no GPU devices listed. *)
Definition fx_no_devices : DesiredState :=
  with_placement (ds_placement_target fx_decoded) (ds_inference fx_decoded) (ds_worker_group fx_decoded)
    (ds_runtime_gpu_nodes fx_decoded)
    ((fun n => mkNodeInventory (node_name n) (node_platform n) (node_execution_mode n) []
                 (node_gpu_memory_mb n)) <$> ds_nodes fx_decoded)
    (ds_disks fx_decoded) (ds_instances fx_decoded) fx_decoded.
Lemma fx_no_devices_carried : plane_carried fx_no_devices.
Proof.
  destruct fx_plane_ok as (Hok & Hn & Hnamed & Hres).
  split; [vm_compute; reflexivity|]. split; [exact Hn|]. split; [exact Hnamed|].
  apply resolve_no_target. vm_compute. reflexivity.
Qed.


Lemma stop_and_delete_assignments_witness :
  exists stops deletes,
    BuildStopPlaneAssignments (Lib:=tree_json) fx_decoded 1 "/artifacts"
      [mkNodeAvailabilityOverride "node-b" Draining "" ""] = Ok stops /\
    BuildDeletePlaneAssignments (Lib:=tree_json) fx_decoded 1 "/artifacts" = Ok deletes /\
    ha_node_name <$> stops = ["node-a"] /\ ha_node_name <$> deletes = ["node-a"; "node-b"].
Proof.
  destruct (BuildStopPlaneAssignments (Lib:=tree_json) fx_decoded 1 "/artifacts"
    [mkNodeAvailabilityOverride "node-b" Draining "" ""]) as [stops|e] eqn:E; [|discriminate E].
  destruct (BuildDeletePlaneAssignments (Lib:=tree_json) fx_decoded 1 "/artifacts")
    as [deletes|e] eqn:E'; [|discriminate E'].
  destruct (stop_and_delete_assignments (Lib:=tree_json) _ _ _ _ _ _ fx_plane_ok E E')
    as (H1 & H2 & _).
  exists stops, deletes. rewrite H1, H2. vm_compute. done.
Defined.
