(* ===== verification/ObservationMatcher.v ===== *)
(** * Matching observations to planes

    [controller/src/observation/plane_observation_matcher.cpp] and the deletion
    guard of [controller/src/app/controller_composition_support.cpp]: which part
    of what a host reports belongs to a plane, and when a plane that is being
    deleted may leave the registry. *)

From S2P Require Import Prelude Json Models Fixtures AssignmentStore AssignmentReconciliation RuntimeStatus RuntimeSupport StateCodecs StateJson.

(** ** Names *)

Definition RuntimeInstancePrefixes : list string :=
  ["infer-"; "worker-"; "skills-"; "app-"; "webgateway-"; "browsing-"].

Definition MatchesPlaneInstanceName (instance_name plane_name : string)
    (plane_instance_names : gset string) : bool :=
  if str_empty plane_name then true
  else if negb (bool_decide (plane_instance_names = ∅))
  then bool_decide (instance_name ∈ plane_instance_names)
  else any_of (fun prefix =>
                 let stem := prefix +:+ plane_name in
                 (instance_name ==? stem) || starts_with (stem +:+ "-") instance_name)
              RuntimeInstancePrefixes.

Definition CollectPlaneInstanceNames (observed_state : DesiredState) (plane_name : string)
    : gset string :=
  list_to_set (inst_name <$>
    List.filter (fun instance => inst_plane_name instance ==? plane_name) (ds_instances observed_state)).

(** ** Observed states *)

Definition with_name (name : string) (state : DesiredState) : DesiredState :=
  mkDesiredState name (ds_plane_shared_disk_name state) (ds_control_root state)
    (ds_plane_mode state) (ds_protected_plane state) (ds_post_deploy_script state)
    (ds_placement_target state)
    (ds_bootstrap_model state) (ds_interaction state) (ds_skills state) (ds_browsing state)
    (ds_knowledge state) (ds_turboquant state) (ds_context_compression state)
    (ds_voice_listener state) (ds_voice_maker state) (ds_secured_connection state)
    (ds_app_host state) (ds_inference state) (ds_worker_group state) (ds_gateway state)
    (ds_runtime_gpu_nodes state) (ds_nodes state) (ds_disks state) (ds_instances state).

Definition with_shared_disk (disk : string) (state : DesiredState) : DesiredState :=
  mkDesiredState (ds_plane_name state) disk (ds_control_root state)
    (ds_plane_mode state) (ds_protected_plane state) (ds_post_deploy_script state)
    (ds_placement_target state)
    (ds_bootstrap_model state) (ds_interaction state) (ds_skills state) (ds_browsing state)
    (ds_knowledge state) (ds_turboquant state) (ds_context_compression state)
    (ds_voice_listener state) (ds_voice_maker state) (ds_secured_connection state)
    (ds_app_host state) (ds_inference state) (ds_worker_group state) (ds_gateway state)
    (ds_runtime_gpu_nodes state) (ds_nodes state) (ds_disks state) (ds_instances state).

Definition plane_nodes (instances : list InstanceSpec) (disks : list DiskSpec) : gset string :=
  list_to_set (List.filter (fun name => negb (str_empty name))
    ((inst_node_name <$> instances) ++ (disk_node_name <$> disks))).

Definition FilterObservedStateForPlane (observed_state : DesiredState) (plane_name : string)
    : DesiredState :=
  let disks := List.filter (fun disk => disk_plane_name disk ==? plane_name) (ds_disks observed_state) in
  let instances :=
    List.filter (fun instance => inst_plane_name instance ==? plane_name) (ds_instances observed_state) in
  let names : gset string :=
    list_to_set (inst_name <$> List.filter (fun i => inst_plane_name i ==? plane_name) instances) in
  let matching name := MatchesPlaneInstanceName name plane_name names in
  let group := ds_worker_group observed_state in
  let members :=
    List.filter (fun m => matching (wgm_name m) || matching (wgm_infer_instance_name m))
      (wg_members group) in
  let gpu_nodes := List.filter (fun g => matching (gpun_name g)) (ds_runtime_gpu_nodes observed_state) in
  let node_names := plane_nodes instances disks in
  let nodes :=
    if bool_decide (node_names = ∅) then ds_nodes observed_state
    else List.filter (fun node => bool_decide (Models.node_name node ∈ node_names))
           (ds_nodes observed_state) in
  let infer_instance_name :=
    if matching (wg_infer_instance_name group) then wg_infer_instance_name group
    else from_option inst_name "" (find_if (fun i => inst_role i ==? Infer) instances) in
  let shared_disk :=
    from_option disk_name "" (find_if (fun d => disk_kind d ==? PlaneShared) disks) in
  with_shared_disk shared_disk
    (with_name plane_name
       (with_placement (ds_placement_target observed_state) (ds_inference observed_state)
          (group_with_members members
             (group_with_names infer_instance_name (wg_rendezvous_host group)
                (Z.of_nat (length (List.filter wgm_enabled members))) group))
          gpu_nodes nodes disks instances observed_state)).

Definition HasPlaneEntities (observed_state : DesiredState) : bool :=
  negb (vec_empty (ds_instances observed_state)) || negb (vec_empty (ds_disks observed_state)) ||
  negb (vec_empty (wg_members (ds_worker_group observed_state))) ||
  negb (vec_empty (ds_runtime_gpu_nodes observed_state)).

Section matcher.
Context `{Lib : !JsonLibrary} (render_v2 : json -> result DesiredState).

Definition ParseObservedStateForPlane (observation : HostObservation) (plane_name : option string)
    : result (option DesiredState) :=
  if str_empty (obs_observed_state_json observation) then Ok None
  else
    observed_state ← DeserializeDesiredStateJson render_v2 (obs_observed_state_json observation);
    match plane_name with
    | None => Ok (Some observed_state)
    | Some plane_name =>
        let filtered := FilterObservedStateForPlane observed_state plane_name in
        if (ds_plane_name observed_state ==? plane_name) || HasPlaneEntities filtered
        then Ok (Some filtered) else Ok None
    end.

(** Whether a reported process belongs to the plane; an unreadable list does not
    ([catch]). *)
Definition runtime_matches (observation : HostObservation) (plane_name : string) : bool :=
  match DeserializeRuntimeStatusListJson (obs_instance_runtime_json observation) with
  | Ok statuses =>
      any_of (fun status => MatchesPlaneInstanceName (rps_instance_name status) plane_name ∅) statuses
  | Throw _ => false
  end.

Definition ObservationMatchesPlane (observation : HostObservation) (plane_name : string)
    : result bool :=
  if obs_plane_name observation ==? plane_name then Ok true
  else
    observed_state ← ParseObservedStateForPlane observation (Some plane_name);
    if has_value observed_state then Ok true
    else if str_empty (obs_instance_runtime_json observation) then Ok false
    else Ok (runtime_matches observation plane_name).

Fixpoint filterR {A} (p : A -> result bool) (l : list A) : result (list A) :=
  match l with
  | [] => Ok []
  | x :: l' => keep ← p x; rest ← filterR p l'; Ok (if (keep : bool) then x :: rest else rest)
  end.

Definition FilterHostObservationsForPlane (observations : list HostObservation) (plane_name : string)
    : result (list HostObservation) :=
  filterR (fun observation => ObservationMatchesPlane observation plane_name) observations.

(** ** Runtime status and telemetry *)

Definition FilterRuntimeStatusForPlane (runtime_status : option RuntimeStatus)
    (plane_name : option string) (plane_instance_names : gset string) : option RuntimeStatus :=
  match runtime_status, plane_name with
  | Some status, Some plane_name =>
      if negb (str_empty (rst_plane_name status)) && (rst_plane_name status !=? plane_name) then None
      else if negb (str_empty (rst_instance_name status)) &&
              negb (MatchesPlaneInstanceName (rst_instance_name status) plane_name plane_instance_names)
      then None
      else Some status
  | _, _ => runtime_status
  end.

Definition FilterInstanceRuntimeStatusesForPlane (statuses : list RuntimeProcessStatus)
    (plane_name : option string) (plane_instance_names : gset string) : list RuntimeProcessStatus :=
  match plane_name with
  | None => statuses
  | Some plane_name =>
      List.filter (fun status =>
        MatchesPlaneInstanceName (rps_instance_name status) plane_name plane_instance_names) statuses
  end.

Definition FilterGpuTelemetryForPlane (snapshot : option GpuTelemetrySnapshot)
    (plane_name : option string) (plane_instance_names : gset string) : option GpuTelemetrySnapshot :=
  match snapshot, plane_name with
  | Some snapshot, Some plane_name =>
      Some {| gts_contract_version := gts_contract_version snapshot;
              gts_degraded := gts_degraded snapshot;
              gts_source := gts_source snapshot;
              gts_collected_at := gts_collected_at snapshot;
              gts_devices :=
                (fun device =>
                   {| gdt_gpu_device := gdt_gpu_device device;
                      gdt_used_vram_mb := gdt_used_vram_mb device;
                      gdt_free_vram_mb := gdt_free_vram_mb device;
                      gdt_total_vram_mb := gdt_total_vram_mb device;
                      gdt_gpu_utilization_pct := gdt_gpu_utilization_pct device;
                      gdt_temperature_c := gdt_temperature_c device;
                      gdt_temperature_available := gdt_temperature_available device;
                      gdt_processes :=
                        List.filter (fun process =>
                          (gpt_instance_name process ==? "unknown") ||
                          MatchesPlaneInstanceName (gpt_instance_name process) plane_name
                            plane_instance_names) (gdt_processes device) |})
                <$> gts_devices snapshot |}
  | _, _ => snapshot
  end.

Definition FilterDiskTelemetryForPlane (snapshot : option DiskTelemetrySnapshot)
    (plane_name : option string) : option DiskTelemetrySnapshot :=
  match snapshot, plane_name with
  | Some snapshot, Some plane_name =>
      Some {| dts_contract_version := dts_contract_version snapshot;
              dts_degraded := dts_degraded snapshot;
              dts_source := dts_source snapshot;
              dts_collected_at := dts_collected_at snapshot;
              dts_items := List.filter (fun item => dtr_plane_name item ==? plane_name)
                             (dts_items snapshot) |}
  | _, _ => snapshot
  end.

(** ** The deletion guard *)

Definition ObservationBlocksPlaneDeletion (observation : HostObservation) (plane_name : string)
    : result bool :=
  matches ← ObservationMatchesPlane observation plane_name;
  if negb matches then Ok false
  else if obs_status observation !=? ObsIdle then Ok true
  else if str_empty (obs_observed_state_json observation) then Ok false
  else
    match DeserializeDesiredStateJson render_v2 (obs_observed_state_json observation) with
    | Ok observed_state =>
        Ok (any_of (fun disk => disk_plane_name disk ==? plane_name) (ds_disks observed_state) ||
            any_of (fun i => inst_plane_name i ==? plane_name) (ds_instances observed_state))
    | Throw _ => Ok true
    end.

(** [std::any_of] with a predicate that may throw. *)
Fixpoint any_ofR {A} (p : A -> result bool) (l : list A) : result bool :=
  match l with
  | [] => Ok false
  | x :: l' => b ← p x; if (b : bool) then Ok true else any_ofR p l'
  end.

Definition HasBlockingPlaneObservations (observations : list HostObservation) (plane_name : string)
    : result bool :=
  any_ofR (fun observation => ObservationBlocksPlaneDeletion observation plane_name) observations.

Definition CanFinalizeDeletedPlane (assignments : Table) (observations : list HostObservation)
    (plane_name : string) : result bool :=
  if negb (vec_empty (LoadHostAssignments None (Some Pending) (Some plane_name) assignments)) ||
     negb (vec_empty (LoadHostAssignments None (Some Claimed) (Some plane_name) assignments))
  then Ok false
  else blocking ← HasBlockingPlaneObservations observations plane_name; Ok (negb blocking).
End matcher.

(** ** Lemmas *)

Lemma placed_again disk name target inf group gpus nodes disks insts disk' name' target' inf' group'
    gpus' nodes' disks' insts' s :
  with_shared_disk disk (with_name name (with_placement target inf group gpus nodes disks insts
    (with_shared_disk disk' (with_name name' (with_placement target' inf' group' gpus' nodes' disks'
       insts' s))))) =
  with_shared_disk disk (with_name name (with_placement target inf group gpus nodes disks insts s)).
Proof. reflexivity. Qed.

Lemma filter_observed_lists s p :
  ds_instances (FilterObservedStateForPlane s p) =
    List.filter (fun i => inst_plane_name i ==? p) (ds_instances s) /\
  ds_disks (FilterObservedStateForPlane s p) =
    List.filter (fun d => disk_plane_name d ==? p) (ds_disks s).
Proof. done. Qed.

(** What the controller shows of a host for a plane is the plane's own:
    filtering keeps exactly the instances and disks that carry the plane's name,
    and doing it twice is doing it once. *)
Theorem filter_observed_exact s plane :
  let filtered := FilterObservedStateForPlane s plane in
  (forall i, i ∈ ds_instances filtered <-> i ∈ ds_instances s /\ inst_plane_name i = plane) /\
  (forall d, d ∈ ds_disks filtered <-> d ∈ ds_disks s /\ disk_plane_name d = plane) /\
  ds_plane_name filtered = plane /\
  FilterObservedStateForPlane filtered plane = filtered.
Proof.
  cbv zeta. destruct (filter_observed_lists s plane) as [Hi Hd]. split_and!.
  - intros i. rewrite Hi, elem_of_filterb, eqb_true. done.
  - intros d. rewrite Hd, elem_of_filterb, eqb_true. done.
  - done.
  - unfold FilterObservedStateForPlane.
    cbn [with_shared_disk with_name with_placement ds_disks ds_instances ds_worker_group
      ds_runtime_gpu_nodes ds_nodes ds_placement_target ds_inference group_with_members
      group_with_names wg_members wg_infer_instance_name wg_rendezvous_host].
    rewrite !filter_filter_same.
    set (names := list_to_set _). set (insts := List.filter (fun i => inst_plane_name i ==? plane) _).
    set (chosen := if MatchesPlaneInstanceName (wg_infer_instance_name _) _ _ then _ else _).
    assert ((if MatchesPlaneInstanceName chosen plane names then chosen
             else from_option inst_name "" (find_if (fun i => inst_role i ==? Infer) insts)) = chosen)
      as ->.
    { unfold chosen. destruct (MatchesPlaneInstanceName (wg_infer_instance_name _) _ _) eqn:E;
        [by rewrite E|]. by case_match. }
    rewrite placed_again. f_equal. f_equal. f_equal.
    destruct (bool_decide (plane_nodes _ _ = ∅)); [done|]. by rewrite filter_filter_same.
Qed.

(** *** The deletion guard *)

Lemma any_ofR_false {A} (p : A -> result bool) l :
  any_ofR p l = Ok false <-> forall x, x ∈ l -> p x = Ok false.
Proof.
  induction l as [|x l IH]; cbn.
  { split; [|done]. intros _ x Hx. by apply elem_of_nil in Hx. }
  split.
  - intros H. bind_inv. destruct a; [done|]. intros y [->|Hy]%elem_of_cons; [done|]. by apply IH.
  - intros H. rewrite (H x) by left. rewrite bind_ok. cbv beta iota. apply IH.
    intros y Hy. apply H. by right.
Qed.

Lemma no_assignments_iff status plane t :
  LoadHostAssignments None (Some status) (Some plane) t = [] <->
  forall r, r ∈ tbl_rows t -> ~ (ha_status (row_data r) = status /\ ha_plane_name (row_data r) = plane).
Proof.
  unfold LoadHostAssignments. rewrite std_sort_nil_iff. split.
  - intros H r Hr [Hs Hp]. apply fmap_nil_inv in H.
    assert (r ∈ List.filter (fun r => optional_filter on_node None r &&
      optional_filter has_status (Some status) r && optional_filter on_plane (Some plane) r) (tbl_rows t))
      as Hin; [|rewrite H in Hin; by apply elem_of_nil in Hin].
    apply elem_of_filterb. split; [done|]. cbn. unfold has_status, on_plane.
    by rewrite Hs, Hp, !eqb_refl.
  - intros H. destruct (List.filter _ _) as [|r l] eqn:E; [done|]. exfalso.
    assert (r ∈ r :: l) as Hr by left. rewrite <-E in Hr. apply elem_of_filterb in Hr as [Hr Hf].
    cbn in Hf. apply andb_prop in Hf as [H1 H2]. unfold has_status in H1. unfold on_plane in H2.
    rewrite eqb_true in H1. rewrite eqb_true in H2. by apply (H r).
Qed.

Section guard.
Context `{Lib : !JsonLibrary} (render : json -> result DesiredState).

(** An observation that shows nothing of the plane. *)
Definition clear_of (observation : HostObservation) (plane : string) : Prop :=
  ObservationMatchesPlane render observation plane = Ok false \/
  ObservationMatchesPlane render observation plane = Ok true /\ obs_status observation = ObsIdle /\
  (obs_observed_state_json observation = "" \/
   exists s, DeserializeDesiredStateJson render (obs_observed_state_json observation) = Ok s /\
     (forall d, d ∈ ds_disks s -> disk_plane_name d <> plane) /\
     (forall i, i ∈ ds_instances s -> inst_plane_name i <> plane)).

Lemma blocks_iff o plane :
  ObservationBlocksPlaneDeletion render o plane = Ok false <-> clear_of o plane.
Proof.
  unfold ObservationBlocksPlaneDeletion, clear_of.
  destruct (ObservationMatchesPlane render o plane) as [[]|e]; rewrite ?bind_ok; cbn [negb].
  2: split; [by left|done].
  2: split; [done|]; naive_solver.
  destruct (obs_status o !=? ObsIdle) eqn:E; to_prop; [split; [done|]; naive_solver|].
  destruct (str_empty (obs_observed_state_json o)) eqn:Ee.
  { apply str_empty_true in Ee. split; [|done]. intros _. right. auto. }
  apply str_empty_false in Ee.
  destruct (DeserializeDesiredStateJson render (obs_observed_state_json o)) as [s|e] eqn:Es.
  - split.
    + intros [= H]. apply orb_false_iff in H as [Hd Hi]. rewrite any_of_false in Hd.
      rewrite any_of_false in Hi. right. split; [done|]. split; [done|]. right. exists s.
      split; [done|]. split; intros x Hx.
      * apply eqb_false. by apply Hd.
      * apply eqb_false. by apply Hi.
    + intros [?|(_ & _ & [?|(s' & [= <-] & Hd & Hi)])]; [done|done|]. f_equal.
      apply orb_false_iff. rewrite !any_of_false. split; intros x Hx; apply eqb_false; auto.
  - split; [done|]. naive_solver.
Qed.
End guard.

Lemma finalize_condition `{Lib : !JsonLibrary} render t observations plane :
  CanFinalizeDeletedPlane render t observations plane = Ok true <->
  (forall r, r ∈ tbl_rows t -> ha_plane_name (row_data r) = plane ->
     ha_status (row_data r) <> Pending /\ ha_status (row_data r) <> Claimed) /\
  (forall o, o ∈ observations -> clear_of render o plane).
Proof.
  unfold CanFinalizeDeletedPlane.
  destruct (vec_empty (LoadHostAssignments None (Some Pending) (Some plane) t)) eqn:E1; cbn [negb orb].
  2:{ split; [done|]. intros [H _].
      assert (vec_empty (LoadHostAssignments None (Some Pending) (Some plane) t) = true) as ?;
        [|congruence].
      apply vec_empty_true, no_assignments_iff. intros r Hr [Hs Hp].
      specialize (H r Hr Hp). naive_solver. }
  destruct (vec_empty (LoadHostAssignments None (Some Claimed) (Some plane) t)) eqn:E2; cbn [negb].
  2:{ split; [done|]. intros [H _].
      assert (vec_empty (LoadHostAssignments None (Some Claimed) (Some plane) t) = true) as ?;
        [|congruence].
      apply vec_empty_true, no_assignments_iff. intros r Hr [Hs Hp].
      specialize (H r Hr Hp). naive_solver. }
  apply vec_empty_true in E1, E2. rewrite no_assignments_iff in E1. rewrite no_assignments_iff in E2.
  assert (Hb : HasBlockingPlaneObservations render observations plane = Ok false <->
               forall o, o ∈ observations -> clear_of render o plane).
  { unfold HasBlockingPlaneObservations. rewrite any_ofR_false.
    split; intros H o Ho; apply blocks_iff; auto. }
  rewrite <-Hb. split.
  - intros H. bind_inv. destruct a; [done|]. split; [|done].
    intros r Hr Hp. specialize (E1 r Hr). specialize (E2 r Hr). naive_solver.
  - intros [_ H]. by rewrite H, bind_ok.
Qed.

(** A plane that is being deleted leaves the registry exactly when its
    clean-up is over: no assignment of it is pending or claimed, and every host
    observation either is not about it or is idle and shows neither a disk nor
    an instance of it. *)
Theorem can_finalize_iff `{Lib : !JsonLibrary} render t observations plane :
  CanFinalizeDeletedPlane render t observations plane = Ok true <->
  (forall r, r ∈ tbl_rows t -> ha_plane_name (row_data r) = plane ->
     ha_status (row_data r) <> Pending /\ ha_status (row_data r) <> Claimed) /\
  (forall o, o ∈ observations -> clear_of render o plane).
Proof. apply finalize_condition. Qed.

(** The names of another plane: without a list of the plane's instances the
    matcher goes by prefixes, and the processes of a plane [p-x] pass for those
    of [p].  A host that runs [worker-prod-2] keeps plane [prod] from being
    deleted. *)
Theorem namesake_blocks_deletion `{Lib : !JsonLibrary} render o status :
  obs_plane_name o = "prod-2" -> obs_status o = ObsApplied -> obs_observed_state_json o = "" ->
  obs_instance_runtime_json o <> "" ->
  DeserializeRuntimeStatusListJson (obs_instance_runtime_json o) = Ok [status] ->
  rps_instance_name status = "worker-prod-2" ->
  ObservationBlocksPlaneDeletion render o "prod" = Ok true.
Proof.
  intros Hp Hs He Hr Hl Hn. unfold ObservationBlocksPlaneDeletion, ObservationMatchesPlane.
  rewrite Hp. change ("prod-2" ==? "prod") with false. cbv iota.
  unfold ParseObservedStateForPlane. rewrite He. cbn [str_empty]. rewrite bind_ok. cbv beta.
  cbn [has_value]. rewrite (proj2 (str_empty_false _) Hr). rewrite bind_ok. cbv beta.
  unfold runtime_matches. rewrite Hl. cbn [any_of existsb]. rewrite Hn.
  change (MatchesPlaneInstanceName "worker-prod-2" "prod" ∅) with true. cbn [orb negb].
  by rewrite Hs.
Qed.
