(* ===== verification/ControllerStore.v ===== *)
(** * The controller's store

    The repositories of [common/src/state] that keep planes, observations,
    availability overrides, events and disk runtime states
    ([plane_repository.cpp], [observation_repository.cpp],
    [node_availability_repository.cpp], [event_repository.cpp],
    [disk_runtime_repository.cpp], the plane row of
    [desired_state_repository.cpp]), together with the assignment queue and the
    scheduler's tables: the state [ControllerStore] that the services of the
    controller share.  A table with a primary key is a map; [event_log] is a list
    of rows with its [AUTOINCREMENT] counter.  [CURRENT_TIMESTAMP] is the text of
    [now], in seconds.  A status column holds the enumeration its text stands for. *)

From S2P Require Import Prelude Json Models AssignmentStore AssignmentReconciliation RuntimeSupport SchedulingPolicy SchedulerStore StateJson.

(** ** Records *)

Record EventRecord := mkEventRecord {
  ev_id : Z;
  ev_plane_name : string;
  ev_node_name : string;
  ev_worker_name : string;
  ev_assignment_id : option Z;
  ev_rollout_action_id : option Z;
  ev_category : string;
  ev_event_type : string;
  ev_severity : string;
  ev_message : string;
  ev_payload_json : string;
  ev_created_at : string;
}.

Record DiskRuntimeState := mkDiskRuntimeState {
  drs_disk_name : string;
  drs_plane_name : string;
  drs_node_name : string;
  drs_image_path : string;
  drs_filesystem_type : string;
  drs_loop_device : string;
  drs_mount_point : string;
  drs_runtime_state : string;
  drs_attached_at : string;
  drs_mounted_at : string;
  drs_last_verified_at : string;
  drs_status_message : string;
  drs_updated_at : string;
}.

(** A row of [planes]: the record and the stored document. *)
Record PlaneRow := mkPlaneRow {
  plr_record : PlaneRecord;
  plr_desired_state_json : string;
}.

Record ControllerStore := mkControllerStore {
  cs_planes : gmap string PlaneRow;
  cs_assignments : Table;
  cs_scheduler : SchedulerTables;
  cs_observations : gmap string HostObservation;
  cs_overrides : gmap string NodeAvailabilityOverride;
  cs_disk_runtime : gmap (string * string) DiskRuntimeState;
  cs_events : list EventRecord;
  cs_event_sequence : Z;
}.

Definition empty_store : ControllerStore :=
  mkControllerStore ∅ empty_table empty_scheduler_tables ∅ ∅ ∅ [] 0.

Definition cs_with_planes (planes : gmap string PlaneRow) (s : ControllerStore) : ControllerStore :=
  mkControllerStore planes (cs_assignments s) (cs_scheduler s) (cs_observations s) (cs_overrides s)
    (cs_disk_runtime s) (cs_events s) (cs_event_sequence s).
Definition cs_with_assignments (t : Table) (s : ControllerStore) : ControllerStore :=
  mkControllerStore (cs_planes s) t (cs_scheduler s) (cs_observations s) (cs_overrides s)
    (cs_disk_runtime s) (cs_events s) (cs_event_sequence s).
Definition cs_with_scheduler (t : SchedulerTables) (s : ControllerStore) : ControllerStore :=
  mkControllerStore (cs_planes s) (cs_assignments s) t (cs_observations s) (cs_overrides s)
    (cs_disk_runtime s) (cs_events s) (cs_event_sequence s).
Definition cs_with_observations (m : gmap string HostObservation) (s : ControllerStore)
    : ControllerStore :=
  mkControllerStore (cs_planes s) (cs_assignments s) (cs_scheduler s) m (cs_overrides s)
    (cs_disk_runtime s) (cs_events s) (cs_event_sequence s).
Definition cs_with_overrides (m : gmap string NodeAvailabilityOverride) (s : ControllerStore)
    : ControllerStore :=
  mkControllerStore (cs_planes s) (cs_assignments s) (cs_scheduler s) (cs_observations s) m
    (cs_disk_runtime s) (cs_events s) (cs_event_sequence s).
Definition cs_with_disk_runtime (m : gmap (string * string) DiskRuntimeState) (s : ControllerStore)
    : ControllerStore :=
  mkControllerStore (cs_planes s) (cs_assignments s) (cs_scheduler s) (cs_observations s)
    (cs_overrides s) m (cs_events s) (cs_event_sequence s).
Definition cs_with_events (events : list EventRecord) (sequence : Z) (s : ControllerStore)
    : ControllerStore :=
  mkControllerStore (cs_planes s) (cs_assignments s) (cs_scheduler s) (cs_observations s)
    (cs_overrides s) (cs_disk_runtime s) events sequence.

(** ** Programs

    A service runs on the store and may throw; what it wrote before stays, since
    the repositories commit statement by statement. *)

Definition prog (A : Type) : Type := ControllerStore -> ControllerStore * result A.
#[export] Instance prog_ret : MRet prog := fun A a s => (s, Ok a).
#[export] Instance prog_bind : MBind prog := fun A B f m s =>
  match m s with
  | (s', Ok a) => f a s'
  | (s', Throw e) => (s', Throw e)
  end.
Definition throw {A} (message : string) : prog A := fun s => (s, Throw message).
Definition lift {A} (r : result A) : prog A := fun s => (s, r).
Definition read {A} (f : ControllerStore -> A) : prog A := fun s => (s, Ok (f s)).
Definition modify (f : ControllerStore -> ControllerStore) : prog unit := fun s => (f s, Ok ()).

(** ** Planes *)

Definition LoadPlane (plane_name : string) (s : ControllerStore) : option PlaneRecord :=
  plr_record <$> cs_planes s !! plane_name.
Definition LoadPlanes (s : ControllerStore) : list PlaneRecord :=
  plr_record <$> (map_items (cs_planes s)).*2.
Definition LoadPlaneRebalanceIteration (plane_name : string) (s : ControllerStore) : option Z :=
  plane_rebalance_iteration <$> LoadPlane plane_name s.
Definition LoadDesiredGeneration (plane_name : string) (s : ControllerStore) : option Z :=
  plane_generation <$> LoadPlane plane_name s.

(** [UPDATE planes SET ... WHERE name = ?1], and whether a row changed. *)
Definition update_plane (f : PlaneRecord -> PlaneRecord) (plane_name : string) (s : ControllerStore)
    : ControllerStore * bool :=
  match cs_planes s !! plane_name with
  | None => (s, false)
  | Some row =>
      (cs_with_planes (<[plane_name := mkPlaneRow (f (plr_record row)) (plr_desired_state_json row)]>
                         (cs_planes s)) s, true)
  end.

Definition plane_with_state (state : string) (p : PlaneRecord) : PlaneRecord :=
  mkPlaneRecord (plane_name p) (plane_shared_disk_name p) (plane_control_root p)
    (plane_artifacts_root p) (plane_plane_mode p) (plane_generation p) (plane_applied_generation p)
    (plane_rebalance_iteration p) state (plane_created_at p).
Definition plane_with_applied (applied_generation : Z) (p : PlaneRecord) : PlaneRecord :=
  mkPlaneRecord (plane_name p) (plane_shared_disk_name p) (plane_control_root p)
    (plane_artifacts_root p) (plane_plane_mode p) (plane_generation p) applied_generation
    (plane_rebalance_iteration p) (plane_state p) (plane_created_at p).
Definition plane_with_artifacts_root (artifacts_root : string) (p : PlaneRecord) : PlaneRecord :=
  mkPlaneRecord (plane_name p) (plane_shared_disk_name p) (plane_control_root p) artifacts_root
    (plane_plane_mode p) (plane_generation p) (plane_applied_generation p)
    (plane_rebalance_iteration p) (plane_state p) (plane_created_at p).

Definition UpdatePlaneState (plane_name state : string) (s : ControllerStore)
    : ControllerStore * bool := update_plane (plane_with_state state) plane_name s.
Definition UpdatePlaneAppliedGeneration (plane_name : string) (applied_generation : Z)
    (s : ControllerStore) : ControllerStore * bool :=
  update_plane (plane_with_applied applied_generation) plane_name s.
Definition UpdatePlaneArtifactsRoot (plane_name artifacts_root : string) (s : ControllerStore)
    : ControllerStore * bool :=
  update_plane (plane_with_artifacts_root artifacts_root) plane_name s.

(** *** Deletion *)

Definition forget_plane (plane_name : string) (o : HostObservation) : HostObservation :=
  if obs_plane_name o ==? plane_name
  then mkHostObservation (obs_node_name o) "" None None (obs_status o) (obs_status_message o)
         (obs_observed_state_json o) (obs_runtime_status_json o) (obs_instance_runtime_json o)
         (obs_gpu_telemetry_json o) (obs_disk_telemetry_json o) (obs_network_telemetry_json o)
         (obs_cpu_telemetry_json o) (obs_heartbeat_at o)
  else o.

Definition map_without {K V} `{Countable K} (p : V -> bool) (m : gmap K V) : gmap K V :=
  filter (fun kv => p kv.2 = false) m.

Definition delete_scheduler_rows (plane_name : string) (t : SchedulerTables) : SchedulerTables :=
  mkSchedulerTables (List.filter (fun a => ra_plane_name a !=? plane_name) (st_actions t))
    (st_action_sequence t)
    (delete plane_name (st_planes t))
    (map_without (fun r => swr_plane_name r ==? plane_name) (st_workers t))
    (map_without (fun r => snr_plane_name r ==? plane_name) (st_nodes t)).

(** The nine statements of the transaction. *)
Definition DeletePlane (plane_name : string) (s : ControllerStore) : ControllerStore :=
  mkControllerStore
    (delete plane_name (cs_planes s))
    (DeletePlaneAssignments plane_name (cs_assignments s))
    (delete_scheduler_rows plane_name (cs_scheduler s))
    (forget_plane plane_name <$> cs_observations s)
    (cs_overrides s)
    (map_without (fun d => drs_plane_name d ==? plane_name) (cs_disk_runtime s))
    (List.filter (fun e => ev_plane_name e !=? plane_name) (cs_events s))
    (cs_event_sequence s).

(** ** Observations *)

Definition UpsertHostObservation (now : Z) (o : HostObservation) (s : ControllerStore)
    : ControllerStore :=
  cs_with_observations
    (<[obs_node_name o :=
         mkHostObservation (obs_node_name o) (obs_plane_name o) (obs_applied_generation o)
           (obs_last_assignment_id o) (obs_status o) (obs_status_message o)
           (obs_observed_state_json o) (obs_runtime_status_json o) (obs_instance_runtime_json o)
           (obs_gpu_telemetry_json o) (obs_disk_telemetry_json o) (obs_network_telemetry_json o)
           (obs_cpu_telemetry_json o) (UtcNowSqlTimestamp now)]> (cs_observations s)) s.

Definition LoadHostObservation (node_name : string) (s : ControllerStore) : option HostObservation :=
  cs_observations s !! node_name.

Definition LoadHostObservations (node_name plane_name : option string) (s : ControllerStore)
    : list HostObservation :=
  List.filter (fun o => matches node_name (obs_node_name o) && matches plane_name (obs_plane_name o))
    (map_items (cs_observations s)).*2.

(** ** Availability overrides *)

Definition UpsertNodeAvailabilityOverride (now : Z) (o : NodeAvailabilityOverride)
    (s : ControllerStore) : ControllerStore :=
  cs_with_overrides
    (<[nao_node_name o :=
         mkNodeAvailabilityOverride (nao_node_name o) (nao_availability o) (nao_status_message o)
           (UtcNowSqlTimestamp now)]> (cs_overrides s)) s.

Definition LoadNodeAvailabilityOverride (node_name : string) (s : ControllerStore)
    : option NodeAvailabilityOverride := cs_overrides s !! node_name.

Definition LoadNodeAvailabilityOverrides (node_name : option string) (s : ControllerStore)
    : list NodeAvailabilityOverride :=
  List.filter (fun o => matches node_name (nao_node_name o)) (map_items (cs_overrides s)).*2.

(** ** Events *)

Definition AppendEvent (now : Z) (e : EventRecord) (s : ControllerStore) : ControllerStore :=
  let id := cs_event_sequence s + 1 in
  cs_with_events
    (cs_events s ++ [mkEventRecord id (ev_plane_name e) (ev_node_name e) (ev_worker_name e)
                       (ev_assignment_id e) (ev_rollout_action_id e) (ev_category e)
                       (ev_event_type e) (ev_severity e) (ev_message e) (ev_payload_json e)
                       (UtcNowSqlTimestamp now)])
    id s.

Definition LoadEvents (plane_name node_name worker_name category : option string) (limit : Z)
    (since_id : option Z) (ascending : bool) (s : ControllerStore) : list EventRecord :=
  take (Z.to_nat (if limit >? 0 then limit else 100))
    (std_sort (fun l r => if ascending then ev_id l <? ev_id r else ev_id r <? ev_id l)
       (List.filter (fun e => matches plane_name (ev_plane_name e) && matches node_name (ev_node_name e) &&
                              matches worker_name (ev_worker_name e) &&
                              matches category (ev_category e) &&
                              from_option (fun id => id <? ev_id e) true since_id) (cs_events s))).

(** ** Disk runtime states *)

Definition UpsertDiskRuntimeState (now : Z) (d : DiskRuntimeState) (s : ControllerStore)
    : ControllerStore :=
  let stamp := UtcNowSqlTimestamp now in
  let key := (drs_disk_name d, drs_node_name d) in
  let excluded_verified := default stamp (nullif_empty (drs_last_verified_at d)) in
  let last_verified_at :=
    match cs_disk_runtime s !! key with
    | None => excluded_verified
    | Some row => default (drs_last_verified_at row) (nullif_empty excluded_verified)
    end in
  cs_with_disk_runtime
    (<[key := mkDiskRuntimeState (drs_disk_name d) (drs_plane_name d) (drs_node_name d)
                (drs_image_path d) (drs_filesystem_type d) (drs_loop_device d) (drs_mount_point d)
                (drs_runtime_state d) (drs_attached_at d) (drs_mounted_at d) last_verified_at
                (drs_status_message d) stamp]> (cs_disk_runtime s)) s.

Definition LoadDiskRuntimeState (disk_name node_name : string) (s : ControllerStore)
    : option DiskRuntimeState := cs_disk_runtime s !! (disk_name, node_name).

Definition disk_runtime_before (l r : DiskRuntimeState) : bool :=
  klt (drs_plane_name l, (drs_node_name l, drs_disk_name l))
      (drs_plane_name r, (drs_node_name r, drs_disk_name r)).

Definition LoadDiskRuntimeStates (plane_name node_name : option string) (s : ControllerStore)
    : list DiskRuntimeState :=
  std_sort disk_runtime_before
    (List.filter (fun d => matches plane_name (drs_plane_name d) && matches node_name (drs_node_name d))
       (map_to_list (cs_disk_runtime s)).*2).

(** ** Desired states *)

Definition EnsureControlRoot (state : DesiredState) : DesiredState :=
  if str_empty (ds_control_root state)
  then mkDesiredState (ds_plane_name state) (ds_plane_shared_disk_name state)
         ("/naim/shared/control/" +:+ ds_plane_name state)
         (ds_plane_mode state) (ds_protected_plane state) (ds_post_deploy_script state)
         (ds_placement_target state) (ds_bootstrap_model state) (ds_interaction state)
         (ds_skills state) (ds_browsing state) (ds_knowledge state) (ds_turboquant state)
         (ds_context_compression state) (ds_voice_listener state) (ds_voice_maker state)
         (ds_secured_connection state) (ds_app_host state) (ds_inference state)
         (ds_worker_group state) (ds_gateway state) (ds_runtime_gpu_nodes state) (ds_nodes state)
         (ds_disks state) (ds_instances state)
  else state.

(** [ORDER BY created_at DESC, name ASC LIMIT 1]. *)
Definition latest_before (l r : PlaneRecord) : bool :=
  if plane_created_at l !=? plane_created_at r then klt (plane_created_at r) (plane_created_at l)
  else klt (plane_name l) (plane_name r).
Definition LoadLatestPlaneName (s : ControllerStore) : option string :=
  plane_name <$> head (std_sort latest_before (LoadPlanes s)).

Section desired.
Context `{Lib : !JsonLibrary}.
(** The v2 format ([desired_state_v2_renderer.cpp], [desired_state_v2_projector.cpp])
    and the relational tables that rows without a document fall back on. *)
Context (render_v2 : json -> result DesiredState) (serialize_v2 : DesiredState -> result string)
  (load_relational : string -> ControllerStore -> result DesiredState).

Definition LoadDesiredStateFromJson (plane_name : string) (s : ControllerStore)
    : result (option DesiredState) :=
  match cs_planes s !! plane_name with
  | None => Ok None
  | Some row =>
      if str_empty (plr_desired_state_json row) then Ok None
      else state ← DeserializeDesiredStateJson render_v2 (plr_desired_state_json row);
           Ok (Some (EnsureControlRoot state))
  end.

Definition LoadDesiredState (plane_name : string) (s : ControllerStore)
    : result (option DesiredState) :=
  from_json ← LoadDesiredStateFromJson plane_name s;
  match from_json with
  | Some state => Ok (Some state)
  | None =>
      match cs_planes s !! plane_name with
      | None => Ok None
      | Some _ => state ← load_relational plane_name s; Ok (Some state)
      end
  end.

(** The upsert of the plane row in [ReplaceDesiredState]. *)
Definition ReplacePlaneRow (now : Z) (state : DesiredState) (generation rebalance_iteration : Z)
    (s : ControllerStore) : result ControllerStore :=
  text ← serialize_v2 state;
  let control_root :=
    if str_empty (ds_control_root state) then "/naim/shared/control/" +:+ ds_plane_name state
    else ds_control_root state in
  let record :=
    match LoadPlane (ds_plane_name state) s with
    | None =>
        mkPlaneRecord (ds_plane_name state) (ds_plane_shared_disk_name state) control_root ""
          (PlaneMode_ToString (ds_plane_mode state)) generation 0 rebalance_iteration "stopped"
          (UtcNowSqlTimestamp now)
    | Some p =>
        mkPlaneRecord (ds_plane_name state) (ds_plane_shared_disk_name state) control_root
          (plane_artifacts_root p) (PlaneMode_ToString (ds_plane_mode state)) generation
          (plane_applied_generation p) rebalance_iteration
          (if plane_state p ==? "deleting" then plane_state p
           else if plane_state p ==? "running" then plane_state p else "stopped")
          (plane_created_at p)
    end in
  Ok (cs_with_planes (<[ds_plane_name state := mkPlaneRow record text]> (cs_planes s)) s).
End desired.

(** ** Invariant

    Rows sit under their key, assignments and actions are numbered. *)

Record store_ok (s : ControllerStore) : Prop := {
  ok_planes : map_Forall (fun k row => plane_name (plr_record row) = k) (cs_planes s);
  ok_assignments : table_ok (cs_assignments s);
  ok_actions : actions_ok (cs_scheduler s);
  ok_observations : map_Forall (fun k o => obs_node_name o = k) (cs_observations s);
  ok_overrides : map_Forall (fun k o => nao_node_name o = k) (cs_overrides s);
  ok_runtimes : map_Forall (fun k r => spr_plane_name r = k) (st_planes (cs_scheduler s));
  ok_workers : map_Forall (fun k r => swr_worker_name r = k) (st_workers (cs_scheduler s));
  ok_nodes : map_Forall (fun k r => snr_node_name r = k) (st_nodes (cs_scheduler s));
}.

(** ** Everything the store holds of a plane

    The rows of the nine tables that [PlaneRepository::DeletePlane] changes, and of
    no other: the sessions of users and their log, which name planes too, are in
    [AuthStore]. *)

Definition map_only {K V} `{Countable K} (p : V -> bool) (m : gmap K V) : gmap K V :=
  filter (fun kv => p kv.2 = true) m.

Record PlaneView := mkPlaneView {
  view_row : option PlaneRow;
  view_assignments : list Row;
  view_actions : list RolloutActionRecord;
  view_runtime : option SchedulerPlaneRuntime;
  view_workers : gmap string SchedulerWorkerRuntime;
  view_nodes : gmap string SchedulerNodeRuntime;
  view_observations : gmap string HostObservation;
  view_disks : gmap (string * string) DiskRuntimeState;
  view_events : list EventRecord;
}.

Definition empty_view : PlaneView := mkPlaneView None [] [] None ∅ ∅ ∅ ∅ [].

Definition plane_view (plane : string) (s : ControllerStore) : PlaneView :=
  {| view_row := cs_planes s !! plane;
     view_assignments := List.filter (on_plane plane) (tbl_rows (cs_assignments s));
     view_actions := List.filter (fun a => ra_plane_name a ==? plane) (st_actions (cs_scheduler s));
     view_runtime := st_planes (cs_scheduler s) !! plane;
     view_workers := map_only (fun r => swr_plane_name r ==? plane) (st_workers (cs_scheduler s));
     view_nodes := map_only (fun r => snr_plane_name r ==? plane) (st_nodes (cs_scheduler s));
     view_observations := map_only (fun o => obs_plane_name o ==? plane) (cs_observations s);
     view_disks := map_only (fun d => drs_plane_name d ==? plane) (cs_disk_runtime s);
     view_events := List.filter (fun e => ev_plane_name e ==? plane) (cs_events s) |}.

Lemma filter_filter_disjoint {A} (p q : A -> bool) l :
  (forall x, p x = true -> q x = false) -> List.filter p (List.filter q l) = [].
Proof.
  intros H. induction l as [|x l IH]; [done|]. cbn. destruct (q x) eqn:E; [|done]. cbn.
  destruct (p x) eqn:E'; [|done]. by rewrite (H x E') in E.
Qed.

Lemma filter_filter_implied {A} (p q : A -> bool) l :
  (forall x, p x = true -> q x = true) -> List.filter p (List.filter q l) = List.filter p l.
Proof.
  intros H. induction l as [|x l IH]; [done|]. cbn. destruct (q x) eqn:E; cbn; rewrite IH; [done|].
  destruct (p x) eqn:E'; [|done]. by rewrite (H x E') in E.
Qed.

Lemma lookup_only {K V} `{Countable K} (p : V -> bool) (m : gmap K V) k v :
  map_only p m !! k = Some v <-> m !! k = Some v /\ p v = true.
Proof. apply map_lookup_filter_Some. Qed.

Lemma lookup_without {K V} `{Countable K} (p : V -> bool) (m : gmap K V) k v :
  map_without p m !! k = Some v <-> m !! k = Some v /\ p v = false.
Proof. apply map_lookup_filter_Some. Qed.

Lemma only_without_same {K V} `{Countable K} (p : V -> bool) (m : gmap K V) :
  map_only p (map_without p m) = ∅.
Proof.
  apply map_empty. intros k. apply eq_None_not_Some. intros [v Hv].
  rewrite lookup_only, lookup_without in Hv. naive_solver congruence.
Qed.

Lemma only_without_other {K V} `{Countable K} (p q : V -> bool) (m : gmap K V) :
  (forall v, p v = true -> q v = false) -> map_only p (map_without q m) = map_only p m.
Proof.
  intros Hpq. apply map_eq. intros k. apply option_eq. intros v.
  rewrite !lookup_only, lookup_without. naive_solver.
Qed.

Lemma forget_plane_name plane o :
  obs_plane_name (forget_plane plane o) = if obs_plane_name o ==? plane then "" else obs_plane_name o.
Proof. unfold forget_plane. by destruct (obs_plane_name o ==? plane). Qed.

Lemma only_forgotten plane q (m : gmap string HostObservation) :
  q <> "" ->
  map_only (fun o => obs_plane_name o ==? q) (forget_plane plane <$> m) =
  if q ==? plane then ∅ else map_only (fun o => obs_plane_name o ==? q) m.
Proof.
  intros Hq. apply map_eq. intros k. apply option_eq. intros o.
  assert (map_only (fun o => obs_plane_name o ==? q) (forget_plane plane <$> m) !! k = Some o <->
          q <> plane /\ map_only (fun o => obs_plane_name o ==? q) m !! k = Some o) as ->.
  { rewrite !lookup_only, lookup_fmap, fmap_Some, eqb_true. split.
    - intros [(o' & Ho & ->) Hn]. rewrite forget_plane_name in Hn.
      destruct (obs_plane_name o' ==? plane) eqn:E; [done|]. to_prop.
      unfold forget_plane. rewrite (proj2 (eqb_false _ _)) by done. naive_solver congruence.
    - intros [Hne [Ho Hn]]. subst q. split; [|done]. exists o. split; [done|]. unfold forget_plane.
      by rewrite (proj2 (eqb_false _ _)). }
  destruct (q ==? plane) eqn:E; to_prop; [rewrite lookup_empty|]; naive_solver.
Qed.

Lemma eqb_other (plane q x : string) : q <> plane -> (x ==? q) = true -> (x ==? plane) = false.
Proof. intros Hne. rewrite eqb_true. intros ->. by apply eqb_false. Qed.

Lemma delete_plane_view plane s :
  plane <> "" ->
  plane_view plane (DeletePlane plane s) = empty_view /\
  forall q, q <> plane -> q <> "" -> plane_view q (DeletePlane plane s) = plane_view q s.
Proof.
  intros Hne. split.
  - unfold plane_view, DeletePlane, DeletePlaneAssignments, empty_view. cbn [cs_planes cs_assignments tbl_rows cs_scheduler
      delete_scheduler_rows st_actions st_planes st_workers st_nodes cs_observations cs_disk_runtime
      cs_events].
    rewrite !lookup_delete_eq, !filter_filter_disjoint, !only_without_same, only_forgotten, eqb_refl;
      try done; intros x Hx; by rewrite Hx.
  - intros q Hq Hq'. unfold plane_view, DeletePlane, DeletePlaneAssignments. cbn [cs_planes cs_assignments tbl_rows cs_scheduler
      delete_scheduler_rows st_actions st_planes st_workers st_nodes cs_observations cs_disk_runtime
      cs_events].
    rewrite !lookup_delete_ne by done.
    rewrite only_forgotten, (proj2 (eqb_false q plane)) by done.
    rewrite !only_without_other by (intros v; apply eqb_other; done).
    rewrite !filter_filter_implied; [done|..];
      intros x Hx; apply negb_true_iff; by apply (eqb_other plane q).
Qed.

(** Deleting a plane erases it and nothing else: no assignment, rollout
    action, scheduler runtime, disk state, event or plane row of it is left, no
    observation carries its name, and everything the store holds of any other
    plane is unchanged. *)
Theorem delete_plane_erases plane s :
  plane <> "" ->
  plane_view plane (DeletePlane plane s) = empty_view /\
  forall q, q <> plane -> q <> "" -> plane_view q (DeletePlane plane s) = plane_view q s.
Proof. apply delete_plane_view. Qed.

Lemma delete_plane_erases_witness :
  plane_view "demo" (DeletePlane "demo" (AppendEvent 0
    (mkEventRecord 0 "demo" "" "" None None "plane" "started" "info" "" "{}" "") empty_store)) =
  empty_view.
Proof. apply (delete_plane_erases "demo"). discriminate. Defined.
