(* ===== verification/PlaneService.v ===== *)
(** * The life cycle of planes

    [controller/src/plane/plane_service.cpp] with
    [plane_lifecycle_support.cpp] and [plane_deletion_support.cpp]: starting,
    stopping and deleting a plane on the controller's store.  A service runs as
    a [prog]: what it has written when it throws stays written.  Text printed on
    the console is left out; the exit code is the result. *)

From S2P Require Import Prelude Json Models Fixtures Planner AssignmentStore AssignmentReconciliation RuntimeStatus RuntimeSupport SchedulingPolicy SchedulerStore StateCodecs StateJson PlaneRealization ObservationMatcher ControllerStore.

(** ** Helpers of the translation unit *)

Definition DesiredNodeNames (state : DesiredState) : gset string :=
  list_to_set (node_name <$> ds_nodes state).

Definition LatestAssignmentsByNode (assignments : list HostAssignment) (plane_name : string)
    : gmap string HostAssignment :=
  foldl (fun result a => if ha_plane_name a !=? plane_name then result
                         else <[ha_node_name a := a]> result) ∅ assignments.

Definition HasNodeLocalRuntimeState (state : DesiredState) : bool :=
  negb (vec_empty (ds_instances state)) || negb (vec_empty (ds_disks state)).

Section service.
Context `{Lib : !JsonLibrary}.
(** The v2 format and the relational fallback of the store; what
    [PrepareDesiredState] makes of a state (admission policies and the placement
    of dynamic instances; the rows of the skill catalogue that it writes are in no
    table of the store); the defaults of the lifecycle support. *)
Context (render_v2 : json -> result DesiredState)
  (load_relational : string -> ControllerStore -> result DesiredState)
  (prepare : ControllerStore -> DesiredState -> result DesiredState)
  (default_artifacts_root : string) (stale_after_seconds : Z).
Context (now : Z).

Definition BuildRemovedNodeCleanupAssignments (existing_assignments : list HostAssignment)
    (desired_state : DesiredState) (desired_generation : Z) (artifacts_root : string)
    : list HostAssignment :=
  let desired_nodes := DesiredNodeNames desired_state in
  let latest := LatestAssignmentsByNode existing_assignments (ds_plane_name desired_state) in
  map_items latest ≫= fun '(node_name, assignment) =>
    if bool_decide (node_name ∈ desired_nodes) || str_empty (ha_desired_state_json assignment) then []
    else
      match DeserializeDesiredStateJson render_v2 (ha_desired_state_json assignment) with
      | Throw _ => []
      | Ok previous_node_state =>
          if negb (HasNodeLocalRuntimeState previous_node_state) then []
          else match BuildDeletePlaneAssignments previous_node_state desired_generation artifacts_root with
               | Throw _ => []
               | Ok node_cleanup => node_cleanup
               end
      end.

(** ** Store operations as programs *)

Definition load_desired (plane_name : string) : prog (option DesiredState) :=
  fun s => (s, LoadDesiredState render_v2 load_relational plane_name s).
Definition update_state (plane_name state : string) : prog bool :=
  fun s => let '(s', changed) := UpdatePlaneState plane_name state s in (s', Ok changed).
Definition on_assignments (f : Table -> Table) : prog unit :=
  modify (fun s => cs_with_assignments (f (cs_assignments s)) s).
Definition on_scheduler (f : SchedulerTables -> SchedulerTables) : prog unit :=
  modify (fun s => cs_with_scheduler (f (cs_scheduler s)) s).
Definition supersede_plane (plane_name message : string) : prog Z :=
  fun s => let '(t, n) := SupersedeHostAssignmentsForPlane now plane_name message (cs_assignments s) in
           (cs_with_assignments t s, Ok n).

Definition reconcile (plane_name : string) : prog unit :=
  modify (fun s =>
    cs_with_assignments
      (fst (Reconcile (fun name => LoadPlane name s) (LoadHostObservations None None s) now
              (cs_assignments s) (Some plane_name))) s).

Definition AppendPlaneEvent (event_type message : string) (payload : json) (plane_name : string)
    : prog unit :=
  text ← lift (dump payload);
  modify (AppendEvent now
    (mkEventRecord 0 plane_name "" "" None None "plane" event_type "info" message text "")).

(** ** The service *)

Definition FinalizeDeletedPlaneIfReady (plane_name : string) : prog bool :=
  plane ← read (LoadPlane plane_name);
  match plane with
  | None => mret false
  | Some plane =>
      if plane_state plane !=? "deleting" then mret false
      else
        ready ← (fun s => (s, CanFinalizeDeletedPlane render_v2 (cs_assignments s)
                               (LoadHostObservations None None s) plane_name));
        if negb ready then mret false
        else
          _ ← modify (DeletePlane plane_name);
          _ ← AppendPlaneEvent "deleted"
                "plane deleted from controller registry after cleanup convergence"
                (JObject [("plane_name", JString plane_name);
                          ("deleted_generation", JInt (plane_generation plane))]) "";
          mret true
  end.

(** [FinalizeDeletedPlanesIfReady] of [plane_deletion_support.cpp]. *)
Fixpoint finalize_planes (planes : list PlaneRecord) : prog unit :=
  match planes with
  | [] => mret tt
  | plane :: rest =>
      if plane_state plane !=? "deleting" then finalize_planes rest
      else _ ← FinalizeDeletedPlaneIfReady (plane_name plane); finalize_planes rest
  end.
Definition FinalizeDeletedPlanesIfReady : prog unit :=
  planes ← read LoadPlanes; finalize_planes planes.

Definition ResolveArtifactsRoot (plane : PlaneRecord) (plane_name : string) (s : ControllerStore)
    : string :=
  if negb (str_empty (plane_artifacts_root plane)) then plane_artifacts_root plane
  else
    match FindLatestHostAssignmentForPlane
            (LoadHostAssignments None None (Some plane_name) (cs_assignments s)) plane_name with
    | Some a => ha_artifacts_root a
    | None => default_artifacts_root
    end.

Definition not_found {A} (plane_name : string) : prog A :=
  throw ("plane '" +:+ plane_name +:+ "' not found").
Definition state_not_found {A} (plane_name : string) : prog A :=
  throw ("desired state for plane '" +:+ plane_name +:+ "' not found").
Definition update_failed {A} (plane_name : string) : prog A :=
  throw ("failed to update plane state for '" +:+ plane_name +:+ "'").

Definition ShowPlane (plane_name : string) : prog Z :=
  _ ← FinalizeDeletedPlaneIfReady plane_name;
  state ← load_desired plane_name;
  plane ← read (LoadPlane plane_name);
  match state, plane with
  | Some _, Some _ => mret 0
  | _, _ => not_found plane_name
  end.

Definition transition_payload (previous next : string) (generation : Z)
    (extra : list (string * json)) : json :=
  JObject ([("previous_state", JString previous); ("next_state", JString next);
            ("desired_generation", JInt generation)] ++ extra).

Definition StartPlane (name : string) : prog Z :=
  plane ← read (LoadPlane name);
  desired_state ← load_desired name;
  match plane, desired_state with
  | None, _ => not_found name
  | Some _, None => state_not_found name
  | Some plane, Some desired_state =>
      desired_state ← (fun s => (s, prepare s desired_state));
      let stale_running_plane :=
        (plane_state plane ==? "running") && (plane_applied_generation plane <? plane_generation plane) in
      if (plane_state plane ==? "running") && negb stale_running_plane then mret 0
      else
        updated ← (if plane_state plane !=? "running" then update_state name "running" else mret true);
        if negb updated then update_failed name
        else
          overrides ← read (LoadNodeAvailabilityOverrides None);
          observations ← read (LoadHostObservations None None);
          let scheduling_report := EvaluateSchedulingPolicy desired_state in
          artifacts_root ← read (ResolveArtifactsRoot plane name);
          _ ← on_scheduler (ReplaceRolloutActions (ds_plane_name desired_state)
                (plane_generation plane) (rep_rollout_actions scheduling_report));
          start_assignments ←
            lift (BuildHostAssignments now stale_after_seconds desired_state artifacts_root
                    (plane_generation plane) overrides observations (Some scheduling_report));
          existing ← read (fun s => LoadHostAssignments None None (Some name) (cs_assignments s));
          let cleanup :=
            BuildRemovedNodeCleanupAssignments existing desired_state (plane_generation plane)
              artifacts_root in
          _ ← on_assignments (EnqueueHostAssignments now (start_assignments ++ cleanup)
                "superseded by start-plane lifecycle transition");
          _ ← reconcile name;
          _ ← AppendPlaneEvent "started"
                "plane lifecycle moved to running and apply assignments were queued"
                (transition_payload (plane_state plane) "running" (plane_generation plane) []) name;
          mret 0
  end.

Definition StopPlane (name : string) : prog Z :=
  plane ← read (LoadPlane name);
  desired_state ← load_desired name;
  match plane, desired_state with
  | None, _ => not_found name
  | Some _, None => state_not_found name
  | Some plane, Some desired_state =>
      if plane_state plane ==? "stopped" then mret 0
      else
        superseded ← supersede_plane name "superseded by stop-plane controller lifecycle transition";
        overrides ← read (LoadNodeAvailabilityOverrides None);
        artifacts_root ← read (ResolveArtifactsRoot plane name);
        assignments ← lift (BuildStopPlaneAssignments desired_state (plane_generation plane)
                              artifacts_root overrides);
        _ ← on_assignments (EnqueueHostAssignments now assignments
              "superseded by stop-plane lifecycle transition");
        _ ← reconcile name;
        updated ← update_state name "stopped";
        if negb updated then update_failed name
        else
          _ ← AppendPlaneEvent "stopped"
                "plane lifecycle moved to stopped and stop assignments were queued"
                (transition_payload (plane_state plane) "stopped" (plane_generation plane)
                   [("superseded_assignments", JInt superseded)]) name;
          mret 0
  end.

(** [DeletePlane] of the service; that of the store removes the rows. *)
Definition RequestDeletePlane (name : string) : prog Z :=
  plane ← read (LoadPlane name);
  desired_state ← load_desired name;
  match plane, desired_state with
  | None, _ => not_found name
  | Some _, None => state_not_found name
  | Some plane, Some desired_state =>
      finalized ← (if plane_state plane ==? "deleting" then FinalizeDeletedPlaneIfReady name
                   else mret false);
      if (finalized : bool) then mret 0
      else
        superseded ← supersede_plane name "superseded by delete-plane controller lifecycle transition";
        artifacts_root ← read (ResolveArtifactsRoot plane name);
        updated ← update_state name "deleting";
        if negb updated then update_failed name
        else
          let cleanup_nodes := DesiredNodeNames desired_state in
          _ ← on_scheduler (ReplaceRolloutActions name (plane_generation plane) []);
          _ ← on_scheduler (ClearSchedulerPlaneRuntime name);
          let nodes := List.filter (fun node => bool_decide (node_name node ∈ cleanup_nodes))
                         (ds_nodes desired_state) in
          let cleanup_state :=
            with_placement (ds_placement_target desired_state) (ds_inference desired_state)
              (ds_worker_group desired_state) (ds_runtime_gpu_nodes desired_state) nodes
              (ds_disks desired_state) (ds_instances desired_state) desired_state in
          assignments ← lift (BuildDeletePlaneAssignments cleanup_state (plane_generation plane)
                                artifacts_root);
          _ ← on_assignments (EnqueueHostAssignments now assignments
                "superseded by delete-plane lifecycle transition");
          _ ← reconcile name;
          _ ← AppendPlaneEvent "delete-requested"
                "plane delete was requested and cleanup assignments were queued"
                (transition_payload (plane_state plane) "deleting" (plane_generation plane)
                   [("superseded_assignments", JInt superseded);
                    ("cleanup_nodes", JArray (JString <$> set_items cleanup_nodes));
                    ("skipped_nodes", JArray [])]) name;
          mret 0
  end.
End service.

(** ** Lemmas: rows of other planes *)

Abbreviation rows_of q t := (List.filter (on_plane q) (tbl_rows t)).

Lemma update_other_plane now p f t q :
  (forall a, ha_plane_name (f a) = ha_plane_name a) ->
  (forall r, r ∈ tbl_rows t -> p r = true -> on_plane q r = false) ->
  rows_of q (fst (update_where now p f t)) = rows_of q t.
Proof.
  intros Hf Hp. cbn [fst update_where tbl_rows]. induction (tbl_rows t) as [|r l IH]; [done|].
  rewrite fmap_cons. cbn [List.filter]. rewrite IH by (intros; apply Hp; [by right|done]).
  unfold update_row at 1 2. destruct (p r) eqn:E; [|done].
  assert (on_plane q (mkRow (f (row_data r)) now) = on_plane q r) as ->
    by (unfold on_plane; cbn; by rewrite Hf).
  by rewrite (Hp r (list_elem_of_here _ _) E).
Qed.

Lemma on_plane_other p q r : p <> q -> on_plane p r = true -> on_plane q r = false.
Proof.
  unfold on_plane. intros Hne H. rewrite eqb_true in H. apply eqb_false. congruence.
Qed.

Lemma supersede_other_plane now p q message t :
  p <> q -> rows_of q (fst (SupersedeHostAssignmentsForPlane now p message t)) = rows_of q t.
Proof.
  intros Hne. apply update_other_plane; [done|]. intros r _ Hr. to_prop.
  by apply (on_plane_other p).
Qed.

Lemma enqueue_other_plane now p q l reason t :
  p <> q -> Forall (fun a => ha_plane_name a = p) l ->
  rows_of q (EnqueueHostAssignments now l reason t) = rows_of q t.
Proof.
  intros Hne Hl. unfold EnqueueHostAssignments. destruct (vec_empty l); [done|].
  revert t. induction Hl as [|a l Ha Hl IH]; intros t; [done|]. cbn [foldl]. rewrite IH.
  unfold enqueue_one, InsertAssignment. cbn [tbl_rows]. rewrite List.filter_app. cbn [List.filter].
  match goal with |- context [if on_plane q ?r then _ else _] =>
    assert (on_plane q r = false) as -> by (apply eqb_false; cbn; congruence) end.
  rewrite app_nil_r.
  apply update_other_plane; [done|]. intros r _ Hr. apply andb_prop in Hr as [Hr _]; apply andb_prop in Hr as [Hr _].
  apply (on_plane_other (ha_plane_name a)); [congruence|]. exact Hr.
Qed.

Lemma transition_other_plane now id status message t q :
  (forall r, r ∈ rows_of q t -> ha_id (row_data r) <> id) ->
  rows_of q (fst (TransitionClaimedHostAssignment now id status message t)) = rows_of q t.
Proof.
  intros H. apply (update_other_plane now (fun r => has_id id r && has_status Claimed r)); [done|].
  intros r Hr Hp. to_prop. unfold has_id in *. destruct (on_plane q r) eqn:E; [|done].
  exfalso. apply (H r); [by apply elem_of_filterb | lia].
Qed.

Lemma transition_ok now id status message t :
  table_ok t -> table_ok (fst (TransitionClaimedHostAssignment now id status message t)).
Proof. intros Hok. by apply (perform_good now (OpTransition id status message) t I). Qed.

Section reconcile.
Context (load_plane : string -> option PlaneRecord) (observations : list HostObservation) (now : Z).
Context (q : string) (t0 : Table).

(** A reconciliation step whose assignment is not one of [q]'s rows. *)
Lemma reconcile_step_other plane latest acc a :
  (forall r, r ∈ rows_of q t0 -> ha_id (row_data r) <> ha_id a) ->
  table_ok (fst acc) /\ rows_of q (fst acc) = rows_of q t0 ->
  table_ok (fst (reconcile_assignment observations now plane latest acc a)) /\
  rows_of q (fst (reconcile_assignment observations now plane latest acc a)) = rows_of q t0.
Proof.
  destruct acc as [t res]. cbn [fst]. intros Hid [Hok Hrows]. unfold reconcile_assignment.
  cbn [transition table_queue].
  assert (Ht : forall st m, table_ok (fst (TransitionClaimedHostAssignment now (ha_id a) st m t)) /\
    rows_of q (fst (TransitionClaimedHostAssignment now (ha_id a) st m t)) = rows_of q t0).
  { intros st m. split; [by apply transition_ok|].
    rewrite transition_other_plane; [done|]. by rewrite Hrows. }
  destruct (ShouldSupersedeClaimedAssignment a latest).
  { specialize (Ht Superseded superseded_message).
    by destruct (TransitionClaimedHostAssignment _ _ _ _ _). }
  destruct (ShouldMarkClaimedAssignmentApplied _ _ _); [|done].
  specialize (Ht Applied applied_message). by destruct (TransitionClaimedHostAssignment _ _ _ _ _).
Qed.

Lemma reconcile_other_plane p :
  p <> q -> table_ok t0 ->
  table_ok (fst (Reconcile load_plane observations now t0 (Some p))) /\
  rows_of q (fst (Reconcile load_plane observations now t0 (Some p))) = rows_of q t0.
Proof.
  intros Hne Hok. unfold Reconcile.
  set (claimed := LoadClaimedApplyAssignments t0 (Some p)).
  assert (Hc : forall a, a ∈ claimed -> forall r, r ∈ rows_of q t0 -> ha_id (row_data r) <> ha_id a).
  { intros a Ha r [Hr Hq]%elem_of_filterb Hid. unfold claimed in Ha.
    apply (elem_of_claimed load_plane t0 (Some p)) in Ha as (Hload & _ & _ & Hp); [|done].
    cbn [load_one table_queue] in Hload. apply load_Some in Hload as (r' & Hr' & <- & _).
    assert (r' = r) as -> by (by apply (row_unique t0)).
    unfold on_plane in Hq. rewrite eqb_true in Hq. specialize (Hp p eq_refl). congruence. }
  destruct (vec_empty claimed); [done|].
  assert (Hgen : forall planes acc, table_ok (fst acc) /\ rows_of q (fst acc) = rows_of q t0 ->
    let acc' := foldl (fun '(store, result) candidate =>
       let '(store, plane_result) := ReconcilePlane load_plane observations now store candidate claimed in
       (store, mkResult (res_applied result + res_applied plane_result)
                 (res_superseded result + res_superseded plane_result))) acc planes in
    table_ok (fst acc') /\ rows_of q (fst acc') = rows_of q t0).
  { induction planes as [|c planes IH]; intros [t res] Hacc; [done|]. cbn [foldl]. apply IH.
    destruct (ReconcilePlane load_plane observations now t c claimed) as [t' res'] eqn:E.
    cbn [fst] in *. assert (t' = fst (ReconcilePlane load_plane observations now t c claimed)) as ->
      by (by rewrite E).
    unfold ReconcilePlane. set (ms := List.filter _ claimed).
    assert (Hms : forall a, a ∈ ms -> a ∈ claimed) by (intros a [? _]%elem_of_filterb; done).
    clearbody ms. clear E IH.
    assert (Hfold : forall acc, table_ok (fst acc) /\ rows_of q (fst acc) = rows_of q t0 ->
      table_ok (fst (foldl (reconcile_assignment observations now (load_plane c)
        (BuildLatestAssignmentsByNode (load_many None None (Some c) t))) acc ms)) /\
      rows_of q (fst (foldl (reconcile_assignment observations now (load_plane c)
        (BuildLatestAssignmentsByNode (load_many None None (Some c) t))) acc ms)) = rows_of q t0).
    { induction ms as [|a ms IH]; intros acc Hac; [done|]. cbn [foldl]. apply IH.
      - intros b Hb. apply Hms. by right.
      - apply reconcile_step_other; [|done]. apply Hc, Hms. left. }
    by apply Hfold. }
  by apply Hgen.
Qed.
End reconcile.

(** ** Lemmas: the invariant *)

Lemma store_ok_assignments t s : store_ok s -> table_ok t -> store_ok (cs_with_assignments t s).
Proof. intros []. by constructor. Qed.

Lemma store_ok_scheduler t s :
  store_ok s -> actions_ok t ->
  map_Forall (fun k r => spr_plane_name r = k) (st_planes t) ->
  map_Forall (fun k r => swr_worker_name r = k) (st_workers t) ->
  map_Forall (fun k r => snr_node_name r = k) (st_nodes t) ->
  store_ok (cs_with_scheduler t s).
Proof. intros []. by constructor. Qed.

Lemma store_ok_update_plane f plane s :
  (forall p, plane_name (f p) = plane_name p) -> store_ok s -> store_ok (fst (update_plane f plane s)).
Proof.
  intros Hf Hok. unfold update_plane. destruct (cs_planes s !! plane) as [row|] eqn:E; [|done].
  destruct Hok as [Hp ? ? ? ? ? ? ?]. constructor; try done. cbn. apply map_Forall_insert_2; [|done].
  cbn. rewrite Hf. by apply (Hp plane row).
Qed.

Lemma store_ok_event now e s : store_ok s -> store_ok (AppendEvent now e s).
Proof. intros []. by constructor. Qed.

Lemma StronglySorted_filter {A} (R : A -> A -> Prop) (p : A -> bool) l :
  StronglySorted R l -> StronglySorted R (List.filter p l).
Proof.
  induction 1 as [|x l Hl IH Hx]; [constructor|]. cbn. destruct (p x); [|done].
  constructor; [done|]. rewrite Forall_forall in *. intros y [Hy _]%elem_of_filterb. auto.
Qed.


Lemma table_ok_filter p t :
  table_ok t -> table_ok (mkTable (List.filter p (tbl_rows t)) (tbl_sequence t)).
Proof.
  intros [Hs Hf]. split; cbn [tbl_rows tbl_sequence].
  - clear Hf. induction (tbl_rows t) as [|r l IH]; [constructor|]. rewrite fmap_cons in Hs.
    apply StronglySorted_inv in Hs as [Hs Hr]. cbn. destruct (p r); [|by apply IH].
    rewrite fmap_cons. constructor; [by apply IH|]. rewrite Forall_forall in *.
    intros x (r' & -> & [Hr' _]%elem_of_filterb)%list_elem_of_fmap. apply Hr.
    apply list_elem_of_fmap. eauto.
  - rewrite Forall_forall in *. intros r [Hr _]%elem_of_filterb. auto.
Qed.

Lemma map_Forall_filter_2 {V} (P : string -> V -> Prop) (Q : string * V -> Prop)
    `{forall x, Decision (Q x)} (m : gmap string V) :
  map_Forall P m -> map_Forall P (filter Q m).
Proof. intros H' k v [Hv _]%map_lookup_filter_Some. by apply H'. Qed.

Lemma store_ok_delete plane s : store_ok s -> store_ok (DeletePlane plane s).
Proof.
  intros [Hp Ht Ha Ho Hov Hr Hw Hn]. constructor; cbn.
  - by apply map_Forall_delete.
  - by apply table_ok_filter.
  - by apply (filter_actions_ok (fun a => ra_plane_name a !=? plane)) in Ha.
  - intros k o. rewrite lookup_fmap, fmap_Some. intros (o' & Ho' & ->). unfold forget_plane.
    destruct (obs_plane_name o' ==? plane); by apply (Ho k o').
  - done.
  - by apply map_Forall_delete.
  - by apply map_Forall_filter_2.
  - by apply map_Forall_filter_2.
Qed.

(** ** Triples

    [triple P m Q]: from a well-formed store in [P], program [m] ends in a
    well-formed store, whatever it throws, with everything of plane [q]
    unchanged, and in [Q] when it returns. *)

Section triples.
Context (q : string).

Definition triple {A} (P : ControllerStore -> Prop) (m : prog A) (Q : A -> ControllerStore -> Prop)
    : Prop :=
  forall s, store_ok s -> P s ->
    store_ok (fst (m s)) /\ plane_view q (fst (m s)) = plane_view q s /\
    forall a, snd (m s) = Ok a -> Q a (fst (m s)).

Lemma triple_bind {A B} P (m : prog A) Q (f : A -> prog B) R :
  triple P m Q -> (forall a, triple (Q a) (f a) R) -> triple P (m ≫= f) R.
Proof.
  intros Hm Hf s Hok HP. specialize (Hm s Hok HP). unfold mbind, prog_bind.
  destruct (m s) as [s' [a|e]]; cbn [fst snd] in *; destruct Hm as (Hok' & Hv & HQ).
  - destruct (Hf a s' Hok' (HQ a eq_refl)) as (H1 & H2 & H3). split; [done|]. by rewrite H2.
  - split; [done|]. split; [done|]. done.
Qed.

Lemma triple_ret {A} (P : ControllerStore -> Prop) (a : A) (Q : A -> ControllerStore -> Prop) :
  (forall s, P s -> Q a s) -> triple P (mret a) Q.
Proof. intros H s Hok HP. split; [done|]. split; [done|]. intros a' [= <-]. by apply H. Qed.

Lemma triple_throw {A} P e (Q : A -> ControllerStore -> Prop) : triple P (throw e) Q.
Proof. intros s Hok HP. split; [done|]. split; [done|]. done. Qed.

(** Programs that only look. *)
Lemma triple_look {A} (P : ControllerStore -> Prop) (f : ControllerStore -> result A)
    (Q : A -> ControllerStore -> Prop) :
  (forall s a, P s -> f s = Ok a -> Q a s) -> triple P (fun s => (s, f s)) Q.
Proof. intros H s Hok HP. split; [done|]. split; [done|]. intros a Ha. by apply H. Qed.

Lemma triple_modify (P : ControllerStore -> Prop) f (Q : unit -> ControllerStore -> Prop) :
  (forall s, store_ok s -> P s ->
     store_ok (f s) /\ plane_view q (f s) = plane_view q s /\ Q tt (f s)) ->
  triple P (modify f) Q.
Proof. intros H s Hok HP. destruct (H s Hok HP) as (?&?&?). split_and!; try done. by intros [] _. Qed.

Lemma triple_pre {A} (P P' : ControllerStore -> Prop) (m : prog A) Q :
  (forall s, P s -> P' s) -> triple P' m Q -> triple P m Q.
Proof. intros HP Hm s Hok H. apply Hm; auto. Qed.

Lemma triple_post {A} P (m : prog A) (Q Q' : A -> ControllerStore -> Prop) :
  (forall a s, Q a s -> Q' a s) -> triple P m Q -> triple P m Q'.
Proof. intros HQ Hm s Hok H. destruct (Hm s Hok H) as (?&?&?). split_and!; auto. Qed.
End triples.

(** ** Isolation *)

Section isolation.
Context (p q : string) (Hpq : p <> q) (Hp : p <> "") (Hq : q <> "").

Lemma view_assignments_other t s :
  rows_of q t = rows_of q (cs_assignments s) ->
  plane_view q (cs_with_assignments t s) = plane_view q s.
Proof. intros H. unfold plane_view. cbn. by rewrite H. Qed.

Lemma view_update_plane f s : plane_view q (fst (update_plane f p s)) = plane_view q s.
Proof.
  unfold update_plane. destruct (cs_planes s !! p); [|done]. unfold plane_view. cbn.
  by rewrite lookup_insert_ne.
Qed.

Lemma view_event now e s :
  ev_plane_name e <> q -> plane_view q (AppendEvent now e s) = plane_view q s.
Proof.
  intros He. unfold plane_view, AppendEvent. cbn [cs_planes cs_assignments cs_scheduler cs_observations
    cs_disk_runtime cs_events cs_with_events]. f_equal. rewrite List.filter_app. cbn [List.filter].
  cbn [ev_plane_name]. by rewrite (proj2 (eqb_false _ _) He), app_nil_r.
Qed.

Lemma view_replace_actions generation actions s :
  plane_view q (cs_with_scheduler (ReplaceRolloutActions p generation actions (cs_scheduler s)) s) =
  plane_view q s.
Proof.
  destruct (replace_actions_frame p generation actions (cs_scheduler s)) as (H1 & H2 & H3).
  unfold plane_view. cbn [cs_planes cs_assignments cs_scheduler cs_observations
    cs_disk_runtime cs_events cs_with_scheduler]. rewrite H1, H2, H3. f_equal.
  rewrite replace_actions_rows, List.filter_app.
  rewrite filter_filter_implied.
  - rewrite (filter_nil _ (imap _ _)); [by rewrite app_nil_r|].
    intros a (i & x & -> & _)%elem_of_lookup_imap. apply eqb_false. done.
  - intros a Ha. apply negb_true_iff. by apply (eqb_other p q).
Qed.

Lemma view_clear_runtime s :
  plane_view q (cs_with_scheduler (ClearSchedulerPlaneRuntime p (cs_scheduler s)) s) = plane_view q s.
Proof. unfold plane_view. cbn. by rewrite lookup_delete_ne. Qed.

Context `{Lib : !JsonLibrary} (now : Z).

Lemma triple_update_state P state (Q : bool -> ControllerStore -> Prop) :
  (forall s, P s -> Q (snd (UpdatePlaneState p state s)) (fst (UpdatePlaneState p state s))) ->
  triple q P (update_state p state) Q.
Proof.
  intros H s Hok HP. specialize (H s HP). unfold update_state.
  destruct (UpdatePlaneState p state s) as [s' b] eqn:E.
  assert (s' = fst (UpdatePlaneState p state s)) as Hs' by (by rewrite E). cbn [fst snd] in *.
  split; [rewrite Hs'; by apply store_ok_update_plane|].
  split; [rewrite Hs'; apply view_update_plane|]. by intros b' [= <-].
Qed.

Lemma triple_enqueue P l reason (Q : unit -> ControllerStore -> Prop) :
  (forall s, P s -> Forall (fun a => ha_plane_name a = p /\ within_budget a) l) ->
  (forall s, P s -> Q tt (cs_with_assignments (EnqueueHostAssignments now l reason (cs_assignments s)) s)) ->
  triple q P (on_assignments (EnqueueHostAssignments now l reason)) Q.
Proof.
  intros Hl HQ. apply triple_modify. intros s Hok HP. specialize (Hl s HP).
  split_and!; [|..|by apply HQ].
  - apply store_ok_assignments; [done|].
    apply (perform_good now (OpEnqueue l reason) (cs_assignments s)); [|apply Hok].
    cbn. eapply Forall_impl; [exact Hl|]. by intros a [_ ?].
  - apply view_assignments_other. apply (enqueue_other_plane now p); [done|].
    eapply Forall_impl; [exact Hl|]. by intros a [? _].
Qed.

Lemma triple_reconcile P (Q : unit -> ControllerStore -> Prop) :
  (forall s t, P s -> Q tt (cs_with_assignments t s)) -> triple q P (reconcile now p) Q.
Proof.
  intros HQ. apply triple_modify. intros s Hok HP.
  destruct (reconcile_other_plane (fun name => LoadPlane name s) (LoadHostObservations None None s) now q
    (cs_assignments s) p Hpq (ok_assignments s Hok)) as [H1 H2].
  split_and!; [by apply store_ok_assignments | by apply view_assignments_other | by apply HQ].
Qed.

Lemma triple_event P event_type message payload name (Q : unit -> ControllerStore -> Prop) :
  name <> q -> (forall s e, P s -> Q tt (AppendEvent now e s)) ->
  triple q P (AppendPlaneEvent now event_type message payload name) Q.
Proof.
  intros Hn HQ. unfold AppendPlaneEvent. apply triple_bind with (Q := fun _ => P).
  - apply triple_look. done.
  - intros text. apply triple_modify. intros s Hok HP.
    split_and!; [by apply store_ok_event | by apply view_event | by apply HQ].
Qed.

Lemma triple_supersede P message (Q : Z -> ControllerStore -> Prop) :
  (forall s t n, P s -> Q n (cs_with_assignments t s)) ->
  triple q P (supersede_plane now p message) Q.
Proof.
  intros HQ s Hok HP. unfold supersede_plane.
  destruct (SupersedeHostAssignmentsForPlane now p message (cs_assignments s)) as [t n] eqn:E.
  assert (t = fst (SupersedeHostAssignmentsForPlane now p message (cs_assignments s))) as Ht
    by (by rewrite E). cbn [fst snd]. split_and!; [| |by intros; apply HQ].
  - apply store_ok_assignments; [done|]. rewrite Ht.
    apply (perform_good now (OpSupersedePlane p message) (cs_assignments s) I), Hok.
  - apply view_assignments_other. rewrite Ht. by apply supersede_other_plane.
Qed.
End isolation.

(** *** What the builders produce *)

Lemma collectR_Forall {A B} (body : A -> result (option B)) (P : B -> Prop) l ys :
  (forall x y, body x = Ok (Some y) -> P y) -> collectR body l = Ok ys -> Forall P ys.
Proof.
  intros Hb (os & Hos & ->)%collectR_Ok. induction Hos as [|x o l os Ho Hos IH]; [constructor|].
  destruct o as [y|]; cbn; [|done]. constructor; [by eapply Hb | done].
Qed.

Section builders.
Context `{Lib : !JsonLibrary}.

Definition fresh_for (plane : string) (a : HostAssignment) : Prop :=
  ha_plane_name a = plane /\ within_budget a.

Lemma new_assignment_fresh node plane gen type text root message :
  fresh_for plane (new_assignment node plane gen type text root message).
Proof. split; [done|]. unfold within_budget. cbn. lia. Qed.

Lemma build_host_fresh now stale s root gen overrides observations report l :
  BuildHostAssignments now stale s root gen overrides observations report = Ok l ->
  Forall (fresh_for (ds_plane_name s)) l.
Proof.
  intros H. unfold BuildHostAssignments in H. eapply collectR_Forall; [|exact H].
  intros x y Hy. cbv beta in Hy. bind_inv. destruct (negb _); bind_inv; [done|].
  apply new_assignment_fresh.
Qed.

Lemma build_stop_fresh s root gen overrides l :
  BuildStopPlaneAssignments s gen root overrides = Ok l -> Forall (fresh_for (ds_plane_name s)) l.
Proof.
  intros H. unfold BuildStopPlaneAssignments in H. eapply collectR_Forall; [|exact H].
  intros x y Hy. cbv beta in Hy. destruct (negb _); bind_inv; [done|].
  apply new_assignment_fresh.
Qed.

Lemma build_delete_fresh s root gen l :
  BuildDeletePlaneAssignments s gen root = Ok l -> Forall (fresh_for (ds_plane_name s)) l.
Proof.
  intros H. apply mapR_Forall2 in H. induction H as [|x y l l' Hy _ IH]; [constructor|].
  cbv beta in Hy. bind_inv. constructor; [apply new_assignment_fresh | done].
Qed.

Context (render : json -> result DesiredState).

(** The documents of a plane's assignments are states of that plane. *)
Definition documents_named (plane : string) (l : list HostAssignment) : Prop :=
  forall a state, a ∈ l -> ha_plane_name a = plane ->
    DeserializeDesiredStateJson render (ha_desired_state_json a) = Ok state ->
    ds_plane_name state = plane.

Lemma latest_by_node_elem l plane (m : gmap string HostAssignment) k a :
  foldl (fun result a => if ha_plane_name a !=? plane then result
                         else <[ha_node_name a := a]> result) m l !! k = Some a ->
  m !! k = Some a \/ a ∈ l /\ ha_plane_name a = plane.
Proof.
  revert m. induction l as [|x l IH]; intros m; cbn [foldl]; [by left|].
  intros H. apply IH in H as [H|[H1 H2]]; [|right; split; [by right|done]].
  destruct (ha_plane_name x !=? plane) eqn:E; [by left|]. to_prop.
  apply lookup_insert_Some in H as [[_ ->]|[_ H]]; [|by left]. right. split; [left|done].
Qed.

Lemma cleanup_fresh l s gen root :
  documents_named (ds_plane_name s) l ->
  Forall (fresh_for (ds_plane_name s)) (BuildRemovedNodeCleanupAssignments render l s gen root).
Proof.
  intros Hdoc. unfold BuildRemovedNodeCleanupAssignments. apply Forall_bind.
  apply Forall_forall. intros [node a] Ha. apply elem_of_map_items in Ha.
  apply latest_by_node_elem in Ha as [Ha|[Ha Hp]]; [by rewrite lookup_empty in Ha|].
  unfold compose. cbv beta iota. case_match; [constructor|].
  destruct (DeserializeDesiredStateJson render (ha_desired_state_json a)) as [st|] eqn:E; [|constructor].
  destruct (negb _); [constructor|].
  destruct (BuildDeletePlaneAssignments st gen root) as [l'|] eqn:E'; [|constructor].
  apply build_delete_fresh in E'. by rewrite (Hdoc a st Ha Hp E) in E'.
Qed.
End builders.

(** *** The services *)

Section services.
Context `{Lib : !JsonLibrary} (render : json -> result DesiredState)
  (load_relational : string -> ControllerStore -> result DesiredState)
  (prepare : ControllerStore -> DesiredState -> result DesiredState)
  (default_root : string) (stale : Z) (now : Z).
Context (p q : string) (Hpq : p <> q) (Hp : p <> "") (Hq : q <> "").
(** Admission keeps the name of the plane. *)
Context (Hprepare : forall s st st', prepare s st = Ok st' -> ds_plane_name st' = ds_plane_name st).

(** The documents kept under a plane's name are states of that plane. *)
Definition named_documents (s : ControllerStore) : Prop :=
  (forall st, LoadDesiredState render load_relational p s = Ok (Some st) -> ds_plane_name st = p) /\
  documents_named render p (LoadHostAssignments None None (Some p) (cs_assignments s)).

(** The state column of the plane. *)
Definition state_of (plane : string) (s : ControllerStore) : option string :=
  plane_state <$> LoadPlane plane s.

Lemma updated_state state s :
  snd (UpdatePlaneState p state s) = true -> state_of p (fst (UpdatePlaneState p state s)) = Some state.
Proof.
  unfold UpdatePlaneState, update_plane, state_of, LoadPlane.
  destruct (cs_planes s !! p); [|done]. intros _. cbn. by rewrite lookup_insert_eq.
Qed.

Lemma finalize_isolated :
  triple q (fun _ => True) (FinalizeDeletedPlaneIfReady render now p)
    (fun b s => b = true -> state_of p s = None).
Proof.
  unfold FinalizeDeletedPlaneIfReady. eapply triple_bind; [by apply triple_look with (Q := fun _ _ => True)|].
  intros [plane|]; [|by apply triple_ret]. destruct (_ !=? _); [by apply triple_ret|].
  eapply triple_bind; [by apply triple_look with (Q := fun _ _ => True)|]. intros []; [|by apply triple_ret].
  eapply triple_bind with (Q := fun _ s => state_of p s = None).
  { apply triple_modify. intros s Hok _. split; [by apply store_ok_delete|].
    split; [by apply delete_plane_view|]. unfold state_of, LoadPlane. cbn. by rewrite lookup_delete_eq. }
  intros _. eapply triple_bind with (Q := fun _ s => state_of p s = None); [by apply triple_event|].
  intros _. by apply triple_ret.
Qed.

(** The plane's row is the one that was loaded. *)
Definition loaded (plane : option PlaneRecord) (s : ControllerStore) : Prop := LoadPlane p s = plane.

Lemma start_isolated :
  triple q named_documents (StartPlane render load_relational prepare default_root stale now p)
    (fun _ s => state_of p s = Some "running").
Proof.
  unfold StartPlane. eapply triple_bind.
  { apply triple_look with (Q := fun plane s => named_documents s /\ loaded plane s).
    by intros s plane Hs [= <-]. }
  intros plane. eapply triple_bind.
  { apply triple_look with (Q := fun st s => (named_documents s /\ loaded plane s) /\
      forall st', st = Some st' -> ds_plane_name st' = p).
    intros s st Hs Hst. split; [done|]. intros st' ->. by apply Hs. }
  intros st. destruct plane as [plane|]; [|apply triple_throw].
  destruct st as [st|]; [|apply triple_throw].
  eapply triple_bind.
  { apply triple_look with (Q := fun st' s => (named_documents s /\ loaded (Some plane) s) /\
      ds_plane_name st' = p).
    intros s st' [Hs Hn] Hst. split; [done|]. rewrite (Hprepare _ _ _ Hst). by apply Hn. }
  clear st. intros st. cbv zeta. destruct (_ && negb _) eqn:Erun.
  { apply triple_ret. intros s [[_ Hl] _]. apply andb_prop in Erun as [Erun _]. rewrite eqb_true in Erun.
    unfold state_of. rewrite Hl. cbn. by rewrite Erun. }
  set (R := fun s => documents_named render p (LoadHostAssignments None None (Some p) (cs_assignments s))
    /\ ds_plane_name st = p /\ state_of p s = Some "running").
  eapply triple_bind with (Q := fun b s => b = true -> R s).
  { destruct (_ !=? _) eqn:Est.
    - apply triple_update_state; [done|]. intros s [[[_ Hd] Hl] Hn] Hb. split_and!; [|done|].
      + unfold UpdatePlaneState, update_plane. by destruct (cs_planes s !! p).
      + by apply updated_state.
    - apply triple_ret. intros s [[[_ Hd] Hl] Hn] _. split_and!; [done..|]. to_prop.
      unfold state_of. rewrite Hl. cbn. by rewrite Est. }
  intros []; [|apply triple_throw]. cbn [negb].
  eapply triple_bind; [apply triple_look with (Q := fun _ => R); auto|]. intros overrides.
  eapply triple_bind; [apply triple_look with (Q := fun _ => R); done|]. intros observations.
  eapply triple_bind; [apply triple_look with (Q := fun _ => R); done|]. intros root.
  eapply triple_bind with (Q := fun _ => R).
  { apply triple_modify. intros s Hok (Hd & Hn & Hs). rewrite Hn. split_and!.
    - destruct (replace_actions_frame p (plane_generation plane)
        (rep_rollout_actions (EvaluateSchedulingPolicy st)) (cs_scheduler s)) as (F1 & F2 & F3).
      apply store_ok_scheduler; rewrite ?F1, ?F2, ?F3; try apply Hok. apply replace_actions_ok, Hok.
    - by apply view_replace_actions.
    - done. }
  intros _. set (running := fun s => state_of p s = Some "running").
  eapply triple_bind.
  { apply triple_look with (Q := fun l s => R s /\ Forall (fresh_for p) l).
    intros s l (Hd & Hn & Hs) Hl. split; [done|]. apply build_host_fresh in Hl. by rewrite Hn in Hl. }
  intros l. eapply triple_bind.
  { apply triple_look with (Q := fun existing s => Forall (fresh_for p) l /\
      documents_named render p existing /\ ds_plane_name st = p /\ running s).
    by intros s existing [(Hd & Hn & Hs) Hl] [= <-]. }
  intros existing.
  eapply triple_bind with (Q := fun _ => running).
  { apply (triple_enqueue p); [done| |by intros s (_ & _ & _ & ?)]. intros s (Hl & Hd & Hn & _).
    apply Forall_app. split; [done|]. rewrite <-Hn in Hd. apply (cleanup_fresh render existing st
      (plane_generation plane) root) in Hd. by rewrite Hn in Hd. }
  intros _. eapply triple_bind with (Q := fun _ => running); [by apply triple_reconcile|].
  intros _. eapply triple_bind with (Q := fun _ => running); [by apply triple_event|].
  intros _. by apply triple_ret.
Qed.

Lemma stop_isolated :
  triple q named_documents (StopPlane render load_relational default_root now p)
    (fun _ s => state_of p s = Some "stopped").
Proof.
  unfold StopPlane. eapply triple_bind.
  { apply triple_look with (Q := fun plane s => named_documents s /\ loaded plane s).
    by intros s plane Hs [= <-]. }
  intros plane. eapply triple_bind.
  { apply triple_look with (Q := fun st s => loaded plane s /\
      forall st', st = Some st' -> ds_plane_name st' = p).
    intros s st [Hs Hl] Hst. split; [done|]. intros st' ->. by apply Hs. }
  intros st. destruct plane as [plane|]; [|apply triple_throw].
  destruct st as [st|]; [|apply triple_throw].
  destruct (_ ==? _) eqn:E.
  { apply triple_ret. intros s [Hl _]. rewrite eqb_true in E. unfold state_of. rewrite Hl. cbn.
    by rewrite E. }
  set (R := fun _ : ControllerStore => ds_plane_name st = p).
  eapply triple_bind with (Q := fun _ => R);
    [apply triple_supersede; [done|]; intros s t n [_ Hst]; by apply Hst|].
  intros n. eapply triple_bind; [apply triple_look with (Q := fun _ => R); done|]. intros overrides.
  eapply triple_bind; [apply triple_look with (Q := fun _ => R); done|]. intros root.
  eapply triple_bind.
  { apply triple_look with (Q := fun l _ => Forall (fresh_for p) l).
    intros s l Hn Hl. apply build_stop_fresh in Hl. unfold R in Hn. by rewrite Hn in Hl. }
  intros l. eapply triple_bind with (Q := fun _ _ => True); [by apply (triple_enqueue p)|].
  intros _. eapply triple_bind with (Q := fun _ _ => True); [by apply triple_reconcile|].
  intros _. eapply triple_bind with (Q := fun b s => b = true -> state_of p s = Some "stopped");
    [apply triple_update_state; [done|]; intros s _; apply updated_state|].
  intros []; [|apply triple_throw]. cbn [negb].
  eapply triple_bind with (Q := fun _ s => state_of p s = Some "stopped");
    [apply triple_event; [done|]; auto|].
  intros _. by apply triple_ret.
Qed.

Lemma delete_isolated :
  triple q named_documents (RequestDeletePlane render load_relational default_root now p)
    (fun _ s => state_of p s = None \/ state_of p s = Some "deleting").
Proof.
  unfold RequestDeletePlane.
  eapply triple_bind; [apply triple_look with (Q := fun _ => named_documents); done|].
  intros plane. eapply triple_bind.
  { apply triple_look with (Q := fun st _ => forall st', st = Some st' -> ds_plane_name st' = p).
    intros s st Hs Hst st' ->. by apply Hs. }
  intros st. destruct plane as [plane|]; [|apply triple_throw].
  destruct st as [st|]; [|apply triple_throw].
  set (R := fun _ : ControllerStore => ds_plane_name st = p).
  apply (triple_pre q _ R); [intros s Hst; by apply Hst|].
  intros s Hok Hst. unfold R in Hst. match goal with |- context [fst (?m s)] =>
    cut (triple q (fun _ => True) m (fun _ s => state_of p s = None \/ state_of p s = Some "deleting"));
    [intros H; by apply H|] end. clear s Hok R.
  eapply triple_bind with (Q := fun b s => b = true -> state_of p s = None).
  { destruct (_ ==? _); [apply finalize_isolated | by apply triple_ret]. }
  intros []; [apply triple_ret; auto|].
  eapply triple_bind with (Q := fun _ _ => True); [by apply triple_supersede|]. intros n.
  eapply triple_bind; [by apply triple_look with (Q := fun _ _ => True)|]. intros root.
  eapply triple_bind with (Q := fun b s => b = true -> state_of p s = Some "deleting");
    [apply triple_update_state; [done|]; intros s _; apply updated_state|].
  intros []; [|apply triple_throw]. cbn [negb]. cbv zeta.
  set (deleting := fun s => state_of p s = Some "deleting").
  eapply triple_bind with (Q := fun _ => deleting).
  { apply triple_modify. intros s Hok Hd. split_and!; [|by apply view_replace_actions|by apply Hd].
    destruct (replace_actions_frame p (plane_generation plane) [] (cs_scheduler s)) as (F1 & F2 & F3).
    apply store_ok_scheduler; rewrite ?F1, ?F2, ?F3; try apply Hok. apply replace_actions_ok, Hok. }
  intros _. eapply triple_bind with (Q := fun _ => deleting).
  { apply triple_modify. intros s Hok Hd. split_and!; [|by apply view_clear_runtime|done].
    apply store_ok_scheduler; try apply Hok. cbn. apply map_Forall_delete, Hok. }
  intros _. eapply triple_bind.
  { apply triple_look with (Q := fun l s => Forall (fresh_for p) l /\ deleting s).
    intros s l Hd Hl. split; [|done]. apply build_delete_fresh in Hl. cbn in Hl. by rewrite Hst in Hl. }
  intros l. eapply triple_bind with (Q := fun _ => deleting);
    [apply (triple_enqueue p); [done|by intros s [? _]|by intros s [_ ?]]|].
  intros _. eapply triple_bind with (Q := fun _ => deleting); [by apply triple_reconcile|].
  intros _. eapply triple_bind with (Q := fun _ => deleting); [by apply triple_event|].
  intros _. apply triple_ret. auto.
Qed.
End services.

(** ** Properties *)

(** C18. Life cycle.  Whatever the outcome, starting, stopping or deleting a plane
    leaves the store well-formed and everything it holds of any other plane as
    it was: its row, assignments, rollout actions, scheduler state, observations,
    disks and events.  A start that succeeds leaves the plane running, a stop
    leaves it stopped, a deletion leaves it marked for deletion or gone. *)
Theorem plane_lifecycle `{Lib : !JsonLibrary} render load_relational prepare root stale now p q s :
  p <> q -> p <> "" -> q <> "" ->
  (forall s st st', prepare s st = Ok st' -> ds_plane_name st' = ds_plane_name st) ->
  store_ok s -> named_documents render load_relational p s ->
  let start := StartPlane render load_relational prepare root stale now p s in
  let stop := StopPlane render load_relational root now p s in
  let remove := RequestDeletePlane render load_relational root now p s in
  (forall run, run ∈ [start; stop; remove] ->
     store_ok (fst run) /\ plane_view q (fst run) = plane_view q s) /\
  (is_ok (snd start) = true -> state_of p (fst start) = Some "running") /\
  (is_ok (snd stop) = true -> state_of p (fst stop) = Some "stopped") /\
  (is_ok (snd remove) = true ->
     state_of p (fst remove) = None \/ state_of p (fst remove) = Some "deleting").
Proof.
  intros Hpq Hp Hq Hprep Hok Hdoc start stop remove.
  destruct (start_isolated render load_relational prepare root stale now p q Hpq Hprep s Hok Hdoc)
    as (A1 & A2 & A3).
  destruct (stop_isolated render load_relational root now p q Hpq s Hok Hdoc) as (B1 & B2 & B3).
  destruct (delete_isolated render load_relational root now p q Hpq Hp Hq s Hok Hdoc) as (C1 & C2 & C3).
  split_and!.
  - intros run Hrun. rewrite !elem_of_cons, elem_of_nil in Hrun.
    destruct Hrun as [->|[->|[->|[]]]]; done.
  - intros H. fold start in A3. destruct (snd start) eqn:E; [by eapply A3 | done].
  - intros H. fold stop in B3. destruct (snd stop) eqn:E; [by eapply B3 | done].
  - intros H. fold remove in C3. destruct (snd remove) eqn:E; [by eapply C3 | done].
Qed.

(** C33. Deletion completes.  A plane leaves the registry only when it is marked
    for deletion and its clean-up is over (no assignment of it pending or
    claimed, no host showing anything of it); then none of its rows is left among
    the planes, the assignments, the rollout actions, the scheduler's rows of
    planes, workers and nodes, the disks and the events, and no observation names it
    (the tables of sessions and of their log, which also name planes, are not
    cleared).
    Conversely, once that is so and events can be written, the next look at the
    plane removes it. *)
Theorem deletion_completes `{Lib : !JsonLibrary} render now p s :
  p <> "" ->
  let cleaned :=
    (exists plane, LoadPlane p s = Some plane /\ plane_state plane = "deleting") /\
    (forall r, r ∈ tbl_rows (cs_assignments s) -> ha_plane_name (row_data r) = p ->
       ha_status (row_data r) <> Pending /\ ha_status (row_data r) <> Claimed) /\
    (forall o, o ∈ LoadHostObservations None None s -> clear_of render o p) in
  let run := FinalizeDeletedPlaneIfReady render now p s in
  (snd run = Ok true -> cleaned /\ plane_view p (fst run) = empty_view) /\
  (snd run = Ok false -> fst run = s) /\
  (cleaned -> (forall payload, is_ok (dump payload) = true) -> snd run = Ok true).
Proof.
  intros Hp cleaned run. unfold run, FinalizeDeletedPlaneIfReady, read, mbind, prog_bind.
  destruct (LoadPlane p s) as [plane|] eqn:El.
  2:{ split_and!; [done|done|]. by intros [(x & [=] & _) _]. }
  destruct (plane_state plane !=? "deleting") eqn:Est; to_prop.
  { split_and!; [done|done|]. intros [(x & [= <-] & Hx) _]. done. }
  destruct (CanFinalizeDeletedPlane render (cs_assignments s) (LoadHostObservations None None s) p)
    as [[]|e] eqn:Ec; cbn [negb].
  - assert (Hclean : cleaned) by (split; [eauto|]; by apply finalize_condition).
    unfold modify, AppendPlaneEvent, lift, mbind, prog_bind. cbn [mret prog_ret].
    destruct (dump _) as [text|e] eqn:Ed; cbn [fst snd].
    + split_and!; [|done|done]. intros _. split; [done|].
      etrans; [|exact (proj1 (delete_plane_view p s Hp))].
      eapply (view_event p now (mkEventRecord 0 "" "" "" None None "plane" "deleted" "info" _ text "")
        (DeletePlane p s)). cbn. congruence.
    + split_and!; [done|done|]. intros _ Hdump.
      match type of Ed with dump ?payload = _ => specialize (Hdump payload) end. by rewrite Ed in Hdump.
  - split_and!; [done|done|]. intros (_ & H). rewrite <-(finalize_condition render) in H. congruence.
  - split_and!; [done|done|]. intros (_ & H). rewrite <-(finalize_condition render) in H. congruence.
Qed.

(** ** Witnesses *)

Definition fx_row (state : string) : PlaneRow :=
  mkPlaneRow (mkPlaneRecord "demo" "shared" "/naim/shared/control/demo" "/artifacts" "llm" 2 1 0 state "") "".
Definition fx_store (state : string) : ControllerStore :=
  cs_with_planes {["demo" := fx_row state]} empty_store.
Definition fx_relational (_ : string) (_ : ControllerStore) : result DesiredState := Ok fx_decoded.

Lemma fx_store_ok state : store_ok (fx_store state).
Proof.
  constructor; cbn; try apply map_Forall_empty.
  - by apply map_Forall_singleton.
  - split; constructor.
  - apply actions_ok_empty.
Qed.

Lemma fx_store_documents state :
  named_documents (Lib:=tree_json) no_render fx_relational "demo" (fx_store state).
Proof.
  split.
  - intros st H. unfold LoadDesiredState, LoadDesiredStateFromJson in H. cbn [cs_planes fx_store cs_with_planes] in H.
    rewrite lookup_singleton_eq in H. cbn in H. by injection H as <-.
  - intros a st Ha. by apply elem_of_nil in Ha.
Qed.

Lemma plane_lifecycle_witness :
  let stop := StopPlane (Lib:=tree_json) no_render fx_relational "/artifacts" 0 "demo" (fx_store "running") in
  store_ok (fst stop) /\ plane_view "other" (fst stop) = empty_view.
Proof.
  destruct (plane_lifecycle (Lib:=tree_json) no_render fx_relational (fun _ st => Ok st) "/artifacts" 300 0
    "demo" "other" (fx_store "running")) as (H & _).
  - discriminate.
  - discriminate.
  - discriminate.
  - by intros s st st' [= <-].
  - apply fx_store_ok.
  - apply fx_store_documents.
  - cbv zeta. apply H. right. left.
Defined.

Lemma deletion_completes_witness :
  snd (FinalizeDeletedPlaneIfReady (Lib:=tree_json) no_render 0 "demo" (fx_store "deleting")) = Ok true.
Proof.
  apply (deletion_completes (Lib:=tree_json) no_render 0 "demo" (fx_store "deleting")).
  - discriminate.
  - split; [eexists; split; reflexivity|]. split.
    + intros r Hr. by apply elem_of_nil in Hr.
    + intros o Ho. by apply elem_of_nil in Ho.
  - intros payload. reflexivity.
Defined.
