(* ===== verification/SchedulerView.v ===== *)
(** * Views of the scheduler

    [controller/include/scheduler/scheduler_view_service.h] and
    [controller/src/scheduler/scheduler_view_service.cpp]: the records that the
    scheduler's services exchange, the summaries of a rebalance plan, their JSON
    documents and their text.  A counter of a summary and the list of workers it
    counts are one [Tally].  Output streams are the text written. *)

From S2P Require Import Prelude Binary64 Json Models AssignmentStore SchedulingPolicy SchedulerStore.

(** ** Records *)

Inductive SchedulerRolloutPhase :=
  | Planned | EvictionEnqueued | EvictionApplied | RetryReady | RetryMaterialized
  | HostFailed | HostStale | RuntimeFailed | RolloutApplied.
#[export] Instance SchedulerRolloutPhase_eq_dec : EqDecision SchedulerRolloutPhase.
Proof. solve_decision. Defined.

Definition SchedulerRolloutPhase_ToString (phase : SchedulerRolloutPhase) : string :=
  match phase with
  | Planned => "planned"
  | EvictionEnqueued => "eviction-enqueued"
  | EvictionApplied => "eviction-applied"
  | RetryReady => "retry-ready"
  | RetryMaterialized => "retry-materialized"
  | HostFailed => "host-failed"
  | HostStale => "host-stale"
  | RuntimeFailed => "runtime-failed"
  | RolloutApplied => "rollout-applied"
  end.

Record RolloutLifecycleEntry := mkRolloutLifecycleEntry {
  rle_worker_name : string;
  rle_desired_generation : Z;
  rle_phase : SchedulerRolloutPhase;
  rle_action_id : option Z;
  rle_target_node_name : string;
  rle_target_gpu_device : string;
  rle_victim_worker_names : list string;
  rle_detail : string;
}.

Record RebalancePlanEntry := mkRebalancePlanEntry {
  rpe_worker_name : string;
  rpe_placement_mode : PlacementMode;
  rpe_current_node_name : string;
  rpe_current_gpu_device : string;
  rpe_target_node_name : string;
  rpe_target_gpu_device : string;
  rpe_rebalance_class : string;
  rpe_decision : string;
  rpe_state : string;
  rpe_action : string;
  rpe_score : Z;
  rpe_preemption_required : bool;
  rpe_victim_worker_names : list string;
  rpe_gate_reason : string;
}.

(** A counter [x_count] with its list [x_workers]. *)
Record Tally := mkTally { tally_count : Z; tally_workers : list string }.
Definition empty_tally : Tally := mkTally 0 [].
Definition tally (worker_name : string) (t : Tally) : Tally :=
  mkTally (tally_count t + 1) (tally_workers t ++ [worker_name]).

Record RebalancePolicySummary := mkRebalancePolicySummary {
  sum_actionable : Tally;
  sum_safe_direct : Tally;
  sum_rollout_class : Tally;
  sum_gated : Tally;
  sum_blocked_active_rollout : Tally;
  sum_assignment_busy : Tally;
  sum_observation_gated : Tally;
  sum_stable_hold : Tally;
  sum_below_threshold : Tally;
  sum_propose : Tally;
  sum_hold : Tally;
  sum_defer : Tally;
  sum_no_candidate : Tally;
}.
Definition RebalancePolicySummary_default : RebalancePolicySummary :=
  mkRebalancePolicySummary empty_tally empty_tally empty_tally empty_tally empty_tally empty_tally
    empty_tally empty_tally empty_tally empty_tally empty_tally empty_tally empty_tally.

Record RebalanceControllerGateSummary := mkRebalanceControllerGateSummary {
  gate_cluster_ready : bool;
  gate_active_rollout_count : Z;
  gate_blocking_assignment_count : Z;
  gate_unconverged_node_count : Z;
  gate_active_rollout_workers : list string;
  gate_blocking_assignment_nodes : list string;
  gate_unconverged_nodes : list string;
}.

Record RebalanceIterationBudgetSummary := mkRebalanceIterationBudgetSummary {
  budget_current_iteration : Z;
  budget_max_iterations : Z;
  budget_exhausted : bool;
}.

Record RebalanceLoopStatusSummary := mkRebalanceLoopStatusSummary {
  loop_state : string;
  loop_reason : string;
}.

Record SchedulerRuntimeView := mkSchedulerRuntimeView {
  srv_plane_runtime : option SchedulerPlaneRuntime;
  srv_worker_runtime_by_name : gmap string SchedulerWorkerRuntime;
  srv_node_runtime_by_name : gmap string SchedulerNodeRuntime;
}.
Definition SchedulerRuntimeView_default : SchedulerRuntimeView := mkSchedulerRuntimeView None ∅ ∅.

Record RolloutActionsViewData := mkRolloutActionsViewData {
  rav_db_path : string;
  rav_plane_name : option string;
  rav_node_name : option string;
  rav_desired_state : option DesiredState;
  rav_desired_generation : option Z;
  rav_actions : list RolloutActionRecord;
  rav_scheduler_runtime : option SchedulerRuntimeView;
  rav_lifecycle : list RolloutLifecycleEntry;
  rav_gated_worker_count : Z;
  rav_gated_node_count : Z;
}.

Record RebalancePlanViewData := mkRebalancePlanViewData {
  rpv_db_path : string;
  rpv_plane_name : option string;
  rpv_node_name : option string;
  rpv_stale_after_seconds : Z;
  rpv_desired_state : option DesiredState;
  rpv_desired_generation : Z;
  rpv_rebalance_entries : list RebalancePlanEntry;
  rpv_controller_gate_summary : RebalanceControllerGateSummary;
  rpv_iteration_budget_summary : RebalanceIterationBudgetSummary;
  rpv_policy_summary : RebalancePolicySummary;
  rpv_loop_status : RebalanceLoopStatusSummary;
  rpv_scheduler_runtime : SchedulerRuntimeView;
}.

(** ** Summaries *)

(** The states of a held entry that count as gated. *)
Definition gated_states : list string :=
  ["assignment-in-flight"; "gated-target"; "draining-source"; "manual-intervention-required";
   "active-scheduler-action"; "cooldown"; "min-residency"].

(** One turn of the loop: the branches of the source are the flags. *)
Definition summarize_entry (s : RebalancePolicySummary) (entry : RebalancePlanEntry)
    : RebalancePolicySummary :=
  let no_candidate := rpe_state entry ==? "no-candidate" in
  let propose := negb no_candidate && (rpe_decision entry ==? "propose") in
  let defer := negb no_candidate && negb propose && (rpe_decision entry ==? "defer") in
  let hold := negb no_candidate && negb propose && negb defer in
  let active_rollout := hold && (rpe_state entry ==? "active-rollout") in
  let gated := hold && negb active_rollout && any_of (eqb (rpe_state entry)) gated_states in
  let stable := hold && negb active_rollout && negb gated in
  let count (flag : bool) (t : Tally) := if flag then tally (rpe_worker_name entry) t else t in
  {| sum_actionable := count propose (sum_actionable s);
     sum_safe_direct := count propose (sum_safe_direct s);
     sum_rollout_class := count (defer || active_rollout) (sum_rollout_class s);
     sum_gated := count (no_candidate || gated) (sum_gated s);
     sum_blocked_active_rollout := count active_rollout (sum_blocked_active_rollout s);
     sum_assignment_busy :=
       count (gated && (rpe_state entry ==? "assignment-in-flight")) (sum_assignment_busy s);
     sum_observation_gated :=
       count (gated && (rpe_state entry ==? "gated-target")) (sum_observation_gated s);
     sum_stable_hold := count stable (sum_stable_hold s);
     sum_below_threshold :=
       count (stable && (rpe_state entry ==? "below-threshold")) (sum_below_threshold s);
     sum_propose := count propose (sum_propose s);
     sum_hold := count hold (sum_hold s);
     sum_defer := count defer (sum_defer s);
     sum_no_candidate := count no_candidate (sum_no_candidate s) |}.

Definition BuildRebalancePolicySummary (entries : list RebalancePlanEntry)
    : RebalancePolicySummary :=
  foldl summarize_entry RebalancePolicySummary_default entries.

Definition BuildRebalanceIterationBudgetSummary (current_iteration max_iterations : Z)
    : RebalanceIterationBudgetSummary :=
  mkRebalanceIterationBudgetSummary current_iteration max_iterations
    (current_iteration >=? max_iterations).

Definition BuildRebalanceLoopStatusSummary (gate : RebalanceControllerGateSummary)
    (budget : RebalanceIterationBudgetSummary) (policy : RebalancePolicySummary)
    : RebalanceLoopStatusSummary :=
  if negb (gate_cluster_ready gate) then
    mkRebalanceLoopStatusSummary "waiting-for-convergence"
      (if gate_unconverged_node_count gate >? 0
       then "unconverged-nodes=" +:+ to_string (gate_unconverged_node_count gate)
       else if gate_blocking_assignment_count gate >? 0
       then "blocking-assignments=" +:+ to_string (gate_blocking_assignment_count gate)
       else "active-rollouts=" +:+ to_string (gate_active_rollout_count gate))
  else if budget_exhausted budget && (tally_count (sum_actionable policy) >? 0) then
    mkRebalanceLoopStatusSummary "complete"
      ("rebalance-iteration-limit=" +:+ to_string (budget_current_iteration budget) +:+ "/" +:+
       to_string (budget_max_iterations budget))
  else if tally_count (sum_rollout_class policy) >? 0 then
    mkRebalanceLoopStatusSummary "waiting-for-rollout"
      ("rollout-class-workers=" +:+ to_string (tally_count (sum_rollout_class policy)))
  else if tally_count (sum_actionable policy) >? 0 then
    mkRebalanceLoopStatusSummary "actionable"
      ("safe-direct-workers=" +:+ to_string (tally_count (sum_actionable policy)))
  else
    mkRebalanceLoopStatusSummary "complete"
      (if tally_count (sum_below_threshold policy) >? 0
       then "remaining-moves-below-threshold=" +:+ to_string (tally_count (sum_below_threshold policy))
       else if tally_count (sum_no_candidate policy) >? 0
       then "no-candidate-workers=" +:+ to_string (tally_count (sum_no_candidate policy))
       else "no-actionable-rebalance").

(** ** Documents *)

(** [text.empty() ? json(nullptr) : json(text)] and the same of an optional. *)
Definition text_or_null (text : string) : json :=
  if str_empty text then JNull else JString text.
Definition optional_text (text : option string) : json := from_option JString JNull text.
Definition optional_number (number : option Z) : json := from_option JInt JNull number.
Definition names_json (names : list string) : json := JArray (map JString names).

Definition rollout_action_json (action : RolloutActionRecord) : json :=
  JObject [("id", JInt (ra_id action));
           ("desired_generation", JInt (ra_desired_generation action));
           ("step", JInt (ra_step action));
           ("worker_name", JString (ra_worker_name action));
           ("action", JString (ra_action action));
           ("target_node_name", JString (ra_target_node_name action));
           ("target_gpu_device", JString (ra_target_gpu_device action));
           ("victim_worker_names", names_json (ra_victim_worker_names action));
           ("reason", JString (ra_reason action));
           ("status", JString (RolloutActionStatus_ToString (ra_status action)));
           ("status_message", JString (ra_status_message action))].

Definition lifecycle_json (entry : RolloutLifecycleEntry) : json :=
  JObject [("worker_name", JString (rle_worker_name entry));
           ("desired_generation", JInt (rle_desired_generation entry));
           ("phase", JString (SchedulerRolloutPhase_ToString (rle_phase entry)));
           ("action_id", optional_number (rle_action_id entry));
           ("target_node_name", text_or_null (rle_target_node_name entry));
           ("target_gpu_device", text_or_null (rle_target_gpu_device entry));
           ("victim_worker_names", names_json (rle_victim_worker_names entry));
           ("detail", text_or_null (rle_detail entry))].

Definition BuildRolloutActionsPayload (view : RolloutActionsViewData) : json :=
  JObject [("service", JString "naim-controller");
           ("db_path", JString (rav_db_path view));
           ("plane_name", optional_text (rav_plane_name view));
           ("node_name", optional_text (rav_node_name view));
           ("desired_generation", optional_number (rav_desired_generation view));
           ("rollout_gates",
             JObject [("gated_workers", JInt (rav_gated_worker_count view));
                      ("gated_nodes", JInt (rav_gated_node_count view));
                      ("deferred_actions", JInt (vsize (rav_actions view)))]);
           ("actions", JArray (map rollout_action_json (rav_actions view)));
           ("rollout_lifecycle",
             JArray (if has_value (rav_desired_state view) && has_value (rav_desired_generation view)
                     then map lifecycle_json (rav_lifecycle view) else []))].

Definition plan_entry_json (entry : RebalancePlanEntry) : json :=
  JObject [("worker_name", JString (rpe_worker_name entry));
           ("placement_mode", JString (PlacementMode_ToString (rpe_placement_mode entry)));
           ("current_node_name", JString (rpe_current_node_name entry));
           ("current_gpu_device", JString (rpe_current_gpu_device entry));
           ("target_node_name", text_or_null (rpe_target_node_name entry));
           ("target_gpu_device", text_or_null (rpe_target_gpu_device entry));
           ("rebalance_class", JString (rpe_rebalance_class entry));
           ("decision", JString (rpe_decision entry));
           ("state", JString (rpe_state entry));
           ("action", text_or_null (rpe_action entry));
           ("score", JInt (rpe_score entry));
           ("preemption_required", JBool (rpe_preemption_required entry));
           ("victim_worker_names", names_json (rpe_victim_worker_names entry));
           ("gate_reason", text_or_null (rpe_gate_reason entry))].

Definition worker_runtime_json (item : string * SchedulerWorkerRuntime) : json :=
  let runtime := item.2 in
  JObject [("worker_name", JString item.1);
           ("last_move_at", text_or_null (swr_last_move_at runtime));
           ("last_eviction_at", text_or_null (swr_last_eviction_at runtime));
           ("last_verified_generation", optional_number (swr_last_verified_generation runtime));
           ("last_scheduler_phase", text_or_null (swr_last_scheduler_phase runtime));
           ("last_status_message", text_or_null (swr_last_status_message runtime));
           ("manual_intervention_required", JBool (swr_manual_intervention_required runtime))].

Definition node_runtime_json (item : string * SchedulerNodeRuntime) : json :=
  JObject [("node_name", JString item.1);
           ("last_move_at", text_or_null (snr_last_move_at item.2));
           ("last_verified_generation", optional_number (snr_last_verified_generation item.2))].

Definition controller_gate_json (gate : RebalanceControllerGateSummary) : json :=
  JObject [("cluster_ready", JBool (gate_cluster_ready gate));
           ("active_rollouts", JInt (gate_active_rollout_count gate));
           ("blocking_assignment_nodes", JInt (gate_blocking_assignment_count gate));
           ("unconverged_nodes", JInt (gate_unconverged_node_count gate));
           ("active_rollout_workers", names_json (gate_active_rollout_workers gate));
           ("blocking_assignment_node_names", names_json (gate_blocking_assignment_nodes gate));
           ("unconverged_node_names", names_json (gate_unconverged_nodes gate))].

Definition policy_summary_json (policy : RebalancePolicySummary) : json :=
  let count t := JInt (tally_count t) in
  let names t := names_json (tally_workers t) in
  JObject [("actionable", count (sum_actionable policy));
           ("safe_direct", count (sum_safe_direct policy));
           ("rollout_class", count (sum_rollout_class policy));
           ("gated", count (sum_gated policy));
           ("blocked_active_rollouts", count (sum_blocked_active_rollout policy));
           ("assignment_busy", count (sum_assignment_busy policy));
           ("observation_gated", count (sum_observation_gated policy));
           ("stable_holds", count (sum_stable_hold policy));
           ("below_threshold", count (sum_below_threshold policy));
           ("deferred", count (sum_defer policy));
           ("no_candidate", count (sum_no_candidate policy));
           ("actionable_workers", names (sum_actionable policy));
           ("safe_direct_workers", names (sum_safe_direct policy));
           ("rollout_class_workers", names (sum_rollout_class policy));
           ("gated_workers", names (sum_gated policy));
           ("stable_hold_workers", names (sum_stable_hold policy))].

Definition plane_runtime_json (runtime : SchedulerPlaneRuntime) : json :=
  JObject [("active_action", JString (spr_active_action runtime));
           ("active_worker_name", JString (spr_active_worker_name runtime));
           ("phase", JString (spr_phase runtime));
           ("action_generation", JInt (spr_action_generation runtime));
           ("stable_samples", JInt (spr_stable_samples runtime));
           ("rollback_attempt_count", JInt (spr_rollback_attempt_count runtime));
           ("source_node_name", JString (spr_source_node_name runtime));
           ("source_gpu_device", JString (spr_source_gpu_device runtime));
           ("target_node_name", JString (spr_target_node_name runtime));
           ("target_gpu_device", JString (spr_target_gpu_device runtime));
           ("status_message", JString (spr_status_message runtime));
           ("started_at", JString (spr_started_at runtime))].

(** The key [plane_name] of the head is assigned again once the state is known. *)
Definition BuildRebalancePlanPayload (view : RebalancePlanViewData) : json :=
  let head plane_name :=
    [("service", JString "naim-controller"); ("db_path", JString (rpv_db_path view));
     ("plane_name", plane_name); ("node_name", optional_text (rpv_node_name view));
     ("stale_after_seconds", JInt (rpv_stale_after_seconds view))] in
  match rpv_desired_state view with
  | None =>
      JObject (head (optional_text (rpv_plane_name view)) ++
               [("desired_state", JNull); ("rebalance_plan", JArray [])])
  | Some state =>
      let runtime := rpv_scheduler_runtime view in
      let budget := rpv_iteration_budget_summary view in
      JObject (head (JString (ds_plane_name state)) ++
        [("desired_generation", JInt (rpv_desired_generation view));
         ("rebalance_plan", JArray (map plan_entry_json (rpv_rebalance_entries view)));
         ("controller_gate", controller_gate_json (rpv_controller_gate_summary view));
         ("iteration_budget",
           JObject [("current_iteration", JInt (budget_current_iteration budget));
                    ("max_iterations", JInt (budget_max_iterations budget));
                    ("exhausted", JBool (budget_exhausted budget))]);
         ("loop_status", JObject [("state", JString (loop_state (rpv_loop_status view)));
                                  ("reason", JString (loop_reason (rpv_loop_status view)))]);
         ("policy_summary", policy_summary_json (rpv_policy_summary view));
         ("scheduler_runtime",
           JObject [("plane_runtime", from_option plane_runtime_json JNull (srv_plane_runtime runtime));
                    ("worker_runtime",
                      JArray (map worker_runtime_json (map_items (srv_worker_runtime_by_name runtime))));
                    ("node_runtime",
                      JArray (map node_runtime_json (map_items (srv_node_runtime_by_name runtime))))])])
  end.

(** ** Text *)

Definition or_mark (mark text : string) : string := if str_empty text then mark else text.
Definition field (label text : string) : string :=
  if str_empty text then "" else label +:+ text.
Definition target_field (node_name gpu_device : string) : string :=
  if negb (str_empty node_name) || negb (str_empty gpu_device)
  then " target=" +:+ node_name +:+ ":" +:+ gpu_device else "".
Definition victims_field (names : list string) : string :=
  if vec_empty names then "" else " victims=" +:+ JoinStrings names ",".

Definition PrintNameListLine (label : string) (values : list string) : string :=
  if vec_empty values then ""
  else "  " +:+ label +:+ "=" +:+ JoinStrings values "," +:+ newline.

Definition PrintRolloutLifecycleEntries (entries : list RolloutLifecycleEntry) : string :=
  "rollout-lifecycle:" +:+ newline +:+
  if vec_empty entries then "  (empty)" +:+ newline
  else lines_of (fun entry =>
    "  - worker=" +:+ rle_worker_name entry +:+
    " generation=" +:+ to_string (rle_desired_generation entry) +:+
    " phase=" +:+ SchedulerRolloutPhase_ToString (rle_phase entry) +:+
    optional_field " action_id=" (rle_action_id entry) +:+
    target_field (rle_target_node_name entry) (rle_target_gpu_device entry) +:+
    victims_field (rle_victim_worker_names entry) +:+
    field " detail=" (rle_detail entry)) entries.

Definition PrintRebalancePlanEntries (entries : list RebalancePlanEntry) : string :=
  "rebalance-plan:" +:+ newline +:+
  if vec_empty entries then "  (empty)" +:+ newline
  else lines_of (fun entry =>
    "  - worker=" +:+ rpe_worker_name entry +:+
    " placement_mode=" +:+ PlacementMode_ToString (rpe_placement_mode entry) +:+
    " current=" +:+ rpe_current_node_name entry +:+ ":" +:+ rpe_current_gpu_device entry +:+
    " class=" +:+ or_mark "(empty)" (rpe_rebalance_class entry) +:+
    " decision=" +:+ rpe_decision entry +:+ " state=" +:+ rpe_state entry +:+
    target_field (rpe_target_node_name entry) (rpe_target_gpu_device entry) +:+
    field " action=" (rpe_action entry) +:+
    " score=" +:+ to_string (rpe_score entry) +:+
    " preemption_required=" +:+ yes_no (rpe_preemption_required entry) +:+
    victims_field (rpe_victim_worker_names entry) +:+
    field " gate_reason=" (rpe_gate_reason entry)) entries.

Definition PrintRebalancePolicySummary (summary : RebalancePolicySummary) : string :=
  let count label t := label +:+ to_string (tally_count t) in
  let line label t := PrintNameListLine label (tally_workers t) in
  "rebalance-policy:" +:+ newline +:+
  count "  actionable=" (sum_actionable summary) +:+
  count " safe_direct=" (sum_safe_direct summary) +:+
  count " rollout_class=" (sum_rollout_class summary) +:+
  count " gated=" (sum_gated summary) +:+
  count " blocked_active_rollouts=" (sum_blocked_active_rollout summary) +:+
  count " assignment_busy=" (sum_assignment_busy summary) +:+
  count " observation_gated=" (sum_observation_gated summary) +:+
  count " stable_holds=" (sum_stable_hold summary) +:+
  count " below_threshold=" (sum_below_threshold summary) +:+
  count " deferred=" (sum_defer summary) +:+
  count " no_candidate=" (sum_no_candidate summary) +:+ newline +:+
  count "  propose=" (sum_propose summary) +:+
  count " hold=" (sum_hold summary) +:+
  count " defer=" (sum_defer summary) +:+
  count " no_candidate=" (sum_no_candidate summary) +:+ newline +:+
  line "actionable_workers" (sum_actionable summary) +:+
  line "safe_direct_workers" (sum_safe_direct summary) +:+
  line "rollout_class_workers" (sum_rollout_class summary) +:+
  line "gated_workers" (sum_gated summary) +:+
  line "blocked_active_rollout_workers" (sum_blocked_active_rollout summary) +:+
  line "assignment_busy_workers" (sum_assignment_busy summary) +:+
  line "observation_gated_workers" (sum_observation_gated summary) +:+
  line "stable_hold_workers" (sum_stable_hold summary) +:+
  line "below_threshold_workers" (sum_below_threshold summary) +:+
  line "proposed_workers" (sum_propose summary) +:+
  line "held_workers" (sum_hold summary) +:+
  line "deferred_workers" (sum_defer summary) +:+
  line "no_candidate_workers" (sum_no_candidate summary).

Definition PrintRebalanceControllerGateSummary (gate : RebalanceControllerGateSummary) : string :=
  "rebalance-controller-gate:" +:+ newline +:+
  "  cluster_ready=" +:+ yes_no (gate_cluster_ready gate) +:+
  " active_rollouts=" +:+ to_string (gate_active_rollout_count gate) +:+
  " blocking_assignment_nodes=" +:+ to_string (gate_blocking_assignment_count gate) +:+
  " unconverged_nodes=" +:+ to_string (gate_unconverged_node_count gate) +:+ newline +:+
  PrintNameListLine "active_rollout_workers" (gate_active_rollout_workers gate) +:+
  PrintNameListLine "blocking_assignment_nodes" (gate_blocking_assignment_nodes gate) +:+
  PrintNameListLine "unconverged_nodes" (gate_unconverged_nodes gate).

Definition PrintRebalanceIterationBudgetSummary (budget : RebalanceIterationBudgetSummary) : string :=
  "rebalance-iteration-budget:" +:+ newline +:+
  "  iteration=" +:+ to_string (budget_current_iteration budget) +:+ "/" +:+
  to_string (budget_max_iterations budget) +:+
  " exhausted=" +:+ yes_no (budget_exhausted budget) +:+ newline.

Definition PrintRebalanceLoopStatusSummary (status : RebalanceLoopStatusSummary) : string :=
  "rebalance-loop-status:" +:+ newline +:+
  "  state=" +:+ loop_state status +:+ field " reason=" (loop_reason status) +:+ newline.

Definition PrintSchedulerRuntimeView (view : SchedulerRuntimeView)
    (verification_stable_samples_required : Z) : string :=
  "scheduler-runtime:" +:+ newline +:+
  match srv_plane_runtime view with
  | None => "  plane_action=(none)" +:+ newline
  | Some runtime =>
      "  plane_action=" +:+ or_mark "(none)" (spr_active_action runtime) +:+
      " phase=" +:+ or_mark "(empty)" (spr_phase runtime) +:+
      " worker=" +:+ or_mark "(empty)" (spr_active_worker_name runtime) +:+
      " generation=" +:+ to_string (spr_action_generation runtime) +:+
      " stable_samples=" +:+ to_string (spr_stable_samples runtime) +:+ "/" +:+
      to_string verification_stable_samples_required +:+
      " rollback_attempts=" +:+ to_string (spr_rollback_attempt_count runtime) +:+ newline +:+
      (if str_empty (spr_status_message runtime) then ""
       else "  status_message=" +:+ spr_status_message runtime +:+ newline)
  end +:+
  titled "  worker_runtime:" (fun item : string * SchedulerWorkerRuntime =>
    let runtime := item.2 in
    "    - worker=" +:+ item.1 +:+
    " last_move_at=" +:+ or_mark "(empty)" (swr_last_move_at runtime) +:+
    " last_eviction_at=" +:+ or_mark "(empty)" (swr_last_eviction_at runtime) +:+
    optional_field " last_verified_generation=" (swr_last_verified_generation runtime) +:+
    field " last_phase=" (swr_last_scheduler_phase runtime) +:+
    " manual_intervention_required=" +:+ yes_no (swr_manual_intervention_required runtime) +:+
    field (newline +:+ "      status_message=") (swr_last_status_message runtime))
    (map_items (srv_worker_runtime_by_name view)) +:+
  titled "  node_runtime:" (fun item : string * SchedulerNodeRuntime =>
    "    - node=" +:+ item.1 +:+
    " last_move_at=" +:+ or_mark "(empty)" (snr_last_move_at item.2) +:+
    optional_field " last_verified_generation=" (snr_last_verified_generation item.2))
    (map_items (srv_node_runtime_by_name view)).

(** ** Lemmas *)

Lemma summary_snoc entries entry :
  BuildRebalancePolicySummary (entries ++ [entry]) =
  summarize_entry (BuildRebalancePolicySummary entries) entry.
Proof. apply foldl_snoc. Qed.

(** A counter agrees with its list. *)
Definition tally_ok (t : Tally) : Prop := tally_count t = Z.of_nat (length (tally_workers t)).

Lemma tally_ok_count worker (flag : bool) t : tally_ok t -> tally_ok (if flag then tally worker t else t).
Proof. destruct flag; [|done]. unfold tally_ok, tally. cbn. rewrite length_app. cbn. lia. Qed.

Lemma tally_workers_count worker (flag : bool) t :
  tally_workers (if flag then tally worker t else t) =
  tally_workers t ++ (if flag then [worker] else []).
Proof. destruct flag; [done|]. by rewrite app_nil_r. Qed.

(** All tallies of a summary. *)
Definition tallies (s : RebalancePolicySummary) : list Tally :=
  [sum_actionable s; sum_safe_direct s; sum_rollout_class s; sum_gated s;
   sum_blocked_active_rollout s; sum_assignment_busy s; sum_observation_gated s; sum_stable_hold s;
   sum_below_threshold s; sum_propose s; sum_hold s; sum_defer s; sum_no_candidate s].

Lemma summary_tallies_ok entries : Forall tally_ok (tallies (BuildRebalancePolicySummary entries)).
Proof.
  induction entries as [|entry entries IH] using rev_ind; [by repeat constructor|].
  rewrite summary_snoc. repeat (apply Forall_cons in IH as [? IH]).
  repeat (constructor; [by apply tally_ok_count|]). constructor.
Qed.

(** The four classes of the operator's view. *)
Definition classes (s : RebalancePolicySummary) : list string :=
  tally_workers (sum_actionable s) ++ tally_workers (sum_rollout_class s) ++
  tally_workers (sum_gated s) ++ tally_workers (sum_stable_hold s).
Definition decisions (s : RebalancePolicySummary) : list string :=
  tally_workers (sum_propose s) ++ tally_workers (sum_defer s) ++
  tally_workers (sum_hold s) ++ tally_workers (sum_no_candidate s).

Lemma classes_snoc s entry :
  classes (summarize_entry s entry) ≡ₚ rpe_worker_name entry :: classes s /\
  decisions (summarize_entry s entry) ≡ₚ rpe_worker_name entry :: decisions s.
Proof.
  unfold classes, decisions, summarize_entry.
  cbn [sum_actionable sum_rollout_class sum_gated sum_stable_hold sum_propose sum_defer sum_hold
       sum_no_candidate].
  rewrite !tally_workers_count.
  destruct (rpe_state entry ==? "no-candidate"), (rpe_decision entry ==? "propose"),
    (rpe_decision entry ==? "defer"), (rpe_state entry ==? "active-rollout"),
    (any_of (eqb (rpe_state entry)) gated_states);
    cbn [andb orb negb]; rewrite ?app_nil_r; split; solve_Permutation.
Qed.

Lemma summary_classes entries :
  classes (BuildRebalancePolicySummary entries) ≡ₚ rpe_worker_name <$> entries /\
  decisions (BuildRebalancePolicySummary entries) ≡ₚ rpe_worker_name <$> entries.
Proof.
  induction entries as [|entry entries [IHc IHd]] using rev_ind; [done|].
  rewrite summary_snoc, fmap_app. cbn [fmap list_fmap].
  destruct (classes_snoc (BuildRebalancePolicySummary entries) entry) as [-> ->].
  rewrite IHc, IHd. split; apply Permutation_cons_append.
Qed.

Lemma summary_actionable entries worker :
  worker ∈ tally_workers (sum_actionable (BuildRebalancePolicySummary entries)) ->
  exists entry, entry ∈ entries /\ rpe_worker_name entry = worker /\ rpe_decision entry = "propose".
Proof.
  induction entries as [|entry entries IH] using rev_ind; [by intros ?%elem_of_nil|].
  rewrite summary_snoc. unfold summarize_entry. cbn [sum_actionable]. rewrite tally_workers_count.
  intros [Hin|Hin]%elem_of_app.
  - destruct (IH Hin) as (e & He & ?). exists e. set_solver.
  - destruct (rpe_decision entry ==? "propose") eqn:E; rewrite ?andb_false_r in Hin; [|set_solver].
    rewrite eqb_true in E. exists entry.
    destruct (rpe_state entry ==? "no-candidate"); cbn [negb andb] in Hin;
      [by apply elem_of_nil in Hin|].
    apply list_elem_of_singleton in Hin as ->. split; [apply elem_of_app; right; by left|]. done.
Qed.

(** The summary of a rebalance plan accounts for every entry exactly once:
    each counter is the length of its list, the workers that are actionable,
    waiting for a rollout, gated or stable are the workers of the plan, and so are
    the workers proposed, deferred, held or without candidate.  The loop reports
    [actionable] only when the cluster has converged, budget is left and some
    entry is proposed. *)
Theorem policy_summary_accounts entries gate current maximum :
  let s := BuildRebalancePolicySummary entries in
  let status := BuildRebalanceLoopStatusSummary gate
                  (BuildRebalanceIterationBudgetSummary current maximum) s in
  Forall tally_ok (tallies s) /\
  classes s ≡ₚ (rpe_worker_name <$> entries) /\ decisions s ≡ₚ (rpe_worker_name <$> entries) /\
  (loop_state status = "actionable" ->
   gate_cluster_ready gate = true /\ current < maximum /\
   exists entry, entry ∈ entries /\ rpe_decision entry = "propose").
Proof.
  intros s status. pose proof (summary_tallies_ok entries) as Hok.
  destruct (summary_classes entries) as [Hc Hd]. repeat (split; [done|]).
  subst status. unfold BuildRebalanceLoopStatusSummary, BuildRebalanceIterationBudgetSummary.
  cbn [budget_exhausted budget_current_iteration budget_max_iterations].
  destruct (gate_cluster_ready gate); cbn [negb]; [|done].
  destruct (current >=? maximum) eqn:Eb; cbn [andb];
    destruct (tally_count (sum_actionable s) >? 0) eqn:Ea; try done;
    destruct (tally_count (sum_rollout_class s) >? 0); try done.
  intros _. split; [done|]. split; [lia|].
  apply Forall_cons in Hok as [Ht _]. unfold tally_ok in Ht. fold s in Ht.
  destruct (tally_workers (sum_actionable s)) as [|w ws] eqn:Ew; [cbn in Ht; lia|].
  destruct (summary_actionable entries w) as (e & He & _ & Hp); [fold s; rewrite Ew; by left|eauto].
Qed.
