(* ===== verification/SchedulerDomain.v ===== *)
(** * The scheduler's decisions

    [controller/src/scheduler/scheduler_domain_service.cpp] against the interface
    [SchedulerDomainSupport] of [scheduler_domain_support.h]: the life cycle of
    rollout actions, the gate of the whole controller and the decision about each
    worker that could be moved.  The interface is a class; its implementation
    [ControllerSchedulerDomainSupport] is the instance [controller_support]. *)

From S2P Require Import Prelude Binary64 Json Models Fixtures AssignmentStore AssignmentReconciliation RuntimeStatus RuntimeSupport SchedulingPolicy SchedulerStore StateJson PlaneRealization SchedulerView.

(** ** The interface *)

Class SchedulerDomainSupport := {
  sup_HeartbeatAgeSeconds : string -> option Z;
  sup_HealthFromAge : option Z -> Z -> string;
  sup_ParseRuntimeStatus : HostObservation -> result (option RuntimeStatus);
  sup_ParseGpuTelemetry : HostObservation -> result (option GpuTelemetrySnapshot);
  sup_BuildAvailabilityOverrideMap : list NodeAvailabilityOverride -> AvailabilityMap;
  sup_ResolveNodeAvailability : AvailabilityMap -> string -> NodeAvailability;
  sup_IsNodeSchedulable : NodeAvailability -> bool;
  sup_TimestampAgeSeconds : string -> option Z;
  sup_ObservedSchedulingGateReason :
    list HostObservation -> string -> Z -> result (option string);
}.

#[export] Instance controller_support `{Lib : !JsonLibrary} (now : Z) : SchedulerDomainSupport := {|
  sup_HeartbeatAgeSeconds := HeartbeatAgeSeconds now;
  sup_HealthFromAge := HealthFromAge;
  sup_ParseRuntimeStatus := ParseRuntimeStatus;
  sup_ParseGpuTelemetry := ParseGpuTelemetry;
  sup_BuildAvailabilityOverrideMap := BuildAvailabilityOverrideMap;
  sup_ResolveNodeAvailability := ResolveNodeAvailability;
  sup_IsNodeSchedulable := IsNodeSchedulable;
  sup_TimestampAgeSeconds := TimestampAgeSeconds now;
  sup_ObservedSchedulingGateReason := ObservedSchedulingGateReason now;
|}.

Record SchedulerDomainPolicyConfig := mkSchedulerDomainPolicyConfig {
  cfg_default_stale_after_seconds : Z;
  cfg_minimum_safe_direct_rebalance_score : Z;
  cfg_worker_minimum_residency_seconds : Z;
  cfg_node_cooldown_after_move_seconds : Z;
  cfg_compute_pressure_utilization_threshold_pct : Z;
  cfg_observed_move_vram_reserve_mb : Z;
}.
Definition SchedulerDomainPolicyConfig_default : SchedulerDomainPolicyConfig :=
  mkSchedulerDomainPolicyConfig 300 100 300 60 85 1024.

(** ** Helpers of the translation unit *)

Definition FindLatestHostAssignmentForNodeGeneration (assignments : list HostAssignment)
    (node_name : string) (desired_generation : Z) : option HostAssignment :=
  find_last_if (fun a => (ha_node_name a ==? node_name) &&
                         (ha_desired_generation a =? desired_generation)) assignments.

Definition RolloutActionTag (action_id : Z) : string :=
  "rollout_action_id=" +:+ to_string action_id.

Definition AssignmentReferencesRolloutAction (assignment : HostAssignment) (action_id : Z) : bool :=
  str_contains (RolloutActionTag action_id) (ha_status_message assignment).

Definition eviction_of (action_id : Z) (assignment : HostAssignment) : bool :=
  (ha_assignment_type assignment ==? "evict-workers") &&
  AssignmentReferencesRolloutAction assignment action_id.

Definition HasRolloutEvictionAssignments (assignments : list HostAssignment) (action_id : Z) : bool :=
  any_of (eviction_of action_id) assignments.

(** The loop: [found] so far; an eviction that is not applied ends it. *)
Fixpoint evictions_applied (found : bool) (assignments : list HostAssignment) (action_id : Z) : bool :=
  match assignments with
  | [] => found
  | assignment :: rest =>
      if negb (eviction_of action_id assignment) then evictions_applied found rest action_id
      else if ha_status assignment !=? Applied then false
      else evictions_applied true rest action_id
  end.
Definition AreRolloutEvictionAssignmentsApplied (assignments : list HostAssignment) (action_id : Z)
    : bool := evictions_applied false assignments action_id.

Definition FindRolloutLifecycleEntry (entries : list RolloutLifecycleEntry) (worker_name : string)
    : option RolloutLifecycleEntry :=
  find_if (fun entry => rle_worker_name entry ==? worker_name) entries.

Definition RolloutPhaseBlocksRebalance (phase : SchedulerRolloutPhase) : bool :=
  phase !=? RolloutApplied.

Definition HostAssignmentBlocksRebalance (assignment : HostAssignment) : bool :=
  (ha_status assignment ==? Pending) || (ha_status assignment ==? Claimed).

Definition NodeHasBlockingHostAssignment (assignments : list HostAssignment) (node_name : string)
    : bool :=
  any_of (fun a => (ha_node_name a ==? node_name) && HostAssignmentBlocksRebalance a) assignments.

Definition FindWorkerInstance (state : DesiredState) (worker_name : string) : option InstanceSpec :=
  find_if (fun i => (inst_role i ==? Worker) && (inst_name i ==? worker_name)) (ds_instances state).

Section domain.
Context `{Support : SchedulerDomainSupport} (policy_config : SchedulerDomainPolicyConfig).

Definition FindObservedGpuDeviceTelemetry (observations : list HostObservation)
    (node_name gpu_device : string) : result (option GpuDeviceTelemetry) :=
  match FindHostObservationForNode observations node_name with
  | None => Ok None
  | Some observation =>
      telemetry ← sup_ParseGpuTelemetry observation;
      match telemetry with
      | None => Ok None
      | Some telemetry =>
          Ok (find_if (fun device => gdt_gpu_device device ==? gpu_device) (gts_devices telemetry))
      end
  end.

Definition ObservedGpuDeviceHasForeignProcess (observations : list HostObservation)
    (node_name gpu_device worker_name : string) : result bool :=
  device ← FindObservedGpuDeviceTelemetry observations node_name gpu_device;
  match device with
  | None => Ok false
  | Some device =>
      Ok (any_of (fun process => (gpt_instance_name process !=? worker_name) &&
                                 (gpt_instance_name process !=? "unknown")) (gdt_processes device))
  end.

Definition ObservedGpuPlacementGateReason (observations : list HostObservation)
    (worker : InstanceSpec) (target_node_name target_gpu_device : string)
    (moving_to_different_gpu : bool) : result (option string) :=
  device ← FindObservedGpuDeviceTelemetry observations target_node_name target_gpu_device;
  match device with
  | None => Ok None
  | Some device =>
      if from_option (fun cap => gdt_free_vram_mb device <?
                                 cap + cfg_observed_move_vram_reserve_mb policy_config)
           false (inst_memory_cap_mb worker)
      then Ok (Some "observed-insufficient-vram")
      else if moving_to_different_gpu &&
              (gdt_gpu_utilization_pct device >=?
               cfg_compute_pressure_utilization_threshold_pct policy_config)
      then
        foreign ← ObservedGpuDeviceHasForeignProcess observations target_node_name
                    target_gpu_device (inst_name worker);
        Ok (if (foreign : bool) then Some "compute-pressure" else None)
      else Ok None
  end.

(** ** Rollout life cycle *)

Definition rollout_before (left right : RolloutActionRecord) : bool :=
  if ra_step left !=? ra_step right then ra_step left <? ra_step right
  else ra_id left <? ra_id right.

Definition actions_by_worker (desired_generation : Z) (rollout_actions : list RolloutActionRecord)
    : gmap string (list RolloutActionRecord) :=
  foldl (fun result action =>
           if ra_desired_generation action =? desired_generation
           then <[ra_worker_name action :=
                    default [] (result !! ra_worker_name action) ++ [action]]> result
           else result) ∅ rollout_actions.

(** What the status of an eviction says: phase and detail. *)
Definition eviction_phase (assignments : list HostAssignment) (evict_action : RolloutActionRecord)
    : SchedulerRolloutPhase * string :=
  match ra_status evict_action with
  | RolloutPending => (Planned, "awaiting eviction enqueue")
  | Acknowledged =>
      if AreRolloutEvictionAssignmentsApplied assignments (ra_id evict_action)
      then (EvictionApplied, "eviction assignments applied")
      else if HasRolloutEvictionAssignments assignments (ra_id evict_action)
      then (EvictionEnqueued, "eviction assignments enqueued")
      else (EvictionEnqueued, or_mark "eviction acknowledged" (ra_status_message evict_action))
  | ReadyToRetry => (EvictionApplied, "eviction completed")
  end.

Definition worker_lifecycle (desired_generation : Z) (assignments : list HostAssignment)
    (worker_name : string) (actions : list RolloutActionRecord) : option RolloutLifecycleEntry :=
  let actions := std_sort rollout_before actions in
  let evict_action := find_if (fun a => ra_action a ==? "evict-best-effort") actions in
  let retry_action := find_if (fun a => ra_action a ==? "retry-placement") actions in
  target_action ← match retry_action with Some a => Some a | None => evict_action end;
  let '(phase, detail) := from_option (eviction_phase assignments) (Planned, "") evict_action in
  let action_id := ra_id <$> evict_action in
  let retry_ready :=
    match retry_action with
    | Some a => if ra_status a ==? ReadyToRetry then Some a else None
    | None => None
    end in
  let '(phase, action_id, detail) :=
    match retry_ready with
    | Some a => (RetryReady, Some (ra_id a), "retry placement can be materialized")
    | None => (phase, action_id, detail)
    end in
  Some {| rle_worker_name := worker_name; rle_desired_generation := desired_generation;
          rle_phase := phase; rle_action_id := action_id;
          rle_target_node_name := ra_target_node_name target_action;
          rle_target_gpu_device := ra_target_gpu_device target_action;
          rle_victim_worker_names := from_option ra_victim_worker_names [] evict_action;
          rle_detail := detail |}.

Definition materialized_retry (instance : InstanceSpec) : bool :=
  bool_decide (inst_labels instance !! "naim.placement.action" = Some "materialized-retry-placement") &&
  bool_decide (inst_labels instance !! "naim.placement.decision" = Some "applied").

(** The phase of a placement that is in the desired state already. *)
Definition materialized_phase (desired_generation : Z) (assignments : list HostAssignment)
    (observations : list HostObservation) (node_name : string)
    : result (SchedulerRolloutPhase * string) :=
  let target_assignment :=
    FindLatestHostAssignmentForNodeGeneration assignments node_name desired_generation in
  let waiting :=
    (RetryMaterialized,
     match target_assignment with
     | Some a => "target node assignment status=" +:+ HostAssignmentStatus_ToString (ha_status a)
     | None => "materialized in desired state"
     end) in
  match FindHostObservationForNode observations node_name with
  | None => Ok waiting
  | Some o =>
      if obs_status o ==? ObsFailed then Ok (HostFailed, "target node observation failed")
      else if sup_HealthFromAge (sup_HeartbeatAgeSeconds (obs_heartbeat_at o))
                (cfg_default_stale_after_seconds policy_config) ==? "stale"
      then Ok (HostStale, "target node observation stale")
      else
        status ← sup_ParseRuntimeStatus o;
        if from_option (fun s => rst_runtime_phase s ==? "failed") false status
        then Ok (RuntimeFailed, "target runtime reported failed phase")
        else if (obs_status o ==? ObsApplied) &&
                from_option (fun g => g >=? desired_generation) false (obs_applied_generation o)
        then Ok (RolloutApplied, "target node observed desired generation applied")
        else Ok waiting
  end.

Definition materialized_lifecycle (desired_generation : Z) (assignments : list HostAssignment)
    (observations : list HostObservation) (by_worker : gmap string (list RolloutActionRecord))
    (instance : InstanceSpec) : result (option RolloutLifecycleEntry) :=
  if inst_role instance !=? Worker then Ok None
  else if negb (materialized_retry instance) then Ok None
  else if has_value (by_worker !! inst_name instance) then Ok None
  else
    '(phase, detail) ← materialized_phase desired_generation assignments observations
                         (inst_node_name instance);
    Ok (Some {| rle_worker_name := inst_name instance; rle_desired_generation := desired_generation;
                rle_phase := phase; rle_action_id := None;
                rle_target_node_name := inst_node_name instance;
                rle_target_gpu_device := value_or (inst_gpu_device instance) "";
                rle_victim_worker_names := []; rle_detail := detail |}).

Definition lifecycle_before (left right : RolloutLifecycleEntry) : bool :=
  klt (rle_worker_name left) (rle_worker_name right).

Definition BuildRolloutLifecycleEntries (desired_state : DesiredState) (desired_generation : Z)
    (rollout_actions : list RolloutActionRecord) (assignments : list HostAssignment)
    (observations : list HostObservation) : result (list RolloutLifecycleEntry) :=
  let by_worker := actions_by_worker desired_generation rollout_actions in
  let pending := omap (fun '(worker_name, actions) =>
                         worker_lifecycle desired_generation assignments worker_name actions)
                   (map_items by_worker) in
  materialized ← collectR (materialized_lifecycle desired_generation assignments observations by_worker)
                   (ds_instances desired_state);
  Ok (std_sort lifecycle_before (pending ++ materialized)).

(** ** The gate of the controller *)

Definition node_converged (desired_generation : Z) (observations : list HostObservation)
    (stale_after_seconds : Z) (node_name : string) : bool :=
  match FindHostObservationForNode observations node_name with
  | None => false
  | Some o =>
      (obs_status o !=? ObsFailed) &&
      (sup_HealthFromAge (sup_HeartbeatAgeSeconds (obs_heartbeat_at o)) stale_after_seconds ==? "online") &&
      bool_decide (obs_applied_generation o = Some desired_generation)
  end.

Definition BuildRebalanceControllerGateSummary (desired_state : DesiredState)
    (desired_generation : Z) (availability_overrides : list NodeAvailabilityOverride)
    (rollout_lifecycle_entries : list RolloutLifecycleEntry) (assignments : list HostAssignment)
    (scheduler_runtime : SchedulerRuntimeView) (observations : list HostObservation)
    (stale_after_seconds : Z) : RebalanceControllerGateSummary :=
  let blocked_workers :=
    rle_worker_name <$>
      List.filter (fun e => RolloutPhaseBlocksRebalance (rle_phase e)) rollout_lifecycle_entries in
  let active_worker :=
    match srv_plane_runtime scheduler_runtime with
    | Some r => if negb (str_empty (spr_active_action r)) && negb (str_empty (spr_active_worker_name r))
                then [spr_active_worker_name r] else []
    | None => []
    end in
  let active_rollout_workers : gset string := list_to_set (blocked_workers ++ active_worker) in
  let blocking_assignment_nodes : gset string :=
    list_to_set (ha_node_name <$> List.filter HostAssignmentBlocksRebalance assignments) in
  let availability := sup_BuildAvailabilityOverrideMap availability_overrides in
  let unconverged_nodes : gset string :=
    list_to_set (node_name <$> List.filter (fun node =>
        sup_IsNodeSchedulable (sup_ResolveNodeAvailability availability (node_name node)) &&
        negb (node_converged desired_generation observations stale_after_seconds (node_name node)))
      (ds_nodes desired_state)) in
  let workers := set_items active_rollout_workers in
  let busy := set_items blocking_assignment_nodes in
  let unconverged := set_items unconverged_nodes in
  {| gate_cluster_ready := (vsize workers =? 0) && (vsize busy =? 0) && (vsize unconverged =? 0);
     gate_active_rollout_count := vsize workers;
     gate_blocking_assignment_count := vsize busy;
     gate_unconverged_node_count := vsize unconverged;
     gate_active_rollout_workers := workers;
     gate_blocking_assignment_nodes := busy;
     gate_unconverged_nodes := unconverged |}.

(** ** The rebalance plan *)

(** The fields a branch of the loop assigns. *)
Record Verdict := mkVerdict {
  vd_class : string;
  vd_decision : string;
  vd_state : string;
  vd_gate_reason : string;
}.

Definition in_scope (recommendation : WorkerPlacementRecommendation) (worker : InstanceSpec)
    (node_name_filter : option string) : bool :=
  (inst_placement_mode worker !=? Manual) &&
  match node_name_filter with
  | None => true
  | Some filter =>
      (inst_node_name worker ==? filter) ||
      any_of (fun candidate => cand_node_name candidate ==? filter) (rec_candidates recommendation)
  end.

(** The holds before a candidate is chosen, with the target they show. *)
Definition early_hold (worker_name : string) (scheduler_runtime : SchedulerRuntimeView)
    (rollout_lifecycle_entries : list RolloutLifecycleEntry) : option (Verdict * (string * string)) :=
  if from_option swr_manual_intervention_required false
       (srv_worker_runtime_by_name scheduler_runtime !! worker_name)
  then Some (mkVerdict "gated" "hold" "manual-intervention-required" "manual-intervention-required",
             ("", ""))
  else
    let active :=
      match srv_plane_runtime scheduler_runtime with
      | Some r => if str_empty (spr_active_action r) then None else Some r
      | None => None
      end in
    match active with
    | Some r =>
        if spr_active_worker_name r ==? worker_name
        then Some (mkVerdict "gated" "hold" (or_mark "active-scheduler-action" (spr_phase r))
                     (spr_active_action r),
                   (spr_target_node_name r, spr_target_gpu_device r))
        else Some (mkVerdict "gated" "hold" "active-scheduler-action" (spr_active_action r), ("", ""))
    | None =>
        match FindRolloutLifecycleEntry rollout_lifecycle_entries worker_name with
        | Some entry =>
            if RolloutPhaseBlocksRebalance (rle_phase entry)
            then Some (mkVerdict "rollout-class" "hold" "active-rollout"
                         (SchedulerRolloutPhase_ToString (rle_phase entry)),
                       (rle_target_node_name entry, rle_target_gpu_device entry))
            else None
        | None => None
        end
    end.

Definition feasible (candidate : PlacementCandidate) : bool :=
  (cand_action candidate !=? "insufficient-memory") &&
  (cand_action candidate !=? "insufficient-fraction").

Definition select_candidate (availability : AvailabilityMap) (source_requires_exit : bool)
    (recommendation : WorkerPlacementRecommendation) : option PlacementCandidate :=
  let drain_target :=
    if source_requires_exit
    then find_if (fun candidate =>
           feasible candidate &&
           (cand_node_name candidate !=? rec_current_node_name recommendation) &&
           sup_IsNodeSchedulable (sup_ResolveNodeAvailability availability (cand_node_name candidate)))
         (rec_candidates recommendation)
    else None in
  match drain_target with
  | Some candidate => Some candidate
  | None =>
      match find_if feasible (rec_candidates recommendation) with
      | Some candidate => Some candidate
      | None => head (rec_candidates recommendation)
      end
  end.

(** Whether a move at [last_move_at] is more recent than [seconds]. *)
Definition moved_within (seconds : Z) (last_move_at : string) : option Z :=
  age ← sup_TimestampAgeSeconds last_move_at;
  if age <? seconds then Some age else None.

Definition node_cooling (scheduler_runtime : SchedulerRuntimeView) (node_name : string) : bool :=
  match srv_node_runtime_by_name scheduler_runtime !! node_name with
  | Some r => has_value (moved_within (cfg_node_cooldown_after_move_seconds policy_config)
                           (snr_last_move_at r))
  | None => false
  end.

(** The holds between the choice of a candidate and the look at its host. *)
Definition late_hold (availability : AvailabilityMap) (source_requires_exit : bool)
    (assignments : list HostAssignment) (scheduler_runtime : SchedulerRuntimeView)
    (worker_name source target : string) : option Verdict :=
  match worker_runtime ← srv_worker_runtime_by_name scheduler_runtime !! worker_name;
        moved_within (cfg_worker_minimum_residency_seconds policy_config)
          (swr_last_move_at worker_runtime) with
  | Some age =>
      Some (mkVerdict "stable" "hold" "min-residency"
              ("min-residency(" +:+ to_string age +:+ "<" +:+
               to_string (cfg_worker_minimum_residency_seconds policy_config) +:+ ")"))
  | None =>
      let source_cooling := node_cooling scheduler_runtime source in
      let target_cooling := node_cooling scheduler_runtime target in
      let target_availability := sup_ResolveNodeAvailability availability target in
      let source_busy := NodeHasBlockingHostAssignment assignments source in
      let target_busy := NodeHasBlockingHostAssignment assignments target in
      if source_cooling || target_cooling
      then Some (mkVerdict "gated" "hold" "cooldown"
                   (if source_cooling && target_cooling then "cooldown-source-and-target"
                    else if source_cooling then "cooldown-source" else "cooldown-target"))
      else if source_requires_exit && (target ==? source)
      then Some (mkVerdict "gated" "hold" "draining-source" "no-active-drain-target")
      else if negb (sup_IsNodeSchedulable target_availability)
      then Some (mkVerdict "gated" "hold" "gated-target"
                   (if target_availability ==? Draining then "draining-target"
                    else "unavailable-target"))
      else if source_busy || target_busy
      then Some (mkVerdict "gated" "hold" "assignment-in-flight"
                   (if source_busy && target_busy then "source-and-target-node-busy"
                    else if source_busy then "source-node-busy" else "target-node-busy"))
      else None
  end.

(** The decision once nothing holds the move before its host is looked at. *)
Definition final_verdict (observations : list HostObservation) (stale_after_seconds : Z)
    (source_requires_exit : bool) (worker : InstanceSpec)
    (recommendation : WorkerPlacementRecommendation) (candidate : PlacementCandidate)
    : result Verdict :=
  gate_reason ← sup_ObservedSchedulingGateReason observations (cand_node_name candidate)
                  stale_after_seconds;
  match gate_reason with
  | Some reason => Ok (mkVerdict "gated" "hold" "gated-target" reason)
  | None =>
      gpu_gate_reason ←
        ObservedGpuPlacementGateReason observations worker (cand_node_name candidate)
          (cand_gpu_device candidate)
          ((cand_node_name candidate !=? rec_current_node_name recommendation) ||
           (cand_gpu_device candidate !=? rec_current_gpu_device recommendation));
      Ok match gpu_gate_reason with
         | Some reason => mkVerdict "gated" "hold" "gated-target" reason
         | None =>
             if cand_preemption_required candidate
             then mkVerdict "rollout-class" "defer"
                    (if source_requires_exit then "drain-preemption" else "deferred-preemption") ""
             else if cand_score candidate <? cfg_minimum_safe_direct_rebalance_score policy_config
             then mkVerdict "stable" "hold" "below-threshold"
                    ("score-below-threshold(" +:+ to_string (cand_score candidate) +:+ "<" +:+
                     to_string (cfg_minimum_safe_direct_rebalance_score policy_config) +:+ ")")
             else if cand_same_node candidate && (cand_action candidate ==? "upgrade-to-exclusive")
             then mkVerdict "safe-direct" "propose" "ready-in-place-upgrade" ""
             else if cand_same_node candidate then mkVerdict "stable" "hold" "stay" ""
             else mkVerdict "safe-direct" "propose"
                    (if source_requires_exit then "ready-drain-move" else "ready-move") ""
         end
  end.

Definition plan_entry (recommendation : WorkerPlacementRecommendation) (worker : InstanceSpec)
    (target : string * string) (candidate : option PlacementCandidate) (v : Verdict)
    : RebalancePlanEntry :=
  {| rpe_worker_name := rec_worker_name recommendation;
     rpe_placement_mode := inst_placement_mode worker;
     rpe_current_node_name := rec_current_node_name recommendation;
     rpe_current_gpu_device := rec_current_gpu_device recommendation;
     rpe_target_node_name := target.1; rpe_target_gpu_device := target.2;
     rpe_rebalance_class := vd_class v; rpe_decision := vd_decision v; rpe_state := vd_state v;
     rpe_action := from_option cand_action "" candidate;
     rpe_score := from_option cand_score 0 candidate;
     rpe_preemption_required := from_option cand_preemption_required false candidate;
     rpe_victim_worker_names := from_option cand_preemption_victims [] candidate;
     rpe_gate_reason := vd_gate_reason v |}.

(** One turn of the loop over the recommendations. *)
Definition rebalance_entry (state : DesiredState)
    (availability_overrides : list NodeAvailabilityOverride)
    (rollout_lifecycle_entries : list RolloutLifecycleEntry) (assignments : list HostAssignment)
    (scheduler_runtime : SchedulerRuntimeView) (observations : list HostObservation)
    (stale_after_seconds : Z) (node_name_filter : option string)
    (recommendation : WorkerPlacementRecommendation) : result (option RebalancePlanEntry) :=
  let worker_name := rec_worker_name recommendation in
  match FindWorkerInstance state worker_name with
  | None => Ok None
  | Some worker =>
      if negb (in_scope recommendation worker node_name_filter) then Ok None
      else
        let availability := sup_BuildAvailabilityOverrideMap availability_overrides in
        let source := rec_current_node_name recommendation in
        let source_requires_exit := sup_ResolveNodeAvailability availability source !=? Active in
        match early_hold worker_name scheduler_runtime rollout_lifecycle_entries with
        | Some (v, target) => Ok (Some (plan_entry recommendation worker target None v))
        | None =>
            match select_candidate availability source_requires_exit recommendation with
            | None =>
                Ok (Some (plan_entry recommendation worker ("", "") None
                  (if source_requires_exit
                   then mkVerdict "gated" "hold" "draining-source" "no-active-drain-target"
                   else mkVerdict "no-candidate" "hold" "no-candidate" "")))
            | Some candidate =>
                let target := (cand_node_name candidate, cand_gpu_device candidate) in
                let entry := plan_entry recommendation worker target (Some candidate) in
                match late_hold availability source_requires_exit assignments scheduler_runtime
                        worker_name source (cand_node_name candidate) with
                | Some v => Ok (Some (entry v))
                | None =>
                    v ← final_verdict observations stale_after_seconds source_requires_exit worker
                          recommendation candidate;
                    Ok (Some (entry v))
                end
            end
        end
  end.

Definition plan_before (left right : RebalancePlanEntry) : bool :=
  if rpe_worker_name left !=? rpe_worker_name right
  then klt (rpe_worker_name left) (rpe_worker_name right)
  else klt (rpe_target_node_name left) (rpe_target_node_name right).

Definition BuildRebalancePlanEntries (state : DesiredState)
    (scheduling_report : SchedulingPolicyReport)
    (availability_overrides : list NodeAvailabilityOverride)
    (rollout_lifecycle_entries : list RolloutLifecycleEntry) (assignments : list HostAssignment)
    (scheduler_runtime : SchedulerRuntimeView) (observations : list HostObservation)
    (stale_after_seconds : Z) (node_name_filter : option string) : result (list RebalancePlanEntry) :=
  entries ← collectR (rebalance_entry state availability_overrides rollout_lifecycle_entries
                        assignments scheduler_runtime observations stale_after_seconds
                        node_name_filter) (rep_placement_recommendations scheduling_report);
  Ok (std_sort plan_before entries).

(** ** What a proposal means *)

(** The first element of a list with a property. *)
Definition FirstWith {A} (P : A -> Prop) (l : list A) (x : A) : Prop :=
  exists before after, l = before ++ x :: after /\ P x /\ Forall (fun y => ~ P y) before.

(** Where a worker goes: when it must leave its node, to the first feasible candidate on
    another schedulable node; without such a candidate, or when it may stay, to the first
    feasible candidate; and when no candidate is feasible, to the first one. *)
Definition Feasible (candidate : PlacementCandidate) : Prop :=
  cand_action candidate <> "insufficient-memory" /\ cand_action candidate <> "insufficient-fraction".
Definition WayOut (availability : AvailabilityMap) (r : WorkerPlacementRecommendation)
    (candidate : PlacementCandidate) : Prop :=
  Feasible candidate /\ cand_node_name candidate <> rec_current_node_name r /\
  sup_IsNodeSchedulable (sup_ResolveNodeAvailability availability (cand_node_name candidate)) = true.
Definition Chosen (availability : AvailabilityMap) (must_leave : Prop) (r : WorkerPlacementRecommendation)
    (candidate : PlacementCandidate) : Prop :=
  (must_leave /\ FirstWith (WayOut availability r) (rec_candidates r) candidate) \/
  ((~ must_leave \/ Forall (fun c => ~ WayOut availability r c) (rec_candidates r)) /\
   (FirstWith Feasible (rec_candidates r) candidate \/
    Forall (fun c => ~ Feasible c) (rec_candidates r) /\ exists others, rec_candidates r = candidate :: others)).

(** Nothing speaks against moving the worker of a recommendation to the
    candidate chosen for it. *)
Record Movable (state : DesiredState) (overrides : list NodeAvailabilityOverride)
    (lifecycle : list RolloutLifecycleEntry) (assignments : list HostAssignment)
    (runtime : SchedulerRuntimeView) (observations : list HostObservation)
    (stale_after_seconds : Z) (filter : option string)
    (r : WorkerPlacementRecommendation) (worker : InstanceSpec) (candidate : PlacementCandidate)
    : Prop := {
  mv_worker : FindWorkerInstance state (rec_worker_name r) = Some worker;
  mv_scope : in_scope r worker filter = true;
  mv_no_intervention : forall w, srv_worker_runtime_by_name runtime !! rec_worker_name r = Some w ->
    swr_manual_intervention_required w = false;
  mv_no_action : forall p, srv_plane_runtime runtime = Some p -> spr_active_action p = "";
  mv_no_rollout : forall e, FindRolloutLifecycleEntry lifecycle (rec_worker_name r) = Some e ->
    rle_phase e = RolloutApplied;
  mv_chosen : Chosen (sup_BuildAvailabilityOverrideMap overrides)
    (sup_ResolveNodeAvailability (sup_BuildAvailabilityOverrideMap overrides)
       (rec_current_node_name r) <> Active) r candidate;
  mv_residency : forall w age, srv_worker_runtime_by_name runtime !! rec_worker_name r = Some w ->
    sup_TimestampAgeSeconds (swr_last_move_at w) = Some age ->
    cfg_worker_minimum_residency_seconds policy_config <= age;
  mv_cooldown : forall node n age, node = rec_current_node_name r \/ node = cand_node_name candidate ->
    srv_node_runtime_by_name runtime !! node = Some n ->
    sup_TimestampAgeSeconds (snr_last_move_at n) = Some age ->
    cfg_node_cooldown_after_move_seconds policy_config <= age;
  mv_leaves : sup_ResolveNodeAvailability (sup_BuildAvailabilityOverrideMap overrides)
                (rec_current_node_name r) <> Active ->
    cand_node_name candidate <> rec_current_node_name r;
  mv_schedulable : sup_IsNodeSchedulable (sup_ResolveNodeAvailability
    (sup_BuildAvailabilityOverrideMap overrides) (cand_node_name candidate)) = true;
  mv_quiet : forall a, a ∈ assignments ->
    ha_node_name a = rec_current_node_name r \/ ha_node_name a = cand_node_name candidate ->
    ha_status a <> Pending /\ ha_status a <> Claimed;
  mv_host : sup_ObservedSchedulingGateReason observations (cand_node_name candidate)
    stale_after_seconds = Ok None;
  mv_gpu : ObservedGpuPlacementGateReason observations worker (cand_node_name candidate)
    (cand_gpu_device candidate)
    ((cand_node_name candidate !=? rec_current_node_name r) ||
     (cand_gpu_device candidate !=? rec_current_gpu_device r)) = Ok None;
  mv_no_preemption : cand_preemption_required candidate = false;
  mv_score : cfg_minimum_safe_direct_rebalance_score policy_config <= cand_score candidate;
  mv_kind : cand_same_node candidate = true -> cand_action candidate = "upgrade-to-exclusive";
}.

(** *** Lemmas *)

Lemma find_if_first {A} (p : A -> bool) (P : A -> Prop) l x :
  (forall y, p y = true <-> P y) -> find_if p l = Some x <-> FirstWith P l x.
Proof.
  intros Hp. unfold FirstWith. induction l as [|y l IH]; cbn [find_if].
  - split; [done|]. intros (before & after & H & _). by destruct before.
  - destruct (p y) eqn:E.
    + apply Hp in E. split; [intros [= <-]; exists [], l; by repeat constructor|].
      intros ([|z before] & after & H & _ & Hb); cbn in H; injection H as -> ->; [done|].
      inversion Hb as [|? ? Hz]. done.
    + assert (~ P y) as Hy by (intros ?%Hp; congruence). rewrite IH. split.
      * intros (before & after & -> & Hx & Hb). exists (y :: before), after. by repeat constructor.
      * intros ([|z before] & after & H & Hx & Hb); cbn in H; injection H as -> ->; [done|].
        exists before, after. by inversion Hb.
Qed.

Lemma find_if_no {A} (p : A -> bool) (P : A -> Prop) l :
  (forall y, p y = true <-> P y) -> find_if p l = None <-> Forall (fun y => ~ P y) l.
Proof.
  intros Hp. rewrite find_if_None, Forall_forall. apply forall_proper. intros y. apply forall_proper. intros _.
  rewrite <-Hp. by rewrite not_true_iff_false.
Qed.

Lemma feasible_iff candidate : feasible candidate = true <-> Feasible candidate.
Proof. unfold feasible, Feasible. by rewrite andb_true_iff, !negb_true_iff, !eqb_false. Qed.

Lemma select_candidate_iff availability must_leave r candidate :
  select_candidate availability must_leave r = Some candidate <->
  Chosen availability (must_leave = true) r candidate.
Proof.
  unfold select_candidate, Chosen.
  set (out := fun c : PlacementCandidate => _ && _ && _).
  assert (Hout : forall c, out c = true <-> WayOut availability r c).
  { intros c. unfold out, WayOut. rewrite !andb_true_iff, feasible_iff, negb_true_iff, eqb_false. tauto. }
  rewrite <-!(find_if_first _ _ _ _ Hout), <-!(find_if_no _ _ _ Hout).
  rewrite <-!(find_if_first _ _ _ _ feasible_iff), <-!(find_if_no _ _ _ feasible_iff).
  destruct must_leave; [destruct (find_if out _)|];
    destruct (find_if feasible (rec_candidates r)); destruct (rec_candidates r); naive_solver.
Qed.

#[export] Instance Chosen_proper availability : Proper (iff ==> eq ==> eq ==> iff) (Chosen availability).
Proof. intros P Q HPQ r ? <- c ? <-. unfold Chosen. by rewrite HPQ. Qed.

Lemma early_hold_hold worker runtime lifecycle v target :
  early_hold worker runtime lifecycle = Some (v, target) -> vd_decision v = "hold".
Proof.
  unfold early_hold. intros H.
  repeat (case_match; simplify_eq; try done).
Qed.

Lemma early_hold_None worker runtime lifecycle :
  early_hold worker runtime lifecycle = None <->
  (forall w, srv_worker_runtime_by_name runtime !! worker = Some w ->
     swr_manual_intervention_required w = false) /\
  (forall p, srv_plane_runtime runtime = Some p -> spr_active_action p = "") /\
  (forall e, FindRolloutLifecycleEntry lifecycle worker = Some e -> rle_phase e = RolloutApplied).
Proof.
  unfold early_hold, RolloutPhaseBlocksRebalance. split.
  - intros H.
    destruct (srv_worker_runtime_by_name runtime !! worker) as [w|] eqn:Ew; cbn [from_option] in H;
      [destruct (swr_manual_intervention_required w) eqn:Em; [done|]|];
      (split; [intros; simplify_eq; done|]);
      (destruct (srv_plane_runtime runtime) as [p|] eqn:Ep;
        [destruct (str_empty (spr_active_action p)) eqn:Ea; [apply str_empty_true in Ea|by case_match]|]);
      (split; [intros; simplify_eq; done|]); intros e He; rewrite He in H;
      destruct (rle_phase e ==? RolloutApplied) eqn:Er; try done; by rewrite eqb_true in Er.
  - intros (Hw & Hp & He).
    destruct (srv_worker_runtime_by_name runtime !! worker) as [w|]; cbn [from_option];
      [rewrite (Hw w eq_refl)|];
      (destruct (srv_plane_runtime runtime) as [p|]; [rewrite (Hp p eq_refl); cbn [str_empty]|]);
      (destruct (FindRolloutLifecycleEntry lifecycle worker) as [e|]; [by rewrite (He e eq_refl)|done]).
Qed.

Lemma moved_within_None seconds last_move_at :
  moved_within seconds last_move_at = None <->
  forall age, sup_TimestampAgeSeconds last_move_at = Some age -> seconds <= age.
Proof.
  unfold moved_within. destruct (sup_TimestampAgeSeconds last_move_at) as [age|]; cbn; [|naive_solver].
  destruct (Z.ltb_spec age seconds); split; intros H'; try done; [|naive_solver lia..].
  specialize (H' _ eq_refl). lia.
Qed.

Lemma node_cooling_false runtime node :
  node_cooling runtime node = false <->
  forall n age, srv_node_runtime_by_name runtime !! node = Some n ->
    sup_TimestampAgeSeconds (snr_last_move_at n) = Some age ->
    cfg_node_cooldown_after_move_seconds policy_config <= age.
Proof.
  unfold node_cooling. destruct (srv_node_runtime_by_name runtime !! node) as [n|]; [|naive_solver].
  destruct (moved_within _ _) eqn:E; cbn [has_value].
  - split; [done|]. intros H. assert (moved_within (cfg_node_cooldown_after_move_seconds policy_config)
      (snr_last_move_at n) = None) by (apply moved_within_None; eauto). congruence.
  - rewrite moved_within_None in E. naive_solver.
Qed.

Lemma node_not_busy assignments node :
  NodeHasBlockingHostAssignment assignments node = false <->
  forall a, a ∈ assignments -> ha_node_name a = node -> ha_status a <> Pending /\ ha_status a <> Claimed.
Proof.
  unfold NodeHasBlockingHostAssignment, HostAssignmentBlocksRebalance. rewrite any_of_false.
  split; intros H a Ha.
  - intros Hn. specialize (H a Ha). rewrite andb_false_iff, orb_false_iff, !eqb_false in H. naive_solver.
  - specialize (H a Ha). rewrite andb_false_iff, orb_false_iff, !eqb_false.
    destruct (decide (ha_node_name a = node)); naive_solver.
Qed.

Lemma late_hold_hold availability exit assignments runtime worker source target v :
  late_hold availability exit assignments runtime worker source target = Some v ->
  vd_decision v = "hold".
Proof. unfold late_hold. intros H. repeat (case_match; simplify_eq; try done). Qed.

Lemma late_hold_None availability exit assignments runtime worker source target :
  late_hold availability exit assignments runtime worker source target = None <->
  (forall w age, srv_worker_runtime_by_name runtime !! worker = Some w ->
     sup_TimestampAgeSeconds (swr_last_move_at w) = Some age ->
     cfg_worker_minimum_residency_seconds policy_config <= age) /\
  node_cooling runtime source = false /\ node_cooling runtime target = false /\
  (exit = true -> target <> source) /\
  sup_IsNodeSchedulable (sup_ResolveNodeAvailability availability target) = true /\
  NodeHasBlockingHostAssignment assignments source = false /\
  NodeHasBlockingHostAssignment assignments target = false.
Proof.
  unfold late_hold.
  assert (Hres : (srv_worker_runtime_by_name runtime !! worker ≫= fun w =>
      moved_within (cfg_worker_minimum_residency_seconds policy_config) (swr_last_move_at w)) = None <->
    (forall w age, srv_worker_runtime_by_name runtime !! worker = Some w ->
     sup_TimestampAgeSeconds (swr_last_move_at w) = Some age ->
     cfg_worker_minimum_residency_seconds policy_config <= age)).
  { destruct (srv_worker_runtime_by_name runtime !! worker) as [w|]; cbn; [|naive_solver].
    rewrite moved_within_None. naive_solver. }
  rewrite <-Hres. clear Hres.
  destruct (srv_worker_runtime_by_name runtime !! worker ≫= _); [naive_solver|].
  destruct (node_cooling runtime source), (node_cooling runtime target); cbn [orb andb];
    try naive_solver.
  destruct exit; cbn [andb]; [destruct (target ==? source) eqn:E;
    [rewrite eqb_true in E|rewrite eqb_false in E]; [naive_solver|]|];
    destruct (sup_IsNodeSchedulable _), (NodeHasBlockingHostAssignment assignments source),
      (NodeHasBlockingHostAssignment assignments target); cbn [negb orb]; naive_solver.
Qed.

Lemma final_verdict_propose observations stale exit worker r candidate v :
  final_verdict observations stale exit worker r candidate = Ok v ->
  vd_decision v = "propose" <->
  sup_ObservedSchedulingGateReason observations (cand_node_name candidate) stale = Ok None /\
  ObservedGpuPlacementGateReason observations worker (cand_node_name candidate)
    (cand_gpu_device candidate)
    ((cand_node_name candidate !=? rec_current_node_name r) ||
     (cand_gpu_device candidate !=? rec_current_gpu_device r)) = Ok None /\
  cand_preemption_required candidate = false /\
  cfg_minimum_safe_direct_rebalance_score policy_config <= cand_score candidate /\
  (cand_same_node candidate = true -> cand_action candidate = "upgrade-to-exclusive").
Proof.
  unfold final_verdict.
  destruct (sup_ObservedSchedulingGateReason _ _ _) as [[reason|]|] eqn:Eh; cbn [mbind result_bind];
    [intros; simplify_eq; naive_solver| |done].
  destruct (ObservedGpuPlacementGateReason _ _ _ _ _) as [[reason|]|] eqn:Eg; cbn [mbind result_bind];
    [intros; simplify_eq; naive_solver| |done].
  destruct (cand_preemption_required candidate); [intros; simplify_eq; naive_solver|].
  destruct (Z.ltb_spec (cand_score candidate) (cfg_minimum_safe_direct_rebalance_score policy_config));
    [intros; simplify_eq; cbn; naive_solver lia|].
  destruct (cand_same_node candidate); cbn [andb]; [|intros; simplify_eq; naive_solver].
  destruct (cand_action candidate ==? "upgrade-to-exclusive") eqn:E;
    [rewrite eqb_true in E|rewrite eqb_false in E]; intros; simplify_eq; naive_solver.
Qed.

Section plan.
Context (state : DesiredState) (overrides : list NodeAvailabilityOverride)
  (lifecycle : list RolloutLifecycleEntry) (assignments : list HostAssignment)
  (runtime : SchedulerRuntimeView) (observations : list HostObservation)
  (stale_after_seconds : Z) (filter : option string).

Abbreviation entry_of := (rebalance_entry state overrides lifecycle assignments runtime observations
  stale_after_seconds filter).
Abbreviation movable := (Movable state overrides lifecycle assignments runtime observations
  stale_after_seconds filter).

(** What a proposal shows of its candidate. *)
Definition proposal_of (r : WorkerPlacementRecommendation) (candidate : PlacementCandidate)
    (e : RebalancePlanEntry) : Prop :=
  rpe_worker_name e = rec_worker_name r /\ rpe_decision e = "propose" /\
  rpe_rebalance_class e = "safe-direct" /\
  rpe_current_node_name e = rec_current_node_name r /\
  rpe_current_gpu_device e = rec_current_gpu_device r /\
  rpe_target_node_name e = cand_node_name candidate /\
  rpe_target_gpu_device e = cand_gpu_device candidate /\
  rpe_action e = cand_action candidate /\ rpe_score e = cand_score candidate.

Lemma movable_checks r worker candidate :
  movable r worker candidate <->
  FindWorkerInstance state (rec_worker_name r) = Some worker /\ in_scope r worker filter = true /\
  early_hold (rec_worker_name r) runtime lifecycle = None /\
  let availability := sup_BuildAvailabilityOverrideMap overrides in
  let exit := sup_ResolveNodeAvailability availability (rec_current_node_name r) !=? Active in
  select_candidate availability exit r = Some candidate /\
  late_hold availability exit assignments runtime (rec_worker_name r) (rec_current_node_name r)
    (cand_node_name candidate) = None /\
  exists v, final_verdict observations stale_after_seconds exit worker r candidate = Ok v /\
            vd_decision v = "propose".
Proof.
  cbn zeta. rewrite early_hold_None, late_hold_None, !node_cooling_false, !node_not_busy.
  assert (Hexit : forall a : NodeAvailability, (a !=? Active) = true <-> a <> Active).
  { intros a. rewrite negb_true_iff. apply eqb_false. }
  rewrite select_candidate_iff, Hexit. split.
  - intros []. split_and!; try solve [done | intros; eauto].
    destruct (final_verdict observations stale_after_seconds
      (sup_ResolveNodeAvailability (sup_BuildAvailabilityOverrideMap overrides)
         (rec_current_node_name r) !=? Active) worker r candidate) as [v|e] eqn:Ev.
    + exists v. split; [done|]. by apply (final_verdict_propose _ _ _ _ _ _ _ Ev).
    + exfalso. unfold final_verdict in Ev. rewrite mv_host0 in Ev. cbn in Ev.
      by rewrite mv_gpu0 in Ev.
  - intros (? & ? & (? & ? & ?) & ? & (? & Hcs & Hct & ? & ? & Hqs & Hqt) & v & Hv & Hp).
    apply (final_verdict_propose _ _ _ _ _ _ _ Hv) in Hp as (? & ? & ? & ? & ?).
    constructor; try done.
    + intros node n age [-> | ->]; eauto.
    + intros a Ha [Hn|Hn]; eauto.
Qed.

Lemma verdict_safe_direct exit worker r candidate v :
  final_verdict observations stale_after_seconds exit worker r candidate = Ok v ->
  vd_decision v = "propose" -> vd_class v = "safe-direct".
Proof.
  unfold final_verdict. intros H.
  destruct (sup_ObservedSchedulingGateReason _ _ _) as [[]|]; cbn [mbind result_bind] in H;
    [by simplify_eq| |done].
  destruct (ObservedGpuPlacementGateReason _ _ _ _ _) as [[]|]; cbn [mbind result_bind] in H;
    [by simplify_eq| |done].
  injection H as <-. by repeat case_match.
Qed.

Lemma rebalance_entry_proposal r e :
  entry_of r = Ok (Some e) -> rpe_decision e = "propose" ->
  exists worker candidate, movable r worker candidate /\ proposal_of r candidate e.
Proof.
  unfold rebalance_entry. cbn zeta. intros H Hp.
  destruct (FindWorkerInstance state (rec_worker_name r)) as [worker|] eqn:Ew; [|done].
  destruct (in_scope r worker filter) eqn:Es; cbn [negb] in H; [|done].
  destruct (early_hold _ _ _) as [[v target]|] eqn:Ee.
  { simplify_eq. apply early_hold_hold in Ee. cbn in Hp. congruence. }
  destruct (select_candidate _ _ _) as [candidate|] eqn:Ec;
    [|simplify_eq; cbn in Hp; by case_match].
  destruct (late_hold _ _ _ _ _ _ _) as [v|] eqn:El.
  { simplify_eq. apply late_hold_hold in El. cbn in Hp. congruence. }
  bind_inv. cbn in Hp. exists worker, candidate. split.
  - apply movable_checks. cbn zeta. eauto 10.
  - unfold proposal_of. cbn. repeat split; try done. by eapply verdict_safe_direct.
Qed.

Lemma movable_entry r worker candidate :
  movable r worker candidate -> exists e, entry_of r = Ok (Some e) /\ proposal_of r candidate e.
Proof.
  intros (Hw & Hs & He & Hc & Hl & v & Hv & Hp)%movable_checks. cbn zeta in *.
  eexists. unfold rebalance_entry. rewrite Hw, Hs, He, Hc, Hl, Hv. cbn. split; [done|].
  unfold proposal_of. cbn. repeat split; try done. by eapply verdict_safe_direct.
Qed.
End plan.
End domain.

(** *** Lemmas: rollout actions by worker *)

Definition of_worker (generation : Z) (worker : string) (a : RolloutActionRecord) : bool :=
  (ra_desired_generation a =? generation) && (ra_worker_name a ==? worker).

Lemma lookup_actions_by_worker generation actions worker :
  actions_by_worker generation actions !! worker =
  match List.filter (of_worker generation worker) actions with [] => None | l => Some l end.
Proof.
  unfold actions_by_worker. induction actions as [|a actions IH] using rev_ind; [done|].
  rewrite foldl_snoc, List.filter_app. cbn [List.filter]. unfold of_worker at 2.
  destruct (ra_desired_generation a =? generation); cbn [andb]; [|by rewrite IH, app_nil_r].
  destruct (decide (ra_worker_name a = worker)) as [<-|Hne].
  - rewrite lookup_insert_eq, eqb_refl, IH.
    by destruct (List.filter (of_worker generation (ra_worker_name a)) actions).
  - rewrite lookup_insert_ne by done. assert ((ra_worker_name a ==? worker) = false) as ->
      by by apply eqb_false. by rewrite app_nil_r.
Qed.

(** An action that concerns the roll-out of its worker. *)
Definition open_action (a : RolloutActionRecord) : bool :=
  (ra_action a ==? "evict-best-effort") || (ra_action a ==? "retry-placement").

Lemma worker_lifecycle_None generation assignments worker actions :
  worker_lifecycle generation assignments worker actions = None <->
  forall a, a ∈ actions -> open_action a = false.
Proof.
  unfold worker_lifecycle, open_action. cbn zeta.
  set (evict := find_if (fun a => ra_action a ==? "evict-best-effort") (std_sort rollout_before actions)).
  set (retry := find_if (fun a => ra_action a ==? "retry-placement") (std_sort rollout_before actions)).
  trans (evict = None /\ retry = None).
  - destruct retry, evict; cbn; repeat case_match; naive_solver.
  - subst evict retry. rewrite !find_if_None. setoid_rewrite elem_of_std_sort.
    setoid_rewrite orb_false_iff. naive_solver.
Qed.

Lemma worker_lifecycle_Some generation assignments worker actions e :
  worker_lifecycle generation assignments worker actions = Some e ->
  rle_worker_name e = worker /\ RolloutPhaseBlocksRebalance (rle_phase e) = true.
Proof.
  unfold worker_lifecycle. cbn zeta. intros H.
  assert (Hphase : forall a, RolloutPhaseBlocksRebalance (eviction_phase assignments a).1 = true).
  { intros a. unfold eviction_phase. by repeat case_match. }
  destruct (find_if (fun a => ra_action a ==? "evict-best-effort") _) as [evict|]; cbn in H;
    [specialize (Hphase evict); destruct (eviction_phase assignments evict) as [phase detail]|];
    (destruct (find_if (fun a => ra_action a ==? "retry-placement") _) as [retry|];
      [destruct (ra_status retry ==? ReadyToRetry)|]); cbn in H; simplify_eq; done.
Qed.

Section theorems.
Context `{Support : SchedulerDomainSupport} (cfg : SchedulerDomainPolicyConfig).

Lemma elem_of_lifecycle state generation actions assignments observations entries :
  BuildRolloutLifecycleEntries cfg state generation actions assignments observations = Ok entries ->
  forall e, e ∈ entries <->
  (exists worker l, actions_by_worker generation actions !! worker = Some l /\
                    worker_lifecycle generation assignments worker l = Some e) \/
  (exists i, i ∈ ds_instances state /\
     materialized_lifecycle cfg generation assignments observations
       (actions_by_worker generation actions) i = Ok (Some e)).
Proof.
  unfold BuildRolloutLifecycleEntries. intros H e. bind_inv.
  rewrite elem_of_std_sort, elem_of_app, list_elem_of_omap.
  destruct (collectR_elem _ _ _ E) as [_ ->].
  split; (intros [H|H]; [left|by right]).
  - destruct H as ([worker l] & Hin & He). exists worker, l. split; [|done]. by apply elem_of_map_items.
  - destruct H as (worker & l & Hl & He). exists (worker, l). split; [|done]. by apply elem_of_map_items.
Qed.

(** A placement that is materialised and no longer steered by an action. *)
Definition settled_placement (generation : Z) (actions : list RolloutActionRecord)
    (i : InstanceSpec) : Prop :=
  inst_role i = Worker /\ materialized_retry i = true /\
  forall a, a ∈ actions -> ra_desired_generation a = generation -> ra_worker_name a <> inst_name i.

Lemma no_actions_of_worker generation actions worker :
  actions_by_worker generation actions !! worker = None <->
  forall a, a ∈ actions -> ra_desired_generation a = generation -> ra_worker_name a <> worker.
Proof.
  rewrite lookup_actions_by_worker.
  destruct (List.filter _ _) as [|b l] eqn:E.
  - split; [|done]. intros _ a Ha Hg Hw.
    assert (a ∈ List.filter (of_worker generation worker) actions) as Hin; [|by rewrite E in Hin; apply elem_of_nil in Hin].
    apply elem_of_filterb. split; [done|]. unfold of_worker.
    by rewrite (proj2 (Z.eqb_eq _ _) Hg), (proj2 (eqb_true _ _) Hw).
  - split; [done|]. intros H.
    assert (b ∈ List.filter (of_worker generation worker) actions) as Hb by (rewrite E; by left).
    apply elem_of_filterb in Hb as [Hb Hp]. unfold of_worker in Hp.
    rewrite andb_true_iff, Z.eqb_eq, eqb_true in Hp. destruct Hp as [Hg Hw]. by destruct (H b Hb Hg).
Qed.

Lemma materialized_settled generation actions assignments observations i e :
  materialized_lifecycle cfg generation assignments observations
    (actions_by_worker generation actions) i = Ok (Some e) <->
  settled_placement generation actions i /\
  exists phase detail,
    materialized_phase cfg generation assignments observations (inst_node_name i) = Ok (phase, detail) /\
    e = mkRolloutLifecycleEntry (inst_name i) generation phase None (inst_node_name i)
          (value_or (inst_gpu_device i) "") [] detail.
Proof.
  unfold materialized_lifecycle, settled_placement. rewrite <-no_actions_of_worker.
  destruct (inst_role i ==? Worker) eqn:Er; cbn [negb];
    [rewrite eqb_true in Er|rewrite eqb_false in Er; naive_solver].
  destruct (materialized_retry i); cbn [negb]; [|naive_solver].
  destruct (actions_by_worker generation actions !! inst_name i); cbn [has_value]; [naive_solver|].
  destruct (materialized_phase _ _ _ _ _) as [[phase detail]|]; cbn; naive_solver.
Qed.

Lemma set_items_empty (l : list string) : vsize (set_items (list_to_set l : gset string)) = 0 <-> l = [].
Proof.
  unfold vsize. split.
  - intros H. destruct l as [|x l]; [done|].
    assert (x ∈ set_items (list_to_set (x :: l) : gset string)) as Hx
      by (apply elem_of_set_items; set_solver).
    destruct (set_items _); [by apply elem_of_nil in Hx|cbn in H; lia].
  - by intros ->.
Qed.

Lemma fmap_filter_nil {A} (f : A -> string) (p : A -> bool) l :
  f <$> List.filter p l = [] <-> forall x, x ∈ l -> p x = false.
Proof.
  split.
  - intros H%fmap_nil_inv x Hx. destruct (p x) eqn:E; [|done].
    assert (x ∈ List.filter p l) as Hin by by apply elem_of_filterb.
    rewrite H in Hin. by apply elem_of_nil in Hin.
  - intros H. induction l as [|x l IH]; [done|]. cbn [List.filter]. rewrite (H x) by by left.
    apply IH. intros y Hy. apply H. by right.
Qed.

Lemma gate_ready_iff state generation overrides lifecycle assignments runtime observations stale :
  gate_cluster_ready (BuildRebalanceControllerGateSummary state generation overrides lifecycle
                        assignments runtime observations stale) = true <->
  (forall e, e ∈ lifecycle -> RolloutPhaseBlocksRebalance (rle_phase e) = false) /\
  (forall p, srv_plane_runtime runtime = Some p ->
     spr_active_action p = "" \/ spr_active_worker_name p = "") /\
  (forall a, a ∈ assignments -> ha_status a <> Pending /\ ha_status a <> Claimed) /\
  (forall n, n ∈ ds_nodes state ->
     sup_IsNodeSchedulable (sup_ResolveNodeAvailability
       (sup_BuildAvailabilityOverrideMap overrides) (node_name n)) = true ->
     node_converged generation observations stale (node_name n) = true).
Proof.
  unfold BuildRebalanceControllerGateSummary. cbn [gate_cluster_ready]. cbn zeta.
  rewrite !andb_true_iff, !Z.eqb_eq, !set_items_empty, app_nil, !fmap_filter_nil.
  assert (Hactive : match srv_plane_runtime runtime with
    | Some r => if negb (str_empty (spr_active_action r)) && negb (str_empty (spr_active_worker_name r))
                then [spr_active_worker_name r] else []
    | None => [] end = [] <->
    (forall p, srv_plane_runtime runtime = Some p ->
     spr_active_action p = "" \/ spr_active_worker_name p = "")).
  { destruct (srv_plane_runtime runtime) as [r|]; [|naive_solver].
    destruct (str_empty (spr_active_action r)) eqn:Ea, (str_empty (spr_active_worker_name r)) eqn:Ew;
      cbn [negb andb]; rewrite ?str_empty_true, ?str_empty_false in *; naive_solver. }
  assert (Hbusy : (forall a, a ∈ assignments -> HostAssignmentBlocksRebalance a = false) <->
    (forall a, a ∈ assignments -> ha_status a <> Pending /\ ha_status a <> Claimed)).
  { unfold HostAssignmentBlocksRebalance. setoid_rewrite orb_false_iff. by setoid_rewrite eqb_false. }
  assert (Hnodes : (forall n, n ∈ ds_nodes state ->
      sup_IsNodeSchedulable (sup_ResolveNodeAvailability
        (sup_BuildAvailabilityOverrideMap overrides) (node_name n)) &&
      negb (node_converged generation observations stale (node_name n)) = false) <->
    (forall n, n ∈ ds_nodes state ->
     sup_IsNodeSchedulable (sup_ResolveNodeAvailability
       (sup_BuildAvailabilityOverrideMap overrides) (node_name n)) = true ->
     node_converged generation observations stale (node_name n) = true)).
  { split; intros H n Hn; specialize (H n Hn); destruct (sup_IsNodeSchedulable _), (node_converged _ _ _ _);
      naive_solver. }
  rewrite Hactive, Hbusy, Hnodes. tauto.
Qed.

Lemma lifecycle_clear_iff state generation actions assignments observations lifecycle :
  BuildRolloutLifecycleEntries cfg state generation actions assignments observations = Ok lifecycle ->
  (forall e, e ∈ lifecycle -> RolloutPhaseBlocksRebalance (rle_phase e) = false) <->
  (forall a, a ∈ actions -> ra_desired_generation a = generation -> open_action a = false) /\
  (forall i, i ∈ ds_instances state -> settled_placement generation actions i ->
     exists detail, materialized_phase cfg generation assignments observations (inst_node_name i) =
                    Ok (RolloutApplied, detail)).
Proof.
  intros Hl. pose proof (elem_of_lifecycle _ _ _ _ _ _ Hl) as Hin. split.
  - intros H. split.
    + intros a Ha Hg.
      destruct (actions_by_worker generation actions !! ra_worker_name a) as [l|] eqn:El;
        [|by destruct (proj1 (no_actions_of_worker _ _ _) El a Ha Hg)].
      assert (a ∈ l) as Hal.
      { rewrite lookup_actions_by_worker in El.
        assert (a ∈ List.filter (of_worker generation (ra_worker_name a)) actions) as Hf.
        { apply elem_of_filterb. split; [done|]. unfold of_worker.
          by rewrite (proj2 (Z.eqb_eq _ _) Hg), eqb_refl. }
        by destruct (List.filter _ _); simplify_eq. }
      destruct (worker_lifecycle generation assignments (ra_worker_name a) l) as [e|] eqn:Ew;
        [|by apply (proj1 (worker_lifecycle_None _ _ _ _) Ew)].
      destruct (worker_lifecycle_Some _ _ _ _ _ Ew) as [_ Hb].
      rewrite H in Hb; [done|]. apply Hin. left. eauto.
    + intros i Hi Hs. unfold BuildRolloutLifecycleEntries in Hl. bind_inv.
      destruct (collectR_elem _ _ _ E) as [Hok _]. destruct (Hok i Hi) as (o & Ho).
      unfold materialized_lifecycle in Ho. pose proof Hs as (Hr & Hm & Ha).
      rewrite Hr, eqb_refl, Hm, (proj2 (no_actions_of_worker _ _ _) Ha) in Ho. cbn in Ho.
      destruct (materialized_phase _ _ _ _ _) as [[phase detail]|] eqn:Ep; [|done].
      exists detail. do 2 f_equal.
      assert (Hb : RolloutPhaseBlocksRebalance phase = false).
      { apply (H (mkRolloutLifecycleEntry (inst_name i) generation phase None (inst_node_name i)
          (value_or (inst_gpu_device i) "") [] detail)).
        apply Hin. right. exists i. split; [done|]. apply materialized_settled. eauto 6. }
      unfold RolloutPhaseBlocksRebalance in Hb. rewrite negb_false_iff, eqb_true in Hb. done.
  - intros [Ha Hi] e [(worker & l & Hlk & He)|(i & Hin' & He)]%Hin.
    + assert (worker_lifecycle generation assignments worker l = None) as Hn; [|congruence].
      apply worker_lifecycle_None. intros a Hal. rewrite lookup_actions_by_worker in Hlk.
      assert (a ∈ List.filter (of_worker generation worker) actions) as Hf
        by by destruct (List.filter _ _); simplify_eq.
      apply elem_of_filterb in Hf as [Haa Hp]. unfold of_worker in Hp.
      rewrite andb_true_iff, Z.eqb_eq in Hp. naive_solver.
    + apply materialized_settled in He as (Hs & phase & detail & Hp & ->).
      destruct (Hi i Hin' Hs) as [detail' Hp']. rewrite Hp in Hp'. by simplify_eq.
Qed.

Lemma node_converged_iff generation observations stale name :
  node_converged generation observations stale name = true <->
  exists o, FindHostObservationForNode observations name = Some o /\ obs_status o <> ObsFailed /\
    sup_HealthFromAge (sup_HeartbeatAgeSeconds (obs_heartbeat_at o)) stale = "online" /\
    obs_applied_generation o = Some generation.
Proof.
  unfold node_converged. destruct (FindHostObservationForNode observations name) as [o|]; [|naive_solver].
  rewrite !andb_true_iff, negb_true_iff, eqb_false, eqb_true, bool_decide_eq_true. naive_solver.
Qed.

(** The gate of the controller opens exactly when the cluster has settled: no
    eviction or retry of the current generation is recorded, every retried
    placement is observed as applied on its host, no action of the scheduler is
    active, no assignment is pending or claimed, and every schedulable node
    reports the desired generation, online and not failed. *)
Theorem cluster_ready_exact state generation overrides actions assignments runtime observations stale
    lifecycle :
  BuildRolloutLifecycleEntries cfg state generation actions assignments observations = Ok lifecycle ->
  gate_cluster_ready (BuildRebalanceControllerGateSummary state generation overrides lifecycle
                        assignments runtime observations stale) = true <->
  (forall a, a ∈ actions -> ra_desired_generation a = generation -> open_action a = false) /\
  (forall i, i ∈ ds_instances state -> settled_placement generation actions i ->
     exists detail, materialized_phase cfg generation assignments observations (inst_node_name i) =
                    Ok (RolloutApplied, detail)) /\
  (forall p, srv_plane_runtime runtime = Some p ->
     spr_active_action p = "" \/ spr_active_worker_name p = "") /\
  (forall a, a ∈ assignments -> ha_status a <> Pending /\ ha_status a <> Claimed) /\
  (forall n, n ∈ ds_nodes state ->
     sup_IsNodeSchedulable (sup_ResolveNodeAvailability
       (sup_BuildAvailabilityOverrideMap overrides) (node_name n)) = true ->
     exists o, FindHostObservationForNode observations (node_name n) = Some o /\
       obs_status o <> ObsFailed /\
       sup_HealthFromAge (sup_HeartbeatAgeSeconds (obs_heartbeat_at o)) stale = "online" /\
       obs_applied_generation o = Some generation).
Proof.
  intros Hl. rewrite gate_ready_iff, (lifecycle_clear_iff _ _ _ _ _ _ Hl).
  setoid_rewrite node_converged_iff. tauto.
Qed.

End theorems.

(** ** Witnesses *)

(** A worker that shares its GPU, and an idle GPU on another node. *)
Definition fx_move_plane : DesiredState :=
  fx_state [fx_node "node-a" (<["0" := 24576]> ∅); fx_node "node-b" (<["0" := 24576]> ∅)] []
    [fx_instance "worker-shared" Worker "node-a" "shared" (Some "0") Shared d0_5 50 false (Some 8192)].

Definition fx_plan : result (list RebalancePlanEntry) :=
  BuildRebalancePlanEntries (Support := controller_support (Lib := tree_json) 0)
    SchedulerDomainPolicyConfig_default fx_move_plane (EvaluateSchedulingPolicy fx_move_plane)
    [] [] [] SchedulerRuntimeView_default [] 300 None.


(** An observation of a node that has applied the second generation. *)
Definition fx_settled (node : string) : HostObservation :=
  mkHostObservation node "demo" (Some 2) None ObsApplied "" "" "" "" "" "" "" ""
    (UtcNowSqlTimestamp 1000).

Lemma cluster_ready_exact_witness :
  gate_cluster_ready (BuildRebalanceControllerGateSummary
    (Support := controller_support (Lib := tree_json) 1060) fx_move_plane 2 [] [] []
    SchedulerRuntimeView_default [fx_settled "node-a"; fx_settled "node-b"] 300) = true.
Proof.
  apply (proj2 (cluster_ready_exact (Support := controller_support (Lib := tree_json) 1060)
    SchedulerDomainPolicyConfig_default fx_move_plane 2 [] [] [] SchedulerRuntimeView_default
    [fx_settled "node-a"; fx_settled "node-b"] 300 [] eq_refl)).
  split; [by intros a ?%elem_of_nil|]. split.
  - intros i Hi (_ & Hm & _). exfalso. apply list_elem_of_singleton in Hi as ->.
    vm_compute in Hm. discriminate Hm.
  - split; [done|]. split; [by intros a ?%elem_of_nil|].
    intros n Hn _. destruct n as [name ? ? ? ?]. cbn [node_name].
    assert (name ∈ ["node-a"; "node-b"]) as Hin.
    { change ["node-a"; "node-b"] with (node_name <$> ds_nodes fx_move_plane).
      by apply (list_elem_of_fmap_2 node_name) in Hn. }
    repeat (apply elem_of_cons in Hin as [->|Hin];
      [eexists; split; [reflexivity|split; [discriminate|split; vm_compute; reflexivity]]|]).
    by apply elem_of_nil in Hin.
Defined.
