(* ===== verification/SchedulerExecution.v ===== *)
(** * Carrying out the scheduler's decisions

    [controller/src/scheduler/scheduler_execution_support.cpp] with the
    dependencies of [scheduler_execution_dependencies.cpp]: materialising a move
    or a retried placement in a desired state, the assignments that evict
    workers, the verification of a move against what hosts report, and the
    records kept of workers and nodes.  The pointer arguments of the source are
    never null.  [std::time(nullptr)] is [now]. *)

From S2P Require Import Prelude Binary64 Json Models Fixtures AssignmentStore AssignmentReconciliation RuntimeStatus RuntimeSupport SchedulingPolicy SchedulerStore StateCodecs StateJson PlaneRealization ControllerStore SchedulerView SchedulerDomain.

(** ** Updates of a desired state *)

(** [std::find_if] and an update of the element it finds. *)
Fixpoint update_first {A} (p : A -> bool) (f : A -> A) (l : list A) : list A :=
  match l with
  | [] => []
  | x :: l' => if p x then f x :: l' else x :: update_first p f l'
  end.

Definition with_entities (gpu_nodes : list RuntimeGpuNode) (disks : list DiskSpec)
    (instances : list InstanceSpec) (state : DesiredState) : DesiredState :=
  with_placement (ds_placement_target state) (ds_inference state) (ds_worker_group state) gpu_nodes
    (ds_nodes state) disks instances state.

Definition instance_with_dependencies (depends_on : list string) (i : InstanceSpec) : InstanceSpec :=
  mkInstanceSpec (inst_name i) (inst_role i) (inst_plane_name i) (inst_node_name i) (inst_image i)
    (inst_command i) (inst_private_disk_name i) (inst_shared_disk_name i) depends_on
    (inst_environment i) (inst_labels i) (inst_published_ports i) (inst_gpu_device i)
    (inst_placement_mode i) (inst_share_mode i) (inst_gpu_fraction i) (inst_priority i)
    (inst_preemptible i) (inst_memory_cap_mb i) (inst_private_disk_size_gb i)
    (inst_app_model_mounts i).

Definition instance_placed (node_name : string) (gpu_device : option string)
    (share_mode : GpuShareMode) (gpu_fraction : double) (environment labels : gmap string string)
    (i : InstanceSpec) : InstanceSpec :=
  mkInstanceSpec (inst_name i) (inst_role i) (inst_plane_name i) node_name (inst_image i)
    (inst_command i) (inst_private_disk_name i) (inst_shared_disk_name i) (inst_depends_on i)
    environment labels (inst_published_ports i) gpu_device
    (inst_placement_mode i) share_mode gpu_fraction (inst_priority i)
    (inst_preemptible i) (inst_memory_cap_mb i) (inst_private_disk_size_gb i)
    (inst_app_model_mounts i).

Definition gpu_node_placed (node_name gpu_device : string) (share_mode : GpuShareMode)
    (gpu_fraction : double) (g : RuntimeGpuNode) : RuntimeGpuNode :=
  mkRuntimeGpuNode (gpun_name g) node_name gpu_device (gpun_placement_mode g) share_mode gpu_fraction
    (gpun_priority g) (gpun_preemptible g) (gpun_memory_cap_mb g) (gpun_enabled g).

Definition disk_placed (node_name : string) (d : DiskSpec) : DiskSpec :=
  mkDiskSpec (disk_name d) (disk_kind d) (disk_plane_name d) (disk_owner_name d) node_name
    (disk_host_path d) (disk_container_path d) (disk_size_gb d).

Definition is_worker_named (worker_name : string) (i : InstanceSpec) : bool :=
  (inst_role i ==? Worker) && (inst_name i ==? worker_name).
Definition is_private_disk_of (worker_name : string) (d : DiskSpec) : bool :=
  (disk_kind d ==? WorkerPrivate) && (disk_owner_name d ==? worker_name).

Definition RemoveWorkerFromDesiredState (worker_name : string) (state : DesiredState) : DesiredState :=
  with_entities
    (List.filter (fun g => gpun_name g !=? worker_name) (ds_runtime_gpu_nodes state))
    (List.filter (fun d => negb (is_private_disk_of worker_name d)) (ds_disks state))
    ((fun i => instance_with_dependencies
                 (List.filter (fun d => d !=? worker_name) (inst_depends_on i)) i) <$>
       List.filter (fun i => inst_name i !=? worker_name) (ds_instances state))
    state.

Definition RemoveWorkers (worker_names : list string) (state : DesiredState) : DesiredState :=
  foldl (fun state worker_name => RemoveWorkerFromDesiredState worker_name state) state worker_names.

Definition without_hints (labels : gmap string string) : gmap string string :=
  delete "naim.placement.defer_reason" (delete "naim.placement.next_target"
    (delete "naim.placement.next_action" labels)).

(** The labels of a materialised retry. *)
Definition retry_labels (node_name : string) (labels : gmap string string) : gmap string string :=
  delete "naim.preemption.victims" (without_hints
    (<["naim.placement.decision" := "applied"]>
     (<["naim.placement.action" := "materialized-retry-placement"]>
      (<["naim.placement" := "auto"]> (<["naim.node" := node_name]> labels))))).

Definition MaterializeRetryPlacementAction (state : DesiredState) (action : RolloutActionRecord)
    (victim_worker_names : list string) : result DesiredState :=
  let state := RemoveWorkers victim_worker_names state in
  let worker_name := ra_worker_name action in
  let node := ra_target_node_name action in
  let gpu := ra_target_gpu_device action in
  if negb (any_of (is_worker_named worker_name) (ds_instances state))
  then Throw ("worker '" +:+ worker_name +:+ "' not found in desired state")
  else
    Ok (with_entities
          (update_first (fun g => gpun_name g ==? worker_name) (gpu_node_placed node gpu Exclusive d1)
             (ds_runtime_gpu_nodes state))
          (update_first (is_private_disk_of worker_name) (disk_placed node) (ds_disks state))
          (update_first (is_worker_named worker_name)
             (fun i => instance_placed node (Some gpu) Exclusive d1 (inst_environment i)
                         (retry_labels node (inst_labels i)) i) (ds_instances state))
          state).

Definition upgrades (entry : RebalancePlanEntry) : bool := rpe_action entry ==? "upgrade-to-exclusive".

Definition move_environment (entry : RebalancePlanEntry) (environment : gmap string string)
    : gmap string string :=
  let environment := <["NAIM_NODE_NAME" := rpe_target_node_name entry]> environment in
  if negb (str_empty (rpe_target_gpu_device entry))
  then <["NAIM_GPU_DEVICE" := rpe_target_gpu_device entry]> environment
  else delete "NAIM_GPU_DEVICE" environment.

Definition move_labels (entry : RebalancePlanEntry) (labels : gmap string string)
    : gmap string string :=
  let labels :=
    without_hints
      (<["naim.placement.decision" := "applied"]>
       (<["naim.placement.score" := to_string (rpe_score entry)]>
        (<["naim.placement.action" := "materialized-rebalance-" +:+ rpe_action entry]>
         (<["naim.placement" := "auto"]> (<["naim.node" := rpe_target_node_name entry]> labels))))) in
  if vec_empty (rpe_victim_worker_names entry) then delete "naim.preemption.victims" labels
  else <["naim.preemption.victims" := JoinStrings (rpe_victim_worker_names entry) ","]> labels.

Definition MaterializeRebalancePlanEntry (state : DesiredState) (entry : RebalancePlanEntry)
    : result DesiredState :=
  let worker_name := rpe_worker_name entry in
  let node := rpe_target_node_name entry in
  let gpu := rpe_target_gpu_device entry in
  if negb (any_of (is_worker_named worker_name) (ds_instances state))
  then Throw ("worker '" +:+ worker_name +:+ "' not found in desired state")
  else
    Ok (with_entities
          (update_first (fun g => gpun_name g ==? worker_name)
             (fun g => gpu_node_placed node gpu
                         (if upgrades entry then Exclusive else gpun_share_mode g)
                         (if upgrades entry then d1 else gpun_gpu_fraction g) g)
             (ds_runtime_gpu_nodes state))
          (update_first (is_private_disk_of worker_name) (disk_placed node) (ds_disks state))
          (update_first (is_worker_named worker_name)
             (fun i => instance_placed node (Some gpu)
                         (if upgrades entry then Exclusive else inst_share_mode i)
                         (if upgrades entry then d1 else inst_gpu_fraction i)
                         (move_environment entry (inst_environment i))
                         (move_labels entry (inst_labels i)) i) (ds_instances state))
          state).

(** ** Rollout actions *)

(** The last action of the name for the same worker and generation at a lower step. *)
Definition FindPriorRolloutActionForWorker (actions : list RolloutActionRecord)
    (action : RolloutActionRecord) (requested_action_name : string) : option RolloutActionRecord :=
  find_last_if (fun c => (ra_desired_generation c =? ra_desired_generation action) &&
                         (ra_worker_name c ==? ra_worker_name action) &&
                         (ra_step c <? ra_step action) &&
                         (ra_action c ==? requested_action_name)) actions.

(** The victims by the node of the first worker of their name. *)
Definition victims_by_node (state : DesiredState) (action : RolloutActionRecord)
    : result (gmap string (list string)) :=
  foldR (fun result victim =>
           match find_if (is_worker_named victim) (ds_instances state) with
           | Some i => Ok (<[inst_node_name i := default [] (result !! inst_node_name i) ++ [victim]]>
                             result)
           | None => Throw ("victim worker '" +:+ victim +:+
                            "' not found in desired state for rollout action id=" +:+
                            to_string (ra_id action))
           end) ∅ (ra_victim_worker_names action).

Definition eviction_message (action : RolloutActionRecord) (required_memory_cap_mb : Z)
    (victims : list string) : string :=
  RolloutActionTag (ra_id action) +:+
  " evict workers for rollout worker=" +:+ ra_worker_name action +:+
  " target_gpu=" +:+ ra_target_gpu_device action +:+
  " required_memory_cap_mb=" +:+ to_string required_memory_cap_mb +:+
  " victims=" +:+ JoinStrings victims ",".

Section execution.
Context `{Lib : !JsonLibrary} (default_artifacts_root : string).

Definition BuildEvictionAssignmentsForAction (desired_state : DesiredState) (desired_generation : Z)
    (action : RolloutActionRecord) (existing_assignments : list HostAssignment)
    : result (list HostAssignment) :=
  if ra_action action !=? "evict-best-effort"
  then Throw ("rollout action id=" +:+ to_string (ra_id action) +:+
              " is not an evict-best-effort action")
  else if vec_empty (ra_victim_worker_names action)
  then Throw ("rollout action id=" +:+ to_string (ra_id action) +:+
              " has no victim workers to evict")
  else
    by_node ← victims_by_node desired_state action;
    let required_memory_cap_mb :=
      from_option (fun i => value_or (inst_memory_cap_mb i) 0) 0
        (find_if (is_worker_named (ra_worker_name action)) (ds_instances desired_state)) in
    let eviction_state := RemoveWorkers (ra_victim_worker_names action) desired_state in
    let plane_assignment :=
      FindLatestHostAssignmentForPlane existing_assignments (ds_plane_name desired_state) in
    mapR (fun '(node_name, victims) =>
        slice ← SliceDesiredStateForNode eviction_state node_name;
        text ← SerializeDesiredStateJson slice;
        let artifacts_root :=
          match FindLatestHostAssignmentForNode existing_assignments node_name with
          | Some a => ha_artifacts_root a
          | None => from_option ha_artifacts_root default_artifacts_root plane_assignment
          end in
        Ok (new_assignment node_name (ds_plane_name desired_state) desired_generation
              "evict-workers" text artifacts_root
              (eviction_message action required_memory_cap_mb victims)))
      (map_items by_node).

(** ** Verification of a move *)

Definition FindInstanceRuntimeStatus (statuses : list RuntimeProcessStatus)
    (instance_name gpu_device : string) : option RuntimeProcessStatus :=
  find_if (fun s => (rps_instance_name s ==? instance_name) && (rps_gpu_device s ==? gpu_device))
    statuses.

Definition TelemetryShowsOwnedProcess (telemetry : option GpuTelemetrySnapshot)
    (gpu_device instance_name : string) : bool :=
  match telemetry with
  | None => false
  | Some telemetry =>
      any_of (fun device => (gdt_gpu_device device ==? gpu_device) &&
                            any_of (fun process => gpt_instance_name process ==? instance_name)
                              (gdt_processes device)) (gts_devices telemetry)
  end.

Record SchedulerVerificationResult := mkSchedulerVerificationResult {
  ver_converged : bool;
  ver_stable : bool;
  ver_timed_out : bool;
  ver_next_stable_samples : Z;
  ver_detail : string;
}.

Record SchedulerExecutionVerificationConfig := mkSchedulerExecutionVerificationConfig {
  ver_timeout_seconds : Z;
  ver_stable_samples_required : Z;
}.

Context (now : Z) (config : SchedulerExecutionVerificationConfig).

(** What the two hosts of a move show: the four conditions of the source. *)
Record MoveSample := mkMoveSample {
  ms_target_generation_applied : bool;
  ms_target_runtime_ready : bool;
  ms_target_gpu_owned : bool;
  ms_source_cleared : bool;
}.
Definition sample_converged (m : MoveSample) : bool :=
  ms_target_generation_applied m && ms_target_runtime_ready m && ms_target_gpu_owned m &&
  ms_source_cleared m.

Definition source_cleared (plane_runtime : SchedulerPlaneRuntime) (cleared_gpu : string)
    (observation : option HostObservation) : result bool :=
  match observation with
  | None => Ok true
  | Some observation =>
      runtimes ← ParseInstanceRuntimeStatuses observation;
      telemetry ← ParseGpuTelemetry observation;
      Ok (negb (has_value (FindInstanceRuntimeStatus runtimes
                             (spr_active_worker_name plane_runtime) cleared_gpu)) &&
          negb (TelemetryShowsOwnedProcess telemetry cleared_gpu (spr_active_worker_name plane_runtime)))
  end.

Definition runtime_ready (status : option RuntimeProcessStatus) : bool :=
  match status with
  | None => false
  | Some s => rps_ready s &&
              ((rps_runtime_phase s ==? "running") || (rps_runtime_phase s ==? "ready") ||
               (rps_runtime_phase s ==? "loaded"))
  end.

Definition rollback_mode (plane_runtime : SchedulerPlaneRuntime) : bool :=
  (spr_phase plane_runtime ==? "rollback-applied") || (spr_phase plane_runtime ==? "rollback-planned").

(** [None] when the target host has not reported. *)
Definition move_sample (plane_runtime : SchedulerPlaneRuntime) (observations : list HostObservation)
    : result (option MoveSample) :=
  let source := (spr_source_node_name plane_runtime, spr_source_gpu_device plane_runtime) in
  let target := (spr_target_node_name plane_runtime, spr_target_gpu_device plane_runtime) in
  let expected := if rollback_mode plane_runtime then source else target in
  let cleared := if rollback_mode plane_runtime then target else source in
  match FindHostObservationForNode observations expected.1 with
  | None => Ok None
  | Some o =>
      target_runtimes ← ParseInstanceRuntimeStatuses o;
      target_telemetry ← ParseGpuTelemetry o;
      cleared ← source_cleared plane_runtime cleared.2
                  (FindHostObservationForNode observations cleared.1);
      Ok (Some {|
        ms_target_generation_applied :=
          from_option (fun g => g >=? spr_action_generation plane_runtime) false
            (obs_applied_generation o);
        ms_target_runtime_ready :=
          runtime_ready (FindInstanceRuntimeStatus target_runtimes
                           (spr_active_worker_name plane_runtime) expected.2);
        ms_target_gpu_owned :=
          TelemetryShowsOwnedProcess target_telemetry expected.2
            (spr_active_worker_name plane_runtime);
        ms_source_cleared := cleared |})
  end.

Definition sample_detail (m : MoveSample) : string :=
  "target_generation_applied=" +:+ yes_no (ms_target_generation_applied m) +:+
  " target_runtime_ready=" +:+ yes_no (ms_target_runtime_ready m) +:+
  " target_gpu_owned=" +:+ yes_no (ms_target_gpu_owned m) +:+
  " source_cleared=" +:+ yes_no (ms_source_cleared m).

Definition EvaluateSchedulerActionVerification (plane_runtime : SchedulerPlaneRuntime)
    (observations : list HostObservation) : result SchedulerVerificationResult :=
  sample ← move_sample plane_runtime observations;
  let timed_out :=
    from_option (fun age => age >=? ver_timeout_seconds config) false
      (TimestampAgeSeconds now (spr_started_at plane_runtime)) in
  Ok match sample with
     | None => mkSchedulerVerificationResult false false timed_out 0 "missing-target-observation"
     | Some m =>
         if sample_converged m then
           let next := spr_stable_samples plane_runtime + 1 in
           mkSchedulerVerificationResult true (next >=? ver_stable_samples_required config) timed_out
             next "verified-sample"
         else mkSchedulerVerificationResult false false timed_out 0 (sample_detail m)
     end.

(** ** Records of workers and nodes *)

Definition worker_runtime_or_default (worker_name : string) (t : SchedulerTables)
    : SchedulerWorkerRuntime :=
  default SchedulerWorkerRuntime_default (LoadSchedulerWorkerRuntime worker_name t).

Definition mark_node_moved (plane_runtime : SchedulerPlaneRuntime) (t : SchedulerTables)
    (node_name : string) : SchedulerTables :=
  if str_empty node_name then t
  else UpsertSchedulerNodeRuntime (UtcNowSqlTimestamp now)
         (mkSchedulerNodeRuntime (spr_plane_name plane_runtime) node_name (UtcNowSqlTimestamp now)
            (Some (spr_action_generation plane_runtime))
            (snr_updated_at (default SchedulerNodeRuntime_default
                               (LoadSchedulerNodeRuntime node_name t)))) t.

Definition MarkWorkerMoveVerified (plane_runtime : SchedulerPlaneRuntime) (t : SchedulerTables)
    : SchedulerTables :=
  let stamp := UtcNowSqlTimestamp now in
  let current := worker_runtime_or_default (spr_active_worker_name plane_runtime) t in
  let t := UpsertSchedulerWorkerRuntime stamp
    (mkSchedulerWorkerRuntime (spr_plane_name plane_runtime) (spr_active_worker_name plane_runtime)
       stamp (swr_last_eviction_at current) (Some (spr_action_generation plane_runtime)) "verified"
       (if spr_phase plane_runtime ==? "rollback-applied" then "rollback verification succeeded"
        else "move verification succeeded") false (swr_updated_at current)) t in
  foldl (mark_node_moved plane_runtime) t
    [spr_source_node_name plane_runtime; spr_target_node_name plane_runtime].

Definition mark_evicted (plane_name : string) (t : SchedulerTables) (worker_name : string)
    : SchedulerTables :=
  if str_empty worker_name then t
  else
    let current := worker_runtime_or_default worker_name t in
    UpsertSchedulerWorkerRuntime (UtcNowSqlTimestamp now)
      (mkSchedulerWorkerRuntime plane_name worker_name (swr_last_move_at current)
         (UtcNowSqlTimestamp now) (swr_last_verified_generation current) "evicted"
         "eviction verified" (swr_manual_intervention_required current) (swr_updated_at current)) t.

Definition MarkWorkersEvicted (plane_name : string) (worker_names : list string) (t : SchedulerTables)
    : SchedulerTables := foldl (mark_evicted plane_name) t worker_names.
End execution.
