(* ===== verification/StateAggregate.v ===== *)
(** * Aggregated views of the store

    [controller/src/read_model/state_aggregate_loader.cpp]: what the scheduler and
    the dashboard read of the store in one go, composed from the repositories, the
    observation matcher, the scheduling policy, the scheduler's decisions and its
    summaries.  Also the readings of [desired_state_repository.cpp] that take the
    most recently created plane. *)

From S2P Require Import Prelude Json Models AssignmentStore AssignmentReconciliation RuntimeSupport SchedulingPolicy SchedulerStore StateJson PlaneRealization ObservationMatcher ControllerStore SchedulerView SchedulerDomain.

Record StateAggregateViewData := mkStateAggregateViewData {
  sav_db_path : string;
  sav_stale_after_seconds : Z;
  sav_planes : list PlaneRecord;
  sav_desired_states : list DesiredState;
  sav_desired_state : option DesiredState;
  sav_desired_generation : option Z;
  sav_disk_runtime_states : list DiskRuntimeState;
  sav_scheduling_report : SchedulingPolicyReport;
  sav_observations : list HostObservation;
  sav_assignments : list HostAssignment;
  sav_availability_overrides : list NodeAvailabilityOverride;
  sav_scheduler_runtime : SchedulerRuntimeView;
  sav_rollout_lifecycle : list RolloutLifecycleEntry;
  sav_rebalance_entries : list RebalancePlanEntry;
  sav_controller_gate_summary : RebalanceControllerGateSummary;
  sav_iteration_budget_summary : RebalanceIterationBudgetSummary;
  sav_rebalance_policy_summary : RebalancePolicySummary;
  sav_loop_status : RebalanceLoopStatusSummary;
}.

(** The members of a view before anything is loaded. *)
Definition empty_report : SchedulingPolicyReport := mkSchedulingPolicyReport [] [] [] [] [] [] [] [].
Definition RebalanceControllerGateSummary_default : RebalanceControllerGateSummary :=
  mkRebalanceControllerGateSummary true 0 0 0 [] [] [].
Definition RebalanceIterationBudgetSummary_default : RebalanceIterationBudgetSummary :=
  mkRebalanceIterationBudgetSummary 0 0 false.
Definition RebalanceLoopStatusSummary_default : RebalanceLoopStatusSummary :=
  mkRebalanceLoopStatusSummary "" "".

Section loader.
Context `{Lib : !JsonLibrary}.
Context (render_v2 : json -> result DesiredState)
  (load_relational : string -> ControllerStore -> result DesiredState).
Context (now : Z) (cfg : SchedulerDomainPolicyConfig) (maximum_rebalance_iterations : Z).
Context (db_path : string).

(** ** Readings of the most recently created plane *)

Definition LoadLatestDesiredState (s : ControllerStore) : result (option DesiredState) :=
  match LoadLatestPlaneName s with
  | None => Ok None
  | Some plane_name => LoadDesiredState render_v2 load_relational plane_name s
  end.
Definition LoadLatestDesiredGeneration (s : ControllerStore) : option Z :=
  plane_name ← LoadLatestPlaneName s; LoadDesiredGeneration plane_name s.
Definition LoadLatestRebalanceIteration (s : ControllerStore) : option Z :=
  plane_name ← LoadLatestPlaneName s; LoadPlaneRebalanceIteration plane_name s.

Definition LoadDesiredStates (s : ControllerStore) : result (list DesiredState) :=
  collectR (fun plane => LoadDesiredState render_v2 load_relational (plane_name plane) s) (LoadPlanes s).

(** The state and generation of the plane named, of the latest plane otherwise. *)
Definition desired_state_of (plane_name : option string) (s : ControllerStore)
    : result (option DesiredState) :=
  match plane_name with
  | Some name => LoadDesiredState render_v2 load_relational name s
  | None => LoadLatestDesiredState s
  end.
Definition desired_generation_of (plane_name : option string) (s : ControllerStore) : option Z :=
  match plane_name with
  | Some name => LoadDesiredGeneration name s
  | None => LoadLatestDesiredGeneration s
  end.

(** ** The views *)

Definition LoadSchedulerRuntimeView (s : ControllerStore) (desired_state : option DesiredState)
    : SchedulerRuntimeView :=
  match desired_state with
  | None => SchedulerRuntimeView_default
  | Some state =>
      let plane := ds_plane_name state in
      let t := cs_scheduler s in
      {| srv_plane_runtime := LoadSchedulerPlaneRuntime plane t;
         srv_worker_runtime_by_name :=
           foldl (fun m r => map_emplace (swr_worker_name r) r m) ∅
             (LoadSchedulerWorkerRuntimes (Some plane) t);
         srv_node_runtime_by_name :=
           foldl (fun m r => map_emplace (snr_node_name r) r m) ∅
             (LoadSchedulerNodeRuntimes (Some plane) t) |}
  end.

Definition distinct_count (names : list string) : Z :=
  Z.of_nat (size (list_to_set names : gset string)).

Definition LoadRolloutActionsViewData (node_name plane_name : option string) (s : ControllerStore)
    : result RolloutActionsViewData :=
  desired_state ← desired_state_of plane_name s;
  let desired_generation := desired_generation_of plane_name s in
  let actions :=
    LoadRolloutActions (match desired_state with Some d => Some (ds_plane_name d) | None => plane_name end)
      node_name None (cs_scheduler s) in
  lifecycle ←
    match desired_state, desired_generation with
    | Some state, Some generation =>
        observations ← FilterHostObservationsForPlane render_v2 (LoadHostObservations None None s)
                         (ds_plane_name state);
        BuildRolloutLifecycleEntries (Support := controller_support now) cfg state generation actions
          (LoadHostAssignments None None (Some (ds_plane_name state)) (cs_assignments s)) observations
    | _, _ => Ok []
    end;
  Ok {| rav_db_path := db_path; rav_plane_name := plane_name; rav_node_name := node_name;
        rav_desired_state := desired_state; rav_desired_generation := desired_generation;
        rav_actions := actions;
        rav_scheduler_runtime :=
          (fun state => LoadSchedulerRuntimeView s (Some state)) <$> desired_state;
        rav_lifecycle := lifecycle;
        rav_gated_worker_count := distinct_count (ra_worker_name <$> actions);
        rav_gated_node_count := distinct_count (ra_target_node_name <$> actions) |}.

Definition LoadRebalancePlanViewData (node_name : option string) (stale_after_seconds : Z)
    (plane_name : option string) (s : ControllerStore) : result RebalancePlanViewData :=
  desired_state ← desired_state_of plane_name s;
  match desired_state with
  | None =>
      Ok (mkRebalancePlanViewData db_path plane_name node_name stale_after_seconds None 0 []
            RebalanceControllerGateSummary_default RebalanceIterationBudgetSummary_default
            RebalancePolicySummary_default RebalanceLoopStatusSummary_default
            SchedulerRuntimeView_default)
  | Some state =>
      let plane := ds_plane_name state in
      let desired_generation := value_or (desired_generation_of plane_name s) 0 in
      observations ← FilterHostObservationsForPlane render_v2 (LoadHostObservations None None s) plane;
      let assignments := LoadHostAssignments None None (Some plane) (cs_assignments s) in
      let overrides := LoadNodeAvailabilityOverrides None s in
      let scheduling_report := EvaluateSchedulingPolicy state in
      let runtime := LoadSchedulerRuntimeView s (Some state) in
      lifecycle ←
        BuildRolloutLifecycleEntries (Support := controller_support now) cfg state desired_generation
          (LoadRolloutActions (Some plane) None None (cs_scheduler s)) assignments observations;
      entries ←
        BuildRebalancePlanEntries (Support := controller_support now) cfg state scheduling_report
          overrides lifecycle assignments runtime observations stale_after_seconds node_name;
      let gate :=
        BuildRebalanceControllerGateSummary (Support := controller_support now) state
          desired_generation overrides lifecycle assignments runtime observations stale_after_seconds in
      let budget :=
        BuildRebalanceIterationBudgetSummary (value_or (LoadLatestRebalanceIteration s) 0)
          maximum_rebalance_iterations in
      let policy := BuildRebalancePolicySummary entries in
      Ok (mkRebalancePlanViewData db_path plane_name node_name stale_after_seconds (Some state)
            desired_generation entries gate budget policy
            (BuildRebalanceLoopStatusSummary gate budget policy) runtime)
  end.

Definition LoadStateAggregateViewData (stale_after_seconds : Z) (plane_name : option string)
    (s : ControllerStore) : result StateAggregateViewData :=
  states ← LoadDesiredStates s;
  desired_state ← desired_state_of plane_name s;
  let desired_generation := desired_generation_of plane_name s in
  match desired_state with
  | None =>
      Ok (mkStateAggregateViewData db_path stale_after_seconds (LoadPlanes s) states None
            desired_generation [] empty_report [] [] [] SchedulerRuntimeView_default [] []
            RebalanceControllerGateSummary_default RebalanceIterationBudgetSummary_default
            RebalancePolicySummary_default RebalanceLoopStatusSummary_default)
  | Some state =>
      let scheduling_report := EvaluateSchedulingPolicy state in
      observations ←
        match plane_name with
        | Some name => FilterHostObservationsForPlane render_v2 (LoadHostObservations None None s) name
        | None => Ok (LoadHostObservations None None s)
        end;
      let assignments := LoadHostAssignments None None plane_name (cs_assignments s) in
      let overrides := LoadNodeAvailabilityOverrides None s in
      let runtime := LoadSchedulerRuntimeView s (Some state) in
      let actions := LoadRolloutActions (Some (ds_plane_name state)) None None (cs_scheduler s) in
      lifecycle ←
        match desired_generation with
        | Some generation =>
            BuildRolloutLifecycleEntries (Support := controller_support now) cfg state generation
              actions assignments observations
        | None => Ok []
        end;
      entries ←
        BuildRebalancePlanEntries (Support := controller_support now) cfg state scheduling_report
          overrides lifecycle assignments runtime observations stale_after_seconds None;
      let gate :=
        BuildRebalanceControllerGateSummary (Support := controller_support now) state
          (value_or desired_generation 0) overrides lifecycle assignments runtime observations
          stale_after_seconds in
      let budget :=
        BuildRebalanceIterationBudgetSummary (value_or (LoadLatestRebalanceIteration s) 0)
          maximum_rebalance_iterations in
      let policy := BuildRebalancePolicySummary entries in
      Ok (mkStateAggregateViewData db_path stale_after_seconds (LoadPlanes s) states (Some state)
            desired_generation
            (LoadDiskRuntimeStates (Some (ds_plane_name state)) None s) scheduling_report observations
            assignments overrides runtime lifecycle entries gate budget policy
            (BuildRebalanceLoopStatusSummary gate budget policy))
  end.
End loader.
