(* ===== verification/SchedulerService.v ===== *)
(** * The scheduler

    [controller/src/scheduler/scheduler_service.cpp]: applying rebalance
    proposals, the rollout of evictions and retried placements, the verification
    of an active move with its rollback, and the tick that drives them, on the
    controller's store and the artifacts on its disk.  Text printed on the console
    is left out; the exit code is the result.  A service object opens the store by
    its path for every call: the store is the state.  Of [ReplaceDesiredState] the
    row of the plane is modelled. *)

From S2P Require Import Prelude Binary64 Json Models Fixtures Planner ExecutionPlan AssignmentStore AssignmentReconciliation RuntimeStatus RuntimeSupport SchedulingPolicy SchedulerStore StateCodecs StateJson PlaneRealization ObservationMatcher ControllerStore PlaneService SchedulerView SchedulerDomain SchedulerExecution StateAggregate.

(** ** Programs on the store and the files *)

Record World := mkWorld { w_store : ControllerStore; w_files : Files }.

Definition act (A : Type) : Type := World -> World * result A.
#[export] Instance act_ret : MRet act := fun A a w => (w, Ok a).
#[export] Instance act_bind : MBind act := fun A B f m w =>
  match m w with
  | (w', Ok a) => f a w'
  | (w', Throw e) => (w', Throw e)
  end.

Definition on_store {A} (p : prog A) : act A := fun w =>
  let '(s, r) := p (w_store w) in (mkWorld s (w_files w), r).
Definition on_files {A} (f : Files -> Files * result A) : act A := fun w =>
  let '(files, r) := f (w_files w) in (mkWorld (w_store w) files, r).
Definition fail {A} (message : string) : act A := fun w => (w, Throw message).
Definition query {A} (f : ControllerStore -> A) : act A := on_store (read f).
Definition query_result {A} (f : ControllerStore -> result A) : act A :=
  on_store (fun s => (s, f s)).
Definition check {A} (r : result A) : act A := on_store (lift r).

Definition FindRolloutActionById (actions : list RolloutActionRecord) (action_id : Z)
    : option RolloutActionRecord := find_if (fun a => ra_id a =? action_id) actions.

Section service.
Context `{Lib : !JsonLibrary}.
(** The v2 format and the relational fallback; the settings of the service. *)
Context (render_v2 : json -> result DesiredState) (serialize_v2 : DesiredState -> result string)
  (load_relational : string -> ControllerStore -> result DesiredState).
Context (internal_host : option string) (db_path artifacts_root default_artifacts_root : string)
  (default_stale_after_seconds maximum_rebalance_iterations : Z)
  (cfg : SchedulerDomainPolicyConfig) (verification : SchedulerExecutionVerificationConfig).
Context (now : Z).

(** ** Store operations *)

Definition latest_state : act (option DesiredState) :=
  query_result (LoadLatestDesiredState render_v2 load_relational).
Definition latest_generation : act (option Z) := query LoadLatestDesiredGeneration.
Definition on_tables (f : SchedulerTables -> SchedulerTables) : act unit := on_store (on_scheduler f).
Definition on_queue (f : Table -> Table) : act unit := on_store (on_assignments f).
Definition replace_state (state : DesiredState) (generation rebalance_iteration : Z) : act unit :=
  on_store (fun s =>
    match ReplacePlaneRow serialize_v2 now state generation rebalance_iteration s with
    | Ok s' => (s', Ok ())
    | Throw e => (s, Throw e)
    end).
Definition rollout_actions_of (plane_name : string) : act (list RolloutActionRecord) :=
  query (fun s => LoadRolloutActions (Some plane_name) None None (cs_scheduler s)).
Definition all_assignments : act (list HostAssignment) :=
  query (fun s => LoadHostAssignments None None None (cs_assignments s)).
Definition save_runtime (r : SchedulerPlaneRuntime) : act unit :=
  on_tables (UpsertSchedulerPlaneRuntime (UtcNowSqlTimestamp now) r).
Definition save_worker (r : SchedulerWorkerRuntime) : act unit :=
  on_tables (UpsertSchedulerWorkerRuntime (UtcNowSqlTimestamp now) r).

(** [ControllerEventService::AppendEvent]. *)
Definition append_event (category event_type message : string) (payload : json)
    (plane_name node_name worker_name : string) (rollout_action_id : option Z) (severity : string)
    : act unit :=
  on_store (
    text ← lift (dump payload);
    modify (AppendEvent now
      (mkEventRecord 0 plane_name node_name worker_name None rollout_action_id category event_type
         severity message text ""))).

Definition no_desired_state {A} : act A := fail "no desired state found in controller db".
Definition action_error {A} (action_id : Z) (text : string) : act A :=
  fail ("rollout action id=" +:+ to_string action_id +:+ text).

(** ** Applying a rebalance proposal *)

Definition verifying_runtime (entry : RebalancePlanEntry) (plane_name : string) (generation : Z)
    (previous_state_json : string) : SchedulerPlaneRuntime :=
  {| spr_plane_name := plane_name; spr_active_action := "rebalance";
     spr_active_worker_name := rpe_worker_name entry; spr_phase := "verifying-move";
     spr_action_generation := generation; spr_stable_samples := 0;
     spr_rollback_attempt_count := 0;
     spr_source_node_name := rpe_current_node_name entry;
     spr_source_gpu_device := rpe_current_gpu_device entry;
     spr_target_node_name := rpe_target_node_name entry;
     spr_target_gpu_device := rpe_target_gpu_device entry;
     spr_previous_state_json := previous_state_json;
     spr_status_message := "awaiting post-move verification";
     spr_started_at := ""; spr_updated_at := "" |}.

Definition load_plan (plane_name : string) : act RebalancePlanViewData :=
  query_result (LoadRebalancePlanViewData render_v2 load_relational now cfg
    maximum_rebalance_iterations db_path None default_stale_after_seconds (Some plane_name)).

(** The writes of a proposal that has passed its checks. *)
Definition materialize_move (desired_state updated_state : DesiredState) (next_generation : Z)
    (rebalance_iteration : Z) (observations : list HostObservation) (entry : RebalancePlanEntry)
    : act Z :=
  let report := EvaluateSchedulingPolicy updated_state in
  let plane := ds_plane_name updated_state in
  overrides ← query (LoadNodeAvailabilityOverrides None);
  host_plans ← check (BuildNodeExecutionPlans dump (Some desired_state) updated_state artifacts_root);
  _ ← on_files (MaterializeComposeArtifacts internal_host updated_state host_plans);
  _ ← on_files (MaterializeInferRuntimeArtifact dump updated_state artifacts_root);
  _ ← replace_state updated_state next_generation (rebalance_iteration + 1);
  _ ← on_tables (ReplaceRolloutActions plane next_generation (rep_rollout_actions report));
  assignments ← check (BuildHostAssignments now default_stale_after_seconds updated_state artifacts_root
                         next_generation overrides observations (Some report));
  _ ← on_queue (ReplaceHostAssignments now assignments);
  previous ← check (SerializeDesiredStateJson desired_state);
  _ ← save_runtime (verifying_runtime entry plane next_generation previous);
  _ ← append_event "scheduler" "rebalance-materialized" "materialized safe-direct rebalance proposal"
        (JObject [("desired_generation", JInt next_generation);
                  ("source_node", JString (rpe_current_node_name entry));
                  ("source_gpu", JString (rpe_current_gpu_device entry));
                  ("target_node", JString (rpe_target_node_name entry));
                  ("target_gpu", JString (rpe_target_gpu_device entry));
                  ("action", JString (rpe_action entry)); ("score", JInt (rpe_score entry))])
        plane (rpe_target_node_name entry) (rpe_worker_name entry) None "info";
  mret 0.

Definition ApplyRebalanceProposal (worker_name : string) : act Z :=
  desired_state ← latest_state;
  desired_generation ← latest_generation;
  rebalance_iteration ← query LoadLatestRebalanceIteration;
  match desired_state, desired_generation with
  | Some desired_state, Some desired_generation =>
      observations ← query (LoadHostObservations None None);
      view ← load_plan (ds_plane_name desired_state);
      match find_if (fun e => rpe_worker_name e ==? worker_name) (rpv_rebalance_entries view) with
      | None => fail ("no rebalance plan entry found for worker '" +:+ worker_name +:+ "'")
      | Some entry =>
          if rpe_decision entry !=? "propose"
          then fail ("worker '" +:+ worker_name +:+
                     "' is not actionable for rebalance; current decision=" +:+
                     rpe_decision entry +:+ " state=" +:+ rpe_state entry)
          else
            let budget := rpv_iteration_budget_summary view in
            if budget_exhausted budget
            then fail ("rebalance iteration budget exhausted (" +:+
                       to_string (budget_current_iteration budget) +:+ "/" +:+
                       to_string (budget_max_iterations budget) +:+
                       "); apply a fresh bundle or rollout generation before materializing another direct rebalance")
            else
              updated_state ← check (MaterializeRebalancePlanEntry desired_state entry);
              _ ← check (RequireSchedulingPolicy updated_state);
              materialize_move desired_state updated_state (desired_generation + 1)
                (value_or rebalance_iteration 0) observations entry
      end
  | _, _ => no_desired_state
  end.

Definition actionable (entry : RebalancePlanEntry) : bool :=
  (rpe_decision entry ==? "propose") && (rpe_rebalance_class entry ==? "safe-direct").
Definition proposal_before (left right : RebalancePlanEntry) : bool :=
  if rpe_score left !=? rpe_score right then rpe_score right <? rpe_score left
  else klt (rpe_worker_name left) (rpe_worker_name right).

Definition ReconcileRebalanceProposals : act Z :=
  desired_state ← latest_state;
  desired_generation ← latest_generation;
  match desired_state, desired_generation with
  | Some desired_state, Some _ =>
      view ← load_plan (ds_plane_name desired_state);
      if negb (gate_cluster_ready (rpv_controller_gate_summary view)) then mret 0
      else
        match std_sort proposal_before (List.filter actionable (rpv_rebalance_entries view)) with
        | [] => mret 0
        | front :: _ =>
            if budget_exhausted (rpv_iteration_budget_summary view) then mret 0
            else ApplyRebalanceProposal (rpe_worker_name front)
        end
  | _, _ => no_desired_state
  end.

(** ** Rollout actions *)

Definition set_action_status (action_id : Z) (status : RolloutActionStatus) (message : string)
    : act bool :=
  on_store (fun s =>
    let '(t, changed) := UpdateRolloutActionStatus action_id status message (cs_scheduler s) in
    (cs_with_scheduler t s, Ok changed)).

Definition SetRolloutActionStatus (action_id : Z) (status : RolloutActionStatus)
    (status_message : option string) : act Z :=
  updated ← set_action_status action_id status (value_or status_message "");
  if negb updated then action_error action_id " not found"
  else
    actions ← query (fun s => LoadRolloutActions None None None (cs_scheduler s));
    match FindRolloutActionById actions action_id with
    | None => mret 0
    | Some action =>
        _ ← append_event "rollout-action" "status-updated" "updated rollout action status"
              (JObject [("status", JString (RolloutActionStatus_ToString status));
                        ("status_message", JString (value_or status_message ""));
                        ("action", JString (ra_action action)); ("step", JInt (ra_step action))])
              (ra_plane_name action) (ra_target_node_name action) (ra_worker_name action)
              (Some action_id) "info";
        mret 0
    end.

Definition enqueue_eviction (desired_state : DesiredState) (desired_generation : Z)
    (action : RolloutActionRecord) : act (list HostAssignment) :=
  existing ← all_assignments;
  assignments ← check (BuildEvictionAssignmentsForAction default_artifacts_root desired_state
                         desired_generation action existing);
  _ ← on_queue (EnqueueHostAssignments now assignments
        ("superseded by rollout eviction action id=" +:+ to_string (ra_id action)));
  mret assignments.

Definition EnqueueRolloutEviction (action_id : Z) : act Z :=
  desired_state ← latest_state;
  desired_generation ← latest_generation;
  match desired_state, desired_generation with
  | Some desired_state, Some desired_generation =>
      actions ← rollout_actions_of (ds_plane_name desired_state);
      match FindRolloutActionById actions action_id with
      | None => action_error action_id " not found"
      | Some action =>
          if negb (ra_desired_generation action =? desired_generation)
          then action_error action_id (" does not belong to current desired generation " +:+
                                       to_string desired_generation)
          else if ra_action action !=? "evict-best-effort"
          then action_error action_id " is not an evict-best-effort action"
          else if (ra_status action !=? RolloutPending) && (ra_status action !=? Acknowledged)
          then action_error action_id (" cannot enqueue eviction from status=" +:+
                                       RolloutActionStatus_ToString (ra_status action))
          else
            assignments ← enqueue_eviction desired_state desired_generation action;
            let node_names := set_items (list_to_set (ha_node_name <$> assignments) : gset string) in
            let message := "eviction assignments enqueued on nodes " +:+ JoinStrings node_names "," in
            _ ← set_action_status action_id Acknowledged message;
            _ ← append_event "rollout-action" "eviction-enqueued" message
                  (JObject [("victims", names_json (ra_victim_worker_names action));
                            ("target_node", JString (ra_target_node_name action));
                            ("target_gpu", JString (ra_target_gpu_device action))])
                  (ds_plane_name desired_state) (ra_target_node_name action) (ra_worker_name action)
                  (Some action_id) "info";
            mret 0
      end
  | _, _ => no_desired_state
  end.

(** The victims recorded by the prior steps of a retry; all of them must be
    ready. *)
Definition prior_victims (actions : list RolloutActionRecord) (action : RolloutActionRecord)
    : result (list string) :=
  foldR (fun victims c =>
      if negb (ra_desired_generation c =? ra_desired_generation action) ||
         (ra_worker_name c !=? ra_worker_name action) || (ra_step c >=? ra_step action)
      then Ok victims
      else if ra_status c !=? ReadyToRetry
      then Throw ("prior rollout step id=" +:+ to_string (ra_id c) +:+ " is not ready-to-retry")
      else Ok (if ra_action c ==? "evict-best-effort" then ra_victim_worker_names c else victims))
    [] actions.

Definition ApplyReadyRolloutAction (action_id : Z) : act Z :=
  desired_state ← latest_state;
  desired_generation ← latest_generation;
  match desired_state, desired_generation with
  | Some desired_state, Some desired_generation =>
      actions ← rollout_actions_of (ds_plane_name desired_state);
      match FindRolloutActionById actions action_id with
      | None => action_error action_id " not found"
      | Some action =>
          if ra_status action !=? ReadyToRetry
          then action_error action_id (" is not ready-to-retry; current status=" +:+
                                       RolloutActionStatus_ToString (ra_status action))
          else if ra_action action !=? "retry-placement"
          then action_error action_id " is not a retry-placement action"
          else
            victims ← check (prior_victims actions action);
            updated_state ← check (MaterializeRetryPlacementAction desired_state action victims);
            _ ← check (RequireSchedulingPolicy updated_state);
            let report := EvaluateSchedulingPolicy updated_state in
            let plane := ds_plane_name updated_state in
            let next_generation := desired_generation + 1 in
            overrides ← query (LoadNodeAvailabilityOverrides None);
            observations ← query (LoadHostObservations None None);
            _ ← replace_state updated_state next_generation 0;
            _ ← on_tables (ClearSchedulerPlaneRuntime plane);
            _ ← on_tables (ReplaceRolloutActions plane next_generation (rep_rollout_actions report));
            assignments ← check (BuildHostAssignments now default_stale_after_seconds updated_state
                                   artifacts_root next_generation overrides observations (Some report));
            _ ← on_queue (ReplaceHostAssignments now assignments);
            _ ← append_event "rollout-action" "retry-placement-applied"
                  "materialized ready rollout action"
                  (JObject [("desired_generation", JInt next_generation);
                            ("target_node", JString (ra_target_node_name action));
                            ("target_gpu", JString (ra_target_gpu_device action));
                            ("victims", names_json victims)])
                  plane (ra_target_node_name action) (ra_worker_name action) (Some action_id) "info";
            mret 0
      end
  | _, _ => no_desired_state
  end.

(** An eviction in the loop of [ReconcileRolloutActions]. *)
Definition reconcile_eviction (desired_state : DesiredState) (desired_generation : Z)
    (action : RolloutActionRecord) : act unit :=
  match ra_status action with
  | RolloutPending =>
      _ ← enqueue_eviction desired_state desired_generation action;
      _ ← set_action_status (ra_id action) Acknowledged
            "controller-managed eviction assignments enqueued";
      mret ()
  | Acknowledged =>
      assignments ← all_assignments;
      if AreRolloutEvictionAssignmentsApplied assignments (ra_id action) then
        _ ← set_action_status (ra_id action) ReadyToRetry "eviction assignments applied";
        on_tables (MarkWorkersEvicted now (ds_plane_name desired_state)
                     (ra_victim_worker_names action))
      else mret ()
  | ReadyToRetry => mret ()
  end.

(** A retry in the loop: the id to apply when the placement is ready. *)
Definition reconcile_retry (plane_name : string) (action : RolloutActionRecord) : act (option Z) :=
  actions ← rollout_actions_of plane_name;
  match FindRolloutActionById actions (ra_id action) with
  | None => mret None
  | Some current =>
      let prior := FindPriorRolloutActionForWorker actions current "evict-best-effort" in
      if (ra_status current ==? RolloutPending) &&
         from_option (fun p => ra_status p ==? ReadyToRetry) false prior
      then
        _ ← set_action_status (ra_id current) ReadyToRetry "preceding eviction completed";
        actions ← rollout_actions_of plane_name;
        mret (match FindRolloutActionById actions (ra_id action) with
              | Some current => if ra_status current ==? ReadyToRetry then Some (ra_id current) else None
              | None => None
              end)
      else mret (if ra_status current ==? ReadyToRetry then Some (ra_id current) else None)
  end.

(** The lifecycle shown at the end. *)
Definition show_lifecycle : act Z :=
  state ← latest_state;
  match state with
  | None => mret 0
  | Some state =>
      generation ← latest_generation;
      match generation with
      | None => mret 0
      | Some _ =>
          _ ← query_result (LoadRolloutActionsViewData render_v2 load_relational now cfg db_path None
                              (Some (ds_plane_name state)));
          mret 0
      end
  end.

Fixpoint reconcile_actions (desired_state : DesiredState) (desired_generation : Z)
    (actions : list RolloutActionRecord) : act Z :=
  match actions with
  | [] => show_lifecycle
  | action :: rest =>
      if ra_action action ==? "evict-best-effort" then
        _ ← reconcile_eviction desired_state desired_generation action;
        reconcile_actions desired_state desired_generation rest
      else if ra_action action !=? "retry-placement" then
        reconcile_actions desired_state desired_generation rest
      else
        ready ← reconcile_retry (ds_plane_name desired_state) action;
        match ready with
        | Some action_id => ApplyReadyRolloutAction action_id
        | None => reconcile_actions desired_state desired_generation rest
        end
  end.

Definition ReconcileRolloutActions : act Z :=
  desired_state ← latest_state;
  desired_generation ← latest_generation;
  match desired_state, desired_generation with
  | Some desired_state, Some desired_generation =>
      all ← rollout_actions_of (ds_plane_name desired_state);
      match List.filter (fun a => ra_desired_generation a =? desired_generation) all with
      | [] => mret 0
      | actions => reconcile_actions desired_state desired_generation actions
      end
  | _, _ => no_desired_state
  end.

(** ** The active action *)

Definition runtime_after (phase : string) (generation samples attempts : Z)
    (status_message started_at : string) (r : SchedulerPlaneRuntime) : SchedulerPlaneRuntime :=
  mkSchedulerPlaneRuntime (spr_plane_name r) (spr_active_action r) (spr_active_worker_name r)
    phase generation samples attempts (spr_source_node_name r) (spr_source_gpu_device r)
    (spr_target_node_name r) (spr_target_gpu_device r) (spr_previous_state_json r) status_message
    started_at (spr_updated_at r).

Definition action_event (event_type message severity : string) (extra : list (string * json))
    (plane_name : string) (r : SchedulerPlaneRuntime) : act unit :=
  append_event "scheduler" event_type message
    (JObject ([("worker", JString (spr_active_worker_name r));
               ("generation", JInt (spr_action_generation r));
               ("phase", JString (spr_phase r))] ++ extra))
    plane_name (spr_target_node_name r) (spr_active_worker_name r) None severity.

(** What a failed verification leaves of its worker. *)
Definition worker_after (phase message : string) (manual_intervention_required : bool)
    (r : SchedulerPlaneRuntime) : act unit :=
  current ← query (fun s => worker_runtime_or_default (spr_active_worker_name r) (cs_scheduler s));
  save_worker
    (mkSchedulerWorkerRuntime (spr_plane_name r) (spr_active_worker_name r)
       (swr_last_move_at current) (swr_last_eviction_at current)
       (swr_last_verified_generation current) phase message manual_intervention_required
       (swr_updated_at current)).

Definition apply_rollback (desired_generation : Z) (r : SchedulerPlaneRuntime) : act Z :=
  if str_empty (spr_previous_state_json r)
  then fail "rollback-planned action has no previous desired state payload"
  else
    rollback_state ← check (DeserializeDesiredStateJson render_v2 (spr_previous_state_json r));
    _ ← check (RequireSchedulingPolicy rollback_state);
    overrides ← query (LoadNodeAvailabilityOverrides None);
    observations ← query (LoadHostObservations None None);
    let report := EvaluateSchedulingPolicy rollback_state in
    let generation := desired_generation + 1 in
    let plane := ds_plane_name rollback_state in
    _ ← replace_state rollback_state generation 0;
    _ ← on_tables (ReplaceRolloutActions plane generation (rep_rollout_actions report));
    assignments ← check (BuildHostAssignments now default_stale_after_seconds rollback_state
                           artifacts_root generation overrides observations (Some report));
    _ ← on_queue (ReplaceHostAssignments now assignments);
    let updated :=
      runtime_after "rollback-applied" generation 0 1
        "rollback materialized after verification timeout" (UtcNowSqlTimestamp now) r in
    _ ← save_runtime updated;
    _ ← action_event "rollback-applied" (spr_status_message updated) "info" [] plane updated;
    mret 0.

Definition verify_action (r : SchedulerPlaneRuntime) : act Z :=
  observations ← query (LoadHostObservations None None);
  v ← check (EvaluateSchedulerActionVerification now verification r observations);
  let updated :=
    runtime_after (spr_phase r) (spr_action_generation r) (ver_next_stable_samples v)
      (spr_rollback_attempt_count r) (ver_detail v) (spr_started_at r) r in
  if ver_stable v then
    _ ← on_tables (MarkWorkerMoveVerified now updated);
    _ ← action_event "move-verified" (ver_detail v) "info"
          [("stable_samples", JInt (spr_stable_samples updated))] (spr_plane_name r) updated;
    _ ← on_tables (ClearSchedulerPlaneRuntime (spr_plane_name r));
    mret 0
  else if negb (ver_timed_out v) then
    _ ← save_runtime updated;
    mret 0
  else if (spr_rollback_attempt_count r =? 0) && negb (str_empty (spr_previous_state_json r)) then
    _ ← worker_after "failed-verification" (ver_detail v) false r;
    let planned :=
      runtime_after "rollback-planned" (spr_action_generation r) 0 (spr_rollback_attempt_count r)
        "verification timed out; rollback planned" (UtcNowSqlTimestamp now) r in
    _ ← save_runtime planned;
    _ ← action_event "rollback-planned" (ver_detail v) "warning" [] (spr_plane_name r) planned;
    mret 0
  else
    _ ← worker_after "manual-intervention-required" (ver_detail v) true r;
    _ ← action_event "manual-intervention-required" (ver_detail v) "error" [] (spr_plane_name r) updated;
    _ ← on_tables (ClearSchedulerPlaneRuntime (spr_plane_name r));
    mret 0.

Definition active_runtime (plane_name : string) (s : ControllerStore)
    : option SchedulerPlaneRuntime :=
  r ← LoadSchedulerPlaneRuntime plane_name (cs_scheduler s);
  if str_empty (spr_active_action r) then None else Some r.

Definition AdvanceActiveSchedulerAction : act Z :=
  desired_state ← latest_state;
  desired_generation ← latest_generation;
  match desired_state, desired_generation with
  | Some desired_state, Some desired_generation =>
      runtime ← query (active_runtime (ds_plane_name desired_state));
      match runtime with
      | None => mret 0
      | Some r =>
          if spr_phase r ==? "rollback-planned" then apply_rollback desired_generation r
          else verify_action r
      end
  | _, _ => mret 0
  end.

(** ** The tick *)

(** What the tick does once claimed assignments are reconciled. *)
Definition serve_latest_plane : act Z :=
  desired_state ← latest_state;
  desired_generation ← latest_generation;
  match desired_state, desired_generation with
  | Some desired_state, Some desired_generation =>
      runtime ← query (active_runtime (ds_plane_name desired_state));
      match runtime with
      | Some _ => AdvanceActiveSchedulerAction
      | None =>
          actions ← rollout_actions_of (ds_plane_name desired_state);
          let has_active_rollout :=
            any_of (fun a => (ra_desired_generation a =? desired_generation) &&
                             (ra_status a !=? ReadyToRetry)) actions in
          if negb (vec_empty actions) then ReconcileRolloutActions
          else if has_active_rollout then mret 0
          else ReconcileRebalanceProposals
      end
  | _, _ => mret 0
  end.
Definition SchedulerTick : act Z :=
  _ ← on_store (modify (fun s =>
        cs_with_assignments
          (fst (Reconcile (fun name => LoadPlane name s) (LoadHostObservations None None s) now
                  (cs_assignments s) None)) s));
  serve_latest_plane.
End service.

