(* ===== verification/SchedulerMachine.v ===== *)
(** * The machine of an active action

    A program logic for [SchedulerService] and the state machine its runs follow:
    a plane is idle, or one of its workers has been moved and the move is being
    verified, is to be rolled back, or has been rolled back and is being verified
    again.  The tick refines the machine, and an action comes to an end. *)

From S2P Require Import Prelude Binary64 Json Models Fixtures Planner ExecutionPlan AssignmentStore AssignmentReconciliation RuntimeStatus RuntimeSupport SchedulingPolicy SchedulerStore StateCodecs StateJson PlaneRealization ObservationMatcher ControllerStore PlaneService SchedulerView SchedulerDomain SchedulerExecution StateAggregate SchedulerService.

(** ** A program logic

    [hoare P m Q E]: from [P], [m] returns in [Q] or throws in [E]. *)

Definition hoare {A} (P : World -> Prop) (m : act A) (Q : A -> World -> Prop) (E : World -> Prop)
    : Prop :=
  forall w, P w -> match m w with (w', Ok a) => Q a w' | (w', Throw _) => E w' end.

Lemma hoare_bind {A B} P (m : act A) R (f : A -> act B) Q E :
  hoare P m R E -> (forall a, hoare (R a) (f a) Q E) -> hoare P (m ≫= f) Q E.
Proof.
  intros Hm Hf w HP. specialize (Hm w HP). unfold mbind, act_bind.
  destruct (m w) as [w' [a|e]]; [by apply Hf|done].
Qed.

Lemma hoare_ret {A} (P : World -> Prop) (a : A) (Q : A -> World -> Prop) E :
  (forall w, P w -> Q a w) -> hoare P (mret a) Q E.
Proof. intros H w HP. by apply H. Qed.

Lemma hoare_fail {A} (P : World -> Prop) e (Q : A -> World -> Prop) (E : World -> Prop) :
  (forall w, P w -> E w) -> hoare P (fail e) Q E.
Proof. intros H w HP. by apply H. Qed.

Lemma hoare_consequence {A} (P P' : World -> Prop) (m : act A) Q Q' (E E' : World -> Prop) :
  hoare P' m Q' E' -> (forall w, P w -> P' w) -> (forall a w, Q' a w -> Q a w) ->
  (forall w, E' w -> E w) -> hoare P m Q E.
Proof.
  intros Hm HP HQ HE w Hw. specialize (Hm w (HP w Hw)). destruct (m w) as [w' [a|e]]; auto.
Qed.

Lemma hoare_weaken_throw {A} (E' E : World -> Prop) (P : World -> Prop) (m : act A) Q :
  (forall w, E' w -> E w) -> hoare P m Q E' -> hoare P m Q E.
Proof. intros HE Hm. by eapply hoare_consequence. Qed.

(** *** The runtimes of the planes *)

Definition planes (w : World) : gmap string SchedulerPlaneRuntime :=
  st_planes (cs_scheduler (w_store w)).

(** A program that leaves them alone, whatever its outcome. *)
Definition quiet {A} (m : act A) : Prop := forall w, planes (fst (m w)) = planes w.

Lemma quiet_bind {A B} (m : act A) (f : A -> act B) :
  quiet m -> (forall a, quiet (f a)) -> quiet (m ≫= f).
Proof.
  intros Hm Hf w. specialize (Hm w). unfold mbind, act_bind.
  destruct (m w) as [w' [a|e]]; cbn [fst] in *; [by rewrite Hf|done].
Qed.
Lemma quiet_ret {A} (a : A) : quiet (mret a).
Proof. done. Qed.
Lemma quiet_fail {A} e : quiet (fail (A := A) e).
Proof. done. Qed.
Lemma quiet_query {A} (f : ControllerStore -> A) : quiet (query f).
Proof. done. Qed.
Lemma quiet_query_result {A} (f : ControllerStore -> result A) : quiet (query_result f).
Proof. done. Qed.
Lemma quiet_check {A} (r : result A) : quiet (check r).
Proof. done. Qed.
Lemma quiet_files {A} (f : Files -> Files * result A) : quiet (on_files f).
Proof. intros w. unfold on_files. by destruct (f (w_files w)). Qed.
Lemma quiet_queue f : quiet (on_queue f).
Proof. done. Qed.
Lemma quiet_tables f : (forall t, st_planes (f t) = st_planes t) -> quiet (on_tables f).
Proof. intros H w. cbn. apply H. Qed.
Lemma quiet_replace serialize now state generation iteration :
  quiet (replace_state serialize now state generation iteration).
Proof.
  intros w. unfold replace_state, on_store. unfold ReplacePlaneRow.
  by destruct (serialize state).
Qed.
Lemma quiet_event `{JsonLibrary} now category type message payload plane node worker id severity :
  quiet (append_event now category type message payload plane node worker id severity).
Proof.
  intros w. unfold append_event, on_store, lift, mbind, prog_bind. by destruct (dump payload).
Qed.
Lemma quiet_status id status message : quiet (set_action_status id status message).
Proof. done. Qed.
Lemma quiet_latest `{JsonLibrary} render relational : quiet (latest_state render relational).
Proof. done. Qed.
Lemma quiet_generation : quiet latest_generation.
Proof. done. Qed.
Lemma quiet_actions plane : quiet (rollout_actions_of plane).
Proof. done. Qed.
Lemma quiet_assignments : quiet all_assignments.
Proof. done. Qed.
Lemma quiet_worker now r : quiet (save_worker now r).
Proof. by apply quiet_tables. Qed.

Lemma replace_actions_planes plane generation actions t :
  st_planes (ReplaceRolloutActions plane generation actions t) = st_planes t.
Proof. apply replace_actions_frame. Qed.

Lemma evicted_planes now plane workers t :
  st_planes (MarkWorkersEvicted now plane workers t) = st_planes t.
Proof.
  unfold MarkWorkersEvicted. revert t. induction workers as [|w ws IH]; intros t; [done|]. cbn.
  rewrite IH. unfold mark_evicted. by destruct (str_empty w).
Qed.

Lemma moved_planes now r t : st_planes (MarkWorkerMoveVerified now r t) = st_planes t.
Proof.
  unfold MarkWorkerMoveVerified, mark_node_moved. cbn.
  by destruct (str_empty (spr_source_node_name r)), (str_empty (spr_target_node_name r)).
Qed.

Create HintDb quiet.
#[export] Hint Resolve quiet_bind quiet_ret quiet_fail quiet_query quiet_query_result quiet_check
  quiet_files quiet_queue quiet_replace quiet_event quiet_status quiet_latest quiet_generation
  quiet_actions quiet_assignments quiet_worker : quiet.
#[export] Hint Extern 2 (quiet (on_tables _)) =>
  apply quiet_tables; intros; first [apply replace_actions_planes | apply evicted_planes |
                                     apply moved_planes | reflexivity] : quiet.

(** [quiet] programs keep a precondition on the runtimes. *)
Lemma hoare_quiet {A} (F : gmap string SchedulerPlaneRuntime -> Prop) (m : act A) :
  quiet m -> hoare (fun w => F (planes w)) m (fun _ w => F (planes w)) (fun w => F (planes w)).
Proof.
  intros Hq w HF. specialize (Hq w). destruct (m w) as [w' [a|e]]; cbn [fst] in Hq; by rewrite Hq.
Qed.

Lemma hoare_skip {A B} m0 (m : act A) (f : A -> act B) Q (E : World -> Prop) :
  quiet m -> (forall w, planes w = m0 -> E w) ->
  (forall a, hoare (fun w => planes w = m0) (f a) Q E) ->
  hoare (fun w => planes w = m0) (m ≫= f) Q E.
Proof.
  intros Hm HE Hf. eapply hoare_bind with (R := fun _ w => planes w = m0); [|done].
  eapply hoare_consequence; [by apply (hoare_quiet (fun p => p = m0))|done..].
Qed.

Lemma hoare_check {A B} (P : World -> Prop) (r : result A) (f : A -> act B) Q (E : World -> Prop) :
  (forall w, P w -> E w) -> (forall a, r = Ok a -> hoare P (f a) Q E) ->
  hoare P (check r ≫= f) Q E.
Proof.
  intros HE Hf w HP. cbn. destruct r as [a|e]; [by destruct w; apply Hf|by destruct w; apply HE].
Qed.

Lemma hoare_quiet_post {A} m0 (m : act A) (Q : A -> World -> Prop) (E : World -> Prop) :
  quiet m -> (forall a w, planes w = m0 -> Q a w) -> (forall w, planes w = m0 -> E w) ->
  hoare (fun w => planes w = m0) m Q E.
Proof.
  intros Hm HQ HE. eapply hoare_consequence; [by apply (hoare_quiet (fun p => p = m0))|done..].
Qed.

(** ** The machine of an active action *)

Section machine.
Context `{Lib : !JsonLibrary}.
Context (verification : SchedulerExecutionVerificationConfig).

(** What the store keeps of a runtime saved at [now]. *)
Definition saved (now : Z) (r : SchedulerPlaneRuntime) : SchedulerPlaneRuntime :=
  runtime_with_stamps (default (UtcNowSqlTimestamp now) (nullif_empty (spr_started_at r)))
    (UtcNowSqlTimestamp now) r.

Definition elapsed (now : Z) (r : SchedulerPlaneRuntime) : Prop :=
  exists age, TimestampAgeSeconds now (spr_started_at r) = Some age /\
              ver_timeout_seconds verification <= age.

(** The runtime of a plane after its active action [r] has been advanced. *)
Inductive advance (now : Z) (r : SchedulerPlaneRuntime) : option SchedulerPlaneRuntime -> Prop :=
  | adv_verified :
      spr_phase r <> "rollback-planned" ->
      ver_stable_samples_required verification <= spr_stable_samples r + 1 ->
      advance now r None
  | adv_sample samples detail :
      spr_phase r <> "rollback-planned" ->
      samples = 0 \/ (samples = spr_stable_samples r + 1 /\
                      samples < ver_stable_samples_required verification) ->
      ~ elapsed now r ->
      advance now r (Some (saved now (runtime_after (spr_phase r) (spr_action_generation r) samples
                             (spr_rollback_attempt_count r) detail (spr_started_at r) r)))
  | adv_planned :
      spr_phase r <> "rollback-planned" -> elapsed now r ->
      spr_rollback_attempt_count r = 0 -> spr_previous_state_json r <> "" ->
      advance now r (Some (saved now (runtime_after "rollback-planned" (spr_action_generation r) 0
                             (spr_rollback_attempt_count r) "verification timed out; rollback planned"
                             (UtcNowSqlTimestamp now) r)))
  | adv_rolled_back generation :
      spr_phase r = "rollback-planned" ->
      advance now r (Some (saved now (runtime_after "rollback-applied" generation 0 1
                             "rollback materialized after verification timeout"
                             (UtcNowSqlTimestamp now) r)))
  | adv_gave_up :
      spr_phase r <> "rollback-planned" -> elapsed now r ->
      spr_rollback_attempt_count r <> 0 \/ spr_previous_state_json r = "" ->
      advance now r None.

Definition set_runtime (plane : string) (o : option SchedulerPlaneRuntime)
    (m : gmap string SchedulerPlaneRuntime) : gmap string SchedulerPlaneRuntime :=
  match o with Some r => <[plane := r]> m | None => delete plane m end.

Lemma timestamp_nonempty now : str_empty (UtcNowSqlTimestamp now) = false.
Proof. unfold UtcNowSqlTimestamp. by destruct (civil_from_days (now / 86400)) as [[??]?]. Qed.

Lemma save_runtime_planes now r w :
  planes (fst (save_runtime now r w)) = <[spr_plane_name r := saved now r]> (planes w) /\
  snd (save_runtime now r w) = Ok ().
Proof.
  split; [|done].
  change (planes (fst (save_runtime now r w))) with
    (st_planes (UpsertSchedulerPlaneRuntime (UtcNowSqlTimestamp now) r (cs_scheduler (w_store w)))).
  unfold saved, UpsertSchedulerPlaneRuntime, planes. pose proof (timestamp_nonempty now) as Hn.
  generalize dependent (UtcNowSqlTimestamp now). intros stamp Hn. cbn [st_planes with_planes].
  do 2 f_equal.
  destruct (st_planes (cs_scheduler (w_store w)) !! spr_plane_name r) as [row|]; [|done].
  unfold nullif_empty. destruct (str_empty (spr_started_at r)) eqn:E; cbn; [by rewrite Hn|by rewrite E].
Qed.

Lemma verification_cases now r observations v :
  EvaluateSchedulerActionVerification now verification r observations = Ok v ->
  (ver_stable v = true -> ver_stable_samples_required verification <= spr_stable_samples r + 1) /\
  (ver_stable v = false -> ver_next_stable_samples v = 0 \/
     (ver_next_stable_samples v = spr_stable_samples r + 1 /\
      ver_next_stable_samples v < ver_stable_samples_required verification)) /\
  (ver_timed_out v = true <-> elapsed now r).
Proof.
  unfold EvaluateSchedulerActionVerification. intros H. bind_inv.
  assert (Htime : from_option (fun age => age >=? ver_timeout_seconds verification) false
      (TimestampAgeSeconds now (spr_started_at r)) = true <-> elapsed now r).
  { unfold elapsed. destruct (TimestampAgeSeconds now (spr_started_at r)) as [age|]; cbn;
      [|naive_solver]. rewrite Z.geb_le. naive_solver. }
  destruct a as [m|]; [destruct (sample_converged m)|]; cbn; split_and?; try done; try naive_solver.
  - intros Hs. lia.
  - intros Hs. right. lia.
Qed.

Definition advanced (now : Z) (r : SchedulerPlaneRuntime) (m0 : gmap string SchedulerPlaneRuntime)
    (w : World) : Prop :=
  exists o, advance now r o /\ planes w = set_runtime (spr_plane_name r) o m0.

(** Saving or clearing a runtime, then only quiet steps. *)
Lemma hoare_saved {A} now m0 r (k : act A) (Q : World -> Prop) :
  quiet k -> (forall w, planes w = <[spr_plane_name r := saved now r]> m0 -> Q w) ->
  hoare (fun w => planes w = m0) (save_runtime now r ≫= fun _ => k) (fun _ => Q) Q.
Proof.
  intros Hk HQ w Hw. destruct (save_runtime_planes now r w) as [Hp Hok].
  unfold mbind, act_bind. destruct (save_runtime now r w) as [w1 r1]. cbn [fst snd] in *. subst r1.
  specialize (Hk w1). destruct (k w1) as [w2 [a|e]]; cbn [fst] in Hk; apply HQ; congruence.
Qed.

Lemma hoare_cleared {A} m0 plane (k : act A) (Q : World -> Prop) :
  quiet k -> (forall w, planes w = delete plane m0 -> Q w) ->
  hoare (fun w => planes w = m0) (on_tables (ClearSchedulerPlaneRuntime plane) ≫= fun _ => k)
    (fun _ => Q) Q.
Proof.
  intros Hk HQ w Hw. unfold mbind, act_bind. cbn.
  match goal with |- context [k ?w1] => specialize (Hk w1); destruct (k w1) as [w2 [a|e]] end;
    cbn [fst] in Hk; apply HQ; rewrite Hk; unfold planes in *; cbn; by rewrite Hw.
Qed.

Lemma hoare_save {A} now m0 r0 r (k : act A) :
  advance now r0 (Some (saved now r)) -> spr_plane_name r = spr_plane_name r0 -> quiet k ->
  hoare (fun w => planes w = m0) (save_runtime now r ≫= fun _ => k)
    (fun _ => advanced now r0 m0) (fun w => planes w = m0 \/ advanced now r0 m0 w).
Proof.
  intros Ha Hn Hk. apply (hoare_weaken_throw (advanced now r0 m0)); [by right|].
  apply hoare_saved; [done|]. intros w Hw. exists (Some (saved now r)). cbn. by rewrite <-Hn.
Qed.

Lemma hoare_clear {A} now m0 r (k : act A) :
  advance now r None -> quiet k ->
  hoare (fun w => planes w = m0)
    (on_tables (ClearSchedulerPlaneRuntime (spr_plane_name r)) ≫= fun _ => k)
    (fun _ => advanced now r m0) (fun w => planes w = m0 \/ advanced now r m0 w).
Proof.
  intros Ha Hk. apply (hoare_weaken_throw (advanced now r m0)); [by right|].
  apply hoare_cleared; [done|]. intros w Hw. by exists None.
Qed.

Lemma verify_action_spec now m0 r :
  spr_phase r <> "rollback-planned" ->
  hoare (fun w => planes w = m0) (verify_action verification now r)
    (fun _ => advanced now r m0) (fun w => planes w = m0 \/ advanced now r m0 w).
Proof.
  intros Hp. unfold verify_action.
  apply hoare_skip; [auto with quiet|by auto|]. intros observations.
  apply hoare_check; [by auto|]. intros v Hv.
  destruct (verification_cases _ _ _ _ Hv) as (Hst & Hns & Ht).
  destruct (ver_stable v) eqn:Es.
  { apply hoare_skip; [auto with quiet|by auto|]. intros _.
    apply hoare_skip; [unfold action_event; auto with quiet|by auto|]. intros _.
    apply hoare_clear; [apply adv_verified; auto|auto with quiet]. }
  destruct (ver_timed_out v) eqn:Et; cbn [negb].
  - destruct (Z.eqb_spec (spr_rollback_attempt_count r) 0) as [Ha|Ha]; cbn [andb];
      [destruct (str_empty (spr_previous_state_json r)) eqn:Epj; cbn [negb]|].
    2:{ apply str_empty_false in Epj.
        apply hoare_skip; [unfold worker_after; auto 6 with quiet|by auto|]. intros _.
        apply hoare_save; [apply adv_planned; try done; by apply Ht|done|
          unfold action_event; auto 6 with quiet]. }
    all: apply hoare_skip; [unfold worker_after; auto 6 with quiet|by auto|]; intros _;
      apply hoare_skip; [unfold action_event; auto with quiet|by auto|]; intros _;
      apply hoare_clear; [apply adv_gave_up; [done|by apply Ht|]|auto with quiet].
    + right. by apply str_empty_true.
    + by left.
  - apply hoare_save; [apply adv_sample; [done|by apply Hns|by rewrite <-Ht]|done|auto with quiet].
Qed.

(** ** Advancing *)

Context (render_v2 : json -> result DesiredState) (serialize_v2 : DesiredState -> result string)
  (load_relational : string -> ControllerStore -> result DesiredState).
Context (internal_host : option string) (db_path artifacts_root default_artifacts_root : string)
  (default_stale_after_seconds maximum_rebalance_iterations : Z) (cfg : SchedulerDomainPolicyConfig).
(** The relational copy of a state is in no table of the scheduler or the queue. *)
Hypothesis relational_frame : forall name s s',
  cs_planes s = cs_planes s' -> load_relational name s = load_relational name s'.

Lemma apply_rollback_spec now m0 generation r :
  spr_phase r = "rollback-planned" ->
  hoare (fun w => planes w = m0)
    (apply_rollback render_v2 serialize_v2 artifacts_root default_stale_after_seconds now generation r)
    (fun _ => advanced now r m0) (fun w => planes w = m0 \/ advanced now r m0 w).
Proof.
  intros Hp. unfold apply_rollback.
  destruct (str_empty (spr_previous_state_json r)); [apply hoare_fail; auto|].
  repeat (apply hoare_skip; [solve [auto with quiet]|by auto|]; intros ?).
  apply hoare_save; [by apply adv_rolled_back|done|unfold action_event; auto with quiet].
Qed.

Definition served (w : World) (plane : string) : Prop :=
  exists d, LoadLatestDesiredState render_v2 load_relational (w_store w) = Ok (Some d) /\
            ds_plane_name d = plane.
Definition idle (o : option SchedulerPlaneRuntime) : Prop :=
  forall r, o = Some r -> spr_active_action r = "".

Definition advance_active (now : Z) : act Z :=
  AdvanceActiveSchedulerAction render_v2 serialize_v2 load_relational artifacts_root
    default_stale_after_seconds verification now.

(** A read of the store passes its result on. *)
Lemma hoare_query {A B} (f : ControllerStore -> A) (k : A -> act B) w0 Q E :
  hoare (fun w => w = w0) (k (f (w_store w0))) Q E ->
  hoare (fun w => w = w0) (query f ≫= k) Q E.
Proof. intros H w ->. specialize (H w0 eq_refl). destruct w0. exact H. Qed.
Lemma hoare_query_result {A B} (f : ControllerStore -> result A) (k : A -> act B) w0 Q
    (E : World -> Prop) :
  E w0 -> (forall a, f (w_store w0) = Ok a -> hoare (fun w => w = w0) (k a) Q E) ->
  hoare (fun w => w = w0) (query_result f ≫= k) Q E.
Proof.
  intros He H w ->. unfold mbind, act_bind, query_result, on_store.
  destruct (f (w_store w0)) as [a|e] eqn:Ef; destruct w0; [by apply (H a)|done].
Qed.

Lemma hoare_from {A} w0 (m : act A) Q E :
  hoare (fun w => planes w = planes w0) m Q E -> hoare (fun w => w = w0) m Q E.
Proof. intros H w ->. by apply H. Qed.

Lemma active_runtime_some plane s r :
  active_runtime plane s = Some r <->
  st_planes (cs_scheduler s) !! plane = Some r /\ spr_active_action r <> "".
Proof.
  unfold active_runtime, LoadSchedulerPlaneRuntime.
  destruct (st_planes (cs_scheduler s) !! plane) as [r'|]; cbn; [|naive_solver].
  destruct (str_empty (spr_active_action r')) eqn:E.
  - apply str_empty_true in E. naive_solver.
  - apply str_empty_false in E. naive_solver.
Qed.
Lemma active_runtime_none plane s :
  active_runtime plane s = None <-> idle (st_planes (cs_scheduler s) !! plane).
Proof.
  unfold idle. split; intros H.
  - intros r Hr. destruct (decide (spr_active_action r = "")) as [|Hn]; [done|].
    assert (active_runtime plane s = Some r) by by apply active_runtime_some. congruence.
  - destruct (active_runtime plane s) as [r|] eqn:E; [|done].
    apply active_runtime_some in E as [Hr Hn]. by destruct Hn; apply H.
Qed.

Lemma advance_active_spec now w0 plane r :
  served w0 plane -> planes w0 !! plane = Some r -> spr_active_action r <> "" ->
  LoadLatestDesiredGeneration (w_store w0) <> None ->
  hoare (fun w => w = w0) (advance_active now) (fun _ => advanced now r (planes w0))
    (fun w => planes w = planes w0 \/ advanced now r (planes w0) w).
Proof.
  intros (d & Hd & <-) Hr Ha Hg. unfold advance_active, AdvanceActiveSchedulerAction.
  apply hoare_query_result; [by left|]. intros o Ho. rewrite Hd in Ho. injection Ho as <-.
  apply hoare_query. destruct (LoadLatestDesiredGeneration (w_store w0)) as [g|]; [|done].
  apply hoare_query.
  assert (active_runtime (ds_plane_name d) (w_store w0) = Some r) as ->
    by by apply active_runtime_some.
  apply (hoare_from w0).
  destruct (spr_phase r ==? "rollback-planned") eqn:Hp;
    [rewrite eqb_true in Hp; by apply apply_rollback_spec|
     rewrite eqb_false in Hp; by apply verify_action_spec].
Qed.

(** ** The tick *)

(** What a tick may do to the runtime of a plane. *)
Inductive plane_step (now : Z) (plane : string) (before : option SchedulerPlaneRuntime)
    : option SchedulerPlaneRuntime -> Prop :=
  | step_started entry generation previous_state_json :
      idle before ->
      plane_step now plane before
        (Some (saved now (verifying_runtime entry plane generation previous_state_json)))
  | step_reset : idle before -> plane_step now plane before None
  | step_advanced r o :
      before = Some r -> spr_active_action r <> "" -> advance now r o ->
      plane_step now plane before o.

Definition stepped (now : Z) (m0 : gmap string SchedulerPlaneRuntime) (w : World) : Prop :=
  planes w = m0 \/
  exists plane o, plane_step now plane (m0 !! plane) o /\ planes w = set_runtime plane o m0.

(** Programs that keep the rows of the planes as well. *)
Definition calm {A} (m : act A) : Prop :=
  quiet m /\ forall w, cs_planes (w_store (fst (m w))) = cs_planes (w_store w).

Lemma calm_bind {A B} (m : act A) (f : A -> act B) :
  calm m -> (forall a, calm (f a)) -> calm (m ≫= f).
Proof.
  intros [Hm Hm'] Hf. split; [apply quiet_bind; [done|apply Hf]|]. intros w. specialize (Hm' w).
  unfold mbind, act_bind. destruct (m w) as [w' [a|e]]; cbn [fst] in *; [|done].
  rewrite <-Hm'. apply Hf.
Qed.
Lemma calm_ret {A} (a : A) : calm (mret a).
Proof. by split. Qed.
Lemma calm_query {A} (f : ControllerStore -> A) : calm (query f).
Proof. by split. Qed.
Lemma calm_query_result {A} (f : ControllerStore -> result A) : calm (query_result f).
Proof. by split. Qed.
Lemma calm_check {A} (r : result A) : calm (check r).
Proof. by split. Qed.
Lemma calm_queue f : calm (on_queue f).
Proof. by split. Qed.
Lemma calm_status id status message : calm (set_action_status id status message).
Proof. by split. Qed.
Lemma calm_evicted now plane workers : calm (on_tables (MarkWorkersEvicted now plane workers)).
Proof. split; [auto with quiet|done]. Qed.
Hint Resolve calm_bind calm_ret calm_query calm_query_result calm_check calm_queue calm_status
  calm_evicted : quiet.

Lemma latest_state_frame s s' :
  cs_planes s = cs_planes s' ->
  LoadLatestDesiredState render_v2 load_relational s =
  LoadLatestDesiredState render_v2 load_relational s'.
Proof.
  intros H. unfold LoadLatestDesiredState, LoadLatestPlaneName, LoadPlanes. rewrite H.
  case_match; [|done]. unfold LoadDesiredState, LoadDesiredStateFromJson.
  by rewrite H, (relational_frame _ s s').
Qed.

(** The plane served has no active action. *)
Definition resting (m0 : gmap string SchedulerPlaneRuntime) (w : World) : Prop :=
  planes w = m0 /\ forall plane, served w plane -> idle (m0 !! plane).

Lemma hoare_calm {A B} m0 (m : act A) (f : A -> act B) Q (E : World -> Prop) :
  calm m -> (forall w, planes w = m0 -> E w) -> (forall a, hoare (resting m0) (f a) Q E) ->
  hoare (resting m0) (m ≫= f) Q E.
Proof.
  intros [Hq Hp] HE Hf w [Hw Hs]. specialize (Hq w). specialize (Hp w).
  unfold mbind, act_bind. destruct (m w) as [w' [a|e]]; cbn [fst] in *; [|apply HE; congruence].
  apply Hf. split; [congruence|]. intros plane (d & Hd & Hn). apply Hs. exists d.
  by rewrite (latest_state_frame _ (w_store w')).
Qed.

Lemma hoare_latest {B} m0 (f : option DesiredState -> act B) Q (E : World -> Prop) :
  (forall w, planes w = m0 -> E w) ->
  (forall o, (forall d, o = Some d -> idle (m0 !! ds_plane_name d)) ->
             hoare (resting m0) (f o) Q E) ->
  hoare (resting m0) (latest_state render_v2 load_relational ≫= f) Q E.
Proof.
  intros HE Hf w [Hw Hs]. unfold mbind, act_bind, latest_state, query_result, on_store.
  destruct (LoadLatestDesiredState render_v2 load_relational (w_store w)) as [o|e] eqn:E0.
  - apply Hf; [|by destruct w]. intros d ->. apply Hs. by exists d.
  - apply HE. by destruct w.
Qed.

Lemma hoare_resting {A} m0 (m : act A) Q E :
  hoare (fun w => planes w = m0) m Q E -> hoare (resting m0) m Q E.
Proof. intros H w [Hw _]. by apply H. Qed.

Lemma materialize_move_spec now m0 desired updated generation iteration observations entry :
  idle (m0 !! ds_plane_name updated) ->
  hoare (fun w => planes w = m0)
    (materialize_move serialize_v2 internal_host artifacts_root default_stale_after_seconds now
       desired updated generation iteration observations entry)
    (fun _ => stepped now m0) (stepped now m0).
Proof.
  intros Hi. unfold materialize_move.
  repeat (apply hoare_skip; [solve [auto with quiet]|by left|]; intros ?).
  apply hoare_saved; [auto with quiet|]. intros w Hw. right. eexists _, (Some _).
  split; [by apply step_started|exact Hw].
Qed.

Lemma rebalance_keeps_plane state entry state' :
  MaterializeRebalancePlanEntry state entry = Ok state' -> ds_plane_name state' = ds_plane_name state.
Proof. unfold MaterializeRebalancePlanEntry. case_match; [done|]. by intros [= <-]. Qed.

Lemma remove_workers_plane names state :
  ds_plane_name (RemoveWorkers names state) = ds_plane_name state.
Proof. unfold RemoveWorkers. revert state. induction names as [|n ns IH]; intros state; [done|]. cbn. by rewrite IH. Qed.

Lemma retry_keeps_plane state action victims state' :
  MaterializeRetryPlacementAction state action victims = Ok state' ->
  ds_plane_name state' = ds_plane_name state.
Proof.
  unfold MaterializeRetryPlacementAction. case_match; [done|]. intros [= <-]. apply remove_workers_plane.
Qed.

Lemma stay now m0 w : planes w = m0 -> stepped now m0 w.
Proof. by left. Qed.
Hint Resolve stay : quiet.

Lemma apply_proposal_spec now m0 worker :
  hoare (resting m0)
    (ApplyRebalanceProposal render_v2 serialize_v2 load_relational internal_host db_path artifacts_root
       default_stale_after_seconds maximum_rebalance_iterations cfg now worker)
    (fun _ => stepped now m0) (stepped now m0).
Proof.
  unfold ApplyRebalanceProposal. apply hoare_latest; [apply stay|]. intros o Ho.
  apply hoare_resting. do 2 (apply hoare_skip; [auto with quiet|apply stay|]; intros ?).
  destruct o as [d|]; [|apply hoare_fail, stay]. case_match; [|apply hoare_fail, stay].
  do 2 (apply hoare_skip; [auto with quiet|apply stay|]; intros ?).
  repeat (case_match; [|try (apply hoare_fail, stay)]; try (apply hoare_fail, stay)).
  all: apply hoare_check; [apply stay|]; intros d' Hd'.
  all: apply hoare_check; [apply stay|]; intros _ _; apply materialize_move_spec.
  all: rewrite (rebalance_keeps_plane _ _ _ Hd'); by apply Ho.
Qed.

Lemma apply_ready_spec now m0 id :
  hoare (resting m0)
    (ApplyReadyRolloutAction render_v2 serialize_v2 load_relational artifacts_root
       default_stale_after_seconds now id)
    (fun _ => stepped now m0) (stepped now m0).
Proof.
  unfold ApplyReadyRolloutAction. apply hoare_latest; [apply stay|]. intros o Ho.
  apply hoare_resting. apply hoare_skip; [auto with quiet|apply stay|]. intros g.
  destruct o as [d|]; [|apply hoare_fail, stay]. destruct g as [g|]; [|apply hoare_fail, stay].
  apply hoare_skip; [auto with quiet|apply stay|]. intros actions.
  destruct (FindRolloutActionById actions id) as [action|]; [|apply hoare_fail, stay].
  do 2 (case_match; [apply hoare_fail, stay|]).
  apply hoare_check; [apply stay|]. intros victims _. apply hoare_check; [apply stay|]. intros d' Hd'.
  repeat (apply hoare_skip; [solve [auto with quiet]|apply stay|]; intros ?).
  apply hoare_cleared; [auto 12 with quiet|]. intros w Hw. right. eexists _, None.
  split; [|exact Hw]. apply step_reset. rewrite (retry_keeps_plane _ _ _ _ Hd'). by apply Ho.
Qed.

Lemma reconcile_eviction_calm now desired generation action :
  calm (reconcile_eviction default_artifacts_root now desired generation action).
Proof.
  unfold reconcile_eviction, enqueue_eviction, all_assignments.
  destruct (ra_status action); [| |apply calm_ret]; [auto 12 with quiet|].
  apply calm_bind; [apply calm_query|]. intros assignments. case_match; [|apply calm_ret].
  apply calm_bind; [apply calm_status|]. intros _. apply calm_evicted.
Qed.

Lemma reconcile_retry_calm plane action : calm (reconcile_retry plane action).
Proof.
  unfold reconcile_retry, rollout_actions_of. apply calm_bind; [apply calm_query|]. intros actions.
  case_match; [|apply calm_ret]. case_match; auto 8 with quiet.
Qed.

Lemma show_lifecycle_quiet now : quiet (show_lifecycle render_v2 load_relational db_path cfg now).
Proof.
  unfold show_lifecycle. apply quiet_bind; [auto with quiet|]. intros [d|]; [|apply quiet_ret].
  apply quiet_bind; [auto with quiet|]. intros [g|]; auto with quiet.
Qed.

Lemma reconcile_actions_spec now m0 desired generation actions :
  hoare (resting m0)
    (reconcile_actions render_v2 serialize_v2 load_relational db_path artifacts_root
       default_artifacts_root default_stale_after_seconds cfg now desired generation actions)
    (fun _ => stepped now m0) (stepped now m0).
Proof.
  induction actions as [|action rest IH]; cbn [reconcile_actions].
  - apply hoare_resting, hoare_quiet_post; [apply show_lifecycle_quiet|intros _; apply stay|apply stay].
  - case_match.
    + apply hoare_calm; [apply reconcile_eviction_calm|apply stay|done].
    + case_match; [done|]. apply hoare_calm; [apply reconcile_retry_calm|apply stay|].
      intros [id|]; [apply apply_ready_spec|done].
Qed.

Lemma reconcile_rollout_spec now m0 :
  hoare (resting m0)
    (ReconcileRolloutActions render_v2 serialize_v2 load_relational db_path artifacts_root
       default_artifacts_root default_stale_after_seconds cfg now)
    (fun _ => stepped now m0) (stepped now m0).
Proof.
  unfold ReconcileRolloutActions. apply hoare_calm; [apply calm_query_result|apply stay|]. intros o.
  apply hoare_calm; [apply calm_query|apply stay|]. intros g.
  destruct o as [d|]; [|apply hoare_resting, hoare_fail, stay].
  destruct g as [g|]; [|apply hoare_resting, hoare_fail, stay].
  apply hoare_calm; [apply calm_query|apply stay|]. intros all.
  case_match; [|apply reconcile_actions_spec].
  apply hoare_resting, hoare_ret, stay.
Qed.

Lemma reconcile_rebalance_spec now m0 :
  hoare (resting m0)
    (ReconcileRebalanceProposals render_v2 serialize_v2 load_relational internal_host db_path
       artifacts_root default_stale_after_seconds maximum_rebalance_iterations cfg now)
    (fun _ => stepped now m0) (stepped now m0).
Proof.
  unfold ReconcileRebalanceProposals. apply hoare_calm; [apply calm_query_result|apply stay|]. intros o.
  apply hoare_calm; [apply calm_query|apply stay|]. intros g.
  destruct o as [d|]; [|apply hoare_resting, hoare_fail, stay].
  destruct g as [g|]; [|apply hoare_resting, hoare_fail, stay].
  apply hoare_calm; [apply calm_query_result|apply stay|]. intros view.
  repeat (case_match; try apply hoare_resting, hoare_ret, stay). apply apply_proposal_spec.
Qed.

Definition tick (now : Z) : act Z :=
  SchedulerTick render_v2 serialize_v2 load_relational internal_host db_path artifacts_root
    default_artifacts_root default_stale_after_seconds maximum_rebalance_iterations cfg verification now.

(** The runtimes are kept under the names of their planes ([store_ok]). *)
Definition runtimes_ok (w : World) : Prop := map_Forall (fun k r => spr_plane_name r = k) (planes w).

Lemma advanced_stepped now w0 plane r w :
  runtimes_ok w0 -> planes w0 !! plane = Some r -> spr_active_action r <> "" ->
  advanced now r (planes w0) w -> stepped now (planes w0) w.
Proof.
  intros Hok Hr Ha (o & Hadv & Hw). pose proof (Hok _ _ Hr) as Hn. cbn in Hn. rewrite Hn in Hw.
  right. exists plane, o. split; [|done]. by apply (step_advanced _ _ _ r).
Qed.

Lemma serve_plane_spec now w0 :
  runtimes_ok w0 ->
  hoare (fun w => w = w0)
    (serve_latest_plane render_v2 serialize_v2 load_relational internal_host db_path artifacts_root
       default_artifacts_root default_stale_after_seconds maximum_rebalance_iterations cfg verification now)
    (fun _ => stepped now (planes w0)) (stepped now (planes w0)).
Proof.
  intros Hok. unfold serve_latest_plane. apply hoare_query_result; [by left|]. intros o Ho.
  apply hoare_query. destruct o as [d|]; [|by apply hoare_from, hoare_ret, stay].
  destruct (LoadLatestDesiredGeneration (w_store w0)) as [g|] eqn:Eg;
    [|by apply hoare_from, hoare_ret, stay].
  apply hoare_query.
  destruct (active_runtime (ds_plane_name d) (w_store w0)) as [r|] eqn:Er.
  - apply active_runtime_some in Er as [Hr Ha].
    eapply hoare_consequence;
      [apply (advance_active_spec now w0 (ds_plane_name d) r); [by exists d|done|done|by rewrite Eg]|
       done|cbn; intros _ w; by apply (advanced_stepped now w0 (ds_plane_name d))|].
    cbn. intros w [Hw|Hw]; [by left|by apply (advanced_stepped now w0 (ds_plane_name d) r)].
  - apply active_runtime_none in Er. apply hoare_query.
    assert (Hrest : forall w, w = w0 -> resting (planes w0) w).
    { intros w ->. split; [done|]. intros plane (d' & Hd' & <-). simplify_eq. by rewrite Ho in Hd'; injection Hd' as <-. }
    repeat case_match.
    + eapply hoare_consequence; [apply reconcile_rollout_spec|done..].
    + by apply hoare_from, hoare_ret, stay.
    + eapply hoare_consequence; [apply reconcile_rebalance_spec|done..].
Qed.

Lemma tick_steps now w : runtimes_ok w -> stepped now (planes w) (fst (tick now w)).
Proof.
  intros Hok. unfold tick, SchedulerTick, mbind, act_bind. cbn [on_store modify fst snd].
  match goal with |- context [serve_latest_plane _ _ _ _ _ _ _ _ _ _ _ _ ?w1] => set (w' := w1) end.
  pose proof (serve_plane_spec now w' Hok w' eq_refl) as H. destruct w.
  match type of H with match ?x with _ => _ end => destruct x as [w2 [a|e]] end; exact H.
Qed.

(** ** An action comes to an end *)

Local Abbreviation timeout := (ver_timeout_seconds verification).
Definition representable (t : Z) : Prop := 0 <= t < 253402300800.

Definition retriable (r : SchedulerPlaneRuntime) : bool :=
  (spr_rollback_attempt_count r =? 0) && negb (str_empty (spr_previous_state_json r)).

(** When an action is over at the latest: it was advanced last at [last], its
    phase began at [start], and it is advanced at least every [delta] seconds. *)
Definition deadline (delta : Z) (r : SchedulerPlaneRuntime) (start last : Z) : Z :=
  if spr_phase r ==? "rollback-planned" then last + timeout + 2 * delta
  else if retriable r then start + 2 * timeout + 3 * delta
  else start + timeout + delta.

Record timely (r : SchedulerPlaneRuntime) (start last : Z) : Prop := {
  tm_active : spr_active_action r <> "";
  tm_started : spr_started_at r = UtcNowSqlTimestamp start;
  tm_range : representable start;
  tm_phase : spr_phase r <> "rollback-planned" -> last <= start + timeout;
}.

Lemma elapsed_iff now r start last :
  timely r start last -> elapsed now r <-> start + timeout <= now.
Proof.
  intros H. unfold elapsed. rewrite (tm_started _ _ _ H), timestamp_age by apply (tm_range _ _ _ H).
  split; [intros (? & [= <-] & ?); lia|]. intros. eexists. split; [done|]. lia.
Qed.

Lemma saved_started now started r phase generation samples attempts message :
  started <> "" ->
  spr_started_at (saved now (runtime_after phase generation samples attempts message started r)) = started.
Proof. intros H. cbn. unfold nullif_empty. by rewrite (proj2 (str_empty_false _) H). Qed.

Lemma stamp_nonempty now : UtcNowSqlTimestamp now <> "".
Proof. apply str_empty_false, timestamp_nonempty. Qed.

Lemma deadline_planned delta r start last :
  spr_phase r = "rollback-planned" -> deadline delta r start last = last + timeout + 2 * delta.
Proof. intros H. unfold deadline. by rewrite (proj2 (eqb_true _ _) H). Qed.
Lemma deadline_running delta r start last :
  spr_phase r <> "rollback-planned" ->
  deadline delta r start last =
    if retriable r then start + 2 * timeout + 3 * delta else start + timeout + delta.
Proof. intros H. unfold deadline. by rewrite (proj2 (eqb_false _ _) H). Qed.

(** One step keeps the schedule. *)
Lemma advance_timely delta now r start last o :
  0 < delta -> 0 <= timeout -> timely r start last -> last <= now <= last + delta ->
  representable now -> advance now r o ->
  o = None \/ exists r' start', o = Some r' /\ spr_plane_name r' = spr_plane_name r /\
    timely r' start' now /\ deadline delta r' start' now <= deadline delta r start last.
Proof.
  intros Hd Ht Htm Hnow Hrep Hadv. pose proof (elapsed_iff now _ _ _ Htm) as Hel.
  pose proof (stamp_nonempty now) as Hne. pose proof (tm_phase _ _ _ Htm) as Hph.
  destruct Hadv as [Hp Hs|samples detail Hp Hs He|Hp He Ha Hj|generation Hp|Hp He Ha];
    [by left| | | |by left]; right; eexists; [exists start|exists now|exists now];
    (split; [reflexivity|]); (split; [done|]).
  - rewrite Hel in He. split.
    + split; [apply Htm| |apply Htm|lia].
      rewrite saved_started; rewrite (tm_started _ _ _ Htm); [done|apply stamp_nonempty].
    + by rewrite !deadline_running.
  - rewrite Hel in He. specialize (Hph Hp). split.
    + split; [apply Htm|by rewrite saved_started|done|done].
    + rewrite deadline_planned, deadline_running by done. unfold retriable.
      rewrite Ha, (proj2 (str_empty_false _) Hj). cbn [Z.eqb negb andb]. lia.
  - split.
    + split; [apply Htm|by rewrite saved_started|done|lia].
    + rewrite deadline_running, deadline_planned by done. cbn [retriable]. unfold retriable.
      cbn [spr_rollback_attempt_count saved runtime_with_stamps runtime_after Z.eqb andb]. lia.
Qed.

(** Rounds of [AdvanceActiveSchedulerAction] that return, at the given times;
    between two of them anything may happen that keeps the runtime of the plane
    and the plane served. *)
Inductive rounds (plane : string) : World -> list Z -> World -> Prop :=
  | rounds_nil w : rounds plane w [] w
  | rounds_cons w w1 w2 w3 now code times :
      planes w1 !! plane = planes w !! plane -> runtimes_ok w1 -> served w1 plane ->
      LoadLatestDesiredGeneration (w_store w1) <> None ->
      advance_active now w1 = (w2, Ok code) ->
      rounds plane w2 times w3 ->
      rounds plane w (now :: times) w3.

(** The times of the rounds: in order, and at most [delta] apart. *)
Fixpoint spaced (delta last : Z) (times : list Z) : Prop :=
  match times with
  | [] => True
  | t :: times => last <= t <= last + delta /\ representable t /\ spaced delta t times
  end.
Definition last_of (last : Z) (times : list Z) : Z := List.last times last.

Lemma last_of_cons last t times : last_of last (t :: times) = last_of t times.
Proof.
  unfold last_of. revert last t. induction times as [|u times IH]; intros last t; [done|].
  change (List.last (t :: u :: times) last) with (List.last (u :: times) last). by rewrite !IH.
Qed.

Lemma advance_idle now w w' code plane :
  served w plane -> planes w !! plane = None -> advance_active now w = (w', Ok code) ->
  planes w' = planes w.
Proof.
  intros (d & Hd & <-) Hn H.
  assert (Hq : hoare (fun x => x = w) (advance_active now) (fun _ x => planes x = planes w) (fun _ => True)).
  { unfold advance_active, AdvanceActiveSchedulerAction.
    apply hoare_query_result; [done|]. intros o Ho. rewrite Hd in Ho. injection Ho as <-.
    apply hoare_query. case_match; [|by apply hoare_from, hoare_ret]. apply hoare_query.
    rewrite (proj2 (active_runtime_none _ _)); [by apply hoare_from, hoare_ret|].
    intros r Hr. unfold planes in Hn. congruence. }
  specialize (Hq w eq_refl). by rewrite H in Hq.
Qed.

Lemma rounds_idle plane w times w' :
  rounds plane w times w' -> planes w !! plane = None -> planes w' !! plane = None.
Proof.
  induction 1 as [|w w1 w2 w3 now code times Hp Hok Hs Hg Ha _ IH]; [done|]. intros Hn. apply IH.
  rewrite (advance_idle _ _ _ _ _ Hs ltac:(congruence) Ha). congruence.
Qed.

Lemma advance_round delta now w w' code plane r start last :
  0 < delta -> 0 <= timeout -> runtimes_ok w -> served w plane ->
  LoadLatestDesiredGeneration (w_store w) <> None ->
  planes w !! plane = Some r -> timely r start last -> last <= now <= last + delta ->
  representable now -> advance_active now w = (w', Ok code) ->
  planes w' !! plane = None \/
  exists r' start', planes w' !! plane = Some r' /\ timely r' start' now /\
    deadline delta r' start' now <= deadline delta r start last.
Proof.
  intros Hd Ht Hok Hs Hg Hr Htm Hnow Hrep H.
  pose proof (advance_active_spec now w plane r Hs Hr (tm_active _ _ _ Htm) Hg w eq_refl) as Hspec.
  rewrite H in Hspec. destruct Hspec as (o & Hadv & Hw).
  pose proof (Hok _ _ Hr) as Hn. cbn in Hn. rewrite Hn in Hw.
  destruct (advance_timely delta now r start last o) as [->|(r' & s' & -> & _ & ? & ?)]; try done.
  - left. rewrite Hw. apply lookup_delete_eq.
  - right. exists r', s'. split; [|done]. rewrite Hw. apply lookup_insert_eq.
Qed.

Lemma rounds_deadline plane delta w times w' :
  0 < delta -> 0 <= timeout -> rounds plane w times w' ->
  forall r start last, planes w !! plane = Some r -> timely r start last ->
  spaced delta last times -> deadline delta r start last <= last_of last times ->
  planes w' !! plane = None.
Proof.
  intros Hd Ht. induction 1 as [w|w w1 w2 w3 now code times Hp Hok Hs Hg Ha Hrest IH];
    intros r start last Hr Htm Hsp Hdl.
  - exfalso. pose proof (tm_phase _ _ _ Htm) as Hph. unfold last_of in Hdl. cbn [List.last] in Hdl.
    destruct (decide (spr_phase r = "rollback-planned")) as [E|E];
      [rewrite deadline_planned in Hdl by done; lia|].
    rewrite deadline_running in Hdl by done. specialize (Hph E). destruct (retriable r); lia.
  - destruct Hsp as (Hnow & Hrep & Hsp). rewrite last_of_cons in Hdl. rewrite <-Hp in Hr.
    destruct (advance_round delta now w1 w2 code plane r start last) as [Hn|(r' & s' & Hr' & Htm' & Hle)];
      try done; [by eapply rounds_idle|].
    apply (IH r' s' now); [done..|lia].
Qed.

(** C5. The scheduler's tick refines the state machine of an active action: whatever its outcome,
    at most one plane has its runtime changed.  An idle plane starts verifying a move or drops its
    runtime; an active action is verified (enough stable samples), sampled again (not elapsed),
    planned for rollback (elapsed, first attempt, with a state to go back to), rolled back (only
    from the planned phase), or given up.  No other phase change happens. *)
Theorem tick_follows_machine now w :
  store_ok (w_store w) -> stepped now (planes w) (fst (tick now w)).
Proof. intros H. apply tick_steps, H. Qed.

(** C16. An active action comes to an end.  If its plane is served and the action is advanced at
    least every [delta] seconds by calls that return, then [2 * timeout + 3 * delta] seconds after
    the phase it is in began the plane has no active action any more: the move was verified, or
    rolled back once and then verified, or given up. *)
Theorem active_action_terminates plane delta w times w' r start :
  0 < delta -> 0 <= timeout -> representable start ->
  planes w !! plane = Some r -> spr_active_action r <> "" ->
  spr_started_at r = UtcNowSqlTimestamp start ->
  rounds plane w times w' -> spaced delta start times ->
  start + 2 * timeout + 3 * delta <= last_of start times ->
  planes w' !! plane = None.
Proof.
  intros Hd Ht Hrep Hr Ha Hst Hrounds Hsp Hlast.
  eapply (rounds_deadline plane delta w times w' Hd Ht Hrounds r start start); [done| |done|].
  - split; [done..|]. intros _. lia.
  - unfold deadline. destruct (spr_phase r ==? "rollback-planned"); [lia|]. destruct (retriable r); lia.
Qed.
End machine.

(** ** Witnesses *)

Definition fx_active : SchedulerPlaneRuntime :=
  mkSchedulerPlaneRuntime "demo" "rebalance" "worker-0" "verifying-move" 2 0 0 "node-a" "0" "node-b" "0"
    "" "awaiting post-move verification" (UtcNowSqlTimestamp 1000) (UtcNowSqlTimestamp 1000).
Definition fx_world : World :=
  mkWorld (cs_with_scheduler
             (with_planes {["demo" := fx_active]} (cs_scheduler (fx_store "running")))
             (fx_store "running")) ∅.
Definition fx_verification : SchedulerExecutionVerificationConfig :=
  {| ver_timeout_seconds := 30; ver_stable_samples_required := 3 |}.

Lemma tick_follows_machine_witness :
  stepped fx_verification 1020 (planes fx_world)
    (fst (tick (Lib:=tree_json) fx_verification no_render (fun _ => Ok "{}") fx_relational None "db" "/artifacts"
       "/artifacts" 300 3 SchedulerDomainPolicyConfig_default 1020 fx_world)).
Proof.
  apply (tick_follows_machine (Lib:=tree_json)).
  - done.
  - destruct (fx_store_ok "running") as [H1 H2 H3 H4 H5 H6 H7 H8].
    split; try done. apply map_Forall_singleton. reflexivity.
Defined.

Definition fx_times : list Z := [1020; 1040; 1080; 1120; 1160; 1190].
Definition fx_advance (now : Z) (w : World) : World * result Z :=
  advance_active (Lib:=tree_json) fx_verification no_render (fun _ => Ok "{}") fx_relational "/artifacts"
    300 now w.
Definition fx_sampled : World := Eval vm_compute in fst (fx_advance 1020 fx_world).
Definition fx_given_up : World := Eval vm_compute in fst (fx_advance 1040 fx_sampled).

Lemma active_action_terminates_witness :
  spr_phase <$> planes fx_sampled !! "demo" = Some "verifying-move" /\
  planes fx_given_up !! "demo" = None.
Proof.
  split; [reflexivity|].
  apply (active_action_terminates (Lib:=tree_json) fx_verification no_render (fun _ => Ok "{}")
    fx_relational "/artifacts" 300 "demo" 40 fx_world fx_times fx_given_up fx_active 1000);
    [done|done|done|reflexivity|done|reflexivity| |by repeat split|done].
  apply (rounds_cons _ _ _ _ _ _ _ fx_world fx_world fx_sampled fx_given_up 1020 0);
    [reflexivity|by apply map_Forall_singleton|eexists; split; reflexivity|vm_compute; discriminate|
     vm_compute; reflexivity|].
  apply (rounds_cons _ _ _ _ _ _ _ fx_sampled fx_sampled fx_given_up fx_given_up 1040 0);
    [reflexivity|apply (bool_decide_unpack _); vm_compute; done|eexists; split; reflexivity|vm_compute; discriminate|
     vm_compute; reflexivity|].
  do 4 (eapply (rounds_cons _ _ _ _ _ _ _ fx_given_up fx_given_up fx_given_up fx_given_up _ 0);
    [reflexivity|apply (bool_decide_unpack _); vm_compute; done|eexists; split; reflexivity|vm_compute; discriminate|
     vm_compute; reflexivity|]).
  apply rounds_nil.
Defined.
