(* ===== verification/InteractionText.v ===== *)
(** * Text of the interaction service

    [controller/src/interaction]: the UTF-8 sanitizer
    ([interaction_utf8_payload_sanitizer.cpp]), the cleaning of model output
    ([interaction_text_post_processor.cpp]) with the filter that removes the
    completion marker from a stream, [interaction_runtime_text_support.cpp], and the
    test for a repeated continuation of [interaction_service.cpp].  A [std::string]
    is the list of its bytes here.  A loop is given fuel; it is proved that the fuel
    is enough. *)

From S2P Require Import Prelude Json Models Planner AssignmentStore.

Abbreviation text := (list Ascii.ascii).
Definition bytes (s : string) : text := list_of_string s.

(** ** Searching *)

Fixpoint is_prefix (p s : text) : bool :=
  match p, s with
  | [], _ => true
  | _, [] => false
  | a :: p', b :: s' => (a ==? b) && is_prefix p' s'
  end.

(** [s.find(p)] *)
Fixpoint find (p s : text) : option nat :=
  if is_prefix p s then Some 0%nat
  else match s with [] => None | _ :: s' => S <$> find p s' end.

(** [s.find(p, from)] *)
Definition find_from (p s : text) (from : nat) : option nat :=
  (fun i => (from + i)%nat) <$> find p (drop from s).

Definition contains (p s : text) : bool := has_value (find p s).

Fixpoint drop_spaces (s : text) : text :=
  match s with c :: s' => if is_space c then drop_spaces s' else s | [] => [] end.
Definition TrimCopy (s : text) : text := reverse (drop_spaces (reverse (drop_spaces s))).
Definition LowercaseCopy (s : text) : text := ascii_lower <$> s.

Definition IsBlank (s : text) : bool := vec_empty (TrimCopy s).
Definition IsTimeoutLikeError (message : text) : bool :=
  contains (bytes "timed out") (LowercaseCopy message) ||
  contains (bytes "timeout") (LowercaseCopy message).

(** [std::getline] until the end of the text. *)
Fixpoint lines_from (current : text) (s : text) : list text :=
  match s with
  | [] => match current with [] => [] | _ => [current] end
  | c :: s' =>
      if char_code c =? 10 then current :: lines_from [] s' else lines_from (current ++ [c]) s'
  end.
Definition getlines (s : text) : list text := lines_from [] s.

(** ** UTF-8 *)

Definition IsUtf8ContinuationByte (c : Ascii.ascii) : bool :=
  Z.land (char_code c) 192 =? 128.

Definition Utf8SequenceLength (lead : Ascii.ascii) : nat :=
  let n := char_code lead in
  if Z.land n 128 =? 0 then 1
  else if Z.land n 224 =? 192 then 2
  else if Z.land n 240 =? 224 then 3
  else if Z.land n 248 =? 240 then 4
  else 0.

(** The length of the sequence [s] begins with, [None] if it begins with none. *)
Definition utf8_front (s : text) : option nat :=
  match s with
  | [] => None
  | lead :: _ =>
      let sequence_length := Utf8SequenceLength lead in
      if ((sequence_length =? 0) || (length s <? sequence_length))%nat then None
      else if forallb IsUtf8ContinuationByte (take (sequence_length - 1) (drop 1 s))
      then Some sequence_length else None
  end.

Fixpoint sanitize (fuel : nat) (s : text) : text :=
  match fuel, s with
  | S fuel, c :: s' =>
      match utf8_front s with
      | Some n => take n s ++ sanitize fuel (drop n s)
      | None => "?"%char :: sanitize fuel s'
      end
  | _, _ => []
  end.
Definition SanitizeText (s : text) : text := sanitize (length s) s.
Definition SanitizeString (value : string) : string := string_of_list (SanitizeText (bytes value)).

Fixpoint SanitizeJson (value : json) : json :=
  match value with
  | JString s => JString (SanitizeString s)
  | JArray items => JArray (map SanitizeJson items)
  | JObject fields =>
      JObject (map_items (foldl (fun sanitized kv => <[kv.1 := kv.2]> sanitized) (∅ : gmap string json)
                 (map (fun kv => (SanitizeString kv.1, SanitizeJson kv.2)) fields)))
  | _ => value
  end.

Fixpoint utf8_prefix (fuel : nat) (s : text) : nat :=
  match fuel with
  | O => O
  | S fuel =>
      match utf8_front s with
      | Some n => n + utf8_prefix fuel (drop n s)
      | None => 0
      end
  end.
Definition ValidUtf8PrefixLength (value : text) : nat := utf8_prefix (length value) value.

Definition Utf8SafeSuffix (value : text) (max_bytes : nat) : text :=
  if (length value <=? max_bytes)%nat then value
  else
    (fix skip (s : text) : text :=
       match s with c :: s' => if IsUtf8ContinuationByte c then skip s' else s | [] => [] end)
      (drop (length value - max_bytes) value).

(** ** Cleaning model output *)

Definition think_open : text := bytes "<think>".
Definition think_close : text := bytes "</think>".

Fixpoint remove_think (fuel : nat) (value : text) : text :=
  match find think_open value with
  | None => value
  | Some begin =>
      match find_from think_close value begin with
      | None => take begin value
      | Some stop =>
          match fuel with
          | O => value
          | S fuel => remove_think fuel (take begin value ++ drop (stop + length think_close) value)
          end
      end
  end.
Definition RemoveThinkBlocks (value : text) : text := remove_think (length value) value.

(** The result and the value of [marker_seen]; [None] when the fuel runs out. *)
Fixpoint remove_markers (fuel : nat) (marker output : text) (seen : bool) : option (text * bool) :=
  match find marker output with
  | None => Some (output, seen)
  | Some position =>
      match fuel with
      | O => None
      | S fuel =>
          remove_markers fuel marker (take position output ++ drop (position + length marker) output) true
      end
  end.
Definition RemoveCompletionMarkers (input marker : text) : option (text * bool) :=
  remove_markers (length input) marker input false.

Definition SplitParagraphs (value : text) : list text :=
  let '(paragraphs, current) :=
    foldl (fun '(paragraphs, current) line =>
        if vec_empty (TrimCopy line)
        then if vec_empty current then (paragraphs, current)
             else (paragraphs ++ [TrimCopy current], [])
        else (paragraphs, (if vec_empty current then [] else current ++ bytes newline) ++ line))
      ([], []) (getlines value) in
  if vec_empty current then paragraphs else paragraphs ++ [TrimCopy current].

Definition SplitParagraphsLocal (value : text) : list text :=
  let '(paragraphs, current) :=
    foldl (fun '(paragraphs, current) line =>
        if vec_empty (TrimCopy line)
        then if vec_empty (TrimCopy current) then (paragraphs, current)
             else (paragraphs ++ [TrimCopy current], [])
        else (paragraphs, (if vec_empty current then [] else current ++ bytes newline) ++ line))
      ([], []) (getlines value) in
  if vec_empty (TrimCopy current) then paragraphs else paragraphs ++ [TrimCopy current].

Definition ends_sentence (c : Ascii.ascii) : bool :=
  (c ==? "."%char) || (c ==? "!"%char) || (c ==? "?"%char) || (char_code c =? 10).
Definition SplitSentenceLikeUnits (value : text) : list text :=
  let '(units, current) :=
    foldl (fun '(units, current) ch =>
        let current := current ++ [ch] in
        if ends_sentence ch then (units ++ [current], []) else (units, current))
      ([], []) value in
  if vec_empty current then units else units ++ [current].

(** [NormalizeDedupKey], [NormalizeContinuationText]: runs of space become one
    space, letters are lowered, spaces at the ends dropped. *)
Definition squeeze (value : text) : text :=
  fst (foldl (fun '(normalized, previous_space) ch =>
      if is_space ch
      then (if previous_space : bool then normalized else normalized ++ [" "%char], true)
      else (normalized ++ [ascii_lower ch], false))
    ([], false) value).
Fixpoint drop_blanks (s : text) : text :=
  match s with c :: s' => if c ==? " "%char then drop_blanks s' else s | [] => [] end.
Definition NormalizeDedupKey (value : text) : text :=
  reverse (drop_blanks (reverse (drop_blanks (squeeze value)))).

Definition CollapseAdjacentDuplicateUnits (units : list text) (separator : text) : text :=
  fst (foldl (fun '(collapsed, previous_key) unit =>
      let trimmed := TrimCopy unit in
      if vec_empty trimmed then (collapsed, previous_key)
      else
        let key := NormalizeDedupKey trimmed in
        if negb (vec_empty previous_key) && (key ==? previous_key) then (collapsed, previous_key)
        else ((if vec_empty collapsed then [] else collapsed ++ separator) ++ trimmed, key))
    ([], []) units).

Definition CollapseAdjacentDuplicates (value : text) : text :=
  let paragraphs := SplitParagraphsLocal value in
  if (1 <? length paragraphs)%nat
  then CollapseAdjacentDuplicateUnits paragraphs (bytes newline ++ bytes newline)
  else
    let sentences := SplitSentenceLikeUnits value in
    if (1 <? length sentences)%nat then CollapseAdjacentDuplicateUnits sentences (bytes " ")
    else value.

Definition reasoning_preambles : list text :=
  bytes <$> ["thinking process:"; "reasoning:"; "analysis:"; "chain of thought:";
             "the user's prompt explicitly states:"; "therefore, despite the user's request";
             "given the user explicitly requested"; "i will present this";
             "i will structure the response"].
Definition StartsWithReasoningPreamble (value : text) : bool :=
  let lowered := LowercaseCopy (TrimCopy value) in
  any_of (fun preamble => is_prefix preamble lowered) reasoning_preambles.

Definition list_item_marks : list text := bytes <$> ["1."; "2."; "3."; "* "].
(** A paragraph that is shown instead of the reasoning before it. *)
Definition answer_paragraph (paragraph : text) : bool :=
  let candidate := TrimCopy paragraph in
  negb (vec_empty candidate) && negb (StartsWithReasoningPreamble candidate) &&
  negb (any_of (fun mark => is_prefix mark (LowercaseCopy candidate)) list_item_marks).

Definition task_complete : text := bytes "[[TASK_COMPLETE]]".
Definition SanitizeInteractionText (value : text) : option text :=
  removed ← RemoveCompletionMarkers (RemoveThinkBlocks value) task_complete;
  let value := TrimCopy (fst removed) in
  let collapsed := TrimCopy (CollapseAdjacentDuplicates value) in
  Some (if StartsWithReasoningPreamble value
        then from_option TrimCopy collapsed (find_last_if answer_paragraph (SplitParagraphs value))
        else collapsed).

(** ** The marker filter of a stream *)

Record CompletionMarkerFilterState := mkCompletionMarkerFilterState {
  fs_pending : text;
  fs_marker_seen : bool;
}.
Definition CompletionMarkerFilterState_default : CompletionMarkerFilterState :=
  mkCompletionMarkerFilterState [] false.

(** The loop: what is emitted of [pending], what stays, and whether a marker was seen. *)
Fixpoint filter_pending (fuel : nat) (marker pending : text) (seen final_flush : bool)
    : option (text * CompletionMarkerFilterState) :=
  match find marker pending with
  | Some marker_pos =>
      match fuel with
      | O => None
      | S fuel =>
          '(emitted, state) ← filter_pending fuel marker
            (drop (marker_pos + length marker) pending) true final_flush;
          Some (take marker_pos pending ++ emitted, state)
      end
  | None =>
      if final_flush then Some (pending, mkCompletionMarkerFilterState [] seen)
      else if (length marker <? length pending)%nat then
        let safe_prefix := (length pending - length marker + 1)%nat in
        let valid_prefix := ValidUtf8PrefixLength (take safe_prefix pending) in
        if (valid_prefix =? 0)%nat then Some ([], mkCompletionMarkerFilterState pending seen)
        else Some (take valid_prefix pending,
                   mkCompletionMarkerFilterState (drop valid_prefix pending) seen)
      else Some ([], mkCompletionMarkerFilterState pending seen)
  end.

Definition ConsumeCompletionMarkerFilteredChunk (state : CompletionMarkerFilterState)
    (chunk marker : text) (final_flush : bool) : option (text * CompletionMarkerFilterState) :=
  let pending := fs_pending state ++ chunk in
  filter_pending (length pending) marker pending (fs_marker_seen state) final_flush.

(** * Lemmas *)

Lemma is_prefix_iff p s : is_prefix p s = true <-> exists t, s = p ++ t.
Proof.
  revert s. induction p as [|a p IH]; intros s; cbn; [split; [by exists s|done]|].
  destruct s as [|b s]; [split; [done|by intros [t Ht]]|].
  rewrite andb_true_iff, eqb_true, IH. split.
  - intros [-> [t ->]]. by exists t.
  - intros [t [= -> ->]]. split; [done|by exists t].
Qed.
Lemma is_prefix_app p s t : is_prefix p s = true -> is_prefix p (s ++ t) = true.
Proof. rewrite !is_prefix_iff. intros [u ->]. exists (u ++ t). by rewrite app_assoc. Qed.
Lemma is_prefix_app_inv p s t :
  (length p <= length s)%nat -> is_prefix p (s ++ t) = is_prefix p s.
Proof.
  intros Hl. apply eq_bool_prop_intro. rewrite !Is_true_true, !is_prefix_iff. split.
  - intros [u Hu]. exists (drop (length p) s). apply (f_equal (take (length s))) in Hu as Hs.
    rewrite take_app_length in Hs. rewrite Hs at 1. rewrite take_app_ge by done. f_equal.
    apply (f_equal (drop (length p))) in Hs. rewrite take_app_ge, drop_app_length in Hs by done. done.
  - intros [u ->]. exists (u ++ t). by rewrite app_assoc.
Qed.

Lemma find_Some p s i :
  find p s = Some i <->
  (i <= length s)%nat /\ is_prefix p (drop i s) = true /\
  forall j, (j < i)%nat -> is_prefix p (drop j s) = false.
Proof.
  revert i. induction s as [|c s IH]; intros i; cbn [find].
  - destruct (is_prefix p []) eqn:E; cbn.
    + split; [intros [= <-]; split_and!; [lia|done|lia]|]. intros (Hi & _ & _). f_equal. lia.
    + split; [done|]. intros (Hi & Hp & _). destruct i; [|cbn in Hi; lia]. cbn in Hp. congruence.
  - destruct (is_prefix p (c :: s)) eqn:E.
    + split; [intros [= <-]; split_and!; [cbn; lia|done|lia]|]. intros (Hi & _ & Hj).
      destruct i as [|i]; [done|]. specialize (Hj 0%nat ltac:(lia)). cbn in Hj, E. congruence.
    + rewrite fmap_Some. split.
      * intros (k & Hk & ->). apply IH in Hk as (Hl & Hp & Hj). cbn. split_and!; [lia|done|].
        intros [|j] Hlt; [done|]. apply Hj. lia.
      * intros (Hl & Hp & Hj). destruct i as [|i]; [cbn in Hp; congruence|].
        exists i. split; [|done]. apply IH. cbn in Hl. split_and!; [lia|done|].
        intros j Hlt. apply (Hj (S j)). lia.
Qed.

Lemma find_None p s : find p s = None -> forall j, (j <= length s)%nat -> is_prefix p (drop j s) = false.
Proof.
  induction s as [|c s IH]; cbn [find].
  - destruct (is_prefix p []) eqn:E; [done|]. intros _ [|j]; cbn; [done|lia].
  - destruct (is_prefix p (c :: s)) eqn:E; [done|]. destruct (find p s) eqn:F; [done|]. intros _ [|j] Hj; [done|].
    apply IH; [done|cbn in Hj; lia].
Qed.

Lemma find_None_app p s t j :
  p <> [] -> find p s = None -> (j + length p <= length s)%nat -> is_prefix p (drop j (s ++ t)) = false.
Proof.
  intros Hp Hn Hj. rewrite drop_app_le by lia. rewrite is_prefix_app_inv by (rewrite length_drop; lia).
  apply (find_None p s Hn). lia.
Qed.

(** The part of a text found at [i] lies in it. *)
Lemma find_split p s i :
  find p s = Some i -> s = take i s ++ p ++ drop (i + length p) s.
Proof.
  intros (Hi & Hp & _)%find_Some. apply is_prefix_iff in Hp as [t Ht].
  assert (drop (i + length p) s = t) as -> by by rewrite <-drop_drop, Ht, drop_app_length.
  rewrite <-Ht. symmetry. apply take_drop.
Qed.
Lemma find_length p s i : find p s = Some i -> (i + length p <= length s)%nat.
Proof.
  intros H. pose proof (find_Some p s i) as [Hf _]. destruct (Hf H) as (Hi & Hp & _).
  apply is_prefix_iff in Hp as [t Ht]. apply (f_equal length) in Ht.
  rewrite length_drop, length_app in Ht. lia.
Qed.

(** ** Removing markers in one pass *)

(** A text without its markers: reading from the left, a marker is dropped, any
    other byte is kept.  [skip] bytes of a marker are still to be dropped. *)
Fixpoint strip_go (marker : text) (skip : nat) (s : text) : text :=
  match s with
  | [] => []
  | c :: s' =>
      match skip with
      | S skip => strip_go marker skip s'
      | O => if is_prefix marker s then strip_go marker (length marker - 1) s'
             else c :: strip_go marker 0 s'
      end
  end.
Definition strip (marker s : text) : text := strip_go marker 0 s.

Lemma strip_go_skip marker skip s : strip_go marker skip s = strip_go marker 0 (drop skip s).
Proof.
  revert skip. induction s as [|c s IH]; intros [|skip]; try done. cbn [drop]. by rewrite <-IH.
Qed.

(** Bytes at which no marker begins are kept. *)
Lemma strip_keep marker k s :
  (k <= length s)%nat -> (forall j, (j < k)%nat -> is_prefix marker (drop j s) = false) ->
  strip marker s = take k s ++ strip marker (drop k s).
Proof.
  unfold strip. revert s. induction k as [|k IH]; intros s Hk Hj; [done|].
  destruct s as [|c s]; [cbn in Hk; lia|]. cbn [strip_go].
  pose proof (Hj 0%nat ltac:(lia)) as H0. rewrite drop_0 in H0. rewrite H0. cbn [take drop app]. f_equal.
  apply IH; [cbn in Hk; lia|]. intros j Hlt. apply (Hj (S j)). lia.
Qed.

Lemma strip_marker marker s : marker <> [] -> strip marker (marker ++ s) = strip marker s.
Proof.
  intros Hm. destruct marker as [|a m]; [done|]. unfold strip.
  change ((a :: m) ++ s) with (a :: (m ++ s)). cbn [strip_go].
  rewrite (proj2 (is_prefix_iff (a :: m) (a :: m ++ s))) by by exists s.
  rewrite strip_go_skip. f_equal. cbn [length]. rewrite Nat.sub_succ, Nat.sub_0_r. apply drop_app_length.
Qed.

Lemma strip_found marker s t i :
  marker <> [] -> find marker s = Some i ->
  strip marker (s ++ t) = take i s ++ strip marker (drop (i + length marker) s ++ t).
Proof.
  intros Hm Hi. pose proof (find_length _ _ _ Hi) as Hl. pose proof (find_split _ _ _ Hi) as Hs.
  apply find_Some in Hi as (_ & _ & Hj).
  rewrite (strip_keep marker i); [|rewrite length_app; lia|].
  - rewrite take_app_le by lia. f_equal. rewrite drop_app_le by lia.
    assert (drop i s = marker ++ drop (i + length marker) s) as ->.
    { rewrite Hs at 1. rewrite drop_app_length'; [done|]. rewrite length_take. lia. }
    rewrite <-app_assoc. by apply strip_marker.
  - intros j Hlt. rewrite drop_app_le by lia. rewrite is_prefix_app_inv; [by apply Hj|].
    rewrite length_drop. lia.
Qed.

Lemma strip_safe marker s t k :
  marker <> [] -> find marker s = None -> (k + length marker <= length s + 1)%nat ->
  strip marker (s ++ t) = take k s ++ strip marker (drop k s ++ t).
Proof.
  intros Hm Hn Hk. assert (0 < length marker)%nat by (destruct marker; [done|cbn; lia]).
  rewrite (strip_keep marker k); [|rewrite length_app; lia|].
  - by rewrite take_app_le, drop_app_le by lia.
  - intros j Hj. apply find_None_app; [done..|lia].
Qed.

Lemma strip_none marker s : marker <> [] -> find marker s = None -> strip marker s = s.
Proof.
  intros Hm Hn. rewrite <-(app_nil_r s) at 1. rewrite (strip_keep marker (length s)).
  - by rewrite app_nil_r, firstn_all, drop_all, app_nil_r.
  - rewrite length_app. cbn. lia.
  - intros j Hj. rewrite app_nil_r. apply (find_None _ _ Hn). lia.
Qed.

Lemma utf8_front_length s n : utf8_front s = Some n -> (0 < n <= length s)%nat.
Proof.
  unfold utf8_front. destruct s as [|lead s]; [done|].
  destruct (_ || _)%nat eqn:E; [done|]. destruct (forallb _ _); [|done]. intros [= <-].
  apply orb_false_iff in E as [E1 E2]. apply Nat.eqb_neq in E1. apply Nat.ltb_ge in E2. lia.
Qed.

Lemma utf8_prefix_length fuel s : (utf8_prefix fuel s <= length s)%nat.
Proof.
  revert s. induction fuel as [|fuel IH]; intros s; cbn; [lia|].
  destruct (utf8_front s) as [n|] eqn:E; [|lia]. apply utf8_front_length in E.
  specialize (IH (drop n s)). rewrite length_drop in IH. lia.
Qed.

Lemma contains_found marker s t i : find marker s = Some i -> contains marker (s ++ t) = true.
Proof.
  intros H. pose proof (find_length _ _ _ H) as Hl. apply find_Some in H as (_ & Hp & _).
  unfold contains. destruct (find marker (s ++ t)) as [j|] eqn:E; [done|].
  assert (is_prefix marker (drop i (s ++ t)) = false) as Hn.
  { apply (find_None _ _ E). rewrite length_app. lia. }
  rewrite drop_app_le in Hn by lia. by rewrite (is_prefix_app _ _ t Hp) in Hn.
Qed.

(** No marker begins in the first [k] bytes. *)
Lemma contains_drop marker s k :
  (k <= length s)%nat -> (forall j, (j < k)%nat -> is_prefix marker (drop j s) = false) ->
  contains marker s = contains marker (drop k s).
Proof.
  revert s. induction k as [|k IH]; intros s Hk Hj; [done|].
  destruct s as [|c s]; [cbn in Hk; lia|]. unfold contains. cbn [find drop].
  pose proof (Hj 0%nat ltac:(lia)) as H0. rewrite drop_0 in H0. rewrite H0.
  transitivity (contains marker s); [unfold contains; by destruct (find marker s)|].
  apply IH; [cbn in Hk; lia|]. intros j Hlt. apply (Hj (S j)). lia.
Qed.

(** What a call leaves: for every continuation [t] of the stream, the stripped text
    is what was emitted followed by the stripped rest, and a marker is in the text
    if one was seen or is in the rest. *)
Record filtered (marker pending emitted : text) (seen : bool) (state : CompletionMarkerFilterState)
    : Prop := {
  fl_strip : forall t, strip marker (pending ++ t) = emitted ++ strip marker (fs_pending state ++ t);
  fl_contains : forall t, seen || contains marker (pending ++ t) =
                          fs_marker_seen state || contains marker (fs_pending state ++ t);
  fl_none : find marker (fs_pending state) = None;
}.

Lemma filtered_keep marker pending k seen :
  marker <> [] -> find marker pending = None -> (k + length marker <= length pending + 1)%nat ->
  filtered marker pending (take k pending) seen (mkCompletionMarkerFilterState (drop k pending) seen).
Proof.
  intros Hm Hn Hk. assert (0 < length marker)%nat by (destruct marker; [done|cbn; lia]).
  split; cbn [fs_pending fs_marker_seen].
  - intros t. by apply strip_safe.
  - intros t. f_equal. rewrite (contains_drop _ _ k); [|rewrite length_app; lia|].
    + by rewrite drop_app_le by lia.
    + intros j Hj. apply find_None_app; [done..|lia].
  - destruct (find marker (drop k pending)) as [i|] eqn:E; [|done].
    pose proof (find_length _ _ _ E) as Hl. apply find_Some in E as (_ & Hp & _).
    rewrite length_drop in Hl. rewrite drop_drop in Hp.
    by rewrite (find_None _ _ Hn) in Hp by lia.
Qed.

Lemma filter_pending_spec fuel marker pending seen :
  marker <> [] -> (length pending <= fuel)%nat ->
  exists emitted state, filter_pending fuel marker pending seen false = Some (emitted, state) /\
    filtered marker pending emitted seen state.
Proof.
  intros Hm. assert (0 < length marker)%nat by (destruct marker; [done|cbn; lia]).
  revert pending seen. induction fuel as [|fuel IH]; intros pending seen Hf; cbn [filter_pending];
    destruct (find marker pending) as [i|] eqn:E.
  1: apply find_length in E; lia.
  2:{ pose proof (find_length _ _ _ E) as Hl.
      destruct (IH (drop (i + length marker) pending) true) as (emitted & state & -> & [Hs Hc Hn]);
        [rewrite length_drop; lia|].
      eexists _, _. split; [reflexivity|]. split; [|..|done].
      - intros t. by rewrite (strip_found _ _ _ _ Hm E), Hs, app_assoc.
      - intros t. rewrite <-Hc, (contains_found _ _ _ _ E). by rewrite orb_true_r. }
  all: destruct (Nat.ltb_spec (length marker) (length pending)).
  1, 3: destruct (Nat.eqb_spec (ValidUtf8PrefixLength (take (length pending - length marker + 1) pending)) 0).
  all: eexists _, _; (split; [reflexivity|]).
  2, 4: apply filtered_keep; [done..|]; unfold ValidUtf8PrefixLength;
    pose proof (utf8_prefix_length (length (take (length pending - length marker + 1) pending))
                  (take (length pending - length marker + 1) pending)); rewrite !length_take in *; lia.
  all: by split.
Qed.

Lemma filter_flush_spec fuel marker pending seen :
  marker <> [] -> (length pending <= fuel)%nat ->
  filter_pending fuel marker pending seen true =
  Some (strip marker pending, mkCompletionMarkerFilterState [] (seen || contains marker pending)).
Proof.
  intros Hm. assert (0 < length marker)%nat by (destruct marker; [done|cbn; lia]).
  revert pending seen. induction fuel as [|fuel IH]; intros pending seen Hf; cbn [filter_pending];
    destruct (find marker pending) as [i|] eqn:E.
  1: apply find_length in E; lia.
  2:{ pose proof (find_length _ _ _ E) as Hl. rewrite IH by (rewrite length_drop; lia). cbn.
      pose proof (strip_found _ _ [] _ Hm E) as Hs. rewrite !app_nil_r in Hs. rewrite Hs.
      pose proof (contains_found _ _ [] _ E) as Hc. rewrite app_nil_r in Hc. by rewrite Hc, orb_true_r. }
  all: by rewrite (strip_none _ _ Hm E); unfold contains; rewrite E, orb_false_r.
Qed.

(** The filter on a stream of chunks, then the final flush, as the segment executor
    drives it: the text sent on, and whether a marker was seen. *)
Fixpoint filter_stream (marker : text) (state : CompletionMarkerFilterState) (chunks : list text)
    : option (text * bool) :=
  match chunks with
  | [] =>
      '(emitted, state) ← ConsumeCompletionMarkerFilteredChunk state [] marker true;
      Some (emitted, fs_marker_seen state)
  | chunk :: chunks =>
      '(emitted, state) ← ConsumeCompletionMarkerFilteredChunk state chunk marker false;
      '(rest, seen) ← filter_stream marker state chunks;
      Some (emitted ++ rest, seen)
  end.

Lemma filter_stream_spec marker state chunks :
  marker <> [] ->
  filter_stream marker state chunks =
  Some (strip marker (fs_pending state ++ concat chunks),
        fs_marker_seen state || contains marker (fs_pending state ++ concat chunks)).
Proof.
  intros Hm. revert state. induction chunks as [|chunk chunks IH]; intros state;
    cbn [filter_stream]; unfold ConsumeCompletionMarkerFilteredChunk.
  - rewrite filter_flush_spec by done. cbn [concat]. by rewrite app_nil_r.
  - destruct (filter_pending_spec (length (fs_pending state ++ chunk)) marker (fs_pending state ++ chunk)
      (fs_marker_seen state) Hm) as (emitted & state' & -> & [Hs Hc _]); [done|].
    cbn. rewrite IH. cbn. by rewrite <-Hs, <-Hc, <-!app_assoc.
Qed.

(** ** Well-formed UTF-8, as the sanitizer reads it *)

Inductive utf8 : text -> Prop :=
  | utf8_nil : utf8 []
  | utf8_sequence lead tail rest :
      Utf8SequenceLength lead = S (length tail) ->
      forallb IsUtf8ContinuationByte tail = true -> utf8 rest ->
      utf8 (lead :: tail ++ rest).

Lemma utf8_front_sequence lead tail rest :
  Utf8SequenceLength lead = S (length tail) -> forallb IsUtf8ContinuationByte tail = true ->
  utf8_front (lead :: tail ++ rest) = Some (S (length tail)).
Proof.
  intros Hl Ht. unfold utf8_front. rewrite Hl. cbn [length Nat.eqb orb].
  destruct (Nat.ltb_spec (S (length (tail ++ rest))) (S (length tail))) as [Hlt|_];
    [rewrite length_app in Hlt; lia|].
  cbn [drop]. rewrite Nat.sub_succ, Nat.sub_0_r, drop_0, take_app_length. by rewrite Ht.
Qed.

Lemma utf8_front_inv s n :
  utf8_front s = Some n ->
  exists lead tail, s = lead :: tail ++ drop n s /\ n = S (length tail) /\
    Utf8SequenceLength lead = S (length tail) /\ forallb IsUtf8ContinuationByte tail = true.
Proof.
  intros H. pose proof (utf8_front_length _ _ H) as Hn. unfold utf8_front in H.
  destruct s as [|lead s]; [done|].
  destruct (_ || _)%nat eqn:E; [done|]. destruct (forallb _ _) eqn:Ef; [|done]. injection H as <-.
  cbn [drop] in Ef. rewrite drop_0 in Ef. cbn [length] in Hn.
  exists lead, (take (Utf8SequenceLength lead - 1) s). split_and!; [|..|done].
  - f_equal. destruct (Utf8SequenceLength lead) as [|m]; [lia|]. cbn [drop].
    rewrite Nat.sub_succ, Nat.sub_0_r. symmetry. apply take_drop.
  - rewrite length_take. lia.
  - rewrite length_take. lia.
Qed.

Lemma sanitize_utf8 fuel s : utf8 (sanitize fuel s).
Proof.
  revert s. induction fuel as [|fuel IH]; intros [|c s]; try constructor. cbn [sanitize].
  destruct (utf8_front (c :: s)) as [n|] eqn:E.
  - apply utf8_front_inv in E as (lead & tail & Hs & Hn & Hl & Ht). rewrite Hs at 1.
    rewrite Hn at 1. cbn [take]. rewrite take_app_length. cbn [app]. by constructor.
  - by apply (utf8_sequence "?"%char [] (sanitize fuel s)).
Qed.

Lemma sanitize_fixed fuel s : (length s <= fuel)%nat -> utf8 s -> sanitize fuel s = s.
Proof.
  revert s. induction fuel as [|fuel IH]; intros [|c s] Hf H; try done; [cbn in Hf; lia|].
  remember (c :: s) as cs eqn:Ecs.
  destruct H as [|lead tail rest Hl Ht Hr]; [done|]. rewrite Ecs at 1. cbn [sanitize]. rewrite <-Ecs.
  rewrite utf8_front_sequence by done. cbn [take drop]. rewrite take_app_length, drop_app_length.
  cbn [app]. f_equal. f_equal. apply IH; [|done]. cbn [length] in Hf. rewrite length_app in Hf. lia.
Qed.

Lemma sanitize_length fuel s : (length s <= fuel)%nat -> length (sanitize fuel s) = length s.
Proof.
  revert s. induction fuel as [|fuel IH]; intros [|c s] Hf; try done; [cbn in Hf; lia|].
  cbn [sanitize]. cbn [length] in Hf. destruct (utf8_front (c :: s)) as [n|] eqn:E.
  - apply utf8_front_length in E. rewrite length_app, length_take, IH; rewrite length_drop; cbn [length] in *; lia.
  - cbn. by rewrite IH by lia.
Qed.

(** A byte is kept or becomes a question mark. *)
Lemma sanitize_bytes fuel s i c :
  sanitize fuel s !! i = Some c -> s !! i = Some c \/ c = "?"%char.
Proof.
  revert s i. induction fuel as [|fuel IH]; intros [|d s] i; try done. cbn [sanitize].
  destruct (utf8_front (d :: s)) as [n|] eqn:E.
  - apply utf8_front_length in E as [_ Hn]. rewrite lookup_app_Some. intros [H|[Hle H]].
    + apply lookup_take_Some in H as [H _]. by left.
    + apply IH in H as [H|H]; [|by right]. left. rewrite length_take, Nat.min_l in Hle, H by done.
      rewrite lookup_drop in H. by replace (n + (i - n))%nat with i in H by lia.
  - destruct i as [|i]; cbn; [intros [= <-]; by right|]. apply IH.
Qed.

(** Strings and keys of a document. *)
Fixpoint json_strings (j : json) : list string :=
  match j with
  | JString s => [s]
  | JArray items => concat (map json_strings items)
  | JObject fields => concat (map (fun kv => kv.1 :: json_strings kv.2) fields)
  | _ => []
  end.

Lemma bytes_string_of_list l : bytes (string_of_list l) = l.
Proof. induction l as [|c l IH]; [done|]. cbn. by f_equal. Qed.
Lemma string_of_bytes s : string_of_list (bytes s) = s.
Proof. induction s as [|c s IH]; [done|]. cbn. by f_equal. Qed.

Lemma sanitize_string_utf8 s : utf8 (bytes (SanitizeString s)).
Proof. unfold SanitizeString. rewrite bytes_string_of_list. apply sanitize_utf8. Qed.

Lemma insert_all_elem {V} (l : list (string * V)) (m : gmap string V) k v :
  foldl (fun m kv => <[kv.1 := kv.2]> m) m l !! k = Some v -> (k, v) ∈ l \/ m !! k = Some v.
Proof.
  revert m. induction l as [|[k' v'] l IH]; intros m; cbn; [by right|].
  intros [H|H]%IH; [left; by right|]. apply lookup_insert_Some in H as [[-> ->]|[_ H]]; [|by right].
  left. left.
Qed.

Lemma elem_of_concat_map {A B} (f : A -> list B) l y :
  y ∈ concat (map f l) <-> exists x, x ∈ l /\ y ∈ f x.
Proof.
  induction l as [|a l IH]; cbn; [split; [by intros ?%elem_of_nil|by intros (x & ?%elem_of_nil & _)]|].
  rewrite elem_of_app, IH. setoid_rewrite elem_of_cons. naive_solver.
Qed.

Lemma sanitize_json_utf8 j s : s ∈ json_strings (SanitizeJson j) -> utf8 (bytes s).
Proof.
  induction j as [| | | |t|items IH|fields IH] using json_ind'; cbn; try by intros ?%elem_of_nil.
  - intros ->%list_elem_of_singleton. apply sanitize_string_utf8.
  - rewrite elem_of_concat_map. intros (x & Hx & Hs). rewrite Forall_forall in IH.
    apply list_elem_of_fmap in Hx as (y & -> & Hy). exact (IH y Hy Hs).
  - rewrite elem_of_concat_map. intros ([k v] & Hkv & Hs). rewrite Forall_forall in IH.
    apply elem_of_map_items in Hkv.
    apply insert_all_elem in Hkv as [Hin|Hin]; [|by rewrite lookup_empty in Hin].
    apply list_elem_of_fmap in Hin as (y & [= -> ->] & Hy). cbn in Hs.
    apply elem_of_cons in Hs as [->|Hs]; [apply sanitize_string_utf8|exact (IH y Hy Hs)].
Qed.

(** ** The loops end, and leave nothing behind *)

Lemma remove_markers_spec fuel marker output seen :
  marker <> [] -> (length output <= fuel)%nat ->
  exists output', remove_markers fuel marker output seen = Some (output', seen || contains marker output) /\
    find marker output' = None.
Proof.
  intros Hm. assert (0 < length marker)%nat by (destruct marker; [done|cbn; lia]).
  revert output seen. induction fuel as [|fuel IH]; intros output seen Hf; cbn [remove_markers];
    unfold contains; destruct (find marker output) as [i|] eqn:E; cbn [has_value].
  - apply find_length in E. lia.
  - rewrite orb_false_r. by exists output.
  - pose proof (find_length _ _ _ E).
    destruct (IH (take i output ++ drop (i + length marker) output) true) as (out & -> & Hn);
      [rewrite length_app, length_take, length_drop; lia|].
    exists out. by rewrite orb_true_r.
  - rewrite orb_false_r. by exists output.
Qed.

Lemma find_take_None p s i : p <> [] -> find p s = Some i -> find p (take i s) = None.
Proof.
  intros Hp Hi. pose proof (find_length _ _ _ Hi) as Hl. apply find_Some in Hi as (_ & _ & Hj).
  destruct (find p (take i s)) as [k|] eqn:E; [|done].
  pose proof (find_length _ _ _ E) as Hk. apply find_Some in E as (_ & Hq & _).
  rewrite length_take in Hk. assert (0 < length p)%nat by (destruct p; [done|cbn; lia]).
  specialize (Hj k ltac:(lia)). apply (is_prefix_app _ _ (drop i s)) in Hq.
  rewrite <-drop_app_le in Hq by (rewrite length_take; lia). by rewrite take_drop, Hj in Hq.
Qed.

Lemma remove_think_spec fuel value :
  (length value <= fuel)%nat -> find think_open (remove_think fuel value) = None.
Proof.
  revert value. induction fuel as [|fuel IH]; intros value Hf; cbn [remove_think];
    destruct (find think_open value) as [i|] eqn:E; try done;
    destruct (find_from think_close value i) as [stop|] eqn:F.
  - apply find_length in E. change (length think_open) with 7%nat in E. lia.
  - by apply find_take_None.
  - apply IH. unfold find_from in F. apply fmap_Some in F as (k & Hk & ->).
    pose proof (find_length _ _ _ Hk) as Hl. rewrite length_drop in Hl. apply find_length in E.
    change (length think_close) with 8%nat in *. change (length think_open) with 7%nat in *.
    rewrite length_app, length_take, length_drop. lia.
  - by apply find_take_None.
Qed.

(** * Properties *)

(** C28. Removing the completion marker from a stream does not depend on how the stream is cut:
    for any chunks, what the filter sends on is the whole text without its markers (read from the
    left), and it reports a marker exactly when the text contains one.  In particular no marker is
    missed because it spans chunks, and nothing is held back for ever. *)
Theorem marker_filter_exact marker chunks :
  marker <> [] ->
  filter_stream marker CompletionMarkerFilterState_default chunks =
  Some (strip marker (concat chunks), contains marker (concat chunks)).
Proof. intros Hm. by rewrite filter_stream_spec. Qed.

(** The sanitizer makes text well-formed UTF-8 and changes nothing else: its result is
    well-formed, as long as the input, with every byte kept or replaced by a question mark, and it is
    the input exactly when that is well-formed; in a document every string and key is well-formed. *)
Theorem utf8_sanitizer_exact s :
  utf8 (SanitizeText s) /\ length (SanitizeText s) = length s /\
  (forall i c, SanitizeText s !! i = Some c -> s !! i = Some c \/ c = "?"%char) /\
  (SanitizeText s = s <-> utf8 s) /\
  (forall j t, t ∈ json_strings (SanitizeJson j) -> utf8 (bytes t)).
Proof.
  unfold SanitizeText. split_and!.
  - apply sanitize_utf8.
  - by apply sanitize_length.
  - apply sanitize_bytes.
  - split; [intros <-; apply sanitize_utf8|by apply sanitize_fixed].
  - apply sanitize_json_utf8.
Qed.

(** Cleaning a model's answer comes to an end and leaves no reasoning or marker behind: the
    loop that cuts out thinking blocks ends without an opening tag in the text, and the loop that
    removes a marker ends without the marker in the text, reporting whether there was one. *)
Theorem cleaning_terminates value marker :
  marker <> [] ->
  find think_open (RemoveThinkBlocks value) = None /\
  (exists output, RemoveCompletionMarkers value marker = Some (output, contains marker value) /\
                  find marker output = None) /\
  SanitizeInteractionText value <> None.
Proof.
  intros Hm. split_and!.
  - by apply remove_think_spec.
  - by apply remove_markers_spec.
  - unfold SanitizeInteractionText, RemoveCompletionMarkers.
    destruct (remove_markers_spec (length (RemoveThinkBlocks value)) task_complete (RemoveThinkBlocks value)
      false) as (out & -> & _); done.
Qed.

(** A marker put together by the removal of another one inside it is left by the
    filter of a stream, not by the removal from a whole text. *)
Example nested_marker_leaks :
  let nested := bytes "[[TASK_[[TASK_COMPLETE]]COMPLETE]]" in
  filter_stream task_complete CompletionMarkerFilterState_default [nested] =
    Some (task_complete, true) /\
  RemoveCompletionMarkers nested task_complete = Some ([], true).
Proof. vm_compute. done. Qed.

(** Overlong forms and surrogates pass the sanitizer. *)
Example overlong_passes :
  let overlong := [Ascii.ascii_of_nat 192; Ascii.ascii_of_nat 128] in
  let surrogate := [Ascii.ascii_of_nat 237; Ascii.ascii_of_nat 160; Ascii.ascii_of_nat 128] in
  SanitizeText overlong = overlong /\ SanitizeText surrogate = surrogate.
Proof. vm_compute. done. Qed.

(** ** Witnesses *)

Lemma marker_filter_exact_witness :
  filter_stream task_complete CompletionMarkerFilterState_default
    [bytes "done [[TASK_"; bytes "COMPLETE]]"; bytes " bye"] = Some (bytes "done  bye", true).
Proof. apply (marker_filter_exact task_complete [bytes "done [[TASK_"; bytes "COMPLETE]]"; bytes " bye"]). done. Defined.

Lemma cleaning_terminates_witness :
  find think_open (RemoveThinkBlocks (bytes "a<think>b</think>c")) = None.
Proof. apply (cleaning_terminates (bytes "a<think>b</think>c") task_complete). done. Defined.
