(* ===== verification/InteractionStream.v ===== *)
(** * Streams between the controller and a model runtime

    [controller/src/interaction/interaction_sse_frame_builder.cpp] and
    [interaction_upstream_event_parser.cpp]: server-sent events, and the incremental
    decoding of a chunked HTTP body they arrive in; and the reading of HTTP responses
    of [controller/src/http/controller_http_transport.cpp].  Text is a list of bytes,
    [std::size_t] is taken modulo 2 to the 64. *)

From S2P Require Import Prelude Json Planner InteractionText.

Definition crlf : text := [Ascii.ascii_of_nat 13; Ascii.ascii_of_nat 10].
Definition lf : text := [Ascii.ascii_of_nat 10].

(** ** [std::stoull(text, nullptr, 16)] *)

Definition hex_digit (c : Ascii.ascii) : option Z :=
  let n := char_code c in
  if (48 <=? n) && (n <=? 57) then Some (n - 48)
  else if (65 <=? n) && (n <=? 70) then Some (n - 55)
  else if (97 <=? n) && (n <=? 102) then Some (n - 87)
  else None.
Definition isxdigit (c : Ascii.ascii) : bool := has_value (hex_digit c).

Fixpoint read_hex (acc : option Z) (l : text) : option Z :=
  match l with
  | [] => acc
  | c :: l' =>
      match hex_digit c with
      | Some d => read_hex (Some (default 0 acc * 16 + d)) l'
      | None => acc
      end
  end.

Definition without_prefix (l : text) : text :=
  match l with
  | "0"%char :: x :: d :: _ =>
      if ((x ==? "x"%char) || (x ==? "X"%char)) && isxdigit d then drop 2 l else l
  | _ => l
  end.

Definition stoull16 (s : text) : option Z :=
  let l := skip_spaces s in
  let '(negative, l) :=
    match l with
    | "-"%char :: l' => (true, l')
    | "+"%char :: l' => (false, l')
    | _ => (false, l)
    end in
  v ← read_hex None (without_prefix l);
  if v <? 2 ^ 64 then Some (if negative : bool then uint64_wrap (- v) else v) else None.

(** ** Chunked bodies *)

(** The size a chunk announces, before extensions. *)
Definition chunk_size_of (line : text) : option Z :=
  stoull16 (TrimCopy (match find (bytes ";") line with Some i => take i line | None => line end)).

Record ChunkedBody := mkChunkedBody {
  cb_encoded : text;
  cb_decoded : text;
  cb_finished : bool;
  cb_progressed : bool;
}.

(** [None] when the fuel runs out. *)
Fixpoint decode_chunks (fuel : nat) (encoded decoded : text) (finished progressed : bool)
    : option (result ChunkedBody) :=
  match find crlf encoded with
  | None => Some (Ok (mkChunkedBody encoded decoded finished progressed))
  | Some line_end =>
      match chunk_size_of (take line_end encoded) with
      | None => Some (Throw "invalid HTTP chunk size")
      | Some chunk_size =>
          let size := Z.of_nat (length encoded) in
          let chunk_data_begin := Z.of_nat line_end + 2 in
          if chunk_size =? 0 then
            if size <? chunk_data_begin + 2
            then Some (Ok (mkChunkedBody encoded decoded finished progressed))
            else Some (Ok (mkChunkedBody (drop (line_end + 4) encoded) decoded true true))
          else
            let chunk_end := uint64_wrap (chunk_data_begin + chunk_size + 2) in
            if size <? chunk_end
            then Some (Ok (mkChunkedBody encoded decoded finished progressed))
            else
              match fuel with
              | O => None
              | S fuel =>
                  decode_chunks fuel
                    (drop (Z.to_nat chunk_end) encoded)
                    (decoded ++ take (Z.to_nat (Z.min chunk_size (size - chunk_data_begin)))
                                  (drop (line_end + 2) encoded))
                    finished true
              end
      end
  end.
Definition DecodeAvailableChunkedHttpBody (encoded decoded : text) (stream_finished : bool)
    : option (result ChunkedBody) :=
  decode_chunks (length encoded) encoded decoded stream_finished false.

(** ** Server-sent events *)

Record InteractionSseFrame := mkInteractionSseFrame {
  sse_event_name : text;
  sse_data : text;
}.

Definition without_cr (line : text) : text :=
  match reverse line with
  | c :: rest => if char_code c =? 13 then reverse rest else line
  | [] => line
  end.

Definition data_line (line : text) : text := bytes "data: " ++ without_cr line ++ lf.
(** The frame of an event whose payload dumps to [payload_text]. *)
Definition event_frame (event_name payload_text : text) : text :=
  bytes "event: " ++ event_name ++ lf ++
  concat (map data_line (getlines (payload_text ++ lf))) ++ lf.
Definition BuildEventFrame `{JsonLibrary} (event_name : string) (payload : json) : result text :=
  payload_text ← dump payload; Ok (event_frame (bytes event_name) (bytes payload_text)).
Definition BuildDoneFrame : text := bytes "data: [DONE]" ++ lf ++ lf.

Definition looks_like_chunk_size (trimmed_line : text) : bool :=
  let candidate :=
    TrimCopy (match find (bytes ";") trimmed_line with
              | Some i => take i trimmed_line | None => trimmed_line end) in
  negb (vec_empty candidate) && forallb isxdigit candidate.

(** One line of a frame. *)
Definition frame_line (acc : text * list text) (line : text) : text * list text :=
  let '(event_name, data_lines) := acc in
  let line := without_cr line in
  let trimmed_line := TrimCopy line in
  if vec_empty line || is_prefix (bytes ":") line then acc
  else if negb (vec_empty trimmed_line) && looks_like_chunk_size trimmed_line then acc
  else if is_prefix (bytes "event:") line then (TrimCopy (drop 6 line), data_lines)
  else if is_prefix (bytes "data:") line then
    (event_name, data_lines ++ [drop (if is_prefix (bytes "data: ") line then 6 else 5) line])
  else acc.

Fixpoint join_lines (data_lines : list text) : text :=
  match data_lines with
  | [] => []
  | [line] => line
  | line :: rest => line ++ lf ++ join_lines rest
  end.

Definition parse_frame (raw_frame : text) : InteractionSseFrame :=
  let '(event_name, data_lines) := foldl frame_line (bytes "message", []) (getlines raw_frame) in
  mkInteractionSseFrame event_name (join_lines data_lines).

Definition TryConsumeSseFrame (buffer : text) : option (InteractionSseFrame * text) :=
  separator ← find (lf ++ lf) buffer;
  Some (parse_frame (take separator buffer), drop (separator + 2) buffer).

Definition ExtractInteractionFinishReason `{JsonLibrary} (payload : json) : result string :=
  match member payload "choices" with
  | Some (JArray (choice :: _)) => json_value get_string choice "finish_reason" "stop"
  | _ => Ok "stop"
  end.

Definition usage_json (prompt_tokens completion_tokens total_tokens : Z) : json :=
  JObject [("prompt_tokens", JInt prompt_tokens); ("completion_tokens", JInt completion_tokens);
           ("total_tokens", JInt total_tokens)].
Definition ExtractInteractionUsage `{JsonLibrary} (payload : json) : result json :=
  match member payload "usage" with
  | Some (JObject fields) =>
      prompt_tokens ← json_value get_int (JObject fields) "prompt_tokens" 0;
      completion_tokens ← json_value get_int (JObject fields) "completion_tokens" 0;
      total_tokens ← json_value get_int (JObject fields) "total_tokens" 0;
      Ok (usage_json prompt_tokens completion_tokens total_tokens)
  | _ => Ok (usage_json 0 0 0)
  end.

(** ** HTTP responses *)

Record HttpResponse := mkHttpResponse {
  resp_status_code : Z;
  resp_content_type : text;
  resp_headers : gmap string text;
  resp_body : text;
}.

(** The lines of a header block after its first. *)
Fixpoint split_crlf (fuel : nat) (s : text) : list text :=
  match fuel, s with
  | _, [] | O, _ => []
  | S fuel, _ =>
      match find crlf s with
      | None => [s]
      | Some next => take next s :: split_crlf fuel (drop (next + 2) s)
      end
  end.
Definition header_lines (header_text : text) : list text :=
  match find crlf header_text with
  | None => []
  | Some line_end => split_crlf (length header_text) (drop (line_end + 2) header_text)
  end.

(** The name, lowered, and the value of a header line. *)
Definition header_of (line : text) : option (string * text) :=
  colon ← find (bytes ":") line;
  Some (string_of_list (LowercaseCopy (TrimCopy (take colon line))), TrimCopy (drop (colon + 1) line)).

(** [stream >> http_version >> status_code] on the status line.  The code keeps its
    initial value when there is nothing left to read, becomes 0 when what is left is no
    number and the nearest [int] when the number is too large. *)
Definition stream_int (initial : Z) (s : text) : Z :=
  match skip_spaces s with
  | [] => initial
  | l =>
      let '(sign, l) :=
        match l with
        | "-"%char :: l' => (-1, l')
        | "+"%char :: l' => (1, l')
        | _ => (1, l)
        end in
      Z.max int_min (Z.min int_max (sign * default 0 (read_digits None l)))
  end.
Fixpoint skip_word (s : text) : text :=
  match s with c :: s' => if is_space c then s else skip_word s' | [] => [] end.
Definition status_code_of (first_line : text) : Z := stream_int 200 (skip_word (skip_spaces first_line)).

Definition header_text_of (response_text : text) : text :=
  match find (crlf ++ crlf) response_text with Some i => take i response_text | None => response_text end.

Definition ParseHttpResponse (response_text : text) : HttpResponse :=
  let body := match find (crlf ++ crlf) response_text with
              | Some i => drop (i + 4) response_text | None => [] end in
  let header_text := header_text_of response_text in
  let first_line := match find crlf header_text with Some i => take i header_text | None => header_text end in
  let headers := omap header_of (header_lines header_text) in
  mkHttpResponse (status_code_of first_line)
    (foldl (fun content_type kv => if kv.1 ==? "content-type" then kv.2 else content_type)
       (bytes "application/json") headers)
    (foldl (fun m kv => <[kv.1 := kv.2]> m) ∅ headers) body.

Definition FindHttpHeaderValue (header_text header_name : text) : option text :=
  snd <$> find_if (fun kv => kv.1 ==? string_of_list (LowercaseCopy header_name))
            (omap header_of (header_lines header_text)).

(** ** Receiving a stream of events *)

Section receiver.
Context {A : Type}.
(** What becomes of a frame: [false] stops the frames of this round. *)
Context (handle_frame : A -> InteractionSseFrame -> A * result bool) (saw_complete : A -> bool).

Record StreamBuffers := mkStreamBuffers {
  sb_transport_buffer : text;
  sb_sse_buffer : text;
  sb_upstream_stream_finished : bool;
}.

(** [None] when the fuel runs out; the state also when a frame makes the handler throw. *)
Fixpoint consume_frames (fuel : nat) (sse_buffer : text) (a : A) : option (A * result text) :=
  match TryConsumeSseFrame sse_buffer with
  | None => Some (a, Ok sse_buffer)
  | Some (frame, rest) =>
      match fuel with
      | O => None
      | S fuel =>
          match handle_frame a frame with
          | (a, Throw e) => Some (a, Throw e)
          | (a, Ok true) => consume_frames fuel rest a
          | (a, Ok false) => Some (a, Ok rest)
          end
      end
  end.

Definition decode_transport (chunked_transfer : bool) (buffers : StreamBuffers) : option (result StreamBuffers) :=
  if chunked_transfer then
    match DecodeAvailableChunkedHttpBody (sb_transport_buffer buffers) (sb_sse_buffer buffers)
            (sb_upstream_stream_finished buffers) with
    | None => None
    | Some (Throw e) => Some (Throw e)
    | Some (Ok body) => Some (Ok (mkStreamBuffers (cb_encoded body) (cb_decoded body) (cb_finished body)))
    end
  else Some (Ok buffers).

Definition drain_frames (chunked_transfer final_chunk : bool) (buffers : StreamBuffers) (a : A)
    : option (A * result StreamBuffers) :=
  match decode_transport chunked_transfer buffers with
  | None => None
  | Some (Throw e) => Some (a, Throw e)
  | Some (Ok (mkStreamBuffers transport_buffer sse_buffer finished)) =>
      let sse_buffer :=
        if final_chunk && negb (vec_empty sse_buffer) && negb (contains (lf ++ lf) sse_buffer)
        then sse_buffer ++ lf ++ lf else sse_buffer in
      match consume_frames (length sse_buffer) sse_buffer a with
      | None => None
      | Some (a, Throw e) => Some (a, Throw e)
      | Some (a, Ok sse_buffer) => Some (a, Ok (mkStreamBuffers transport_buffer sse_buffer finished))
      end
  end.

(** [reads] are what [read_next_chunk] does in turn; it returns nothing after them. *)
Fixpoint receive_loop (chunked_transfer : bool) (reads : list (result text)) (buffers : StreamBuffers) (a : A)
    : option (A * result StreamBuffers) :=
  match drain_frames chunked_transfer false buffers a with
  | None => None
  | Some (a, Throw e) => Some (a, Throw e)
  | Some (a, Ok buffers) =>
      if saw_complete a && contains (bytes "[DONE]") (sb_sse_buffer buffers) then Some (a, Ok buffers)
      else if chunked_transfer && sb_upstream_stream_finished buffers
      then drain_frames chunked_transfer true buffers a
      else
        match reads with
        | [] | Ok [] :: _ => drain_frames chunked_transfer true buffers a
        | Throw e :: _ => Some (a, Throw e)
        | Ok chunk :: reads =>
            receive_loop chunked_transfer reads
              (if chunked_transfer
               then mkStreamBuffers (sb_transport_buffer buffers ++ chunk) (sb_sse_buffer buffers)
                      (sb_upstream_stream_finished buffers)
               else mkStreamBuffers (sb_transport_buffer buffers) (sb_sse_buffer buffers ++ chunk)
                      (sb_upstream_stream_finished buffers)) a
        end
  end.

Definition receive_stream (chunked_transfer : bool) (initial_body : text) (reads : list (result text)) (a : A)
    : option (A * result StreamBuffers) :=
  if chunked_transfer then
    match decode_transport true (mkStreamBuffers initial_body [] false) with
    | None => None
    | Some (Throw e) => Some (a, Throw e)
    | Some (Ok buffers) => receive_loop true reads buffers a
    end
  else receive_loop false reads (mkStreamBuffers [] initial_body false) a.
End receiver.

(** * Lemmas *)

Lemma find_app p s t i : find p s = Some i -> find p (s ++ t) = Some i.
Proof.
  intros H. pose proof (find_length _ _ _ H) as Hl. apply find_Some in H as (Hi & Hp & Hj).
  apply find_Some. split_and!.
  - rewrite length_app. lia.
  - rewrite drop_app_le by lia. by apply is_prefix_app.
  - intros j Hlt. rewrite drop_app_le by lia. rewrite is_prefix_app_inv by (rewrite length_drop; lia). by apply Hj.
Qed.

(** Where the beginning [b] of a text is known, so is what is found in it. *)
Lemma find_beginning p b f i :
  p <> [] -> find p (b ++ f) = Some i ->
  find p b = if (i + length p <=? length b)%nat then Some i else None.
Proof.
  intros Hp H. destruct (find p b) as [j|] eqn:E.
  - pose proof (find_app _ _ f _ E) as E'. rewrite H in E'. injection E' as <-. apply find_length in E.
    by rewrite (proj2 (Nat.leb_le _ _) E).
  - destruct (Nat.leb_spec (i + length p) (length b)); [|done].
    apply find_Some in H as (_ & Hpre & _). by rewrite find_None_app in Hpre.
Qed.

(** ** A chunked body *)

(** A chunk: the line that announces it, and its data. *)
Record Chunk := mkChunk { ch_line : text; ch_data : text }.
Definition line_ok (line : text) : Prop := find crlf (line ++ crlf) = Some (length line).
Definition chunk_ok (c : Chunk) : Prop :=
  line_ok (ch_line c) /\ ch_data c <> [] /\
  chunk_size_of (ch_line c) = Some (Z.of_nat (length (ch_data c))).
Definition chunk_text (c : Chunk) : text := ch_line c ++ crlf ++ ch_data c ++ crlf.
Definition body_text (chunks : list Chunk) (last_line : text) : text :=
  concat (map chunk_text chunks) ++ last_line ++ crlf ++ crlf.

Section decoding.
Context (last_line : text).
Hypothesis last_ok : line_ok last_line.
Hypothesis last_empty : chunk_size_of last_line = Some 0.

(** What is left to decode once [chunks] are, given what has arrived of it. *)
Record pending_body (chunks : list Chunk) (arrived rest : text) : Prop := {
  pb_text : arrived ++ rest = body_text chunks last_line;
  pb_chunks : Forall chunk_ok chunks;
  pb_size : Z.of_nat (length (body_text chunks last_line)) < 2 ^ 64;
}.

Lemma first_line line rest : line_ok line -> find crlf (line ++ crlf ++ rest) = Some (length line).
Proof. intros H. rewrite app_assoc. by apply find_app. Qed.

Lemma take_line line (a rest b : text) : b ++ a = line ++ rest -> (length line <= length b)%nat -> take (length line) b = line.
Proof.
  intros H Hl. apply (f_equal (take (length line))) in H. by rewrite take_app_length, take_app_le in H.
Qed.
Lemma drop_line line (a rest b : text) :
  b ++ a = line ++ rest -> (length line <= length b)%nat -> drop (length line) b ++ a = rest.
Proof.
  intros H Hl. apply (f_equal (drop (length line))) in H. by rewrite drop_app_length, drop_app_le in H.
Qed.

(** What decoding can come to: some chunks more, and the end when all has arrived. *)
Definition decoded_some (chunks : list Chunk) (rest decoded : text) (body : ChunkedBody) : Prop :=
  exists now later, chunks = now ++ later /\ cb_decoded body = decoded ++ concat (map ch_data now) /\
    if cb_finished body then later = [] /\ cb_encoded body = [] /\ rest = []
    else rest <> [] /\ pending_body later (cb_encoded body) rest.

Lemma decode_chunks_eq fuel encoded decoded finished progressed :
  decode_chunks fuel encoded decoded finished progressed =
  match find crlf encoded with
  | None => Some (Ok (mkChunkedBody encoded decoded finished progressed))
  | Some line_end =>
      match chunk_size_of (take line_end encoded) with
      | None => Some (Throw "invalid HTTP chunk size")
      | Some chunk_size =>
          let size := Z.of_nat (length encoded) in
          let chunk_data_begin := Z.of_nat line_end + 2 in
          if chunk_size =? 0 then
            if size <? chunk_data_begin + 2
            then Some (Ok (mkChunkedBody encoded decoded finished progressed))
            else Some (Ok (mkChunkedBody (drop (line_end + 4) encoded) decoded true true))
          else
            let chunk_end := uint64_wrap (chunk_data_begin + chunk_size + 2) in
            if size <? chunk_end
            then Some (Ok (mkChunkedBody encoded decoded finished progressed))
            else
              match fuel with
              | O => None
              | S fuel =>
                  decode_chunks fuel
                    (drop (Z.to_nat chunk_end) encoded)
                    (decoded ++ take (Z.to_nat (Z.min chunk_size (size - chunk_data_begin)))
                                  (drop (line_end + 2) encoded))
                    finished true
              end
      end
  end.
Proof. by destruct fuel. Qed.

(** Nothing decoded: the rest has not arrived. *)
Lemma decoded_none chunks arrived rest decoded progressed :
  pending_body chunks arrived rest -> (length arrived < length (body_text chunks last_line))%nat ->
  decoded_some chunks rest decoded (mkChunkedBody arrived decoded false progressed).
Proof.
  intros Hb Hl. exists [], chunks. split_and!; [done|by rewrite app_nil_r|].
  split; [|done]. intros ->. pose proof (pb_text _ _ _ Hb) as Ht. rewrite app_nil_r in Ht. rewrite Ht in Hl. lia.
Qed.

Lemma body_text_length chunks :
  length (body_text chunks last_line) = (length (concat (map chunk_text chunks)) + length last_line + 4)%nat.
Proof. unfold body_text. rewrite !length_app. change (length crlf) with 2%nat. lia. Qed.
Lemma body_text_cons c chunks :
  body_text (c :: chunks) last_line =
  ch_line c ++ crlf ++ ch_data c ++ crlf ++ body_text chunks last_line.
Proof. unfold body_text, chunk_text. cbn [map concat]. by rewrite <-!app_assoc. Qed.

Lemma body_text_cons_length c chunks :
  length (body_text (c :: chunks) last_line) =
  (length (ch_line c) + length (ch_data c) + 4 + length (body_text chunks last_line))%nat.
Proof.
  rewrite !body_text_length. cbn [map concat]. unfold chunk_text. rewrite !length_app.
  change (length crlf) with 2%nat. lia.
Qed.

(** The line at the front, once it is complete. *)
Lemma front_line line rest arrived tail :
  line_ok line -> arrived ++ rest = line ++ crlf ++ tail ->
  find crlf arrived = (if (length line + 2 <=? length arrived)%nat then Some (length line) else None) /\
  ((length line + 2 <= length arrived)%nat ->
     take (length line) arrived = line /\ drop (length line + 2) arrived ++ rest = tail).
Proof.
  intros Hl Ht. split.
  - apply (find_beginning crlf _ rest); [done|]. rewrite Ht. by apply first_line.
  - intros Hle. split; [apply (take_line _ rest (crlf ++ tail)); [done|lia]|].
    rewrite app_assoc in Ht. replace (length line + 2)%nat with (length (line ++ crlf)) by by rewrite length_app.
    apply (drop_line _ _ tail); [done|]. rewrite length_app. exact Hle.
Qed.

Lemma decode_last arrived rest decoded progressed fuel :
  pending_body [] arrived rest ->
  exists body, decode_chunks fuel arrived decoded false progressed = Some (Ok body) /\
               decoded_some [] rest decoded body.
Proof.
  intros Hb. pose proof (pb_text _ _ _ Hb) as Ht. pose proof (f_equal length Ht) as Hlen.
  rewrite body_text_length, length_app in Hlen. cbn [map concat length] in Hlen.
  destruct (front_line last_line rest arrived crlf last_ok Ht) as [Hfind Hline].
  rewrite decode_chunks_eq, Hfind.
  destruct (Nat.leb_spec (length last_line + 2) (length arrived)) as [Hle|Hlt].
  - destruct (Hline Hle) as [-> Hrest]. rewrite last_empty. cbn zeta. cbn [Z.eqb].
    destruct (Z.ltb_spec (Z.of_nat (length arrived)) (Z.of_nat (length last_line) + 2 + 2)) as [Hs|Hs].
    + eexists. split; [reflexivity|]. apply decoded_none; [done|]. rewrite body_text_length. cbn. lia.
    + eexists. split; [reflexivity|]. exists [], []. cbn. split_and!; [done|by rewrite app_nil_r|done| |].
      * apply length_zero_iff_nil. rewrite length_drop. lia.
      * apply length_zero_iff_nil. lia.
  - eexists. split; [reflexivity|]. apply decoded_none; [done|]. rewrite body_text_length. cbn. lia.
Qed.

Lemma decode_chunks_spec fuel chunks arrived rest decoded progressed :
  pending_body chunks arrived rest -> (length arrived <= fuel)%nat ->
  exists body, decode_chunks fuel arrived decoded false progressed = Some (Ok body) /\
               decoded_some chunks rest decoded body.
Proof.
  revert fuel arrived decoded progressed. induction chunks as [|c chunks IH];
    intros fuel arrived decoded progressed Hb Hf; [by apply decode_last|].
  pose proof Hb as [Ht Hc Hsize]. pose proof (f_equal length Ht) as Hlen.
  apply Forall_cons in Hc as [(Hline & Hdata & Hn) Hc].
  rewrite body_text_cons in Ht. rewrite body_text_cons_length, ?length_app in Hlen, Hsize.
  assert (0 < length (ch_data c))%nat by (destruct (ch_data c); [done|cbn; lia]).
  assert (Hnone : (length arrived < length (ch_line c) + length (ch_data c) + 4)%nat ->
    decoded_some (c :: chunks) rest decoded (mkChunkedBody arrived decoded false progressed)).
  { intros Hlt. apply decoded_none; [done|]. rewrite body_text_cons_length. lia. }
  destruct (front_line (ch_line c) rest arrived _ Hline Ht) as [Hfind Hfront].
  rewrite decode_chunks_eq, Hfind.
  destruct (Nat.leb_spec (length (ch_line c) + 2) (length arrived)) as [Hle|Hlt];
    [|eexists; split; [reflexivity|apply Hnone; lia]].
  destruct (Hfront Hle) as [-> Hrest]. rewrite Hn. cbn zeta.
  destruct (Z.eqb_spec (Z.of_nat (length (ch_data c))) 0) as [|_]; [lia|].
  unfold uint64_wrap. rewrite Z.mod_small by lia.
  destruct (Z.ltb_spec (Z.of_nat (length arrived))
    (Z.of_nat (length (ch_line c)) + 2 + Z.of_nat (length (ch_data c)) + 2)) as [Hs|Hs];
    [eexists; split; [reflexivity|apply Hnone; lia]|].
  destruct fuel as [|fuel]; [lia|].
  assert (Htake : take (Z.to_nat (Z.min (Z.of_nat (length (ch_data c)))
      (Z.of_nat (length arrived) - (Z.of_nat (length (ch_line c)) + 2))))
      (drop (length (ch_line c) + 2) arrived) = ch_data c).
  { rewrite Z.min_l, Nat2Z.id by lia. apply (take_line _ rest _ _ Hrest). rewrite length_drop. lia. }
  rewrite Htake.
  assert (Hnext : drop (Z.to_nat (Z.of_nat (length (ch_line c)) + 2 + Z.of_nat (length (ch_data c)) + 2)) arrived
                  ++ rest = body_text chunks last_line).
  { replace (Z.to_nat _) with (length (ch_line c) + 2 + length (ch_data c ++ crlf))%nat
      by (rewrite length_app; change (length crlf) with 2%nat; lia).
    rewrite <-drop_drop. apply drop_line; [by rewrite <-app_assoc|].
    rewrite length_app, length_drop. change (length crlf) with 2%nat. lia. }
  match type of Hnext with ?arrived' ++ _ = _ =>
    destruct (IH fuel arrived' (decoded ++ ch_data c) true) as (body & -> & now & later & Heq & Hd & Hrest') end.
  { split; [exact Hnext|done|lia]. }
  { rewrite length_drop. lia. }
  exists body. split; [done|]. exists (c :: now), later. split_and!; [by rewrite Heq|by rewrite Hd, <-app_assoc|done].
Qed.
End decoding.

(** ** Lines and frames *)

Definition is_lf (c : Ascii.ascii) : bool := char_code c =? 10.
Definition no_lf (s : text) : Prop := Forall (fun c => is_lf c = false) s.
Definition no_cr (s : text) : Prop := Forall (fun c => char_code c <> 13) s.

Lemma drop_spaces_app a b :
  exists u, drop_spaces (a ++ b) = u ++ b \/ drop_spaces (a ++ b) = drop_spaces b.
Proof.
  induction a as [|c a (u & IH)]; cbn; [exists []; by right|].
  destruct (is_space c); [by exists u|]. exists (c :: a). by left.
Qed.

Lemma trim_prefix p c d s :
  head p = Some c -> is_space c = false -> last p = Some d -> is_space d = false ->
  exists u, TrimCopy (p ++ s) = p ++ u.
Proof.
  intros Hc Hcs Hd Hds. destruct p as [|c' p]; [done|]. injection Hc as ->. unfold TrimCopy. cbn [app].
  cbn [drop_spaces]. rewrite Hcs. change (c :: p ++ s) with ((c :: p) ++ s). rewrite reverse_app.
  assert (Hr : drop_spaces (reverse (c :: p)) = reverse (c :: p)).
  { apply last_Some in Hd as [p' Hp']. rewrite Hp', reverse_app. cbn. by rewrite Hds. }
  destruct (drop_spaces_app (reverse s) (reverse (c :: p))) as (u & [Hu|Hu]); rewrite Hu.
  - exists (reverse u). by rewrite reverse_app, reverse_involutive.
  - exists []. rewrite Hr, reverse_involutive. by rewrite app_nil_r.
Qed.

(** A line of a frame is no chunk size, since its name has a letter that is no digit. *)
Lemma field_no_size p c d s :
  head p = Some c -> is_space c = false -> last p = Some d -> is_space d = false ->
  forallb isxdigit p = false -> find (bytes ";") p = None ->
  looks_like_chunk_size (TrimCopy (p ++ s)) = false.
Proof.
  intros Hc Hcs Hd Hds Hx Hf. unfold looks_like_chunk_size.
  destruct (trim_prefix p c d s) as [u ->]; [done..|].
  assert (Hbad : forall v, negb (vec_empty (TrimCopy (p ++ v))) && forallb isxdigit (TrimCopy (p ++ v)) = false).
  { intros v. destruct (trim_prefix p c d v) as [w ->]; [done..|]. by rewrite forallb_app, Hx, andb_false_r. }
  destruct (find (bytes ";") (p ++ u)) as [i|] eqn:E; [|apply Hbad].
  pose proof (find_beginning (bytes ";") _ _ _ ltac:(discriminate) E) as Eb. rewrite Hf in Eb.
  destruct (Nat.leb_spec (i + length (bytes ";")) (length p)); [done|].
  change (length (bytes ";")) with 1%nat in *. rewrite take_app_ge by lia. apply Hbad.
Qed.

Lemma lines_from_app current line s :
  no_lf line -> lines_from current (line ++ lf ++ s) = (current ++ line) :: lines_from [] s.
Proof.
  intros H. revert current. induction H as [|c line Hc _ IH]; intros current.
  - cbn. by rewrite app_nil_r.
  - cbn [app lines_from]. unfold is_lf in Hc. rewrite Hc, IH, <-app_assoc. done.
Qed.
Lemma lines_from_last current line :
  no_lf line -> lines_from current line = match current ++ line with [] => [] | l => [l] end.
Proof.
  intros H. revert current. induction H as [|c line Hc _ IH]; intros current; cbn [lines_from].
  - rewrite app_nil_r. by destruct current.
  - unfold is_lf in Hc. rewrite Hc, IH, <-app_assoc. done.
Qed.

Lemma getlines_join lines :
  Forall (fun l => no_lf l /\ l <> []) lines -> getlines (join_lines lines) = lines.
Proof.
  unfold getlines. induction 1 as [|l lines [Hl Hne] _ IH]; [done|]. destruct lines as [|l' lines].
  - cbn [join_lines]. rewrite lines_from_last by done. by destruct l.
  - change (join_lines (l :: l' :: lines)) with (l ++ lf ++ join_lines (l' :: lines)).
    by rewrite lines_from_app, IH.
Qed.

(** The lines of a payload, joined again. *)
Lemma join_getlines_from current d :
  no_lf current -> join_lines (lines_from current (d ++ lf)) = current ++ d /\
  Forall no_lf (lines_from current (d ++ lf)) /\ lines_from current (d ++ lf) <> [].
Proof.
  revert current. induction d as [|c d IH]; intros current Hc; cbn [app lines_from].
  - cbn. rewrite app_nil_r. split_and!; [done|by constructor|done].
  - destruct (char_code c =? 10) eqn:E.
    + destruct (IH []) as (Hj & Hf & Hn); [constructor|]. split_and!; [|by constructor|done].
      destruct (lines_from [] (d ++ lf)) as [|l ls]; [done|].
      change (current ++ lf ++ join_lines (l :: ls) = current ++ c :: d). rewrite Hj. cbn.
      do 2 f_equal. apply Z.eqb_eq in E. rewrite <-(Ascii.ascii_N_embedding c). unfold char_code in E.
      by replace (Ascii.N_of_ascii c) with 10%N by lia.
    + destruct (IH (current ++ [c])) as (Hj & Hf & Hn);
        [apply Forall_app; split; [done|]; by repeat constructor|].
      split_and!; [by rewrite Hj, <-app_assoc|done|done].
Qed.

(** The lines of a frame: each ended, and a blank one at the end. *)
Definition ended (line : text) : text := line ++ lf.

Lemma concat_ended lines :
  lines <> [] -> concat (map ended lines) = join_lines lines ++ lf.
Proof.
  induction lines as [|l [|l' lines] IH]; intros H; [done| |].
  - cbn [map concat join_lines]. by rewrite app_nil_r.
  - change (concat (map ended (l :: l' :: lines))) with (ended l ++ concat (map ended (l' :: lines))).
    change (join_lines (l :: l' :: lines)) with (l ++ lf ++ join_lines (l' :: lines)).
    rewrite IH by done. unfold ended. by rewrite <-!app_assoc.
Qed.

Lemma find_blank_skip line s :
  no_lf line -> head s <> Some (Ascii.ascii_of_nat 10) ->
  find (lf ++ lf) (line ++ lf ++ s) = (fun i => (length line + 1 + i)%nat) <$> find (lf ++ lf) s.
Proof.
  intros Hl Hs. induction Hl as [|c line Hc _ IH].
  - destruct s as [|d s]; [done|].
    change (find (lf ++ lf) ([] ++ lf ++ d :: s)) with
      (if (Ascii.ascii_of_nat 10 ==? Ascii.ascii_of_nat 10) && ((Ascii.ascii_of_nat 10 ==? d) && true)
       then Some 0%nat else S <$> find (lf ++ lf) (d :: s)).
    destruct (_ ==? d) eqn:E; [rewrite eqb_true in E; by subst|]. rewrite andb_false_r.
    by destruct (find (lf ++ lf) (d :: s)).
  - change ((c :: line) ++ lf ++ s) with (c :: line ++ lf ++ s). cbn [find].
    change (is_prefix (lf ++ lf) (c :: line ++ lf ++ s))
      with ((Ascii.ascii_of_nat 10 ==? c) && is_prefix lf (line ++ lf ++ s)).
    destruct (_ ==? c) eqn:E; [rewrite eqb_true in E; by subst|]. cbn [andb]. rewrite IH.
    by destruct (find (lf ++ lf) s).
Qed.
Lemma find_blank_here line s :
  no_lf line -> find (lf ++ lf) (line ++ lf ++ lf ++ s) = Some (length line).
Proof.
  induction 1 as [|c line Hc _ IH]; [by cbn|].
  change ((c :: line) ++ lf ++ lf ++ s) with (c :: line ++ lf ++ lf ++ s). cbn [find].
  change (is_prefix (lf ++ lf) (c :: line ++ lf ++ lf ++ s))
    with ((Ascii.ascii_of_nat 10 ==? c) && is_prefix lf (line ++ lf ++ lf ++ s)).
  destruct (_ ==? c) eqn:E; [rewrite eqb_true in E; by subst|]. cbn [andb]. by rewrite IH.
Qed.

Lemma find_blank lines s :
  Forall (fun l => no_lf l /\ l <> []) lines -> lines <> [] ->
  find (lf ++ lf) (join_lines lines ++ lf ++ lf ++ s) = Some (length (join_lines lines)).
Proof.
  induction 1 as [|l lines [Hl _] Hls IH]; intros Hne; [done|]. destruct lines as [|l' lines].
  - by apply find_blank_here.
  - change (join_lines (l :: l' :: lines)) with (l ++ lf ++ join_lines (l' :: lines)).
    rewrite <-!app_assoc, find_blank_skip; [rewrite IH by done| done|].
    + cbn [fmap option_fmap option_map]. rewrite !length_app. change (length lf) with 1%nat. f_equal. lia.
    + apply Forall_cons in Hls as [[Hl' Hn] _]. destruct l' as [|c l']; [done|].
      apply Forall_cons in Hl' as [Hc _]. destruct lines; cbn; intros [= ->]; done.
Qed.

Lemma without_cr_id l : no_cr l -> without_cr l = l.
Proof.
  unfold without_cr. intros H. destruct (reverse l) as [|c r] eqn:E; [done|].
  apply (f_equal reverse) in E. rewrite reverse_involutive in E. subst l. rewrite reverse_cons in *.
  apply Forall_app in H as [_ H]. apply Forall_cons in H as [H _].
  by rewrite (proj2 (Z.eqb_neq _ _) H).
Qed.

(** A line that begins with the name of a field is read as that field. *)
Lemma frame_line_field p acc l :
  p = bytes "event: " \/ p = bytes "data: " -> no_cr l ->
  frame_line acc (p ++ l) =
  if p ==? bytes "event: " then (TrimCopy l, acc.2) else (acc.1, acc.2 ++ [l]).
Proof.
  intros Hp Hl. destruct acc as [event_name data_lines]. unfold frame_line.
  rewrite without_cr_id; [|apply Forall_app; split; [destruct Hp; subst p; by repeat constructor|done]].
  destruct Hp as [-> | ->].
  - change (bytes "event: " ++ l) with (bytes "event:" ++ (bytes " " ++ l)).
    rewrite (field_no_size (bytes "event:") "e"%char ":"%char) by done. rewrite andb_false_r. done.
  - change (bytes "data: " ++ l) with (bytes "data:" ++ (bytes " " ++ l)).
    rewrite (field_no_size (bytes "data:") "d"%char ":"%char) by done. rewrite andb_false_r. done.
Qed.

(** An event that a frame can carry. *)
Record event_ok (e : InteractionSseFrame) : Prop := {
  eo_name_line : no_lf (sse_event_name e);
  eo_name_cr : no_cr (sse_event_name e);
  eo_name_trim : TrimCopy (sse_event_name e) = sse_event_name e;
  eo_data_cr : no_cr (sse_data e);
}.
Definition frame_text (e : InteractionSseFrame) : text := event_frame (sse_event_name e) (sse_data e).
Definition frame_lines (e : InteractionSseFrame) : list text :=
  (bytes "event: " ++ sse_event_name e) :: map (app (bytes "data: ")) (getlines (sse_data e ++ lf)).

Lemma no_cr_lines lines : no_cr (join_lines lines) -> Forall no_cr lines.
Proof.
  induction lines as [|l [|l' lines] IH]; [done|by repeat constructor|].
  change (join_lines (l :: l' :: lines)) with (l ++ lf ++ join_lines (l' :: lines)).
  intros [Hl [_ H]%Forall_app]%Forall_app. constructor; [done|by apply IH].
Qed.

Lemma payload_lines e :
  event_ok e -> let ls := getlines (sse_data e ++ lf) in
  join_lines ls = sse_data e /\ Forall no_lf ls /\ Forall no_cr ls.
Proof.
  intros He ls. destruct (join_getlines_from [] (sse_data e)) as (Hj & Hf & _); [constructor|].
  split_and!; [done|done|]. apply no_cr_lines. unfold ls, getlines. rewrite Hj. apply He.
Qed.

Lemma frame_text_lines e : event_ok e -> frame_text e = join_lines (frame_lines e) ++ lf ++ lf.
Proof.
  intros He. destruct (payload_lines e He) as (_ & _ & Hcr). rewrite app_assoc, <-concat_ended by done.
  unfold frame_text, event_frame, frame_lines, ended. cbn [map concat]. rewrite <-!app_assoc. do 4 f_equal.
  f_equal. induction Hcr as [|l ls Hl _ IH]; [done|]. cbn [map concat]. unfold data_line at 1.
  rewrite IH, without_cr_id by done. unfold ended. by rewrite <-!app_assoc.
Qed.
Lemma frame_lines_ok e : event_ok e -> Forall (fun l => no_lf l /\ l <> []) (frame_lines e).
Proof.
  intros He. destruct (payload_lines e He) as (_ & Hlf & _). constructor.
  - split; [|done]. apply Forall_app. split; [by repeat constructor|apply He].
  - apply Forall_fmap. apply (Forall_impl _ _ _ Hlf). intros l Hl. split; [|done].
    apply Forall_app. split; [by repeat constructor|done].
Qed.
Lemma foldl_data acc ls :
  Forall no_cr ls -> foldl frame_line acc (map (app (bytes "data: ")) ls) = (acc.1, acc.2 ++ ls).
Proof.
  intros H. revert acc. induction H as [|l ls Hl _ IH]; intros acc; cbn [map foldl].
  - rewrite app_nil_r. by destruct acc.
  - rewrite frame_line_field by auto. rewrite IH.
    change (bytes "data: " ==? bytes "event: ") with false. cbn [fst snd]. by rewrite <-app_assoc.
Qed.

(** Reading back what was built. *)
Lemma consume_frame e rest :
  event_ok e -> TryConsumeSseFrame (frame_text e ++ rest) = Some (e, rest).
Proof.
  intros He. unfold TryConsumeSseFrame. rewrite frame_text_lines, <-!app_assoc by done.
  rewrite find_blank by (done || by apply frame_lines_ok). cbn [mbind option_bind].
  rewrite take_app_length. replace (drop _ _) with rest.
  2:{ rewrite <-drop_drop, drop_app_length. done. }
  do 2 f_equal. unfold parse_frame. rewrite getlines_join by by apply frame_lines_ok.
  destruct (payload_lines e He) as (Hj & _ & Hcr). unfold frame_lines. cbn [foldl].
  rewrite frame_line_field by (auto; apply He). cbn [fst snd].
  change (bytes "event: " ==? bytes "event: ") with true. cbn iota.
  rewrite foldl_data by done. cbn. rewrite Hj, (eo_name_trim e He). by destruct e.
Qed.

Lemma find_frame e rest :
  event_ok e -> find (lf ++ lf) (frame_text e ++ rest) = Some (length (frame_text e) - 2)%nat.
Proof.
  intros He. rewrite frame_text_lines, <-!app_assoc by done.
  rewrite find_blank by (done || by apply frame_lines_ok). rewrite !length_app. change (length lf) with 1%nat.
  f_equal. lia.
Qed.
Lemma frame_text_length e : event_ok e -> (2 <= length (frame_text e))%nat.
Proof. intros He. rewrite frame_text_lines, !length_app by done. change (length lf) with 1%nat. lia. Qed.

(** ** The receiver *)

Definition frames_text (events : list InteractionSseFrame) : text := concat (map frame_text events).

(** A frame of the stream, as text and as read. *)
Record Item := mkItem { it_text : text; it_frame : InteractionSseFrame }.
Definition items_text (items : list Item) : text := concat (map it_text items).
Record item_ok (i : Item) : Prop := {
  io_length : (2 <= length (it_text i))%nat;
  io_find : forall rest, find (lf ++ lf) (it_text i ++ rest) = Some (length (it_text i) - 2)%nat;
  io_consume : forall rest, TryConsumeSseFrame (it_text i ++ rest) = Some (it_frame i, rest);
}.

(** The frame of an event, and the one that marks the end. *)
Definition event_item (e : InteractionSseFrame) : Item := mkItem (frame_text e) e.
Definition done_frame : InteractionSseFrame := mkInteractionSseFrame (bytes "message") (bytes "[DONE]").
Definition done_item : Item := mkItem BuildDoneFrame done_frame.
Lemma event_item_ok e : event_ok e -> item_ok (event_item e).
Proof.
  intros He. split; cbn; [by apply frame_text_length|intros; by apply find_frame|intros; by apply consume_frame].
Qed.
Lemma done_item_ok : item_ok done_item.
Proof. split; [cbn; lia|done|done]. Qed.
Lemma event_items_text events : items_text (map event_item events) = frames_text events.
Proof. unfold items_text, frames_text. by rewrite List.map_map. Qed.

Section receiving.
Context {A : Type} (handle : A -> InteractionSseFrame -> A * result bool) (saw_complete : A -> bool) (final : A).

(** The states on the way: the rest of the frames leads to [final], and nothing says that
    the answer is complete before they are handled, except for a last frame that only says
    that there is nothing more. *)
Inductive underway : list Item -> A -> Prop :=
  | underway_done : underway [] final
  | underway_more i a a1 items :
      saw_complete a = false -> handle a (it_frame i) = (a1, Ok true) -> underway items a1 -> underway (i :: items) a
  | underway_end i : handle final (it_frame i) = (final, Ok false) -> underway [i] final.

Lemma underway_saw items a : underway items a -> saw_complete a = true -> a = final.
Proof. destruct 1; congruence. Qed.

(** All complete frames are taken, in order. *)
Lemma consume_frames_spec fuel items buffer later a :
  Forall item_ok items -> underway items a ->
  buffer ++ later = items_text items -> (length buffer <= fuel)%nat ->
  exists now todo a' buffer', items = now ++ todo /\ underway todo a' /\
    consume_frames handle fuel buffer a = Some (a', Ok buffer') /\
    buffer' ++ later = items_text todo /\ (later = [] -> todo = []).
Proof.
  intros He. revert fuel buffer a. induction He as [|i items He Hes IH]; intros fuel buffer a Hu Hb Hf.
  - cbn in Hb. apply app_eq_nil in Hb as [-> ->]. exists [], [], a, []. by destruct fuel.
  - change (items_text (i :: items)) with (it_text i ++ items_text items) in Hb.
    pose proof (io_find i He (items_text items)) as Hfind. rewrite <-Hb in Hfind.
    apply find_beginning in Hfind; [|done]. pose proof (io_length i He) as H2.
    change (length (lf ++ lf)) with 2%nat in Hfind.
    destruct (Nat.leb_spec (length (it_text i) - 2 + 2) (length buffer)) as [Hle|Hlt].
    + assert (Hbuf : buffer = it_text i ++ drop (length (it_text i)) buffer).
      { rewrite <-(take_drop (length (it_text i)) buffer) at 1. f_equal.
        apply (take_line _ later (items_text items)); [done|lia]. }
      assert (Hb' : drop (length (it_text i)) buffer ++ later = items_text items) by (apply drop_line; [done|lia]).
      revert Hbuf Hb'. generalize (drop (length (it_text i)) buffer). intros buffer' Hbuf Hb'.
      destruct fuel as [|fuel]; [lia|]. inversion Hu as [|? ? a1 ? _ Hh Hu1|? Hh]; subst.
      * destruct (IH fuel buffer' a1 Hu1) as (now & todo & a' & b & -> & Ht & Hc & Hrest); [done| |].
        { rewrite length_app in Hf. lia. }
        exists (i :: now), todo, a', b. split_and!; [done|done| |apply Hrest..].
        cbn [consume_frames]. rewrite (io_consume i He). by rewrite Hh.
      * cbn in Hb'. apply app_eq_nil in Hb' as [-> ->].
        exists [i], [], final, []. split_and!; [done|constructor| |done|done]. cbn [consume_frames]. rewrite (io_consume i He). by rewrite Hh.
    + exists [], (i :: items), a, buffer. split_and!; [done|done| |done|].
      * destruct fuel; cbn [consume_frames]; unfold TryConsumeSseFrame; by rewrite Hfind.
      * intros ->. rewrite app_nil_r in Hb. rewrite Hb in Hlt. rewrite length_app in Hlt. lia.
Qed.

(** *** In one piece *)

Lemma drain_plain transport sse fin rest todo a :
  Forall item_ok todo -> underway todo a -> sse ++ rest = items_text todo ->
  exists now todo' a' sse', todo = now ++ todo' /\ underway todo' a' /\
    drain_frames handle false false (mkStreamBuffers transport sse fin) a =
      Some (a', Ok (mkStreamBuffers transport sse' fin)) /\
    sse' ++ rest = items_text todo' /\ (rest = [] -> todo' = []).
Proof.
  intros Hok Hu Hs. unfold drain_frames. cbn [decode_transport andb].
  destruct (consume_frames_spec (length sse) todo sse rest a) as (now & todo' & a' & b & -> & Hu' & -> & Hb & Hnil);
    [done|done|done|lia|].
  by exists now, todo', a', b.
Qed.

Lemma receive_plain_loop reads transport sse fin todo a :
  Forall item_ok todo -> underway todo a -> Forall (fun chunk => chunk <> []) reads ->
  sse ++ concat reads = items_text todo ->
  exists buffers, receive_loop handle saw_complete false (map Ok reads) (mkStreamBuffers transport sse fin) a =
    Some (final, Ok buffers).
Proof.
  intros Hok Hu Hreads. revert sse todo a Hok Hu. induction Hreads as [|chunk reads Hchunk _ IH];
    intros sse todo a Hok Hu Hs;
    destruct (drain_plain transport sse fin _ todo a Hok Hu Hs) as (now & todo' & a' & sse' & -> & Hu' & Hd & Hs' & Hnil);
    cbn [receive_loop map]; rewrite Hd; cbn [sb_sse_buffer andb];
    (destruct (saw_complete a' && contains (bytes "[DONE]") sse') eqn:Esaw;
      [apply andb_true_iff in Esaw as [Esaw _]; rewrite (underway_saw _ _ Hu' Esaw); by eexists|]).
  - specialize (Hnil eq_refl). subst todo'. cbn in Hs'. rewrite app_nil_r in Hs'. subst sse'. inversion Hu'; subst.
    by eexists.
  - destruct chunk as [|c chunk]; [done|]. cbn [sb_transport_buffer sb_upstream_stream_finished].
    apply (IH _ todo'); [by apply Forall_app in Hok as [_ Hok]|done|]. by rewrite <-app_assoc.
Qed.

Context (last_line : text).
Hypothesis last_ok : line_ok last_line.
Hypothesis last_empty : chunk_size_of last_line = Some 0.

(** What has been received, [rest] being still to arrive and [todo] to be handled. *)
Definition received (buffers : StreamBuffers) (rest : text) (todo : list Item) : Prop :=
  exists later,
    (if sb_upstream_stream_finished buffers
     then later = [] /\ sb_transport_buffer buffers = [] /\ rest = []
     else pending_body last_line later (sb_transport_buffer buffers) rest) /\
    sb_sse_buffer buffers ++ concat (map ch_data later) = items_text todo.

Lemma decode_received buffers rest todo :
  received buffers rest todo ->
  exists buffers', decode_transport true buffers = Some (Ok buffers') /\ received buffers' rest todo /\
    (sb_upstream_stream_finished buffers' = false -> rest <> []).
Proof.
  destruct buffers as [transport sse finished]. intros (later & Hf & Hs). cbn in *. destruct finished.
  - destruct Hf as (-> & -> & ->). eexists. split; [reflexivity|]. split; [|done]. by exists [].
  - destruct (decode_chunks_spec last_line last_ok last_empty (length transport) later transport rest sse false Hf)
      as (body & Hd & now & later' & -> & Hdec & Hfin); [lia|]. unfold DecodeAvailableChunkedHttpBody. rewrite Hd.
    eexists. split; [reflexivity|]. split.
    + exists later'. cbn. rewrite map_app, concat_app, app_assoc, <-Hdec in Hs.
      split; [|done]. destruct (cb_finished body); [done|apply Hfin].
    + cbn. intros Hb. rewrite Hb in Hfin. apply Hfin.
Qed.

Lemma drain_received buffers rest todo a :
  Forall item_ok todo -> underway todo a -> received buffers rest todo ->
  exists now todo' a' buffers', todo = now ++ todo' /\ underway todo' a' /\
    drain_frames handle true false buffers a = Some (a', Ok buffers') /\
    received buffers' rest todo' /\ (todo' = [] -> sb_sse_buffer buffers' = []) /\
    if sb_upstream_stream_finished buffers'
    then todo' = [] /\ rest = [] /\ sb_transport_buffer buffers' = [] else rest <> [].
Proof.
  intros Hok Hu Hr. unfold drain_frames.
  destruct (decode_received _ _ _ Hr) as ([enc dec fin] & -> & (later & Hl & Hs) & Hrest). cbn [andb] in *.
  destruct (consume_frames_spec (length dec) todo dec (concat (map ch_data later)) a)
    as (now & todo' & a' & b & -> & Hu' & -> & Hb & Hnil); [done|done|done|lia|].
  exists now, todo', a', (mkStreamBuffers enc b fin). split_and!; [done|done|done|by exists later| |].
  { intros ->. cbn in *. by destruct b. }
  cbn in *. destruct fin; [|by apply Hrest]. destruct Hl as (-> & -> & ->). by rewrite Hnil.
Qed.

Lemma receive_loop_spec reads buffers todo a :
  Forall item_ok todo -> underway todo a -> Forall (fun chunk => chunk <> []) reads ->
  received buffers (concat reads) todo ->
  exists buffers', receive_loop handle saw_complete true (map Ok reads) buffers a = Some (final, Ok buffers') /\
    (saw_complete final = false -> buffers' = mkStreamBuffers [] [] true).
Proof.
  intros Hok Hu Hreads. revert buffers todo a Hok Hu. induction Hreads as [|chunk reads Hchunk _ IH];
    intros buffers todo a Hok Hu Hr;
    destruct (drain_received _ _ _ a Hok Hu Hr)
      as (now & todo' & a' & [transport sse fin] & -> & Hu' & Hd & Hr' & Hsse & Hfin);
    cbn [receive_loop map]; rewrite Hd; cbn [sb_upstream_stream_finished sb_transport_buffer sb_sse_buffer] in *;
    (destruct (saw_complete a' && contains (bytes "[DONE]") sse) eqn:Esaw;
      [apply andb_true_iff in Esaw as [Esaw _]; pose proof (underway_saw _ _ Hu' Esaw) as ->;
       eexists; split; [reflexivity|congruence]|]);
    (destruct fin;
      [destruct Hfin as (-> & _ & ->); rewrite Hsse by done; inversion Hu'; subst; by eexists|]).
  - done.
  - destruct chunk as [|c chunk]; [done|]. cbn [andb]. apply (IH _ todo').
    + by apply Forall_app in Hok as [_ Hok].
    + done.
    + destruct Hr' as (later & [Ht Hc Hsz] & Hs). exists later. cbn in *. split; [|done].
      split; [|done|done]. by rewrite <-app_assoc.
Qed.

Lemma receive_stream_spec items chunks initial reads a :
  Forall item_ok items -> underway items a -> Forall chunk_ok chunks ->
  concat (map ch_data chunks) = items_text items ->
  Z.of_nat (length (body_text chunks last_line)) < 2 ^ 64 ->
  Forall (fun chunk => chunk <> []) reads ->
  initial ++ concat reads = body_text chunks last_line ->
  exists buffers, receive_stream handle saw_complete true initial (map Ok reads) a = Some (final, Ok buffers) /\
    (saw_complete final = false -> buffers = mkStreamBuffers [] [] true).
Proof.
  intros He Hu Hc Hdata Hsz Hreads Hb. unfold receive_stream.
  destruct (decode_received (mkStreamBuffers initial [] false) (concat reads) items) as (body & -> & Hrec & _).
  { by exists chunks. }
  by apply (receive_loop_spec _ _ items).
Qed.
End receiving.

(** ** What the decoder does not stand *)

(** A chunk that announces 2^64-20 bytes makes [chunk_data_begin + chunk_size + 2] wrap to
    zero: nothing is erased and the loop reads the same line for ever. *)
Lemma chunk_size_overflow_loops fuel decoded data finished progressed :
  decode_chunks fuel (bytes "ffffffffffffffec" ++ crlf ++ data) decoded finished progressed = None.
Proof.
  revert decoded progressed. induction fuel as [|fuel IH]; intros decoded progressed; rewrite decode_chunks_eq;
    rewrite (first_line (bytes "ffffffffffffffec") data) by reflexivity; cbn [length];
    rewrite take_app_length;
    change (chunk_size_of (bytes "ffffffffffffffec")) with (Some 18446744073709551596);
    change (uint64_wrap (Z.of_nat (length (bytes "ffffffffffffffec")) + 2 + 18446744073709551596 + 2)) with 0;
    cbn zeta; change (18446744073709551596 =? 0) with false; cbn iota;
    (destruct (Z.ltb_spec (Z.of_nat (length (bytes "ffffffffffffffec" ++ crlf ++ data))) 0); [lia|]); [done|].
  apply IH.
Qed.

(** A response that never arrived reads as a success. *)
Example empty_response_succeeds : resp_status_code (ParseHttpResponse []) = 200.
Proof. reflexivity. Qed.

(** * Claims *)


Definition sample_events : list InteractionSseFrame :=
  [mkInteractionSseFrame (bytes "delta") (bytes "one" ++ lf ++ bytes "two");
   mkInteractionSseFrame (bytes "complete") (bytes "{}")].
Definition sample_stream : text := concat (map frame_text sample_events).
Definition sample_chunks : list Chunk :=
  [mkChunk (bytes "14;x=1") (take 20 sample_stream); mkChunk (bytes "28") (drop 20 sample_stream)].

