(* ===== verification/ModelAdapter.v ===== *)
(** * Model families

    [common/src/runtime/model_adapter.cpp]: which family a model belongs to, the launch
    arguments and the prompt it needs, and what of its answers is shown. *)

From S2P Require Import Prelude Json Planner AssignmentStore InteractionText InteractionStream.

(** ** Writing members: [object[key] = value], [object.erase(key)] *)

Fixpoint set_assoc (key : string) (value : json) (fields : list (string * json)) : list (string * json) :=
  match fields with
  | [] => [(key, value)]
  | (k, v) :: rest => if String.eqb k key then (key, value) :: rest else (k, v) :: set_assoc key value rest
  end.
(** [object[key] = value]: [null] becomes an object, another value throws. *)
Definition json_put (value : json) (key : string) (x : json) : result json :=
  match value with
  | JObject fields => Ok (JObject (set_assoc key x fields))
  | JNull => Ok (JObject [(key, x)])
  | _ => Throw "type_error.305"
  end.
Definition set_member (key : string) (x value : json) : json :=
  match value with JObject fields => JObject (set_assoc key x fields) | _ => value end.
Definition erase_member (key : string) (value : json) : json :=
  match value with
  | JObject fields => JObject (List.filter (fun kv => negb (String.eqb kv.1 key)) fields)
  | _ => value
  end.

(** ** Identity and family *)

Record ModelIdentity := mkModelIdentity {
  mi_model_id : string;
  mi_served_model_name : string;
  mi_cached_local_model_path : string;
  mi_cached_runtime_model_path : string;
  mi_runtime_profile : string;
  mi_llama_args : list string;
}.
Definition ModelIdentity_default : ModelIdentity := mkModelIdentity "" "" "" "" "" [].

Inductive ModelFamily := Generic | QwenLegacyChat | Gemma4.
#[export] Instance ModelFamily_eq_dec : EqDecision ModelFamily.
Proof. solve_decision. Defined.

Definition ContainsCaseInsensitive (haystack needle : string) : bool :=
  negb (str_empty haystack) && negb (str_empty needle) &&
  contains (LowercaseCopy (bytes needle)) (LowercaseCopy (bytes haystack)).

Definition JsonStringArray (value : json) (key : string) : list string :=
  match member value key with
  | Some (JArray l) => omap (fun item => match item with JString s => Some s | _ => None end) l
  | _ => []
  end.

Definition IdentityFromActiveModelJson `{JsonLibrary} (value : json) : result ModelIdentity :=
  model_id ← json_value get_string value "model_id" "";
  served_model_name ← json_value get_string value "served_model_name" "";
  cached_local_model_path ← json_value get_string value "cached_local_model_path" "";
  model_path ← json_value get_string value "model_path" "";
  cached_runtime_model_path ← json_value get_string value "cached_runtime_model_path" model_path;
  runtime_profile ← json_value get_string value "runtime_profile" "";
  Ok (mkModelIdentity model_id served_model_name cached_local_model_path cached_runtime_model_path
        runtime_profile (JsonStringArray value "llama_args")).

Definition looks_like (identity : ModelIdentity) (needle : string) : bool :=
  ContainsCaseInsensitive (mi_model_id identity) needle ||
  ContainsCaseInsensitive (mi_served_model_name identity) needle ||
  ContainsCaseInsensitive (mi_cached_local_model_path identity) needle ||
  ContainsCaseInsensitive (mi_cached_runtime_model_path identity) needle ||
  ContainsCaseInsensitive (mi_runtime_profile identity) needle.
Definition DetectFamily (identity : ModelIdentity) : ModelFamily :=
  if looks_like identity "gemma-4" || looks_like identity "gemma4" then Gemma4
  else if looks_like identity "qwen" then QwenLegacyChat
  else Generic.

Definition ModelFamily_ToString (family : ModelFamily) : string :=
  match family with
  | Generic => "generic"
  | QwenLegacyChat => "qwen_legacy_chat"
  | Gemma4 => "gemma4"
  end.

(** ** Requests and launches *)

Definition AdaptInteractionPayload (payload : json) (identity : ModelIdentity) (thinking_enabled : bool) : json :=
  if negb (is_object payload) then payload
  else
    let kwargs := match member payload "chat_template_kwargs" with
                  | Some (JObject fields) => JObject fields | _ => JObject [] end in
    let kwargs := if DetectFamily identity ==? Gemma4
                  then set_member "enable_thinking" (JBool thinking_enabled) kwargs else kwargs in
    set_member "chat_template_kwargs" kwargs payload.

Definition HasArgument (args : list string) (flag : string) : bool := any_of (fun current => current ==? flag) args.
(** The flags, and what follows them when none of [present] is given. *)
Definition add_unless (present added args : list string) : list string :=
  if any_of (HasArgument args) present then args else args ++ added.
Definition AdaptLaunchArgs (args : list string) (identity : ModelIdentity) : list string :=
  let args := args ++ mi_llama_args identity in
  if negb (DetectFamily identity ==? Gemma4) then args
  else
    let args := add_unless ["--jinja"; "--no-jinja"] ["--jinja"] args in
    let args := add_unless ["--chat-template"; "--chat-template-file"]
                  ["--chat-template-file"; "/runtime/infer/templates/google-gemma-4.jinja"] args in
    let args := add_unless ["--chat-template-kwargs"]
                  ["--chat-template-kwargs"; "{" +:+ quote +:+ "enable_thinking" +:+ quote +:+ ":false}"] args in
    add_unless ["--reasoning-format"] ["--reasoning-format"; "none"] args.

Definition JsonString `{JsonLibrary} (obj : json) (key : string) : result string :=
  match member obj key with
  | None | Some JNull => Ok ""
  | Some (JString s) => Ok s
  | Some x => dump x
  end.
Definition NormalizeChatRole (role : string) : string :=
  let normalized := lower role in
  if any_of (fun known => normalized ==? known) ["system"; "user"; "assistant"; "tool"] then normalized else "user".

Definition prompt_line `{JsonLibrary} (qwen : bool) (message : json) : result string :=
  if negb (is_object message) then Ok ""
  else
    content ← JsonString message "content";
    if str_empty content then Ok ""
    else
      role ← json_value get_string message "role" "user";
      Ok (if qwen : bool
          then "<|im_start|>" +:+ NormalizeChatRole role +:+ newline +:+ content +:+ "<|im_end|>" +:+ newline
          else role +:+ ": " +:+ content +:+ newline).
Definition BuildLegacyChatPrompt `{JsonLibrary} (payload : json) (identity : ModelIdentity) : result string :=
  let qwen := DetectFamily identity ==? QwenLegacyChat in
  messages ← json_at get_json payload "messages";
  lines ← mapM (prompt_line qwen) (items messages);
  Ok (foldr (fun a b => a +:+ b) (if qwen then "<|im_start|>assistant" +:+ newline else "assistant: ") lines).

(** ** Answers *)

Definition im_assistant : text := bytes "<|im_start|>assistant".
(** The prefixes an answer may repeat, the longest match not mattering: none is a
    prefix of another. *)
Definition assistant_prefixes : list text := [bytes "assistant:"; bytes "assistant" ++ lf; im_assistant].

Fixpoint strip_prefixes (fuel : nat) (value : text) : option text :=
  let trimmed := drop_spaces value in
  match find_if (fun p => is_prefix p trimmed) assistant_prefixes with
  | None => Some trimmed
  | Some p =>
      match fuel with
      | O => None
      | S fuel => strip_prefixes fuel (drop (length p) trimmed)
      end
  end.
Definition StripRepeatedAssistantPrefixes (value : text) : option text := strip_prefixes (length value) value.

Definition StartsWithAssistantMarker (line : text) : bool :=
  let trimmed := drop_spaces line in
  is_prefix (bytes "assistant:") trimmed || is_prefix im_assistant trimmed || (trimmed ==? bytes "assistant").

Definition StripAssistantMarkerFromLine (line : text) : text :=
  let trimmed := drop_spaces line in
  if is_prefix (bytes "assistant:") trimmed then TrimCopy (drop 10 trimmed)
  else if is_prefix im_assistant trimmed then TrimCopy (drop (length im_assistant) trimmed)
  else if trimmed ==? bytes "assistant" then []
  else TrimCopy trimmed.

Definition collapse_line (acc : bool * list text) (line : text) : bool * list text :=
  let '(saw_assistant_line, cleaned_lines) := acc in
  let line := without_cr line in
  let saw_assistant_line := saw_assistant_line || StartsWithAssistantMarker line in
  if negb saw_assistant_line then (saw_assistant_line, cleaned_lines)
  else
    let cleaned := StripAssistantMarkerFromLine line in
    if vec_empty cleaned then (saw_assistant_line, cleaned_lines)
    else if last cleaned_lines ==? Some cleaned then (saw_assistant_line, cleaned_lines)
    else (saw_assistant_line, cleaned_lines ++ [cleaned]).
Definition CollapseAssistantTaggedTranscript (value : text) : text :=
  let '(saw_assistant_line, cleaned_lines) := foldl collapse_line (false, []) (getlines value) in
  if negb saw_assistant_line || vec_empty cleaned_lines then value else join_lines cleaned_lines.

Definition TruncateAtFirstMarker (value : text) (markers : list text) : text :=
  take (foldl (fun cut marker => match find marker value with Some pos => Nat.min cut pos | None => cut end)
          (length value) markers) value.

Definition channel_open : text := bytes "<|channel>".
Definition channel_close : text := bytes "<channel|>".

Fixpoint strip_channels (fuel : nat) (value : text) : option text :=
  let trimmed := drop_spaces value in
  if negb (is_prefix channel_open trimmed) then Some value
  else
    match find channel_close trimmed with
    | None => Some value
    | Some close =>
        match fuel with
        | O => None
        | S fuel => strip_channels fuel (drop (close + length channel_close) trimmed)
        end
    end.
Definition StripLeadingGemmaChannelBlocks (value : text) : option text := strip_channels (length value) value.

Fixpoint remove_channels (fuel : nat) (value : text) : option text :=
  match find channel_open value with
  | None => Some value
  | Some begin =>
      match find_from channel_close value (begin + length channel_open) with
      | None => Some (take begin value)
      | Some stop =>
          match fuel with
          | O => None
          | S fuel => remove_channels fuel (take begin value ++ drop (stop + length channel_close) value)
          end
      end
  end.
(** The closing tags left over are erased as the completion markers are. *)
Definition RemoveGemmaChannelBlocks (value : text) : option text :=
  value ← remove_channels (length value) value;
  fst <$> RemoveCompletionMarkers value channel_close.

Definition end_markers : list text := [bytes "<|im_end|>"; bytes "<|endoftext|>"; bytes "<|eot_id|>"].
Definition turn_markers : list text :=
  end_markers ++
  [lf ++ bytes "user:"; lf ++ bytes "system:"; lf ++ bytes "<|im_start|>user"; lf ++ bytes "<|im_start|>system"].

(** [None] when a loop runs out of fuel. *)
Definition SanitizeVisibleText (value : text) (identity : ModelIdentity) : option text :=
  match DetectFamily identity with
  | Gemma4 =>
      value ← RemoveGemmaChannelBlocks (RemoveThinkBlocks value);
      value ← StripLeadingGemmaChannelBlocks value;
      value ← StripRepeatedAssistantPrefixes
                (CollapseAssistantTaggedTranscript (TruncateAtFirstMarker value turn_markers));
      value ← StripLeadingGemmaChannelBlocks value;
      Some (TrimCopy value)
  | QwenLegacyChat =>
      let value := TruncateAtFirstMarker (RemoveThinkBlocks value) turn_markers in
      value ← StripRepeatedAssistantPrefixes (CollapseAssistantTaggedTranscript value);
      Some (TrimCopy value)
  | Generic => Some value
  end.

Definition sanitize_member (identity : ModelIdentity) (key : string) (value : json) : option json :=
  match member value key with
  | Some (JString s) =>
      s ← SanitizeVisibleText (bytes s) identity; Some (set_member key (JString (string_of_list s)) value)
  | _ => Some value
  end.
Definition sanitize_choice (identity : ModelIdentity) (choice : json) : option json :=
  if negb (is_object choice) then Some choice
  else
    choice ←
      match member choice "message" with
      | Some (JObject fields) =>
          message ← sanitize_member identity "content" (JObject fields);
          Some (set_member "message" (erase_member "reasoning_content" message) choice)
      | _ => Some choice
      end;
    choice ← sanitize_member identity "text" choice;
    Some (erase_member "reasoning_content" choice).
Definition SanitizeChatCompletionPayload (payload : json) (identity : ModelIdentity) : option json :=
  match member payload "choices" with
  | Some (JArray choices) =>
      choices ← mapM (sanitize_choice identity) choices;
      Some (set_member "choices" (JArray choices) payload)
  | _ => Some payload
  end.

(** * Lemmas *)

(** ** Parts of a text *)

Definition infix (p s : text) : Prop := exists a b, s = a ++ p ++ b.

Lemma infix_refl s : infix s s.
Proof. exists [], []. by rewrite app_nil_r. Qed.
Lemma infix_trans p q s : infix p q -> infix q s -> infix p s.
Proof.
  intros (a & b & ->) (c & d & ->). exists (c ++ a), (b ++ d). by rewrite <-!app_assoc.
Qed.
Lemma infix_take n s : infix (take n s) s.
Proof. exists [], (drop n s). by rewrite take_drop. Qed.
Lemma infix_drop n s : infix (drop n s) s.
Proof. exists (take n s), []. by rewrite app_nil_r, take_drop. Qed.

Lemma find_None_infix p s : p <> [] -> find p s = None <-> ~ infix p s.
Proof.
  intros Hp. split.
  - intros Hn (a & b & ->). pose proof (find_None p _ Hn (length a)) as H.
    rewrite drop_app_length in H. enough (is_prefix p (p ++ b) = true) as E
      by (rewrite H in E; [done|rewrite length_app; lia]). apply is_prefix_iff. by exists b.
  - intros Hn. destruct (find p s) as [i|] eqn:E; [|done]. destruct Hn. apply find_split in E.
    exists (take i s), (drop (i + length p) s). exact E.
Qed.
Lemma free_infix p q s : p <> [] -> infix q s -> find p s = None -> find p q = None.
Proof. intros Hp Hq. rewrite !find_None_infix by done. intros Hn H. apply Hn. by apply (infix_trans p q). Qed.

Lemma drop_spaces_suffix s : exists a, s = a ++ drop_spaces s.
Proof.
  induction s as [|c s (a & IH)]; cbn; [by exists []|]. destruct (is_space c); [|by exists []].
  exists (c :: a). cbn. by rewrite <-IH.
Qed.
Lemma drop_spaces_idem s : drop_spaces (drop_spaces s) = drop_spaces s.
Proof. induction s as [|c s IH]; cbn; [done|]. destruct (is_space c) eqn:E; [done|]. cbn. by rewrite E. Qed.
Lemma infix_drop_spaces s : infix (drop_spaces s) s.
Proof. destruct (drop_spaces_suffix s) as [a Ha]. exists a, []. by rewrite app_nil_r. Qed.
Lemma drop_spaces_length s : (length (drop_spaces s) <= length s)%nat.
Proof. destruct (drop_spaces_suffix s) as [a Ha]. apply (f_equal length) in Ha. rewrite length_app in Ha. lia. Qed.

(** Trimming keeps a beginning of what it is given without leading space. *)
Lemma trim_beginning s : exists b, drop_spaces s = TrimCopy s ++ b.
Proof.
  unfold TrimCopy. destruct (drop_spaces_suffix (reverse (drop_spaces s))) as [a Ha].
  exists (reverse a). apply (f_equal reverse) in Ha. by rewrite reverse_app, reverse_involutive in Ha.
Qed.
Lemma infix_trim s : infix (TrimCopy s) s.
Proof.
  apply (infix_trans _ (drop_spaces s)); [|apply infix_drop_spaces].
  destruct (trim_beginning s) as [b ->]. by exists [], b.
Qed.
Lemma trim_idem s : TrimCopy (TrimCopy s) = TrimCopy s.
Proof.
  destruct (trim_beginning s) as [b Hb]. pose proof (drop_spaces_idem s) as Hi. rewrite Hb in Hi.
  unfold TrimCopy at 1. replace (drop_spaces (TrimCopy s)) with (TrimCopy s).
  - unfold TrimCopy at 1. rewrite reverse_involutive, drop_spaces_idem. done.
  - destruct (TrimCopy s) as [|c t]; [done|]. cbn in *. destruct (is_space c) eqn:E; [|done].
    destruct (drop_spaces_suffix (t ++ b)) as [a Ha]. rewrite Hi in Ha. apply (f_equal length) in Ha.
    rewrite !length_app in Ha. cbn in Ha. rewrite length_app in Ha. lia.
Qed.

(** ** Lines *)

Lemma infix_lines_from current s l :
  l ∈ lines_from current s -> infix l (current ++ s).
Proof.
  revert current. induction s as [|c s IH]; intros current; cbn.
  - rewrite app_nil_r. destruct current; [set_solver|]. intros ->%list_elem_of_singleton. apply infix_refl.
  - destruct (char_code c =? 10).
    + intros [->|H]%elem_of_cons; [by exists [], (c :: s)|].
      apply (infix_trans _ s); [by apply (IH [])|]. exists (current ++ [c]), []. by rewrite app_nil_r, <-app_assoc.
    + intros H. specialize (IH _ H). by rewrite <-app_assoc in IH.
Qed.

Lemma prefix_split (c : Ascii.ascii) p b l rest : c ∉ p -> p ++ b = l ++ c :: rest -> exists k, l = p ++ k.
Proof.
  revert l. induction p as [|x p IH]; intros l Hc H; [by exists l|].
  destruct l as [|d l]; cbn in H; injection H as -> H; [destruct Hc; by left|].
  destruct (IH l) as [k ->]; [set_solver|done|by exists k].
Qed.
(** What does not contain a character lies on one side of it. *)
Lemma infix_split c p l rest : c ∉ p -> infix p (l ++ c :: rest) -> infix p l \/ infix p rest.
Proof.
  intros Hp (a & b & H). revert l H. induction a as [|x a IH]; intros l H.
  - left. destruct (prefix_split c p b l rest) as [k ->]; [done|done|]. by exists [], k.
  - destruct l as [|d l]; cbn in H; injection H as Hx H; [right; by exists a, b|].
    destruct (IH l H) as [(a' & b' & ->)|Hr]; [left|by right]. by exists (d :: a'), b'.
Qed.
Lemma infix_line p l rest : no_lf p -> infix p (l ++ lf ++ rest) -> infix p l \/ infix p rest.
Proof. intros Hp. apply infix_split. intros Hin. unfold no_lf in Hp. rewrite Forall_forall in Hp. by apply Hp in Hin. Qed.
Lemma infix_join p lines :
  no_lf p -> p <> [] -> infix p (join_lines lines) -> exists l, l ∈ lines /\ infix p l.
Proof.
  intros Hp Hne. induction lines as [|l [|l' lines] IH]; intros H.
  - destruct H as (a & b & H). cbn in H. by destruct a, p.
  - exists l. split; [set_solver|exact H].
  - change (join_lines (l :: l' :: lines)) with (l ++ lf ++ join_lines (l' :: lines)) in H.
    apply infix_line in H as [H|H]; [|destruct (IH H) as (k & Hk & Hi)|done].
    + exists l. split; [set_solver|done].
    + exists k. split; [set_solver|done].
Qed.

(** ** The steps of cleaning *)

Lemma infix_without_cr l : infix (without_cr l) l.
Proof.
  unfold without_cr. destruct (reverse l) as [|c r] eqn:E; [apply infix_refl|].
  destruct (char_code c =? 13); [|apply infix_refl]. apply (f_equal reverse) in E.
  rewrite reverse_involutive, reverse_cons in E. subst l. by exists [], [c].
Qed.
Lemma infix_strip_marker line : infix (StripAssistantMarkerFromLine line) line.
Proof.
  unfold StripAssistantMarkerFromLine. pose proof (infix_drop_spaces line) as Hd.
  assert (H : forall n, infix (TrimCopy (drop n (drop_spaces line))) line).
  { intros n. eapply infix_trans; [apply infix_trim|]. eapply infix_trans; [apply infix_drop|done]. }
  destruct (is_prefix _ _); [apply H|]. destruct (is_prefix _ _); [apply H|].
  destruct (_ ==? _); [by exists [], line|]. apply (H 0%nat).
Qed.

Lemma collapse_lines_infix value lines acc :
  Forall (fun l => infix l value) lines -> Forall (fun l => infix l value) acc.2 ->
  Forall (fun l => infix l value) (foldl collapse_line acc lines).2.
Proof.
  intros H. revert acc. induction H as [|l lines Hl _ IH]; intros acc Hacc; [done|].
  cbn [foldl]. apply IH. destruct acc as [saw cleaned]. unfold collapse_line. cbn in Hacc.
  destruct (negb _); [done|]. destruct (vec_empty _); [done|]. destruct (_ ==? _); [done|]. cbn.
  apply Forall_app. split; [done|]. constructor; [|done].
  eapply infix_trans; [apply infix_strip_marker|]. eapply infix_trans; [apply infix_without_cr|done].
Qed.

(** What has no line break and is in the collapsed transcript was in the text. *)
Lemma collapse_free p value :
  no_lf p -> p <> [] -> find p value = None -> find p (CollapseAssistantTaggedTranscript value) = None.
Proof.
  intros Hp Hne Hf. unfold CollapseAssistantTaggedTranscript.
  assert (Hl : Forall (fun l => infix l value) (foldl collapse_line (false, []) (getlines value)).2).
  { apply collapse_lines_infix; [|done]. apply Forall_forall. intros l Hl. by apply (infix_lines_from []). }
  destruct (foldl _ _ _) as [saw cleaned]. cbn in Hl. destruct (negb saw || vec_empty cleaned); [done|].
  apply find_None_infix; [done|]. intros (l & Hin & Hi)%infix_join; [|done|done].
  rewrite Forall_forall in Hl. revert Hf. rewrite find_None_infix by done. intros Hf. apply Hf.
  by apply (infix_trans _ l), Hl.
Qed.

Lemma strip_prefixes_spec fuel value :
  (length value <= fuel)%nat ->
  exists out, strip_prefixes fuel value = Some out /\ infix out value /\ drop_spaces out = out /\
    forall p, p ∈ assistant_prefixes -> is_prefix p out = false.
Proof.
  revert value. induction fuel as [|fuel IH]; intros value Hf; cbn [strip_prefixes];
    (destruct (find_if _ assistant_prefixes) as [p|] eqn:E;
     [|exists (drop_spaces value); split_and!;
       [done|apply infix_drop_spaces|apply drop_spaces_idem|exact (proj1 (find_if_None _ _) E)]]);
    apply find_if_Some in E as [Hp Hin];
    assert (Hl : (9 < length p)%nat)
      by (unfold assistant_prefixes in Hin; rewrite !elem_of_cons, elem_of_nil in Hin;
          destruct Hin as [->|[->|[->|[]]]]; cbn; lia);
    apply is_prefix_iff in Hp as [t Hlen]; apply (f_equal length) in Hlen; rewrite length_app in Hlen; pose proof (drop_spaces_length value) as Hd; [lia|].
  destruct (IH (drop (length p) (drop_spaces value))) as (out & Ho & Hi & Hrest); [rewrite length_drop; lia|].
  exists out. split_and!; [done| |apply Hrest|apply Hrest].
  eapply infix_trans; [done|]. eapply infix_trans; [apply infix_drop|apply infix_drop_spaces].
Qed.

Lemma strip_channels_spec fuel value :
  (length value <= fuel)%nat -> exists out, strip_channels fuel value = Some out /\ infix out value.
Proof.
  revert value. induction fuel as [|fuel IH]; intros value Hf; cbn [strip_channels];
    (destruct (negb _); [by exists value; split; [|apply infix_refl]|]);
    (destruct (find channel_close (drop_spaces value)) as [i|] eqn:E;
      [|by exists value; split; [|apply infix_refl]]);
    pose proof (find_length _ _ _ E) as Hl; change (length channel_close) with 10%nat in *;
    pose proof (drop_spaces_length value) as Hd; [lia|].
  destruct (IH (drop (i + 10) (drop_spaces value))) as (out & Ho & Hi); [rewrite length_drop; lia|].
  exists out. split; [done|]. eapply infix_trans; [done|].
  eapply infix_trans; [apply infix_drop|apply infix_drop_spaces].
Qed.
(** Without a closing tag there is nothing to strip. *)
Lemma strip_channels_free value :
  find channel_close value = None -> StripLeadingGemmaChannelBlocks value = Some value.
Proof.
  intros H. unfold StripLeadingGemmaChannelBlocks.
  assert (E : find channel_close (drop_spaces value) = None)
    by (apply (free_infix _ _ value); [done|apply infix_drop_spaces|done]).
  destruct (length value); cbn [strip_channels]; destruct (negb _); try done; by rewrite E.
Qed.

Lemma remove_channels_spec fuel value :
  (length value <= fuel)%nat -> remove_channels fuel value <> None.
Proof.
  revert value. induction fuel as [|fuel IH]; intros value Hf; cbn [remove_channels];
    (destruct (find channel_open value) as [i|] eqn:E; [|done]);
    (destruct (find_from channel_close value (i + length channel_open)) as [stop|] eqn:F; [|done]);
    apply find_length in E; change (length channel_open) with 10%nat in *; [lia|].
  apply IH. unfold find_from in F. apply fmap_Some in F as (k & Hk & ->). apply find_length in Hk.
  change (length channel_close) with 10%nat in *. rewrite length_drop in Hk.
  rewrite length_app, length_take, length_drop. lia.
Qed.
Lemma remove_gemma_blocks value :
  exists out, RemoveGemmaChannelBlocks value = Some out /\ find channel_close out = None.
Proof.
  unfold RemoveGemmaChannelBlocks, RemoveCompletionMarkers.
  pose proof (remove_channels_spec (length value) value ltac:(lia)) as Hn.
  destruct (remove_channels _ _) as [v|]; [|done]. cbn [mbind option_bind].
  destruct (remove_markers_spec (length v) channel_close v false) as (out & -> & Hout); [done|lia|].
  by exists out.
Qed.

Lemma truncate_cut value markers cut :
  (foldl (fun cut marker => match find marker value with Some pos => Nat.min cut pos | None => cut end)
     cut markers <= cut)%nat /\
  forall m i, m ∈ markers -> find m value = Some i ->
    (foldl (fun cut marker => match find marker value with Some pos => Nat.min cut pos | None => cut end)
       cut markers <= i)%nat.
Proof.
  revert cut. induction markers as [|m markers IH]; intros cut; cbn [foldl]; [split; [lia|set_solver]|].
  destruct (IH (match find m value with Some pos => Nat.min cut pos | None => cut end)) as [H1 H2].
  split; [destruct (find m value); lia|].
  intros m' i [->|Hin]%elem_of_cons Hi; [rewrite Hi in *; lia|by apply (H2 m')].
Qed.
Lemma truncate_free value markers m :
  m ∈ markers -> m <> [] -> find m (TruncateAtFirstMarker value markers) = None.
Proof.
  intros Hin Hm. unfold TruncateAtFirstMarker. destruct (find m value) as [i|] eqn:E.
  - apply (free_infix _ _ (take i value)); [done| |by apply find_take_None].
    match goal with |- infix (take ?n _) _ => replace (take n value) with (take n (take i value)) end;
      [apply infix_take|]. rewrite take_take. f_equal. apply Nat.min_l.
    by apply (proj2 (truncate_cut value markers (length value)) m).
  - by apply (free_infix _ _ value); [|apply infix_take|].
Qed.

(** ** The whole *)

(** What the last steps keep out of the text. *)
Lemma finish_clean value :
  exists out, StripRepeatedAssistantPrefixes (CollapseAssistantTaggedTranscript value) = Some out /\
    (forall p, p ∈ assistant_prefixes -> is_prefix p (TrimCopy out) = false) /\
    (forall m, no_lf m -> m <> [] -> find m value = None -> find m out = None).
Proof.
  destruct (strip_prefixes_spec _ (CollapseAssistantTaggedTranscript value) (le_n _))
    as (out & Ho & Hi & Hs & Hp). exists out. split_and!; [done| |].
  - intros p Hin. specialize (Hp p Hin). destruct (is_prefix p (TrimCopy out)) eqn:E; [|done].
    destruct (trim_beginning out) as [b Hb]. rewrite Hs in Hb.
    apply (is_prefix_app _ _ b) in E. by rewrite <-Hb, Hp in E.
  - intros m Hl Hm Hf. apply (free_infix _ _ _ Hm Hi). by apply collapse_free.
Qed.
Lemma trim_free m s : m <> [] -> find m s = None -> find m (TrimCopy s) = None.
Proof. intros Hm. apply free_infix; [done|apply infix_trim]. Qed.

Lemma end_marker_cases m : m ∈ end_markers -> no_lf m /\ m <> [] /\ m ∈ turn_markers.
Proof.
  intros Hm. split_and!; [| |apply elem_of_app; by left];
    unfold end_markers in Hm; rewrite !elem_of_cons, elem_of_nil in Hm;
    destruct Hm as [->|[->|[->|[]]]]; try done; by repeat constructor.
Qed.

(** * Claims *)

(** What is shown of an answer of a Gemma or Qwen model is clean, whatever the model sent:
    every loop ends, the text carries no end-of-turn marker, does not begin with an assistant
    prefix or end in space, and is free of reasoning tags (for Gemma, of channel tags). *)
Theorem visible_text_clean value identity :
  DetectFamily identity <> Generic ->
  exists out, SanitizeVisibleText value identity = Some out /\ TrimCopy out = out /\
    (forall m, m ∈ end_markers -> find m out = None) /\
    (forall p, p ∈ assistant_prefixes -> is_prefix p out = false) /\
    find (if DetectFamily identity ==? Gemma4 then channel_close else think_open) out = None.
Proof.
  intros Hg. unfold SanitizeVisibleText. destruct (DetectFamily identity) eqn:Ef; [done| |].
  - set (shown := TruncateAtFirstMarker _ _).
    destruct (finish_clean shown) as (out & -> & Hp & Hf). exists (TrimCopy out). cbn [mbind option_bind].
    split_and!; [done|apply trim_idem| |exact Hp|].
    + intros m (Hl & Hm & Ht)%end_marker_cases. apply trim_free, Hf; [done..|]. by apply truncate_free.
    + apply trim_free, Hf; [done|by repeat constructor|done|].
      apply (free_infix _ _ (RemoveThinkBlocks value)); [done|apply infix_take|by apply remove_think_spec].
  - destruct (remove_gemma_blocks (RemoveThinkBlocks value)) as (v & -> & Hv). cbn [mbind option_bind].
    rewrite strip_channels_free by done. cbn [mbind option_bind].
    set (shown := TruncateAtFirstMarker _ _).
    destruct (finish_clean shown) as (out & -> & Hp & Hf). cbn [mbind option_bind].
    assert (Hc : find channel_close out = None).
    { apply Hf; [by repeat constructor|done|]. by apply (free_infix _ _ v); [|apply infix_take|]. }
    rewrite strip_channels_free by done. exists (TrimCopy out). split_and!; [done|apply trim_idem| |exact Hp|].
    + intros m (Hl & Hm & Ht)%end_marker_cases. apply trim_free, Hf; [done..|]. by apply truncate_free.
    + by apply trim_free.
Qed.

Definition sample_gemma : ModelIdentity := mkModelIdentity "google/Gemma-4-27b" "" "" "" "" [].

Lemma visible_text_clean_witness :
  DetectFamily sample_gemma <> Generic /\
  SanitizeVisibleText
    (bytes "<|channel>thought<channel|>assistant: assistant: hello" ++ lf ++ bytes "user: next") sample_gemma =
    Some (bytes "hello") /\
  exists out, SanitizeVisibleText (bytes "a<|im_end|>b") sample_gemma = Some out.
Proof.
  split; [vm_compute; discriminate|]. split; [vm_compute; reflexivity|].
  destruct (visible_text_clean (bytes "a<|im_end|>b") sample_gemma) as (out & H & _);
    [vm_compute; discriminate|]. exists out. exact H.
Defined.

(** Removing channel tags can put a thinking tag together, and the turn of another role can
    come back at the start of a line. *)
Example thinking_reassembled :
  SanitizeVisibleText (bytes "ok <th<channel|>ink>secret") sample_gemma = Some (bytes "ok <think>secret").
Proof. vm_compute. reflexivity. Qed.
Example turn_reassembled :
  SanitizeVisibleText (bytes "assistant: a" ++ lf ++ bytes "assistant: user: b") sample_gemma =
  Some (bytes "a" ++ lf ++ bytes "user: b").
Proof. vm_compute. reflexivity. Qed.
