(* ===== verification/InteractionPolicy.v ===== *)
(** * Completion policies and continuation requests

    [controller/src/interaction/interaction_request_heuristics.cpp],
    [interaction_completion_policy_support.cpp], [interaction_continuation_payload_builder.cpp]
    and the request validation of [interaction_service.cpp]: which limits a conversation
    gets, when a segment ends it, and what is asked for the next one. *)

From S2P Require Import Prelude Json Models Planner AssignmentStore InteractionText InteractionStream ModelAdapter.

(** ** What a request looks like *)

Definition LastUserMessageContent `{JsonLibrary} (payload : json) : result string :=
  match member payload "__naim_policy_user_message" with
  | Some (JString s) => Ok s
  | _ =>
      match member payload "messages" with
      | Some (JArray messages) =>
          foldr (fun message earlier =>
              match message with
              | JObject fields =>
                  role ← json_value get_string message "role" "";
                  match role ==? "user", assoc "content" fields with
                  | true, Some (JString s) => Ok s
                  | _, _ => earlier
                  end
              | _ => earlier
              end) (Ok "") (rev messages)
      | _ => Ok ""
      end
  end.

Definition normalize_char (ch : Ascii.ascii) : Ascii.ascii :=
  if ch ==? "-"%char then "_"%char else ascii_lower ch.
Definition NormalizeInteractionText (value : text) : text := normalize_char <$> value.
Definition ContainsAnySubstring (haystack : text) (needles : list text) : bool :=
  any_of (fun needle => negb (vec_empty needle) && contains needle haystack) needles.

Definition explicit_long_markers : list text :=
  bytes <$> [
    "несколько сообщений"; "разбивай на несколько сообщений"; "разбей на несколько сообщений";
    "продолжай в нескольких сообщениях"; "in several messages"; "multiple messages";
    "split across multiple messages"; "continue in multiple messages"; "2048 слов"; "1024 слов"; "1536 слов";
    "2048 words"; "1024 words"; "1536 words"; "2048 токен"; "1024 токен"; "2048 token"; "1024 token"].
Definition long_form_keywords : list text :=
  bytes <$> [
    "напиши историю"; "напиши рассказ"; "напиши эссе"; "напиши статью"; "подробный план"; "подробно опиши";
    "развернуто опиши"; "детально опиши"; "историю"; "рассказ"; "эссе"; "статью"; "гайд"; "руководство";
    "write a story"; "write an essay"; "write an article"; "write a guide"; "detailed plan";
    "detailed analysis"; "long-form"; "long form"; "структуру проекта"; "архитектуру проекта";
    "изучи весь проект"; "объясни проект"; "проследи путь"; "по всему репозиторию"; "repository-wide";
    "repo-wide"; "entire repository"; "whole repository"; "cross-file"; "cross file"; "project structure";
    "project architecture"; "trace the path"; "explain the repository"; "analyze the whole project"].
Definition analysis_markers : list text :=
  bytes <$> [
    "репозитор"; "структур"; "архитектур"; "по проекту"; "по репозиторию"; "изучи проект";
    "изучи репозиторий"; "кодовая база"; "проследи путь"; "cross-file"; "cross file"; "repo-wide";
    "repository-wide"; "repository"; "repo "; "project structure"; "project architecture"; "trace the path";
    "analyze the project"; "analyze the repository"; "codebase"; "code base"; "grounded in files";
    "with file references"].

Definition LooksLikeLongFormTaskRequest (value : string) : bool :=
  let normalized := NormalizeInteractionText (bytes value) in
  (280 <=? Z.of_nat (length normalized)) ||
  ContainsAnySubstring normalized explicit_long_markers ||
  ContainsAnySubstring normalized long_form_keywords.
Definition LooksLikeRepositoryAnalysisRequest (value : string) : bool :=
  ContainsAnySubstring (NormalizeInteractionText (bytes value)) analysis_markers.
Definition CanonicalResponseMode (value : string) : string :=
  string_of_list (NormalizeInteractionText (bytes value)).

(** ** Policies *)

Record InteractionCompletionPolicy := mkInteractionCompletionPolicy {
  ip_response_mode : string;
  ip_max_tokens : Z;
  ip_target_completion_tokens : option Z;
  ip_max_continuations : Z;
  ip_max_total_completion_tokens : Z;
  ip_max_elapsed_time_ms : Z;
  ip_thinking_enabled : bool;
  ip_semantic_goal : text;
  ip_completion_marker : text;
  ip_require_completion_marker : bool;
}.
Record ResolvedInteractionPolicy := mkResolvedInteractionPolicy {
  rp_policy : InteractionCompletionPolicy;
  rp_mode : string;
  rp_repository_analysis : bool;
  rp_long_form : bool;
}.

Definition ClampInteractionPolicyValue (value minimum maximum : Z) : Z := Z.max minimum (Z.min value maximum).

Definition NormalizeConfiguredPolicy (configured : CompletionPolicy) : InteractionCompletionPolicy :=
  let normalized_mode := CanonicalResponseMode (cp_response_mode configured) in
  let response_mode := if str_empty normalized_mode then "normal" else normalized_mode in
  let max_tokens := ClampInteractionPolicyValue (cp_max_tokens configured) 1 2048 in
  let target := (fun tokens => ClampInteractionPolicyValue tokens 1 16384)
                  <$> cp_target_completion_tokens configured in
  let max_continuations := ClampInteractionPolicyValue (cp_max_continuations configured) 0 8 in
  let max_total := ClampInteractionPolicyValue (cp_max_total_completion_tokens configured) max_tokens 16384 in
  let max_elapsed := ClampInteractionPolicyValue (cp_max_elapsed_time_ms configured) 1000 600000 in
  let semantic_goal := from_option (fun goal => TrimCopy (bytes goal)) [] (cp_semantic_goal configured) in
  let max_total := from_option (Z.max max_total) max_total target in
  mkInteractionCompletionPolicy response_mode max_tokens target max_continuations max_total max_elapsed
    false semantic_goal task_complete
    (negb (vec_empty semantic_goal) || has_value target || (response_mode ==? "long") ||
     (response_mode ==? "very_long")).

Definition DefaultChatPolicy : InteractionCompletionPolicy :=
  NormalizeConfiguredPolicy (mkCompletionPolicy "normal" 512 None 0 512 30000 None).

Definition finalize_resolved (interaction : option InteractionSettings) (policy : InteractionCompletionPolicy)
    : InteractionCompletionPolicy :=
  let thinking := from_option ia_thinking_enabled (ip_thinking_enabled policy) interaction in
  if thinking then
    mkInteractionCompletionPolicy (ip_response_mode policy) (ip_max_tokens policy)
      (ip_target_completion_tokens policy)
      (Z.max (ip_max_continuations policy) 6)
      (Z.max (ip_max_total_completion_tokens policy) (Z.max (ip_max_tokens policy * 12) 8192))
      (Z.max (ip_max_elapsed_time_ms policy) 300000)
      true (ip_semantic_goal policy) (ip_completion_marker policy) (ip_require_completion_marker policy)
  else
    mkInteractionCompletionPolicy (ip_response_mode policy) (ip_max_tokens policy)
      (ip_target_completion_tokens policy) (ip_max_continuations policy)
      (ip_max_total_completion_tokens policy) (ip_max_elapsed_time_ms policy)
      false (ip_semantic_goal policy) (ip_completion_marker policy) (ip_require_completion_marker policy).

Definition is_long_mode (mode : string) : bool := (mode ==? "long") || (mode ==? "very_long").

(** The configured policy that applies, and the name of the choice. *)
Definition configured_choice (interaction : InteractionSettings) (repository_analysis long_form_task : bool)
    : option (CompletionPolicy * string) :=
  let normalized_completion_mode :=
    from_option (fun p => CanonicalResponseMode (cp_response_mode p)) "" (ia_completion_policy interaction) in
  match repository_analysis && long_form_task, ia_analysis_long_completion_policy interaction with
  | true, Some p => Some (p, "analysis-long")
  | _, _ =>
  match repository_analysis && negb long_form_task, ia_analysis_completion_policy interaction with
  | true, Some p => Some (p, "analysis-default")
  | _, _ =>
  match long_form_task, ia_long_completion_policy interaction with
  | true, Some p => Some (p, "long")
  | _, _ =>
  match ia_completion_policy interaction with
  | Some p =>
      if negb long_form_task && negb (is_long_mode normalized_completion_mode) then Some (p, "default")
      else if long_form_task && is_long_mode normalized_completion_mode then Some (p, "long")
      else None
  | None => None
  end end end end.

Definition fallback_mode (repository_analysis long_form_task : bool) : string :=
  match repository_analysis, long_form_task with
  | true, true => "analysis-long-fallback"
  | true, false => "analysis-default-fallback"
  | false, true => "long-fallback"
  | false, false => "default-fallback"
  end.

Definition ResolvePolicy `{JsonLibrary} (desired_state : DesiredState) (payload : json)
    : result ResolvedInteractionPolicy :=
  last_user_message ← LastUserMessageContent payload;
  let long_form_task := LooksLikeLongFormTaskRequest last_user_message in
  let repository_analysis := LooksLikeRepositoryAnalysisRequest last_user_message in
  let '(policy, mode) :=
    match ds_interaction desired_state with
    | Some interaction =>
        match configured_choice interaction repository_analysis long_form_task with
        | Some (p, mode) => (NormalizeConfiguredPolicy p, mode)
        | None => (DefaultChatPolicy, fallback_mode repository_analysis long_form_task)
        end
    | None => (DefaultChatPolicy, fallback_mode repository_analysis long_form_task)
    end in
  Ok (mkResolvedInteractionPolicy (finalize_resolved (ds_interaction desired_state) policy) mode
        repository_analysis long_form_task).

(** ** When a segment ends the session *)

Record InteractionSegmentSummary := mkInteractionSegmentSummary {
  sg_index : Z;
  sg_continuation_index : Z;
  sg_text : text;
  sg_finish_reason : string;
  sg_prompt_tokens : Z;
  sg_completion_tokens : Z;
  sg_total_tokens : Z;
  sg_latency_ms : Z;
  sg_prompt_build_ms : Z;
  sg_upstream_request_ms : Z;
  sg_response_parse_ms : Z;
  sg_stream_first_delta_ms : Z;
  sg_marker_seen : bool;
}.

Definition SessionReachedTargetLength (policy : InteractionCompletionPolicy) (total_completion_tokens : Z) : bool :=
  match ip_target_completion_tokens policy with
  | Some target => target <=? total_completion_tokens
  | None => true
  end.
Definition CanCompleteOnNaturalStop (policy : InteractionCompletionPolicy) (summary : InteractionSegmentSummary)
    : bool :=
  negb (ip_require_completion_marker policy) &&
  (sg_finish_reason summary !=? "length") && negb (vec_empty (TrimCopy (sg_text summary))).
Definition ShouldTreatLengthAsNaturalStop (policy : InteractionCompletionPolicy)
    (summary : InteractionSegmentSummary) : bool :=
  negb (ip_require_completion_marker policy || (ip_response_mode policy !=? "normal")) &&
  negb (vec_empty (TrimCopy (sg_text summary))) &&
  (sg_finish_reason summary ==? "length") &&
  (0 <? sg_completion_tokens summary) &&
  (sg_completion_tokens summary <? ip_max_tokens policy).

(** ** Instructions *)

Definition BuildRepositoryAnalysisInstruction : string :=
  "Repository analysis requirement: answer only from the repository or " +:+
  "codebase evidence provided in the request. " +:+
  "Cite concrete file paths for repo-specific claims. If evidence is " +:+
  "insufficient, say exactly what is unknown. " +:+
  "Do not claim lack of filesystem access when repository context is " +:+
  "already present.".

Definition BuildSemanticCompletionInstruction (policy : InteractionCompletionPolicy) : text :=
  bytes ("Semantic completion protocol:" +:+ newline) ++
  bytes ("- You may need multiple assistant segments to finish this task." +:+ newline) ++
  bytes "- End the final segment with the exact marker " ++ ip_completion_marker policy ++
  bytes (" on its own line only when the task is fully complete." +:+ newline) ++
  bytes ("- If the task is not complete in this segment, do not output the marker." +:+ newline) ++
  bytes ("- For continuation segments, continue exactly where you stopped without repeating prior text unless recap is explicitly requested." +:+ newline) ++
  bytes ("- Respect the user's requested length and scope. Once the requested artifact is complete, stop instead of adding optional extra sections." +:+ newline) ++
  bytes ("- When you have satisfied the user's requested structure and length, emit the marker immediately on its own line and end the response." +:+ newline) ++
  bytes ("- Do not emit tool calls, tool requests, or waiting states in this phase." +:+ newline) ++
  (if vec_empty (ip_semantic_goal policy) then []
   else bytes "- Task completion goal: " ++ ip_semantic_goal policy ++ bytes newline) ++
  match ip_target_completion_tokens policy with
  | Some target =>
      bytes ("- Aim for at least " +:+ to_string target +:+
             " completion tokens before marking the task complete." +:+ newline)
  | None => []
  end.

Definition BuildContinuationPrompt (policy : InteractionCompletionPolicy) (natural_stop_without_marker : bool)
    (trailing_excerpt : text) (remaining_completion_tokens : Z)
    (hidden_thinking_mode visible_output_started : bool) : text :=
  (if hidden_thinking_mode && negb visible_output_started then
     bytes ("Your hidden reasoning is not shown to the user. Stop reasoning now and " +:+
            "reply with only the final user-visible answer.")
   else if natural_stop_without_marker then
     bytes ("Your previous segment stopped before you proved the task was complete. " +:+
            "If the task is already complete, reply with only ") ++
     ip_completion_marker policy ++ bytes ". Otherwise continue exactly where you stopped."
   else bytes "Continue exactly where you stopped.") ++
  (if vec_empty trailing_excerpt then []
   else bytes (" The last visible excerpt from your previous segment was:" +:+ newline) ++
        trailing_excerpt ++ bytes (newline +:+ "Continue immediately after that excerpt.")) ++
  (if hidden_thinking_mode : bool then
     bytes (" Do not output hidden reasoning, <think> blocks, or reasoning preambles." +:+
            " The next segment must contain only the final answer that the user should read.")
   else []) ++
  (if 0 <? remaining_completion_tokens then
     bytes (" You have approximately " +:+ to_string remaining_completion_tokens +:+
            " completion tokens remaining across all future segments.") ++
     (if remaining_completion_tokens <=? ip_max_tokens policy
      then bytes " Finish the remaining required content and conclude in this segment if possible."
      else bytes " Prioritize the remaining required sections and avoid optional expansion.")
   else []) ++
  bytes " Do not repeat prior text. Emit " ++ ip_completion_marker policy ++
  bytes (" on its own line only in the final segment when the task is fully complete." +:+
         " Do not restart the outline, recap earlier sections, or add extra filler once the requested artifact is complete.").

Definition chat_message (role : string) (content : text) : json :=
  JObject [("role", JString role); ("content", JString (string_of_list content))].

Definition ContinuationPayloadBuilder_Build (original_payload : json) (accumulated_text : text) (policy : InteractionCompletionPolicy)
    (natural_stop_without_marker : bool) (total_completion_tokens : Z) : result json :=
  let messages := match member original_payload "messages" with Some (JArray l) => l | _ => [] end in
  let recent_assistant_context := Utf8SafeSuffix accumulated_text 4096 in
  let trailing_excerpt := Utf8SafeSuffix accumulated_text 256 in
  let remaining_completion_tokens := Z.max 0 (ip_max_total_completion_tokens policy - total_completion_tokens) in
  payload ←
    (if ip_thinking_enabled policy then
       let kwargs := match member original_payload "chat_template_kwargs" with
                     | Some (JObject fields) => JObject fields | _ => JObject [] end in
       json_put original_payload "chat_template_kwargs" (set_member "enable_thinking" (JBool false) kwargs)
     else Ok original_payload);
  json_put payload "messages"
    (JArray (messages ++
             (if vec_empty recent_assistant_context then []
              else [chat_message "assistant" recent_assistant_context]) ++
             [chat_message "user"
                (BuildContinuationPrompt policy natural_stop_without_marker trailing_excerpt
                   remaining_completion_tokens (ip_thinking_enabled policy)
                   (negb (vec_empty accumulated_text)))])).

(** * Lemmas *)

(** The limits every normalised policy keeps. *)
Record policy_bounded (limit : Z) (p : InteractionCompletionPolicy) : Prop := {
  pb_max_tokens : 1 <= ip_max_tokens p <= 2048;
  pb_max_continuations : 0 <= ip_max_continuations p <= 8;
  pb_max_total : ip_max_tokens p <= ip_max_total_completion_tokens p <= limit;
  pb_max_elapsed : 1000 <= ip_max_elapsed_time_ms p <= 600000;
  pb_target : forall t, ip_target_completion_tokens p = Some t -> 1 <= t <= ip_max_total_completion_tokens p;
  pb_marker : ip_completion_marker p = task_complete;
}.

Lemma clamp_bounds value minimum maximum :
  minimum <= maximum -> minimum <= ClampInteractionPolicyValue value minimum maximum <= maximum.
Proof. unfold ClampInteractionPolicyValue. lia. Qed.

Lemma normalized_bounded configured : policy_bounded 16384 (NormalizeConfiguredPolicy configured).
Proof.
  pose proof (clamp_bounds (cp_max_tokens configured) 1 2048 ltac:(lia)) as Ht.
  set (max_tokens := ClampInteractionPolicyValue (cp_max_tokens configured) 1 2048) in *.
  pose proof (clamp_bounds (cp_max_total_completion_tokens configured) max_tokens 16384 ltac:(lia)) as Hm.
  split; unfold NormalizeConfiguredPolicy; cbn [ip_max_tokens ip_max_continuations ip_max_total_completion_tokens
    ip_max_elapsed_time_ms ip_target_completion_tokens ip_completion_marker]; fold max_tokens.
  - done.
  - apply clamp_bounds. lia.
  - destruct (cp_target_completion_tokens configured) as [t|]; cbn; [|lia].
    pose proof (clamp_bounds t 1 16384 ltac:(lia)). lia.
  - apply clamp_bounds. lia.
  - intros t Hs. destruct (cp_target_completion_tokens configured) as [u|]; [|done].
    injection Hs as <-. cbn. pose proof (clamp_bounds u 1 16384 ltac:(lia)). lia.
  - done.
Qed.

Lemma finalize_bounded interaction p :
  policy_bounded 16384 p -> policy_bounded 24576 (finalize_resolved interaction p).
Proof.
  intros [Ht Hc Hm He Hg Hk]. unfold finalize_resolved. destruct (from_option _ _ _); split; cbn; try done; try lia;
    intros t Hs; specialize (Hg t Hs); lia.
Qed.

(** A resolved policy comes from a configured one or from the default. *)
Lemma resolved_from `{JsonLibrary} desired_state payload resolved :
  ResolvePolicy desired_state payload = Ok resolved ->
  exists configured, rp_policy resolved =
    finalize_resolved (ds_interaction desired_state) (NormalizeConfiguredPolicy configured).
Proof.
  unfold ResolvePolicy. destruct (LastUserMessageContent payload) as [message|]; [|done]. cbn [mbind result_bind].
  destruct (ds_interaction desired_state) as [interaction|].
  - destruct (configured_choice _ _ _) as [[p mode]|]; intros [= <-]; [by exists p|by eexists].
  - intros [= <-]. by eexists.
Qed.

(** A key with a hyphen is in no normalised text. *)
Lemma hyphen_never_found needle value :
  "-"%char ∈ needle -> contains needle (NormalizeInteractionText value) = false.
Proof.
  intros Hin. unfold contains. destruct (find needle (NormalizeInteractionText value)) as [i|] eqn:E; [|done].
  apply find_split in E. assert (H : "-"%char ∈ NormalizeInteractionText value)
    by (rewrite E; set_solver). apply list_elem_of_fmap in H as (c & Hc & _). revert Hc. unfold normalize_char.
  destruct (c ==? "-"%char) eqn:Ec; [done|]. intros Hc. exfalso. revert Ec Hc. clear.
  destruct c as [[] [] [] [] [] [] [] []]; vm_compute; congruence.
Qed.

(** Requests that name their scope with a hyphen are not recognised. *)
Example hyphenated_keywords_ignored :
  LooksLikeRepositoryAnalysisRequest "Do a repo-wide, cross-file review" = false /\
  LooksLikeRepositoryAnalysisRequest "Do a cross file review" = true /\
  LooksLikeLongFormTaskRequest "Write a long-form answer" = false.
Proof. vm_compute. done. Qed.

(** * Claims *)

(** C37. Whatever an operator configures and a user sends, the policy a conversation runs under is
    within the limits: 1 to 2048 tokens a segment, at most 8 continuations, a total between one
    segment and 24576 tokens that no target exceeds, 1 to 600 seconds; with thinking enabled there
    is room for it; and a marker is demanded exactly when a goal, a target or a long mode asks
    for one. *)
Theorem resolved_policy_bounded `{JsonLibrary} desired_state payload resolved :
  ResolvePolicy desired_state payload = Ok resolved ->
  let p := rp_policy resolved in
  policy_bounded 24576 p /\
  ip_thinking_enabled p = from_option ia_thinking_enabled false (ds_interaction desired_state) /\
  (ip_thinking_enabled p = true ->
     6 <= ip_max_continuations p /\ 8192 <= ip_max_total_completion_tokens p /\
     12 * ip_max_tokens p <= ip_max_total_completion_tokens p /\ 300000 <= ip_max_elapsed_time_ms p) /\
  (ip_require_completion_marker p = true <->
     ip_semantic_goal p <> [] \/ is_Some (ip_target_completion_tokens p) \/
     ip_response_mode p = "long" \/ ip_response_mode p = "very_long").
Proof.
  intros (configured & Hp)%resolved_from p. subst p. rewrite Hp. split_and!.
  - apply finalize_bounded, normalized_bounded.
  - unfold finalize_resolved. destruct (ds_interaction desired_state) as [i|]; cbn; [|done].
    by destruct (ia_thinking_enabled i).
  - unfold finalize_resolved. destruct (from_option _ _ _); cbn; [lia|done].
  - assert (Hm : ip_require_completion_marker (NormalizeConfiguredPolicy configured) = true <->
      ip_semantic_goal (NormalizeConfiguredPolicy configured) <> [] \/
      is_Some (ip_target_completion_tokens (NormalizeConfiguredPolicy configured)) \/
      ip_response_mode (NormalizeConfiguredPolicy configured) = "long" \/
      ip_response_mode (NormalizeConfiguredPolicy configured) = "very_long").
    { unfold NormalizeConfiguredPolicy. cbn [ip_require_completion_marker ip_semantic_goal
        ip_target_completion_tokens ip_response_mode].
      rewrite !orb_true_iff, !eqb_true, negb_true_iff.
      destruct (from_option (fun goal => TrimCopy (bytes goal)) [] _); destruct (cp_target_completion_tokens _);
        cbn; naive_solver. }
    unfold finalize_resolved. destruct (from_option _ _ _); exact Hm.
Qed.

Lemma resolved_policy_bounded_witness :
  exists resolved, ResolvePolicy (H := tree_json) DesiredState_default (JObject []) = Ok resolved /\
    policy_bounded 24576 (rp_policy resolved).
Proof.
  eexists. split; [vm_compute; reflexivity|].
  apply (resolved_policy_bounded (H := tree_json) DesiredState_default (JObject [])).
  vm_compute. reflexivity.
Defined.
