(* ===== verification/InteractionSession.v ===== *)
(** * Conversations of several segments

    [controller/src/interaction/interaction_service.cpp]: [InteractionSessionExecutor] and
    [InteractionStreamSessionExecutor].  A session asks the runtime of a plane for segments
    of an answer until a policy says that the answer is complete or that a limit is reached.
    The functions the executors are constructed with and that reach outside (the request, the
    clock, the events to the client) are parameters; the others are bound to the definitions
    [interaction_http_executor_factory.cpp] binds them to.  [W] is the outside world. *)

From S2P Require Import Prelude Binary64 Json Models Planner AssignmentStore InteractionText InteractionStream ModelAdapter InteractionPolicy.

(** ** Responses *)

Record InteractionUpstreamResponse := mkInteractionUpstreamResponse {
  ur_status_code : Z;
  ur_body : string;
  ur_headers : gmap string string;
}.

Definition FindHeaderValue (headers : gmap string string) (key : string) : option string :=
  value ← headers !! key; if str_empty value then None else Some value.
Definition ParseBoolHeader (headers : gmap string string) (key : string) (fallback : bool) : bool :=
  match FindHeaderValue headers key with
  | Some value => (value ==? "true") || (value ==? "1")
  | None => fallback
  end.
Definition ParseIntHeader (headers : gmap string string) (key : string) (fallback : Z) : Z :=
  match FindHeaderValue headers key with
  | Some value => match stoi value with Ok z => z | Throw _ => fallback end
  | None => fallback
  end.

(** The text of a segment; the cleaning loops have fuel enough ([sanitized_some] below). *)
Definition sanitized (value : string) : text := default [] (SanitizeInteractionText (bytes value)).
Definition ExtractInteractionText `{JsonLibrary} (payload : json) : result text :=
  match member payload "choices" with
  | Some (JArray (choice :: _)) =>
      match member choice "message" with
      | Some (JObject fields) =>
          content ← json_value get_string (JObject fields) "content" ""; Ok (sanitized content)
      | _ => content ← json_value get_string choice "text" ""; Ok (sanitized content)
      end
  | _ => Throw "upstream interaction response did not include choices"
  end.

Definition IsDuplicateContinuationSegment (segments : list InteractionSegmentSummary) (candidate_text : text)
    : bool :=
  match last segments with
  | None => false
  | Some previous =>
      let candidate := NormalizeDedupKey candidate_text in
      let previous := NormalizeDedupKey (sg_text previous) in
      negb (vec_empty candidate) && negb (vec_empty previous) && (previous ==? candidate)
  end.

(** ** Sessions *)

Record InteractionSessionResult := mkInteractionSessionResult {
  sr_session_id : string;
  sr_model : string;
  sr_content : text;
  sr_segments : list InteractionSegmentSummary;
  sr_total_prompt_tokens : Z;
  sr_total_completion_tokens : Z;
  sr_total_tokens : Z;
  sr_total_latency_ms : Z;
  sr_continuation_count : Z;
  sr_completion_status : string;
  sr_stop_reason : string;
  sr_final_finish_reason : string;
  sr_marker_seen : bool;
  sr_context_compression_enabled : bool;
  sr_context_compression_status : string;
  sr_dialog_estimate_before : Z;
  sr_dialog_estimate_after : Z;
  sr_context_compression_ratio : double;
  sr_webgateway_summary : json;
  sr_webgateway_policy : json;
}.
Definition InteractionSessionResult_default (session_id : string) : InteractionSessionResult :=
  mkInteractionSessionResult session_id "" [] [] 0 0 0 0 0 "in_progress" "" "stop" false false "none" 0 0
    (double_of_Z 1) (JObject []) (JObject []).

Definition stopped (completion_status stop_reason : string) (s : InteractionSessionResult)
    : InteractionSessionResult :=
  mkInteractionSessionResult (sr_session_id s) (sr_model s) (sr_content s) (sr_segments s)
    (sr_total_prompt_tokens s) (sr_total_completion_tokens s) (sr_total_tokens s) (sr_total_latency_ms s)
    (sr_continuation_count s) completion_status stop_reason (sr_final_finish_reason s) (sr_marker_seen s)
    (sr_context_compression_enabled s) (sr_context_compression_status s) (sr_dialog_estimate_before s)
    (sr_dialog_estimate_after s) (sr_context_compression_ratio s) (sr_webgateway_summary s)
    (sr_webgateway_policy s).
Definition continued (continuation_count : Z) (s : InteractionSessionResult) : InteractionSessionResult :=
  mkInteractionSessionResult (sr_session_id s) (sr_model s) (sr_content s) (sr_segments s)
    (sr_total_prompt_tokens s) (sr_total_completion_tokens s) (sr_total_tokens s) (sr_total_latency_ms s)
    continuation_count (sr_completion_status s) (sr_stop_reason s) (sr_final_finish_reason s) (sr_marker_seen s)
    (sr_context_compression_enabled s) (sr_context_compression_status s) (sr_dialog_estimate_before s)
    (sr_dialog_estimate_after s) (sr_context_compression_ratio s) (sr_webgateway_summary s)
    (sr_webgateway_policy s).

(** What a segment adds to a session. *)
Definition with_segment (model : string) (content : text) (summary : InteractionSegmentSummary)
    (total_latency_ms : Z) (compression_enabled : bool) (compression_status : string)
    (estimate_before estimate_after : Z) (ratio : double) (webgateway_summary webgateway_policy : json)
    (s : InteractionSessionResult) : InteractionSessionResult :=
  mkInteractionSessionResult (sr_session_id s) model (sr_content s ++ content) (sr_segments s ++ [summary])
    (int32_wrap (sr_total_prompt_tokens s + sg_prompt_tokens summary))
    (int32_wrap (sr_total_completion_tokens s + sg_completion_tokens summary))
    (int32_wrap (sr_total_tokens s + sg_total_tokens summary)) total_latency_ms
    (sr_continuation_count s) (sr_completion_status s) (sr_stop_reason s) (sg_finish_reason summary)
    (sr_marker_seen s || sg_marker_seen summary)
    compression_enabled compression_status estimate_before estimate_after ratio
    webgateway_summary webgateway_policy.

(** Why a session ends after a segment: status and reason. *)
Definition stop_after (policy : InteractionCompletionPolicy) (s : InteractionSessionResult)
    (summary : InteractionSegmentSummary) (segment_index : Z) : option (string * string) :=
  if sr_marker_seen s && SessionReachedTargetLength policy (sr_total_completion_tokens s)
  then Some ("completed", "semantic_completion_marker")
  else if CanCompleteOnNaturalStop policy summary then Some ("completed", "natural_stop")
  else if ShouldTreatLengthAsNaturalStop policy summary
  then Some ("completed", "length_but_short_natural_stop")
  else if ip_max_total_completion_tokens policy <=? sr_total_completion_tokens s
  then Some ("incomplete_due_to_limits", "max_total_completion_tokens_reached")
  else if ip_max_elapsed_time_ms policy <=? sr_total_latency_ms s
  then Some ("incomplete_due_to_limits", "max_elapsed_time_ms_reached")
  else if ip_max_continuations policy <=? segment_index
  then Some ("incomplete_due_to_limits", "max_continuations_reached")
  else None.

Definition resolve_status (s : InteractionSessionResult) : InteractionSessionResult :=
  if sr_completion_status s ==? "in_progress" then stopped "failed" "session_state_unresolved" s else s.

(** [static_cast<int>] of a duration in milliseconds, from two readings in nanoseconds. *)
Definition static_cast_int (z : Z) : Z := (z + 2 ^ 31) `mod` 2 ^ 32 - 2 ^ 31.
Definition elapsed_ms (start finish : Z) : Z := static_cast_int (Z.quot (finish - start) 1000000).

(** Fuel for the segments of a session. *)
Definition session_fuel (policy : InteractionCompletionPolicy) : nat := Z.to_nat (ip_max_continuations policy).

Section executor.
Context `{JsonLibrary} {W : Type}.
Context (now : W -> Z * W) (sleep_for : Z -> W -> W).
Context (build_interaction_upstream_body : json -> result string).
Context (send_interaction_request : string -> W -> result (InteractionUpstreamResponse * W)).
(** [std::stod], [None] when it throws *)
Context (stod : string -> option double).
Context (target_raw : string) (model_identity : ModelIdentity).

Definition ParseDoubleHeader (headers : gmap string string) (key : string) (fallback : double) : double :=
  match FindHeaderValue headers key with
  | Some value => default fallback (stod value)
  | None => fallback
  end.

(** [more] attempts may follow this one. *)
Fixpoint send_with_retries (more : nat) (attempt : Z) (current_payload : json)
    (prompt_build_ms upstream_request_ms : Z) (w : W)
    : result (InteractionUpstreamResponse * string * Z * Z * W) :=
  let '(prompt_build_started_at, w) := now w in
  upstream_body ← build_interaction_upstream_body current_payload;
  let '(prompt_build_finished_at, w) := now w in
  let prompt_build_ms := prompt_build_ms + elapsed_ms prompt_build_started_at prompt_build_finished_at in
  let '(upstream_request_started_at, w) := now w in
  sent ← send_interaction_request upstream_body w;
  let '(upstream, w) := sent in
  let '(upstream_request_finished_at, w) := now w in
  let upstream_request_ms :=
    upstream_request_ms + elapsed_ms upstream_request_started_at upstream_request_finished_at in
  let settled := Ok (upstream, upstream_body, prompt_build_ms, upstream_request_ms, w) in
  match more with
  | O => settled
  | S more =>
      if (ur_status_code upstream =? 200) || (ur_status_code upstream <? 500) then settled
      else send_with_retries more (attempt + 1) current_payload prompt_build_ms upstream_request_ms
             (sleep_for (250 * (attempt + 1)) w)
  end.

Definition request_failed (upstream : InteractionUpstreamResponse) (upstream_body : string) : string :=
  "upstream interaction request failed with status " +:+ to_string (ur_status_code upstream) +:+
  " target=" +:+ target_raw +:+ " request=" +:+
  (if (1024 <? length (bytes upstream_body))%nat
   then string_of_list (take 1024 (bytes upstream_body)) +:+ "...[truncated]" else upstream_body) +:+
  (if str_empty (ur_body upstream) then "" else ": " +:+ ur_body upstream).

(** One segment: the summary, the response and its payload, and when it finished. *)
Definition run_segment (policy : InteractionCompletionPolicy) (segment_index : Z) (current_payload : json) (w : W)
    : result (InteractionSegmentSummary * InteractionUpstreamResponse * json * Z * W) :=
  let '(segment_started_at, w) := now w in
  sent ← send_with_retries 2 0 current_payload 0 0 w;
  let '(upstream, upstream_body, prompt_build_ms, upstream_request_ms, w) := sent in
  if negb (ur_status_code upstream =? 200) then Throw (request_failed upstream upstream_body)
  else
    upstream_payload ← (if str_empty (ur_body upstream) then Ok (JObject []) else parse (ur_body upstream));
    let '(segment_finished_at, w) := now w in
    let segment_total_ms := elapsed_ms segment_started_at segment_finished_at in
    usage ← ExtractInteractionUsage upstream_payload;
    extracted ← ExtractInteractionText upstream_payload;
    let '(clean_text, marker_seen_in_segment) :=
      default ([], false)
        (RemoveCompletionMarkers (default [] (SanitizeVisibleText extracted model_identity))
           (ip_completion_marker policy)) in
    finish_reason ← ExtractInteractionFinishReason upstream_payload;
    prompt_tokens ← json_value get_int usage "prompt_tokens" 0;
    completion_tokens ← json_value get_int usage "completion_tokens" 0;
    total_tokens ← json_value get_int usage "total_tokens" 0;
    Ok (mkInteractionSegmentSummary segment_index segment_index clean_text finish_reason
          prompt_tokens completion_tokens total_tokens segment_total_ms prompt_build_ms upstream_request_ms
          (Z.max 0 (segment_total_ms - prompt_build_ms - upstream_request_ms)) 0 marker_seen_in_segment,
        upstream, upstream_payload, segment_finished_at, w).

Definition object_member (payload : json) (key : string) : option json :=
  value ← member payload key; if is_object value then Some value else None.

Definition add_segment (session_started_at : Z) (summary : InteractionSegmentSummary)
    (upstream : InteractionUpstreamResponse) (upstream_payload : json) (segment_finished_at : Z)
    (s : InteractionSessionResult) : result InteractionSessionResult :=
  model ← json_value get_string upstream_payload "model" (sr_model s);
  let headers := ur_headers upstream in
  let webgateway_summary :=
    match object_member upstream_payload "webgateway" with
    | Some value => value
    | None => default (sr_webgateway_summary s) (object_member upstream_payload "_naim_webgateway_context")
    end in
  Ok (with_segment model (sg_text summary) summary (elapsed_ms session_started_at segment_finished_at)
        (ParseBoolHeader headers "x-naim-context-compression-enabled" false)
        (default "none" (FindHeaderValue headers "x-naim-context-compression-status"))
        (ParseIntHeader headers "x-naim-dialog-estimate-before" 0)
        (ParseIntHeader headers "x-naim-dialog-estimate-after" 0)
        (ParseDoubleHeader headers "x-naim-context-compression-ratio" (double_of_Z 1))
        webgateway_summary
        (default (sr_webgateway_policy s) (object_member upstream_payload "_naim_webgateway_policy")) s).

(** The loop; [None] when the fuel runs out. *)
Fixpoint run_segments (fuel : nat) (policy : InteractionCompletionPolicy) (original_payload : json)
    (session_started_at segment_index : Z) (current_payload : json) (s : InteractionSessionResult) (w : W)
    : option (result (InteractionSessionResult * W)) :=
  match run_segment policy segment_index current_payload w with
  | Throw e => Some (Throw e)
  | Ok (summary, upstream, upstream_payload, segment_finished_at, w) =>
      if IsDuplicateContinuationSegment (sr_segments s) (sg_text summary)
      then Some (Ok (stopped "completed" "duplicate_continuation_segment" s, w))
      else
        match add_segment session_started_at summary upstream upstream_payload segment_finished_at s with
        | Throw e => Some (Throw e)
        | Ok s =>
            match stop_after policy s summary segment_index with
            | Some (status, reason) => Some (Ok (stopped status reason s, w))
            | None =>
                let s := continued (segment_index + 1) s in
                match ContinuationPayloadBuilder_Build original_payload (sr_content s) policy
                        (sg_finish_reason summary !=? "length") (sr_total_completion_tokens s) with
                | Throw e => Some (Throw e)
                | Ok next_payload =>
                    match fuel with
                    | O => None
                    | S fuel =>
                        run_segments fuel policy original_payload session_started_at (segment_index + 1)
                          next_payload s w
                    end
                end
            end
        end
  end.

Definition ExecuteSession (desired_state : DesiredState) (payload : json) (session_id : string) (w : W)
    : option (result (InteractionSessionResult * W)) :=
  match ResolvePolicy desired_state payload with
  | Throw e => Some (Throw e)
  | Ok resolved_policy =>
      let policy := rp_policy resolved_policy in
      let '(session_started_at, w) := now w in
      match run_segments (session_fuel policy) policy payload session_started_at 0 payload
              (InteractionSessionResult_default session_id) w with
      | Some (Ok (s, w)) => Some (Ok (resolve_status s, w))
      | other => other
      end
  end.
End executor.

(** * Lemmas *)

Lemma sanitized_some value : SanitizeInteractionText (bytes value) = Some (sanitized value).
Proof.
  unfold sanitized. destruct (SanitizeInteractionText (bytes value)) eqn:E; [done|]. exfalso. revert E.
  unfold SanitizeInteractionText, RemoveCompletionMarkers.
  destruct (remove_markers_spec (length (RemoveThinkBlocks (bytes value))) task_complete
    (RemoveThinkBlocks (bytes value)) false) as (out & -> & _); done.
Qed.

(** ** Cleaning brings back no marker *)

Section free.
Context (p : text).
Hypothesis p_word : Forall (fun c => is_space c = false) p.
Hypothesis p_some : p <> [].
Definition free (s : text) : Prop := ~ infix p s.

Lemma free_part q s : infix q s -> free s -> free q.
Proof. intros Hq Hs Hp. apply Hs. by apply (infix_trans p q). Qed.
Lemma free_nil : free [].
Proof. intros (a & b & H). by destruct a, p. Qed.
Lemma free_space l sep rest :
  Forall (fun c => is_space c = true) sep -> sep <> [] -> free l -> free rest -> free (l ++ sep ++ rest).
Proof.
  intros Hsep Hne. revert l. induction Hsep as [|c sep Hc Hsep IH]; intros l Hl Hr; [done|]. cbn.
  intros [H|H]%infix_split.
  - by apply Hl.
  - destruct sep as [|d sep]; [by apply Hr|]. by apply (IH ltac:(done) [] free_nil Hr).
  - intros Hin. rewrite Forall_forall in p_word. apply p_word in Hin. congruence.
Qed.
Lemma free_or_nothing (collapsed sep trimmed : text) :
  Forall (fun c => is_space c = true) sep -> sep <> [] -> free collapsed -> free trimmed ->
  free ((if vec_empty collapsed then [] else collapsed ++ sep) ++ trimmed).
Proof. intros. destruct collapsed; cbn [vec_empty]; [done|]. rewrite <-app_assoc. by apply free_space. Qed.

Lemma free_lines value : free value -> Forall free (getlines value).
Proof. intros Hv. apply Forall_forall. intros l Hl. apply (free_part l value); [|done]. by apply (infix_lines_from []). Qed.

(** Both splits into paragraphs, whatever they count as blank. *)
Lemma free_paragraph_fold (blank : text -> bool) lines acc :
  Forall free lines -> Forall free acc.1 -> free acc.2 ->
  let '(paragraphs, current) :=
    foldl (fun '(paragraphs, current) line =>
        if vec_empty (TrimCopy line)
        then if blank current then (paragraphs, current)
             else (paragraphs ++ [TrimCopy current], [])
        else (paragraphs, (if vec_empty current then [] else current ++ bytes newline) ++ line))
      acc lines in
  Forall free (if blank current then paragraphs else paragraphs ++ [TrimCopy current]).
Proof.
  intros H. revert acc. induction H as [|line lines Hl _ IH]; intros [paragraphs current] Hp Hc; cbn [fst snd] in *.
  - cbn. destruct (blank current); [done|]. apply Forall_app. split; [done|]. constructor; [|done].
    apply (free_part _ current); [apply infix_trim|done].
  - cbn [foldl]. destruct (vec_empty (TrimCopy line)); [destruct (blank current)|]; apply IH; cbn; try done.
    + apply Forall_app. split; [done|]. constructor; [|done].
      apply (free_part _ current); [apply infix_trim|done].
    + apply free_nil.
    + apply free_or_nothing; [by repeat constructor|done|done|done].
Qed.
Lemma free_paragraphs value : free value -> Forall free (SplitParagraphs value).
Proof.
  intros Hv. pose proof (free_paragraph_fold vec_empty _ ([], []) (free_lines _ Hv) (Forall_nil_2 _) free_nil) as H.
  unfold SplitParagraphs. by destruct (foldl _ _ _).
Qed.
Lemma free_paragraphs_local value : free value -> Forall free (SplitParagraphsLocal value).
Proof.
  intros Hv. pose proof (free_paragraph_fold (fun c => vec_empty (TrimCopy c)) _ ([], []) (free_lines _ Hv)
    (Forall_nil_2 _) free_nil) as H. unfold SplitParagraphsLocal. by destruct (foldl _ _ _).
Qed.

Lemma sentences_concat value acc :
  let '(units, current) :=
    foldl (fun '(units, current) ch =>
        let current := current ++ [ch] in
        if ends_sentence ch then (units ++ [current], []) else (units, current)) acc value in
  concat units ++ current = concat acc.1 ++ acc.2 ++ value.
Proof.
  revert acc. induction value as [|c value IH]; intros [units current]; cbn [fst snd].
  - cbn. by rewrite app_nil_r.
  - cbn [foldl]. cbn zeta. destruct (ends_sentence c).
    + specialize (IH (units ++ [current ++ [c]], [])). destruct (foldl _ _ _) as [u k]. rewrite IH. cbn.
      rewrite concat_app. cbn. by rewrite app_nil_r, <-!app_assoc.
    + specialize (IH (units, current ++ [c])). destruct (foldl _ _ _) as [u k]. rewrite IH. cbn.
      by rewrite <-!app_assoc.
Qed.
Lemma infix_concat (u : text) units : u ∈ units -> infix u (concat units).
Proof.
  intros (l & l' & ->)%list_elem_of_split. exists (concat l), (concat l'). rewrite concat_app. done.
Qed.
Lemma free_sentences value : free value -> Forall free (SplitSentenceLikeUnits value).
Proof.
  intros Hv. unfold SplitSentenceLikeUnits. pose proof (sentences_concat value ([], [])) as Hc.
  destruct (foldl _ _ _) as [units current]. cbn in Hc. rewrite <-Hc in Hv.
  assert (Hu : Forall free units).
  { apply Forall_forall. intros u Hu. apply (free_part u (concat units ++ current)); [|done].
    apply (infix_trans _ (concat units)); [by apply infix_concat|]. by exists [], current. }
  destruct (vec_empty current); [done|]. apply Forall_app. split; [done|]. constructor; [|done].
  apply (free_part current (concat units ++ current)); [|done]. exists (concat units), []. by rewrite app_nil_r.
Qed.

Lemma free_collapsed_units units sep acc :
  Forall (fun c => is_space c = true) sep -> sep <> [] -> Forall free units -> free acc.1 ->
  free (fst (foldl (fun '(collapsed, previous_key) unit =>
      let trimmed := TrimCopy unit in
      if vec_empty trimmed then (collapsed, previous_key)
      else
        let key := NormalizeDedupKey trimmed in
        if negb (vec_empty previous_key) && (key ==? previous_key) then (collapsed, previous_key)
        else ((if vec_empty collapsed then [] else collapsed ++ sep) ++ trimmed, key)) acc units)).
Proof.
  intros Hs Hne H. revert acc. induction H as [|u units Hu _ IH]; intros [collapsed key] Ha; [done|].
  cbn [foldl fst] in *. apply IH. cbn zeta. destruct (vec_empty (TrimCopy u)); [done|].
  destruct (negb (vec_empty key) && _); [done|]. apply free_or_nothing; [done|done|done|].
  apply (free_part _ u); [apply infix_trim|done].
Qed.
Lemma free_collapsed value : free value -> free (CollapseAdjacentDuplicates value).
Proof.
  intros Hv. unfold CollapseAdjacentDuplicates, CollapseAdjacentDuplicateUnits.
  destruct (1 <? length (SplitParagraphsLocal value))%nat.
  { apply free_collapsed_units; [by repeat constructor|done|by apply free_paragraphs_local|apply free_nil]. }
  destruct (1 <? length (SplitSentenceLikeUnits value))%nat; [|done].
  apply free_collapsed_units; [by repeat constructor|done|by apply free_sentences|apply free_nil].
Qed.
End free.

Lemma find_last_if_elem {A} (q : A -> bool) l x : find_last_if q l = Some x -> x ∈ l.
Proof.
  unfold find_last_if. assert (H : forall acc, foldl (fun acc x => if q x then Some x else acc) acc l = Some x ->
    acc = Some x \/ x ∈ l).
  { induction l as [|y l IH]; intros acc; cbn; [by left|]. intros [H|H]%IH; [|right; by right].
    destruct (q y); [injection H as ->; right; by left|by left]. }
  intros [|]%H; done.
Qed.
Lemma sanitized_no_marker value : find task_complete (sanitized value) = None.
Proof.
  pose proof (sanitized_some value) as Hs. unfold SanitizeInteractionText, RemoveCompletionMarkers in Hs.
  destruct (remove_markers_spec (length (RemoveThinkBlocks (bytes value))) task_complete
    (RemoveThinkBlocks (bytes value)) false) as (out & Ho & Hf); [done|done|].
  rewrite Ho in Hs. cbn [mbind option_bind fst] in Hs. injection Hs as <-.
  assert (Hw : Forall (fun c => is_space c = false) task_complete) by (by repeat constructor).
  apply find_None_infix in Hf; [|done]. apply find_None_infix; [done|].
  assert (Ht : free task_complete (TrimCopy out)) by (by apply (free_part _ _ out); [apply infix_trim|]).
  assert (Hc : free task_complete (TrimCopy (CollapseAdjacentDuplicates (TrimCopy out)))).
  { eapply free_part; [apply infix_trim|]. by apply free_collapsed. }
  destruct (StartsWithReasoningPreamble _); [|done].
  destruct (find_last_if answer_paragraph _) as [paragraph|] eqn:E; [|done]. cbn.
  apply (free_part _ _ paragraph); [apply infix_trim|].
  pose proof (free_paragraphs task_complete Hw ltac:(done) _ Ht) as Hp. rewrite Forall_forall in Hp. apply Hp.
  by apply find_last_if_elem in E.
Qed.

(** ** What a session amounts to *)

Definition total (f : InteractionSegmentSummary -> Z) (segments : list InteractionSegmentSummary) : Z :=
  foldr (fun segment sum => f segment + sum) 0 segments.
Lemma total_snoc f segments summary : total f (segments ++ [summary]) = total f segments + f summary.
Proof. unfold total. induction segments as [|x l IH]; cbn; lia. Qed.
#[local] Arguments total : simpl never.

Record session_accounts (s : InteractionSessionResult) : Prop := {
  sa_content : sr_content s = concat (sg_text <$> sr_segments s);
  sa_prompt : sr_total_prompt_tokens s = int32_wrap (total sg_prompt_tokens (sr_segments s));
  sa_completion : sr_total_completion_tokens s = int32_wrap (total sg_completion_tokens (sr_segments s));
  sa_total : sr_total_tokens s = int32_wrap (total sg_total_tokens (sr_segments s));
  sa_marker : sr_marker_seen s = existsb sg_marker_seen (sr_segments s);
  sa_index : forall i summary, sr_segments s !! i = Some summary -> sg_index summary = Z.of_nat i;
  sa_distinct : forall i, (0 < i < length (sr_segments s))%nat -> forall summary,
    sr_segments s !! i = Some summary ->
    IsDuplicateContinuationSegment (take i (sr_segments s)) (sg_text summary) = false;
}.

Lemma accounts_default session_id : session_accounts (InteractionSessionResult_default session_id).
Proof. by split. Qed.

Lemma accounts_with_segment s summary model latency ce cs b a r ws wp :
  session_accounts s -> sg_index summary = Z.of_nat (length (sr_segments s)) ->
  IsDuplicateContinuationSegment (sr_segments s) (sg_text summary) = false ->
  session_accounts (with_segment model (sg_text summary) summary latency ce cs b a r ws wp s).
Proof.
  intros [Hc Hp Hm Ht Hk Hi Hd] Hidx Hdup. split; cbn.
  - rewrite Hc, fmap_app, concat_app. cbn. by rewrite app_nil_r.
  - by rewrite total_snoc, Hp, int32_wrap_add.
  - by rewrite total_snoc, Hm, int32_wrap_add.
  - by rewrite total_snoc, Ht, int32_wrap_add.
  - rewrite Hk, existsb_app. cbn. by rewrite orb_false_r.
  - intros i x Hx. apply lookup_app_Some in Hx as [Hx|[Hle Hx]]; [by apply Hi|].
    apply list_lookup_singleton_Some in Hx as [Hz <-]. rewrite Hidx. lia.
  - intros i Hlt x Hx. rewrite length_app in Hlt. cbn in Hlt.
    apply lookup_app_Some in Hx as [Hx|[Hle Hx]].
    + pose proof (lookup_lt_Some _ _ _ Hx). rewrite take_app_le by lia. apply Hd; [lia|done].
    + apply list_lookup_singleton_Some in Hx as [Hz <-].
      replace i with (length (sr_segments s)) by lia. by rewrite take_app_length.
Qed.
Lemma accounts_stopped status reason s : session_accounts s -> session_accounts (stopped status reason s).
Proof. intros []. by split. Qed.
Lemma accounts_continued n s : session_accounts s -> session_accounts (continued n s).
Proof. intros []. by split. Qed.
#[local] Hint Resolve accounts_default accounts_with_segment accounts_stopped accounts_continued : core.

(** Every reason to stop is final. *)
Lemma stop_after_status policy s summary segment_index status reason :
  stop_after policy s summary segment_index = Some (status, reason) ->
  status = "completed" \/ status = "incomplete_due_to_limits".
Proof. unfold stop_after. repeat case_match; intros [= <- <-]; auto. Qed.
Lemma stop_after_last policy s summary segment_index :
  ip_max_continuations policy <= segment_index -> stop_after policy s summary segment_index <> None.
Proof.
  intros Hle. unfold stop_after. repeat case_match; try done. apply Z.leb_gt in H4. lia.
Qed.

(** How a session may have ended. *)
Definition ended_by (policy : InteractionCompletionPolicy) (s : InteractionSessionResult) : Prop :=
  exists summary, last (sr_segments s) = Some summary /\
    (stop_after policy s summary (Z.of_nat (length (sr_segments s)) - 1) =
       Some (sr_completion_status s, sr_stop_reason s) \/
     sr_completion_status s = "completed" /\ sr_stop_reason s = "duplicate_continuation_segment").

Section execution.
Context `{JsonLibrary} {W : Type} (now : W -> Z * W) (sleep_for : Z -> W -> W)
  (build : json -> result string) (send : string -> W -> result (InteractionUpstreamResponse * W))
  (stod : string -> option double) (target_raw : string) (identity : ModelIdentity).
Abbreviation run := (run_segments now sleep_for build send stod target_raw identity).

Lemma run_segment_ok policy segment_index payload w summary upstream upstream_payload t w' :
  run_segment now sleep_for build send target_raw identity policy segment_index payload w =
    Ok (summary, upstream, upstream_payload, t, w') ->
  sg_index summary = segment_index /\
  exists extracted, ExtractInteractionText upstream_payload = Ok extracted /\
    (sg_text summary, sg_marker_seen summary) =
    default ([], false) (RemoveCompletionMarkers (default [] (SanitizeVisibleText extracted identity))
                           (ip_completion_marker policy)).
Proof.
  unfold run_segment. destruct (now w) as [t0 w0].
  destruct (send_with_retries _ _ _ _ _ _ _ _ _ _) as [[[[[up body] pb] ur] w1]|]; [cbn [mbind result_bind]|done].
  destruct (negb _); [done|]. intros E. bind_inv. destruct (now w1) as [t1 w2]. bind_inv.
  destruct (default _ _) as [clean seen] eqn:Ed. bind_inv. simplify_eq. split; [done|].
  eexists. split; [done|]. by rewrite Ed.
Qed.

Lemma add_segment_shape t0 summary upstream upstream_payload t s s' :
  add_segment stod t0 summary upstream upstream_payload t s = Ok s' ->
  exists model latency ce cs b a r ws wp,
    s' = with_segment model (sg_text summary) summary latency ce cs b a r ws wp s.
Proof.
  unfold add_segment. destruct (json_value _ _ _ _) as [model|]; [|done]. intros [= <-].
  by do 9 eexists.
Qed.

(** One round: a throw, an end, or a longer session to go on with. *)
Lemma run_segments_spec (Q : InteractionSegmentSummary -> Prop) fuel policy original_payload t0 segment_index
    payload s w :
  (forall segment_index payload w summary upstream upstream_payload t w',
     run_segment now sleep_for build send target_raw identity policy segment_index payload w =
       Ok (summary, upstream, upstream_payload, t, w') -> Q summary) ->
  Forall Q (sr_segments s) ->
  session_accounts s -> Z.of_nat (length (sr_segments s)) = segment_index ->
  sr_continuation_count s = segment_index -> segment_index + Z.of_nat fuel = ip_max_continuations policy ->
  match run fuel policy original_payload t0 segment_index payload s w with
  | None => False
  | Some (Throw _) => True
  | Some (Ok (s', _)) =>
      session_accounts s' /\ Forall Q (sr_segments s') /\ ended_by policy s' /\
      Z.of_nat (length (sr_segments s')) <= ip_max_continuations policy + 1 /\
      sr_continuation_count s' <= ip_max_continuations policy
  end.
Proof.
  intros Hrun. revert segment_index payload s w.
  induction fuel as [|fuel IH]; intros segment_index payload s w Hq Ha Hl Hc Hf; cbn [run_segments];
    (destruct (run_segment _ _ _ _ _ _ _ _ _ _) as [[[[[summary up] up_payload] t] w']|e] eqn:Es; [|done]);
    pose proof (Hrun _ _ _ _ _ _ _ _ Es) as Hsum; apply run_segment_ok in Es as [Hidx _];
    (destruct (IsDuplicateContinuationSegment _ _) eqn:Ed;
      [cbn; split_and!; [auto|done| |lia|lia]; unfold IsDuplicateContinuationSegment in Ed;
       destruct (last (sr_segments s)) as [previous|] eqn:El; [|done];
       exists previous; split; [done|by right]|]);
    (destruct (add_segment _ _ _ _ _ _ _) as [s1|e] eqn:Es1; [|done]);
    apply add_segment_shape in Es1 as (model & latency & ce & cs & b & a & r & ws & wp & ->);
    set (s1 := with_segment _ _ _ _ _ _ _ _ _ _ _ _) in *;
    assert (Ha1 : session_accounts s1) by (apply accounts_with_segment; [done|lia|done]);
    assert (Hq1 : Forall Q (sr_segments s1))
      by (unfold s1; cbn; apply Forall_app; split; [done|by repeat constructor]);
    assert (Hl1 : Z.of_nat (length (sr_segments s1)) = segment_index + 1)
      by (unfold s1; cbn; rewrite length_app; cbn; lia);
    (destruct (stop_after policy s1 summary segment_index) as [[status reason]|] eqn:Est;
      [cbn [stopped sr_segments sr_continuation_count]; split_and!;
        [auto|done| |lia|unfold s1; cbn; lia]; exists summary; split; [apply last_snoc|];
       left; cbn [stopped sr_segments sr_completion_status sr_stop_reason];
       rewrite Hl1; replace (segment_index + 1 - 1) with segment_index by lia; exact Est|]).
  - exfalso. apply stop_after_last in Est; [done|lia].
  - destruct (ContinuationPayloadBuilder_Build _ _ _ _ _) as [next|]; [|done].
    apply IH; [done|auto|exact Hl1|done|lia].
Qed.

Lemma execute_spec (Q : InteractionSegmentSummary -> Prop) desired_state payload session_id w :
  (forall resolved, ResolvePolicy desired_state payload = Ok resolved ->
   forall segment_index payload w summary upstream upstream_payload t w',
     run_segment now sleep_for build send target_raw identity (rp_policy resolved) segment_index payload w =
       Ok (summary, upstream, upstream_payload, t, w') -> Q summary) ->
  match ExecuteSession now sleep_for build send stod target_raw identity desired_state payload session_id w with
  | None => False
  | Some (Throw _) => True
  | Some (Ok (s, _)) =>
      exists resolved, ResolvePolicy desired_state payload = Ok resolved /\
        session_accounts s /\ Forall Q (sr_segments s) /\ ended_by (rp_policy resolved) s /\
        Z.of_nat (length (sr_segments s)) <= ip_max_continuations (rp_policy resolved) + 1 /\
        sr_continuation_count s <= ip_max_continuations (rp_policy resolved)
  end.
Proof.
  intros Hrun. unfold ExecuteSession. destruct (ResolvePolicy desired_state payload) as [resolved|] eqn:Er; [|done].
  destruct (now w) as [t0 w0].
  pose proof (resolved_from _ _ _ Er) as [configured Hp].
  pose proof (finalize_bounded (ds_interaction desired_state) _ (normalized_bounded configured)) as Hb.
  rewrite <-Hp in Hb. destruct Hb as [_ Hc _ _ _ _].
  pose proof (run_segments_spec Q (session_fuel (rp_policy resolved)) (rp_policy resolved) payload t0 0 payload
    (InteractionSessionResult_default session_id) w0 (Hrun _ eq_refl) (Forall_nil_2 _)) as Hs.
  destruct (run _ _ _ _ _ _ _ _) as [[[s w1]|e]|];
    [|done|destruct Hs; [auto|done|done|unfold session_fuel; lia]].
  destruct Hs as (Ha & Hq & He & Hl & Hn); [auto|done|done|unfold session_fuel; lia|].
  exists resolved. split; [done|].
  replace (resolve_status s) with s; [done|]. unfold resolve_status.
  destruct (sr_completion_status s ==? "in_progress") eqn:E; [|done]. rewrite eqb_true in E.
  destruct He as (summary & _ & [Hst|[Hst _]]); [apply stop_after_status in Hst as [Hst|Hst]|];
    by rewrite Hst in E.
Qed.
End execution.

Lemma remove_markers_none value marker :
  find marker value = None -> RemoveCompletionMarkers value marker = Some (value, false).
Proof.
  intros Hf. unfold RemoveCompletionMarkers. destruct (length value); cbn [remove_markers]; by rewrite Hf.
Qed.

(** * Claims *)

(** C36. A session always ends: whatever the runtime answers, however the clock behaves and
    whatever is asked, at most nine segments are requested. *)
Theorem session_terminates `{JsonLibrary} {W} (now : W -> Z * W) sleep_for build send stod target_raw identity
    desired_state payload session_id w :
  ExecuteSession now sleep_for build send stod target_raw identity desired_state payload session_id w <> None.
Proof.
  pose proof (execute_spec now sleep_for build send stod target_raw identity (fun _ => True) desired_state payload
    session_id w ltac:(done)) as He. by destruct (ExecuteSession _ _ _ _ _ _ _ _ _ _ _).
Qed.

(** C21. A session that returns accounts for what it received: its content is the text of its
    segments in order, its token totals are their sums in 32-bit arithmetic (so the sums
    themselves when these are of type [int]), the segments are numbered, no segment repeats
    the one before it, their number is within the policy, and it ended for the reason it gives: a
    repeated segment, or a condition of the policy that its last segment meets; its status is
    never left open. *)
Theorem session_accounted `{JsonLibrary} {W} (now : W -> Z * W) sleep_for build send stod target_raw identity
    desired_state payload session_id w s w' :
  ExecuteSession now sleep_for build send stod target_raw identity desired_state payload session_id w =
    Some (Ok (s, w')) ->
  exists resolved, ResolvePolicy desired_state payload = Ok resolved /\
    session_accounts s /\
    1 <= Z.of_nat (length (sr_segments s)) <= ip_max_continuations (rp_policy resolved) + 1 /\
    sr_continuation_count s <= ip_max_continuations (rp_policy resolved) /\
    ended_by (rp_policy resolved) s /\
    (sr_completion_status s = "completed" \/ sr_completion_status s = "incomplete_due_to_limits").
Proof.
  pose proof (execute_spec now sleep_for build send stod target_raw identity (fun _ => True) desired_state payload
    session_id w ltac:(done)) as He. intros E. rewrite E in He.
  destruct He as (resolved & Hr & Ha & _ & Hend & Hl & Hc). exists resolved.
  pose proof Hend as (summary & Hlast & Hst). split_and!; try done.
  - apply last_Some in Hlast as [l ->]. rewrite length_app. cbn. lia.
  - destruct Hst as [Hst|[Hst _]]; [by apply stop_after_status in Hst|by left].
Qed.

(** The completion marker never ends a session with a model outside the adapted families:
    the text is cleaned of the marker before it is looked for, so that the marker is never
    reported, and under a policy that demands it a session is complete only when a segment
    repeats the one before. *)
Theorem session_marker_never_seen `{JsonLibrary} {W} (now : W -> Z * W) sleep_for build send stod target_raw
    identity desired_state payload session_id w s w' :
  DetectFamily identity = Generic ->
  ExecuteSession now sleep_for build send stod target_raw identity desired_state payload session_id w =
    Some (Ok (s, w')) ->
  sr_marker_seen s = false /\
  forall resolved, ResolvePolicy desired_state payload = Ok resolved ->
    ip_require_completion_marker (rp_policy resolved) = true ->
    sr_completion_status s = "incomplete_due_to_limits" \/
    sr_stop_reason s = "duplicate_continuation_segment".
Proof.
  intros Hg E.
  pose proof (execute_spec now sleep_for build send stod target_raw identity
    (fun summary => sg_marker_seen summary = false) desired_state payload session_id w) as He.
  rewrite E in He. destruct He as (resolved & Hr & Ha & Hq & (summary & Hlast & Hend) & _).
  { intros resolved Hr ???????? (_ & extracted & Hx & Hm)%run_segment_ok.
    apply resolved_from in Hr as [configured Hp].
    pose proof (pb_marker _ _ (finalize_bounded (ds_interaction desired_state) _ (normalized_bounded configured)))
      as Hk. rewrite <-Hp in Hk. rewrite Hk in Hm. unfold SanitizeVisibleText in Hm. rewrite Hg in Hm.
    assert (Hf : find task_complete extracted = None).
    { revert Hx. unfold ExtractInteractionText. repeat case_match; intros; bind_inv; try done;
        apply sanitized_no_marker. }
    change (default [] (Some extracted)) with extracted in Hm.
    rewrite remove_markers_none in Hm by done. by injection Hm. }
  assert (Hs : sr_marker_seen s = false).
  { rewrite (sa_marker _ Ha). apply not_true_iff_false. rewrite existsb_exists. intros (x & Hin & Hx).
    rewrite Forall_forall in Hq. rewrite Hq in Hx; [done|]. by apply list_elem_of_In. }
  split; [done|]. intros r Hr' Hreq. rewrite Hr in Hr'. injection Hr' as <-.
  destruct Hend as [Hend|[_ ?]]; [|by right]. left. revert Hend.
  unfold stop_after, CanCompleteOnNaturalStop, ShouldTreatLengthAsNaturalStop. rewrite Hs, Hreq. cbn.
  repeat case_match; intros [= Hst _]; congruence.
Qed.

(** ** Witnesses *)

(** A runtime that answers from a list. *)
Definition answer (content : string) : json := JObject [("choices", JArray [JObject [("text", JString content)]])].
Definition answer_from (answers : list json) : result (InteractionUpstreamResponse * list json) :=
  match answers with
  | [] => Throw "connection refused"
  | a :: rest =>
      body ← dump (JsonLibrary := tree_json) a;
      Ok (mkInteractionUpstreamResponse 200 body ∅, rest)
  end.
Definition demo_policy : CompletionPolicy := mkCompletionPolicy "normal" 512 (Some 100) 3 1536 180000 None.
Definition demo_settings : InteractionSettings :=
  mkInteractionSettings None None None false None None "en" [] false (Some demo_policy) None None None.
Definition demo_state : DesiredState :=
  let d := DesiredState_default in
  mkDesiredState "demo" (ds_plane_shared_disk_name d) (ds_control_root d) (ds_plane_mode d) (ds_protected_plane d)
    (ds_post_deploy_script d) (ds_placement_target d) (ds_bootstrap_model d) (Some demo_settings) (ds_skills d)
    (ds_browsing d) (ds_knowledge d) (ds_turboquant d) (ds_context_compression d) (ds_voice_listener d)
    (ds_voice_maker d) (ds_secured_connection d) (ds_app_host d) (ds_inference d) (ds_worker_group d)
    (ds_gateway d) (ds_runtime_gpu_nodes d) (ds_nodes d) (ds_disks d) (ds_instances d).
Definition run_demo (payload : json) (answers : list json) : option (result (InteractionSessionResult * list json)) :=
  ExecuteSession (H := tree_json) (fun w => (0, w)) (fun _ w => w) (fun _ => Ok "{}")
    (fun _ => answer_from) (fun _ => None) "demo:1" ModelIdentity_default demo_state payload "sess-1" answers.

Definition demo_answers : list json := [answer "ok[[TASK_COMPLETE]]"; answer "ok"].
Definition demo_result : InteractionSessionResult :=
  match run_demo (JObject []) demo_answers with
  | Some (Ok (s, _)) => s
  | _ => InteractionSessionResult_default ""
  end.

(** The first answer carries the marker; the session goes on until an answer repeats. *)
Example demo_session :
  sr_content demo_result = bytes "ok" /\ sr_marker_seen demo_result = false /\
  sr_stop_reason demo_result = "duplicate_continuation_segment".
Proof. vm_compute. done. Qed.

Lemma session_accounted_witness : session_accounts demo_result.
Proof.
  destruct (session_accounted (H := tree_json) (fun w => (0, w)) (fun _ w => w) (fun _ => Ok "{}")
    (fun _ => answer_from) (fun _ => None) "demo:1" ModelIdentity_default demo_state (JObject []) "sess-1"
    demo_answers demo_result []) as (resolved & _ & Ha & _); [vm_compute; reflexivity|exact Ha].
Defined.

Lemma session_marker_never_seen_witness : sr_marker_seen demo_result = false.
Proof.
  apply (session_marker_never_seen (H := tree_json) (fun w => (0, w)) (fun _ w => w) (fun _ => Ok "{}")
    (fun _ => answer_from) (fun _ => None) "demo:1" ModelIdentity_default demo_state (JObject []) "sess-1"
    demo_answers demo_result []); vm_compute; reflexivity.
Defined.
