(* ===== verification/InteractionContract.v ===== *)
(** * What the interaction endpoints accept and answer

    [controller/src/interaction/interaction_request_contract_support.cpp],
    [interaction_contract_responder.cpp], [interaction_model_identity_builder.cpp] and the
    request validator and the presenters of [interaction_service.cpp]: requests are checked
    and normalised, and sessions are presented as JSON.  Of a plane's resolution the fields
    that are read here are kept. *)

From S2P Require Import Prelude Binary64 Json Models Planner AssignmentStore RuntimeStatus InteractionText InteractionStream ModelAdapter InteractionPolicy InteractionSession.

(** ** Planes and requests *)

Record ControllerEndpointTarget := mkControllerEndpointTarget {
  et_raw : string;
  et_host : string;
  et_port : Z;
  et_base_path : string;
  et_node_name : string;
  et_route_via_hostd_proxy : bool;
  et_route_mode : string;
}.
Record PlaneInteractionResolution := mkPlaneInteractionResolution {
  pr_desired_state : DesiredState;
  pr_runtime_status : option RuntimeStatus;
  pr_target : option ControllerEndpointTarget;
  pr_status_payload : json;
}.
Record InteractionRequestContext := mkInteractionRequestContext {
  rq_request_id : string;
  rq_original_payload : json;
  rq_payload : json;
  rq_client_messages : json;
  rq_structured_output_json : bool;
  rq_normalized_model : string;
  rq_requested_session_id : option text;
}.
Definition InteractionRequestContext_default (request_id : string) : InteractionRequestContext :=
  mkInteractionRequestContext request_id (JObject []) (JObject []) (JArray []) false "" None.

Record InteractionValidationError := mkInteractionValidationError {
  ve_code : string;
  ve_message : string;
  ve_retryable : bool;
  ve_details : json;
}.
Record InteractionJsonResponseSpec := mkInteractionJsonResponseSpec {
  js_status_code : Z;
  js_payload : json;
}.

(** ** Reading requests *)

Definition unsupported_fields : list string := ["tools"; "tool_choice"; "functions"; "function_call"].
Definition PayloadContainsUnsupportedInteractionField (payload : json) : option string :=
  find_if (fun field => has_value (member payload field)) unsupported_fields.

Definition ParsePublicSessionId (payload : json) : result (option text) :=
  match member payload "session_id" with
  | None | Some JNull => Ok None
  | Some (JString s) =>
      let session_id := TrimCopy (bytes s) in
      if vec_empty session_id then Throw "session_id must not be empty" else Ok (Some session_id)
  | Some _ => Throw "session_id must be a string"
  end.

Definition ReadJsonStringOrEmpty (payload : json) (key : string) : string :=
  match member payload key with Some (JString s) => s | _ => "" end.

Definition array_or_empty (payload : json) (key : string) : json :=
  match member payload key with Some (JArray l) => JArray l | _ => JArray [] end.
Definition RequestAppliedSkills (rc : InteractionRequestContext) : json :=
  array_or_empty (rq_payload rc) "_naim_applied_skills".
Definition RequestAutoAppliedSkills (rc : InteractionRequestContext) : json :=
  array_or_empty (rq_payload rc) "_naim_auto_applied_skills".
Definition RequestSkillsSessionId (rc : InteractionRequestContext) : option string :=
  match member (rq_payload rc) "_naim_skills_session_id" with Some (JString s) => Some s | _ => None end.
Definition RequestSkillResolutionMode (rc : InteractionRequestContext) : string :=
  match member (rq_payload rc) "_naim_skill_resolution_mode" with Some (JString s) => s | _ => "none" end.

Definition DefaultBrowsingSummary : json :=
  JObject [("mode", JString "disabled"); ("mode_source", JString "default_off"); ("plane_enabled", JBool false);
    ("ready", JBool false); ("session_backend", JString "broker_fallback");
    ("rendered_browser_enabled", JBool true); ("rendered_browser_ready", JBool false);
    ("login_enabled", JBool false); ("toggle_only", JBool false); ("decision", JString "disabled");
    ("reason", JString "web_mode_disabled"); ("lookup_state", JString "disabled");
    ("lookup_attempted", JBool false); ("lookup_required", JBool false); ("evidence_attached", JBool false);
    ("searches", JArray []); ("sources", JArray []); ("errors", JArray []);
    ("indicator",
     JObject [("compact", JString "web:off"); ("label", JString "Web disabled"); ("active", JBool false);
       ("ready", JBool false); ("lookup_state", JString "disabled"); ("lookup_attempted", JBool false);
       ("session_backend", JString "broker_fallback"); ("rendered_browser_ready", JBool false);
       ("search_count", JInt 0); ("source_count", JInt 0); ("error_count", JInt 0)]);
    ("trace",
     JArray [JObject [("stage", JString "mode"); ("status", JString "off"); ("compact", JString "web:off")];
             JObject [("stage", JString "decision"); ("status", JString "disabled");
                      ("compact", JString "decide:disabled")]])].
Definition RequestBrowsingSummary (rc : InteractionRequestContext) : json :=
  match object_member (rq_payload rc) "_naim_webgateway_context" with
  | Some value => value
  | None => default DefaultBrowsingSummary (object_member (rq_payload rc) "_naim_browsing_summary")
  end.

Definition stream_prefix : text := bytes "/api/v1/planes/".
Definition stream_suffix : text := bytes "/interaction/chat/completions/stream".
Definition ends_with (suffix s : text) : bool := is_prefix (reverse suffix) (reverse s).
Definition ParseInteractionStreamPlaneName (request_method : string) (request_path : text) : option text :=
  if request_method !=? "POST" then None
  else if negb (is_prefix stream_prefix request_path) then None
  else if (length request_path <=? length stream_prefix + length stream_suffix)%nat then None
  else if negb (ends_with stream_suffix request_path) then None
  else Some (take (length request_path - length stream_prefix - length stream_suffix)
               (drop (length stream_prefix) request_path)).

(** ** Which model a plane serves *)

Definition ResolveInteractionServedModelName (r : PlaneInteractionResolution) : string :=
  match pr_runtime_status r with
  | Some status =>
      if str_empty (rst_active_served_model_name status)
      then ReadJsonStringOrEmpty (pr_status_payload r) "served_model_name"
      else rst_active_served_model_name status
  | None => ReadJsonStringOrEmpty (pr_status_payload r) "served_model_name"
  end.
Definition ResolveInteractionActiveModelId (r : PlaneInteractionResolution) : string :=
  match pr_runtime_status r with
  | Some status =>
      if str_empty (rst_active_model_id status)
      then ReadJsonStringOrEmpty (pr_status_payload r) "active_model_id"
      else rst_active_model_id status
  | None => ReadJsonStringOrEmpty (pr_status_payload r) "active_model_id"
  end.

Definition BuildRuntimePreferred (r : PlaneInteractionResolution) : ModelIdentity :=
  mkModelIdentity (ResolveInteractionActiveModelId r) (ResolveInteractionServedModelName r)
    (from_option rst_cached_local_model_path "" (pr_runtime_status r))
    (from_option rst_model_path "" (pr_runtime_status r))
    (from_option rst_active_runtime_profile "" (pr_runtime_status r)) [].
Definition first_nonempty (a b : string) : string := if str_empty a then b else a.
Definition BuildStatusPreferred (r : PlaneInteractionResolution) : ModelIdentity :=
  mkModelIdentity
    (first_nonempty (ReadJsonStringOrEmpty (pr_status_payload r) "active_model_id")
       (from_option rst_active_model_id "" (pr_runtime_status r)))
    (first_nonempty (ReadJsonStringOrEmpty (pr_status_payload r) "served_model_name")
       (from_option rst_active_served_model_name "" (pr_runtime_status r)))
    (from_option rst_cached_local_model_path "" (pr_runtime_status r))
    (from_option rst_model_path "" (pr_runtime_status r))
    (from_option rst_active_runtime_profile "" (pr_runtime_status r)) [].

(** ** Validation *)

Definition malformed (message field : string) : InteractionValidationError :=
  mkInteractionValidationError "malformed_request" message false (JObject [("field", JString field)]).

(** The error or the context the request leaves behind. *)
Abbreviation validated := (InteractionValidationError + InteractionRequestContext)%type.

Definition check_response_format `{JsonLibrary} (payload : json) : result (InteractionValidationError + bool) :=
  match member payload "response_format" with
  | None => Ok (inr false)
  | Some (JObject fields) =>
      response_format_type ← json_value get_string (JObject fields) "type" "";
      if response_format_type ==? "json_object" then Ok (inr true)
      else Ok (inl (mkInteractionValidationError "unsupported_response_format"
                      "only response_format.type=json_object is supported" false
                      (JObject [("field", JString "response_format"); ("supported_type", JString "json_object");
                                ("received_type", JString response_format_type)])))
  | Some _ => Ok (inl (malformed "response_format must be an object" "response_format"))
  end.

Definition check_model (payload : json) (served_model_name active_model_id : string)
    : option InteractionValidationError :=
  match member payload "model" with
  | None | Some JNull => None
  | Some (JString requested_model) =>
      let matches_served := negb (str_empty served_model_name) && (requested_model ==? served_model_name) in
      let matches_root := negb (str_empty active_model_id) && (requested_model ==? active_model_id) in
      if negb (str_empty requested_model) && negb matches_served && negb matches_root
      then Some (mkInteractionValidationError "model_mismatch"
                   "requested model does not match the active model for this plane" false
                   (JObject [("requested_model", JString requested_model);
                             ("served_model_name", JString served_model_name);
                             ("active_model_id", JString active_model_id)]))
      else None
  | Some _ => Some (malformed "model must be a string when provided" "model")
  end.


Definition ValidateAndNormalizeRequest `{JsonLibrary} (r : PlaneInteractionResolution) (original_payload : json)
    (request_id : string) : result validated :=
  if negb (is_object original_payload)
  then Ok (inl (mkInteractionValidationError "malformed_request" "interaction request body must be a JSON object"
                  false (JObject [])))
  else
  match PayloadContainsUnsupportedInteractionField original_payload with
  | Some field =>
      Ok (inl (mkInteractionValidationError "unsupported_field"
                 ("interaction request field '" +:+ field +:+ "' is not supported by naim-node") false
                 (JObject [("field", JString field)])))
  | None =>
  response_format ← check_response_format original_payload;
  match response_format with
  | inl error => Ok (inl error)
  | inr structured_output_json =>
  match member original_payload "messages" with
  | Some (JArray messages) =>
      match ParsePublicSessionId original_payload with
      | Throw message => Ok (inl (malformed message "session_id"))
      | Ok requested_session_id =>
          let served_model_name := ResolveInteractionServedModelName r in
          let active_model_id := ResolveInteractionActiveModelId r in
          match check_model original_payload served_model_name active_model_id with
          | Some error => Ok (inl error)
          | None =>
              let normalized_model := first_nonempty served_model_name active_model_id in
              let payload := if str_empty normalized_model then original_payload
                             else set_member "model" (JString normalized_model) original_payload in
              match member payload "auto_skills" with
              | Some (JBool _) =>
                  Ok (inr (mkInteractionRequestContext request_id original_payload payload (JArray messages)
                             structured_output_json normalized_model requested_session_id))
              | Some _ => Ok (inl (malformed "auto_skills must be a boolean" "auto_skills"))
              | None =>
                  Ok (inr (mkInteractionRequestContext request_id original_payload
                             (set_member "auto_skills" (JBool true) payload) (JArray messages)
                             structured_output_json normalized_model requested_session_id))
              end
          end
      end
  | _ => Ok (inl (malformed "chat completion request is missing messages array" "messages"))
  end end end.

(** The status of the response to a request that was refused. *)
Definition validation_status (error : InteractionValidationError) : Z :=
  if ve_code error ==? "model_mismatch" then 409 else 400.

(** ** Metadata and errors *)

Definition policy_member (key : string) (policy : option CompletionPolicy) (extra : list (string * json))
    : string * option json :=
  (key, (fun p => JObject ([("response_mode", JString (cp_response_mode p)); ("max_tokens", JInt (cp_max_tokens p))]
                           ++ extra)) <$> policy).
Definition transport_json (target : option ControllerEndpointTarget) : json :=
  match target with
  | None =>
      JObject [("protocol_id", JString "NAIM-RUNTIME-HTTP"); ("mode", JString "not_selected");
               ("supports_sse", JBool true); ("supports_direct_routing", JBool false); ("degraded", JBool false)]
  | Some t =>
      object
        [("protocol_id", Some (JString "NAIM-RUNTIME-HTTP"));
         ("mode", Some (JString (first_nonempty (et_route_mode t) "direct-runtime")));
         ("supports_sse", Some (JBool (negb (et_route_via_hostd_proxy t))));
         ("supports_direct_routing", Some (JBool (negb (et_route_via_hostd_proxy t))));
         ("degraded", Some (JBool false));
         ("target", Some (if str_empty (et_raw t) then JNull else JString (et_raw t)));
         ("supports_hostd_proxy", Some (JBool (et_route_via_hostd_proxy t)));
         ("node_name", if str_empty (et_node_name t) then None else Some (JString (et_node_name t)))]
  end.
Definition BuildInteractionContractMetadata `{JsonLibrary} (r : PlaneInteractionResolution) (request_id : string)
    (session_id : option string) (segment_count continuation_count : option Z) : result json :=
  plane_name ← json_value get_string (pr_status_payload r) "plane_name" "";
  reason ← json_value get_string (pr_status_payload r) "reason" "";
  let interaction := ds_interaction (pr_desired_state r) in
  Ok (object
    [("request_id", Some (JString request_id)); ("plane_name", Some (JString plane_name));
     ("served_model_name", Some (JString (ResolveInteractionServedModelName r)));
     ("active_model_id", Some (JString (ResolveInteractionActiveModelId r)));
     ("reason", Some (JString reason)); ("transport", Some (transport_json (pr_target r)));
     ("session_id", JString <$> session_id); ("segment_count", JInt <$> segment_count);
     ("continuation_count", JInt <$> continuation_count);
     policy_member "completion_policy" (interaction ≫= ia_completion_policy)
       [("thinking_enabled", JBool (from_option ia_thinking_enabled false interaction))];
     policy_member "long_completion_policy" (interaction ≫= ia_long_completion_policy) [];
     policy_member "analysis_completion_policy" (interaction ≫= ia_analysis_completion_policy) [];
     policy_member "analysis_long_completion_policy" (interaction ≫= ia_analysis_long_completion_policy) []]).

(** [details.empty()] *)
Definition json_empty (value : json) : bool :=
  match value with JNull | JArray [] | JObject [] => true | _ => false end.
Definition error_json (code message : string) (retryable : bool) (details : json) : json :=
  object [("code", Some (JString code)); ("message", Some (JString message)); ("retryable", Some (JBool retryable));
          ("details", if json_empty details then None else Some details)].
Definition optional_string (value : option string) : json := from_option JString JNull value.

Definition BuildStandaloneErrorPayload (request_id code message : string) (retryable : bool)
    (plane_name reason served_model_name active_model_id : option string) (details : json) : json :=
  JObject [("request_id", JString request_id); ("plane_name", optional_string plane_name);
           ("reason", optional_string reason); ("served_model_name", optional_string served_model_name);
           ("active_model_id", optional_string active_model_id);
           ("error", error_json code message retryable details);
           ("naim", JObject [("request_id", JString request_id); ("plane_name", optional_string plane_name);
                             ("served_model_name", optional_string served_model_name);
                             ("active_model_id", optional_string active_model_id)])].

Definition BuildPlaneErrorPayload `{JsonLibrary} (r : PlaneInteractionResolution) (request_id code message : string)
    (retryable : bool) (details : json) : result json :=
  payload ← json_put (pr_status_payload r) "request_id" (JString request_id);
  metadata ← BuildInteractionContractMetadata r request_id None None None;
  Ok (set_member "naim" metadata (set_member "error" (error_json code message retryable details) payload)).

(** ** Sessions *)

Definition usage_of (summary : InteractionSegmentSummary) : json :=
  usage_json (sg_prompt_tokens summary) (sg_completion_tokens summary) (sg_total_tokens summary).
Definition timing_of (summary : InteractionSegmentSummary) : json :=
  JObject [("prompt_build_ms", JInt (sg_prompt_build_ms summary));
           ("upstream_request_ms", JInt (sg_upstream_request_ms summary));
           ("response_parse_ms", JInt (sg_response_parse_ms summary));
           ("stream_first_delta_ms", JInt (sg_stream_first_delta_ms summary))].
Definition EffectiveSegmentUsage (s : InteractionSessionResult) : json :=
  match last (sr_segments s) with
  | Some summary => usage_of summary
  | None => usage_json (sr_total_prompt_tokens s) (sr_total_completion_tokens s) (sr_total_tokens s)
  end.
Definition segment_json (summary : InteractionSegmentSummary) : json :=
  JObject [("index", JInt (sg_index summary)); ("continuation_index", JInt (sg_continuation_index summary));
           ("finish_reason", JString (sg_finish_reason summary)); ("usage", usage_of summary);
           ("latency_ms", JInt (sg_latency_ms summary)); ("timing", timing_of summary);
           ("marker_seen", JBool (sg_marker_seen summary))].
(** The smallest positive delay until a first delta. *)
Definition first_delta_ms (segments : list InteractionSegmentSummary) : Z :=
  foldl (fun first summary =>
      if (first =? 0) || ((0 <? sg_stream_first_delta_ms summary) && (sg_stream_first_delta_ms summary <? first))
      then sg_stream_first_delta_ms summary else first) 0 segments.
Definition segment_count (s : InteractionSessionResult) : Z := static_cast_int (Z.of_nat (length (sr_segments s))).

Definition BuildSessionPayload (s : InteractionSessionResult) : json :=
  let upstream_latency_ms := total sg_latency_ms (sr_segments s) in
  JObject [("id", JString (sr_session_id s)); ("status", JString (sr_completion_status s));
    ("stop_reason", JString (sr_stop_reason s)); ("segment_count", JInt (segment_count s));
    ("continuation_count", JInt (sr_continuation_count s)); ("finish_reason", JString (sr_final_finish_reason s));
    ("usage", EffectiveSegmentUsage s);
    ("cumulative_usage", usage_json (sr_total_prompt_tokens s) (sr_total_completion_tokens s) (sr_total_tokens s));
    ("latency_ms", JInt (sr_total_latency_ms s));
    ("latency_breakdown",
     JObject [("runtime_routing_ms", JInt 0); ("upstream_generation_ms", JInt upstream_latency_ms);
       ("prompt_build_ms", JInt (total sg_prompt_build_ms (sr_segments s)));
       ("upstream_request_ms", JInt (total sg_upstream_request_ms (sr_segments s)));
       ("response_parse_ms", JInt (total sg_response_parse_ms (sr_segments s)));
       ("stream_first_delta_ms", JInt (first_delta_ms (sr_segments s)));
       ("controller_overhead_ms", JInt (Z.max 0 (sr_total_latency_ms s - upstream_latency_ms)));
       ("total_ms", JInt (sr_total_latency_ms s))]);
    ("marker_seen", JBool (sr_marker_seen s)); ("segments", JArray (segment_json <$> sr_segments s))].

Definition ParseStructuredOutputObject `{JsonLibrary} (content : text) : option json :=
  match parse (string_of_list content) with
  | Ok (JObject fields) => Some (JObject fields)
  | _ => None
  end.

(** The members of the request every presentation repeats. *)
Definition skills_session_json (rc : InteractionRequestContext) : json := optional_string (RequestSkillsSessionId rc).
Definition request_members (rc : InteractionRequestContext) (browsing_summary : json) : list (string * json) :=
  [("applied_skills", RequestAppliedSkills rc); ("auto_applied_skills", RequestAutoAppliedSkills rc);
   ("skill_resolution_mode", JString (RequestSkillResolutionMode rc)); ("webgateway", browsing_summary);
   ("skills_session_id", skills_session_json rc)].
Definition with_members (members : list (string * json)) (value : json) : json :=
  foldl (fun v kv => set_member kv.1 kv.2 v) value members.
Definition session_metadata `{JsonLibrary} (r : PlaneInteractionResolution) (request_id : string)
    (s : InteractionSessionResult) : result json :=
  BuildInteractionContractMetadata r request_id (Some (sr_session_id s)) (Some (segment_count s))
    (Some (sr_continuation_count s)).
Definition completion_choice (content : text) (finish_reason : string) : json :=
  JArray [JObject [("index", JInt 0); ("message", chat_message "assistant" content);
                   ("finish_reason", JString finish_reason)]].
Definition structured_output_json (parsed : json) : json :=
  JObject [("mode", JString "json_object"); ("valid", JBool true); ("json", parsed)].

Definition completion_json `{JsonLibrary} (r : PlaneInteractionResolution) (rc : InteractionRequestContext)
    (s : InteractionSessionResult) (session_payload browsing_summary : json) (finish_reason : string)
    (structured : list (string * json)) : result json :=
  metadata ← session_metadata r (rq_request_id rc) s;
  Ok (JObject ([("id", JString "chatcmpl-naim-session"); ("object", JString "chat.completion");
                ("request_id", JString (rq_request_id rc)); ("model", JString (sr_model s));
                ("choices", completion_choice (sr_content s) finish_reason);
                ("usage", EffectiveSegmentUsage s); ("session", session_payload)] ++
               request_members rc browsing_summary ++ [("naim", metadata)] ++ structured)).

Definition excerpt (content : text) : text :=
  if (512 <? length content)%nat then take 512 content ++ bytes "...[truncated]" else content.

Definition BuildResponseSpec `{JsonLibrary} (r : PlaneInteractionResolution) (rc : InteractionRequestContext)
    (s : InteractionSessionResult) : result InteractionJsonResponseSpec :=
  let browsing_summary :=
    if is_object (sr_webgateway_summary s) && negb (json_empty (sr_webgateway_summary s))
    then sr_webgateway_summary s else RequestBrowsingSummary rc in
  let session_payload := with_members (request_members rc browsing_summary) (BuildSessionPayload s) in
  let status_members :=
    [("completion_status", JString (sr_completion_status s)); ("stop_reason", JString (sr_stop_reason s))] in
  if rq_structured_output_json rc then
    if sr_completion_status s !=? "completed" then
      payload ← BuildPlaneErrorPayload r (rq_request_id rc) "structured_output_truncated"
        "structured output session ended before a valid JSON object was completed" true
        (JObject (status_members ++ [("session", session_payload)]));
      Ok (mkInteractionJsonResponseSpec 422 payload)
    else
      match ParseStructuredOutputObject (sr_content s) with
      | None =>
          payload ← BuildPlaneErrorPayload r (rq_request_id rc) "structured_output_malformed"
            "structured output session did not produce a valid JSON object" true
            (JObject (status_members ++
                      [("content_excerpt", JString (string_of_list (excerpt (sr_content s))));
                       ("session", session_payload)]));
          Ok (mkInteractionJsonResponseSpec 422 payload)
      | Some parsed =>
          payload ← completion_json r rc s session_payload browsing_summary "stop"
            [("structured_output", structured_output_json parsed)];
          Ok (mkInteractionJsonResponseSpec 200 payload)
      end
  else
    payload ← completion_json r rc s session_payload browsing_summary
      (if sr_completion_status s ==? "completed" then "stop" else "length") [];
    Ok (mkInteractionJsonResponseSpec 200 payload).

(** ** Events of a stream *)

Definition BuildSessionStartedEvent (request_id session_id plane_name : string) (r : PlaneInteractionResolution)
    (rc : InteractionRequestContext) : json :=
  JObject ([("request_id", JString request_id); ("session_id", JString session_id);
            ("plane_name", JString plane_name);
            ("served_model_name", JString (ResolveInteractionServedModelName r));
            ("active_model_id", JString (ResolveInteractionActiveModelId r))] ++
           request_members rc (RequestBrowsingSummary rc)).
Definition segment_members (request_id session_id : string) (segment_index : Z) : list (string * json) :=
  [("request_id", JString request_id); ("session_id", JString session_id);
   ("segment_index", JInt segment_index); ("continuation_index", JInt segment_index)].
Definition BuildSegmentStartedEvent (request_id session_id : string) (segment_index : Z) : json :=
  JObject (segment_members request_id session_id segment_index).
Definition BuildSegmentCompleteEvent (request_id session_id : string) (segment_index : Z)
    (summary : InteractionSegmentSummary) : json :=
  JObject (segment_members request_id session_id segment_index ++
           [("finish_reason", JString (sg_finish_reason summary)); ("usage", usage_of summary);
            ("latency_ms", JInt (sg_latency_ms summary)); ("timing", timing_of summary);
            ("marker_seen", JBool (sg_marker_seen summary))]).
Definition BuildContinuationStartedEvent (request_id session_id : string) (continuation_index : Z)
    (summary : InteractionSegmentSummary) : json :=
  JObject [("request_id", JString request_id); ("session_id", JString session_id);
           ("continuation_index", JInt continuation_index);
           ("reason", JString (if sg_finish_reason summary ==? "length" then "segment_hit_token_limit"
                               else "semantic_completion_not_confirmed"))].
Definition BuildSessionFailedEvent (request_id session_id code message : string) (retryable : bool)
    (s : InteractionSessionResult) (session_payload : option json) : json :=
  object [("request_id", Some (JString request_id)); ("session_id", Some (JString session_id));
          ("status", Some (JString "failed"));
          ("error", Some (error_json code message retryable JNull)); ("message", Some (JString message));
          ("segment_count", Some (JInt (segment_count s)));
          ("continuation_count", Some (JInt (sr_continuation_count s))); ("session", session_payload)].
Definition BuildErrorEvent (request_id code message : string) (retryable : bool) (plane_name : string) : json :=
  JObject [("request_id", JString request_id); ("error", error_json code message retryable JNull);
           ("message", JString message); ("plane_name", JString plane_name)].
Definition BuildSessionCompleteEvent `{JsonLibrary} (r : PlaneInteractionResolution) (request_id : string)
    (s : InteractionSessionResult) (session_payload : json) (rc : InteractionRequestContext) : result json :=
  metadata ← session_metadata r request_id s;
  Ok (JObject ([("request_id", JString request_id); ("session", session_payload)] ++
               request_members rc (RequestBrowsingSummary rc) ++ [("naim", metadata)])).
Definition BuildCompleteEvent `{JsonLibrary} (r : PlaneInteractionResolution) (request_id : string)
    (rc : InteractionRequestContext) (s : InteractionSessionResult) (session_payload : json)
    (parsed_structured_output : option json) : result json :=
  metadata ← session_metadata r request_id s;
  Ok (JObject ([("request_id", JString request_id); ("model", JString (sr_model s));
                ("finish_reason", JString (if sr_completion_status s ==? "completed" then "stop" else "length"));
                ("latency_ms", JInt (sr_total_latency_ms s)); ("usage", EffectiveSegmentUsage s);
                ("session", session_payload)] ++
               request_members rc (RequestBrowsingSummary rc) ++
               [("naim", metadata);
                ("structured_output",
                 if rq_structured_output_json rc
                 then structured_output_json (default (JObject []) parsed_structured_output) else JNull);
                ("completion_status", JString (sr_completion_status s)); ("stop_reason", JString (sr_stop_reason s));
                ("continuation_count", JInt (sr_continuation_count s)); ("segment_count", JInt (segment_count s))])).

(** * Lemmas *)

Lemma assoc_set key x fields key' :
  assoc key' (set_assoc key x fields) = if String.eqb key key' then Some x else assoc key' fields.
Proof.
  induction fields as [|[k v] l IH]; cbn; [done|]. destruct (String.eqb_spec k key) as [->|Hk]; cbn.
  - by destruct (String.eqb key key').
  - destruct (String.eqb_spec k key') as [->|]; [|done]. destruct (String.eqb_spec key key'); [congruence|done].
Qed.
Lemma member_set key x value key' :
  is_object value = true ->
  member (set_member key x value) key' = if String.eqb key key' then Some x else member value key'.
Proof. destruct value; try done. intros _. apply assoc_set. Qed.
Lemma set_is_object key x value : is_object value = true -> is_object (set_member key x value) = true.
Proof. by destruct value. Qed.

Lemma check_model_ok payload served active :
  check_model payload served active = None ->
  forall m, member payload "model" = Some (JString m) -> m = "" \/ m = served \/ m = active.
Proof.
  unfold check_model. intros Hc m Hm. rewrite Hm in Hc.
  destruct (negb (str_empty m) && _ && _) eqn:E; [done|].
  destruct (str_empty m) eqn:Em; [left; by destruct m|]. cbn in E.
  destruct (negb (str_empty served) && (m ==? served)) eqn:E1.
  { apply andb_true_iff in E1 as [_ E1]. rewrite eqb_true in E1. auto. }
  destruct (negb (str_empty active) && (m ==? active)) eqn:E2; [|done].
  apply andb_true_iff in E2 as [_ E2]. rewrite eqb_true in E2. auto.
Qed.

Lemma session_id_ok payload session_id :
  ParsePublicSessionId payload = Ok (Some session_id) -> session_id <> [] /\ TrimCopy session_id = session_id.
Proof.
  unfold ParsePublicSessionId. repeat case_match; intros [= <-]. split; [|apply trim_idem].
  intros E. unfold vec_empty in *. by rewrite E in *.
Qed.

(** * Claims *)

(** An accepted request is what the client sent, normalised and nothing else: it is an object
    with a message list and without unsupported fields; the model it names, if it names one, is the
    plane's; the payload that is passed on names the plane's model and a boolean [auto_skills] and
    agrees with the request on every other member; a JSON answer is promised exactly when the
    request's format says so, and a session id is trimmed and not empty. *)
Theorem accepted_request_normalized `{JsonLibrary} r original request_id rc :
  ValidateAndNormalizeRequest r original request_id = Ok (inr rc) ->
  is_object original = true /\ (forall field, field ∈ unsupported_fields -> member original field = None) /\
  member original "messages" = Some (rq_client_messages rc) /\ is_array (rq_client_messages rc) = true /\
  (forall m, member original "model" = Some (JString m) ->
     m = "" \/ m = ResolveInteractionServedModelName r \/ m = ResolveInteractionActiveModelId r) /\
  (rq_normalized_model rc <> "" -> member (rq_payload rc) "model" = Some (JString (rq_normalized_model rc))) /\
  (exists b, member (rq_payload rc) "auto_skills" = Some (JBool b)) /\
  (forall key, key <> "model" -> key <> "auto_skills" -> member (rq_payload rc) key = member original key) /\
  (rq_structured_output_json rc = true <->
     exists f, member original "response_format" = Some (JObject f) /\
               json_value get_string (JObject f) "type" "" = Ok "json_object") /\
  (forall session_id, rq_requested_session_id rc = Some session_id ->
     session_id <> [] /\ TrimCopy session_id = session_id).
Proof.
  unfold ValidateAndNormalizeRequest. destruct (is_object original) eqn:Eo; [cbn [negb]|done].
  destruct (PayloadContainsUnsupportedInteractionField original) eqn:Eu; [done|].
  destruct (check_response_format original) as [[err|structured]|] eqn:Ef; [done| |done]. cbn [mbind result_bind].
  destruct (member original "messages") as [[]|] eqn:Em; try done.
  destruct (ParsePublicSessionId original) as [sid|] eqn:Es; [|done].
  destruct (check_model _ _ _) eqn:Ec; [done|].
  set (model := first_nonempty _ _). set (payload := if str_empty model then _ else _).
  assert (Hp : is_object payload = true /\ (forall key, key <> "model" -> member payload key = member original key) /\
    (model <> "" -> member payload "model" = Some (JString model))).
  { unfold payload. destruct model; cbn [str_empty]; [done|]. split_and!; [by apply set_is_object| |].
    - intros key Hk. rewrite member_set by done. destruct (String.eqb_spec "model" key); congruence.
    - intros _. by rewrite member_set by done. }
  destruct Hp as (Hpo & Hpk & Hpm).
  assert (Hs : structured = true <-> exists f, member original "response_format" = Some (JObject f) /\
    json_value get_string (JObject f) "type" "" = Ok "json_object").
  { revert Ef. unfold check_response_format. destruct (member original "response_format") as [[]|]; try done.
    - destruct (json_value _ _ _ _) as [ty|] eqn:Et; [|done]. cbn [mbind result_bind].
      destruct (ty ==? "json_object") eqn:E; [|done]. rewrite eqb_true in E. subst ty. intros [= <-]. naive_solver.
    - intros [= <-]. naive_solver. }
  intros Hrc.
  assert (Hcore : exists auto, rc = mkInteractionRequestContext request_id original auto (JArray items) structured
    model sid /\ (exists b, member auto "auto_skills" = Some (JBool b)) /\
    (forall key, key <> "auto_skills" -> member auto key = member payload key)).
  { destruct (member payload "auto_skills") as [[]|] eqn:Ea; try done; injection Hrc as <-; eexists; split; try done.
    - split; [by eexists|done].
    - split; [exists true; by rewrite member_set by done|]. intros key Hk. rewrite member_set by done.
      destruct (String.eqb_spec "auto_skills" key); congruence. }
  destruct Hcore as (auto & -> & Hb & Hk). cbn. split_and!; try done.
  - intros field Hin. apply (proj1 (find_if_None _ _) Eu) in Hin. by destruct (member original field).
  - apply (check_model_ok _ _ _ Ec).
  - intros Hm. rewrite Hk by done. auto.
  - intros key Hm Ha. rewrite Hk, Hpk by done. done.
  - intros session_id ->. by apply session_id_ok in Es.
Qed.

Definition sample_request : json :=
  JObject [("messages", JArray [chat_message "user" (bytes "hi")]); ("session_id", JString " s1 ")].
Definition sample_resolution : PlaneInteractionResolution :=
  mkPlaneInteractionResolution DesiredState_default None None (JObject [("served_model_name", JString "demo")]).

Lemma accepted_request_normalized_witness :
  exists rc, ValidateAndNormalizeRequest (H := tree_json) sample_resolution sample_request "req-1" = Ok (inr rc) /\
    member (rq_payload rc) "model" = Some (JString "demo").
Proof.
  eexists. split; [reflexivity|].
  apply (accepted_request_normalized (H := tree_json) sample_resolution sample_request "req-1");
    [reflexivity|discriminate].
Defined.
