(* ===== verification/InteractionStreamSession.v ===== *)
(** * Streamed conversations

    [controller/src/interaction/interaction_service.cpp]: [InteractionStreamSegmentExecutor],
    which relays one segment of an answer from the runtime to the client as it arrives, and
    [InteractionStreamSessionExecutor], which strings segments together and reports on them.
    The code throws while it changes objects that its handlers read, so an action takes a
    state and returns it also when it throws. *)

From S2P Require Import Prelude Binary64 Json Models Planner AssignmentStore InteractionText InteractionStream ModelAdapter InteractionPolicy InteractionSession InteractionContract.

(** ** Actions *)

(** [None]: the action does not return. *)
Definition action (S A : Type) : Type := S -> option (S * result A).
#[export] Instance action_ret S : MRet (action S) := fun A a s => Some (s, Ok a).
#[export] Instance action_bind S : MBind (action S) := fun A B f m s =>
  match m s with
  | Some (s, Ok a) => f a s
  | Some (s, Throw e) => Some (s, Throw e)
  | None => None
  end.
Definition diverge {S A} : action S A := fun _ => None.
Definition throw {S A} (e : string) : action S A := fun s => Some (s, Throw e).
Definition lift {S A} (r : result A) : action S A := fun s => Some (s, r).
Definition get {S A} (f : S -> A) : action S A := fun s => Some (s, Ok (f s)).
Definition modify {S} (f : S -> S) : action S unit := fun s => Some (f s, Ok tt).
(** [try { m } catch (e) { handler }] *)
Definition catch {S A} (m : action S A) (handler : string -> action S A) : action S A := fun s =>
  match m s with Some (s, Throw e) => handler e s | done => done end.
Definition when {S} (b : bool) (m : action S unit) : action S unit := if b then m else mret tt.

(** [s.rfind(p)] *)
Fixpoint rfind (p s : text) : option nat :=
  match s with
  | [] => if is_prefix p s then Some 0%nat else None
  | _ :: s' =>
      match rfind p s' with
      | Some i => Some (S i)
      | None => if is_prefix p s then Some 0%nat else None
      end
  end.

(** ** One segment *)

Record StreamedInteractionSegmentResult := mkStreamedInteractionSegmentResult {
  ss_summary : InteractionSegmentSummary;
  ss_model : string;
  ss_cleaned_text : text;
  ss_context_compression_enabled : bool;
  ss_context_compression_status : string;
  ss_dialog_estimate_before : Z;
  ss_dialog_estimate_after : Z;
  ss_context_compression_ratio : double;
}.

Record InteractionStreamingUpstreamConnection := mkInteractionStreamingUpstreamConnection {
  sc_chunked_transfer : bool;
  sc_headers : gmap string string;
  sc_initial_body : text;
  sc_reads : list (result text);
}.

(** The fields of [result] and the locals of [Execute] that change. *)
Record SegmentState (W : Type) := mkSegmentState {
  gs_world : W;
  gs_model : string;
  gs_cleaned_text : text;
  gs_stream_first_delta_ms : Z;
  gs_prompt_build_ms : Z;
  gs_upstream_request_ms : Z;
  gs_filter_state : CompletionMarkerFilterState;
  gs_complete_payload : json;
  gs_saw_complete : bool;
  gs_openai_stream_raw_text : text;
  gs_openai_stream_emitted_text : text;
}.
Arguments mkSegmentState {W}.
Arguments gs_world {W}.
Arguments gs_model {W}.
Arguments gs_cleaned_text {W}.
Arguments gs_stream_first_delta_ms {W}.
Arguments gs_prompt_build_ms {W}.
Arguments gs_upstream_request_ms {W}.
Arguments gs_filter_state {W}.
Arguments gs_complete_payload {W}.
Arguments gs_saw_complete {W}.
Arguments gs_openai_stream_raw_text {W}.
Arguments gs_openai_stream_emitted_text {W}.

Section setters.
Context {W : Type}.
Implicit Type s : SegmentState W.
Definition set_world (w : W) s := mkSegmentState w (gs_model s) (gs_cleaned_text s) (gs_stream_first_delta_ms s)
  (gs_prompt_build_ms s) (gs_upstream_request_ms s) (gs_filter_state s) (gs_complete_payload s)
  (gs_saw_complete s) (gs_openai_stream_raw_text s) (gs_openai_stream_emitted_text s).
Definition set_model m s := mkSegmentState (gs_world s) m (gs_cleaned_text s) (gs_stream_first_delta_ms s)
  (gs_prompt_build_ms s) (gs_upstream_request_ms s) (gs_filter_state s) (gs_complete_payload s)
  (gs_saw_complete s) (gs_openai_stream_raw_text s) (gs_openai_stream_emitted_text s).
Definition set_cleaned t s := mkSegmentState (gs_world s) (gs_model s) t (gs_stream_first_delta_ms s)
  (gs_prompt_build_ms s) (gs_upstream_request_ms s) (gs_filter_state s) (gs_complete_payload s)
  (gs_saw_complete s) (gs_openai_stream_raw_text s) (gs_openai_stream_emitted_text s).
Definition set_first_delta z s := mkSegmentState (gs_world s) (gs_model s) (gs_cleaned_text s) z
  (gs_prompt_build_ms s) (gs_upstream_request_ms s) (gs_filter_state s) (gs_complete_payload s)
  (gs_saw_complete s) (gs_openai_stream_raw_text s) (gs_openai_stream_emitted_text s).
Definition add_timing prompt_ms upstream_ms s := mkSegmentState (gs_world s) (gs_model s) (gs_cleaned_text s)
  (gs_stream_first_delta_ms s) (gs_prompt_build_ms s + prompt_ms) (gs_upstream_request_ms s + upstream_ms)
  (gs_filter_state s) (gs_complete_payload s) (gs_saw_complete s) (gs_openai_stream_raw_text s)
  (gs_openai_stream_emitted_text s).
Definition set_filter f s := mkSegmentState (gs_world s) (gs_model s) (gs_cleaned_text s)
  (gs_stream_first_delta_ms s) (gs_prompt_build_ms s) (gs_upstream_request_ms s) f (gs_complete_payload s)
  (gs_saw_complete s) (gs_openai_stream_raw_text s) (gs_openai_stream_emitted_text s).
(** [complete_payload = payload; saw_complete = true] *)
Definition set_complete payload s := mkSegmentState (gs_world s) (gs_model s) (gs_cleaned_text s)
  (gs_stream_first_delta_ms s) (gs_prompt_build_ms s) (gs_upstream_request_ms s) (gs_filter_state s) payload
  true (gs_openai_stream_raw_text s) (gs_openai_stream_emitted_text s).
Definition add_raw t s := mkSegmentState (gs_world s) (gs_model s) (gs_cleaned_text s)
  (gs_stream_first_delta_ms s) (gs_prompt_build_ms s) (gs_upstream_request_ms s) (gs_filter_state s)
  (gs_complete_payload s) (gs_saw_complete s) (gs_openai_stream_raw_text s ++ t) (gs_openai_stream_emitted_text s).
Definition set_emitted t s := mkSegmentState (gs_world s) (gs_model s) (gs_cleaned_text s)
  (gs_stream_first_delta_ms s) (gs_prompt_build_ms s) (gs_upstream_request_ms s) (gs_filter_state s)
  (gs_complete_payload s) (gs_saw_complete s) (gs_openai_stream_raw_text s) t.
End setters.

Definition completion_payload (model finish_reason : string) (usage : json) : json :=
  JObject [("model", JString model); ("finish_reason", JString finish_reason); ("usage", usage)].

(** The text of a delta: a string, or the texts of an array of parts. *)
Definition delta_text_of (choice : json) : text :=
  match member choice "delta" with
  | Some (JObject fields) =>
      match assoc "content" fields with
      | Some (JString s) => bytes s
      | Some (JArray parts) =>
          concat (omap (fun part => match member part "text" with Some (JString s) => Some (bytes s) | _ => None end)
                    parts)
      | _ => []
      end
  | _ => []
  end.

Section segment.
Context `{JsonLibrary} {W : Type}.
Context (now : W -> Z * W).
Context (build_interaction_upstream_body : json -> bool -> result string).
Context (open_streaming_request : string -> W -> W * result InteractionStreamingUpstreamConnection).
Context (close_connection : W -> W).
Context (send_fallback_request : string -> W -> W * result InteractionUpstreamResponse).
Context (send_delta : string -> text -> W -> W * result bool).
Context (stod : string -> option double).
Context (policy : InteractionCompletionPolicy) (model_identity : ModelIdentity) (route_via_hostd_proxy : bool).

Abbreviation M := (action (SegmentState W)).

Definition with_world {A} (f : W -> W * result A) : M A := fun s =>
  let '(w, r) := f (gs_world s) in Some (set_world w s, r).
Definition clock : M Z := with_world (fun w => let '(t, w) := now w in (w, Ok t)).

Definition mark_first_delta (segment_started_at : Z) : M unit :=
  first ← get gs_stream_first_delta_ms;
  when (first =? 0) (t ← clock; modify (set_first_delta (elapsed_ms segment_started_at t))).

(** Sends a delta on and throws when the client is gone; writing the frame may throw. *)
Definition forward (failure model_name : string) (delta : text) : M unit :=
  sent ← with_world (send_delta model_name delta);
  if sent : bool then mret tt else throw failure.

(** [None]: nothing is shown yet. *)
Definition visible_part (raw : text) (final_flush : bool) : option text :=
  match rfind think_close raw with
  | Some close => Some (drop (close + length think_close) raw)
  | None =>
      if negb final_flush && (contains think_open raw || StartsWithReasoningPreamble (TrimCopy raw))
      then None else Some raw
  end.

Definition emit_openai_stream_progress (segment_started_at : Z) (model_name : string) (final_flush : bool) : M unit :=
  raw ← get gs_openai_stream_raw_text;
  match visible_part raw final_flush with
  | None => mret tt
  | Some visible =>
      let '(visible, marker_seen) := default ([], false) (RemoveCompletionMarkers visible (ip_completion_marker policy)) in
      state ← get gs_filter_state;
      modify (set_filter (mkCompletionMarkerFilterState (fs_pending state) (fs_marker_seen state || marker_seen)));;
      let visible := default [] (SanitizeInteractionText visible) in
      let visible := default [] (SanitizeVisibleText visible model_identity) in
      emitted ← get gs_openai_stream_emitted_text;
      let delta := drop (length emitted) visible in
      if vec_empty visible then mret tt
      else if negb (is_prefix emitted visible) && (negb final_flush || negb (vec_empty emitted)) then mret tt
      else if vec_empty delta then mret tt
      else
        modify (set_emitted visible);;
        cleaned ← get gs_cleaned_text;
        modify (set_cleaned (cleaned ++ delta));;
        mark_first_delta segment_started_at;;
        forward "failed to write downstream delta" model_name delta
  end.

Definition no_usage : json := usage_json 0 0 0.

(** What a frame does; [false] after the end of the stream. *)
Definition handle_message (segment_started_at : Z) (data : text) : M unit :=
  chunk_payload ← lift (parse (string_of_list data));
  model ← get gs_model;
  when (str_empty model)
    (model ← lift (json_value get_string chunk_payload "model" ""); modify (set_model model));;
  match member chunk_payload "choices" with
  | Some (JArray (choice :: _)) =>
      modify (add_raw (delta_text_of choice));;
      chunk_model ← lift (json_value get_string chunk_payload "model" "");
      emit_openai_stream_progress segment_started_at chunk_model false;;
      match member choice "finish_reason" with
      | None | Some JNull => mret tt
      | Some _ =>
          emit_openai_stream_progress segment_started_at chunk_model true;;
          finish_reason ← lift (json_value get_string choice "finish_reason" "stop");
          usage ← lift (ExtractInteractionUsage chunk_payload);
          modify (set_complete (completion_payload chunk_model finish_reason usage))
      end
  | _ => mret tt
  end.

Definition handle_delta (segment_started_at : Z) (data : text) : M unit :=
  delta_payload ← lift (parse (string_of_list data));
  delta ← lift (json_value get_string delta_payload "delta" "");
  state ← get gs_filter_state;
  let '(filtered, state) :=
    default ([], state)
      (ConsumeCompletionMarkerFilteredChunk state (bytes delta) (ip_completion_marker policy) false) in
  modify (set_filter state);;
  if vec_empty filtered then mret tt
  else
    cleaned ← get gs_cleaned_text;
    modify (set_cleaned (cleaned ++ filtered));;
    mark_first_delta segment_started_at;;
    model ← lift (json_value get_string delta_payload "model" "");
    forward "failed to write downstream delta" model filtered.

Definition handle_frame (segment_started_at : Z) (frame : InteractionSseFrame) : M bool :=
  if sse_data frame ==? bytes "[DONE]" then
    model ← get gs_model;
    emit_openai_stream_progress segment_started_at model true;;
    saw_complete ← get gs_saw_complete;
    when (negb saw_complete) (modify (set_complete (completion_payload model "stop" no_usage)));;
    mret false
  else if sse_event_name frame ==? bytes "message" then
    (if vec_empty (sse_data frame) then mret tt else handle_message segment_started_at (sse_data frame));;
    mret true
  else if sse_event_name frame ==? bytes "delta" then
    (if vec_empty (sse_data frame) then mret tt else handle_delta segment_started_at (sse_data frame));;
    mret true
  else if sse_event_name frame ==? bytes "complete" then
    payload ← lift (parse (string_of_list (sse_data frame)));
    modify (set_complete payload);;
    mret true
  else if sse_event_name frame ==? bytes "error" then
    error_payload ← lift (parse (string_of_list (sse_data frame)));
    message ← lift (json_value get_string error_payload "message" "upstream stream error");
    throw message
  else mret true.

(** *** The fallback request *)

Definition summary_of (segment_index : Z) (latency_ms : Z) (finish_reason : string) (usage : json) (marker_seen : bool)
    : M InteractionSegmentSummary :=
  prompt_tokens ← lift (json_value get_int usage "prompt_tokens" 0);
  completion_tokens ← lift (json_value get_int usage "completion_tokens" 0);
  total_tokens ← lift (json_value get_int usage "total_tokens" 0);
  cleaned ← get gs_cleaned_text;
  prompt_build_ms ← get gs_prompt_build_ms;
  upstream_request_ms ← get gs_upstream_request_ms;
  first_delta_ms ← get gs_stream_first_delta_ms;
  mret (mkInteractionSegmentSummary segment_index segment_index cleaned finish_reason prompt_tokens
          completion_tokens total_tokens latency_ms prompt_build_ms upstream_request_ms
          (Z.max 0 (latency_ms - prompt_build_ms - upstream_request_ms)) first_delta_ms marker_seen).

Definition segment_result (summary : InteractionSegmentSummary) (headers : gmap string string)
    : M StreamedInteractionSegmentResult :=
  model ← get gs_model;
  cleaned ← get gs_cleaned_text;
  mret (mkStreamedInteractionSegmentResult summary model cleaned
          (ParseBoolHeader headers "x-naim-context-compression-enabled" false)
          (default "none" (FindHeaderValue headers "x-naim-context-compression-status"))
          (ParseIntHeader headers "x-naim-dialog-estimate-before" 0)
          (ParseIntHeader headers "x-naim-dialog-estimate-after" 0)
          (ParseDoubleHeader stod headers "x-naim-context-compression-ratio" (double_of_Z 1))).

Definition flush_fallback_response (segment_started_at segment_index : Z) (fallback_payload : json)
    : M InteractionSegmentSummary :=
  extracted ← lift (ExtractInteractionText fallback_payload);
  let '(fallback_text, marker_seen_in_fallback) :=
    default ([], false)
      (RemoveCompletionMarkers (default [] (SanitizeVisibleText extracted model_identity))
         (ip_completion_marker policy)) in
  (if vec_empty fallback_text then mret tt
   else
     model ← lift (json_value get_string fallback_payload "model" "");
     forward "failed to write downstream fallback delta" model fallback_text;;
     modify (set_cleaned fallback_text));;
  usage ← lift (ExtractInteractionUsage fallback_payload);
  segment_finished_at ← clock;
  finish_reason ← lift (ExtractInteractionFinishReason fallback_payload);
  summary ← summary_of segment_index (elapsed_ms segment_started_at segment_finished_at) finish_reason usage
              marker_seen_in_fallback;
  model ← get gs_model;
  when (str_empty model)
    (model ← lift (json_value get_string fallback_payload "model" ""); modify (set_model model));;
  mret summary.

(** Runs a step and adds the time it took. *)
Definition timed {A} (add : Z -> SegmentState W -> SegmentState W) (m : M A) : M A :=
  started_at ← clock;
  a ← m;
  finished_at ← clock;
  modify (add (elapsed_ms started_at finished_at));;
  mret a.

Definition run_non_stream_fallback (segment_started_at segment_index : Z) (payload : json)
    : M (option StreamedInteractionSegmentResult) :=
  fallback_body ← timed (fun ms => add_timing ms 0) (lift (build_interaction_upstream_body payload false));
  fallback ← timed (fun ms => add_timing 0 ms) (with_world (send_fallback_request fallback_body));
  if negb (ur_status_code fallback =? 200) || str_empty (ur_body fallback) then mret None
  else
    fallback_payload ← lift (parse (ur_body fallback));
    summary ← flush_fallback_response segment_started_at segment_index fallback_payload;
    result ← segment_result summary (ur_headers fallback);
    mret (Some result).

(** *** The stream *)

(** Reads the connection to its end. *)
Definition relay (segment_started_at : Z) (stream : InteractionStreamingUpstreamConnection) : M unit := fun s =>
  match receive_stream
          (fun s frame => default (s, Throw "") (handle_frame segment_started_at frame s)) gs_saw_complete
          (sc_chunked_transfer stream) (sc_initial_body stream) (sc_reads stream) s with
  | None => None
  | Some (s, Ok _) => Some (s, Ok tt)
  | Some (s, Throw e) => Some (s, Throw e)
  end.

Definition flush_filter (segment_started_at : Z) : M unit :=
  state ← get gs_filter_state;
  let '(final_filtered, state) :=
    default ([], state) (ConsumeCompletionMarkerFilteredChunk state [] (ip_completion_marker policy) true) in
  modify (set_filter state);;
  if vec_empty final_filtered then mret tt
  else
    cleaned ← get gs_cleaned_text;
    modify (set_cleaned (cleaned ++ final_filtered));;
    mark_first_delta segment_started_at;;
    forward "failed to flush downstream delta" "" final_filtered.

(** The end of a stream: what is missing is asked for again or made up. *)
Definition finish_segment (segment_started_at segment_index : Z) (payload : json)
    (stream : InteractionStreamingUpstreamConnection) : M StreamedInteractionSegmentResult :=
  saw_complete ← get gs_saw_complete;
  cleaned ← get gs_cleaned_text;
  fallback ← (if negb saw_complete && IsBlank cleaned
              then run_non_stream_fallback segment_started_at segment_index payload else mret None);
  match fallback with
  | Some result => mret result
  | None =>
      cleaned ← get gs_cleaned_text;
      model ← get gs_model;
      when (negb saw_complete && negb (IsBlank cleaned))
        (modify (set_complete (completion_payload model "length" no_usage)));;
      saw_complete ← get gs_saw_complete;
      if negb saw_complete then throw "upstream interaction stream ended without completion event"
      else
        complete_payload ← get gs_complete_payload;
        segment_finished_at ← clock;
        usage ← lift (json_value get_json complete_payload "usage" (JObject []));
        finish_reason ← lift (json_value get_string complete_payload "finish_reason" "stop");
        latency_ms ← lift (json_value get_int complete_payload "latency_ms"
                             (elapsed_ms segment_started_at segment_finished_at));
        state ← get gs_filter_state;
        summary ← summary_of segment_index latency_ms finish_reason usage (fs_marker_seen state);
        model ← get gs_model;
        when (str_empty model)
          (model ← lift (json_value get_string complete_payload "model" ""); modify (set_model model));;
        segment_result summary (sc_headers stream)
  end.

Definition close_stream : M unit := with_world (fun w => (close_connection w, Ok tt)).

Definition stream_once (segment_started_at segment_index : Z) (payload : json) : M StreamedInteractionSegmentResult :=
  upstream_body ← timed (fun ms => add_timing ms 0) (lift (build_interaction_upstream_body payload true));
  stream ← timed (fun ms => add_timing 0 ms) (with_world (open_streaming_request upstream_body));
  catch (relay segment_started_at stream;;
         flush_filter segment_started_at;;
         result ← finish_segment segment_started_at segment_index payload stream;
         close_stream;;
         mret result)
        (fun e => close_stream;; throw e).

Definition ExecuteSegment (payload : json) (segment_index : Z) : M StreamedInteractionSegmentResult :=
  segment_started_at ← clock;
  if route_via_hostd_proxy then
    fallback ← run_non_stream_fallback segment_started_at segment_index payload;
    match fallback with
    | Some result => mret result
    | None => throw "hostd runtime proxy interaction request failed"
    end
  else
    catch (stream_once segment_started_at segment_index payload)
      (fun e =>
         cleaned ← get gs_cleaned_text;
         if IsBlank cleaned then
           fallback ← catch (run_non_stream_fallback segment_started_at segment_index payload)
                        (fun _ => mret None);
           match fallback with Some result => mret result | None => throw e end
         else throw e).

(** A segment on its own: the state starts empty. *)
Definition execute_streamed_segment (payload : json) (segment_index : Z) (w : W)
    : option (W * result StreamedInteractionSegmentResult) :=
  match ExecuteSegment payload segment_index
          (mkSegmentState w "" [] 0 0 0 CompletionMarkerFilterState_default (JObject []) false [] []) with
  | Some (s, r) => Some (gs_world s, r)
  | None => None
  end.
End segment.

(** ** A session of segments *)

Record SessionState (W : Type) := mkSessionState { st_world : W; st_session : InteractionSessionResult }.
Arguments mkSessionState {W}.
Arguments st_world {W}.
Arguments st_session {W}.

Definition add_streamed_segment (segment : StreamedInteractionSegmentResult) (total_latency_ms : Z)
    (s : InteractionSessionResult) : InteractionSessionResult :=
  with_segment (if str_empty (sr_model s) && negb (str_empty (ss_model segment)) then ss_model segment else sr_model s)
    (ss_cleaned_text segment) (ss_summary segment) total_latency_ms
    (ss_context_compression_enabled segment) (ss_context_compression_status segment)
    (ss_dialog_estimate_before segment) (ss_dialog_estimate_after segment) (ss_context_compression_ratio segment)
    (sr_webgateway_summary s) (sr_webgateway_policy s) s.

Section session.
Context `{JsonLibrary} {W : Type}.
Context (now : W -> Z * W).
(** The socket of the client; the answer is whether everything was written. *)
Context (send_all : text -> W -> W * bool).
Context (execute_segment : json -> Z -> W -> option (W * result StreamedInteractionSegmentResult)).
Context (request_id plane_name : string) (resolution : PlaneInteractionResolution)
  (request_context : InteractionRequestContext) (policy : InteractionCompletionPolicy).

Abbreviation M := (action (SessionState W)).

Definition on_world {A} (f : W -> W * result A) : M A := fun s =>
  let '(w, r) := f (st_world s) in Some (mkSessionState w (st_session s), r).
Definition on_session (f : InteractionSessionResult -> InteractionSessionResult) : M unit :=
  modify (fun s => mkSessionState (st_world s) (f (st_session s))).
Definition session_clock : M Z := on_world (fun w => let '(t, w) := now w in (w, Ok t)).
(** [send_event]: an event that cannot be serialised throws before anything is written. *)
Definition send (name : string) (payload : json) : M bool :=
  frame ← lift (BuildEventFrame name payload);
  on_world (fun w => let '(w, sent) := send_all frame w in (w, Ok sent)).
Definition send_or_throw (name : string) (payload : json) : M unit :=
  sent ← send name payload;
  if sent : bool then mret tt else throw ("failed to write " +:+ name).
Definition finish_stream : M unit := on_world (fun w => ((send_all BuildDoneFrame w).1, Ok tt)).
Definition run_streamed_segment (payload : json) (segment_index : Z) : M StreamedInteractionSegmentResult := fun s =>
  match execute_segment payload segment_index (st_world s) with
  | None => None
  | Some (w, r) => Some (mkSessionState w (st_session s), r)
  end.

Fixpoint stream_segments (fuel : nat) (session_started_at segment_index : Z) (current_payload : json) : M unit :=
  session_id ← get (fun s => sr_session_id (st_session s));
  send_or_throw "segment_started" (BuildSegmentStartedEvent request_id session_id segment_index);;
  segment ← run_streamed_segment current_payload segment_index;
  t ← session_clock;
  on_session (add_streamed_segment segment (elapsed_ms session_started_at t));;
  segments ← get (fun s => sr_segments (st_session s));
  if IsDuplicateContinuationSegment segments (sg_text (ss_summary segment))
  then on_session (stopped "completed" "duplicate_continuation_segment")
  else
    send_or_throw "segment_complete"
      (BuildSegmentCompleteEvent request_id session_id segment_index (ss_summary segment));;
    session ← get st_session;
    match stop_after policy session (ss_summary segment) segment_index with
    | Some (status, reason) => on_session (stopped status reason)
    | None =>
        on_session (continued (segment_index + 1));;
        send_or_throw "continuation_started"
          (BuildContinuationStartedEvent request_id session_id (segment_index + 1) (ss_summary segment));;
        next_payload ← lift (ContinuationPayloadBuilder_Build (rq_payload request_context) (sr_content session) policy
                               (sg_finish_reason (ss_summary segment) !=? "length")
                               (sr_total_completion_tokens session));
        match fuel with
        | O => diverge
        | S fuel => stream_segments fuel session_started_at (segment_index + 1) next_payload
        end
    end.

(** Reports a failure and ends the stream. *)
Definition report_failure (code message : string) (session_payload : option json) : M unit :=
  session ← get st_session;
  send "session_failed"
    (BuildSessionFailedEvent request_id (sr_session_id session) code message true session session_payload);;
  send "error" (BuildErrorEvent request_id code message true plane_name);;
  finish_stream.

Definition report_session : M unit :=
  session ← get st_session;
  let session_payload :=
    with_members (request_members request_context (RequestBrowsingSummary request_context))
      (BuildSessionPayload session) in
  let structured := rq_structured_output_json request_context in
  let parsed := if structured then ParseStructuredOutputObject (sr_content session) else None in
  if structured && (sr_completion_status session !=? "completed") then
    report_failure "structured_output_truncated"
      "structured output session ended before a valid JSON object was completed" (Some session_payload)
  else if structured && negb (has_value parsed) then
    report_failure "structured_output_malformed"
      "structured output session did not produce a valid JSON object" (Some session_payload)
  else
    event ← lift (BuildSessionCompleteEvent resolution request_id session session_payload request_context);
    send "session_complete" event;;
    event ← lift (BuildCompleteEvent resolution request_id request_context session session_payload parsed);
    send "complete" event;;
    finish_stream.

Definition fail_session (error : string) : M unit :=
  report_failure (if IsTimeoutLikeError (bytes error) then "upstream_timeout" else "stream_session_failed") error None.

Definition ExecuteStreamSession (session_id : string) (w : W) : option (W * result InteractionSessionResult) :=
  match
    (session_started_at ← session_clock;
     catch
       (send_or_throw "session_started"
          (BuildSessionStartedEvent request_id session_id plane_name resolution request_context);;
        stream_segments (session_fuel policy) session_started_at 0 (rq_payload request_context);;
        on_session resolve_status;;
        report_session)
       fail_session)
      (mkSessionState w (InteractionSessionResult_default session_id))
  with
  | Some (s, Ok _) => Some (st_world s, Ok (st_session s))
  | Some (s, Throw e) => Some (st_world s, Throw e)
  | None => None
  end.
End session.

(** * Lemmas *)

Lemma bind_some {S A B} (m : action S A) (f : A -> action S B) s s1 a :
  m s = Some (s1, Ok a) -> (m ≫= f) s = f a s1.
Proof. intros H. unfold mbind, action_bind. by rewrite H. Qed.
Lemma when_cases {S} (b : bool) (m : action S unit) s : when b m s = if b then m s else Some (s, Ok tt).
Proof. by destruct b. Qed.

(** ** Relaying a segment *)

Section relaying.
Context `{JsonLibrary} {W : Type} (now : W -> Z * W) (send_delta : string -> text -> W -> W * result bool).
(** The text the client has been sent. *)
Context (sent : W -> text).
Hypothesis now_sent : forall w, sent (now w).2 = sent w.
Hypothesis delta_sent : forall model delta w,
  (send_delta model delta w).2 = Ok true /\ sent (send_delta model delta w).1 = sent w ++ delta.
Context (policy : InteractionCompletionPolicy) (identity : ModelIdentity) (t0 : Z).
Abbreviation marker := (ip_completion_marker policy).
Hypothesis marker_some : marker <> [].
Abbreviation handler := (fun s frame =>
  default (s, Throw "") (handle_frame now send_delta policy identity t0 frame s)).

(** What an action may change besides the clock: the text, in the state and at the client. *)
Definition extends (e : text) (s s' : SegmentState W) : Prop :=
  sent (gs_world s') = sent (gs_world s) ++ e /\ gs_cleaned_text s' = gs_cleaned_text s ++ e /\
  gs_filter_state s' = gs_filter_state s /\ gs_saw_complete s' = gs_saw_complete s /\
  gs_complete_payload s' = gs_complete_payload s /\
  gs_openai_stream_raw_text s' = gs_openai_stream_raw_text s.

Lemma clock_extends s :
  exists t s', clock now s = Some (s', Ok t) /\ extends [] s s'.
Proof.
  unfold clock, with_world. pose proof (now_sent (gs_world s)) as Hn. destruct (now (gs_world s)) as [t w].
  exists t, (set_world w s). split; [done|]. split_and!; cbn; rewrite ?app_nil_r; done.
Qed.
Lemma mark_extends s :
  exists s', mark_first_delta now t0 s = Some (s', Ok tt) /\ extends [] s s'.
Proof.
  unfold mark_first_delta. rewrite (bind_some _ _ s s (gs_stream_first_delta_ms s)) by done. rewrite when_cases.
  destruct (gs_stream_first_delta_ms s =? 0); [|exists s; split; [done|split_and!; by rewrite ?app_nil_r]].
  destruct (clock_extends s) as (t & s1 & Hc & Hx). rewrite (bind_some _ _ _ _ _ Hc).
  eexists. split; [reflexivity|]. destruct Hx as (H1 & H2 & H3 & H4 & H5 & H6). by split_and!.
Qed.
Lemma forward_sends failure model delta s :
  exists s', forward send_delta failure model delta s = Some (s', Ok tt) /\
    sent (gs_world s') = sent (gs_world s) ++ delta /\ gs_cleaned_text s' = gs_cleaned_text s /\
    gs_filter_state s' = gs_filter_state s /\ gs_saw_complete s' = gs_saw_complete s /\
    gs_complete_payload s' = gs_complete_payload s /\
    gs_openai_stream_raw_text s' = gs_openai_stream_raw_text s.
Proof.
  unfold forward, with_world. destruct (delta_sent model delta (gs_world s)) as [Hok Hs].
  unfold mbind, action_bind. destruct (send_delta model delta (gs_world s)) as [w b]. cbn in Hok, Hs. subst b.
  eexists. split; [reflexivity|]. cbn. by rewrite Hs.
Qed.

(** Adding to the text and sending the same on. *)
Lemma show_extends failure model delta (k : action (SegmentState W) unit) s :
  (forall s, k s = forward send_delta failure model delta s) ->
  exists s', (cleaned ← get gs_cleaned_text; modify (set_cleaned (cleaned ++ delta));;
              mark_first_delta now t0;; k) s = Some (s', Ok tt) /\ extends delta s s'.
Proof.
  intros Hk. rewrite (bind_some _ _ s s (gs_cleaned_text s)) by done.
  rewrite (bind_some _ _ s (set_cleaned (gs_cleaned_text s ++ delta) s) tt) by done.
  destruct (mark_extends (set_cleaned (gs_cleaned_text s ++ delta) s)) as (s1 & Hm & H1 & H2 & H3 & H4 & H5 & H6).
  rewrite (bind_some _ _ _ _ _ Hm), Hk.
  destruct (forward_sends failure model delta s1) as (s2 & Hf & K1 & K2 & K3 & K4 & K5 & K6).
  exists s2. split; [done|]. cbn in *. rewrite app_nil_r in H1, H2. unfold extends. rewrite K1, K2, K3, K4, K5, K6.
  by rewrite H1, H2, H3, H4, H5, H6.
Qed.

(** A frame that carries a piece of text. *)
Definition carries (e : InteractionSseFrame) (t : text) : Prop :=
  sse_event_name e = bytes "delta" /\ sse_data e <> [] /\ sse_data e <> bytes "[DONE]" /\
  exists j s m, parse (string_of_list (sse_data e)) = Ok j /\ json_value get_string j "delta" "" = Ok s /\
    bytes s = t /\ json_value get_string j "model" "" = Ok m.

Lemma filter_chunk_some state chunk final_flush :
  exists e state', ConsumeCompletionMarkerFilteredChunk state chunk marker final_flush = Some (e, state').
Proof.
  destruct final_flush.
  - pose proof (filter_stream_spec marker (mkCompletionMarkerFilterState (fs_pending state ++ chunk)
      (fs_marker_seen state)) [] marker_some) as H1. cbn [filter_stream] in H1.
    unfold ConsumeCompletionMarkerFilteredChunk in *. cbn [fs_pending fs_marker_seen] in H1.
    rewrite app_nil_r in H1. destruct (filter_pending _ _ _ _ _) as [[e state']|]; [by eauto|done].
  - pose proof (filter_stream_spec marker state [chunk] marker_some) as H1. cbn [filter_stream] in H1.
    destruct (ConsumeCompletionMarkerFilteredChunk state chunk marker false) as [[e state']|]; [by eauto|done].
Qed.

Lemma handle_carried e t s :
  carries e t ->
  exists s' emitted state', handler s e = (s', Ok true) /\
    ConsumeCompletionMarkerFilteredChunk (gs_filter_state s) t marker false = Some (emitted, state') /\
    extends emitted (set_filter state' s) s'.
Proof.
  intros (Hn & Hd & Hnd & j & str & m & Hj & Hs & <- & Hm).
  destruct (filter_chunk_some (gs_filter_state s) (bytes str) false) as (emitted & state' & Hc).
  enough (exists s', handle_delta now send_delta policy t0 (sse_data e) s = Some (s', Ok tt) /\
                     extends emitted (set_filter state' s) s') as (s' & Hh & Hx).
  { exists s', emitted, state'. split; [|done]. unfold handle_frame.
    destruct (sse_data e ==? bytes "[DONE]") eqn:E; [rewrite eqb_true in E; done|].
    rewrite Hn. change (bytes "delta" ==? bytes "message") with false.
    change (bytes "delta" ==? bytes "delta") with true. cbn iota.
    destruct (sse_data e) eqn:Ed; [done|]. cbn [vec_empty]. rewrite <-Ed in *.
    by rewrite (bind_some _ _ _ _ _ Hh). }
  unfold handle_delta. rewrite (bind_some _ _ s s j) by (unfold lift; by rewrite Hj).
  rewrite (bind_some _ _ s s str) by (unfold lift; by rewrite Hs).
  rewrite (bind_some _ _ s s (gs_filter_state s)) by done. rewrite Hc. cbn [default from_option id].
  rewrite (bind_some _ _ s (set_filter state' s) tt) by done.
  destruct emitted as [|c emitted]; [|cbn [vec_empty]; apply (show_extends "failed to write downstream delta" m); intros s0;
    by rewrite (bind_some _ _ s0 s0 m) by (unfold lift; by rewrite Hm)].
  eexists. split; [reflexivity|]. by split_and!; rewrite ?app_nil_r.
Qed.

(** The frame that ends the answer. *)
Definition completes (e : InteractionSseFrame) (payload : json) : Prop :=
  sse_event_name e = bytes "complete" /\ sse_data e <> bytes "[DONE]" /\
  parse (string_of_list (sse_data e)) = Ok payload.

Lemma handle_complete e payload s :
  completes e payload -> handler s e = (set_complete payload s, Ok true).
Proof.
  intros (Hn & Hnd & Hp). unfold handle_frame.
  destruct (sse_data e ==? bytes "[DONE]") eqn:E; [rewrite eqb_true in E; done|]. rewrite Hn.
  change (bytes "complete" ==? bytes "message") with false. change (bytes "complete" ==? bytes "delta") with false.
  change (bytes "complete" ==? bytes "complete") with true. cbn iota.
  rewrite (bind_some _ _ s s payload) by (unfold lift; by rewrite Hp). done.
Qed.

(** The end mark after a complete answer changes nothing. *)
Lemma handle_done s :
  gs_saw_complete s = true -> gs_openai_stream_raw_text s = [] -> handler s done_frame = (s, Ok false).
Proof.
  intros Hsaw Hraw. unfold handle_frame. change (sse_data done_frame ==? bytes "[DONE]") with true. cbn iota.
  rewrite (bind_some _ _ s s (gs_model s)) by done. unfold emit_openai_stream_progress.
  assert (Hr : RemoveCompletionMarkers [] marker = Some ([], false)).
  { unfold RemoveCompletionMarkers. by destruct marker. }
  assert (Hv : default [] (SanitizeVisibleText [] identity) = []).
  { unfold SanitizeVisibleText. destruct (DetectFamily identity); vm_compute; reflexivity. }
  assert (He : (raw ← get gs_openai_stream_raw_text;
    match visible_part raw true with
    | None => mret tt
    | Some visible =>
        let '(visible, marker_seen) := default ([], false) (RemoveCompletionMarkers visible marker) in
        state ← get gs_filter_state;
        modify (set_filter (mkCompletionMarkerFilterState (fs_pending state) (fs_marker_seen state || marker_seen)));;
        let visible := default [] (SanitizeInteractionText visible) in
        let visible := default [] (SanitizeVisibleText visible identity) in
        emitted ← get gs_openai_stream_emitted_text;
        let delta := drop (length emitted) visible in
        if vec_empty visible then mret tt
        else if negb (is_prefix emitted visible) && (negb true || negb (vec_empty emitted)) then mret tt
        else if vec_empty delta then mret tt
        else
          modify (set_emitted visible);;
          cleaned ← get gs_cleaned_text;
          modify (set_cleaned (cleaned ++ delta));;
          mark_first_delta now t0;;
          forward send_delta "failed to write downstream delta" (gs_model s) delta
    end) s = Some (s, Ok tt)).
  { rewrite (bind_some _ _ s s []) by (unfold get; by rewrite Hraw). change (visible_part [] true) with (Some (@nil Ascii.ascii)).
    cbn iota beta. rewrite Hr. cbn [default from_option id]. rewrite (bind_some _ _ s s (gs_filter_state s)) by done.
    rewrite (bind_some _ _ s s tt) by (unfold modify; rewrite orb_false_r; by destruct s as [? ? ? ? ? ? [] ? ? ? ?]).
    change (default [] (SanitizeInteractionText [])) with (@nil Ascii.ascii). cbn zeta. rewrite Hv.
    rewrite (bind_some _ _ s s (gs_openai_stream_emitted_text s)) by done. done. }
  rewrite (bind_some _ _ _ _ _ He). rewrite (bind_some _ _ s s true) by (unfold get; by rewrite Hsaw). done.
Qed.

(** A stream may end with the end mark or without. *)
Definition end_items (marked : bool) : list Item := if marked then [done_item] else [].
Definition end_text (marked : bool) : text := if marked then BuildDoneFrame else [].

Lemma relay_underway frames ts e payload marked s out seen :
  Forall2 carries frames ts -> completes e payload -> gs_saw_complete s = false -> gs_openai_stream_raw_text s = [] ->
  filter_stream marker (gs_filter_state s) ts = Some (out, seen) ->
  exists f shown rest, underway handler gs_saw_complete f (map event_item (frames ++ [e]) ++ end_items marked) s /\
    filter_stream marker (gs_filter_state f) [] = Some (rest, seen) /\ out = shown ++ rest /\
    sent (gs_world f) = sent (gs_world s) ++ shown /\ gs_cleaned_text f = gs_cleaned_text s ++ shown /\
    gs_saw_complete f = true /\ gs_complete_payload f = payload.
Proof.
  intros Hts He. revert s out. induction Hts as [|e1 t frames ts H1 _ IH]; intros s out Hsaw Hraw Hf.
  - exists (set_complete payload s), [], out. cbn [app]. rewrite !app_nil_r. split_and!; [|done..].
    eapply underway_more; [done|by apply handle_complete|]. destruct marked; [|constructor].
    apply underway_end. by apply handle_done.
  - destruct (handle_carried e1 t s H1) as (s1 & emitted & state' & Hh & Hc & Hx).
    cbn [filter_stream] in Hf. rewrite Hc in Hf. cbn [mbind option_bind] in Hf.
    destruct Hx as (K1 & K2 & K3 & K4 & K5 & K6). cbn in K1, K2, K3, K4, K5, K6.
    destruct (filter_stream marker state' ts) as [[out1 seen1]|] eqn:Ef; [|done]. injection Hf as <- <-.
    destruct (IH s1 out1) as (f & shown & rest & Hu & Hr & -> & Hs & Hcl & Hsc & Hp);
      [by rewrite K4|by rewrite K6|by rewrite K3|].
    exists f, (emitted ++ shown), rest. rewrite Hs, Hcl, K1, K2, <-!app_assoc. split_and!; try done.
    eapply underway_more; [done|exact Hh|exact Hu].
Qed.

Lemma flush_extends s rest seen :
  filter_stream marker (gs_filter_state s) [] = Some (rest, seen) ->
  exists s' state, flush_filter now send_delta policy t0 s = Some (s', Ok tt) /\ fs_marker_seen state = seen /\
    extends rest (set_filter state s) s'.
Proof.
  intros Hf. destruct (filter_chunk_some (gs_filter_state s) [] true) as (e & state & Hc).
  cbn [filter_stream] in Hf. rewrite Hc in Hf. injection Hf as <- <-. unfold flush_filter.
  rewrite (bind_some _ _ s s (gs_filter_state s)) by done. rewrite Hc. cbn [default from_option id].
  rewrite (bind_some _ _ s (set_filter state s) tt) by done. destruct e as [|c e].
  - exists (set_filter state s), state. split_and!; [done|done|by split_and!; rewrite ?app_nil_r].
  - cbn [vec_empty]. destruct (show_extends "failed to flush downstream delta" "" (c :: e)
      (forward send_delta "failed to flush downstream delta" "" (c :: e)) (set_filter state s)) as (s' & Hs & Hx);
      [done|]. exists s', state. split_and!; [exact Hs|done|done].
Qed.

(** A final payload with everything in it. *)
Definition final_payload (payload : json) (finish_reason : string) (prompt completion total : Z) : Prop :=
  exists usage model,
    json_value get_json payload "usage" (JObject []) = Ok usage /\
    json_value get_string payload "finish_reason" "stop" = Ok finish_reason /\
    (forall d, exists l, json_value get_int payload "latency_ms" d = Ok l) /\
    json_value get_int usage "prompt_tokens" 0 = Ok prompt /\
    json_value get_int usage "completion_tokens" 0 = Ok completion /\
    json_value get_int usage "total_tokens" 0 = Ok total /\
    json_value get_string payload "model" "" = Ok model.

(** Steps that return without changing what was shown. *)
Lemma lift_ok {A B} (r : result A) a (f : A -> action (SegmentState W) B) s :
  r = Ok a -> (lift r ≫= f) s = f a s.
Proof. by intros ->. Qed.

Context (build : json -> bool -> result string)
  (open : string -> W -> W * result InteractionStreamingUpstreamConnection)
  (close : W -> W) (fallback : string -> W -> W * result InteractionUpstreamResponse)
  (stod : string -> option double).
Hypothesis close_sent : forall w, sent (close w) = sent w.

Lemma finish_complete segment_index payload stream s final finish prompt completion total :
  gs_saw_complete s = true -> gs_complete_payload s = final -> final_payload final finish prompt completion total ->
  exists s' r, finish_segment now build fallback send_delta stod policy identity t0 segment_index payload stream s =
      Some (s', Ok r) /\ sent (gs_world s') = sent (gs_world s) /\
    ss_cleaned_text r = gs_cleaned_text s /\ sg_text (ss_summary r) = gs_cleaned_text s /\
    sg_index (ss_summary r) = segment_index /\ sg_marker_seen (ss_summary r) = fs_marker_seen (gs_filter_state s) /\
    sg_finish_reason (ss_summary r) = finish /\ sg_prompt_tokens (ss_summary r) = prompt /\
    sg_completion_tokens (ss_summary r) = completion /\ sg_total_tokens (ss_summary r) = total.
Proof.
  intros Hs <- (usage & model & Hu & Hfr & Hl & Hp & Hc & Ht & Hm). unfold finish_segment.
  rewrite (bind_some _ _ s s true) by (unfold get; by rewrite Hs).
  rewrite (bind_some _ _ s s (gs_cleaned_text s)) by done. cbn [negb andb].
  rewrite (bind_some _ _ s s None) by done.
  rewrite (bind_some _ _ s s (gs_cleaned_text s)) by done.
  rewrite (bind_some _ _ s s (gs_model s)) by done. rewrite (bind_some _ _ s s tt) by done.
  rewrite (bind_some _ _ s s true) by (unfold get; by rewrite Hs). cbn [negb].
  rewrite (bind_some _ _ s s (gs_complete_payload s)) by done.
  destruct (clock_extends s) as (t & s1 & Hcl & K1 & K2 & K3 & _). rewrite (bind_some _ _ _ _ _ Hcl).
  rewrite (lift_ok _ _ _ _ Hu), (lift_ok _ _ _ _ Hfr).
  destruct (Hl (elapsed_ms t0 t)) as [l Hl']. rewrite (lift_ok _ _ _ _ Hl').
  rewrite (bind_some _ _ s1 s1 (gs_filter_state s1)) by done. rewrite K3. rewrite app_nil_r in K1, K2.
  eassert (Hsum : summary_of segment_index l finish usage _ s1 = Some (s1, Ok _)).
  { unfold summary_of. rewrite (lift_ok _ _ _ _ Hp), (lift_ok _ _ _ _ Hc), (lift_ok _ _ _ _ Ht). reflexivity. }
  rewrite (bind_some _ _ _ _ _ Hsum). rewrite (bind_some _ _ s1 s1 (gs_model s1)) by done.
  assert (Hw : exists s2, when (str_empty (gs_model s1))
      (model ← lift (json_value get_string (gs_complete_payload s) "model" ""); modify (set_model model)) s1 =
      Some (s2, Ok tt) /\ gs_world s2 = gs_world s1 /\ gs_cleaned_text s2 = gs_cleaned_text s1).
  { rewrite when_cases, (lift_ok _ _ _ _ Hm). destruct (str_empty (gs_model s1)); by eexists. }
  destruct Hw as (s2 & Hw & L1 & L2). rewrite (bind_some _ _ _ _ _ Hw).
  unfold segment_result. rewrite (bind_some _ _ s2 s2 (gs_model s2)) by done.
  rewrite (bind_some _ _ s2 s2 (gs_cleaned_text s2)) by done.
  do 2 eexists. split; [reflexivity|]. cbn. rewrite L1, L2, K1, K2. done.
Qed.

Lemma log_extends_trans e1 e2 s1 s2 s3 : extends e1 s1 s2 -> extends e2 s2 s3 -> extends (e1 ++ e2) s1 s3.
Proof.
  intros (A1 & A2 & A3 & A4 & A5 & A6) (B1 & B2 & B3 & B4 & B5 & B6). unfold extends.
  by rewrite B1, B2, B3, B4, B5, B6, A1, A2, A3, A4, A5, A6, <-!app_assoc.
Qed.
Lemma timed_extends {A} (p u : Z -> Z) (m : action (SegmentState W) A) a s :
  (forall s, exists s', m s = Some (s', Ok a) /\ extends [] s s') ->
  exists s', timed now (fun ms => add_timing (p ms) (u ms)) m s = Some (s', Ok a) /\ extends [] s s'.
Proof.
  intros Hm. unfold timed. destruct (clock_extends s) as (t1 & s1 & Hc1 & X1). rewrite (bind_some _ _ _ _ _ Hc1).
  destruct (Hm s1) as (s2 & Hm2 & X2). rewrite (bind_some _ _ _ _ _ Hm2).
  destruct (clock_extends s2) as (t3 & s3 & Hc3 & X3). rewrite (bind_some _ _ _ _ _ Hc3).
  eexists. split; [reflexivity|]. pose proof (log_extends_trans _ _ _ _ _ (log_extends_trans _ _ _ _ _ X1 X2) X3) as X.
  exact X.
Qed.
Lemma log_extends_refl s : extends [] s s.
Proof. by split_and!; rewrite ?app_nil_r. Qed.

End relaying.

(** How a connection may deliver a text: as it is, or in HTTP chunks; cut into a first
    part and reads at any places. *)
Inductive delivers (stream : InteractionStreamingUpstreamConnection) (content : text) : Prop :=
  | delivers_plain reads :
      sc_chunked_transfer stream = false -> sc_reads stream = map Ok reads ->
      Forall (fun chunk => chunk <> []) reads -> sc_initial_body stream ++ concat reads = content ->
      delivers stream content
  | delivers_chunked chunks last_line reads :
      sc_chunked_transfer stream = true -> sc_reads stream = map Ok reads ->
      Forall (fun chunk => chunk <> []) reads -> sc_initial_body stream ++ concat reads = body_text chunks last_line ->
      Forall chunk_ok chunks -> line_ok last_line -> chunk_size_of last_line = Some 0 ->
      Z.of_nat (length (body_text chunks last_line)) < 2 ^ 64 -> concat (map ch_data chunks) = content ->
      delivers stream content.

Lemma receive_delivered {A} (handle : A -> InteractionSseFrame -> A * result bool) saw_complete final stream items a :
  Forall item_ok items -> underway handle saw_complete final items a -> delivers stream (items_text items) ->
  exists buffers, receive_stream handle saw_complete (sc_chunked_transfer stream) (sc_initial_body stream)
    (sc_reads stream) a = Some (final, Ok buffers).
Proof.
  intros Hok Hu [reads Hc Hr Hne Hb|chunks last_line reads Hc Hr Hne Hb Hch Hl Hz Hsz Hd]; rewrite Hc, Hr.
  - by apply (receive_plain_loop handle saw_complete final reads _ _ _ items).
  - destruct (receive_stream_spec handle saw_complete final last_line Hl Hz items chunks (sc_initial_body stream) reads a)
      as (buffers & E & _); try done. by exists buffers.
Qed.

(** Everything about a segment that arrives whole. *)
Section relayed.
Context `{JsonLibrary} {W : Type} (now : W -> Z * W) (send_delta : string -> text -> W -> W * result bool).
Context (sent : W -> text).
Hypothesis now_sent : forall w, sent (now w).2 = sent w.
Hypothesis delta_sent : forall model delta w,
  (send_delta model delta w).2 = Ok true /\ sent (send_delta model delta w).1 = sent w ++ delta.
Context (policy : InteractionCompletionPolicy) (identity : ModelIdentity).
Abbreviation marker := (ip_completion_marker policy).
Hypothesis marker_some : marker <> [].
Context (build : json -> bool -> result string)
  (open : string -> W -> W * result InteractionStreamingUpstreamConnection)
  (close : W -> W) (fallback : string -> W -> W * result InteractionUpstreamResponse)
  (stod : string -> option double).
Hypothesis close_sent : forall w, sent (close w) = sent w.

Lemma with_world_extends {A} (f : W -> W * result A) a (s : SegmentState W) :
  sent (f (gs_world s)).1 = sent (gs_world s) -> (f (gs_world s)).2 = Ok a ->
  exists s', with_world f s = Some (s', Ok a) /\ extends sent [] s s'.
Proof.
  intros H1 H2. unfold with_world. destruct (f (gs_world s)) as [w r]. cbn in *. subst r.
  eexists. split; [reflexivity|]. split_and!; cbn; rewrite ?app_nil_r; done.
Qed.

Lemma segment_relayed payload body stream segment_index w frames ts last final finish prompt completion total marked :
  build payload true = Ok body ->
  (forall w, sent (open body w).1 = sent w /\ (open body w).2 = Ok stream) ->
  Forall2 carries frames ts -> completes last final -> final_payload final finish prompt completion total ->
  Forall event_ok (frames ++ [last]) ->
  delivers stream (frames_text (frames ++ [last]) ++ end_text marked) ->
  exists w' r, execute_streamed_segment now build open close fallback send_delta stod policy identity false
      payload segment_index w = Some (w', Ok r) /\
    sent w' = sent w ++ strip marker (concat ts) /\ ss_cleaned_text r = strip marker (concat ts) /\
    sg_text (ss_summary r) = strip marker (concat ts) /\ sg_index (ss_summary r) = segment_index /\
    sg_marker_seen (ss_summary r) = contains marker (concat ts) /\
    sg_finish_reason (ss_summary r) = finish /\ sg_prompt_tokens (ss_summary r) = prompt /\
    sg_completion_tokens (ss_summary r) = completion /\ sg_total_tokens (ss_summary r) = total.
Proof.
  intros Hbuild Hopen Hts Hlast Hfinal Hok Hdel.
  unfold execute_streamed_segment, ExecuteSegment. set (s0 := mkSegmentState _ _ _ _ _ _ _ _ _ _ _).
  destruct (clock_extends now sent now_sent s0) as (t0 & s1 & Hc & X1). rewrite (bind_some _ _ _ _ _ Hc).
  enough (exists s' r, stream_once now build open close fallback send_delta stod policy identity t0 segment_index
      payload s1 = Some (s', Ok r) /\
    sent (gs_world s') = sent w ++ strip marker (concat ts) /\ ss_cleaned_text r = strip marker (concat ts) /\
    sg_text (ss_summary r) = strip marker (concat ts) /\ sg_index (ss_summary r) = segment_index /\
    sg_marker_seen (ss_summary r) = contains marker (concat ts) /\
    sg_finish_reason (ss_summary r) = finish /\ sg_prompt_tokens (ss_summary r) = prompt /\
    sg_completion_tokens (ss_summary r) = completion /\ sg_total_tokens (ss_summary r) = total)
    as (s' & r & Hs & Hrest).
  { unfold catch. rewrite Hs. by exists (gs_world s'), r. }
  unfold stream_once.
  destruct (timed_extends now sent now_sent (fun ms => ms) (fun _ => 0)
    (lift (build payload true)) body s1) as (s2 & H2 & X2).
  { intros s. rewrite Hbuild. exists s. split; [done|apply log_extends_refl]. }
  rewrite (bind_some _ _ _ _ _ H2).
  destruct (timed_extends now sent now_sent (fun _ => 0) (fun ms => ms)
    (with_world (open body)) stream s2) as (s3 & H3 & X3).
  { intros s. apply with_world_extends; apply Hopen. }
  rewrite (bind_some _ _ _ _ _ H3).
  pose proof (log_extends_trans sent _ _ _ _ _ (log_extends_trans sent _ _ _ _ _ X1 X2) X3) as (Y1 & Y2 & Y3 & Y4 & Y5 & Y6).
  cbn [s0 gs_world gs_cleaned_text gs_filter_state gs_saw_complete gs_complete_payload gs_openai_stream_raw_text
    app] in Y1, Y2, Y3, Y4, Y5, Y6.
  rewrite app_nil_r in Y1.
  pose proof (filter_stream_spec marker (gs_filter_state s3) ts marker_some) as Hf.
  destruct (relay_underway now send_delta sent now_sent delta_sent policy identity t0 marker_some frames ts last final
    marked s3 _ _ Hts Hlast Y4 Y6 Hf) as (f & shown & rest & Hu & Hr & Hout & Z1 & Z2 & Z3 & Z4).
  rewrite Y3 in Hout. cbn [fs_pending CompletionMarkerFilterState_default app] in Hout.
  assert (Hrelay : relay now send_delta policy identity t0 stream s3 = Some (f, Ok tt)).
  { unfold relay. edestruct (receive_delivered (fun s frame =>
      default (s, Throw "") (handle_frame now send_delta policy identity t0 frame s)) gs_saw_complete f stream)
      as (buffers & ->); [|exact Hu| |done].
    - apply Forall_app. split; [|destruct marked; repeat constructor; apply done_item_ok].
      apply Forall_fmap. eapply Forall_impl; [exact Hok|]. apply event_item_ok.
    - unfold items_text. rewrite map_app, concat_app. fold (items_text (map event_item (frames ++ [last]))).
      rewrite event_items_text. by destruct marked. }
  unfold catch. rewrite (bind_some _ _ _ _ _ Hrelay).
  destruct (flush_extends now send_delta sent now_sent delta_sent policy t0 marker_some f rest _ Hr)
    as (g & state & Hg & Hseen & V1 & V2 & V3 & V4 & V5 & _). rewrite (bind_some _ _ _ _ _ Hg). cbn in V1, V2, V3, V4, V5.
  destruct (finish_complete now send_delta sent now_sent policy identity t0 build fallback stod segment_index payload
    stream g final finish prompt completion total) as (k & r & Hk & U1 & U2 & U3 & U4 & U5 & U6);
    [by rewrite V4|by rewrite V5|done|].
  rewrite (bind_some _ _ _ _ _ Hk). unfold close_stream, with_world. 
  rewrite (bind_some _ _ k (set_world (close (gs_world k)) k) tt) by done.
  do 2 eexists. split; [reflexivity|]. cbn [set_world gs_world].
  rewrite close_sent, U1, U2, U3, U5, V1, V2, V3, Z1, Z2, Y1, Y2, Hout, <-!app_assoc, Hseen.
  split_and!; try done; [by rewrite Y3|apply U6..].
Qed.
End relayed.

(** ** Handlers return *)

Definition returns {S A} (m : action S A) : Prop := forall s, m s <> None.
Lemma returns_bind {S A B} (m : action S A) (f : A -> action S B) :
  returns m -> (forall a, returns (f a)) -> returns (m ≫= f).
Proof.
  intros Hm Hf s. unfold mbind, action_bind. specialize (Hm s). destruct (m s) as [[s' [a|e]]|]; [apply Hf|done|done].
Qed.
Lemma returns_when {S} b (m : action S unit) : returns m -> returns (when b m).
Proof. by destruct b. Qed.
Lemma with_world_returns {W A} (f : W -> W * result A) : returns (with_world f).
Proof. intros s. unfold with_world. by destruct (f (gs_world s)). Qed.
Create HintDb returns.
#[local] Hint Resolve with_world_returns : returns.
Ltac returns_tac :=
  repeat match goal with
  | |- returns (_ ≫= _) => apply returns_bind; [|intros ?]
  | |- returns (when _ _) => apply returns_when
  | |- returns (match ?x with _ => _ end) => destruct x eqn:?
  | |- returns (mret _) => intros ?; discriminate
  | |- returns (lift _) => intros ?; discriminate
  | |- returns (get _) => intros ?; discriminate
  | |- returns (modify _) => intros ?; discriminate
  | |- returns (throw _) => intros ?; discriminate
  | |- returns _ => solve [auto with returns]
  end.

Section frames_return.
Context `{JsonLibrary} {W : Type} (now : W -> Z * W) (send_delta : string -> text -> W -> W * result bool)
  (policy : InteractionCompletionPolicy) (identity : ModelIdentity) (t0 : Z).

Lemma emit_returns model final : returns (emit_openai_stream_progress now send_delta policy identity t0 model final).
Proof. unfold emit_openai_stream_progress, mark_first_delta, forward, clock. returns_tac. Qed.
#[local] Hint Resolve emit_returns : returns.

(** The handler of a frame always comes to an end. *)
Lemma handle_frame_returns frame : returns (handle_frame now send_delta policy identity t0 frame).
Proof.
  unfold handle_frame, handle_message, handle_delta, mark_first_delta, forward, clock. returns_tac.
Qed.
End frames_return.

(** ** What the client of a session sees *)

(** The end of a session: two events and the end mark. *)
Definition closes `{JsonLibrary} (first second : string) (closing : list text) : Prop :=
  exists p1 p2 f1 f2, BuildEventFrame first p1 = Ok f1 /\ BuildEventFrame second p2 = Ok f2 /\
    closing = [f1; f2; BuildDoneFrame].
(** A report of a failure that cannot be serialised. *)
Definition unreportable `{JsonLibrary} (e : string) : Prop :=
  exists name payload, (name = "session_failed" \/ name = "error") /\ BuildEventFrame name payload = Throw e.

Lemma event_not_done `{JsonLibrary} name payload frame :
  BuildEventFrame name payload = Ok frame -> BuildDoneFrame ∉ [frame].
Proof. unfold BuildEventFrame. intros E. bind_inv. intros Hin%list_elem_of_singleton. discriminate Hin. Qed.

Section observed.
Context `{JsonLibrary} {W : Type} (now : W -> Z * W) (send_all : text -> W -> W * bool)
  (segment : json -> Z -> W -> option (W * result StreamedInteractionSegmentResult))
  (request_id plane_name : string) (resolution : PlaneInteractionResolution)
  (rc : InteractionRequestContext) (policy : InteractionCompletionPolicy).
(** The frames the client was sent. *)
Context (log : W -> list text).
Hypothesis now_log : forall w, log (now w).2 = log w.
Hypothesis send_log : forall frame w, log (send_all frame w).1 = log w ++ [frame].
Hypothesis segment_log : forall payload i w w' r, segment payload i w = Some (w', r) ->
  exists l, log w' = log w ++ l /\ BuildDoneFrame ∉ l.

Definition writes (l : list text) (s s' : SessionState W) : Prop := log (st_world s') = log (st_world s) ++ l.
(** An action that does not end the stream. *)
Definition open_ended {A} (m : action (SessionState W) A) : Prop :=
  forall s s' r, m s = Some (s', r) -> exists l, writes l s s' /\ BuildDoneFrame ∉ l.

Lemma open_bind {A B} (m : action (SessionState W) A) (f : A -> action (SessionState W) B) :
  open_ended m -> (forall a, open_ended (f a)) -> open_ended (m ≫= f).
Proof.
  intros Hm Hf s s' r. unfold mbind, action_bind. destruct (m s) as [[s1 [a|e]]|] eqn:E; [|intros [= <- <-]; by eapply Hm|done].
  intros Hs. destruct (Hm _ _ _ E) as (l1 & H1 & N1), (Hf _ _ _ _ Hs) as (l2 & H2 & N2).
  exists (l1 ++ l2). unfold writes in *. rewrite H2, H1, <-app_assoc. split; [done|]. rewrite not_elem_of_app. done.
Qed.
Lemma open_pure {A} (m : action (SessionState W) A) :
  (forall s s' r, m s = Some (s', r) -> log (st_world s') = log (st_world s)) -> open_ended m.
Proof. intros Hm s s' r Hs. exists []. unfold writes. rewrite app_nil_r. split; [by eapply Hm|set_solver]. Qed.
(** Sending an event writes its frame, or throws what serialising it throws. *)
Lemma send_cases name payload s :
  exists s', st_session s' = st_session s /\
    match BuildEventFrame name payload with
    | Ok frame => exists sent, send send_all name payload s = Some (s', Ok sent) /\ writes [frame] s s'
    | Throw e => send send_all name payload s = Some (s', Throw e) /\ s' = s
    end.
Proof.
  unfold send, lift, mbind, action_bind, on_world. destruct (BuildEventFrame name payload) as [frame|e]; [|by exists s].
  pose proof (send_log frame (st_world s)) as He. destruct (send_all frame (st_world s)) as [w b].
  eexists. split; [|eexists; split; [reflexivity|exact He]]. done.
Qed.
Lemma open_event name payload : open_ended (send send_all name payload).
Proof.
  intros s s' r Hs. destruct (send_cases name payload s) as (s1 & _ & Hc).
  destruct (BuildEventFrame name payload) as [frame|e] eqn:Ef.
  - destruct Hc as (sent & E & Hw). rewrite E in Hs. injection Hs as <- <-. exists [frame]. split; [done|].
    by eapply event_not_done.
  - destruct Hc as (E & ->). rewrite E in Hs. injection Hs as <- <-. exists []. unfold writes. rewrite app_nil_r.
    split; [done|set_solver].
Qed.
Lemma open_send name payload : open_ended (send_or_throw send_all name payload).
Proof.
  unfold send_or_throw. apply open_bind; [apply open_event|].
  intros []; apply open_pure; by intros s s' r [= <- <-].
Qed.
Lemma open_clock : open_ended (session_clock now).
Proof.
  apply open_pure. intros s s' r. unfold session_clock, on_world. pose proof (now_log (st_world s)) as Hn.
  destruct (now (st_world s)) as [t w]. intros [= <- <-]. exact Hn.
Qed.
Lemma open_segment payload i : open_ended (run_streamed_segment segment payload i).
Proof.
  intros s s' r. unfold run_streamed_segment. destruct (segment payload i (st_world s)) as [[w r']|] eqn:E; [|done].
  intros [= <- <-]. destruct (segment_log _ _ _ _ _ E) as (l & Hl & Hn). by exists l.
Qed.
Lemma open_modify f : open_ended (on_session f).
Proof. apply open_pure. by intros s s' r [= <- <-]. Qed.

Lemma open_segments fuel t0 i payload :
  open_ended (stream_segments now send_all segment request_id rc policy fuel t0 i payload).
Proof.
  assert (Hp : forall (A : Type) (m : action (SessionState W) A),
    (forall s, m s = None \/ exists r, m s = Some (s, r)) -> open_ended m).
  { intros A m Hm. apply open_pure. intros s s' r Hs. destruct (Hm s) as [Hn|[r' Hr]]; congruence. }
  revert i payload. induction fuel as [|fuel IH]; intros i payload; cbn [stream_segments];
    repeat first [ apply open_send | apply open_clock | apply open_segment | apply open_modify
                 | apply IH | apply open_bind; [|intros ?] | progress case_match
                 | apply Hp; intros s; first [by left|by right; eexists] ].
Qed.

(** Two events and the end mark, one after the other: all of it, or nothing of the end. *)
Lemma two_events_close first second p1 p2 s :
  exists s' r l, (send send_all first p1;; send send_all second p2;; finish_stream send_all) s = Some (s', r) /\
    st_session s' = st_session s /\ writes l s s' /\
    match r with
    | Ok _ => closes first second l
    | Throw e => (BuildDoneFrame ∉ l) /\ (BuildEventFrame first p1 = Throw e \/ BuildEventFrame second p2 = Throw e)
    end.
Proof.
  destruct (send_cases first p1 s) as (s1 & S1 & C1). destruct (BuildEventFrame first p1) as [f1|e1] eqn:F1.
  2:{ destruct C1 as (E1 & ->). exists s, (Throw e1), []. unfold mbind, action_bind. rewrite E1. unfold writes.
      rewrite app_nil_r. split_and!; [done|done|done|set_solver|by left]. }
  destruct C1 as (b1 & E1 & W1). rewrite (bind_some _ _ _ _ _ E1).
  destruct (send_cases second p2 s1) as (s2 & S2 & C2). destruct (BuildEventFrame second p2) as [f2|e2] eqn:F2.
  2:{ destruct C2 as (E2 & ->). exists s1, (Throw e2), [f1]. unfold mbind, action_bind. rewrite E2.
      split_and!; [done|done|done| |by right]. by eapply event_not_done. }
  destruct C2 as (b2 & E2 & W2). rewrite (bind_some _ _ _ _ _ E2). unfold finish_stream, on_world.
  eexists _, (Ok tt), [f1; f2; BuildDoneFrame]. split_and!; [reflexivity|cbn; congruence| |by exists p1, p2, f1, f2].
  unfold writes in *. cbn. by rewrite send_log, W2, W1, <-!app_assoc.
Qed.

Lemma report_failure_writes code message session_payload s :
  exists s' r l, report_failure send_all request_id plane_name code message session_payload s = Some (s', r) /\
    st_session s' = st_session s /\ writes l s s' /\
    match r with
    | Ok _ => closes "session_failed" "error" l
    | Throw e => (BuildDoneFrame ∉ l) /\ unreportable e
    end.
Proof.
  unfold report_failure. rewrite (bind_some _ _ s s (st_session s)) by done.
  match goal with |- context [send send_all "session_failed" ?p1] => match goal with
    |- context [send send_all "error" ?p2] => destruct (two_events_close "session_failed" "error" p1 p2 s)
      as (s' & r & l & E & Hs & Hw & Hr) end end.
  exists s', r, l. split_and!; try done. destruct r as [[]|e]; [done|]. destruct Hr as (Hn & Hr). split; [done|].
  destruct Hr as [Hr|Hr]; [eexists "session_failed", _|eexists "error", _]; split; eauto.
Qed.

Lemma report_session_writes s :
  exists s' r l, report_session send_all request_id plane_name resolution rc s = Some (s', r) /\
    st_session s' = st_session s /\ writes l s s' /\
    match r with
    | Ok _ => closes "session_complete" "complete" l \/ closes "session_failed" "error" l
    | Throw _ => BuildDoneFrame ∉ l
    end.
Proof.
  assert (Hfail : forall code message payload, exists s' r l,
    report_failure send_all request_id plane_name code message payload s = Some (s', r) /\
    st_session s' = st_session s /\ writes l s s' /\
    match r with
    | Ok _ => closes "session_complete" "complete" l \/ closes "session_failed" "error" l
    | Throw _ => BuildDoneFrame ∉ l
    end).
  { intros code message payload. destruct (report_failure_writes code message payload s) as (s' & r & l & E & Hs & Hw & Hr).
    exists s', r, l. split_and!; try done. destruct r as [[]|e]; [by right|apply Hr]. }
  unfold report_session. rewrite (bind_some _ _ s s (st_session s)) by done. cbn zeta.
  destruct (_ && (_ !=? "completed")); [apply Hfail|]. destruct (_ && negb _); [apply Hfail|].
  destruct (BuildSessionCompleteEvent _ _ _ _ _) as [e1|err]; cbn [lift].
  2:{ exists s, (Throw err), []. unfold writes. rewrite app_nil_r. split_and!; [done..|set_solver]. }
  rewrite (bind_some _ _ s s e1) by done.
  destruct (BuildCompleteEvent _ _ _ _ _ _) as [e2|err]; cycle 1.
  { destruct (send_cases "session_complete" e1 s) as (s1 & S1 & C1).
    unfold mbind, action_bind. destruct (BuildEventFrame "session_complete" e1) as [f1|x1] eqn:F1.
    - destruct C1 as (b1 & E1 & W1). rewrite E1. exists s1, (Throw err), [f1].
      split_and!; [done..|by eapply event_not_done].
    - destruct C1 as (E1 & ->). rewrite E1. exists s, (Throw x1), []. unfold writes. rewrite app_nil_r.
      split_and!; [done..|set_solver]. }
  destruct (two_events_close "session_complete" "complete" e1 e2 s) as (s' & r & l & E & Hs & Hw & Hr).
  exists s', r, l. split_and!; try done.
  destruct r as [[]|e]; [by left|apply Hr].
Qed.

Hypothesis segment_returns : forall payload i w, segment payload i w <> None.

Lemma on_world_returns {A} (f : W -> W * result A) : returns (on_world f).
Proof. intros s. unfold on_world. by destruct (f (st_world s)). Qed.
Lemma run_segment_returns payload i : returns (run_streamed_segment segment payload i).
Proof.
  intros s. unfold run_streamed_segment. pose proof (segment_returns payload i (st_world s)) as Hr.
  by destruct (segment payload i (st_world s)) as [[w r]|].
Qed.
#[local] Hint Resolve on_world_returns run_segment_returns : returns.

(** Like [stop_after_last], inside the loop. *)
Lemma segments_return fuel t0 i payload :
  ip_max_continuations policy <= i + Z.of_nat fuel ->
  returns (stream_segments now send_all segment request_id rc policy fuel t0 i payload).
Proof.
  revert i payload. induction fuel as [|fuel IH]; intros i payload Hf; cbn [stream_segments];
    unfold send_or_throw, send, session_clock, on_session; returns_tac.
  - match goal with Hs : stop_after _ _ _ _ = None |- _ => apply stop_after_last in Hs; [done|lia] end.
  - apply IH. lia.
Qed.

Lemma catch_some {S A} (m : action S A) handler s s' r :
  m s = Some (s', r) -> catch m handler s = match r with Ok a => Some (s', Ok a) | Throw e => handler e s' end.
Proof. intros Hm. unfold catch. rewrite Hm. by destruct r. Qed.

(** How a session may leave the stream. *)
Definition left_stream (r : result InteractionSessionResult) (written : list text) : Prop :=
  match r with
  | Ok _ => exists body closing, written = body ++ closing /\ (BuildDoneFrame ∉ body) /\
      (closes "session_complete" "complete" closing \/ closes "session_failed" "error" closing)
  | Throw e => (BuildDoneFrame ∉ written) /\ unreportable e
  end.

(** A failure is reported at the end of what was written. *)
Lemma fail_session_closes e s written w :
  log (st_world s) = log w ++ written -> BuildDoneFrame ∉ written ->
  exists s' r all, fail_session send_all request_id plane_name e s = Some (s', r) /\
    log (st_world s') = log w ++ all /\
    left_stream (match r with Ok _ => Ok (st_session s') | Throw e => Throw e end) all.
Proof.
  intros Hl Hn. unfold fail_session.
  match goal with |- context [report_failure _ _ _ ?c ?m ?p] => destruct (report_failure_writes c m p s)
    as (s' & r & l & E & _ & Hw & Hr) end.
  exists s', r, (written ++ l). unfold writes in Hw. rewrite Hw, Hl, <-app_assoc. split_and!; [done|done|].
  destruct r as [[]|x]; cbn.
  - exists written, l. auto.
  - rewrite not_elem_of_app. destruct Hr as (? & ?). auto.
Qed.

Lemma session_closes session_id w :
  exists w' r written,
    ExecuteStreamSession now send_all segment request_id plane_name resolution rc policy session_id w =
      Some (w', r) /\ log w' = log w ++ written /\ left_stream r written.
Proof.
  unfold ExecuteStreamSession. set (s0 := mkSessionState w _).
  assert (exists t s1, session_clock now s0 = Some (s1, Ok t) /\ log (st_world s1) = log w) as (t & s1 & Hc & L1).
  { unfold session_clock, on_world. pose proof (now_log w) as Hn. cbn [s0 st_world]. destruct (now w) as [t w1].
    by eexists t, _. }
  rewrite (bind_some _ _ _ _ _ Hc).
  set (opening := send_or_throw send_all "session_started" _).
  set (segments := stream_segments _ _ _ _ _ _ _ _ _ _).
  assert (Hfail : forall e s l, log (st_world s) = log w ++ l -> BuildDoneFrame ∉ l ->
    exists w' r written, match fail_session send_all request_id plane_name e s with
      | Some (s, Ok _) => Some (st_world s, Ok (st_session s))
      | Some (s, Throw e) => Some (st_world s, Throw e)
      | None => None end = Some (w', r) /\ log w' = log w ++ written /\ left_stream r written).
  { intros e s l Hl Hn. destruct (fail_session_closes e s l w Hl Hn) as (s' & r & all & -> & Hw & Hr).
    destruct r as [[]|x]; by do 3 eexists. }
  assert (Hopen : open_ended (opening;; segments;; on_session resolve_status)).
  { apply open_bind; [apply open_send|intros _]. apply open_bind; [apply open_segments|intros _].
    apply open_modify. }
  assert (Hret : returns (opening;; segments;; on_session resolve_status)).
  { apply returns_bind; [|intros _; apply returns_bind].
    - unfold opening, send_or_throw, send. returns_tac.
    - apply segments_return. unfold session_fuel. lia.
    - by intros _ s. }
  set (report := report_session _ _ _ _ _).
  assert (Heq : (opening;; segments;; on_session resolve_status;; report) s1 =
    ((opening;; segments;; on_session resolve_status) ≫= fun _ => report) s1).
  { unfold mbind, action_bind. by destruct (opening s1) as [[? [?|?]]|]; [destruct (segments _) as [[? [?|?]]|]|..]. }
  destruct ((opening;; segments;; on_session resolve_status) s1) as [[s2 r2]|] eqn:E2; [|by apply Hret in E2].
  destruct (Hopen _ _ _ E2) as (l2 & W2 & N2). unfold writes in W2. rewrite L1 in W2.
  unfold mbind at 4, action_bind at 4 in Heq. rewrite E2 in Heq.
  destruct r2 as [[]|e]; [|rewrite (catch_some _ _ _ _ _ Heq); by apply (Hfail e s2 l2)].
  destruct (report_session_writes s2) as (s3 & r3 & l3 & E3 & _ & W3 & H3). fold report in E3. rewrite E3 in Heq.
  rewrite (catch_some _ _ _ _ _ Heq). unfold writes in W3. rewrite W2, <-app_assoc in W3. destruct r3 as [[]|e].
  - do 3 eexists. split_and!; [reflexivity|exact W3|]. by exists l2, l3.
  - apply (Hfail e s3 (l2 ++ l3)); [done|by rewrite not_elem_of_app].
Qed.
End observed.

(** ** Duplicates *)

(** Any segment that shows something is taken for a repetition of itself. *)
Lemma own_duplicate segments summary :
  NormalizeDedupKey (sg_text summary) <> [] ->
  IsDuplicateContinuationSegment (segments ++ [summary]) (sg_text summary) = true.
Proof.
  intros Hn. unfold IsDuplicateContinuationSegment. rewrite last_snoc.
  destruct (NormalizeDedupKey (sg_text summary)) as [|c l]; [done|]. cbn [vec_empty negb andb]. apply eqb_refl.
Qed.

(** ** Reporting leaves the session alone *)

Section reporting.
Context `{JsonLibrary} {W : Type} (send_all : text -> W -> W * bool)
  (request_id plane_name : string) (resolution : PlaneInteractionResolution) (rc : InteractionRequestContext).

Definition reports {A} (m : action (SessionState W) A) : Prop :=
  forall s, exists s' r, m s = Some (s', r) /\ st_session s' = st_session s.
Lemma reports_bind {A B} (m : action (SessionState W) A) (f : A -> action (SessionState W) B) :
  reports m -> (forall a, reports (f a)) -> reports (m ≫= f).
Proof.
  intros Hm Hf s. destruct (Hm s) as (s1 & r & E & Hs). unfold mbind, action_bind. rewrite E.
  destruct r as [a|e]; [|by exists s1, (Throw e)]. destruct (Hf a s1) as (s2 & r2 & E2 & Hs2).
  exists s2, r2. split; [done|congruence].
Qed.
Lemma reports_world {A} (f : W -> W * result A) : reports (on_world f).
Proof. intros s. unfold on_world. destruct (f (st_world s)) as [w r]. by do 2 eexists. Qed.
Lemma reports_get {A} (f : SessionState W -> A) : reports (get f).
Proof. intros s. by do 2 eexists. Qed.
Lemma reports_lift {A} (r : result A) : reports (lift (S := SessionState W) r).
Proof. intros s. by do 2 eexists. Qed.

Lemma reports_failure code message payload :
  reports (report_failure send_all request_id plane_name code message payload).
Proof.
  unfold report_failure, send, finish_stream.
  repeat first [apply reports_get|apply reports_world|apply reports_lift|apply reports_bind; [|intros ?]].
Qed.
Lemma reports_session : reports (report_session send_all request_id plane_name resolution rc).
Proof.
  unfold report_session. apply reports_bind; [apply reports_get|intros session]. cbn zeta.
  destruct (_ && (_ !=? "completed")); [apply reports_failure|]. destruct (_ && negb _); [apply reports_failure|].
  unfold send, finish_stream.
  repeat first [apply reports_lift|apply reports_world|apply reports_bind; [|intros ?]].
Qed.
End reporting.

(** * Claims *)

(** C20. A streamed segment reaches the client clean and whole.  The runtime sends any pieces of
    text as [delta] events and then a [complete] event with its figures, and perhaps the end
    mark, which is what the infer runtime sends; the connection delivers this as it is or in HTTP
    chunks, cut at any places; and the client takes what it is sent.  Then the client is sent
    exactly the concatenation of the pieces without the completion markers, and the segment
    reports the same text, whether there was a marker, and the figures of the final event.
    (Streams of OpenAI [message] frames, which are sanitised, are outside.) *)
Theorem streamed_segment_exact `{JsonLibrary} {W} (now : W -> Z * W) send_delta (sent : W -> text) policy identity
    build open close fallback stod payload body stream segment_index w frames ts last final finish
    prompt completion total marked :
  (forall w, sent (now w).2 = sent w) ->
  (forall model delta w, (send_delta model delta w).2 = Ok true /\
     sent (send_delta model delta w).1 = sent w ++ delta) ->
  (forall w, sent (close w) = sent w) ->
  (forall w, sent (open body w).1 = sent w /\ (open body w).2 = Ok stream) ->
  ip_completion_marker policy <> [] -> build payload true = Ok body ->
  Forall2 carries frames ts -> completes last final -> final_payload final finish prompt completion total ->
  Forall event_ok (frames ++ [last]) ->
  delivers stream (frames_text (frames ++ [last]) ++ (if marked : bool then BuildDoneFrame else [])) ->
  let shown := strip (ip_completion_marker policy) (concat ts) in
  exists w' r, execute_streamed_segment now build open close fallback send_delta stod policy identity false
      payload segment_index w = Some (w', Ok r) /\
    sent w' = sent w ++ shown /\ ss_cleaned_text r = shown /\ sg_text (ss_summary r) = shown /\
    sg_index (ss_summary r) = segment_index /\
    sg_marker_seen (ss_summary r) = contains (ip_completion_marker policy) (concat ts) /\
    sg_finish_reason (ss_summary r) = finish /\ sg_prompt_tokens (ss_summary r) = prompt /\
    sg_completion_tokens (ss_summary r) = completion /\ sg_total_tokens (ss_summary r) = total.
Proof.
  intros Hnow Hdelta Hclose Hopen Hm Hb Hts Hl Hf Hok Hdel shown.
  by apply (segment_relayed now send_delta sent Hnow Hdelta policy identity Hm build open close fallback stod Hclose
    payload body stream segment_index w frames ts last final finish prompt completion total marked).
Qed.

(** C24. A streamed session is closed, provided that its segments return: whatever the
    runtime, the client and the clock do, the session ends.  Either it returns a result,
    and then the end mark is the last thing the client is sent and is sent once, and the
    two events before it say that the session is complete or that it failed; or it throws,
    and then the end mark was never sent and the reason is that an event which reports
    the failure could not be serialised. *)
Theorem stream_session_closes `{JsonLibrary} {W} (now : W -> Z * W) send_all segment request_id
    plane_name resolution rc policy (log : W -> list text) session_id w :
  (forall w, log (now w).2 = log w) ->
  (forall frame w, log (send_all frame w).1 = log w ++ [frame]) ->
  (forall payload i w, exists w' r l, segment payload i w = Some (w', r) /\ log w' = log w ++ l /\
     BuildDoneFrame ∉ l) ->
  exists w' r written,
    ExecuteStreamSession now send_all segment request_id plane_name resolution rc policy session_id w =
      Some (w', r) /\ log w' = log w ++ written /\
    match r with
    | Ok _ => exists body closing, written = body ++ closing /\ (BuildDoneFrame ∉ body) /\
        (closes "session_complete" "complete" closing \/ closes "session_failed" "error" closing)
    | Throw e => (BuildDoneFrame ∉ written) /\ unreportable e
    end.
Proof.
  intros Hn He Hs. apply (session_closes now send_all segment request_id plane_name resolution rc
    policy log Hn He).
  - intros payload i w0 w1 r E. destruct (Hs payload i w0) as (w2 & r2 & l & E2 & Hl). rewrite E in E2.
    injection E2 as <- <-. by exists l.
  - intros payload i w0 E. destruct (Hs payload i w0) as (w2 & r2 & l & E2 & _). by rewrite E in E2.
Qed.

(** A streamed session never continues: as long as its events can be written and the segments
    it receives show any text at all, it stops after the first one as if that repeated an earlier one, whatever the policy and
    however the segment ended; the client is sent no event that the segment is complete. *)
Theorem stream_session_never_continues `{JsonLibrary} {W} (now : W -> Z * W) send_all segment request_id
    plane_name resolution rc policy session_id w :
  (forall frame w, (send_all frame w).2 = true) -> (forall payload, is_ok (dump payload) = true) ->
  (forall payload i w, exists w' r, segment payload i w = Some (w', Ok r) /\
     NormalizeDedupKey (sg_text (ss_summary r)) <> []) ->
  exists w' s summary,
    ExecuteStreamSession now send_all segment request_id plane_name resolution rc policy session_id w =
      Some (w', Ok s) /\
    sr_segments s = [summary] /\ sr_continuation_count s = 0 /\ sr_completion_status s = "completed" /\
    sr_stop_reason s = "duplicate_continuation_segment".
Proof.
  intros Hsend Hdump Hseg. unfold ExecuteStreamSession. set (s0 := mkSessionState w _).
  assert (Hsent : forall name payload s, exists s', send send_all name payload s = Some (s', Ok true) /\
    st_session s' = st_session s).
  { intros name payload s. unfold send, BuildEventFrame. pose proof (Hdump payload) as Hp.
    destruct (dump payload) as [text|]; [|done]. unfold lift, on_world, mbind, action_bind. cbn.
    match goal with |- context [send_all ?f (st_world s)] => pose proof (Hsend f (st_world s)) as Hs;
      destruct (send_all f (st_world s)) as [w1 b] end. cbn in Hs. subst b. by eexists. }
  assert (Hev : forall name payload s, exists s', send_or_throw send_all name payload s = Some (s', Ok tt) /\
    st_session s' = st_session s).
  { intros name payload s. unfold send_or_throw. destruct (Hsent name payload s) as (s' & E & Hs).
    rewrite (bind_some _ _ _ _ _ E). by exists s'. }
  assert (failure_ok : forall code message p s, exists s',
    report_failure send_all request_id plane_name code message p s = Some (s', Ok tt) /\ st_session s' = st_session s).
  { intros code message p s. unfold report_failure. rewrite (bind_some _ _ s s (st_session s)) by done.
    match goal with |- context [send send_all "session_failed" ?p1] =>
      destruct (Hsent "session_failed" p1 s) as (s1 & E1 & S1) end. rewrite (bind_some _ _ _ _ _ E1).
    match goal with |- context [send send_all "error" ?p1] =>
      destruct (Hsent "error" p1 s1) as (s2 & E2 & S2) end. rewrite (bind_some _ _ _ _ _ E2).
    unfold finish_stream, on_world. eexists. split; [reflexivity|]. cbn. congruence. }
  assert (Hclock : forall s, exists t s', session_clock now s = Some (s', Ok t) /\ st_session s' = st_session s).
  { intros s. unfold session_clock, on_world. destruct (now (st_world s)) as [t w1]. by do 2 eexists. }
  destruct (Hclock s0) as (t0 & s1 & Hc & S1). rewrite (bind_some _ _ _ _ _ Hc).
  match goal with |- context [send_or_throw send_all "session_started" ?p] =>
    destruct (Hev "session_started" p s1) as (s2 & E2 & S2) end.
  assert (Hsegs : exists s3 summary, stream_segments now send_all segment request_id rc policy (session_fuel policy)
      t0 0 (rq_payload rc) s2 = Some (s3, Ok tt) /\ sr_segments (st_session s3) = [summary] /\
      sr_continuation_count (st_session s3) = 0 /\ sr_completion_status (st_session s3) = "completed" /\
      sr_stop_reason (st_session s3) = "duplicate_continuation_segment").
  { assert (S0 : st_session s2 = InteractionSessionResult_default session_id) by (rewrite S2, S1; done).
    destruct (session_fuel policy); cbn [stream_segments];
      rewrite (bind_some _ _ s2 s2 (sr_session_id (st_session s2))) by done;
      (match goal with |- context [send_or_throw send_all "segment_started" ?p] =>
        destruct (Hev "segment_started" p s2) as (s3 & E3 & S3) end); rewrite (bind_some _ _ _ _ _ E3);
      destruct (Hseg (rq_payload rc) 0 (st_world s3)) as (w4 & seg & E4 & Hn);
      rewrite (bind_some _ _ s3 (mkSessionState w4 (st_session s3)) seg)
        by (unfold run_streamed_segment; by rewrite E4);
      destruct (Hclock (mkSessionState w4 (st_session s3))) as (t & s5 & E5 & S5);
      rewrite (bind_some _ _ _ _ _ E5);
      cbn in S5;
      rewrite (bind_some _ _ s5 (mkSessionState (st_world s5)
        (add_streamed_segment seg (elapsed_ms t0 t) (st_session s5))) tt) by done;
      rewrite (bind_some _ _ _ (mkSessionState (st_world s5)
        (add_streamed_segment seg (elapsed_ms t0 t) (st_session s5)))
        (sr_segments (st_session s5) ++ [ss_summary seg])) by done;
      rewrite own_duplicate by done; rewrite S5, S3, S0; by do 2 eexists. }
  destruct Hsegs as (s3 & summary & E3 & G1 & G2 & G3 & G4).
  match goal with |- context [catch ?m ?h s1] => assert (exists s4, catch m h s1 = Some (s4, Ok tt) /\
    st_session s4 = st_session s3) as (s4 & -> & S4) end.
  { unfold catch. rewrite (bind_some _ _ _ _ _ E2), (bind_some _ _ _ _ _ E3).
    assert (Hres : on_session resolve_status s3 = Some (s3, Ok tt)).
    { unfold on_session, modify, resolve_status. rewrite G3. by destruct s3. }
    rewrite (bind_some _ _ _ _ _ Hres).
    destruct (reports_session send_all request_id plane_name resolution rc s3) as (s4 & r & -> & S4).
    destruct r as [[]|e]; [by exists s4|]. unfold fail_session.
    match goal with |- context [report_failure _ _ _ ?c ?m ?p] =>
      destruct (failure_ok c m p s4) as (s5 & -> & S5) end.
    exists s5. split; [done|congruence]. }
  exists (st_world s4), (st_session s4), summary. by rewrite S4.
Qed.

(** ** Witnesses *)

Definition dumped (j : json) : text := match dump (JsonLibrary := tree_json) j with Ok t => bytes t | Throw _ => [] end.
Definition demo_delta (content : string) : InteractionSseFrame :=
  mkInteractionSseFrame (bytes "delta") (dumped (JObject [("delta", JString content)])).
Definition demo_frames : list InteractionSseFrame := [demo_delta "o"; demo_delta "k"].
Definition demo_last : InteractionSseFrame := mkInteractionSseFrame (bytes "complete") (dumped (JObject [])).
Definition demo_body : text := frames_text (demo_frames ++ [demo_last]) ++ BuildDoneFrame.
Definition demo_stream : InteractionStreamingUpstreamConnection :=
  mkInteractionStreamingUpstreamConnection false ∅ (take 100 demo_body) [Ok (drop 100 demo_body)].

Ltac decided := apply (bool_decide_unpack _); vm_compute; exact I.
Ltac event_decided := split; [decided|decided|reflexivity|decided].

Lemma streamed_segment_exact_witness :
  exists w' r, execute_streamed_segment (H := tree_json) (fun w => (0, w)) (fun _ _ => Ok "{}")
      (fun _ w => (w, Ok demo_stream)) (fun w => w) (fun _ w => (w, Throw "unused"))
      (fun _ delta w => (w ++ delta, Ok true)) (fun _ => None) DefaultChatPolicy ModelIdentity_default false
      (JObject []) 0 [] = Some (w', Ok r) /\ w' = bytes "ok".
Proof.
  destruct (streamed_segment_exact (H := tree_json) (fun w => (0, w)) (fun _ delta w => (w ++ delta, Ok true))
    (fun w => w) DefaultChatPolicy ModelIdentity_default (fun _ _ => Ok "{}") (fun _ w => (w, Ok demo_stream))
    (fun w => w) (fun _ w => (w, Throw "unused")) (fun _ => None) (JObject []) "{}" demo_stream 0 []
    demo_frames [bytes "o"; bytes "k"] demo_last (JObject []) "stop" 0 0 0 true) as (w' & r & E & Hw & _).
  - reflexivity.
  - intros. split; reflexivity.
  - reflexivity.
  - intros. split; reflexivity.
  - discriminate.
  - reflexivity.
  - repeat constructor; try (vm_compute; discriminate); do 3 eexists;
      (split; [vm_compute; reflexivity|split; [reflexivity|split; reflexivity]]).
  - split; [reflexivity|]. split; [vm_compute; discriminate|vm_compute; reflexivity].
  - exists (JObject []), "". split_and!; try reflexivity. intros d. by exists d.
  - apply Forall_cons_2; [event_decided|]. apply Forall_cons_2; [event_decided|].
    apply Forall_cons_2; [event_decided|]. apply Forall_nil_2.
  - apply (delivers_plain _ _ [drop 100 demo_body]); [reflexivity|reflexivity| |vm_compute; reflexivity].
    apply Forall_cons_2; [vm_compute; discriminate|apply Forall_nil_2].
  - exists w', r. split; [exact E|]. rewrite Hw. vm_compute. reflexivity.
Defined.

Definition demo_resolution : PlaneInteractionResolution :=
  mkPlaneInteractionResolution DesiredState_default None None (JObject []).
Definition demo_request : InteractionRequestContext := InteractionRequestContext_default "req-1".
Definition demo_segment (content : text) : StreamedInteractionSegmentResult :=
  mkStreamedInteractionSegmentResult
    (mkInteractionSegmentSummary 0 0 content "length" 3 512 515 0 0 0 0 0 false) "demo" content
    false "none" 0 0 (double_of_Z 1).
(** A client that takes everything; the world is what it was sent. *)
Definition demo_send (frame : text) (w : list text) : list text * bool := (w ++ [frame], true).

Lemma stream_session_closes_witness :
  exists w' s, ExecuteStreamSession (H := tree_json) (fun w => (0, w)) demo_send
      (fun _ _ w => Some (w, Throw "read timed out")) "req-1" "demo" demo_resolution demo_request DefaultChatPolicy
      "sess-1" [] = Some (w', Ok s) /\
    last w' = Some BuildDoneFrame.
Proof.
  destruct (stream_session_closes (H := tree_json) (fun w => (0, w)) demo_send
    (fun _ _ w => Some (w, Throw "read timed out")) "req-1" "demo" demo_resolution demo_request DefaultChatPolicy
    (fun w => w) "sess-1" []) as (w' & r & written & E & Hl & Hc).
  - reflexivity.
  - reflexivity.
  - intros payload i w. exists w, (Throw "read timed out"), []. rewrite app_nil_r.
    split; [reflexivity|]. split; [reflexivity|apply not_elem_of_nil].
  - destruct r as [s|e]; [|destruct Hc as (_ & name & payload & _ & Hx); discriminate Hx].
    exists w', s. split; [exact E|]. rewrite Hl. destruct Hc as (body & closing & -> & _ & Hc).
    destruct Hc as [(p1 & p2 & f1 & f2 & _ & _ & ->)|(p1 & p2 & f1 & f2 & _ & _ & ->)];
      change ([] ++ body ++ [f1; f2; BuildDoneFrame]) with (body ++ [f1; f2; BuildDoneFrame]);
      rewrite last_app; reflexivity.
Defined.

Lemma stream_session_never_continues_witness :
  exists w' s summary, ExecuteStreamSession (H := tree_json) (fun w => (0, w)) demo_send
      (fun _ _ w => Some (w, Ok (demo_segment (bytes "one")))) "req-1" "demo" demo_resolution demo_request
      (NormalizeConfiguredPolicy demo_policy) "sess-1" [] = Some (w', Ok s) /\ sr_segments s = [summary] /\
    sr_stop_reason s = "duplicate_continuation_segment".
Proof.
  destruct (stream_session_never_continues (H := tree_json) (fun w => (0, w)) demo_send
    (fun _ _ w => Some (w, Ok (demo_segment (bytes "one")))) "req-1" "demo" demo_resolution demo_request
    (NormalizeConfiguredPolicy demo_policy) "sess-1" []) as (w' & s & summary & E & Hs & _ & _ & Hr).
  - reflexivity.
  - reflexivity.
  - intros payload i w. exists w, (demo_segment (bytes "one")). split; [reflexivity|vm_compute; discriminate].
  - by exists w', s, summary.
Defined.
