(* ===== verification/V2Validator.v ===== *)
(** * Validation of version 2 documents

    [common/src/state/desired_state_v2_validator.cpp]: the checks a version 2
    desired state passes before it is rendered.  A check returns [Ok tt] or the
    message of the exception; the checks of a method run in the order of the
    source.  [V2Renderer] builds the state of an accepted document. *)

From S2P Require Import Prelude Binary64 Json.

(** ** Checks *)

(** [if (!ok) throw std::runtime_error("desired-state v2 " + message)]. *)
Definition require (ok : bool) (message : string) : result unit :=
  if ok then Ok tt else Throw ("desired-state v2 " +:+ message).

Definition is_boolean (value : json) : bool := match value with JBool _ => true | _ => false end.
Definition is_number_integer (value : json) : bool := match value with JInt _ => true | _ => false end.
Definition is_number (value : json) : bool :=
  match value with JInt _ | JDouble _ => true | _ => false end.
Definition is_null (value : json) : bool := match value with JNull => true | _ => false end.
Definition contains (value : json) (key : string) : bool := has_value (member value key).

(** [if (value.contains(key) && !ok(value.at(key))) throw]. *)
Definition require_member (ok : json -> bool) (value : json) (key message : string) : result unit :=
  require (from_option ok true (member value key)) message.

(** [if (!value.contains(key) || !ok(value.at(key))) throw], giving [value.at(key)]. *)
Definition required_member (ok : json -> bool) (value : json) (key message : string) : result json :=
  match member value key with
  | Some x => _ ← require (ok x) message; Ok x
  | None => Throw ("desired-state v2 " +:+ message)
  end.

(** A check of a member that may be absent. *)
Definition with_member (check : json -> result unit) (value : json) (key : string) : result unit :=
  match member value key with Some x => check x | None => Ok tt end.

Section validator.
Context `{Lib : !JsonLibrary}.

Definition FieldEnabledByDefault (service_json : json) (default_value : bool) : result bool :=
  json_value get_bool service_json "enabled" default_value.

Definition kTurboQuantDefaultCacheTypeK : string := "turbo4".
Definition kTurboQuantDefaultCacheTypeV : string := "turbo4".

Definition IsSupportedTurboQuantCacheType (value : string) : bool :=
  any_of (eqb value) ["f16"; "turbo3"; "turbo4"].

Definition PlacementExecutionNodeName (placement : json) : result (option string) :=
  execution_node ← json_value get_string placement "execution_node" "";
  legacy_primary_node ← json_value get_string placement "primary_node" "";
  if negb (str_empty execution_node) && negb (str_empty legacy_primary_node) &&
     (execution_node !=? legacy_primary_node) then
    Throw "desired-state v2 placement.execution_node conflicts with legacy placement.primary_node"
  else if negb (str_empty execution_node) then Ok (Some execution_node)
  else if negb (str_empty legacy_primary_node) then Ok (Some legacy_primary_node)
  else Ok None.

Definition IsAbsolutePath (value : string) : bool := starts_with "/" value.

Definition is_alpha (ch : Ascii.ascii) : bool :=
  let c := char_code ch in ((65 <=? c) && (c <=? 90)) || ((97 <=? c) && (c <=? 122)).
Definition is_digit (ch : Ascii.ascii) : bool := let c := char_code ch in (48 <=? c) && (c <=? 57).

Definition IsValidEnvName (value : string) : bool :=
  match list_of_string value with
  | [] => false
  | front :: _ =>
      (is_alpha front || Ascii.eqb front "_") &&
      forallb (fun ch => is_alpha ch || is_digit ch || Ascii.eqb ch "_") (list_of_string value)
  end.

(** [value.is_number_integer() && ok(value.get<int>())]. *)
Definition integer_with (ok : Z -> bool) (value : json) : result bool :=
  if is_number_integer value then z ← get_int value; Ok (ok z) else Ok false.
Definition require_integer (ok : Z -> bool) (value : json) (key message : string) : result unit :=
  with_member (fun x => good ← integer_with ok x; require good message) value key.

(** [item.is_string() && ok(item.get<std::string>())]. *)
Definition string_with (ok : string -> bool) (item : json) : result bool :=
  if is_string item then text ← get_string item; Ok (ok text) else Ok false.

(** The non-empty texts of an array, each at most once. *)
Definition unique_text (bad repeated : string) (seen : gset string) (item : json)
    : result (gset string) :=
  good ← string_with (fun text => negb (str_empty text)) item;
  _ ← require good bad;
  text ← get_string item;
  _ ← require (negb (bool_decide (text ∈ seen))) repeated;
  Ok ({[text]} ∪ seen).
Definition unique_texts (bad repeated : string) (values : list json) : result (gset string) :=
  foldR (unique_text bad repeated) ∅ values.

Definition near_one (gpu_fraction : double) : bool := negb (dgt (dabs (dsub gpu_fraction d1)) d1e_9).

Definition ValidateGpuResourceBlock (resources : json) (field_name : string)
    (allow_enabled_flags : bool) : result unit :=
  _ ← require (is_object resources) (field_name +:+ " must be an object");
  _ ← (if allow_enabled_flags then
         _ ← require_member is_boolean resources "enabled" (field_name +:+ ".enabled must be a boolean");
         require_member is_boolean resources "gpu_enabled"
           (field_name +:+ ".gpu_enabled must be a boolean")
       else Ok tt);
  _ ← with_member (fun x =>
        _ ← require (is_string x) (field_name +:+ ".share_mode must be a string");
        share_mode ← get_string x;
        require (any_of (eqb share_mode) ["exclusive"; "shared"; "best-effort"])
          (field_name +:+ ".share_mode must be exclusive, shared, or best-effort"))
      resources "share_mode";
  _ ← with_member (fun x =>
        _ ← require (is_number x) (field_name +:+ ".gpu_fraction must be a number");
        gpu_fraction ← get_double x;
        require (negb (dle gpu_fraction d0 || dgt gpu_fraction d1))
          (field_name +:+ ".gpu_fraction must be in (0, 1]"))
      resources "gpu_fraction";
  share_mode ← json_value get_string resources "share_mode" "";
  _ ← (if share_mode ==? "exclusive" then
         with_member (fun x =>
           gpu_fraction ← get_double x;
           require (near_one gpu_fraction)
             (field_name +:+ ".gpu_fraction must be 1.0 when share_mode=exclusive"))
         resources "gpu_fraction"
       else Ok tt);
  _ ← require_integer (fun z => 0 <? z) resources "memory_cap_mb"
        (field_name +:+ ".memory_cap_mb must be a positive integer");
  _ ← require_integer (fun z => 0 <=? z) resources "priority"
        (field_name +:+ ".priority must be a non-negative integer");
  require_member is_boolean resources "preemptible" (field_name +:+ ".preemptible must be a boolean").

(** The checks of [source.paths] shared by the model mounts. *)
Definition check_source_paths (field_name : string) (source : json) : result unit :=
  with_member (fun paths =>
    _ ← require (is_array paths) (field_name +:+ ".source.paths must be an array");
    foldR (fun _ path =>
      good ← string_with IsAbsolutePath path;
      require good (field_name +:+ ".source.paths items must be absolute paths")) tt (items paths))
  source "paths".

(** [ValidateVoiceListenerModel] and [ValidateVoiceMakerModel], which differ in
    the field name and the default variable. *)
Definition ValidateVoiceModel (field_name default_env : string) (model : json) : result unit :=
  _ ← require (is_object model) (field_name +:+ " must be an object");
  source ← required_member is_object model "source" (field_name +:+ ".source must be an object");
  source_type ← json_value get_string source "type" "";
  _ ← require (source_type ==? "library") (field_name +:+ ".source.type must be library");
  path ← json_value get_string source "path" "";
  _ ← require (IsAbsolutePath path) (field_name +:+ ".source.path must be an absolute path");
  _ ← check_source_paths field_name source;
  _ ← require_member is_string source "node" (field_name +:+ ".source.node must be a string");
  mount_path ← json_value get_string model "mount_path" "";
  _ ← require (IsAbsolutePath mount_path) (field_name +:+ ".mount_path must be an absolute path");
  _ ← require_member is_string model "env" (field_name +:+ ".env must be a string");
  env_name ← json_value get_string model "env" default_env;
  _ ← require (str_empty env_name || IsValidEnvName env_name)
        (field_name +:+ ".env must be a valid environment variable name");
  require_member is_boolean model "required" (field_name +:+ ".required must be a boolean").

Definition ValidateVoiceListenerModel : json -> result unit :=
  ValidateVoiceModel "features.voice_listener.model" "WHISPER_MODEL_PATH".
Definition ValidateVoiceMakerModel : json -> result unit :=
  ValidateVoiceModel "features.voice_maker.model" "OMNIVOICE_MODEL_PATH".

(** ** The methods of the validator, on the document [value_] *)

Definition plane_mode_of (value : json) : result string :=
  json_value get_string value "plane_mode" "llm".

Definition RequireObject (value : json) (field_name : string) : result json :=
  x ← json_at get_json value field_name;
  _ ← require (is_object x) (field_name +:+ " must be an object");
  Ok x.

Definition LegacyTopologyPlacementEnabled (value : json) : bool :=
  from_option is_object false (member value "topology").

Definition runtime_backend (runtime : json) (engine : string) : result string :=
  json_value get_string runtime "distributed_backend"
    (if engine ==? "llama.cpp" then "llama_rpc" else "local").

Definition ValidateTopLevel (value : json) : result unit :=
  _ ← require (is_object value) "must be a JSON object";
  version ← json_value get_int value "version" 0;
  _ ← require (version =? 2) "requires version=2";
  plane_name ← json_value get_string value "plane_name" "";
  _ ← require (negb (str_empty plane_name)) "requires non-empty plane_name";
  _ ← required_member is_object value "runtime" "requires runtime object";
  Ok tt.

(** [value.contains(key) && value.at(key).is_array() && !value.at(key).empty()]. *)
Definition non_empty_array (value : json) (key : string) : bool :=
  match member value key with
  | Some x => is_array x && negb (vec_empty (items x))
  | None => false
  end.

Definition validate_materialization (source : json) (source_type : string) (materialization : json)
    : result unit :=
  mode ← json_value get_string materialization "mode" "";
  _ ← (if mode ==? "reference" then
         local_path ← json_value get_string materialization "local_path" "";
         if str_empty local_path then
           path ← json_value get_string source "path" "";
           require (negb (str_empty path))
             "reference materialization requires local_path or source.path"
         else Ok tt
       else Ok tt);
  _ ← (if mode ==? "prepare_on_worker" then
         _ ← require ((source_type ==? "library") || (source_type ==? "local"))
               "prepare_on_worker requires library or local model source";
         source_node_name ← json_value get_string materialization "source_node_name" "";
         _ ← require (negb (str_empty source_node_name))
               "prepare_on_worker requires materialization.source_node_name";
         require (non_empty_array materialization "source_paths")
           "prepare_on_worker requires non-empty materialization.source_paths"
       else Ok tt);
  require_member is_object materialization "writeback"
    "model.materialization.writeback must be an object".

Definition ValidateModel (value : json) : result unit :=
  plane_mode ← plane_mode_of value;
  match member value "model" with
  | None => require (plane_mode !=? "llm") "requires model for plane_mode=llm"
  | Some model =>
      _ ← require (is_object model) "model must be an object";
      source ← required_member is_object model "source" "model requires source object";
      source_type ← json_value get_string source "type" "";
      _ ← require (negb (str_empty source_type)) "model.source requires type";
      _ ← (if any_of (eqb source_type) ["catalog"; "huggingface"; "library"] then
             ref ← json_value get_string source "ref" "";
             require (negb (str_empty ref))
               "model.source.ref is required for catalog/huggingface/library models"
           else Ok tt);
      _ ← (if source_type ==? "url" then
             url ← json_value get_string source "url" "";
             require (negb (str_empty url) || non_empty_array source "urls")
               "url model requires source.url or non-empty source.urls"
           else Ok tt);
      _ ← (if source_type ==? "local" then
             path ← json_value get_string source "path" "";
             if str_empty path then
               ref ← json_value get_string source "ref" "";
               require (negb (str_empty ref)) "local model requires source.path or source.ref"
             else Ok tt
           else Ok tt);
      _ ← (if plane_mode ==? "llm" then
             served_model_name ← json_value get_string model "served_model_name" "";
             require (negb (str_empty served_model_name)) "LLM model requires served_model_name"
           else Ok tt);
      with_member (fun materialization =>
        if is_object materialization then validate_materialization source source_type materialization
        else Ok tt) model "materialization"
  end.

Definition validate_context_policy (policy : json) : result unit :=
  _ ← require_member is_boolean policy "include_graph"
        "knowledge.context_policy.include_graph must be a boolean";
  _ ← require_integer (fun z => (0 <=? z) && (z <=? 2)) policy "max_graph_depth"
        "knowledge.context_policy.max_graph_depth must be 0..2";
  require_integer (fun z => 0 <? z) policy "token_budget"
    "knowledge.context_policy.token_budget must be positive".

Definition validate_knowledge (value knowledge : json) : result unit :=
  _ ← require (is_object knowledge) "knowledge must be an object";
  _ ← require_member is_boolean knowledge "enabled" "knowledge.enabled must be a boolean";
  _ ← require_member is_string knowledge "service_id" "knowledge.service_id must be a string";
  _ ← require_member is_string knowledge "selection_mode" "knowledge.selection_mode must be a string";
  selection_mode ← json_value get_string knowledge "selection_mode" "latest";
  _ ← require (selection_mode ==? "latest") "knowledge.selection_mode supports latest only";
  _ ← require_member is_array knowledge "selected_knowledge_ids"
        "knowledge.selected_knowledge_ids must be an array";
  _ ← with_member (fun ids =>
        require (forallb is_string (items ids))
          "knowledge.selected_knowledge_ids entries must be strings")
      knowledge "selected_knowledge_ids";
  _ ← require_member is_object knowledge "context_policy" "knowledge.context_policy must be an object";
  _ ← with_member validate_context_policy knowledge "context_policy";
  enabled ← json_value get_bool knowledge "enabled" false;
  if (enabled : bool) then
    plane_mode ← plane_mode_of value;
    require (plane_mode ==? "llm") "knowledge requires plane_mode=llm"
  else Ok tt.

Definition validate_voice_listener (plane_mode : string) (voice_listener : json) : result unit :=
  _ ← require (is_object voice_listener) "features.voice_listener must be an object";
  _ ← require_member is_boolean voice_listener "enabled"
        "features.voice_listener.enabled must be a boolean";
  enabled ← json_value get_bool voice_listener "enabled" false;
  _ ← require_member is_string voice_listener "wake_phrase"
        "features.voice_listener.wake_phrase must be a string";
  _ ← require_member is_string voice_listener "language"
        "features.voice_listener.language must be a string";
  _ ← require_member is_string voice_listener "image" "features.voice_listener.image must be a string";
  if (enabled : bool) then
    _ ← require (plane_mode ==? "llm") "features.voice_listener requires plane_mode=llm";
    wake_phrase ← json_value get_string voice_listener "wake_phrase" "Hey Jex";
    _ ← require (negb (str_empty wake_phrase)) "features.voice_listener.wake_phrase must be non-empty";
    model ← required_member (fun _ => true) voice_listener "model"
              "features.voice_listener requires model when enabled";
    ValidateVoiceListenerModel model
  else with_member ValidateVoiceListenerModel voice_listener "model".

Definition is_string_or_null (value : json) : bool := is_string value || is_null value.

Definition validate_turboquant (value : json) (plane_mode : string) (turboquant : json) : result unit :=
  _ ← require (is_object turboquant) "features.turboquant must be an object";
  enabled ← json_value get_bool turboquant "enabled" false;
  _ ← require_member is_string_or_null turboquant "cache_type_k"
        "features.turboquant.cache_type_k must be a string";
  _ ← require_member is_string_or_null turboquant "cache_type_v"
        "features.turboquant.cache_type_v must be a string";
  if (enabled : bool) then
    runtime ← json_at get_json value "runtime";
    engine ← json_value get_string runtime "engine" "";
    distributed_backend ← runtime_backend runtime engine;
    _ ← require ((plane_mode ==? "llm") && (engine ==? "llama.cpp") &&
                 (distributed_backend ==? "llama_rpc"))
          ("features.turboquant requires plane_mode=llm with " +:+
           "runtime.engine=llama.cpp and runtime.distributed_backend=llama_rpc");
    cache_type_k ← json_value get_string turboquant "cache_type_k" kTurboQuantDefaultCacheTypeK;
    cache_type_v ← json_value get_string turboquant "cache_type_v" kTurboQuantDefaultCacheTypeV;
    _ ← require (IsSupportedTurboQuantCacheType cache_type_k)
          "features.turboquant.cache_type_k has unsupported value";
    require (IsSupportedTurboQuantCacheType cache_type_v)
      "features.turboquant.cache_type_v has unsupported value"
  else Ok tt.

Definition validate_context_compression (plane_mode : string) (context_compression : json)
    : result unit :=
  _ ← require (is_object context_compression) "features.context_compression must be an object";
  enabled ← json_value get_bool context_compression "enabled" false;
  _ ← require_member is_string_or_null context_compression "mode"
        "features.context_compression.mode must be a string";
  _ ← require_member is_string_or_null context_compression "target"
        "features.context_compression.target must be a string";
  _ ← require_member is_string_or_null context_compression "memory_priority"
        "features.context_compression.memory_priority must be a string";
  _ ← require (negb ((enabled : bool) && (plane_mode !=? "llm")))
        "features.context_compression requires plane_mode=llm";
  mode ← json_value get_string context_compression "mode" "auto";
  target ← json_value get_string context_compression "target" "dialog_and_knowledge";
  memory_priority ← json_value get_string context_compression "memory_priority" "balanced";
  _ ← require (mode ==? "auto") "features.context_compression.mode supports auto only";
  _ ← require (target ==? "dialog_and_knowledge")
        "features.context_compression.target supports dialog_and_knowledge only";
  require (memory_priority ==? "balanced")
    "features.context_compression.memory_priority supports balanced only".

Definition validate_secured_connection (secured_connection : json) : result unit :=
  _ ← require (is_object secured_connection) "features.secured_connection must be an object";
  _ ← require_member is_boolean secured_connection "enabled"
        "features.secured_connection.enabled must be a boolean";
  _ ← require_member is_array secured_connection "user_ids"
        "features.secured_connection.user_ids must be an array";
  user_ids ←
    match member secured_connection "user_ids" with
    | Some x =>
        unique_texts "features.secured_connection.user_ids entries must be non-empty strings"
          "features.secured_connection.user_ids entries must be unique" (items x)
    | None => Ok ∅
    end;
  enabled ← json_value get_bool secured_connection "enabled" false;
  require (negb ((enabled : bool) && bool_decide (user_ids = ∅)))
    "features.secured_connection requires at least one user_id when enabled".

Definition validate_voice_maker (plane_mode : string) (voice_maker : json) : result unit :=
  _ ← require (is_object voice_maker) "features.voice_maker must be an object";
  _ ← require_member is_boolean voice_maker "enabled" "features.voice_maker.enabled must be a boolean";
  enabled ← json_value get_bool voice_maker "enabled" false;
  _ ← require_member is_string voice_maker "language" "features.voice_maker.language must be a string";
  _ ← require_member is_string voice_maker "voice_mode"
        "features.voice_maker.voice_mode must be a string";
  _ ← require_member is_string voice_maker "instruct" "features.voice_maker.instruct must be a string";
  _ ← require_member is_string voice_maker "format" "features.voice_maker.format must be a string";
  _ ← require_member is_string voice_maker "image" "features.voice_maker.image must be a string";
  if (enabled : bool) then
    _ ← require (plane_mode ==? "llm") "features.voice_maker requires plane_mode=llm";
    model ← required_member (fun _ => true) voice_maker "model"
              "features.voice_maker requires model when enabled";
    ValidateVoiceMakerModel model
  else with_member ValidateVoiceMakerModel voice_maker "model".

Definition ValidateFeatures (value : json) : result unit :=
  _ ← with_member (validate_knowledge value) value "knowledge";
  if contains value "features" then
    features ← RequireObject value "features";
    plane_mode ← plane_mode_of value;
    _ ← with_member (validate_voice_listener plane_mode) features "voice_listener";
    _ ← with_member (validate_turboquant value plane_mode) features "turboquant";
    _ ← with_member (validate_context_compression plane_mode) features "context_compression";
    _ ← with_member validate_secured_connection features "secured_connection";
    with_member (validate_voice_maker plane_mode) features "voice_maker"
  else Ok tt.

Definition ValidateRuntime (value : json) : result unit :=
  runtime ← json_at get_json value "runtime";
  plane_mode ← plane_mode_of value;
  engine ← json_value get_string runtime "engine" "";
  _ ← require (negb (str_empty engine)) "runtime requires engine";
  workers_ok ← match member runtime "workers" with
               | Some x => integer_with (fun z => 0 <? z) x
               | None => Ok false
               end;
  _ ← require workers_ok "runtime.workers must be a positive integer";
  data_parallel_mode ← json_value get_string runtime "data_parallel_mode" "off";
  distributed_backend ← runtime_backend runtime engine;
  _ ← require (negb ((plane_mode ==? "llm") && (engine !=? "llama.cpp")))
        "llm planes require runtime.engine=llama.cpp";
  _ ← require (negb ((plane_mode ==? "llm") && (distributed_backend !=? "llama_rpc")))
        "llm planes require runtime.distributed_backend=llama_rpc";
  _ ← require (data_parallel_mode ==? "off")
        ("no longer supports data_parallel_mode; use infer.replicas with " +:+
         "llama.cpp runtime.distributed_backend=llama_rpc");
  _ ← require (negb (contains runtime "data_parallel_lb_mode"))
        ("no longer supports data_parallel_lb_mode; use infer.replicas with " +:+
         "llama.cpp runtime.distributed_backend=llama_rpc");
  let llama_rpc := (engine ==? "llama.cpp") && (distributed_backend ==? "llama_rpc") in
  _ ← (if llama_rpc then
         workers ← json_at get_int runtime "workers";
         require (0 <? workers) "llama_rpc runtime requires at least one worker"
       else Ok tt);
  require (negb (llama_rpc && contains runtime "data_parallel_lb_mode"))
    "llama_rpc runtime does not use data_parallel_lb_mode".

(** [json.contains(key) && json.at(key).is_string() && !json.at(key).get<std::string>().empty()]. *)
Definition has_text (value : json) (key : string) : result bool :=
  match member value key with
  | Some x => string_with (fun text => negb (str_empty text)) x
  | None => Ok false
  end.

Definition validate_app_host (app_host : json) : result unit :=
  _ ← require (is_object app_host) "placement.app_host must be an object";
  address ← json_value get_string app_host "address" "";
  _ ← require (negb (str_empty address)) "placement.app_host.address must be a non-empty string";
  has_ssh_key ← has_text app_host "ssh_key_path";
  has_username ← has_text app_host "username";
  has_password ← has_text app_host "password";
  let uses_password_auth := (has_username : bool) || (has_password : bool) in
  _ ← require ((has_ssh_key : bool) || uses_password_auth)
        "placement.app_host requires ssh_key_path or username/password";
  _ ← require (negb (has_ssh_key && uses_password_auth))
        "placement.app_host cannot mix ssh_key_path with username/password";
  require (negb (uses_password_auth && negb (has_username && has_password)))
    "placement.app_host username/password must be provided together".

Definition ValidatePlacement (value : json) : result unit :=
  if contains value "placement" then
    placement ← RequireObject value "placement";
    _ ← require_member is_string placement "execution_node" "placement.execution_node must be a string";
    _ ← require_member is_string placement "primary_node"
          "placement.primary_node legacy alias must be a string";
    execution_node ← PlacementExecutionNodeName placement;
    _ ← require (has_value execution_node) "placement.execution_node must be a non-empty string";
    with_member validate_app_host placement "app_host"
  else Ok tt.

Definition validate_node (node_names : gset string) (node : json) : result (gset string) :=
  _ ← require (is_object node) "topology.nodes items must be objects";
  node_name ← json_value get_string node "name" "";
  _ ← require (negb (str_empty node_name)) "topology node requires name";
  _ ← require (negb (bool_decide (node_name ∈ node_names))) "topology node names must be unique";
  Ok ({[node_name]} ∪ node_names).

Definition ValidateTopology (value : json) : result unit :=
  if contains value "topology" then
    topology ← RequireObject value "topology";
    nodes ← required_member (fun _ => true) topology "nodes" "topology requires nodes array";
    _ ← require (is_array nodes && negb (vec_empty (items nodes)))
          "topology.nodes must be a non-empty array";
    _ ← foldR validate_node ∅ (items nodes);
    Ok tt
  else Ok tt.

Definition reject_legacy_service_node (service_name : string) (service_json : option json)
    : result unit :=
  match service_json with
  | Some service =>
      require (negb (is_object service && contains service "node"))
        (service_name +:+ ".node requires topology.nodes compatibility mode")
  | None => Ok tt
  end.

Definition ValidateLegacyPlacementCompatibility (value : json) : result unit :=
  if LegacyTopologyPlacementEnabled value then Ok tt
  else
    _ ← reject_legacy_service_node "infer" (member value "infer");
    _ ← reject_legacy_service_node "worker" (member value "worker");
    _ ← reject_legacy_service_node "app" (member value "app");
    _ ← reject_legacy_service_node "skills" (member value "skills");
    _ ← reject_legacy_service_node "webgateway"
          (if contains value "webgateway" then member value "webgateway" else member value "browsing");
    with_member (fun worker =>
      require (negb (is_object worker && contains worker "assignments"))
        "worker.assignments requires topology.nodes compatibility mode") value "worker".

Definition ValidateStartBlock (service_json : json) (service_name : string) : result unit :=
  with_member (fun start =>
    _ ← require (is_object start) (service_name +:+ ".start must be an object");
    start_type ← json_value get_string start "type" "";
    _ ← (if start_type ==? "script" then
           script_ref ← json_value get_string start "script_ref" "";
           require (negb (str_empty script_ref)) (service_name +:+ ".start.script_ref is required")
         else Ok tt);
    if start_type ==? "command" then
      command ← json_value get_string start "command" "";
      require (negb (str_empty command)) (service_name +:+ ".start.command is required")
    else Ok tt) service_json "start".

(** The last resort of [KnownNodeExecutionMode]: the execution node of the placement. *)
Definition placement_mode_of (value : json) (node_name : string) : result (option string) :=
  match member value "placement" with
  | Some placement =>
      if is_object placement then
        execution_node ← PlacementExecutionNodeName placement;
        Ok (if value_or execution_node "" ==? node_name then Some "mixed" else None)
      else Ok None
  | None => Ok None
  end.

(** The loop over [topology.nodes]. *)
Fixpoint listed_node_mode (node_name : string) (nodes : list json) : result (option string) :=
  match nodes with
  | [] => Ok None
  | node :: rest =>
      name ← json_value get_string node "name" "";
      if name ==? node_name then
        mode ← json_value get_string node "execution_mode" "mixed"; Ok (Some mode)
      else listed_node_mode node_name rest
  end.

Definition KnownNodeExecutionMode (value : json) (node_name : string) : result (option string) :=
  match member value "topology" with
  | Some topology =>
      if is_object topology then
        match member topology "nodes" with
        | Some nodes =>
            if is_array nodes then
              mode ← listed_node_mode node_name (items nodes);
              match mode with
              | Some mode => Ok (Some mode)
              | None => placement_mode_of value node_name
              end
            else placement_mode_of value node_name
        | None => placement_mode_of value node_name
        end
      else placement_mode_of value node_name
  | None => placement_mode_of value node_name
  end.

Definition ValidateNodeRoleCompatibility (value : json) (node_name service_name required_role : string)
    : result unit :=
  mode ← KnownNodeExecutionMode value node_name;
  match mode with
  | None => Throw ("desired-state v2 " +:+ service_name +:+ " references unknown node '" +:+
                   node_name +:+ "'")
  | Some mode =>
      if any_of (eqb required_role) ["infer"; "app"; "skills"; "browsing"; "webgateway"] then
        require (mode !=? "worker-only")
          (service_name +:+ " cannot target worker-only node '" +:+ node_name +:+ "'")
      else
        require (negb ((required_role ==? "worker") && (mode ==? "infer-only")))
          (service_name +:+ " cannot target infer-only node '" +:+ node_name +:+ "'")
  end.

(** [contains("node") && at("node").is_string()]: the node of a service exists
    and takes services of its role. *)
Definition check_service_node (value service_json : json) (service_name role : string) : result unit :=
  with_member (fun x =>
    if is_string x then
      node_name ← get_string x; ValidateNodeRoleCompatibility value node_name service_name role
    else Ok tt) service_json "node".

Definition validate_replicas (runtime : json) (llama_rpc : bool) (replicas_json : json) : result unit :=
  good ← integer_with (fun z => 0 <? z) replicas_json;
  _ ← require good "infer.replicas must be a positive integer";
  _ ← require llama_rpc ("infer.replicas is currently supported only for llama.cpp " +:+
                         "runtime.distributed_backend=llama_rpc");
  workers ← json_at get_int runtime "workers";
  replicas ← get_int replicas_json;
  require (Z.rem workers replicas =? 0)
    "infer.replicas requires runtime.workers to be divisible by replicas".

Definition ValidateInfer (value : json) : result unit :=
  plane_mode ← plane_mode_of value;
  runtime ← json_at get_json value "runtime";
  engine ← json_value get_string runtime "engine" "";
  distributed_backend ← runtime_backend runtime engine;
  _ ← (if plane_mode ==? "llm" then
         infer ← required_member is_object value "infer"
                   "llm planes require infer object with replicas";
         require (contains infer "replicas")
           "llm planes require infer.replicas for llama replica-parallel layout"
       else Ok tt);
  if contains value "infer" then
    infer ← RequireObject value "infer";
    _ ← require_member is_string infer "node" "infer.node must be a string";
    _ ← check_service_node value infer "infer" "infer";
    _ ← with_member (validate_replicas runtime
           ((engine ==? "llama.cpp") && (distributed_backend ==? "llama_rpc"))) infer "replicas";
    ValidateStartBlock infer "infer"
  else Ok tt.

Definition ValidateWorkerResources (value : json) : result unit :=
  with_member (fun resources =>
    _ ← require (is_object resources) "resources must be an object";
    with_member (fun x => ValidateGpuResourceBlock x "resources.worker" false) resources "worker")
  value "resources".

Definition validate_assignment (value : json) (_ : unit) (assignment : json) : result unit :=
  _ ← require (is_object assignment) "worker.assignments items must be objects";
  node ← required_member is_string assignment "node" "worker.assignments items require string node";
  node_name ← get_string node;
  _ ← ValidateNodeRoleCompatibility value node_name "worker assignment" "worker";
  require_member is_string assignment "gpu_device" "worker.assignments gpu_device must be a string".

Definition validate_assignments (value assignments : json) : result unit :=
  _ ← require (is_array assignments) "worker.assignments must be an array";
  runtime ← json_at get_json value "runtime";
  expected_workers ← json_at get_int runtime "workers";
  _ ← require (Z.of_nat (length (items assignments)) =? expected_workers)
        "worker.assignments size must match runtime.workers";
  foldR (validate_assignment value) tt (items assignments).

Definition ValidateWorker (value : json) : result unit :=
  if contains value "worker" then
    worker ← RequireObject value "worker";
    _ ← require_member is_string worker "node" "worker.node must be a string";
    _ ← require_member is_string worker "gpu_device" "worker.gpu_device must be a string";
    _ ← with_member (validate_assignments value) worker "assignments";
    _ ← check_service_node value worker "worker" "worker";
    _ ← ValidateStartBlock worker "worker";
    ValidateWorkerResources value
  else ValidateWorkerResources value.

Definition ValidateVoiceModuleResources (value : json) : result unit :=
  with_member (fun resources =>
    _ ← require (is_object resources) "resources must be an object";
    _ ← with_member (fun x => ValidateGpuResourceBlock x "resources.voice_module" true)
          resources "voice_module";
    _ ← with_member (fun x => ValidateGpuResourceBlock x "resources.voice_listener" true)
          resources "voice_listener";
    with_member (fun x => ValidateGpuResourceBlock x "resources.voice_maker" true)
      resources "voice_maker")
  value "resources".

(** One entry of [models], with the names and mount paths seen so far. *)
Definition validate_app_model (field_name : string) (seen : gset string * gset string) (model : json)
    : result (gset string * gset string) :=
  let models := field_name +:+ ".models[]" in
  _ ← require (is_object model) (field_name +:+ ".models items must be objects");
  name ← json_value get_string model "name" "";
  _ ← require (negb (str_empty name)) (models +:+ " requires name");
  _ ← require (negb (bool_decide (name ∈ seen.1))) (models +:+ " names must be unique");
  source ← required_member is_object model "source" (models +:+ ".source must be an object");
  source_type ← json_value get_string source "type" "";
  _ ← require (source_type ==? "library") (models +:+ ".source.type must be library");
  source_path ← json_value get_string source "path" "";
  _ ← require (IsAbsolutePath source_path) (models +:+ ".source.path must be an absolute path");
  _ ← check_source_paths models source;
  _ ← require_member is_string source "node" (models +:+ ".source.node must be a string");
  mount_path ← json_value get_string model "mount_path" "";
  _ ← require (IsAbsolutePath mount_path) (models +:+ ".mount_path must be an absolute path");
  _ ← require (negb (bool_decide (mount_path ∈ seen.2))) (models +:+ ".mount_path values must be unique");
  _ ← require_member is_string model "env" (models +:+ ".env must be a string");
  env_name ← json_value get_string model "env" "";
  _ ← require (str_empty env_name || IsValidEnvName env_name)
        (models +:+ ".env must be a valid environment variable name");
  _ ← require_member is_boolean model "required" (models +:+ ".required must be a boolean");
  Ok ({[name]} ∪ seen.1, {[mount_path]} ∪ seen.2).

Definition ValidateSingleAppSpec (value app : json) (field_name : string) (require_name : bool)
    : result unit :=
  enabled ← FieldEnabledByDefault app true;
  if negb (enabled : bool) then Ok tt
  else
    _ ← (if require_name then
           name ← json_value get_string app "name" "";
           require (negb (str_empty name)) (field_name +:+ " requires name")
         else Ok tt);
    _ ← require_member is_string app "node" (field_name +:+ ".node must be a string");
    _ ← check_service_node value app "app" "app";
    image ← json_value get_string app "image" "";
    _ ← require (negb (str_empty image)) ("enabled " +:+ field_name +:+ " requires image");
    _ ← ValidateStartBlock app "app";
    _ ← with_member (fun volumes =>
          _ ← require (is_array volumes) (field_name +:+ ".volumes must be an array");
          require (length (items volumes) <=? 1)%nat "currently supports at most one app volume")
        app "volumes";
    with_member (fun models =>
      _ ← require (is_array models) (field_name +:+ ".models must be an array");
      _ ← foldR (validate_app_model field_name) (∅, ∅) (items models);
      Ok tt) app "models".

(** One entry of [apps], with the number of primary apps and the names so far. *)
Definition validate_app (value : json) (acc : Z * gset string) (app : json)
    : result (Z * gset string) :=
  let '(primary_count, names) := acc in
  _ ← require (is_object app) "apps entries must be objects";
  _ ← ValidateSingleAppSpec value app "apps[]" true;
  primary ← json_value get_bool app "primary" false;
  name ← json_value get_string app "name" "";
  _ ← require (str_empty name || negb (bool_decide (name ∈ names))) "apps names must be unique";
  Ok (if (primary : bool) then primary_count + 1 else primary_count,
      if str_empty name then names else {[name]} ∪ names).

Definition ValidateApp (value : json) : result unit :=
  _ ← require (negb (contains value "app" && contains value "apps")) "cannot mix app and apps";
  match member value "app", member value "apps" with
  | None, None => Ok tt
  | Some _, _ =>
      app ← RequireObject value "app";
      ValidateSingleAppSpec value app "app" false
  | None, Some apps =>
      _ ← require (is_array apps && negb (vec_empty (items apps))) "apps must be a non-empty array";
      seen ← foldR (validate_app value) (0, ∅) (items apps);
      require (seen.1 <=? 1) "apps supports at most one primary app"
  end.

Definition ValidateSkills (value : json) : result unit :=
  if contains value "skills" then
    skills ← RequireObject value "skills";
    plane_mode ← plane_mode_of value;
    _ ← require (plane_mode ==? "llm") "skills are supported only for plane_mode=llm";
    skills_enabled ← FieldEnabledByDefault skills false;
    _ ← require (negb (negb (skills_enabled : bool) && contains skills "factory_skill_ids"))
          "skills.factory_skill_ids require skills.enabled=true";
    if negb skills_enabled then Ok tt
    else
      _ ← with_member (fun ids =>
            _ ← require (is_array ids) "skills.factory_skill_ids must be an array";
            _ ← unique_texts "skills.factory_skill_ids items must be non-empty strings"
                  "skills.factory_skill_ids items must be unique" (items ids);
            Ok tt) skills "factory_skill_ids";
      _ ← require_member is_string skills "node" "skills.node must be a string";
      _ ← check_service_node value skills "skills" "skills";
      ValidateStartBlock skills "skills"
  else Ok tt.

(** The [webgateway] object, under its new or its old name. *)
Definition browsing_member (value : json) : option json :=
  match member value "webgateway" with
  | Some x =>
      if is_object x then Some x
      else match member value "browsing" with
           | Some y => if is_object y then Some y else None
           | None => None
           end
  | None =>
      match member value "browsing" with
      | Some y => if is_object y then Some y else None
      | None => None
      end
  end.

Definition validate_publish_entry (_ : unit) (entry : json) : result unit :=
  _ ← require (is_object entry) "webgateway.publish entries must be objects";
  with_member (fun x =>
    _ ← require (is_string x) "webgateway.publish.host_ip must be a string";
    host_ip ← get_string x;
    require (str_empty host_ip || (host_ip ==? "127.0.0.1") || (host_ip ==? "::1"))
      "webgateway.publish.host_ip must stay on loopback") entry "host_ip".

Definition validate_domain_list (policy : json) (field_name : string) : result unit :=
  let field := "webgateway.policy." +:+ field_name in
  with_member (fun x =>
    _ ← require (is_array x) (field +:+ " must be an array");
    _ ← unique_texts (field +:+ " items must be non-empty strings") (field +:+ " items must be unique")
          (items x);
    Ok tt) policy field_name.

Definition validate_browsing_policy (policy : json) : result unit :=
  _ ← require (is_object policy) "webgateway.policy must be an object";
  _ ← foldR (fun _ field =>
        require_member is_boolean policy field ("webgateway.policy." +:+ field +:+ " must be a boolean"))
      tt ["cef_enabled"; "browser_session_enabled"; "rendered_browser_enabled"; "login_enabled";
          "response_review_enabled"];
  _ ← require_member is_string policy "policy_version" "webgateway.policy.policy_version must be a string";
  _ ← validate_domain_list policy "allowed_domains";
  _ ← validate_domain_list policy "blocked_domains";
  _ ← validate_domain_list policy "blocked_targets";
  _ ← require_integer (fun z => 0 <? z) policy "max_search_results"
        "webgateway.policy.max_search_results must be a positive integer";
  require_integer (fun z => 0 <? z) policy "max_fetch_bytes"
    "webgateway.policy.max_fetch_bytes must be a positive integer".

Definition ValidateBrowsing (value : json) : result unit :=
  match browsing_member value with
  | None => Ok tt
  | Some browsing =>
      plane_mode ← plane_mode_of value;
      _ ← require (plane_mode ==? "llm") "webgateway is supported only for plane_mode=llm";
      browsing_enabled ← FieldEnabledByDefault browsing false;
      if negb (browsing_enabled : bool) then Ok tt
      else
        _ ← require_member is_string browsing "node" "webgateway.node must be a string";
        _ ← check_service_node value browsing "webgateway" "webgateway";
        _ ← with_member (fun publish =>
              _ ← require (is_array publish) "webgateway.publish must be an array";
              foldR validate_publish_entry tt (items publish)) browsing "publish";
        _ ← with_member validate_browsing_policy browsing "policy";
        ValidateStartBlock browsing "webgateway"
  end.

Definition ValidateHooks (value : json) : result unit :=
  if contains value "hooks" then _ ← RequireObject value "hooks"; Ok tt else Ok tt.

Definition ValidateOrThrow (value : json) : result unit :=
  _ ← ValidateTopLevel value;
  _ ← ValidateModel value;
  _ ← ValidateFeatures value;
  _ ← ValidateRuntime value;
  _ ← ValidatePlacement value;
  _ ← ValidateTopology value;
  _ ← ValidateLegacyPlacementCompatibility value;
  _ ← ValidateInfer value;
  _ ← ValidateWorker value;
  _ ← ValidateVoiceModuleResources value;
  _ ← ValidateApp value;
  _ ← ValidateSkills value;
  _ ← ValidateBrowsing value;
  ValidateHooks value.
End validator.
