(* ===== verification/V2Renderer.v ===== *)
(** * Rendering of version 2 documents

    [common/src/state/desired_state_v2_renderer.cpp]: from an accepted version 2
    document to the desired state of the plane.  [RendererJson] holds the JSON
    members of the C++ class.  The methods that fill scalar parts of [state_]
    return those parts and are put together by [render_base]; the methods that
    add instances and disks read that state and return what they append, and
    [RenderState] appends in the order of the source.  An exception of any of
    them is the [Throw] of the whole. *)

From S2P Require Import Prelude Binary64 Json Models Fixtures WorkerTopology Planner RuntimeStatus StateCodecs StateJson Paths InferRuntimeConfig V2Validator.

(** ** Constants *)

Definition kDesiredStateV2BundlePrefix : string := "bundle://".
Definition kDefaultSharedDiskSizeGb : Z := 40.
Definition kDefaultInferPrivateDiskSizeGb : Z := 12.
Definition kDefaultWorkerPrivateDiskSizeGb : Z := 2.
Definition kDefaultAppPrivateDiskSizeGb : Z := 8.
Definition kDefaultSkillsPrivateDiskSizeGb : Z := 1.
Definition kDefaultWebGatewayPrivateDiskSizeGb : Z := 1.
Definition kDefaultInteractionPrivateDiskSizeGb : Z := 1.
Definition kDefaultVoiceModulePrivateDiskSizeGb : Z := 1.
Definition kDefaultVoiceMakerPrivateDiskSizeGb : Z := 8.
Definition kSkillsContainerPort : Z := 18120.
Definition kSkillsPublishedPortBase : Z := 24000.
Definition kWebGatewayContainerPort : Z := 18130.
Definition kWebGatewayPublishedPortBase : Z := 34000.
Definition kInteractionContainerPort : Z := 18110.
Definition kInteractionPublishedPortBase : Z := 44000.
Definition kVoiceModuleContainerPort : Z := 18140.
Definition kVoiceModulePublishedPortBase : Z := 54000.
Definition kVoiceMakerContainerPort : Z := 18150.
Definition kVoiceMakerPublishedPortBase : Z := 55000.
(** The span of every range of published ports. *)
Definition kPublishedPortSpan : Z := 10000.
(** The literals [0.2] and [0.25]. *)
Definition kDefaultVoiceModuleGpuFraction : double :=
  SpecFloat.S754_finite false 7205759403792794 (-55).
Definition kDefaultVoiceModuleGpuPriority : Z := 50.
Definition kDefaultVoiceMakerGpuFraction : double :=
  SpecFloat.S754_finite false 4503599627370496 (-54).
Definition kDefaultVoiceMakerGpuPriority : Z := 45.

(** ** JSON access *)

(** [value.contains(key) && value.at(key).is_object() ? value.at(key) : json::object()]. *)
Definition object_of (value : json) (key : string) : json :=
  match member value key with
  | Some x => if is_object x then x else JObject []
  | None => JObject []
  end.

(** [if (value.contains(key) && value.at(key).is_string()) field = value.at(key)]
    on a field that starts empty. *)
Definition string_member `{Lib : !JsonLibrary} (value : json) (key : string) : result (option string) :=
  match member value key with
  | Some x => if is_string x then text ← get_string x; Ok (Some text) else Ok None
  | None => Ok None
  end.

(** The members of the renderer that are fixed by its constructor. *)
Record RendererJson := mkRendererJson {
  value_ : json;
  infer_json_ : json;
  worker_json_ : json;
  resources_json_ : json;
  worker_resources_json_ : json;
  voice_module_resources_json_ : json;
  voice_maker_resources_json_ : json;
  app_json_ : json;
  apps_json_ : list json;
  skills_json_ : json;
  browsing_json_ : json;
  knowledge_json_ : json;
  features_json_ : json;
}.

Section renderer.
Context `{Lib : !JsonLibrary}.

(** [std::find_if] for the app flagged as primary, or the first app. *)
Fixpoint primary_app (front : json) (apps : list json) : result json :=
  match apps with
  | [] => Ok front
  | app_json :: rest =>
      primary ← json_value get_bool app_json "primary" false;
      if (primary : bool) then Ok app_json else primary_app front rest
  end.

Definition collect_apps (value : json) : list json :=
  match member value "apps" with
  | Some apps =>
      if is_array apps then List.filter is_object (items apps)
      else match member value "app" with
           | Some app => if is_object app then [app] else []
           | None => []
           end
  | None =>
      match member value "app" with
      | Some app => if is_object app then [app] else []
      | None => []
      end
  end.

Definition DesiredStateV2Renderer (value : json) : result RendererJson :=
  let resources_json := object_of value "resources" in
  let apps_json := collect_apps value in
  app_json ← match apps_json with
             | front :: _ => primary_app front apps_json
             | [] => Ok (JObject [])
             end;
  Ok {| value_ := value;
        infer_json_ := object_of value "infer";
        worker_json_ := object_of value "worker";
        resources_json_ := resources_json;
        worker_resources_json_ := object_of resources_json "worker";
        voice_module_resources_json_ :=
          (if from_option is_object false (member resources_json "voice_module")
           then object_of resources_json "voice_module"
           else object_of resources_json "voice_listener");
        voice_maker_resources_json_ := object_of resources_json "voice_maker";
        app_json_ := app_json;
        apps_json_ := apps_json;
        skills_json_ := object_of value "skills";
        browsing_json_ :=
          (if from_option is_object false (member value "webgateway")
           then object_of value "webgateway" else object_of value "browsing");
        knowledge_json_ := object_of value "knowledge";
        features_json_ := object_of value "features" |}.

(** ** Names, paths and commands *)

Definition StripBundleRefPrefix (value : string) : string :=
  if starts_with kDesiredStateV2BundlePrefix value
  then String.substring 9 (String.length value - 9) value else value.

(** [static_cast<char>('a' + index)], a conversion modulo 256. *)
Definition letter (index : Z) : string :=
  String (Ascii.ascii_of_N (Z.to_N ((97 + index) `mod` 256))) "".

Definition BuildWorkerName (plane_name : string) (index total_workers : Z) : string :=
  if total_workers <=? 1 then "worker-" +:+ plane_name
  else "worker-" +:+ plane_name +:+ "-" +:+ letter index.
Definition BuildPlaneSharedDiskName (plane_name : string) : string :=
  "plane-" +:+ plane_name +:+ "-shared".
Definition BuildInferInstanceName (plane_name : string) (infer_index : Z) : string :=
  if infer_index =? 0 then "infer-" +:+ plane_name
  else "infer-" +:+ plane_name +:+ "-" +:+ letter (infer_index - 1).
Definition BuildSkillsInstanceName (plane_name : string) : string := "skills-" +:+ plane_name.
Definition BuildWebGatewayInstanceName (plane_name : string) : string := "webgateway-" +:+ plane_name.
Definition BuildInteractionInstanceName (plane_name : string) : string := "interaction-" +:+ plane_name.
Definition BuildVoiceModuleInstanceName (plane_name : string) : string := "voice-module-" +:+ plane_name.
Definition BuildVoiceMakerInstanceName (plane_name : string) : string := "voice-maker-" +:+ plane_name.

Definition BuildPlaneSharedHostPath (plane_name : string) : string :=
  "/var/lib/naim/disks/planes/" +:+ plane_name +:+ "/shared".
Definition BuildInstancePrivateHostPath (instance_name : string) : string :=
  "/var/lib/naim/disks/instances/" +:+ instance_name +:+ "/private".

(** The characters of [NormalizeAppNameToken] before the hyphens at both ends
    are removed. *)
Definition token_char (ch : Ascii.ascii) : list Ascii.ascii :=
  let c := char_code ch in
  if ((97 <=? c) && (c <=? 122)) || ((48 <=? c) && (c <=? 57)) then [ch]
  else if (65 <=? c) && (c <=? 90) then [Ascii.ascii_of_N (Z.to_N (c - 65 + 97))]
  else if Ascii.eqb ch "-" || Ascii.eqb ch "_" then ["-"%char] else [].
Fixpoint drop_hyphens (token : list Ascii.ascii) : list Ascii.ascii :=
  match token with
  | ch :: rest => if Ascii.eqb ch "-" then drop_hyphens rest else token
  | [] => []
  end.
Definition NormalizeAppNameToken (value : string) : string :=
  let token := drop_hyphens (flat_map token_char (list_of_string value)) in
  let token := rev (drop_hyphens (rev token)) in
  if vec_empty token then "extra" else string_of_list token.

Definition BuildAppInstanceName (plane_name app_name : string) (primary : bool) : string :=
  if primary then "app-" +:+ plane_name
  else "app-" +:+ plane_name +:+ "-" +:+ NormalizeAppNameToken app_name.

(** [path.filename()], and [substr(find_last_of('/') + 1)]: the text after the
    last separator. *)
Fixpoint after_last_slash (l cur : list Ascii.ascii) : list Ascii.ascii :=
  match l with
  | [] => cur
  | c :: rest => if Ascii.eqb c "/" then after_last_slash rest rest else after_last_slash rest cur
  end.
Definition filename (path : string) : string :=
  string_of_list (after_last_slash (list_of_string path) (list_of_string path)).

Definition BuildAppModelHostPath (plane_name instance_name model_name mount_path source_path : string)
    : string :=
  let name := or_else (or_else (filename mount_path) (filename source_path)) "model" in
  BuildPlaneSharedHostPath plane_name +:+ "/app-models/" +:+ instance_name +:+ "/" +:+
  NormalizeAppNameToken model_name +:+ "/" +:+ name.

Definition BuildAppCommandFromScriptRef (script_ref : string) : string :=
  if str_empty script_ref then ""
  else if starts_with "/" script_ref then script_ref
  else "/app/" +:+ filename (StripBundleRefPrefix script_ref).

Definition BuildCommandFromStartSpec (service_json : json) (default_command : string) : result string :=
  start ← json_value get_json service_json "start" (JObject []);
  if negb (is_object start) then Ok default_command
  else
    start_type ← json_value get_string start "type" "command";
    if start_type ==? "script" then
      script_ref ← json_value get_string start "script_ref" "";
      Ok (BuildAppCommandFromScriptRef script_ref)
    else
      command ← json_value get_string start "command" "";
      Ok (or_else command default_command).

Definition published_port (base : Z) (plane_name instance_name : string) : Z :=
  base + StablePortHash (plane_name +:+ ":" +:+ instance_name) `mod` kPublishedPortSpan.

(** ** Storage *)

(** [storage], or the first entry of the older volume list. *)
Definition private_storage (service_json : json) (legacy_volume_key : string) : option json :=
  let first_volume :=
    match member service_json legacy_volume_key with
    | Some volumes => if is_array volumes then head (items volumes) else None
    | None => None
    end in
  match member service_json "storage" with
  | Some storage => if is_object storage then Some storage else first_volume
  | None => first_volume
  end.

Definition HasExplicitPrivateStorage (service_json : json) (legacy_volume_key : string) : bool :=
  has_value (private_storage service_json legacy_volume_key).

Definition ExtractPrivateDiskSizeGb (service_json : json) (default_size_gb : Z)
    (legacy_volume_key : string) : result Z :=
  match private_storage service_json legacy_volume_key with
  | Some storage => json_value get_int storage "size_gb" default_size_gb
  | None => Ok default_size_gb
  end.

Definition ExtractPrivateMountPath (service_json : json) (default_mount_path legacy_volume_key : string)
    : result string :=
  match private_storage service_json legacy_volume_key with
  | Some storage => json_value get_string storage "mount_path" default_mount_path
  | None => Ok default_mount_path
  end.

(** The disk that a service instance owns. *)
Definition private_disk (kind : DiskKind) (container_path : string) (instance : InstanceSpec)
    : DiskSpec :=
  {| disk_name := inst_private_disk_name instance;
     disk_kind := kind;
     disk_plane_name := inst_plane_name instance;
     disk_owner_name := inst_name instance;
     disk_node_name := inst_node_name instance;
     disk_host_path := BuildInstancePrivateHostPath (inst_name instance);
     disk_container_path := container_path;
     disk_size_gb := inst_private_disk_size_gb instance |}.

(** ** The parts of the state without instances *)

Context (rj : RendererJson).

(** [if (json.value("enabled", false)) part = FromJson(json)]. *)
Definition if_enabled {A} (from_json : json -> result A) (value : json) : result (option A) :=
  enabled ← json_value get_bool value "enabled" false;
  if (enabled : bool) then part ← from_json value; Ok (Some part) else Ok None.

(** A feature: read only when its block is an enabled object. *)
Definition feature {A} (from_json : json -> result A) (key : string) : result (option A) :=
  match member (features_json_ rj) key with
  | Some x => if is_object x then if_enabled from_json x else Ok None
  | None => Ok None
  end.

(** The identity: name, mode, protection, skills, web gateway and knowledge. *)
Record Identity := mkIdentity {
  id_plane_name : string;
  id_plane_mode : PlaneMode;
  id_protected : bool;
  id_skills : option SkillsSettings;
  id_browsing : option BrowsingSettings;
  id_knowledge : option KnowledgeSettings;
}.

Definition RenderIdentity : result Identity :=
  plane_name ← json_at get_string (value_ rj) "plane_name";
  plane_mode_text ← json_value get_string (value_ rj) "plane_mode" "llm";
  plane_mode ← ParsePlaneMode plane_mode_text;
  protected ← json_value get_bool (value_ rj) "protected" false;
  skills ← if_enabled SkillsSettings_FromJson (skills_json_ rj);
  browsing ← if_enabled BrowsingSettings_FromJson (browsing_json_ rj);
  knowledge ← if_enabled KnowledgeSettings_FromJson (knowledge_json_ rj);
  Ok (mkIdentity plane_name plane_mode protected skills browsing knowledge).

Definition PlacementExecutionNodeName (placement : json) : result string :=
  execution_node ← json_value get_string placement "execution_node" "";
  if negb (str_empty execution_node) then Ok execution_node
  else json_value get_string placement "primary_node" "".

Definition render_app_host (app_host_json : json) : result ExternalAppHostConfig :=
  address ← json_value get_string app_host_json "address" "";
  ssh_key_path ← string_member app_host_json "ssh_key_path";
  username ← string_member app_host_json "username";
  password ← string_member app_host_json "password";
  Ok (mkExternalAppHostConfig address ssh_key_path username password).

Definition RenderPlacement : result (option string * option ExternalAppHostConfig) :=
  match member (value_ rj) "placement" with
  | Some placement =>
      if is_object placement then
        execution_node ← PlacementExecutionNodeName placement;
        app_host ← json_optional_object render_app_host placement "app_host";
        Ok (if str_empty execution_node then None else Some ("node:" +:+ execution_node), app_host)
      else Ok (None, None)
  | None => Ok (None, None)
  end.

Definition render_turboquant (turboquant_json : json) : result TurboQuantFeatureSpec :=
  cache_type_k ← json_value get_string turboquant_json "cache_type_k" kTurboQuantDefaultCacheTypeK;
  cache_type_v ← json_value get_string turboquant_json "cache_type_v" kTurboQuantDefaultCacheTypeV;
  Ok (mkTurboQuantFeatureSpec true (Some cache_type_k) (Some cache_type_v)).

(** The blocks are read as in the interchange format, except the cache types. *)
Definition RenderFeatures : result Features :=
  turboquant ← feature render_turboquant "turboquant";
  context_compression ← feature ContextCompressionFeatureSpec_FromJson "context_compression";
  voice_listener ← feature VoiceListenerFeatureSpec_FromJson "voice_listener";
  voice_maker ← feature VoiceMakerFeatureSpec_FromJson "voice_maker";
  secured_connection ← feature SecuredConnectionFeatureSpec_FromJson "secured_connection";
  Ok (mkFeatures turboquant context_compression voice_listener voice_maker secured_connection).

Definition RenderHooks : result (option string) :=
  match member (value_ rj) "hooks" with
  | Some hooks =>
      if is_object hooks then
        script ← json_optional get_string hooks "post_deploy_script";
        Ok (option_map StripBundleRefPrefix script)
      else Ok None
  | None => Ok None
  end.

(** The source of a model: its id, local path, URL and URLs. *)
Definition render_source (source : json)
    : result (string * option string * option string * list string) :=
  source_type ← json_value get_string source "type" "";
  if any_of (eqb source_type) ["catalog"; "huggingface"; "library"] then
    model_id ← json_value get_string source "ref" "";
    Ok (model_id, None, None, [])
  else if source_type ==? "local" then
    path ← json_value get_string source "path" "";
    model_id ← json_value get_string source "ref" path;
    local_path ← string_member source "path";
    Ok (model_id, local_path, None, [])
  else if source_type ==? "url" then
    model_id ← json_value get_string source "ref" "";
    source_url ← string_member source "url";
    source_urls ← json_array get_strings source "urls";
    Ok (model_id, None, source_url, source_urls)
  else Ok ("", None, None, []).

(** The [writeback] block: enabled, if_missing and the target node. *)
Definition render_writeback (writeback : json) : result (bool * bool * option string) :=
  enabled ← json_value get_bool writeback "enabled" false;
  if_missing ← json_value get_bool writeback "if_missing" true;
  target ← string_member writeback "target_node_name";
  Ok (enabled, if_missing, target).

(** The [materialization] block, on a model that has only its source. *)
Definition render_materialization (model : BootstrapModelSpec) (materialization : json)
    : result BootstrapModelSpec :=
  materialization_mode ←
    json_value get_string materialization "mode"
      (if has_value (boot_local_path model) then "reference" else "copy");
  local_path ← string_member materialization "local_path";
  source_node_name ← string_member materialization "source_node_name";
  source_paths ← json_array get_strings materialization "source_paths";
  source_format ← string_member materialization "source_format";
  source_quantization ← string_member materialization "source_quantization";
  desired_output_format ← string_member materialization "desired_output_format";
  quantization ← string_member materialization "quantization";
  keep_source ← json_value get_bool materialization "keep_source" true;
  writeback ← json_optional_object render_writeback materialization "writeback";
  let '(writeback_enabled, if_missing, target) := default (false, true, None) writeback in
  Ok {| boot_model_id := boot_model_id model;
        boot_served_model_name := boot_served_model_name model;
        boot_materialization_mode := materialization_mode;
        boot_local_path := if has_value local_path then local_path else boot_local_path model;
        boot_source_node_name := source_node_name;
        boot_source_paths := source_paths;
        boot_source_format := source_format;
        boot_source_quantization := source_quantization;
        boot_desired_output_format := desired_output_format;
        boot_quantization := quantization;
        boot_keep_source := keep_source;
        boot_writeback_enabled := writeback_enabled;
        boot_writeback_if_missing := if_missing;
        boot_writeback_target_node_name := target;
        boot_source_url := boot_source_url model;
        boot_source_urls := boot_source_urls model;
        boot_target_filename := boot_target_filename model;
        boot_sha256 := boot_sha256 model |}.

(** A model with its source only. *)
Definition sourced_model (source : string * option string * option string * list string)
    : BootstrapModelSpec :=
  let '(model_id, local_path, source_url, source_urls) := source in
  mkBootstrapModelSpec model_id None "copy" local_path None [] None None None None true false true
    None source_url source_urls None None.

Definition named_model (served_model_name target_filename sha256 : option string)
    (model : BootstrapModelSpec) : BootstrapModelSpec :=
  mkBootstrapModelSpec (boot_model_id model) served_model_name (boot_materialization_mode model)
    (boot_local_path model) (boot_source_node_name model) (boot_source_paths model)
    (boot_source_format model) (boot_source_quantization model) (boot_desired_output_format model)
    (boot_quantization model) (boot_keep_source model) (boot_writeback_enabled model)
    (boot_writeback_if_missing model) (boot_writeback_target_node_name model) (boot_source_url model)
    (boot_source_urls model) target_filename sha256.

Definition render_model (model_json : json) : result BootstrapModelSpec :=
  source ← json_optional_object render_source model_json "source";
  let model := sourced_model (default ("", None, None, []) source) in
  materialized ← json_optional_object (render_materialization model) model_json "materialization";
  served_model_name ← json_value get_string model_json "served_model_name" "";
  target_filename ← string_member model_json "target_filename";
  sha256 ← string_member model_json "sha256";
  Ok (named_model (if str_empty served_model_name then None else Some served_model_name)
        target_filename sha256 (default model materialized)).

Definition RenderModel : result (option BootstrapModelSpec) :=
  json_optional_object render_model (value_ rj) "model".

Definition DefaultCompletionPolicy : CompletionPolicy :=
  mkCompletionPolicy "normal" 512 None 0 512 30000 None.
Definition DefaultLongCompletionPolicy : CompletionPolicy :=
  mkCompletionPolicy "very_long" 1024 None 6 6144 120000
    (Some "complete the requested artifact fully before emitting [[TASK_COMPLETE]]").

Definition completed_interaction (i : InteractionSettings) : InteractionSettings :=
  {| ia_image := ia_image i;
     ia_system_prompt := ia_system_prompt i;
     ia_analysis_system_prompt := ia_analysis_system_prompt i;
     ia_thinking_enabled := ia_thinking_enabled i;
     ia_default_temperature := ia_default_temperature i;
     ia_default_top_p := ia_default_top_p i;
     ia_default_response_language := or_else (ia_default_response_language i) "en";
     ia_supported_response_languages :=
       (if vec_empty (ia_supported_response_languages i) then ["en"; "es"; "pt"; "zh"]
        else ia_supported_response_languages i);
     ia_follow_user_language := ia_follow_user_language i;
     ia_completion_policy := Some (default DefaultCompletionPolicy (ia_completion_policy i));
     ia_long_completion_policy :=
       Some (default DefaultLongCompletionPolicy (ia_long_completion_policy i));
     ia_analysis_completion_policy := ia_analysis_completion_policy i;
     ia_analysis_long_completion_policy := ia_analysis_long_completion_policy i |}.

Definition RenderInteraction : result (option InteractionSettings) :=
  interaction ← json_optional_object InteractionSettings_FromJson (value_ rj) "interaction";
  Ok (option_map completed_interaction interaction).

Definition RenderRuntime : result (InferenceRuntimeSettings * GatewaySettings) :=
  let settings := InferenceRuntimeSettings_default in
  runtime_json ← json_at get_json (value_ rj) "runtime";
  runtime_engine ← json_value get_string runtime_json "engine" "llama.cpp";
  data_parallel_mode ←
    json_value get_string runtime_json "data_parallel_mode" (inf_data_parallel_mode settings);
  data_parallel_lb_mode ←
    json_value get_string runtime_json "data_parallel_lb_mode" (inf_data_parallel_lb_mode settings);
  distributed_backend ←
    json_value get_string runtime_json "distributed_backend"
      (if runtime_engine ==? "llama.cpp" then "llama_rpc" else "local");
  max_model_len ← json_value get_int runtime_json "max_model_len" (inf_max_model_len settings);
  llama_ctx_size ← json_value get_int runtime_json "llama_ctx_size" (inf_llama_ctx_size settings);
  max_num_seqs ← json_value get_int runtime_json "max_num_seqs" (inf_max_num_seqs settings);
  gpu_memory_utilization ←
    json_value get_double runtime_json "gpu_memory_utilization" (inf_gpu_memory_utilization settings);
  tensor_parallel_size ←
    json_value get_int runtime_json "tensor_parallel_size" (inf_tensor_parallel_size settings);
  pipeline_parallel_size ←
    json_value get_int runtime_json "pipeline_parallel_size" (inf_pipeline_parallel_size settings);
  enforce_eager ← json_value get_bool runtime_json "enforce_eager" (inf_enforce_eager settings);
  let network_json := object_of (value_ rj) "network" in
  listen_host ← json_value get_string network_json "listen_host" "0.0.0.0";
  listen_port ← json_value get_int network_json "gateway_port" 80;
  server_name ← json_value get_string network_json "server_name" "_";
  api_port ← json_value get_int network_json "inference_port" (inf_api_port settings);
  rendezvous_port ← json_value get_int network_json "rendezvous_port" (inf_rendezvous_port settings);
  Ok (NormalizeInferenceSettings
        {| inf_primary_infer_node := inf_primary_infer_node settings;
           inf_runtime_engine := runtime_engine;
           inf_data_parallel_mode := data_parallel_mode;
           inf_data_parallel_lb_mode := data_parallel_lb_mode;
           inf_api_server_count := inf_api_server_count settings;
           inf_worker_group_id := inf_worker_group_id settings;
           inf_distributed_backend := distributed_backend;
           inf_worker_selection_policy := "prefer-free-then-share";
           inf_net_if := "eth0";
           inf_models_root := "/naim/shared/models";
           inf_model_cache_dir := "/naim/shared/models/cache";
           inf_runtime_log_dir := "/naim/shared/logs/infer";
           inf_api_port := api_port;
           inf_max_model_len := max_model_len;
           inf_tensor_parallel_size := tensor_parallel_size;
           inf_pipeline_parallel_size := pipeline_parallel_size;
           inf_max_num_seqs := max_num_seqs;
           inf_gpu_memory_utilization := gpu_memory_utilization;
           inf_enforce_eager := enforce_eager;
           inf_gguf_cache_dir := inf_gguf_cache_dir settings;
           inf_infer_log_dir := inf_infer_log_dir settings;
           inf_llama_port := inf_llama_port settings;
           inf_llama_ctx_size := llama_ctx_size;
           inf_llama_threads := inf_llama_threads settings;
           inf_llama_gpu_layers := inf_llama_gpu_layers settings;
           inf_inference_healthcheck_retries := inf_inference_healthcheck_retries settings;
           inf_inference_healthcheck_interval_sec := inf_inference_healthcheck_interval_sec settings;
           inf_rendezvous_port := rendezvous_port |},
      mkGatewaySettings listen_host listen_port server_name).

(** A node that the document lists. *)
Definition render_node (node_json : json) : result NodeInventory :=
  name ← json_at get_string node_json "name";
  platform ← json_value get_string node_json "platform" "linux";
  execution_mode_text ← json_value get_string node_json "execution_mode" "mixed";
  execution_mode ← ParseHostExecutionMode execution_mode_text;
  gpu_memory_mb ← json_optional_object get_int_map node_json "gpu_memory_mb";
  Ok (mkNodeInventory name platform execution_mode [] (default ∅ gpu_memory_mb)).

Definition plain_node (name : string) : NodeInventory := mkNodeInventory name "linux" Mixed [] ∅.

Definition RenderNodeTopology (placement_target : option string) : result (list NodeInventory) :=
  listed ←
    match member (value_ rj) "topology" with
    | Some topology =>
        if is_object topology
        then json_array (fun nodes => mapR render_node (items nodes)) topology "nodes" else Ok []
    | None => Ok []
    end;
  let nodes :=
    match listed, placement_target with
    | [], Some target =>
        if starts_with kNodePrefix target
        then [plain_node (String.substring 5 (String.length target - 5) target)] else []
    | _, _ => listed
    end in
  Ok (if vec_empty nodes then [plain_node "local-hostd"] else nodes).

(** [state_] after [RenderNodeTopology]. *)
Definition render_parts : result DesiredState :=
  identity ← RenderIdentity;
  placement ← RenderPlacement;
  features ← RenderFeatures;
  post_deploy_script ← RenderHooks;
  bootstrap_model ← RenderModel;
  interaction ← RenderInteraction;
  runtime ← RenderRuntime;
  nodes ← RenderNodeTopology placement.1;
  Ok {| ds_plane_name := id_plane_name identity;
        ds_plane_shared_disk_name := BuildPlaneSharedDiskName (id_plane_name identity);
        ds_control_root := "/naim/shared/control/" +:+ id_plane_name identity;
        ds_plane_mode := id_plane_mode identity;
        ds_protected_plane := id_protected identity || has_value (ft_secured_connection features);
        ds_post_deploy_script := post_deploy_script;
        ds_placement_target := placement.1;
        ds_bootstrap_model := bootstrap_model;
        ds_interaction := interaction;
        ds_skills := id_skills identity;
        ds_browsing := id_browsing identity;
        ds_knowledge := id_knowledge identity;
        ds_turboquant := ft_turboquant features;
        ds_context_compression := ft_context_compression features;
        ds_voice_listener := ft_voice_listener features;
        ds_voice_maker := ft_voice_maker features;
        ds_secured_connection := ft_secured_connection features;
        ds_app_host := placement.2;
        ds_inference := runtime.1;
        ds_worker_group := mkWorkerGroupSpec "" "" "llama_rpc" "" 29500 0 "prefer-free-then-share" [];
        ds_gateway := runtime.2;
        ds_runtime_gpu_nodes := [];
        ds_nodes := nodes;
        ds_disks := [];
        ds_instances := [] |}.

(** ** Placement of the services *)

Context (state : DesiredState).

Definition llama_rpc_runtime : bool :=
  (inf_runtime_engine (ds_inference state) ==? "llama.cpp") &&
  (inf_distributed_backend (ds_inference state) ==? "llama_rpc").

Definition InferEnabled : result bool :=
  json_value get_bool (infer_json_ rj) "enabled"
    ((ds_plane_mode state ==? Llm) || (inf_runtime_engine (ds_inference state) ==? "llama.cpp")).

Definition InferReplicaCount : result Z :=
  if negb llama_rpc_runtime then Ok 1
  else replicas ← json_value get_int (infer_json_ rj) "replicas" 1; Ok (Z.max 1 replicas).

Definition WorkerCount : result Z :=
  runtime ← json_at get_json (value_ rj) "runtime";
  json_value get_int runtime "workers" 1.

Definition ExpectedWorkers : result Z := workers ← WorkerCount; Ok (Z.max 1 workers).

Definition DefaultNodeName : result string :=
  match ds_nodes state with
  | [] => Throw "desired-state v2 renderer requires at least one node"
  | node :: _ => Ok (node_name node)
  end.

Definition RequireNode (name context : string) : result NodeInventory :=
  match find_if (fun node => node_name node ==? name) (ds_nodes state) with
  | Some node => Ok node
  | None => Throw ("desired-state v2 " +:+ context +:+ " references unknown node '" +:+ name +:+ "'")
  end.

(** The node a service names, in the compatibility mode with listed nodes. *)
Definition named_node (service_json : json) (service_name : string) : result (option string) :=
  name ← string_member service_json "node";
  match name with
  | Some name => node ← RequireNode name service_name; Ok (Some (node_name node))
  | None => Ok None
  end.

Definition ResolveLegacyServiceNodeName (service_json : json) (service_name : string)
    : result (option string) :=
  if LegacyTopologyPlacementEnabled (value_ rj) then named_node service_json service_name else Ok None.

(** The entry of [worker.assignments] for a worker; [at] throws below zero. *)
Definition worker_assignment (worker_index : Z) : result (option json) :=
  if LegacyTopologyPlacementEnabled (value_ rj) then
    match member (worker_json_ rj) "assignments" with
    | Some assignments =>
        if is_array assignments then
          if worker_index <? 0 then Throw "out_of_range.401"
          else Ok (items assignments !! Z.to_nat worker_index)
        else Ok None
    | None => Ok None
    end
  else Ok None.

Definition ResolveLegacyWorkerAssignmentNodeName (worker_index : Z) : result (option string) :=
  assignment ← worker_assignment worker_index;
  match assignment with
  | Some assignment => named_node assignment "worker assignment"
  | None => Ok None
  end.

Definition ResolveWorkerNodeName (worker_index : Z) : result string :=
  assignment_node_name ← ResolveLegacyWorkerAssignmentNodeName worker_index;
  match assignment_node_name with
  | Some name => Ok name
  | None =>
      legacy_node_name ← ResolveLegacyServiceNodeName (worker_json_ rj) "worker";
      match legacy_node_name with Some name => Ok name | None => DefaultNodeName end
  end.

Definition ResolveWorkerGpuDevice (worker_index : Z) : result (option string) :=
  assignment ← worker_assignment worker_index;
  assigned ← match assignment with
             | Some assignment => string_member assignment "gpu_device"
             | None => Ok None
             end;
  match assigned with
  | Some device => Ok (Some device)
  | None => string_member (worker_json_ rj) "gpu_device"
  end.

(** The first node that takes inference, or the first node. *)
Definition first_infer_node : result string :=
  match find_if (fun node => node_execution_mode node !=? WorkerOnly) (ds_nodes state) with
  | Some node => Ok (node_name node)
  | None => DefaultNodeName
  end.

Definition ResolveInferNodeName (infer_index : Z) : result string :=
  legacy_node_name ← (if infer_index =? 0
                      then ResolveLegacyServiceNodeName (infer_json_ rj) "infer" else Ok None);
  match legacy_node_name with
  | Some name => Ok name
  | None =>
      replicas ← InferReplicaCount;
      if (1 <? replicas) && (0 <? infer_index) then
        workers ← WorkerCount;
        let workers_per_replica := Z.max 1 (Z.quot workers replicas) in
        ResolveWorkerNodeName (Z.min (workers - 1) ((infer_index - 1) * workers_per_replica))
      else first_infer_node
  end.

Definition ResolveAppNodeName : result string :=
  legacy_node_name ← ResolveLegacyServiceNodeName (app_json_ rj) "app";
  match legacy_node_name with Some name => Ok name | None => ResolveInferNodeName 0 end.

Definition ResolveAppNodeName_of (app_json : json) : result string :=
  legacy_node_name ← ResolveLegacyServiceNodeName app_json "app";
  match legacy_node_name with Some name => Ok name | None => ResolveAppNodeName end.

Definition SharedDiskNodeName : result string :=
  infer_enabled ← InferEnabled;
  if (infer_enabled : bool) then ResolveInferNodeName 0 else DefaultNodeName.

Definition with_worker_group (primary_infer_node : string) (group : WorkerGroupSpec) : DesiredState :=
  let settings := ds_inference state in
  {| ds_plane_name := ds_plane_name state;
     ds_plane_shared_disk_name := ds_plane_shared_disk_name state;
     ds_control_root := ds_control_root state;
     ds_plane_mode := ds_plane_mode state;
     ds_protected_plane := ds_protected_plane state;
     ds_post_deploy_script := ds_post_deploy_script state;
     ds_placement_target := ds_placement_target state;
     ds_bootstrap_model := ds_bootstrap_model state;
     ds_interaction := ds_interaction state;
     ds_skills := ds_skills state;
     ds_browsing := ds_browsing state;
     ds_knowledge := ds_knowledge state;
     ds_turboquant := ds_turboquant state;
     ds_context_compression := ds_context_compression state;
     ds_voice_listener := ds_voice_listener state;
     ds_voice_maker := ds_voice_maker state;
     ds_secured_connection := ds_secured_connection state;
     ds_app_host := ds_app_host state;
     ds_inference :=
       mkInferenceRuntimeSettings primary_infer_node (inf_runtime_engine settings)
         (inf_data_parallel_mode settings) (inf_data_parallel_lb_mode settings)
         (inf_api_server_count settings) (wg_group_id group) (inf_distributed_backend settings)
         (inf_worker_selection_policy settings) (inf_net_if settings) (inf_models_root settings)
         (inf_model_cache_dir settings) (inf_runtime_log_dir settings) (inf_api_port settings)
         (inf_max_model_len settings) (inf_tensor_parallel_size settings)
         (inf_pipeline_parallel_size settings) (inf_max_num_seqs settings)
         (inf_gpu_memory_utilization settings) (inf_enforce_eager settings)
         (inf_gguf_cache_dir settings) (inf_infer_log_dir settings) (inf_llama_port settings)
         (inf_llama_ctx_size settings) (inf_llama_threads settings) (inf_llama_gpu_layers settings)
         (inf_inference_healthcheck_retries settings)
         (inf_inference_healthcheck_interval_sec settings) (inf_rendezvous_port settings);
     ds_worker_group := group;
     ds_gateway := ds_gateway state;
     ds_runtime_gpu_nodes := ds_runtime_gpu_nodes state;
     ds_nodes := ds_nodes state;
     ds_disks := ds_disks state;
     ds_instances := ds_instances state |}.

Definition RenderWorkerGroup : result DesiredState :=
  infer_enabled ← InferEnabled;
  primary_infer_node ← (if (infer_enabled : bool) then ResolveInferNodeName 0 else DefaultNodeName);
  let infer_instance_name :=
    if (infer_enabled : bool) then BuildInferInstanceName (ds_plane_name state) 0 else "" in
  expected_workers ← ExpectedWorkers;
  Ok (with_worker_group primary_infer_node
        {| wg_group_id := ds_plane_name state +:+ "-workers";
           wg_infer_instance_name := infer_instance_name;
           wg_distributed_backend := inf_distributed_backend (ds_inference state);
           wg_rendezvous_host := infer_instance_name;
           wg_rendezvous_port := inf_rendezvous_port (ds_inference state);
           wg_expected_workers := expected_workers;
           wg_worker_selection_policy := "prefer-free-then-share";
           wg_members := wg_members (ds_worker_group state) |}).

(** ** Instances *)

Definition LlamaRuntimeFlavor : string :=
  match ds_turboquant state with
  | Some turboquant => if tq_enabled turboquant then "turboquant" else "default"
  | None => "default"
  end.

Definition DefaultInferRuntimeBackend : string := if llama_rpc_runtime then "llama-rpc-head" else "auto".
Definition DefaultWorkerBootMode : string := if llama_rpc_runtime then "llama-rpc" else "llama-idle".

(** [if (json.contains("env") && json.at("env").is_object())]: the environment
    the document gives. *)
Definition custom_env (service_json : json) : result (gmap string string) :=
  env ← json_optional_object get_string_map service_json "env";
  Ok (default ∅ env).

(** The entries of [publish]. *)
Definition published_ports (service_json : json) : result (list PublishedPort) :=
  json_array (fun ports => mapR PublishedPort_FromJson (items ports)) service_json "publish".

(** The published ports of a service, or one port of its own. *)
Definition ports_or (port : PublishedPort) (ports : list PublishedPort) : list PublishedPort :=
  if vec_empty ports then [port] else ports.

Definition HasExternalAppHost : bool :=
  match ds_app_host state with
  | Some app_host => negb (str_empty (ah_address app_host))
  | None => false
  end.

(** [text.has_value() && !text->empty()]. *)
Definition has_non_empty (text : option string) : bool :=
  match text with Some t => negb (str_empty t) | None => false end.

Definition ExternalAppHostAuthMode : string :=
  match ds_app_host state with
  | Some app_host =>
      if str_empty (ah_address app_host) then "none"
      else if has_non_empty (ah_ssh_key_path app_host) then "ssh-key"
      else if has_non_empty (ah_username app_host) && has_non_empty (ah_password app_host)
      then "password" else "unknown"
  | None => "none"
  end.

Definition app_host_address : string := from_option ah_address "" (ds_app_host state).

(** [ApplyExternalAppHostMetadata], on the environment and on the labels. *)
Definition external_host_env (binding : string) (environment : gmap string string)
    : gmap string string :=
  if HasExternalAppHost then
    <["NAIM_EXTERNAL_APP_HOST_BINDING" := binding]>
      (<["NAIM_EXTERNAL_APP_HOST_AUTH_MODE" := ExternalAppHostAuthMode]>
        (<["NAIM_EXTERNAL_APP_HOST_ADDRESS" := app_host_address]>
          (<["NAIM_DEPLOYMENT_TARGET" := "external-app-host"]> environment)))
  else environment.
Definition external_host_labels (binding : string) (labels : gmap string string)
    : gmap string string :=
  if HasExternalAppHost then
    <["naim.external_app_host.binding" := binding]>
      (<["naim.external_app_host.auth_mode" := ExternalAppHostAuthMode]>
        (<["naim.external_app_host.address" := app_host_address]>
          (<["naim.deployment.target" := "external-app-host"]> labels)))
  else labels.

Definition service_labels (role node : string) : gmap string string :=
  list_to_map [("naim.plane", ds_plane_name state); ("naim.role", role); ("naim.node", node)].

Definition shared_disk (size_gb : Z) (node : string) : DiskSpec :=
  {| disk_name := ds_plane_shared_disk_name state;
     disk_kind := PlaneShared;
     disk_plane_name := ds_plane_name state;
     disk_owner_name := ds_plane_name state;
     disk_node_name := node;
     disk_host_path := BuildPlaneSharedHostPath (ds_plane_name state);
     disk_container_path := "/naim/shared";
     disk_size_gb := size_gb |}.

(** One copy of the shared disk on every node, in the order of the names. *)
Definition RenderSharedDisk : result (list DiskSpec) :=
  first_node ← SharedDiskNodeName;
  let shared_disk_nodes : gset string := {[first_node]} ∪ list_to_set (map node_name (ds_nodes state)) in
  mapR (fun node =>
    size_gb ← json_value get_int (resources_json_ rj) "shared_disk_gb" kDefaultSharedDiskSizeGb;
    Ok (shared_disk size_gb node)) (set_items shared_disk_nodes).

(** [0, ..., count - 1]. *)
Definition range (count : Z) : list Z := map Z.of_nat (seq 0 (Z.to_nat count)).

(** *** Inference *)

Definition infer_subrole (infer_index infer_count : Z) : string :=
  if (infer_index =? 0) && (1 <? infer_count) then "aggregator" else "infer".

Definition infer_environment (infer_index infer_count : Z) (name node : string) : gmap string string :=
  list_to_map [
    ("NAIM_PLANE_NAME", ds_plane_name state);
    ("NAIM_INSTANCE_NAME", name);
    ("NAIM_INSTANCE_ROLE", "infer");
    ("NAIM_INSTANCE_SUBROLE", infer_subrole infer_index infer_count);
    ("NAIM_NODE_NAME", node);
    ("NAIM_INFER_RUNTIME_BACKEND", DefaultInferRuntimeBackend);
    ("NAIM_LLAMA_RUNTIME_FLAVOR", LlamaRuntimeFlavor);
    ("NAIM_CONTROLLER_URL", "http://controller.internal:18080");
    ("NAIM_CONTROL_ROOT", ds_control_root state);
    ("NAIM_INFER_RUNTIME_CONFIG", InferRuntimeConfigControlPath (ds_control_root state) name);
    ("NAIM_INFERENCE_PORT", to_string (inf_api_port (ds_inference state) + infer_index));
    ("NAIM_GATEWAY_PORT", to_string (gw_listen_port (ds_gateway state) + infer_index));
    ("NAIM_LLAMA_PORT", to_string (inf_llama_port (ds_inference state) + infer_index));
    ("NAIM_SHARED_DISK_PATH", "/naim/shared")].

Definition render_infer (infer_count infer_index : Z) : result InstanceSpec :=
  let has_private_storage := HasExplicitPrivateStorage (infer_json_ rj) "volumes" in
  let name := BuildInferInstanceName (ds_plane_name state) infer_index in
  node ← ResolveInferNodeName infer_index;
  image ← json_value get_string (infer_json_ rj) "image" "naim/infer-runtime:dev";
  command ← BuildCommandFromStartSpec (infer_json_ rj) "/runtime/bin/naim-inferctl container-boot";
  let private_disk_name :=
    if has_private_storage && InstanceNeedsPrivateDisk Infer then name +:+ "-private" else "" in
  private_disk_size_gb ←
    (if has_private_storage
     then ExtractPrivateDiskSizeGb (infer_json_ rj) kDefaultInferPrivateDiskSizeGb "volumes" else Ok 0);
  let environment := infer_environment infer_index infer_count name node in
  let environment :=
    if str_empty private_disk_name then environment
    else <["NAIM_PRIVATE_DISK_PATH" := "/naim/private"]> environment in
  custom ← custom_env (infer_json_ rj);
  ports ← published_ports (infer_json_ rj);
  Ok {| inst_name := name;
        inst_role := Infer;
        inst_plane_name := ds_plane_name state;
        inst_node_name := node;
        inst_image := image;
        inst_command := command;
        inst_private_disk_name := private_disk_name;
        inst_shared_disk_name :=
          (if InstanceNeedsSharedDiskMount Infer then ds_plane_shared_disk_name state else "");
        inst_depends_on := [];
        inst_environment := custom ∪ environment;
        inst_labels :=
          <["naim.subrole" := infer_subrole infer_index infer_count]> (service_labels "infer" node);
        inst_published_ports := ports;
        inst_gpu_device := None;
        inst_placement_mode := Manual;
        inst_share_mode := Exclusive;
        inst_gpu_fraction := d0;
        inst_priority := 100;
        inst_preemptible := false;
        inst_memory_cap_mb := None;
        inst_private_disk_size_gb := private_disk_size_gb;
        inst_app_model_mounts := [] |}.

(** The address of a replica as the aggregator of node [primary_node] sees it. *)
Definition replica_upstream (primary_node : string) (infer : InstanceSpec) : result string :=
  port ← match inst_environment infer !! "NAIM_GATEWAY_PORT" with
         | Some text => stoi text
         | None => Ok (gw_listen_port (ds_gateway state))
         end;
  let host := if inst_node_name infer ==? primary_node then inst_name infer else inst_node_name infer in
  Ok ("http://" +:+ host +:+ ":" +:+ to_string port).

Definition BuildReplicaUpstreams (front : InstanceSpec) (replicas : list InstanceSpec) : result string :=
  upstreams ← mapR (replica_upstream (inst_node_name front)) replicas;
  Ok (JoinStrings upstreams ",").

Definition instance_with_env (key text : string) (i : InstanceSpec) : InstanceSpec :=
  mkInstanceSpec (inst_name i) (inst_role i) (inst_plane_name i) (inst_node_name i) (inst_image i)
    (inst_command i) (inst_private_disk_name i) (inst_shared_disk_name i) (inst_depends_on i)
    (<[key := text]> (inst_environment i)) (inst_labels i) (inst_published_ports i)
    (inst_gpu_device i) (inst_placement_mode i) (inst_share_mode i) (inst_gpu_fraction i)
    (inst_priority i) (inst_preemptible i) (inst_memory_cap_mb i) (inst_private_disk_size_gb i)
    (inst_app_model_mounts i).

(** The aggregator gets the addresses of the replicas unless the document sets them. *)
Definition with_upstreams (infers : list InstanceSpec) : result (list InstanceSpec) :=
  match infers with
  | front :: _ :: _ =>
      match inst_environment front !! "NAIM_REPLICA_UPSTREAMS" with
      | Some _ => Ok infers
      | None =>
          upstreams ← BuildReplicaUpstreams front (tail infers);
          Ok (instance_with_env "NAIM_REPLICA_UPSTREAMS" upstreams front :: tail infers)
      end
  | _ => Ok infers
  end.

Definition RenderInferInstance : result (list InstanceSpec * list DiskSpec) :=
  infer_enabled ← InferEnabled;
  if negb (infer_enabled : bool) then Ok ([], [])
  else
    infer_count ← (if llama_rpc_runtime then replicas ← InferReplicaCount; Ok (replicas + 1) else Ok 1);
    infers ← mapR (render_infer infer_count) (range infer_count);
    infers ← with_upstreams infers;
    disks ← mapR (fun infer =>
              container_path ← ExtractPrivateMountPath (infer_json_ rj) "/naim/private" "volumes";
              Ok (private_disk InferPrivate container_path infer))
            (List.filter (fun infer => negb (str_empty (inst_private_disk_name infer))) infers);
    Ok (infers, disks).

(** *** Workers *)

(** The instances that [infer_names_] names. *)
Definition InferInstanceNameForWorker (infer_names : list string) (worker_index : Z) : result string :=
  if (length infer_names <=? 1)%nat then Ok (BuildInferInstanceName (ds_plane_name state) 0)
  else
    workers ← WorkerCount;
    replicas ← InferReplicaCount;
    let workers_per_replica := Z.max 1 (Z.quot workers replicas) in
    let replica_index := Z.min (replicas - 1) (Z.quot worker_index workers_per_replica) in
    let infer_index := Z.min (Z.of_nat (length infer_names) - 1) (replica_index + 1) in
    match infer_names !! Z.to_nat infer_index with
    | Some name => Ok name
    | None => Throw "vector::_M_range_check"
    end.

Definition worker_environment (name node infer_instance_name : string) : gmap string string :=
  let environment : gmap string string := list_to_map [
    ("NAIM_PLANE_NAME", ds_plane_name state);
    ("NAIM_INSTANCE_NAME", name);
    ("NAIM_INSTANCE_ROLE", "worker");
    ("NAIM_NODE_NAME", node);
    ("NAIM_WORKER_BOOT_MODE", DefaultWorkerBootMode);
    ("NAIM_INFER_INSTANCE_NAME", infer_instance_name);
    ("NAIM_CONTROL_ROOT", ds_control_root state);
    ("NAIM_DISTRIBUTED_BACKEND", inf_distributed_backend (ds_inference state));
    ("NAIM_LLAMA_RUNTIME_FLAVOR", LlamaRuntimeFlavor);
    ("NAIM_SHARED_DISK_PATH", "/naim/shared");
    ("NAIM_PRIVATE_DISK_PATH", "/naim/private");
    ("NAIM_WORKER_RUNTIME_STATUS_PATH", "/naim/private/worker-runtime-status.json")] in
  if inf_distributed_backend (ds_inference state) ==? "llama_rpc" then
    let rpc_port := StableLlamaRpcWorkerPort (ds_plane_name state) name in
    <["NAIM_WORKER_RPC_ENDPOINT" := name +:+ ":" +:+ to_string rpc_port]>
      (<["NAIM_WORKER_RPC_HOST" := "0.0.0.0"]>
        (<["NAIM_WORKER_RPC_PORT" := to_string rpc_port]> environment))
  else environment.

Definition render_worker (infer_names : list string) (total_workers worker_index : Z)
    : result InstanceSpec :=
  let name := BuildWorkerName (ds_plane_name state) worker_index total_workers in
  let resources := worker_resources_json_ rj in
  node ← ResolveWorkerNodeName worker_index;
  gpu_device ← ResolveWorkerGpuDevice worker_index;
  image ← json_value get_string (worker_json_ rj) "image" "naim/worker-runtime:dev";
  command ← BuildCommandFromStartSpec (worker_json_ rj) "/runtime/bin/naim-workerd";
  placement_mode_text ← json_value get_string resources "placement_mode" "auto";
  placement_mode ← ParsePlacementMode placement_mode_text;
  share_mode_text ← json_value get_string resources "share_mode" "exclusive";
  share_mode ← ParseGpuShareMode share_mode_text;
  gpu_fraction ← json_value get_double resources "gpu_fraction" d1;
  memory_cap_mb ← match member resources "memory_cap_mb" with
                  | Some x => cap ← get_int x; Ok (Some cap)
                  | None => Ok None
                  end;
  private_disk_size_gb ←
    ExtractPrivateDiskSizeGb (worker_json_ rj) kDefaultWorkerPrivateDiskSizeGb "volumes";
  infer_instance_name ← InferInstanceNameForWorker infer_names worker_index;
  custom ← custom_env (worker_json_ rj);
  ports ← published_ports (worker_json_ rj);
  Ok {| inst_name := name;
        inst_role := Worker;
        inst_plane_name := ds_plane_name state;
        inst_node_name := node;
        inst_image := image;
        inst_command := command;
        inst_private_disk_name := name +:+ "-private";
        inst_shared_disk_name := ds_plane_shared_disk_name state;
        inst_depends_on := [];
        inst_environment := custom ∪ worker_environment name node infer_instance_name;
        inst_labels := service_labels "worker" node;
        inst_published_ports := ports;
        inst_gpu_device := gpu_device;
        inst_placement_mode := placement_mode;
        inst_share_mode := share_mode;
        inst_gpu_fraction := gpu_fraction;
        inst_priority := 100;
        inst_preemptible := false;
        inst_memory_cap_mb := memory_cap_mb;
        inst_private_disk_size_gb := private_disk_size_gb;
        inst_app_model_mounts := [] |}.

Definition render_member (infer_names : list string) (total_workers worker_index : Z)
    (worker : InstanceSpec) : result WorkerGroupMemberSpec :=
  infer_instance_name ← InferInstanceNameForWorker infer_names worker_index;
  rpc_port ← match inst_environment worker !! "NAIM_WORKER_RPC_PORT" with
             | Some text => stoi text
             | None => Throw "map::at"
             end;
  replicas ← InferReplicaCount;
  let replica_groups := Z.max 1 replicas in
  let workers_per_replica := Z.max 1 (Z.quot total_workers replica_groups) in
  let replica_index := Z.min (replica_groups - 1) (Z.quot worker_index workers_per_replica) in
  let replica_leader := Z.rem worker_index workers_per_replica =? 0 in
  Ok {| wgm_name := inst_name worker;
        wgm_infer_instance_name := infer_instance_name;
        wgm_node_name := inst_node_name worker;
        wgm_gpu_device := value_or (inst_gpu_device worker) "";
        wgm_rpc_port := rpc_port;
        wgm_rank := worker_index;
        wgm_replica_group_id := or_else infer_instance_name (inst_name worker);
        wgm_replica_index := replica_index;
        wgm_replica_size := workers_per_replica;
        wgm_replica_leader := replica_leader;
        wgm_data_parallel_rank := replica_index;
        wgm_data_parallel_size := replica_groups;
        wgm_data_parallel_size_local := 1;
        wgm_data_parallel_start_rank := replica_index;
        wgm_data_parallel_api_endpoint := false;
        wgm_data_parallel_head_address := "";
        wgm_data_parallel_rpc_port := 0;
        wgm_gpu_fraction := inst_gpu_fraction worker;
        wgm_share_mode := inst_share_mode worker;
        wgm_priority := inst_priority worker;
        wgm_preemptible := inst_preemptible worker;
        wgm_memory_cap_mb := inst_memory_cap_mb worker;
        wgm_enabled := true;
        wgm_leader := replica_leader && (replica_index =? 0) |}.

(** One turn of the loop: the worker, its place in the group and its disk. *)
Definition render_worker_turn (infer_names : list string) (total_workers worker_index : Z)
    : result (InstanceSpec * list WorkerGroupMemberSpec * DiskSpec) :=
  worker ← render_worker infer_names total_workers worker_index;
  members ← (if inf_distributed_backend (ds_inference state) ==? "llama_rpc" then
               member ← render_member infer_names total_workers worker_index worker; Ok [member]
             else Ok []);
  container_path ← ExtractPrivateMountPath (worker_json_ rj) "/naim/private" "volumes";
  Ok (worker, members, private_disk WorkerPrivate container_path worker).

Definition RenderWorkerInstances (infer_names : list string)
    : result (list InstanceSpec * list WorkerGroupMemberSpec * list DiskSpec) :=
  total_workers ← WorkerCount;
  turns ← mapR (render_worker_turn infer_names total_workers) (range total_workers);
  Ok (map (fun turn => turn.1.1) turns, flat_map (fun turn => turn.1.2) turns,
      map (fun turn => turn.2) turns).

(** *** Apps *)

Definition app_command (app_entry : json) : result string :=
  match member app_entry "start" with
  | Some start =>
      if is_object start then
        start_type ← json_value get_string start "type" "command";
        if start_type ==? "script" then
          script_ref ← json_value get_string start "script_ref" "";
          Ok (BuildAppCommandFromScriptRef script_ref)
        else json_value get_string start "command" ""
      else Ok ""
  | None => Ok ""
  end.

Definition voice_listener_enabled : bool := from_option vl_enabled false (ds_voice_listener state).
Definition voice_maker_enabled : bool := from_option vm_enabled false (ds_voice_maker state).

Definition app_depends_on (infer_names : list string) : list string :=
  (match infer_names with front :: _ => [front] | [] => [] end) ++
  (if voice_listener_enabled then [BuildVoiceModuleInstanceName (ds_plane_name state)] else []) ++
  (if voice_maker_enabled then [BuildVoiceMakerInstanceName (ds_plane_name state)] else []).

Definition service_url (host : string) (port : Z) (path : string) : string :=
  "http://" +:+ host +:+ ":" +:+ to_string port +:+ path.

(** The variables that point an app to the voice services. *)
Definition app_voice_env : gmap string string :=
  let environment : gmap string string :=
    match ds_voice_listener state with
    | Some voice_listener =>
        if vl_enabled voice_listener then
          list_to_map [
            ("NAIM_VOICE_LISTENER_BASE",
             service_url (BuildVoiceModuleInstanceName (ds_plane_name state)) kVoiceModuleContainerPort
               "/v1");
            ("NAIM_VOICE_LISTENER_WAKE_PHRASE", vl_wake_phrase voice_listener)]
        else ∅
    | None => ∅
    end in
  if voice_maker_enabled then
    <["NAIM_VOICE_MAKER_BASE" :=
        service_url (BuildVoiceMakerInstanceName (ds_plane_name state)) kVoiceMakerContainerPort "/v1"]>
      environment
  else environment.

Definition render_app_model (app_name : string) (model_entry : json) : result AppModelMountSpec :=
  source ← json_at get_json model_entry "source";
  name ← json_value get_string model_entry "name" "";
  source_path ← json_value get_string source "path" "";
  source_node_name ← json_value get_string source "node" "";
  paths ← json_array get_strings source "paths";
  mount_path ← json_value get_string model_entry "mount_path" "";
  env_var ← json_value get_string model_entry "env" "";
  required ← json_value get_bool model_entry "required" true;
  Ok {| mount_name := name;
        mount_source_path := source_path;
        mount_source_node_name := source_node_name;
        mount_source_paths := if vec_empty paths then [source_path] else paths;
        mount_host_path :=
          BuildAppModelHostPath (ds_plane_name state) app_name name mount_path source_path;
        mount_mount_path := mount_path;
        mount_env_var := env_var;
        mount_required := required |}.

(** [if (!env_var.empty()) environment[env_var] = mount_path]. *)
Definition mount_env (environment : gmap string string) (mount : AppModelMountSpec)
    : gmap string string :=
  if str_empty (mount_env_var mount) then environment
  else <[mount_env_var mount := mount_mount_path mount]> environment.

Definition bool_text (b : bool) : string := if b then "true" else "false".

Definition app_volume_error : string := "desired-state v2 currently supports at most one app volume".

(** One enabled entry of [apps_json_]. *)
Definition render_app (infer_names : list string) (index : Z) (app_entry : json)
    : result (InstanceSpec * DiskSpec) :=
  flagged ← json_value get_bool app_entry "primary" false;
  let primary := (flagged : bool) || (index =? 0) in
  app_name ← json_value get_string app_entry "name"
               (if primary then "primary" else "app-" +:+ to_string index);
  let name := BuildAppInstanceName (ds_plane_name state) app_name primary in
  node ← ResolveAppNodeName_of app_entry;
  image ← json_value get_string app_entry "image" "";
  command ← app_command app_entry;
  app_env ← custom_env app_entry;
  let environment :=
    <["NAIM_APP_PRIMARY" := bool_text primary]>
      (<["NAIM_APP_NAME" := app_name]> (app_voice_env ∪ app_env)) in
  mounts ← json_array (fun models => mapR (render_app_model name) (items models)) app_entry "models";
  ports ← published_ports app_entry;
  private_disk_size_gb ← ExtractPrivateDiskSizeGb app_entry kDefaultAppPrivateDiskSizeGb "volumes";
  container_path ← ExtractPrivateMountPath app_entry "/naim/private" "volumes";
  _ ← match member app_entry "volumes" with
      | Some volumes =>
          if is_array volumes && (1 <? length (items volumes))%nat then Throw app_volume_error else Ok tt
      | None => Ok tt
      end;
  let labels :=
    <["naim.app_primary" := bool_text primary]>
      (<["naim.app_name" := app_name]> (service_labels "app" node)) in
  let environment := foldl mount_env environment mounts in
  let app := {|
    inst_name := name;
    inst_role := App;
    inst_plane_name := ds_plane_name state;
    inst_node_name := node;
    inst_image := image;
    inst_command := command;
    inst_private_disk_name := name +:+ "-private";
    inst_shared_disk_name := ds_plane_shared_disk_name state;
    inst_depends_on := app_depends_on infer_names;
    inst_environment := if primary then external_host_env "app" environment else environment;
    inst_labels := if primary then external_host_labels "app" labels else labels;
    inst_published_ports := ports;
    inst_gpu_device := None;
    inst_placement_mode := Manual;
    inst_share_mode := Exclusive;
    inst_gpu_fraction := d0;
    inst_priority := 100;
    inst_preemptible := false;
    inst_memory_cap_mb := None;
    inst_private_disk_size_gb := private_disk_size_gb;
    inst_app_model_mounts := mounts |} in
  Ok (app, private_disk AppPrivate container_path app).

Fixpoint render_apps (infer_names : list string) (index : Z) (apps : list json)
    : result (list (InstanceSpec * DiskSpec)) :=
  match apps with
  | [] => Ok []
  | app_entry :: rest =>
      enabled ← json_value get_bool app_entry "enabled" true;
      if negb (enabled : bool) then render_apps infer_names (index + 1) rest
      else
        app ← render_app infer_names index app_entry;
        later ← render_apps infer_names (index + 1) rest;
        Ok (app :: later)
  end.

Definition RenderAppInstance (infer_names : list string) : result (list InstanceSpec * list DiskSpec) :=
  apps ← render_apps infer_names 0 (apps_json_ rj);
  Ok (apps.*1, apps.*2).

(** *** Skills and web gateway *)

(** The node a plane service names, or the node of the app. *)
Definition service_node (service_json : json) (service_name : string) : result string :=
  legacy_node_name ← ResolveLegacyServiceNodeName service_json service_name;
  match legacy_node_name with Some name => Ok name | None => ResolveAppNodeName end.

Definition skills_environment (name node : string) : gmap string string :=
  list_to_map [
    ("NAIM_PLANE_NAME", ds_plane_name state);
    ("NAIM_INSTANCE_NAME", name);
    ("NAIM_INSTANCE_ROLE", "skills");
    ("NAIM_NODE_NAME", node);
    ("NAIM_PRIVATE_DISK_PATH", "/naim/private");
    ("NAIM_SKILLS_PORT", to_string kSkillsContainerPort);
    ("NAIM_SKILLS_DB_PATH", "/naim/private/skills.sqlite");
    ("NAIM_SKILLS_RUNTIME_STATUS_PATH", "/naim/private/skills-runtime-status.json");
    ("NAIM_CONTROLLER_URL", "http://controller.internal:18080");
    ("NAIM_CONTROL_ROOT", ds_control_root state)].

Definition RenderSkillsInstance : result (list InstanceSpec * list DiskSpec) :=
  enabled ← json_value get_bool (skills_json_ rj) "enabled" false;
  if negb (enabled : bool) then Ok ([], [])
  else
    let name := BuildSkillsInstanceName (ds_plane_name state) in
    node ← service_node (skills_json_ rj) "skills";
    image ← json_value get_string (skills_json_ rj) "image" "naim/skills-runtime:dev";
    command ← BuildCommandFromStartSpec (skills_json_ rj) "/runtime/bin/naim-skillsd";
    private_disk_size_gb ←
      ExtractPrivateDiskSizeGb (skills_json_ rj) kDefaultSkillsPrivateDiskSizeGb "volumes";
    custom ← custom_env (skills_json_ rj);
    ports ← published_ports (skills_json_ rj);
    container_path ← ExtractPrivateMountPath (skills_json_ rj) "/naim/private" "volumes";
    let skills := {|
      inst_name := name;
      inst_role := Skills;
      inst_plane_name := ds_plane_name state;
      inst_node_name := node;
      inst_image := image;
      inst_command := command;
      inst_private_disk_name := name +:+ "-private";
      inst_shared_disk_name :=
        (if InstanceNeedsSharedDiskMount Skills then ds_plane_shared_disk_name state else "");
      inst_depends_on := [];
      inst_environment :=
        external_host_env "skills-follow-app" (custom ∪ skills_environment name node);
      inst_labels := external_host_labels "skills-follow-app" (service_labels "skills" node);
      inst_published_ports :=
        ports_or (mkPublishedPort "127.0.0.1"
                    (published_port kSkillsPublishedPortBase (ds_plane_name state) name)
                    kSkillsContainerPort) ports;
      inst_gpu_device := None;
      inst_placement_mode := Manual;
      inst_share_mode := Exclusive;
      inst_gpu_fraction := d0;
      inst_priority := 100;
      inst_preemptible := false;
      inst_memory_cap_mb := None;
      inst_private_disk_size_gb := private_disk_size_gb;
      inst_app_model_mounts := [] |} in
    Ok ([skills], [private_disk SkillsPrivate container_path skills]).

Definition webgateway_environment (name node policy_text : string) : gmap string string :=
  list_to_map [
    ("NAIM_PLANE_NAME", ds_plane_name state);
    ("NAIM_INSTANCE_NAME", name);
    ("NAIM_INSTANCE_ROLE", "webgateway");
    ("NAIM_NODE_NAME", node);
    ("NAIM_PRIVATE_DISK_PATH", "/naim/private");
    ("NAIM_WEBGATEWAY_PORT", to_string kWebGatewayContainerPort);
    ("NAIM_WEBGATEWAY_RUNTIME_STATUS_PATH", "/naim/private/webgateway-runtime-status.json");
    ("NAIM_WEBGATEWAY_STATE_ROOT", "/naim/private/sessions");
    ("NAIM_WEBGATEWAY_POLICY_JSON", policy_text);
    ("NAIM_CONTROLLER_URL", "http://controller.internal:18080");
    ("NAIM_CONTROL_ROOT", ds_control_root state)].

Definition RenderWebGatewayInstance : result (list InstanceSpec * list DiskSpec) :=
  enabled ← json_value get_bool (browsing_json_ rj) "enabled" false;
  if negb (enabled : bool) then Ok ([], [])
  else
    let name := BuildWebGatewayInstanceName (ds_plane_name state) in
    node ← service_node (browsing_json_ rj) "webgateway";
    image ← json_value get_string (browsing_json_ rj) "image" "naim/webgateway-runtime:dev";
    command ← BuildCommandFromStartSpec (browsing_json_ rj) "/runtime/bin/naim-webgatewayd";
    private_disk_size_gb ←
      ExtractPrivateDiskSizeGb (browsing_json_ rj) kDefaultWebGatewayPrivateDiskSizeGb "storage";
    policy_text ← dump (object_of (browsing_json_ rj) "policy");
    custom ← custom_env (browsing_json_ rj);
    ports ← published_ports (browsing_json_ rj);
    container_path ← ExtractPrivateMountPath (browsing_json_ rj) "/naim/private" "storage";
    let browsing := {|
      inst_name := name;
      inst_role := Browsing;
      inst_plane_name := ds_plane_name state;
      inst_node_name := node;
      inst_image := image;
      inst_command := command;
      inst_private_disk_name := name +:+ "-private";
      inst_shared_disk_name :=
        (if InstanceNeedsSharedDiskMount Browsing then ds_plane_shared_disk_name state else "");
      inst_depends_on := [];
      inst_environment := custom ∪ webgateway_environment name node policy_text;
      inst_labels := service_labels "webgateway" node;
      inst_published_ports :=
        ports_or (mkPublishedPort "127.0.0.1"
                    (published_port kWebGatewayPublishedPortBase (ds_plane_name state) name)
                    kWebGatewayContainerPort) ports;
      inst_gpu_device := None;
      inst_placement_mode := Manual;
      inst_share_mode := Exclusive;
      inst_gpu_fraction := d0;
      inst_priority := 100;
      inst_preemptible := false;
      inst_memory_cap_mb := None;
      inst_private_disk_size_gb := private_disk_size_gb;
      inst_app_model_mounts := [] |} in
    Ok ([browsing], [private_disk BrowsingPrivate container_path browsing]).

(** *** Interaction *)

Definition interaction_environment (name node : string) : gmap string string :=
  list_to_map [
    ("NAIM_PLANE_NAME", ds_plane_name state);
    ("NAIM_INSTANCE_NAME", name);
    ("NAIM_INSTANCE_ROLE", "interaction");
    ("NAIM_NODE_NAME", node);
    ("NAIM_PRIVATE_DISK_PATH", "/naim/private");
    ("NAIM_INTERACTION_PORT", to_string kInteractionContainerPort);
    ("NAIM_INTERACTION_RUNTIME_STATUS_PATH", "/naim/private/interaction-runtime-status.json");
    ("NAIM_INTERACTION_UPSTREAM_BASE",
     service_url (BuildInferInstanceName (ds_plane_name state) 0) (gw_listen_port (ds_gateway state))
       "/v1");
    ("NAIM_CONTROLLER_URL", "http://controller.internal:18080");
    ("NAIM_CONTROL_ROOT", ds_control_root state)].

Definition RenderInteractionInstance : result (list InstanceSpec * list DiskSpec) :=
  if ds_plane_mode state !=? Llm then Ok ([], [])
  else
    let name := BuildInteractionInstanceName (ds_plane_name state) in
    let webgateway := BuildWebGatewayInstanceName (ds_plane_name state) in
    node ← ResolveInferNodeName 0;
    browsing_enabled ← json_value get_bool (browsing_json_ rj) "enabled" false;
    let environment := interaction_environment name node in
    let interaction := {|
      inst_name := name;
      inst_role := Interaction;
      inst_plane_name := ds_plane_name state;
      inst_node_name := node;
      inst_image := default "naim/interaction-runtime:dev" (ds_interaction state ≫= ia_image);
      inst_command := "/runtime/bin/naim-interactiond";
      inst_private_disk_name := name +:+ "-private";
      inst_shared_disk_name :=
        (if InstanceNeedsSharedDiskMount Interaction then ds_plane_shared_disk_name state else "");
      inst_depends_on :=
        BuildInferInstanceName (ds_plane_name state) 0 ::
        (if (browsing_enabled : bool) then [webgateway] else []);
      inst_environment :=
        (if (browsing_enabled : bool) then
           <["NAIM_WEBGATEWAY_BASE_URL" :=
               service_url webgateway kWebGatewayContainerPort "/v1/webgateway"]> environment
         else environment);
      inst_labels := service_labels "interaction" node;
      inst_published_ports :=
        [mkPublishedPort "127.0.0.1"
           (published_port kInteractionPublishedPortBase (ds_plane_name state) name)
           kInteractionContainerPort];
      inst_gpu_device := None;
      inst_placement_mode := Manual;
      inst_share_mode := Exclusive;
      inst_gpu_fraction := d0;
      inst_priority := 100;
      inst_preemptible := false;
      inst_memory_cap_mb := None;
      inst_private_disk_size_gb := kDefaultInteractionPrivateDiskSizeGb;
      inst_app_model_mounts := [] |} in
    Ok ([interaction], [private_disk InteractionPrivate "/naim/private" interaction]).

(** *** Voice services *)

Record VoiceGpuHost := mkVoiceGpuHost {
  vh_node_name : string;
  vh_gpu_device : string;
  vh_allocated_fraction : double;
  vh_allocated_memory_cap_mb : Z;
  vh_first_worker_name : string;
}.

Definition VoiceGpuHost_default : VoiceGpuHost := mkVoiceGpuHost "" "" d0 0 "".

(** A worker with a GPU is counted on its device. *)
Definition count_voice_host (hosts : gmap (string * string) VoiceGpuHost) (instance : InstanceSpec)
    : gmap (string * string) VoiceGpuHost :=
  match inst_gpu_device instance with
  | Some device =>
      if (inst_role instance !=? Worker) || str_empty device then hosts
      else
        let key := (inst_node_name instance, device) in
        let host := default VoiceGpuHost_default (hosts !! key) in
        let fresh := str_empty (vh_node_name host) in
        <[key := mkVoiceGpuHost
            (if fresh then inst_node_name instance else vh_node_name host)
            (if fresh then device else vh_gpu_device host)
            (dadd (vh_allocated_fraction host) (inst_gpu_fraction instance))
            (vh_allocated_memory_cap_mb host + value_or (inst_memory_cap_mb instance) 0)
            (if fresh then inst_name instance else vh_first_worker_name host)]> hosts
  | None => hosts
  end.

Definition deq (x y : double) : bool := SpecFloat.SFeqb x y.

(** [host] is preferred to [best]. *)
Definition better_voice_host (host best : VoiceGpuHost) : bool :=
  dlt (vh_allocated_fraction host) (vh_allocated_fraction best) ||
  (deq (vh_allocated_fraction host) (vh_allocated_fraction best) &&
   (vh_allocated_memory_cap_mb host <? vh_allocated_memory_cap_mb best)) ||
  (deq (vh_allocated_fraction host) (vh_allocated_fraction best) &&
   (vh_allocated_memory_cap_mb host =? vh_allocated_memory_cap_mb best) &&
   klt (vh_node_name host, (vh_gpu_device host, vh_first_worker_name host))
       (vh_node_name best, (vh_gpu_device best, vh_first_worker_name best))).

Definition choose_voice_host (best : option VoiceGpuHost) (host : VoiceGpuHost) : option VoiceGpuHost :=
  match best with
  | None => Some host
  | Some b => if better_voice_host host b then Some host else best
  end.

Definition SelectVoiceGpuHost (instances : list InstanceSpec) : option VoiceGpuHost :=
  foldl choose_voice_host None (map_items (foldl count_voice_host ∅ instances)).*2.

Definition VoiceGpuEnabled (resources : json) : result bool :=
  match resources with
  | JObject [] => Ok false
  | _ =>
      if contains resources "gpu_enabled" then json_value get_bool resources "gpu_enabled" false
      else if contains resources "enabled" then json_value get_bool resources "enabled" false
      else Ok (contains resources "share_mode" || contains resources "gpu_fraction" ||
               contains resources "memory_cap_mb" || contains resources "priority" ||
               contains resources "preemptible")
  end.
Definition VoiceModuleGpuEnabled : result bool := VoiceGpuEnabled (voice_module_resources_json_ rj).
Definition VoiceMakerGpuEnabled : result bool := VoiceGpuEnabled (voice_maker_resources_json_ rj).

(** The share of a GPU that a voice service takes. *)
Record VoiceGpu := mkVoiceGpu {
  vg_gpu_device : option string;
  vg_share_mode : GpuShareMode;
  vg_gpu_fraction : double;
  vg_priority : Z;
  vg_preemptible : bool;
  vg_memory_cap_mb : option Z;
}.

Definition voice_gpu (resources : json) (default_fraction : double) (default_priority : Z)
    (host : option VoiceGpuHost) : result VoiceGpu :=
  match host with
  | None => Ok (mkVoiceGpu None Exclusive d0 100 false None)
  | Some host =>
      share_mode_text ← json_value get_string resources "share_mode" "shared";
      share_mode ← ParseGpuShareMode share_mode_text;
      gpu_fraction ← json_value get_double resources "gpu_fraction" default_fraction;
      priority ← json_value get_int resources "priority" default_priority;
      preemptible ← json_value get_bool resources "preemptible" (share_mode ==? BestEffort);
      memory_cap_mb ← match member resources "memory_cap_mb" with
                      | Some x => cap ← get_int x; Ok (Some cap)
                      | None => Ok None
                      end;
      Ok (mkVoiceGpu (Some (vh_gpu_device host)) share_mode gpu_fraction priority preemptible
            memory_cap_mb)
  end.

(** The GPU of a voice service: the least loaded one of the workers. *)
Definition voice_host (gpu_enabled : bool) (resource : string) (instances : list InstanceSpec)
    : result (option VoiceGpuHost) :=
  if gpu_enabled then
    match SelectVoiceGpuHost instances with
    | Some host => Ok (Some host)
    | None => Throw ("desired-state v2 resources." +:+ resource +:+
                     " requires at least one worker with gpu_device")
    end
  else Ok None.

(** The model of a voice service with the gaps filled. *)
Definition voice_mount (instance_name name mount_path env_var : string) (model : AppModelMountSpec)
    : AppModelMountSpec :=
  let name := or_else (mount_name model) name in
  let mount_path := or_else (mount_mount_path model) mount_path in
  {| mount_name := name;
     mount_source_path := mount_source_path model;
     mount_source_node_name := mount_source_node_name model;
     mount_source_paths :=
       (if vec_empty (mount_source_paths model) && negb (str_empty (mount_source_path model))
        then [mount_source_path model] else mount_source_paths model);
     mount_host_path :=
       BuildAppModelHostPath (ds_plane_name state) instance_name name mount_path
         (mount_source_path model);
     mount_mount_path := mount_path;
     mount_env_var := or_else (mount_env_var model) env_var;
     mount_required := mount_required model |}.

(** The image of a voice service: the one of the document unless it is empty. *)
Definition voice_image_or (image : option string) (fallback : string) : string :=
  match image with Some text => or_else text fallback | None => fallback end.

Definition voice_module_environment (config : VoiceListenerFeatureSpec) (name node : string)
    : gmap string string :=
  list_to_map [
    ("NAIM_PLANE_NAME", ds_plane_name state);
    ("NAIM_INSTANCE_NAME", name);
    ("NAIM_INSTANCE_ROLE", "voice-module");
    ("NAIM_NODE_NAME", node);
    ("NAIM_PRIVATE_DISK_PATH", "/naim/private");
    ("NAIM_VOICE_MODULE_PORT", to_string kVoiceModuleContainerPort);
    ("NAIM_VOICE_MODULE_RUNTIME_STATUS_PATH", "/naim/private/voice-module-runtime-status.json");
    ("NAIM_VOICE_LISTENER_WAKE_PHRASE", vl_wake_phrase config);
    ("VOICE_LISTENER_WAKE_PHRASE", vl_wake_phrase config);
    ("VOICE_ASR_LANGUAGE", vl_language config);
    ("HOST", "0.0.0.0");
    ("PORT", to_string kVoiceModuleContainerPort);
    ("NAIM_CONTROLLER_URL", "http://controller.internal:18080");
    ("NAIM_CONTROL_ROOT", ds_control_root state)].

Definition voice_maker_environment (config : VoiceMakerFeatureSpec) (name node : string)
    : gmap string string :=
  list_to_map [
    ("NAIM_PLANE_NAME", ds_plane_name state);
    ("NAIM_INSTANCE_NAME", name);
    ("NAIM_INSTANCE_ROLE", "voice-maker");
    ("NAIM_NODE_NAME", node);
    ("NAIM_PRIVATE_DISK_PATH", "/naim/private");
    ("NAIM_VOICE_MAKER_PORT", to_string kVoiceMakerContainerPort);
    ("NAIM_VOICE_MAKER_RUNTIME_STATUS_PATH", "/naim/private/voice-maker-runtime-status.json");
    ("OMNIVOICE_LANGUAGE", vm_language config);
    ("OMNIVOICE_VOICE_MODE", vm_voice_mode config);
    ("OMNIVOICE_INSTRUCT", vm_instruct config);
    ("OMNIVOICE_OUTPUT_FORMAT", vm_output_format config);
    ("HOST", "0.0.0.0");
    ("PORT", to_string kVoiceMakerContainerPort);
    ("NAIM_CONTROLLER_URL", "http://controller.internal:18080");
    ("NAIM_CONTROL_ROOT", ds_control_root state)].

Definition RenderVoiceModuleInstance (instances : list InstanceSpec)
    : result (list InstanceSpec * list DiskSpec) :=
  match ds_voice_listener state with
  | None => Ok ([], [])
  | Some config =>
      if negb (vl_enabled config) then Ok ([], [])
      else
        gpu_enabled ← VoiceModuleGpuEnabled;
        host ← voice_host gpu_enabled "voice_module" instances;
        let name := BuildVoiceModuleInstanceName (ds_plane_name state) in
        node ← match host with Some host => Ok (vh_node_name host) | None => ResolveAppNodeName end;
        let voice_json := object_of (features_json_ rj) "voice_listener" in
        command ← BuildCommandFromStartSpec voice_json "/runtime/bin/naim-voice-moduled";
        private_disk_size_gb ←
          ExtractPrivateDiskSizeGb voice_json kDefaultVoiceModulePrivateDiskSizeGb "storage";
        gpu ← voice_gpu (voice_module_resources_json_ rj) kDefaultVoiceModuleGpuFraction
                kDefaultVoiceModuleGpuPriority host;
        custom ← custom_env voice_json;
        let mount := voice_mount name "whisper" "/models/whisper/model.bin" "WHISPER_MODEL_PATH"
                       (vl_model config) in
        ports ← published_ports voice_json;
        container_path ← ExtractPrivateMountPath voice_json "/naim/private" "storage";
        let voice := {|
          inst_name := name;
          inst_role := VoiceModule;
          inst_plane_name := ds_plane_name state;
          inst_node_name := node;
          inst_image := voice_image_or (vl_image config) "naim/voice-module:dev";
          inst_command := command;
          inst_private_disk_name := name +:+ "-private";
          inst_shared_disk_name :=
            (if InstanceNeedsSharedDiskMount VoiceModule then ds_plane_shared_disk_name state else "");
          inst_depends_on := [];
          inst_environment :=
            <[mount_env_var mount := mount_mount_path mount]>
              (custom ∪ voice_module_environment config name node);
          inst_labels := service_labels "voice-module" node;
          inst_published_ports :=
            ports_or (mkPublishedPort "127.0.0.1"
                        (published_port kVoiceModulePublishedPortBase (ds_plane_name state) name)
                        kVoiceModuleContainerPort) ports;
          inst_gpu_device := vg_gpu_device gpu;
          inst_placement_mode := Manual;
          inst_share_mode := vg_share_mode gpu;
          inst_gpu_fraction := vg_gpu_fraction gpu;
          inst_priority := vg_priority gpu;
          inst_preemptible := vg_preemptible gpu;
          inst_memory_cap_mb := vg_memory_cap_mb gpu;
          inst_private_disk_size_gb := private_disk_size_gb;
          inst_app_model_mounts := [mount] |} in
        Ok ([voice], [private_disk VoiceModulePrivate container_path voice])
  end.

Definition RenderVoiceMakerInstance (instances : list InstanceSpec)
    : result (list InstanceSpec * list DiskSpec) :=
  match ds_voice_maker state with
  | None => Ok ([], [])
  | Some config =>
      if negb (vm_enabled config) then Ok ([], [])
      else
        gpu_enabled ← VoiceMakerGpuEnabled;
        host ← voice_host gpu_enabled "voice_maker" instances;
        let name := BuildVoiceMakerInstanceName (ds_plane_name state) in
        node ← match host with Some host => Ok (vh_node_name host) | None => ResolveAppNodeName end;
        let voice_json := object_of (features_json_ rj) "voice_maker" in
        command ← BuildCommandFromStartSpec voice_json "python3 /runtime/voice-maker/server.py";
        private_disk_size_gb ←
          ExtractPrivateDiskSizeGb voice_json kDefaultVoiceMakerPrivateDiskSizeGb "storage";
        gpu ← voice_gpu (voice_maker_resources_json_ rj) kDefaultVoiceMakerGpuFraction
                kDefaultVoiceMakerGpuPriority host;
        custom ← custom_env voice_json;
        let mount := voice_mount name "omnivoice" "/models/omnivoice" "OMNIVOICE_MODEL_PATH"
                       (vm_model config) in
        ports ← published_ports voice_json;
        container_path ← ExtractPrivateMountPath voice_json "/naim/private" "storage";
        let voice := {|
          inst_name := name;
          inst_role := VoiceMaker;
          inst_plane_name := ds_plane_name state;
          inst_node_name := node;
          inst_image := voice_image_or (vm_image config) "naim/voice-maker:dev";
          inst_command := command;
          inst_private_disk_name := name +:+ "-private";
          inst_shared_disk_name :=
            (if InstanceNeedsSharedDiskMount VoiceMaker then ds_plane_shared_disk_name state else "");
          inst_depends_on := [];
          inst_environment :=
            <[mount_env_var mount := mount_mount_path mount]>
              (voice_maker_environment config name node ∪ custom);
          inst_labels := service_labels "voice-maker" node;
          inst_published_ports :=
            ports_or (mkPublishedPort "127.0.0.1"
                        (published_port kVoiceMakerPublishedPortBase (ds_plane_name state) name)
                        kVoiceMakerContainerPort) ports;
          inst_gpu_device := vg_gpu_device gpu;
          inst_placement_mode := Manual;
          inst_share_mode := vg_share_mode gpu;
          inst_gpu_fraction := vg_gpu_fraction gpu;
          inst_priority := vg_priority gpu;
          inst_preemptible := vg_preemptible gpu;
          inst_memory_cap_mb := vg_memory_cap_mb gpu;
          inst_private_disk_size_gb := private_disk_size_gb;
          inst_app_model_mounts := [mount] |} in
        Ok ([voice], [private_disk VoiceMakerPrivate container_path voice])
  end.
End renderer.

(** ** The whole state *)

Section render.
Context `{Lib : !JsonLibrary}.

(** [state_] with the members, disks and instances that were appended. *)
Definition with_instances (members : list WorkerGroupMemberSpec) (disks : list DiskSpec)
    (instances : list InstanceSpec) (state : DesiredState) : DesiredState :=
  mkDesiredState (ds_plane_name state) (ds_plane_shared_disk_name state) (ds_control_root state)
    (ds_plane_mode state) (ds_protected_plane state) (ds_post_deploy_script state)
    (ds_placement_target state) (ds_bootstrap_model state) (ds_interaction state) (ds_skills state)
    (ds_browsing state) (ds_knowledge state) (ds_turboquant state) (ds_context_compression state)
    (ds_voice_listener state) (ds_voice_maker state) (ds_secured_connection state)
    (ds_app_host state) (ds_inference state) (group_with_members members (ds_worker_group state))
    (ds_gateway state) (ds_runtime_gpu_nodes state) (ds_nodes state) disks instances.

Definition RenderState (rj : RendererJson) : result DesiredState :=
  parts ← render_parts rj;
  state ← RenderWorkerGroup rj parts;
  shared_disks ← RenderSharedDisk rj state;
  infers ← RenderInferInstance rj state;
  workers ← RenderWorkerInstances rj state (map inst_name infers.1);
  apps ← RenderAppInstance rj state (map inst_name infers.1);
  skills ← RenderSkillsInstance rj state;
  webgateway ← RenderWebGatewayInstance rj state;
  interaction ← RenderInteractionInstance rj state;
  let instances := infers.1 ++ workers.1.1 ++ apps.1 ++ skills.1 ++ webgateway.1 ++ interaction.1 in
  voice_module ← RenderVoiceModuleInstance rj state instances;
  voice_maker ← RenderVoiceMakerInstance rj state (instances ++ voice_module.1);
  Ok (with_instances workers.1.2
        (shared_disks ++ infers.2 ++ workers.2 ++ apps.2 ++ skills.2 ++ webgateway.2 ++
         interaction.2 ++ voice_module.2 ++ voice_maker.2)
        (instances ++ voice_module.1 ++ voice_maker.1) state).

Definition Render (value : json) : result DesiredState :=
  _ ← ValidateOrThrow value;
  rj ← DesiredStateV2Renderer value;
  RenderState rj.
End render.
