(* ===== verification/V2Rendered.v ===== *)
(** * What a rendered state promises

    Properties of [V2Validator] and [V2Renderer]: what an accepted document
    satisfies, where the instances and disks of its state are, how the workers
    are grouped, which names and dependencies occur, and that the compose planner
    accepts the state. *)

From S2P Require Import Prelude Binary64 Json Models Fixtures WorkerTopology Planner RuntimeStatus StateCodecs StateJson Paths InferRuntimeConfig V2Validator V2Renderer.

(** ** Checks *)

Lemma require_ok b message : require b message = Ok tt <-> b = true.
Proof. unfold require. by destruct b. Qed.

Lemma require_Ok b message u : require b message = Ok u -> b = true.
Proof. unfold require. by destruct b. Qed.

Lemma required_member_ok ok value key message x :
  required_member ok value key message = Ok x -> member value key = Some x /\ ok x = true.
Proof.
  unfold required_member. destruct (member value key) as [y|]; [|done]. intros H. bind_inv.
  apply require_Ok in E. done.
Qed.

Lemma require_member_ok ok value key message x u :
  require_member ok value key message = Ok u -> member value key = Some x -> ok x = true.
Proof. unfold require_member. intros H%require_Ok Hx. by rewrite Hx in H. Qed.

Lemma with_member_ok check value key x u :
  with_member check value key = Ok u -> member value key = Some x -> check x = Ok tt.
Proof. unfold with_member. intros H Hx. rewrite Hx in H. by destruct u. Qed.

Lemma json_value_member {A} (get : json -> result A) value key d x :
  member value key = Some x -> json_value get value key d = get x.
Proof. destruct value; cbn; try done. by intros ->. Qed.

Lemma json_at_member {A} (get : json -> result A) value key x :
  member value key = Some x -> json_at get value key = get x.
Proof. destruct value; cbn; try done. by intros ->. Qed.

Lemma json_at_Ok {A} (get : json -> result A) value key a :
  json_at get value key = Ok a -> exists x, member value key = Some x /\ get x = Ok a.
Proof. destruct value; cbn; try done. destruct (assoc key fields) as [x|]; naive_solver. Qed.

(** One conjunct per line of a validation. *)
Ltac checks :=
  repeat match goal with
  | H : require _ _ = Ok _ |- _ => apply require_Ok in H
  | H : required_member _ _ _ _ = Ok _ |- _ => apply required_member_ok in H as [? ?]
  end.

Section rendered.
Context `{Lib : !JsonLibrary}.

Lemma RequireObject_ok value field x :
  RequireObject value field = Ok x -> member value field = Some x /\ is_object x = true.
Proof.
  unfold RequireObject. intros H. bind_inv. checks.
  apply json_at_Ok in E as (y & Hy & Hg). rewrite get_json_law in Hg. by injection Hg as ->.
Qed.

(** Names collected by a loop that refuses repetitions. *)
Lemma collect_unique {A} (step : gset string -> A -> result (gset string)) (P : A -> string -> Prop) l :
  (forall seen x seen', step seen x = Ok seen' ->
     exists name, P x name /\ not (name ∈ seen) /\ seen' = {[name]} ∪ seen) ->
  forall seen seen', foldR step seen l = Ok seen' ->
  exists names, Forall2 P l names /\ NoDup names /\ (forall name, name ∈ names -> not (name ∈ seen)) /\
    seen' = list_to_set names ∪ seen.
Proof.
  intros Hstep. induction l as [|x l IH]; intros seen seen' H; cbn in H; bind_inv.
  - exists []. repeat split; [constructor | constructor | set_solver | set_solver].
  - apply Hstep in E as (name & HP & Hx & ->). apply IH in H as (names & Hall & Hnd & Hfresh & ->).
    exists (name :: names). split; [by constructor|].
    split; [constructor; [intros Hin%Hfresh; set_solver | done]|].
    split; [|set_solver]. intros n [->|Hn]%elem_of_cons; [done|]. apply Hfresh in Hn. set_solver.
Qed.

Lemma string_with_ok ok item :
  string_with ok item = Ok true -> exists text, get_string item = Ok text /\ ok text = true.
Proof. unfold string_with. destruct (is_string item); [|done]. intros H. bind_inv. eauto. Qed.

Lemma integer_with_ok ok item :
  integer_with ok item = Ok true -> exists z, get_int item = Ok z /\ ok z = true.
Proof. unfold integer_with. destruct (is_number_integer item); [|done]. intros H. bind_inv. eauto. Qed.

Lemma unique_texts_ok bad repeated values seen :
  unique_texts bad repeated values = Ok seen ->
  exists texts, Forall2 (fun item text => get_string item = Ok text /\ text <> "") values texts /\
    NoDup texts /\ seen = list_to_set texts.
Proof.
  unfold unique_texts. intros H. eapply collect_unique in H as (texts & Hall & Hnd & _ & ->).
  - exists texts. split; [exact Hall|]. split; [done|]. set_solver.
  - cbn. intros acc x acc' Hstep. unfold unique_text in Hstep. bind_inv. checks.
    subst. apply string_with_ok in E as (text & Htext & Hne). rewrite Htext in *. simplify_eq.
    to_prop. eexists. split; [split; [done | by apply str_empty_false]|]. done.
Qed.

(** The names of the listed nodes. *)
Lemma validate_topology_names value topology nodes :
  ValidateTopology value = Ok tt -> member value "topology" = Some topology ->
  member topology "nodes" = Some nodes ->
  is_array nodes = true /\ items nodes <> [] /\
  exists names,
    Forall2 (fun node name => json_value get_string node "name" "" = Ok name /\ name <> "")
      (items nodes) names /\ NoDup names.
Proof.
  unfold ValidateTopology, contains. intros H Ht Hn. rewrite Ht in H. cbn in H. bind_inv. checks.
  apply RequireObject_ok in E as [Ht' _]. rewrite Ht in Ht'. injection Ht' as <-.
  rewrite Hn in *. simplify_eq. to_prop. split; [done|]. split; [by apply vec_empty_false|].
  eapply collect_unique in E2 as (names & Hall & Hnd & _ & _); [eexists; split; [exact Hall | done]|].
  cbn. intros acc x acc' Hstep. unfold validate_node in Hstep. bind_inv. checks. to_prop.
  eexists. split; [split; [done | by apply str_empty_false]|]. done.
Qed.

Lemma ValidateOrThrow_ok value u :
  ValidateOrThrow value = Ok u ->
  ValidateTopLevel value = Ok tt /\ ValidateModel value = Ok tt /\ ValidateFeatures value = Ok tt /\
  ValidateRuntime value = Ok tt /\ ValidatePlacement value = Ok tt /\
  ValidateTopology value = Ok tt /\ ValidateLegacyPlacementCompatibility value = Ok tt /\
  ValidateInfer value = Ok tt /\ ValidateWorker value = Ok tt /\
  ValidateVoiceModuleResources value = Ok tt /\ ValidateApp value = Ok tt /\
  ValidateSkills value = Ok tt /\ ValidateBrowsing value = Ok tt /\ ValidateHooks value = Ok tt.
Proof.
  unfold ValidateOrThrow. intros H. bind_inv.
  repeat match goal with u : unit |- _ => destruct u end. by repeat split.
Qed.

(** The runtime block of an accepted document. *)
Lemma validate_runtime_ok value :
  ValidateRuntime value = Ok tt ->
  exists runtime workers engine,
    member value "runtime" = Some runtime /\ json_value get_string runtime "engine" "" = Ok engine /\
    engine <> "" /\ json_at get_int runtime "workers" = Ok workers /\ 0 < workers /\
    json_value get_string runtime "data_parallel_mode" "off" = Ok "off" /\
    contains runtime "data_parallel_lb_mode" = false /\
    (plane_mode_of value = Ok "llm" ->
     engine = "llama.cpp" /\
     json_value get_string runtime "distributed_backend" "llama_rpc" = Ok "llama_rpc").
Proof.
  unfold ValidateRuntime. intros H. bind_inv. checks. subst.
  apply json_at_Ok in E as (runtime & Hr & Hg). rewrite get_json_law in Hg. simplify_eq.
  destruct (member a "workers") as [w|] eqn:Hw; [|done].
  apply integer_with_ok in E3 as (workers & Hi & Hpos). to_prop. subst.
  exists a, workers, a1. split; [done|]. split; [done|]. split; [by apply str_empty_false|].
  split; [by rewrite (json_at_member _ _ _ w Hw)|]. split; [done|]. split; [done|]. split; [done|].
  intros [= ->]. clear E11 H. rewrite bool_decide_eq_true_2 in E7, E8 by done. cbn in E7, E8.
  to_prop. subst. split; [done|]. unfold runtime_backend in E6. by rewrite eqb_refl in E6.
Qed.

(** The replicas of an accepted language model plane divide its workers. *)
Lemma validate_replicas_ok value runtime workers :
  ValidateInfer value = Ok tt -> plane_mode_of value = Ok "llm" ->
  member value "runtime" = Some runtime -> json_at get_int runtime "workers" = Ok workers ->
  exists infer replicas,
    member value "infer" = Some infer /\ is_object infer = true /\
    json_value get_int infer "replicas" 1 = Ok replicas /\ 0 < replicas /\ Z.rem workers replicas = 0.
Proof.
  unfold ValidateInfer. intros H Hmode Hr Hw. rewrite Hmode in H. cbn in H.
  change ("llm" ==? "llm") with true in H. cbn [negb] in H.
  rewrite (json_at_member _ _ _ runtime Hr), get_json_law in H. bind_inv. checks.
  lazymatch goal with Hm : member value "infer" = Some ?x |- _ => rename x into infer, Hm into Hi end.
  unfold contains in *. rewrite Hi in H. cbn in H. bind_inv. apply RequireObject_ok in E2 as [Hi' _]. rewrite Hi in Hi'. simplify_eq.
  destruct (member a2 "replicas") as [r|] eqn:Hrep; [|done].
  eapply with_member_ok in E5; [|exact Hrep]. unfold validate_replicas in E5. bind_inv. checks. subst.
  lazymatch goal with Hg : integer_with _ r = Ok true |- _ =>
    apply integer_with_ok in Hg as (z & Hz & Hpos) end.
  rewrite Hz in E9. injection E9 as <-. to_prop.
  exists a2, z. rewrite (json_value_member _ _ _ _ r Hrep). repeat split; try done. by apply Z.eqb_eq.
Qed.

(** ** Placement *)

Definition node_names (state : DesiredState) : list string := map node_name (ds_nodes state).

Section placement.
Context (rj : RendererJson) (state : DesiredState).

(** A computation that only gives names of nodes of the state. *)
Definition on_nodes (r : result string) : Prop := forall name, r = Ok name -> name ∈ node_names state.

Lemma DefaultNodeName_on : on_nodes (DefaultNodeName state).
Proof.
  unfold on_nodes, DefaultNodeName, node_names. destruct (ds_nodes state); [done|].
  intros name [= <-]. left.
Qed.

Lemma RequireNode_on name context node :
  RequireNode state name context = Ok node -> node_name node ∈ node_names state.
Proof.
  unfold RequireNode. destruct (find_if _ _) as [n|] eqn:E; [|done]. intros [= <-].
  apply find_if_Some in E as [_ Hin]. by apply list_elem_of_fmap_2'  with n.
Qed.

Lemma named_node_on service name n :
  named_node state service name = Ok (Some n) -> n ∈ node_names state.
Proof.
  unfold named_node. intros H. bind_inv. destruct a; bind_inv; [|done]. by eapply RequireNode_on.
Qed.

Lemma ResolveLegacyServiceNodeName_on service name n :
  ResolveLegacyServiceNodeName rj state service name = Ok (Some n) -> n ∈ node_names state.
Proof. unfold ResolveLegacyServiceNodeName. destruct_if; [apply named_node_on | done]. Qed.

(** A node named by a service, or else another one. *)
Lemma named_or_on service name (r : result string) :
  on_nodes r ->
  on_nodes (legacy ← ResolveLegacyServiceNodeName rj state service name;
            match legacy with Some n => Ok n | None => r end).
Proof.
  intros Hr n H. bind_inv. destruct a; bind_inv; [by eapply ResolveLegacyServiceNodeName_on | by apply Hr].
Qed.

Lemma ResolveWorkerNodeName_on i : on_nodes (ResolveWorkerNodeName rj state i).
Proof.
  intros n H. unfold ResolveWorkerNodeName in H. bind_inv. destruct a as [name|].
  - bind_inv. unfold ResolveLegacyWorkerAssignmentNodeName in E. bind_inv. destruct a; [|done].
    by eapply named_node_on.
  - exact (named_or_on _ _ _ DefaultNodeName_on n H).
Qed.

Lemma first_infer_node_on : on_nodes (first_infer_node state).
Proof.
  unfold first_infer_node. destruct (find_if _ _) as [n|] eqn:E; [|apply DefaultNodeName_on].
  intros name [= <-]. apply find_if_Some in E as [_ Hin]. by apply list_elem_of_fmap_2' with n.
Qed.

Lemma ResolveInferNodeName_on i : on_nodes (ResolveInferNodeName rj state i).
Proof.
  intros n H. unfold ResolveInferNodeName in H. bind_inv. destruct a as [name|]; bind_inv.
  - destruct (i =? 0); [by eapply ResolveLegacyServiceNodeName_on | done].
  - destruct_if; bind_inv; [by eapply ResolveWorkerNodeName_on | by eapply first_infer_node_on].
Qed.

Lemma ResolveAppNodeName_on : on_nodes (ResolveAppNodeName rj state).
Proof. apply named_or_on, ResolveInferNodeName_on. Qed.

Lemma ResolveAppNodeName_of_on app : on_nodes (ResolveAppNodeName_of rj state app).
Proof. apply named_or_on, ResolveAppNodeName_on. Qed.

Lemma service_node_on service name : on_nodes (service_node rj state service name).
Proof. apply named_or_on, ResolveAppNodeName_on. Qed.

Lemma SharedDiskNodeName_on : on_nodes (SharedDiskNodeName rj state).
Proof.
  intros n H. unfold SharedDiskNodeName in H. bind_inv. destruct a; [by eapply ResolveInferNodeName_on|].
  by eapply DefaultNodeName_on.
Qed.

(** ** The rendered instances *)

Definition role_disk_kind (role : InstanceRole) : DiskKind :=
  match role with
  | Infer => InferPrivate
  | Worker => WorkerPrivate
  | App => AppPrivate
  | Skills => SkillsPrivate
  | Browsing => BrowsingPrivate
  | Interaction => InteractionPrivate
  | VoiceModule => VoiceModulePrivate
  | VoiceMaker => VoiceMakerPrivate
  end.

(** The disk belongs to the instance: its name, owner, node, path and size. *)
Definition owns_disk (i : InstanceSpec) (d : DiskSpec) : Prop :=
  exists path, d = private_disk (role_disk_kind (inst_role i)) path i.

(** An instance of the plane on one of its nodes, with the shared disk. *)
Definition plane_instance (i : InstanceSpec) : Prop :=
  inst_plane_name i = ds_plane_name state /\ inst_node_name i ∈ node_names state /\
  inst_shared_disk_name i = ds_plane_shared_disk_name state.

(** A service of the plane has a private disk, an infer instance has none. *)
Definition service_instance (role : InstanceRole) (i : InstanceSpec) : Prop :=
  plane_instance i /\ inst_role i = role /\ inst_private_disk_name i = inst_name i +:+ "-private".
Definition infer_instance (i : InstanceSpec) : Prop :=
  plane_instance i /\ inst_role i = Infer /\ inst_private_disk_name i = "".

(** A service that is rendered once, or not at all. *)
Definition single_service (role : InstanceRole) (name : string) (depends_on : list string) (on : bool)
    (r : list InstanceSpec * list DiskSpec) : Prop :=
  if on then
    exists i d, r = ([i], [d]) /\ service_instance role i /\ inst_name i = name /\
      inst_depends_on i = depends_on /\ owns_disk i d
  else r = ([], []).

Lemma RenderSkillsInstance_ok r :
  RenderSkillsInstance rj state = Ok r ->
  exists on, json_value get_bool (skills_json_ rj) "enabled" false = Ok on /\
    single_service Skills (BuildSkillsInstanceName (ds_plane_name state)) [] on r.
Proof.
  unfold RenderSkillsInstance. intros H. bind_inv. exists a. split; [done|].
  destruct a; cbn in H; bind_inv; [|done].
  eexists _, _. split; [done|]. cbn. repeat split; try done; [by eapply service_node_on | by eexists].
Qed.

Lemma RenderWebGatewayInstance_ok r :
  RenderWebGatewayInstance rj state = Ok r ->
  exists on, json_value get_bool (browsing_json_ rj) "enabled" false = Ok on /\
    single_service Browsing (BuildWebGatewayInstanceName (ds_plane_name state)) [] on r.
Proof.
  unfold RenderWebGatewayInstance. intros H. bind_inv. exists a. split; [done|].
  destruct a; cbn in H; bind_inv; [|done].
  eexists _, _. split; [done|]. cbn. repeat split; try done; [by eapply service_node_on | by eexists].
Qed.

Lemma RenderInteractionInstance_ok r :
  RenderInteractionInstance rj state = Ok r ->
  exists webgateway, json_value get_bool (browsing_json_ rj) "enabled" false = Ok webgateway /\
    single_service Interaction (BuildInteractionInstanceName (ds_plane_name state))
      (BuildInferInstanceName (ds_plane_name state) 0 ::
       if (webgateway : bool) then [BuildWebGatewayInstanceName (ds_plane_name state)] else [])
      (ds_plane_mode state ==? Llm) r \/
  ds_plane_mode state <> Llm /\ r = ([], []).
Proof.
  unfold RenderInteractionInstance. destruct (ds_plane_mode state ==? Llm) eqn:Hm; cbn [negb].
  - intros H. bind_inv. exists a0. left. split; [done|]. cbn.
    eexists _, _. split; [done|]. cbn. repeat split; try done; [by eapply ResolveInferNodeName_on | by eexists].
  - intros [= <-]. rewrite eqb_false in Hm. exists false. by right.
Qed.

(** The GPU of a voice service is one that a worker uses. *)
Definition worker_device (instances : list InstanceSpec) (host : VoiceGpuHost) : Prop :=
  exists i, i ∈ instances /\ inst_role i = Worker /\ inst_node_name i = vh_node_name host /\
    inst_gpu_device i = Some (vh_gpu_device host).

Lemma count_voice_hosts instances done hosts :
  map_Forall (fun key host => worker_device done host /\ key = (vh_node_name host, vh_gpu_device host))
    hosts ->
  map_Forall (fun key host => worker_device (done ++ instances) host /\
      key = (vh_node_name host, vh_gpu_device host))
    (foldl count_voice_host hosts instances).
Proof.
  revert done hosts. induction instances as [|i l IH]; intros pre hosts Hall; cbn.
  { by rewrite app_nil_r. }
  rewrite (cons_middle i pre l), app_assoc. apply IH. intros key host Hk.
  assert (Hmono : forall h, worker_device pre h -> worker_device (pre ++ [i]) h).
  { intros h (j & Hj & ?). exists j. split; [set_solver | done]. }
  unfold count_voice_host in Hk. destruct (inst_gpu_device i) as [device|] eqn:Hd.
  2: { destruct (Hall _ _ Hk). split; [by apply Hmono | done]. }
  destruct ((inst_role i !=? Worker) || str_empty device) eqn:Hr.
  { destruct (Hall _ _ Hk). split; [by apply Hmono | done]. }
  apply orb_false_iff in Hr as [Hr%negb_false_iff _]. rewrite eqb_true in Hr.
  apply lookup_insert_Some in Hk as [[<- <-]|[_ Hk]].
  2: { destruct (Hall _ _ Hk). split; [by apply Hmono | done]. }
  assert (Hhost : forall h, h = default VoiceGpuHost_default (hosts !! (inst_node_name i, device)) ->
            (if str_empty (vh_node_name h) then inst_node_name i else vh_node_name h) = inst_node_name i /\
            (if str_empty (vh_node_name h) then device else vh_gpu_device h) = device).
  { intros h ->. destruct (hosts !! _) as [h|] eqn:Hh; [|done]. destruct (Hall _ _ Hh) as [_ [= -> ->]].
    cbn. by destruct_if. }
  destruct (Hhost _ eq_refl) as [Hn Hg]. cbn in Hn, Hg. split.
  - exists i. cbn. rewrite Hn, Hg. split; [set_solver | done].
  - cbn. by rewrite Hn, Hg.
Qed.

Lemma choose_voice_host_elem hosts best host :
  foldl choose_voice_host best hosts = Some host -> best = Some host \/ host ∈ hosts.
Proof.
  revert best. induction hosts as [|h l IH]; intros best; cbn; [by left|].
  intros [Hb|Hl]%IH; [|right; by right]. unfold choose_voice_host in Hb.
  destruct best as [b|]; [destruct_if|]; simplify_eq; set_solver.
Qed.

Lemma SelectVoiceGpuHost_ok instances host :
  SelectVoiceGpuHost instances = Some host -> worker_device instances host.
Proof.
  unfold SelectVoiceGpuHost. intros [?|Hin]%choose_voice_host_elem; [done|].
  apply list_elem_of_fmap in Hin as ([key h] & -> & Hin). apply elem_of_map_items in Hin.
  apply (count_voice_hosts instances [] ∅) in Hin as [? _]; done.
Qed.

Lemma voice_host_ok on resource instances host :
  voice_host on resource instances = Ok (Some host) -> worker_device instances host.
Proof.
  unfold voice_host. destruct on; [|done].
  destruct (SelectVoiceGpuHost instances) eqn:E; [|done]. intros [= <-]. by apply SelectVoiceGpuHost_ok.
Qed.

Lemma voice_node_on on resource instances host :
  Forall plane_instance instances -> voice_host on resource instances = Ok host ->
  on_nodes (match host with Some h => Ok (vh_node_name h) | None => ResolveAppNodeName rj state end).
Proof.
  intros Hall Hh. destruct host as [h|]; [|apply ResolveAppNodeName_on]. intros n [= <-].
  apply voice_host_ok in Hh as (i & Hi & _ & <- & _). rewrite Forall_forall in Hall. by apply Hall.
Qed.

Lemma RenderVoiceModuleInstance_ok instances r :
  Forall plane_instance instances -> RenderVoiceModuleInstance rj state instances = Ok r ->
  single_service VoiceModule (BuildVoiceModuleInstanceName (ds_plane_name state)) []
    (voice_listener_enabled state) r.
Proof.
  intros Hall. unfold RenderVoiceModuleInstance, voice_listener_enabled.
  destruct (ds_voice_listener state) as [config|]; cbn; [|by intros [= <-]].
  destruct (vl_enabled config); cbn; [|by intros [= <-]]. intros H. bind_inv.
  eexists _, _. split; [done|]. cbn. repeat split; try done; [by eapply voice_node_on | by eexists].
Qed.

Lemma RenderVoiceMakerInstance_ok instances r :
  Forall plane_instance instances -> RenderVoiceMakerInstance rj state instances = Ok r ->
  single_service VoiceMaker (BuildVoiceMakerInstanceName (ds_plane_name state)) []
    (voice_maker_enabled state) r.
Proof.
  intros Hall. unfold RenderVoiceMakerInstance, voice_maker_enabled.
  destruct (ds_voice_maker state) as [config|]; cbn; [|by intros [= <-]].
  destruct (vm_enabled config); cbn; [|by intros [= <-]]. intros H. bind_inv.
  eexists _, _. split; [done|]. cbn. repeat split; try done; [by eapply voice_node_on | by eexists].
Qed.

(** *** Inference *)

(** The environment of an infer instance on a port variable: the document's
    value, or the configured port moved by the index. *)
Definition port_variable (custom : gmap string string) (i : InstanceSpec) (key : string) (port : Z)
    : Prop :=
  inst_environment i !! key = Some (default (to_string port) (custom !! key)).

Definition infer_spec (custom : gmap string string) (index : Z) (i : InstanceSpec) : Prop :=
  infer_instance i /\ inst_name i = BuildInferInstanceName (ds_plane_name state) index /\
  inst_depends_on i = [] /\ ResolveInferNodeName rj state index = Ok (inst_node_name i) /\
  port_variable custom i "NAIM_INFERENCE_PORT" (inf_api_port (ds_inference state) + index) /\
  port_variable custom i "NAIM_GATEWAY_PORT" (gw_listen_port (ds_gateway state) + index).

Lemma lookup_default_union (m m' : gmap string string) key text :
  m' !! key = Some text -> (m ∪ m') !! key = Some (default text (m !! key)).
Proof.
  intros H. destruct (m !! key) as [v|] eqn:E; cbn; [by apply lookup_union_Some_l|].
  by rewrite lookup_union_r.
Qed.

Lemma render_infer_ok count index i :
  render_infer rj state count index = Ok i ->
  exists custom, custom_env (infer_json_ rj) = Ok custom /\ infer_spec custom index i.
Proof.
  unfold render_infer. intros H. bind_inv. eexists. split; [done|].
  assert (Hp : (if HasExplicitPrivateStorage (infer_json_ rj) "volumes" && InstanceNeedsPrivateDisk Infer
                then BuildInferInstanceName (ds_plane_name state) index +:+ "-private" else "") = "").
  { change (InstanceNeedsPrivateDisk Infer) with false. by rewrite andb_false_r. }
  rewrite Hp. unfold infer_spec, infer_instance, plane_instance, port_variable. cbn [str_empty].
  repeat split; try done; cbn [inst_node_name inst_environment]; [by eapply ResolveInferNodeName_on|..];
    apply lookup_default_union; unfold infer_environment; by simplify_map_eq.
Qed.

Lemma with_upstreams_ok infers infers' :
  with_upstreams state infers = Ok infers' ->
  Forall2 (fun i j => j = i \/ exists text, j = instance_with_env "NAIM_REPLICA_UPSTREAMS" text i)
    infers infers'.
Proof.
  assert (Hid : forall l : list InstanceSpec,
    Forall2 (fun i j => j = i \/ exists text, j = instance_with_env "NAIM_REPLICA_UPSTREAMS" text i) l l)
    by (intros l; apply Forall_Forall2_diag, Forall_true; auto).
  unfold with_upstreams. destruct infers as [|front [|i l]]; [by intros [= <-].. |].
  destruct (inst_environment front !! _); intros H; bind_inv; [done|].
  constructor; [eauto | apply Hid].
Qed.

Lemma infer_spec_env custom index text i :
  infer_spec custom index i ->
  infer_spec custom index (instance_with_env "NAIM_REPLICA_UPSTREAMS" text i).
Proof.
  unfold infer_spec, infer_instance, plane_instance, port_variable. cbn.
  rewrite !lookup_insert_ne by done. done.
Qed.

Lemma InferReplicaCount_pos replicas : InferReplicaCount rj state = Ok replicas -> 1 <= replicas.
Proof. unfold InferReplicaCount. destruct (llama_rpc_runtime state); cbn; intros H; bind_inv; lia. Qed.

(** The number of infer instances: the aggregator and the replicas. *)
Lemma infer_count_ok count :
  (if llama_rpc_runtime state then replicas ← InferReplicaCount rj state; Ok (replicas + 1)
   else Ok 1) = Ok count ->
  exists replicas, InferReplicaCount rj state = Ok replicas /\ 1 <= replicas /\
    count = if llama_rpc_runtime state then replicas + 1 else 1.
Proof.
  destruct (llama_rpc_runtime state) eqn:Hl; intros H; bind_inv.
  - eexists. split; [done|]. split; [by apply InferReplicaCount_pos | done].
  - exists 1. unfold InferReplicaCount. by rewrite Hl.
Qed.

Lemma range_pos count : 1 <= count -> exists l, range count = 0 :: l.
Proof.
  intros H. unfold range. destruct (Z.to_nat count) eqn:E; [lia|]. cbn. eauto.
Qed.

(** The infer instances have no private disk, whatever storage the document asks for. *)
Lemma no_infer_disks infers :
  Forall infer_instance infers ->
  List.filter (fun infer => negb (str_empty (inst_private_disk_name infer))) infers = [].
Proof.
  intros Hall. apply filter_all_false. intros i Hi. rewrite Forall_forall in Hall.
  destruct (Hall _ Hi) as (_ & _ & ->). done.
Qed.

Lemma RenderInferInstance_ok r :
  RenderInferInstance rj state = Ok r ->
  exists on, InferEnabled rj state = Ok on /\
    if (on : bool) then
      exists custom replicas, custom_env (infer_json_ rj) = Ok custom /\
        InferReplicaCount rj state = Ok replicas /\ 1 <= replicas /\
        Forall2 (infer_spec custom) (range (if llama_rpc_runtime state then replicas + 1 else 1)) r.1 /\
        r.2 = []
    else r = ([], []).
Proof.
  unfold RenderInferInstance. intros H. bind_inv. exists a. split; [done|].
  destruct a; cbn in H; bind_inv; [|done].
  apply infer_count_ok in E0 as (replicas & Hr & Hpos & Hcount).
  assert (exists l, range a = 0 :: l) as [l Hl] by (apply range_pos; subst; destruct_if; lia).
  assert (Hspec : exists custom, custom_env (infer_json_ rj) = Ok custom /\
            Forall2 (infer_spec custom) (range a) a1).
  { apply mapR_Forall2 in E1. destruct (custom_env (infer_json_ rj)) as [custom|e] eqn:Hc.
    - exists custom. split; [done|]. apply with_upstreams_ok in E2.
      eapply Forall2_trans; [|exact E1|exact E2]. cbn. intros k i j Hi Hj.
      apply render_infer_ok in Hi as (c & Hc' & Hi). rewrite Hc in Hc'. injection Hc' as <-.
      destruct Hj as [->|[text ->]]; [done | by apply infer_spec_env].
    - exfalso. rewrite Hl in E1. inversion E1 as [|? i ? ? Hi]; subst.
      apply render_infer_ok in Hi as (c & Hc' & _). by rewrite Hc in Hc'. }
  destruct Hspec as (custom & Hc & Hall). exists custom, replicas. cbn. subst a. repeat split; try done.
  assert (Forall infer_instance a1) as Hi.
  { eapply Forall2_Forall_r; [exact Hall|]. apply Forall_true. by intros k i (? & _). }
  rewrite (no_infer_disks _ Hi) in E3. cbn in E3. congruence.
Qed.

(** *** Workers *)

Definition worker_spec (total_workers index : Z) (i : InstanceSpec) : Prop :=
  service_instance Worker i /\
  inst_name i = BuildWorkerName (ds_plane_name state) index total_workers /\
  inst_depends_on i = [] /\ ResolveWorkerNodeName rj state index = Ok (inst_node_name i) /\
  ResolveWorkerGpuDevice rj index = Ok (inst_gpu_device i).

Lemma render_worker_ok infer_names total index i :
  render_worker rj state infer_names total index = Ok i -> worker_spec total index i.
Proof.
  unfold render_worker. intros H. bind_inv. unfold worker_spec, service_instance, plane_instance. cbn.
  repeat split; try done. by eapply ResolveWorkerNodeName_on.
Qed.

(** What a turn of the loop appends. *)
Definition worker_turn_spec (infer_names : list string) (total index : Z)
    (turn : InstanceSpec * list WorkerGroupMemberSpec * DiskSpec) : Prop :=
  worker_spec total index turn.1.1 /\ owns_disk turn.1.1 turn.2 /\
  if inf_distributed_backend (ds_inference state) ==? "llama_rpc"
  then exists m, turn.1.2 = [m] /\ render_member rj state infer_names total index turn.1.1 = Ok m
  else turn.1.2 = [].

Lemma render_worker_turn_ok infer_names total index turn :
  render_worker_turn rj state infer_names total index = Ok turn ->
  worker_turn_spec infer_names total index turn.
Proof.
  unfold render_worker_turn. intros H. bind_inv.
  match goal with Hw : render_worker _ _ _ _ _ = Ok _ |- _ =>
    pose proof (render_worker_ok _ _ _ _ Hw) as Hs end.
  split; [done|]. split.
  - exists a1. cbn. destruct Hs as ((_ & -> & _) & _). done.
  - cbn. destruct (_ ==? "llama_rpc"); bind_inv; [eauto | done].
Qed.

Lemma RenderWorkerInstances_ok infer_names r :
  RenderWorkerInstances rj state infer_names = Ok r ->
  exists total, WorkerCount rj = Ok total /\
    Forall2 (worker_spec total) (range total) r.1.1 /\ Forall2 owns_disk r.1.1 r.2 /\
    if inf_distributed_backend (ds_inference state) ==? "llama_rpc"
    then Forall2 (fun '(index, worker) m => render_member rj state infer_names total index worker = Ok m)
           (zip (range total) r.1.1) r.1.2
    else r.1.2 = [].
Proof.
  unfold RenderWorkerInstances. intros H. bind_inv. exists a. split; [done|]. cbn.
  apply mapR_Forall2 in E0.
  assert (Forall2 (worker_turn_spec infer_names a) (range a) a0) as Hall
    by (eapply Forall2_impl; [exact E0 | intros k turn; apply render_worker_turn_ok]).
  clear E0. destruct (_ ==? "llama_rpc") eqn:Hb; unfold worker_turn_spec in Hall; rewrite Hb in Hall.
  - induction Hall as [|k turn ks turns (Hw & Hd & m & Hm & Hr) _ (IH1 & IH2 & IH3)]; cbn; [done|].
    rewrite Hm. cbn. by repeat split; constructor.
  - induction Hall as [|k turn ks turns (Hw & Hd & Hm) _ (IH1 & IH2 & IH3)]; cbn; [done|].
    rewrite Hm. cbn. by repeat split; [constructor..|].
Qed.

(** *** Apps *)

(** The entries that are rendered, with their positions. *)
Definition app_spec (infer_names : list string) (app : InstanceSpec) (d : DiskSpec) : Prop :=
  service_instance App app /\ inst_depends_on app = app_depends_on state infer_names /\
  owns_disk app d /\
  exists name primary, inst_name app = BuildAppInstanceName (ds_plane_name state) name primary.

Lemma render_app_ok infer_names index entry app d :
  render_app rj state infer_names index entry = Ok (app, d) ->
  app_spec infer_names app d /\
  exists flagged name,
    json_value get_bool entry "primary" false = Ok flagged /\
    json_value get_string entry "name"
      (if (flagged : bool) || (index =? 0) then "primary" else "app-" +:+ to_string index) = Ok name /\
    inst_name app = BuildAppInstanceName (ds_plane_name state) name (flagged || (index =? 0)).
Proof.
  unfold render_app. intros H. bind_inv. split.
  - unfold app_spec, service_instance, plane_instance. cbn.
    repeat split; try done; [by eapply ResolveAppNodeName_of_on | by eexists | by eexists _, _].
  - eexists _, _. done.
Qed.

Lemma RenderAppInstance_ok infer_names r :
  RenderAppInstance rj state infer_names = Ok r -> Forall2 (app_spec infer_names) r.1 r.2.
Proof.
  unfold RenderAppInstance. intros H. bind_inv. cbn. revert a E. generalize 0.
  induction (apps_json_ rj) as [|entry l IH]; intros index a H; cbn in H; bind_inv; [constructor|].
  destruct a0; cbn in H; [|by eapply IH]. bind_inv. destruct a0 as [app d]. cbn.
  constructor; [|by eapply IH]. by eapply render_app_ok.
Qed.
End placement.

(** ** The parts of a rendered state *)

Lemma RenderNodeTopology_ok rj target nodes :
  RenderNodeTopology rj target = Ok nodes -> nodes <> [].
Proof.
  unfold RenderNodeTopology. intros H. bind_inv. destruct_if; [done | by apply vec_empty_false].
Qed.

Lemma render_node_name node_json node :
  render_node node_json = Ok node -> json_at get_string node_json "name" = Ok (node_name node).
Proof. unfold render_node. intros H. by bind_inv. Qed.

Lemma json_at_value {A} (get : json -> result A) value key d a :
  json_at get value key = Ok a -> json_value get value key d = Ok a.
Proof. intros (x & Hx & Hg)%json_at_Ok. by rewrite (json_value_member _ _ _ _ x Hx). Qed.

Lemma RenderNodeTopology_NoDup rj target nodes :
  ValidateTopology (value_ rj) = Ok tt -> RenderNodeTopology rj target = Ok nodes ->
  NoDup (map node_name nodes).
Proof.
  intros Hv. unfold RenderNodeTopology. intros H. bind_inv.
  assert (Hl : NoDup (map node_name a)).
  { destruct (member (value_ rj) "topology") as [topology|] eqn:Ht; [|bind_inv; constructor].
    destruct (is_object topology); [|bind_inv; constructor]. unfold json_array in E.
    destruct (member topology "nodes") as [nodes_json|] eqn:Hn; [|bind_inv; constructor].
    destruct (validate_topology_names _ _ _ Hv Ht Hn) as (Ha & _ & names & Hnames & Hnd).
    rewrite Ha in E. apply mapR_Forall2 in E.
    enough (map node_name a = names) as -> by done.
    clear -E Hnames. revert names Hnames.
    induction E as [|x node xs nodes Hx _ IH]; intros names Hnames; inversion Hnames; subst; [done|].
    cbn. f_equal; [|by apply IH]. apply render_node_name, (json_at_value _ _ _ "") in Hx.
    destruct H1 as [H1 _]. rewrite Hx in H1. by injection H1. }
  destruct a as [|n l]; [|exact Hl]. destruct target as [t|]; [destruct (starts_with _ t)|]; cbn;
    repeat constructor; set_solver.
Qed.

(** The group is filled in without touching the rest. *)
Lemma RenderWorkerGroup_ok rj parts state :
  RenderWorkerGroup rj parts = Ok state ->
  exists primary group, state = with_worker_group parts primary group /\ primary ∈ node_names parts /\
    wg_members group = wg_members (ds_worker_group parts) /\
    wg_group_id group = ds_plane_name parts +:+ "-workers" /\
    wg_distributed_backend group = inf_distributed_backend (ds_inference parts) /\
    ExpectedWorkers rj = Ok (wg_expected_workers group) /\
    exists on, InferEnabled rj parts = Ok on /\
      wg_infer_instance_name group =
        if (on : bool) then BuildInferInstanceName (ds_plane_name parts) 0 else "".
Proof.
  unfold RenderWorkerGroup. intros H. bind_inv. eexists _, _. split; [done|]. cbn.
  repeat split; try done; [|by eexists].
  destruct a; [by eapply ResolveInferNodeName_on | by eapply DefaultNodeName_on].
Qed.

Lemma RenderSharedDisk_ok rj state disks :
  ds_nodes state <> [] -> RenderSharedDisk rj state = Ok disks ->
  exists size_gb,
    json_value get_int (resources_json_ rj) "shared_disk_gb" kDefaultSharedDiskSizeGb = Ok size_gb /\
    disks = map (shared_disk state size_gb) (set_items (list_to_set (node_names state))).
Proof.
  intros Hne. unfold RenderSharedDisk. intros H. bind_inv.
  apply SharedDiskNodeName_on in E. unfold node_names in *.
  assert ({[a]} ∪ list_to_set (map node_name (ds_nodes state)) =@{gset string}
          list_to_set (map node_name (ds_nodes state))) as Heq by set_solver.
  rewrite Heq in H. clear Heq.
  destruct (json_value get_int (resources_json_ rj) _ _) as [size|e] eqn:Hs.
  - exists size. split; [done|]. apply mapR_Forall2 in H.
    induction H as [|x d l ds Hx _ IH]; [done|]. cbn. by bind_inv.
  - destruct (set_items _) as [|x l] eqn:Hi; [|cbn in H; bind_inv].
    exfalso. assert (a ∈ set_items (list_to_set (map node_name (ds_nodes state)) : gset string)) as Hin
      by (rewrite elem_of_set_items; set_solver).
    rewrite Hi in Hin. by apply elem_of_nil in Hin.
Qed.

Lemma json_value_default {A} (get : json -> result A) object key (d d' a : A) :
  json_value get object key d = Ok a -> a <> d -> json_value get object key d' = Ok a.
Proof. destruct object; cbn; try done. destruct (assoc key fields); [done|]. congruence. Qed.

Lemma RenderRuntime_llm rj runtime inference gateway :
  RenderRuntime rj = Ok (inference, gateway) -> member (value_ rj) "runtime" = Some runtime ->
  json_value get_string runtime "engine" "" = Ok "llama.cpp" ->
  json_value get_string runtime "distributed_backend" "llama_rpc" = Ok "llama_rpc" ->
  inf_runtime_engine inference = "llama.cpp" /\ inf_distributed_backend inference = "llama_rpc".
Proof.
  unfold RenderRuntime. intros H Hr He Hb. rewrite (json_at_member _ _ _ _ Hr), get_json_law in H.
  apply (json_value_default _ _ _ _ "llama.cpp") in He; [|done].
  unfold mbind, result_bind in H. rewrite He, eqb_refl, Hb in H. bind_inv. done.
Qed.

(** A language model plane runs llama.cpp over RPC. *)
Lemma render_parts_llm rj parts :
  render_parts rj = Ok parts -> plane_mode_of (value_ rj) = Ok "llm" ->
  ValidateRuntime (value_ rj) = Ok tt ->
  ds_plane_mode parts = Llm /\ llama_rpc_runtime parts = true.
Proof.
  unfold render_parts. intros H Hm Hr.
  destruct (validate_runtime_ok _ Hr) as (runtime & w & engine & Hrt & He & _ & _ & _ & _ & _ & Hllm).
  destruct (Hllm Hm) as [-> Hb]. bind_inv. cbn. split.
  - unfold RenderIdentity in E. unfold plane_mode_of in Hm. unfold mbind, result_bind in E.
    rewrite Hm in E. change (ParsePlaneMode "llm") with (Ok Llm) in E. by bind_inv.
  - destruct a5 as [inference gateway]. unfold llama_rpc_runtime. cbn.
    match goal with Hrun : RenderRuntime _ = Ok _ |- _ =>
      destruct (RenderRuntime_llm _ _ _ _ Hrun Hrt He Hb) as [-> ->] end. done.
Qed.

(** *** Replicas *)

Lemma Forall2_with_elem {A B} (P : A -> B -> Prop) l k :
  Forall2 P l k -> Forall2 (fun x y => x ∈ l /\ P x y) l k.
Proof.
  induction 1 as [|x y l k HP _ IH]; constructor; [split; [left | done]|].
  eapply Forall2_impl; [exact IH|]. cbn. intros a b [? ?]. split; [by right | done].
Qed.

Lemma range_lookup count k : 0 <= k < count -> range count !! Z.to_nat k = Some k.
Proof.
  intros Hk. unfold range. rewrite list_lookup_fmap, lookup_seq_lt by lia. cbn. f_equal. lia.
Qed.

Lemma length_range count : length (range count) = Z.to_nat count.
Proof. unfold range. by rewrite length_map, length_seq. Qed.

Lemma elem_of_range count k : k ∈ range count <-> 0 <= k < count.
Proof.
  unfold range. rewrite list_elem_of_fmap. split.
  - intros (n & -> & Hn%elem_of_seq). lia.
  - intros H. exists (Z.to_nat k). rewrite elem_of_seq. lia.
Qed.

(** The workers of a replica are consecutive. *)
Lemma replica_blocks total replicas k :
  0 < total -> 0 < replicas -> Z.rem total replicas = 0 -> 0 <= k < total ->
  let size := total / replicas in
  0 < size /\ total = size * replicas /\ Z.max 1 (Z.quot total replicas) = size /\
  Z.quot k size = k / size /\ Z.rem k size = k `mod` size /\
  0 <= k / size < replicas /\ Z.min (replicas - 1) (k / size) = k / size.
Proof.
  intros Ht Hr Hrem Hk. cbv zeta. rewrite Z.rem_mod_nonneg in Hrem by lia.
  assert (total = total / replicas * replicas) as Heq
    by (pose proof (Z.div_mod total replicas); lia).
  assert (0 < total / replicas) as Hpos by (destruct (decide (0 < total / replicas)); [done | nia]).
  rewrite !Z.quot_div_nonneg, Z.rem_mod_nonneg by lia.
  assert (k / (total / replicas) < replicas) by (apply Z.div_lt_upper_bound; lia).
  assert (0 <= k / (total / replicas)) by (apply Z.div_pos; lia). lia.
Qed.

(** The infer instance of a worker: the aggregator without replicas, otherwise
    the replica of its block. *)
Lemma InferInstanceNameForWorker_ok rj state total replicas k name :
  InferInstanceNameForWorker rj state
    (map (BuildInferInstanceName (ds_plane_name state)) (range (replicas + 1))) k = Ok name ->
  WorkerCount rj = Ok total -> InferReplicaCount rj state = Ok replicas ->
  0 < total -> 0 < replicas -> Z.rem total replicas = 0 -> 0 <= k < total ->
  name = BuildInferInstanceName (ds_plane_name state) (k / (total / replicas) + 1).
Proof.
  unfold InferInstanceNameForWorker. intros H Hw Hr Ht Hrep Hrem Hk.
  rewrite length_map, length_range in H. destruct (Nat.leb_spec (Z.to_nat (replicas + 1)) 1); [lia|].
  unfold mbind, result_bind in H. rewrite Hw, Hr in H.
  destruct (replica_blocks total replicas k Ht Hrep Hrem Hk) as (Hpos & _ & Hs & Hq & _ & Hb & Hmin).
  rewrite Hs, Hq, Hmin in H.
  replace (Z.min (Z.of_nat (Z.to_nat (replicas + 1)) - 1) (k / (total / replicas) + 1))
    with (k / (total / replicas) + 1) in H by lia.
  rewrite list_lookup_fmap, range_lookup in H by lia. cbn in H. congruence.
Qed.

(** The place of worker [k] in the group. *)
Definition group_member (total replicas k : Z) (w : InstanceSpec) (m : WorkerGroupMemberSpec) : Prop :=
  let size := total / replicas in
  wgm_name m = inst_name w /\ wgm_node_name m = inst_node_name w /\
  wgm_gpu_device m = default "" (inst_gpu_device w) /\ wgm_gpu_fraction m = inst_gpu_fraction w /\
  wgm_memory_cap_mb m = inst_memory_cap_mb w /\ wgm_share_mode m = inst_share_mode w /\
  wgm_enabled m = true /\ wgm_rank m = k /\ wgm_replica_index m = k / size /\
  wgm_replica_size m = size /\ wgm_data_parallel_size m = replicas /\
  wgm_replica_leader m = (k `mod` size =? 0) /\ wgm_leader m = (k =? 0).

Lemma render_member_ok rj state infer_names total replicas k w m :
  render_member rj state infer_names total k w = Ok m -> InferReplicaCount rj state = Ok replicas ->
  0 < total -> 0 < replicas -> Z.rem total replicas = 0 -> 0 <= k < total ->
  group_member total replicas k w m /\
  InferInstanceNameForWorker rj state infer_names k = Ok (wgm_infer_instance_name m).
Proof.
  intros H Hr Ht Hrep Hrem Hk. unfold render_member in H. rewrite Hr in H. bind_inv. cbn. split; [|done].
  replace (Z.max 1 replicas) with replicas by lia.
  destruct (replica_blocks total replicas k Ht Hrep Hrem Hk) as (Hpos & Heq & Hs & Hq & Hm & Hb & Hmin).
  unfold group_member. cbn. rewrite Hs, Hq, Hm, Hmin. repeat split.
  pose proof (Z.div_mod k (total / replicas)).
  destruct (Z.eqb_spec (k `mod` (total / replicas)) 0), (Z.eqb_spec (k / (total / replicas)) 0),
    (Z.eqb_spec k 0); cbn; try done; subst; try lia. by rewrite Z.div_0_l in * by lia.
Qed.

(** A successful rendering, step by step. *)
Record rendering (value : json) (rj : RendererJson) (parts state s : DesiredState)
    (shared_disks : list DiskSpec) (infers : list InstanceSpec * list DiskSpec)
    (workers : list InstanceSpec * list WorkerGroupMemberSpec * list DiskSpec)
    (apps skills webgateway interaction voice_module voice_maker : list InstanceSpec * list DiskSpec)
    : Prop := {
  rd_valid : ValidateOrThrow value = Ok tt;
  rd_renderer : DesiredStateV2Renderer value = Ok rj;
  rd_parts : render_parts rj = Ok parts;
  rd_group : RenderWorkerGroup rj parts = Ok state;
  rd_shared : RenderSharedDisk rj state = Ok shared_disks;
  rd_infers : RenderInferInstance rj state = Ok infers;
  rd_workers : RenderWorkerInstances rj state (map inst_name infers.1) = Ok workers;
  rd_apps : RenderAppInstance rj state (map inst_name infers.1) = Ok apps;
  rd_skills : RenderSkillsInstance rj state = Ok skills;
  rd_webgateway : RenderWebGatewayInstance rj state = Ok webgateway;
  rd_interaction : RenderInteractionInstance rj state = Ok interaction;
  rd_voice_module :
    RenderVoiceModuleInstance rj state
      (infers.1 ++ workers.1.1 ++ apps.1 ++ skills.1 ++ webgateway.1 ++ interaction.1) = Ok voice_module;
  rd_voice_maker :
    RenderVoiceMakerInstance rj state
      ((infers.1 ++ workers.1.1 ++ apps.1 ++ skills.1 ++ webgateway.1 ++ interaction.1) ++
       voice_module.1) = Ok voice_maker;
  rd_state : s = with_instances workers.1.2
    (shared_disks ++ infers.2 ++ workers.2 ++ apps.2 ++ skills.2 ++ webgateway.2 ++
     interaction.2 ++ voice_module.2 ++ voice_maker.2)
    ((infers.1 ++ workers.1.1 ++ apps.1 ++ skills.1 ++ webgateway.1 ++ interaction.1) ++
     voice_module.1 ++ voice_maker.1) state;
}.

#[local] Arguments rd_valid {_ _ _ _ _ _ _ _ _ _ _ _ _ _} _.
#[local] Arguments rd_renderer {_ _ _ _ _ _ _ _ _ _ _ _ _ _} _.
#[local] Arguments rd_parts {_ _ _ _ _ _ _ _ _ _ _ _ _ _} _.
#[local] Arguments rd_group {_ _ _ _ _ _ _ _ _ _ _ _ _ _} _.
#[local] Arguments rd_shared {_ _ _ _ _ _ _ _ _ _ _ _ _ _} _.
#[local] Arguments rd_infers {_ _ _ _ _ _ _ _ _ _ _ _ _ _} _.
#[local] Arguments rd_workers {_ _ _ _ _ _ _ _ _ _ _ _ _ _} _.
#[local] Arguments rd_apps {_ _ _ _ _ _ _ _ _ _ _ _ _ _} _.
#[local] Arguments rd_skills {_ _ _ _ _ _ _ _ _ _ _ _ _ _} _.
#[local] Arguments rd_webgateway {_ _ _ _ _ _ _ _ _ _ _ _ _ _} _.
#[local] Arguments rd_interaction {_ _ _ _ _ _ _ _ _ _ _ _ _ _} _.
#[local] Arguments rd_voice_module {_ _ _ _ _ _ _ _ _ _ _ _ _ _} _.
#[local] Arguments rd_voice_maker {_ _ _ _ _ _ _ _ _ _ _ _ _ _} _.
#[local] Arguments rd_state {_ _ _ _ _ _ _ _ _ _ _ _ _ _} _.

Lemma Render_inv value s :
  Render value = Ok s ->
  exists rj parts state shared_disks infers workers apps skills webgateway interaction voice_module
    voice_maker,
    rendering value rj parts state s shared_disks infers workers apps skills webgateway interaction
      voice_module voice_maker.
Proof.
  unfold Render, RenderState. intros H. bind_inv.
  match goal with u : unit |- _ => destruct u end.
  do 12 eexists. constructor; eassumption || reflexivity.
Qed.

Lemma DesiredStateV2Renderer_value value rj : DesiredStateV2Renderer value = Ok rj -> value_ rj = value.
Proof. unfold DesiredStateV2Renderer. intros H. by bind_inv. Qed.

(** Services with their disks, in the same order. *)
Definition services_with_disks (state : DesiredState) (r : list InstanceSpec * list DiskSpec) : Prop :=
  Forall (fun i => inst_role i <> Infer /\ service_instance state (inst_role i) i) r.1 /\
  Forall2 owns_disk r.1 r.2.

Lemma single_services state role name depends_on on r :
  role <> Infer -> single_service state role name depends_on on r -> services_with_disks state r.
Proof.
  intros Hr. destruct on; cbn; [|intros ->; by split; constructor].
  intros (i & d & -> & Hi & _ & _ & Hd). destruct Hi as (? & <- & ?).
  split; cbn; constructor; done || by constructor.
Qed.

Lemma services_app state r r' :
  services_with_disks state r -> services_with_disks state r' ->
  services_with_disks state (r.1 ++ r'.1, r.2 ++ r'.2).
Proof. intros [H1 H2] [H3 H4]. split; cbn; [by apply Forall_app | by apply Forall2_app]. Qed.

Lemma services_on_plane state r : services_with_disks state r -> Forall (plane_instance state) r.1.
Proof. intros [H _]. eapply Forall_impl; [exact H|]. by intros i (_ & ? & _). Qed.

(** What the document of a language model plane says about its workers. *)
Definition asks_for (value : json) (total replicas : Z) (inference : bool) : Prop :=
  exists runtime infer,
    member value "runtime" = Some runtime /\ json_at get_int runtime "workers" = Ok total /\
    member value "infer" = Some infer /\ json_value get_int infer "replicas" 1 = Ok replicas /\
    json_value get_bool infer "enabled" true = Ok inference.

Section facts.
Context {value : json} {rj : RendererJson} {parts state s : DesiredState} {shared_disks : list DiskSpec}
  {infers : list InstanceSpec * list DiskSpec}
  {workers : list InstanceSpec * list WorkerGroupMemberSpec * list DiskSpec}
  {apps skills webgateway interaction voice_module voice_maker : list InstanceSpec * list DiskSpec}.
Context (R : rendering value rj parts state s shared_disks infers workers apps skills webgateway
               interaction voice_module voice_maker).

Lemma rd_value : value_ rj = value.
Proof. apply DesiredStateV2Renderer_value, (rd_renderer R). Qed.

(** The state the instances are rendered against has the nodes of the result. *)
Lemma rd_same_nodes : ds_nodes state = ds_nodes parts /\ ds_nodes s = ds_nodes state /\
  inf_primary_infer_node (ds_inference s) ∈ node_names s.
Proof.
  destruct (RenderWorkerGroup_ok _ _ _ (rd_group R)) as (primary & group & -> & Hp & _).
  rewrite (rd_state R). done.
Qed.

Lemma rd_nodes : ds_nodes s <> [] /\ NoDup (node_names s).
Proof.
  destruct rd_same_nodes as (Hn & Hs & _). unfold node_names. rewrite Hs, Hn.
  assert (ValidateTopology (value_ rj) = Ok tt) as Hv
    by (rewrite rd_value; by apply (ValidateOrThrow_ok value tt), (rd_valid R)).
  pose proof (rd_parts R) as Hparts. clear R Hn Hs. unfold render_parts in Hparts. bind_inv. cbn.
  split; [by eapply RenderNodeTopology_ok | by eapply RenderNodeTopology_NoDup].
Qed.

Lemma rd_infer_instances :
  Forall (infer_instance state) infers.1 /\ infers.2 = [] /\ Forall (fun i => inst_depends_on i = []) infers.1.
Proof.
  destruct (RenderInferInstance_ok _ _ _ (rd_infers R)) as (on & _ & Hon). destruct on; [|by subst].
  destruct Hon as (custom & replicas & _ & _ & _ & Hall & ->).
  repeat split; eapply Forall2_Forall_r; try exact Hall; apply Forall_true; by intros k i (? & ? & ? & _).
Qed.

Lemma rd_services :
  services_with_disks state (workers.1.1, workers.2) /\ services_with_disks state apps /\
  services_with_disks state skills /\ services_with_disks state webgateway /\
  services_with_disks state interaction.
Proof.
  destruct (RenderWorkerInstances_ok _ _ _ _ (rd_workers R)) as (total & _ & Hw & Hd & _).
  pose proof (RenderAppInstance_ok _ _ _ _ (rd_apps R)) as Ha.
  destruct (RenderSkillsInstance_ok _ _ _ (rd_skills R)) as (on & _ & Hs).
  destruct (RenderWebGatewayInstance_ok _ _ _ (rd_webgateway R)) as (on' & _ & Hg).
  destruct (RenderInteractionInstance_ok _ _ _ (rd_interaction R)) as (on'' & Hi).
  split; [|split; [|split; [|split]]].
  - split; [|done]. eapply Forall2_Forall_r; [exact Hw|]. apply Forall_true.
    intros k i ((? & Hr & ?) & _). rewrite Hr. done.
  - split.
    + eapply Forall2_Forall_l; [exact Ha|]. apply Forall_true. intros d i ((? & Hr & ?) & _).
      rewrite Hr. done.
    + eapply Forall2_impl; [exact Ha|]. by intros i d (_ & _ & ? & _).
  - eapply single_services; [|exact Hs]. done.
  - eapply single_services; [|exact Hg]. done.
  - destruct Hi as [[_ Hi]|[_ ->]]; [eapply single_services; [|exact Hi]; done | by split; constructor].
Qed.

(** The instances a voice service can share a GPU with. *)
Lemma rd_early_on_plane :
  Forall (plane_instance state)
    (infers.1 ++ workers.1.1 ++ apps.1 ++ skills.1 ++ webgateway.1 ++ interaction.1).
Proof.
  destruct rd_infer_instances as (Hi & _ & _). destruct rd_services as (Hw & Ha & Hs & Hg & Hn).
  rewrite !Forall_app. repeat split; try (by apply services_on_plane).
  - eapply Forall_impl; [exact Hi|]. by intros i (? & _).
  - exact (services_on_plane _ _ Hw).
Qed.

Lemma rd_voice :
  single_service state VoiceModule (BuildVoiceModuleInstanceName (ds_plane_name state)) []
    (voice_listener_enabled state) voice_module /\
  single_service state VoiceMaker (BuildVoiceMakerInstanceName (ds_plane_name state)) []
    (voice_maker_enabled state) voice_maker.
Proof.
  pose proof rd_early_on_plane as He.
  assert (Hm := RenderVoiceModuleInstance_ok _ _ _ _ He (rd_voice_module R)). split; [done|].
  eapply RenderVoiceMakerInstance_ok; [|exact (rd_voice_maker R)]. apply Forall_app. split; [done|].
  eapply services_on_plane, single_services; [|exact Hm]. done.
Qed.

(** All services with all private disks, after the infer instances. *)
Lemma rd_all :
  exists services,
    services_with_disks state services /\ ds_instances s = infers.1 ++ services.1 /\
    ds_disks s = shared_disks ++ services.2 /\
    services.1 = workers.1.1 ++ apps.1 ++ skills.1 ++ webgateway.1 ++ interaction.1 ++
                 voice_module.1 ++ voice_maker.1.
Proof.
  destruct rd_services as (Hw & Ha & Hs & Hg & Hn). destruct rd_voice as [Hm Hk].
  apply single_services in Hm, Hk; try done.
  pose proof (services_app _ _ _ Hw (services_app _ _ _ Ha (services_app _ _ _ Hs (services_app _ _ _ Hg
    (services_app _ _ _ Hn (services_app _ _ _ Hm Hk)))))) as Hall.
  eexists. split; [exact Hall|]. rewrite (rd_state R). destruct rd_infer_instances as (_ & Hi & _). cbn.
  rewrite Hi. by rewrite <-!app_assoc.
Qed.

Lemma rd_llm :
  plane_mode_of value = Ok "llm" -> ds_plane_mode state = Llm /\ llama_rpc_runtime state = true.
Proof.
  rewrite <-rd_value. intros Hm.
  destruct (ValidateOrThrow_ok value tt (rd_valid R)) as (_ & _ & _ & Hr & _). rewrite <-rd_value in Hr.
  destruct (render_parts_llm _ _ (rd_parts R) Hm Hr) as [Hmode Hrpc].
  destruct (RenderWorkerGroup_ok _ _ _ (rd_group R)) as (primary & group & -> & _). done.
Qed.

(** *** The workers and their group *)

Definition with_role (role : InstanceRole) (l : list InstanceSpec) : list InstanceSpec :=
  List.filter (fun i => inst_role i ==? role) l.

Lemma with_role_uniform role role' l :
  Forall (fun i => inst_role i = role') l -> with_role role l = if role ==? role' then l else [].
Proof.
  intros H. rewrite Forall_forall in H. unfold with_role. destruct (role ==? role') eqn:E.
  - rewrite eqb_true in E. subst. apply filter_all_true. intros i Hi. by apply eqb_true, H.
  - rewrite eqb_false in E. apply filter_all_false. intros i Hi. apply eqb_false. rewrite (H _ Hi). done.
Qed.

Lemma single_service_role role name depends_on on r :
  single_service state role name depends_on on r -> Forall (fun i => inst_role i = role) r.1.
Proof.
  destruct on; cbn; [|intros ->; constructor]. intros (i & d & -> & (_ & <- & _) & _). by constructor.
Qed.

Lemma rd_roles :
  Forall (fun i => inst_role i = Infer) infers.1 /\ Forall (fun i => inst_role i = Worker) workers.1.1 /\
  Forall (fun i => inst_role i = App) apps.1 /\ Forall (fun i => inst_role i = Skills) skills.1 /\
  Forall (fun i => inst_role i = Browsing) webgateway.1 /\
  Forall (fun i => inst_role i = Interaction) interaction.1 /\
  Forall (fun i => inst_role i = VoiceModule) voice_module.1 /\
  Forall (fun i => inst_role i = VoiceMaker) voice_maker.1.
Proof.
  destruct rd_infer_instances as (Hi & _ & _).
  destruct (RenderWorkerInstances_ok _ _ _ _ (rd_workers R)) as (total & _ & Hw & _).
  pose proof (RenderAppInstance_ok _ _ _ _ (rd_apps R)) as Ha.
  destruct (RenderSkillsInstance_ok _ _ _ (rd_skills R)) as (on & _ & Hs).
  destruct (RenderWebGatewayInstance_ok _ _ _ (rd_webgateway R)) as (on' & _ & Hg).
  destruct (RenderInteractionInstance_ok _ _ _ (rd_interaction R)) as (on'' & Hn).
  destruct rd_voice as [Hm Hk].
  repeat split; try (by eapply single_service_role).
  - eapply Forall_impl; [exact Hi|]. by intros i (_ & ? & _).
  - eapply Forall2_Forall_r; [exact Hw|]. apply Forall_true. by intros k i ((_ & ? & _) & _).
  - eapply Forall2_Forall_l; [exact Ha|]. apply Forall_true. by intros d i ((_ & ? & _) & _).
  - destruct Hn as [[_ Hn]|[_ ->]]; [by eapply single_service_role | constructor].
Qed.

(** The instances of each role are those of one step of the rendering. *)
Lemma rd_with_role role :
  with_role role (ds_instances s) =
  match role with
  | Infer => infers.1 | Worker => workers.1.1 | App => apps.1 | Skills => skills.1
  | Browsing => webgateway.1 | Interaction => interaction.1 | VoiceModule => voice_module.1
  | VoiceMaker => voice_maker.1
  end.
Proof.
  destruct rd_all as (services & _ & -> & _ & ->).
  destruct rd_roles as (Hi & Hw & Ha & Hs & Hg & Hn & Hm & Hk).
  assert (forall l l', with_role role (l ++ l') = with_role role l ++ with_role role l') as Happ
    by (intros; apply List.filter_app).
  rewrite !Happ. rewrite (with_role_uniform role _ _ Hi), (with_role_uniform role _ _ Hw),
    (with_role_uniform role _ _ Ha), (with_role_uniform role _ _ Hs), (with_role_uniform role _ _ Hg),
    (with_role_uniform role _ _ Hn), (with_role_uniform role _ _ Hm), (with_role_uniform role _ _ Hk).
  destruct role; cbn; by rewrite ?app_nil_r.
Qed.

Lemma rd_worker_count :
  exists total, WorkerCount rj = Ok total /\ 0 < total /\
    wg_expected_workers (ds_worker_group s) = total /\
    Forall2 (worker_spec rj state total) (range total) workers.1.1.
Proof.
  destruct (RenderWorkerInstances_ok _ _ _ _ (rd_workers R)) as (total & Ht & Hw & _).
  destruct (ValidateOrThrow_ok value tt (rd_valid R)) as (_ & _ & _ & Hr & _).
  destruct (validate_runtime_ok _ Hr) as (runtime & w & engine & Hrt & _ & _ & Hwk & Hpos & _).
  assert (total = w) as ->.
  { unfold WorkerCount in Ht. rewrite rd_value, (json_at_member _ _ _ _ Hrt), get_json_law in Ht.
    cbn in Ht. rewrite (json_at_value _ _ _ 1 _ Hwk) in Ht. by injection Ht. }
  exists w. repeat split; try done. rewrite (rd_state R). cbn.
  destruct (RenderWorkerGroup_ok _ _ _ (rd_group R)) as (primary & group & -> & _ & _ & _ & _ & He & _).
  unfold ExpectedWorkers in He. rewrite Ht in He. cbn in *. injection He as <-. lia.
Qed.

Lemma rd_replicas total :
  plane_mode_of value = Ok "llm" -> WorkerCount rj = Ok total ->
  exists replicas, InferReplicaCount rj state = Ok replicas /\ 0 < replicas /\ Z.rem total replicas = 0 /\
    exists runtime, member value "runtime" = Some runtime /\ json_at get_int runtime "workers" = Ok total /\
      member value "infer" = Some (infer_json_ rj) /\ json_value get_int (infer_json_ rj) "replicas" 1 = Ok replicas.
Proof.
  intros Hm Ht. destruct (rd_llm Hm) as [_ Hl].
  destruct (ValidateOrThrow_ok value tt (rd_valid R)) as (_ & _ & _ & Hr & _ & _ & _ & Hi & _).
  destruct (validate_runtime_ok _ Hr) as (runtime & w & engine & Hrt & _ & _ & Hwk & _).
  unfold WorkerCount in Ht. rewrite rd_value, (json_at_member _ _ _ _ Hrt), get_json_law in Ht.
  cbn in Ht. rewrite (json_at_value _ _ _ 1 _ Hwk) in Ht. injection Ht as <-.
  destruct (validate_replicas_ok _ _ _ Hi Hm Hrt Hwk) as (infer & replicas & Hin & Ho & Hrep & Hpos & Hrem).
  exists replicas. unfold InferReplicaCount. rewrite Hl. cbn.
  assert (infer_json_ rj = infer) as ->.
  { pose proof (rd_renderer R) as Hrj. clear R. unfold DesiredStateV2Renderer in Hrj. bind_inv. cbn.
    unfold object_of. by rewrite Hin, Ho. }
  rewrite Hrep. cbn. split; [f_equal; lia|]. split; [done|]. split; [done|]. by exists runtime.
Qed.

(** Whether inference is on, and the infer instances. *)
Lemma rd_infer_names :
  if str_empty (wg_infer_instance_name (ds_worker_group s)) then infers = ([], [])
  else exists replicas, InferReplicaCount rj state = Ok replicas /\ 0 < replicas /\
    map inst_name infers.1 = map (BuildInferInstanceName (ds_plane_name s))
      (range (if llama_rpc_runtime state then replicas + 1 else 1)).
Proof.
  destruct (RenderInferInstance_ok _ _ _ (rd_infers R)) as (on & Hon & Hi).
  destruct (RenderWorkerGroup_ok _ _ _ (rd_group R)) as
    (primary & group & -> & _ & _ & _ & _ & _ & on' & Hon' & Hname).
  rewrite (rd_state R). cbn. rewrite Hname. unfold InferEnabled in *. cbn in Hon.
  rewrite Hon in Hon'. injection Hon' as <-. destruct on; cbn; [|done].
  destruct Hi as (custom & replicas & _ & Hr & Hpos & Hall & _). exists replicas.
  split; [done|]. split; [lia|].
  clear -Hall. induction Hall as [|k i l l' Hk _ IH]; [done|]. cbn. rewrite IH. f_equal.
  by destruct Hk as (_ & -> & _).
Qed.

(** The group of a language model plane follows the workers. *)
Lemma rd_group_members :
  plane_mode_of value = Ok "llm" ->
  exists total replicas inference, asks_for value total replicas inference /\
    (inference = true -> wg_infer_instance_name (ds_worker_group s) <> "") /\
    0 < total /\ 0 < replicas /\ Z.rem total replicas = 0 /\
    wg_expected_workers (ds_worker_group s) = total /\
    InferReplicaCount rj state = Ok replicas /\ WorkerCount rj = Ok total /\
    length workers.1.1 = Z.to_nat total /\
    Forall2 (fun '(k, w) m => 0 <= k < total /\ group_member total replicas k w m /\
        InferInstanceNameForWorker rj state (map inst_name infers.1) k = Ok (wgm_infer_instance_name m))
      (zip (range total) workers.1.1) (wg_members (ds_worker_group s)).
Proof.
  intros Hm. destruct rd_worker_count as (total & Ht & Hpos & He & Hw).
  destruct (rd_replicas total Hm Ht) as (replicas & Hr & Hrp & Hrem & runtime & Hrt & Hwk & Hinf & Hrep).
  destruct (RenderWorkerGroup_ok _ _ _ (rd_group R)) as
    (primary & group & Hstate & _ & _ & _ & _ & _ & on & Hon & Hname).
  exists total, replicas, on. split.
  { exists runtime, (infer_json_ rj). repeat split; try done. unfold InferEnabled in Hon.
    destruct (rd_llm Hm) as [Hmode _]. rewrite Hstate in Hmode. cbn in Hmode. rewrite Hmode in Hon. exact Hon. }
  split.
  { intros ->. rewrite (rd_state R). cbn. rewrite Hstate. cbn. by rewrite Hname. }
  repeat split; try done.
  { apply Forall2_length in Hw. by rewrite length_range in Hw. }
  destruct (RenderWorkerInstances_ok _ _ _ _ (rd_workers R)) as (total' & Ht' & _ & _ & Hmem).
  rewrite Ht in Ht'. injection Ht' as <-. destruct (rd_llm Hm) as [_ Hl].
  unfold llama_rpc_runtime in Hl. apply andb_true_iff in Hl as [_ Hl]. rewrite Hl in Hmem.
  assert (wg_members (ds_worker_group s) = workers.1.2) as -> by (by rewrite (rd_state R)).
  apply Forall2_with_elem in Hmem. eapply Forall2_impl; [exact Hmem|]. intros [k w] m [Hin Hk].
  apply elem_of_zip_l, elem_of_range in Hin. split; [done|]. by apply render_member_ok.
Qed.
End facts.

(** ** Disks and nodes of a rendering *)

Lemma rendering_disks value rj parts state s shared_disks infers workers apps skills webgateway
    interaction voice_module voice_maker :
  rendering value rj parts state s shared_disks infers workers apps skills webgateway interaction
    voice_module voice_maker ->
  exists size_gb private,
    ds_disks s = map (shared_disk s size_gb) (set_items (list_to_set (node_names s))) ++ private /\
    Forall2 owns_disk (List.filter (fun i => inst_role i !=? Infer) (ds_instances s)) private /\
    Forall (fun i => inst_private_disk_name i =
                     if inst_role i ==? Infer then "" else inst_name i +:+ "-private")
      (ds_instances s).
Proof.
  intros R. destruct (rd_all R) as (services & [Hs Hd] & Hi & Hdisks & _).
  destruct (rd_infer_instances R) as (Hinf & _ & _). destruct (rd_same_nodes R) as (_ & Hn & _).
  destruct (rd_nodes R) as [Hne _]. rewrite Hn in Hne.
  destruct (RenderSharedDisk_ok _ _ _ Hne (rd_shared R)) as (size_gb & _ & Hsh).
  exists size_gb, services.2. rewrite Hdisks, Hi, Hsh. unfold node_names. rewrite Hn. split; [|split].
  - f_equal. rewrite (rd_state R). done.
  - rewrite List.filter_app, filter_all_false, filter_all_true; [done| |].
    + intros i Hin. rewrite Forall_forall in Hs. apply negb_true_iff, eqb_false. by apply Hs.
    + intros i Hin. rewrite Forall_forall in Hinf. apply negb_false_iff, eqb_true. by apply Hinf.
  - apply Forall_app. split.
    + eapply Forall_impl; [exact Hinf|]. intros i (_ & -> & ->). done.
    + eapply Forall_impl; [exact Hs|]. intros i (Hr & _ & _ & ->). rewrite <-eqb_false in Hr. by rewrite Hr.
Qed.

Lemma rendering_placed value rj parts state s shared_disks infers workers apps skills webgateway
    interaction voice_module voice_maker :
  rendering value rj parts state s shared_disks infers workers apps skills webgateway interaction
    voice_module voice_maker ->
  ds_nodes s <> [] /\ NoDup (node_names s) /\
  inf_primary_infer_node (ds_inference s) ∈ node_names s /\
  Forall (plane_instance s) (ds_instances s) /\
  Forall (fun d => disk_plane_name d = ds_plane_name s /\ disk_node_name d ∈ node_names s) (ds_disks s).
Proof.
  intros R. destruct (rd_all R) as (services & Hs & Hi & Hdisks & _).
  destruct (rd_infer_instances R) as (Hinf & _ & _). destruct (rd_same_nodes R) as (_ & Hn & Hp).
  destruct (rd_nodes R) as [Hne Hnd]. split; [done|]. split; [done|]. split; [done|].
  assert (forall i, plane_instance state i <-> plane_instance s i) as Hplane
    by (intros i; unfold plane_instance, node_names; rewrite (rd_state R); done).
  assert (Forall (plane_instance s) (services.1)) as Hsp
    by (eapply Forall_impl; [exact (services_on_plane _ _ Hs)|]; intros i; apply Hplane).
  split.
  - rewrite Hi. apply Forall_app. split; [|done]. eapply Forall_impl; [exact Hinf|].
    intros i (Hpl & _). by apply Hplane.
  - rewrite Hdisks. apply Forall_app. rewrite Hn in Hne.
    destruct (RenderSharedDisk_ok _ _ _ Hne (rd_shared R)) as (size_gb & _ & ->). split.
    + apply Forall_map, Forall_forall. intros n Hin. cbn. apply elem_of_set_items in Hin.
      split; [by rewrite (rd_state R)|]. unfold node_names in *. rewrite Hn. set_solver.
    + destruct Hs as [_ Hd]. eapply Forall2_Forall_r; [exact Hd|].
      eapply Forall_impl; [exact Hsp|]. intros i (Hpl & Hno & _) d [path ->]. done.
Qed.

(** ** Properties *)

(** Unfolds a rendering into its parts. *)
Ltac rendering H :=
  apply Render_inv in H as (rj & parts & state & shared_disks & infers & workers & apps & skills &
    webgateway & interaction & voice_module & voice_maker & R).

(** The disks of a rendered plane: the shared disk once on every node, in the
    order of the node names, then one private disk for every service, in the
    order of the instances, on the node of its owner and of the size its owner
    asks for. An infer instance has none. *)
Theorem rendered_disks value s :
  Render value = Ok s ->
  exists size_gb private,
    ds_disks s = map (shared_disk s size_gb) (set_items (list_to_set (node_names s))) ++ private /\
    Forall2 owns_disk (List.filter (fun i => inst_role i !=? Infer) (ds_instances s)) private /\
    Forall (fun i => inst_private_disk_name i =
                     if inst_role i ==? Infer then "" else inst_name i +:+ "-private")
      (ds_instances s).
Proof. intros H. rendering H. by eapply rendering_disks. Qed.

(** A rendered plane is placed: it has nodes with distinct names, and every
    instance, disk and the primary infer node are on one of them; instances and
    disks carry the name of the plane and instances use its shared disk. *)
Theorem rendered_placed value s :
  Render value = Ok s ->
  ds_nodes s <> [] /\ NoDup (node_names s) /\
  inf_primary_infer_node (ds_inference s) ∈ node_names s /\
  Forall (plane_instance s) (ds_instances s) /\
  Forall (fun d => disk_plane_name d = ds_plane_name s /\ disk_node_name d ∈ node_names s) (ds_disks s).
Proof. intros H. rendering H. by eapply rendering_placed. Qed.

(** C12. The workers of a language model plane are grouped as its document asks: there are
    [runtime.workers] of them, in blocks of equal size, one for each of the
    [infer.replicas]; the group lists them in order, with the placement and the GPU share
    of their instance, one leader in each block and one of the group; and unless
    [infer.enabled] is false, each names the infer instance of its replica, which the
    state has. *)
Theorem rendered_worker_group value s :
  Render value = Ok s -> plane_mode_of value = Ok "llm" ->
  exists total replicas inference, asks_for value total replicas inference /\
    0 < total /\ 0 < replicas /\ (replicas | total) /\
    wg_expected_workers (ds_worker_group s) = total /\
    length (with_role Worker (ds_instances s)) = Z.to_nat total /\
    length (wg_members (ds_worker_group s)) = Z.to_nat total /\
    forall k w, with_role Worker (ds_instances s) !! Z.to_nat k = Some w -> 0 <= k ->
      exists m, wg_members (ds_worker_group s) !! Z.to_nat k = Some m /\
        group_member total replicas k w m /\
        (inference = true ->
         wgm_infer_instance_name m =
           BuildInferInstanceName (ds_plane_name s) (k / (total / replicas) + 1) /\
         wgm_infer_instance_name m ∈ map inst_name (with_role Infer (ds_instances s))).
Proof.
  intros H Hm. rendering H.
  destruct (rd_group_members R Hm) as
    (total & replicas & inference & Hasks & Hon & Ht & Hr & Hrem & He & Hrc & Hwc & Hlen & Hall).
  exists total, replicas, inference. split; [done|]. rewrite (rd_with_role R Worker), (rd_with_role R Infer).
  assert (length (zip (range total) workers.1.1) = Z.to_nat total) as Hzip
    by (rewrite length_zip_with, length_range, Hlen; lia).
  split; [done|]. split; [done|].
  split; [rewrite Z.rem_mod_nonneg in Hrem by lia; by apply Z.mod_divide; [lia|]|].
  split; [done|]. split; [done|]. split; [by rewrite <-(Forall2_length _ _ _ Hall)|].
  intros k w Hw Hk. assert (k < total) as Hkt by (apply lookup_lt_Some in Hw; lia).
  assert (zip (range total) workers.1.1 !! Z.to_nat k = Some (k, w)) as Hz
    by (apply lookup_zip_Some; split; [by apply range_lookup | done]).
  destruct (Forall2_lookup_l _ _ _ _ _ Hall Hz) as (m & Hml & _ & Hmem & Hname).
  exists m. split; [done|]. split; [done|]. intros Hne%Hon.
  pose proof (rd_infer_names R) as Hin. apply str_empty_false in Hne. rewrite Hne in Hin.
  destruct Hin as (replicas' & Hrc' & _ & Hnames). rewrite Hrc in Hrc'. injection Hrc' as <-.
  destruct (rd_llm R Hm) as [_ Hl]. rewrite Hl in Hnames.
  assert (ds_plane_name s = ds_plane_name state) as Hpl by (by rewrite (rd_state R)).
  rewrite Hnames, Hpl in *.
  assert (Heq := InferInstanceNameForWorker_ok _ _ _ _ _ _ Hname Hwc Hrc Ht Hr Hrem (conj Hk Hkt)).
  split; [done|]. rewrite Heq. apply list_elem_of_fmap. eexists. split; [done|]. apply elem_of_range.
  destruct (replica_blocks total replicas k Ht Hr Hrem (conj Hk Hkt)) as (_ & _ & _ & _ & _ & ? & _). lia.
Qed.

(** *** Explicit placement *)

(** The mode the validator finds for a node is that of the rendered node: the
    names of the nodes are distinct. *)
Lemma listed_mode_rendered l nodes node :
  Forall2 (fun j n => render_node j = Ok n) l nodes -> NoDup (map node_name nodes) -> node ∈ nodes ->
  exists mode, listed_node_mode (node_name node) l = Ok (Some mode) /\
    ParseHostExecutionMode mode = Ok (node_execution_mode node).
Proof.
  induction 1 as [|j n l nodes Hj Hall IH]; [by intros _ ?%elem_of_nil|]. cbn.
  intros [Hn Hnd]%NoDup_cons Hin.
  assert (Hname := json_at_value _ _ _ "" _ (render_node_name _ _ Hj)). rewrite Hname. cbn.
  apply elem_of_cons in Hin as [->|Hin].
  - rewrite eqb_refl. unfold render_node in Hj. bind_inv. cbn. eauto.
  - replace (node_name n ==? node_name node) with false; [by apply IH|].
    symmetry. apply eqb_false. intros Heq. apply Hn. rewrite Heq. by apply list_elem_of_fmap_2.
Qed.

Lemma known_mode_rendered value target rj nodes node :
  value_ rj = value -> ValidateTopology value = Ok tt -> LegacyTopologyPlacementEnabled value = true ->
  RenderNodeTopology rj target = Ok nodes -> node ∈ nodes ->
  exists mode, KnownNodeExecutionMode value (node_name node) = Ok (Some mode) /\
    ParseHostExecutionMode mode = Ok (node_execution_mode node).
Proof.
  intros Hv Ht Hl Hr Hin. assert (Hnd : NoDup (map node_name nodes))
    by (eapply RenderNodeTopology_NoDup; [by rewrite Hv | done]).
  unfold LegacyTopologyPlacementEnabled in Hl. unfold KnownNodeExecutionMode.
  destruct (member value "topology") as [topology|] eqn:Htop; [|done]. cbn in Hl. rewrite Hl.
  assert (exists nodes_json, member topology "nodes" = Some nodes_json) as [nodes_json Hn].
  { unfold ValidateTopology, contains in Ht. rewrite Htop in Ht. cbn in Ht. bind_inv. checks.
    apply RequireObject_ok in E as [E _]. rewrite Htop in E. simplify_eq. eauto. }
  destruct (validate_topology_names _ _ _ Ht Htop Hn) as (Ha & Hne & _).
  unfold RenderNodeTopology in Hr. rewrite Hv, Htop, Hl in Hr. unfold json_array in Hr.
  rewrite Hn, Ha in Hr. rewrite Hn, Ha. bind_inv. apply mapR_Forall2 in E. destruct a as [|n l].
  { inversion E as [Hnil|]. by destruct Hne. }
  cbn in Hin, Hnd.
  destruct (listed_mode_rendered _ _ _ E Hnd Hin) as (mode & Hm & Hp). rewrite Hm. cbn. eauto.
Qed.

Lemma rendering_known_mode value rj parts state s shared_disks infers workers apps skills webgateway
    interaction voice_module voice_maker node :
  rendering value rj parts state s shared_disks infers workers apps skills webgateway interaction
    voice_module voice_maker ->
  LegacyTopologyPlacementEnabled value = true -> node ∈ ds_nodes s ->
  exists mode, KnownNodeExecutionMode value (node_name node) = Ok (Some mode) /\
    ParseHostExecutionMode mode = Ok (node_execution_mode node).
Proof.
  intros R Hl Hin. destruct (rd_same_nodes R) as (Hn & Hs & _). rewrite Hs, Hn in Hin.
  destruct (ValidateOrThrow_ok value tt (rd_valid R)) as (_ & _ & _ & _ & _ & Ht & _).
  pose proof (rd_value R) as Hv. pose proof (rd_parts R) as Hparts. clear R Hn Hs.
  unfold render_parts in Hparts. bind_inv. by eapply known_mode_rendered.
Qed.

(** What the validator checks of each entry of [worker.assignments]. *)
Lemma validate_assignments_ok value worker assignments :
  ValidateWorker value = Ok tt -> member value "worker" = Some worker ->
  member worker "assignments" = Some assignments ->
  is_object worker = true /\ is_array assignments = true /\
  (exists runtime, json_at get_json value "runtime" = Ok runtime /\
     json_at get_int runtime "workers" = Ok (Z.of_nat (length (items assignments)))) /\
  Forall (fun a => exists name mode, string_member a "node" = Ok (Some name) /\
    KnownNodeExecutionMode value name = Ok (Some mode) /\ mode <> "infer-only") (items assignments).
Proof.
  unfold ValidateWorker, contains. intros H Hw Ha. rewrite Hw in H. cbn in H. bind_inv.
  apply RequireObject_ok in E as [E Ho]. rewrite Hw in E. simplify_eq.
  eapply with_member_ok in E2; [|exact Ha]. unfold validate_assignments in E2. bind_inv. checks.
  split; [done|]. split; [done|]. split;
    [eexists; split; [done|]; match goal with Hz : (_ =? _) = true |- _ => apply Z.eqb_eq in Hz; by rewrite Hz end|].
  clear -E2. revert E2. induction (items assignments) as [|x l IH]; cbn; intros H; [constructor|].
  bind_inv. constructor; [|destruct a; by apply IH].
  unfold validate_assignment in E. bind_inv. checks. unfold string_member.
  match goal with Hm : member x "node" = Some _ |- _ => rewrite Hm end.
  match goal with Hm : is_string _ = true |- _ => rewrite Hm end.
  unfold ValidateNodeRoleCompatibility in *. bind_inv.
  match goal with Hm : context [match ?m with Some _ => _ | None => _ end] |- _ => destruct m as [mode|]; [|done] end.
  match goal with Hg : get_string _ = Ok ?name |- _ => exists name, mode; rewrite Hg end.
  cbn in E3. apply require_Ok, negb_true_iff, eqb_false in E3. done.
Qed.

Lemma assignments_need_topology value worker assignments :
  ValidateLegacyPlacementCompatibility value = Ok tt -> member value "worker" = Some worker ->
  is_object worker = true -> member worker "assignments" = Some assignments ->
  LegacyTopologyPlacementEnabled value = true.
Proof.
  unfold ValidateLegacyPlacementCompatibility. intros H Hw Ho Ha.
  destruct (LegacyTopologyPlacementEnabled value); [done|]. bind_inv.
  eapply with_member_ok in H; [|exact Hw]. cbn in H. apply require_Ok in H. unfold contains in H.
  by rewrite Ho, Ha in H.
Qed.

(** A worker with an assignment follows it. *)
Lemma worker_follows_assignment rj state k a name node :
  worker_assignment rj k = Ok (Some a) -> string_member a "node" = Ok (Some name) ->
  ResolveWorkerNodeName rj state k = Ok node -> node = name.
Proof.
  intros Ha Hn. unfold ResolveWorkerNodeName, ResolveLegacyWorkerAssignmentNodeName, named_node, RequireNode.
  rewrite Ha. cbn. rewrite Hn. cbn. destruct (find_if _ _) as [n|] eqn:E; [|done].
  apply find_if_Some in E as [E _]. rewrite eqb_true in E. cbn. congruence.
Qed.

Lemma worker_uses_assigned_gpu rj k a gpu device :
  worker_assignment rj k = Ok (Some a) -> string_member a "gpu_device" = Ok (Some gpu) ->
  ResolveWorkerGpuDevice rj k = Ok device -> device = Some gpu.
Proof. intros Ha Hg. unfold ResolveWorkerGpuDevice. rewrite Ha. cbn. rewrite Hg. cbn. congruence. Qed.

Lemma parse_mode_infer_only mode : ParseHostExecutionMode mode = Ok InferOnly -> mode = "infer-only".
Proof.
  unfold ParseHostExecutionMode. destruct (mode ==? "infer-only") eqn:E; [by rewrite eqb_true in E|].
  repeat destruct_if; done.
Qed.

(** C13. Explicit placement is honoured: the workers of a plane whose document assigns
    them are as many as the assignments, in their order, each on the node and the
    GPU of its assignment, and none on a node kept for inference. *)
Theorem rendered_assignments value s worker assignments :
  Render value = Ok s -> member value "worker" = Some worker ->
  member worker "assignments" = Some assignments ->
  Forall2 (fun a w =>
    string_member a "node" = Ok (Some (inst_node_name w)) /\
    (forall gpu, string_member a "gpu_device" = Ok (Some gpu) -> inst_gpu_device w = Some gpu) /\
    exists node, node ∈ ds_nodes s /\ node_name node = inst_node_name w /\
      node_execution_mode node <> InferOnly)
  (items assignments) (with_role Worker (ds_instances s)).
Proof.
  intros H Hw Ha. rendering H. rewrite (rd_with_role R Worker).
  destruct (ValidateOrThrow_ok value tt (rd_valid R)) as (_ & _ & _ & _ & _ & _ & Hleg & _ & Hwk & _).
  destruct (validate_assignments_ok _ _ _ Hwk Hw Ha) as (Ho & Harr & (runtime & Hrt & Hcount) & Hall).
  assert (Hl := assignments_need_topology _ _ _ Hleg Hw Ho Ha).
  destruct (rd_worker_count R) as (total & Ht & Hpos & _ & Hspec).
  assert (total = Z.of_nat (length (items assignments))) as ->.
  { unfold WorkerCount in Ht. rewrite (rd_value R), Hrt in Ht. cbn in Ht.
    rewrite (json_at_value _ _ _ 1 _ Hcount) in Ht. by injection Ht. }
  assert (forall k a, items assignments !! k = Some a ->
    worker_assignment rj (Z.of_nat k) = Ok (Some a)) as Hat.
  { intros k a Hk. unfold worker_assignment. rewrite (rd_value R), Hl.
    assert (worker_json_ rj = worker) as ->.
    { pose proof (rd_renderer R) as Hrj. clear -Hrj Hw Ho. unfold DesiredStateV2Renderer in Hrj. bind_inv.
      cbn. unfold object_of. by rewrite Hw, Ho. }
    rewrite Ha, Harr. destruct (Z.ltb_spec (Z.of_nat k) 0); [lia|]. by rewrite Nat2Z.id, Hk. }
  apply Forall2_same_length_lookup. pose proof (Forall2_length _ _ _ Hspec) as Hlen.
  rewrite length_range, Nat2Z.id in Hlen. split; [done|]. intros k a w Hka Hkw.
  assert (Hrange := range_lookup (Z.of_nat (length (items assignments))) (Z.of_nat k)).
  rewrite Nat2Z.id in Hrange. apply lookup_lt_Some in Hka as Hlt.
  specialize (Hrange ltac:(lia)).
  destruct (Forall2_lookup_lr _ _ _ _ _ _ Hspec Hrange Hkw) as ((Hplane & _) & _ & _ & Hnode & Hgpu).
  rewrite Forall_forall in Hall.
  destruct (Hall a) as (name & mode & Hname & Hmode & Hno); [by eapply list_elem_of_lookup_2|].
  assert (Heq := worker_follows_assignment _ _ _ _ _ _ (Hat _ _ Hka) Hname Hnode). subst name.
  split; [done|]. split; [intros gpu Hg; by eapply worker_uses_assigned_gpu; [exact (Hat _ _ Hka)|..]|].
  destruct (rd_same_nodes R) as (_ & Hns & _).
  destruct Hplane as (_ & (node & Hnn & Hin)%list_elem_of_fmap & _). rewrite <-Hns in Hin.
  exists node. split; [done|]. split; [done|]. intros Hm.
  destruct (rendering_known_mode _ _ _ _ _ _ _ _ _ _ _ _ _ _ node R Hl Hin) as (mode' & Hk & Hp).
  rewrite Hnn, Hk in Hmode. rewrite Hm in Hp. apply parse_mode_infer_only in Hp. congruence.
Qed.

(** *** Dependencies *)

Lemma single_service_name state role name depends_on on r :
  single_service state role name depends_on on r -> on = true -> name ∈ map inst_name r.1.
Proof. destruct on; [|done]. intros (i & d & -> & _ & <- & _) _. left. Qed.

Lemma single_service_depends state role name depends_on on r :
  single_service state role name depends_on on r ->
  Forall (fun i => inst_depends_on i = depends_on) r.1.
Proof.
  destruct on; cbn; [|intros ->; constructor]. intros (i & d & -> & _ & _ & Hd & _). by constructor.
Qed.

(** What the instances of a rendering depend on: nothing, what an app needs, or
    what the interaction service needs. *)
Lemma rendering_depends value rj parts state s shared_disks infers workers apps skills webgateway
    interaction voice_module voice_maker (names := map inst_name infers.1) :
  rendering value rj parts state s shared_disks infers workers apps skills webgateway interaction
    voice_module voice_maker ->
  Forall (fun i =>
    inst_depends_on i = [] \/ inst_depends_on i = app_depends_on state names \/
    exists gw, json_value get_bool (browsing_json_ rj) "enabled" false = Ok gw /\
      inst_depends_on i =
        BuildInferInstanceName (ds_plane_name state) 0 ::
        if (gw : bool) then [BuildWebGatewayInstanceName (ds_plane_name state)] else [])
  (ds_instances s).
Proof.
  intros R. destruct (rd_all R) as (services & _ & -> & _ & ->).
  destruct (rd_infer_instances R) as (_ & _ & Hid).
  destruct (RenderWorkerInstances_ok _ _ _ _ (rd_workers R)) as (total & _ & Hw & _).
  pose proof (RenderAppInstance_ok _ _ _ _ (rd_apps R)) as Ha.
  destruct (RenderSkillsInstance_ok _ _ _ (rd_skills R)) as (on & _ & Hs%single_service_depends).
  destruct (RenderWebGatewayInstance_ok _ _ _ (rd_webgateway R)) as (gw & _ & Hg%single_service_depends).
  destruct (RenderInteractionInstance_ok _ _ _ (rd_interaction R)) as (gw' & Hn).
  destruct (rd_voice R) as [Hvm%single_service_depends Hvk%single_service_depends].
  rewrite !Forall_app. repeat split; try (eapply Forall_impl; [eassumption|]; intros i ->; by left).
  - eapply Forall2_Forall_r; [exact Hw|]. apply Forall_true. intros k i (_ & _ & -> & _). by left.
  - eapply Forall2_Forall_l; [exact Ha|]. apply Forall_true. intros d i (_ & -> & _). right. by left.
  - destruct Hn as [[Hgw Hn%single_service_depends]|[_ ->]]; [|constructor].
    eapply Forall_impl; [exact Hn|]. intros i ->. right. right. eauto.
Qed.

(** When inference is on, whatever an instance of a rendered plane depends on is
    an instance of the plane. *)
Theorem rendered_dependencies value s :
  Render value = Ok s -> wg_infer_instance_name (ds_worker_group s) <> "" ->
  Forall (fun i => Forall (.∈ map inst_name (ds_instances s)) (inst_depends_on i)) (ds_instances s).
Proof.
  intros H Hne. rendering H. eapply Forall_impl; [exact (rendering_depends _ _ _ _ _ _ _ _ _ _ _ _ _ _ R)|].
  apply str_empty_false in Hne. pose proof (rd_infer_names R) as Hin. rewrite Hne in Hin.
  destruct Hin as (replicas & _ & Hr & Hnames).
  destruct (range_pos (if llama_rpc_runtime state then replicas + 1 else 1)) as [l Hl];
    [destruct_if; lia|].
  assert (ds_plane_name s = ds_plane_name state) as Hpl by (by rewrite (rd_state R)).
  rewrite Hl, Hpl in Hnames. cbn in Hnames.
  destruct (rd_all R) as (services & _ & Hi & _ & Hserv). rewrite Hi, Hserv, !map_app.
  destruct (RenderWebGatewayInstance_ok _ _ _ (rd_webgateway R)) as (gw & Hgw & Hg).
  destruct (rd_voice R) as [Hvm Hvk].
  intros i Hd. apply Forall_forall. intros d. rewrite !elem_of_app.
  destruct Hd as [->|[->|(gw' & Hgw' & ->)]]; [by intros ?%elem_of_nil| |].
  - unfold app_depends_on. rewrite Hnames at 1. rewrite !elem_of_app. intros [Hd|[Hd|Hd]].
    + apply list_elem_of_singleton in Hd as ->. left. rewrite Hnames. left.
    + destruct (voice_listener_enabled state); [|by apply elem_of_nil in Hd].
      apply list_elem_of_singleton in Hd as ->. apply single_service_name in Hvm; [tauto | done].
    + destruct (voice_maker_enabled state); [|by apply elem_of_nil in Hd].
      apply list_elem_of_singleton in Hd as ->. apply single_service_name in Hvk; [tauto | done].
  - rewrite Hgw in Hgw'. injection Hgw' as <-. intros [->|Hd]%elem_of_cons.
    + left. rewrite Hnames. left.
    + destruct gw; [|by apply elem_of_nil in Hd].
      apply list_elem_of_singleton in Hd as ->. apply single_service_name in Hg; [tauto | done].
Qed.

(** *** Names *)

Definition role_prefix (role : InstanceRole) : string :=
  match role with
  | Infer => "infer-" | Worker => "worker-" | App => "app-" | Skills => "skills-"
  | Browsing => "webgateway-" | Interaction => "interaction-" | VoiceModule => "voice-module-"
  | VoiceMaker => "voice-maker-"
  end.

Definition prefixed (i : InstanceSpec) : Prop :=
  exists rest, inst_name i = role_prefix (inst_role i) +:+ rest.

Lemma prefixed_role i j : prefixed i -> prefixed j -> inst_name i = inst_name j -> inst_role i = inst_role j.
Proof.
  intros [x Hx] [y Hy] Heq. rewrite Hx, Hy in Heq.
  destruct (inst_role i), (inst_role j); done || (cbn in Heq; discriminate Heq).
Qed.

(** Instances of different roles have different names. *)
Lemma NoDup_names_by_role l :
  Forall prefixed l ->
  NoDup (map inst_name l) <-> forall role, NoDup (map inst_name (with_role role l)).
Proof.
  intros Hp. split.
  - intros Hnd role. by apply NoDup_fmap_filterb.
  - induction Hp as [|i l Hi Hp IH]; intros Hall; cbn; constructor.
    + intros (j & Heq & Hj)%list_elem_of_fmap.
      assert (inst_role i = inst_role j) as Hr.
      { rewrite Forall_forall in Hp. apply prefixed_role; auto. }
      specialize (Hall (inst_role i)). unfold with_role in Hall. cbn in Hall. rewrite eqb_refl in Hall.
      cbn in Hall. apply NoDup_cons in Hall as [Hn _]. apply Hn. rewrite Heq.
      apply list_elem_of_fmap_2, elem_of_filterb. split; [done|]. by apply eqb_true.
    + apply IH. intros role. specialize (Hall role). unfold with_role in *. cbn in Hall.
      destruct (_ ==? role); [|done]. cbn in Hall. by apply NoDup_cons in Hall as [_ ?].
Qed.

Lemma letter_inj i j : 0 <= i < 256 -> 0 <= j < 256 -> letter i = letter j -> i = j.
Proof.
  unfold letter. intros Hi Hj [= Heq].
  assert (forall z, (Z.to_N (z `mod` 256) < 256)%N) as Hb
    by (intros z; pose proof (Z.mod_pos_bound z 256 ltac:(lia)); lia).
  apply (f_equal Ascii.N_of_ascii) in Heq. rewrite !Ascii.N_ascii_embedding in Heq by apply Hb.
  apply Z2N.inj in Heq; [|apply Z.mod_pos_bound; lia..].
  pose proof (Z.div_mod (97 + i) 256). pose proof (Z.div_mod (97 + j) 256).
  assert (0 <= (97 + i) / 256 < 2) by (split; [apply Z.div_pos | apply Z.div_lt_upper_bound]; lia).
  assert (0 <= (97 + j) / 256 < 2) by (split; [apply Z.div_pos | apply Z.div_lt_upper_bound]; lia).
  lia.
Qed.

Lemma append_empty_r p : p +:+ "" = p.
Proof. induction p as [|c p IH]; [done|]. change (String c p +:+ "") with (String c (p +:+ "")). by rewrite IH. Qed.

Lemma BuildInferInstanceName_inj plane i j :
  0 <= i <= 256 -> 0 <= j <= 256 ->
  BuildInferInstanceName plane i = BuildInferInstanceName plane j -> i = j.
Proof.
  unfold BuildInferInstanceName. intros Hi Hj.
  destruct (Z.eqb_spec i 0) as [->|], (Z.eqb_spec j 0) as [->|]; intros Heq; [done|..].
  - apply (inj (String.append "infer-")) in Heq. rewrite <-(append_empty_r plane) in Heq at 1.
    by apply (inj (String.append plane)) in Heq.
  - apply (inj (String.append "infer-")) in Heq. rewrite <-(append_empty_r plane) in Heq at 2.
    by apply (inj (String.append plane)) in Heq.
  - apply (inj (String.append "infer-")), (inj (String.append plane)), (inj (String.append "-")) in Heq.
    apply letter_inj in Heq; lia.
Qed.

Lemma BuildWorkerName_inj plane total i j :
  0 <= i < total -> 0 <= j < total -> total <= 256 ->
  BuildWorkerName plane i total = BuildWorkerName plane j total -> i = j.
Proof.
  unfold BuildWorkerName. intros Hi Hj Ht. destruct (Z.leb_spec total 1); [lia|]. intros Heq.
  apply (inj (String.append "worker-")), (inj (String.append plane)), (inj (String.append "-")) in Heq.
  apply letter_inj in Heq; lia.
Qed.

(** Names built from the positions of a range. *)
Lemma NoDup_range_names (build : Z -> string) count :
  (forall i j, 0 <= i < count -> 0 <= j < count -> build i = build j -> i = j) ->
  NoDup (map build (range count)).
Proof.
  intros Hinj. apply NoDup_fmap_2_strong.
  - intros i j Hi%elem_of_range Hj%elem_of_range. auto.
  - unfold range. apply NoDup_fmap; [intros x y; lia | apply NoDup_seq].
Qed.

Lemma single_service_prefixed state role name depends_on on r :
  single_service state role name depends_on on r ->
  (exists rest, name = role_prefix role +:+ rest) -> Forall prefixed r.1.
Proof.
  destruct on; cbn; [|intros ->; constructor].
  intros (i & d & -> & (_ & Hr & _) & Hn & _) [rest Hrest]. constructor; [|constructor].
  exists rest. by rewrite Hn, Hr.
Qed.

Lemma single_service_NoDup state role name depends_on on r :
  single_service state role name depends_on on r -> NoDup (map inst_name r.1).
Proof. destruct on; cbn; [|intros ->; constructor]. intros (i & d & -> & _). apply NoDup_singleton. Qed.

Lemma rendering_prefixed value rj parts state s shared_disks infers workers apps skills webgateway
    interaction voice_module voice_maker :
  rendering value rj parts state s shared_disks infers workers apps skills webgateway interaction
    voice_module voice_maker -> Forall prefixed (ds_instances s).
Proof.
  intros R. destruct (rd_all R) as (services & _ & -> & _ & ->).
  destruct (RenderInferInstance_ok _ _ _ (rd_infers R)) as (on & _ & Hi).
  destruct (RenderWorkerInstances_ok _ _ _ _ (rd_workers R)) as (total & _ & Hw & _).
  pose proof (RenderAppInstance_ok _ _ _ _ (rd_apps R)) as Ha.
  destruct (RenderSkillsInstance_ok _ _ _ (rd_skills R)) as (on' & _ & Hs%single_service_prefixed);
    [|by eexists].
  destruct (RenderWebGatewayInstance_ok _ _ _ (rd_webgateway R)) as (gw & _ & Hg%single_service_prefixed);
    [|by eexists].
  destruct (RenderInteractionInstance_ok _ _ _ (rd_interaction R)) as (gw' & Hn).
  destruct (rd_voice R) as [Hvm%single_service_prefixed Hvk%single_service_prefixed]; try by eexists.
  rewrite !Forall_app. repeat split; try done.
  - destruct on; [|subst; constructor]. destruct Hi as (custom & replicas & _ & _ & _ & Hall & _).
    eapply Forall2_Forall_r; [exact Hall|]. apply Forall_true. intros k i ((_ & Hr & _) & Hname & _).
    unfold prefixed. rewrite Hr, Hname. unfold BuildInferInstanceName. destruct_if; by eexists.
  - eapply Forall2_Forall_r; [exact Hw|]. apply Forall_true. intros k i ((_ & Hr & _) & Hname & _).
    unfold prefixed. rewrite Hr, Hname. unfold BuildWorkerName. destruct_if; by eexists.
  - eapply Forall2_Forall_l; [exact Ha|]. apply Forall_true.
    intros d i ((_ & Hr & _) & _ & _ & name & primary & Hname). unfold prefixed. rewrite Hr, Hname.
    unfold BuildAppInstanceName. destruct primary; by eexists.
  - destruct Hn as [[_ Hn%single_service_prefixed]|[_ ->]]; [done | by eexists | constructor].
Qed.

(** The names of the infer instances and of the workers. *)
Lemma rendering_names value rj parts state s shared_disks infers workers apps skills webgateway
    interaction voice_module voice_maker :
  rendering value rj parts state s shared_disks infers workers apps skills webgateway interaction
    voice_module voice_maker ->
  (length infers.1 <= 257)%nat -> (length workers.1.1 <= 256)%nat ->
  NoDup (map inst_name infers.1) /\ NoDup (map inst_name workers.1.1).
Proof.
  intros R Hli Hlw. split.
  - pose proof (rd_infer_names R) as Hin. destruct (str_empty _); [rewrite Hin; constructor|].
    destruct Hin as (replicas & _ & _ & Hnames). rewrite Hnames. apply (f_equal length) in Hnames.
    rewrite !length_map, length_range in Hnames. apply NoDup_range_names. intros i j Hi Hj.
    apply BuildInferInstanceName_inj; lia.
  - destruct (rd_worker_count R) as (total & _ & _ & _ & Hw).
    pose proof (Forall2_length _ _ _ Hw) as Hlen. rewrite length_range in Hlen.
    assert (map inst_name workers.1.1 =
            map (fun k => BuildWorkerName (ds_plane_name state) k total) (range total)) as ->.
    { clear -Hw. generalize dependent (range total). intros l Hw.
      induction Hw as [|k i l l' Hk _ IH]; [done|]. cbn. rewrite IH. f_equal. by destruct Hk as (_ & -> & _). }
    apply NoDup_range_names. intros i j Hi Hj. apply BuildWorkerName_inj; lia.
Qed.

(** The instances of a rendered plane with at most 256 workers and as many
    replicas have distinct names if and only if its apps do. *)
Theorem rendered_names_distinct value s :
  Render value = Ok s ->
  (length (with_role Infer (ds_instances s)) <= 257)%nat ->
  (length (with_role Worker (ds_instances s)) <= 256)%nat ->
  NoDup (map inst_name (ds_instances s)) <-> NoDup (map inst_name (with_role App (ds_instances s))).
Proof.
  intros H Hli Hlw. rendering H. rewrite (rd_with_role R) in Hli, Hlw.
  destruct (rendering_names _ _ _ _ _ _ _ _ _ _ _ _ _ _ R Hli Hlw) as [Hni Hnw].
  rewrite (NoDup_names_by_role (ds_instances s) (rendering_prefixed _ _ _ _ _ _ _ _ _ _ _ _ _ _ R)).
  split; [intros Hall; apply Hall|]. intros Happs role. rewrite (rd_with_role R) in *.
  destruct (RenderSkillsInstance_ok _ _ _ (rd_skills R)) as (on' & _ & Hs%single_service_NoDup).
  destruct (RenderWebGatewayInstance_ok _ _ _ (rd_webgateway R)) as (gw & _ & Hg%single_service_NoDup).
  destruct (RenderInteractionInstance_ok _ _ _ (rd_interaction R)) as (gw' & Hn).
  destruct (rd_voice R) as [Hvm%single_service_NoDup Hvk%single_service_NoDup].
  destruct role; try done. destruct Hn as [[_ Hn%single_service_NoDup]|[_ ->]]; [done | constructor].
Qed.

(** *** Compose plans *)

Lemma IntEnvValue_port env key port :
  env !! key = Some (to_string port) -> 0 <= port <= int_max -> is_ok (IntEnvValue env key) = true.
Proof.
  intros H Hp. unfold IntEnvValue. rewrite H. destruct (str_empty _); [done|]. by rewrite stoi_to_string.
Qed.

(** The port variables of the infer instances are numbers, unless the document
    sets them. *)
Lemma rendering_ports value rj parts state s shared_disks infers workers apps skills webgateway
    interaction voice_module voice_maker :
  rendering value rj parts state s shared_disks infers workers apps skills webgateway interaction
    voice_module voice_maker ->
  (forall custom, custom_env (infer_json_ rj) = Ok custom ->
     custom !! "NAIM_INFERENCE_PORT" = None /\ custom !! "NAIM_GATEWAY_PORT" = None) ->
  0 <= inf_api_port (ds_inference s) /\
    inf_api_port (ds_inference s) + Z.of_nat (length infers.1) <= int_max ->
  0 <= gw_listen_port (ds_gateway s) /\
    gw_listen_port (ds_gateway s) + Z.of_nat (length infers.1) <= int_max ->
  Forall (infer_ports_parse s) infers.1.
Proof.
  intros R Hcustom Hapi Hgw. rewrite (rd_state R) in Hapi, Hgw. cbn in Hapi, Hgw.
  destruct (RenderInferInstance_ok _ _ _ (rd_infers R)) as (on & _ & Hi). destruct on; [|by subst].
  destruct Hi as (custom & replicas & Hc & _ & _ & Hall & _).
  destruct (Hcustom _ Hc) as [Hc1 Hc2]. pose proof (Forall2_length _ _ _ Hall) as Hlen.
  rewrite length_range in Hlen. apply Forall2_with_elem in Hall.
  eapply Forall2_Forall_r; [exact Hall|]. apply Forall_true.
  intros k i [Hk%elem_of_range (_ & _ & _ & _ & Hv1 & Hv2)] _. unfold port_variable in Hv1, Hv2.
  rewrite Hc1, Hc2 in *. cbn in Hv1, Hv2. unfold InferApiPort, InferGatewayPort.
  split; [apply IntEnvValue_port in Hv1; [|lia] | apply IntEnvValue_port in Hv2; [|lia]];
    by destruct (IntEnvValue _ _).
Qed.

(** Every disk an instance names exists on its node. *)
Lemma rendering_available value rj parts state s shared_disks infers workers apps skills webgateway
    interaction voice_module voice_maker :
  rendering value rj parts state s shared_disks infers workers apps skills webgateway interaction
    voice_module voice_maker ->
  Forall (fun i =>
    disk_available (ds_disks s) (inst_node_name i) (inst_shared_disk_name i) /\
    disk_available (ds_disks s) (inst_node_name i) (inst_private_disk_name i)) (ds_instances s).
Proof.
  intros R. apply Forall_forall. intros i Hi.
  destruct (rendering_disks _ _ _ _ _ _ _ _ _ _ _ _ _ _ R) as (size_gb & private & Hd & Hown & Hname).
  destruct (rendering_placed _ _ _ _ _ _ _ _ _ _ _ _ _ _ R) as (_ & _ & _ & Hpl & _).
  rewrite Forall_forall in Hpl, Hname. destruct (Hpl _ Hi) as (_ & Hn & Hsh). split.
  - right. exists (shared_disk s size_gb (inst_node_name i)). rewrite Hsh, Hd. split; [|done].
    apply elem_of_app. left. apply list_elem_of_fmap_2, elem_of_set_items. set_solver.
  - specialize (Hname _ Hi). destruct (inst_role i ==? Infer) eqn:Hr; [by left|]. right.
    assert (i ∈ List.filter (fun i => inst_role i !=? Infer) (ds_instances s)) as Hf
      by (apply elem_of_filterb; by rewrite Hr).
    apply list_elem_of_lookup in Hf as [k Hk].
    destruct (Forall2_lookup_l _ _ _ _ _ Hown Hk) as (d & Hdk & path & ->).
    eexists. rewrite Hd. split; [apply elem_of_app; right; by eapply list_elem_of_lookup_2 | done].
Qed.

(** C30. The compose planner accepts every rendered plane: when the document does not
    set the port variables of the infer instances and the ports stay within
    [int], a plan is built for every node. *)
Theorem rendered_plans host value s :
  Render value = Ok s ->
  (forall custom, custom_env (object_of value "infer") = Ok custom ->
     custom !! "NAIM_INFERENCE_PORT" = None /\ custom !! "NAIM_GATEWAY_PORT" = None) ->
  0 <= inf_api_port (ds_inference s) /\
    inf_api_port (ds_inference s) + Z.of_nat (length (with_role Infer (ds_instances s))) <= int_max ->
  0 <= gw_listen_port (ds_gateway s) /\
    gw_listen_port (ds_gateway s) + Z.of_nat (length (with_role Infer (ds_instances s))) <= int_max ->
  is_ok (BuildNodeComposePlans host s) = true.
Proof.
  intros H Hcustom Hapi Hgw. rendering H. rewrite (rd_with_role R) in Hapi, Hgw.
  pose proof (rendering_available _ _ _ _ _ _ _ _ _ _ _ _ _ _ R) as Hav.
  assert (Forall (infer_ports_parse s) infers.1) as Hports.
  { eapply rendering_ports; try done. intros custom Hc. apply Hcustom. rewrite <-Hc.
    pose proof (rd_renderer R) as Hrj. clear R. unfold DesiredStateV2Renderer in Hrj. by bind_inv. }
  apply mapR_ok_iff, Forall_forall. intros node _. unfold build_node_plan.
  assert (is_ok (mapR (fun i => BuildComposeService host i (ds_disks s) (instances_on s (node_name node)) s)
            (instances_on s (node_name node))) = true) as Hok.
  { apply mapR_ok_iff, Forall_forall. intros i [Hi _]%elem_of_filterb.
    apply compose_service_succeeds_iff. rewrite Forall_forall in Hav, Hports.
    split; [|by apply Hav]. intros Hr. apply Hports; [|done].
    rewrite <-(rd_with_role R Infer). apply elem_of_filterb. split; [done | by apply eqb_true]. }
  by destruct (mapR _ _).
Qed.
End rendered.

(** ** Concrete documents *)

(** Two replicas on two nodes, the second kept for workers. *)
Definition fx_nodes : json :=
  JObject [("nodes", JArray [JObject [("name", JString "n1")];
                             JObject [("name", JString "n2"); ("execution_mode", JString "worker-only")]])].
Definition fx_assignment (node gpu : string) : json :=
  JObject [("node", JString node); ("gpu_device", JString gpu)].
Definition fx_assignments : json := JArray [fx_assignment "n1" "0"; fx_assignment "n2" "1"].
Definition fx_worker : json := JObject [("assignments", fx_assignments)].
Definition fx_model : json :=
  JObject [("source", JObject [("type", JString "library"); ("ref", JString "m")]);
           ("served_model_name", JString "m")].
Definition fx_runtime (workers : Z) : json :=
  JObject [("engine", JString "llama.cpp"); ("workers", JInt workers)].
Definition fx_llm_with (infer : json) (more : list (string * json)) : json :=
  JObject ([("version", JInt 2); ("plane_name", JString "p"); ("model", fx_model);
            ("runtime", fx_runtime 2); ("topology", fx_nodes); ("infer", infer);
            ("worker", fx_worker)] ++ more).
Definition fx_replicas : json := JObject [("replicas", JInt 2)].
Definition fx_llm : json := fx_llm_with fx_replicas [].
(** A plane without a model, with the given apps. *)
Definition fx_compute (more : list (string * json)) : json :=
  JObject ([("version", JInt 2); ("plane_name", JString "p"); ("plane_mode", JString "compute");
            ("runtime", fx_runtime 1)] ++ more).

(** What the witnesses need of the rendered document. *)
Definition fx_facts (s : DesiredState) : bool :=
  (wg_infer_instance_name (ds_worker_group s) ==? "infer-p") &&
  (inf_api_port (ds_inference s) =? 8000) && (gw_listen_port (ds_gateway s) =? 80) &&
  (length (with_role Infer (ds_instances s)) =? 3)%nat &&
  (length (with_role Worker (ds_instances s)) =? 2)%nat.

Lemma fx_llm_renders : exists s, Render (Lib := tree_json) fx_llm = Ok s /\ fx_facts s = true.
Proof.
  assert (match Render (Lib := tree_json) fx_llm with Ok s => fx_facts s | Throw _ => false end = true) as H
    by (vm_compute; reflexivity).
  destruct (Render (Lib := tree_json) fx_llm) as [s|]; [|discriminate H].
  exists s. exact (conj eq_refl H).
Qed.

Lemma rendered_disks_witness :
  exists s, Render (Lib := tree_json) fx_llm = Ok s /\ exists size_gb private,
    ds_disks s = map (shared_disk s size_gb) (set_items (list_to_set (node_names s))) ++ private.
Proof.
  destruct fx_llm_renders as (s & E & _).
  destruct (rendered_disks (Lib := tree_json) fx_llm s E) as (size_gb & private & Hd & _).
  exists s. split; [exact E|]. exists size_gb, private. exact Hd.
Defined.

Lemma rendered_placed_witness :
  exists s, Render (Lib := tree_json) fx_llm = Ok s /\
    inf_primary_infer_node (ds_inference s) ∈ node_names s /\ Forall (plane_instance s) (ds_instances s).
Proof.
  destruct fx_llm_renders as (s & E & _).
  destruct (rendered_placed (Lib := tree_json) fx_llm s E) as (_ & _ & Hp & Hi & _).
  exists s. exact (conj E (conj Hp Hi)).
Defined.

Lemma rendered_worker_group_witness :
  exists s, Render (Lib := tree_json) fx_llm = Ok s /\
    asks_for (Lib := tree_json) fx_llm 2 2 true /\ wg_expected_workers (ds_worker_group s) = 2.
Proof.
  destruct fx_llm_renders as (s & E & _).
  destruct (rendered_worker_group (Lib := tree_json) fx_llm s E eq_refl)
    as (total & replicas & inference & Ha & _ & _ & _ & He & _).
  exists s. split; [exact E|].
  assert (asks_for (Lib := tree_json) fx_llm 2 2 true) as Hf
    by (do 2 eexists; repeat split; vm_compute; reflexivity).
  destruct Ha as (r1 & i1 & A1 & A2 & _), Hf as (r2 & i2 & B1 & B2 & B3).
  rewrite A1 in B1. injection B1 as <-. rewrite A2 in B2. injection B2 as ->.
  split; [|exact He]. exists r1, i2. exact (conj A1 (conj A2 B3)).
Defined.

Lemma rendered_assignments_witness :
  exists s, Render (Lib := tree_json) fx_llm = Ok s /\
    length (items (JsonLibrary := tree_json) fx_assignments) =
    length (with_role Worker (ds_instances s)).
Proof.
  destruct fx_llm_renders as (s & E & _). exists s. split; [exact E|].
  exact (Forall2_length _ _ _ (rendered_assignments (Lib := tree_json) fx_llm s fx_worker fx_assignments
                                 E eq_refl eq_refl)).
Defined.

Lemma rendered_dependencies_witness :
  exists s, Render (Lib := tree_json) fx_llm = Ok s /\
    Forall (fun i => Forall (.∈ map inst_name (ds_instances s)) (inst_depends_on i)) (ds_instances s).
Proof.
  destruct fx_llm_renders as (s & E & H). unfold fx_facts in H. to_prop. exists s. split; [exact E|].
  apply (rendered_dependencies (Lib := tree_json) fx_llm s E). intros Hnil. clear E. congruence.
Defined.

Lemma rendered_names_distinct_witness :
  exists s, Render (Lib := tree_json) fx_llm = Ok s /\
    (NoDup (map inst_name (ds_instances s)) <->
     NoDup (map inst_name (with_role App (ds_instances s)))).
Proof.
  destruct fx_llm_renders as (s & E & H). unfold fx_facts in H. to_prop.
  repeat match goal with Hn : (_ =? _)%nat = true |- _ => apply Nat.eqb_eq in Hn end.
  exists s. split; [exact E|]. apply (rendered_names_distinct (Lib := tree_json) fx_llm s E); lia.
Defined.

Lemma rendered_plans_witness :
  exists s, Render (Lib := tree_json) fx_llm = Ok s /\ is_ok (BuildNodeComposePlans None s) = true.
Proof.
  destruct fx_llm_renders as (s & E & H). unfold fx_facts in H. to_prop.
  repeat match goal with
  | Hn : (_ =? _)%nat = true |- _ => apply Nat.eqb_eq in Hn
  | Hn : (_ =? _) = true |- _ => apply Z.eqb_eq in Hn
  end.
  exists s. split; [exact E|]. apply (rendered_plans (Lib := tree_json) None fx_llm s E);
    [|unfold int_max; lia..].
  intros custom Hc. cbn in Hc. injection Hc as <-. split; reflexivity.
Defined.

(** ** Where accepted documents surprise *)

Definition fx_app (name : string) (more : list (string * json)) : json :=
  JObject ([("name", JString name); ("image", JString "i")] ++ more).
Definition fx_apps (apps : list json) : json := fx_compute [("apps", JArray apps)].
Definition fx_names (r : result DesiredState) : result (list string) :=
  s ← r; Ok (map inst_name (ds_instances s)).

(** Two apps take the plain name of the plane: the first one, because of its
    position, and the one that is marked primary. *)
Example primary_apps_share_name :
  fx_names (Render (Lib := tree_json) (fx_apps [fx_app "a" []; fx_app "b" [("primary", JBool true)]])) =
  Ok ["infer-p"; "infer-p-a"; "worker-p"; "app-p"; "app-p"].
Proof. vm_compute. reflexivity. Qed.

(** The validator compares the names of apps as they are written, the renderer
    normalises them. *)
Example normalized_apps_share_name :
  fx_names (Render (Lib := tree_json) (fx_apps [fx_app "a" []; fx_app "bot" []; fx_app "Bot" []])) =
  Ok ["infer-p"; "infer-p-a"; "worker-p"; "app-p"; "app-p-bot"; "app-p-bot"].
Proof. vm_compute. reflexivity. Qed.

(** A language model plane with inference switched off keeps an interaction
    service that depends on an infer instance it does not have. *)
Example interaction_without_infer :
  (s ← Render (Lib := tree_json)
         (fx_llm_with (JObject [("replicas", JInt 2); ("enabled", JBool false)]) []);
   Ok (map (fun i => (inst_name i, inst_depends_on i)) (ds_instances s))) =
  Ok [("worker-p-a", []); ("worker-p-b", []); ("interaction-p", ["infer-p"])].
Proof. vm_compute. reflexivity. Qed.

(** A worker without a node of its own goes to the first node, even if that one
    is kept for inference. *)
Example worker_on_infer_only_node :
  (s ← Render (Lib := tree_json) (fx_compute [("topology", JObject [("nodes",
         JArray [JObject [("name", JString "n1"); ("execution_mode", JString "infer-only")]])])]);
   Ok (map (fun i => inst_node_name i) (with_role Worker (ds_instances s)),
       map (fun n => (node_name n, node_execution_mode n)) (ds_nodes s))) =
  Ok (["n1"], [("n1", InferOnly)]).
Proof. vm_compute. reflexivity. Qed.

(** The replicas of a rendered group are lost when the state is written as JSON
    and read back: the reader lays out the members anew, as one replica. *)
Definition fx_layout (s : DesiredState) : list (Z * Z) :=
  map (fun m => (wgm_replica_index m, wgm_replica_size m)) (wg_members (ds_worker_group s)).

Example replicas_lost_in_json :
  (s ← Render (Lib := tree_json) fx_llm;
   s' ← DesiredStateFromJson (Lib := tree_json) (Render (Lib := tree_json)) (DesiredStateToJson s);
   Ok (fx_layout s, fx_layout s')) = Ok ([(0, 1); (1, 1)], [(0, 2); (0, 2)]).
Proof. vm_compute. reflexivity. Qed.

(** A document that sets a port variable of the infer instances to a text is
    accepted and rendered, but cannot be planned. *)
Example port_override_not_planned :
  (s ← Render (Lib := tree_json) (fx_llm_with (JObject [("replicas", JInt 2);
         ("env", JObject [("NAIM_INFERENCE_PORT", JString "x")])]) []);
   plans ← BuildNodeComposePlans None s; Ok (length plans)) = Throw "stoi".
Proof. vm_compute. reflexivity. Qed.
