(* ===== verification/HostLocalState.v ===== *)
(** * What a host remembers

    The files of a host daemon under its state root:
    [hostd/src/app/hostd_local_state_path_support.cpp] and
    [hostd_local_state_repository.cpp].  Each plane of a node has a directory
    [<state root>/<node>/planes/<plane>] with the state and the generation applied
    last; two files beside it aggregate the planes.

    The file system is a map from paths to contents.  A directory is there when a
    file lies under it (an empty one makes no difference to this code), paths are
    compared as they are written, and failures of the file system are not
    modelled. *)

From S2P Require Import Prelude Binary64 Json Models Fixtures Planner StateCodecs StateJson Paths InferRuntimeConfig.

(** ** Paths *)

Abbreviation Files := (gmap string string).

Definition LocalPlaneRoot (state_root node_name plane_name : string) : string :=
  path_append (path_append (path_append state_root node_name) "planes") plane_name.

Definition LocalGenerationPath (state_root node_name : string) : string :=
  path_append (path_append state_root node_name) "applied-generation.txt".

Definition LocalPlaneGenerationPath (state_root node_name plane_name : string) : string :=
  path_append (LocalPlaneRoot state_root node_name plane_name) "applied-generation.txt".

Definition LocalStatePath (state_root node_name : string) : string :=
  path_append (path_append state_root node_name) "applied-state.json".

Definition LocalPlaneStatePath (state_root node_name plane_name : string) : string :=
  path_append (LocalPlaneRoot state_root node_name plane_name) "applied-state.json".

(** The text before the first separator, when there is one. *)
Fixpoint before_slash (text : string) : option string :=
  match text with
  | EmptyString => None
  | String c rest =>
      if bool_decide (c = "/"%char) then Some ""
      else option_map (String c) (before_slash rest)
  end.

(** The path is [root] or lies under it. *)
Definition under (root path : string) : bool :=
  (path ==? root) || starts_with (if ends_with_slash root then root else root +:+ "/") path.

(** A name that is one component of a path, and not a way back up. *)
Definition plain_name (name : string) : bool :=
  negb (str_empty name || (name ==? ".") || (name ==? "..")) &&
  forallb (fun c => negb (bool_decide (c = "/"%char))) (list_of_string name).

(** The directory directly under [root] that holds the file at [path]. *)
Definition child_directory (root path : string) : option string :=
  let prefix := if ends_with_slash root then root else root +:+ "/" in
  if starts_with prefix path then
    name ← before_slash (String.substring (String.length prefix)
                           (String.length path - String.length prefix) path);
    if plain_name name then Some name else None
  else None.

Definition ListLocalPlaneNames (state_root node_name : string) (files : Files) : list string :=
  let planes_root := path_append (path_append state_root node_name) "planes" in
  set_items (list_to_set (omap (child_directory planes_root) (map_keys files))).

(** ** Files *)

(** [input >> value] on an [int]: the value, whether the extraction failed and
    whether it met the end. *)
Definition extract_int (text : string) : Z * bool * bool :=
  let l := skip_spaces (list_of_string text) in
  let '(sign, l) :=
    match l with
    | "-"%char :: l' => (-1, l')
    | "+"%char :: l' => (1, l')
    | _ => (1, l)
    end in
  let eof := forallb (fun c => has_value (digit_of c)) l in
  match read_digits None l with
  | None => (0, true, eof)
  | Some v =>
      let z := sign * v in
      if z <? int_min then (int_min, true, eof)
      else if int_max <? z then (int_max, true, eof)
      else (z, false, eof)
  end.

Definition LoadGenerationFromPath (path : string) (files : Files) : result (option Z) :=
  match files !! path with
  | None => Ok None
  | Some text =>
      let '(generation, fail, eof) := extract_int text in
      if fail && negb eof then Throw ("failed to parse generation file: " +:+ path)
      else Ok (Some generation)
  end.

Definition RemoveStateFileIfExists (path : string) (files : Files) : Files := delete path files.

(** The greater of a generation and the next one, when there is one. *)
Definition max_generation (generation next : option Z) : option Z :=
  match generation, next with
  | _, None => generation
  | None, Some n => Some n
  | Some g, Some n => Some (Z.max g n)
  end.

(** The greatest generation of the planes. *)
Definition planes_generation (state_root node_name : string) (files : Files) : result (option Z) :=
  foldR (fun generation plane_name =>
    plane_generation ←
      LoadGenerationFromPath (LocalPlaneGenerationPath state_root node_name plane_name) files;
    Ok (max_generation generation plane_generation))
  None (ListLocalPlaneNames state_root node_name files).

Definition LoadLocalAppliedGeneration (state_root node_name : string) (plane_name : option string)
    (files : Files) : result (option Z) :=
  match plane_name with
  | Some plane_name =>
      LoadGenerationFromPath (LocalPlaneGenerationPath state_root node_name plane_name) files
  | None =>
      let aggregate_path := LocalGenerationPath state_root node_name in
      if has_value (files !! aggregate_path) then LoadGenerationFromPath aggregate_path files
      else planes_generation state_root node_name files
  end.

Definition SaveLocalAppliedGeneration (state_root node_name : string) (generation : Z)
    (plane_name : option string) (files : Files) : Files :=
  <[match plane_name with
    | Some plane_name => LocalPlaneGenerationPath state_root node_name plane_name
    | None => LocalGenerationPath state_root node_name
    end := to_string generation +:+ newline]> files.

Definition RewriteAggregateLocalGeneration (state_root node_name : string) (files : Files)
    : Files * result unit :=
  match planes_generation state_root node_name files with
  | Throw e => (files, Throw e)
  | Ok (Some generation) =>
      (SaveLocalAppliedGeneration state_root node_name generation None files, Ok ())
  | Ok None => (RemoveStateFileIfExists (LocalGenerationPath state_root node_name) files, Ok ())
  end.

(** [remove_all] of a plane's directory. *)
Definition RemoveLocalAppliedPlaneState (state_root node_name plane_name : string) (files : Files)
    : Files :=
  filter (fun kv => under (LocalPlaneRoot state_root node_name plane_name) kv.1 = false) files.

(** ** States *)

(** Entries of one state that were not seen in an earlier one. *)
Definition add_unseen {A} (key : A -> string) (seen : gset string * list A) (x : A)
    : gset string * list A :=
  if bool_decide (key x ∈ seen.1) then seen else ({[key x]} ∪ seen.1, seen.2 ++ [x]).
Definition unseen {A} (key : A -> string) (l : list A) : list A :=
  (foldl (add_unseen key) (∅, []) l).2.

Definition merged_state (front : DesiredState) (states : list DesiredState) : DesiredState :=
  let several := (1 <? Z.of_nat (length states)) in
  {| ds_plane_name := if several then "" else ds_plane_name front;
     ds_plane_shared_disk_name := if several then "" else ds_plane_shared_disk_name front;
     ds_control_root := ds_control_root front;
     ds_plane_mode := ds_plane_mode front;
     ds_protected_plane := ds_protected_plane front;
     ds_post_deploy_script := ds_post_deploy_script front;
     ds_placement_target := ds_placement_target front;
     ds_bootstrap_model := ds_bootstrap_model front;
     ds_interaction := ds_interaction front;
     ds_skills := ds_skills front;
     ds_browsing := ds_browsing front;
     ds_knowledge := ds_knowledge front;
     ds_turboquant := ds_turboquant front;
     ds_context_compression := ds_context_compression front;
     ds_voice_listener := ds_voice_listener front;
     ds_voice_maker := ds_voice_maker front;
     ds_secured_connection := ds_secured_connection front;
     ds_app_host := ds_app_host front;
     ds_inference := ds_inference front;
     ds_worker_group := ds_worker_group front;
     ds_gateway := ds_gateway front;
     ds_runtime_gpu_nodes :=
       unseen (fun n => gpun_node_name n +:+ ":" +:+ gpun_gpu_device n)
         (states ≫= ds_runtime_gpu_nodes);
     ds_nodes := unseen node_name (states ≫= ds_nodes);
     ds_disks := states ≫= ds_disks;
     ds_instances := states ≫= ds_instances |}.

Definition MergeLocalAppliedStates (states : list DesiredState) : result DesiredState :=
  match states with
  | [] => Throw "cannot merge empty local state list"
  | front :: _ => Ok (merged_state front states)
  end.

(** The state is one of a single node. *)
Definition RequireSingleNodeName (state : DesiredState) : result string :=
  match ds_nodes state with
  | [] => Throw "desired node state is empty"
  | front :: _ =>
      let name := node_name front in
      if str_empty name then Throw "desired node state has an empty node name"
      else if existsb (fun node => node_name node !=? name) (ds_nodes state)
      then Throw ("desired node state contains multiple node entries; " +:+
                  "expected a node-sliced state")
      else
        match find_if (fun disk => negb (str_empty (disk_node_name disk)) &&
                                   (disk_node_name disk !=? name)) (ds_disks state) with
        | Some disk =>
            Throw ("desired node state contains disk '" +:+ disk_name disk +:+ "' for node '" +:+
                   disk_node_name disk +:+ "' while applying node '" +:+ name +:+ "'")
        | None =>
            match find_if (fun instance => negb (str_empty (inst_node_name instance)) &&
                                           (inst_node_name instance !=? name))
                    (ds_instances state) with
            | Some instance =>
                Throw ("desired node state contains instance '" +:+ inst_name instance +:+
                       "' for node '" +:+ inst_node_name instance +:+ "' while applying node '" +:+
                       name +:+ "'")
            | None => Ok name
            end
        end
  end.

Section states.
Context `{Lib : !JsonLibrary} (render_v2 : json -> result DesiredState).

Definition LoadStateFromPath (path : string) (files : Files) : result (option DesiredState) :=
  match files !! path with
  | None => Ok None
  | Some text => state ← DeserializeDesiredStateJson render_v2 text; Ok (Some state)
  end.

(** The file is truncated before its new text is made. *)
Definition WriteLocalStateFile (state : DesiredState) (path : string) (files : Files)
    : Files * result unit :=
  match SerializeDesiredStateJson state with
  | Ok text => (<[path := text +:+ newline]> files, Ok ())
  | Throw e => (<[path := ""]> files, Throw e)
  end.

(** The states of the planes, in the order of their names. *)
Definition plane_states (state_root node_name : string) (files : Files) : result (list DesiredState) :=
  states ← mapR (fun plane_name =>
    LoadStateFromPath (LocalPlaneStatePath state_root node_name plane_name) files)
    (ListLocalPlaneNames state_root node_name files);
  Ok (omap id (states : list (option DesiredState))).

Definition LoadAllLocalAppliedStates (state_root node_name : string) (files : Files)
    : result (list DesiredState) :=
  result ← plane_states state_root node_name files;
  if negb (vec_empty result) then Ok result
  else
    aggregate_state ← LoadStateFromPath (LocalStatePath state_root node_name) files;
    Ok (option_list aggregate_state).

Definition LoadLocalAppliedState (state_root node_name : string) (plane_name : option string)
    (files : Files) : result (option DesiredState) :=
  match plane_name with
  | Some plane_name =>
      LoadStateFromPath (LocalPlaneStatePath state_root node_name plane_name) files
  | None =>
      states ← LoadAllLocalAppliedStates state_root node_name files;
      match states with
      | [] => Ok None
      | _ => merged ← MergeLocalAppliedStates states; Ok (Some merged)
      end
  end.

Definition RewriteAggregateLocalState (state_root node_name : string) (files : Files)
    : Files * result unit :=
  match plane_states state_root node_name files with
  | Throw e => (files, Throw e)
  | Ok [] => (RemoveStateFileIfExists (LocalStatePath state_root node_name) files, Ok ())
  | Ok (front :: _ as states) =>
      WriteLocalStateFile (merged_state front states) (LocalStatePath state_root node_name) files
  end.

Definition SaveLocalAppliedState (state_root node_name : string) (state : DesiredState)
    (plane_name : option string) (files : Files) : Files * result unit :=
  WriteLocalStateFile state
    (match plane_name with
     | Some plane_name => LocalPlaneStatePath state_root node_name plane_name
     | None => LocalStatePath state_root node_name
     end) files.
End states.

(** ** Lemmas: paths *)

Lemma append_assoc_str a b c : (a +:+ b) +:+ c = a +:+ (b +:+ c).
Proof. induction a as [|x a IH]; [done|]. change ((String x a +:+ b) +:+ c) with (String x ((a +:+ b) +:+ c)). by rewrite IH. Qed.

Lemma starts_with_append p s : starts_with p (p +:+ s) = true.
Proof.
  induction p as [|c p IH]; [by destruct s|]. change (String c p +:+ s) with (String c (p +:+ s)).
  unfold starts_with in *. cbn. destruct (Ascii.ascii_dec c c); [exact IH | done].
Qed.

Lemma starts_with_true p s : starts_with p s = true -> exists t, s = p +:+ t.
Proof.
  unfold starts_with. revert s. induction p as [|c p IH]; intros s; [intros _; by exists s|].
  destruct s as [|d s]; [done|]. cbn. destruct (Ascii.ascii_dec c d) as [->|]; [|done].
  intros [t ->]%IH. by exists t.
Qed.

Lemma length_append_str a b : String.length (a +:+ b) = (String.length a + String.length b)%nat.
Proof. induction a as [|x a IH]; [done|]. change (String x a +:+ b) with (String x (a +:+ b)). cbn. by rewrite IH. Qed.

Lemma substring_all s : String.substring 0 (String.length s) s = s.
Proof. induction s as [|c s IH]; [done|]. cbn. by rewrite IH. Qed.

Lemma substring_append p s :
  String.substring (String.length p) (String.length (p +:+ s) - String.length p) (p +:+ s) = s.
Proof.
  rewrite length_append_str. replace (String.length p + String.length s - String.length p)%nat
    with (String.length s) by lia.
  induction p as [|c p IH]; [apply substring_all|]. exact IH.
Qed.

Lemma before_slash_app name rest :
  forallb (fun c => negb (bool_decide (c = "/"%char))) (list_of_string name) = true ->
  before_slash (name +:+ "/" +:+ rest) = Some name.
Proof.
  induction name as [|c name IH]; [done|]. cbn [list_of_string forallb]. intros [Hc Hn]%andb_true_iff.
  change (String c name +:+ "/" +:+ rest) with (String c (name +:+ "/" +:+ rest)). cbn [before_slash].
  apply negb_true_iff in Hc. rewrite Hc. by rewrite (IH Hn).
Qed.

Lemma plain_before name rest : plain_name name = true -> before_slash (name +:+ "/" +:+ rest) = Some name.
Proof. intros [_ H]%andb_true_iff. by apply before_slash_app. Qed.

Lemma plain_relative name : plain_name name = true -> path_is_absolute name = false.
Proof.
  intros [He H]%andb_true_iff. destruct name as [|c name]; [done|]. cbn in H.
  apply andb_true_iff in H as [Hc _]. apply negb_true_iff, bool_decide_eq_false in Hc.
  unfold path_is_absolute. destruct (starts_with _ _) eqn:E; [|done].
  apply starts_with_true in E as [t [= -> _]]. done.
Qed.

Lemma ends_with_slash_app a c b :
  ends_with_slash (a +:+ String c b) = ends_with_slash (String c b).
Proof.
  unfold ends_with_slash. rewrite list_of_string_app, rev_app_distr. cbn [list_of_string].
  cbn [rev]. destruct (rev (list_of_string b)) as [|d l]; done.
Qed.

(** Appending a relative path. *)
Definition separator (base : string) : string :=
  if str_empty base || ends_with_slash base then "" else "/".

Lemma path_append_relative base name :
  path_is_absolute name = false -> path_append base name = base +:+ separator base +:+ name.
Proof. unfold path_append, separator. intros ->. by destruct (_ || _). Qed.

Lemma path_append_dir base c b name :
  ends_with_slash (String c b) = false -> path_is_absolute name = false ->
  path_append (base +:+ String c b) name = base +:+ String c b +:+ "/" +:+ name.
Proof.
  intros Hs Hn. rewrite path_append_relative by done. unfold separator.
  rewrite ends_with_slash_app, Hs. rewrite append_assoc_str. by destruct base.
Qed.

Section local_paths.
Context (state_root node_name : string).

(** Everything under the node's directory. *)
Definition node_base : string :=
  path_append state_root node_name +:+ separator (path_append state_root node_name).
Definition plane_prefix : string := node_base +:+ "planes/".

Lemma planes_root_eq : path_append (path_append state_root node_name) "planes" = node_base +:+ "planes".
Proof. rewrite path_append_relative by done. unfold node_base. by rewrite append_assoc_str. Qed.

Lemma plane_prefix_eq :
  (if ends_with_slash (node_base +:+ "planes") then node_base +:+ "planes" else (node_base +:+ "planes") +:+ "/")
  = plane_prefix.
Proof. rewrite ends_with_slash_app. unfold plane_prefix. cbn. by rewrite append_assoc_str. Qed.

Lemma local_plane_root plane :
  plain_name plane = true -> LocalPlaneRoot state_root node_name plane = plane_prefix +:+ plane.
Proof.
  intros Hp. unfold LocalPlaneRoot, plane_prefix. rewrite planes_root_eq, path_append_dir by (done || by apply plain_relative).
  by rewrite append_assoc_str.
Qed.

Lemma plain_ends plane : plain_name plane = true -> ends_with_slash plane = false.
Proof.
  intros [_ H]%andb_true_iff. unfold ends_with_slash. rewrite forallb_forall in H.
  destruct (rev (list_of_string plane)) as [|c l] eqn:E; [done|].
  apply negb_true_iff, H, in_rev. rewrite E. by left.
Qed.

Lemma local_plane_file plane file :
  plain_name plane = true -> path_is_absolute file = false ->
  path_append (LocalPlaneRoot state_root node_name plane) file =
  plane_prefix +:+ plane +:+ "/" +:+ file.
Proof.
  intros Hp Hf. rewrite local_plane_root by done. pose proof (plain_ends _ Hp) as He.
  destruct plane as [|c plane]; [done|]. rewrite path_append_dir by done. done.
Qed.

Lemma plane_file_inj plane plane' file file' :
  plain_name plane = true -> plain_name plane' = true ->
  plane_prefix +:+ plane +:+ "/" +:+ file = plane_prefix +:+ plane' +:+ "/" +:+ file' ->
  plane = plane' /\ file = file'.
Proof.
  intros Hp Hp' H. apply (inj (String.append plane_prefix)) in H.
  assert (Hb := plain_before plane file Hp). rewrite H, (plain_before plane' file' Hp') in Hb.
  injection Hb as ->. split; [done|]. by apply (inj (String.append plane)), (inj (String.append "/")) in H.
Qed.

Lemma local_state_path : LocalStatePath state_root node_name = node_base +:+ "applied-state.json".
Proof. unfold LocalStatePath, node_base. rewrite path_append_relative by done. by rewrite append_assoc_str. Qed.
Lemma local_generation_path :
  LocalGenerationPath state_root node_name = node_base +:+ "applied-generation.txt".
Proof.
  unfold LocalGenerationPath, node_base. rewrite path_append_relative by done. by rewrite append_assoc_str.
Qed.
Lemma local_plane_state_path plane :
  plain_name plane = true ->
  LocalPlaneStatePath state_root node_name plane = plane_prefix +:+ plane +:+ "/applied-state.json".
Proof. intros Hp. unfold LocalPlaneStatePath. by rewrite local_plane_file. Qed.
Lemma local_plane_generation_path plane :
  plain_name plane = true ->
  LocalPlaneGenerationPath state_root node_name plane =
  plane_prefix +:+ plane +:+ "/applied-generation.txt".
Proof. intros Hp. unfold LocalPlaneGenerationPath. by rewrite local_plane_file. Qed.

(** The aggregates are not files of a plane. *)
Lemma aggregate_not_plane rest :
  node_base +:+ "applied-state.json" <> plane_prefix +:+ rest /\
  node_base +:+ "applied-generation.txt" <> plane_prefix +:+ rest.
Proof.
  unfold plane_prefix. rewrite append_assoc_str. split; intros H; by apply (inj (String.append _)) in H.
Qed.

(** *** The names of the planes *)

Lemma elem_of_planes plane (files : Files) :
  plane ∈ ListLocalPlaneNames state_root node_name files <->
  exists path text, files !! path = Some text /\
    child_directory (path_append (path_append state_root node_name) "planes") path = Some plane.
Proof.
  unfold ListLocalPlaneNames. rewrite elem_of_set_items, elem_of_list_to_set, list_elem_of_omap.
  split.
  - intros (path & Hin & Hc). apply list_elem_of_fmap in Hin as ([path' text] & -> & Hin).
    apply elem_of_map_items in Hin. by exists path', text.
  - intros (path & text & Hl & Hc). exists path. split; [|done].
    apply list_elem_of_fmap. exists (path, text). split; [done|]. by apply elem_of_map_items.
Qed.

Lemma before_slash_inv text name : before_slash text = Some name -> exists rest, text = name +:+ "/" +:+ rest.
Proof.
  revert name. induction text as [|c text IH]; [done|]. cbn. intros name.
  case_bool_decide as Hc; [intros [= <-]; subst c; by exists text|].
  destruct (before_slash text) as [n|]; [|done]. intros [= <-].
  destruct (IH n eq_refl) as [rest ->]. by exists rest.
Qed.

Lemma child_directory_inv path plane :
  child_directory (path_append (path_append state_root node_name) "planes") path = Some plane ->
  plain_name plane = true /\ exists file, path = plane_prefix +:+ plane +:+ "/" +:+ file.
Proof.
  unfold child_directory. rewrite planes_root_eq, plane_prefix_eq.
  destruct (starts_with plane_prefix path) eqn:E; [|done]. intros H.
  destruct (before_slash _) as [name|] eqn:Eb; [|done]. cbn in H.
  destruct (plain_name name) eqn:Ee; [|done]. injection H as <-. split; [done|].
  apply starts_with_true in E as [t ->]. rewrite substring_append in Eb.
  apply before_slash_inv in Eb as [rest ->]. by exists rest.
Qed.

Lemma planes_plain plane files :
  plane ∈ ListLocalPlaneNames state_root node_name files -> plain_name plane = true.
Proof. rewrite elem_of_planes. intros (path & text & _ & Hc). by apply child_directory_inv in Hc as [? _]. Qed.

(** Files outside the planes do not change which planes there are. *)
Lemma planes_outside files files' :
  (forall rest, files' !! (plane_prefix +:+ rest) = files !! (plane_prefix +:+ rest)) ->
  ListLocalPlaneNames state_root node_name files' = ListLocalPlaneNames state_root node_name files.
Proof.
  intros H. unfold ListLocalPlaneNames. f_equal. apply set_eq. intros plane.
  rewrite !elem_of_list_to_set.
  assert (forall f g : Files, (forall rest, g !! (plane_prefix +:+ rest) = f !! (plane_prefix +:+ rest)) ->
    plane ∈ ListLocalPlaneNames state_root node_name f -> plane ∈ ListLocalPlaneNames state_root node_name g) as Hsub.
  { intros f g Hfg. rewrite !elem_of_planes. intros (path & text & Hl & Hc).
    destruct (child_directory_inv _ _ Hc) as [_ [rest ->]]. eexists _, text.
    by rewrite Hfg. }
  unfold ListLocalPlaneNames in Hsub. setoid_rewrite elem_of_set_items in Hsub.
  setoid_rewrite elem_of_list_to_set in Hsub. split; apply Hsub; auto.
Qed.

Lemma child_directory_plane plane file :
  plain_name plane = true ->
  child_directory (path_append (path_append state_root node_name) "planes")
    (plane_prefix +:+ plane +:+ "/" +:+ file) = Some plane.
Proof.
  intros Hp. unfold child_directory. rewrite planes_root_eq, plane_prefix_eq.
  rewrite starts_with_append, substring_append, plain_before by done. cbn -[plain_name]. by rewrite Hp.
Qed.

Lemma elem_of_planes_file plane (files : Files) :
  plane ∈ ListLocalPlaneNames state_root node_name files <->
  plain_name plane = true /\ exists file, is_Some (files !! (plane_prefix +:+ plane +:+ "/" +:+ file)).
Proof.
  rewrite elem_of_planes. split.
  - intros (path & text & Hl & Hc). destruct (child_directory_inv _ _ Hc) as [Hp [file ->]].
    split; [done|]. exists file. by exists text.
  - intros [Hp [file [text Hl]]]. eexists _, text. split; [exact Hl|]. by apply child_directory_plane.
Qed.

(** Writing a file of a plane. *)
Lemma planes_insert plane file text (files : Files) plane' :
  plain_name plane = true ->
  plane' ∈ ListLocalPlaneNames state_root node_name
    (<[plane_prefix +:+ plane +:+ "/" +:+ file := text]> files) <->
  plane' = plane \/ plane' ∈ ListLocalPlaneNames state_root node_name files.
Proof.
  intros Hp. rewrite !elem_of_planes_file. split.
  - intros [Hp' [file' [t Hl]]]. apply lookup_insert_Some in Hl as [[E _] | [_ Hl]].
    + apply plane_file_inj in E as [-> _]; auto.
    + right. split; [done|]. by exists file', t.
  - intros [-> | [Hp' [file' [t Hl]]]].
    + split; [done|]. exists file, text. apply lookup_insert_eq.
    + split; [done|]. exists file'. destruct (decide (plane_prefix +:+ plane +:+ "/" +:+ file =
        plane_prefix +:+ plane' +:+ "/" +:+ file')) as [-> | Hne].
      * exists text. apply lookup_insert_eq.
      * exists t. by rewrite lookup_insert_ne.
Qed.

(** What is left when a plane is removed. *)
Lemma removed_lookup plane plane' file (files : Files) :
  plain_name plane = true -> plain_name plane' = true ->
  RemoveLocalAppliedPlaneState state_root node_name plane files !!
    (plane_prefix +:+ plane' +:+ "/" +:+ file) =
  if decide (plane' = plane) then None else files !! (plane_prefix +:+ plane' +:+ "/" +:+ file).
Proof.
  intros Hp Hp'. unfold RemoveLocalAppliedPlaneState. rewrite local_plane_root by done.
  assert (under (plane_prefix +:+ plane) (plane_prefix +:+ plane' +:+ "/" +:+ file) =
          bool_decide (plane' = plane)) as Hu.
  { unfold under. rewrite (proj2 (eqb_false _ _)).
    2:{ intros E. apply (inj (String.append plane_prefix)) in E. subst plane.
        apply andb_true_iff in Hp as [_ Hp]. rewrite list_of_string_app, forallb_app in Hp.
        apply andb_true_iff in Hp as [_ Hp]. done. }
    assert (ends_with_slash (plane_prefix +:+ plane) = false) as ->.
    { destruct plane as [|c plane]; [done|]. rewrite ends_with_slash_app. by apply plain_ends. }
    rewrite orb_false_l. rewrite append_assoc_str. apply eq_true_iff_eq. rewrite bool_decide_eq_true.
    split.
    - intros [t E]%starts_with_true. rewrite !append_assoc_str in E.
      by apply plane_file_inj in E as [-> _].
    - intros ->. replace (plane_prefix +:+ plane +:+ "/" +:+ file)
        with ((plane_prefix +:+ plane +:+ "/") +:+ file) by by rewrite !append_assoc_str.
      apply starts_with_append. }
  destruct (decide (plane' = plane)) as [E|E].
  - apply map_lookup_filter_None. right. intros text _. cbn. rewrite Hu, bool_decide_eq_true_2 by done. done.
  - destruct (files !! _) as [text|] eqn:El.
    + apply map_lookup_filter_Some. split; [done|]. cbn. by rewrite Hu, bool_decide_eq_false_2.
    + apply map_lookup_filter_None. by left.
Qed.

End local_paths.

(** ** Lemmas: generations *)

Lemma read_digits_newline l : forall acc,
  read_digits acc (l ++ ["010"%char]) = read_digits acc l.
Proof. induction l as [|c l IH]; intros acc; [done|]. cbn. destruct (digit_of c); [apply IH | done]. Qed.

Lemma extract_digits (p : positive) :
  let l := list_of_string (pretty_N_go (N.pos p) "") in
  read_digits None (l ++ ["010"%char]) = Some (Z.pos p) /\
  exists c rest, l = c :: rest /\ is_space c = false /\ c <> "-"%char /\ c <> "+"%char.
Proof.
  intros l. destruct (read_digits_go (N.pos p) "" None ltac:(lia)) as [(k & _ & Hk) (c & rest & d & Hl & Hd)].
  split.
  - unfold l. rewrite read_digits_newline, Hk. cbn. f_equal; lia.
  - exists c, rest. repeat split; [done | by apply (digit_not_space c d) | by intros -> | by intros ->].
Qed.

(** A generation survives its text: [input >> value] reads what [output << value << "\n"] wrote. *)
Lemma extract_to_string z : int_min <= z <= int_max -> extract_int (to_string z +:+ newline) = (z, false, false).
Proof.
  intros Hz. unfold extract_int. rewrite list_of_string_app.
  assert (forall l b, forallb (fun c => has_value (digit_of c)) (l ++ ["010"%char]) = b -> b = false) as Hf
    by (intros l b <-; rewrite forallb_app; apply andb_false_r).
  assert (forall v, int_min <= v <= int_max ->
    (if v <? int_min then (int_min, true, false) else if int_max <? v then (int_max, true, false)
     else (v, false, false)) = (v, false, false)) as Hv.
  { intros v Hr. rewrite (proj2 (Z.ltb_ge _ _)), (proj2 (Z.ltb_ge _ _)) by lia. done. }
  destruct z as [|p|p]; [by vm_compute| |].
  - change (to_string (Z.pos p)) with (pretty_N_go (N.pos p) "").
    destruct (extract_digits p) as (Hr & c & rest & Hl & Hs & H1 & H2). cbv zeta in *.
    rewrite Hl in *. change (list_of_string newline) with ["010"%char].
    change ((c :: rest) ++ ["010"%char]) with (c :: rest ++ ["010"%char]) in *.
    cbn [skip_spaces]. rewrite Hs.
    assert ((match c :: rest ++ ["010"%char] with
             | "-"%char :: l' => (-1, l') | "+"%char :: l' => (1, l')
             | _ => (1, c :: rest ++ ["010"%char]) end) = (1, c :: rest ++ ["010"%char])) as ->.
    { destruct c as [[] [] [] [] [] [] [] []]; try done; congruence. }
    rewrite Hr, Z.mul_1_l. change (c :: rest ++ ["010"%char]) with ((c :: rest) ++ ["010"%char]).
    rewrite (Hf (c :: rest) _ eq_refl). by apply Hv.
  - change (to_string (Z.neg p)) with (String "-"%char (pretty_N_go (N.pos p) "")).
    destruct (extract_digits p) as (Hr & _). cbv zeta in *. change (list_of_string newline) with ["010"%char].
    cbn [list_of_string skip_spaces app]. change (is_space "-"%char) with false. cbv iota beta.
    rewrite Hr. rewrite (Hf _ _ eq_refl). by apply (Hv (Z.neg p)).
Qed.

Lemma load_generation_inserted path z files :
  int_min <= z <= int_max ->
  LoadGenerationFromPath path (<[path := to_string z +:+ newline]> files) = Ok (Some z).
Proof. intros Hz. unfold LoadGenerationFromPath. by rewrite lookup_insert_eq, extract_to_string. Qed.

Lemma extract_int_range text z fail eof :
  extract_int text = (z, fail, eof) -> int_min <= z <= int_max.
Proof.
  unfold extract_int. intros H. repeat (case_match; simplify_eq); try (unfold int_min, int_max; lia); to_prop; lia.
Qed.

Lemma load_generation_range path files z :
  LoadGenerationFromPath path files = Ok (Some z) -> int_min <= z <= int_max.
Proof.
  unfold LoadGenerationFromPath. intros H. destruct (files !! path) as [text|]; [|done].
  destruct (extract_int text) as [[v fail] eof] eqn:E. destruct (_ && _); [done|]. injection H as <-.
  by apply extract_int_range in E.
Qed.

Lemma load_generation_ext path files files' :
  files' !! path = files !! path -> LoadGenerationFromPath path files' = LoadGenerationFromPath path files.
Proof. unfold LoadGenerationFromPath. by intros ->. Qed.

Lemma foldR_snoc_inv {A S} (f : S -> A -> result S) l x s s' :
  foldR f s (l ++ [x]) = Ok s' -> exists s0, foldR f s l = Ok s0 /\ f s0 x = Ok s'.
Proof.
  revert s. induction l as [|y l IH]; intros s; cbn.
  - intros H. bind_inv. by eauto.
  - intros H. bind_inv. by apply IH in H.
Qed.

(** The greatest generation among some planes. *)
Definition greatest (has : string -> option Z -> Prop) (planes : list string) (g : option Z) : Prop :=
  match g with
  | None => forall plane, plane ∈ planes -> has plane None
  | Some g => (exists plane, plane ∈ planes /\ has plane (Some g)) /\
              forall plane g', plane ∈ planes -> has plane (Some g') -> g' <= g
  end.

Lemma greatest_snoc (load : string -> result (option Z)) planes plane g n :
  greatest (fun p r => load p = Ok r) planes g -> load plane = Ok n ->
  greatest (fun p r => load p = Ok r) (planes ++ [plane]) (max_generation g n).
Proof.
  intros Hg Hn. destruct g as [g|], n as [n|]; cbn in *.
  - destruct Hg as [(p & Hp & Hl) Hle]. split.
    + destruct (decide (g <= n)).
      * exists plane. rewrite Z.max_r by done. set_solver.
      * exists p. rewrite Z.max_l by lia. set_solver.
    + intros p' g' [Hin | ->%list_elem_of_singleton]%elem_of_app Hl'.
      * specialize (Hle _ _ Hin Hl'). lia.
      * rewrite Hn in Hl'. injection Hl' as <-. lia.
  - destruct Hg as [(p & Hp & Hl) Hle]. split; [exists p; set_solver|].
    intros p' g' [Hin | ->%list_elem_of_singleton]%elem_of_app Hl'; [by eapply Hle | congruence].
  - split; [exists plane; set_solver|].
    intros p' g' [Hin | ->%list_elem_of_singleton]%elem_of_app Hl'.
    + rewrite (Hg _ Hin) in Hl'. done.
    + rewrite Hn in Hl'. injection Hl' as <-. lia.
  - intros p' [Hin | ->%list_elem_of_singleton]%elem_of_app; [by apply Hg | done].
Qed.

Lemma fold_greatest (load : string -> result (option Z)) planes g :
  foldR (fun generation p => n ← load p; Ok (max_generation generation n)) None planes = Ok g ->
  greatest (fun p r => load p = Ok r) planes g.
Proof.
  revert g. induction planes as [|plane planes IH] using rev_ind; intros g H.
  - injection H as <-. by intros p Hp%elem_of_nil.
  - apply foldR_snoc_inv in H as (g0 & H0 & H1). bind_inv. by apply greatest_snoc; [apply IH|].
Qed.

Lemma planes_generation_greatest state_root node_name files g :
  planes_generation state_root node_name files = Ok g ->
  greatest (fun p r => LoadGenerationFromPath (LocalPlaneGenerationPath state_root node_name p) files = Ok r)
    (ListLocalPlaneNames state_root node_name files) g.
Proof.
  apply (fold_greatest (fun p => LoadGenerationFromPath (LocalPlaneGenerationPath state_root node_name p) files)).
Qed.

Lemma planes_generation_range state_root node_name files g :
  planes_generation state_root node_name files = Ok (Some g) -> int_min <= g <= int_max.
Proof. intros [(p & _ & Hp) _]%planes_generation_greatest. by apply load_generation_range in Hp. Qed.

(** ** What a node remembers, as a map *)

(** The state and the generation applied last, for each plane. *)
Abbreviation Memory := (gmap string (option DesiredState * option Z)).
Definition recalls (memory : Memory) (plane : string) : option DesiredState * option Z :=
  default (None, None) (memory !! plane).

(** The calls that change the files. *)
Inductive local_op :=
  | SaveState (plane : string) (state : DesiredState)
  | SaveGeneration (plane : string) (generation : Z)
  | Forget (plane : string)
  | RewriteState
  | RewriteGeneration.

(** What they mean. *)
Definition remember (memory : Memory) (op : local_op) : Memory :=
  match op with
  | SaveState plane state => <[plane := (Some state, (recalls memory plane).2)]> memory
  | SaveGeneration plane g => <[plane := ((recalls memory plane).1, Some g)]> memory
  | Forget plane => delete plane memory
  | RewriteState | RewriteGeneration => memory
  end.

(** A state that survives its JSON text. *)
Definition storable (state : DesiredState) : Prop :=
  state_json_ok state = true /\ state_normal state /\ resolve_or_drop_target state = Ok state.

Definition op_ok (op : local_op) : Prop :=
  match op with
  | SaveState plane state => plain_name plane = true /\ storable state
  | SaveGeneration plane g => plain_name plane = true /\ int_min <= g <= int_max
  | Forget plane => plain_name plane = true
  | RewriteState | RewriteGeneration => True
  end.

Section memory.
Context `{Lib : !JsonLibrary} (render_v2 : json -> result DesiredState).
Context (state_root node_name : string).

Definition run_op (op : local_op) (files : Files) : Files * result unit :=
  match op with
  | SaveState plane state => SaveLocalAppliedState state_root node_name state (Some plane) files
  | SaveGeneration plane g =>
      (SaveLocalAppliedGeneration state_root node_name g (Some plane) files, Ok ())
  | Forget plane => (RemoveLocalAppliedPlaneState state_root node_name plane files, Ok ())
  | RewriteState => RewriteAggregateLocalState render_v2 state_root node_name files
  | RewriteGeneration => RewriteAggregateLocalGeneration state_root node_name files
  end.

(** The calls in a row, up to the first that throws. *)
Fixpoint run_ops (ops : list local_op) (files : Files) : Files * result unit :=
  match ops with
  | [] => (files, Ok ())
  | op :: ops' =>
      match run_op op files with
      | (files', Ok _) => run_ops ops' files'
      | (files', Throw e) => (files', Throw e)
      end
  end.

(** The files hold the memory. *)
Definition holds (files : Files) (memory : Memory) : Prop :=
  (forall plane, plane ∈ ListLocalPlaneNames state_root node_name files <-> plane ∈ dom memory) /\
  forall plane, plain_name plane = true ->
    LoadLocalAppliedState render_v2 state_root node_name (Some plane) files =
      Ok (recalls memory plane).1 /\
    LoadLocalAppliedGeneration state_root node_name (Some plane) files =
      Ok (recalls memory plane).2.

Lemma recalls_insert memory plane x plane' :
  recalls (<[plane := x]> memory) plane' = if decide (plane' = plane) then x else recalls memory plane'.
Proof.
  unfold recalls. destruct (decide (plane' = plane)) as [-> | Hne]; [by rewrite lookup_insert_eq|].
  by rewrite lookup_insert_ne.
Qed.

Lemma recalls_delete memory plane plane' :
  recalls (delete plane memory) plane' =
  if decide (plane' = plane) then (None, None) else recalls memory plane'.
Proof.
  unfold recalls. destruct (decide (plane' = plane)) as [-> | Hne]; [by rewrite lookup_delete_eq|].
  by rewrite lookup_delete_ne.
Qed.

Lemma load_state_ext path files files' :
  files' !! path = files !! path -> LoadStateFromPath render_v2 path files' = LoadStateFromPath render_v2 path files.
Proof. unfold LoadStateFromPath. by intros ->. Qed.

Lemma load_state_inserted path state text files :
  storable state -> SerializeDesiredStateJson state = Ok text ->
  LoadStateFromPath render_v2 path (<[path := text +:+ newline]> files) = Ok (Some state).
Proof.
  intros (Hok & Hn & Hr) Hs. unfold LoadStateFromPath. rewrite lookup_insert_eq.
  assert (DeserializeDesiredStateJson render_v2 (text +:+ newline) =
          DeserializeDesiredStateJson render_v2 text) as ->.
  { unfold DeserializeDesiredStateJson.
    pose proof (parse_dump _ _ (state_json_json_ok state Hok) Hs) as Hp.
    by rewrite (parse_newline _ _ Hp), Hp. }
  by rewrite (state_text_decode render_v2 state text).
Qed.

(** A write outside the planes changes nothing that is remembered. *)
Lemma holds_outside files files' memory :
  (forall rest, files' !! (plane_prefix state_root node_name +:+ rest) =
                files !! (plane_prefix state_root node_name +:+ rest)) ->
  holds files memory -> holds files' memory.
Proof.
  intros H [Hd Hr]. split.
  - intros plane. by rewrite (planes_outside _ _ files files' H).
  - intros plane Hp. destruct (Hr plane Hp) as [<- <-].
    cbv beta iota delta [LoadLocalAppliedState LoadLocalAppliedGeneration].
    rewrite local_plane_state_path, local_plane_generation_path by done.
    split; [apply load_state_ext | apply load_generation_ext]; apply H.
Qed.

Lemma aggregate_outside (path text : string) (files : Files) rest :
  path = LocalStatePath state_root node_name \/ path = LocalGenerationPath state_root node_name ->
  <[path := text]> files !! (plane_prefix state_root node_name +:+ rest) =
    files !! (plane_prefix state_root node_name +:+ rest) /\
  delete path files !! (plane_prefix state_root node_name +:+ rest) =
    files !! (plane_prefix state_root node_name +:+ rest).
Proof.
  rewrite local_state_path, local_generation_path. intros Hp.
  destruct (aggregate_not_plane state_root node_name rest) as [H1 H2].
  rewrite lookup_insert_ne, lookup_delete_ne by (destruct Hp as [-> | ->]; done). done.
Qed.

(** A write of one of the two files of a plane. *)
Lemma holds_insert plane file text files memory state g :
  plain_name plane = true -> holds files memory ->
  let files' := <[plane_prefix state_root node_name +:+ plane +:+ "/" +:+ file := text]> files in
  LoadLocalAppliedState render_v2 state_root node_name (Some plane) files' = Ok state ->
  LoadLocalAppliedGeneration state_root node_name (Some plane) files' = Ok g ->
  holds files' (<[plane := (state, g)]> memory).
Proof.
  intros Hp [Hd Hr] files' Hs Hg. split.
  - intros plane'. rewrite dom_insert, elem_of_union, elem_of_singleton.
    unfold files'. rewrite planes_insert by done. by rewrite Hd.
  - intros plane' Hp'. rewrite recalls_insert. destruct (decide (plane' = plane)) as [-> | Hne]; [done|].
    destruct (Hr plane' Hp') as [<- <-]. unfold files'.
    cbv beta iota delta [LoadLocalAppliedState LoadLocalAppliedGeneration].
    rewrite local_plane_state_path, local_plane_generation_path by done.
    split; [apply load_state_ext | apply load_generation_ext]; apply lookup_insert_ne;
      [change "/applied-state.json" with ("/" +:+ "applied-state.json")
      | change "/applied-generation.txt" with ("/" +:+ "applied-generation.txt")];
      intros E; apply plane_file_inj in E as [-> _]; done.
Qed.
Lemma rewrite_state_outside files files' r :
  RewriteAggregateLocalState render_v2 state_root node_name files = (files', r) ->
  forall rest, files' !! (plane_prefix state_root node_name +:+ rest) =
               files !! (plane_prefix state_root node_name +:+ rest).
Proof.
  unfold RewriteAggregateLocalState, WriteLocalStateFile. intros H rest.
  repeat case_match; simplify_eq; try done; apply aggregate_outside; by auto.
Qed.

Lemma rewrite_generation_outside files files' r :
  RewriteAggregateLocalGeneration state_root node_name files = (files', r) ->
  forall rest, files' !! (plane_prefix state_root node_name +:+ rest) =
               files !! (plane_prefix state_root node_name +:+ rest).
Proof.
  unfold RewriteAggregateLocalGeneration. intros H rest.
  repeat case_match; simplify_eq; try done; apply aggregate_outside; by auto.
Qed.

Lemma holds_forget plane files memory :
  plain_name plane = true -> holds files memory ->
  holds (RemoveLocalAppliedPlaneState state_root node_name plane files) (delete plane memory).
Proof.
  intros Hp [Hd Hr]. split.
  - intros plane'. rewrite dom_delete, elem_of_difference, elem_of_singleton, <-Hd.
    rewrite !elem_of_planes_file. split.
    + intros [Hp' [file Hl]]. rewrite removed_lookup in Hl by done.
      destruct (decide (plane' = plane)); [by destruct Hl|]. by eauto.
    + intros [[Hp' [file Hl]] Hne]. split; [done|]. exists file. rewrite removed_lookup by done.
      by rewrite decide_False.
  - intros plane' Hp'. rewrite recalls_delete.
    cbv beta iota delta [LoadLocalAppliedState LoadLocalAppliedGeneration].
    pose proof (removed_lookup state_root node_name plane plane' "applied-state.json" files Hp Hp') as H1.
    pose proof (removed_lookup state_root node_name plane plane' "applied-generation.txt" files Hp Hp') as H2.
    destruct (Hr plane' Hp') as [Hs Hg].
    cbv beta iota delta [LoadLocalAppliedState LoadLocalAppliedGeneration] in Hs, Hg.
    rewrite local_plane_state_path, local_plane_generation_path in * by done.
    change ("/" +:+ "applied-state.json") with "/applied-state.json" in H1.
    change ("/" +:+ "applied-generation.txt") with "/applied-generation.txt" in H2.
    destruct (decide (plane' = plane)) as [-> | Hne].
    + unfold LoadStateFromPath, LoadGenerationFromPath. by rewrite H1, H2.
    + rewrite <-Hs, <-Hg. split; [by apply load_state_ext | by apply load_generation_ext].
Qed.

Lemma holds_op op files files' memory :
  holds files memory -> op_ok op -> run_op op files = (files', Ok ()) -> holds files' (remember memory op).
Proof.
  intros Hh Hok H. destruct op as [plane state|plane g|plane| |]; cbn [run_op op_ok remember] in *.
  - destruct Hok as [Hp Hs]. unfold SaveLocalAppliedState, WriteLocalStateFile in H.
    destruct (SerializeDesiredStateJson state) as [text|] eqn:E; [|done]. injection H as <-.
    rewrite local_plane_state_path by done.
    apply (holds_insert plane "applied-state.json"); [done..| |].
    + cbv beta iota delta [LoadLocalAppliedState]. rewrite local_plane_state_path by done.
      by apply load_state_inserted.
    + rewrite <-(proj2 (proj2 Hh plane Hp)). cbv beta iota delta [LoadLocalAppliedGeneration].
      rewrite local_plane_generation_path by done. apply load_generation_ext, lookup_insert_ne.
      intros E'. by apply (plane_file_inj _ _ _ _ "applied-state.json" "applied-generation.txt") in E' as [_ ?].
  - destruct Hok as [Hp Hg]. injection H as <-. unfold SaveLocalAppliedGeneration.
    rewrite local_plane_generation_path by done.
    apply (holds_insert plane "applied-generation.txt"); [done..| |].
    + rewrite <-(proj1 (proj2 Hh plane Hp)). cbv beta iota delta [LoadLocalAppliedState].
      rewrite local_plane_state_path by done. apply load_state_ext, lookup_insert_ne.
      intros E'. by apply (plane_file_inj _ _ _ _ "applied-generation.txt" "applied-state.json") in E' as [_ ?].
    + cbv beta iota delta [LoadLocalAppliedGeneration]. rewrite local_plane_generation_path by done.
      by apply load_generation_inserted.
  - injection H as <-. by apply holds_forget.
  - eapply holds_outside; [|done]. by eapply rewrite_state_outside.
  - eapply holds_outside; [|done]. by eapply rewrite_generation_outside.
Qed.

Lemma holds_empty : holds ∅ ∅.
Proof.
  split.
  - intros plane. rewrite elem_of_planes_file, dom_empty. split; [|set_solver].
    intros [_ [file [text Hl]]]. by rewrite lookup_empty in Hl.
  - intros plane _. cbv beta iota delta [LoadLocalAppliedState LoadLocalAppliedGeneration].
    unfold LoadStateFromPath, LoadGenerationFromPath. by rewrite !lookup_empty.
Qed.

Lemma fold_generation_ext (load load' : string -> result (option Z)) planes :
  (forall p, p ∈ planes -> load' p = load p) -> forall g,
  foldR (fun generation p => n ← load' p; Ok (max_generation generation n)) g planes =
  foldR (fun generation p => n ← load p; Ok (max_generation generation n)) g planes.
Proof.
  intros Hp. induction planes as [|p planes IH]; intros g; [done|]. cbn [foldR].
  rewrite Hp by by left. destruct (load p) as [n|e]; [|done]. cbn. apply IH.
  intros p' Hp'. apply Hp. by right.
Qed.

Lemma fold_generation_ok (load : string -> result (option Z)) planes :
  (forall p, p ∈ planes -> exists n, load p = Ok n) -> forall g, exists g',
  foldR (fun generation p => n ← load p; Ok (max_generation generation n)) g planes = Ok g'.
Proof.
  intros Hp. induction planes as [|p planes IH]; intros g; [by exists g|]. cbn [foldR].
  destruct (Hp p) as [n ->]; [by left|]. cbn. apply IH. intros p' Hp'. apply Hp. by right.
Qed.

Lemma planes_generation_ok files memory :
  holds files memory -> exists g, planes_generation state_root node_name files = Ok g.
Proof.
  intros [_ Hr]. unfold planes_generation.
  apply (fold_generation_ok (fun p => LoadGenerationFromPath (LocalPlaneGenerationPath state_root node_name p) files)).
  intros p Hp%planes_plain. destruct (Hr p Hp) as [_ Hg]. by eexists.
Qed.

Lemma planes_generation_outside files files' :
  (forall rest, files' !! (plane_prefix state_root node_name +:+ rest) =
                files !! (plane_prefix state_root node_name +:+ rest)) ->
  planes_generation state_root node_name files' = planes_generation state_root node_name files.
Proof.
  intros Ho. unfold planes_generation. rewrite (planes_outside _ _ files files' Ho).
  apply (fold_generation_ext
    (fun p => LoadGenerationFromPath (LocalPlaneGenerationPath state_root node_name p) files)
    (fun p => LoadGenerationFromPath (LocalPlaneGenerationPath state_root node_name p) files')).
  intros p Hp%planes_plain. rewrite local_plane_generation_path by done. apply load_generation_ext, Ho.
Qed.

(** The aggregate file holds the greatest generation of the planes. *)
Lemma rewritten_generation files files' :
  RewriteAggregateLocalGeneration state_root node_name files = (files', Ok ()) ->
  LoadLocalAppliedGeneration state_root node_name None files' = planes_generation state_root node_name files.
Proof.
  intros H. pose proof (planes_generation_outside _ _ (rewrite_generation_outside _ _ _ H)) as Ho.
  unfold RewriteAggregateLocalGeneration in H. unfold LoadLocalAppliedGeneration. rewrite Ho.
  destruct (planes_generation state_root node_name files) as [[g|]|e] eqn:E; [| |done]; injection H as <-.
  - unfold SaveLocalAppliedGeneration. rewrite lookup_insert_eq. cbn [has_value].
    apply load_generation_inserted. by apply planes_generation_range in E.
  - unfold RemoveStateFileIfExists. by rewrite lookup_delete_eq.
Qed.

Lemma holds_greatest files memory g :
  holds files memory -> planes_generation state_root node_name files = Ok g ->
  greatest (fun p r => (recalls memory p).2 = r) (elements (dom memory)) g.
Proof.
  intros [Hd Hr] Hg%planes_generation_greatest.
  assert (forall p, p ∈ ListLocalPlaneNames state_root node_name files <-> p ∈ elements (dom memory)) as He
    by (intros p; by rewrite elem_of_elements, Hd).
  assert (forall p r, p ∈ elements (dom memory) ->
    LoadGenerationFromPath (LocalPlaneGenerationPath state_root node_name p) files = Ok r <->
    (recalls memory p).2 = r) as Hl.
  { intros p r Hp%He%planes_plain. destruct (Hr p Hp) as [_ Hp'].
    cbv beta iota delta [LoadLocalAppliedGeneration] in Hp'. rewrite Hp'. split; congruence. }
  destruct g as [g|]; cbn in *.
  - destruct Hg as [(p & Hp%He & Hpg) Hle]. split.
    + exists p. split; [done|]. by apply Hl.
    + intros p' g' Hp' E. apply (Hle p'); [by apply He | by apply Hl].
  - intros p Hp. apply Hl; [done|]. apply Hg. by apply He.
Qed.

End memory.

Lemma holds_ops `{Lib : !JsonLibrary} render_v2 state_root node_name ops files files' memory :
  holds render_v2 state_root node_name files memory -> Forall op_ok ops ->
  run_ops render_v2 state_root node_name ops files = (files', Ok ()) ->
  holds render_v2 state_root node_name files' (foldl remember memory ops).
Proof.
  intros Hh Hok. revert files memory Hh. induction Hok as [|op ops Hop Hok IH]; cbn; intros files memory Hh H.
  - by injection H as <-.
  - destruct (run_op render_v2 state_root node_name op files) as [files1 [[]|e]] eqn:E; [|done].
    eapply IH; [|done]. by eapply holds_op.
Qed.

(** ** Properties *)

(** C23. The files of a node are a map from planes to what was applied last.  After
    any sequence of calls that all succeed, of plain plane names, of states that can
    be read back (their numbers fit, they are in normal form, their target is
    resolved and the devices of a node are those of its memory table) and of
    generations that fit: saving a state or a generation has set that entry and no
    other, removing a plane has forgotten exactly that plane, rewriting the
    aggregates has forgotten nothing, and loading finds what the map holds.  The
    planes listed are those of the map. *)
Theorem local_memory_refines `{Lib : !JsonLibrary} render_v2 state_root node_name ops files files' memory :
  holds render_v2 state_root node_name files memory -> Forall op_ok ops ->
  run_ops render_v2 state_root node_name ops files = (files', Ok ()) ->
  holds render_v2 state_root node_name files' (foldl remember memory ops).
Proof. apply holds_ops. Qed.

(** Rewriting the aggregate generation never fails on files that hold a
    memory, and afterwards the node reports the greatest generation of its
    planes, or none when no plane has one. *)
Theorem aggregate_generation_greatest `{Lib : !JsonLibrary} render_v2 state_root node_name files memory :
  holds render_v2 state_root node_name files memory ->
  exists files' g,
    RewriteAggregateLocalGeneration state_root node_name files = (files', Ok ()) /\
    LoadLocalAppliedGeneration state_root node_name None files' = Ok g /\
    greatest (fun p r => (recalls memory p).2 = r) (elements (dom memory)) g /\
    holds render_v2 state_root node_name files' memory.
Proof.
  intros Hh. destruct (planes_generation_ok _ _ _ _ _ Hh) as [g Hg].
  destruct (RewriteAggregateLocalGeneration state_root node_name files) as [files' r] eqn:E.
  assert (r = Ok ()) as ->.
  { unfold RewriteAggregateLocalGeneration in E. rewrite Hg in E. by destruct g; injection E. }
  exists files', g. split; [done|]. split; [|split].
  - by rewrite (rewritten_generation _ _ _ _ E).
  - by eapply holds_greatest.
  - eapply holds_outside; [|exact Hh]. by eapply rewrite_generation_outside.
Qed.

(** ** Witnesses *)

Definition fx_ops : list local_op :=
  [SaveState "alpha" fx_decoded; SaveGeneration "alpha" 7; SaveGeneration "beta" 9;
   RewriteGeneration; Forget "beta"; RewriteState; RewriteGeneration].

Lemma fx_ops_ok : Forall op_ok fx_ops.
Proof.
  assert (storable fx_decoded) as Hs.
  { split; [vm_compute; reflexivity|]. split.
    - apply (decode_normal (Lib:=tree_json) no_render (canon fx_document));
        [vm_compute; reflexivity | exact fx_decoded_ok].
    - apply resolve_no_target; vm_compute; reflexivity. }
  repeat constructor; try exact Hs; by vm_compute.
Qed.

Lemma fx_ops_run : exists files,
  run_ops (Lib:=tree_json) no_render "/var/lib/naim" "node-a" fx_ops ∅ = (files, Ok ()).
Proof.
  assert (match run_ops (Lib:=tree_json) no_render "/var/lib/naim" "node-a" fx_ops ∅ with
          | (_, Ok _) => true | _ => false end = true) as H by (vm_compute; reflexivity).
  destruct (run_ops (Lib:=tree_json) no_render "/var/lib/naim" "node-a" fx_ops ∅) as [files [[]|e]];
    [by exists files | discriminate H].
Qed.

Lemma local_memory_refines_witness : exists files,
  run_ops (Lib:=tree_json) no_render "/var/lib/naim" "node-a" fx_ops ∅ = (files, Ok ()) /\
  LoadLocalAppliedState (Lib:=tree_json) no_render "/var/lib/naim" "node-a" (Some "alpha") files =
    Ok (Some fx_decoded) /\
  LoadLocalAppliedGeneration "/var/lib/naim" "node-a" (Some "beta") files = Ok None.
Proof.
  destruct fx_ops_run as [files H]. exists files. split; [exact H|].
  destruct (local_memory_refines (Lib:=tree_json) no_render "/var/lib/naim" "node-a" fx_ops ∅ files ∅
    (holds_empty no_render _ _) fx_ops_ok H) as [_ Hr].
  split; [apply (proj1 (Hr "alpha" eq_refl)) | apply (proj2 (Hr "beta" eq_refl))].
Defined.

Definition fx_generations : list local_op := [SaveGeneration "alpha" 7; SaveGeneration "beta" 5].
Definition fx_saved : Files := (run_ops (Lib:=tree_json) no_render "/var/lib/naim" "node-a" fx_generations ∅).1.

Lemma aggregate_generation_greatest_witness : exists files',
  RewriteAggregateLocalGeneration "/var/lib/naim" "node-a" fx_saved = (files', Ok ()) /\
  LoadLocalAppliedGeneration "/var/lib/naim" "node-a" None files' = Ok (Some 7).
Proof.
  assert (Forall op_ok fx_generations) as Hok by (repeat constructor; by vm_compute).
  pose proof (holds_ops (Lib:=tree_json) no_render "/var/lib/naim" "node-a" fx_generations ∅ fx_saved ∅
    (holds_empty no_render _ _) Hok eq_refl) as Hh.
  destruct (aggregate_generation_greatest (Lib:=tree_json) no_render "/var/lib/naim" "node-a" fx_saved
    _ Hh) as (files' & g & Hw & Hl & Hg & _).
  exists files'. split; [exact Hw|]. rewrite Hl. f_equal.
  assert (forallb (fun p => (p ==? "alpha") || (p ==? "beta"))
            (elements (dom (foldl remember ∅ fx_generations))) = true) as Hd by (vm_compute; reflexivity).
  assert (existsb (fun p => p ==? "alpha")
            (elements (dom (foldl remember ∅ fx_generations))) = true) as Ha by (vm_compute; reflexivity).
  apply existsb_exists in Ha as (a & Ha & ->%eqb_true). apply list_elem_of_In in Ha.
  destruct g as [g|]; cbn [greatest] in Hg.
  - destruct Hg as [(p & Hp & Hg) Hle]. specialize (Hle "alpha" 7 Ha eq_refl). f_equal.
    rewrite forallb_forall in Hd. apply list_elem_of_In in Hp. apply Hd in Hp.
    apply orb_true_iff in Hp as [->%eqb_true | ->%eqb_true];
      [|assert (Some 5 = Some g) as [= <-] by exact Hg; lia].
    by assert (Some 7 = Some g) as [= <-] by exact Hg.
  - discriminate (Hg "alpha" Ha).
Defined.
