(* ===== verification/HostPaths.v ===== *)
(** * Managed paths of a host

    [hostd/src/app/hostd_desired_state_path_support.cpp]: where the disks and
    control files of a desired state lie on the host, and the parts of
    [std::filesystem::path] it and the disk support need. *)

From S2P Require Import Prelude Binary64 Json Models Fixtures Paths InferRuntimeConfig ExecutionPlan.

(** ** [lexically_normal], [parent_path], [filename] *)

(** The names kept so far, the last first, and whether a separator follows. *)
Definition normal_step (absolute : bool) (acc : list string * bool) (name : string)
    : list string * bool :=
  let '(kept, trailing) := acc in
  if str_empty name || (name ==? ".") then (kept, negb (vec_empty kept))
  else if name ==? ".." then
    match kept with
    | [] => if absolute then ([], false) else ([".."], false)
    | last :: before =>
        if last ==? ".." then (".." :: kept, false) else (before, negb (vec_empty before))
    end
  else (name :: kept, false).

Definition lexically_normal (path : string) : string :=
  if str_empty path then ""
  else
    let absolute := path_is_absolute path in
    let names := if absolute then tail (path_elements path) else path_elements path in
    let '(kept, trailing) := foldl (normal_step absolute) ([], false) names in
    let trailing :=
      trailing && match kept with last :: _ => negb (last ==? "..") | [] => false end in
    let text := (if absolute then "/" else "") +:+ String.concat "/" (rev kept) +:+
                (if trailing then "/" else "") in
    if str_empty text then "." else text.

Example normal_1 : lexically_normal "/var//lib/./naim/../naim/x" = "/var/lib/naim/x".
Proof. reflexivity. Qed.
Example normal_2 : (lexically_normal "a/..", lexically_normal "a/b/..", lexically_normal "../a/../..",
                    lexically_normal "/../a", lexically_normal "a/b/.") = (".", "a/", "../..", "/a", "a/b/").
Proof. reflexivity. Qed.

Fixpoint drop_slashes (l : list Ascii.ascii) : list Ascii.ascii :=
  match l with
  | c :: l' => if bool_decide (c = "/"%char) then drop_slashes l' else l
  | [] => []
  end.
Fixpoint drop_name (l : list Ascii.ascii) : list Ascii.ascii :=
  match l with
  | c :: l' => if bool_decide (c = "/"%char) then l else drop_name l'
  | [] => []
  end.

Definition path_filename (path : string) : string :=
  let l := rev (list_of_string path) in
  string_of_list (rev (take (length l - length (drop_name l)) l)).

Definition parent_path (path : string) : string :=
  let parent := string_of_list (rev (drop_slashes (drop_name (rev (list_of_string path))))) in
  if str_empty parent && path_is_absolute path then "/" else parent.

Definition relative_path (path : string) : string :=
  string_of_list (drop_slashes (list_of_string path)).

Example parent_1 : (parent_path "/a/b", parent_path "/a", parent_path "/", parent_path "a/", parent_path "a")
                   = ("/a", "/", "/", "a", "").
Proof. reflexivity. Qed.
Example filename_1 : (path_filename "/a/b", path_filename "b", path_filename "/a/", path_filename "/")
                     = ("b", "b", "", "").
Proof. reflexivity. Qed.

(** ** The managed storage root *)

Definition kDefaultManagedStorageRoot : string := "/var/lib/naim".

Definition HasPathPrefix (path prefix : string) : bool :=
  let path_text := lexically_normal path in
  let prefix_text := lexically_normal prefix in
  (path_text ==? prefix_text) || starts_with (prefix_text +:+ "/") path_text.

Definition RebaseManagedStorageRoot (path storage_root : string) : string :=
  if negb (path_is_absolute path) then path
  else if negb (HasPathPrefix path kDefaultManagedStorageRoot) then path
  else if lexically_normal storage_root ==? lexically_normal kDefaultManagedStorageRoot then path
  else path_append storage_root (lexically_relative path kDefaultManagedStorageRoot).

Definition RebaseManagedPath (path storage_root : string) (runtime_root node_name : option string)
    : string :=
  let storage_rebased := RebaseManagedStorageRoot path storage_root in
  match runtime_root with
  | None => storage_rebased
  | Some base =>
      let rebased :=
        if path_is_absolute storage_rebased then path_append base (relative_path storage_rebased)
        else path_append base storage_rebased in
      match node_name with
      | Some name =>
          if negb (str_empty name)
          then path_append (path_append (path_append base "nodes") name)
                 (lexically_relative rebased base)
          else rebased
      | None => rebased
      end
  end.

Definition rebase_disk (storage_root : string) (runtime_root : option string) (disk : DiskSpec)
    : DiskSpec :=
  {| disk_name := disk_name disk;
     disk_kind := disk_kind disk;
     disk_plane_name := disk_plane_name disk;
     disk_owner_name := disk_owner_name disk;
     disk_node_name := disk_node_name disk;
     disk_host_path :=
       RebaseManagedPath (disk_host_path disk) storage_root runtime_root
         (if IsNodeLocalDiskKind (disk_kind disk) then Some (disk_node_name disk) else None);
     disk_container_path := disk_container_path disk;
     disk_size_gb := disk_size_gb disk |}.

Definition rebase_mount (storage_root : string) (runtime_root : option string) (node_name : string)
    (mount : AppModelMountSpec) : AppModelMountSpec :=
  {| mount_name := mount_name mount;
     mount_source_path := mount_source_path mount;
     mount_source_node_name := mount_source_node_name mount;
     mount_source_paths := mount_source_paths mount;
     mount_host_path :=
       RebaseManagedPath (mount_host_path mount) storage_root runtime_root (Some node_name);
     mount_mount_path := mount_mount_path mount;
     mount_env_var := mount_env_var mount;
     mount_required := mount_required mount |}.

Definition rebase_instance (storage_root : string) (runtime_root : option string)
    (instance : InstanceSpec) : InstanceSpec :=
  mkInstanceSpec (inst_name instance) (inst_role instance) (inst_plane_name instance)
    (inst_node_name instance) (inst_image instance) (inst_command instance)
    (inst_private_disk_name instance) (inst_shared_disk_name instance) (inst_depends_on instance)
    (inst_environment instance) (inst_labels instance) (inst_published_ports instance)
    (inst_gpu_device instance) (inst_placement_mode instance) (inst_share_mode instance)
    (inst_gpu_fraction instance) (inst_priority instance) (inst_preemptible instance)
    (inst_memory_cap_mb instance) (inst_private_disk_size_gb instance)
    (rebase_mount storage_root runtime_root (inst_node_name instance) <$>
       inst_app_model_mounts instance).

Definition RebaseStateForRuntimeRoot (state : DesiredState) (storage_root : string)
    (runtime_root : option string) : DesiredState :=
  if negb (has_value runtime_root) && (storage_root ==? kDefaultManagedStorageRoot) then state
  else
    {| ds_plane_name := ds_plane_name state;
       ds_plane_shared_disk_name := ds_plane_shared_disk_name state;
       ds_control_root := ds_control_root state;
       ds_plane_mode := ds_plane_mode state;
       ds_protected_plane := ds_protected_plane state;
       ds_post_deploy_script := ds_post_deploy_script state;
       ds_placement_target := ds_placement_target state;
       ds_bootstrap_model := ds_bootstrap_model state;
       ds_interaction := ds_interaction state;
       ds_skills := ds_skills state;
       ds_browsing := ds_browsing state;
       ds_knowledge := ds_knowledge state;
       ds_turboquant := ds_turboquant state;
       ds_context_compression := ds_context_compression state;
       ds_voice_listener := ds_voice_listener state;
       ds_voice_maker := ds_voice_maker state;
       ds_secured_connection := ds_secured_connection state;
       ds_app_host := ds_app_host state;
       ds_inference := ds_inference state;
       ds_worker_group := ds_worker_group state;
       ds_gateway := ds_gateway state;
       ds_runtime_gpu_nodes := ds_runtime_gpu_nodes state;
       ds_nodes := ds_nodes state;
       ds_disks := rebase_disk storage_root runtime_root <$> ds_disks state;
       ds_instances := rebase_instance storage_root runtime_root <$> ds_instances state |}.

(** ** Control files *)

Definition FindSharedDiskForNode (state : DesiredState) (node_name : string) : option DiskSpec :=
  find_if (fun disk => (disk_node_name disk ==? node_name) && (disk_kind disk ==? PlaneShared))
    (ds_disks state).

Definition ControlFilePathForNode (state : DesiredState) (node_name file_name : string)
    : option string :=
  match FindSharedDiskForNode state node_name with
  | None => None
  | Some shared_disk =>
      Some (path_append (path_append (disk_host_path shared_disk)
              (relative_control_path state (disk_container_path shared_disk))) file_name)
  end.

Definition InferRuntimeConfigPathForNode (state : DesiredState) (node_name : string) : option string :=
  ControlFilePathForNode state node_name "infer-runtime.json".

Definition DesiredStateSnapshotPathForNode (state : DesiredState) (node_name : string) : option string :=
  ControlFilePathForNode state node_name "desired-state.v2.json".

Definition PrimaryInferInstanceForNode (state : DesiredState) (node_name : string)
    : option InstanceSpec :=
  find_if (fun instance => (inst_role instance ==? Infer) && (inst_node_name instance ==? node_name))
    (ds_instances state).

Definition InferRuntimeStatusPathForInstance (state : DesiredState) (infer_instance : InstanceSpec)
    : option string :=
  if (inst_role infer_instance !=? Infer) || str_empty (inst_name infer_instance) then None
  else ControlFilePathForNode state (inst_node_name infer_instance)
         (InferRuntimeStatusRelativePath (inst_name infer_instance)).

Definition RuntimeStatusPathForNode (state : DesiredState) (node_name : string) : option string :=
  match PrimaryInferInstanceForNode state node_name with
  | Some infer => InferRuntimeStatusPathForInstance state infer
  | None => ControlFilePathForNode state node_name "runtime-status.json"
  end.

Definition SharedDiskHostPathForContainerPath (shared_disk : DiskSpec)
    (container_path fallback_relative_path : string) : string :=
  let shared_text := disk_container_path shared_disk in
  let relative_path :=
    if negb (str_empty container_path) && path_is_absolute shared_text &&
       path_is_absolute container_path then
      if container_path ==? shared_text then "."
      else if starts_with (shared_text +:+ "/") container_path
      then lexically_relative container_path shared_text
      else fallback_relative_path
    else fallback_relative_path in
  path_append (disk_host_path shared_disk) relative_path.

Example rebase_1 : RebaseManagedPath "/var/lib/naim/disks/a" "/mnt/data" None None = "/mnt/data/disks/a".
Proof. reflexivity. Qed.
Example rebase_2 :
  RebaseManagedPath "/var/lib/naim/disks/a" "/var/lib/naim" (Some "/tmp/rt") (Some "node-a") =
  "/tmp/rt/nodes/node-a/var/lib/naim/disks/a".
Proof. reflexivity. Qed.
