(* ===== verification/HostCommands.v ===== *)
(** * Commands of the host daemon

    The world a host daemon acts on, and the supports that run commands in it:
    [hostd_command_support.cpp], [hostd_file_support.cpp],
    [hostd_repo_root_support.cpp] and [hostd_compose_runtime_support.cpp] of
    [hostd/src/app].

    Text files are a map, as in [HostLocalState].  What lies outside the program,
    the processes it starts, devices, mounts and directories, is a [HostOs]: any
    function from a command to an exit code or an output and to what the command
    leaves behind.  Every command run is recorded in [w_log] together with the
    files it saw. *)

From S2P Require Import Prelude Binary64 Json Models Fixtures Planner Paths ControllerStore InferRuntimeConfig HostLocalState HostPaths.

(** ** The world *)

(** The operating system and the programs installed on it. *)
Class HostOs := {
  os : Type;
  os_system : string -> Files -> os -> Z * Files * os;
  os_popen : string -> Files -> os -> option string * Files * os;
  os_exists : string -> Files -> os -> bool;
  os_weakly_canonical : string -> Files -> os -> option string;
  os_mounts : os -> option string;
  os_resize_file : string -> Z -> Files -> os -> result (Files * os);
  os_remove_all : string -> Files -> os -> Files * os * option (bool * string);
  os_sleep : Z -> Files -> os -> Files * os;
  os_elevated : bool;
  os_platform : string;
  os_clock : os -> Z;
  os_steady_clock : os -> Z;
  os_current_path : os -> option string;
  os_executable_path : string;
}.

Inductive ComposeMode := Skip | Exec.
#[export] Instance ComposeMode_eq_dec : EqDecision ComposeMode.
Proof. solve_decision. Defined.

(** A command with the files it saw, and its exit code or its output. *)
Inductive event :=
  | Ran (command : string) (files : Files) (code : Z)
  | Captured (command : string) (files : Files) (output : string).

Section world.
Context `{Os : !HostOs}.

(** [w_docker], [w_docker_compose] and [w_ensured_images] are the function-local
    statics of the supports; [w_store] is the controller's database, which a
    local back end shares.  [w_outside] lists the files before and after each step
    in which the world outside the program acted: a command, a pause, the resizing
    of an image, the removal of a directory. *)
Record World := mkWorld {
  w_files : Files;
  w_os : os;
  w_store : ControllerStore;
  w_docker : option string;
  w_docker_compose : option string;
  w_ensured_images : gset string;
  w_log : list event;
  w_outside : list (Files * Files);
}.

Definition with_files (files : Files) (w : World) : World :=
  mkWorld files (w_os w) (w_store w) (w_docker w) (w_docker_compose w) (w_ensured_images w) (w_log w) (w_outside w).
Definition with_store (store : ControllerStore) (w : World) : World :=
  mkWorld (w_files w) (w_os w) store (w_docker w) (w_docker_compose w) (w_ensured_images w) (w_log w) (w_outside w).
Definition with_docker (docker : string) (w : World) : World :=
  mkWorld (w_files w) (w_os w) (w_store w) (Some docker) (w_docker_compose w) (w_ensured_images w) (w_log w)
    (w_outside w).
Definition with_docker_compose (compose : string) (w : World) : World :=
  mkWorld (w_files w) (w_os w) (w_store w) (w_docker w) (Some compose) (w_ensured_images w) (w_log w) (w_outside w).
Definition with_ensured (images : gset string) (w : World) : World :=
  mkWorld (w_files w) (w_os w) (w_store w) (w_docker w) (w_docker_compose w) images (w_log w) (w_outside w).
(** A step of the outside, and one that is a command. *)
Definition with_os (files : Files) (o : os) (w : World) : World :=
  mkWorld files o (w_store w) (w_docker w) (w_docker_compose w) (w_ensured_images w) (w_log w)
    (w_outside w ++ [(w_files w, files)]).
Definition after (e : event) (files : Files) (o : os) (w : World) : World :=
  mkWorld files o (w_store w) (w_docker w) (w_docker_compose w) (w_ensured_images w) (w_log w ++ [e])
    (w_outside w ++ [(w_files w, files)]).

(** Programs of the daemon: what they did before a throw stays done. *)
Definition hprog (A : Type) : Type := World -> World * result A.
#[global] Instance hprog_ret : MRet hprog := fun A a w => (w, Ok a).
#[global] Instance hprog_bind : MBind hprog := fun A B f m w =>
  match m w with
  | (w', Ok a) => f a w'
  | (w', Throw e) => (w', Throw e)
  end.
Definition hthrow {A} (message : string) : hprog A := fun w => (w, Throw message).
Definition hlift {A} (r : result A) : hprog A := fun w => (w, r).
Definition hread {A} (f : World -> A) : hprog A := fun w => (w, Ok (f w)).
(** Reading files, which may throw. *)
Definition hload {A} (f : Files -> result A) : hprog A := fun w => (w, f (w_files w)).
Definition hmodify (f : World -> World) : hprog unit := fun w => (f w, Ok ()).
Definition hwhen (b : bool) (m : hprog unit) : hprog unit := if b then m else mret ().
Fixpoint hfor {A} (l : list A) (f : A -> hprog unit) : hprog unit :=
  match l with
  | [] => mret ()
  | x :: l' => f x ≫= fun _ => hfor l' f
  end.
(** [try { m } catch (const std::exception& error) { handler(error.what()) }] *)
Definition htry {A} (m : hprog A) (handler : string -> hprog A) : hprog A := fun w =>
  match m w with
  | (w', Throw e) => handler e w'
  | done => done
  end.

(** [std::filesystem::exists] *)
Definition path_exists (path : string) (w : World) : bool :=
  has_value (w_files w !! path) || os_exists path (w_files w) (w_os w).

(** [std::system] and [popen]. *)
Definition system (command : string) : hprog Z := fun w =>
  let '(code, files, o) := os_system command (w_files w) (w_os w) in
  (after (Ran command (w_files w) code) files o w, Ok code).

Definition RunCommandCapture (command : string) : hprog string := fun w =>
  let '(output, files, o) := os_popen command (w_files w) (w_os w) in
  (after (Captured command (w_files w) (default "" output)) files o w, Ok (default "" output)).

(** [std::this_thread::sleep_for], in milliseconds: the other processes go on. *)
Definition sleep_for (milliseconds : Z) : hprog unit := fun w =>
  let '(files, o) := os_sleep milliseconds (w_files w) (w_os w) in (with_os files o w, Ok ()).

Definition RunCommandOk (command : string) : hprog bool :=
  code ← system command; mret (code =? 0).

(** ** [hostd_command_support.cpp] *)

Definition Trim (value : string) : string :=
  string_of_list (rev (skip_spaces (rev (skip_spaces (list_of_string value))))).

Fixpoint quoted_chars (value : string) : string :=
  match value with
  | EmptyString => ""
  | String c rest =>
      if bool_decide (c = "'"%char) then "'" +:+ quote +:+ "'" +:+ quote +:+ "'" +:+ quoted_chars rest
      else String c (quoted_chars rest)
  end.
Definition ShellQuote (value : string) : string := "'" +:+ quoted_chars value +:+ "'".

Definition windows_docker : string := "/mnt/c/Program Files/Docker/Docker/resources/bin/docker.exe".

Definition ResolvedDockerCommand : hprog string :=
  resolved ← hread w_docker;
  match resolved with
  | Some docker => mret docker
  | None =>
      docker ←
        (code ← system "docker version >/dev/null 2>&1";
         if code =? 0 then mret "docker"
         else
           found ← hread (path_exists windows_docker);
           if negb found then mret "docker"
           else
             code ← system ("'" +:+ windows_docker +:+ "' version >/dev/null 2>&1");
             mret (if code =? 0 then "'" +:+ windows_docker +:+ "'" else "docker"));
      hmodify (with_docker docker) ≫= fun _ => mret docker
  end.

Definition ResolvedDockerComposeCommand : hprog string :=
  resolved ← hread w_docker_compose;
  match resolved with
  | Some compose => mret compose
  | None =>
      docker ← ResolvedDockerCommand;
      ok ← RunCommandOk (docker +:+ " compose version >/dev/null 2>&1");
      compose ←
        (if ok : bool then mret (docker +:+ " compose")
         else
           ok ← RunCommandOk "command -v docker-compose >/dev/null 2>&1";
           mret (if ok : bool then "docker-compose" else docker +:+ " compose"));
      hmodify (with_docker_compose compose) ≫= fun _ => mret compose
  end.

(** ** [hostd_file_support.cpp] *)

Definition WriteTextFile (path contents : string) : hprog unit :=
  hmodify (fun w => with_files (<[path := contents]> (w_files w)) w).

Definition RemoveFileIfExists (path : string) : hprog unit :=
  hmodify (fun w => with_files (delete path (w_files w)) w).

(** ** [hostd_repo_root_support.cpp] *)

Definition LooksLikeNaimRepoRoot (path : string) (w : World) : bool :=
  path_exists (path_append (path_append path "scripts") "build-runtime-images.sh") w &&
  path_exists (path_append (path_append (path_append path "runtime") "base") "Dockerfile") w.

(** The walk to the root: a parent is shorter, so the length of the path bounds it. *)
Fixpoint walk_up (accept : string -> option string) (fuel : nat) (current : string) : option string :=
  match fuel with
  | O => None
  | S fuel' =>
      if str_empty current then None
      else
        match accept current with
        | Some found => Some found
        | None =>
            let parent := parent_path current in
            if str_empty parent || (parent ==? current) then None else walk_up accept fuel' parent
        end
  end.

Definition FindRepoRootFromPath (current : string) (w : World) : option string :=
  walk_up (fun path => if LooksLikeNaimRepoRoot path w then Some path else None)
    (S (String.length current)) current.

Definition FindRepoRootInSiblingRepos (current : string) (w : World) : option string :=
  walk_up (fun path =>
    let candidate := path_append (path_append path "repos") "naim-node" in
    if LooksLikeNaimRepoRoot candidate w then Some candidate else None)
    (S (String.length current)) current.

Definition DetectNaimRepoRootNear (start : string) (w : World) : option string :=
  match FindRepoRootFromPath start w with
  | Some root => Some root
  | None => FindRepoRootInSiblingRepos start w
  end.

Definition StripBundlePrefixIfPresent (value : string) : string :=
  if starts_with "bundle://" value
  then String.substring 9 (String.length value - 9) value else value.

Definition DetectNaimRepoRoot (w : World) : option string :=
  match os_current_path (w_os w) ≫= (fun cwd => DetectNaimRepoRootNear cwd w) with
  | Some root => Some root
  | None =>
      if str_empty os_executable_path then None
      else DetectNaimRepoRootNear (parent_path os_executable_path) w
  end.

Definition ResolvePlaneOwnedPath (state : DesiredState) (relative_path artifacts_root : string)
    (w : World) : option string :=
  let input := StripBundlePrefixIfPresent relative_path in
  if str_empty input then None
  else if path_is_absolute input then
    if path_exists input w then Some (lexically_normal input) else None
  else
    let candidates :=
      option_list ((fun cwd => path_append cwd input) <$> os_current_path (w_os w)) ++
      (if str_empty artifacts_root then []
       else [path_append (path_append artifacts_root (ds_plane_name state)) input]) ++
      match DetectNaimRepoRoot w with
      | Some root => [path_append root input;
                      path_append (path_append (parent_path root) (ds_plane_name state)) input]
      | None => []
      end in
    lexically_normal <$> find_if (fun candidate => path_exists candidate w) candidates.

(** ** [hostd_compose_runtime_support.cpp] *)

Definition PlaneMeshNetworkName (plane_name : string) : string := "naim-" +:+ plane_name +:+ "-mesh".

Definition ComposeProjectHasContainers (compose_file_path : string) : hprog bool :=
  compose ← ResolvedDockerComposeCommand;
  output ← RunCommandCapture (compose +:+ " -f " +:+ ShellQuote compose_file_path +:+
                              " ps -a --quiet 2>/dev/null");
  mret (negb (forallb (fun c => existsb (Ascii.eqb c) [" "; "009"; "013"; "010"]%char)
                (list_of_string output))).

Definition EnsureComposeMeshNetworkAvailable (compose_plan : NodeComposePlan)
    (compose_mode : ComposeMode) : hprog unit :=
  if compose_mode !=? Exec then mret ()
  else
    let network_name := PlaneMeshNetworkName (ncp_plane_name compose_plan) in
    docker ← ResolvedDockerCommand;
    inspected ← RunCommandOk (docker +:+ " network inspect " +:+ ShellQuote network_name +:+
                              " >/dev/null 2>&1");
    if inspected : bool then mret ()
    else
      created ← RunCommandOk (docker +:+ " network create " +:+ ShellQuote network_name +:+
                              " >/dev/null");
      if created : bool then mret ()
      else hthrow ("failed to create compose mesh network: " +:+ network_name).

Definition RemoveComposeMeshNetworkIfUnused (plane_name : string) (compose_mode : ComposeMode)
    : hprog unit :=
  if compose_mode !=? Exec then mret ()
  else
    let network_name := PlaneMeshNetworkName plane_name in
    docker ← ResolvedDockerCommand;
    inspected ← RunCommandOk (docker +:+ " network inspect " +:+ ShellQuote network_name +:+
                              " >/dev/null 2>&1");
    if negb inspected then mret ()
    else
      output ← RunCommandCapture (docker +:+ " network inspect " +:+ ShellQuote network_name +:+
                                  " --format '{{len .Containers}}' 2>/dev/null");
      let attached_count := Trim output in
      if negb (str_empty attached_count) && (attached_count !=? "0") then mret ()
      else
        RunCommandOk (docker +:+ " network rm " +:+ ShellQuote network_name +:+ " >/dev/null 2>&1")
        ≫= fun _ => mret ().

(** The subcommand that is run: [up] also recreates the containers. *)
Definition effective_subcommand (subcommand : string) : string :=
  if subcommand ==? "up -d" then subcommand +:+ " --remove-orphans --force-recreate" else subcommand.

Definition RunComposeCommand (compose_file_path subcommand : string) (compose_mode : ComposeMode)
    : hprog unit :=
  if compose_mode ==? Skip then mret ()
  else
    compose ← ResolvedDockerComposeCommand;
    let command := compose +:+ " -f " +:+ ShellQuote compose_file_path +:+ " " +:+
                   effective_subcommand subcommand in
    rc ← system command;
    if rc =? 0 then mret ()
    else
      has_containers ← (if subcommand ==? "down" then ComposeProjectHasContainers compose_file_path
                        else mret true);
      if (subcommand ==? "down") && negb has_containers then mret ()
      else hthrow ("compose command failed with exit code " +:+ to_string rc +:+ ": " +:+ command).

Definition DockerImageExists (image : string) : hprog bool :=
  docker ← ResolvedDockerCommand;
  RunCommandOk (docker +:+ " image inspect " +:+ ShellQuote image +:+ " >/dev/null 2>&1").

Definition under_dir (root : string) (names : list string) : string := foldl path_append root names.

Definition TurboQuantRuntimeBinaryExists (repo_root image : string) (w : World) : bool :=
  let bin := under_dir repo_root ["build-turboquant"; "linux"; "x64"; "bin"] in
  if image ==? "naim/infer-runtime:dev" then path_exists (path_append bin "llama-server") w
  else if image ==? "naim/worker-runtime:dev" then path_exists (path_append bin "rpc-server") w
  else true.

Definition LocalRuntimeBinaryExists (repo_root image : string) (w : World) : bool :=
  let build := under_dir repo_root ["build"; "linux"; "x64"] in
  if image ==? "naim/infer-runtime:dev" then
    path_exists (path_append build "naim-inferctl") w && TurboQuantRuntimeBinaryExists repo_root image w
  else if image ==? "naim/worker-runtime:dev" then
    path_exists (path_append build "naim-workerd") w && TurboQuantRuntimeBinaryExists repo_root image w
  else if image ==? "naim/skills-runtime:dev" then path_exists (path_append build "naim-skillsd") w
  else if image ==? "naim/webgateway-runtime:dev" then
    path_exists (path_append build "naim-webgatewayd") w
  else if image ==? "naim/interaction-runtime:dev" then
    path_exists (path_append build "naim-interactiond") w
  else true.

Definition EnsureLocalRuntimeBinary (repo_root image : string) (force_rebuild : bool) : hprog unit :=
  present ← hread (LocalRuntimeBinaryExists repo_root image);
  if negb force_rebuild && present then mret ()
  else
    let build_script := under_dir repo_root ["scripts"; "build-target.sh"] in
    script ← hread (path_exists build_script);
    if negb script then
      hthrow "runtime image requires local binary, but build-target.sh is unavailable"
    else
      built ← RunCommandOk ("cd " +:+ ShellQuote repo_root +:+ " && " +:+ ShellQuote build_script +:+
                            " linux x64 Debug");
      if negb built then
        hthrow ("failed to auto-build local naim binaries required for " +:+ image)
      else
        turboquant ← hread (TurboQuantRuntimeBinaryExists repo_root image);
        (if turboquant : bool then mret ()
         else
           let turboquant_script := under_dir repo_root ["scripts"; "build-turboquant-runtime.sh"] in
           script ← hread (path_exists turboquant_script);
           if negb script then
             hthrow ("runtime image requires turboquant binary, but " +:+
                     "build-turboquant-runtime.sh is unavailable")
           else
             built ← RunCommandOk ("cd " +:+ ShellQuote repo_root +:+ " && " +:+
                                   ShellQuote turboquant_script +:+ " linux x64 Debug");
             if negb built then
               hthrow ("failed to auto-build local turboquant binaries required for " +:+ image)
             else mret ())
        ≫= fun _ =>
          present ← hread (LocalRuntimeBinaryExists repo_root image);
          if negb present then
            hthrow ("local runtime binary is still missing after build for " +:+ image)
          else mret ().

(** [docker build] of one image. *)
Definition docker_build (docker options dockerfile image repo_root : string) : hprog unit :=
  built ← RunCommandOk (docker +:+ options +:+ ShellQuote dockerfile +:+ " -t " +:+
                        ShellQuote image +:+ " " +:+ ShellQuote repo_root);
  if built : bool then mret () else hthrow ("failed to auto-build " +:+ image).

(** The Dockerfile of each runtime image. *)
Definition runtime_dockerfile (image : string) : option string :=
  if image ==? "naim/infer-runtime:dev" then Some "runtime/infer/Dockerfile"
  else if image ==? "naim/worker-runtime:dev" then Some "runtime/worker/Dockerfile"
  else if image ==? "naim/skills-runtime:dev" then Some "runtime/skills/Dockerfile"
  else if image ==? "naim/webgateway-runtime:dev" then Some "runtime/browsing/Dockerfile"
  else if image ==? "naim/interaction-runtime:dev" then Some "runtime/interaction/Dockerfile"
  else None.

Definition BuildNaimRuntimeImage (repo_root image : string) : hprog unit :=
  docker ← ResolvedDockerCommand;
  let build_base :=
    docker_build docker " build -f " (under_dir repo_root ["runtime"; "base"; "Dockerfile"])
      "naim/base-runtime:dev" repo_root in
  if image ==? "naim/base-runtime:dev" then build_base
  else
    match runtime_dockerfile image with
    | Some dockerfile =>
        base ← DockerImageExists "naim/base-runtime:dev";
        hwhen (negb base) build_base ≫= fun _ =>
        EnsureLocalRuntimeBinary repo_root image true ≫= fun _ =>
        docker_build docker " build  -f " (path_append repo_root dockerfile) image repo_root
    | None =>
        if image ==? "naim/web-ui:dev" then
          docker_build docker " build -f " (under_dir repo_root ["runtime"; "web-ui"; "Dockerfile"])
            image repo_root
        else hthrow ("unsupported auto-build image '" +:+ image +:+ "'")
    end.

Definition ends_with (suffix text : string) : bool :=
  (String.length suffix <=? String.length text)%nat &&
  (String.substring (String.length text - String.length suffix) (String.length suffix) text ==? suffix).

Definition remember_image (image : string) : hprog unit :=
  hmodify (fun w => with_ensured ({[image]} ∪ w_ensured_images w) w).

(** The image is there already, or is pulled. *)
Definition pull_image (image : string) : hprog unit :=
  ensured ← hread (fun w => bool_decide (image ∈ w_ensured_images w));
  exists_already ← (if ensured : bool then mret true else DockerImageExists image);
  if exists_already : bool then remember_image image
  else
    docker ← ResolvedDockerCommand;
    pulled ← RunCommandOk (docker +:+ " pull " +:+ ShellQuote image);
    if negb pulled then
      hthrow ("required runtime image is unavailable locally and auto-build/pull failed: " +:+ image)
    else
      present ← DockerImageExists image;
      if negb present then
        hthrow ("required runtime image is still unavailable after pull: " +:+ image)
      else remember_image image.

Definition EnsureRuntimeImageAvailable (image : string) : hprog unit :=
  if str_empty image then mret ()
  else
    root ← (if starts_with "naim/" image && ends_with ":dev" image then hread DetectNaimRepoRoot
            else mret None);
    match root with
    | Some repo_root =>
        BuildNaimRuntimeImage repo_root image ≫= fun _ =>
        built ← DockerImageExists image;
        if built : bool then remember_image image else pull_image image
    | None => pull_image image
    end.

Definition EnsureComposeImagesAvailable (compose_plan : NodeComposePlan) (compose_mode : ComposeMode)
    : hprog unit :=
  if compose_mode !=? Exec then mret ()
  else
    hfor (set_items (list_to_set (List.filter (fun image => negb (str_empty image))
                                    (svc_image <$> ncp_services compose_plan))))
      EnsureRuntimeImageAvailable.

End world.

(** ** How a shell reads a word

    Token recognition of the POSIX shell, on the quoting the daemon uses: inside
    single quotes every character stands for itself, inside double quotes all but
    [$], the backquote, the backslash and the double quote.  [None] is a word whose
    value depends on more than its text, or that has no end. *)

Inductive quoting := Unquoted | SingleQuoted | DoubleQuoted.

Definition one_of (chars : list Ascii.ascii) (c : Ascii.ascii) : bool := existsb (Ascii.eqb c) chars.
Definition ends_word : Ascii.ascii -> bool :=
  one_of [" "; "009"; "010"; "|"; "&"; ";"; "<"; ">"; "("; ")"]%char.
Definition expands : Ascii.ascii -> bool := one_of ["$"; "`"; "092"]%char.
Definition matches_names : Ascii.ascii -> bool := one_of ["*"; "?"; "["; "~"; "#"; "{"]%char.

Fixpoint sh_word (q : quoting) (l : list Ascii.ascii) : option (list Ascii.ascii * list Ascii.ascii) :=
  let keep c l' q := option_map (fun '(word, rest) => (c :: word, rest)) (sh_word q l') in
  match l with
  | [] => match q with Unquoted => Some ([], []) | _ => None end
  | c :: l' =>
      match q with
      | SingleQuoted => if Ascii.eqb c "'" then sh_word Unquoted l' else keep c l' SingleQuoted
      | DoubleQuoted =>
          if Ascii.eqb c "034" then sh_word Unquoted l'
          else if expands c then None else keep c l' DoubleQuoted
      | Unquoted =>
          if ends_word c then Some ([], l)
          else if Ascii.eqb c "'" then sh_word SingleQuoted l'
          else if Ascii.eqb c "034" then sh_word DoubleQuoted l'
          else if expands c || matches_names c then None
          else keep c l' Unquoted
      end
  end.

(** [command.c_str()]: a C string ends at a null character. *)
Fixpoint c_str (l : list Ascii.ascii) : list Ascii.ascii :=
  match l with
  | c :: l' => if Ascii.eqb c "000" then [] else c :: c_str l'
  | [] => []
  end.
Definition no_nul (l : list Ascii.ascii) : bool := forallb (fun c => negb (Ascii.eqb c "000")) l.

Lemma c_str_no_nul l l' : no_nul l = true -> c_str (l ++ l') = l ++ c_str l'.
Proof.
  induction l as [|c l IH]; [done|]. cbn. intros [Hc Hl]%andb_true_iff. apply negb_true_iff in Hc.
  rewrite Hc. f_equal. by apply IH.
Qed.

Lemma no_nul_quoted value :
  no_nul (list_of_string value) = true -> no_nul (list_of_string (ShellQuote value)) = true.
Proof.
  intros H. unfold ShellQuote. rewrite !list_of_string_app. unfold no_nul in *. rewrite !forallb_app. cbn.
  rewrite andb_true_r. induction value as [|c value IH]; [done|]. cbn in H. apply andb_true_iff in H as [Hc H].
  cbn [quoted_chars]. case_bool_decide.
  - rewrite !list_of_string_app, !forallb_app. cbn. by apply IH.
  - cbn. rewrite Hc. by apply IH.
Qed.

(** The value and the closing quote, read from inside single quotes. *)
Lemma sh_word_quoted value rest :
  sh_word SingleQuoted (list_of_string (quoted_chars value) ++ "'"%char :: rest) =
  option_map (fun '(word, rest) => (list_of_string value ++ word, rest)) (sh_word Unquoted rest).
Proof.
  induction value as [|c value IH]; cbn [list_of_string quoted_chars app].
  - cbn. by destruct (sh_word Unquoted rest) as [[??]|].
  - case_bool_decide as Hq.
    + subst c. rewrite !list_of_string_app.
      change (list_of_string "'") with ["'"%char]. change (list_of_string quote) with ["034"%char].
      cbn [app sh_word]. cbn -[sh_word quoted_chars list_of_string]. rewrite IH.
      by destruct (sh_word Unquoted rest) as [[??]|].
    + cbn [list_of_string app sh_word].
      destruct (Ascii.eqb_spec c "'"%char); [done|]. rewrite IH.
      by destruct (sh_word Unquoted rest) as [[??]|].
Qed.

Lemma sh_word_shell_quote value rest :
  sh_word Unquoted (list_of_string (ShellQuote value) ++ rest) =
  option_map (fun '(word, rest) => (list_of_string value ++ word, rest)) (sh_word Unquoted rest).
Proof.
  unfold ShellQuote. rewrite !list_of_string_app. change (list_of_string "'") with ["'"%char].
  cbn [app]. cbn -[sh_word quoted_chars list_of_string]. rewrite <-app_assoc. apply sh_word_quoted.
Qed.

Lemma list_of_string_inj a b : list_of_string a = list_of_string b -> a = b.
Proof.
  revert b. induction a as [|c a IH]; intros [|d b]; try done. cbn. intros [= -> E]. f_equal. by apply IH.
Qed.

(** A quoted value followed by a blank: the value can be told from the text. *)
Lemma shell_quote_inj value value' rest rest' :
  ShellQuote value +:+ " " +:+ rest = ShellQuote value' +:+ " " +:+ rest' ->
  value = value' /\ rest = rest'.
Proof.
  intros E. assert (Hw := sh_word_shell_quote value (list_of_string (" " +:+ rest))).
  rewrite <-list_of_string_app, E, list_of_string_app, sh_word_shell_quote in Hw.
  cbn in Hw. injection Hw as Hv Hr. rewrite !app_nil_r in Hv.
  split; [by apply list_of_string_inj | by apply list_of_string_inj].
Qed.

(** ** Reasoning about programs

    [moves R m]: whether it returns or throws, [m] takes a world to one that is
    [R]-related to it. *)

Section moves.
Context `{Os : !HostOs}.

Definition moves (R : World -> World -> Prop) {A} (m : hprog A) : Prop := forall w, R w (m w).1.

Context (R : World -> World -> Prop) `{!PreOrder R}.

Lemma moves_ret {A} (a : A) : moves R (mret a).
Proof. intros w. cbn. reflexivity. Qed.
Lemma moves_throw {A} e : moves R (hthrow (A:=A) e).
Proof. intros w. cbn. reflexivity. Qed.
Lemma moves_lift {A} (r : result A) : moves R (hlift r).
Proof. intros w. cbn. reflexivity. Qed.
Lemma moves_read {A} (f : World -> A) : moves R (hread f).
Proof. intros w. cbn. reflexivity. Qed.
Lemma moves_load {A} (f : Files -> result A) : moves R (hload f).
Proof. intros w. cbn. reflexivity. Qed.
Lemma moves_modify f : (forall w, R w (f w)) -> moves R (hmodify f).
Proof. intros H w. apply H. Qed.

Lemma moves_bind {A B} (m : hprog A) (f : A -> hprog B) :
  moves R m -> (forall a, moves R (f a)) -> moves R (m ≫= f).
Proof.
  intros Hm Hf w. unfold mbind, hprog_bind. specialize (Hm w). destruct (m w) as [w1 [a|e]]; cbn in *; [|done].
  etrans; [exact Hm | apply Hf].
Qed.

Lemma moves_when b m : moves R m -> moves R (hwhen b m).
Proof. intros H. destruct b; [exact H | apply moves_ret]. Qed.

Lemma moves_for {A} (l : list A) f : (forall x, x ∈ l -> moves R (f x)) -> moves R (hfor l f).
Proof.
  induction l as [|x l IH]; intros H; cbn [hfor]; [apply moves_ret|].
  apply moves_bind; [apply H; by left|]. intros _. apply IH. intros y Hy. apply H. by right.
Qed.

Lemma moves_try {A} (m : hprog A) handler :
  moves R m -> (forall e, moves R (handler e)) -> moves R (htry m handler).
Proof.
  intros Hm Hh w. unfold htry. specialize (Hm w). destruct (m w) as [w1 [a|e]]; cbn in *; [done|].
  etrans; [exact Hm | apply Hh].
Qed.

Lemma moves_ok {A} (m : hprog A) : moves R m -> moves R (m ≫= fun _ => mret ()).
Proof. intros H. apply moves_bind; [exact H|]. intros. apply moves_ret. Qed.
End moves.

Create HintDb moves discriminated.
#[export] Hint Resolve moves_ret moves_throw moves_lift moves_read moves_load : moves.
#[export] Hint Extern 1 (PreOrder _) => apply _ : moves.

(** One step towards [moves]: the structure of the program, then the lemmas known. *)
Ltac moves_step :=
  match goal with
  | |- moves _ (mbind _ _) => apply moves_bind; [apply _| |intros ?]
  | |- moves _ (hwhen _ _) => apply moves_when; [apply _|]
  | |- moves _ (hfor _ _) => apply moves_for; [apply _|intros ? ?]
  | |- moves _ (htry _ _) => apply moves_try; [apply _| |intros ?]
  | |- moves _ (if ?b then _ else _) => destruct b
  | |- moves _ (match ?x with _ => _ end) => destruct x
  | |- moves _ (let x := _ in _) => cbv zeta
  | |- _ => solve [eauto with moves]
  end.
Ltac moves := repeat moves_step.

(** Files the outside leaves alone in a step, and in the steps taken from one
    world to another. *)
Definition leaves (P : string -> Prop) (step : Files * Files) : Prop :=
  forall path, P path -> step.2 !! path = step.1 !! path.
Definition outside_left `{Os : !HostOs} (P : string -> Prop) (w w' : World) : Prop :=
  Forall (leaves P) (drop (length (w_outside w)) (w_outside w')).

(** A relation that any command, and the statics of the supports, respect. *)
Class CommandFrame `{Os : !HostOs} (R : World -> World -> Prop) := {
  frame_preorder :: PreOrder R;
  frame_system : forall command, moves R (system command);
  frame_capture : forall command, moves R (RunCommandCapture command);
  frame_sleep : forall milliseconds, moves R (sleep_for milliseconds);
  frame_docker : forall docker w, R w (with_docker docker w);
  frame_compose : forall compose w, R w (with_docker_compose compose w);
  frame_ensured : forall images w, R w (with_ensured images w);
}.
#[export] Hint Resolve frame_system frame_capture frame_sleep : moves.
#[export] Hint Extern 1 (CommandFrame _) => apply _ : moves.

Lemma moves_run_ok `{Os : !HostOs} R `{!PreOrder R} command :
  moves R (system command) -> moves R (RunCommandOk command).
Proof. intros Hs. unfold RunCommandOk. moves. Qed.
#[export] Hint Resolve moves_run_ok : moves.

Section command_moves.
Context `{Os : !HostOs} (R : World -> World -> Prop) `{F : !CommandFrame R}.

Lemma moves_docker : moves R ResolvedDockerCommand.
Proof. unfold ResolvedDockerCommand. moves. apply moves_modify. apply frame_docker. Qed.
Hint Resolve moves_docker : moves.

Lemma moves_compose : moves R ResolvedDockerComposeCommand.
Proof. unfold ResolvedDockerComposeCommand. moves. apply moves_modify. apply frame_compose. Qed.
Hint Resolve moves_compose : moves.

Lemma moves_run_compose path subcommand mode : moves R (RunComposeCommand path subcommand mode).
Proof. unfold RunComposeCommand, ComposeProjectHasContainers. moves. Qed.

Lemma moves_mesh plan mode : moves R (EnsureComposeMeshNetworkAvailable plan mode).
Proof. unfold EnsureComposeMeshNetworkAvailable. moves. Qed.

Lemma moves_remove_mesh plane mode : moves R (RemoveComposeMeshNetworkIfUnused plane mode).
Proof. unfold RemoveComposeMeshNetworkIfUnused. moves. Qed.

Lemma moves_image_exists image : moves R (DockerImageExists image).
Proof. unfold DockerImageExists. moves. Qed.
Hint Resolve moves_image_exists : moves.

Lemma moves_docker_build docker options dockerfile image root :
  moves R (docker_build docker options dockerfile image root).
Proof. unfold docker_build. moves. Qed.
Hint Resolve moves_docker_build : moves.

Lemma moves_build_image root image : moves R (BuildNaimRuntimeImage root image).
Proof. unfold BuildNaimRuntimeImage, EnsureLocalRuntimeBinary. moves. Qed.
Hint Resolve moves_build_image : moves.

Lemma moves_remember_image image : moves R (remember_image image).
Proof. apply moves_modify. intros w. apply frame_ensured. Qed.
Hint Resolve moves_remember_image : moves.

Lemma moves_images plan mode : moves R (EnsureComposeImagesAvailable plan mode).
Proof. unfold EnsureComposeImagesAvailable, EnsureRuntimeImageAvailable, pull_image. moves. Qed.
End command_moves.

#[export] Hint Resolve moves_docker moves_compose moves_run_compose moves_mesh moves_remove_mesh
  moves_image_exists moves_images : moves.

(** ** What the outside leaves alone

    From one world to the other only the outside may have changed these files: if
    none of its steps in between did, they are the same. *)
Definition undisturbed `{Os : !HostOs} (P : string -> Prop) (w w' : World) : Prop :=
  exists steps, w_outside w' = w_outside w ++ steps /\
    (Forall (leaves P) steps -> forall path, P path -> w_files w' !! path = w_files w !! path).

Section undisturbed.
Context `{Os : !HostOs} (P : string -> Prop).

Lemma undisturbed_own (w w' : World) :
  w_outside w' = w_outside w -> (forall path, P path -> w_files w' !! path = w_files w !! path) ->
  undisturbed P w w'.
Proof. intros E H. exists []. by rewrite app_nil_r. Qed.

Lemma undisturbed_step (w w' : World) :
  w_outside w' = w_outside w ++ [(w_files w, w_files w')] -> undisturbed P w w'.
Proof. intros E. eexists. split; [exact E|]. intros H path Hp. inversion H as [|? ? Hs]. by apply Hs. Qed.

#[global] Instance undisturbed_preorder : PreOrder (undisturbed P).
Proof.
  split; [intros w; by apply undisturbed_own|].
  intros w1 w2 w3 (l & E2 & H2) (l' & E3 & H3). exists (l ++ l').
  split; [by rewrite E3, E2, app_assoc|]. intros [Hl Hl']%Forall_app path Hp.
  by rewrite H3, H2.
Qed.

#[global] Instance undisturbed_frame : CommandFrame (undisturbed P).
Proof.
  split; [apply _| | | |by intros; apply undisturbed_own..].
  - intros command w. unfold system. destruct (os_system _ _ _) as [[code files] o]. by apply undisturbed_step.
  - intros command w. unfold RunCommandCapture. destruct (os_popen _ _ _) as [[output files] o].
    by apply undisturbed_step.
  - intros ms w. unfold sleep_for. destruct (os_sleep _ _ _) as [files o]. by apply undisturbed_step.
Qed.

Lemma undisturbed_write path text : ~ P path -> moves (undisturbed P) (WriteTextFile path text).
Proof.
  intros Hp w. apply undisturbed_own; [done|]. intros p H. cbn. apply lookup_insert_ne. by intros ->.
Qed.

Lemma undisturbed_remove path : ~ P path -> moves (undisturbed P) (RemoveFileIfExists path).
Proof.
  intros Hp w. apply undisturbed_own; [done|]. intros p H. cbn. apply lookup_delete_ne. by intros ->.
Qed.

Lemma undisturbed_same (w w' : World) path :
  undisturbed P w w' -> outside_left P w w' -> P path -> w_files w' !! path = w_files w !! path.
Proof.
  intros (l & E & H) Hl. unfold outside_left in Hl. rewrite E, drop_app_length in Hl. by apply H.
Qed.

(** The steps between two worlds, when there is one in the middle. *)
Lemma outside_left_split Q Q' (w w1 w2 : World) :
  undisturbed Q w w1 -> undisturbed Q' w1 w2 -> outside_left P w w2 ->
  outside_left P w w1 /\ outside_left P w1 w2.
Proof.
  intros (l & E1 & _) (l' & E2 & _) H. unfold outside_left in *. rewrite E2, drop_app_length.
  rewrite E2, E1, <-app_assoc, drop_app_length in H. rewrite E1, drop_app_length. by apply Forall_app.
Qed.
End undisturbed.

Lemma undisturbed_grows `{Os : !HostOs} P (w w' : World) :
  undisturbed P w w' -> undisturbed (fun _ => False) w w'.
Proof. intros (l & E & _). by exists l. Qed.

(** ** Programs that return *)

Lemma hbind_inv `{Os : !HostOs} {A B} (m : hprog A) (f : A -> hprog B) w w' b :
  (m ≫= f) w = (w', Ok b) -> exists w1 a, m w = (w1, Ok a) /\ f a w1 = (w', Ok b).
Proof.
  unfold mbind, hprog_bind. destruct (m w) as [w1 [a|e]]; [|done]. by exists w1, a.
Qed.

Lemma hbind_eq `{Os : !HostOs} {A B} (m : hprog A) (f : A -> hprog B) w w1 a :
  m w = (w1, Ok a) -> (m ≫= f) w = f a w1.
Proof. unfold mbind, hprog_bind. by intros ->. Qed.

(** Takes a run that returned apart, step by step. *)
Ltac hinv H :=
  lazymatch type of H with
  | mbind _ _ _ = (_, Ok _) =>
      let w := fresh "w" in let a := fresh "a" in let H1 := fresh H in
      apply hbind_inv in H as (w & a & H1 & H); hinv H
  | _ => idtac
  end.

(** A quoted value reaches the command as it is: when no character of it is
    null, the shell reads the quotation as one word whose value is the value, and
    goes on behind it.  So no text of a document becomes part of a command. *)
Theorem shell_quote_one_word value rest :
  no_nul (list_of_string value) = true -> (rest = [] \/ exists c l, rest = c :: l /\ ends_word c = true) ->
  sh_word Unquoted (c_str (list_of_string (ShellQuote value) ++ rest)) =
  Some (list_of_string value, c_str rest).
Proof.
  intros Hn Hr. rewrite c_str_no_nul, sh_word_shell_quote by (by apply no_nul_quoted).
  destruct Hr as [-> | (c & l & -> & Hc)]; cbn [c_str].
  - cbn. by rewrite app_nil_r.
  - destruct (Ascii.eqb_spec c "000") as [-> | _]; [done|]. cbn [sh_word]. rewrite Hc. cbn. by rewrite app_nil_r.
Qed.

Lemma shell_quote_one_word_witness :
  sh_word Unquoted (c_str (list_of_string (ShellQuote "it's $HOME; rm -rf /") ++ list_of_string " > out")) =
  Some (list_of_string "it's $HOME; rm -rf /", c_str (list_of_string " > out")).
Proof.
  apply (shell_quote_one_word "it's $HOME; rm -rf /" (list_of_string " > out")); [reflexivity|].
  right. eexists _, _. split; reflexivity.
Defined.
