(* ===== verification/HostDisks.v ===== *)
(** * Disks of a host

    [hostd/src/app/hostd_disk_runtime_support.cpp] and the back end the daemon
    reports to ([backend/hostd_backend.h], [backend/local_db_hostd_backend.cpp]).
    With root privileges a disk is an image file on a loop device, formatted once
    and mounted; without them it is a directory. *)

From S2P Require Import Prelude Binary64 Json Models Fixtures Planner Paths ExecutionPlan AssignmentStore AssignmentReconciliation ControllerStore HostLocalState HostPaths HostCommands.

(** ** The back end *)

Section backend.
Context `{Os : !HostOs}.

(** [HostdBackend], as far as applying an assignment uses it. *)
Record HostdBackend := mkHostdBackend {
  be_ClaimNextHostAssignment : string -> hprog (option HostAssignment);
  be_TransitionClaimedHostAssignment : Z -> HostAssignmentStatus -> string -> hprog bool;
  be_UpdateHostAssignmentProgress : Z -> json -> hprog bool;
  be_UpsertHostObservation : HostObservation -> hprog unit;
  be_AppendEvent : EventRecord -> hprog unit;
  be_UpsertDiskRuntimeState : DiskRuntimeState -> hprog unit;
  be_LoadDiskRuntimeState : string -> string -> hprog (option DiskRuntimeState);
}.

(** A statement on the database, at the time it runs. *)
Definition on_store {A} (f : Z -> ControllerStore -> ControllerStore * A) : hprog A := fun w =>
  let '(store, a) := f (os_clock (w_os w)) (w_store w) in (with_store store w, Ok a).
Definition on_assignments {A} (f : Z -> Table -> Table * A) : hprog A :=
  on_store (fun now s => let '(t, a) := f now (cs_assignments s) in (cs_with_assignments t s, a)).

Definition LocalDbHostdBackend `{Lib : !JsonLibrary} : HostdBackend :=
  {| be_ClaimNextHostAssignment node_name :=
       on_assignments (fun now t => ClaimNextHostAssignment now node_name t);
     be_TransitionClaimedHostAssignment assignment_id status status_message :=
       on_assignments (fun now t =>
         TransitionClaimedHostAssignment now assignment_id status status_message t);
     be_UpdateHostAssignmentProgress assignment_id progress :=
       text ← hlift (dump progress);
       on_assignments (fun now t => UpdateHostAssignmentProgress now assignment_id text t);
     be_UpsertHostObservation observation :=
       on_store (fun now s => (UpsertHostObservation now observation s, ()));
     be_AppendEvent event := on_store (fun now s => (AppendEvent now event s, ()));
     be_UpsertDiskRuntimeState state :=
       on_store (fun now s => (UpsertDiskRuntimeState now state s, ()));
     be_LoadDiskRuntimeState disk_name node_name :=
       hread (fun w => LoadDiskRuntimeState disk_name node_name (w_store w)) |}.

(** ** Paths *)

Definition IsUnderRoot (path : string) (runtime_root : option string) : bool :=
  match runtime_root with
  | None => false
  | Some runtime_root =>
      let path_text := lexically_normal path in
      let root_text := lexically_normal runtime_root in
      if root_text ==? "/" then path_is_absolute path_text
      else (path_text ==? root_text) || starts_with (root_text +:+ "/") path_text
  end.

Definition is_alnum (c : Ascii.ascii) : bool :=
  let n := char_code c in
  ((48 <=? n) && (n <=? 57)) || ((65 <=? n) && (n <=? 90)) || ((97 <=? n) && (n <=? 122)).

Definition SanitizeDiskPathComponent (value : string) : string :=
  string_of_list ((fun c => if is_alnum c || (c ==? "-"%char) || (c ==? "_"%char) then c else "_"%char)
                  <$> list_of_string value).

Definition ManagedDiskImagePath (disk : DiskSpec) (storage_root : string)
    (runtime_root : option string) : string :=
  let images := kDefaultManagedStorageRoot +:+ "/disk-images" in
  let plane := SanitizeDiskPathComponent (disk_plane_name disk) in
  let image := SanitizeDiskPathComponent (disk_name disk) +:+ ".img" in
  if disk_kind disk ==? PlaneShared then
    path_append (path_append (path_append
      (RebaseManagedPath images storage_root runtime_root None) plane) "shared") image
  else
    path_append (path_append (path_append
      (RebaseManagedPath images storage_root runtime_root
         (if IsNodeLocalDiskKind (disk_kind disk) then Some (disk_node_name disk) else None)) plane)
      (SanitizeDiskPathComponent (disk_node_name disk))) image.

Definition EnsureDiskDirectory (path disk_key : string) : hprog unit :=
  WriteTextFile (path_append path ".naim-disk-info")
    ("disk=" +:+ disk_key +:+ newline +:+ "managed_by=naim-hostd" +:+ newline).

(** [std::filesystem::remove_all] with its error: whether it is a lack of
    permission, and its message. *)
Definition remove_all (path : string) : hprog (option (bool * string)) := fun w =>
  let '(files, o, error) := os_remove_all path (w_files w) (w_os w) in (with_os files o w, Ok error).

Definition helper_image : string := "naim/base-runtime:dev".

Definition RemoveDiskDirectory (path : string) (runtime_root : option string) : hprog unit :=
  if negb (IsUnderRoot path runtime_root) then mret ()
  else
    error ← remove_all path;
    denied ← hread (fun w =>
      match error with
      | Some (true, _) => path_exists path w && negb (str_empty (parent_path path))
      | _ => false
      end);
    error ←
      (if negb denied then mret error
       else
         docker ← ResolvedDockerCommand;
         inspected ← RunCommandOk (docker +:+ " image inspect " +:+ ShellQuote helper_image +:+
                                   " >/dev/null 2>&1");
         (if inspected : bool then mret true
          else RunCommandOk (docker +:+ " pull " +:+ ShellQuote helper_image +:+ " >/dev/null 2>&1"))
         ≫= fun _ =>
         helped ← RunCommandOk (docker +:+ " run --rm --user 0:0" +:+
                    " -v " +:+ ShellQuote (parent_path path +:+ ":/cleanup-parent") +:+
                    " --entrypoint /bin/rm " +:+ ShellQuote helper_image +:+ " -rf -- " +:+
                    ShellQuote ("/cleanup-parent/" +:+ path_filename path));
         if helped : bool then remove_all path else mret error);
    match error with
    | Some (_, message) =>
        hthrow ("failed to remove managed disk path '" +:+ path +:+ "': " +:+ message)
    | None => mret ()
    end.

Definition NormalizeManagedPath (path : string) (w : World) : string :=
  match os_weakly_canonical path (w_files w) (w_os w) with
  | Some normalized => normalized
  | None => lexically_normal path
  end.

(** ** Loop devices *)

Definition uint_max : Z := 4294967295.

Fixpoint minor_digits (value : Z) (l : list Ascii.ascii) : option Z :=
  match l with
  | [] => Some value
  | c :: l' =>
      match digit_of c with
      | None => None
      | Some d =>
          let value := value * 10 + d in
          if uint_max <? value then None else minor_digits value l'
      end
  end.

Definition ParseLoopDeviceMinor (device_path : string) : option Z :=
  let prefix := "/dev/loop" in
  if negb (starts_with prefix device_path) || (String.length device_path =? String.length prefix)%nat
  then None
  else minor_digits 0 (list_of_string
         (String.substring 9 (String.length device_path - 9) device_path)).

Definition EnsureLoopDeviceNodeExists (device_path : string) : hprog unit :=
  present ← hread (path_exists device_path);
  if present : bool then mret ()
  else
    match ParseLoopDeviceMinor device_path with
    | None => mret ()
    | Some minor =>
        if negb os_elevated then mret ()
        else
          let quoted_path := ShellQuote device_path in
          created ← RunCommandOk ("if [ ! -e " +:+ quoted_path +:+ " ]; then mknod -m 660 " +:+
                                  quoted_path +:+ " b 7 " +:+ to_string minor +:+ "; fi");
          present ← hread (path_exists device_path);
          if negb created || negb present then
            hthrow ("failed to create loop device node '" +:+ device_path +:+ "'")
          else
            RunCommandOk ("chown root:disk " +:+ quoted_path +:+ " >/dev/null 2>&1 || true")
            ≫= fun _ => mret ()
    end.

Definition EnsureNextLoopDeviceNodeExists : hprog unit :=
  output ← RunCommandCapture "/usr/sbin/losetup -f 2>/dev/null || true";
  let next_device := Trim output in
  hwhen (negb (str_empty next_device)) (EnsureLoopDeviceNodeExists next_device).

(** The text before the first colon. *)
Definition before_colon (text : string) : option string :=
  match String.index 0 ":" text with
  | Some n => Some (String.substring 0 n text)
  | None => None
  end.

Fixpoint detect_loop (candidates : list string) : hprog (option string) :=
  match candidates with
  | [] => mret None
  | candidate :: candidates' =>
      if str_empty candidate then detect_loop candidates'
      else
        output ← RunCommandCapture ("/usr/sbin/losetup -j " +:+ ShellQuote candidate +:+
                                    " 2>/dev/null || true");
        let trimmed := Trim output in
        if str_empty trimmed then detect_loop candidates'
        else
          match before_colon trimmed with
          | None => detect_loop candidates'
          | Some device => mret (Some device)
          end
  end.

Definition DetectExistingLoopDevice (image_path : string) : hprog (option string) :=
  normalized ← hread (NormalizeManagedPath image_path);
  detect_loop [image_path; normalized].

(** The attempts to attach, and the last output when all fail. *)
Fixpoint attach_loop (attempts : nat) (attach_path last_output : string) : hprog (string + string) :=
  match attempts with
  | O => mret (inr last_output)
  | S attempts' =>
      EnsureNextLoopDeviceNodeExists ≫= fun _ =>
      output ← RunCommandCapture ("/usr/sbin/losetup --find --show " +:+ ShellQuote attach_path +:+
                                  " 2>&1");
      let loop_device := Trim output in
      if has_value (ParseLoopDeviceMinor loop_device) then
        EnsureLoopDeviceNodeExists loop_device ≫= fun _ => mret (inl loop_device)
      else
        hwhen (0 <? attempts')%nat (sleep_for 100) ≫= fun _ =>
        attach_loop attempts' attach_path loop_device
  end.

Definition RequireLoopDeviceForImage (image_path : string) : hprog string :=
  existing ← DetectExistingLoopDevice image_path;
  match existing with
  | Some device => mret device
  | None =>
      attach_path ← hread (NormalizeManagedPath image_path);
      attached ← attach_loop 2 attach_path "";
      match attached with
      | inl device => mret device
      | inr last_output =>
          hthrow ("failed to attach loop device for image '" +:+ image_path +:+ "'" +:+
                  (if str_empty last_output then "" else ": " +:+ last_output))
      end
  end.

Definition blkid_command (device_path : string) : string :=
  "/usr/sbin/blkid -o value -s TYPE " +:+ ShellQuote device_path +:+ " 2>/dev/null || true".

Definition DetectFilesystemTypeForDevice (device_path : string) : hprog string :=
  output ← RunCommandCapture (blkid_command device_path); mret (Trim output).

(** ** Mounts *)

Definition mountpoint_command (mount_point : string) : string :=
  "/usr/bin/mountpoint -q " +:+ ShellQuote mount_point +:+ " >/dev/null 2>&1".

Definition IsPathMounted (mount_point : string) : hprog bool :=
  mounted ← RunCommandOk (mountpoint_command mount_point);
  if mounted : bool then mret true
  else
    normalized ← hread (NormalizeManagedPath mount_point);
    if normalized !=? mount_point then RunCommandOk (mountpoint_command normalized) else mret false.

(** [input >> token]: the characters up to a space. *)
Fixpoint take_token (l : list Ascii.ascii) : list Ascii.ascii * list Ascii.ascii :=
  match l with
  | c :: l' => if is_space c then ([], l) else let '(t, rest) := take_token l' in (c :: t, rest)
  | [] => ([], [])
  end.
Definition read_token (l : list Ascii.ascii) : option (string * list Ascii.ascii) :=
  match take_token (skip_spaces l) with
  | ([], _) => None
  | (t, rest) => Some (string_of_list t, rest)
  end.
Fixpoint drop_line (l : list Ascii.ascii) : list Ascii.ascii :=
  match l with
  | c :: l' => if Ascii.eqb c "010" then l' else drop_line l'
  | [] => []
  end.

(** The lines of the table of mounts; a line is not empty, so the length of the
    text bounds their number. *)
Fixpoint mount_source (fuel : nat) (candidates : list string) (l : list Ascii.ascii) : option string :=
  match fuel with
  | O => None
  | S fuel' =>
      '(source, l) ← read_token l;
      '(target, l) ← read_token l;
      '(_, l) ← read_token l;
      if existsb (fun candidate => negb (str_empty candidate) && (target ==? candidate)) candidates
      then Some source else mount_source fuel' candidates (drop_line l)
  end.

Definition CurrentMountSource (mount_point : string) (w : World) : option string :=
  match os_mounts (w_os w) with
  | None => None
  | Some table =>
      mount_source (S (String.length table)) [mount_point; NormalizeManagedPath mount_point w]
        (list_of_string table)
  end.

(** ** Images *)

Definition resize_file (path : string) (size : Z) : hprog unit := fun w =>
  match os_resize_file path size (w_files w) (w_os w) with
  | Ok (files, o) => (with_os files o w, Ok ())
  | Throw e => (w, Throw e)
  end.

Definition CreateSparseImageFile (image_path : string) (size_gb : Z) : hprog unit :=
  present ← hread (path_exists image_path);
  hwhen (negb present) (WriteTextFile image_path "") ≫= fun _ =>
  resize_file image_path (Z.max size_gb 1 * 1024 * 1024 * 1024).

Definition contains_text (needle text : string) : bool := has_value (String.index 0 needle text).

Definition IsSharedManagedDiskImagePath (image_path : string) : bool :=
  contains_text "/disk-images/" image_path && contains_text "/shared/" image_path.

Definition DiskRuntimeState_default : DiskRuntimeState :=
  mkDiskRuntimeState "" "" "" "" "" "" "" "" "" "" "" "" "".

Definition BuildDiskRuntimeState (disk : DiskSpec) (runtime_state status_message : string)
    : DiskRuntimeState :=
  mkDiskRuntimeState (disk_name disk) (disk_plane_name disk) (disk_node_name disk) "" "directory" ""
    (disk_host_path disk) runtime_state "" "" "" status_message "".

(** A state of a disk with an image. *)
Definition image_state (disk : DiskSpec) (image_path filesystem_type loop_device runtime_state
    attached_at mounted_at status_message : string) : DiskRuntimeState :=
  mkDiskRuntimeState (disk_name disk) (disk_plane_name disk) (disk_node_name disk) image_path
    filesystem_type loop_device (disk_host_path disk) runtime_state attached_at mounted_at ""
    status_message "".

(** The wait for another node that may be formatting a shared image: up to
    [attempts] further looks. *)
Fixpoint wait_filesystem (attempts : nat) (loop_device : string) : hprog string :=
  match attempts with
  | O => mret ""
  | S attempts' =>
      sleep_for 2000 ≫= fun _ =>
      filesystem_type ← DetectFilesystemTypeForDevice loop_device;
      if negb (str_empty filesystem_type) then mret filesystem_type
      else wait_filesystem attempts' loop_device
  end.

Definition mkfs_command (loop_device : string) : string :=
  "/usr/sbin/mkfs.ext4 -F " +:+ ShellQuote loop_device +:+ " >/dev/null 2>&1".

(** The file system of the device, made when there is none. *)
Definition ensure_filesystem (disk : DiskSpec) (image_path loop_device : string)
    (image_preexisting : bool) : hprog string :=
  filesystem_type ← DetectFilesystemTypeForDevice loop_device;
  filesystem_type ←
    (if str_empty filesystem_type && image_preexisting && (disk_kind disk ==? PlaneShared)
     then wait_filesystem 15 loop_device else mret filesystem_type);
  if negb (str_empty filesystem_type) then mret filesystem_type
  else
    formatted ← RunCommandOk (mkfs_command loop_device);
    if negb formatted then hthrow ("failed to format disk image '" +:+ image_path +:+ "'")
    else mret "ext4".

Fixpoint mount_attempts (attempts : nat) (loop_device mount_point : string) : hprog bool :=
  match attempts with
  | O => mret false
  | S attempts' =>
      done ← RunCommandOk ("/usr/bin/mount " +:+ ShellQuote loop_device +:+ " " +:+
                           ShellQuote mount_point +:+ " >/dev/null 2>&1");
      if done : bool then mret true
      else
        current_source ← hread (CurrentMountSource mount_point);
        mounted ← IsPathMounted mount_point;
        if mounted && (current_source ==? Some loop_device) then mret true
        else
          hwhen (0 <? attempts')%nat (sleep_for 250) ≫= fun _ =>
          mount_attempts attempts' loop_device mount_point
  end.

Definition ensure_mounted (loop_device mount_point : string) : hprog unit :=
  mounted ← IsPathMounted mount_point;
  if mounted : bool then
    current_source ← hread (CurrentMountSource mount_point);
    if current_source !=? Some loop_device then
      hthrow ("mount point '" +:+ mount_point +:+ "' is already mounted by a different source")
    else mret ()
  else
    mounted ← mount_attempts 5 loop_device mount_point;
    if mounted : bool then mret ()
    else hthrow ("failed to mount loop device '" +:+ loop_device +:+ "' at '" +:+ mount_point +:+ "'").

Definition EnsureRealDiskMount (disk : DiskSpec) (storage_root : string)
    (runtime_root : option string) : hprog DiskRuntimeState :=
  let image_path := ManagedDiskImagePath disk storage_root runtime_root in
  let mount_point := disk_host_path disk in
  image_preexisting ← hread (path_exists image_path);
  CreateSparseImageFile image_path (disk_size_gb disk) ≫= fun _ =>
  loop_device ← RequireLoopDeviceForImage image_path;
  filesystem_type ← ensure_filesystem disk image_path loop_device image_preexisting;
  ensure_mounted loop_device mount_point ≫= fun _ =>
  WriteTextFile (path_append mount_point ".naim-disk-info")
    ("disk=" +:+ disk_name disk +:+ "@" +:+ disk_node_name disk +:+ newline +:+
     "managed_by=naim-hostd" +:+ newline +:+ "realized=mounted" +:+ newline) ≫= fun _ =>
  mret (image_state disk image_path filesystem_type loop_device "mounted" "attached" "mounted"
          "real mounted disk lifecycle applied by hostd").

Definition InspectRealDiskRuntime (disk : DiskSpec) (storage_root : string)
    (runtime_root : option string) : hprog DiskRuntimeState :=
  let image_path := ManagedDiskImagePath disk storage_root runtime_root in
  let mount_point := disk_host_path disk in
  image_exists ← hread (path_exists image_path);
  loop_device ← (if image_exists : bool then DetectExistingLoopDevice image_path else mret None);
  mounted ← IsPathMounted mount_point;
  mount_source ← (if mounted : bool then hread (CurrentMountSource mount_point) else mret None);
  filesystem_type ← match loop_device with
                    | Some device => DetectFilesystemTypeForDevice device
                    | None => mret ""
                    end;
  let state (runtime_state status_message : string) :=
    image_state disk image_path filesystem_type (default "" loop_device) runtime_state
      (if has_value loop_device then "attached" else "") (if mounted : bool then "mounted" else "")
      status_message in
  mret
    (if mounted && (negb (has_value loop_device) || negb (has_value mount_source) ||
                    (mount_source !=? loop_device))
     then state "drifted" "mount exists but does not match managed loop device"
     else if mounted && has_value loop_device
     then state "mounted" "real mounted disk runtime verified by hostd"
     else if has_value loop_device && negb (str_empty filesystem_type)
     then state "formatted" "loop device attached but mount missing"
     else if has_value loop_device then state "attached" "loop device attached"
     else if image_exists : bool then state "image-created" "disk image exists but is not attached"
     else state "missing" "managed disk artifacts missing").

(** ** Desired disks *)

Definition FindDiskInStateByKey (state : option DesiredState) (disk_key : string) : option DiskSpec :=
  state ≫= fun state =>
    find_if (fun disk => disk_name disk +:+ "@" +:+ disk_node_name disk ==? disk_key) (ds_disks state).

Definition SplitDiskKey (disk_key : string) : string * string :=
  match String.index 0 "@" disk_key with
  | None => (disk_key, "")
  | Some at_ => (String.substring 0 at_ disk_key,
                 String.substring (at_ + 1) (String.length disk_key - (at_ + 1)) disk_key)
  end.

Definition EnsureDesiredDiskRuntimeState (disk : DiskSpec) (disk_key storage_root : string)
    (runtime_root : option string) : hprog DiskRuntimeState :=
  if os_elevated then
    inspected_state ← InspectRealDiskRuntime disk storage_root runtime_root;
    if drs_runtime_state inspected_state ==? "mounted" then mret inspected_state
    else if drs_runtime_state inspected_state ==? "drifted" then
      hthrow ("managed disk drift detected for '" +:+ disk_key +:+ "': " +:+
              drs_status_message inspected_state)
    else EnsureRealDiskMount disk storage_root runtime_root
  else
    EnsureDiskDirectory (disk_host_path disk) disk_key ≫= fun _ =>
    mret (BuildDiskRuntimeState disk "directory-backed-fallback"
            "real disk lifecycle unavailable; hostd is not running with root privileges").

Definition drs_with_message (status_message : string) (s : DiskRuntimeState) : DiskRuntimeState :=
  mkDiskRuntimeState (drs_disk_name s) (drs_plane_name s) (drs_node_name s) (drs_image_path s)
    (drs_filesystem_type s) (drs_loop_device s) (drs_mount_point s) (drs_runtime_state s)
    (drs_attached_at s) (drs_mounted_at s) (drs_last_verified_at s) status_message (drs_updated_at s).

Definition PersistDiskRuntimeStateForDesiredDisks (backend : option HostdBackend)
    (desired_node_state : DesiredState) (storage_root : string) (runtime_root : option string)
    (status_message : string) : hprog unit :=
  match backend with
  | None => mret ()
  | Some backend =>
      hfor (ds_disks desired_node_state) (fun disk =>
        realized_state ← EnsureDesiredDiskRuntimeState disk
                           (disk_name disk +:+ "@" +:+ disk_node_name disk) storage_root runtime_root;
        be_UpsertDiskRuntimeState backend (drs_with_message status_message realized_state))
  end.

Definition EnsureDesiredDisksReady (backend : option HostdBackend) (desired_node_state : DesiredState)
    (storage_root : string) (runtime_root : option string) : hprog unit :=
  hfor (ds_disks desired_node_state) (fun disk =>
    realized_state ← EnsureDesiredDiskRuntimeState disk
                       (disk_name disk +:+ "@" +:+ disk_node_name disk) storage_root runtime_root;
    match backend with
    | Some backend => be_UpsertDiskRuntimeState backend realized_state
    | None => mret ()
    end).

(** ** Removed disks *)

Definition PersistDiskRuntimeStateForRemovedDisks (backend : option HostdBackend)
    (previous_state : option DesiredState) (execution_plan : NodeExecutionPlan) : hprog unit :=
  match backend with
  | None => mret ()
  | Some backend =>
      hfor (nep_operations execution_plan) (fun operation =>
        if op_kind operation !=? RemoveDisk then mret ()
        else
          let '(disk_name, disk_node_name) := SplitDiskKey (op_target operation) in
          existing_state ← be_LoadDiskRuntimeState backend disk_name disk_node_name;
          if drs_runtime_state <$> existing_state ==? Some "removed" then mret ()
          else
            match FindDiskInStateByKey previous_state (op_target operation) with
            | None => mret ()
            | Some removed_disk =>
                let s := BuildDiskRuntimeState removed_disk "removed" "runtime path removed by hostd" in
                be_UpsertDiskRuntimeState backend
                  (mkDiskRuntimeState (drs_disk_name s) (drs_plane_name s) (drs_node_name s)
                     (drs_image_path s) "" (drs_loop_device s) (op_details operation)
                     (drs_runtime_state s) (drs_attached_at s) (drs_mounted_at s)
                     (drs_last_verified_at s) (drs_status_message s) (drs_updated_at s))
            end)
  end.

(** Detaching the loop device; the result says whether the removal of a shared
    image is left to a node that still holds it. *)
Definition detach_loop (runtime_state : DiskRuntimeState) (loop_device : string) : hprog bool :=
  detached ← RunCommandOk ("/usr/sbin/losetup -d " +:+ ShellQuote loop_device +:+ " >/dev/null 2>&1");
  if detached : bool then mret false
  else
    present ← hread (path_exists loop_device);
    still_attached ← (if str_empty (drs_image_path runtime_state) then mret None
                      else DetectExistingLoopDevice (drs_image_path runtime_state));
    if negb present || negb (has_value still_attached) then mret false
    else
      shared ←
        (if IsSharedManagedDiskImagePath (drs_image_path runtime_state) &&
            negb (str_empty (drs_mount_point runtime_state))
         then mounted ← IsPathMounted (drs_mount_point runtime_state); mret (negb mounted)
         else mret false);
      if shared : bool then mret true
      else hthrow ("failed to detach loop device '" +:+ loop_device +:+ "'").

Definition RemoveRealDiskMount (runtime_state : DiskRuntimeState) (runtime_root : option string)
    : hprog unit :=
  let mount_point := drs_mount_point runtime_state in
  let image_path := drs_image_path runtime_state in
  mounted ← (if str_empty mount_point then mret false else IsPathMounted mount_point);
  mounted_source ←
    (if mounted : bool then
       source ← hread (CurrentMountSource mount_point);
       unmounted ← RunCommandOk ("/usr/bin/umount " +:+ ShellQuote mount_point +:+ " >/dev/null 2>&1");
       if negb unmounted then
         hthrow ("failed to unmount managed disk at '" +:+ mount_point +:+ "'")
       else mret source
     else mret None);
  let loop_device :=
    if str_empty (drs_loop_device runtime_state) then
      match mounted_source with
      | Some source => if starts_with "/dev/loop" source then source else ""
      | None => ""
      end
    else drs_loop_device runtime_state in
  shared_image_removal_deferred ←
    (if str_empty loop_device then mret false
     else
       still_attached ← (if str_empty image_path then mret None
                         else DetectExistingLoopDevice image_path);
       let loop_device := default loop_device still_attached in
       if str_empty loop_device then mret false else detach_loop runtime_state loop_device);
  hwhen (negb (str_empty mount_point)) (RemoveDiskDirectory mount_point runtime_root) ≫= fun _ =>
  hwhen (negb (str_empty image_path) && negb shared_image_removal_deferred &&
         (negb (has_value runtime_root) || IsUnderRoot image_path runtime_root))
    (RemoveFileIfExists image_path).

End backend.

(** ** Lemmas: the log *)

Section disk_logs.
Context `{Os : !HostOs}.

(** Every format in the log follows a look at the same device that found no file
    system on it. *)
Definition formats_blank (log : list event) : Prop :=
  forall before device files code rest,
    log = before ++ Ran (mkfs_command device) files code :: rest ->
    exists earlier files' output,
      before = earlier ++ [Captured (blkid_command device) files' output] /\ Trim output = "".

Definition logs_blank (w w' : World) : Prop :=
  exists l, w_log w' = w_log w ++ l /\ formats_blank l.

Lemma formats_blank_nil : formats_blank [].
Proof. intros before device files code rest E. by destruct before. Qed.

Lemma formats_blank_app l l' : formats_blank l -> formats_blank l' -> formats_blank (l ++ l').
Proof.
  intros Hl Hl' before device files code rest E.
  destruct (decide (length l <= length before)%nat) as [Hlen|Hlen].
  - assert (exists before', before = l ++ before') as [before' ->].
    { exists (drop (length l) before). rewrite <-(take_drop (length l) before) at 1. f_equal.
      apply (f_equal (take (length l))) in E. by rewrite take_app_length, take_app_le in E by done. }
    rewrite <-app_assoc in E. apply app_inv_head in E.
    destruct (Hl' _ _ _ _ _ E) as (earlier & files' & output & -> & Ho).
    exists (l ++ earlier), files', output. by rewrite app_assoc.
  - assert (exists rest', l = before ++ Ran (mkfs_command device) files code :: rest') as [rest' El].
    { apply (f_equal (take (length l))) in E. rewrite take_app_length, take_app_ge in E by lia.
      destruct (length l - length before)%nat as [|n] eqn:En; [lia|]. cbn in E.
      exists (take n rest). exact E. }
    by apply (Hl _ _ _ _ _ El).
Qed.

#[global] Instance logs_blank_preorder : PreOrder logs_blank.
Proof.
  split.
  - intros w. exists []. split; [by rewrite app_nil_r | apply formats_blank_nil].
  - intros w1 w2 w3 (l & E & Hl) (l' & E' & Hl'). exists (l ++ l'). split.
    + by rewrite E', E, app_assoc.
    + by apply formats_blank_app.
Qed.

Lemma formats_blank_captured command files output : formats_blank [Captured command files output].
Proof. intros before device files' code rest E. by destruct before as [|? [|? ?]]. Qed.

Lemma blank_capture command : moves logs_blank (RunCommandCapture command).
Proof.
  intros w. unfold RunCommandCapture. destruct (os_popen _ _ _) as [[output files] o]. cbn.
  eexists. split; [reflexivity|]. apply formats_blank_captured.
Qed.

Lemma blank_system command :
  (forall device, command <> mkfs_command device) -> moves logs_blank (system command).
Proof.
  intros Hc w. unfold system. destruct (os_system _ _ _) as [[code files] o]. cbn.
  eexists. split; [reflexivity|]. intros before device files' code' rest E.
  destruct before as [|? [|? ?]]; [|done..]. injection E as E _. by destruct (Hc device).
Qed.

Lemma blank_same_log f : (forall w, w_log (f w) = w_log w) -> moves logs_blank (hmodify f).
Proof.
  intros Hf w. exists []. cbn. rewrite Hf, app_nil_r. split; [done | apply formats_blank_nil].
Qed.

Lemma blank_write path contents : moves logs_blank (WriteTextFile path contents).
Proof. by apply blank_same_log. Qed.

Lemma blank_sleep ms : moves logs_blank (sleep_for ms).
Proof.
  intros w. unfold sleep_for. destruct (os_sleep _ _ _) as [files o]. cbn.
  exists []. by split; [rewrite app_nil_r | apply formats_blank_nil].
Qed.

Lemma blank_resize path size : moves logs_blank (resize_file path size).
Proof.
  intros w. unfold resize_file. destruct (os_resize_file _ _ _ _) as [[files o]|e]; cbn; [|reflexivity].
  exists []. by split; [rewrite app_nil_r | apply formats_blank_nil].
Qed.
End disk_logs.

#[export] Hint Resolve blank_capture blank_write blank_sleep blank_resize : moves.
#[export] Hint Extern 1 (moves logs_blank (system _)) =>
  apply blank_system; intros ? ?; discriminate : moves.

Section disk_programs.
Context `{Os : !HostOs}.

Lemma blank_mounted point : moves logs_blank (IsPathMounted point).
Proof. unfold IsPathMounted. moves. Qed.
Hint Resolve blank_mounted : moves.

Lemma blank_detect image : moves logs_blank (DetectExistingLoopDevice image).
Proof. unfold DetectExistingLoopDevice, detect_loop. moves. Qed.
Hint Resolve blank_detect : moves.

Lemma blank_device device : moves logs_blank (EnsureLoopDeviceNodeExists device).
Proof. unfold EnsureLoopDeviceNodeExists. moves. Qed.
Hint Resolve blank_device : moves.

Lemma blank_require image : moves logs_blank (RequireLoopDeviceForImage image).
Proof. unfold RequireLoopDeviceForImage, attach_loop, EnsureNextLoopDeviceNodeExists. moves. Qed.
Hint Resolve blank_require : moves.

Lemma blank_fstype device : moves logs_blank (DetectFilesystemTypeForDevice device).
Proof. unfold DetectFilesystemTypeForDevice. moves. Qed.
Hint Resolve blank_fstype : moves.

Lemma blank_inspect disk sr rr : moves logs_blank (InspectRealDiskRuntime disk sr rr).
Proof. unfold InspectRealDiskRuntime. moves. Qed.
Hint Resolve blank_inspect : moves.

Lemma blank_mount_attempts n device point : moves logs_blank (mount_attempts n device point).
Proof. induction n as [|n IH]; cbn [mount_attempts]; moves. Qed.
Hint Resolve blank_mount_attempts : moves.

Lemma blank_ensure_mounted device point : moves logs_blank (ensure_mounted device point).
Proof. unfold ensure_mounted. moves. Qed.
Hint Resolve blank_ensure_mounted : moves.

Lemma blank_image path size : moves logs_blank (CreateSparseImageFile path size).
Proof. unfold CreateSparseImageFile. moves. Qed.
Hint Resolve blank_image : moves.

(** The log ends with a look at the device that found nothing. *)
Definition found_blank (device : string) (w w' : World) : Prop :=
  exists l files output, w_log w' = w_log w ++ l ++ [Captured (blkid_command device) files output] /\
    Trim output = "" /\ formats_blank l.

Lemma detect_fstype_log device w :
  exists w' files output, DetectFilesystemTypeForDevice device w = (w', Ok (Trim output)) /\
    w_log w' = w_log w ++ [Captured (blkid_command device) files output].
Proof.
  unfold DetectFilesystemTypeForDevice, RunCommandCapture, mbind, hprog_bind.
  destruct (os_popen _ _ _) as [[output files] o]. cbn. by do 3 eexists.
Qed.

Lemma detect_found_blank device w w' :
  DetectFilesystemTypeForDevice device w = (w', Ok "") -> found_blank device w w'.
Proof.
  destruct (detect_fstype_log device w) as (w1 & files & output & -> & E). intros [= -> Ho].
  exists [], files, output. split; [done|]. split; [done|]. apply formats_blank_nil.
Qed.

Lemma found_blank_trans device w w1 w2 : logs_blank w w1 -> found_blank device w1 w2 -> found_blank device w w2.
Proof.
  intros (l & E & Hl) (l' & files & output & E' & Ho & Hl'). exists (l ++ l'), files, output.
  rewrite E', E, !app_assoc. repeat split; [done|]. by apply formats_blank_app.
Qed.

Lemma wait_found_blank n device w w' :
  wait_filesystem (S n) device w = (w', Ok "") -> found_blank device w w'.
Proof.
  revert w. induction n as [|n IH]; intros w H; cbn [wait_filesystem] in H;
    apply hbind_inv in H as (w0 & [] & Hs & H); apply hbind_inv in H as (w1 & fs & E & H);
    pose proof (blank_sleep 2000 w) as Hb; rewrite Hs in Hb; cbn [fst] in Hb;
    (destruct (str_empty fs) eqn:Ef; cbn [negb] in H; [|by injection H as <- ->]);
    apply str_empty_true in Ef; subst fs; (eapply found_blank_trans; [exact Hb|]).
  - injection H as <-. by apply detect_found_blank.
  - pose proof (blank_fstype device w0) as Hb'. rewrite E in Hb'. cbn [fst] in Hb'.
    eapply found_blank_trans; [exact Hb'|]. by apply IH.
Qed.

Lemma format_after_blank device w w1 :
  found_blank device w w1 -> logs_blank w (system (mkfs_command device) w1).1.
Proof.
  intros (l & files & output & E & Ho & Hl). unfold system.
  destruct (os_system _ _ _) as [[code files'] o]. unfold logs_blank, after. cbn [fst w_log]. rewrite E, <-!app_assoc.
  eexists. split; [reflexivity|]. intros before dev f c rest Eb.
  destruct rest as [|e rest _] using rev_ind.
  - rewrite app_assoc in Eb. apply app_inj_tail in Eb as [Eb Ec].
    pose proof (f_equal (fun e => match e with Ran c _ _ => c | Captured c _ _ => c end) Ec) as Ed.
    cbv beta iota in Ed.
    assert (device = dev) as <-.
    { unfold mkfs_command in Ed. apply (inj (String.append _)) in Ed.
      by apply (shell_quote_inj _ _ ">/dev/null 2>&1" ">/dev/null 2>&1") in Ed as [-> _]. }
    by exists l, files, output.
  - change (Ran (mkfs_command dev) f c :: rest ++ [e]) with ((Ran (mkfs_command dev) f c :: rest) ++ [e]) in Eb.
    rewrite !app_assoc in Eb. apply app_inj_tail in Eb as [Eb _].
    apply (formats_blank_app l [Captured (blkid_command device) files output] Hl
             (formats_blank_captured _ _ _) before dev f c rest Eb).
Qed.

Lemma blank_filesystem disk image device preexisting :
  moves logs_blank (ensure_filesystem disk image device preexisting).
Proof.
  intros w. unfold ensure_filesystem, mbind, hprog_bind.
  pose proof (blank_fstype device w) as Hb.
  destruct (DetectFilesystemTypeForDevice device w) as [w1 [fs|e]] eqn:E; [|exact Hb]. cbn [fst] in Hb.
  assert (forall w2, found_blank device w w2 ->
    logs_blank w ((formatted ← RunCommandOk (mkfs_command device);
      if negb formatted then hthrow ("failed to format disk image '" +:+ image +:+ "'")
      else mret "ext4") w2).1) as Hformat.
  { intros w2 Hf. apply format_after_blank in Hf. unfold RunCommandOk, mbind, hprog_bind.
    destruct (system (mkfs_command device) w2) as [w3 [code|]]; [|exact Hf]. cbn.
    by destruct (code =? 0). }
  destruct (str_empty fs && preexisting && (disk_kind disk ==? PlaneShared)) eqn:Ew.
  - assert (Hm : moves logs_blank (wait_filesystem 15 device)).
    { generalize 15%nat. intros n. induction n as [|n IH]; cbn [wait_filesystem]; moves. }
    specialize (Hm w1). destruct (wait_filesystem 15 device w1) as [w2 [fs'|e]] eqn:E'; cbn [fst] in Hm;
      [|etrans; [exact Hb | exact Hm]].
    destruct (str_empty fs') eqn:Ef'; cbn [negb]; [|etrans; [exact Hb | exact Hm]].
    apply str_empty_true in Ef'. subst fs'. apply Hformat.
    eapply found_blank_trans; [exact Hb|]. by apply wait_found_blank in E'.
  - cbn [mret hprog_ret]. destruct (str_empty fs) eqn:Ef; cbn [negb]; [|exact Hb].
    apply str_empty_true in Ef. subst fs. apply Hformat. by apply detect_found_blank.
Qed.
Hint Resolve blank_filesystem : moves.

Lemma blank_ensure_disk disk key sr rr :
  moves logs_blank (EnsureDesiredDiskRuntimeState disk key sr rr).
Proof. unfold EnsureDesiredDiskRuntimeState, EnsureRealDiskMount, EnsureDiskDirectory. moves. Qed.
End disk_programs.

(** ** Lemmas: what disks touch and what they become *)

Section disk_frames.
Context `{Os : !HostOs} (R : World -> World -> Prop) `{F : !CommandFrame R}.

Lemma frame_mounted point : moves R (IsPathMounted point).
Proof. unfold IsPathMounted. moves. Qed.
Hint Resolve frame_mounted : moves.

Lemma frame_detect image : moves R (DetectExistingLoopDevice image).
Proof. unfold DetectExistingLoopDevice, detect_loop. moves. Qed.
Hint Resolve frame_detect : moves.

Lemma frame_fstype device : moves R (DetectFilesystemTypeForDevice device).
Proof. unfold DetectFilesystemTypeForDevice. moves. Qed.
Hint Resolve frame_fstype : moves.

Lemma frame_require image : moves R (RequireLoopDeviceForImage image).
Proof.
  unfold RequireLoopDeviceForImage, attach_loop, EnsureNextLoopDeviceNodeExists, EnsureLoopDeviceNodeExists.
  moves.
Qed.
Hint Resolve frame_require : moves.

Lemma frame_filesystem disk image device preexisting :
  moves R (ensure_filesystem disk image device preexisting).
Proof.
  assert (forall n, moves R (wait_filesystem n device)) as Hw
    by (intros n; induction n as [|n IH]; cbn [wait_filesystem]; moves).
  unfold ensure_filesystem. moves.
Qed.
Hint Resolve frame_filesystem : moves.

Lemma frame_mount_attempts n device point : moves R (mount_attempts n device point).
Proof. induction n as [|n IH]; cbn [mount_attempts]; moves. Qed.
Hint Resolve frame_mount_attempts : moves.

Lemma frame_ensure_mounted device point : moves R (ensure_mounted device point).
Proof. unfold ensure_mounted. moves. Qed.
Hint Resolve frame_ensure_mounted : moves.

Lemma frame_inspect disk sr rr : moves R (InspectRealDiskRuntime disk sr rr).
Proof. unfold InspectRealDiskRuntime. moves. Qed.
Hint Resolve frame_inspect : moves.

Lemma frame_ensure_disk disk key sr rr :
  (forall text, moves R (WriteTextFile (path_append (disk_host_path disk) ".naim-disk-info") text)) ->
  moves R (WriteTextFile (ManagedDiskImagePath disk sr rr) "") ->
  (forall size, moves R (resize_file (ManagedDiskImagePath disk sr rr) size)) ->
  moves R (EnsureDesiredDiskRuntimeState disk key sr rr).
Proof.
  intros Hinfo Himage Hsize.
  unfold EnsureDesiredDiskRuntimeState, EnsureRealDiskMount, EnsureDiskDirectory, CreateSparseImageFile. moves.
Qed.

Lemma frame_remove_directory path rr :
  moves R (remove_all path) -> moves R (RemoveDiskDirectory path rr).
Proof. intros Hr. unfold RemoveDiskDirectory. moves. Qed.

Lemma frame_remove_mount state rr :
  moves R (remove_all (drs_mount_point state)) -> moves R (RemoveFileIfExists (drs_image_path state)) ->
  moves R (RemoveRealDiskMount state rr).
Proof.
  intros Hr Hf. pose proof (frame_remove_directory (drs_mount_point state) rr Hr) as Hd.
  unfold RemoveRealDiskMount, detach_loop. moves.
Qed.
End disk_frames.

Lemma undisturbed_resize `{Os : !HostOs} P path size : moves (undisturbed P) (resize_file path size).
Proof.
  intros w. unfold resize_file. destruct (os_resize_file _ _ _ _) as [[files o]|e]; cbn; [|reflexivity].
  by apply undisturbed_step.
Qed.

Lemma undisturbed_remove_all `{Os : !HostOs} P path : moves (undisturbed P) (remove_all path).
Proof.
  intros w. unfold remove_all. destruct (os_remove_all _ _ _) as [[files o] error]. by apply undisturbed_step.
Qed.

(** Commands and disks leave the database alone. *)
Definition same_store `{Os : !HostOs} (w w' : World) : Prop := w_store w' = w_store w.
#[export] Instance same_store_frame `{Os : !HostOs} : CommandFrame same_store.
Proof.
  split.
  - split; [by intros w | by intros w1 w2 w3 H1 H2; unfold same_store in *; congruence].
  - intros command w. unfold system. by destruct (os_system _ _ _) as [[??]?].
  - intros command w. unfold RunCommandCapture. by destruct (os_popen _ _ _) as [[??]?].
  - intros ms w. unfold sleep_for. by destruct (os_sleep _ _ _).
  - by intros.
  - by intros.
  - by intros.
Qed.

Lemma store_resize `{Os : !HostOs} path size : moves same_store (resize_file path size).
Proof. intros w. unfold resize_file. by destruct (os_resize_file _ _ _ _) as [[??]|]. Qed.

Lemma store_ensure_disk `{Os : !HostOs} disk key sr rr :
  moves same_store (EnsureDesiredDiskRuntimeState disk key sr rr).
Proof. apply frame_ensure_disk; try apply _; intros; [done | by intros w | apply store_resize]. Qed.

(** What a disk is when it has been ensured. *)
Definition realized `{Os : !HostOs} (disk : DiskSpec) (s : DiskRuntimeState) : Prop :=
  drs_disk_name s = disk_name disk /\ drs_node_name s = disk_node_name disk /\
  drs_plane_name s = disk_plane_name disk /\ drs_mount_point s = disk_host_path disk /\
  drs_runtime_state s = if os_elevated then "mounted" else "directory-backed-fallback".

Lemma ensured_realized `{Os : !HostOs} disk key sr rr w w' s :
  EnsureDesiredDiskRuntimeState disk key sr rr w = (w', Ok s) -> realized disk s.
Proof.
  unfold EnsureDesiredDiskRuntimeState, realized. destruct os_elevated; intros H; hinv H.
  - destruct (drs_runtime_state a ==? "mounted") eqn:Em.
    + rewrite eqb_true in Em. injection H as <- <-. unfold InspectRealDiskRuntime in H0. hinv H0.
      injection H0 as _ <-. repeat case_match; done.
    + destruct (_ ==? "drifted"); [done|]. unfold EnsureRealDiskMount in H. hinv H. by injection H as _ <-.
  - by injection H as _ <-.
Qed.

(** A disk that the database knows to be there. *)
Definition disk_ready `{Os : !HostOs} (disk : DiskSpec) (s : ControllerStore) : Prop :=
  exists row, LoadDiskRuntimeState (disk_name disk) (disk_node_name disk) s = Some row /\
    drs_runtime_state row = if os_elevated then "mounted" else "directory-backed-fallback".

Lemma upsert_disk_lookup now state s name node :
  LoadDiskRuntimeState name node (UpsertDiskRuntimeState now state s) =
  if decide (name = drs_disk_name state /\ node = drs_node_name state) then
    LoadDiskRuntimeState (drs_disk_name state) (drs_node_name state) (UpsertDiskRuntimeState now state s)
  else LoadDiskRuntimeState name node s.
Proof.
  destruct (decide _) as [[-> ->]|Hne]; [done|]. unfold LoadDiskRuntimeState, UpsertDiskRuntimeState. cbn.
  apply lookup_insert_ne. intros [= E1 E2]. by apply Hne.
Qed.

Lemma upsert_disk_ready `{Os : !HostOs} now disk state s :
  realized disk state -> disk_ready disk (UpsertDiskRuntimeState now state s).
Proof.
  intros (E1 & E2 & E3 & E4 & E5). unfold disk_ready, LoadDiskRuntimeState, UpsertDiskRuntimeState. cbn.
  rewrite <-E1, <-E2, lookup_insert_eq. eexists. split; [done|]. exact E5.
Qed.

Lemma ensure_one_ready `{Os : !HostOs} `{Lib : !JsonLibrary} disk key sr rr w w' :
  (realized_state ← EnsureDesiredDiskRuntimeState disk key sr rr;
   be_UpsertDiskRuntimeState LocalDbHostdBackend realized_state) w = (w', Ok ()) ->
  exists now state, realized disk state /\ w_store w' = UpsertDiskRuntimeState now state (w_store w).
Proof.
  intros H. hinv H. pose proof (store_ensure_disk disk key sr rr w) as Hs. rewrite H0 in Hs. cbn [fst] in Hs.
  injection H as <-. exists (os_clock (w_os w0)), a. split; [by apply ensured_realized in H0|].
  cbn. by rewrite Hs.
Qed.

Lemma disks_ready_for `{Os : !HostOs} `{Lib : !JsonLibrary} disks sr rr w w' :
  hfor disks (fun disk =>
    realized_state ← EnsureDesiredDiskRuntimeState disk
                       (disk_name disk +:+ "@" +:+ disk_node_name disk) sr rr;
    be_UpsertDiskRuntimeState LocalDbHostdBackend realized_state) w = (w', Ok ()) ->
  (forall disk, disk ∈ disks -> disk_ready disk (w_store w')) /\
  (forall disk, disk_ready disk (w_store w) -> disk_ready disk (w_store w')) /\
  (forall name node, Forall (fun disk => (disk_name disk, disk_node_name disk) <> (name, node)) disks ->
   LoadDiskRuntimeState name node (w_store w') = LoadDiskRuntimeState name node (w_store w)) /\
  w_store w' = cs_with_disk_runtime (cs_disk_runtime (w_store w')) (w_store w).
Proof.
  revert w. induction disks as [|disk disks IH]; intros w; cbn [hfor]; intros H.
  - injection H as <-. split; [by intros d Hd%elem_of_nil|]. repeat split; [done..|]. by destruct (w_store w).
  - hinv H. destruct a. apply ensure_one_ready in H0 as (now & state & Hr & Es).
    apply IH in H as (H1 & H2 & H3 & H4). rewrite Es in *. repeat split.
    + intros d [-> | Hd]%elem_of_cons; [by apply H2, upsert_disk_ready | by apply H1].
    + intros d (row & Hl & Hst). apply H2. unfold disk_ready. rewrite upsert_disk_lookup.
      destruct (decide _) as [[E1 E2]|_]; [|by exists row].
      destruct (upsert_disk_ready now disk state (w_store w) Hr) as (row' & Hl' & Hst').
      destruct Hr as (F1 & F2 & _). rewrite F1, F2. by exists row'.
    + intros name node Hf. apply Forall_cons in Hf as [Hne Hf]. rewrite (H3 _ _ Hf), upsert_disk_lookup.
      destruct (decide _) as [[-> ->]|_]; [|done]. destruct Hr as (F1 & F2 & _). by rewrite F1, F2 in Hne.
    + rewrite H4 at 1. by destruct (w_store w).
Qed.

(** ** Properties *)

(** C22. No data is formatted away: whenever a disk is ensured, however often and
    whatever the commands answer, a device is formatted only right after a look at
    that same device that found no file system on it. *)
Theorem formats_only_blank_devices `{Os : !HostOs} disk key storage_root runtime_root w :
  exists l, w_log (EnsureDesiredDiskRuntimeState disk key storage_root runtime_root w).1 = w_log w ++ l /\
    formats_blank l.
Proof. apply blank_ensure_disk. Qed.

(** Disks that are reported ready are: when ensuring the disks of a desired
    state returns, the database holds each of them as mounted, or as a directory
    when the daemon has no privileges; it holds no other disk differently than
    before, and nothing else of it changed. *)
Theorem ensured_disks_ready `{Os : !HostOs} `{Lib : !JsonLibrary} state storage_root runtime_root w w' :
  EnsureDesiredDisksReady (Some LocalDbHostdBackend) state storage_root runtime_root w = (w', Ok ()) ->
  (forall disk, disk ∈ ds_disks state -> disk_ready disk (w_store w')) /\
  (forall name node, Forall (fun disk => (disk_name disk, disk_node_name disk) <> (name, node)) (ds_disks state) ->
   LoadDiskRuntimeState name node (w_store w') = LoadDiskRuntimeState name node (w_store w)) /\
  w_store w' = cs_with_disk_runtime (cs_disk_runtime (w_store w')) (w_store w).
Proof. intros H. apply disks_ready_for in H as (H1 & _ & H3 & H4). by repeat split. Qed.

(** ** A host *)

(** A host with one loop device, no file system on it and nothing mounted. *)
Definition fx_host : HostOs :=
  {| os := unit;
     os_system command files o :=
       (if starts_with "/usr/bin/mountpoint" command then 256 else 0, files, o);
     os_popen command files o :=
       (if starts_with "/usr/sbin/losetup -f" command || starts_with "/usr/sbin/losetup --find" command
        then Some ("/dev/loop0" +:+ newline) else Some "", files, o);
     os_exists path files o := path ==? "/dev/loop0";
     os_weakly_canonical path files o := None;
     os_mounts o := None;
     os_resize_file path size files o := Ok (files, o);
     os_remove_all path files o := (files, o, None);
     os_sleep milliseconds files o := (files, o);
     os_elevated := true;
     os_platform := "linux";
     os_clock o := 0;
     os_steady_clock o := 0;
     os_current_path o := None;
     os_executable_path := "" |}.

Definition fx_world : World (Os := fx_host) := mkWorld (Os := fx_host) ∅ tt empty_store None None ∅ [] [].
Definition fx_ensured : World * result unit :=
  EnsureDesiredDisksReady (Some (LocalDbHostdBackend (Lib := tree_json))) fx_plane "/var/lib/naim" None fx_world.

(** The device is formatted there. *)
Example fx_disk_formatted :
  existsb (fun e => match e with
                    | Ran command _ _ => command ==? mkfs_command "/dev/loop0"
                    | _ => false end) (w_log fx_ensured.1) = true.
Proof. vm_compute. reflexivity. Qed.

Lemma ensured_disks_ready_witness :
  exists w', fx_ensured = (w', Ok ()) /\ forall disk, disk ∈ ds_disks fx_plane -> disk_ready (Os := fx_host) disk (w_store w').
Proof.
  assert (match fx_ensured.2 with Ok _ => true | Throw _ => false end = true) as H
    by (vm_compute; reflexivity).
  destruct fx_ensured as [w' [[]|e]] eqn:E; [|discriminate H]. exists w'. split; [reflexivity|].
  destruct (ensured_disks_ready (Os := fx_host) (Lib := tree_json) fx_plane "/var/lib/naim" None fx_world w' E) as [H1 _].
  exact H1.
Defined.

(** Names are told apart by letters, digits, [-] and [_] only: two planes share the
    image of a disk. *)
Definition fx_private (plane : string) : DiskSpec :=
  mkDiskSpec "worker-a-private" WorkerPrivate plane "worker-a" "node-a" "/disks/a" "/private" 10.
Example sanitized_planes_share_image :
  ManagedDiskImagePath (fx_private "team.a") "/var/lib/naim" None =
  ManagedDiskImagePath (fx_private "team_a") "/var/lib/naim" None.
Proof. reflexivity. Qed.
