(* ===== verification/HostRuntime.v ===== *)
(** * The runtime of a plane, as its host sees it

    [hostd/src/app/hostd_runtime_telemetry_support.cpp] and
    [hostd_local_runtime_state_support.cpp]: what the containers of a plane report
    about themselves, waiting for them to be ready, and waiting for evicted workers
    to be gone. *)

From S2P Require Import Prelude Binary64 Json Models Fixtures Planner Paths InferRuntimeConfig ExecutionPlan StateCodecs StateJson RuntimeStatus ControllerStore HostLocalState HostPaths HostCommands HostDisks.

(** ** Reading text *)

(** [std::getline(stream, item, delimiter)] until the end. *)
Fixpoint getlines_on (delimiter : Ascii.ascii) (l current : list Ascii.ascii) : list string :=
  match l with
  | [] => match current with [] => [] | _ => [string_of_list (rev current)] end
  | c :: l' =>
      if Ascii.eqb c delimiter then string_of_list (rev current) :: getlines_on delimiter l' []
      else getlines_on delimiter l' (c :: current)
  end.

(** The text after the first occurrence of a needle. *)
Definition text_after (needle text : string) : option string :=
  match String.index 0 needle text with
  | None => None
  | Some n =>
      let from := (n + String.length needle)%nat in
      Some (String.substring from (String.length text - from) text)
  end.

Definition ParseTaggedValue (text key : string) : option string :=
  match text_after (key +:+ "=") text with
  | None => None
  | Some value =>
      match String.index 0 " " value with
      | Some n => Some (String.substring 0 n value)
      | None => Some value
      end
  end.

Definition ParseTaggedCsv (text key : string) : list string :=
  match ParseTaggedValue text key with
  | None => []
  | Some value =>
      List.filter (fun item => negb (str_empty item))
        (Trim <$> getlines_on ","%char (list_of_string value) [])
  end.

(** [row >> pid]: the value, and the text left when it did not fail. *)
Fixpoint drop_digits (l : list Ascii.ascii) : list Ascii.ascii :=
  match l with
  | c :: l' => if has_value (digit_of c) then drop_digits l' else l
  | [] => []
  end.
Definition read_int (l : list Ascii.ascii) : Z * option (list Ascii.ascii) :=
  let '(value, fail, _) := extract_int (string_of_list l) in
  if fail : bool then (value, None)
  else
    let l := skip_spaces l in
    (value, Some (drop_digits (match l with
                               | "-"%char :: l' => l'
                               | "+"%char :: l' => l'
                               | _ => l
                               end))).

(** One row of [docker top]: pid, command name and arguments. *)
Definition top_row (line : string) : Z * string * string :=
  let '(pid, rest) := read_int (list_of_string line) in
  match rest with
  | None => (pid, "", "")
  | Some l =>
      match read_token l with
      | None => (pid, "", "")
      | Some (comm, l) =>
          (pid, comm, Trim (from_option id "" (head (getlines_on "010"%char l []))))
      end
  end.

(** ** Containers *)

Section runtime.
Context `{Os : !HostOs}.

Definition ResolveComposeContainerIdForService (service_name : string) : hprog (option string) :=
  docker ← ResolvedDockerCommand;
  output ← RunCommandCapture (docker +:+ " ps --filter label=com.docker.compose.service=" +:+
                              service_name +:+ " --format '{{.ID}}' 2>/dev/null");
  mret (find_if (fun id => negb (str_empty id))
          (Trim <$> getlines_on "010"%char (list_of_string output) [])).

(** The first row of a daemon's own process, else the first that is no shell. *)
Fixpoint pick_pid (lines : list string) (fallback_pid : option Z) : option Z :=
  match lines with
  | [] => fallback_pid
  | line :: lines' =>
      let line := Trim line in
      if str_empty line then pick_pid lines' fallback_pid
      else
        let '(pid, comm, args) := top_row line in
        if pid <=? 0 then pick_pid lines' fallback_pid
        else if contains_text "naim-workerd" args || contains_text "naim-inferctl" args then Some pid
        else if (comm !=? "tini") && (comm !=? "bash") && (comm !=? "sh") &&
                negb (has_value fallback_pid)
        then pick_pid lines' (Some pid)
        else pick_pid lines' fallback_pid
  end.

Definition ResolveServiceHostPid (service_name : string) : hprog (option Z) :=
  container_id ← ResolveComposeContainerIdForService service_name;
  match container_id with
  | None => mret None
  | Some id =>
      docker ← ResolvedDockerCommand;
      output ← RunCommandCapture (docker +:+ " top " +:+ id +:+ " -eo pid,comm,args 2>/dev/null");
      mret (pick_pid (tail (getlines_on "010"%char (list_of_string output) [])) None)
  end.

Fixpoint CaptureServiceHostPids (service_names : list string) : hprog (gmap string Z) :=
  match service_names with
  | [] => mret ∅
  | service_name :: service_names' =>
      pid ← ResolveServiceHostPid service_name;
      rest ← CaptureServiceHostPids service_names';
      mret (match pid with Some pid => <[service_name := pid]> rest | None => rest end)
  end.

Definition IsContainerAbsentForService (service_name : string) : hprog bool :=
  container_id ← ResolveComposeContainerIdForService service_name;
  mret (negb (has_value container_id)).

(** ** Status files *)

Definition private_kind (role : InstanceRole) : option DiskKind :=
  match role with
  | Worker => Some WorkerPrivate
  | Skills => Some SkillsPrivate
  | Browsing => Some BrowsingPrivate
  | VoiceModule => Some VoiceModulePrivate
  | Interaction => Some InteractionPrivate
  | _ => None
  end.

Definition status_file (role : InstanceRole) : string :=
  match role with
  | Skills => "skills-runtime-status.json"
  | Browsing => "webgateway-runtime-status.json"
  | VoiceModule => "voice-module-runtime-status.json"
  | Interaction => "interaction-runtime-status.json"
  | _ => "worker-runtime-status.json"
  end.

Definition WorkerRuntimeStatusPathForInstance (state : DesiredState) (instance : InstanceSpec)
    : option string :=
  kind ← private_kind (inst_role instance);
  disk ← find_if (fun disk => (disk_kind disk ==? kind) &&
                              (disk_owner_name disk ==? inst_name instance) &&
                              (disk_node_name disk ==? inst_node_name instance)) (ds_disks state);
  Some (path_append (disk_host_path disk) (status_file (inst_role instance))).

Definition or_text (text fallback : string) : string := if str_empty text then fallback else text.

Definition ToProcessStatus (status : RuntimeStatus) (instance : InstanceSpec) : RuntimeProcessStatus :=
  {| rps_instance_name := or_text (rst_instance_name status) (inst_name instance);
     rps_instance_role := or_text (rst_instance_role status) (InstanceRole_ToString (inst_role instance));
     rps_node_name := or_text (rst_node_name status) (inst_node_name instance);
     rps_model_path := or_text (rst_model_path status) (rst_cached_local_model_path status);
     rps_gpu_device := or_text (rst_gpu_device status) (default "" (inst_gpu_device instance));
     rps_runtime_phase := rst_runtime_phase status;
     rps_started_at := rst_started_at status;
     rps_last_activity_at := rst_last_activity_at status;
     rps_runtime_pid := rst_runtime_pid status;
     rps_engine_pid := rst_engine_pid status;
     rps_ready := rst_ready status || rst_launch_ready status || rst_inference_ready status;
     rps_plane_name := or_text (rst_plane_name status) (inst_plane_name instance) |}.

(** A voice module without a status file is what its container is. *)
Definition BuildContainerRuntimeStatusForInstance (instance : InstanceSpec)
    : hprog (option RuntimeProcessStatus) :=
  if inst_role instance !=? VoiceModule then mret None
  else
    host_pid ← ResolveServiceHostPid (inst_name instance);
    mret ((fun pid =>
      {| rps_instance_name := inst_name instance;
         rps_instance_role := InstanceRole_ToString (inst_role instance);
         rps_node_name := inst_node_name instance;
         rps_model_path := "";
         rps_gpu_device := default "" (inst_gpu_device instance);
         rps_runtime_phase := "running";
         rps_started_at := "";
         rps_last_activity_at := "";
         rps_runtime_pid := pid;
         rps_engine_pid := pid;
         rps_ready := true;
         rps_plane_name := inst_plane_name instance |}) <$> host_pid).

(** ** What a plane reports *)

Context `{Lib : !JsonLibrary} (render_v2 : json -> result DesiredState).

Definition instance_status (local_state : DesiredState) (instance : InstanceSpec)
    : hprog (option RuntimeProcessStatus) :=
  let infer_status_path :=
    if inst_role instance ==? Infer then InferRuntimeStatusPathForInstance local_state instance
    else None in
  let selected_path :=
    match infer_status_path with
    | Some path => Some path
    | None => WorkerRuntimeStatusPathForInstance local_state instance
    end in
  match selected_path with
  | None => BuildContainerRuntimeStatusForInstance instance
  | Some path =>
      present ← hread (path_exists path);
      if negb present then BuildContainerRuntimeStatusForInstance instance
      else
        status ← hload (fun files => RuntimeStatus.Load files path);
        mret ((fun status => ToProcessStatus status instance) <$> status)
  end.

Fixpoint instance_statuses (items : list (DesiredState * InstanceSpec))
    : hprog (list RuntimeProcessStatus) :=
  match items with
  | [] => mret []
  | (local_state, instance) :: items' =>
      status ← instance_status local_state instance;
      rest ← instance_statuses items';
      mret (option_list status ++ rest)
  end.

Definition on_node (node_name : string) (state : DesiredState) : list (DesiredState * InstanceSpec) :=
  pair state <$> List.filter (fun instance => inst_node_name instance ==? node_name) (ds_instances state).

Definition LoadLocalInstanceRuntimeStatuses (state_root node_name : string)
    (plane_name : option string) : hprog (list RuntimeProcessStatus) :=
  local_states ← hload (fun files =>
     match plane_name with
     | Some plane => state ← LoadLocalAppliedState render_v2 state_root node_name (Some plane) files;
                     Ok (option_list state)
     | None => LoadAllLocalAppliedStates render_v2 state_root node_name files
     end);
  instance_statuses (local_states ≫= on_node node_name).

(** The status of the first plane that has one. *)
Fixpoint first_status (node_name : string) (files : Files) (states : list DesiredState)
    : result (option RuntimeStatus) :=
  match states with
  | [] => Ok None
  | state :: states' =>
      match RuntimeStatusPathForNode state node_name with
      | None => first_status node_name files states'
      | Some path =>
          status ← RuntimeStatus.Load files path;
          match status with
          | Some status => Ok (Some status)
          | None => first_status node_name files states'
          end
      end
  end.

Definition LoadLocalRuntimeStatus (state_root node_name : string) (plane_name : option string)
    (files : Files) : result (option RuntimeStatus) :=
  match plane_name with
  | Some _ =>
      local_state ← LoadLocalAppliedState render_v2 state_root node_name plane_name files;
      match local_state with
      | None => Ok None
      | Some state =>
          match RuntimeStatusPathForNode state node_name with
          | None => Ok None
          | Some path => RuntimeStatus.Load files path
          end
      end
  | None =>
      states ← LoadAllLocalAppliedStates render_v2 state_root node_name files;
      first_status node_name files states
  end.

(** ** Waiting *)

(** [while (now < deadline) { if (ready()) return; sleep_for(interval); }]: every
    round sleeps, so [polls] rounds of [interval] reach the deadline. *)
Fixpoint poll_until {A} (polls : nat) (deadline interval : Z) (ready : hprog (option A))
    (timed_out : hprog A) : hprog A :=
  match polls with
  | O => timed_out
  | S polls' =>
      now ← hread (fun w => os_steady_clock (w_os w));
      if negb (now <? deadline) then timed_out
      else
        done ← ready;
        match done with
        | Some a => mret a
        | None => sleep_for interval ≫= fun _ => poll_until polls' deadline interval ready timed_out
        end
  end.

Definition runtime_ready (status : RuntimeStatus) : bool :=
  rst_ready status && rst_launch_ready status && rst_inference_ready status &&
  (str_empty (rst_gateway_health_url status) || rst_gateway_ready status).

(** 300 seconds in rounds of a quarter of a second. *)
Definition wait_polls : nat := 1200.

Definition WaitForLocalRuntimeStatus (state_root node_name : string) (plane_name : option string)
    : hprog unit :=
  start ← hread (fun w => os_steady_clock (w_os w));
  poll_until wait_polls (start + 300000) 250
    (status ← hload (LoadLocalRuntimeStatus state_root node_name plane_name);
     mret (if from_option runtime_ready false status then Some () else None))
    (hthrow ("timed out waiting for plane runtime readiness on node '" +:+ node_name +:+ "'")).

Definition InstanceProducesRuntimeStatus (instance : InstanceSpec) : bool :=
  (inst_role instance ==? Infer) || (inst_role instance ==? Worker) ||
  (inst_role instance ==? Skills) || (inst_role instance ==? Interaction).

Definition ExpectedRuntimeStatusCountForNode (desired_node_state : DesiredState) (node_name : string) : Z :=
  Z.of_nat (length (List.filter (fun instance => (inst_node_name instance ==? node_name) &&
                                                 InstanceProducesRuntimeStatus instance)
                      (ds_instances desired_node_state))).

Definition ExpectedRuntimeStatusCountForComposePlan (compose_plan : NodeComposePlan) : Z :=
  Z.of_nat (length (List.filter (fun service =>
    match svc_environment service !! "NAIM_INSTANCE_ROLE" with
    | Some role => (role ==? "infer") || (role ==? "worker")
    | None => false
    end) (ncp_services compose_plan))).

Definition process_ready (status : RuntimeProcessStatus) : bool :=
  rps_ready status && ((rps_runtime_phase status ==? "running") || (rps_runtime_phase status ==? "ready")).

Definition WaitForLocalInstanceRuntimeStatuses (state_root node_name : string)
    (plane_name : option string) (expected_count : Z) : hprog unit :=
  if expected_count =? 0 then mret ()
  else
    start ← hread (fun w => os_steady_clock (w_os w));
    poll_until wait_polls (start + 300000) 250
      (statuses ← LoadLocalInstanceRuntimeStatuses state_root node_name plane_name;
       mret (if expected_count <=? Z.of_nat (length (List.filter process_ready statuses))
             then Some () else None))
      (hthrow ("timed out waiting for instance runtime readiness on node '" +:+ node_name +:+ "'")).

(** ** Evictions *)

Fixpoint ResolveInstanceHostPids (statuses : list RuntimeProcessStatus)
    : hprog (list RuntimeProcessStatus) :=
  match statuses with
  | [] => mret []
  | status :: statuses' =>
      host_pid ← ResolveServiceHostPid (rps_instance_name status);
      rest ← ResolveInstanceHostPids statuses';
      mret (match host_pid with
            | None => status
            | Some pid =>
                mkRuntimeProcessStatus (rps_instance_name status) (rps_instance_role status)
                  (rps_node_name status) (rps_model_path status) (rps_gpu_device status)
                  (rps_runtime_phase status) (rps_started_at status) (rps_last_activity_at status)
                  pid pid (rps_ready status) (rps_plane_name status)
            end :: rest)
  end.

(** [all_of], one service after the other up to the first that is there. *)
Fixpoint victims_gone (victim_names : list string) : hprog bool :=
  match victim_names with
  | [] => mret true
  | victim_name :: victim_names' =>
      absent ← IsContainerAbsentForService victim_name;
      if negb absent then mret false else victims_gone victim_names'
  end.

Definition gpu_released (victim_names : list string) (victim_host_pids : gmap string Z)
    (telemetry : GpuTelemetrySnapshot) : bool :=
  forallb (fun device =>
    forallb (fun process =>
      negb (existsb (fun name => name ==? gpt_instance_name process) victim_names) &&
      negb (existsb (fun pid => gpt_pid process =? pid) (map_items victim_host_pids).*2))
      (gdt_processes device)) (gts_devices telemetry).

(** The free memory of the target as the last report of it says. *)
Definition memory_ready (target_gpu : option string) (required_memory_cap_mb : Z)
    (telemetry : GpuTelemetrySnapshot) : bool :=
  match target_gpu with
  | None => true
  | Some gpu =>
      match find_last_if (fun device => gdt_gpu_device device ==? gpu) (gts_devices telemetry) with
      | Some device => required_memory_cap_mb + 1024 <=? gdt_free_vram_mb device
      | None => false
      end
  end.

(** [HostdSystemTelemetryCollector::CollectGpuTelemetry]. *)
Context (CollectGpuTelemetry : DesiredState -> string -> list RuntimeProcessStatus ->
           hprog GpuTelemetrySnapshot).

Fixpoint verify_eviction (polls : nat) (deadline : Z) (stable_samples : Z) (local_state : DesiredState)
    (node_name state_root : string) (victim_names : list string) (target_gpu : option string)
    (required_memory_cap_mb : Z) (victim_host_pids : gmap string Z) : hprog bool :=
  match polls with
  | O => mret false
  | S polls' =>
      now ← hread (fun w => os_steady_clock (w_os w));
      if negb (now <? deadline) then mret false
      else
        gone ← victims_gone victim_names;
        statuses ← LoadLocalInstanceRuntimeStatuses state_root node_name None;
        statuses ← ResolveInstanceHostPids statuses;
        telemetry ← CollectGpuTelemetry local_state node_name statuses;
        let stable_samples :=
          if gone && gpu_released victim_names victim_host_pids telemetry &&
             memory_ready target_gpu required_memory_cap_mb telemetry
          then stable_samples + 1 else 0 in
        if 3 <=? stable_samples then mret true
        else
          sleep_for 2000 ≫= fun _ =>
          verify_eviction polls' deadline stable_samples local_state node_name state_root victim_names
            target_gpu required_memory_cap_mb victim_host_pids
  end.

Definition VerifyEvictionAssignment (local_state : DesiredState) (node_name state_root status_message : string)
    (victim_host_pids : gmap string Z) : hprog bool :=
  required ← hlift (match ParseTaggedValue status_message "required_memory_cap_mb" with
                    | Some value => stoi value
                    | None => Ok 0
                    end);
  start ← hread (fun w => os_steady_clock (w_os w));
  verify_eviction 15 (start + 30000) 0 local_state node_name state_root
    (ParseTaggedCsv status_message "victims") (ParseTaggedValue status_message "target_gpu") required
    victim_host_pids.
End runtime.

(** ** Lemmas *)

Section runtime_lemmas.
Context `{Os : !HostOs}.

(** What the poll found when it stopped by itself. *)
Lemma poll_until_found {A} polls deadline interval (ready : hprog (option A)) message w w' a :
  poll_until polls deadline interval ready (hthrow message) w = (w', Ok a) ->
  exists w0, ready w0 = (w', Ok (Some a)).
Proof.
  revert w. induction polls as [|polls IH]; intros w H; cbn [poll_until] in H; [done|].
  apply hbind_inv in H as (w1 & now & H1 & H). injection H1 as <- <-. destruct (negb _); [done|].
  apply hbind_inv in H as (w2 & r & Hr & H). destruct r as [x|].
  - injection H as <- <-. by exists w.
  - apply hbind_inv in H as (w3 & [] & _ & H). by apply IH in H.
Qed.

(** Waiting stops: on a clock that a sleep moves on, the bound on the rounds is
    never what ends them. *)
Lemma poll_until_deadline {A} (m : hprog (option A)) (t : hprog A) interval deadline polls w :
  0 < interval ->
  (forall w, os_steady_clock (w_os w) <= os_steady_clock (w_os (m w).1)) ->
  (forall w, os_steady_clock (w_os w) + interval <= os_steady_clock (w_os (sleep_for interval w).1)) ->
  deadline <= os_steady_clock (w_os w) + Z.of_nat polls * interval ->
  forall more, poll_until polls deadline interval m t w = poll_until (polls + more) deadline interval m t w.
Proof.
  intros Hi Hm Hs. revert w. induction polls as [|polls IH]; intros w Hd more.
  - destruct more as [|more]; [done|]. cbn [poll_until Nat.add]. unfold mbind, hprog_bind, hread.
    by rewrite (proj2 (Z.ltb_ge _ _)) by lia.
  - cbn [poll_until Nat.add]. unfold mbind, hprog_bind, hread.
    destruct (negb _) eqn:En; [done|]. specialize (Hm w).
    destruct (m w) as [w1 [[a|]|e]] eqn:Em; [done| |done]. cbn [fst] in Hm.
    pose proof (Hs w1) as Hs1. destruct (sleep_for interval w1) as [w2 [[]|e]] eqn:Es; [|done].
    cbn [fst] in Hs1. apply IH. lia.
Qed.
End runtime_lemmas.

(** ** Frames *)

Section runtime_frames.
Context `{Os : !HostOs} `{Lib : !JsonLibrary} (render_v2 : json -> result DesiredState)
  (R : World -> World -> Prop) `{!CommandFrame R}.

Lemma frame_poll {A} polls deadline interval (ready : hprog (option A)) timed_out :
  moves R ready -> moves R timed_out -> moves R (poll_until polls deadline interval ready timed_out).
Proof. intros Hr Ht. induction polls as [|polls IH]; cbn [poll_until]; moves. Qed.

Lemma frame_container service : moves R (ResolveComposeContainerIdForService service).
Proof. unfold ResolveComposeContainerIdForService. moves. Qed.
Hint Resolve frame_container : moves.

Lemma frame_pid service : moves R (ResolveServiceHostPid service).
Proof. unfold ResolveServiceHostPid. moves. Qed.
Hint Resolve frame_pid : moves.

Lemma frame_pids services : moves R (CaptureServiceHostPids services).
Proof. induction services as [|service services IH]; cbn [CaptureServiceHostPids]; moves. Qed.

Lemma frame_statuses root node plane : moves R (LoadLocalInstanceRuntimeStatuses render_v2 root node plane).
Proof.
  unfold LoadLocalInstanceRuntimeStatuses. apply moves_bind; [apply _|moves|]. intros states.
  induction (states ≫= on_node node) as [|[s i] items IH]; cbn [instance_statuses]; [moves|].
  unfold instance_status, BuildContainerRuntimeStatusForInstance. moves.
Qed.
Hint Resolve frame_statuses : moves.

Lemma frame_wait_status root node plane : moves R (WaitForLocalRuntimeStatus render_v2 root node plane).
Proof.
  unfold WaitForLocalRuntimeStatus. apply moves_bind; [apply _|moves|]. intros start. apply frame_poll; moves.
Qed.

Lemma frame_wait_instances root node plane expected :
  moves R (WaitForLocalInstanceRuntimeStatuses render_v2 root node plane expected).
Proof.
  unfold WaitForLocalInstanceRuntimeStatuses. destruct (_ =? 0); [moves|].
  apply moves_bind; [apply _|moves|]. intros start. apply frame_poll; moves.
Qed.

Lemma frame_eviction collect state node root message pids :
  (forall state node statuses, moves R (collect state node statuses)) ->
  moves R (VerifyEvictionAssignment render_v2 collect state node root message pids).
Proof.
  intros Hc. unfold VerifyEvictionAssignment. moves.
  match goal with |- moves _ (verify_eviction _ _ ?n _ ?s _ _ _ _ _ _ _) => generalize n, s end.
  assert (forall names, moves R (victims_gone names)) as Hv.
  { intros names. unfold victims_gone, IsContainerAbsentForService.
    induction names as [|name names IH]; cbn; moves. }
  assert (forall statuses, moves R (ResolveInstanceHostPids statuses)) as Hp.
  { intros statuses. induction statuses as [|status statuses IH]; cbn [ResolveInstanceHostPids]; moves. }
  intros polls. induction polls as [|polls IH]; intros samples; cbn [verify_eviction]; moves.
Qed.
End runtime_frames.
#[export] Hint Resolve frame_container frame_pid frame_pids frame_statuses frame_wait_status
  frame_wait_instances frame_eviction : moves.

(** ** Properties *)

(** Waiting for a plane returns only when its runtime says it is ready: the status
    on disk at that moment is ready, launched and serving, with its gateway if it
    has one. *)
Theorem runtime_wait_sound `{Os : !HostOs} `{Lib : !JsonLibrary} render_v2 state_root node_name plane w w' :
  WaitForLocalRuntimeStatus render_v2 state_root node_name plane w = (w', Ok ()) ->
  exists status, LoadLocalRuntimeStatus render_v2 state_root node_name plane (w_files w') = Ok (Some status) /\
    runtime_ready status = true.
Proof.
  unfold WaitForLocalRuntimeStatus. intros H. apply hbind_inv in H as (w1 & start & _ & H).
  apply poll_until_found in H as (w0 & H). apply hbind_inv in H as (w2 & status & H1 & H).
  unfold hload in H1. injection H1 as <- E. destruct status as [status|]; [|done]. cbn in H.
  destruct (runtime_ready status) eqn:Er; [|done]. injection H as <-. by exists status.
Qed.

(** ** What waiting for instances does not see *)

Definition fx_private_disk (name : string) (kind : DiskKind) (owner path : string) : DiskSpec :=
  mkDiskSpec name kind "demo" owner "node-a" path "/private" 10.
Definition fx_role (i : InstanceSpec) : InstanceSpec :=
  fx_with_ports [] (<["NAIM_INSTANCE_ROLE" := InstanceRole_ToString (inst_role i)]> ∅) i.

(** An infer instance, a worker and a skills service on one node. *)
Definition fx_three : DesiredState :=
  fx_state [fx_node "node-a" ∅]
    [fx_disk "shared" "node-a" "/var/naim/a" 100;
     fx_private_disk "worker-a-private" WorkerPrivate "worker-a" "/var/naim/worker-a";
     fx_private_disk "skills-private" SkillsPrivate "skills" "/var/naim/skills"]
    (fx_role <$>
     [fx_instance "infer-demo" Infer "node-a" "shared" None Exclusive d0 100 false None;
      fx_instance "worker-a" Worker "node-a" "shared" None Exclusive d0 100 false None;
      fx_instance "skills" Skills "node-a" "shared" None Exclusive d0 100 false None]).

Definition fx_running : string :=
  match dump (JsonLibrary := tree_json) (JObject [("runtime_phase", JString "running"); ("ready", JBool true)]) with
  | Ok text => text | Throw _ => "" end.

(** The infer instance and the skills service run; nothing is heard of the worker. *)
Definition fx_three_files : Files :=
  <["/var/naim/a/control/demo/infer/infer-demo/runtime-status.json" := fx_running]>
  (<["/var/naim/skills/skills-runtime-status.json" := fx_running]>
   (SaveLocalAppliedState (Lib := tree_json) "/state" "node-a" fx_three (Some "demo") ∅).1).

Definition fx_three_expected : Z :=
  match FindNodeComposePlan None fx_three "node-a" with
  | Ok (Some plan) => ExpectedRuntimeStatusCountForComposePlan plan
  | _ => 0
  end.

Example wait_counts_other_services :
  fx_three_expected = 2 /\
  (WaitForLocalInstanceRuntimeStatuses (Os := fx_host) (Lib := tree_json) no_render "/state" "node-a"
     (Some "demo") fx_three_expected
     (mkWorld (Os := fx_host) fx_three_files tt empty_store None None ∅ [] [])).2 = Ok ().
Proof. split; vm_compute; reflexivity. Qed.

(** The name of a service reaches the shell as it is. *)
Example service_name_unquoted :
  sh_word Unquoted (list_of_string ("label=com.docker.compose.service=" +:+ "x;reboot" +:+ " --format")) =
  Some (list_of_string "label=com.docker.compose.service=x", list_of_string ";reboot --format").
Proof. reflexivity. Qed.
