(* ===== verification/HostApply.v ===== *)
(** * Applying a desired state on a host

    [hostd/src/app]: [hostd_desired_state_apply_plan_support.cpp] carries out the
    operations of an execution plan, [hostd_desired_state_apply_support.cpp]
    brings a node to the state it is sent and records it, [hostd_post_deploy_support.cpp]
    runs the script of a plane afterwards; [hostd_desired_state_display_support.cpp]
    picks the plan of the node.

    Fetching models is an argument: [HostModels] stands for
    [hostd_bootstrap_model_support.cpp] and for the transfer of an app's model from
    another node. *)

From S2P Require Import Prelude Binary64 Json Models Fixtures Planner Paths InferRuntimeConfig Reconcile ExecutionPlan ComposeRenderer StateCodecs StateJson AssignmentStore AssignmentReconciliation RuntimeStatus ControllerStore HostLocalState HostPaths HostCommands HostDisks HostRuntime.

(** ** The operations of a plan *)

(** [publish_progress(phase, title, detail, percent, plane_name, node_name)] *)
Definition ProgressPublisher `{Os : !HostOs} : Type :=
  string -> string -> string -> Z -> string -> string -> hprog unit.

Definition IsDesiredNodeStateEmpty (state : DesiredState) : bool :=
  vec_empty (ds_disks state) && vec_empty (ds_instances state).

(** The order in which operations are carried out: what stops the old project
    first, what starts the new one last. *)
Definition stops (operation : HostOperation) : bool :=
  (op_kind operation ==? ComposeDown) || (op_kind operation ==? RemoveComposeFile).
Definition starts (operation : HostOperation) : bool := op_kind operation ==? ComposeUp.

Definition apply_order (operations : list HostOperation) : list HostOperation :=
  List.filter stops operations ++
  List.filter (fun operation => negb (stops operation || starts operation)) operations ++
  List.filter starts operations.

Section apply.
Context `{Os : !HostOs}.

(** Whether a recorded disk has something to detach. *)
Definition attached (s : DiskRuntimeState) : bool :=
  (negb (str_empty (drs_mount_point s)) && (drs_runtime_state s ==? "mounted")) ||
  (drs_runtime_state s ==? "mounted") || negb (str_empty (drs_loop_device s)) ||
  negb (str_empty (drs_image_path s)).

Definition removed_disk_state (s : DiskRuntimeState) (delegated_shared_remove : bool)
    (mount_point : string) (runtime_root : option string) : DiskRuntimeState :=
  mkDiskRuntimeState (drs_disk_name s) (drs_plane_name s) (drs_node_name s)
    (if has_value runtime_root then "" else drs_image_path s) (drs_filesystem_type s) "" mount_point
    "removed" (drs_attached_at s) (drs_mounted_at s) (drs_last_verified_at s)
    (if delegated_shared_remove then "plane-shared disk removal delegated to primary infer node"
     else "managed disk detached and removed by hostd")
    (drs_updated_at s).

(** [case RemoveDisk].  A disk is only detached when the database has a record of it. *)
Definition remove_disk (plan : NodeExecutionPlan) (desired_node_state : DesiredState)
    (runtime_root : option string) (backend : option HostdBackend) (operation : HostOperation)
    : hprog unit :=
  let '(disk_name, disk_node_name) := SplitDiskKey (op_target operation) in
  runtime_state ← match backend with
                  | None => mret None
                  | Some backend => be_LoadDiskRuntimeState backend disk_name disk_node_name
                  end;
  let is_plane_shared_disk :=
    any_of (fun disk => (Models.disk_name disk ==? disk_name) &&
                        (Models.disk_node_name disk ==? disk_node_name) &&
                        (disk_kind disk ==? PlaneShared)) (ds_disks desired_node_state) in
  let delegated_shared_remove :=
    is_plane_shared_disk &&
    (disk_node_name !=? inf_primary_infer_node (ds_inference desired_node_state)) in
  match runtime_state with
  | Some s =>
      if os_elevated && attached s then
        let effective_state :=
          mkDiskRuntimeState (drs_disk_name s)
            (if str_empty (drs_plane_name s) then nep_plane_name plan else drs_plane_name s)
            (if str_empty (drs_node_name s) then disk_node_name else drs_node_name s)
            (drs_image_path s) (drs_filesystem_type s) (drs_loop_device s) (drs_mount_point s)
            (drs_runtime_state s) (drs_attached_at s) (drs_mounted_at s) (drs_last_verified_at s)
            (drs_status_message s) (drs_updated_at s) in
        hwhen (negb delegated_shared_remove) (RemoveRealDiskMount effective_state runtime_root) ≫= fun _ =>
        match backend with
        | Some backend =>
            be_UpsertDiskRuntimeState backend
              (removed_disk_state effective_state delegated_shared_remove (op_details operation)
                 runtime_root)
        | None => mret ()
        end
      else RemoveDiskDirectory (op_details operation) runtime_root
  | None => RemoveDiskDirectory (op_details operation) runtime_root
  end.

(** [nlohmann::json::dump] of a runtime configuration. *)
Context (dump_config : json -> result string).

Definition apply_operation (plan : NodeExecutionPlan) (desired_node_state : DesiredState)
    (compose_plan : NodeComposePlan) (storage_root : string) (runtime_root : option string)
    (compose_mode : ComposeMode) (backend : option HostdBackend) (publish_progress : ProgressPublisher)
    (operation : HostOperation) : hprog unit :=
  let publish phase title detail percent :=
    publish_progress phase title detail percent (ds_plane_name desired_node_state)
      (nep_node_name plan) in
  match op_kind operation with
  | EnsureDisk =>
      match FindDiskInStateByKey (Some desired_node_state) (op_target operation) with
      | None => hthrow ("missing desired disk for ensure operation '" +:+ op_target operation +:+ "'")
      | Some disk =>
          realized_state ← EnsureDesiredDiskRuntimeState disk (op_target operation) storage_root
                             runtime_root;
          match backend with
          | Some backend => be_UpsertDiskRuntimeState backend realized_state
          | None => mret ()
          end
      end
  | RemoveDisk => remove_disk plan desired_node_state runtime_root backend operation
  | EnsureService | RemoveService => mret ()
  | WriteInferRuntimeConfig =>
      publish "rendering-runtime" "Rendering runtime" "Writing infer runtime configuration." 84
      ≫= fun _ =>
      text ← hlift
        (if str_empty (op_details operation)
         then RenderInferRuntimeConfigJson dump_config desired_node_state
         else RenderInferRuntimeConfigJsonForInstance dump_config desired_node_state
                (op_details operation));
      WriteTextFile (op_target operation) text
  | RemoveInferRuntimeConfig => RemoveFileIfExists (op_target operation)
  | WriteComposeFile =>
      publish "rendering-runtime" "Rendering runtime" "Writing docker compose plan for the node." 88
      ≫= fun _ => WriteTextFile (op_target operation) (RenderComposeYaml compose_plan)
  | RemoveComposeFile => RemoveFileIfExists (op_target operation)
  | ComposeUp =>
      publish "starting-runtime" "Starting runtime" "Starting infer and worker services on the node." 92
      ≫= fun _ =>
      EnsureComposeImagesAvailable compose_plan compose_mode ≫= fun _ =>
      EnsureComposeMeshNetworkAvailable compose_plan compose_mode ≫= fun _ =>
      RunComposeCommand (op_target operation) "up -d" compose_mode
  | ComposeDown => RunComposeCommand (op_target operation) "down" compose_mode
  end.

Definition ApplyNodePlan (plan : NodeExecutionPlan) (desired_node_state : DesiredState)
    (compose_plan : NodeComposePlan) (storage_root : string) (runtime_root : option string)
    (compose_mode : ComposeMode) (backend : option HostdBackend) (publish_progress : ProgressPublisher)
    : hprog unit :=
  let apply :=
    apply_operation plan desired_node_state compose_plan storage_root runtime_root compose_mode
      backend publish_progress in
  hfor (nep_operations plan) (fun operation => hwhen (stops operation) (apply operation)) ≫= fun _ =>
  hfor (nep_operations plan) (fun operation =>
    hwhen (negb (stops operation || starts operation)) (apply operation)) ≫= fun _ =>
  hfor (nep_operations plan) (fun operation => hwhen (starts operation) (apply operation)) ≫= fun _ =>
  hwhen (IsDesiredNodeStateEmpty desired_node_state)
    (RemoveComposeMeshNetworkIfUnused (nep_plane_name plan) compose_mode).

Definition StopAndRemoveComposeArtifactIfPresent (artifacts_root plane_name node_name : string)
    (compose_mode : ComposeMode) : hprog bool :=
  let compose_file_path := ComposePath artifacts_root plane_name node_name in
  present ← hread (path_exists compose_file_path);
  if negb present then mret false
  else
    RunComposeCommand compose_file_path "down" compose_mode ≫= fun _ =>
    RemoveFileIfExists compose_file_path ≫= fun _ =>
    RemoveComposeMeshNetworkIfUnused plane_name compose_mode ≫= fun _ =>
    mret true.

(** ** The script of a plane *)

Definition NodeHasAppInstance (desired_node_state : DesiredState) (node_name : string) : bool :=
  any_of (fun instance => (inst_node_name instance ==? node_name) && (inst_role instance ==? App))
    (ds_instances desired_node_state).

Definition ShouldRunForNode (desired_node_state : DesiredState) (node_name : string) : bool :=
  if str_empty (default "" (ds_post_deploy_script desired_node_state)) then false
  else
    let primary := inf_primary_infer_node (ds_inference desired_node_state) in
    if negb (str_empty primary) then primary ==? node_name
    else if NodeHasAppInstance desired_node_state node_name then true
    else match ds_nodes desired_node_state with
         | front :: _ => Models.node_name front ==? node_name
         | [] => false
         end.

Definition TailTextFile (path : string) (w : World) : string :=
  match w_files w !! path with
  | None => ""
  | Some text =>
      let read_size := Nat.min (String.length text) 4096 in
      String.substring (String.length text - read_size) read_size text
  end.

Definition BuildProgressPayload (phase title detail : string) (percent : Z)
    (plane_name node_name : string) : json :=
  JObject [("phase", JString phase); ("title", JString title); ("detail", JString detail);
           ("percent", JInt (Z.max 0 (Z.min 100 percent))); ("plane_name", JString plane_name);
           ("node_name", JString node_name)].

Definition PublishProgress (backend : option HostdBackend) (assignment_id : option Z) (progress : json)
    : hprog unit :=
  match backend, assignment_id with
  | Some backend, Some id => be_UpdateHostAssignmentProgress backend id progress ≫= fun _ => mret ()
  | _, _ => mret ()
  end.

Definition post_deploy_command (script_path plane_name node_name artifacts_root storage_root state_root
    runtime_root log_path generation assignment : string) : string :=
  "cd " +:+ ShellQuote (parent_path script_path) +:+ " && " +:+
  "NAIM_PLANE_NAME=" +:+ ShellQuote plane_name +:+ " " +:+
  "NAIM_NODE_NAME=" +:+ ShellQuote node_name +:+ " " +:+
  "NAIM_ARTIFACTS_ROOT=" +:+ ShellQuote artifacts_root +:+ " " +:+
  "NAIM_STORAGE_ROOT=" +:+ ShellQuote storage_root +:+ " " +:+
  "NAIM_STATE_ROOT=" +:+ ShellQuote state_root +:+ " " +:+
  "NAIM_RUNTIME_ROOT=" +:+ ShellQuote runtime_root +:+ " " +:+
  "NAIM_POST_DEPLOY_LOG=" +:+ ShellQuote log_path +:+ " " +:+
  "NAIM_DESIRED_GENERATION=" +:+ ShellQuote generation +:+ " " +:+
  "NAIM_ASSIGNMENT_ID=" +:+ ShellQuote assignment +:+ " " +:+
  ShellQuote script_path +:+ " >" +:+ ShellQuote log_path +:+ " 2>&1".

Definition RunIfNeeded (desired_node_state : DesiredState) (node_name artifacts_root storage_root : string)
    (runtime_root : option string) (state_root : string) (desired_generation assignment_id : option Z)
    (backend : option HostdBackend) : hprog unit :=
  if negb (ShouldRunForNode desired_node_state node_name) then mret ()
  else
    let script := default "" (ds_post_deploy_script desired_node_state) in
    script_path ← hread (ResolvePlaneOwnedPath desired_node_state script artifacts_root);
    match script_path with
    | None =>
        hthrow ("post_deploy_script was configured but could not be resolved: " +:+ script)
    | Some script_path =>
        let plane_name := ds_plane_name desired_node_state in
        let log_path :=
          path_append (LocalPlaneRoot state_root node_name plane_name) "post-deploy.log" in
        PublishProgress backend assignment_id
          (BuildProgressPayload "running-post-deploy" "Running post-deploy hook"
             "Executing plane post_deploy_script after runtime readiness." 99 plane_name node_name)
        ≫= fun _ =>
        rc ← system (post_deploy_command script_path plane_name node_name artifacts_root storage_root
                       state_root (default "" runtime_root) log_path
                       (from_option to_string "" desired_generation)
                       (from_option to_string "" assignment_id));
        if rc =? 0 then mret ()
        else
          tail ← hread (TailTextFile log_path);
          hthrow ("post_deploy_script failed with exit code " +:+ to_string rc +:+
                  (if str_empty tail then "" else ": " +:+ Trim tail))
    end.
End apply.

(** ** Models on the host *)

Class HostModels `{Os : !HostOs} := {
  BootstrapPlaneModelIfNeeded : DesiredState -> string -> option HostdBackend -> option Z -> hprog unit;
  TransferAppModel : string -> AppModelMountSpec -> list string -> HostdBackend ->
    (string -> string -> Z -> hprog unit) -> hprog unit;
}.

Section apply_state.
Context `{Os : !HostOs} `{Models : !HostModels} `{Lib : !JsonLibrary}.
Context (render_v2 : json -> result DesiredState) (dump_config : json -> result string)
  (internal_host : option string).

(** A model that lies on this host is copied, any other is fetched. *)
Definition MaterializeAppModelMount (desired_node_state : DesiredState) (node_name : string)
    (instance : InstanceSpec) (mount : AppModelMountSpec) (backend : option HostdBackend)
    (publish_progress : ProgressPublisher) : hprog unit :=
  let publish phase detail percent :=
    publish_progress phase "Materializing app model" detail percent (ds_plane_name desired_node_state)
      node_name in
  if str_empty (mount_host_path mount) || str_empty (mount_mount_path mount) ||
     str_empty (mount_source_path mount) then
    if mount_required mount then
      hthrow ("app model mount '" +:+ mount_name mount +:+ "' for instance '" +:+ inst_name instance +:+
              "' is missing source, host, or mount path")
    else mret ()
  else
    let source_paths :=
      if vec_empty (mount_source_paths mount) then [mount_source_path mount]
      else mount_source_paths mount in
    match source_paths with
    | [source_path] =>
        source ← hread (fun w => w_files w !! source_path);
        match source with
        | Some contents =>
            if source_path ==? mount_host_path mount then mret ()
            else
              WriteTextFile (mount_host_path mount) contents ≫= fun _ =>
              publish "app-model-ready" "Using app model artifact from local storage." 72
        | None =>
            match backend with
            | None =>
                if mount_required mount then
                  hthrow ("app model mount '" +:+ mount_name mount +:+
                          "' requires controller relay because the source path is not local")
                else mret ()
            | Some backend => TransferAppModel node_name mount source_paths backend publish
            end
        end
    | _ =>
        if mount_required mount then
          hthrow ("app model mount '" +:+ mount_name mount +:+
                  "' currently supports one retained file path; got " +:+
                  to_string (Z.of_nat (length source_paths)))
        else mret ()
    end.

Definition MaterializeAppModelMounts (desired_node_state : DesiredState) (node_name : string)
    (backend : option HostdBackend) (publish_progress : ProgressPublisher) : hprog unit :=
  hfor (List.filter (fun instance => (inst_node_name instance ==? node_name) &&
                                     (inst_role instance ==? App)) (ds_instances desired_node_state))
    (fun instance =>
       hfor (inst_app_model_mounts instance) (fun mount =>
         MaterializeAppModelMount desired_node_state node_name instance mount backend
           publish_progress)).

(** ** Whether this host can run it *)

Definition FindNodeInventory (desired_node_state : DesiredState) (node_name : string)
    : option NodeInventory :=
  find_if (fun node => Models.node_name node ==? node_name) (ds_nodes desired_node_state).

Definition NodeHasInferInstance (state : DesiredState) : bool :=
  any_of (fun instance => inst_role instance ==? Infer) (ds_instances state).

Definition RequireNodeComposePlan (state : DesiredState) (node_name : string) : result NodeComposePlan :=
  plan ← FindNodeComposePlan internal_host state node_name;
  match plan with
  | Some plan => Ok plan
  | None => Throw ("node '" +:+ node_name +:+ "' not found in compose plan")
  end.

Definition NodeUsesManagedRuntimeServices (desired_node_state : DesiredState) (node_name : string) : bool :=
  any_of (fun instance => inst_node_name instance ==? node_name) (ds_instances desired_node_state).

Definition NodeUsesGpuRuntime (desired_node_state : DesiredState) (node_name : string) : bool :=
  any_of (fun gpu => gpun_enabled gpu && (gpun_node_name gpu ==? node_name))
    (ds_runtime_gpu_nodes desired_node_state) ||
  any_of (fun instance => (inst_node_name instance ==? node_name) &&
                          ((inst_role instance ==? Worker) ||
                           negb (str_empty (default "" (inst_gpu_device instance)))))
    (ds_instances desired_node_state) ||
  from_option NodeHasConfiguredGpuDevices false (FindNodeInventory desired_node_state node_name).

Definition ValidateDesiredNodeStateForCurrentHost (desired_node_state : DesiredState)
    (compose_mode : ComposeMode) : result unit :=
  if compose_mode !=? Exec then Ok ()
  else
    match ds_nodes desired_node_state with
    | [] => Throw "desired node state is empty"
    | front :: _ =>
        let node_name := Models.node_name front in
        let platform := from_option node_platform "" (FindNodeInventory desired_node_state node_name) in
        if negb (str_empty platform) && (platform !=? os_platform) then
          Throw ("node '" +:+ node_name +:+ "' targets platform '" +:+ platform +:+
                 "', but hostd is running on '" +:+ os_platform +:+ "'")
        else if (os_platform ==? "macos") &&
                NodeUsesManagedRuntimeServices desired_node_state node_name &&
                NodeUsesGpuRuntime desired_node_state node_name then
          Throw ("node '" +:+ node_name +:+ "' requests Linux/NVIDIA GPU runtime, but hostd compose " +:+
                 "exec is unsupported on macOS")
        else Ok ()
    end.

Definition WriteDesiredStateSnapshot (desired_node_state : DesiredState) (node_name : string)
    : hprog unit :=
  match DesiredStateSnapshotPathForNode desired_node_state node_name with
  | None => mret ()
  | Some path =>
      text ← hlift (SerializeDesiredStateJson desired_node_state);
      WriteTextFile path text
  end.

(** ** The plan of the node *)

Definition StateHasNode (state : DesiredState) (node_name : string) : bool :=
  any_of (fun node => Models.node_name node ==? node_name) (ds_nodes state).

Definition ResolveNodeExecutionPlan (plans : list NodeExecutionPlan)
    (current_state : option DesiredState) (desired_state : DesiredState)
    (node_name artifacts_root : string) : result NodeExecutionPlan :=
  match find_if (fun plan => nep_node_name plan ==? node_name) plans with
  | Some plan => Ok plan
  | None =>
      let in_current := from_option (fun s => StateHasNode s node_name) false current_state in
      let in_desired := StateHasNode desired_state node_name in
      if negb in_current && negb in_desired then
        Throw ("node '" +:+ node_name +:+ "' not found in execution plan")
      else
        let plane_name :=
          if in_desired then ds_plane_name desired_state
          else from_option ds_plane_name "" current_state in
        Ok {| nep_plane_name := plane_name;
              nep_node_name := node_name;
              nep_compose_file_path := ComposePath artifacts_root plane_name node_name;
              nep_operations := [] |}
  end.

(** ** Applying *)

(** A change of the files that may throw half way. *)
Definition on_files (f : Files -> Files * result unit) : hprog unit := fun w =>
  let '(files, r) := f (w_files w) in (with_files files w, r).

(** What the daemon keeps of the state it applied. *)
Definition record_applied (state_root node_name : string) (desired_node_state : DesiredState)
    (desired_generation : option Z) : hprog unit :=
  let plane_name := ds_plane_name desired_node_state in
  (if IsDesiredNodeStateEmpty desired_node_state then
     on_files (fun files => (RemoveLocalAppliedPlaneState state_root node_name plane_name files, Ok ()))
   else
     on_files (SaveLocalAppliedState state_root node_name desired_node_state (Some plane_name))
     ≫= fun _ =>
     match desired_generation with
     | Some generation =>
         on_files (fun files =>
           (SaveLocalAppliedGeneration state_root node_name generation (Some plane_name) files, Ok ()))
     | None => mret ()
     end) ≫= fun _ =>
  on_files (RewriteAggregateLocalState render_v2 state_root node_name) ≫= fun _ =>
  on_files (RewriteAggregateLocalGeneration state_root node_name).

(** What is left of a project without instances is stopped. *)
Definition stop_stale (artifacts_root node_name : string) (desired_node_state : DesiredState)
    (compose_mode : ComposeMode) (publish_progress : ProgressPublisher) : hprog unit :=
  let plane_name := ds_plane_name desired_node_state in
  if negb (vec_empty (ds_instances desired_node_state)) then mret ()
  else
    publish_progress "stopping-runtime" "Stopping runtime"
      "Ensuring stale compose runtime is stopped on the node." 92 plane_name node_name ≫= fun _ =>
    StopAndRemoveComposeArtifactIfPresent artifacts_root plane_name node_name compose_mode ≫= fun _ =>
    mret ().

(** After the record is made: the runtime must come up and the script must run. *)
Definition await_runtime (desired_node_state : DesiredState) (compose_plan : NodeComposePlan)
    (node_name artifacts_root storage_root : string) (runtime_root : option string)
    (state_root : string) (compose_mode : ComposeMode) (desired_generation assignment_id : option Z)
    (backend : option HostdBackend) (publish_progress : ProgressPublisher) : hprog unit :=
  let plane_name := ds_plane_name desired_node_state in
  if compose_mode !=? Exec then mret ()
  else
    publish_progress "waiting-runtime-ready" "Waiting for runtime readiness"
      "Runtime was started; waiting for infer and worker observation to converge." 97 plane_name
      node_name ≫= fun _ =>
    hwhen (NodeHasInferInstance desired_node_state)
      (WaitForLocalRuntimeStatus render_v2 state_root node_name (Some plane_name)) ≫= fun _ =>
    WaitForLocalInstanceRuntimeStatuses render_v2 state_root node_name (Some plane_name)
      (ExpectedRuntimeStatusCountForComposePlan compose_plan) ≫= fun _ =>
    RunIfNeeded desired_node_state node_name artifacts_root storage_root runtime_root state_root
      desired_generation assignment_id backend.

Definition ApplyDesiredNodeState (desired_node_state : DesiredState) (artifacts_root storage_root : string)
    (runtime_root : option string) (state_root : string) (compose_mode : ComposeMode)
    (desired_generation assignment_id : option Z) (backend : option HostdBackend)
    (publish_progress : ProgressPublisher) : hprog unit :=
  node_name ← hlift (RequireSingleNodeName desired_node_state);
  let plane_name := ds_plane_name desired_node_state in
  current_local_state ← hload (LoadLocalAppliedState render_v2 state_root node_name (Some plane_name));
  _ ← hload (LoadLocalAppliedGeneration state_root node_name (Some plane_name));
  execution_plan ← hlift
    (plans ← BuildNodeExecutionPlans dump_config current_local_state desired_node_state artifacts_root;
     ResolveNodeExecutionPlan plans current_local_state desired_node_state node_name artifacts_root);
  compose_plan ← hlift (RequireNodeComposePlan desired_node_state node_name);
  hlift (ValidateDesiredNodeStateForCurrentHost desired_node_state compose_mode) ≫= fun _ =>
  WriteDesiredStateSnapshot desired_node_state node_name ≫= fun _ =>
  if vec_empty (nep_operations execution_plan) then
    PersistDiskRuntimeStateForDesiredDisks backend desired_node_state storage_root runtime_root
      "disk runtime verified by hostd" ≫= fun _ =>
    MaterializeAppModelMounts desired_node_state node_name backend publish_progress ≫= fun _ =>
    stop_stale artifacts_root node_name desired_node_state compose_mode publish_progress ≫= fun _ =>
    record_applied state_root node_name desired_node_state desired_generation ≫= fun _ =>
    publish_progress "completed" "Assignment complete" "No local changes were required for the node."
      100 plane_name node_name
  else
    EnsureDesiredDisksReady backend desired_node_state storage_root runtime_root ≫= fun _ =>
    BootstrapPlaneModelIfNeeded desired_node_state node_name backend assignment_id ≫= fun _ =>
    MaterializeAppModelMounts desired_node_state node_name backend publish_progress ≫= fun _ =>
    ApplyNodePlan dump_config execution_plan desired_node_state compose_plan storage_root runtime_root
      compose_mode backend publish_progress ≫= fun _ =>
    stop_stale artifacts_root node_name desired_node_state compose_mode publish_progress ≫= fun _ =>
    PersistDiskRuntimeStateForRemovedDisks backend current_local_state execution_plan ≫= fun _ =>
    PersistDiskRuntimeStateForDesiredDisks backend desired_node_state storage_root runtime_root
      "disk runtime applied by hostd" ≫= fun _ =>
    record_applied state_root node_name desired_node_state desired_generation ≫= fun _ =>
    if IsDesiredNodeStateEmpty desired_node_state then mret ()
    else
      await_runtime desired_node_state compose_plan node_name artifacts_root storage_root runtime_root
        state_root compose_mode desired_generation assignment_id backend publish_progress ≫= fun _ =>
      publish_progress "completed" "Assignment complete" "Desired runtime state was applied on the node."
        100 plane_name node_name.
End apply_state.
