(* ===== verification/HostApplied.v ===== *)
(** * What applying a state guarantees

    Theorems about [HostApply]: what the daemon records, in which order a plan is
    carried out, and what applying a state again does. *)

From S2P Require Import Prelude Binary64 Json Models Fixtures Planner Paths InferRuntimeConfig Reconcile ExecutionPlan ComposeRenderer StateCodecs StateJson AssignmentStore AssignmentReconciliation RuntimeStatus ControllerStore HostLocalState HostPaths HostCommands HostDisks HostRuntime HostApply.

(** ** File names *)

Definition record_names : list string := ["applied-state.json"; "applied-generation.txt"].

(** The path does not name a record of the daemon. *)
Definition other_file (path : string) : Prop := path_filename path ∉ record_names.

Lemma rev_list_of_string_app a b :
  rev (list_of_string (a +:+ b)) = rev (list_of_string b) ++ rev (list_of_string a).
Proof. by rewrite list_of_string_app, rev_app_distr. Qed.

(** The characters before the first separator, of a reversed path. *)
Definition last_name (l : list Ascii.ascii) : list Ascii.ascii := take (length l - length (drop_name l)) l.

Lemma last_name_slash l l' : last_name (l ++ "/"%char :: l') = last_name l.
Proof.
  unfold last_name. induction l as [|c l IH]; cbn [app drop_name].
  - rewrite bool_decide_eq_true_2 by done. cbn. by rewrite Nat.sub_diag.
  - case_bool_decide as Hc; [by rewrite !Nat.sub_diag|].
    assert (forall k : list Ascii.ascii, (length (drop_name k) <= length k)%nat) as Hle.
    { intros k. induction k as [|d k IHk]; cbn; [lia|]. case_bool_decide; cbn; lia. }
    pose proof (Hle l) as H1. pose proof (Hle (l ++ "/"%char :: l')) as H2.
    cbn [length]. rewrite !Nat.sub_succ_l by done. cbn [take]. by rewrite IH.
Qed.

Lemma last_name_plain l : forallb (fun c => negb (bool_decide (c = "/"%char))) l = true -> last_name l = l.
Proof.
  unfold last_name. intros H. replace (drop_name l) with (@nil Ascii.ascii).
  - cbn [length]. rewrite Nat.sub_0_r. apply take_ge. lia.
  - induction l as [|c l IH]; [done|]. cbn in *. apply andb_true_iff in H as [Hc H].
    apply negb_true_iff in Hc. rewrite Hc. by apply IH.
Qed.

Lemma path_filename_append base name : path_filename (path_append base name) = path_filename name.
Proof.
  unfold path_append. destruct (path_is_absolute name); [done|].
  destruct (str_empty base) eqn:Eb; cbn [orb]; [by apply str_empty_true in Eb as ->|].
  unfold path_filename. fold (last_name (rev (list_of_string name))).
  destruct (ends_with_slash base) eqn:Es.
  - unfold ends_with_slash in Es. rewrite rev_list_of_string_app.
    destruct (rev (list_of_string base)) as [|c l]; [done|]. rewrite bool_decide_eq_true in Es. subst c.
    fold (last_name (rev (list_of_string name) ++ "/"%char :: l)). by rewrite last_name_slash.
  - rewrite rev_list_of_string_app, rev_list_of_string_app, <-app_assoc.
    change (rev (list_of_string "/")) with ["/"%char]. cbn [app].
    fold (last_name (rev (list_of_string name) ++ "/"%char :: rev (list_of_string base))).
    by rewrite last_name_slash.
Qed.

Lemma other_file_append base name : other_file name -> other_file (path_append base name).
Proof. unfold other_file. by rewrite path_filename_append. Qed.

Ltac other_name := rewrite ?path_filename_append; apply (bool_decide_unpack _); vm_compute; exact I.

Lemma list_of_string_of_list l : list_of_string (string_of_list l) = l.
Proof. induction l as [|c l IH]; [done|]. cbn. by rewrite IH. Qed.

(** The last character of a file name is the last one of the path. *)
Lemma path_filename_last path :
  path_filename path <> "" ->
  head (rev (list_of_string (path_filename path))) = head (rev (list_of_string path)).
Proof.
  unfold path_filename. fold (last_name (rev (list_of_string path))).
  rewrite list_of_string_of_list, rev_involutive. intros Hne.
  destruct (rev (list_of_string path)) as [|c l]; [done|]. unfold last_name in *.
  destruct (length (c :: l) - length (drop_name (c :: l)))%nat; [done|]. done.
Qed.

Lemma other_file_last path c :
  head (rev (list_of_string path)) = Some c -> c <> "n"%char -> c <> "t"%char -> other_file path.
Proof.
  intros Hc Hn Ht Hin. destruct (decide (path_filename path = "")) as [E|E].
  - rewrite E in Hin. by apply list_elem_of_In in Hin as [H|[H|[]]].
  - apply path_filename_last in E. rewrite Hc in E.
    apply list_elem_of_In in Hin as [H|[H|[]]]; rewrite <-H in E; vm_compute in E; congruence.
Qed.

Lemma other_file_image path : other_file (path +:+ ".img").
Proof. apply (other_file_last _ "g"%char); [|done..]. by rewrite rev_list_of_string_app. Qed.

Lemma other_file_empty : other_file "".
Proof. other_name. Qed.

(** ** What may touch the records *)

Section keeps.
Context `{Os : !HostOs} (state_root node_name : string).

(** The two files the daemon keeps of a plane. *)
Definition record_path (path : string) : Prop :=
  exists plane, plain_name plane = true /\
    (path = LocalPlaneStatePath state_root node_name plane \/
     path = LocalPlaneGenerationPath state_root node_name plane).

Lemma record_named path : record_path path -> path_filename path ∈ record_names.
Proof.
  intros (plane & _ & [-> | ->]); unfold LocalPlaneStatePath, LocalPlaneGenerationPath; other_name.
Qed.

(** The images in the database are not records. *)
Definition rows_ok (w : World) : Prop :=
  forall key row, cs_disk_runtime (w_store w) !! key = Some row -> other_file (drs_image_path row).

Definition keeps (w w' : World) : Prop := rows_ok w -> rows_ok w' /\ undisturbed record_path w w'.

#[global] Instance keeps_preorder : PreOrder keeps.
Proof.
  split.
  - intros w Hw. by split.
  - intros w1 w2 w3 H12 H23 Hw. destruct (H12 Hw) as [Hw2 E2]. destruct (H23 Hw2) as [Hw3 E3].
    split; [done | by etrans].
Qed.

(** What leaves the database alone and the records to the outside. *)
Lemma keeps_moves {A} (m : hprog A) : moves same_store m -> moves (undisturbed record_path) m -> moves keeps m.
Proof. intros Hs Hu w Hw. split; [|apply Hu]. unfold rows_ok. by rewrite (Hs w). Qed.

#[global] Instance keeps_frame : CommandFrame keeps.
Proof.
  split; [apply _| | | |intros; split; [done | by apply undisturbed_own]..].
  - intros. apply keeps_moves; apply frame_system.
  - intros. apply keeps_moves; apply frame_capture.
  - intros. apply keeps_moves; apply frame_sleep.
Qed.

Lemma other_not_record path : other_file path -> ~ record_path path.
Proof. intros Ho Hp. by apply Ho, record_named. Qed.

Lemma keeps_write path text : other_file path -> moves keeps (WriteTextFile path text).
Proof. intros Ho. by apply keeps_moves; [|apply undisturbed_write, other_not_record]. Qed.

Lemma keeps_remove path : other_file path -> moves keeps (RemoveFileIfExists path).
Proof. intros Ho. by apply keeps_moves; [|apply undisturbed_remove, other_not_record]. Qed.

Lemma keeps_resize path size : moves keeps (resize_file path size).
Proof. apply keeps_moves; [apply store_resize | apply undisturbed_resize]. Qed.

Lemma keeps_remove_all path : moves keeps (remove_all path).
Proof.
  apply keeps_moves; [|apply undisturbed_remove_all]. intros w. unfold remove_all.
  by destruct (os_remove_all _ _ _) as [[files o] error].
Qed.

(** ** Disks *)

Lemma info_other host_path : other_file (path_append host_path ".naim-disk-info").
Proof. apply other_file_append. other_name. Qed.

Lemma image_other disk sr rr : other_file (ManagedDiskImagePath disk sr rr).
Proof.
  unfold ManagedDiskImagePath. cbv zeta. destruct (_ ==? PlaneShared);
    apply other_file_append, other_file_image.
Qed.

Lemma keeps_ensure_disk disk key sr rr : moves keeps (EnsureDesiredDiskRuntimeState disk key sr rr).
Proof.
  apply frame_ensure_disk; try apply _; intros.
  - apply keeps_write, info_other.
  - apply keeps_write, image_other.
  - apply keeps_resize.
Qed.

Lemma ensured_image disk key sr rr w w' s :
  EnsureDesiredDiskRuntimeState disk key sr rr w = (w', Ok s) -> other_file (drs_image_path s).
Proof.
  unfold EnsureDesiredDiskRuntimeState. destruct os_elevated; intros H; hinv H.
  - destruct (_ ==? "mounted").
    + injection H as <- <-. unfold InspectRealDiskRuntime in H0. hinv H0. injection H0 as _ <-.
      repeat case_match; apply image_other.
    + destruct (_ ==? "drifted"); [done|]. unfold EnsureRealDiskMount in H. hinv H. injection H as _ <-.
      apply image_other.
  - injection H as _ <-. apply other_file_empty.
Qed.

Lemma moves_bind_ok {A B} (R : World -> World -> Prop) `{!PreOrder R} (m : hprog A) (f : A -> hprog B) :
  moves R m -> (forall w w' a, m w = (w', Ok a) -> R w' (f a w').1) -> moves R (m ≫= f).
Proof.
  intros Hm Hf w. unfold mbind, hprog_bind. specialize (Hm w).
  destruct (m w) as [w1 [a|e]] eqn:E; cbn in *; [|done]. etrans; [exact Hm | by eapply Hf].
Qed.

Context `{Lib : !JsonLibrary}.

Lemma keeps_upsert state :
  other_file (drs_image_path state) -> moves keeps (be_UpsertDiskRuntimeState LocalDbHostdBackend state).
Proof.
  intros Ho w Hw. split; [|by apply undisturbed_own]. intros key row. cbn.
  intros [[_ <-]|[_ H]]%lookup_insert_Some; [done|]. by apply (Hw key).
Qed.
End keeps.

Section apply_keeps.
Context `{Os : !HostOs} `{Models : !HostModels} `{Lib : !JsonLibrary} (state_root node_name : string).
Abbreviation keeps := (keeps state_root node_name).

(** A back end on the local database, or none. *)
Definition local_backend (backend : option HostdBackend) : Prop :=
  backend = None \/ backend = Some LocalDbHostdBackend.

(** Fetching models does not change the records either. *)
Class ModelsKeepRecords := {
  km_bootstrap desired node backend assignment :
    local_backend backend -> moves keeps (BootstrapPlaneModelIfNeeded desired node backend assignment);
  km_transfer node mount paths publish :
    other_file (mount_host_path mount) -> (forall phase detail percent, moves keeps (publish phase detail percent)) ->
    moves keeps (TransferAppModel node mount paths LocalDbHostdBackend publish);
}.
Context `{KM : !ModelsKeepRecords}.

Context (backend : option HostdBackend) (Hbackend : local_backend backend)
  (publish : ProgressPublisher)
  (Hpublish : forall phase title detail percent plane node,
     moves keeps (publish phase title detail percent plane node)).
Context (dump_config : json -> result string) (render_v2 : json -> result DesiredState)
  (internal_host : option string).

Hint Resolve keeps_write keeps_remove keeps_resize keeps_remove_all keeps_ensure_disk keeps_upsert
  info_other image_other other_file_empty Hpublish : moves.

(** Ensuring a disk and reporting it. *)
Lemma keeps_ensure_and_report disk key sr rr (report : DiskRuntimeState -> DiskRuntimeState) :
  (forall s, drs_image_path (report s) = drs_image_path s) ->
  moves keeps (realized_state ← EnsureDesiredDiskRuntimeState disk key sr rr;
               match backend with
               | Some backend => be_UpsertDiskRuntimeState backend (report realized_state)
               | None => mret ()
               end).
Proof.
  intros Hr. apply moves_bind_ok; [apply _|apply keeps_ensure_disk; apply _|].
  intros w w' s Hs%ensured_image. destruct Hbackend as [-> | ->]; [reflexivity|].
  apply keeps_upsert. by rewrite Hr.
Qed.

Lemma keeps_disks_ready desired sr rr : moves keeps (EnsureDesiredDisksReady backend desired sr rr).
Proof.
  apply moves_for; [apply _|]. intros disk _. by apply (keeps_ensure_and_report _ _ _ _ (fun s => s)).
Qed.

Lemma keeps_persist desired sr rr message :
  moves keeps (PersistDiskRuntimeStateForDesiredDisks backend desired sr rr message).
Proof.
  unfold PersistDiskRuntimeStateForDesiredDisks.
  pose proof (fun disk key => keeps_ensure_and_report disk key sr rr (drs_with_message message)
    (fun s => eq_refl)) as H.
  destruct backend as [b|]; [|moves]. apply moves_for; [apply _|]. intros disk _. apply H.
Qed.

Lemma keeps_persist_removed previous plan :
  moves keeps (PersistDiskRuntimeStateForRemovedDisks backend previous plan).
Proof.
  unfold PersistDiskRuntimeStateForRemovedDisks. destruct Hbackend as [-> | ->]; [moves|].
  apply moves_for; [apply _|]. intros op _. destruct (_ !=? _); [moves|].
  destruct (SplitDiskKey _) as [name node]. apply moves_bind; [apply _|cbn; moves|]. intros existing.
  destruct (_ ==? _); [moves|]. destruct (FindDiskInStateByKey _ _); [|moves].
  apply keeps_upsert. apply other_file_empty.
Qed.

Lemma keeps_remove_disk plan desired rr op : moves keeps (remove_disk plan desired rr backend op).
Proof.
  assert (moves keeps (RemoveDiskDirectory (op_details op) rr)) as Hdir
    by (apply frame_remove_directory; [apply _|]; moves).
  intros w. unfold remove_disk. destruct (SplitDiskKey _) as [name node]. cbv zeta.
  destruct Hbackend as [-> | ->]; [apply Hdir|].
  unfold mbind at 1, hprog_bind at 1. cbn [be_LoadDiskRuntimeState LocalDbHostdBackend hread].
  destruct (LoadDiskRuntimeState name node (w_store w)) as [s|] eqn:El; [|apply Hdir].
  destruct (os_elevated && attached s); [|apply Hdir].
  intros Hw. assert (other_file (drs_image_path s)) as Himage by (by apply (Hw (name, node))).
  refine (moves_bind keeps _ _ _ _ w Hw).
  - apply moves_when; [apply _|]. apply frame_remove_mount; [apply _| |]; cbn; moves.
  - intros _. apply keeps_upsert. cbn. destruct (has_value rr); [apply other_file_empty | done].
Qed.

(** Operations on files that are not records. *)
Definition op_other (op : HostOperation) : Prop :=
  match op_kind op with
  | WriteInferRuntimeConfig | RemoveInferRuntimeConfig | WriteComposeFile | RemoveComposeFile =>
      other_file (op_target op)
  | _ => True
  end.

Lemma keeps_operation plan desired compose_plan sr rr mode op :
  op_other op ->
  moves keeps (apply_operation dump_config plan desired compose_plan sr rr mode backend publish op).
Proof.
  unfold op_other, apply_operation. intros Ho. destruct (op_kind op); cbv zeta;
    try (apply keeps_remove_disk); try (moves; fail).
  destruct (FindDiskInStateByKey _ _); [|moves]. by apply (keeps_ensure_and_report _ _ _ _ (fun s => s)).
Qed.

Lemma keeps_plan plan desired compose_plan sr rr mode :
  Forall op_other (nep_operations plan) ->
  moves keeps (ApplyNodePlan dump_config plan desired compose_plan sr rr mode backend publish).
Proof.
  rewrite Forall_forall. intros Ho. unfold ApplyNodePlan.
  pose proof (fun op Hop => keeps_operation plan desired compose_plan sr rr mode op (Ho op Hop)) as H.
  moves.
Qed.
End apply_keeps.

(** ** The shape of a plan *)

(** Operations on disks, services and runtime configurations. *)
Definition resource (op : HostOperation) : bool :=
  match op_kind op with
  | WriteComposeFile | RemoveComposeFile | ComposeUp | ComposeDown => false
  | _ => true
  end.

(** A plan changes resources, stops the old project, writes the configurations
    again and starts the new project. *)
Inductive plan_shape : list HostOperation -> Prop :=
  | PlanShape (resources downs configs ups : list HostOperation) (old new : string) :
      Forall (fun op => resource op = true /\ op_other op) resources ->
      downs = [] \/ downs = [mkHostOperation ComposeDown old "docker compose down";
                             mkHostOperation RemoveComposeFile old "remove stale compose artifact"] ->
      other_file old -> other_file new ->
      Forall (fun op => op_kind op = WriteInferRuntimeConfig /\ op_other op) configs ->
      (configs = [] /\ ups = []) \/
      ups = [mkHostOperation WriteComposeFile new "render compose artifact";
             mkHostOperation ComposeUp new "docker compose up -d"] ->
      plan_shape (resources ++ downs ++ configs ++ ups).

Lemma compose_path_other root plane node : other_file (ComposePath root plane node).
Proof. apply other_file_append. other_name. Qed.

Lemma config_path_other state node name path :
  InferRuntimeConfigPathsForNode state node !! name = Some path -> other_file path.
Proof.
  unfold InferRuntimeConfigPathsForNode. destruct (ControlRootPathForNode _ _) as [root|]; [|done].
  intros (i & _ & _ & <-)%map_of_list_by_Some. apply other_file_append.
  unfold InferRuntimeConfigRelativePath. destruct (str_empty _); [other_name|].
  apply other_file_append. other_name.
Qed.

Lemma Forall_map_items {V} (P : HostOperation -> Prop) (f : string * V -> list HostOperation) (m : gmap string V) :
  (forall k v, m !! k = Some v -> Forall P (f (k, v))) -> Forall P (map_items m ≫= f).
Proof.
  intros H. apply Forall_bind, Forall_forall. intros [k v] Hin%elem_of_map_items. by apply H.
Qed.

Lemma build_plan_shape dump current desired root node plan :
  build_node_execution_plan dump current desired root node = Ok plan -> plan_shape (nep_operations plan).
Proof.
  unfold build_node_execution_plan. cbv zeta. intros H. bind_inv. cbn [nep_operations].
  set (cp := from_option (fun s => InferRuntimeConfigPathsForNode s node) ∅ current).
  assert (forall k path, cp !! k = Some path -> other_file path) as Hcp.
  { intros k path. destruct current; [apply config_path_other | done]. }
  set (dp := InferRuntimeConfigPathsForNode desired node).
  match goal with |- context [negb (vec_empty ?l)] => set (resources := l) end.
  assert (Forall (fun op => resource op = true /\ op_other op) resources) as HR.
  { unfold resources. repeat (apply Forall_app; split); apply Forall_map_items; intros k v Hv.
    - cbn. repeat case_match; repeat constructor.
    - cbn. repeat case_match; repeat constructor.
    - cbn. repeat case_match; repeat constructor.
    - cbn. repeat case_match; repeat constructor.
    - apply config_path_other in Hv. unfold write_config_ops. repeat case_match; by repeat constructor.
    - apply Hcp in Hv. unfold remove_config_ops. repeat case_match; by repeat constructor. }
  clearbody resources.
  match goal with |- context [mkHostOperation ComposeDown ?p _] => set (old := p) end.
  match goal with |- context [mkHostOperation WriteComposeFile ?p _] => set (new := p) end.
  assert (other_file old) as Hold by apply compose_path_other.
  assert (other_file new) as Hnew by apply compose_path_other.
  match goal with |- plan_shape (if ?u then foldl _ (if ?d then _ else _) _ ++ _ else _) =>
    set (up := u); set (down := d) end.
  clearbody old new up down.
  assert (exists downs, (if down then resources ++ [mkHostOperation ComposeDown old "docker compose down";
             mkHostOperation RemoveComposeFile old "remove stale compose artifact"] else resources) =
             resources ++ downs /\
     (downs = [] \/ downs = [mkHostOperation ComposeDown old "docker compose down";
             mkHostOperation RemoveComposeFile old "remove stale compose artifact"])) as (downs & -> & Hdowns).
  { destruct down; [eauto|]. exists []. rewrite app_nil_r. auto. }
  destruct up.
  - destruct (refresh_config_suffix (map_items dp) (resources ++ downs)) as (extra & -> & Hextra).
    rewrite <-!app_assoc. apply (PlanShape _ _ _ _ old new); try done; [|by right].
    eapply Forall_impl; [exact Hextra|]. intros op (name & path & Hin%elem_of_map_items & ->).
    split; [done|]. by apply config_path_other in Hin.
  - replace (resources ++ downs) with (resources ++ downs ++ [] ++ []) by (by rewrite !app_nil_r).
    apply (PlanShape _ _ _ _ old new); try done. by left.
Qed.

Lemma shape_other ops : plan_shape ops -> Forall op_other ops.
Proof.
  intros [resources downs configs ups old new HR Hd Ho Hn Hc Hu].
  repeat (apply Forall_app; split).
  - eapply Forall_impl; [exact HR|]. by intros op [_ ?].
  - destruct Hd as [-> | ->]; by repeat constructor.
  - eapply Forall_impl; [exact Hc|]. by intros op [_ ?].
  - destruct Hu as [[_ ->] | ->]; by repeat constructor.
Qed.

(** ** The order of operations *)

Lemma filter_all {A} (p : A -> bool) l : Forall (fun x => p x = true) l -> List.filter p l = l.
Proof. induction 1 as [|x l Hx _ IH]; [done|]. cbn. by rewrite Hx, IH. Qed.
Lemma filter_nothing {A} (p : A -> bool) l : Forall (fun x => p x = false) l -> List.filter p l = [].
Proof. induction 1 as [|x l Hx _ IH]; [done|]. cbn. by rewrite Hx, IH. Qed.

Lemma resource_kind op : resource op = true -> stops op = false /\ starts op = false.
Proof. unfold resource, stops, starts. by destruct (op_kind op). Qed.

(** The three passes move what stops the old project to the front. *)
Lemma apply_order_shape resources downs configs ups old new :
  Forall (fun op => resource op = true) resources ->
  downs = [] \/ downs = [mkHostOperation ComposeDown old "docker compose down";
                         mkHostOperation RemoveComposeFile old "remove stale compose artifact"] ->
  Forall (fun op => resource op = true) configs ->
  ups = [] \/ ups = [mkHostOperation WriteComposeFile new "render compose artifact";
                     mkHostOperation ComposeUp new "docker compose up -d"] ->
  apply_order (resources ++ downs ++ configs ++ ups) = downs ++ resources ++ configs ++ ups.
Proof.
  intros HR Hd Hc Hu. unfold apply_order. rewrite !List.filter_app.
  assert (forall l, Forall (fun op => resource op = true) l ->
    List.filter stops l = [] /\ List.filter starts l = [] /\
    List.filter (fun op => negb (stops op || starts op)) l = l) as Hres.
  { intros l Hl. repeat split; [apply filter_nothing | apply filter_nothing | apply filter_all];
      (eapply Forall_impl; [exact Hl|]; intros op [H1 H2]%resource_kind; by rewrite ?H1, ?H2). }
  destruct (Hres _ HR) as (-> & -> & ->). destruct (Hres _ Hc) as (-> & -> & ->).
  destruct Hd as [-> | ->], Hu as [-> | ->]; cbn; by rewrite ?app_nil_r, <-?app_assoc.
Qed.

(** Resources on the one hand, files and the project on the other, do not see
    each other. *)
Definition with_project (files : gmap string (gmap string string)) (up : option (string * gmap string string))
    (h : Host) : Host :=
  mkHost (host_disks h) (host_services h) (host_configs h) files up.

Lemma exec_resource target op h files up :
  resource op = true ->
  exec target op (with_project files up h) = with_project files up <$> exec target op h /\
  forall h', exec target op h = Some h' -> host_files h' = host_files h /\ host_up h' = host_up h.
Proof.
  destruct h as [disks services configs files0 up0], op as [kind t details]. unfold resource. cbn [op_kind].
  intros Hr. unfold with_project. cbn [host_disks host_services host_configs].
  split; destruct kind; try done; cbn [exec]; unfold guard_op.
  - destruct (host_disks target !! t) as [s|]; [|done]. cbn. by destruct (negb _).
  - by destruct (has_value _).
  - by destruct (host_services target !! t).
  - by destruct (has_value _).
  - by destruct (host_configs target !! details).
  - destruct (configs !! details) as [c|]; [|done]. cbn. by destruct (_ ==? _).
  - intros h'. destruct (host_disks target !! t) as [s|]; [|done]. cbn. destruct (negb _); [|done]. by intros [= <-].
  - intros h'. destruct (has_value _); [|done]. by intros [= <-].
  - intros h'. destruct (host_services target !! t); [|done]. by intros [= <-].
  - intros h'. destruct (has_value _); [|done]. by intros [= <-].
  - intros h'. destruct (host_configs target !! details); [|done]. by intros [= <-].
  - intros h'. destruct (configs !! details) as [c|]; [|done]. cbn. destruct (_ ==? _); [|done]. by intros [= <-].
Qed.

Lemma run_resources target ops h files up :
  Forall (fun op => resource op = true) ops ->
  run target ops (with_project files up h) = with_project files up <$> run target ops h /\
  forall h', run target ops h = Some h' -> host_files h' = host_files h /\ host_up h' = host_up h.
Proof.
  intros H. revert h. induction H as [|op ops Hop _ IH]; intros h; cbn [run].
  - split; [done|]. by intros h' [= <-].
  - destruct (exec_resource target op h files up Hop) as [-> Hk].
    destruct (exec target op h) as [h1|] eqn:E; cbn; [|done]. destruct (IH h1) as [E1 Hk1].
    split; [done|]. intros h' Hh'. destruct (Hk h1 eq_refl) as [<- <-]. by apply Hk1.
Qed.

(** Stopping first reaches the same host. *)
Lemma run_downs_first target old resources rest h h' :
  Forall (fun op => resource op = true) resources ->
  let downs := [mkHostOperation ComposeDown old "docker compose down";
                mkHostOperation RemoveComposeFile old "remove stale compose artifact"] in
  run target (resources ++ downs ++ rest) h = Some h' ->
  run target (downs ++ resources ++ rest) h = Some h'.
Proof.
  intros HR downs. rewrite !run_app. destruct (run target resources h) as [h1|] eqn:E1; [|done].
  cbn [mbind option_bind]. rewrite run_app.
  assert (h = with_project (host_files h1) (host_up h1) h) as Eh.
  { destruct (run_resources target resources h ∅ None HR) as [_ Hk]. destruct (Hk h1 E1) as [-> ->].
    by destruct h. }
  destruct h1 as [disks services configs files up]. cbn [host_files host_up] in Eh.
  destruct h as [disks0 services0 configs0 files0 up0]. unfold with_project in Eh. cbn in Eh. injection Eh as -> ->.
  unfold downs. cbn [run exec]. unfold guard_op.
  destruct (bool_decide (fst <$> up = Some old)); cbn; [|done].
  destruct (has_value (files !! old)); cbn; [|done].
  intros Hrest. rewrite run_app.
  destruct (run_resources target resources (mkHost disks0 services0 configs0 files up)
    (delete old files) None HR) as [Ew _].
  unfold with_project in Ew. cbn in Ew. rewrite Ew, E1. exact Hrest.
Qed.

Lemma apply_order_runs target ops h h' :
  plan_shape ops -> run target ops h = Some h' -> run target (apply_order ops) h = Some h'.
Proof.
  intros [resources downs configs ups old new HR Hd _ _ Hc Hu] Hrun.
  assert (Forall (fun op => resource op = true) resources) as HR'
    by (eapply Forall_impl; [exact HR|]; by intros op [? _]).
  assert (Forall (fun op => resource op = true) configs) as Hc'.
  { eapply Forall_impl; [exact Hc|]. intros op [E _]. unfold resource. by rewrite E. }
  rewrite (apply_order_shape resources downs configs ups old new HR' Hd Hc') by tauto.
  destruct Hd as [-> | ->]; [done|]. by apply run_downs_first.
Qed.

(** ** Carrying a plan out *)

Lemma hfor_when `{Os : !HostOs} {A} (p : A -> bool) (f : A -> hprog unit) l w :
  hfor l (fun x => hwhen (p x) (f x)) w = hfor (List.filter p l) f w.
Proof.
  revert w. induction l as [|x l IH]; intros w; cbn [hfor List.filter]; [done|].
  unfold mbind, hprog_bind, hwhen. destruct (p x); [|apply IH]. cbn [hfor]. unfold mbind, hprog_bind.
  destruct (f x w) as [w1 [[]|e]]; [apply IH | done].
Qed.

Lemma hfor_app `{Os : !HostOs} {A B} (f : A -> hprog unit) l l' (k : hprog B) w :
  (hfor (l ++ l') f ≫= fun _ => k) w = (hfor l f ≫= fun _ => hfor l' f ≫= fun _ => k) w.
Proof.
  revert w. induction l as [|x l IH]; intros w; cbn [hfor app]; [done|].
  unfold mbind, hprog_bind in *. destruct (f x w) as [w1 [[]|e]]; [apply IH | done].
Qed.

Lemma hbind_ext `{Os : !HostOs} {A B} (m m' : hprog A) (f f' : A -> hprog B) w :
  (forall w, m w = m' w) -> (forall a w, f a w = f' a w) -> (m ≫= f) w = (m' ≫= f') w.
Proof. intros Hm Hf. unfold mbind, hprog_bind. rewrite Hm. destruct (m' w) as [w1 [a|e]]; [apply Hf | done]. Qed.

Lemma apply_plan_order `{Os : !HostOs} dump_config plan desired compose_plan sr rr mode backend publish w :
  ApplyNodePlan dump_config plan desired compose_plan sr rr mode backend publish w =
  (hfor (apply_order (nep_operations plan))
     (apply_operation dump_config plan desired compose_plan sr rr mode backend publish) ≫= fun _ =>
   hwhen (IsDesiredNodeStateEmpty desired) (RemoveComposeMeshNetworkIfUnused (nep_plane_name plan) mode)) w.
Proof.
  unfold ApplyNodePlan, apply_order. rewrite hfor_app. apply hbind_ext; [intros; apply hfor_when|].
  intros _ w1. rewrite hfor_app. apply hbind_ext; [intros; apply hfor_when|].
  intros _ w2. apply hbind_ext; [intros; apply hfor_when | done].
Qed.

(** The plan that is applied is the one made for the node. *)
Lemma resolved_plan dump current desired root node plans plan :
  BuildNodeExecutionPlans dump current desired root = Ok plans ->
  ResolveNodeExecutionPlan plans current desired node root = Ok plan ->
  node ∈ plan_node_names current desired /\
  exists built, build_node_execution_plan dump current desired root node = Ok built /\
    nep_operations plan = nep_operations built.
Proof.
  intros Hp Hr. assert (node ∈ plan_node_names current desired) as Hnode.
  { unfold ResolveNodeExecutionPlan in Hr. destruct (find_if _ _) as [p|] eqn:Ef.
    - apply find_if_Some in Ef as [En Hin]. rewrite eqb_true in En. subst node.
      by apply (elem_of_plans _ _ _ _ _ _ Hp) in Hin as (_ & ? & _).
    - assert (forall s, StateHasNode s node = true -> node ∈ Models.node_name <$> ds_nodes s) as Hs.
      { intros s. unfold StateHasNode, any_of. intros (n & Hin & En)%existsb_exists. rewrite eqb_true in En.
        apply list_elem_of_fmap. exists n. split; [done | by apply list_elem_of_In]. }
      unfold plan_node_names. rewrite elem_of_union, elem_of_list_to_set.
      destruct (StateHasNode desired node) eqn:Ed; [left; auto|]. right.
      destruct current as [s|]; cbn in *; [|done]. destruct (StateHasNode s node) eqn:Ec; [|done].
      apply elem_of_list_to_set. auto. }
  split; [done|]. destruct (plans_cover _ _ _ _ _ _ Hp Hnode) as (built & Hb & Ho).
  exists built. split; [done|]. rewrite <-Ho. unfold operations_for.
  unfold ResolveNodeExecutionPlan in Hr. destruct (find_if _ _) as [p|]; [by injection Hr as <-|].
  destruct (negb _ && _); [done|]. by injection Hr as <-.
Qed.

(** ** Starting the project *)

Section start.
Context `{Os : !HostOs} (path : string).

(** A compose command that starts the project at [path]. *)
Definition up_command (compose : string) : string :=
  compose +:+ " -f " +:+ ShellQuote path +:+ " up -d --remove-orphans --force-recreate".

(** The last command started the project and saw this file. *)
Definition started_with (contents : string) (w : World) : Prop :=
  exists before compose files,
    w_log w = before ++ [Ran (up_command compose) files 0] /\ files !! path = Some contents.

Lemma run_compose_up w w' :
  RunComposeCommand path "up -d" Exec w = (w', Ok ()) ->
  exists w1 compose files o, undisturbed (eq path) w w1 /\
    w' = after (Ran (up_command compose) (w_files w1) 0) files o w1.
Proof.
  unfold RunComposeCommand. intros H. change (Exec ==? Skip) with false in H. cbv iota in H.
  apply hbind_inv in H as (w1 & compose & H1 & H).
  pose proof (moves_compose (undisturbed (eq path)) w) as Hs. rewrite H1 in Hs. cbn [fst] in Hs.
  apply hbind_inv in H as (w2 & code & H2 & H). unfold system in H2.
  destruct (os_system _ _ _) as [[code' files] o] eqn:Eo. injection H2 as <- <-.
  change (effective_subcommand "up -d") with "up -d --remove-orphans --force-recreate" in *.
  destruct (code' =? 0) eqn:Ec; [|done].
  injection H as <-. apply Z.eqb_eq in Ec. subst code'. by exists w1, compose, files, o.
Qed.
End start.

(** The end of a list of operations that returned. *)
Lemma hfor_app_inv `{Os : !HostOs} {A} (f : A -> hprog unit) l l' w w' :
  hfor (l ++ l') f w = (w', Ok ()) -> exists w1, hfor l f w = (w1, Ok ()) /\ hfor l' f w1 = (w', Ok ()).
Proof.
  revert w. induction l as [|x l IH]; intros w; cbn [hfor app]; [by exists w|].
  intros H. apply hbind_inv in H as (w1 & [] & H1 & H). apply IH in H as (w2 & H2 & H).
  exists w2. split; [|done]. by rewrite (hbind_eq _ _ _ _ _ H1).
Qed.

(** Starting the project, from the writing of the file on. *)
Lemma up_starts `{Os : !HostOs} dump_config plan desired compose_plan sr rr backend publish path w0 w w' :
  (forall phase title detail percent plane node,
     moves (undisturbed (eq path)) (publish phase title detail percent plane node)) ->
  undisturbed (fun _ => False) w0 w -> w_files w !! path = Some (RenderComposeYaml compose_plan) ->
  apply_operation dump_config plan desired compose_plan sr rr Exec backend publish
    (mkHostOperation ComposeUp path "docker compose up -d") w = (w', Ok ()) ->
  outside_left (eq path) w0 w' -> started_with path (RenderComposeYaml compose_plan) w'.
Proof.
  intros Hpub Hgrow Hfile HU. cbn [apply_operation op_kind op_target] in HU. cbv zeta in HU.
  apply hbind_inv in HU as (w6 & [] & H6 & HU). apply hbind_inv in HU as (w7 & [] & H7 & HU).
  apply hbind_inv in HU as (w8 & [] & H8 & HU).
  apply run_compose_up in HU as (w1 & compose & files & o & E9 & ->). intros Hl.
  assert (undisturbed (eq path) w w1) as Hu.
  { transitivity w6; [|transitivity w7; [|transitivity w8; [|exact E9]]].
    - pose proof (Hpub "starting-runtime" "Starting runtime"
        "Starting infer and worker services on the node." 92 (ds_plane_name desired) (nep_node_name plan) w) as E6.
      by rewrite H6 in E6.
    - pose proof (moves_images (undisturbed (eq path)) compose_plan Exec w6) as E7. by rewrite H7 in E7.
    - pose proof (moves_mesh (undisturbed (eq path)) compose_plan Exec w7) as E8. by rewrite H8 in E8. }
  assert (undisturbed (eq path) w1 (after (Ran (up_command path compose) (w_files w1) 0) files o w1)) as Hlast
    by (by apply undisturbed_step).
  apply (outside_left_split _ (fun _ => False) (eq path) w0 w) in Hl as [_ Hl]; [|done|by etrans].
  apply (outside_left_split _ (eq path) (eq path) w w1) in Hl as [Hl _]; [|done..].
  exists (w_log w1), compose, (w_files w1). split; [done|].
  by rewrite (undisturbed_same (eq path) w w1 path Hu Hl eq_refl).
Qed.

Section starting.
Context `{Os : !HostOs} `{Lib : !JsonLibrary} (dump_config : json -> result string)
  (backend : option HostdBackend) (Hbackend : local_backend backend) (publish : ProgressPublisher) (path : string)
  (Hpub : forall phase title detail percent plane node,
     moves (undisturbed (eq path)) (publish phase title detail percent plane node)).

(** Every operation only adds to the steps of the outside. *)
Lemma operation_grows plan desired compose_plan sr rr mode op :
  moves (undisturbed (fun _ => False))
    (apply_operation dump_config plan desired compose_plan sr rr mode backend publish op).
Proof.
  assert (forall phase title detail percent plane node,
    moves (undisturbed (fun _ => False)) (publish phase title detail percent plane node)) as Hp
    by (intros; intros w; apply (undisturbed_grows (eq path)), Hpub).
  assert (forall state, moves (undisturbed (fun _ => False)) (be_UpsertDiskRuntimeState LocalDbHostdBackend state))
    as Hupsert by (intros state w; by apply undisturbed_own).
  assert (forall name node, moves (undisturbed (fun _ => False)) (be_LoadDiskRuntimeState LocalDbHostdBackend name node))
    as Hload by (intros; cbn; moves).
  assert (forall p text, moves (undisturbed (fun _ => False)) (WriteTextFile p text)) as Hwrite
    by (intros; apply undisturbed_write; tauto).
  assert (forall p, moves (undisturbed (fun _ => False)) (RemoveFileIfExists p)) as Hremove
    by (intros; apply undisturbed_remove; tauto).
  pose proof (undisturbed_resize (fun _ => False)) as Hresize.
  pose proof (undisturbed_remove_all (fun _ => False)) as Hall.
  assert (forall disk key, moves (undisturbed (fun _ => False)) (EnsureDesiredDiskRuntimeState disk key sr rr)) as Hensure
    by (intros; apply frame_ensure_disk; moves).
  assert (forall p, moves (undisturbed (fun _ => False)) (RemoveDiskDirectory p rr)) as Hdir
    by (intros; apply frame_remove_directory; moves).
  assert (forall state, moves (undisturbed (fun _ => False)) (RemoveRealDiskMount state rr)) as Hmount
    by (intros; apply frame_remove_mount; moves).
  unfold apply_operation, remove_disk. destruct Hbackend as [-> | ->]; destruct (op_kind op); cbv zeta; moves.
Qed.

Lemma plan_starts plan desired compose_plan sr rr w w' :
  IsDesiredNodeStateEmpty desired = false ->
  plan_shape (nep_operations plan) ->
  mkHostOperation ComposeUp path "docker compose up -d" ∈ nep_operations plan ->
  ApplyNodePlan dump_config plan desired compose_plan sr rr Exec backend publish w = (w', Ok ()) ->
  outside_left (eq path) w w' -> started_with path (RenderComposeYaml compose_plan) w'.
Proof.
  intros He Hshape Hup H. rewrite apply_plan_order in H.
  apply hbind_inv in H as (w1 & [] & H & Ht). rewrite He in Ht. injection Ht as <-.
  destruct Hshape as [resources downs configs ups old new HR Hd _ _ Hc Hu].
  assert (Forall (fun op => resource op = true) resources) as HR'
    by (eapply Forall_impl; [exact HR|]; by intros op [? _]).
  assert (Forall (fun op => resource op = true) configs) as Hc'.
  { eapply Forall_impl; [exact Hc|]. intros op [E _]. unfold resource. by rewrite E. }
  rewrite (apply_order_shape resources downs configs ups old new HR' Hd Hc') in H by tauto.
  assert (new = path /\ ups = [mkHostOperation WriteComposeFile path "render compose artifact";
    mkHostOperation ComposeUp path "docker compose up -d"]) as [-> ->].
  { assert (mkHostOperation ComposeUp path "docker compose up -d" ∈ ups) as Hin.
    { rewrite !elem_of_app in Hup. destruct Hup as [Hin|[Hin|[Hin|Hin]]]; [| | |done]; exfalso.
      - rewrite Forall_forall in HR'. by apply HR' in Hin.
      - destruct Hd as [-> | ->]; [by apply elem_of_nil in Hin|].
        apply list_elem_of_In in Hin as [E|[E|[]]]; discriminate E.
      - rewrite Forall_forall in Hc'. by apply Hc' in Hin. }
    destruct Hu as [[_ ->] | ->]; [by apply elem_of_nil in Hin|].
    apply list_elem_of_In in Hin as [E|[E|[]]]; [discriminate E|]. by injection E as ->. }
  rewrite !app_assoc in H. apply hfor_app_inv in H as (w2 & H2 & H). cbn [hfor] in H.
  apply hbind_inv in H as (w3 & [] & HW & H). apply hbind_inv in H as (w4 & [] & HU & H). injection H as <-.
  pose proof (moves_for (undisturbed (fun _ => False)) _ _
    (fun op (_ : op ∈ (downs ++ resources) ++ configs) => operation_grows plan desired compose_plan sr rr Exec op) w) as G2.
  rewrite H2 in G2. cbn [fst] in G2.
  pose proof (operation_grows plan desired compose_plan sr rr Exec
    (mkHostOperation WriteComposeFile path "render compose artifact") w2) as G3.
  rewrite HW in G3. cbn [fst] in G3.
  apply (up_starts dump_config plan desired compose_plan sr rr backend publish path w w3); try done; [by etrans|].
  cbn [apply_operation op_kind op_target] in HW. cbv zeta in HW.
  apply hbind_inv in HW as (w5 & [] & _ & HW). injection HW as <-. cbn. by rewrite lookup_insert_eq.
Qed.
End starting.

(** ** The record *)

(** [m] runs [record] once, and moves within [R] before and after it; or it throws
    before it gets there. *)
Definition around `{Os : !HostOs} (R : World -> World -> Prop) (record : hprog unit) {A} (m : hprog A)
    (w : World) : Prop :=
  (R w (m w).1 /\ is_ok (m w).2 = false) \/
  exists w1, R w w1 /\
    match record w1 with
    | (w2, Ok _) => R w2 (m w).1
    | (w2, Throw e) => m w = (w2, Throw e)
    end.

Section around.
Context `{Os : !HostOs} (R : World -> World -> Prop) `{!PreOrder R} (record : hprog unit).

Lemma around_before {A B} (m : hprog A) (f : A -> hprog B) w :
  moves R m -> (forall w' a, m w = (w', Ok a) -> around R record (f a) w') -> around R record (m ≫= f) w.
Proof.
  intros Hm Hf. specialize (Hm w). unfold around, mbind, hprog_bind.
  destruct (m w) as [w0 [a|e]] eqn:E; cbn [fst] in Hm; [|by left].
  destruct (Hf w0 a eq_refl) as [[H1 H2]|(w1 & H1 & H2)].
  - left. split; [by etrans | done].
  - right. exists w1. split; [by etrans | done].
Qed.

Lemma around_record {B} (f : unit -> hprog B) w :
  (forall a, moves R (f a)) -> around R record (record ≫= f) w.
Proof.
  intros Hf. right. exists w. split; [reflexivity|]. unfold mbind, hprog_bind.
  destruct (record w) as [w2 [a|e]]; [apply Hf | done].
Qed.
End around.

Section apply_records.
Context `{Os : !HostOs} `{Models : !HostModels} `{Lib : !JsonLibrary} (state_root node_name : string).
Context `{KM : !ModelsKeepRecords state_root node_name}.
Abbreviation keeps := (keeps state_root node_name).
Context (backend : option HostdBackend) (Hbackend : local_backend backend)
  (publish : ProgressPublisher)
  (Hpublish : forall phase title detail percent plane node,
     moves keeps (publish phase title detail percent plane node)).
Context (dump_config : json -> result string) (render_v2 : json -> result DesiredState)
  (internal_host : option string).

Lemma keeps_snapshot desired node : moves keeps (WriteDesiredStateSnapshot desired node).
Proof.
  unfold WriteDesiredStateSnapshot, DesiredStateSnapshotPathForNode, ControlFilePathForNode.
  destruct (FindSharedDiskForNode _ _); [|moves]. apply moves_bind; [apply _|moves|]. intros text.
  apply keeps_write, other_file_append. other_name.
Qed.

(** The models of a state lie elsewhere than the records. *)
Definition mounts_other (desired : DesiredState) : Prop :=
  Forall (fun instance => Forall (fun mount => other_file (mount_host_path mount))
                            (inst_app_model_mounts instance)) (ds_instances desired).

Lemma keeps_materialize desired node :
  mounts_other desired -> moves keeps (MaterializeAppModelMounts desired node backend publish).
Proof.
  unfold mounts_other. rewrite Forall_forall. intros Hm. apply moves_for; [apply _|].
  intros instance Hi%elem_of_filterb. apply moves_for; [apply _|]. intros mount Hmount.
  assert (other_file (mount_host_path mount)) as Ho.
  { specialize (Hm instance (proj1 Hi)). rewrite Forall_forall in Hm. by apply Hm. }
  unfold MaterializeAppModelMount. cbv zeta. destruct (_ || _); [moves|].
  destruct (if vec_empty (mount_source_paths mount) then [mount_source_path mount]
            else mount_source_paths mount) as [|path [|? ?]]; [moves| |moves].
  apply moves_bind; [apply _|moves|]. intros [contents|].
  - destruct (path ==? mount_host_path mount); [moves|].
    apply moves_bind; [apply _|by apply keeps_write|]. intros _. apply Hpublish.
  - destruct Hbackend as [-> | ->]; [moves|]. apply km_transfer; [apply _|done|]. intros; apply Hpublish.
Qed.

Lemma keeps_stop_stale root desired mode :
  moves keeps (stop_stale root node_name desired mode publish).
Proof.
  unfold stop_stale, StopAndRemoveComposeArtifactIfPresent. cbv zeta.
  assert (moves keeps (RemoveFileIfExists (ComposePath root (ds_plane_name desired) node_name)))
    by apply keeps_remove, compose_path_other.
  moves.
Qed.

Lemma keeps_assignments {A} (f : Z -> Table -> Table * A) : moves keeps (on_assignments f).
Proof.
  intros w Hw. unfold on_assignments, on_store. cbv beta. destruct (f _ _) as [t a].
  split; [done | by apply undisturbed_own].
Qed.

Lemma keeps_progress assignment progress : moves keeps (PublishProgress backend assignment progress).
Proof.
  unfold PublishProgress. destruct Hbackend as [-> | ->]; [moves|]. destruct assignment as [id|]; [|moves].
  apply moves_ok; [apply _|]. apply moves_bind; [apply _|moves|]. intros text. apply keeps_assignments.
Qed.

Lemma keeps_await desired compose_plan root sr rr mode generation assignment :
  moves keeps (await_runtime render_v2 desired compose_plan node_name root sr rr state_root mode generation
                 assignment backend publish).
Proof.
  pose proof keeps_progress as Hprog. unfold await_runtime, RunIfNeeded. cbv zeta. moves.
Qed.

(** Applying a state makes its record once and touches no record besides. *)
Lemma apply_around desired root sr rr mode generation assignment w :
  RequireSingleNodeName desired = Ok node_name -> mounts_other desired ->
  around keeps (record_applied render_v2 state_root node_name desired generation)
    (ApplyDesiredNodeState render_v2 dump_config internal_host desired root sr rr state_root mode generation
       assignment backend publish) w.
Proof.
  intros Hnode Hmounts. unfold ApplyDesiredNodeState. rewrite Hnode.
  apply around_before; [apply _|moves|]. intros w1 n [= <- <-].
  apply around_before; [apply _|moves|]. intros w2 current _.
  apply around_before; [apply _|moves|]. intros w3 _ _.
  apply around_before; [apply _|moves|]. intros w4 plan Hplan. unfold hlift in Hplan. injection Hplan as <- Hplan.
  apply around_before; [apply _|moves|]. intros w5 compose_plan _.
  apply around_before; [apply _|moves|]. intros w6 _ _.
  apply around_before; [apply _|apply keeps_snapshot|]. intros w7 _ _.
  destruct (vec_empty (nep_operations plan)).
  - apply around_before; [apply _|by apply keeps_persist|]. intros w8 _ _.
    apply around_before; [apply _|by apply keeps_materialize|]. intros w9 _ _.
    apply around_before; [apply _|apply keeps_stop_stale|]. intros w10 _ _.
    apply around_record; [apply _|]. intros _. apply Hpublish.
  - apply around_before; [apply _|by apply keeps_disks_ready|]. intros w8 _ _.
    apply around_before; [apply _|by apply km_bootstrap; [apply _|]|]. intros w9 _ _.
    apply around_before; [apply _|by apply keeps_materialize|]. intros w10 _ _.
    apply around_before; [apply _| |intros w11 _ _].
    { apply keeps_plan; try done.
      destruct (BuildNodeExecutionPlans _ _ _ _) as [plans|] eqn:Eb; [|done]. cbn in Hplan.
      destruct (resolved_plan _ _ _ _ _ _ _ Eb Hplan) as (_ & built & Hb & ->).
      by apply shape_other, (build_plan_shape _ _ _ _ _ _ Hb). }
    apply around_before; [apply _|apply keeps_stop_stale|]. intros w12 _ _.
    apply around_before; [apply _|by apply keeps_persist_removed|]. intros w13 _ _.
    apply around_before; [apply _|by apply keeps_persist|]. intros w14 _ _.
    apply around_record; [apply _|]. intros _. pose proof keeps_await as Haw. moves.
Qed.
End apply_records.

Section remembered.
Context `{Lib : !JsonLibrary} (render_v2 : json -> result DesiredState) (state_root node_name : string).

(** What the files say was applied last for a plane. *)
Definition remembered (files : Files) (plane : string) : result (option DesiredState) * result (option Z) :=
  (LoadLocalAppliedState render_v2 state_root node_name (Some plane) files,
   LoadLocalAppliedGeneration state_root node_name (Some plane) files).

(** From one to the other only the entry of a plane changes. *)
Definition updates (plane : string) (entry : result (option DesiredState) * result (option Z))
    (files files' : Files) : Prop :=
  forall plane', plain_name plane' = true ->
    remembered files' plane' = if decide (plane' = plane) then entry else remembered files plane'.

Lemma remembered_ext files files' plane :
  plain_name plane = true ->
  (forall path, record_path state_root node_name path -> files' !! path = files !! path) ->
  remembered files' plane = remembered files plane.
Proof.
  intros Hp H. unfold remembered. cbv beta iota delta [LoadLocalAppliedState LoadLocalAppliedGeneration].
  f_equal; [apply load_state_ext | apply load_generation_ext]; apply H; exists plane; by eauto.
Qed.

Lemma remembered_outside files files' plane :
  plain_name plane = true ->
  (forall rest, files' !! (plane_prefix state_root node_name +:+ rest) =
                files !! (plane_prefix state_root node_name +:+ rest)) ->
  remembered files' plane = remembered files plane.
Proof.
  intros Hp H. apply remembered_ext; [done|]. intros path (p & Hpl & [-> | ->]);
    rewrite ?local_plane_state_path, ?local_plane_generation_path by done; apply H.
Qed.

Lemma updates_save plane state text files :
  plain_name plane = true -> storable state -> SerializeDesiredStateJson state = Ok text ->
  updates plane (Ok (Some state), (remembered files plane).2) files
    (<[LocalPlaneStatePath state_root node_name plane := text +:+ newline]> files).
Proof.
  intros Hp Hs Ht plane' Hp'. unfold remembered.
  cbv beta iota delta [LoadLocalAppliedState LoadLocalAppliedGeneration].
  destruct (decide (plane' = plane)) as [-> | Hne].
  - rewrite (load_state_inserted render_v2 _ state text files) by done. f_equal. apply load_generation_ext, lookup_insert_ne.
    rewrite local_plane_state_path, local_plane_generation_path by done. intros E.
    by apply (plane_file_inj _ _ _ _ "applied-state.json" "applied-generation.txt") in E as [_ ?].
  - f_equal; [apply load_state_ext | apply load_generation_ext]; apply lookup_insert_ne;
      rewrite ?local_plane_state_path, ?local_plane_generation_path by done; intros E.
    + by apply (plane_file_inj _ _ _ _ "applied-state.json" "applied-state.json") in E as [-> _].
    + by apply (plane_file_inj _ _ _ _ "applied-state.json" "applied-generation.txt") in E as [_ ?].
Qed.

Lemma updates_generation plane g files :
  plain_name plane = true -> int_min <= g <= int_max ->
  updates plane ((remembered files plane).1, Ok (Some g)) files
    (SaveLocalAppliedGeneration state_root node_name g (Some plane) files).
Proof.
  intros Hp Hg plane' Hp'. unfold remembered, SaveLocalAppliedGeneration.
  cbv beta iota delta [LoadLocalAppliedState LoadLocalAppliedGeneration].
  destruct (decide (plane' = plane)) as [-> | Hne].
  - rewrite load_generation_inserted by done. f_equal. apply load_state_ext, lookup_insert_ne.
    rewrite local_plane_state_path, local_plane_generation_path by done. intros E.
    by apply (plane_file_inj _ _ _ _ "applied-generation.txt" "applied-state.json") in E as [_ ?].
  - f_equal; [apply load_state_ext | apply load_generation_ext]; apply lookup_insert_ne;
      rewrite ?local_plane_state_path, ?local_plane_generation_path by done; intros E.
    + by apply (plane_file_inj _ _ _ _ "applied-generation.txt" "applied-state.json") in E as [_ ?].
    + by apply (plane_file_inj _ _ _ _ "applied-generation.txt" "applied-generation.txt") in E as [-> _].
Qed.

Lemma updates_forget plane files :
  plain_name plane = true ->
  updates plane (Ok None, Ok None) files (RemoveLocalAppliedPlaneState state_root node_name plane files).
Proof.
  intros Hp plane' Hp'. unfold remembered.
  cbv beta iota delta [LoadLocalAppliedState LoadLocalAppliedGeneration].
  pose proof (removed_lookup state_root node_name plane plane' "applied-state.json" files Hp Hp') as H1.
  pose proof (removed_lookup state_root node_name plane plane' "applied-generation.txt" files Hp Hp') as H2.
  change ("/" +:+ "applied-state.json") with "/applied-state.json" in H1.
  change ("/" +:+ "applied-generation.txt") with "/applied-generation.txt" in H2.
  rewrite <-local_plane_state_path in H1 by done. rewrite <-local_plane_generation_path in H2 by done.
  destruct (decide (plane' = plane)) as [-> | Hne].
  - unfold LoadStateFromPath, LoadGenerationFromPath. by rewrite H1, H2.
  - f_equal; [by apply load_state_ext | by apply load_generation_ext].
Qed.

Lemma updates_outside plane entry files files1 files2 :
  updates plane entry files files1 ->
  (forall rest, files2 !! (plane_prefix state_root node_name +:+ rest) =
                files1 !! (plane_prefix state_root node_name +:+ rest)) ->
  updates plane entry files files2.
Proof. intros H Ho plane' Hp'. by rewrite (remembered_outside files1 files2 plane' Hp' Ho), H. Qed.

Lemma remembered_undisturbed `{Os : !HostOs} (w w' : World) :
  undisturbed (record_path state_root node_name) w w' -> outside_left (record_path state_root node_name) w w' ->
  forall plane, plain_name plane = true -> remembered (w_files w') plane = remembered (w_files w) plane.
Proof. intros Hu Hl plane Hp. apply remembered_ext; [done|]. intros path. by apply undisturbed_same. Qed.

(** What a plane's entry becomes. *)
Definition new_entry (desired : DesiredState) (generation : option Z) (files : Files)
    : result (option DesiredState) * result (option Z) :=
  if IsDesiredNodeStateEmpty desired then (Ok None, Ok None)
  else (Ok (Some desired),
        match generation with
        | Some g => Ok (Some g)
        | None => (remembered files (ds_plane_name desired)).2
        end).

Context `{Os : !HostOs}.

Lemma record_applied_updates desired generation text w :
  plain_name (ds_plane_name desired) = true -> storable desired ->
  SerializeDesiredStateJson desired = Ok text -> from_option (fun g => int_min <= g <= int_max) True generation ->
  let '(w', r) := record_applied render_v2 state_root node_name desired generation w in
  w_store w' = w_store w /\ w_outside w' = w_outside w /\
  updates (ds_plane_name desired) (new_entry desired generation (w_files w)) (w_files w) (w_files w').
Proof.
  intros Hp Hs Ht Hg. unfold record_applied. cbv zeta. unfold mbind at 1, hprog_bind at 1.
  match goal with |- context [match ?m w with _ => _ end] => set (save := m) end.
  assert (exists w1, save w = (w1, Ok ()) /\ w_store w1 = w_store w /\ w_outside w1 = w_outside w /\
    updates (ds_plane_name desired) (new_entry desired generation (w_files w)) (w_files w) (w_files w1))
    as (w1 & -> & Es & Eo & Hu).
  { unfold save, new_entry. destruct (IsDesiredNodeStateEmpty desired).
    - eexists. split; [reflexivity|]. do 2 (split; [done|]). cbn. by apply updates_forget.
    - unfold mbind, hprog_bind, on_files at 1, SaveLocalAppliedState, WriteLocalStateFile. rewrite Ht.
      pose proof (updates_save (ds_plane_name desired) desired text (w_files w) Hp Hs Ht) as H1.
      destruct generation as [g|]; [|eexists; split; [reflexivity|]; do 2 (split; [done|]); exact H1].
      eexists. split; [reflexivity|]. do 2 (split; [done|]). intros plane' Hp'. cbn [w_files with_files].
      rewrite (updates_generation (ds_plane_name desired) g _ Hp Hg plane' Hp').
      destruct (decide (plane' = ds_plane_name desired)) as [-> | Hne].
      + rewrite (H1 _ Hp). by rewrite decide_True.
      + rewrite (H1 _ Hp'). by rewrite decide_False. }
  unfold mbind, hprog_bind, on_files.
  destruct (RewriteAggregateLocalState _ _ _ _) as [files2 r2] eqn:E2.
  pose proof (updates_outside _ _ _ _ _ Hu (rewrite_state_outside _ _ _ _ _ _ E2)) as Hu2.
  destruct r2 as [[]|e]; [|done]. cbn [w_files with_files].
  destruct (RewriteAggregateLocalGeneration _ _ _) as [files3 r3] eqn:E3.
  pose proof (updates_outside _ _ _ _ _ Hu2 (rewrite_generation_outside _ _ _ _ _ E3)) as Hu3.
  done.
Qed.
End remembered.

(** Replaying the operations on the node as it was makes it what is desired. *)
Definition reaches_desired (dump_config : json -> result string) (current : option DesiredState)
    (desired : DesiredState) (root node : string) (operations : list HostOperation) : Prop :=
  exists cs ds,
    signatures_or_empty dump_config current node = Ok cs /\
    InferRuntimeSignaturesForNode dump_config desired node = Ok ds /\
    run (host_of root (desired_plane current desired) node desired ds) operations
      (host_before root current desired node cs) =
    Some (host_of root (desired_plane current desired) node desired ds).

(** ** Properties *)

Section properties.
Context `{Os : !HostOs} `{Models : !HostModels} `{Lib : !JsonLibrary}.
Context (render_v2 : json -> result DesiredState) (dump_config : json -> result string)
  (internal_host : option string).

(** C9. Whether applying returns or throws, the record stays true: the entries of
    the other planes do not change, and the entry of the plane is either the state
    and generation that were applied, or what it was before, and then applying
    failed.  An empty state is recorded by forgetting the plane.  This is for a
    state of one node that can be stored and read back (its text is made, it is in
    normal form, its generation fits) under a plain plane name, on a local back end,
    and for a run in which nothing outside the program changed a record: none of
    the commands it ran, pauses it made, images it resized and directories it
    removed; and the fetching of models, the progress reports, the images in the
    database and the model mounts of the state stay off the records. *)
Theorem applying_keeps_records state_root node_name desired root sr rr mode generation assignment backend
    publish text w :
  ModelsKeepRecords state_root node_name ->
  local_backend backend ->
  (forall phase title detail percent plane node,
     moves (keeps state_root node_name) (publish phase title detail percent plane node)) ->
  rows_ok w -> mounts_other desired -> RequireSingleNodeName desired = Ok node_name ->
  plain_name (ds_plane_name desired) = true -> storable desired ->
  SerializeDesiredStateJson desired = Ok text ->
  from_option (fun g => int_min <= g <= int_max) True generation ->
  let '(w', r) := ApplyDesiredNodeState render_v2 dump_config internal_host desired root sr rr state_root
                    mode generation assignment backend publish w in
  let entry := remembered render_v2 state_root node_name in
  outside_left (record_path state_root node_name) w w' ->
  (forall plane, plain_name plane = true -> plane <> ds_plane_name desired ->
     entry (w_files w') plane = entry (w_files w) plane) /\
  (entry (w_files w') (ds_plane_name desired) =
     new_entry render_v2 state_root node_name desired generation (w_files w) \/
   entry (w_files w') (ds_plane_name desired) = entry (w_files w) (ds_plane_name desired) /\ is_ok r = false).
Proof.
  intros KM Hb Hpub Hw Hm Hnode Hplain Hst Htext Hg.
  pose proof (apply_around state_root node_name backend Hb publish Hpub dump_config render_v2 internal_host
    desired root sr rr mode generation assignment w Hnode Hm) as Ha.
  unfold around in Ha.
  destruct (ApplyDesiredNodeState _ _ _ _ _ _ _ _ _ _ _ _ _ _) as [w' r]. cbn [fst snd] in Ha. cbv zeta.
  intros Hleft.
  destruct Ha as [[Hk Hr]|(w1 & Hk1 & Hrec)].
  - destruct (Hk Hw) as [_ Hu]. pose proof (remembered_undisturbed render_v2 _ _ _ _ Hu Hleft) as E.
    split; [by intros; apply E|]. right. split; [by apply E | done].
  - destruct (Hk1 Hw) as [Hw1 Hu1].
    pose proof (record_applied_updates render_v2 state_root node_name desired generation text w1 Hplain Hst
      Htext Hg) as Hu.
    destruct (record_applied _ _ _ _ _ w1) as [w2 r2]. destruct Hu as (Es & Eo & Hu).
    assert (undisturbed (record_path state_root node_name) w2 w') as Hu2.
    { destruct r2 as [u|e]; [|by injection Hrec as -> ->]. apply Hrec. unfold rows_ok. by rewrite Es. }
    assert (undisturbed (fun _ => False) w1 w2) as H12 by (by apply undisturbed_own).
    assert (undisturbed (fun _ => False) w1 w') as H13
      by (etrans; [exact H12 | by eapply undisturbed_grows]).
    destruct (outside_left_split _ _ _ _ _ _ Hu1 H13 Hleft) as [Hl1 Hl].
    destruct (outside_left_split _ _ _ _ _ _ H12 Hu2 Hl) as [_ Hl2].
    pose proof (remembered_undisturbed render_v2 _ _ _ _ Hu1 Hl1) as E1.
    pose proof (remembered_undisturbed render_v2 _ _ _ _ Hu2 Hl2) as E2.
    assert (new_entry render_v2 state_root node_name desired generation (w_files w1) =
            new_entry render_v2 state_root node_name desired generation (w_files w)) as En.
    { unfold new_entry. by rewrite (E1 _ Hplain). }
    rewrite En in Hu. split.
    + intros plane Hp Hne. rewrite (E2 _ Hp), (Hu _ Hp), decide_False by done. by apply E1.
    + left. by rewrite (E2 _ Hplain), (Hu _ Hplain), decide_True.
Qed.

(** C10. The daemon reorders a plan and still gets there: it carries out exactly
    the operations made for its node, those that stop the old project first and the
    start last, and in that order too every operation is applicable and the host
    ends in the desired state. *)
Theorem host_order_reaches_desired current desired root node plans plan :
  BuildNodeExecutionPlans dump_config current desired root = Ok plans ->
  ResolveNodeExecutionPlan plans current desired node root = Ok plan ->
  reaches_desired dump_config current desired root node (apply_order (nep_operations plan)) /\
  forall compose_plan sr rr mode backend publish w,
    ApplyNodePlan dump_config plan desired compose_plan sr rr mode backend publish w =
    (hfor (apply_order (nep_operations plan))
       (apply_operation dump_config plan desired compose_plan sr rr mode backend publish) ≫= fun _ =>
     hwhen (IsDesiredNodeStateEmpty desired) (RemoveComposeMeshNetworkIfUnused (nep_plane_name plan) mode)) w.
Proof.
  intros Hp Hr. destruct (resolved_plan _ _ _ _ _ _ _ Hp Hr) as (_ & built & Hb & Ho).
  split; [|intros; apply apply_plan_order].
  destruct (node_plan_runs _ _ _ _ _ _ Hb) as (cs & ds & Hcs & Hds & Hrun).
  exists cs, ds. split; [done|]. split; [done|]. rewrite Ho. apply apply_order_runs; [|done].
  by apply (build_plan_shape _ _ _ _ _ _ Hb).
Qed.

(** C40. A project is started from what was rendered: when a plan starts the
    project at a path, carrying it out on a local back end returns, and no command run
    meanwhile, nothing else outside the program and no progress report changed the
    file at that path, then the last
    command run was that start, it succeeded, and the file it read was the rendering
    of the compose plan. *)
Theorem project_started_as_rendered current desired root node plans plan compose_plan sr rr backend publish
    path w w' :
  BuildNodeExecutionPlans dump_config current desired root = Ok plans ->
  ResolveNodeExecutionPlan plans current desired node root = Ok plan ->
  mkHostOperation ComposeUp path "docker compose up -d" ∈ nep_operations plan ->
  IsDesiredNodeStateEmpty desired = false -> local_backend backend ->
  (forall phase title detail percent plane node,
     moves (undisturbed (eq path)) (publish phase title detail percent plane node)) ->
  ApplyNodePlan dump_config plan desired compose_plan sr rr Exec backend publish w = (w', Ok ()) ->
  outside_left (eq path) w w' ->
  started_with path (RenderComposeYaml compose_plan) w'.
Proof.
  intros Hp Hr Hup He Hb Hpub. destruct (resolved_plan _ _ _ _ _ _ _ Hp Hr) as (_ & built & Hbuilt & Ho).
  apply plan_starts; try done. rewrite Ho. by apply (build_plan_shape _ _ _ _ _ _ Hbuilt).
Qed.
End properties.

(** ** A host *)

(** The state of one node, as it is read from its document, on a host that fetches
    no models and reports no progress. *)
Definition fx_single_document : json := DesiredStateToJson fx_three.
Definition fx_single : DesiredState := Eval vm_compute in
  match DesiredStateFromJson (Lib := tree_json) no_render (canon fx_single_document) with
  | Ok state => state | Throw _ => fx_three end.
Definition fx_single_text : string :=
  match SerializeDesiredStateJson (Lib := tree_json) fx_single with Ok text => text | Throw _ => "" end.

Definition fx_no_models (Os : HostOs) : HostModels (Os := Os) :=
  {| BootstrapPlaneModelIfNeeded _ _ _ _ := mret (); TransferAppModel _ _ _ _ _ := mret () |}.
Definition fx_quiet {Os : HostOs} : ProgressPublisher (Os := Os) := fun _ _ _ _ _ _ => mret ().

Definition fx_applied (Os : HostOs) (mode : ComposeMode) (w : World (Os := Os)) : World (Os := Os) * result unit :=
  ApplyDesiredNodeState (Os := Os) (Models := fx_no_models Os) (Lib := tree_json) no_render fx_dump None fx_single
    "/artifacts" "/var/lib/naim" None "/state" mode (Some 3) None (Some (LocalDbHostdBackend (Lib := tree_json)))
    fx_quiet w.

Lemma fx_single_serialized : SerializeDesiredStateJson (Lib := tree_json) fx_single = Ok fx_single_text.
Proof.
  assert (is_ok (SerializeDesiredStateJson (Lib := tree_json) fx_single) = true) as H by (vm_compute; reflexivity).
  unfold fx_single_text. by destruct (SerializeDesiredStateJson fx_single).
Qed.

Lemma fx_single_storable : storable fx_single.
Proof.
  split; [vm_compute; reflexivity|]. split.
  - apply (decode_normal (Lib := tree_json) no_render (canon fx_single_document)); vm_compute; reflexivity.
  - apply resolve_no_target; vm_compute; reflexivity.
Qed.

Lemma fx_single_mounts : mounts_other fx_single.
Proof.
  assert (forallb (fun i => match inst_app_model_mounts i with [] => true | _ => false end)
            (ds_instances fx_single) = true) as H by (vm_compute; reflexivity).
  apply List.Forall_forall. intros i Hi. rewrite forallb_forall in H. specialize (H i Hi). cbv beta in H.
  by destruct (inst_app_model_mounts i).
Qed.

Instance fx_models_keep state_root node_name :
  ModelsKeepRecords (Os := fx_host) (Models := fx_no_models fx_host) (Lib := tree_json) state_root node_name.
Proof. split; intros; apply moves_ret; apply _. Qed.

(** A step that changes no file. *)
Definition idle (step : Files * Files) : bool := bool_decide (step.2 = step.1).

Lemma idle_leaves P steps : forallb idle steps = true -> Forall (leaves P) steps.
Proof.
  intros H. apply List.Forall_forall. intros step Hin path _. rewrite forallb_forall in H.
  apply H in Hin. unfold idle in Hin. rewrite bool_decide_eq_true in Hin. by rewrite Hin.
Qed.

(** ** Witnesses *)

Lemma applying_keeps_records_witness :
  let '(w', r) := fx_applied fx_host Skip fx_world in
  remembered (Lib := tree_json) no_render "/state" "node-a" (w_files w') "demo" = (Ok (Some fx_single), Ok (Some 3)) /\
  remembered (Lib := tree_json) no_render "/state" "node-a" (w_files w') "other" =
    remembered (Lib := tree_json) no_render "/state" "node-a" ∅ "other".
Proof.
  pose proof (applying_keeps_records (Os := fx_host) (Models := fx_no_models fx_host) (Lib := tree_json)
    no_render fx_dump None "/state" "node-a" fx_single "/artifacts" "/var/lib/naim" None Skip (Some 3) None
    (Some (LocalDbHostdBackend (Lib := tree_json))) fx_quiet fx_single_text fx_world) as H.
  fold (fx_applied fx_host Skip fx_world) in H.
  assert (is_ok (fx_applied fx_host Skip fx_world).2 = true) as Hok by (vm_compute; reflexivity).
  assert (forallb idle (w_outside (fx_applied fx_host Skip fx_world).1) = true) as Hout by (vm_compute; reflexivity).
  destruct (fx_applied fx_host Skip fx_world) as [w' r]. cbn [fst snd] in Hok, Hout. cbv zeta in H.
  destruct H as [H1 H2].
  - apply _.
  - by right.
  - intros. apply moves_ret. apply _.
  - intros key row Hk. change (w_store fx_world) with empty_store in Hk. discriminate Hk.
  - exact fx_single_mounts.
  - vm_compute. reflexivity.
  - vm_compute. reflexivity.
  - exact fx_single_storable.
  - exact fx_single_serialized.
  - vm_compute. split; discriminate.
  - apply idle_leaves. exact Hout.
  - split; [|apply H1; [vm_compute; reflexivity | discriminate]].
    destruct H2 as [H2|[_ H2]]; [|rewrite Hok in H2; discriminate H2].
    change (ds_plane_name fx_single) with "demo" in H2. rewrite H2. unfold new_entry.
    assert (IsDesiredNodeStateEmpty fx_single = false) as -> by (vm_compute; reflexivity). reflexivity.
Defined.

Definition fx_plans : list NodeExecutionPlan :=
  match BuildNodeExecutionPlans fx_dump None fx_single "/artifacts" with Ok plans => plans | Throw _ => [] end.
Definition fx_plan : NodeExecutionPlan := default (mkNodeExecutionPlan "" "" "" []) (head fx_plans).
Definition fx_compose_plan : NodeComposePlan :=
  match RequireNodeComposePlan None fx_single "node-a" with
  | Ok plan => plan | Throw _ => mkNodeComposePlan "" "" [] [] end.
Definition fx_compose_path : string := "/artifacts/demo/node-a/docker-compose.yml".

Lemma fx_plans_ok :
  BuildNodeExecutionPlans fx_dump None fx_single "/artifacts" = Ok fx_plans /\
  ResolveNodeExecutionPlan fx_plans None fx_single "node-a" "/artifacts" = Ok fx_plan.
Proof.
  assert (is_ok (BuildNodeExecutionPlans fx_dump None fx_single "/artifacts") = true) as H
    by (vm_compute; reflexivity).
  split; [unfold fx_plans; by destruct (BuildNodeExecutionPlans fx_dump None fx_single "/artifacts") |].
  vm_compute. reflexivity.
Qed.

Lemma host_order_reaches_desired_witness :
  reaches_desired fx_dump None fx_single "/artifacts" "node-a" (apply_order (nep_operations fx_plan)).
Proof.
  exact (proj1 (host_order_reaches_desired (Os := fx_host)
    fx_dump None fx_single "/artifacts" "node-a" fx_plans fx_plan (proj1 fx_plans_ok) (proj2 fx_plans_ok))).
Defined.

Definition fx_started : World (Os := fx_host) * result unit :=
  ApplyNodePlan (Os := fx_host) fx_dump fx_plan fx_single fx_compose_plan "/var/lib/naim" None
    Exec (Some (LocalDbHostdBackend (Lib := tree_json))) fx_quiet fx_world.

Lemma project_started_as_rendered_witness : exists w',
  fx_started = (w', Ok ()) /\ w_outside w' <> [] /\
  started_with (Os := fx_host) fx_compose_path (RenderComposeYaml fx_compose_plan) w'.
Proof.
  assert (is_ok fx_started.2 = true) as Hok by (vm_compute; reflexivity).
  assert (forallb idle (w_outside fx_started.1) = true) as Hidle by (vm_compute; reflexivity).
  assert (negb (vec_empty (w_outside fx_started.1)) = true) as Hsome by (vm_compute; reflexivity).
  destruct fx_started as [w' [[]|e]] eqn:E; [|discriminate Hok]. exists w'. split; [reflexivity|].
  split; [intros Ho; cbn [fst] in Hsome; rewrite Ho in Hsome; discriminate Hsome|].
  apply (project_started_as_rendered (Os := fx_host) (Lib := tree_json) fx_dump None fx_single "/artifacts" "node-a"
    fx_plans fx_plan fx_compose_plan "/var/lib/naim" None (Some (LocalDbHostdBackend (Lib := tree_json))) fx_quiet
    fx_compose_path fx_world w' (proj1 fx_plans_ok) (proj2 fx_plans_ok)).
  - apply list_elem_of_In. vm_compute. repeat (try (left; reflexivity); right).
  - vm_compute. reflexivity.
  - by right.
  - intros. apply moves_ret. apply _.
  - exact E.
  - apply idle_leaves. exact Hidle.
Defined.

(** ** What a second attempt does not see *)

(** The host, whose clock advances when the daemon sleeps. *)
Definition fx_clock_host : HostOs :=
  {| os := Z;
     os_system command files o :=
       (if starts_with "/usr/bin/mountpoint" command then 256 else 0, files, o);
     os_popen command files o :=
       (if starts_with "/usr/sbin/losetup -f" command || starts_with "/usr/sbin/losetup --find" command
        then Some ("/dev/loop0" +:+ newline) else Some "", files, o);
     os_exists path files o := path ==? "/dev/loop0";
     os_weakly_canonical path files o := None;
     os_mounts o := None;
     os_resize_file path size files o := Ok (files, o);
     os_remove_all path files o := (files, o, None);
     os_sleep milliseconds files o := (files, o + 100 * milliseconds);
     os_elevated := true;
     os_platform := "linux";
     os_clock o := o;
     os_steady_clock o := o;
     os_current_path o := None;
     os_executable_path := "" |}.
Definition fx_first : World (Os := fx_clock_host) * result unit :=
  fx_applied fx_clock_host Exec (mkWorld (Os := fx_clock_host) ∅ 0 empty_store None None ∅ [] []).

(** The runtime never comes up and the first attempt fails, but by then the state
    is recorded: the second attempt finds nothing to do and succeeds. *)
Example retry_skips_readiness :
  fx_first.2 = Throw "timed out waiting for plane runtime readiness on node 'node-a'" /\
  (fx_applied fx_clock_host Exec fx_first.1).2 = Ok ().
Proof. split; vm_compute; reflexivity. Qed.
