(* ===== verification/HostAssignments.v ===== *)
(** * Carrying out an assignment

    [hostd_assignment_service.cpp], [hostd_assignment_lock.cpp],
    [hostd_reporting_support.cpp], [hostd_backend_factory.cpp] and the parts of
    [hostd_observation_service.cpp] and [hostd_app_assignment_support.cpp] they
    use: the daemon claims the next assignment of its node, carries it out and
    reports how it went.

    [IHostdAssignmentSupport] is the interface the service is written against, and
    a class here.  [HostdAppAssignmentSupport] is its implementation, given the
    jobs that are not modelled ([HostJobs]). *)

From S2P Require Import Prelude Binary64 Json Models Fixtures Planner Paths InferRuntimeConfig Reconcile ExecutionPlan ComposeRenderer StateCodecs StateJson AssignmentStore AssignmentReconciliation RuntimeStatus ControllerStore HostLocalState HostPaths HostCommands HostDisks HostRuntime HostApply HostApplied.

(** ** The interface *)

Class IHostdAssignmentSupport `{Os : !HostOs} := {
  is_RebaseStateForRuntimeRoot : DesiredState -> string -> option string -> DesiredState;
  is_BuildAssignmentProgressPayload : string -> string -> string -> Z -> string -> string -> json;
  is_PublishAssignmentProgress : HostdBackend -> option Z -> json -> hprog unit;
  is_ParseTaggedCsv : string -> string -> list string;
  is_BuildObservedStateSnapshot :
    string -> string -> string -> HostObservationStatus -> string -> option Z -> hprog HostObservation;
  is_CaptureServiceHostPids : list string -> hprog (gmap string Z);
  is_VerifyEvictionAssignment : DesiredState -> string -> string -> string -> gmap string Z -> hprog bool;
  is_ApplyDesiredNodeState :
    DesiredState -> string -> string -> option string -> string -> ComposeMode -> option Z -> option Z ->
    HostdBackend -> hprog unit;
  is_DownloadModelLibraryArtifacts : json -> string -> HostdBackend -> option Z -> hprog unit;
  is_ReadModelArtifactChunk : json -> string -> HostdBackend -> option Z -> hprog unit;
  is_BuildModelArtifactManifest : json -> string -> HostdBackend -> option Z -> hprog unit;
  is_ApplyKnowledgeVaultService : json -> string -> string -> HostdBackend -> option Z -> hprog unit;
  is_StopKnowledgeVaultService : json -> string -> HostdBackend -> option Z -> hprog unit;
  is_ExecuteRuntimeHttpProxy : json -> string -> HostdBackend -> option Z -> hprog unit;
  is_ExecuteHostSelfUpdate : json -> string -> option string -> HostdBackend -> option Z -> hprog unit;
  is_AppendHostdEvent :
    HostdBackend -> string -> string -> string -> json -> string -> string -> string -> option Z ->
    option Z -> string -> hprog unit;
}.

(** ** The lock *)

(** What [open] and [flock] answer for a lock file. *)
Inductive flock_answer := NotOpened | Locked | WouldBlock | NotLocked.
Class HostLocks `{Os : !HostOs} := os_flock : string -> os -> flock_answer.

Section assignments.
Context `{Os : !HostOs} `{Locks : !HostLocks} `{Lib : !JsonLibrary}.

Definition LockFilePath (state_root node_name : string) : string :=
  path_append (path_append state_root node_name) "assignment.lock".

(** [false] when another process holds the lock. *)
Definition TryAcquire (state_root node_name : string) : hprog bool :=
  let lock_path := LockFilePath state_root node_name in
  answer ← hread (fun w => os_flock lock_path (w_os w));
  match answer with
  | NotOpened => hthrow ("failed to open hostd assignment lock '" +:+ lock_path +:+ "'")
  | _ =>
      hmodify (fun w => with_files (<[lock_path := default "" (w_files w !! lock_path)]> (w_files w)) w)
      ≫= fun _ =>
      match answer with
      | WouldBlock => mret false
      | NotLocked => hthrow ("failed to lock hostd assignment lock '" +:+ lock_path +:+ "'")
      | _ => mret true
      end
  end.

(** ** Back ends *)

Context (render_v2 : json -> result DesiredState)
  (http_backend : string -> string -> string -> string -> string -> string -> HostdBackend).

Definition CreateBackend (controller_url host_private_key_path controller_fingerprint onboarding_key
    : option string) (node_name storage_root : string) : hprog HostdBackend :=
  match controller_url with
  | Some url =>
      if str_empty url then mret LocalDbHostdBackend
      else
        match host_private_key_path with
        | Some key_path =>
            if str_empty key_path then
              hthrow "--host-private-key is required for remote host-agent mode"
            else
              input ← hread (fun w => w_files w !! key_path);
              match input with
              | None => hthrow ("failed to read host private key '" +:+ key_path +:+ "'")
              | Some text =>
                  mret (http_backend url (Trim text) (default "" controller_fingerprint)
                          (default "" onboarding_key) node_name storage_root)
              end
        | None => hthrow "--host-private-key is required for remote host-agent mode"
        end
  | None => mret LocalDbHostdBackend
  end.

(** ** Reports *)

Definition SelfUpdateMarkerPath (state_root node_name : string) : string :=
  path_append (path_append state_root "control") ("hostd-self-update-scheduled-" +:+ node_name).

Definition WriteSelfUpdateMarker (state_root node_name : string) (assignment_id : Z) : hprog unit :=
  hmodify (fun w =>
    with_files (<[SelfUpdateMarkerPath state_root node_name := to_string assignment_id +:+ newline]>
                  (w_files w)) w).

Definition RunBestEffort (m : hprog unit) : hprog unit := htry m (fun _ => mret ()).

Context `{Support : !IHostdAssignmentSupport}.

Definition obs_with (plane_name : string) (applied_generation : option Z) (o : HostObservation)
    : HostObservation :=
  mkHostObservation (obs_node_name o) plane_name applied_generation (obs_last_assignment_id o)
    (obs_status o) (obs_status_message o) (obs_observed_state_json o) (obs_runtime_status_json o)
    (obs_instance_runtime_json o) (obs_gpu_telemetry_json o) (obs_disk_telemetry_json o)
    (obs_network_telemetry_json o) (obs_cpu_telemetry_json o) (obs_heartbeat_at o).

Definition BuildAssignmentObservation (assignment : HostAssignment)
    (node_name storage_root state_root : string) (status : HostObservationStatus)
    (status_message : string) : hprog HostObservation :=
  observation ← is_BuildObservedStateSnapshot node_name storage_root state_root status status_message
                  (Some (ha_id assignment));
  mret (obs_with
    (if str_empty (ha_plane_name assignment) then obs_plane_name observation else ha_plane_name assignment)
    (if status ==? ObsApplied then Some (ha_desired_generation assignment) else None) observation).

Definition optional_int (value : option Z) : json := from_option JInt JNull value.

Definition ReportObservedState (backend : HostdBackend) (observation : HostObservation)
    (source_label : string) : hprog unit :=
  be_UpsertHostObservation backend observation ≫= fun _ =>
  is_AppendHostdEvent backend "host-observation" "reported" source_label
    (JObject [("status", JString (HostObservationStatus_ToString (obs_status observation)));
              ("applied_generation", optional_int (obs_applied_generation observation));
              ("last_assignment_id", optional_int (obs_last_assignment_id observation))])
    (obs_plane_name observation) (obs_node_name observation) "" (obs_last_assignment_id observation)
    None "info".

(** ** The assignment *)

Definition attempts (assignment : HostAssignment) : string :=
  to_string (ha_attempt_count assignment) +:+ "/" +:+ to_string (ha_max_attempts assignment).

Definition assignment_context (assignment : HostAssignment) : string :=
  if str_empty (ha_status_message assignment) then ""
  else " [" +:+ ha_status_message assignment +:+ "]".

Definition transition (backend : HostdBackend) (assignment : HostAssignment)
    (status : HostAssignmentStatus) (message : string) : hprog unit :=
  be_TransitionClaimedHostAssignment backend (ha_id assignment) status message ≫= fun _ => mret ().

(** The kinds that run one job with the payload: the job, and what is reported. *)
Definition job_payload (assignment : HostAssignment) : hprog json :=
  hlift (parse (ha_desired_state_json assignment)).

Definition job_event (assignment : HostAssignment) : json :=
  JObject [("assignment_type", JString (ha_assignment_type assignment));
           ("attempt_count", JInt (ha_attempt_count assignment));
           ("max_attempts", JInt (ha_max_attempts assignment))].
Definition assignment_event (assignment : HostAssignment) : json :=
  JObject [("assignment_type", JString (ha_assignment_type assignment));
           ("desired_generation", JInt (ha_desired_generation assignment));
           ("attempt_count", JInt (ha_attempt_count assignment));
           ("max_attempts", JInt (ha_max_attempts assignment))].

Definition node_state_types : list string :=
  ["apply-node-state"; "drain-node-state"; "stop-plane-state"; "delete-plane-state"; "evict-workers"].

Definition applying_prefix (type : string) : string :=
  if type ==? "drain-node-state" then "draining node for desired generation "
  else if type ==? "stop-plane-state" then "stopping plane state for desired generation "
  else if type ==? "delete-plane-state" then "deleting plane state for desired generation "
  else if type ==? "evict-workers" then "evicting rollout workers for desired generation "
  else "applying desired generation ".
Definition applied_prefix (type : string) : string :=
  if type ==? "drain-node-state" then "drained node for desired generation "
  else if type ==? "stop-plane-state" then "stopped plane state for desired generation "
  else if type ==? "evict-workers" then "evicted rollout workers for desired generation "
  else "applied desired generation ".

Section apply_next.
Context (backend : HostdBackend) (assignment : HostAssignment) (node_name storage_root : string)
  (runtime_root : option string) (state_root : string) (compose_mode : ComposeMode).

Definition report (status : HostObservationStatus) (message : string) : hprog unit :=
  RunBestEffort
    (observation ← BuildAssignmentObservation assignment node_name storage_root state_root status message;
     ReportObservedState backend observation "hostd observed-state-update").

(** The assignments that change the node's state. *)
Definition apply_node_state : hprog unit :=
  let type := ha_assignment_type assignment in
  let generation := to_string (ha_desired_generation assignment) +:+ assignment_context assignment in
  if negb (existsb (eqb type) node_state_types) then
    hthrow ("unsupported assignment type '" +:+ type +:+ "'")
  else
    state ← hlift (DeserializeDesiredStateJson render_v2 (ha_desired_state_json assignment));
    let rebased_state := is_RebaseStateForRuntimeRoot state storage_root runtime_root in
    let is_eviction_assignment := type ==? "evict-workers" in
    let victim_names :=
      if is_eviction_assignment then is_ParseTaggedCsv (ha_status_message assignment) "victims" else [] in
    victim_host_pids ← (if is_eviction_assignment then is_CaptureServiceHostPids victim_names else mret ∅);
    report ObsApplying (applying_prefix type +:+ generation) ≫= fun _ =>
    is_ApplyDesiredNodeState rebased_state (ha_artifacts_root assignment) storage_root runtime_root
      state_root compose_mode (Some (ha_desired_generation assignment)) (Some (ha_id assignment)) backend
    ≫= fun _ =>
    released ← (if is_eviction_assignment && (compose_mode ==? Exec) then
                  is_VerifyEvictionAssignment rebased_state node_name state_root
                    (ha_status_message assignment) victim_host_pids
                else mret true);
    if negb released then
      hthrow "eviction verification timed out; gpu resources were not released"
    else
      report ObsApplied (applied_prefix type +:+ generation) ≫= fun _ =>
      transition backend assignment Applied
        (applied_prefix type +:+ generation +:+ " on attempt " +:+ attempts assignment) ≫= fun _ =>
      RunBestEffort
        (is_AppendHostdEvent backend "host-assignment" "applied" ("applied assignment on node " +:+ node_name)
           (assignment_event assignment) (ha_plane_name assignment) node_name "" (Some (ha_id assignment))
           None "info").

(** A job and its result. *)
Definition run_job (job : json -> hprog unit) (applied : string) : hprog unit :=
  payload ← job_payload assignment;
  job payload ≫= fun _ =>
  transition backend assignment Applied (applied +:+ " on attempt " +:+ attempts assignment).

Definition carry_out (host_private_key_path : option string) : hprog unit :=
  let type := ha_assignment_type assignment in
  let id := Some (ha_id assignment) in
  let plane_name := ha_plane_name assignment in
  if type ==? "model-library-download" then
    is_PublishAssignmentProgress backend id
      (is_BuildAssignmentProgressPayload "starting" "Starting model download"
         "Storage node accepted the model library download assignment." 5 plane_name node_name) ≫= fun _ =>
    run_job (fun payload =>
      is_DownloadModelLibraryArtifacts payload node_name backend id ≫= fun _ =>
      is_PublishAssignmentProgress backend id
        (is_BuildAssignmentProgressPayload "completed" "Model download completed"
           "Storage node finished the model library download assignment." 100 plane_name node_name))
      "downloaded model library artifacts" ≫= fun _ =>
    is_AppendHostdEvent backend "model-library" "downloaded"
      ("downloaded model library artifacts on node " +:+ node_name) (job_event assignment) plane_name
      node_name "" id None "info"
  else if type ==? "model-artifact-read-chunk" then
    run_job (fun payload => is_ReadModelArtifactChunk payload node_name backend id)
      "read model artifact chunk"
  else if type ==? "model-artifact-build-manifest" then
    run_job (fun payload => is_BuildModelArtifactManifest payload node_name backend id)
      "built model artifact manifest"
  else if type ==? "knowledge-vault-apply" then
    run_job (fun payload => is_ApplyKnowledgeVaultService payload node_name storage_root backend id)
      "applied knowledge vault service"
  else if type ==? "knowledge-vault-stop" then
    run_job (fun payload => is_StopKnowledgeVaultService payload node_name backend id)
      "stopped knowledge vault service"
  else if type ==? "runtime-http-proxy" then
    run_job (fun payload => is_ExecuteRuntimeHttpProxy payload node_name backend id)
      "proxied runtime HTTP request"
  else if type ==? "hostd-self-update" then
    run_job (fun payload => is_ExecuteHostSelfUpdate payload node_name host_private_key_path backend id)
      "scheduled hostd self-update" ≫= fun _ =>
    is_AppendHostdEvent backend "host-assignment" "hostd-self-update-scheduled"
      ("scheduled hostd self-update on node " +:+ node_name) (job_event assignment) plane_name node_name ""
      id None "info" ≫= fun _ =>
    WriteSelfUpdateMarker state_root node_name (ha_id assignment)
  else apply_node_state.

(** The status after a failure, and its message. *)
Definition failed_status : HostAssignmentStatus :=
  if ha_attempt_count assignment <? ha_max_attempts assignment then Pending else Failed.
Definition failed_message (error_message : string) : string :=
  "attempt " +:+ attempts assignment +:+
  (if ha_attempt_count assignment <? ha_max_attempts assignment then " failed: " else " exhausted: ") +:+
  error_message +:+ assignment_context assignment.

(** The handler of whatever was thrown. *)
Definition give_back (error_message : string) : hprog unit :=
  RunBestEffort
    (is_PublishAssignmentProgress backend (Some (ha_id assignment))
       (is_BuildAssignmentProgressPayload "failed" "Assignment failed" error_message 100
          (ha_plane_name assignment) node_name)) ≫= fun _ =>
  report ObsFailed error_message ≫= fun _ =>
  transition backend assignment failed_status (failed_message error_message) ≫= fun _ =>
  RunBestEffort
    (is_AppendHostdEvent backend "host-assignment" "failed" error_message (assignment_event assignment)
       (ha_plane_name assignment) node_name "" (Some (ha_id assignment)) None "error") ≫= fun _ =>
  hthrow error_message.
End apply_next.

Definition ApplyNextAssignment (controller_url host_private_key_path controller_fingerprint
    onboarding_key : option string) (node_name storage_root : string) (runtime_root : option string)
    (state_root : string) (compose_mode : ComposeMode) : hprog unit :=
  acquired ← TryAcquire state_root node_name;
  if negb acquired then mret ()
  else
    backend ← CreateBackend controller_url host_private_key_path controller_fingerprint onboarding_key
                node_name storage_root;
    assignment ← be_ClaimNextHostAssignment backend node_name;
    match assignment with
    | None => mret ()
    | Some assignment =>
        htry (carry_out backend assignment node_name storage_root runtime_root state_root compose_mode
                host_private_key_path)
          (give_back backend assignment node_name storage_root state_root)
    end.
End assignments.

(** ** The implementation of the interface *)

(** The jobs that are not modelled: the telemetry of the node, models,
    knowledge vaults, the HTTP proxy and the update of the daemon itself. *)
Class HostJobs `{Os : !HostOs} := {
  hj_BuildObservedStateSnapshot :
    string -> string -> string -> HostObservationStatus -> string -> option Z -> hprog HostObservation;
  hj_CollectGpuTelemetry : DesiredState -> string -> list RuntimeProcessStatus -> hprog GpuTelemetrySnapshot;
  hj_DownloadModelLibraryArtifacts : json -> string -> HostdBackend -> option Z -> hprog unit;
  hj_ReadModelArtifactChunk : json -> string -> HostdBackend -> option Z -> hprog unit;
  hj_BuildModelArtifactManifest : json -> string -> HostdBackend -> option Z -> hprog unit;
  hj_ApplyKnowledgeVaultService : json -> string -> string -> HostdBackend -> option Z -> hprog unit;
  hj_StopKnowledgeVaultService : json -> string -> HostdBackend -> option Z -> hprog unit;
  hj_ExecuteRuntimeHttpProxy : json -> string -> HostdBackend -> option Z -> hprog unit;
  hj_ExecuteHostSelfUpdate : json -> string -> option string -> HostdBackend -> option Z -> hprog unit;
}.

Section support.
Context `{Os : !HostOs} `{Models : !HostModels} `{Jobs : !HostJobs} `{Lib : !JsonLibrary}.
Context (render_v2 : json -> result DesiredState) (dump_config : json -> result string)
  (internal_host : option string).

Definition BuildAssignmentProgressPayload (phase title detail : string) (percent : Z)
    (plane_name node_name : string) (bytes_done bytes_total : option Z) : json :=
  JObject ([("phase", JString phase); ("title", JString title); ("detail", JString detail);
            ("percent", JInt (Z.max 0 (Z.min 100 percent))); ("plane_name", JString plane_name);
            ("node_name", JString node_name)] ++
           from_option (fun n => [("bytes_done", JInt n)]) [] bytes_done ++
           from_option (fun n => [("bytes_total", JInt n)]) [] bytes_total).

Definition PublishAssignmentProgress (backend : option HostdBackend) (assignment_id : option Z)
    (progress : json) : hprog unit :=
  match backend, assignment_id with
  | Some backend, Some id =>
      htry (be_UpdateHostAssignmentProgress backend id progress ≫= fun _ => mret ()) (fun _ => mret ())
  | _, _ => mret ()
  end.

Definition AppendHostdEvent (backend : HostdBackend) (category event_type message : string)
    (payload : json) (plane_name node_name worker_name : string)
    (assignment_id rollout_action_id : option Z) (severity : string) : hprog unit :=
  payload_json ← hlift (dump payload);
  be_AppendEvent backend
    (mkEventRecord 0 plane_name node_name worker_name assignment_id rollout_action_id category event_type
       severity message payload_json "").

Definition HostdAppAssignmentSupport : IHostdAssignmentSupport :=
  {| is_RebaseStateForRuntimeRoot := RebaseStateForRuntimeRoot;
     is_BuildAssignmentProgressPayload phase title detail percent plane_name node_name :=
       BuildAssignmentProgressPayload phase title detail percent plane_name node_name None None;
     is_PublishAssignmentProgress backend := PublishAssignmentProgress (Some backend);
     is_ParseTaggedCsv := ParseTaggedCsv;
     is_BuildObservedStateSnapshot := hj_BuildObservedStateSnapshot;
     is_CaptureServiceHostPids := CaptureServiceHostPids;
     is_VerifyEvictionAssignment := VerifyEvictionAssignment render_v2 hj_CollectGpuTelemetry;
     is_ApplyDesiredNodeState desired_node_state artifacts_root storage_root runtime_root state_root
         compose_mode desired_generation assignment_id backend :=
       ApplyDesiredNodeState render_v2 dump_config internal_host desired_node_state artifacts_root
         storage_root runtime_root state_root compose_mode desired_generation assignment_id (Some backend)
         (fun phase title detail percent plane_name node_name =>
            PublishAssignmentProgress (Some backend) assignment_id
              (BuildAssignmentProgressPayload phase title detail percent plane_name node_name None None));
     is_DownloadModelLibraryArtifacts := hj_DownloadModelLibraryArtifacts;
     is_ReadModelArtifactChunk := hj_ReadModelArtifactChunk;
     is_BuildModelArtifactManifest := hj_BuildModelArtifactManifest;
     is_ApplyKnowledgeVaultService := hj_ApplyKnowledgeVaultService;
     is_StopKnowledgeVaultService := hj_StopKnowledgeVaultService;
     is_ExecuteRuntimeHttpProxy := hj_ExecuteRuntimeHttpProxy;
     is_ExecuteHostSelfUpdate := hj_ExecuteHostSelfUpdate;
     is_AppendHostdEvent := AppendHostdEvent |}.
End support.

(** ** The queue during a job *)

Section queue.
Context `{Os : !HostOs}.

(** What the queue says of an assignment, but for its progress. *)
Definition entry (w : World) (id : Z) : option HostAssignment :=
  set_progress "" <$> LoadHostAssignment id (cs_assignments (w_store w)).

Definition same_queue (w w' : World) : Prop := forall id, entry w' id = entry w id.

Lemma same_queue_store (w w' : World) :
  cs_assignments (w_store w') = cs_assignments (w_store w) -> same_queue w w'.
Proof. intros E id. unfold entry. by rewrite E. Qed.

#[global] Instance same_queue_frame : CommandFrame same_queue.
Proof.
  split.
  - split; [by intros w id | by intros w1 w2 w3 H1 H2 id; rewrite H2, H1].
  - intros command w. unfold system. destruct (os_system _ _ _) as [[code files] o]. by apply same_queue_store.
  - intros command w. unfold RunCommandCapture. destruct (os_popen _ _ _) as [[output files] o].
    by apply same_queue_store.
  - intros ms w. unfold sleep_for. destruct (os_sleep _ _ _) as [files o]. by apply same_queue_store.
  - intros. by apply same_queue_store.
  - intros. by apply same_queue_store.
  - intros. by apply same_queue_store.
Qed.

(** The effect of settling an assignment on an entry. *)
Definition settled (id : Z) (status : HostAssignmentStatus) (message : string) (a : HostAssignment)
    : HostAssignment :=
  if (ha_id a =? id) && (ha_status a ==? Claimed) then set_status status message a else a.

Lemma load_updated now p f id t :
  (forall a, ha_id (f a) = ha_id a) ->
  LoadHostAssignment id (update_where now p f t).1 =
  (fun r => row_data (update_row now p f r)) <$> find_if (has_id id) (tbl_rows t).
Proof.
  intros Hf. unfold LoadHostAssignment, update_where. cbn [fst tbl_rows].
  induction (tbl_rows t) as [|r l IH]; [done|]. cbn [fmap list_fmap find_if].
  assert (has_id id (update_row now p f r) = has_id id r) as ->.
  { unfold has_id, update_row. destruct (p r); [|done]. cbn. by rewrite Hf. }
  by destruct (has_id id r).
Qed.

Lemma entry_settled `{Lib : !JsonLibrary} assignment status message w :
  let w' := (transition LocalDbHostdBackend assignment status message w).1 in
  (transition LocalDbHostdBackend assignment status message w).2 = Ok () /\
  forall id, entry w' id = settled (ha_id assignment) status message <$> entry w id.
Proof.
  cbv zeta. split; [done|]. intros id. unfold entry.
  change (cs_assignments (w_store (transition LocalDbHostdBackend assignment status message w).1)) with
    (update_where (os_clock (w_os w)) (fun r => has_id (ha_id assignment) r && has_status Claimed r)
       (set_status status message) (cs_assignments (w_store w))).1.
  rewrite load_updated by done. unfold LoadHostAssignment.
  destruct (find_if _ _) as [r|] eqn:Er; [|done]. cbn. f_equal. unfold update_row, settled, has_id, has_status.
  cbn. by destruct (_ && _).
Qed.

Lemma same_progress `{Lib : !JsonLibrary} id progress :
  moves same_queue (be_UpdateHostAssignmentProgress LocalDbHostdBackend id progress).
Proof.
  apply moves_bind; [apply _|moves|]. intros text w id'. unfold entry.
  match goal with |- context [cs_assignments (w_store (?m w).1)] =>
    change (cs_assignments (w_store (m w).1)) with
      (update_where (os_clock (w_os w)) (fun r => has_id id r && has_status Claimed r)
         (set_progress (if str_empty text then "{}" else text)) (cs_assignments (w_store w))).1 end.
  rewrite load_updated by done. unfold LoadHostAssignment.
  destruct (find_if _ _) as [r|]; [|done]. cbn. unfold update_row. by destruct (_ && _).
Qed.

Lemma same_on_store {A} (f : Z -> ControllerStore -> ControllerStore * A) :
  (forall now s, cs_assignments (f now s).1 = cs_assignments s) -> moves same_queue (on_store f).
Proof.
  intros Hf w. apply same_queue_store. unfold on_store. specialize (Hf (os_clock (w_os w)) (w_store w)).
  by destruct (f _ _).
Qed.

Lemma same_files f : moves same_queue (hmodify (fun w => with_files (f w) w)).
Proof. intros w. by apply same_queue_store. Qed.
End queue.

(** ** The implementation keeps the queue *)

Section support_keeps.
Context `{Os : !HostOs} `{Models : !HostModels} `{Jobs : !HostJobs} `{Lib : !JsonLibrary}.
Context (render_v2 : json -> result DesiredState) (dump_config : json -> result string)
  (internal_host : option string).
Abbreviation backend := LocalDbHostdBackend.

Lemma same_write path text : moves same_queue (WriteTextFile path text).
Proof. apply same_files. Qed.
Lemma same_remove path : moves same_queue (RemoveFileIfExists path).
Proof. intros w. by apply same_queue_store. Qed.
Lemma same_resize path size : moves same_queue (resize_file path size).
Proof. intros w. unfold resize_file. by destruct (os_resize_file _ _ _ _) as [[files o]|e]; apply same_queue_store. Qed.
Lemma same_remove_all path : moves same_queue (remove_all path).
Proof. intros w. unfold remove_all. destruct (os_remove_all _ _ _) as [[files o] error]. by apply same_queue_store. Qed.
Lemma same_on_files f : moves same_queue (on_files f).
Proof. intros w. unfold on_files. destruct (f _) as [files r]. by apply same_queue_store. Qed.
Lemma same_upsert state : moves same_queue (be_UpsertDiskRuntimeState backend state).
Proof. by apply same_on_store. Qed.
Lemma same_load name node : moves same_queue (be_LoadDiskRuntimeState backend name node).
Proof. cbn. moves. Qed.
Hint Resolve same_write same_remove same_resize same_remove_all same_on_files same_upsert same_load
  same_progress : moves.

Lemma same_ensure_disk disk key sr rr : moves same_queue (EnsureDesiredDiskRuntimeState disk key sr rr).
Proof. apply frame_ensure_disk; try apply _; intros; moves. Qed.
Lemma same_remove_directory path rr : moves same_queue (RemoveDiskDirectory path rr).
Proof. apply frame_remove_directory; [apply _|moves]. Qed.
Lemma same_remove_mount state rr : moves same_queue (RemoveRealDiskMount state rr).
Proof. apply frame_remove_mount; [apply _|moves..]. Qed.
Hint Resolve same_ensure_disk same_remove_directory same_remove_mount : moves.

Context (publish : ProgressPublisher)
  (Hpublish : forall phase title detail percent plane node,
     moves same_queue (publish phase title detail percent plane node)).
Hint Resolve Hpublish : moves.

Lemma same_operation plan desired compose_plan sr rr mode op :
  moves same_queue (apply_operation dump_config plan desired compose_plan sr rr mode (Some backend) publish op).
Proof. unfold apply_operation, remove_disk. destruct (op_kind op); cbv zeta; moves. Qed.
Hint Resolve same_operation : moves.

(** Fetching models leaves the queue alone. *)
Class ModelsKeepQueue := {
  mq_bootstrap desired node id : moves same_queue (BootstrapPlaneModelIfNeeded desired node (Some backend) id);
  mq_transfer node mount paths report :
    (forall phase detail percent, moves same_queue (report phase detail percent)) ->
    moves same_queue (TransferAppModel node mount paths backend report);
}.
Context `{KM : !ModelsKeepQueue}.

Lemma same_apply desired root sr rr state_root mode generation id :
  moves same_queue (ApplyDesiredNodeState render_v2 dump_config internal_host desired root sr rr state_root mode
                      generation id (Some backend) publish).
Proof.
  pose proof mq_bootstrap as Hboot. pose proof mq_transfer as Htransfer.
  assert (forall node, moves same_queue (MaterializeAppModelMounts desired node (Some backend) publish)) as Hmount.
  { intros node. unfold MaterializeAppModelMounts, MaterializeAppModelMount. moves. }
  assert (forall node, moves same_queue (stop_stale root node desired mode publish)) as Hstop.
  { intros node. unfold stop_stale, StopAndRemoveComposeArtifactIfPresent. moves. }
  unfold ApplyDesiredNodeState, WriteDesiredStateSnapshot, PersistDiskRuntimeStateForDesiredDisks,
    EnsureDesiredDisksReady, ApplyNodePlan, PersistDiskRuntimeStateForRemovedDisks, record_applied,
    await_runtime, RunIfNeeded, PublishProgress. cbv zeta. moves.
Qed.
End support_keeps.

(** ** What a support promises *)

(** No method of the support touches the queue, but for the progress it reports. *)
Class KeepsQueue `{Os : !HostOs} `{Support : !IHostdAssignmentSupport} `{Lib : !JsonLibrary} := {
  kq_publish id progress : moves same_queue (is_PublishAssignmentProgress LocalDbHostdBackend id progress);
  kq_snapshot node sr state_root status message id :
    moves same_queue (is_BuildObservedStateSnapshot node sr state_root status message id);
  kq_pids services : moves same_queue (is_CaptureServiceHostPids services);
  kq_eviction state node state_root message pids :
    moves same_queue (is_VerifyEvictionAssignment state node state_root message pids);
  kq_apply state root sr rr state_root mode generation id :
    moves same_queue (is_ApplyDesiredNodeState state root sr rr state_root mode generation id LocalDbHostdBackend);
  kq_download payload node id : moves same_queue (is_DownloadModelLibraryArtifacts payload node LocalDbHostdBackend id);
  kq_chunk payload node id : moves same_queue (is_ReadModelArtifactChunk payload node LocalDbHostdBackend id);
  kq_manifest payload node id : moves same_queue (is_BuildModelArtifactManifest payload node LocalDbHostdBackend id);
  kq_vault payload node sr id :
    moves same_queue (is_ApplyKnowledgeVaultService payload node sr LocalDbHostdBackend id);
  kq_stop_vault payload node id :
    moves same_queue (is_StopKnowledgeVaultService payload node LocalDbHostdBackend id);
  kq_proxy payload node id : moves same_queue (is_ExecuteRuntimeHttpProxy payload node LocalDbHostdBackend id);
  kq_update payload node key id :
    moves same_queue (is_ExecuteHostSelfUpdate payload node key LocalDbHostdBackend id);
  kq_event category type message payload plane node worker id action severity :
    moves same_queue (is_AppendHostdEvent LocalDbHostdBackend category type message payload plane node worker id
                        action severity);
}.
#[export] Hint Resolve kq_publish kq_snapshot kq_pids kq_eviction kq_apply kq_download kq_chunk kq_manifest
  kq_vault kq_stop_vault kq_proxy kq_update kq_event : moves.

(** ** The implementation keeps its promise *)

Section support_promise.
Context `{Os : !HostOs} `{Models : !HostModels} `{Jobs : !HostJobs} `{Lib : !JsonLibrary}.
Context (render_v2 : json -> result DesiredState) (dump_config : json -> result string)
  (internal_host : option string).

Class JobsKeepQueue := {
  jq_snapshot node sr state_root status message id :
    moves same_queue (hj_BuildObservedStateSnapshot node sr state_root status message id);
  jq_gpus state node statuses : moves same_queue (hj_CollectGpuTelemetry state node statuses);
  jq_download payload node id : moves same_queue (hj_DownloadModelLibraryArtifacts payload node LocalDbHostdBackend id);
  jq_chunk payload node id : moves same_queue (hj_ReadModelArtifactChunk payload node LocalDbHostdBackend id);
  jq_manifest payload node id : moves same_queue (hj_BuildModelArtifactManifest payload node LocalDbHostdBackend id);
  jq_vault payload node sr id :
    moves same_queue (hj_ApplyKnowledgeVaultService payload node sr LocalDbHostdBackend id);
  jq_stop_vault payload node id :
    moves same_queue (hj_StopKnowledgeVaultService payload node LocalDbHostdBackend id);
  jq_proxy payload node id : moves same_queue (hj_ExecuteRuntimeHttpProxy payload node LocalDbHostdBackend id);
  jq_update payload node key id :
    moves same_queue (hj_ExecuteHostSelfUpdate payload node key LocalDbHostdBackend id);
}.

#[global] Instance support_keeps_queue :
  JobsKeepQueue -> ModelsKeepQueue ->
  KeepsQueue (Support := HostdAppAssignmentSupport render_v2 dump_config internal_host).
Proof.
  intros KJ KM. pose proof same_progress as Hp.
  assert (forall id progress, moves same_queue (PublishAssignmentProgress (Some LocalDbHostdBackend) id progress))
    as Hpub by (intros; unfold PublishAssignmentProgress; moves).
  split; intros; cbn; try apply KJ; try (apply frame_pids; apply _).
  - apply Hpub.
  - apply frame_eviction; [apply _|apply KJ].
  - apply same_apply; [|done]. intros. apply Hpub.
  - unfold AppendHostdEvent. moves. by apply same_on_store.
Qed.
End support_promise.

Section settle.
Context `{Os : !HostOs} `{Support : !IHostdAssignmentSupport} `{Lib : !JsonLibrary} `{K : !KeepsQueue}.
Context (render_v2 : json -> result DesiredState) (a : HostAssignment).

Definition settled_to (status : HostAssignmentStatus) (message : string) (w w' : World) : Prop :=
  forall id, entry w' id = settled (ha_id a) status message <$> entry w id.

(** [m] settles the assignment when it returns.  When it throws it has not, unless
    [after]. *)
Definition settles (after : bool) (m : hprog unit) : Prop := forall w,
  match (m w).2 with
  | Ok _ => exists message, settled_to Applied message w (m w).1
  | Throw _ => same_queue w (m w).1 \/ after = true /\ exists message, settled_to Applied message w (m w).1
  end.

Lemma settled_to_trans w1 w2 w3 status message :
  settled_to status message w1 w2 -> same_queue w2 w3 -> settled_to status message w1 w3.
Proof. intros H1 H2 id. by rewrite H2. Qed.

Lemma trans_settled_to w1 w2 w3 status message :
  same_queue w1 w2 -> settled_to status message w2 w3 -> settled_to status message w1 w3.
Proof. intros H1 H2 id. by rewrite H2, H1. Qed.

Lemma settles_bind {A} after (m : hprog A) f :
  moves same_queue m -> (forall x, settles after (f x)) -> settles after (m ≫= f).
Proof.
  intros Hm Hf w. specialize (Hm w). unfold mbind, hprog_bind.
  destruct (m w) as [w1 [x|e]]; cbn in *; [|by left]. specialize (Hf x w1).
  destruct (f x w1) as [w2 [u|e]]; cbn in *.
  - destruct Hf as [message H]. exists message. by eapply trans_settled_to.
  - destruct Hf as [H|(Ha & message & H)]; [left; by etrans|]. right. split; [done|]. exists message.
    by eapply trans_settled_to.
Qed.

Lemma settles_throw after e : settles after (hthrow e).
Proof. intros w. left. by apply same_queue_store. Qed.

Lemma settles_transition after message : settles after (transition LocalDbHostdBackend a Applied message).
Proof.
  intros w. destruct (entry_settled a Applied message w) as [E H]. rewrite E. by exists message.
Qed.

Lemma settles_then m f : settles true m -> (forall x, moves same_queue (f x)) -> settles true (m ≫= f).
Proof.
  intros Hm Hf w. specialize (Hm w). unfold mbind, hprog_bind.
  destruct (m w) as [w1 [x|e]]; cbn in *; [|done]. destruct Hm as [message H]. specialize (Hf x w1).
  destruct (f x w1) as [w2 [u|e]]; cbn in *; [|right; split; [done|]]; exists message; by eapply settled_to_trans.
Qed.

Lemma settles_effort after m n :
  settles after m -> moves same_queue n -> settles after (m ≫= fun _ => RunBestEffort n).
Proof.
  intros Hm Hn w. specialize (Hm w). unfold mbind, hprog_bind.
  destruct (m w) as [w1 [x|e]]; cbn in *; [|done]. destruct Hm as [message H]. specialize (Hn w1).
  unfold RunBestEffort, htry. destruct (n w1) as [w2 [u|e]]; cbn in *; exists message; by eapply settled_to_trans.
Qed.

Lemma same_report node sr state_root status message :
  moves same_queue (report LocalDbHostdBackend a node sr state_root status message).
Proof.
  unfold report, RunBestEffort, BuildAssignmentObservation, ReportObservedState. moves. by apply same_on_store.
Qed.

Lemma settles_job after job applied :
  (forall payload, moves same_queue (job payload)) -> settles after (run_job LocalDbHostdBackend a job applied).
Proof.
  intros Hj. apply settles_bind; [unfold job_payload; moves|]. intros payload.
  apply settles_bind; [apply Hj|]. intros _. apply settles_transition.
Qed.

(** The kinds that report an event after they settled the assignment. *)
Definition reports_after : bool :=
  (ha_assignment_type a ==? "model-library-download") || (ha_assignment_type a ==? "hostd-self-update").

Lemma carry_out_settles node sr rr state_root mode key :
  settles reports_after (carry_out render_v2 LocalDbHostdBackend a node sr rr state_root mode key).
Proof.
  unfold carry_out, reports_after. cbv zeta. destruct (_ ==? "model-library-download").
  { apply settles_bind; [moves|]. intros _. apply settles_then; [apply settles_job|]; intros; moves. }
  do 5 (match goal with |- settles _ (if ?b then _ else _) => destruct b end; [apply settles_job; intros; moves|]). destruct (_ ==? "hostd-self-update").
  { apply settles_then; [apply settles_job; intros; moves|]. intros _. moves. apply same_files. }
  unfold apply_node_state. cbv zeta. destruct (negb _); [apply settles_throw|].
  apply settles_bind; [moves|]. intros state. apply settles_bind; [moves|]. intros pids.
  apply settles_bind; [apply same_report|]. intros _. apply settles_bind; [moves|]. intros _.
  apply settles_bind; [moves|]. intros released. destruct (negb released); [apply settles_throw|].
  apply settles_bind; [apply same_report|]. intros _. apply settles_effort; [apply settles_transition|moves].
Qed.

Lemma effort n w : moves same_queue n -> exists w1, RunBestEffort n w = (w1, Ok ()) /\ same_queue w w1.
Proof.
  intros Hn. specialize (Hn w). unfold RunBestEffort, htry.
  destruct (n w) as [w1 [[]|e]]; by exists w1.
Qed.

Lemma give_back_settles node sr state_root e w :
  exists w', give_back LocalDbHostdBackend a node sr state_root e w = (w', Throw e) /\
    settled_to (failed_status a) (failed_message a e) w w'.
Proof.
  unfold give_back.
  destruct (effort (is_PublishAssignmentProgress LocalDbHostdBackend (Some (ha_id a))
    (is_BuildAssignmentProgressPayload "failed" "Assignment failed" e 100 (ha_plane_name a) node)) w)
    as (w1 & E1 & H1); [moves|]. rewrite (hbind_eq _ _ _ _ _ E1).
  destruct (effort (observation ← BuildAssignmentObservation a node sr state_root ObsFailed e;
    ReportObservedState LocalDbHostdBackend observation "hostd observed-state-update") w1) as (w2 & E2 & H2).
  { unfold BuildAssignmentObservation, ReportObservedState. moves. by apply same_on_store. }
  rewrite (hbind_eq _ _ _ _ _ E2).
  destruct (entry_settled a (failed_status a) (failed_message a e) w2) as [E3 H3].
  destruct (transition LocalDbHostdBackend a _ _ w2) as [w3 r3] eqn:E. cbn in E3, H3. subst r3.
  rewrite (hbind_eq _ _ _ _ _ E).
  destruct (effort (is_AppendHostdEvent LocalDbHostdBackend "host-assignment" "failed" e (assignment_event a)
    (ha_plane_name a) node "" (Some (ha_id a)) None "error") w3) as (w4 & E4 & H4); [moves|].
  rewrite (hbind_eq _ _ _ _ _ E4). exists w4. split; [done|]. intros id. by rewrite H4, H3, H2, H1.
Qed.
End settle.

Lemma settled_again id s1 m1 s2 m2 a :
  s1 <> Claimed -> settled id s2 m2 (settled id s1 m1 a) = settled id s1 m1 a.
Proof.
  intros Hs. unfold settled at 2 3. destruct ((ha_id a =? id) && (ha_status a ==? Claimed)) eqn:E.
  - unfold settled. cbn. assert ((s1 ==? Claimed) = false) as -> by (by apply bool_decide_eq_false).
    by rewrite andb_false_r.
  - unfold settled. by rewrite E.
Qed.

Lemma settled_erased id status message a :
  ha_id a = id -> ha_status a = Claimed ->
  settled id status message (set_progress "" a) = set_progress "" (set_status status message a).
Proof.
  intros <- Hs. unfold settled. cbn. rewrite Z.eqb_refl, Hs. done.
Qed.

Lemma settled_other id status message a : ha_id a <> id -> settled id status message a = a.
Proof. intros H. unfold settled. by rewrite (proj2 (Z.eqb_neq _ _)). Qed.

Lemma entry_id `{Os : !HostOs} w id a : entry w id = Some a -> ha_id a = id.
Proof.
  unfold entry, LoadHostAssignment. destruct (find_if _ _) as [r|] eqn:E; [|done]. cbn. intros [= <-].
  apply find_if_Some in E as [H _]. by apply Z.eqb_eq in H.
Qed.

(** ** Properties *)

Section properties.
Context `{Os : !HostOs} `{Locks : !HostLocks} `{Support : !IHostdAssignmentSupport} `{Lib : !JsonLibrary}.
Context (render_v2 : json -> result DesiredState)
  (http_backend : string -> string -> string -> string -> string -> string -> HostdBackend).

(** How an assignment may end: applied when the attempt returns; otherwise back in
    the queue while attempts remain and failed after the last one, with the error;
    applied too when only the event that follows failed. *)
Definition ends_as (a : HostAssignment) (r : result unit) (status : HostAssignmentStatus) (message : string)
    : Prop :=
  match r with
  | Ok _ => status = Applied
  | Throw e =>
      (status = (if ha_attempt_count a <? ha_max_attempts a then Pending else Failed) /\
       message = failed_message a e) \/
      (status = Applied /\ reports_after a = true)
  end.

(** C8. A daemon on the local database never leaves an assignment claimed: the
    one it claimed is settled when the attempt is over, whatever was thrown on the
    way, and no other assignment changes.  Without the lock nothing is claimed. *)
Theorem claimed_assignment_settled key fingerprint onboarding node sr rr state_root mode w :
  KeepsQueue -> table_ok (cs_assignments (w_store w)) ->
  let '(w', r) := ApplyNextAssignment render_v2 http_backend None key fingerprint onboarding node sr rr
                    state_root mode w in
  match os_flock (LockFilePath state_root node) (w_os w) with
  | Locked =>
      match ClaimNextHostAssignment (os_clock (w_os w)) node (cs_assignments (w_store w)) with
      | (t, None) => r = Ok () /\ cs_assignments (w_store w') = t
      | (t, Some a) =>
          (exists status message,
             entry w' (ha_id a) = Some (set_progress "" (set_status status message a)) /\
             ends_as a r status message) /\
          forall id, id <> ha_id a -> entry w' id = set_progress "" <$> LoadHostAssignment id t
      end
  | WouldBlock => r = Ok () /\ w_store w' = w_store w
  | NotOpened | NotLocked => is_ok r = false /\ w_store w' = w_store w
  end.
Proof.
  intros K Hok. unfold ApplyNextAssignment, TryAcquire. cbv zeta.
  unfold mbind, hprog_bind, hread. destruct (os_flock _ _); [done| |done|done]. cbn.
  pose proof (claim_next_spec (os_clock (w_os w)) node _ Hok) as Hc.
  unfold on_assignments, on_store. cbn.
  destruct (ClaimNextHostAssignment _ _ _) as [t [a|]]; cbn in *; [|done].
  destruct Hc as (_ & _ & _ & _ & Hs & _ & _ & Hload).
  match goal with |- context [htry _ _ ?w0] => set (w1 := w0) end.
  assert (forall id, entry w1 id = set_progress "" <$> LoadHostAssignment id t) as Ht by done.
  assert (exists status message, settled_to a status message w1
      (htry (carry_out render_v2 LocalDbHostdBackend a node sr rr state_root mode key)
         (give_back LocalDbHostdBackend a node sr state_root) w1).1 /\
      ends_as a (htry (carry_out render_v2 LocalDbHostdBackend a node sr rr state_root mode key)
         (give_back LocalDbHostdBackend a node sr state_root) w1).2 status message) as (status & message & Hto & He).
  { unfold htry. pose proof (carry_out_settles render_v2 a node sr rr state_root mode key w1) as H.
    destruct (carry_out _ _ _ _ _ _ _ _ _ w1) as [w2 [[]|e]]; cbn [fst snd] in H.
    - destruct H as [message H]. by exists Applied, message.
    - destruct (give_back_settles a node sr state_root e w2) as (w3 & E & H3). rewrite E. cbn [fst snd].
      destruct H as [H|(Ha & message & H)].
      + exists (failed_status a), (failed_message a e). split; [by eapply trans_settled_to | by left].
      + exists Applied, message. split; [|by right]. intros id. rewrite H3, H.
        destruct (entry w1 id); [|done]. cbn. f_equal. by apply settled_again. }
  destruct (htry _ _ w1) as [w' r]. cbn [fst snd] in *. split.
  - exists status, message. split; [|done]. rewrite Hto, Ht, Hload. cbn. f_equal.
    by rewrite settled_erased.
  - intros id Hne. rewrite Hto, Ht. destruct (LoadHostAssignment id t) as [b|] eqn:Eb; [|done]. cbn. f_equal.
    apply settled_other. cbn. intros E. apply Hne. rewrite <-E.
    symmetry. apply (entry_id w1 id (set_progress "" b)). by rewrite Ht, Eb.
Qed.
End properties.

(** ** A daemon *)

Definition fx_observation : HostObservation :=
  mkHostObservation "node-a" "" None None ObsIdle "" "" "" "" "" "" "" "" "".
Definition fx_jobs : HostJobs (Os := fx_host) :=
  {| hj_BuildObservedStateSnapshot _ _ _ _ _ _ := mret fx_observation;
     hj_CollectGpuTelemetry _ _ _ := hthrow "no telemetry";
     hj_DownloadModelLibraryArtifacts _ _ _ _ := mret ();
     hj_ReadModelArtifactChunk _ _ _ _ := mret ();
     hj_BuildModelArtifactManifest _ _ _ _ := mret ();
     hj_ApplyKnowledgeVaultService _ _ _ _ _ := mret ();
     hj_StopKnowledgeVaultService _ _ _ _ := mret ();
     hj_ExecuteRuntimeHttpProxy _ _ _ _ := mret ();
     hj_ExecuteHostSelfUpdate _ _ _ _ _ := mret () |}.
Definition fx_locks : HostLocks (Os := fx_host) := fun _ _ => Locked.
Definition fx_http (_ _ _ _ _ _ : string) : HostdBackend (Os := fx_host) := LocalDbHostdBackend (Lib := tree_json).

(** Its queue holds one assignment that applies a state and one it does not know. *)
Definition fx_assignment (type : string) : HostAssignment :=
  mkHostAssignment 0 "node-a" "demo" 3 0 3 type fx_single_text "/artifacts" Pending "" "".
Definition fx_assigned (type : string) : World (Os := fx_host) :=
  mkWorld (Os := fx_host) ∅ tt
    (cs_with_assignments (perform 0 (OpEnqueue [fx_assignment type] "") empty_table) empty_store) None None ∅ [] [].
Definition fx_attempt (type : string) : World (Os := fx_host) * result unit :=
  ApplyNextAssignment (Os := fx_host) (Locks := fx_locks) (Lib := tree_json) no_render fx_http
    (Support := HostdAppAssignmentSupport (Os := fx_host) (Models := fx_no_models fx_host) (Jobs := fx_jobs)
                  (Lib := tree_json) no_render fx_dump None)
    None None None None "node-a" "/var/lib/naim" None "/state" Skip (fx_assigned type).

Lemma fx_assigned_ok type : table_ok (cs_assignments (w_store (fx_assigned type))).
Proof. split; repeat constructor; cbn; lia. Qed.

Lemma fx_keeps_queue : KeepsQueue (Os := fx_host) (Lib := tree_json)
  (Support := HostdAppAssignmentSupport (Os := fx_host) (Models := fx_no_models fx_host) (Jobs := fx_jobs)
                (Lib := tree_json) no_render fx_dump None).
Proof.
  apply support_keeps_queue; split; intros; cbn; try (apply moves_ret; apply _). apply moves_throw. apply _.
Qed.

Definition fx_claims (type : string) : bool :=
  match ClaimNextHostAssignment (os_clock (w_os (fx_assigned type))) "node-a"
          (cs_assignments (w_store (fx_assigned type))) with
  | (_, Some a) => (ha_id a =? 1) && (ha_attempt_count a <? ha_max_attempts a) &&
                   (ha_assignment_type a ==? type)
  | _ => false
  end.
Definition fx_reports (type : string) : bool :=
  (type ==? "model-library-download") || (type ==? "hostd-self-update").

(** The first is applied; the other is given back. *)
Lemma claimed_assignment_settled_witness :
  ha_status <$> entry (fx_attempt "apply-node-state").1 1 = Some Applied /\
  ha_status <$> entry (fx_attempt "no-such-type").1 1 = Some Pending.
Proof.
  assert (forall type, fx_claims type = true -> fx_reports type = false ->
    ha_status <$> entry (fx_attempt type).1 1 = Some (if is_ok (fx_attempt type).2 then Applied else Pending))
    as H.
  { intros type Hc Hr.
    pose proof (claimed_assignment_settled (Os := fx_host) (Locks := fx_locks) (Lib := tree_json) no_render
      fx_http None None None "node-a" "/var/lib/naim" None "/state" Skip (fx_assigned type) fx_keeps_queue
      (fx_assigned_ok type)) as H.
    unfold fx_attempt. destruct (ApplyNextAssignment _ _ _ _ _ _ _ _ _ _ _ (fx_assigned type)) as [w' r].
    unfold os_flock, fx_locks in H. unfold fx_claims in Hc.
    destruct (ClaimNextHostAssignment _ _ _) as [t [a|]]; [|discriminate Hc].
    apply andb_true_iff in Hc as [[Ci Ca]%andb_true_iff Ct]. apply Z.eqb_eq in Ci. rewrite eqb_true in Ct.
    rewrite Ci in H. destruct H as [(status & message & E & Hs) _]. cbn [fst snd]. rewrite E.
    unfold ends_as, reports_after in Hs. rewrite Ca, Ct in Hs. unfold fx_reports in Hr.
    rewrite Hr in Hs. destruct r as [u|e]; [rewrite Hs; reflexivity|].
    destruct Hs as [[Hs _]|[_ Hs]]; [rewrite Hs; reflexivity | discriminate Hs]. }
  split; (rewrite H; [|vm_compute; reflexivity..]).
  - assert (is_ok (fx_attempt "apply-node-state").2 = true) as R by (vm_compute; reflexivity).
    rewrite R. reflexivity.
  - assert (is_ok (fx_attempt "no-such-type").2 = false) as R by (vm_compute; reflexivity).
    rewrite R. reflexivity.
Defined.
