(* ===== verification/WebAuthn.v ===== *)
(** * WebAuthn verification

    [controller/src/auth/webauthn_service.cpp]: the base64url codec, the CBOR parser,
    the decoding of authenticator data and the four actions of the service.  SHA-256
    and the verification of an ECDSA P-256 signature are OpenSSL's and arguments of
    the model.  A byte vector is the list of its bytes.  [Parse] is given fuel; it is
    proved that one more than the length of the data is enough. *)

From S2P Require Import Prelude Json Planner InteractionText ModelAdapter.

Abbreviation ByteVector := (list Ascii.ascii).
Definition byte_of (z : Z) : Ascii.ascii := Ascii.ascii_of_N (Z.to_N (z mod 256)).

Definition WebAuthnError {A} (message : string) : result A :=
  Throw ("WebAuthn native verification failed: " +:+ message).

(** ** base64url *)

Definition Base64UrlValue (ch : Ascii.ascii) : Z :=
  let n := char_code ch in
  if (65 <=? n) && (n <=? 90) then n - 65
  else if (97 <=? n) && (n <=? 122) then 26 + n - 97
  else if (48 <=? n) && (n <=? 57) then 52 + n - 48
  else if (n =? 45) || (n =? 43) then 62
  else if (n =? 95) || (n =? 47) then 63
  else -1.

(** The loop of [DecodeBase64Url]: [value] is an [int] that is never masked. *)
Fixpoint decode_from (value bits : Z) (text : ByteVector) : result ByteVector :=
  match text with
  | [] => Ok []
  | ch :: rest =>
      if char_code ch =? 61 then Ok []
      else
        let digit := Base64UrlValue ch in
        if digit <? 0 then WebAuthnError "invalid base64url data"
        else
          let value := Z.lor (int32_wrap (Z.shiftl value 6)) digit in
          let bits := bits + 6 in
          if 0 <=? bits then
            out ← decode_from value (bits - 8) rest;
            Ok (byte_of (Z.land (Z.shiftr value bits) 255) :: out)
          else decode_from value bits rest
  end.
Definition DecodeBase64Url (text : string) : result ByteVector := decode_from 0 (-8) (list_of_string text).

Definition kAlphabet : ByteVector :=
  list_of_string "ABCDEFGHIJKLMNOPQRSTUVWXYZabcdefghijklmnopqrstuvwxyz0123456789-_".
Definition alphabet_char (n : Z) : Ascii.ascii := default "000"%char (kAlphabet !! Z.to_nat n).

(** [while (bits >= 0)]: a byte completes at most two digits. *)
Definition emit (value bits : Z) : ByteVector * Z :=
  if 0 <=? bits then
    let first := alphabet_char (Z.land (Z.shiftr value bits) 63) in
    let bits := bits - 6 in
    if 0 <=? bits then ([first; alphabet_char (Z.land (Z.shiftr value bits) 63)], bits - 6)
    else ([first], bits)
  else ([], bits).
Fixpoint encode_from (value bits : Z) (data : ByteVector) : ByteVector :=
  match data with
  | [] =>
      if -6 <? bits
      then [alphabet_char (Z.land (Z.shiftr (int32_wrap (Z.shiftl value 8)) (bits + 8)) 63)]
      else []
  | byte :: rest =>
      let value := Z.lor (int32_wrap (Z.shiftl value 8)) (char_code byte) in
      let '(out, bits) := emit value (bits + 8) in
      out ++ encode_from value bits rest
  end.
Definition EncodeBase64Url (data : ByteVector) : string := string_of_list (encode_from 0 (-6) data).

(** ** CBOR *)

#[warnings="-register-all"]
Inductive CborValue :=
  | kUnsigned (integer : Z)
  | kNegative (integer : Z)
  | kBytes (bytes : ByteVector)
  | kText (text : string)
  | kArray (items : list CborValue)
  | kMap (int_map : list (Z * CborValue)) (text_map : list (string * CborValue))
  | kBool (boolean : bool)
  | kNull.

(** [std::map::emplace]: a key that is there stays. *)
Definition emplace {K V} `{EqDecision K} (key : K) (v : V) (m : list (K * V)) : list (K * V) :=
  if existsb (fun kv => kv.1 ==? key) m then m else m ++ [(key, v)].
Definition lookup_key {K V} `{EqDecision K} (key : K) (m : list (K * V)) : option V :=
  snd <$> find_if (fun kv => kv.1 ==? key) m.

(** A parser returns its value and the next offset, throws, or does something the
    language leaves undefined; [None] is a lack of fuel. *)
#[warnings="-register-all"]
Inductive outcome (A : Type) : Type :=
  | Value (a : A)
  | Thrown (message : string)
  | Undefined.
Arguments Value {A}.
Arguments Thrown {A}.
Arguments Undefined {A}.
Definition parsed (A : Type) : Type := option (outcome (A * Z)).
Definition pbind {A B} (m : parsed A) (f : A -> Z -> parsed B) : parsed B :=
  match m with
  | Some (Value (a, offset)) => f a offset
  | Some (Thrown e) => Some (Thrown e)
  | Some Undefined => Some Undefined
  | None => None
  end.
Definition pok {A} (a : A) (offset : Z) : parsed A := Some (Value (a, offset)).
Definition pthrow {A} (message : string) : parsed A := Some (Thrown message).

Section Cbor.
Context (data : ByteVector).
Definition data_size : Z := Z.of_nat (length data).

Definition ReadByte (offset : Z) : parsed Z :=
  match data !! Z.to_nat offset with
  | Some b => if offset <? data_size then pok (char_code b) (offset + 1) else pthrow "truncated CBOR payload"
  | None => pthrow "truncated CBOR payload"
  end.

(** [for (i < n) value = (value << 8) | ReadByte()] *)
Fixpoint read_big_endian (n : nat) (value offset : Z) : parsed Z :=
  match n with
  | O => pok value offset
  | S n => pbind (ReadByte offset) (fun b offset => read_big_endian n (Z.lor (Z.shiftl value 8) b) offset)
  end.

Definition ReadArgument (additional offset : Z) : parsed Z :=
  if additional <? 24 then pok additional offset
  else if additional =? 24 then ReadByte offset
  else if additional =? 25 then read_big_endian 2 0 offset
  else if additional =? 26 then read_big_endian 4 0 offset
  else if additional =? 27 then read_big_endian 8 0 offset
  else pthrow "unsupported indefinite CBOR item".

(** The sum of the bounds check is a [size_t]: when it wraps around, the vector is made of
    a range that ends before it begins, which is undefined. *)
Definition ReadBytes (size offset : Z) : parsed ByteVector :=
  let end_offset := uint64_wrap (offset + size) in
  if data_size <? end_offset then pthrow "truncated CBOR bytes"
  else if end_offset <? offset then Some Undefined
  else pok (take (Z.to_nat size) (drop (Z.to_nat offset) data)) end_offset.

(** One [Parse] per item of an array; every call reads at least one byte. *)
Fixpoint parse_items (parse_item : Z -> parsed CborValue) (n : nat) (count : Z) (acc : list CborValue)
    (offset : Z) : parsed CborValue :=
  if count <=? 0 then pok (kArray acc) offset
  else match n with
       | O => None
       | S n => pbind (parse_item offset) (fun v offset =>
                  parse_items parse_item n (count - 1) (acc ++ [v]) offset)
       end.

(** [value.array.reserve(count)] throws when there can be no such vector: a [CborValue]
    has 200 bytes and a vector less than [2^63]. *)
Definition vector_max_size : Z := (2 ^ 63 - 1) / 200.
Definition parse_array (parse_item : Z -> parsed CborValue) (n : nat) (count offset : Z) : parsed CborValue :=
  if vector_max_size <? count then pthrow "vector::reserve" else parse_items parse_item n count [] offset.

Definition emplace_item (key item : CborValue) (m : list (Z * CborValue) * list (string * CborValue))
    : list (Z * CborValue) * list (string * CborValue) :=
  match key with
  | kUnsigned z | kNegative z => (emplace z item m.1, m.2)
  | kText t => (m.1, emplace t item m.2)
  | _ => m
  end.
Fixpoint parse_pairs (parse_item : Z -> parsed CborValue) (n : nat) (count : Z)
    (m : list (Z * CborValue) * list (string * CborValue)) (offset : Z) : parsed CborValue :=
  if count <=? 0 then pok (kMap m.1 m.2) offset
  else match n with
       | O => None
       | S n => pbind (parse_item offset) (fun key offset =>
                pbind (parse_item offset) (fun item offset =>
                  parse_pairs parse_item n (count - 1) (emplace_item key item m) offset))
       end.

Fixpoint Parse (fuel : nat) (offset : Z) : parsed CborValue :=
  match fuel with
  | O => None
  | S fuel =>
      pbind (ReadByte offset) (fun header offset =>
        let major := Z.shiftr header 5 in
        let additional := Z.land header 31 in
        if major =? 0 then
          pbind (ReadArgument additional offset) (fun n offset => pok (kUnsigned (int64_wrap n)) offset)
        else if major =? 1 then
          pbind (ReadArgument additional offset) (fun n offset => pok (kNegative (-1 - int64_wrap n)) offset)
        else if major =? 2 then
          pbind (ReadArgument additional offset) (fun n offset =>
          pbind (ReadBytes n offset) (fun b offset => pok (kBytes b) offset))
        else if major =? 3 then
          pbind (ReadArgument additional offset) (fun n offset =>
          pbind (ReadBytes n offset) (fun b offset => pok (kText (string_of_list b)) offset))
        else if major =? 4 then
          pbind (ReadArgument additional offset) (fun count offset =>
            parse_array (Parse fuel) (S (length data)) count offset)
        else if major =? 5 then
          pbind (ReadArgument additional offset) (fun count offset =>
            parse_pairs (Parse fuel) (S (length data)) count ([], []) offset)
        else if major =? 6 then
          pbind (ReadArgument additional offset) (fun _ offset => Parse fuel offset)
        else if (additional =? 20) || (additional =? 21) then pok (kBool (additional =? 21)) offset
        else if additional =? 22 then pok kNull offset
        else pthrow "unsupported CBOR item")
  end.
(** What the service makes of it.  After undefined behaviour the source promises
    nothing; the model goes on with an error. *)
Definition parse_at (offset : Z) : result (CborValue * Z) :=
  match Parse (S (length data)) offset with
  | Some (Value (value, offset)) => Ok (value, offset)
  | Some (Thrown message) => Throw message
  | Some Undefined => Throw "undefined behaviour"
  | None => Throw "unreachable"
  end.
End Cbor.

Definition ParseCbor (data : ByteVector) : result CborValue :=
  '(value, offset) ← parse_at data 0;
  if offset !=? data_size data then WebAuthnError "unexpected trailing CBOR data" else Ok value.

Definition RequireTextMapField (value : CborValue) (key : string) : result CborValue :=
  match value with
  | kMap _ text_map =>
      match lookup_key key text_map with
      | Some v => Ok v
      | None => WebAuthnError ("missing CBOR map field: " +:+ key)
      end
  | _ => WebAuthnError "CBOR value is not a map"
  end.
Definition RequireIntMapField (value : CborValue) (key : Z) : result CborValue :=
  match value with
  | kMap int_map _ =>
      match lookup_key key int_map with Some v => Ok v | None => WebAuthnError "missing COSE key field" end
  | _ => WebAuthnError "CBOR value is not a map"
  end.
Definition RequireCborInteger (value : CborValue) : result Z :=
  match value with
  | kUnsigned z | kNegative z => Ok z
  | _ => WebAuthnError "CBOR value is not an integer"
  end.
Definition RequireCborBytes (value : CborValue) : result ByteVector :=
  match value with kBytes b => Ok b | _ => WebAuthnError "CBOR value is not bytes" end.

(** ** Authenticator data *)

Record AuthenticatorData := mkAuthenticatorData {
  ad_rp_id_hash : ByteVector;
  ad_flags : Z;
  ad_sign_count : Z;
  ad_credential_id : ByteVector;
  ad_credential_public_key_cose : ByteVector;
}.

Definition kUserPresentFlag : Z := 1.
Definition kUserVerifiedFlag : Z := 4.
Definition kBackupEligibleFlag : Z := 8.
Definition kBackupStateFlag : Z := 16.
Definition kAttestedCredentialDataFlag : Z := 64.
Definition flag_set (flags flag : Z) : bool := negb (Z.land flags flag =? 0).

(** [bytes[index]] below the size. *)
Definition byte_at (data : ByteVector) (index : Z) : Z := char_code (default "000"%char (data !! Z.to_nat index)).
Definition sub_range (data : ByteVector) (first last : Z) : ByteVector :=
  take (Z.to_nat (last - first)) (drop (Z.to_nat first) data).

Definition ParseAuthenticatorData (data : ByteVector) (require_attested_credential : bool)
    : result AuthenticatorData :=
  if data_size data <? 37 then WebAuthnError "authenticator data is too short"
  else
    let flags := byte_at data 32 in
    let sign_count :=
      Z.lor (Z.lor (Z.lor (Z.shiftl (byte_at data 33) 24) (Z.shiftl (byte_at data 34) 16))
               (Z.shiftl (byte_at data 35) 8)) (byte_at data 36) in
    let out := mkAuthenticatorData (take 32 data) flags sign_count in
    if negb (flag_set flags kUserPresentFlag) then WebAuthnError "user presence flag is not set"
    else if negb (flag_set flags kUserVerifiedFlag) then WebAuthnError "user verification flag is not set"
    else if negb require_attested_credential then Ok (out [] [])
    else if negb (flag_set flags kAttestedCredentialDataFlag)
    then WebAuthnError "attested credential data is missing"
    else if data_size data <? 37 + 18 then WebAuthnError "attested credential data is too short"
    else
      let credential_id_size := Z.lor (Z.shiftl (byte_at data 53) 8) (byte_at data 54) in
      if data_size data <? 55 + credential_id_size then WebAuthnError "credential id is truncated"
      else
        let cose_begin := 55 + credential_id_size in
        '(_, offset) ← parse_at data cose_begin;
        Ok (out (sub_range data 55 cose_begin) (sub_range data cose_begin offset)).

(** ** The service *)

(** What the code uses of OpenSSL: the digest, the decoding of an uncompressed point
    and the verification of a signature over the digest of the data. *)
Class OpenSsl := {
  SHA256 : ByteVector -> ByteVector;
  p256_point : ByteVector -> bool;
  ecdsa_verify : ByteVector -> ByteVector -> ByteVector -> bool;
}.

Definition ConstantTimeEquals (lhs rhs : ByteVector) : bool :=
  if negb (data_size lhs =? data_size rhs) then false
  else foldl (fun diff lr => Z.lor diff (Z.lxor (char_code lr.1) (char_code lr.2))) 0 (zip lhs rhs) =? 0.

Definition ChallengeMatches (actual expected : string) : bool :=
  if actual ==? expected then true
  else if actual ==? EncodeBase64Url (list_of_string expected) then true
  else match DecodeBase64Url expected with
       | Ok decoded => actual ==? EncodeBase64Url decoded
       | Throw _ => false
       end.

Definition RequireObjectField (value : json) (key : string) : result json :=
  match member value key with
  | Some (JObject fields) => Ok (JObject fields)
  | _ => WebAuthnError ("missing object field: " +:+ key)
  end.

Section Service.
Context `{JsonLibrary, OpenSsl}.

Definition RequireStringField (value : json) (key : string) : result string :=
  match member value key with
  | Some (JString s) => get_string (JString s)
  | _ => WebAuthnError ("missing string field: " +:+ key)
  end.

Definition ValidateClientData (client_data_json : ByteVector)
    (expected_type expected_challenge expected_origin : string) : result unit :=
  client_data ← parse (string_of_list client_data_json);
  type ← json_value get_string client_data "type" "";
  if type !=? expected_type then WebAuthnError "unexpected clientDataJSON type"
  else
    challenge ← json_value get_string client_data "challenge" "";
    if negb (ChallengeMatches challenge expected_challenge) then WebAuthnError "unexpected challenge"
    else
      origin ← json_value get_string client_data "origin" "";
      if origin !=? expected_origin then WebAuthnError "unexpected origin" else Ok ().

Definition ValidateRpIdHash (auth_data : AuthenticatorData) (expected_rp_id : string) : result unit :=
  if negb (ConstantTimeEquals (ad_rp_id_hash auth_data) (SHA256 (list_of_string expected_rp_id)))
  then WebAuthnError "unexpected rpIdHash" else Ok ().

(** The loop over the credentials of the request: [item["type"] = item.value("type", "public-key")]. *)
Definition public_key_items (credentials : json) : result (list json) :=
  mapR (fun item => type ← json_value get_string item "type" "public-key";
                    Ok (set_member "type" (JString type) item))
    (List.filter is_object (items credentials)).

Definition GenerateRegistrationOptions (payload : json) : result json :=
  rp_name ← RequireStringField payload "rpName";
  rp_id ← RequireStringField payload "rpID";
  user_name ← RequireStringField payload "userName";
  challenge ← RequireStringField payload "challenge";
  user_display_name ← json_value get_string payload "userDisplayName" user_name;
  user_id ← json_value get_string payload "userID" (EncodeBase64Url (list_of_string user_name));
  excluded ← json_value get_json payload "excludeCredentials" (JArray []);
  exclude_credentials ← public_key_items excluded;
  timeout ← json_value get_int payload "timeout" 60000;
  Ok (JObject
        [("rp", JObject [("name", JString rp_name); ("id", JString rp_id)]);
         ("user", JObject [("id", JString user_id); ("name", JString user_name);
                           ("displayName", JString user_display_name)]);
         ("challenge", JString (EncodeBase64Url (list_of_string challenge)));
         ("pubKeyCredParams", JArray [JObject [("type", JString "public-key"); ("alg", JInt (-7))]]);
         ("timeout", JInt timeout);
         ("attestation", JString "none");
         ("excludeCredentials", JArray exclude_credentials);
         ("authenticatorSelection",
          JObject [("residentKey", JString "preferred"); ("userVerification", JString "preferred")])]).

Definition GenerateAuthenticationOptions (payload : json) : result json :=
  allowed ← json_value get_json payload "allowCredentials" (JArray []);
  allow_credentials ← public_key_items allowed;
  rp_id ← RequireStringField payload "rpID";
  challenge ← RequireStringField payload "challenge";
  timeout ← json_value get_int payload "timeout" 60000;
  Ok (JObject
        [("rpId", JString rp_id);
         ("challenge", JString (EncodeBase64Url (list_of_string challenge)));
         ("timeout", JInt timeout);
         ("userVerification", JString "preferred");
         ("allowCredentials", JArray allow_credentials)]).

Definition VerifyRegistration (payload : json) : result json :=
  response ← RequireObjectField payload "response";
  credential_response ← RequireObjectField response "response";
  client_data_text ← RequireStringField credential_response "clientDataJSON";
  client_data_json ← DecodeBase64Url client_data_text;
  expected_challenge ← RequireStringField payload "expectedChallenge";
  expected_origin ← RequireStringField payload "expectedOrigin";
  _ ← ValidateClientData client_data_json "webauthn.create" expected_challenge expected_origin;
  attestation_text ← RequireStringField credential_response "attestationObject";
  attestation_object ← DecodeBase64Url attestation_text;
  attestation ← ParseCbor attestation_object;
  auth_data_value ← RequireTextMapField attestation "authData";
  auth_data_bytes ← RequireCborBytes auth_data_value;
  auth_data ← ParseAuthenticatorData auth_data_bytes true;
  expected_rp_id ← RequireStringField payload "expectedRPID";
  _ ← ValidateRpIdHash auth_data expected_rp_id;
  let credential_id := EncodeBase64Url (ad_credential_id auth_data) in
  id_differs ← match member response "id" with
               | Some (JString s) => id ← get_string (JString s); Ok (id !=? credential_id)
               | _ => Ok false
               end;
  if (id_differs : bool) then WebAuthnError "registration credential id mismatch"
  else
    let transports := match member credential_response "transports" with
                      | Some (JArray l) => JArray l | _ => JArray [] end in
    Ok (JObject
          [("verified", JBool true);
           ("registrationInfo",
            JObject
              [("credentialID", JString credential_id);
               ("credentialPublicKey", JString (EncodeBase64Url (ad_credential_public_key_cose auth_data)));
               ("counter", JInt (ad_sign_count auth_data));
               ("credentialDeviceType",
                JString (if flag_set (ad_flags auth_data) kBackupEligibleFlag then "multiDevice"
                         else "singleDevice"));
               ("credentialBackedUp", JBool (flag_set (ad_flags auth_data) kBackupStateFlag));
               ("transports", transports)])]).

(** The uncompressed point of a P-256 key. *)
Definition BuildP256PublicKey (x y : ByteVector) : result ByteVector :=
  if negb (data_size x =? 32) || negb (data_size y =? 32)
  then WebAuthnError "unsupported P-256 coordinate size"
  else
    let public_key := byte_of 4 :: x ++ y in
    if p256_point public_key then Ok public_key else WebAuthnError "failed to build P-256 public key".

Definition ParseCoseP256PublicKey (cose_key : ByteVector) : result ByteVector :=
  cose ← ParseCbor cose_key;
  kty_value ← RequireIntMapField cose 1;
  kty ← RequireCborInteger kty_value;
  alg_value ← RequireIntMapField cose 3;
  alg ← RequireCborInteger alg_value;
  crv_value ← RequireIntMapField cose (-1);
  crv ← RequireCborInteger crv_value;
  if negb (kty =? 2) || negb (alg =? -7) || negb (crv =? 1)
  then WebAuthnError "only COSE ES256 P-256 credentials are supported"
  else
    x_value ← RequireIntMapField cose (-2);
    x ← RequireCborBytes x_value;
    y_value ← RequireIntMapField cose (-3);
    y ← RequireCborBytes y_value;
    BuildP256PublicKey x y.

Definition VerifyEs256Signature (cose_key signed_data signature : ByteVector) : result bool :=
  key ← ParseCoseP256PublicKey cose_key;
  Ok (ecdsa_verify key signed_data signature).

Definition VerifyAuthentication (payload : json) : result json :=
  response ← RequireObjectField payload "response";
  credential_payload ← RequireObjectField payload "credential";
  credential_response ← RequireObjectField response "response";
  expected_credential_id ← RequireStringField credential_payload "id";
  response_credential_id ← RequireStringField response "id";
  if response_credential_id !=? expected_credential_id then WebAuthnError "unexpected credential id"
  else
    client_data_text ← RequireStringField credential_response "clientDataJSON";
    client_data_json ← DecodeBase64Url client_data_text;
    expected_challenge ← RequireStringField payload "expectedChallenge";
    expected_origin ← RequireStringField payload "expectedOrigin";
    _ ← ValidateClientData client_data_json "webauthn.get" expected_challenge expected_origin;
    authenticator_text ← RequireStringField credential_response "authenticatorData";
    authenticator_data_bytes ← DecodeBase64Url authenticator_text;
    auth_data ← ParseAuthenticatorData authenticator_data_bytes false;
    expected_rp_id ← RequireStringField payload "expectedRPID";
    _ ← ValidateRpIdHash auth_data expected_rp_id;
    let signed_data := authenticator_data_bytes ++ SHA256 client_data_json in
    public_key_text ← RequireStringField credential_payload "publicKey";
    public_key ← DecodeBase64Url public_key_text;
    signature_text ← RequireStringField credential_response "signature";
    signature ← DecodeBase64Url signature_text;
    verified ← VerifyEs256Signature public_key signed_data signature;
    if negb verified then Ok (JObject [("verified", JBool false); ("authenticationInfo", JNull)])
    else
      counter ← json_value get_int credential_payload "counter" 0;
      let stored_counter := uint32_wrap counter in
      if negb (ad_sign_count auth_data =? 0) && negb (stored_counter =? 0) &&
         (ad_sign_count auth_data <=? stored_counter)
      then WebAuthnError "signature counter did not increase"
      else
        Ok (JObject
              [("verified", JBool true);
               ("authenticationInfo",
                JObject [("newCounter", JInt (ad_sign_count auth_data));
                         ("credentialID", JString expected_credential_id)])]).

Definition Run (action : string) (payload : json) : result json :=
  if action ==? "generate-registration-options" then GenerateRegistrationOptions payload
  else if action ==? "verify-registration" then VerifyRegistration payload
  else if action ==? "generate-authentication-options" then GenerateAuthenticationOptions payload
  else if action ==? "verify-authentication" then VerifyAuthentication payload
  else Throw ("unsupported WebAuthn action: " +:+ action).
End Service.

(** * base64url round trip *)

(** A digit shifted into the accumulator, whatever the bits above it. *)
Lemma shift_in v k d :
  0 <= k <= 8 -> 0 <= d < 2 ^ k ->
  exists q, Z.lor (int32_wrap (Z.shiftl v k)) d = v * 2 ^ k + d + 2 ^ 32 * q.
Proof.
  intros Hk Hd. rewrite Z.shiftl_mul_pow2 by lia. destruct (int32_wrap_mod (v * 2 ^ k)) as [q ->].
  exists q. assert (v * 2 ^ k + 2 ^ 32 * q = (v + 2 ^ (32 - k) * q) * 2 ^ k) as ->.
  { rewrite Z.mul_add_distr_r. f_equal. rewrite (Z.mul_comm (2 ^ (32 - k))), <-Z.mul_assoc, <-Z.pow_add_r by lia.
    rewrite Z.mul_comm. do 2 f_equal. lia. }
  rewrite <-Z.shiftl_mul_pow2 by lia.
  rewrite <-Z.lxor_lor, <-Z.add_nocarry_lxor; [rewrite Z.shiftl_mul_pow2 by lia|..].
  { replace (2 ^ 32) with (2 ^ (32 - k) * 2 ^ k) by (rewrite <-Z.pow_add_r by lia; f_equal; lia). ring. }
  all: apply Z.bits_inj'; intros n Hn; rewrite Z.land_spec, Z.bits_0, Z.shiftl_spec by lia;
    destruct (decide (n < k)); [rewrite (Z.testbit_neg_r _ (n - k)) by lia; done|];
    rewrite <-(Z.mod_small d (2 ^ k) Hd), (Z.mod_pow2_bits_high d k n) by lia; by rewrite andb_false_r.
Qed.

Lemma land_63 z : Z.land z 63 = z mod 64.
Proof. change 63 with (Z.ones 6). by rewrite Z.land_ones by lia. Qed.
Lemma land_255 z : Z.land z 255 = z mod 256.
Proof. change 255 with (Z.ones 8). by rewrite Z.land_ones by lia. Qed.

Lemma char_code_range c : 0 <= char_code c < 256.
Proof. unfold char_code. pose proof (Ascii.N_ascii_bounded c). lia. Qed.
Lemma byte_of_char_code c : byte_of (char_code c) = c.
Proof.
  unfold byte_of. rewrite Z.mod_small by apply char_code_range.
  unfold char_code. by rewrite N2Z.id, Ascii.ascii_N_embedding.
Qed.

Definition alphabet_ok (n : Z) : bool :=
  (Base64UrlValue (alphabet_char n) =? n) && negb (char_code (alphabet_char n) =? 61).
Lemma alphabet_char_value n :
  0 <= n < 64 -> Base64UrlValue (alphabet_char n) = n /\ (char_code (alphabet_char n) =? 61) = false.
Proof.
  intros Hn. assert (forallb alphabet_ok (seqZ 0 64) = true) as Hall by (vm_compute; reflexivity).
  rewrite forallb_forall in Hall. specialize (Hall n). unfold alphabet_ok in Hall.
  assert (List.In n (seqZ 0 64)) as Hin by (apply list_elem_of_In, elem_of_seqZ; lia).
  apply andb_prop in Hall as [H1 H2]; [|done]. by apply Z.eqb_eq in H1; apply negb_true_iff in H2.
Qed.

(** One digit of the text is read back. *)
Lemma decode_digit w bits n rest :
  0 <= n < 64 ->
  exists q, decode_from w bits (alphabet_char n :: rest) =
    let w' := w * 64 + n + 2 ^ 32 * q in
    if 0 <=? bits + 6 then
      out ← decode_from w' (bits + 6 - 8) rest; Ok (byte_of (Z.shiftr w' (bits + 6) mod 256) :: out)
    else decode_from w' (bits + 6) rest.
Proof.
  intros Hn. destruct (shift_in w 6 n) as [q Hq]; [lia|done|]. exists q. cbn [decode_from].
  destruct (alphabet_char_value n Hn) as [-> ->]. rewrite (proj2 (Z.ltb_ge n 0)) by lia.
  rewrite Hq. cbv zeta. change (2 ^ 6) with 64. by rewrite land_255.
Qed.

Lemma decode_hold w bits n rest :
  0 <= n < 64 -> bits + 6 < 0 ->
  exists q, decode_from w bits (alphabet_char n :: rest) =
            decode_from (w * 64 + n + 2 ^ 32 * q) (bits + 6) rest.
Proof.
  intros Hn Hb. destruct (decode_digit w bits n rest Hn) as [q ->]. exists q. cbv zeta.
  by rewrite (proj2 (Z.leb_gt 0 (bits + 6)) Hb).
Qed.
Lemma decode_out w bits n rest :
  0 <= n < 64 -> 0 <= bits + 6 ->
  exists q, decode_from w bits (alphabet_char n :: rest) =
    out ← decode_from (w * 64 + n + 2 ^ 32 * q) (bits - 2) rest;
    Ok (byte_of ((w * 64 + n + 2 ^ 32 * q) / 2 ^ (bits + 6) mod 256) :: out).
Proof.
  intros Hn Hb. destruct (decode_digit w bits n rest Hn) as [q ->]. exists q. cbv zeta.
  rewrite (proj2 (Z.leb_le 0 (bits + 6)) Hb), Z.shiftr_div_pow2 by done.
  by replace (bits + 6 - 8) with (bits - 2) by lia.
Qed.

Lemma emit_2 v : emit v (-6 + 8) = ([alphabet_char (v / 4 mod 64)], -4).
Proof. unfold emit. cbn -[alphabet_char Z.land Z.shiftr]. by rewrite land_63, Z.shiftr_div_pow2. Qed.
Lemma emit_4 v : emit v (-4 + 8) = ([alphabet_char (v / 16 mod 64)], -2).
Proof. unfold emit. cbn -[alphabet_char Z.land Z.shiftr]. by rewrite land_63, Z.shiftr_div_pow2. Qed.
Lemma emit_6 v : emit v (-2 + 8) = ([alphabet_char (v / 64 mod 64); alphabet_char (v mod 64)], -6).
Proof.
  unfold emit. cbn -[alphabet_char Z.land Z.shiftr]. rewrite !land_63, !Z.shiftr_div_pow2 by lia.
  by rewrite Z.div_1_r.
Qed.

Ltac bits_lia :=
  change (2 ^ 8) with 256; change (2 ^ 32) with 4294967296; Z.div_mod_to_equations; lia.

(** The digits of three bytes, and of the one or two that remain. *)
Lemma encode_group v a b c rest :
  let '(x, y, z) := (char_code a, char_code b, char_code c) in
  exists v', encode_from v (-6) (a :: b :: c :: rest) =
    alphabet_char (x / 4) :: alphabet_char (x mod 4 * 16 + y / 16) ::
    alphabet_char (y mod 16 * 4 + z / 64) :: alphabet_char (z mod 64) :: encode_from v' (-6) rest.
Proof.
  pose proof (char_code_range a) as Ha. pose proof (char_code_range b) as Hb.
  pose proof (char_code_range c) as Hc. cbn [encode_from].
  destruct (shift_in v 8 (char_code a)) as [q1 ->]; [lia|done|]. rewrite emit_2. cbv beta iota.
  destruct (shift_in (v * 2 ^ 8 + char_code a + 2 ^ 32 * q1) 8 (char_code b)) as [q2 ->]; [lia|done|].
  rewrite emit_4. cbv beta iota.
  destruct (shift_in ((v * 2 ^ 8 + char_code a + 2 ^ 32 * q1) * 2 ^ 8 + char_code b + 2 ^ 32 * q2) 8
              (char_code c)) as [q3 ->]; [lia|done|].
  rewrite emit_6. cbv beta iota. cbn [app]. eexists.
  do 3 (f_equal; [f_equal; bits_lia|]). do 2 f_equal. bits_lia.
Qed.
Lemma encode_one v a :
  encode_from v (-6) [a] = [alphabet_char (char_code a / 4); alphabet_char (char_code a mod 4 * 16)].
Proof.
  pose proof (char_code_range a) as Ha. cbn [encode_from].
  destruct (shift_in v 8 (char_code a)) as [q1 ->]; [lia|done|]. rewrite emit_2. cbv beta iota.
  cbn [app Z.ltb Z.compare CompOpp Pos.compare Pos.compare_cont]. 
  rewrite Z.shiftl_mul_pow2 by lia.
  destruct (int32_wrap_mod ((v * 2 ^ 8 + char_code a + 2 ^ 32 * q1) * 2 ^ 8)) as [q2 ->].
  rewrite land_63, Z.shiftr_div_pow2 by lia. repeat f_equal; change (2 ^ (-4 + 8)) with 16; bits_lia.
Qed.
Lemma encode_two v a b :
  encode_from v (-6) [a; b] =
  [alphabet_char (char_code a / 4); alphabet_char (char_code a mod 4 * 16 + char_code b / 16);
   alphabet_char (char_code b mod 16 * 4)].
Proof.
  pose proof (char_code_range a) as Ha. pose proof (char_code_range b) as Hb. cbn [encode_from].
  destruct (shift_in v 8 (char_code a)) as [q1 ->]; [lia|done|]. rewrite emit_2. cbv beta iota.
  destruct (shift_in (v * 2 ^ 8 + char_code a + 2 ^ 32 * q1) 8 (char_code b)) as [q2 ->]; [lia|done|].
  rewrite emit_4. cbv beta iota.
  cbn [app Z.ltb Z.compare CompOpp Pos.compare Pos.compare_cont].
  rewrite Z.shiftl_mul_pow2 by lia.
  destruct (int32_wrap_mod (((v * 2 ^ 8 + char_code a + 2 ^ 32 * q1) * 2 ^ 8 + char_code b + 2 ^ 32 * q2)
              * 2 ^ 8)) as [q3 ->].
  rewrite land_63, Z.shiftr_div_pow2 by lia. repeat f_equal; change (2 ^ (-2 + 8)) with 64; bits_lia.
Qed.

Lemma byte_back a z : z mod 256 = char_code a -> byte_of (z mod 256) = a.
Proof. intros ->. apply byte_of_char_code. Qed.

(** The lists by threes. *)
Lemma threes_ind {A} (P : list A -> Prop) :
  P [] -> (forall a, P [a]) -> (forall a b, P [a; b]) ->
  (forall a b c l, P l -> P (a :: b :: c :: l)) -> forall l, P l.
Proof.
  intros H0 H1 H2 H3. fix IH 1. intros [|a [|b [|c l]]]; [done|apply H1|apply H2|apply H3, IH].
Qed.

Ltac read_digits_back :=
  repeat (first [edestruct (decode_hold) as [? ->]; [bits_lia|lia|]
                |edestruct (decode_out) as [? ->]; [bits_lia|lia|]]).

Lemma decode_encode_from data : forall v w, decode_from w (-8) (encode_from v (-6) data) = Ok data.
Proof.
  induction data as [|a|a b|a b c rest IH] using threes_ind; intros v w.
  - done.
  - pose proof (char_code_range a) as Ha. rewrite encode_one. read_digits_back.
    cbn -[Z.mul Z.add Z.div Z.modulo Z.pow byte_of].
    do 2 f_equal. apply byte_back. change (2 ^ (-8 + 6 + 6)) with 16. bits_lia.
  - pose proof (char_code_range a) as Ha. pose proof (char_code_range b) as Hb. rewrite encode_two.
    read_digits_back. cbn -[Z.mul Z.add Z.div Z.modulo Z.pow byte_of].
    do 2 f_equal; [|f_equal]; apply byte_back.
    + change (2 ^ (-8 + 6 + 6)) with 16. bits_lia.
    + change (2 ^ (-8 + 6 - 2 + 6)) with 4. bits_lia.
  - pose proof (char_code_range a) as Ha. pose proof (char_code_range b) as Hb.
    pose proof (char_code_range c) as Hc.
    destruct (encode_group v a b c rest) as [v' ->]. read_digits_back.
    change (-8 + 6 - 2 - 2 - 2) with (-8). rewrite IH.
    cbn -[Z.mul Z.add Z.div Z.modulo Z.pow byte_of].
    do 2 f_equal; [|f_equal; [|f_equal]]; apply byte_back.
    + change (2 ^ (-8 + 6 + 6)) with 16. bits_lia.
    + change (2 ^ (-8 + 6 - 2 + 6)) with 4. bits_lia.
    + change (2 ^ (-8 + 6 - 2 - 2 + 6)) with 1. bits_lia.
Qed.

(** Every byte vector survives the text the service makes of it. *)
Theorem base64url_roundtrip data : DecodeBase64Url (EncodeBase64Url data) = Ok data.
Proof.
  unfold DecodeBase64Url, EncodeBase64Url. 
  change (list_of_string ?x) with (bytes x). rewrite bytes_string_of_list. apply decode_encode_from.
Qed.

(** * The CBOR parser ends *)

(** Eight bytes of the data are a length with which the end of a byte string wraps around. *)
Definition wrapping_length (data : ByteVector) : Prop :=
  exists start n offset, 0 <= start /\ read_big_endian data 8 0 start = pok n offset /\
    offset <= data_size data /\ 2 ^ 64 <= offset + n.

(** What a reader at [offset] may do: it throws, or it ends between [offset + least]
    and the end of the data; it does not lack fuel, and its behaviour is defined unless
    there is a length that wraps around. *)
Definition moves_on {A} (data : ByteVector) (least offset : Z) (m : parsed A) : Prop :=
  match m with
  | Some (Value (_, offset')) => offset + least <= offset' <= Z.max offset (data_size data)
  | Some (Thrown _) => True
  | Some Undefined => wrapping_length data
  | None => False
  end.

Lemma reads_bind {A B} data least least' offset (m : parsed A) (f : A -> Z -> parsed B) :
  moves_on data least offset m ->
  (forall a offset', m = Some (Value (a, offset')) -> offset + least <= offset' <= Z.max offset (data_size data) ->
     moves_on data (least' - (offset' - offset)) offset' (f a offset')) ->
  moves_on data least' offset (pbind m f).
Proof.
  intros Hm Hf. destruct m as [[[a offset']|e|]|]; [|done..]. cbn in Hm. specialize (Hf a offset' eq_refl Hm).
  cbn [pbind]. destruct (f a offset') as [[[b o]|e|]|]; cbn in *; [lia|done..].
Qed.
Lemma reads_less {A} data least least' offset (m : parsed A) :
  least' <= least -> moves_on data least offset m -> moves_on data least' offset m.
Proof. destruct m as [[[a o]|e|]|]; cbn; [lia|done..]. Qed.
Lemma reads_ok {A} data least offset (a : A) : least <= 0 -> moves_on data least offset (pok a offset).
Proof. cbn. lia. Qed.

Lemma ReadByte_moves data offset : moves_on data 1 offset (ReadByte data offset).
Proof.
  unfold ReadByte. destruct (data !! Z.to_nat offset); [|done].
  destruct (Z.ltb_spec offset (data_size data)); cbn; [lia|done].
Qed.

Lemma big_endian_moves data n : forall value offset, moves_on data 0 offset (read_big_endian data n value offset).
Proof.
  induction n as [|n IH]; intros value offset; [cbn; lia|]. cbn [read_big_endian].
  apply (reads_bind data 1); [apply ReadByte_moves|]. intros b offset' _ Ho.
  apply (reads_less data 0); [lia|apply IH].
Qed.

Lemma ReadArgument_moves data additional offset : moves_on data 0 offset (ReadArgument data additional offset).
Proof.
  unfold ReadArgument. destruct (_ <? _); [cbn; lia|].
  destruct (_ =? 24); [apply (reads_less data 1); [lia|apply ReadByte_moves]|].
  do 3 (destruct (_ =? _); [apply big_endian_moves|]). done.
Qed.

Lemma lor_shift_byte value b : Z.lor (Z.shiftl value 8) (char_code b) = value * 256 + char_code b.
Proof.
  pose proof (char_code_range b) as Hb. rewrite <-Z.lxor_lor, <-Z.add_nocarry_lxor.
  1: by rewrite Z.shiftl_mul_pow2.
  all: apply Z.bits_inj'; intros n Hn; rewrite Z.land_spec, Z.bits_0, Z.shiftl_spec by lia;
    destruct (decide (n < 8)); [rewrite (Z.testbit_neg_r _ (n - 8)) by lia; done|];
    rewrite <-(Z.mod_small (char_code b) (2 ^ 8) Hb), (Z.mod_pow2_bits_high _ 8 n) by lia; by rewrite andb_false_r.
Qed.

Lemma big_endian_range data n : forall value offset v o,
  0 <= value -> read_big_endian data n value offset = pok v o -> 0 <= v < (value + 1) * 256 ^ Z.of_nat n.
Proof.
  induction n as [|n IH]; intros value offset v o Hv.
  - intros [= <- <-]. change (256 ^ Z.of_nat 0) with 1. lia.
  - cbn [read_big_endian]. unfold ReadByte. destruct (data !! Z.to_nat offset) as [b|]; [|done].
    destruct (offset <? data_size data); [|done]. cbn [pbind pok]. rewrite lor_shift_byte.
    pose proof (char_code_range b) as Hb. intros H%IH; [|lia].
    rewrite Nat2Z.inj_succ, Z.pow_succ_r by lia. nia.
Qed.

(** Only a length of eight bytes can be so large. *)
Lemma ReadArgument_large data additional offset n offset' :
  0 <= offset -> ReadArgument data additional offset = pok n offset' -> 0 <= additional ->
  0 <= n /\ (2 ^ 32 <= n -> read_big_endian data 8 0 offset = pok n offset').
Proof.
  intros Ho H Ha. unfold ReadArgument in H. destruct (Z.ltb_spec additional 24); [injection H as <- <-; lia|].
  destruct (_ =? 24).
  { unfold ReadByte in H. destruct (data !! Z.to_nat offset) as [b|]; [|done]. destruct (_ <? _); [|done].
    injection H as <- <-. pose proof (char_code_range b). lia. }
  destruct (_ =? 25); [apply big_endian_range in H; cbn in H; lia|].
  destruct (_ =? 26); [apply big_endian_range in H; cbn in H; lia|].
  destruct (_ =? 27); [|done]. split; [by apply big_endian_range in H; cbn in H; lia|done].
Qed.

(** Reading a byte string of the length just read. *)
Lemma ReadBytes_moves data additional start n offset :
  data_size data < 2 ^ 63 -> 0 <= start -> 0 <= additional -> start <= offset <= data_size data ->
  ReadArgument data additional start = pok n offset -> moves_on data 0 offset (ReadBytes data n offset).
Proof.
  intros Hsz Hs Ha Ho Hr. destruct (ReadArgument_large _ _ _ _ _ Hs Hr Ha) as [Hn Hlarge].
  unfold ReadBytes. cbv zeta. destruct (Z.ltb_spec (data_size data) (uint64_wrap (offset + n))); [done|].
  destruct (Z.ltb_spec (uint64_wrap (offset + n)) offset) as [Hw|]; [|cbn; lia].
  destruct (Z.le_gt_cases (2 ^ 64) (offset + n)) as [Hle|Hlt].
  - exists start, n, offset. split; [done|]. split; [apply Hlarge; lia|]. lia.
  - unfold uint64_wrap in Hw. rewrite Z.mod_small in Hw; lia.
Qed.

Section Loops.
Context (data : ByteVector) (parse_item : Z -> parsed CborValue) (from : Z).
Hypothesis item_moves :
  forall offset, from <= offset <= data_size data -> moves_on data 1 offset (parse_item offset).

Lemma parse_items_moves n : forall count acc offset,
  from <= offset <= data_size data -> data_size data - offset < Z.of_nat n ->
  moves_on data 0 offset (parse_items parse_item n count acc offset).
Proof.
  induction n as [|n IH]; intros count acc offset Ho Hn; cbn [parse_items];
    (destruct (count <=? 0); [apply reads_ok; lia|]); [lia|].
  apply (reads_bind data 1); [by apply item_moves|]. intros v offset' _ Ho'.
  apply (reads_less data 0); [lia|apply IH; lia].
Qed.

Lemma parse_array_moves n count offset :
  from <= offset <= data_size data -> data_size data - offset < Z.of_nat n ->
  moves_on data 0 offset (parse_array parse_item n count offset).
Proof. intros Ho Hn. unfold parse_array. destruct (_ <? _); [done|by apply parse_items_moves]. Qed.

Lemma parse_pairs_moves n : forall count m offset,
  from <= offset <= data_size data -> data_size data - offset < Z.of_nat n ->
  moves_on data 0 offset (parse_pairs parse_item n count m offset).
Proof.
  induction n as [|n IH]; intros count m offset Ho Hn; cbn [parse_pairs];
    (destruct (count <=? 0); [apply reads_ok; lia|]); [lia|].
  apply (reads_bind data 1); [by apply item_moves|]. intros key offset1 _ Ho1.
  apply (reads_bind data 1); [apply item_moves; lia|]. intros item offset2 _ Ho2.
  apply (reads_less data 0); [lia|apply IH; lia].
Qed.
End Loops.

Lemma Parse_moves data fuel : data_size data < 2 ^ 63 -> forall offset,
  0 <= offset <= data_size data -> data_size data - offset < Z.of_nat fuel ->
  moves_on data 1 offset (Parse data fuel offset).
Proof.
  intros Hsz. induction fuel as [|fuel IH]; intros offset Ho Hf; [lia|]. cbn [Parse].
  apply (reads_bind data 1); [apply ReadByte_moves|]. intros header offset1 Hb1 Ho1. cbv zeta.
  assert (Hadd : 0 <= Z.land header 31) by (apply Z.land_nonneg; right; lia).
  assert (Hin : offset1 <= data_size data).
  { unfold ReadByte in Hb1. destruct (data !! Z.to_nat offset); [|done].
    destruct (Z.ltb_spec offset (data_size data)); [|done]. injection Hb1 as _ <-. lia. }
  assert (Hbytes : forall build : ByteVector -> CborValue,
    moves_on data 0 offset1
      (pbind (ReadArgument data (Z.land header 31) offset1) (fun n o =>
       pbind (ReadBytes data n o) (fun b o => pok (build b) o)))).
  { intros build. apply (reads_bind data 0); [apply ReadArgument_moves|]. intros n offset2 Hn Ho2.
    apply (reads_bind data 0); [apply (ReadBytes_moves data (Z.land header 31) offset1); (done || lia)|]. intros b offset3 _ Ho3. apply reads_ok; lia. }
  repeat match goal with |- moves_on _ _ _ (if ?c then _ else _) => destruct c end; cbn [pok pthrow];
    try (apply reads_ok; lia); try done; try (eapply reads_less; [|apply Hbytes]; lia).
  all: apply (reads_bind data 0); [apply ReadArgument_moves|]; intros n offset2 _ Ho2;
    try (apply reads_ok; lia).
  - apply (reads_less data 0); [lia|]. apply (parse_array_moves _ _ offset1); unfold data_size in *; [|lia..].
    intros o Hr. apply IH; lia.
  - apply (reads_less data 0); [lia|]. apply (parse_pairs_moves _ _ offset1); unfold data_size in *; [|lia..].
    intros o Hr. apply IH; lia.
  - apply (reads_less data 1); [lia|]. apply IH; lia.
Qed.


(** Such data are easily made: the header of a byte string and the length [2^64 - 1]. *)
Example wrapped_length_undefined :
  Parse (byte_of 91 :: repeat (byte_of 255) 8) 10 0 = Some Undefined.
Proof. vm_compute. reflexivity. Qed.

(** * Every value is read back from its encoding

    The reference is the preferred encoding of RFC 8949: the shortest head, then the
    bytes, the items or the pairs. *)

Fixpoint big_endian (n : nat) (z : Z) : ByteVector :=
  match n with O => [] | S n => byte_of (z / 256 ^ Z.of_nat n) :: big_endian n z end.
Definition cbor_head (major n : Z) : ByteVector :=
  if n <? 24 then [byte_of (32 * major + n)]
  else if n <? 2 ^ 8 then byte_of (32 * major + 24) :: big_endian 1 n
  else if n <? 2 ^ 16 then byte_of (32 * major + 25) :: big_endian 2 n
  else if n <? 2 ^ 32 then byte_of (32 * major + 26) :: big_endian 4 n
  else byte_of (32 * major + 27) :: big_endian 8 n.
Definition cbor_integer (z : Z) : ByteVector := if 0 <=? z then cbor_head 0 z else cbor_head 1 (-1 - z).
Definition cbor_text (t : string) : ByteVector := cbor_head 3 (Z.of_nat (length (list_of_string t))) ++ list_of_string t.

Fixpoint cbor_encode (v : CborValue) : ByteVector :=
  match v with
  | kUnsigned z | kNegative z => cbor_integer z
  | kBytes b => cbor_head 2 (data_size b) ++ b
  | kText t => cbor_text t
  | kArray l => cbor_head 4 (Z.of_nat (length l)) ++ concat (map cbor_encode l)
  | kMap int_map text_map =>
      cbor_head 5 (Z.of_nat (length int_map + length text_map)) ++
      concat (map (fun kv => cbor_integer kv.1 ++ cbor_encode kv.2) int_map) ++
      concat (map (fun kv => cbor_text kv.1 ++ cbor_encode kv.2) text_map)
  | kBool b => [byte_of (if b then 245 else 244)]
  | kNull => [byte_of 246]
  end.

(** The values an encoding has: integers of their constructor, keys that differ. *)
Definition int64_ok (z : Z) : bool := (- 2 ^ 63 <=? z) && (z <? 2 ^ 63).
Fixpoint cbor_ok (v : CborValue) : bool :=
  match v with
  | kUnsigned z => (0 <=? z) && (z <? 2 ^ 63)
  | kNegative z => (- 2 ^ 63 <=? z) && (z <? 0)
  | kArray l => (Z.of_nat (length l) <=? vector_max_size) && forallb cbor_ok l
  | kMap int_map text_map =>
      forallb (fun kv => int64_ok kv.1 && cbor_ok kv.2) int_map && forallb (fun kv => cbor_ok kv.2) text_map &&
      bool_decide (NoDup int_map.*1) && bool_decide (NoDup text_map.*1)
  | kBytes _ | kText _ | kBool _ | kNull => true
  end.

Section CborInd.
Context (P : CborValue -> Prop)
  (P_unsigned : forall z, P (kUnsigned z)) (P_negative : forall z, P (kNegative z))
  (P_bytes : forall b, P (kBytes b)) (P_text : forall t, P (kText t))
  (P_array : forall l, Forall P l -> P (kArray l))
  (P_map : forall im tm, Forall (fun kv => P kv.2) im -> Forall (fun kv => P kv.2) tm -> P (kMap im tm))
  (P_bool : forall b, P (kBool b)) (P_null : P kNull).
Fixpoint CborValue_ind' (v : CborValue) : P v :=
  let fix each {K} (l : list (K * CborValue)) : Forall (fun kv => P kv.2) l :=
    match l with [] => Forall_nil_2 _ | kv :: l' => Forall_cons_2 _ kv l' (CborValue_ind' kv.2) (each l') end in
  match v with
  | kUnsigned z => P_unsigned z
  | kNegative z => P_negative z
  | kBytes b => P_bytes b
  | kText t => P_text t
  | kArray l =>
      P_array l ((fix all l : Forall P l :=
        match l with [] => Forall_nil_2 _ | x :: l' => Forall_cons_2 _ x l' (CborValue_ind' x) (all l') end) l)
  | kMap im tm => P_map im tm (each im) (each tm)
  | kBool b => P_bool b
  | kNull => P_null
  end.
End CborInd.

Section Reading.
Context (data : ByteVector).
Hypothesis data_fits : data_size data < 2 ^ 63.

(** The bytes [l] are at [offset]. *)
Definition here (offset : Z) (l : ByteVector) : Prop :=
  0 <= offset /\ exists post, drop (Z.to_nat offset) data = l ++ post.

Lemma here_app offset a b : here offset (a ++ b) <-> here offset a /\ here (offset + data_size a) b.
Proof.
  unfold here, data_size. split.
  - intros (Ho & post & Hd). rewrite <-app_assoc in Hd. split; [eauto|]. split; [lia|]. exists post.
    replace (Z.to_nat (offset + Z.of_nat (length a))) with (Z.to_nat offset + length a)%nat by lia.
    by rewrite <-drop_drop, Hd, drop_app_length.
  - intros ((Ho & post & Hd) & _ & post' & Hd'). split; [done|]. exists post'.
    replace (Z.to_nat (offset + Z.of_nat (length a))) with (Z.to_nat offset + length a)%nat in Hd' by lia.
    rewrite <-drop_drop, Hd, drop_app_length in Hd'. by rewrite Hd, Hd', app_assoc.
Qed.
Lemma here_cons offset a b : here offset (a :: b) <-> here offset [a] /\ here (offset + 1) b.
Proof. apply (here_app offset [a] b). Qed.
Lemma here_fits offset l : here offset l -> offset + data_size l <= Z.max offset (data_size data).
Proof.
  intros (Ho & post & Hd). apply (f_equal length) in Hd. rewrite length_drop, length_app in Hd.
  unfold data_size. lia.
Qed.

Lemma ReadByte_here offset b : here offset [b] -> ReadByte data offset = pok (char_code b) (offset + 1).
Proof.
  intros Hh. pose proof (here_fits _ _ Hh) as Hf. destruct Hh as (Ho & post & Hd).
  assert (data !! Z.to_nat offset = Some b) as Hl.
  { rewrite <-(Nat.add_0_r (Z.to_nat offset)), <-lookup_drop, Hd. done. }
  unfold ReadByte. rewrite Hl. apply lookup_lt_Some in Hl.
  destruct (Z.ltb_spec offset (data_size data)); [done|]. unfold data_size in *. lia.
Qed.

Lemma char_code_byte_of z : char_code (byte_of z) = z mod 256.
Proof.
  pose proof (Z.mod_pos_bound z 256 ltac:(lia)). unfold byte_of, char_code.
  rewrite Ascii.N_ascii_embedding by lia. by rewrite Z2N.id by lia.
Qed.

Lemma big_endian_here n : forall value z offset,
  here offset (big_endian n z) ->
  read_big_endian data n value offset =
    pok (value * 256 ^ Z.of_nat n + z mod 256 ^ Z.of_nat n) (offset + Z.of_nat n).
Proof.
  induction n as [|n IH]; intros value z offset Hh.
  - cbn [read_big_endian]. change (256 ^ Z.of_nat 0) with 1. rewrite Z.mod_1_r. unfold pok. do 3 f_equal; lia.
  - cbn [big_endian read_big_endian] in *. apply here_cons in Hh as [Hb Hh].
    rewrite (ReadByte_here _ _ Hb). cbn [pbind pok]. rewrite lor_shift_byte, (IH _ _ _ Hh), char_code_byte_of.
    unfold pok. do 3 f_equal; [|lia]. rewrite Nat2Z.inj_succ, Z.pow_succ_r by lia.
    rewrite (Z.mul_comm 256 (256 ^ _)), (Z.rem_mul_r z (256 ^ Z.of_nat n) 256) by lia. ring.
Qed.
Lemma length_big_endian n z : length (big_endian n z) = n.
Proof. induction n; cbn; congruence. Qed.

(** The head of an item. *)
Lemma head_here major n offset :
  0 <= major < 8 -> 0 <= n < 2 ^ 64 -> here offset (cbor_head major n) ->
  exists header, ReadByte data offset = pok header (offset + 1) /\ Z.shiftr header 5 = major /\
    ReadArgument data (Z.land header 31) (offset + 1) = pok n (offset + data_size (cbor_head major n)).
Proof.
  intros Hm Hn Hh.
  assert (Hheader : forall additional rest, 0 <= additional < 32 ->
    here offset (byte_of (32 * major + additional) :: rest) ->
    exists header, ReadByte data offset = pok header (offset + 1) /\ Z.shiftr header 5 = major /\
      Z.land header 31 = additional /\ here (offset + 1) rest).
  { intros additional rest Ha Hr. apply here_cons in Hr as [Hb Hr]. exists (32 * major + additional).
    rewrite (ReadByte_here _ _ Hb), char_code_byte_of, Z.mod_small by lia. repeat split; try done; try apply Hr.
    - rewrite Z.shiftr_div_pow2 by lia. change (2 ^ 5) with 32. Z.div_mod_to_equations. lia.
    - change 31 with (Z.ones 5). rewrite Z.land_ones by lia. change (2 ^ 5) with 32. Z.div_mod_to_equations. lia. }
  unfold cbor_head in *.
  destruct (Z.ltb_spec n 24).
  { destruct (Hheader n [] ltac:(lia) Hh) as (header & -> & Hs & Ha & _). exists header.
    rewrite Ha. repeat split; [done|]. unfold ReadArgument. by rewrite (proj2 (Z.ltb_lt n 24)) by lia. }
  assert (Hargument : forall additional w, 0 <= additional < 32 -> 0 <= n < 256 ^ Z.of_nat w ->
    (forall o, ReadArgument data additional o = read_big_endian data w 0 o) ->
    here offset (byte_of (32 * major + additional) :: big_endian w n) ->
    exists header, ReadByte data offset = pok header (offset + 1) /\ Z.shiftr header 5 = major /\
      ReadArgument data (Z.land header 31) (offset + 1) =
        pok n (offset + data_size (byte_of (32 * major + additional) :: big_endian w n))).
  { intros additional w Ha Hw Hread Hr. destruct (Hheader _ _ Ha Hr) as (header & -> & Hs & Hl & Hb).
    exists header. rewrite Hl. repeat split; [done|]. rewrite Hread, (big_endian_here _ _ _ _ Hb), Z.mod_small by done.
    unfold data_size. cbn [length]. rewrite length_big_endian. unfold pok. do 3 f_equal; lia. }
  destruct (Z.ltb_spec n (2 ^ 8)); [apply (Hargument 24 1%nat); try done; try (cbn; lia)|].
  { intros o. unfold ReadArgument. cbn -[ReadByte]. destruct (ReadByte data o) as [[[? ?]| |]|]; done. }
  destruct (Z.ltb_spec n (2 ^ 16)); [apply (Hargument 25 2%nat); try done; cbn; lia|].
  destruct (Z.ltb_spec n (2 ^ 32)); [apply (Hargument 26 4%nat); try done; cbn; lia|].
  apply (Hargument 27 8%nat); try done; cbn; lia.
Qed.

Lemma ReadBytes_here offset l :
  here offset l -> offset <= data_size data -> ReadBytes data (data_size l) offset = pok l (offset + data_size l).
Proof.
  intros Hh Ho. pose proof (here_fits _ _ Hh) as Hf. destruct Hh as (H0 & post & Hd). unfold ReadBytes.
  assert (uint64_wrap (offset + data_size l) = offset + data_size l) as ->.
  { unfold uint64_wrap. apply Z.mod_small. unfold data_size in *. lia. }
  rewrite (proj2 (Z.ltb_ge (data_size data) _)) by lia.
  rewrite (proj2 (Z.ltb_ge (offset + data_size l) offset)) by (unfold data_size; lia).
  unfold data_size. by rewrite Hd, Nat2Z.id, take_app_length.
Qed.

(** [Parse] with enough fuel gives [v] where its encoding is. *)
Definition read_back (v : CborValue) : Prop :=
  forall fuel offset, cbor_ok v = true -> here offset (cbor_encode v) -> data_size (cbor_encode v) <= Z.of_nat fuel ->
    Parse data fuel offset = pok v (offset + data_size (cbor_encode v)).

Lemma parse_head fuel offset major n rest v end_offset :
  0 <= major < 7 -> 0 <= n < 2 ^ 63 -> here offset (cbor_head major n ++ rest) ->
  (here (offset + data_size (cbor_head major n)) rest ->
   (if major =? 0 then pok (kUnsigned n)
    else if major =? 1 then pok (kNegative (-1 - n))
    else if major =? 2 then fun o => pbind (ReadBytes data n o) (fun b o => pok (kBytes b) o)
    else if major =? 3 then fun o => pbind (ReadBytes data n o) (fun b o => pok (kText (string_of_list b)) o)
    else if major =? 4 then parse_array (Parse data fuel) (S (length data)) n
    else if major =? 5 then parse_pairs (Parse data fuel) (S (length data)) n ([], [])
    else Parse data fuel) (offset + data_size (cbor_head major n)) = pok v end_offset) ->
  Parse data (S fuel) offset = pok v end_offset.
Proof.
  intros Hm Hn [Hh Hr]%here_app Hnext. specialize (Hnext Hr).
  destruct (head_here major n offset ltac:(lia) ltac:(lia) Hh) as (header & Hb & Hs & Ha).
  cbn [Parse]. rewrite Hb. cbn [pbind pok]. cbv zeta. rewrite Hs, Ha. cbn [pbind pok].
  assert (int64_wrap n = n) as Hi.
  { unfold int64_wrap, uint64_wrap. rewrite Z.mod_small by lia. by rewrite (proj2 (Z.ltb_lt n (2 ^ 63))) by lia. }
  assert (major = 0 \/ major = 1 \/ major = 2 \/ major = 3 \/ major = 4 \/ major = 5 \/ major = 6)
    as [->|[->|[->|[->|[->|[->| -> ] ] ] ] ] ] by lia; cbn -[Parse parse_array parse_pairs ReadBytes] in *; by rewrite ?Hi.
Qed.

Lemma encode_nonempty v : 1 <= data_size (cbor_encode v).
Proof.
  assert (Hhead : forall major n rest, 1 <= data_size (cbor_head major n ++ rest)).
  { intros. unfold cbor_head, data_size. rewrite length_app. repeat case_match; cbn [length]; lia. }
  assert (Hint : forall z, 1 <= data_size (cbor_integer z)).
  { intros. unfold cbor_integer. case_match; rewrite <-(app_nil_r (cbor_head _ _)); apply Hhead. }
  destruct v; cbn [cbor_encode]; try apply Hint; try apply Hhead; unfold data_size; cbn; lia.
Qed.

Lemma data_size_app a b : data_size (a ++ b) = data_size a + data_size b.
Proof. unfold data_size. rewrite length_app. lia. Qed.

Lemma items_read_back fuel l : forall n acc offset,
  Forall read_back l -> forallb cbor_ok l = true -> here offset (concat (map cbor_encode l)) ->
  data_size (concat (map cbor_encode l)) <= Z.of_nat fuel -> (length l <= n)%nat ->
  parse_items (Parse data fuel) n (Z.of_nat (length l)) acc offset =
    pok (kArray (acc ++ l)) (offset + data_size (concat (map cbor_encode l))).
Proof.
  induction l as [|v l IH]; intros n acc offset Hall Hok Hh Hf Hn.
  - destruct n; cbn; rewrite app_nil_r, Z.add_0_r; done.
  - apply Forall_cons in Hall as [Hv Hall]. cbn [forallb] in Hok. apply andb_prop in Hok as [Hok Hoks].
    cbn [map concat] in *. apply here_app in Hh as [Hh Hhs]. rewrite data_size_app in *.
    pose proof (encode_nonempty v). assert (0 <= data_size (concat (map cbor_encode l))) by (unfold data_size; lia).
    destruct n as [|n]; [cbn in Hn; lia|]. cbn [parse_items].
    rewrite (proj2 (Z.leb_gt (Z.of_nat (length (v :: l))) 0)) by (cbn [length]; lia).
    rewrite (Hv fuel offset Hok Hh) by lia. cbn [pbind pok].
    replace (Z.of_nat (length (v :: l)) - 1) with (Z.of_nat (length l)) by (cbn [length]; lia).
    rewrite IH; [|done..|lia|cbn in Hn; lia]. rewrite <-app_assoc. unfold pok. do 3 f_equal. lia.
Qed.

Definition encode_pair (kv : CborValue * CborValue) : ByteVector := cbor_encode kv.1 ++ cbor_encode kv.2.
Lemma pairs_read_back fuel l : forall n m offset,
  Forall (fun kv => read_back kv.1 /\ read_back kv.2) l ->
  forallb (fun kv => cbor_ok kv.1 && cbor_ok kv.2) l = true ->
  here offset (concat (map encode_pair l)) ->
  data_size (concat (map encode_pair l)) <= Z.of_nat fuel -> (length l <= n)%nat ->
  parse_pairs (Parse data fuel) n (Z.of_nat (length l)) m offset =
    let m' := foldl (fun m kv => emplace_item kv.1 kv.2 m) m l in
    pok (kMap m'.1 m'.2) (offset + data_size (concat (map encode_pair l))).
Proof.
  induction l as [|[k v] l IH]; intros n m offset Hall Hok Hh Hf Hn.
  - destruct n; cbn; rewrite Z.add_0_r; done.
  - apply Forall_cons in Hall as [[Hk Hv] Hall]. cbn [forallb fst snd] in Hok, Hk, Hv.
    apply andb_prop in Hok as [[Hok1 Hok2]%andb_prop Hoks].
    cbn [map concat] in *. change (encode_pair (k, v)) with (cbor_encode k ++ cbor_encode v) in *.
    apply here_app in Hh as [[Hh1 Hh2]%here_app Hhs]. rewrite !data_size_app in *.
    pose proof (encode_nonempty k). pose proof (encode_nonempty v).
    assert (0 <= data_size (concat (map encode_pair l))) by (unfold data_size; lia).
    destruct n as [|n]; [cbn in Hn; lia|]. cbn [parse_pairs].
    rewrite (proj2 (Z.leb_gt (Z.of_nat (length ((k, v) :: l))) 0)) by (cbn [length]; lia).
    rewrite (Hk fuel offset Hok1 Hh1) by lia. cbn [pbind pok].
    rewrite (Hv fuel _ Hok2 Hh2) by lia. cbn [pbind pok].
    replace (Z.of_nat (length ((k, v) :: l)) - 1) with (Z.of_nat (length l)) by (cbn [length]; lia).
    rewrite Z.add_assoc in Hhs. rewrite IH; [|done..|lia|cbn in Hn; lia].
    cbv zeta. cbn [foldl fst snd]. unfold pok. do 3 f_equal. lia.
Qed.

Lemma head_alone major n : cbor_head major n = cbor_head major n ++ [].
Proof. by rewrite app_nil_r. Qed.

Lemma integer_reads z :
  int64_ok z = true -> forall fuel offset, here offset (cbor_integer z) -> (0 < fuel)%nat ->
  Parse data fuel offset = pok (if 0 <=? z then kUnsigned z else kNegative z) (offset + data_size (cbor_integer z)).
Proof.
  intros Hz fuel offset Hh Hf. destruct fuel as [|fuel]; [lia|]. unfold int64_ok in Hz.
  apply andb_prop in Hz as [Hlo%Z.leb_le Hhi%Z.ltb_lt]. unfold cbor_integer in *.
  destruct (Z.leb_spec 0 z).
  - rewrite (head_alone 0 z) in Hh. eapply (parse_head fuel offset 0 z []); [lia..|exact Hh|]. done.
  - rewrite (head_alone 1 (-1 - z)) in Hh. eapply (parse_head fuel offset 1 (-1 - z) []); [lia..|exact Hh|].
    intros _. cbn -[data_size cbor_head Z.sub]. do 3 f_equal. lia.
Qed.

(** The key values of a map. *)
Definition key_value (z : Z) : CborValue := if 0 <=? z then kUnsigned z else kNegative z.
Definition map_pairs (int_map : list (Z * CborValue)) (text_map : list (string * CborValue))
    : list (CborValue * CborValue) :=
  map (fun kv => (key_value kv.1, kv.2)) int_map ++ map (fun kv => (kText kv.1, kv.2)) text_map.

Lemma encode_map_pairs int_map text_map :
  concat (map encode_pair (map_pairs int_map text_map)) =
  concat (map (fun kv => cbor_integer kv.1 ++ cbor_encode kv.2) int_map) ++
  concat (map (fun kv => cbor_text kv.1 ++ cbor_encode kv.2) text_map).
Proof.
  unfold map_pairs. rewrite map_app, concat_app, !map_map. f_equal. apply (f_equal (@concat _)), map_ext.
  intros [z v]. unfold encode_pair, key_value. cbn [fst snd]. by destruct (0 <=? z).
Qed.

Lemma emplace_new {K V} `{EqDecision K} (k : K) (v : V) m : k ∉ m.*1 -> emplace k v m = m ++ [(k, v)].
Proof.
  intros Hk. unfold emplace. destruct (existsb _ m) eqn:He; [|done]. apply existsb_exists in He as ([k' v'] & Hin & Heq).
  rewrite eqb_true in Heq. cbn in Heq. subst. destruct Hk. apply list_elem_of_In in Hin.
  apply list_elem_of_fmap. by exists (k, v').
Qed.
Lemma emplace_ints int_map : forall m,
  NoDup (m.1.*1 ++ int_map.*1) ->
  foldl (fun m kv => emplace_item kv.1 kv.2 m) m (map (fun kv => (key_value kv.1, kv.2)) int_map) =
  (m.1 ++ int_map, m.2).
Proof.
  induction int_map as [|[z v] l IH]; intros [m1 m2] Hnd; cbn [map foldl fst snd].
  - by rewrite app_nil_r.
  - assert (emplace_item (key_value z) v (m1, m2) = (m1 ++ [(z, v)], m2)) as ->.
    { apply NoDup_app in Hnd as (_ & Hdis & _). unfold key_value.
      destruct (0 <=? z); cbn [emplace_item fst snd]; rewrite emplace_new; try done;
        intros Hin; apply (Hdis z Hin); cbn; by left. }
    rewrite IH; cbn [fst snd]; [by rewrite <-app_assoc|]. rewrite fmap_app, <-app_assoc. exact Hnd.
Qed.
Lemma emplace_texts text_map : forall m,
  NoDup (m.2.*1 ++ text_map.*1) ->
  foldl (fun m kv => emplace_item kv.1 kv.2 m) m (map (fun kv => (kText kv.1, kv.2)) text_map) =
  (m.1, m.2 ++ text_map).
Proof.
  induction text_map as [|[t v] l IH]; intros [m1 m2] Hnd; cbn [map foldl fst snd].
  - by rewrite app_nil_r.
  - cbn [emplace_item fst snd]. rewrite emplace_new.
    + rewrite IH; cbn [fst snd]; [by rewrite <-app_assoc|]. rewrite fmap_app, <-app_assoc. exact Hnd.
    + apply NoDup_app in Hnd as (_ & Hdis & _). intros Hin. apply (Hdis t Hin). cbn. by left.
Qed.

Lemma length_concat_le {A} (enc : A -> ByteVector) l :
  (forall x, 1 <= data_size (enc x)) -> Z.of_nat (length l) <= data_size (concat (map enc l)).
Proof.
  intros Henc. induction l as [|x l IH]; [done|]. cbn [map concat length]. rewrite data_size_app.
  specialize (Henc x). lia.
Qed.

Lemma data_size_nonneg l : 0 <= data_size l.
Proof. unfold data_size. lia. Qed.

(** What follows a head lies within the data. *)
Lemma here_inside offset major n rest :
  here offset (cbor_head major n ++ rest) ->
  0 <= offset /\ offset + data_size (cbor_head major n) + data_size rest <= data_size data /\
  1 <= data_size (cbor_head major n).
Proof.
  intros Hh. pose proof (here_fits _ _ Hh) as Hf. rewrite data_size_app in Hf. destruct Hh as [Ho _].
  assert (1 <= data_size (cbor_head major n)).
  { unfold cbor_head, data_size. repeat case_match; cbn [length]; lia. }
  pose proof (data_size_nonneg rest). lia.
Qed.

Lemma key_value_ok z : cbor_ok (key_value z) = int64_ok z.
Proof. unfold key_value, int64_ok. destruct (Z.leb_spec 0 z); cbn [cbor_ok]; lia. Qed.
Lemma encode_key_value z : cbor_encode (key_value z) = cbor_integer z.
Proof. unfold key_value. by destruct (0 <=? z). Qed.

Lemma key_value_read_back z : read_back (key_value z).
Proof.
  intros fuel offset Hok Hh Hf. rewrite key_value_ok in Hok. pose proof (encode_nonempty (key_value z)).
  rewrite encode_key_value in *. rewrite (integer_reads z) by (done || lia). done.
Qed.
Lemma text_read_back t : read_back (kText t).
Proof.
  intros fuel offset _ Hh Hf. pose proof (encode_nonempty (kText t)). destruct fuel as [|fuel]; [lia|].
  cbn [cbor_encode] in *. unfold cbor_text in *. fold (data_size (list_of_string t)) in *.
  pose proof (here_inside _ _ _ _ Hh) as (Ho & Hin & Hhead). pose proof (data_size_nonneg (list_of_string t)).
  eapply parse_head; [| |exact Hh|]; [lia..|].
  intros Hb. cbn -[ReadBytes data_size list_of_string]. rewrite ReadBytes_here by (done || lia). cbn [pbind pok].
  change (list_of_string t) with (bytes t). rewrite data_size_app, string_of_bytes. unfold pok. do 3 f_equal. lia.
Qed.

Lemma map_read_back im tm :
  Forall (fun kv => read_back kv.2) im -> Forall (fun kv => read_back kv.2) tm -> read_back (kMap im tm).
Proof.
  intros IHi IHt fuel offset Hok Hh Hf. pose proof (encode_nonempty (kMap im tm)).
  destruct fuel as [|fuel]; [lia|]. cbn [cbor_ok cbor_encode] in *.
  pose proof (here_inside _ _ _ _ Hh) as (Ho & Hin & Hhead).
  apply andb_prop in Hok as [[[Hoi Hot]%andb_prop Hni]%andb_prop Hnt]. apply bool_decide_eq_true in Hni, Hnt.
  rewrite <-encode_map_pairs in *. rewrite data_size_app in *.
  pose proof (length_concat_le encode_pair (map_pairs im tm)) as Hlen.
  assert (length (map_pairs im tm) = (length im + length tm)%nat) as Hl.
  { unfold map_pairs. by rewrite length_app, !length_map. }
  rewrite Hl in Hlen. specialize (Hlen ltac:(intros [k v]; unfold encode_pair; rewrite data_size_app;
    pose proof (encode_nonempty k); pose proof (encode_nonempty v); cbn [fst snd]; lia)).
  eapply parse_head; [| |exact Hh|]; [lia..|].
  intros Hb. cbn -[parse_pairs data_size concat Parse Z.of_nat]. rewrite <-Hl.
  rewrite pairs_read_back; rewrite ?Hl; [| | |done|lia|unfold data_size in *; lia].
  - cbv zeta. unfold map_pairs at 1 2. rewrite foldl_app, emplace_ints, emplace_texts by done.
    cbn [fst snd app]. unfold pok. do 3 f_equal. lia.
  - apply Forall_app. rewrite !Forall_fmap. split; eapply Forall_impl; [exact IHi| |exact IHt|]; intros kv Hkv;
      (split; [|exact Hkv]); [apply key_value_read_back|apply text_read_back].
  - apply forallb_forall. intros kv Hkv. unfold map_pairs in Hkv.
    apply in_app_or in Hkv as [Hkv|Hkv]; apply in_map_iff in Hkv as (x & <- & Hx); cbn [fst snd].
    + rewrite key_value_ok. by apply (proj1 (forallb_forall _ _) Hoi).
    + by apply (proj1 (forallb_forall _ _) Hot).
Qed.

Lemma value_read_back v : read_back v.
Proof.
  induction v as [z|z|b|t|l IH|im tm IHi IHt|b|] using CborValue_ind'; intros fuel offset Hok Hh Hf.
  all: match goal with |- Parse _ _ _ = pok ?v _ => pose proof (encode_nonempty v) as Hne end.
  4: by apply text_read_back. 5: by apply map_read_back.
  all: destruct fuel as [|fuel]; [lia|]; cbn [cbor_ok cbor_encode] in *.
  all: try (pose proof (here_inside _ _ _ _ Hh) as (Ho & Hin & Hhead)).
  - apply andb_prop in Hok as [Hlo%Z.leb_le Hhi%Z.ltb_lt].
    rewrite (integer_reads z) by (unfold int64_ok; lia || done). by rewrite (proj2 (Z.leb_le 0 z)).
  - apply andb_prop in Hok as [Hlo%Z.leb_le Hhi%Z.ltb_lt].
    rewrite (integer_reads z) by (unfold int64_ok; lia || done). by rewrite (proj2 (Z.leb_gt 0 z)).
  - pose proof (data_size_nonneg b). eapply parse_head; [| |exact Hh|]; [lia..|].
    intros Hb. cbn -[ReadBytes data_size]. rewrite ReadBytes_here by (done || lia). cbn [pbind pok].
    rewrite data_size_app. unfold pok. do 3 f_equal. lia.
  - pose proof (length_concat_le cbor_encode l encode_nonempty) as Hlen. rewrite data_size_app in *.
    apply andb_prop in Hok as [Hlong%Z.leb_le Hok].
    eapply parse_head; [| |exact Hh|]; [lia..|].
    intros Hb. cbn -[parse_array data_size concat Parse]. unfold parse_array.
    rewrite (proj2 (Z.ltb_ge _ _) Hlong).
    rewrite items_read_back; [|done..|lia|unfold data_size in *; lia]. unfold pok. do 3 f_equal. lia.
  - destruct b; cbn [Parse]; rewrite (ReadByte_here _ _ Hh); by rewrite char_code_byte_of.
  - cbn [Parse]; rewrite (ReadByte_here _ _ Hh); by rewrite char_code_byte_of.
Qed.
End Reading.

(** C25. The parser inverts the encoding of RFC 8949: every value with integers of 64 bits and
    distinct keys is read back from its bytes, and nothing is left over. *)
Theorem cbor_roundtrip v :
  cbor_ok v = true -> data_size (cbor_encode v) < 2 ^ 63 -> ParseCbor (cbor_encode v) = Ok v.
Proof.
  intros Hok Hfits. unfold ParseCbor, parse_at.
  rewrite (value_read_back (cbor_encode v) Hfits v); [|done| |unfold data_size; lia].
  - rewrite Z.add_0_l. cbn -[data_size eqb cbor_encode]. by rewrite eqb_refl.
  - split; [done|]. exists []. by rewrite app_nil_r.
Qed.

(** * What a verified response proves *)

Lemma lor_zero_all l : forall acc,
  0 <= acc -> foldl (fun diff lr => Z.lor diff (Z.lxor (char_code lr.1) (char_code lr.2))) acc l = 0 <->
  acc = 0 /\ Forall (fun lr => lr.1 = lr.2) l.
Proof.
  induction l as [|[a b] l IH]; intros acc Hacc; cbn [foldl fst snd].
  - split; [by intros ->|by intros []].
  - assert (0 <= Z.lxor (char_code a) (char_code b)).
    { apply Z.lxor_nonneg. pose proof (char_code_range a). pose proof (char_code_range b). lia. }
    rewrite IH by (apply Z.lor_nonneg; lia). rewrite Z.lor_eq_0_iff, Z.lxor_eq_0_iff, Forall_cons. cbn [fst snd].
    split; [|naive_solver]. intros [[-> Hab] Hl]. split; [done|]. split; [|done].
    by rewrite <-(byte_of_char_code a), Hab, byte_of_char_code.
Qed.

(** The comparison without early exit is equality. *)
Lemma constant_time_equals_iff lhs rhs : ConstantTimeEquals lhs rhs = true <-> lhs = rhs.
Proof.
  unfold ConstantTimeEquals. destruct (Z.eqb_spec (data_size lhs) (data_size rhs)) as [Hl|Hl]; cbn [negb].
  - rewrite Z.eqb_eq, lor_zero_all by done. split; [intros [_ Hall]|intros ->].
    + unfold data_size in Hl. apply Nat2Z.inj in Hl. clear -Hl Hall. revert rhs Hl Hall.
      induction lhs as [|a lhs IH]; intros [|b rhs] Hl Hall; try done. cbn in Hall.
      apply Forall_cons in Hall as [Hab Hall]. cbn in Hab. subst. f_equal. apply IH; [by injection Hl|done].
    + split; [done|]. clear Hl. induction rhs; cbn; constructor; done.
  - split; [done|]. by intros ->.
Qed.

(** The texts a client may give for the challenge it signed. *)
Definition challenge_named (actual expected : string) : Prop :=
  actual = expected \/ actual = EncodeBase64Url (list_of_string expected) \/
  exists b, DecodeBase64Url expected = Ok b /\ actual = EncodeBase64Url b.

Lemma challenge_matches_iff actual expected : ChallengeMatches actual expected = true <-> challenge_named actual expected.
Proof.
  unfold ChallengeMatches, challenge_named. destruct (actual ==? expected) eqn:He1.
  { rewrite eqb_true in He1. naive_solver. }
  rewrite eqb_false in He1. destruct (actual ==? EncodeBase64Url _) eqn:He2.
  { rewrite eqb_true in He2. naive_solver. }
  rewrite eqb_false in He2. destruct (DecodeBase64Url expected) as [b|e].
  - rewrite eqb_true. naive_solver.
  - naive_solver.
Qed.

Section Verified.
Context `{JsonLibrary, OpenSsl}.

(** What the client data of a response says. *)
Definition client_data_says (client_data_json : ByteVector) (type challenge origin : string) : Prop :=
  exists client_data actual,
    parse (string_of_list client_data_json) = Ok client_data /\
    json_value get_string client_data "type" "" = Ok type /\
    json_value get_string client_data "challenge" "" = Ok actual /\ challenge_named actual challenge /\
    json_value get_string client_data "origin" "" = Ok origin.

Lemma ValidateClientData_ok client_data_json type challenge origin :
  ValidateClientData client_data_json type challenge origin = Ok () <->
  client_data_says client_data_json type challenge origin.
Proof.
  unfold ValidateClientData, client_data_says. destruct (parse _) as [c|]; cbn [mbind result_bind]; [|naive_solver].
  assert (Hrefused : forall r, r <> Ok () ->
    (forall actual, json_value get_string c "type" "" = Ok type ->
       json_value get_string c "challenge" "" = Ok actual -> challenge_named actual challenge ->
       json_value get_string c "origin" "" = Ok origin -> False) ->
    r = Ok () <-> exists client_data actual, Ok c = Ok client_data /\
       json_value get_string client_data "type" "" = Ok type /\
       json_value get_string client_data "challenge" "" = Ok actual /\ challenge_named actual challenge /\
       json_value get_string client_data "origin" "" = Ok origin).
  { intros r Hr Hno. split; [done|]. intros (? & ? & [= <-] & ? & ? & ? & ?). by edestruct Hno. }
  destruct (json_value get_string c "type" "") as [t|] eqn:Ht; cbn [mbind result_bind]; [|by apply Hrefused].
  destruct (t ==? type) eqn:Et; cbn [negb]; [rewrite eqb_true in Et|rewrite eqb_false in Et; apply Hrefused; naive_solver].
  destruct (json_value get_string c "challenge" "") as [a|] eqn:Ha; cbn [mbind result_bind]; [|by apply Hrefused].
  destruct (ChallengeMatches a challenge) eqn:Hc; cbn [negb].
  2: { apply Hrefused; [done|]. intros ? _ [= <-] Hn _. apply challenge_matches_iff in Hn. congruence. }
  apply challenge_matches_iff in Hc.
  destruct (json_value get_string c "origin" "") as [o|] eqn:Ho; cbn [mbind result_bind]; [|by apply Hrefused].
  destruct (o ==? origin) eqn:Eo; cbn [negb]; [rewrite eqb_true in Eo|rewrite eqb_false in Eo; apply Hrefused; naive_solver].
  subst. split; [|done]. intros _. by exists c, a.
Qed.

Lemma ValidateRpIdHash_ok auth_data rp_id :
  ValidateRpIdHash auth_data rp_id = Ok () <-> ad_rp_id_hash auth_data = SHA256 (list_of_string rp_id).
Proof.
  unfold ValidateRpIdHash. rewrite <-constant_time_equals_iff. by destruct (ConstantTimeEquals _ _).
Qed.

Lemma authenticator_data_ok data auth_data :
  ParseAuthenticatorData data false = Ok auth_data ->
  ad_rp_id_hash auth_data = take 32 data /\ 37 <= data_size data /\
  flag_set (byte_at data 32) kUserPresentFlag = true /\ flag_set (byte_at data 32) kUserVerifiedFlag = true /\
  ad_sign_count auth_data =
    byte_at data 33 * 2 ^ 24 + byte_at data 34 * 2 ^ 16 + byte_at data 35 * 2 ^ 8 + byte_at data 36.
Proof.
  unfold ParseAuthenticatorData. destruct (Z.ltb_spec (data_size data) 37); [done|]. cbv zeta.
  destruct (flag_set (byte_at data 32) kUserPresentFlag); cbn [negb]; [|done].
  destruct (flag_set (byte_at data 32) kUserVerifiedFlag); cbn [negb]; [|done].
  intros [= <-]. cbn [ad_rp_id_hash ad_sign_count]. repeat split; [done|].
  rewrite <-(Z.shiftl_shiftl _ 8 16), <-Z.shiftl_lor by lia. unfold byte_at. rewrite lor_shift_byte.
  rewrite <-(Z.shiftl_shiftl _ 8 8), <-Z.shiftl_lor by lia. rewrite lor_shift_byte, lor_shift_byte. lia.
Qed.

Lemma RequireStringField_ok value key s : RequireStringField value key = Ok s <-> member value key = Some (JString s).
Proof.
  unfold RequireStringField. destruct (member value key) as [[]|]; try naive_solver.
  rewrite get_string_law. naive_solver.
Qed.
Lemma RequireObjectField_ok value key x :
  RequireObjectField value key = Ok x <-> member value key = Some x /\ is_object x = true.
Proof. unfold RequireObjectField. destruct (member value key) as [[]|]; naive_solver. Qed.

(** A field whose text is the base64url form of [b]. *)
Definition decoded_field (value : json) (key : string) (b : ByteVector) : Prop :=
  exists t, member value key = Some (JString t) /\ DecodeBase64Url t = Ok b.

Definition sign_count_of (data : ByteVector) : Z :=
  byte_at data 33 * 2 ^ 24 + byte_at data 34 * 2 ^ 16 + byte_at data 35 * 2 ^ 8 + byte_at data 36.

(** The authenticator data of a present and verified user, for the relying party. *)
Definition present_for (data : ByteVector) (rp_id : string) : Prop :=
  37 <= data_size data /\ take 32 data = SHA256 (list_of_string rp_id) /\
  flag_set (byte_at data 32) kUserPresentFlag = true /\ flag_set (byte_at data 32) kUserVerifiedFlag = true.

(** [response] answers the challenge with the credential. *)
Definition assertion (response credential : json) (challenge origin rp_id id : string) (count : Z) : Prop :=
  exists inner client_data_json data public_key signature point counter,
    is_object response = true /\ is_object credential = true /\ is_object inner = true /\
    member response "response" = Some inner /\
    member response "id" = Some (JString id) /\ member credential "id" = Some (JString id) /\
    decoded_field inner "clientDataJSON" client_data_json /\
    client_data_says client_data_json "webauthn.get" challenge origin /\
    decoded_field inner "authenticatorData" data /\ present_for data rp_id /\ count = sign_count_of data /\
    decoded_field credential "publicKey" public_key /\ ParseCoseP256PublicKey public_key = Ok point /\
    decoded_field inner "signature" signature /\
    ecdsa_verify point (data ++ SHA256 client_data_json) signature = true /\
    json_value get_int credential "counter" 0 = Ok counter /\
    (count = 0 \/ uint32_wrap counter = 0 \/ uint32_wrap counter < count).

Definition accepted_assertion (id : string) (count : Z) : json :=
  JObject [("verified", JBool true);
           ("authenticationInfo", JObject [("newCounter", JInt count); ("credentialID", JString id)])].

Lemma present_for_iff data rp_id :
  (exists auth_data, ParseAuthenticatorData data false = Ok auth_data /\ ValidateRpIdHash auth_data rp_id = Ok ()) <->
  present_for data rp_id.
Proof.
  unfold present_for. split.
  - intros (auth_data & (Hh & ? & ? & ? & _)%authenticator_data_ok & Hv%ValidateRpIdHash_ok). by rewrite <-Hh.
  - intros (Hl & Hh & Hp & Hv). unfold ParseAuthenticatorData.
    rewrite (proj2 (Z.ltb_ge (data_size data) 37)), Hp, Hv by done. cbn [negb]. cbv zeta. eexists. split; [done|].
    by apply ValidateRpIdHash_ok.
Qed.

Lemma assertion_sound payload id count :
  VerifyAuthentication payload = Ok (accepted_assertion id count) ->
  exists response credential challenge origin rp_id,
    member payload "response" = Some response /\ member payload "credential" = Some credential /\
    member payload "expectedChallenge" = Some (JString challenge) /\
    member payload "expectedOrigin" = Some (JString origin) /\
    member payload "expectedRPID" = Some (JString rp_id) /\
    assertion response credential challenge origin rp_id id count.
Proof.
  unfold VerifyAuthentication. intros Hv. bind_inv.
  match type of Hv with (if negb (?i ==? ?j) then _ else _) = _ => destruct (i ==? j) eqn:Eid; [|done] end.
  rewrite eqb_true in Eid. cbn [negb] in Hv. subst. bind_inv.
  repeat match goal with
  | E : RequireObjectField _ _ = Ok _ |- _ => apply RequireObjectField_ok in E as [? ?]
  | E : RequireStringField _ _ = Ok _ |- _ => apply RequireStringField_ok in E
  | E : ValidateClientData _ _ _ _ = Ok ?u |- _ => destruct u; apply ValidateClientData_ok in E
  | E : ValidateRpIdHash _ _ = Ok ?u |- _ => destruct u
  end.
  match goal with E : VerifyEs256Signature ?k ?d ?sig = Ok ?verified |- _ =>
    destruct verified; [|discriminate Hv]; unfold VerifyEs256Signature in E; bind_inv
  end.
  cbn [negb] in Hv. bind_inv.
  match type of Hv with (if ?c then _ else _) = _ => destruct c eqn:Ec; [discriminate Hv|] end.
  injection Hv as Hcount <-.
  match goal with E : ParseAuthenticatorData ?d _ = Ok _ |- _ =>
    pose proof (authenticator_data_ok _ _ E) as (_ & _ & _ & _ & Hsign); rewrite Hsign in * end.
  do 5 eexists. do 5 (split; [eassumption|]). unfold assertion, decoded_field.
  do 7 eexists. repeat (split; [first [eassumption | by eauto | by apply present_for_iff; eauto]|]).
  unfold sign_count_of. lia.
Qed.

Lemma assertion_complete payload response credential challenge origin rp_id id count :
  member payload "response" = Some response -> member payload "credential" = Some credential ->
  member payload "expectedChallenge" = Some (JString challenge) ->
  member payload "expectedOrigin" = Some (JString origin) ->
  member payload "expectedRPID" = Some (JString rp_id) ->
  assertion response credential challenge origin rp_id id count ->
  VerifyAuthentication payload = Ok (accepted_assertion id count).
Proof.
  intros Hr Hc Hch Ho Hrp (inner & client_data_json & data & public_key & signature & point & counter & Hor & Hoc & Hoi &
    Hinner & Hid & Hcid & (t1 & Ht1 & Hd1) & Hsays & (t2 & Ht2 & Hd2) & Hpresent & Hcount & (t3 & Ht3 & Hd3) &
    Hpoint & (t4 & Ht4 & Hd4) & Hverify & Hcounter & Hincreased).
  apply present_for_iff in Hpresent as (auth_data & Hauth & Hrpid).
  pose proof (authenticator_data_ok _ _ Hauth) as (_ & _ & _ & _ & Hsign).
  apply ValidateClientData_ok in Hsays.
  unfold VerifyAuthentication, VerifyEs256Signature.
  rewrite (proj2 (RequireObjectField_ok payload "response" response)) by done. cbn [mbind result_bind].
  rewrite (proj2 (RequireObjectField_ok payload "credential" credential)) by done. cbn [mbind result_bind].
  rewrite (proj2 (RequireObjectField_ok response "response" inner)) by done. cbn [mbind result_bind].
  rewrite (proj2 (RequireStringField_ok credential "id" id)) by done. cbn [mbind result_bind].
  rewrite (proj2 (RequireStringField_ok response "id" id)) by done. cbn [mbind result_bind].
  rewrite eqb_refl. cbn [negb].
  rewrite (proj2 (RequireStringField_ok inner "clientDataJSON" t1)), (proj2 (RequireStringField_ok inner "authenticatorData" t2)),
    (proj2 (RequireStringField_ok credential "publicKey" t3)), (proj2 (RequireStringField_ok inner "signature" t4)),
    (proj2 (RequireStringField_ok payload "expectedChallenge" challenge)),
    (proj2 (RequireStringField_ok payload "expectedOrigin" origin)),
    (proj2 (RequireStringField_ok payload "expectedRPID" rp_id)) by done.
  cbn [mbind result_bind]. rewrite Hd1, Hd2, Hd3, Hd4. cbn [mbind result_bind]. rewrite Hsays. cbn [mbind result_bind].
  rewrite Hauth. cbn [mbind result_bind]. rewrite Hrpid. cbn [mbind result_bind].
  rewrite Hpoint. cbn [mbind result_bind]. rewrite Hverify, Hcounter. cbn [mbind result_bind negb].
  assert (ad_sign_count auth_data = count) as -> by (rewrite Hsign, Hcount; done).
  destruct (_ && _) eqn:Ec; [|done]. lia.
Qed.

(** C11. A response is verified with a counter exactly when it names the credential, its
    client data is of an authentication with the challenge and the origin, its
    authenticator data has the digest of the relying party and the flags of a present
    and verified user, the key of the credential verifies the signature over the data
    and the digest of the client data, and the counter is above the stored one, or the
    counter or the stored one is zero (so that a count of zero is always accepted). *)
Theorem assertion_exact payload id count :
  VerifyAuthentication payload = Ok (accepted_assertion id count) <->
  exists response credential challenge origin rp_id,
    member payload "response" = Some response /\ member payload "credential" = Some credential /\
    member payload "expectedChallenge" = Some (JString challenge) /\
    member payload "expectedOrigin" = Some (JString origin) /\
    member payload "expectedRPID" = Some (JString rp_id) /\
    assertion response credential challenge origin rp_id id count.
Proof.
  split; [apply assertion_sound|].
  intros (response & credential & challenge & origin & rp_id & ? & ? & ? & ? & ? & ?).
  by eapply assertion_complete.
Qed.
End Verified.

(** * Examples *)

(** Every digest is 32 zero bytes and every signature is good. *)
Definition fx_ssl : OpenSsl :=
  {| SHA256 _ := replicate 32 (byte_of 0); p256_point _ := true; ecdsa_verify _ _ _ := true |}.
Definition fx_cose : ByteVector :=
  cbor_encode (kMap [(1, kUnsigned 2); (3, kNegative (-7)); (-1, kUnsigned 1); (-2, kBytes (replicate 32 (byte_of 1)));
                     (-3, kBytes (replicate 32 (byte_of 2)))] []).
Definition fx_client_data : string :=
  match @dump tree_json (JObject [("type", JString "webauthn.get"); ("challenge", JString "YWJj");
                                  ("origin", JString "https://c")]) with
  | Ok t => t | Throw _ => "" end.
(** Flags of presence and verification, and the counter 7. *)
Definition fx_authenticator_data : ByteVector := replicate 32 (byte_of 0) ++ map byte_of [5; 0; 0; 0; 7].
Definition fx_payload (stored_counter : Z) : json :=
  JObject
    [("response",
      JObject [("id", JString "key");
               ("response",
                JObject [("clientDataJSON", JString (EncodeBase64Url (list_of_string fx_client_data)));
                         ("authenticatorData", JString (EncodeBase64Url fx_authenticator_data));
                         ("signature", JString "AA")])]);
     ("expectedChallenge", JString "abc"); ("expectedOrigin", JString "https://c"); ("expectedRPID", JString "c");
     ("credential",
      JObject [("id", JString "key"); ("publicKey", JString (EncodeBase64Url fx_cose));
               ("counter", JInt stored_counter)])].

Example fx_assertion_verified :
  @VerifyAuthentication tree_json fx_ssl (fx_payload 6) = Ok (accepted_assertion "key" 7).
Proof. vm_compute. reflexivity. Qed.
Example fx_replay_refused : is_ok (@VerifyAuthentication tree_json fx_ssl (fx_payload 7)) = false.
Proof. vm_compute. reflexivity. Qed.

Example assertion_exact_witness :
  exists response credential,
    member (fx_payload 6) "response" = Some response /\ member (fx_payload 6) "credential" = Some credential /\
    @assertion tree_json fx_ssl response credential "abc" "https://c" "c" "key" 7.
Proof.
  assert (@VerifyAuthentication tree_json fx_ssl (fx_payload 6) = Ok (accepted_assertion "key" 7)) as H
    by (vm_compute; reflexivity).
  apply (@assertion_exact tree_json fx_ssl) in H.
  destruct H as (response & credential & challenge & origin & rp_id & H1 & H2 & H3 & H4 & H5 & H6).
  cbn in H3, H4, H5. injection H3 as <-. injection H4 as <-. injection H5 as <-.
  exists response, credential. exact (conj H1 (conj H2 H6)).
Defined.

Example cbor_roundtrip_witness :
  data_size (cbor_encode (kMap [(1, kUnsigned 2); (-7, kArray [kNull; kBool true])] [("authData", kBytes (bytes "x"))]))
    = 18 /\
  ParseCbor (cbor_encode (kMap [(1, kUnsigned 2); (-7, kArray [kNull; kBool true])] [("authData", kBytes (bytes "x"))]))
    = Ok (kMap [(1, kUnsigned 2); (-7, kArray [kNull; kBool true])] [("authData", kBytes (bytes "x"))]).
Proof. split; [vm_compute; reflexivity|]. apply cbor_roundtrip; vm_compute; reflexivity. Defined.

