(* ===== verification/AuthStore.v ===== *)
(** * Users, keys and sessions

    [common/src/state/auth_repository.cpp]: the tables of the controller that say
    who may come in, as they are declared in [sqlite_store.cpp].  A table with an
    AUTOINCREMENT id is its list of rows and the last id; a table with a text key
    is a map.  A statement that violates a UNIQUE, PRIMARY KEY or FOREIGN KEY
    constraint throws and changes nothing.  Times are SQL timestamps, compared as
    texts. *)

From S2P Require Import Prelude Planner AssignmentStore SchedulerStore RuntimeSupport.

(** ** Records *)

Record UserRecord := mkUserRecord {
  usr_id : Z;
  usr_username : string;
  usr_role : string;
  usr_password_hash : string;
  usr_created_at : string;
  usr_updated_at : string;
  usr_last_login_at : string;
}.

Record WebAuthnCredentialRecord := mkWebAuthnCredentialRecord {
  wac_id : Z;
  wac_user_id : Z;
  wac_credential_id : string;
  wac_public_key : string;
  wac_counter : Z;
  wac_transports_json : string;
  wac_created_at : string;
  wac_updated_at : string;
  wac_last_used_at : string;
}.

Record RegistrationInviteRecord := mkRegistrationInviteRecord {
  inv_id : Z;
  inv_token : string;
  inv_created_by_user_id : Z;
  inv_expires_at : string;
  inv_created_at : string;
  inv_used_by_user_id : option Z;
  inv_used_at : string;
  inv_revoked_at : string;
}.

Record UserSshKeyRecord := mkUserSshKeyRecord {
  key_id : Z;
  key_user_id : Z;
  key_label : string;
  key_public_key : string;
  key_fingerprint : string;
  key_created_at : string;
  key_revoked_at : string;
  key_last_used_at : string;
}.

Record AuthSessionRecord := mkAuthSessionRecord {
  ses_token : string;
  ses_user_id : Z;
  ses_session_kind : string;
  ses_plane_name : string;
  ses_expires_at : string;
  ses_created_at : string;
  ses_revoked_at : string;
  ses_last_used_at : string;
}.

Record SecuredConnectionUserRecord := mkSecuredConnectionUserRecord {
  scu_id : string;
  scu_name : string;
  scu_public_key : string;
  scu_fingerprint : string;
  scu_search_text : string;
  scu_last_authorized_at : string;
  scu_created_at : string;
  scu_updated_at : string;
  scu_revoked_at : string;
}.

Record SecuredConnectionSessionRecord := mkSecuredConnectionSessionRecord {
  scs_token : string;
  scs_user_id : string;
  scs_plane_name : string;
  scs_expires_at : string;
  scs_created_at : string;
  scs_revoked_at : string;
  scs_last_used_at : string;
}.

Record SecuredConnectionAuthLogRecord := mkSecuredConnectionAuthLogRecord {
  scl_id : Z;
  scl_plane_name : string;
  scl_user_id : string;
  scl_user_name : string;
  scl_fingerprint : string;
  scl_event_type : string;
  scl_outcome : string;
  scl_remote_addr : string;
  scl_message : string;
  scl_created_at : string;
  scl_payload_json : string;
}.

(** A table with an AUTOINCREMENT id. *)
Record NumberedRows (A : Type) := mkNumberedRows { nr_rows : list A; nr_sequence : Z }.
Arguments mkNumberedRows {_} _ _.
Arguments nr_rows {_} _.
Arguments nr_sequence {_} _.

Record AuthStore := mkAuthStore {
  as_users : NumberedRows UserRecord;
  as_credentials : NumberedRows WebAuthnCredentialRecord;
  as_invites : NumberedRows RegistrationInviteRecord;
  as_ssh_keys : NumberedRows UserSshKeyRecord;
  as_sessions : gmap string AuthSessionRecord;
  as_secured_users : gmap string SecuredConnectionUserRecord;
  as_secured_sessions : gmap string SecuredConnectionSessionRecord;
  as_auth_log : NumberedRows SecuredConnectionAuthLogRecord;
}.
Definition no_rows {A} : NumberedRows A := mkNumberedRows [] 0.
Definition empty_auth_store : AuthStore := mkAuthStore no_rows no_rows no_rows no_rows ∅ ∅ ∅ no_rows.

Definition as_with_users rows s :=
  mkAuthStore rows (as_credentials s) (as_invites s) (as_ssh_keys s) (as_sessions s) (as_secured_users s)
    (as_secured_sessions s) (as_auth_log s).
Definition as_with_credentials rows s :=
  mkAuthStore (as_users s) rows (as_invites s) (as_ssh_keys s) (as_sessions s) (as_secured_users s)
    (as_secured_sessions s) (as_auth_log s).
Definition as_with_invites rows s :=
  mkAuthStore (as_users s) (as_credentials s) rows (as_ssh_keys s) (as_sessions s) (as_secured_users s)
    (as_secured_sessions s) (as_auth_log s).
Definition as_with_ssh_keys rows s :=
  mkAuthStore (as_users s) (as_credentials s) (as_invites s) rows (as_sessions s) (as_secured_users s)
    (as_secured_sessions s) (as_auth_log s).
Definition as_with_sessions rows s :=
  mkAuthStore (as_users s) (as_credentials s) (as_invites s) (as_ssh_keys s) rows (as_secured_users s)
    (as_secured_sessions s) (as_auth_log s).
Definition as_with_secured_users rows s :=
  mkAuthStore (as_users s) (as_credentials s) (as_invites s) (as_ssh_keys s) (as_sessions s) rows
    (as_secured_sessions s) (as_auth_log s).
Definition as_with_secured_sessions rows s :=
  mkAuthStore (as_users s) (as_credentials s) (as_invites s) (as_ssh_keys s) (as_sessions s)
    (as_secured_users s) rows (as_auth_log s).
Definition as_with_auth_log rows s :=
  mkAuthStore (as_users s) (as_credentials s) (as_invites s) (as_ssh_keys s) (as_sessions s)
    (as_secured_users s) (as_secured_sessions s) rows.

(** ** SQL

    A bound text ends at its first NUL ([BindText] binds [value.c_str()]); an [int]
    column is read back at 32 bits. *)

Fixpoint c_str (s : string) : string :=
  match s with
  | EmptyString => ""
  | String c rest => if char_code c =? 0 then "" else String c (c_str rest)
  end.

(** [expires_at >= CURRENT_TIMESTAMP] *)
Definition not_expired (now : Z) (expires_at : string) : bool := negb (klt expires_at (UtcNowSqlTimestamp now)).

Definition unique_violation {A} (column : string) : result A :=
  Throw ("sqlite step failed: UNIQUE constraint failed: " +:+ column).
Definition foreign_key_violation {A} : result A :=
  Throw "sqlite step failed: FOREIGN KEY constraint failed".

(** [INSERT]: the row is built from its id. *)
Definition insert_row {A} (row : Z -> A) (t : NumberedRows A) : NumberedRows A :=
  let id := nr_sequence t + 1 in mkNumberedRows (nr_rows t ++ [row id]) id.

(** [UPDATE ... WHERE p], and whether a row changed. *)
Definition update_where {A} (p : A -> bool) (f : A -> A) (t : NumberedRows A) : NumberedRows A * bool :=
  (mkNumberedRows ((fun r => if p r then f r else r) <$> nr_rows t) (nr_sequence t), existsb p (nr_rows t)).

(** [UPDATE ... WHERE key = ?1 AND p] *)
Definition update_at {A} (key : string) (p : A -> bool) (f : A -> A) (m : gmap string A)
    : gmap string A * bool :=
  match m !! key with
  | Some r => if p r then (<[key := f r]> m, true) else (m, false)
  | None => (m, false)
  end.

(** ** Users *)

Definition LoadUserCount (s : AuthStore) : Z := Z.of_nat (length (nr_rows (as_users s))).
Definition LoadUserById (user_id : Z) (s : AuthStore) : option UserRecord :=
  find_if (fun u => usr_id u =? user_id) (nr_rows (as_users s)).
Definition LoadUserByUsername (username : string) (s : AuthStore) : option UserRecord :=
  find_if (fun u => usr_username u ==? c_str username) (nr_rows (as_users s)).
(** [ORDER BY id ASC] *)
Definition LoadUsers (s : AuthStore) : list UserRecord :=
  std_sort (fun l r => usr_id l <? usr_id r) (nr_rows (as_users s)).

(** [INSERT INTO users], under UNIQUE(username) and [idx_users_single_admin]. *)
Definition insert_user (now : Z) (username role password_hash : string) (s : AuthStore)
    : result (AuthStore * UserRecord) :=
  let rows := nr_rows (as_users s) in
  let stamp := UtcNowSqlTimestamp now in
  let row id := mkUserRecord id (c_str username) role (c_str password_hash) stamp stamp "" in
  if existsb (fun u => usr_username u ==? c_str username) rows then unique_violation "users.username"
  else if (role ==? "admin") && existsb (fun u => usr_role u ==? "admin") rows
  then unique_violation "users.role"
  else Ok (as_with_users (insert_row row (as_users s)) s, row (nr_sequence (as_users s) + 1)).

Definition CreateBootstrapAdmin (now : Z) (username password_hash : string) (s : AuthStore)
    : result (AuthStore * UserRecord) :=
  if LoadUserCount s !=? 0 then Throw "bootstrap admin can be created only when user base is empty"
  else insert_user now username "admin" password_hash s.

Definition redeemable (now : Z) (token : string) (i : RegistrationInviteRecord) : bool :=
  (inv_token i ==? c_str token) && str_empty (inv_revoked_at i) && str_empty (inv_used_at i) &&
  not_expired now (inv_expires_at i).
Definition invite_used (user_id : Z) (used_at : string) (i : RegistrationInviteRecord)
    : RegistrationInviteRecord :=
  mkRegistrationInviteRecord (inv_id i) (inv_token i) (inv_created_by_user_id i) (inv_expires_at i)
    (inv_created_at i) (Some user_id) used_at (inv_revoked_at i).

Definition CreateInvitedUser (now : Z) (invite_token username password_hash : string) (s : AuthStore)
    : result (AuthStore * UserRecord) :=
  match find_if (redeemable now invite_token) (nr_rows (as_invites s)) with
  | None => Throw "invite token is missing, expired, or already used"
  | Some invite =>
      '(s', user) ← insert_user now username "user" password_hash s;
      Ok (as_with_invites
            (update_where (fun i => inv_id i =? inv_id invite)
               (invite_used (usr_id user) (UtcNowSqlTimestamp now)) (as_invites s')).1 s', user)
  end.

Definition UpdateUserLastLoginAt (now user_id : Z) (last_login_at : string) (s : AuthStore) : AuthStore :=
  as_with_users
    (update_where (fun u => usr_id u =? user_id)
       (fun u => mkUserRecord (usr_id u) (usr_username u) (usr_role u) (usr_password_hash u)
                   (usr_created_at u) (UtcNowSqlTimestamp now) (c_str last_login_at)) (as_users s)).1 s.

(** ** WebAuthn credentials *)

Definition InsertWebAuthnCredential (now : Z) (credential : WebAuthnCredentialRecord) (s : AuthStore)
    : result AuthStore :=
  let stamp := UtcNowSqlTimestamp now in
  if existsb (fun c => wac_credential_id c ==? c_str (wac_credential_id credential))
       (nr_rows (as_credentials s))
  then unique_violation "webauthn_credentials.credential_id"
  else if has_value (LoadUserById (wac_user_id credential) s)
  then Ok (as_with_credentials
             (insert_row (fun id =>
                mkWebAuthnCredentialRecord id (wac_user_id credential)
                  (c_str (wac_credential_id credential)) (c_str (wac_public_key credential))
                  (uint32_wrap (int32_wrap (wac_counter credential)))
                  (c_str (wac_transports_json credential)) stamp stamp "") (as_credentials s)) s)
  else foreign_key_violation.

Definition UpdateWebAuthnCredentialCounter (now : Z) (credential_id : string) (counter : Z)
    (last_used_at : string) (s : AuthStore) : AuthStore :=
  as_with_credentials
    (update_where (fun c => wac_credential_id c ==? c_str credential_id)
       (fun c => mkWebAuthnCredentialRecord (wac_id c) (wac_user_id c) (wac_credential_id c)
                   (wac_public_key c) (uint32_wrap (int32_wrap counter)) (wac_transports_json c)
                   (wac_created_at c) (UtcNowSqlTimestamp now) (c_str last_used_at))
       (as_credentials s)).1 s.

(** [ORDER BY id ASC] *)
Definition LoadWebAuthnCredentialsForUser (user_id : Z) (s : AuthStore) : list WebAuthnCredentialRecord :=
  std_sort (fun l r => wac_id l <? wac_id r)
    (List.filter (fun c => wac_user_id c =? user_id) (nr_rows (as_credentials s))).
Definition LoadWebAuthnCredentialById (credential_id : string) (s : AuthStore)
    : option WebAuthnCredentialRecord :=
  find_if (fun c => wac_credential_id c ==? c_str credential_id) (nr_rows (as_credentials s)).

(** ** Invites *)

Definition LoadRegistrationInviteByToken (token : string) (s : AuthStore)
    : option RegistrationInviteRecord :=
  find_if (fun i => inv_token i ==? c_str token) (nr_rows (as_invites s)).

Definition CreateRegistrationInvite (now created_by_user_id : Z) (token expires_at : string)
    (s : AuthStore) : result (AuthStore * RegistrationInviteRecord) :=
  let row id := mkRegistrationInviteRecord id (c_str token) created_by_user_id (c_str expires_at)
                  (UtcNowSqlTimestamp now) None "" "" in
  if has_value (LoadRegistrationInviteByToken token s) then unique_violation "registration_invites.token"
  else if has_value (LoadUserById created_by_user_id s)
  then Ok (as_with_invites (insert_row row (as_invites s)) s, row (nr_sequence (as_invites s) + 1))
  else foreign_key_violation.

(** [ORDER BY created_at DESC, id DESC] *)
Definition LoadActiveRegistrationInvites (now : Z) (s : AuthStore) : list RegistrationInviteRecord :=
  std_sort (fun l r => klt (inv_created_at r) (inv_created_at l) ||
                       ((inv_created_at l ==? inv_created_at r) && (inv_id r <? inv_id l)))
    (List.filter (fun i => str_empty (inv_revoked_at i) && str_empty (inv_used_at i) &&
                           not_expired now (inv_expires_at i)) (nr_rows (as_invites s))).

Definition MarkRegistrationInviteUsed (now : Z) (token : string) (used_by_user_id : Z) (used_at : string)
    (s : AuthStore) : result (AuthStore * bool) :=
  let '(rows, changed) :=
    update_where (redeemable now token) (invite_used used_by_user_id (c_str used_at)) (as_invites s) in
  if changed && negb (has_value (LoadUserById used_by_user_id s)) then foreign_key_violation
  else Ok (as_with_invites rows s, changed).

Definition RevokeRegistrationInvite (invite_id : Z) (revoked_at : string) (s : AuthStore)
    : AuthStore * bool :=
  let '(rows, changed) :=
    update_where (fun i => (inv_id i =? invite_id) && str_empty (inv_revoked_at i) &&
                           str_empty (inv_used_at i))
      (fun i => mkRegistrationInviteRecord (inv_id i) (inv_token i) (inv_created_by_user_id i)
                  (inv_expires_at i) (inv_created_at i) (inv_used_by_user_id i) (inv_used_at i)
                  (c_str revoked_at)) (as_invites s) in
  (as_with_invites rows s, changed).

(** ** SSH keys *)

Definition InsertUserSshKey (now : Z) (ssh_key : UserSshKeyRecord) (s : AuthStore) : result AuthStore :=
  if existsb (fun k => (key_user_id k =? key_user_id ssh_key) &&
                       (key_fingerprint k ==? c_str (key_fingerprint ssh_key))) (nr_rows (as_ssh_keys s))
  then unique_violation "user_ssh_keys.user_id, user_ssh_keys.fingerprint"
  else if has_value (LoadUserById (key_user_id ssh_key) s)
  then Ok (as_with_ssh_keys
             (insert_row (fun id =>
                mkUserSshKeyRecord id (key_user_id ssh_key) (c_str (key_label ssh_key))
                  (c_str (key_public_key ssh_key)) (c_str (key_fingerprint ssh_key))
                  (UtcNowSqlTimestamp now) "" "") (as_ssh_keys s)) s)
  else foreign_key_violation.

(** [ORDER BY id ASC] *)
Definition LoadActiveUserSshKeys (user_id : Z) (s : AuthStore) : list UserSshKeyRecord :=
  std_sort (fun l r => key_id l <? key_id r)
    (List.filter (fun k => (key_user_id k =? user_id) && str_empty (key_revoked_at k))
       (nr_rows (as_ssh_keys s))).
Definition LoadActiveUserSshKeyByFingerprint (user_id : Z) (fingerprint : string) (s : AuthStore)
    : option UserSshKeyRecord :=
  find_if (fun k => (key_user_id k =? user_id) && (key_fingerprint k ==? c_str fingerprint) &&
                    str_empty (key_revoked_at k)) (nr_rows (as_ssh_keys s)).
Definition LoadActiveUserSshKeyById (ssh_key_id : Z) (s : AuthStore) : option UserSshKeyRecord :=
  find_if (fun k => (key_id k =? ssh_key_id) && str_empty (key_revoked_at k)) (nr_rows (as_ssh_keys s)).

Definition RevokeUserSshKey (ssh_key_id : Z) (revoked_at : string) (s : AuthStore) : AuthStore * bool :=
  let '(rows, changed) :=
    update_where (fun k => (key_id k =? ssh_key_id) && str_empty (key_revoked_at k))
      (fun k => mkUserSshKeyRecord (key_id k) (key_user_id k) (key_label k) (key_public_key k)
                  (key_fingerprint k) (key_created_at k) (c_str revoked_at) (key_last_used_at k))
      (as_ssh_keys s) in
  (as_with_ssh_keys rows s, changed).
Definition TouchUserSshKey (ssh_key_id : Z) (last_used_at : string) (s : AuthStore) : AuthStore :=
  as_with_ssh_keys
    (update_where (fun k => key_id k =? ssh_key_id)
       (fun k => mkUserSshKeyRecord (key_id k) (key_user_id k) (key_label k) (key_public_key k)
                   (key_fingerprint k) (key_created_at k) (key_revoked_at k) (c_str last_used_at))
       (as_ssh_keys s)).1 s.

(** ** Sessions *)

Definition InsertAuthSession (now : Z) (session : AuthSessionRecord) (s : AuthStore) : result AuthStore :=
  let token := c_str (ses_token session) in
  match as_sessions s !! token with
  | Some _ => unique_violation "auth_sessions.token"
  | None =>
      if has_value (LoadUserById (ses_user_id session) s)
      then Ok (as_with_sessions
                 (<[token := mkAuthSessionRecord token (ses_user_id session)
                               (c_str (ses_session_kind session)) (c_str (ses_plane_name session))
                               (c_str (ses_expires_at session)) (UtcNowSqlTimestamp now) ""
                               (c_str (ses_last_used_at session))]> (as_sessions s)) s)
      else foreign_key_violation
  end.

Definition session_matches (now : Z) (session_kind plane_name : option string) (r : AuthSessionRecord)
    : bool :=
  str_empty (ses_revoked_at r) && not_expired now (ses_expires_at r) &&
  matches (c_str <$> session_kind) (ses_session_kind r) &&
  matches (c_str <$> plane_name) (ses_plane_name r).
Definition LoadActiveAuthSession (now : Z) (token : string) (session_kind plane_name : option string)
    (s : AuthStore) : option AuthSessionRecord :=
  match as_sessions s !! c_str token with
  | Some r => if session_matches now session_kind plane_name r then Some r else None
  | None => None
  end.

Definition RevokeAuthSession (token revoked_at : string) (s : AuthStore) : AuthStore * bool :=
  let '(m, changed) :=
    update_at (c_str token) (fun r => str_empty (ses_revoked_at r))
      (fun r => mkAuthSessionRecord (ses_token r) (ses_user_id r) (ses_session_kind r) (ses_plane_name r)
                  (ses_expires_at r) (ses_created_at r) (c_str revoked_at) (ses_last_used_at r))
      (as_sessions s) in
  (as_with_sessions m s, changed).
Definition TouchAuthSession (token last_used_at : string) (s : AuthStore) : AuthStore * bool :=
  let '(m, changed) :=
    update_at (c_str token) (fun _ => true)
      (fun r => mkAuthSessionRecord (ses_token r) (ses_user_id r) (ses_session_kind r) (ses_plane_name r)
                  (ses_expires_at r) (ses_created_at r) (ses_revoked_at r) (c_str last_used_at))
      (as_sessions s) in
  (as_with_sessions m s, changed).

(** ** Users of secured connections *)

(** [INSERT ... ON CONFLICT(id) DO UPDATE], under UNIQUE(name) and UNIQUE(fingerprint). *)
Definition UpsertSecuredConnectionUser (now : Z) (user : SecuredConnectionUserRecord) (s : AuthStore)
    : result AuthStore :=
  let id := c_str (scu_id user) in
  let stamp := UtcNowSqlTimestamp now in
  let others := (map_items (delete id (as_secured_users s))).*2 in
  let row last_authorized_at created_at :=
    mkSecuredConnectionUserRecord id (c_str (scu_name user)) (c_str (scu_public_key user))
      (c_str (scu_fingerprint user)) (c_str (scu_search_text user)) last_authorized_at created_at stamp
      (c_str (scu_revoked_at user)) in
  let next := match as_secured_users s !! id with
              | Some old => row (scu_last_authorized_at old) (scu_created_at old)
              | None => row (c_str (scu_last_authorized_at user)) stamp
              end in
  if existsb (fun u => scu_name u ==? scu_name next) others
  then unique_violation "secured_connection_users.name"
  else if existsb (fun u => scu_fingerprint u ==? scu_fingerprint next) others
  then unique_violation "secured_connection_users.fingerprint"
  else Ok (as_with_secured_users (<[id := next]> (as_secured_users s)) s).

Definition LoadActiveSecuredConnectionUser (user_id : string) (s : AuthStore)
    : option SecuredConnectionUserRecord :=
  match as_secured_users s !! c_str user_id with
  | Some u => if str_empty (scu_revoked_at u) then Some u else None
  | None => None
  end.
Definition LoadActiveSecuredConnectionUserByNameAndFingerprint (name fingerprint : string) (s : AuthStore)
    : option SecuredConnectionUserRecord :=
  find_if (fun u => (scu_name u ==? c_str name) && (scu_fingerprint u ==? c_str fingerprint) &&
                    str_empty (scu_revoked_at u)) (map_items (as_secured_users s)).*2.
Definition LoadActiveSecuredConnectionUserByFingerprint (fingerprint : string) (s : AuthStore)
    : option SecuredConnectionUserRecord :=
  find_if (fun u => (scu_fingerprint u ==? c_str fingerprint) && str_empty (scu_revoked_at u))
    (map_items (as_secured_users s)).*2.

(** SQLite's [LIKE] on lowered texts: [%] is any text and [_] one UTF-8 character. *)
Fixpoint skip_continuation (s : string) : string :=
  match s with
  | String c rest => if Z.land (char_code c) 192 =? 128 then skip_continuation rest else s
  | EmptyString => s
  end.
Definition skip_utf8 (c : Ascii.ascii) (rest : string) : string :=
  if 192 <=? char_code c then skip_continuation rest else rest.
Fixpoint like_any (rest_matches : string -> bool) (s : string) : bool :=
  rest_matches s || match s with EmptyString => false | String _ rest => like_any rest_matches rest end.
Fixpoint like (pattern : string) : string -> bool :=
  match pattern with
  | EmptyString => str_empty
  | String p rest =>
      if (p ==? "%"%char) then like_any (like rest)
      else fun s =>
        match s with
        | EmptyString => false
        | String c s' => if p ==? "_"%char then like rest (skip_utf8 c s') else (p ==? c) && like rest s'
        end
  end.

Definition secured_user_text (u : SecuredConnectionUserRecord) : string :=
  scu_id u +:+ " " +:+ scu_name u +:+ " " +:+ scu_public_key u +:+ " " +:+ scu_fingerprint u +:+ " " +:+
  scu_search_text u +:+ " " +:+ scu_last_authorized_at u +:+ " " +:+ scu_created_at u +:+ " " +:+
  scu_updated_at u.
Definition secured_user_before (l r : SecuredConnectionUserRecord) : bool :=
  klt (scu_name l) (scu_name r) ||
  ((scu_name l ==? scu_name r) &&
   (klt (scu_created_at l) (scu_created_at r) ||
    ((scu_created_at l ==? scu_created_at r) && klt (scu_id l) (scu_id r)))).
(** [ORDER BY name ASC, created_at ASC, id ASC] *)
Definition LoadSecuredConnectionUsers (search : option string) (include_revoked : bool) (s : AuthStore)
    : list SecuredConnectionUserRecord :=
  std_sort secured_user_before
    (List.filter
       (fun u => (include_revoked || str_empty (scu_revoked_at u)) &&
                 match search with
                 | Some text =>
                     str_empty text || like (lower (c_str ("%" +:+ text +:+ "%"))) (lower (secured_user_text u))
                 | None => true
                 end)
       (map_items (as_secured_users s)).*2).

Definition RevokeSecuredConnectionUser (now : Z) (user_id revoked_at : string) (s : AuthStore)
    : AuthStore * bool :=
  let '(m, changed) :=
    update_at (c_str user_id) (fun u => str_empty (scu_revoked_at u))
      (fun u => mkSecuredConnectionUserRecord (scu_id u) (scu_name u) (scu_public_key u)
                  (scu_fingerprint u) (scu_search_text u) (scu_last_authorized_at u) (scu_created_at u)
                  (UtcNowSqlTimestamp now) (c_str revoked_at)) (as_secured_users s) in
  (as_with_secured_users m s, changed).
Definition TouchSecuredConnectionUser (now : Z) (user_id last_authorized_at : string) (s : AuthStore)
    : AuthStore :=
  as_with_secured_users
    (update_at (c_str user_id) (fun _ => true)
       (fun u => mkSecuredConnectionUserRecord (scu_id u) (scu_name u) (scu_public_key u)
                   (scu_fingerprint u) (scu_search_text u) (c_str last_authorized_at) (scu_created_at u)
                   (UtcNowSqlTimestamp now) (scu_revoked_at u)) (as_secured_users s)).1 s.

Definition InsertSecuredConnectionSession (now : Z) (session : SecuredConnectionSessionRecord)
    (s : AuthStore) : result AuthStore :=
  let token := c_str (scs_token session) in
  match as_secured_sessions s !! token with
  | Some _ => unique_violation "secured_connection_sessions.token"
  | None =>
      match as_secured_users s !! c_str (scs_user_id session) with
      | None => foreign_key_violation
      | Some _ =>
          Ok (as_with_secured_sessions
                (<[token := mkSecuredConnectionSessionRecord token (c_str (scs_user_id session))
                              (c_str (scs_plane_name session)) (c_str (scs_expires_at session))
                              (UtcNowSqlTimestamp now) "" (c_str (scs_last_used_at session))]>
                   (as_secured_sessions s)) s)
      end
  end.
Definition LoadActiveSecuredConnectionSession (now : Z) (token plane_name : string) (s : AuthStore)
    : option SecuredConnectionSessionRecord :=
  match as_secured_sessions s !! c_str token with
  | Some r =>
      if (scs_plane_name r ==? c_str plane_name) && str_empty (scs_revoked_at r) &&
         not_expired now (scs_expires_at r) then Some r else None
  | None => None
  end.
Definition TouchSecuredConnectionSession (token last_used_at : string) (s : AuthStore)
    : AuthStore * bool :=
  let '(m, changed) :=
    update_at (c_str token) (fun _ => true)
      (fun r => mkSecuredConnectionSessionRecord (scs_token r) (scs_user_id r) (scs_plane_name r)
                  (scs_expires_at r) (scs_created_at r) (scs_revoked_at r) (c_str last_used_at))
      (as_secured_sessions s) in
  (as_with_secured_sessions m s, changed).

Definition InsertSecuredConnectionAuthLog (now : Z) (log : SecuredConnectionAuthLogRecord) (s : AuthStore)
    : AuthStore :=
  as_with_auth_log
    (insert_row (fun id =>
       mkSecuredConnectionAuthLogRecord id (c_str (scl_plane_name log)) (c_str (scl_user_id log))
         (c_str (scl_user_name log)) (c_str (scl_fingerprint log)) (c_str (scl_event_type log))
         (c_str (scl_outcome log)) (c_str (scl_remote_addr log)) (c_str (scl_message log))
         (UtcNowSqlTimestamp now)
         (c_str (if str_empty (scl_payload_json log) then "{}" else scl_payload_json log)))
       (as_auth_log s)) s.
(** [ORDER BY created_at DESC, id DESC LIMIT ?] *)
Definition LoadSecuredConnectionAuthLog (plane_name user_id : option string) (limit : Z) (s : AuthStore)
    : list SecuredConnectionAuthLogRecord :=
  let chosen filter_text value :=
    match filter_text with Some t => str_empty t || (value ==? c_str t) | None => true end in
  take (Z.to_nat (if limit <=? 0 then 100 else limit))
    (std_sort (fun l r => klt (scl_created_at r) (scl_created_at l) ||
                          ((scl_created_at l ==? scl_created_at r) && (scl_id r <? scl_id l)))
       (List.filter (fun l => chosen plane_name (scl_plane_name l) && chosen user_id (scl_user_id l))
          (nr_rows (as_auth_log s)))).

(** * Invariants of the tables *)

(** What identifies a user or an invitation: the rest is bookkeeping. *)
Definition user_view (s : AuthStore) : list (Z * string * string) :=
  (fun u => (usr_id u, usr_username u, usr_role u)) <$> nr_rows (as_users s).
Definition invite_view (s : AuthStore) : list (Z * string * option Z) :=
  (fun i => (inv_id i, inv_token i, inv_used_by_user_id i)) <$> nr_rows (as_invites s).

Definition ids_with_role (role : string) (users : list (Z * string * string)) : list Z :=
  omap (fun u => if u.2 ==? role then Some u.1.1 else None) users.

Record auth_ok (s : AuthStore) : Prop := {
  ok_user_sequence : 0 <= nr_sequence (as_users s);
  ok_user_ids : Forall (fun id => 1 <= id <= nr_sequence (as_users s)) ((user_view s).*1).*1;
  ok_user_ids_distinct : NoDup ((user_view s).*1).*1;
  ok_usernames_distinct : NoDup ((user_view s).*1).*2;
  ok_single_admin : (length (ids_with_role "admin" (user_view s)) <= 1)%nat;
  ok_roles : Forall (fun u => u.2 = "admin" \/ u.2 = "user") (user_view s);
  ok_invite_sequence : 0 <= nr_sequence (as_invites s);
  ok_invite_ids : Forall (fun id => 1 <= id <= nr_sequence (as_invites s)) ((invite_view s).*1).*1;
  ok_invite_ids_distinct : NoDup ((invite_view s).*1).*1;
  ok_invite_tokens_distinct : NoDup ((invite_view s).*1).*2;
  (** Every user but the administrator has redeemed an invitation of its own. *)
  ok_redeemed : omap snd (invite_view s) ≡ₚ ids_with_role "user" (user_view s);
  (** A used invitation names its user. *)
  ok_used : Forall (fun i => str_empty (inv_used_at i) = negb (has_value (inv_used_by_user_id i)))
              (nr_rows (as_invites s));
  ok_key_sequence : 0 <= nr_sequence (as_ssh_keys s);
  ok_key_ids : Forall (fun id => 1 <= id <= nr_sequence (as_ssh_keys s)) (key_id <$> nr_rows (as_ssh_keys s));
  ok_key_ids_distinct : NoDup (key_id <$> nr_rows (as_ssh_keys s));
}.
Lemma update_where_view {A B} (g : A -> B) p f (t : NumberedRows A) :
  (forall r, g (f r) = g r) -> g <$> nr_rows (update_where p f t).1 = g <$> nr_rows t.
Proof.
  intros Hg. cbn [update_where fst nr_rows]. rewrite <-list_fmap_compose. apply list_fmap_ext. intros i r _. cbn.
  by destruct (p r).
Qed.

(** Operations that only write bookkeeping columns of users and invitations. *)
Record same_identities (s s' : AuthStore) : Prop := {
  same_users : user_view s' = user_view s;
  same_user_sequence : nr_sequence (as_users s') = nr_sequence (as_users s);
  same_invites : as_invites s' = as_invites s;
  same_keys : key_id <$> nr_rows (as_ssh_keys s') = key_id <$> nr_rows (as_ssh_keys s);
  same_key_sequence : nr_sequence (as_ssh_keys s') = nr_sequence (as_ssh_keys s);
}.
#[export] Instance same_identities_refl : Reflexive same_identities.
Proof. done. Qed.
Lemma same_identities_ok s s' : same_identities s s' -> auth_ok s -> auth_ok s'.
Proof.
  intros [Hu Hus Hi Hk Hks] [H1 H2 H3 H4 H5 H6 H7 H8 H9 H10 H11 H12 H13 H14 H15].
  assert (invite_view s' = invite_view s) as Hv by (unfold invite_view; by rewrite Hi).
  constructor; rewrite ?Hu, ?Hus, ?Hv, ?Hi, ?Hk, ?Hks; done.
Qed.

Lemma empty_auth_ok : auth_ok empty_auth_store.
Proof. constructor; cbn; try constructor; lia. Qed.

(** ** Users *)

Lemma LoadUserCount_zero s : LoadUserCount s = 0 <-> nr_rows (as_users s) = [].
Proof. unfold LoadUserCount. destruct (nr_rows _); cbn; split; intros; try done; lia. Qed.

Lemma insert_user_ok now username role password_hash s s' user :
  insert_user now username role password_hash s = Ok (s', user) ->
  let id := nr_sequence (as_users s) + 1 in
  usr_id user = id /\ usr_role user = role /\ usr_username user = c_str username /\
  user_view s' = user_view s ++ [(id, c_str username, role)] /\ nr_sequence (as_users s') = id /\
  as_invites s' = as_invites s /\ as_sessions s' = as_sessions s /\ as_secured_users s' = as_secured_users s /\
  as_secured_sessions s' = as_secured_sessions s /\ as_ssh_keys s' = as_ssh_keys s /\
  c_str username ∉ ((user_view s).*1).*2 /\
  (role = "admin" -> ids_with_role "admin" (user_view s) = []).
Proof.
  unfold insert_user. cbv zeta. destruct (existsb _ (nr_rows (as_users s))) eqn:Hname; [done|].
  destruct (_ && _) eqn:Hadmin; [done|]. intros [= <- <-]. cbn. repeat split.
  - unfold user_view. cbn. by rewrite fmap_app.
  - intros Hin. apply list_elem_of_fmap in Hin as ([i n] & Hn & Hin). cbn in Hn. subst n.
    apply list_elem_of_fmap in Hin as ([[i' n'] r'] & Heq & Hin). cbn in Heq. injection Heq as -> <-.
    apply list_elem_of_fmap in Hin as (u & Hu & Hin). injection Hu as -> Hu ->. apply list_elem_of_In in Hin.
    assert (existsb (fun u => usr_username u ==? c_str username) (nr_rows (as_users s)) = true) as Hc; [|congruence].
    apply existsb_exists. exists u. split; [done|]. by rewrite eqb_true.
  - intros ->. rewrite eqb_refl in Hadmin. cbn in Hadmin. unfold ids_with_role, user_view.
    induction (nr_rows (as_users s)) as [|u l IH]; [done|]. cbn in Hadmin. apply orb_false_iff in Hadmin as [Hu Hl].
    cbn -[eqb]. rewrite Hu. by apply IH; [cbn in Hname; apply orb_false_iff in Hname as []|].
Qed.

Lemma ids_with_role_app role l l' : ids_with_role role (l ++ l') = ids_with_role role l ++ ids_with_role role l'.
Proof. apply omap_app. Qed.

Lemma fresh_id_not_in s : auth_ok s -> nr_sequence (as_users s) + 1 ∉ ((user_view s).*1).*1.
Proof.
  intros Hok Hin. pose proof (ok_user_ids s Hok) as Hids. rewrite Forall_forall in Hids. apply Hids in Hin. lia.
Qed.

(** A row of [users] added with a fresh name, and what it redeems. *)
Lemma user_added_ok s s' name role used :
  auth_ok s -> as_ssh_keys s' = as_ssh_keys s -> (role = "admin" \/ role = "user") ->
  user_view s' = user_view s ++ [(nr_sequence (as_users s) + 1, name, role)] ->
  nr_sequence (as_users s') = nr_sequence (as_users s) + 1 -> name ∉ ((user_view s).*1).*2 ->
  (role = "admin" -> ids_with_role "admin" (user_view s) = []) ->
  (invite_view s').*1 = (invite_view s).*1 -> nr_sequence (as_invites s') = nr_sequence (as_invites s) ->
  omap snd (invite_view s') ≡ₚ used ++ omap snd (invite_view s) ->
  used = (if role ==? "user" then [nr_sequence (as_users s) + 1] else []) ->
  Forall (fun i => str_empty (inv_used_at i) = negb (has_value (inv_used_by_user_id i))) (nr_rows (as_invites s')) ->
  auth_ok s'.
Proof.
  intros Hok Hkeys Hrole Hview Hseq Hname Hadmin Hinv Hiseq Hused -> Hmarks. pose proof (fresh_id_not_in s Hok) as Hfresh.
  destruct Hok as [H1 H2 H3 H4 H5 H6 H7 H8 H9 H10 H11 H12 H13 H14 H15].
  constructor; rewrite ?Hview, ?Hseq, ?Hinv, ?Hiseq, ?Hkeys, ?fmap_app; try done; try lia.
  - apply Forall_app. split; [eapply Forall_impl; [exact H2|]; cbn; lia|]. constructor; [|done]. cbn. lia.
  - apply NoDup_app. repeat split; [done| |apply NoDup_singleton].
    intros x Hx ->%list_elem_of_singleton. done.
  - apply NoDup_app. repeat split; [done| |apply NoDup_singleton].
    intros x Hx ->%list_elem_of_singleton. done.
  - rewrite ids_with_role_app, length_app. cbn -[eqb]. destruct (role ==? "admin") eqn:Er.
    + rewrite eqb_true in Er. rewrite (Hadmin Er). cbn. lia.
    + cbn. lia.
  - apply Forall_app. split; [done|]. by constructor.
  - rewrite Hused, ids_with_role_app, H11. cbn -[eqb]. destruct (role ==? "user"); cbn.
    + by rewrite Permutation_app_comm.
    + by rewrite app_nil_r.
Qed.

Lemma CreateBootstrapAdmin_ok now username password_hash s s' user :
  auth_ok s -> CreateBootstrapAdmin now username password_hash s = Ok (s', user) ->
  auth_ok s' /\ usr_role user = "admin" /\ user_view s = [].
Proof.
  intros Hok. unfold CreateBootstrapAdmin. destruct (LoadUserCount s !=? 0) eqn:Hc; [done|].
  intros (Hid & Hrole & Hname & Hview & Hseq & Hinv & _ & _ & _ & Hkeys & Hfresh & Hadmin)%insert_user_ok.
  apply negb_false_iff in Hc. rewrite eqb_true in Hc. apply LoadUserCount_zero in Hc.
  assert (user_view s = []) as Hnone by (unfold user_view; by rewrite Hc).
  split; [|done]. assert (invite_view s' = invite_view s) as Hiv by (unfold invite_view; by rewrite Hinv).
  eapply (user_added_ok s s' _ "admin" []); rewrite ?Hiv, ?Hinv; try done; [by left|by apply ok_used].
Qed.

(** ** Invitations *)

Lemma update_where_ids {A} (g : A -> Z) id f (rows : list A) r :
  (forall x, g (f x) = g x) -> NoDup (g <$> rows) -> r ∈ rows -> g r = id ->
  exists l1 l2, rows = l1 ++ r :: l2 /\
    (fun x => if g x =? id then f x else x) <$> rows = l1 ++ f r :: l2.
Proof.
  intros Hg Hnd Hin Hid. apply list_elem_of_split in Hin as (l1 & l2 & ->). exists l1, l2. split; [done|].
  rewrite fmap_app in Hnd. apply NoDup_app in Hnd as (_ & Hdis & Hnd2). cbn in Hnd2. apply NoDup_cons in Hnd2 as [Hn2 _].
  assert (Hsame : forall l : list A, id ∉ g <$> l -> (fun x => if g x =? id then f x else x) <$> l = l).
  { intros l Hl. rewrite <-(list_fmap_id l) at 2. apply list_fmap_ext. intros i x Hx. apply list_elem_of_lookup_2 in Hx.
    destruct (Z.eqb_spec (g x) id) as [He|]; [|done]. destruct Hl. rewrite <-He. by apply list_elem_of_fmap_2. }
  rewrite fmap_app, fmap_cons, Hid, Z.eqb_refl. f_equal; [|f_equal]; apply Hsame.
  - intros H. apply (Hdis id H). cbn. rewrite Hid. by left.
  - by rewrite <-Hid.
Qed.

Lemma CreateInvitedUser_ok now invite_token username password_hash s s' user :
  auth_ok s -> CreateInvitedUser now invite_token username password_hash s = Ok (s', user) ->
  auth_ok s' /\ usr_role user = "user" /\
  exists invite, invite ∈ nr_rows (as_invites s) /\ redeemable now invite_token invite = true.
Proof.
  intros Hok. unfold CreateInvitedUser.
  destruct (find_if _ _) as [invite|] eqn:Hfind; [|done]. apply find_if_Some in Hfind as [Hred Hin].
  destruct (insert_user now username "user" password_hash s) as [[s1 user1]|] eqn:E; [|done]. cbn [mbind result_bind]. intros [= <- <-].
  apply insert_user_ok in E as (Hid & Hrole & Hname & Hview & Hseq & Hinv & _ & _ & _ & Hkeys & Hfresh & Hadmin).
  split; [|by eauto]. rewrite Hinv.
  assert (Hnone : inv_used_by_user_id invite = None).
  { pose proof (ok_used s Hok) as Hu. rewrite Forall_forall in Hu. specialize (Hu _ Hin).
    unfold redeemable in Hred. destruct (inv_used_by_user_id invite); [|done]. cbn in Hu. rewrite Hu in Hred.
    by rewrite andb_false_r in Hred. }
  pose proof (ok_invite_ids_distinct s Hok) as Hnd.
  assert (((invite_view s).*1).*1 = inv_id <$> nr_rows (as_invites s)) as Hids.
  { unfold invite_view. by rewrite <-!list_fmap_compose. }
  rewrite Hids in Hnd.
  set (f := invite_used (usr_id user1) (UtcNowSqlTimestamp now)).
  destruct (update_where_ids inv_id (inv_id invite) f (nr_rows (as_invites s)) invite) as (l1 & l2 & Hrows & Hupd); [done..|].
  match goal with |- auth_ok (as_with_invites ?u _) => set (updated := u) end.
  assert (nr_rows updated = l1 ++ f invite :: l2) as Hnew by exact Hupd.
  eapply (user_added_ok s _ (c_str username) "user" [nr_sequence (as_users s) + 1]); try done; [by right| | |].
  - unfold invite_view. cbn [as_with_invites as_invites]. rewrite Hnew, Hrows, !fmap_app. done.
  - unfold invite_view. cbn [as_with_invites as_invites]. rewrite Hnew, Hrows, !fmap_app, !omap_app. cbn. rewrite Hnone, Hid. by rewrite Permutation_middle.
  - cbn [as_with_invites as_invites]. rewrite Hnew. pose proof (ok_used s Hok) as Hu.
    rewrite Hrows in Hu. apply Forall_app in Hu as [Hu1 [_ Hu2]%Forall_cons]. apply Forall_app. split; [done|].
    constructor; [|done]. cbn [invite_used inv_used_at inv_used_by_user_id has_value negb].
    unfold UtcNowSqlTimestamp. by destruct (civil_from_days (now / 86400)) as [[? ?] ?].
Qed.

Lemma CreateRegistrationInvite_ok now created_by token expires_at s s' invite :
  auth_ok s -> CreateRegistrationInvite now created_by token expires_at s = Ok (s', invite) -> auth_ok s'.
Proof.
  intros Hok. unfold CreateRegistrationInvite. destruct (LoadRegistrationInviteByToken token s) eqn:Hl; [done|].
  cbn [has_value]. destruct (has_value _); [|done]. intros [= <- _].
  unfold LoadRegistrationInviteByToken in Hl. rewrite find_if_None in Hl.
  destruct Hok as [H1 H2 H3 H4 H5 H6 H7 H8 H9 H10 H11 H12 H13 H14 H15].
  constructor; cbn -[eqb user_view]; try done; try lia; unfold invite_view; cbn [as_invites as_with_invites insert_row nr_rows];
    rewrite ?fmap_app.
  - apply Forall_app. split; [eapply Forall_impl; [exact H8|]; cbn; lia|]. constructor; [|done]. cbn. lia.
  - apply NoDup_app. repeat split; [done| |apply NoDup_singleton]. intros x Hx ->%list_elem_of_singleton.
    rewrite Forall_forall in H8. apply H8 in Hx. cbn in Hx. lia.
  - apply NoDup_app. repeat split; [done| |apply NoDup_singleton]. intros x Hx ->%list_elem_of_singleton. cbn in Hx.
    rewrite <-!list_fmap_compose in Hx. apply list_elem_of_fmap in Hx as (i & Hi & Hin). apply Hl in Hin.
    rewrite eqb_false in Hin. cbn in Hi. congruence.
  - rewrite omap_app. cbn. by rewrite app_nil_r.
  - apply Forall_app. split; [done|]. by constructor.
Qed.

Lemma RevokeRegistrationInvite_ok invite_id revoked_at s :
  auth_ok s -> auth_ok (RevokeRegistrationInvite invite_id revoked_at s).1.
Proof.
  intros [H1 H2 H3 H4 H5 H6 H7 H8 H9 H10 H11 H12 H13 H14 H15]. unfold RevokeRegistrationInvite.
  match goal with |- context [update_where ?p ?f ?t] =>
    set (P := p); set (F := f); change (auth_ok (as_with_invites (update_where P F t).1 s)) end.
  assert (invite_view (as_with_invites (update_where P F (as_invites s)).1 s) = invite_view s) as Hv.
  { unfold invite_view. by apply update_where_view. }
  constructor; rewrite ?Hv; try done. cbn. rewrite Forall_fmap. eapply Forall_impl; [exact H12|].
  intros i Hi. cbn. by destruct (P i).
Qed.

Lemma InsertUserSshKey_ok now ssh_key s s' : auth_ok s -> InsertUserSshKey now ssh_key s = Ok s' -> auth_ok s'.
Proof.
  intros [H1 H2 H3 H4 H5 H6 H7 H8 H9 H10 H11 H12 H13 H14 H15]. unfold InsertUserSshKey.
  destruct (existsb _ _); [done|]. destruct (has_value _); [|done]. intros [= <-].
  constructor; try done; cbn; try lia; rewrite ?fmap_app.
  - apply Forall_app. split; [eapply Forall_impl; [exact H14|]; cbn; lia|]. constructor; [|done]. cbn. lia.
  - apply NoDup_app. repeat split; [done| |apply NoDup_singleton]. intros x Hx ->%list_elem_of_singleton.
    rewrite Forall_forall in H14. apply H14 in Hx. cbn in Hx. lia.
Qed.
