(* ===== verification/AuthSupport.v ===== *)
(** * Sessions, cookies and challenges

    [controller/src/auth/auth_support_service.cpp], [auth_payload_service.cpp], the
    flows of [auth_pending_flows.h] and [BuildJsonResponse] of
    [app/controller_composition_support.cpp].  A request is handled at one instant
    [now].  The state is the store, the two maps of pending flows and the number of
    random values drawn.  libsodium and [ssh-keygen] are arguments: the [n]-th random
    token, the [n]-th password hash, and the exit code (and output) of the two
    commands as functions of the files they are given. *)

From S2P Require Import Prelude Json Models Planner AssignmentStore RuntimeSupport InteractionText InteractionStream ModelAdapter WebAuthn AuthStore.

(** ** Requests and responses *)

Record HttpRequest := mkHttpRequest {
  req_method : string;
  req_path : string;
  req_headers : gmap string string;
  req_query_params : gmap string string;
  req_body : string;
}.

(** [std::string] operations on the bytes of a text. *)
Definition LowercaseString (s : string) : string := lower s.
Definition is_blank_char (c : Ascii.ascii) : bool :=
  let n := char_code c in (n =? 32) || (n =? 9) || (n =? 13) || (n =? 10).
Fixpoint drop_blanks (s : text) : text :=
  match s with c :: s' => if is_blank_char c then drop_blanks s' else s | [] => [] end.
(** [TrimCopy] of the file: blanks are spaces, tabs and line ends. *)
Definition TrimBlanks (s : text) : text := rev (drop_blanks (rev (drop_blanks s))).
(** [Trim] of the composition support: [std::isspace]. *)
Definition Trim (value : string) : string :=
  string_of_list (rev (skip_spaces (rev (skip_spaces (list_of_string value))))).

(** [std::getline(stream, item, ';')] until the end of the text. *)
Fixpoint items_from (current : text) (s : text) : list text :=
  match s with
  | [] => match current with [] => [] | _ => [current] end
  | c :: s' => if char_code c =? 59 then current :: items_from [] s' else items_from (current ++ [c]) s'
  end.

(** ** Tokens of a request *)

Definition FindHeaderString (request : HttpRequest) (key : string) : option string :=
  req_headers request !! lower key.

Definition cookie_of (item : text) : option (text * text) :=
  eq ← find (bytes "=") item;
  Some (TrimBlanks (take eq item), TrimBlanks (drop (eq + 1) item)).
Definition FindCookieValue (request : HttpRequest) (name : string) : option string :=
  cookie_header ← FindHeaderString request "cookie";
  cookie ← find_if (fun kv => kv.1 ==? bytes name) (omap cookie_of (items_from [] (bytes cookie_header)));
  Some (string_of_list cookie.2).

Definition FindBearerToken (request : HttpRequest) : option string :=
  authorization ← FindHeaderString request "authorization";
  if starts_with "bearer " (lower authorization)
  then Some (string_of_list (TrimBlanks (drop 7 (bytes authorization)))) else None.

Definition FindControllerSessionToken (request : HttpRequest) : option string :=
  match FindHeaderString request "x-naim-session-token" with
  | Some token => Some token
  | None =>
      match FindCookieValue request "naim.sid" with
      | Some token => Some token
      | None => FindBearerToken request
      end
  end.

Definition RequestHostHeader (request : HttpRequest) : string :=
  match FindHeaderString request "x-forwarded-host" with
  | Some forwarded => forwarded
  | None => default "127.0.0.1:18081" (FindHeaderString request "host")
  end.

Definition HostWithoutPort (host_header : string) : string :=
  let host := bytes host_header in
  match host with
  | [] => host_header
  | c :: _ =>
      if char_code c =? 91 then
        match find (bytes "]") host with
        | Some close => string_of_list (take (close - 1) (drop 1 host))
        | None => host_header
        end
      else match find (bytes ":") host with
           | Some colon => string_of_list (take colon host)
           | None => host_header
           end
  end.

(** [value.substr(0, value.find(','))] *)
Definition before_comma (value : text) : text :=
  match find (bytes ",") value with Some comma => take comma value | None => value end.

Fixpoint until_one_of (stop : list Z) (s : text) : text :=
  match s with
  | [] => []
  | c :: s' => if existsb (Z.eqb (char_code c)) stop then [] else c :: until_one_of stop s'
  end.
Definition forwarded_proto (forwarded : string) : option text :=
  let lowered := bytes (lower forwarded) in
  match find (bytes "proto=") lowered with
  | Some proto_pos =>
      let value := TrimBlanks (until_one_of [59; 44; 9; 32] (drop (proto_pos + 6) lowered)) in
      if vec_empty value then None else Some value
  | None => None
  end.

Definition RequestScheme (request : HttpRequest) : string :=
  let proto := match FindHeaderString request "x-forwarded-proto" with
               | Some forwarded =>
                   let first := TrimBlanks (before_comma (bytes forwarded)) in
                   if vec_empty first then None else Some (lower (string_of_list first))
               | None => None
               end in
  match proto with
  | Some scheme => scheme
  | None =>
      match (forwarded ← FindHeaderString request "forwarded"; forwarded_proto forwarded) with
      | Some value => string_of_list value
      | None =>
          let header_is key value :=
            match FindHeaderString request key with
            | Some v => lower (string_of_list (TrimBlanks (bytes v))) ==? value
            | None => false
            end in
          if header_is "x-forwarded-ssl" "on" then "https"
          else if match FindHeaderString request "x-forwarded-port" with
                  | Some v => string_of_list (TrimBlanks (bytes v)) ==? "443"
                  | None => false
                  end then "https"
          else "http"
      end
  end.

Definition SessionCookieHeader (token : string) (request : HttpRequest) : string :=
  "naim.sid=" +:+ token +:+ "; Path=/; HttpOnly; SameSite=Strict" +:+
  (if RequestScheme request ==? "https" then "; Secure" else "").
Definition ClearSessionCookieHeader (request : HttpRequest) : string :=
  "naim.sid=; Path=/; HttpOnly; SameSite=Strict; Expires=Thu, 01 Jan 1970 00:00:00 GMT" +:+
  (if RequestScheme request ==? "https" then "; Secure" else "").

Definition BuildSshChallengeMessage (username plane_name challenge_token expires_at : string) : string :=
  "naim-plane-auth" +:+ newline +:+ username +:+ newline +:+ plane_name +:+ newline +:+
  challenge_token +:+ newline +:+ expires_at +:+ newline.

Definition is_alnum (c : Ascii.ascii) : bool :=
  let n := char_code c in
  ((48 <=? n) && (n <=? 57)) || ((65 <=? n) && (n <=? 90)) || ((97 <=? n) && (n <=? 122)).
Fixpoint SanitizeTokenForPath (value : string) : string :=
  match value with
  | EmptyString => ""
  | String c rest =>
      String (if is_alnum c || (char_code c =? 45) || (char_code c =? 95) then c else "_"%char)
        (SanitizeTokenForPath rest)
  end.

(** ** Payloads *)

Definition text_or_null (s : string) : json := if str_empty s then JNull else JString s.

Definition BuildUserPayload (user : UserRecord) : json :=
  JObject [("id", JInt (usr_id user)); ("username", JString (usr_username user));
           ("role", JString (usr_role user)); ("created_at", JString (usr_created_at user));
           ("last_login_at", text_or_null (usr_last_login_at user))].
Definition BuildInvitePayload (invite : RegistrationInviteRecord) : json :=
  JObject [("id", JInt (inv_id invite)); ("token", JString (inv_token invite));
           ("created_by_user_id", JInt (inv_created_by_user_id invite));
           ("expires_at", JString (inv_expires_at invite)); ("created_at", JString (inv_created_at invite));
           ("used_by_user_id", from_option JInt JNull (inv_used_by_user_id invite));
           ("used_at", text_or_null (inv_used_at invite));
           ("revoked_at", text_or_null (inv_revoked_at invite))].
Definition BuildSshKeyPayload (ssh_key : UserSshKeyRecord) : json :=
  JObject [("id", JInt (key_id ssh_key)); ("user_id", JInt (key_user_id ssh_key));
           ("label", JString (key_label ssh_key)); ("fingerprint", JString (key_fingerprint ssh_key));
           ("public_key", JString (key_public_key ssh_key));
           ("created_at", JString (key_created_at ssh_key));
           ("revoked_at", text_or_null (key_revoked_at ssh_key));
           ("last_used_at", text_or_null (key_last_used_at ssh_key))].

(** ** The state *)

Record PendingWebAuthnFlow := mkPendingWebAuthnFlow {
  flow_id : string;
  flow_kind : string;
  flow_username : string;
  flow_password_hash : string;
  flow_invite_token : string;
  flow_user_id : Z;
  flow_challenge : string;
  flow_rp_id : string;
  flow_origin : string;
  flow_expires_at : string;
}.

Record PendingSshChallenge := mkPendingSshChallenge {
  chl_challenge_id : string;
  chl_user_id : Z;
  chl_ssh_key_id : Z;
  chl_secured_user_id : string;
  chl_secured_connection : bool;
  chl_username : string;
  chl_plane_name : string;
  chl_fingerprint : string;
  chl_challenge_token : string;
  chl_message : string;
  chl_expires_at : string;
}.

Record AuthWorld := mkAuthWorld {
  aw_store : AuthStore;
  aw_flows : gmap string PendingWebAuthnFlow;
  aw_challenges : gmap string PendingSshChallenge;
  aw_draws : nat;
}.
Definition aw_with_store store w := mkAuthWorld store (aw_flows w) (aw_challenges w) (aw_draws w).
Definition aw_with_flows flows w := mkAuthWorld (aw_store w) flows (aw_challenges w) (aw_draws w).
Definition aw_with_challenges challenges w := mkAuthWorld (aw_store w) (aw_flows w) challenges (aw_draws w).
Definition empty_auth_world : AuthWorld := mkAuthWorld empty_auth_store ∅ ∅ 0.

(** [std::invalid_argument] is caught apart from the other exceptions. *)
Inductive exception :=
  | invalid_argument (message : string)
  | other_exception (message : string).
Definition what (e : exception) : string :=
  match e with invalid_argument m | other_exception m => m end.
Inductive attempt (A : Type) := Done (a : A) | Raised (e : exception).
Arguments Done {_} _.
Arguments Raised {_} _.

Definition auth (A : Type) : Type := AuthWorld -> AuthWorld * attempt A.
#[export] Instance auth_ret : MRet auth := fun A a w => (w, Done a).
#[export] Instance auth_bind : MBind auth := fun A B f m w =>
  match m w with
  | (w', Done a) => f a w'
  | (w', Raised e) => (w', Raised e)
  end.
Definition raise {A} (e : exception) : auth A := fun w => (w, Raised e).
Definition try_catch {A} (m : auth A) (handler : exception -> auth A) : auth A := fun w =>
  match m w with
  | (w', Raised e) => handler e w'
  | done => done
  end.
Definition attempt_of {A} (r : result A) : attempt A :=
  match r with Ok a => Done a | Throw e => Raised (other_exception e) end.
(** A pure computation that may throw. *)
Definition pure_auth {A} (r : result A) : auth A := fun w => (w, attempt_of r).
Definition load {A} (f : AuthStore -> A) : auth A := fun w => (w, Done (f (aw_store w))).
(** A statement on the store: it throws and changes nothing, or it changes the store. *)
Definition execute {A} (f : AuthStore -> result (AuthStore * A)) : auth A := fun w =>
  match f (aw_store w) with
  | Ok (s, a) => (aw_with_store s w, Done a)
  | Throw e => (w, Raised (other_exception e))
  end.
Definition change (f : AuthStore -> AuthStore) : auth unit := execute (fun s => Ok (f s, ())).
Definition insert (f : AuthStore -> result AuthStore) : auth unit :=
  execute (fun s => s' ← f s; Ok (s', ())).
Definition changed (f : AuthStore -> AuthStore * bool) : auth bool := execute (fun s => Ok (f s)).

(** ** Libraries and environment *)

Class AuthEnvironment := {
  getenv : string -> option string;
  (** The [n]-th draws of [RandomTokenBase64] and [HashPassword]. *)
  random_token : nat -> Z -> string;
  password_hash : nat -> string -> string;
  (** [ssh-keygen -lf]: exit code and output, given the key file. *)
  ssh_keygen_fingerprint : string -> Z * string;
  (** [ssh-keygen -Y verify -n naim-plane-auth]: exit code, given the allowed signers,
      the identity, the signature and the message. *)
  ssh_keygen_verify : string -> string -> string -> string -> Z;
}.

Section Support.
Context `{JsonLibrary, OpenSsl, AuthEnvironment} (now : Z).

Definition SqlTimestampAfterSeconds (seconds : Z) : string := UtcNowSqlTimestamp (now + seconds).

Definition draw {A} (f : nat -> A) : auth A := fun w =>
  (mkAuthWorld (aw_store w) (aw_flows w) (aw_challenges w) (S (aw_draws w)), Done (f (aw_draws w))).
Definition RandomTokenBase64 (byte_count : Z) : auth string := draw (fun n => random_token n byte_count).
Definition HashPassword (password : string) : auth string :=
  if str_empty password then raise (other_exception "password must not be empty")
  else draw (fun n => password_hash n password).

Definition GetEnvString (key : string) : option string :=
  match getenv key with Some value => if str_empty value then None else Some value | None => None end.
Definition ResolveWebAuthnRpId (request : HttpRequest) : string :=
  default (HostWithoutPort (RequestHostHeader request)) (GetEnvString "NAIM_WEBAUTHN_RP_ID").
Definition ResolveWebAuthnOrigin (request : HttpRequest) : string :=
  default (RequestScheme request +:+ "://" +:+ RequestHostHeader request) (GetEnvString "NAIM_WEBAUTHN_ORIGIN").
Definition ResolveWebAuthnRpName : string := default "naim-node" (GetEnvString "NAIM_WEBAUTHN_RP_NAME").
Definition RunWebAuthnHelper (action : string) (payload : json) : auth json := pure_auth (Run action payload).

(** [input >> bits >> fingerprint] *)
Fixpoint take_word (s : text) : text :=
  match s with c :: s' => if is_space c then [] else c :: take_word s' | [] => [] end.
Definition second_word (s : text) : text := take_word (skip_spaces (skip_word (skip_spaces s))).

(** The directory of the key file is named after a random token. *)
Definition ComputeSshPublicKeyFingerprint (public_key : string) : auth string :=
  _ ← RandomTokenBase64 12;
  let '(rc, output) := ssh_keygen_fingerprint (public_key +:+ newline) in
  if negb (rc =? 0) || str_empty output then raise (other_exception "ssh-keygen rejected SSH public key")
  else
    let fingerprint := string_of_list (second_word (bytes output)) in
    if str_empty fingerprint then raise (other_exception "failed to parse SSH key fingerprint")
    else mret fingerprint.

Definition VerifySshDetachedSignature (username public_key message signature : string) : auth bool :=
  _ ← RandomTokenBase64 12;
  mret (ssh_keygen_verify (username +:+ " " +:+ public_key +:+ newline) username signature message =? 0).

(** ** Pending flows *)

Definition LoadPendingWebAuthnFlow (flow_id : string) : auth (option PendingWebAuthnFlow) := fun w =>
  (w, Done (aw_flows w !! flow_id)).
Definition SavePendingWebAuthnFlow (flow : PendingWebAuthnFlow) : auth unit := fun w =>
  (aw_with_flows (<[flow_id flow := flow]> (aw_flows w)) w, Done ()).
Definition ErasePendingWebAuthnFlow (flow_id : string) : auth unit := fun w =>
  (aw_with_flows (delete flow_id (aw_flows w)) w, Done ()).
Definition LoadPendingSshChallenge (challenge_id : string) : auth (option PendingSshChallenge) := fun w =>
  (w, Done (aw_challenges w !! challenge_id)).
Definition SavePendingSshChallenge (challenge : PendingSshChallenge) : auth unit := fun w =>
  (aw_with_challenges (<[chl_challenge_id challenge := challenge]> (aw_challenges w)) w, Done ()).
Definition ErasePendingSshChallenge (challenge_id : string) : auth unit := fun w =>
  (aw_with_challenges (delete challenge_id (aw_challenges w)) w, Done ()).

Definition CleanupExpiredPendingAuthFlows : auth unit := fun w =>
  let stamp := UtcNowSqlTimestamp now in
  (mkAuthWorld (aw_store w)
     (filter (fun kv => klt (flow_expires_at kv.2) stamp = false) (aw_flows w))
     (filter (fun kv => klt (chl_expires_at kv.2) stamp = false) (aw_challenges w)) (aw_draws w), Done ()).

(** ** Sessions *)

Definition kBrowserSessionLifetimeSeconds : Z := 12 * 60 * 60.
Definition kSshSessionLifetimeSeconds : Z := 60 * 60.

Definition AuthenticateControllerUserSession (request : HttpRequest) (session_kind : option string)
    : auth (option (UserRecord * AuthSessionRecord)) :=
  match FindControllerSessionToken request with
  | None => mret None
  | Some token =>
      session ← load (LoadActiveAuthSession now token session_kind None);
      match session with
      | None => mret None
      | Some session =>
          user ← load (LoadUserById (ses_user_id session));
          match user with
          | None => mret None
          | Some user =>
              _ ← changed (TouchAuthSession (ses_token session) (UtcNowSqlTimestamp now));
              mret (Some (user, session))
          end
      end
  end.

Definition RequireControllerAdminUser (request : HttpRequest) : auth (option UserRecord) :=
  session ← AuthenticateControllerUserSession request (Some "web");
  mret (match session with
        | Some (user, _) => if usr_role user ==? "admin" then Some user else None
        | None => None
        end).

Definition CreateControllerSession (user_id : Z) (session_kind plane_name : string) : auth string :=
  let stamp := UtcNowSqlTimestamp now in
  token ← RandomTokenBase64 32;
  _ ← insert (InsertAuthSession now
                (mkAuthSessionRecord token user_id session_kind plane_name
                   (SqlTimestampAfterSeconds (if session_kind ==? "ssh" then kSshSessionLifetimeSeconds
                                              else kBrowserSessionLifetimeSeconds)) stamp "" stamp));
  _ ← change (UpdateUserLastLoginAt now user_id stamp);
  mret token.

(** The user and session a secured connection is shown as. *)
Definition secured_identity (user : SecuredConnectionUserRecord) (session : SecuredConnectionSessionRecord)
    : UserRecord * AuthSessionRecord :=
  (mkUserRecord 0 (scu_name user) "secured_connection" "" "" "" "",
   mkAuthSessionRecord (scs_token session) 0 "secured_ssh" (scs_plane_name session) (scs_expires_at session)
     (scs_created_at session) (scs_revoked_at session) (scs_last_used_at session)).

Definition AuthenticateProtectedPlaneRequest (request : HttpRequest) (plane_name : string)
    : auth (option (UserRecord * AuthSessionRecord)) :=
  web_session ← AuthenticateControllerUserSession request (Some "web");
  match web_session with
  | Some web_session => mret (Some web_session)
  | None =>
      match FindControllerSessionToken request with
      | None => mret None
      | Some token =>
          ssh_session ← load (LoadActiveAuthSession now token (Some "ssh") (Some plane_name));
          match ssh_session with
          | None =>
              secured_session ← load (LoadActiveSecuredConnectionSession now token plane_name);
              match secured_session with
              | None => mret None
              | Some secured_session =>
                  secured_user ← load (LoadActiveSecuredConnectionUser (scs_user_id secured_session));
                  match secured_user with
                  | None => mret None
                  | Some secured_user =>
                      _ ← changed (TouchSecuredConnectionSession (scs_token secured_session)
                                     (UtcNowSqlTimestamp now));
                      mret (Some (secured_identity secured_user secured_session))
                  end
              end
          | Some ssh_session =>
              user ← load (LoadUserById (ses_user_id ssh_session));
              match user with
              | None => mret None
              | Some user =>
                  _ ← changed (TouchAuthSession (ses_token ssh_session) (UtcNowSqlTimestamp now));
                  mret (Some (user, ssh_session))
              end
          end
      end
  end.

(** ** [BuildJsonResponse] *)

Definition ReasonPhrase (status_code : Z) : string :=
  if status_code =? 200 then "OK"
  else if status_code =? 400 then "Bad Request"
  else if status_code =? 404 then "Not Found"
  else if status_code =? 405 then "Method Not Allowed"
  else if status_code =? 409 then "Conflict"
  else if status_code =? 422 then "Unprocessable Content"
  else if status_code =? 500 then "Internal Server Error"
  else if status_code =? 502 then "Bad Gateway"
  else if status_code =? 503 then "Service Unavailable"
  else if status_code =? 504 then "Gateway Timeout"
  else "Response".

Definition set_absent (key : string) (x value : json) : json :=
  if has_value (member value key) then value else set_member key x value.

(** The member [error] of a response with a code of 400 or more. *)
Definition error_member (status_code : Z) (enriched : json) : result json :=
  let code := json_value get_string enriched "status" "error" in
  let message := json_value get_string enriched "message" (ReasonPhrase status_code) in
  match member enriched "error" with
  | Some (JObject fields) =>
      let error := JObject fields in
      error ← (if has_value (member error "code") then Ok error
               else c ← code; Ok (set_member "code" (JString c) error));
      if has_value (member error "message") then Ok error
      else m ← message; Ok (set_member "message" (JString m) error)
  | _ =>
      c ← code;
      m ← message;
      let error := JObject [("code", JString c); ("message", JString m)] in
      Ok (match member enriched "details" with
          | Some details => set_member "details" details error
          | None => error
          end)
  end.

Definition enrich (current_request : option HttpRequest) (status_code : Z) (payload : json) : result json :=
  if negb (is_object payload) then Ok payload
  else
    let enriched := set_absent "api_version" (JString "v1") payload in
    let enriched := match current_request with
                    | Some request =>
                        set_absent "request" (JObject [("path", JString (req_path request));
                                                       ("method", JString (req_method request))]) enriched
                    | None => enriched
                    end in
    if 400 <=? status_code then
      error ← error_member status_code enriched;
      Ok (erase_member "method" (erase_member "path" (erase_member "details" (erase_member "message"
            (set_member "status" (JString "error") (set_member "error" error enriched))))))
    else Ok enriched.

Definition BuildJsonResponse (current_request : option HttpRequest) (status_code : Z) (payload : json)
    (headers : list (string * string)) : result HttpResponse :=
  enriched ← enrich current_request status_code payload;
  body ← dump enriched;
  Ok (mkHttpResponse status_code (bytes "application/json")
        (foldl (fun m kv => <[kv.1 := bytes kv.2]> m) ∅ headers) (bytes body)).
End Support.
