(* ===== verification/AuthService.v ===== *)
(** * The authentication handlers

    [controller/src/auth/auth_http_service.cpp] with the forwarding object of
    [auth_http_support.cpp]: first user, passkey login, invitations, SSH keys and
    challenges, users of secured connections.  A handler runs in [auth]; what it wrote
    before an exception stays.  [store.Initialize()] on an initialised database changes
    nothing. *)

From S2P Require Import Prelude Json Models Planner AssignmentStore RuntimeSupport ControllerStore InteractionText InteractionStream ModelAdapter WebAuthn AuthStore AuthSupport.

(** ** The transport of a request *)

Definition FirstForwardedValue (value : string) : string := string_of_list (before_comma (bytes value)).

Definition TransportScheme (request : HttpRequest) : string :=
  match FindHeaderString request "x-forwarded-proto" with
  | Some forwarded => lower (Trim (FirstForwardedValue forwarded))
  | None =>
      if from_option (fun v => lower v ==? "on") false (FindHeaderString request "x-forwarded-ssl") then "https"
      else if from_option (fun v => v ==? "443") false (FindHeaderString request "x-forwarded-port") then "https"
      else "http"
  end.

Definition IsLocalHostName (host : string) : bool :=
  let lowered := lower (HostWithoutPort host) in
  str_empty lowered || (lowered ==? "localhost") || (lowered ==? "127.0.0.1") || (lowered ==? "::1").

Definition IsSecuredRequestTransportAllowed (request : HttpRequest) : bool :=
  if TransportScheme request ==? "https" then true
  else
    let host := match FindHeaderString request "x-forwarded-host" with
                | Some host => Some host
                | None => FindHeaderString request "host"
                end in
    IsLocalHostName (default "" host).

Definition RequestRemoteAddress (request : HttpRequest) : string :=
  match FindHeaderString request "x-forwarded-for" with
  | Some forwarded => FirstForwardedValue forwarded
  | None => default "" (FindHeaderString request "x-real-ip")
  end.

(** ** Payloads *)

Definition BuildSecuredUserSearchText (user : SecuredConnectionUserRecord) : string :=
  scu_id user +:+ " " +:+ scu_name user +:+ " " +:+ scu_public_key user +:+ " " +:+ scu_fingerprint user +:+ " " +:+
  scu_last_authorized_at user +:+ " " +:+ scu_created_at user +:+ " " +:+ scu_updated_at user.

Definition BuildSecuredConnectionUserPayload (user : SecuredConnectionUserRecord) : json :=
  JObject [("id", JString (scu_id user)); ("name", JString (scu_name user));
           ("public_key", JString (scu_public_key user)); ("fingerprint", JString (scu_fingerprint user));
           ("last_authorized_at", text_or_null (scu_last_authorized_at user));
           ("created_at", JString (scu_created_at user)); ("updated_at", JString (scu_updated_at user));
           ("revoked_at", text_or_null (scu_revoked_at user))].

Definition method_not_allowed : json := JObject [("status", JString "method_not_allowed")].
Definition status_message (status message : string) : json :=
  JObject [("status", JString status); ("message", JString message)].
Definition path_from (n : nat) (path : string) : string := string_of_list (drop n (bytes path)).
Definition stored_text (key : string) (m : gmap string string) : option string :=
  match m !! key with Some value => if str_empty value then None else Some value | None => None end.

Definition InviteLifetimeSeconds : Z := 60 * 60.
Definition SshChallengeLifetimeSeconds : Z := 5 * 60.
Definition SshSessionLifetimeSeconds : Z := 60 * 60.

Section Handlers.
Context `{JsonLibrary, OpenSsl, AuthEnvironment} (now : Z) (current_request : option HttpRequest)
  (render_v2 : json -> result DesiredState) (load_relational : string -> ControllerStore -> result DesiredState)
  (controller : ControllerStore).

Definition BuildSecuredConnectionAuthLogPayload (log : SecuredConnectionAuthLogRecord) : json :=
  let payload := match parse (if str_empty (scl_payload_json log) then "{}" else scl_payload_json log) with
                 | Ok value => value
                 | Throw _ => JObject []
                 end in
  JObject [("id", JInt (scl_id log)); ("plane_name", JString (scl_plane_name log));
           ("user_id", JString (scl_user_id log)); ("user_name", JString (scl_user_name log));
           ("fingerprint", JString (scl_fingerprint log)); ("event_type", JString (scl_event_type log));
           ("outcome", JString (scl_outcome log)); ("remote_addr", JString (scl_remote_addr log));
           ("message", JString (scl_message log)); ("created_at", JString (scl_created_at log));
           ("payload", payload)].

(** ** Pieces of the handlers *)

Definition respond_with (status_code : Z) (payload : json) (headers : list (string * string)) : auth HttpResponse :=
  pure_auth (BuildJsonResponse current_request status_code payload headers).
Definition respond (status_code : Z) (payload : json) : auth HttpResponse := respond_with status_code payload [].

Definition request_body (request : HttpRequest) : result json :=
  if str_empty (req_body request) then Ok (JObject []) else parse (req_body request).
Definition ParseJsonBody (request : HttpRequest) : auth json := pure_auth (request_body request).
Definition text_field (body : json) (key : string) : auth string := pure_auth (json_value get_string body key "").
Definition trimmed_field (body : json) (key : string) : auth string :=
  value ← text_field body key; mret (Trim value).

Definition ParseOptionalBooleanField (body : json) (key : string) (default_value : bool) : auth bool :=
  match member body key with
  | None | Some JNull => mret default_value
  | Some (JBool b) => pure_auth (get_bool (JBool b))
  | Some _ => raise (invalid_argument (key +:+ " must be a boolean"))
  end.

(** [catch (const std::exception& error)] *)
Definition internal_error (e : exception) : auth HttpResponse := respond 500 (status_message "internal_error" (what e)).
Definition internal_error_at (request : HttpRequest) (e : exception) : auth HttpResponse :=
  respond 500 (JObject [("status", JString "internal_error"); ("message", JString (what e));
                        ("path", JString (req_path request))]).
(** [catch (const std::invalid_argument& error)] before it. *)
Definition bad_request_or_internal (request : HttpRequest) (e : exception) : auth HttpResponse :=
  match e with
  | invalid_argument m =>
      respond 400 (JObject [("status", JString "bad_request"); ("message", JString m);
                            ("path", JString (req_path request))])
  | other_exception _ => internal_error_at request e
  end.

(** The user whose web session the request carries. *)
Definition web_session (request : HttpRequest) : auth (option (UserRecord * AuthSessionRecord)) :=
  AuthenticateControllerUserSession now request (Some "web").
Definition clear_cookie (request : HttpRequest) : list (string * string) :=
  [("Set-Cookie", ClearSessionCookieHeader request)].
Definition session_cookie (token : string) (request : HttpRequest) : list (string * string) :=
  [("Set-Cookie", SessionCookieHeader token request)].

(** ** State and log-out *)

Definition HandleState (request : HttpRequest) : auth HttpResponse :=
  if req_method request !=? "GET" then respond 405 method_not_allowed
  else try_catch
    (session ← web_session request;
     user_count ← load LoadUserCount;
     respond 200
       (JObject [("service", JString "naim-controller"); ("setup_required", JBool (user_count =? 0));
                 ("authenticated", JBool (has_value session));
                 ("user", from_option (fun s => BuildUserPayload s.1) JNull session);
                 ("rp_id", JString (ResolveWebAuthnRpId request));
                 ("origin", JString (ResolveWebAuthnOrigin request))]))
    internal_error.

Definition HandleMe (request : HttpRequest) : auth HttpResponse :=
  if req_method request !=? "GET" then respond 405 method_not_allowed
  else try_catch
    (session ← web_session request;
     match session with
     | None => respond_with 401 (status_message "unauthorized" "authentication required") (clear_cookie request)
     | Some (user, _) => respond 200 (JObject [("user", BuildUserPayload user)])
     end)
    internal_error.

Definition HandleLogout (request : HttpRequest) : auth HttpResponse :=
  if req_method request !=? "POST" then respond 405 method_not_allowed
  else respond_with 200 (JObject [("status", JString "logged_out")]) (clear_cookie request).

(** ** Passkeys *)

(** A flow is made, its options are built and it is kept for five minutes. *)
Definition begin_registration (request : HttpRequest) (kind username password invite_token : string)
    : auth HttpResponse :=
  flow_id ← RandomTokenBase64 24;
  challenge ← RandomTokenBase64 32;
  password_hash ← HashPassword password;
  let flow := mkPendingWebAuthnFlow flow_id kind username password_hash invite_token 0 challenge
                (ResolveWebAuthnRpId request) (ResolveWebAuthnOrigin request)
                (SqlTimestampAfterSeconds now (5 * 60)) in
  options ← RunWebAuthnHelper "generate-registration-options"
              (JObject [("rpName", JString ResolveWebAuthnRpName); ("rpID", JString (flow_rp_id flow));
                        ("userName", JString username); ("challenge", JString challenge)]);
  _ ← SavePendingWebAuthnFlow flow;
  respond 200 (JObject [("flow_id", JString flow_id); ("expires_at", JString (flow_expires_at flow));
                        ("options", options)]).

Definition HandleBootstrapBegin (request : HttpRequest) : auth HttpResponse :=
  if req_method request !=? "POST" then respond 405 method_not_allowed
  else try_catch
    (body ← ParseJsonBody request;
     username ← trimmed_field body "username";
     password ← text_field body "password";
     if str_empty username || str_empty password
     then respond 400 (status_message "bad_request" "username and password are required")
     else
       user_count ← load LoadUserCount;
       if user_count !=? 0
       then respond 409 (status_message "conflict" "bootstrap is only available before the first user is created")
       else begin_registration request "bootstrap" username password "")
    (internal_error_at request).

(** The pending flow a response answers, when it is of the kind and not expired. *)
Definition live_flow (flow : option PendingWebAuthnFlow) (kind : string) : option PendingWebAuthnFlow :=
  match flow with
  | Some flow =>
      if (flow_kind flow !=? kind) || klt (flow_expires_at flow) (UtcNowSqlTimestamp now) then None else Some flow
  | None => None
  end.

(** The payload of [verify-registration]. *)
Definition registration_payload (response : json) (flow : PendingWebAuthnFlow) : json :=
  JObject [("response", response); ("expectedChallenge", JString (flow_challenge flow));
           ("expectedOrigin", JString (flow_origin flow)); ("expectedRPID", JString (flow_rp_id flow))].

(** The end of both registrations: the response is verified, the user created with the
    credential and logged in. *)
Definition finish_registration (request : HttpRequest) (kind expired_message : string)
    (create : PendingWebAuthnFlow -> AuthStore -> result (AuthStore * UserRecord)) : auth HttpResponse :=
  body ← ParseJsonBody request;
  flow_id ← text_field body "flow_id";
  match member body "response" with
  | None => respond 400 (status_message "bad_request" "flow_id and response are required")
  | Some response =>
      if str_empty flow_id then respond 400 (status_message "bad_request" "flow_id and response are required")
      else
        pending ← LoadPendingWebAuthnFlow flow_id;
        match live_flow pending kind with
        | None => respond 410 (status_message "expired" expired_message)
        | Some flow =>
            verification ← RunWebAuthnHelper "verify-registration" (registration_payload response flow);
            verified ← pure_auth (json_value get_bool verification "verified" false);
            if negb verified
            then respond 403 (status_message "forbidden" "WebAuthn registration verification failed")
            else
              user ← execute (create flow);
              credential ← pure_auth (json_at get_json verification "registrationInfo");
              credential_id ← pure_auth (json_value get_string credential "credentialID" "");
              public_key ← pure_auth (json_value get_string credential "credentialPublicKey" "");
              counter ← pure_auth (json_value get_int credential "counter" 0);
              transports ← pure_auth (json_value get_json credential "transports" (JArray []));
              transports_json ← pure_auth (dump transports);
              _ ← insert (InsertWebAuthnCredential now
                            (mkWebAuthnCredentialRecord 0 (usr_id user) credential_id public_key
                               (uint32_wrap counter) transports_json "" "" ""));
              session_token ← CreateControllerSession now (usr_id user) "web" "";
              _ ← ErasePendingWebAuthnFlow flow_id;
              respond_with 200 (JObject [("user", BuildUserPayload user)]) (session_cookie session_token request)
        end
  end.

Definition HandleBootstrapFinish (request : HttpRequest) : auth HttpResponse :=
  if req_method request !=? "POST" then respond 405 method_not_allowed
  else try_catch
    (finish_registration request "bootstrap" "bootstrap flow is missing or expired"
       (fun flow => CreateBootstrapAdmin now (flow_username flow) (flow_password_hash flow)))
    (internal_error_at request).

(** [try { transports = ... } catch (...) { transports = json::array(); }] *)
Definition allowed_credential (credential : WebAuthnCredentialRecord) : json :=
  let transports := if str_empty (wac_transports_json credential) then JArray []
                    else match parse (wac_transports_json credential) with Ok t => t | Throw _ => JArray [] end in
  JObject [("id", JString (wac_credential_id credential)); ("transports", transports)].

Definition HandleLoginBegin (request : HttpRequest) : auth HttpResponse :=
  if req_method request !=? "POST" then respond 405 method_not_allowed
  else try_catch
    (body ← ParseJsonBody request;
     username ← trimmed_field body "username";
     if str_empty username then respond 400 (status_message "bad_request" "username is required")
     else
       user ← load (LoadUserByUsername username);
       match user with
       | None => respond 404 (status_message "not_found" "user not found")
       | Some user =>
           credentials ← load (LoadWebAuthnCredentialsForUser (usr_id user));
           if vec_empty credentials
           then respond 409 (status_message "conflict" "user has no registered WebAuthn credentials")
           else
             flow_id ← RandomTokenBase64 24;
             challenge ← RandomTokenBase64 32;
             let flow := mkPendingWebAuthnFlow flow_id "login" username "" "" (usr_id user) challenge
                           (ResolveWebAuthnRpId request) (ResolveWebAuthnOrigin request)
                           (SqlTimestampAfterSeconds now (5 * 60)) in
             options ← RunWebAuthnHelper "generate-authentication-options"
                         (JObject [("rpID", JString (flow_rp_id flow)); ("challenge", JString challenge);
                                   ("allowCredentials", JArray (allowed_credential <$> credentials))]);
             _ ← SavePendingWebAuthnFlow flow;
             respond 200 (JObject [("flow_id", JString flow_id); ("expires_at", JString (flow_expires_at flow));
                                   ("options", options)])
       end)
    internal_error.

(** The payload of [verify-authentication]. *)
Definition authentication_payload (response : json) (flow : PendingWebAuthnFlow)
    (credential : WebAuthnCredentialRecord) (transports : json) : json :=
  JObject [("response", response); ("expectedChallenge", JString (flow_challenge flow));
           ("expectedOrigin", JString (flow_origin flow)); ("expectedRPID", JString (flow_rp_id flow));
           ("credential",
            JObject [("id", JString (wac_credential_id credential)); ("publicKey", JString (wac_public_key credential));
                     ("counter", JInt (wac_counter credential)); ("transports", transports)])].

Definition HandleLoginFinish (request : HttpRequest) : auth HttpResponse :=
  if req_method request !=? "POST" then respond 405 method_not_allowed
  else try_catch
    (body ← ParseJsonBody request;
     flow_id ← text_field body "flow_id";
     match member body "response" with
     | None => respond 400 (status_message "bad_request" "flow_id and response are required")
     | Some response =>
         if str_empty flow_id then respond 400 (status_message "bad_request" "flow_id and response are required")
         else
           pending ← LoadPendingWebAuthnFlow flow_id;
           match live_flow pending "login" with
           | None => respond 410 (status_message "expired" "login flow is missing or expired")
           | Some flow =>
               credential_id ← pure_auth (json_value get_string response "id" "");
               found ← load (LoadWebAuthnCredentialById credential_id);
               match found with
               | Some credential =>
                   if negb (wac_user_id credential =? flow_user_id flow)
                   then respond 403 (status_message "forbidden" "credential is not registered for this user")
                   else
                     transports ← (if str_empty (wac_transports_json credential) then mret (JArray [])
                                   else pure_auth (parse (wac_transports_json credential)));
                     verification ← RunWebAuthnHelper "verify-authentication"
                                      (authentication_payload response flow credential transports);
                     verified ← pure_auth (json_value get_bool verification "verified" false);
                     if negb verified
                     then respond 403 (status_message "forbidden" "WebAuthn authentication verification failed")
                     else
                       auth_info ← pure_auth (json_at get_json verification "authenticationInfo");
                       counter ← pure_auth (json_value get_uint64 auth_info "newCounter" (wac_counter credential));
                       _ ← change (UpdateWebAuthnCredentialCounter now (wac_credential_id credential)
                                     (uint32_wrap counter) (UtcNowSqlTimestamp now));
                       user ← load (LoadUserById (flow_user_id flow));
                       match user with
                       | None => respond 404 (status_message "not_found" "user not found")
                       | Some user =>
                           session_token ← CreateControllerSession now (usr_id user) "web" "";
                           _ ← ErasePendingWebAuthnFlow flow_id;
                           respond_with 200 (JObject [("user", BuildUserPayload user)])
                             (session_cookie session_token request)
                       end
               | None => respond 403 (status_message "forbidden" "credential is not registered for this user")
               end
           end
     end)
    (internal_error_at request).

(** ** Invitations *)

Definition invite_live (invite : RegistrationInviteRecord) : bool :=
  str_empty (inv_revoked_at invite) && str_empty (inv_used_at invite) &&
  negb (klt (inv_expires_at invite) (UtcNowSqlTimestamp now)).

Definition HandleInviteLookup (request : HttpRequest) : auth HttpResponse :=
  if req_method request !=? "GET" then respond 405 method_not_allowed
  else try_catch
    (invite ← load (LoadRegistrationInviteByToken (path_from 20 (req_path request)));
     let valid := from_option invite_live false invite in
     respond (if valid then 200 else 404)
       (JObject [("valid", JBool valid);
                 ("invite", if valid then from_option BuildInvitePayload JNull invite else JNull)]))
    internal_error.

Definition HandleRegisterBegin (request : HttpRequest) : auth HttpResponse :=
  if req_method request !=? "POST" then respond 405 method_not_allowed
  else try_catch
    (body ← ParseJsonBody request;
     invite_token ← text_field body "invite_token";
     username ← trimmed_field body "username";
     password ← text_field body "password";
     if str_empty invite_token || str_empty username || str_empty password
     then respond 400 (status_message "bad_request" "invite_token, username, and password are required")
     else
       invite ← load (LoadRegistrationInviteByToken invite_token);
       if negb (from_option invite_live false invite)
       then respond 404 (status_message "not_found" "invite is missing, expired, revoked, or already used")
       else
         existing ← load (LoadUserByUsername username);
         if has_value existing then respond 409 (status_message "conflict" "username is already taken")
         else begin_registration request "register" username password invite_token)
    internal_error.

Definition HandleRegisterFinish (request : HttpRequest) : auth HttpResponse :=
  if req_method request !=? "POST" then respond 405 method_not_allowed
  else try_catch
    (finish_registration request "register" "registration flow is missing or expired"
       (fun flow => CreateInvitedUser now (flow_invite_token flow) (flow_username flow) (flow_password_hash flow)))
    (internal_error_at request).

Definition invite_item (request : HttpRequest) (invite : RegistrationInviteRecord) : json :=
  set_member "registration_url"
    (JString (ResolveWebAuthnOrigin request +:+ "/register/" +:+ inv_token invite)) (BuildInvitePayload invite).

Definition HandleInvites (request : HttpRequest) : auth HttpResponse :=
  try_catch
    (admin ← RequireControllerAdminUser now request;
     match admin with
     | None => respond_with 401 (status_message "unauthorized" "admin session is required") (clear_cookie request)
     | Some admin =>
         if req_method request ==? "GET" then
           invites ← load (LoadActiveRegistrationInvites now);
           respond 200 (JObject [("items", JArray (invite_item request <$> invites))])
         else if req_method request ==? "POST" then
           token ← RandomTokenBase64 18;
           invite ← execute (CreateRegistrationInvite now (usr_id admin) (SanitizeTokenForPath token)
                               (SqlTimestampAfterSeconds now InviteLifetimeSeconds));
           respond 200 (JObject [("invite", invite_item request invite)])
         else respond 405 method_not_allowed
     end)
    (internal_error_at request).

Definition HandleInviteDelete (request : HttpRequest) : auth HttpResponse :=
  if req_method request !=? "DELETE" then respond 405 method_not_allowed
  else try_catch
    (admin ← RequireControllerAdminUser now request;
     match admin with
     | None => respond_with 401 (status_message "unauthorized" "admin session is required") (clear_cookie request)
     | Some _ =>
         invite_id ← pure_auth (stoi (path_from 21 (req_path request)));
         revoked ← changed (RevokeRegistrationInvite invite_id (UtcNowSqlTimestamp now));
         respond (if (revoked : bool) then 200 else 404) (JObject [("revoked", JBool revoked)])
     end)
    (internal_error_at request).

(** ** SSH keys *)

Definition HandleSshKeys (request : HttpRequest) : auth HttpResponse :=
  try_catch
    (session ← web_session request;
     match session with
     | None => respond_with 401 (status_message "unauthorized" "authentication required") (clear_cookie request)
     | Some (user, _) =>
         if req_method request ==? "GET" then
           keys ← load (LoadActiveUserSshKeys (usr_id user));
           respond 200 (JObject [("items", JArray (BuildSshKeyPayload <$> keys))])
         else if req_method request ==? "POST" then
           body ← ParseJsonBody request;
           public_key ← trimmed_field body "public_key";
           if str_empty public_key then respond 400 (status_message "bad_request" "public_key is required")
           else
             label ← trimmed_field body "label";
             fingerprint ← ComputeSshPublicKeyFingerprint public_key;
             let ssh_key := mkUserSshKeyRecord 0 (usr_id user) label public_key fingerprint "" "" "" in
             _ ← insert (InsertUserSshKey now ssh_key);
             created ← load (LoadActiveUserSshKeyByFingerprint (usr_id user) fingerprint);
             respond 200 (JObject [("ssh_key", BuildSshKeyPayload (default ssh_key created))])
         else respond 405 method_not_allowed
     end)
    (internal_error_at request).

Definition HandleSshKeyDelete (request : HttpRequest) : auth HttpResponse :=
  if req_method request !=? "DELETE" then respond 405 method_not_allowed
  else try_catch
    (session ← web_session request;
     match session with
     | None => respond_with 401 (status_message "unauthorized" "authentication required") (clear_cookie request)
     | Some (user, _) =>
         ssh_key_id ← pure_auth (stoi (path_from 22 (req_path request)));
         ssh_key ← load (LoadActiveUserSshKeyById ssh_key_id);
         if negb (from_option (fun k => key_user_id k =? usr_id user) false ssh_key)
         then respond 404 (status_message "not_found" "SSH key not found")
         else
           revoked ← changed (RevokeUserSshKey ssh_key_id (UtcNowSqlTimestamp now));
           respond (if (revoked : bool) then 200 else 404) (JObject [("revoked", JBool revoked)])
     end)
    (internal_error_at request).

(** ** Users of secured connections *)

Definition admin_required : json := status_message "unauthorized" "admin authentication required".
Definition name_and_key_required : json := status_message "bad_request" "name and public_key are required".

Definition HandleUserStorage (request : HttpRequest) : auth HttpResponse :=
  try_catch
    (admin ← RequireControllerAdminUser now request;
     if negb (has_value admin) then respond 401 admin_required
     else if req_method request ==? "GET" then
       let search := stored_text "search" (req_query_params request) in
       let include_revoked := bool_decide (req_query_params request !! "include_revoked" = Some "true") in
       users ← load (LoadSecuredConnectionUsers search include_revoked);
       respond 200 (JObject [("items", JArray (BuildSecuredConnectionUserPayload <$> users))])
     else if req_method request !=? "POST" then respond 405 method_not_allowed
     else
       body ← ParseJsonBody request;
       token ← RandomTokenBase64 18;
       name ← trimmed_field body "name";
       public_key ← trimmed_field body "public_key";
       if str_empty name || str_empty public_key then respond 400 name_and_key_required
       else
         fingerprint ← ComputeSshPublicKeyFingerprint public_key;
         let id := "scu_" +:+ SanitizeTokenForPath token in
         let draft := mkSecuredConnectionUserRecord id name public_key fingerprint "" "" "" "" "" in
         let user := mkSecuredConnectionUserRecord id name public_key fingerprint
                       (BuildSecuredUserSearchText draft) "" "" "" "" in
         _ ← insert (UpsertSecuredConnectionUser now user);
         saved ← load (LoadActiveSecuredConnectionUser id);
         respond 201 (JObject [("item", BuildSecuredConnectionUserPayload (default user saved))]))
    (bad_request_or_internal request).

Definition scu_with (name public_key fingerprint search_text : string) (u : SecuredConnectionUserRecord)
    : SecuredConnectionUserRecord :=
  mkSecuredConnectionUserRecord (scu_id u) name public_key fingerprint search_text (scu_last_authorized_at u)
    (scu_created_at u) (scu_updated_at u) (scu_revoked_at u).

Definition HandleUserStorageItem (request : HttpRequest) (user_id : string) : auth HttpResponse :=
  try_catch
    (admin ← RequireControllerAdminUser now request;
     if negb (has_value admin) then respond 401 admin_required
     else
       current ← load (LoadActiveSecuredConnectionUser user_id);
       match current with
       | None => respond 404 (status_message "not_found" "user not found")
       | Some current =>
           if req_method request ==? "DELETE" then
             _ ← changed (RevokeSecuredConnectionUser now user_id (UtcNowSqlTimestamp now));
             respond 200 (JObject [("status", JString "revoked")])
           else if req_method request !=? "PATCH" then respond 405 method_not_allowed
           else
             body ← ParseJsonBody request;
             name ← (if has_value (member body "name") then trimmed_field body "name" else mret (scu_name current));
             '(public_key, fingerprint) ←
               (if has_value (member body "public_key") then
                  public_key ← trimmed_field body "public_key";
                  fingerprint ← ComputeSshPublicKeyFingerprint public_key;
                  mret (public_key, fingerprint)
                else mret (scu_public_key current, scu_fingerprint current));
             if str_empty name || str_empty public_key then respond 400 name_and_key_required
             else
               let draft := scu_with name public_key fingerprint (scu_search_text current) current in
               let next := scu_with name public_key fingerprint (BuildSecuredUserSearchText draft) current in
               _ ← insert (UpsertSecuredConnectionUser now next);
               saved ← load (LoadActiveSecuredConnectionUser user_id);
               respond 200 (JObject [("item", BuildSecuredConnectionUserPayload (default next saved))])
       end)
    (bad_request_or_internal request).

Definition HandleUserStorageAuthLog (request : HttpRequest) : auth HttpResponse :=
  if req_method request !=? "GET" then respond 405 method_not_allowed
  else try_catch
    (admin ← RequireControllerAdminUser now request;
     if negb (has_value admin) then respond 401 admin_required
     else
       let params := req_query_params request in
       limit ← (match stored_text "limit" params with
                | Some text => pure_auth (stoi text)
                | None => mret 100
                end);
       logs ← load (LoadSecuredConnectionAuthLog (stored_text "plane_name" params) (stored_text "user_id" params) limit);
       respond 200 (JObject [("items", JArray (BuildSecuredConnectionAuthLogPayload <$> logs))]))
    (internal_error_at request).

(** ** SSH challenges *)

Definition log_secured (request : HttpRequest) (plane_name user_id user_name fingerprint event_type outcome message : string)
    : auth unit :=
  change (InsertSecuredConnectionAuthLog now
            (mkSecuredConnectionAuthLogRecord 0 plane_name user_id user_name fingerprint event_type outcome
               (RequestRemoteAddress request) message "" "{}")).

(** The challenge is given its random values and its message, kept and answered. *)
Definition issue_challenge (build : string -> string -> string -> PendingSshChallenge) : auth PendingSshChallenge :=
  challenge_id ← RandomTokenBase64 24;
  challenge_token ← RandomTokenBase64 24;
  let challenge := build challenge_id challenge_token (SqlTimestampAfterSeconds now SshChallengeLifetimeSeconds) in
  _ ← SavePendingSshChallenge challenge;
  mret challenge.
Definition challenge_payload (challenge : PendingSshChallenge) : json :=
  JObject [("challenge_id", JString (chl_challenge_id challenge));
           ("challenge_token", JString (chl_challenge_token challenge));
           ("expires_at", JString (chl_expires_at challenge)); ("message", JString (chl_message challenge))].

Definition secured_challenge (user : SecuredConnectionUserRecord) (plane_name fingerprint : string)
    (challenge_id challenge_token expires_at : string) : PendingSshChallenge :=
  mkPendingSshChallenge challenge_id 0 0 (scu_id user) true (scu_name user) plane_name fingerprint challenge_token
    (BuildSshChallengeMessage (scu_name user) plane_name challenge_token expires_at) expires_at.
Definition user_challenge (user : UserRecord) (ssh_key : UserSshKeyRecord) (plane_name fingerprint : string)
    (challenge_id challenge_token expires_at : string) : PendingSshChallenge :=
  mkPendingSshChallenge challenge_id (usr_id user) (key_id ssh_key) "" false (usr_username user) plane_name fingerprint
    challenge_token (BuildSshChallengeMessage (usr_username user) plane_name challenge_token expires_at) expires_at.

Definition challenge_secured_user (request : HttpRequest) (spec : SecuredConnectionFeatureSpec)
    (username plane_name fingerprint : string) : auth HttpResponse :=
  if negb (IsSecuredRequestTransportAllowed request) then
    _ ← log_secured request plane_name "" username fingerprint "challenge" "rejected"
          "HTTPS/TLS is required for secured connection authentication";
    respond 403 (status_message "forbidden" "secured connection authentication requires HTTPS/TLS")
  else
    found ← load (LoadActiveSecuredConnectionUserByFingerprint fingerprint);
    match found with
    | None =>
        _ ← log_secured request plane_name "" username fingerprint "challenge" "rejected"
              "secured connection user or fingerprint not found";
        respond 404 (status_message "not_found" "secured connection user or fingerprint not found")
    | Some secured_user =>
        if negb (existsb (fun id => id ==? scu_id secured_user) (sc_user_ids spec)) then
          _ ← log_secured request plane_name (scu_id secured_user) (scu_name secured_user) fingerprint "challenge"
                "rejected" "user is not allowed for secured plane";
          respond 403 (status_message "forbidden" "user is not allowed for secured plane")
        else
          challenge ← issue_challenge (secured_challenge secured_user plane_name fingerprint);
          _ ← log_secured request plane_name (scu_id secured_user) (scu_name secured_user) fingerprint "challenge"
                "accepted" "";
          respond 200 (challenge_payload challenge)
    end.

Definition challenge_user (username plane_name fingerprint : string) : auth HttpResponse :=
  user ← load (LoadUserByUsername username);
  match user with
  | None => respond 404 (status_message "not_found" "user not found")
  | Some user =>
      ssh_key ← load (LoadActiveUserSshKeyByFingerprint (usr_id user) fingerprint);
      match ssh_key with
      | None => respond 404 (status_message "not_found" "SSH key fingerprint not found for user")
      | Some ssh_key =>
          challenge ← issue_challenge (user_challenge user ssh_key plane_name fingerprint);
          respond 200 (challenge_payload challenge)
      end
  end.

Definition HandleSshChallenge (request : HttpRequest) : auth HttpResponse :=
  if req_method request !=? "POST" then respond 405 method_not_allowed
  else try_catch
    (body ← ParseJsonBody request;
     name ← text_field body "name";
     raw_username ← pure_auth (json_value get_string body "username" name);
     let username := Trim raw_username in
     plane_name ← trimmed_field body "plane_name";
     fingerprint ← trimmed_field body "fingerprint";
     if str_empty plane_name || str_empty fingerprint
     then respond 400 (status_message "bad_request" "plane_name and fingerprint are required")
     else
       desired_state ← pure_auth (LoadDesiredState render_v2 load_relational plane_name controller);
       match desired_state with
       | Some state =>
           if negb (ds_protected_plane state)
           then respond 404 (status_message "not_found" "protected plane not found")
           else
             match ds_secured_connection state with
             | Some spec =>
                 if sc_enabled spec then challenge_secured_user request spec username plane_name fingerprint
                 else challenge_user username plane_name fingerprint
             | None => challenge_user username plane_name fingerprint
             end
       | None => respond 404 (status_message "not_found" "protected plane not found")
       end)
    (internal_error_at request).

(** The answer with the token in the payload or in a cookie. *)
Definition session_answer (request : HttpRequest) (challenge : PendingSshChallenge) (kind session_token : string)
    (issue_cookie include_token : bool) : auth HttpResponse :=
  let payload := JObject [("plane_name", JString (chl_plane_name challenge));
                          ("expires_at", JString (SqlTimestampAfterSeconds now SshSessionLifetimeSeconds));
                          ("session_kind", JString kind)] in
  let payload := if issue_cookie then set_member "issued_cookie" (JBool true) payload else payload in
  let payload := if include_token then set_member "token" (JString session_token) payload else payload in
  respond_with 200 payload (if issue_cookie then session_cookie session_token request else []).

Definition verify_secured (request : HttpRequest) (challenge_id signature : string) (challenge : PendingSshChallenge)
    (issue_cookie include_token : bool) : auth HttpResponse :=
  let reject user_id user_name message :=
    log_secured request (chl_plane_name challenge) user_id user_name (chl_fingerprint challenge) "verify" "rejected"
      message in
  if negb (IsSecuredRequestTransportAllowed request) then
    _ ← reject (chl_secured_user_id challenge) (chl_username challenge)
          "HTTPS/TLS is required for secured connection authentication";
    respond 403 (status_message "forbidden" "secured connection authentication requires HTTPS/TLS")
  else
    found ← load (LoadActiveSecuredConnectionUser (chl_secured_user_id challenge));
    match found with
    | None =>
        _ ← reject (chl_secured_user_id challenge) (chl_username challenge) "secured connection user not found";
        respond 404 (status_message "not_found" "secured connection user not found")
    | Some secured_user =>
        verified ← VerifySshDetachedSignature (chl_username challenge) (scu_public_key secured_user)
                     (chl_message challenge) signature;
        if negb verified then
          _ ← reject (scu_id secured_user) (scu_name secured_user) "SSH signature verification failed";
          respond 403 (status_message "forbidden" "SSH signature verification failed")
        else
          let stamp := UtcNowSqlTimestamp now in
          _ ← change (TouchSecuredConnectionUser now (scu_id secured_user) stamp);
          session_token ← RandomTokenBase64 32;
          _ ← insert (InsertSecuredConnectionSession now
                        (mkSecuredConnectionSessionRecord session_token (scu_id secured_user) (chl_plane_name challenge)
                           (SqlTimestampAfterSeconds now SshSessionLifetimeSeconds) "" "" stamp));
          _ ← log_secured request (chl_plane_name challenge) (scu_id secured_user) (scu_name secured_user)
                (chl_fingerprint challenge) "verify" "accepted" "";
          _ ← ErasePendingSshChallenge challenge_id;
          session_answer request challenge "secured_ssh" session_token issue_cookie include_token
    end.

Definition verify_user (request : HttpRequest) (challenge_id signature : string) (challenge : PendingSshChallenge)
    (issue_cookie include_token : bool) : auth HttpResponse :=
  found ← load (LoadActiveUserSshKeyById (chl_ssh_key_id challenge));
  match found with
  | None => respond 404 (status_message "not_found" "SSH key not found")
  | Some ssh_key =>
      verified ← VerifySshDetachedSignature (chl_username challenge) (key_public_key ssh_key)
                   (chl_message challenge) signature;
      if negb verified then respond 403 (status_message "forbidden" "SSH signature verification failed")
      else
        _ ← change (TouchUserSshKey (key_id ssh_key) (UtcNowSqlTimestamp now));
        session_token ← CreateControllerSession now (chl_user_id challenge) "ssh" (chl_plane_name challenge);
        _ ← ErasePendingSshChallenge challenge_id;
        session_answer request challenge "ssh" session_token issue_cookie include_token
  end.

Definition HandleSshVerify (request : HttpRequest) : auth HttpResponse :=
  if req_method request !=? "POST" then respond 405 method_not_allowed
  else try_catch
    (body ← ParseJsonBody request;
     challenge_id ← text_field body "challenge_id";
     signature ← text_field body "signature";
     issue_cookie ← ParseOptionalBooleanField body "issue_cookie" false;
     include_token ← ParseOptionalBooleanField body "include_token" (negb issue_cookie);
     if str_empty challenge_id || str_empty signature
     then respond 400 (status_message "bad_request" "challenge_id and signature are required")
     else
       pending ← LoadPendingSshChallenge challenge_id;
       match pending with
       | Some challenge =>
           if klt (chl_expires_at challenge) (UtcNowSqlTimestamp now)
           then respond 410 (status_message "expired" "SSH challenge is missing or expired")
           else if chl_secured_connection challenge
           then verify_secured request challenge_id signature challenge issue_cookie include_token
           else verify_user request challenge_id signature challenge issue_cookie include_token
       | None => respond 410 (status_message "expired" "SSH challenge is missing or expired")
       end)
    (bad_request_or_internal request).

(** ** Dispatch *)

Definition HandleRequest (request : HttpRequest) : auth (option HttpResponse) :=
  let path := req_path request in
  let answer m := (r ← m; mret (Some r)) in
  if path ==? "/api/v1/user-storage" then answer (HandleUserStorage request)
  else if path ==? "/api/v1/user-storage/auth-log" then answer (HandleUserStorageAuthLog request)
  else if starts_with "/api/v1/user-storage/" path then answer (HandleUserStorageItem request (path_from 21 path))
  else if negb (starts_with "/api/v1/auth/" path) then mret None
  else answer (
    if path ==? "/api/v1/auth/state" then HandleState request
    else if path ==? "/api/v1/auth/me" then HandleMe request
    else if path ==? "/api/v1/auth/logout" then HandleLogout request
    else if path ==? "/api/v1/auth/bootstrap/begin" then HandleBootstrapBegin request
    else if path ==? "/api/v1/auth/bootstrap/finish" then HandleBootstrapFinish request
    else if path ==? "/api/v1/auth/login/begin" then HandleLoginBegin request
    else if path ==? "/api/v1/auth/login/finish" then HandleLoginFinish request
    else if starts_with "/api/v1/auth/invite/" path then HandleInviteLookup request
    else if path ==? "/api/v1/auth/register/begin" then HandleRegisterBegin request
    else if path ==? "/api/v1/auth/register/finish" then HandleRegisterFinish request
    else if path ==? "/api/v1/auth/invites" then HandleInvites request
    else if starts_with "/api/v1/auth/invites/" path then HandleInviteDelete request
    else if path ==? "/api/v1/auth/ssh-keys" then HandleSshKeys request
    else if starts_with "/api/v1/auth/ssh-keys/" path then HandleSshKeyDelete request
    else if path ==? "/api/v1/auth/ssh/challenge" then HandleSshChallenge request
    else if path ==? "/api/v1/auth/ssh/verify" then HandleSshVerify request
    else respond 404 (JObject [("status", JString "not_found")])).
End Handlers.
