(* ===== verification/AuthGuarantees.v ===== *)
(** * What authentication promises

    Every request is a run of permitted steps: a step says what may change and what
    the request must have shown for it.  From the runs follow who gets a session, that
    the tables of users and invitations stay consistent, and what only the
    administrator can change. *)

From S2P Require Import Prelude Json Models Planner AssignmentStore SchedulerStore RuntimeSupport ControllerStore InteractionText InteractionStream ModelAdapter WebAuthn AuthStore AuthSupport AuthService.

(** ** A program logic for handlers

    [follows R w m Q]: from [w] the program makes steps of [R], and when it returns,
    [Q] holds of its result and its state. *)

Definition follows {A} (R : relation AuthWorld) (w : AuthWorld) (m : auth A) (Q : A -> AuthWorld -> Prop) : Prop :=
  rtc R w (m w).1 /\ match (m w).2 with Done a => Q a (m w).1 | Raised _ => True end.
Definition any {A} (_ : A) (_ : AuthWorld) : Prop := True.

(** [ends w m Q E]: from [w] the program returns in [Q] or throws in [E]. *)
Definition ends {A} (w : AuthWorld) (m : auth A) (Q : A -> AuthWorld -> Prop) (E : AuthWorld -> Prop) : Prop :=
  match m w with (w', Done a) => Q a w' | (w', Raised _) => E w' end.

Lemma ends_bind {A B} w (m : auth A) (f : A -> auth B) Q Q' E :
  ends w m Q E -> (forall a w', Q a w' -> ends w' (f a) Q' E) -> ends w (m ≫= f) Q' E.
Proof. unfold ends, mbind, auth_bind. destruct (m w) as [w' [a|e]]; [|done]. intros HQ Hf. by apply Hf. Qed.
Lemma ends_assoc {A B C} w (m : auth A) (f : A -> auth B) (g : B -> auth C) Q E :
  ends w (m ≫= fun a => f a ≫= g) Q E -> ends w ((m ≫= f) ≫= g) Q E.
Proof. unfold ends, mbind, auth_bind. by destruct (m w) as [w' [a|e]]. Qed.
Lemma ends_ret {A} w (a : A) (Q : A -> AuthWorld -> Prop) E : Q a w -> ends w (mret a) Q E.
Proof. done. Qed.
Lemma ends_pure {A} w (r : result A) (E : AuthWorld -> Prop) :
  E w -> ends w (pure_auth r) (fun a w' => r = Ok a /\ w' = w) E.
Proof. intros HE. unfold ends, pure_auth, attempt_of. by destruct r. Qed.
Lemma ends_load {A} w (f : AuthStore -> A) E : ends w (load f) (fun a w' => a = f (aw_store w) /\ w' = w) E.
Proof. done. Qed.
Lemma ends_change w f E : ends w (change f) (fun _ w' => w' = aw_with_store (f (aw_store w)) w) E.
Proof. done. Qed.
Lemma ends_insert w f (E : AuthWorld -> Prop) (Q : unit -> AuthWorld -> Prop) :
  E w -> (forall s, f (aw_store w) = Ok s -> Q () (aw_with_store s w)) -> ends w (insert f) Q E.
Proof. intros HE HQ. unfold ends, insert, execute. destruct (f (aw_store w)); [by apply HQ|done]. Qed.
Lemma ends_catch {A} w (m : auth A) handler Q (E E' : AuthWorld -> Prop) :
  ends w m Q E -> (forall e w', E w' -> ends w' (handler e) Q E') -> ends w (try_catch m handler) Q E'.
Proof. unfold ends, try_catch. destruct (m w) as [w' [a|e]]; [done|]. intros HE Hh. by apply Hh. Qed.
Lemma ends_state {A} w (m : auth A) (Q : A -> AuthWorld -> Prop) (P E : AuthWorld -> Prop) :
  ends w m Q E -> (forall a w', Q a w' -> P w') -> (forall w', E w' -> P w') -> P (m w).1.
Proof. unfold ends. destruct (m w) as [w' [a|e]]; cbn [fst]; [intros HQ HP _; by eapply HP|intros HE _ HP; by apply HP]. Qed.

Section Rules.
Context (R : relation AuthWorld).

Lemma follows_ret {A} w (a : A) (Q : A -> AuthWorld -> Prop) : Q a w -> follows R w (mret a) Q.
Proof. split; [apply rtc_refl|done]. Qed.
Lemma follows_bind {A B} w (m : auth A) (f : A -> auth B) Q Q' :
  follows R w m Q -> (forall a w', Q a w' -> follows R w' (f a) Q') -> follows R w (m ≫= f) Q'.
Proof.
  intros [Hm HQ] Hf. unfold follows, mbind, auth_bind. destruct (m w) as [w' [a|e]]; cbn [fst snd] in *; [|done].
  destruct (Hf a w' HQ) as [Hr HQ']. split; [by etrans|done].
Qed.
Lemma follows_assoc {A B C} w (m : auth A) (f : A -> auth B) (g : B -> auth C) Q :
  follows R w (m ≫= fun a => f a ≫= g) Q -> follows R w ((m ≫= f) ≫= g) Q.
Proof. unfold follows, mbind, auth_bind. by destruct (m w) as [w' [a|e]]. Qed.
Lemma follows_raise {A} w e (Q : A -> AuthWorld -> Prop) : follows R w (raise e) Q.
Proof. split; [apply rtc_refl|done]. Qed.
Lemma follows_catch {A} w (m : auth A) handler Q :
  follows R w m Q -> (forall e w', follows R w' (handler e) Q) -> follows R w (try_catch m handler) Q.
Proof.
  intros [Hm HQ] Hh. unfold follows, try_catch. destruct (m w) as [w' [a|e]]; cbn [fst snd] in *; [done|].
  destruct (Hh e w') as [Hr HQ']. split; [by etrans|done].
Qed.
Lemma follows_pure {A} w (r : result A) (Q : A -> AuthWorld -> Prop) :
  (forall a, r = Ok a -> Q a w) -> follows R w (pure_auth r) Q.
Proof. intros HQ. split; [apply rtc_refl|]. destruct r; [by apply HQ|done]. Qed.
Lemma follows_load {A} w (f : AuthStore -> A) (Q : A -> AuthWorld -> Prop) :
  Q (f (aw_store w)) w -> follows R w (load f) Q.
Proof. split; [apply rtc_refl|done]. Qed.
Lemma follows_execute {A} w (f : AuthStore -> result (AuthStore * A)) (Q : A -> AuthWorld -> Prop) :
  (forall s a, f (aw_store w) = Ok (s, a) -> R w (aw_with_store s w) /\ Q a (aw_with_store s w)) ->
  follows R w (execute f) Q.
Proof.
  intros Hf. unfold follows, execute. destruct (f (aw_store w)) as [[s a]|e]; cbn [fst snd]; [|split; [apply rtc_refl|done]].
  destruct (Hf s a eq_refl). split; [by apply rtc_once|done].
Qed.
Lemma follows_weaken {A} w (m : auth A) (Q Q' : A -> AuthWorld -> Prop) :
  follows R w m Q -> (forall a w', Q a w' -> Q' a w') -> follows R w m Q'.
Proof. intros [Hr HQ] Himp. split; [done|]. destruct (m w).2; [by apply Himp|done]. Qed.
Lemma follows_any {A} w (m : auth A) Q : follows R w m Q -> follows R w m any.
Proof. intros H. by eapply follows_weaken. Qed.
End Rules.

(** ** What a request may change *)

(** Writes that change no identity, right or session. *)
Inductive bookkeeping (now : Z) : (AuthStore -> AuthStore) -> Prop :=
  | touch_session token stamp : bookkeeping now (fun s => (TouchAuthSession token stamp s).1)
  | touch_secured_user id stamp : bookkeeping now (TouchSecuredConnectionUser now id stamp)
  | touch_key id stamp : bookkeeping now (TouchUserSshKey id stamp)
  | touch_user id stamp : bookkeeping now (UpdateUserLastLoginAt now id stamp)
  | touch_counter id counter stamp : bookkeeping now (UpdateWebAuthnCredentialCounter now id counter stamp)
  | write_log log : bookkeeping now (InsertSecuredConnectionAuthLog now log).

Section Steps.
Context `{JsonLibrary, OpenSsl, AuthEnvironment} (now : Z).

(** The request carries a live session of the user, of the kind if one is given. *)
Definition carries (w : AuthWorld) (request : HttpRequest) (kind : option string) (user : UserRecord) : Prop :=
  exists token session,
    FindControllerSessionToken request = Some token /\
    LoadActiveAuthSession now token kind None (aw_store w) = Some session /\
    LoadUserById (ses_user_id session) (aw_store w) = Some user.
Definition carries_admin (w : AuthWorld) (request : HttpRequest) (user : UserRecord) : Prop :=
  carries w request (Some "web") user /\ usr_role user = "admin".

(** The body of the request answers a pending flow of the kind. *)
Definition answers (w : AuthWorld) (request : HttpRequest) (kind : string) (flow : PendingWebAuthnFlow)
    (response : json) : Prop :=
  exists body flow_id,
    request_body request = Ok body /\ json_value get_string body "flow_id" "" = Ok flow_id /\
    member body "response" = Some response /\ aw_flows w !! flow_id = Some flow /\ flow_kind flow = kind /\
    klt (flow_expires_at flow) (UtcNowSqlTimestamp now) = false.

(** Registration of the first user or of an invited one: the response is verified and
    the user is created from the flow. *)
Definition registers (w : AuthWorld) (request : HttpRequest) (user : UserRecord) : Prop :=
  exists flow response verification s',
    VerifyRegistration (registration_payload response flow) = Ok verification /\
    json_value get_bool verification "verified" false = Ok true /\
    ((answers w request "bootstrap" flow response /\
      CreateBootstrapAdmin now (flow_username flow) (flow_password_hash flow) (aw_store w) = Ok (s', user)) \/
     (answers w request "register" flow response /\
      CreateInvitedUser now (flow_invite_token flow) (flow_username flow) (flow_password_hash flow) (aw_store w) =
        Ok (s', user))).

(** Login: the response is an assertion by a credential of the user of the flow. *)
Definition logs_in (w : AuthWorld) (request : HttpRequest) (user_id : Z) : Prop :=
  exists flow response credential transports id count,
    answers w request "login" flow response /\ user_id = flow_user_id flow /\
    LoadWebAuthnCredentialById id (aw_store w) = Some credential /\ wac_user_id credential = user_id /\
    assertion response
      (JObject [("id", JString (wac_credential_id credential)); ("publicKey", JString (wac_public_key credential));
                ("counter", JInt (wac_counter credential)); ("transports", transports)])
      (flow_challenge flow) (flow_origin flow) (flow_rp_id flow) id count.

(** The body of the request carries a signature of the message of a pending challenge
    that the key verifies for the name in the challenge. *)
Definition signs (w : AuthWorld) (request : HttpRequest) (challenge : PendingSshChallenge) (public_key : string) : Prop :=
  exists body challenge_id signature,
    request_body request = Ok body /\ json_value get_string body "challenge_id" "" = Ok challenge_id /\
    json_value get_string body "signature" "" = Ok signature /\ aw_challenges w !! challenge_id = Some challenge /\
    klt (chl_expires_at challenge) (UtcNowSqlTimestamp now) = false /\
    ssh_keygen_verify (chl_username challenge +:+ " " +:+ public_key +:+ newline) (chl_username challenge) signature
      (chl_message challenge) = 0.

(** Who may have a session: what the request has shown. *)
Inductive proven (w : AuthWorld) (request : HttpRequest) : Z -> string -> string -> Prop :=
  | proven_registration user : registers w request user -> proven w request (usr_id user) "web" ""
  | proven_login user_id : logs_in w request user_id -> proven w request user_id "web" ""
  | proven_signature challenge ssh_key :
      signs w request challenge (key_public_key ssh_key) -> chl_secured_connection challenge = false ->
      LoadActiveUserSshKeyById (chl_ssh_key_id challenge) (aw_store w) = Some ssh_key ->
      proven w request (chl_user_id challenge) "ssh" (chl_plane_name challenge).
Definition proven_secured (w : AuthWorld) (request : HttpRequest) (user_id plane_name : string) : Prop :=
  exists challenge user,
    signs w request challenge (scu_public_key user) /\ chl_secured_connection challenge = true /\
    LoadActiveSecuredConnectionUser (chl_secured_user_id challenge) (aw_store w) = Some user /\
    IsSecuredRequestTransportAllowed request = true /\ user_id = scu_id user /\ plane_name = chl_plane_name challenge.

(** How long a session of the kind lives. *)
Definition lifetime (kind : string) : Z :=
  if kind ==? "ssh" then kSshSessionLifetimeSeconds else kBrowserSessionLifetimeSeconds.

(** A step of a request that began in [w0]. *)
Inductive permitted (w0 : AuthWorld) (request : HttpRequest) : AuthWorld -> AuthWorld -> Prop :=
  | step_draw w :
      permitted w0 request w (mkAuthWorld (aw_store w) (aw_flows w) (aw_challenges w) (S (aw_draws w)))
  | step_bookkeeping w f : bookkeeping now f -> permitted w0 request w (aw_with_store (f (aw_store w)) w)
  | step_flow w flow : permitted w0 request w (aw_with_flows (<[flow_id flow := flow]> (aw_flows w)) w)
  | step_challenge w challenge :
      permitted w0 request w (aw_with_challenges (<[chl_challenge_id challenge := challenge]> (aw_challenges w)) w)
  | step_close_flow w id : permitted w0 request w (aw_with_flows (delete id (aw_flows w)) w)
  | step_close_challenge w id : permitted w0 request w (aw_with_challenges (delete id (aw_challenges w)) w)
  | step_invite w admin token expires_at s invite :
      carries_admin w0 request admin ->
      CreateRegistrationInvite now (usr_id admin) token expires_at (aw_store w) = Ok (s, invite) ->
      permitted w0 request w (aw_with_store s w)
  | step_revoke_invite w admin id stamp :
      carries_admin w0 request admin ->
      permitted w0 request w (aw_with_store (RevokeRegistrationInvite id stamp (aw_store w)).1 w)
  | step_secured_user w admin user s :
      carries_admin w0 request admin -> UpsertSecuredConnectionUser now user (aw_store w) = Ok s ->
      permitted w0 request w (aw_with_store s w)
  | step_revoke_secured w admin id stamp :
      carries_admin w0 request admin ->
      permitted w0 request w (aw_with_store (RevokeSecuredConnectionUser now id stamp (aw_store w)).1 w)
  | step_key w user ssh_key s :
      carries w0 request (Some "web") user -> key_user_id ssh_key = usr_id user ->
      InsertUserSshKey now ssh_key (aw_store w) = Ok s -> permitted w0 request w (aw_with_store s w)
  | step_revoke_key w user ssh_key id stamp :
      carries w0 request (Some "web") user -> LoadActiveUserSshKeyById id (aw_store w) = Some ssh_key ->
      key_user_id ssh_key = usr_id user ->
      permitted w0 request w (aw_with_store (RevokeUserSshKey id stamp (aw_store w)).1 w)
  | step_first_user w flow response s user :
      answers w0 request "bootstrap" flow response -> registers w0 request user ->
      CreateBootstrapAdmin now (flow_username flow) (flow_password_hash flow) (aw_store w) = Ok (s, user) ->
      permitted w0 request w (aw_with_store s w)
  | step_invited_user w flow response s user :
      answers w0 request "register" flow response -> registers w0 request user ->
      CreateInvitedUser now (flow_invite_token flow) (flow_username flow) (flow_password_hash flow) (aw_store w) =
        Ok (s, user) ->
      permitted w0 request w (aw_with_store s w)
  | step_credential w user credential s :
      registers w0 request user -> wac_user_id credential = usr_id user ->
      InsertWebAuthnCredential now credential (aw_store w) = Ok s -> permitted w0 request w (aw_with_store s w)
  | step_session w session s :
      proven w0 request (ses_user_id session) (ses_session_kind session) (ses_plane_name session) ->
      ses_expires_at session = SqlTimestampAfterSeconds now (lifetime (ses_session_kind session)) ->
      InsertAuthSession now session (aw_store w) = Ok s -> permitted w0 request w (aw_with_store s w)
  | step_secured_session w session s :
      proven_secured w0 request (scs_user_id session) (scs_plane_name session) ->
      scs_expires_at session = SqlTimestampAfterSeconds now SshSessionLifetimeSeconds ->
      InsertSecuredConnectionSession now session (aw_store w) = Ok s -> permitted w0 request w (aw_with_store s w).

(** ** The programs of the support service *)

Definition same_tables (w w' : AuthWorld) : Prop :=
  aw_store w' = aw_store w /\ aw_flows w' = aw_flows w /\ aw_challenges w' = aw_challenges w.

Lemma ends_draw {A} w (f : nat -> A) E : ends w (draw f) (fun _ w' => same_tables w w') E.
Proof. done. Qed.
Lemma ends_verify w username public_key message signature E :
  ends w (VerifySshDetachedSignature username public_key message signature) (fun _ w' => same_tables w w') E.
Proof. done. Qed.
Lemma ends_close w id E : ends w (ErasePendingSshChallenge id) (fun _ w' => aw_challenges w' !! id = None) E.
Proof. unfold ends, ErasePendingSshChallenge. apply lookup_delete_eq. Qed.
Lemma ends_respond current_request w status payload headers (Q : AuthWorld -> Prop) :
  Q w -> ends w (respond_with current_request status payload headers) (fun _ => Q) Q.
Proof. intros HQ. unfold ends, respond_with, pure_auth. by destruct (attempt_of _). Qed.
Lemma ends_handler current_request request e w (Q : AuthWorld -> Prop) :
  Q w -> ends w (bad_request_or_internal current_request request e) (fun _ => Q) Q.
Proof. destruct e; apply ends_respond. Qed.
Lemma ends_optional w body key d (E : AuthWorld -> Prop) :
  E w -> ends w (ParseOptionalBooleanField body key d) (fun _ w' => w' = w) E.
Proof.
  intros HE. unfold ParseOptionalBooleanField. destruct (member body key) as [[]|]; try done.
  unfold ends, pure_auth. by destruct (attempt_of _).
Qed.
Lemma ends_load_challenge w id E :
  ends w (LoadPendingSshChallenge id) (fun a w' => a = aw_challenges w !! id /\ w' = w) E.
Proof. done. Qed.

Section Runs.
Context (current_request : option HttpRequest) (w0 : AuthWorld) (request : HttpRequest).
Abbreviation R := (permitted w0 request).

Lemma run_pure {A} w (r : result A) : follows R w (pure_auth r) (fun a w' => r = Ok a /\ w' = w).
Proof. by apply follows_pure. Qed.
Lemma run_load {A} w (f : AuthStore -> A) : follows R w (load f) (fun a w' => a = f (aw_store w) /\ w' = w).
Proof. by apply follows_load. Qed.
Lemma run_respond w status payload headers : follows R w (respond_with current_request status payload headers) any.
Proof. by apply follows_pure. Qed.
Lemma run_load_flow w id : follows R w (LoadPendingWebAuthnFlow id) (fun a w' => a = aw_flows w !! id /\ w' = w).
Proof. split; [apply rtc_refl|done]. Qed.
Lemma run_load_challenge w id :
  follows R w (LoadPendingSshChallenge id) (fun a w' => a = aw_challenges w !! id /\ w' = w).
Proof. split; [apply rtc_refl|done]. Qed.
Lemma run_draw {A} w (f : nat -> A) : follows R w (draw f) (fun _ w' => same_tables w w').
Proof. split; [apply rtc_once, step_draw|done]. Qed.
Lemma run_hash w password : follows R w (HashPassword password) (fun _ w' => same_tables w w').
Proof. unfold HashPassword. destruct (str_empty password); [apply follows_raise|apply run_draw]. Qed.
Lemma run_fingerprint w public_key : follows R w (ComputeSshPublicKeyFingerprint public_key) (fun _ w' => same_tables w w').
Proof.
  unfold ComputeSshPublicKeyFingerprint. eapply follows_bind; [apply run_draw|]. intros token w' Hw.
  destruct (ssh_keygen_fingerprint _) as [rc output]. destruct (_ || _); [apply follows_raise|]. cbv zeta.
  destruct (str_empty _); [apply follows_raise|by apply follows_ret].
Qed.
Lemma run_verify w username public_key message signature :
  follows R w (VerifySshDetachedSignature username public_key message signature)
    (fun verified w' => same_tables w w' /\
       (verified = true ->
        ssh_keygen_verify (username +:+ " " +:+ public_key +:+ newline) username signature message = 0)).
Proof.
  unfold VerifySshDetachedSignature. eapply follows_bind; [apply run_draw|]. intros token w' Hw.
  apply follows_ret. split; [done|]. by intros ?%Z.eqb_eq.
Qed.
Lemma run_save_flow w flow : follows R w (SavePendingWebAuthnFlow flow) any.
Proof. split; [apply rtc_once, step_flow|done]. Qed.
Lemma run_close_flow w id : follows R w (ErasePendingWebAuthnFlow id) any.
Proof. split; [apply rtc_once, step_close_flow|done]. Qed.
Lemma run_save_challenge w challenge : follows R w (SavePendingSshChallenge challenge) any.
Proof. split; [apply rtc_once, step_challenge|done]. Qed.
Lemma run_close_challenge w id : follows R w (ErasePendingSshChallenge id) any.
Proof. split; [apply rtc_once, step_close_challenge|done]. Qed.
Lemma run_bookkeeping w f :
  bookkeeping now f -> follows R w (change f) (fun _ w' => w' = aw_with_store (f (aw_store w)) w).
Proof. intros Hf. apply follows_execute. intros s a [= <- <-]. split; [by apply step_bookkeeping|done]. Qed.
Lemma run_touch_session w token stamp :
  follows R w (changed (TouchAuthSession token stamp))
    (fun _ w' => w' = aw_with_store (TouchAuthSession token stamp (aw_store w)).1 w).
Proof.
  apply follows_execute. intros s a [= Ht]. rewrite Ht. cbn [fst]. split; [|done].
  change s with ((s, a).1). rewrite <-Ht. apply (step_bookkeeping w0 request w _ (touch_session now token stamp)).
Qed.

Lemma run_insert w (f : AuthStore -> result AuthStore) :
  (forall s, f (aw_store w) = Ok s -> R w (aw_with_store s w)) -> follows R w (insert f) any.
Proof.
  intros Hf. apply follows_execute. intros s a Hi.
  destruct (f (aw_store w)) as [s'|]; [|done]. injection Hi as <- _. split; [by apply Hf|done].
Qed.
Lemma run_changed w (f : AuthStore -> AuthStore * bool) :
  R w (aw_with_store (f (aw_store w)).1 w) -> follows R w (changed f) any.
Proof. intros Hf. apply follows_execute. intros s a [= Ht]. rewrite Ht in Hf. split; [done|done]. Qed.

Lemma run_authenticate kind :
  follows R w0 (AuthenticateControllerUserSession now request kind)
    (fun r w' => match r with
                 | Some (user, _) => carries w0 request kind user
                 | None => w' = w0
                 end).
Proof.
  unfold AuthenticateControllerUserSession. destruct (FindControllerSessionToken request) as [token|] eqn:Ht;
    [|by apply follows_ret].
  eapply follows_bind; [apply run_load|]. intros session w' [-> ->].
  destruct (LoadActiveAuthSession _ _ _ _ _) as [session|] eqn:Hs; [|by apply follows_ret].
  eapply follows_bind; [apply run_load|]. intros user w' [-> ->].
  destruct (LoadUserById _ _) as [user|] eqn:Hu; [|by apply follows_ret].
  eapply follows_bind; [apply run_touch_session|]. intros _ w' _. apply follows_ret. by exists token, session.
Qed.
Lemma run_admin :
  follows R w0 (RequireControllerAdminUser now request)
    (fun r w' => match r with Some user => carries_admin w0 request user | None => True end).
Proof.
  unfold RequireControllerAdminUser. eapply follows_bind; [apply run_authenticate|]. intros [[user session]|] w' Hc.
  - apply follows_ret. destruct (usr_role user ==? "admin") eqn:Hr; [|done]. rewrite eqb_true in Hr. by split.
  - by apply follows_ret.
Qed.

Lemma run_create_session w user_id kind plane_name :
  proven w0 request user_id kind plane_name -> follows R w (CreateControllerSession now user_id kind plane_name) any.
Proof.
  intros Hp. unfold CreateControllerSession. cbv zeta. eapply follows_bind; [apply run_draw|]. intros token w1 _.
  eapply follows_bind; [apply run_insert; intros s Hi; by eapply step_session; [| |exact Hi]|].
  intros _ w2 _. eapply follows_bind; [apply run_bookkeeping, touch_user|]. intros _ w3 _. by apply follows_ret.
Qed.

Lemma run_ret {A} w (a : A) : follows R w (mret a) (fun b w' => b = a /\ w' = w).
Proof. by apply follows_ret. Qed.
Lemma run_body w : follows R w (ParseJsonBody request) (fun a w' => request_body request = Ok a /\ w' = w).
Proof. apply run_pure. Qed.
Lemma run_text w body key :
  follows R w (text_field body key) (fun a w' => json_value get_string body key "" = Ok a /\ w' = w).
Proof. apply run_pure. Qed.
Lemma run_trimmed w body key : follows R w (trimmed_field body key) (fun _ w' => w' = w).
Proof.
  unfold trimmed_field. eapply follows_bind; [apply run_text|]. intros a w' [_ ->]. by apply follows_ret.
Qed.

(** One statement of a handler. *)
Ltac run_one :=
  first
  [ apply run_ret | apply run_body | apply run_text | apply run_trimmed | apply run_pure | apply run_load | apply run_load_flow | apply run_load_challenge | apply run_draw | apply run_hash
  | apply run_fingerprint | apply run_verify | apply run_save_flow | apply run_close_flow | apply run_save_challenge
  | apply run_close_challenge | apply run_admin | apply run_authenticate | apply run_bookkeeping; constructor ].
Ltac handle :=
  repeat match goal with
  | |- follows _ _ (respond_with _ _ _ _) any => apply run_respond
  | |- follows _ _ (respond _ _ _) any => apply run_respond
  | |- follows _ _ (mret _) any => by apply follows_ret
  | |- follows _ _ (if ?b then _ else _) _ => destruct b eqn:?
  | |- follows _ _ (match ?x with _ => _ end) _ => destruct x eqn:?
  | |- follows _ _ (let _ := _ in _) _ => cbv zeta
  | |- follows _ _ (try_catch _ _) _ => apply follows_catch; [|intros ? ?; unfold bad_request_or_internal, internal_error_at, internal_error]
  | |- follows _ _ ((if ?b then _ else _) ≫= _) _ => destruct b eqn:?
  | |- follows _ _ ((_ ≫= _) ≫= _) _ => apply follows_assoc
  | |- follows _ _ ((match ?x with _ => _ end) ≫= _) _ => destruct x eqn:?
  | |- follows _ _ (_ ≫= _) _ => eapply follows_bind; [run_one|intros ? ?; cbv beta]
  | H : _ /\ _ |- _ => destruct H as [? ?]
  | H : any _ _ |- _ => clear H
  | H : ?w' = ?w |- follows _ ?w' _ _ => subst w'
  | |- forall _, _ => intros ?
  end.

Lemma run_state : follows R w0 (HandleState now current_request request) any.
Proof. unfold HandleState, web_session. handle. Qed.
Lemma run_me : follows R w0 (HandleMe now current_request request) any.
Proof. unfold HandleMe, web_session. handle. Qed.
Lemma run_logout : follows R w0 (HandleLogout current_request request) any.
Proof. unfold HandleLogout. handle. Qed.
Lemma run_begin_registration w kind username password invite_token :
  follows R w (begin_registration now current_request request kind username password invite_token) any.
Proof. unfold begin_registration, RunWebAuthnHelper. handle. Qed.
Lemma run_bootstrap_begin : follows R w0 (HandleBootstrapBegin now current_request request) any.
Proof. unfold HandleBootstrapBegin. handle. apply run_begin_registration. Qed.
Lemma run_login_begin : follows R w0 (HandleLoginBegin now current_request request) any.
Proof. unfold HandleLoginBegin, RunWebAuthnHelper. handle. Qed.
Lemma run_invite_lookup : follows R w0 (HandleInviteLookup now current_request request) any.
Proof. unfold HandleInviteLookup. handle. Qed.
Lemma run_register_begin : follows R w0 (HandleRegisterBegin now current_request request) any.
Proof. unfold HandleRegisterBegin. handle. apply run_begin_registration. Qed.
Lemma run_auth_log : follows R w0 (HandleUserStorageAuthLog now current_request request) any.
Proof. unfold HandleUserStorageAuthLog. handle. Qed.
Lemma run_invites : follows R w0 (HandleInvites now current_request request) any.
Proof.
  unfold HandleInvites. handle. eapply follows_bind; [|intros; handle].
  apply follows_execute with (Q := any). intros s invite Hi. split; [|done]. by eapply step_invite.
Qed.
Lemma run_invite_delete : follows R w0 (HandleInviteDelete now current_request request) any.
Proof.
  unfold HandleInviteDelete. handle. eapply follows_bind; [|intros; handle].
  apply run_changed. by eapply step_revoke_invite.
Qed.
Lemma run_ssh_keys : follows R w0 (HandleSshKeys now current_request request) any.
Proof.
  unfold HandleSshKeys, web_session. handle. eapply follows_bind; [|intros; handle].
  apply run_insert. intros s Hi. eapply step_key; [| |exact Hi]; [eassumption|done].
Qed.
Lemma run_ssh_key_delete : follows R w0 (HandleSshKeyDelete now current_request request) any.
Proof.
  unfold HandleSshKeyDelete, web_session. handle. eapply follows_bind; [|intros; handle].
  apply run_changed. apply negb_false_iff in Heqb0.
  destruct (LoadActiveUserSshKeyById _ _) as [ssh_key|] eqn:Hk; subst; [|done].
  eapply step_revoke_key; [eassumption|exact Hk|]. by apply Z.eqb_eq in Heqb0.
Qed.
Lemma run_user_storage : follows R w0 (HandleUserStorage now current_request request) any.
Proof.
  unfold HandleUserStorage. handle. eapply follows_bind; [|intros; handle].
  apply run_insert. intros s Hi. destruct a as [admin|]; [|done]. by eapply step_secured_user.
Qed.
Lemma run_user_storage_item user_id : follows R w0 (HandleUserStorageItem now current_request request user_id) any.
Proof.
  unfold HandleUserStorageItem. handle.
  all: destruct a as [admin|]; [|done]; eapply follows_bind; [|intros; handle].
  - apply run_changed. by eapply step_revoke_secured.
  - apply run_insert. intros x Hx. by eapply step_secured_user.
  - apply run_insert. intros x Hx. by eapply step_secured_user.
  - apply run_insert. intros x Hx. by eapply step_secured_user.
  - apply run_insert. intros x Hx. by eapply step_secured_user.
Qed.

Lemma run_log w plane_name user_id user_name fingerprint event_type outcome message :
  follows R w (log_secured now request plane_name user_id user_name fingerprint event_type outcome message)
    (fun _ w' => aw_challenges w' = aw_challenges w).
Proof. eapply follows_weaken; [apply run_bookkeeping; constructor|]. by intros ? ? ->. Qed.
Lemma run_issue w build : follows R w (issue_challenge now build) any.
Proof. unfold issue_challenge. handle. Qed.

Lemma run_challenge render_v2 load_relational controller :
  follows R w0 (HandleSshChallenge now current_request render_v2 load_relational controller request) any.
Proof.
  unfold HandleSshChallenge, challenge_secured_user, challenge_user. handle.
  all: eapply follows_bind; [first [apply run_log | apply run_issue]|intros ? ? _; handle].
  all: eapply follows_bind; [apply run_log|intros ? ? _; handle].
Qed.

Lemma run_session_answer w challenge kind token issue_cookie include_token :
  follows R w (session_answer now current_request request challenge kind token issue_cookie include_token) any.
Proof. unfold session_answer. handle. Qed.

Lemma run_optional_boolean w body key default_value :
  follows R w (ParseOptionalBooleanField body key default_value) (fun _ w' => w' = w).
Proof.
  unfold ParseOptionalBooleanField. destruct (member body key) as [[]|];
    try (by apply follows_ret); try apply follows_raise. by apply follows_pure.
Qed.

Section Signed.
Context (body : json) (challenge_id signature : string) (challenge : PendingSshChallenge).
Hypotheses (Hbody : request_body request = Ok body)
  (Hid : json_value get_string body "challenge_id" "" = Ok challenge_id)
  (Hsignature : json_value get_string body "signature" "" = Ok signature)
  (Hpending : aw_challenges w0 !! challenge_id = Some challenge)
  (Hlive : klt (chl_expires_at challenge) (UtcNowSqlTimestamp now) = false).

Lemma run_verify_user issue_cookie include_token :
  chl_secured_connection challenge = false ->
  follows R w0 (verify_user now current_request request challenge_id signature challenge issue_cookie include_token) any.
Proof.
  intros Hsecured. unfold verify_user. eapply follows_bind; [apply run_load|]. intros found w' [-> ->].
  destruct (LoadActiveUserSshKeyById _ _) as [ssh_key|] eqn:Hk; [|handle].
  eapply follows_bind; [apply run_verify|]. intros verified w1 [_ Hv]. destruct verified; cbn [negb]; [|handle].
  handle. eapply follows_bind; [apply run_create_session|intros; handle; apply run_session_answer].
  eapply proven_signature; [|done|exact Hk]. exists body, challenge_id, signature. by auto 10.
Qed.

Lemma run_verify_secured issue_cookie include_token :
  chl_secured_connection challenge = true ->
  follows R w0 (verify_secured now current_request request challenge_id signature challenge issue_cookie include_token) any.
Proof.
  intros Hsecured. unfold verify_secured. cbv zeta.
  destruct (IsSecuredRequestTransportAllowed request) eqn:Ht; cbn [negb].
  2: { eapply follows_bind; [apply run_log|intros; handle]. }
  eapply follows_bind; [apply run_load|]. intros found w' [-> ->].
  destruct (LoadActiveSecuredConnectionUser _ _) as [user|] eqn:Hu.
  2: { eapply follows_bind; [apply run_log|intros; handle]. }
  eapply follows_bind; [apply run_verify|]. intros verified w1 [_ Hv]. destruct verified; cbn [negb].
  2: { eapply follows_bind; [apply run_log|intros; handle]. }
  handle. eapply follows_bind.
  { apply run_insert. intros s Hi. eapply step_secured_session; [| |exact Hi]; [|done].
    exists challenge, user. repeat split; try done. exists body, challenge_id, signature. by auto 10. }
  intros _ w3 _. eapply follows_bind; [apply run_log|]. intros _ w4 _. handle. apply run_session_answer.
Qed.
End Signed.

Lemma run_ssh_verify : follows R w0 (HandleSshVerify now current_request request) any.
Proof.
  unfold HandleSshVerify. handle. eapply follows_bind; [apply run_optional_boolean|]. intros issue_cookie w' ->.
  eapply follows_bind; [apply run_optional_boolean|]. intros include_token w' ->. handle.
  - by eapply run_verify_secured.
  - by eapply run_verify_user.
Qed.

(** ** Passkeys *)

Lemma verified_assertion payload verification :
  VerifyAuthentication payload = Ok verification -> json_value get_bool verification "verified" false = Ok true ->
  exists id count, verification = accepted_assertion id count.
Proof.
  intros Hv Hb. unfold VerifyAuthentication in Hv. bind_inv.
  match type of Hv with (if ?c then _ else _) = _ => destruct c; [done|] end. bind_inv.
  match type of Hv with (if negb ?v then _ else _) = _ => destruct v; cbn [negb] in Hv end.
  - bind_inv. match type of Hv with (if ?c then _ else _) = _ => destruct c; [done|] end. injection Hv as <-.
    by do 2 eexists.
  - injection Hv as <-. cbn in Hb. by rewrite get_bool_law in Hb.
Qed.

Lemma live_flow_Some flow kind f :
  live_flow now flow kind = Some f ->
  flow = Some f /\ flow_kind f = kind /\ klt (flow_expires_at f) (UtcNowSqlTimestamp now) = false.
Proof.
  unfold live_flow. destruct flow as [f'|]; [|done]. destruct (_ || _) eqn:Hc; [done|]. intros [= <-].
  apply orb_false_iff in Hc as [Hk He]. apply negb_false_iff in Hk. by rewrite eqb_true in Hk.
Qed.

Lemma authentication_proof response flow credential transports credential_id verification :
  Run "verify-authentication" (authentication_payload response flow credential transports) = Ok verification ->
  json_value get_bool verification "verified" false = Ok true ->
  json_value get_string response "id" "" = Ok credential_id ->
  exists count,
    assertion response
      (JObject [("id", JString (wac_credential_id credential)); ("publicKey", JString (wac_public_key credential));
                ("counter", JInt (wac_counter credential)); ("transports", transports)])
      (flow_challenge flow) (flow_origin flow) (flow_rp_id flow) credential_id count.
Proof.
  intros Hrun Hverified Hid. change (VerifyAuthentication (authentication_payload response flow credential transports) = Ok verification) in Hrun.
  destruct (verified_assertion _ _ Hrun Hverified) as (id & count & ->).
  apply assertion_sound in Hrun as (r & c & ch & o & rp & Hr & Hc & Hch & Ho & Hrp & Ha).
  cbn in Hr, Hc, Hch, Ho, Hrp. injection Hr as <-. injection Hc as <-. injection Hch as <-. injection Ho as <-. injection Hrp as <-.
  exists count. assert (member response "id" = Some (JString id)) as Hm by (destruct Ha; naive_solver).
  destruct response; try done. cbn in Hm, Hid. rewrite Hm, get_string_law in Hid. by injection Hid as <-.
Qed.

Lemma login_proven body flow_id response flow credential_id credential transports verification verified user s :
  request_body request = Ok body -> json_value get_string body "flow_id" "" = Ok flow_id ->
  member body "response" = Some response -> live_flow now (aw_flows w0 !! flow_id) "login" = Some flow ->
  json_value get_string response "id" "" = Ok credential_id ->
  Some credential = LoadWebAuthnCredentialById credential_id (aw_store w0) ->
  negb (wac_user_id credential =? flow_user_id flow) = false ->
  Run "verify-authentication" (authentication_payload response flow credential transports) = Ok verification ->
  json_value get_bool verification "verified" false = Ok verified -> negb verified = false ->
  Some user = LoadUserById (flow_user_id flow) s -> proven w0 request (usr_id user) "web" "".
Proof.
  intros Hb Hf Hr (Hp & Hk & He)%live_flow_Some Hid Hc Hu Hrun Hv Htrue Huser.
  apply negb_false_iff in Hu, Htrue. apply Z.eqb_eq in Hu. subst verified.
  symmetry in Huser. apply find_if_Some in Huser as [->%Z.eqb_eq _]. apply proven_login.
  destruct (authentication_proof _ _ _ _ _ _ Hrun Hv Hid) as [count Ha].
  exists flow, response, credential, transports, credential_id, count. repeat split; try done.
  by exists body, flow_id.
Qed.

Lemma run_login_finish : follows R w0 (HandleLoginFinish now current_request request) any.
Proof.
  unfold HandleLoginFinish, RunWebAuthnHelper. handle.
  all: subst; eapply follows_bind; [apply run_create_session; by eapply login_proven|intros; handle].
Qed.

Lemma run_finish_registration kind message create :
  (forall flow response s user w,
     answers w0 request kind flow response -> create flow (aw_store w0) = Ok (s, user) ->
     (exists verification, VerifyRegistration (registration_payload response flow) = Ok verification /\
        json_value get_bool verification "verified" false = Ok true) ->
     aw_store w = aw_store w0 -> R w (aw_with_store s w) /\ registers w0 request user) ->
  follows R w0 (finish_registration now current_request request kind message create) any.
Proof.
  intros Hcreate. unfold finish_registration, RunWebAuthnHelper. handle.
  match goal with |- follows _ _ (execute (create ?flow) ≫= _) _ => rename flow into f end.
  match goal with Hl : live_flow now ?p kind = Some f |- _ => subst p; apply live_flow_Some in Hl as (Hp & Hk & He) end.
  match goal with Hn : negb ?v = false |- _ => apply negb_false_iff in Hn; subst v end.
  eapply (follows_bind _ _ _ _ (fun user _ => registers w0 request user)).
  - apply follows_execute. intros s user Hs. eapply Hcreate; try done; [by do 2 eexists|].
    match goal with Hr : Run _ _ = Ok ?v |- _ => exists v; split; [exact Hr|done] end.
  - intros user w1 Hu. handle. eapply follows_bind.
    + apply run_insert. intros s Hs. eapply step_credential; [exact Hu| |exact Hs]. done.
    + intros _ w2 _. eapply follows_bind; [apply run_create_session, proven_registration, Hu|intros; handle].
Qed.

Lemma run_bootstrap_finish : follows R w0 (HandleBootstrapFinish now current_request request) any.
Proof.
  unfold HandleBootstrapFinish. handle. apply run_finish_registration.
  intros flow response s user w Ha Hc (verification & Hr & Hv) Hw.
  assert (registers w0 request user) as Hreg by (exists flow, response, verification, s; auto).
  split; [|done]. eapply step_first_user; [done|done|by rewrite Hw].
Qed.
Lemma run_register_finish : follows R w0 (HandleRegisterFinish now current_request request) any.
Proof.
  unfold HandleRegisterFinish. handle. apply run_finish_registration.
  intros flow response s user w Ha Hc (verification & Hr & Hv) Hw.
  assert (registers w0 request user) as Hreg by (exists flow, response, verification, s; auto).
  split; [|done]. eapply step_invited_user; [done|done|by rewrite Hw].
Qed.

(** Every request is a run of permitted steps. *)
Lemma request_permitted render_v2 load_relational controller :
  rtc (permitted w0 request) w0
    (HandleRequest now current_request render_v2 load_relational controller request w0).1.
Proof.
  assert (Hanswer : forall m : auth HttpResponse,
    follows R w0 m any -> follows R w0 (r ← m; mret (Some r)) any).
  { intros m Hm. eapply follows_bind; [exact Hm|]. intros. by apply follows_ret. }
  assert (follows R w0 (HandleRequest now current_request render_v2 load_relational controller request) any) as [Hrun _];
    [|exact Hrun].
  unfold HandleRequest. cbv zeta.
  repeat match goal with |- follows _ _ (if ?b then _ else _) _ => destruct b end;
    try (by apply follows_ret); apply Hanswer;
    repeat match goal with |- follows _ _ (if ?b then _ else _) _ => destruct b end.
  all: first [apply run_user_storage | apply run_auth_log | apply run_user_storage_item | apply run_state | apply run_me
    | apply run_logout | apply run_bootstrap_begin | apply run_bootstrap_finish | apply run_login_begin
    | apply run_login_finish | apply run_invite_lookup | apply run_register_begin | apply run_register_finish
    | apply run_invites | apply run_invite_delete | apply run_ssh_keys | apply run_ssh_key_delete | apply run_challenge
    | apply run_ssh_verify | apply run_respond].
Qed.
End Runs.

(** ** Who gets a session *)

Lemma update_at_lookup {A} key p (f : A -> A) m k x :
  (update_at key p f m).1 !! k = Some x -> m !! k = Some x \/ exists y, m !! k = Some y /\ x = f y.
Proof.
  unfold update_at. destruct (m !! key) as [y|] eqn:Hy; [|by left]. destruct (p y); [|by left]. cbn [fst].
  intros [[-> <-]|[_ ?]]%lookup_insert_Some; [right; by exists y|by left].
Qed.

(** A session of the request: what it says was proven, and it is new. *)
Definition session_proven (w : AuthWorld) (request : HttpRequest) (r : AuthSessionRecord) : Prop :=
  exists kind plane_name,
    proven w request (ses_user_id r) kind plane_name /\ ses_session_kind r = kind /\
    ses_plane_name r = c_str plane_name /\ ses_expires_at r = c_str (SqlTimestampAfterSeconds now (lifetime kind)) /\
    ses_created_at r = UtcNowSqlTimestamp now /\ ses_revoked_at r = "".
Definition secured_session_proven (w : AuthWorld) (request : HttpRequest) (r : SecuredConnectionSessionRecord) : Prop :=
  exists user_id plane_name,
    proven_secured w request user_id plane_name /\ scs_user_id r = c_str user_id /\
    scs_plane_name r = c_str plane_name /\
    scs_expires_at r = c_str (SqlTimestampAfterSeconds now SshSessionLifetimeSeconds) /\
    scs_created_at r = UtcNowSqlTimestamp now /\ scs_revoked_at r = "".

Definition sessions_accounted (w0 : AuthWorld) (request : HttpRequest) (s : AuthStore) : Prop :=
  (forall t r, as_sessions s !! t = Some r ->
     is_Some (as_sessions (aw_store w0) !! t) \/ session_proven w0 request r) /\
  (forall t r, as_secured_sessions s !! t = Some r ->
     is_Some (as_secured_sessions (aw_store w0) !! t) \/ secured_session_proven w0 request r).

Lemma proven_kind w request user_id kind plane_name :
  proven w request user_id kind plane_name -> c_str kind = kind.
Proof. by intros []. Qed.

Lemma touch_session_eq token stamp s :
  (TouchAuthSession token stamp s).1 =
  as_with_sessions
    (update_at (c_str token) (fun _ => true)
       (fun r => mkAuthSessionRecord (ses_token r) (ses_user_id r) (ses_session_kind r) (ses_plane_name r)
                   (ses_expires_at r) (ses_created_at r) (ses_revoked_at r) (c_str stamp)) (as_sessions s)).1 s.
Proof. unfold TouchAuthSession. by destruct (update_at _ _ _ _). Qed.
Lemma revoke_secured_eq id stamp s :
  (RevokeSecuredConnectionUser now id stamp s).1 =
  as_with_secured_users
    (update_at (c_str id) (fun u => str_empty (scu_revoked_at u))
      (fun u => mkSecuredConnectionUserRecord (scu_id u) (scu_name u) (scu_public_key u)
                  (scu_fingerprint u) (scu_search_text u) (scu_last_authorized_at u) (scu_created_at u)
                  (UtcNowSqlTimestamp now) (c_str stamp)) (as_secured_users s)).1 s.
Proof. unfold RevokeSecuredConnectionUser. by destruct (update_at _ _ _ _). Qed.

Lemma bookkeeping_accounted w0 request f s :
  bookkeeping now f -> sessions_accounted w0 request s -> sessions_accounted w0 request (f s).
Proof.
  intros [token stamp|id stamp|id stamp|id stamp|id counter stamp|log] [Hs Hc]; try done.
  rewrite touch_session_eq. split; [|exact Hc]. intros t r Hr. cbn [as_sessions as_with_sessions] in Hr.
  apply update_at_lookup in Hr as [Hr|(y & Hy & ->)]; [by eapply Hs|].
  destruct (Hs t y Hy) as [?|(kind & plane & ?)]; [by left|right]. by exists kind, plane.
Qed.

Lemma accounted_same w0 request s s' :
  as_sessions s' = as_sessions s -> as_secured_sessions s' = as_secured_sessions s ->
  sessions_accounted w0 request s -> sessions_accounted w0 request s'.
Proof. unfold sessions_accounted. by intros -> ->. Qed.

(** The statements that touch neither table of sessions. *)
Lemma CreateInvitedUser_sessions invite_token username password_hash s s' user :
  CreateInvitedUser now invite_token username password_hash s = Ok (s', user) ->
  as_sessions s' = as_sessions s /\ as_secured_sessions s' = as_secured_sessions s /\ as_secured_users s' = as_secured_users s /\
  as_ssh_keys s' = as_ssh_keys s.
Proof.
  unfold CreateInvitedUser, insert_user. destruct (find_if _ _); [|done]. cbv zeta.
  destruct (existsb _ _); [done|]. destruct (_ && _); [done|]. by intros [= <- <-].
Qed.
Lemma CreateBootstrapAdmin_sessions username password_hash s s' user :
  CreateBootstrapAdmin now username password_hash s = Ok (s', user) ->
  as_sessions s' = as_sessions s /\ as_secured_sessions s' = as_secured_sessions s /\ as_secured_users s' = as_secured_users s /\
  as_ssh_keys s' = as_ssh_keys s /\ as_invites s' = as_invites s.
Proof.
  unfold CreateBootstrapAdmin, insert_user. destruct (_ !=? _); [done|]. cbv zeta.
  destruct (existsb _ _); [done|]. destruct (_ && _); [done|]. by intros [= <- <-].
Qed.

Ltac statement_inv :=
  repeat match goal with
  | Hs : (if ?c then _ else _) = Ok _ |- _ => destruct c eqn:?; try done
  | Hs : (match ?c with _ => _ end) = Ok _ |- _ => destruct c eqn:?; try done
  | Hs : (let _ := _ in _) = Ok _ |- _ => cbv zeta in Hs
  | Hs : Ok _ = Ok _ |- _ => injection Hs as <-
  end.

Lemma permitted_accounted w0 request w w' :
  permitted w0 request w w' -> sessions_accounted w0 request (aw_store w) ->
  sessions_accounted w0 request (aw_store w').
Proof.
  intros Hstep Hacc. destruct Hstep as [|w f Hf| | | | |w admin token expires_at s invite _ Hs| |w admin user s _ Hs|
    |w user ssh_key s _ _ Hs| |w flow response s user _ _ Hs|w flow response s user _ _ Hs|w user credential s _ _ Hs
    |w session s Hp He Hs|w session s Hp He Hs];
    cbn [aw_store aw_with_store aw_with_flows aw_with_challenges]; try done.
  - by apply bookkeeping_accounted.
  - unfold CreateRegistrationInvite in Hs. by statement_inv.
  - unfold UpsertSecuredConnectionUser in Hs. by statement_inv.
  - by rewrite revoke_secured_eq.
  - unfold InsertUserSshKey in Hs. by statement_inv.
  - apply CreateBootstrapAdmin_sessions in Hs as (? & ? & _). by eapply accounted_same.
  - apply CreateInvitedUser_sessions in Hs as (? & ? & _). by eapply accounted_same.
  - unfold InsertWebAuthnCredential in Hs. by statement_inv.
  - unfold InsertAuthSession in Hs. statement_inv. destruct Hacc as [Ha Hb]. split; [|done].
    intros t r Hr. cbn [as_sessions as_with_sessions] in Hr.
    apply lookup_insert_Some in Hr as [[<- <-]|[_ Hr]]; [right|by eapply Ha].
    exists (ses_session_kind session), (ses_plane_name session). cbn. rewrite He.
    by rewrite (proven_kind _ _ _ _ _ Hp).
  - unfold InsertSecuredConnectionSession in Hs. statement_inv. destruct Hacc as [Ha Hb]. split; [done|].
    intros t r Hr. cbn [as_secured_sessions as_with_secured_sessions] in Hr.
    apply lookup_insert_Some in Hr as [[<- <-]|[_ Hr]]; [right|by eapply Hb].
    exists (scs_user_id session), (scs_plane_name session). cbn. by rewrite He.
Qed.

(** ** The accounts stay consistent *)

Lemma bookkeeping_identities f s : bookkeeping now f -> same_identities s (f s).
Proof.
  intros [token stamp|id stamp|id stamp|id stamp|id counter stamp|log]; try done.
  - by rewrite touch_session_eq.
  - constructor; try done. unfold TouchUserSshKey. cbn [as_with_ssh_keys as_ssh_keys]. by apply update_where_view.
  - constructor; try done. unfold user_view, UpdateUserLastLoginAt. cbn [as_with_users as_users].
    by apply update_where_view.
Qed.

Lemma permitted_ok w0 request w w' : permitted w0 request w w' -> auth_ok (aw_store w) -> auth_ok (aw_store w').
Proof.
  intros Hstep Hok. destruct Hstep as [|w f Hf| | | | |w admin token expires_at s invite _ Hs| |w admin user s _ Hs|
    |w user ssh_key s _ _ Hs| |w flow response s user _ _ Hs|w flow response s user _ _ Hs|w user credential s _ _ Hs
    |w session s Hp He Hs|w session s Hp He Hs];
    cbn [aw_store aw_with_store aw_with_flows aw_with_challenges]; try done.
  - by apply (same_identities_ok (aw_store w)); [apply bookkeeping_identities|].
  - by eapply CreateRegistrationInvite_ok.
  - by apply RevokeRegistrationInvite_ok.
  - unfold UpsertSecuredConnectionUser in Hs. statement_inv. by apply (same_identities_ok (aw_store w)).
  - rewrite revoke_secured_eq. by apply (same_identities_ok (aw_store w)).
  - by eapply InsertUserSshKey_ok.
  - apply (same_identities_ok (aw_store w)); [|done]. constructor; try done.
    unfold RevokeUserSshKey, update_where. cbn [fst as_with_ssh_keys as_ssh_keys].
    apply (update_where_view key_id (fun k => (key_id k =? id) && str_empty (key_revoked_at k))). done.
  - by eapply CreateBootstrapAdmin_ok in Hs as [? _].
  - by eapply CreateInvitedUser_ok in Hs as [? _].
  - unfold InsertWebAuthnCredential in Hs. statement_inv. by apply (same_identities_ok (aw_store w)).
  - unfold InsertAuthSession in Hs. statement_inv. by apply (same_identities_ok (aw_store w)).
  - unfold InsertSecuredConnectionSession in Hs. statement_inv. by apply (same_identities_ok (aw_store w)).
Qed.

(** ** What only its owner changes *)

(** The users of secured connections, the terms of the invitations and the keys of a
    user, without the marks of their use. *)
Definition secured_view (s : AuthStore) : gmap string (string * string * string * string) :=
  (fun u => (scu_name u, scu_public_key u, scu_fingerprint u, scu_revoked_at u)) <$> as_secured_users s.
Definition invite_terms (s : AuthStore) : list (Z * string * Z * string * string) :=
  (fun i => (inv_id i, inv_token i, inv_created_by_user_id i, inv_expires_at i, inv_revoked_at i)) <$>
  nr_rows (as_invites s).
Definition key_terms (user_id : Z) (s : AuthStore) : list (Z * string * string * string) :=
  (fun k => (key_id k, key_public_key k, key_fingerprint k, key_revoked_at k)) <$>
  List.filter (fun k => key_user_id k =? user_id) (nr_rows (as_ssh_keys s)).

Lemma update_at_view {A B} (g : A -> B) key p f (m : gmap string A) :
  (forall x, g (f x) = g x) -> g <$> (update_at key p f m).1 = g <$> m.
Proof.
  intros Hg. unfold update_at. destruct (m !! key) as [x|] eqn:Hx; [|done]. destruct (p x); [|done]. cbn [fst].
  rewrite fmap_insert, Hg. apply insert_id. by rewrite lookup_fmap, Hx.
Qed.

Lemma bookkeeping_views f s user_id :
  bookkeeping now f ->
  secured_view (f s) = secured_view s /\ invite_terms (f s) = invite_terms s /\ key_terms user_id (f s) = key_terms user_id s.
Proof.
  intros [token stamp|id stamp|id stamp|id stamp|id counter stamp|log]; try done.
  - by rewrite touch_session_eq.
  - split; [|done]. unfold secured_view, TouchSecuredConnectionUser. cbn [as_with_secured_users as_secured_users].
    by apply update_at_view.
  - repeat split; try done. unfold key_terms, TouchUserSshKey, update_where. cbn [as_with_ssh_keys as_ssh_keys fst nr_rows].
    induction (nr_rows (as_ssh_keys s)) as [|k l IH]; [done|]. cbn [fmap list_fmap List.filter].
    destruct (key_id k =? id); cbn [key_user_id]; destruct (key_user_id k =? user_id); cbn [fmap list_fmap];
      rewrite ?IH; done.
Qed.

Lemma CreateInvitedUser_terms invite_token username password_hash s s' user :
  CreateInvitedUser now invite_token username password_hash s = Ok (s', user) -> invite_terms s' = invite_terms s.
Proof.
  unfold CreateInvitedUser, insert_user. destruct (find_if _ _); [|done]. cbv zeta.
  destruct (existsb _ _); [done|]. destruct (_ && _); [done|]. intros [= <- <-]. unfold invite_terms.
  cbn [as_with_invites as_invites nr_rows]. rewrite <-list_fmap_compose. apply list_fmap_ext. intros i x _. cbn.
  by destruct (inv_id x =? _).
Qed.

Lemma permitted_admin w0 request w w' :
  permitted w0 request w w' -> (forall user, ~ carries_admin w0 request user) ->
  secured_view (aw_store w') = secured_view (aw_store w) /\ invite_terms (aw_store w') = invite_terms (aw_store w).
Proof.
  intros Hstep Hno. destruct Hstep as [|w f Hf| | | | |w admin token expires_at s invite Ha Hs| |w admin user s Ha Hs|
    |w user ssh_key s _ _ Hs| |w flow response s user _ _ Hs|w flow response s user _ _ Hs|w user credential s _ _ Hs
    |w session s Hp He Hs|w session s Hp He Hs];
    cbn [aw_store aw_with_store aw_with_flows aw_with_challenges]; try done; try (by destruct (Hno admin)).
  - by destruct (bookkeeping_views f (aw_store w) 0 Hf) as (? & ? & _).
  - unfold InsertUserSshKey in Hs. by statement_inv.
  - apply CreateBootstrapAdmin_sessions in Hs as (_ & _ & Hu & _ & Hi). unfold secured_view, invite_terms. by rewrite Hu, Hi.
  - split; [|by eapply CreateInvitedUser_terms]. apply CreateInvitedUser_sessions in Hs as (_ & _ & Hu & _).
    unfold secured_view. by rewrite Hu.
  - unfold InsertWebAuthnCredential in Hs. by statement_inv.
  - unfold InsertAuthSession in Hs. by statement_inv.
  - unfold InsertSecuredConnectionSession in Hs. by statement_inv.
Qed.

Lemma revoke_key_other id stamp s user_id ssh_key :
  NoDup (key_id <$> nr_rows (as_ssh_keys s)) -> LoadActiveUserSshKeyById id s = Some ssh_key ->
  key_user_id ssh_key <> user_id -> key_terms user_id (RevokeUserSshKey id stamp s).1 = key_terms user_id s.
Proof.
  intros Hnd (Hk & Hin)%find_if_Some Hne. apply andb_prop in Hk as [Hid%Z.eqb_eq _].
  unfold key_terms, RevokeUserSshKey, update_where. cbn [fst as_with_ssh_keys as_ssh_keys nr_rows].
  assert (forall k, k ∈ nr_rows (as_ssh_keys s) -> key_id k = id -> key_user_id k <> user_id) as Hother.
  { intros k Hk Hki. apply list_elem_of_lookup_1 in Hk as [i Hi], Hin as [j Hj].
    assert (i = j) as ->; [|congruence]. eapply NoDup_lookup; [exact Hnd| |].
    - rewrite list_lookup_fmap, Hi. reflexivity.
    - rewrite list_lookup_fmap, Hj. cbn. congruence. }
  clear Hnd Hin. induction (nr_rows (as_ssh_keys s)) as [|k l IH]; [done|].
  assert (IHl := IH (fun x Hx => Hother x (list_elem_of_further _ _ _ Hx))). clear IH.
  specialize (Hother k (list_elem_of_here _ _)). cbn [fmap list_fmap List.filter].
  destruct (Z.eqb_spec (key_id k) id) as [Hi|]; cbn [andb].
  - specialize (Hother Hi). destruct (str_empty (key_revoked_at k)); cbn [key_user_id];
      rewrite (proj2 (Z.eqb_neq (key_user_id k) user_id)) by done; exact IHl.
  - destruct (key_user_id k =? user_id); cbn [fmap list_fmap]; [f_equal|]; exact IHl.
Qed.

Lemma permitted_keys w0 request w w' user_id :
  permitted w0 request w w' -> auth_ok (aw_store w) ->
  (forall user, carries w0 request (Some "web") user -> usr_id user <> user_id) ->
  key_terms user_id (aw_store w') = key_terms user_id (aw_store w).
Proof.
  intros Hstep Hok Hno. destruct Hstep as [|w f Hf| | | | |w admin token expires_at s invite Ha Hs| |w admin user s Ha Hs|
    |w user ssh_key s Hc Hu Hs|w user ssh_key id stamp Hc Hl Hu|w flow response s user _ _ Hs|w flow response s user _ _ Hs
    |w user credential s _ _ Hs|w session s Hp He Hs|w session s Hp He Hs];
    cbn [aw_store aw_with_store aw_with_flows aw_with_challenges]; try done.
  - by destruct (bookkeeping_views f (aw_store w) user_id Hf) as (_ & _ & ?).
  - unfold CreateRegistrationInvite in Hs. by statement_inv.
  - unfold UpsertSecuredConnectionUser in Hs. by statement_inv.
  - by rewrite revoke_secured_eq.
  - unfold InsertUserSshKey in Hs. statement_inv. unfold key_terms. cbn [as_with_ssh_keys as_ssh_keys insert_row nr_rows].
    rewrite List.filter_app, fmap_app. cbn [List.filter key_user_id].
    rewrite Hu, (proj2 (Z.eqb_neq (usr_id user) user_id)) by (by apply Hno). by rewrite app_nil_r.
  - eapply revoke_key_other; [by apply ok_key_ids_distinct|exact Hl|]. rewrite Hu. by apply Hno.
  - apply CreateBootstrapAdmin_sessions in Hs as (_ & _ & _ & Hk & _). unfold key_terms. by rewrite Hk.
  - apply CreateInvitedUser_sessions in Hs as (_ & _ & _ & Hk). unfold key_terms. by rewrite Hk.
  - unfold InsertWebAuthnCredential in Hs. by statement_inv.
  - unfold InsertAuthSession in Hs. by statement_inv.
  - unfold InsertSecuredConnectionSession in Hs. by statement_inv.
Qed.

(** ** Every session has its user *)

Definition user_ids (s : AuthStore) : list Z := ((user_view s).*1).*1.
Definition owned (s : AuthStore) : Prop := forall t r, as_sessions s !! t = Some r -> ses_user_id r ∈ user_ids s.

Lemma user_known id s : has_value (LoadUserById id s) = true <-> id ∈ user_ids s.
Proof.
  unfold user_ids, user_view, LoadUserById. rewrite <-!list_fmap_compose.
  induction (nr_rows (as_users s)) as [|u l IH]; cbn; [split; [done|by intros ?%not_elem_of_nil]|].
  rewrite elem_of_cons. destruct (Z.eqb_spec (usr_id u) id) as [<-|Hne]; cbn; [by split; [left|]|].
  rewrite IH. split; [by right|intros [->|?]; done].
Qed.

Lemma owned_same s s' : as_sessions s' = as_sessions s -> user_ids s ⊆ user_ids s' -> owned s -> owned s'.
Proof. intros Hs Hu Ho t r. rewrite Hs. intros Hr. by eapply Hu, Ho. Qed.

Lemma bookkeeping_owned f s : bookkeeping now f -> owned s -> owned (f s).
Proof.
  intros Hf Ho. pose proof (same_users _ _ (bookkeeping_identities f s Hf)) as Hu.
  assert (user_ids (f s) = user_ids s) as Hids by (unfold user_ids; by rewrite Hu).
  intros t r Hr. rewrite Hids. clear Hu Hids. destruct Hf; try by eapply Ho.
  rewrite touch_session_eq in Hr. cbn [as_sessions as_with_sessions] in Hr.
  apply update_at_lookup in Hr as [Hr|(y & Hy & ->)]; [by eapply Ho|exact (Ho t y Hy)].
Qed.

Lemma insert_user_owned username role password_hash s s' user :
  insert_user now username role password_hash s = Ok (s', user) -> user_ids s ⊆ user_ids s'.
Proof.
  intros (_ & _ & _ & Hu & _)%insert_user_ok. unfold user_ids. rewrite Hu, !fmap_app. intros id Hid. apply elem_of_app. by left.
Qed.

Lemma permitted_owned w0 request w w' : permitted w0 request w w' -> owned (aw_store w) -> owned (aw_store w').
Proof.
  intros Hstep Ho. destruct Hstep as [|w f Hf| | | | |w admin token expires_at s invite _ Hs| |w admin user s _ Hs|
    |w user ssh_key s _ _ Hs| |w flow response s user _ _ Hs|w flow response s user _ _ Hs|w user credential s _ _ Hs
    |w session s Hp He Hs|w session s Hp He Hs];
    cbn [aw_store aw_with_store aw_with_flows aw_with_challenges]; try done.
  - by apply bookkeeping_owned.
  - unfold CreateRegistrationInvite in Hs. by statement_inv.
  - unfold UpsertSecuredConnectionUser in Hs. by statement_inv.
  - by rewrite revoke_secured_eq.
  - unfold InsertUserSshKey in Hs. by statement_inv.
  - apply (owned_same (aw_store w)); [by apply CreateBootstrapAdmin_sessions in Hs as (? & _)| |done].
    unfold CreateBootstrapAdmin in Hs. destruct (_ !=? _); [done|]. by eapply insert_user_owned.
  - apply (owned_same (aw_store w)); [by apply CreateInvitedUser_sessions in Hs as (? & _)| |done].
    unfold CreateInvitedUser in Hs. destruct (find_if _ _); [|done]. cbv zeta in Hs.
    destruct (insert_user _ _ _ _ _) as [[s1 u]|] eqn:Hi; [|done]. injection Hs as <- <-. exact (insert_user_owned _ _ _ _ _ _ Hi).
  - unfold InsertWebAuthnCredential in Hs. by statement_inv.
  - unfold InsertAuthSession in Hs. statement_inv. intros t r Hr. cbn [as_sessions as_with_sessions] in Hr.
    apply lookup_insert_Some in Hr as [[<- <-]|[_ Hr]]; [by apply user_known|by eapply Ho].
  - unfold InsertSecuredConnectionSession in Hs. by statement_inv.
Qed.

(** ** A request *)

Section Request.
Context (current_request : option HttpRequest) (render_v2 : json -> result DesiredState)
  (load_relational : string -> ControllerStore -> result DesiredState) (controller : ControllerStore)
  (request : HttpRequest) (w : AuthWorld).
Definition after_request : AuthWorld :=
  (HandleRequest now current_request render_v2 load_relational controller request w).1.

(** C6. Every session that a request adds is proven by the request itself: its user
    was registered by a verified response, or its user has a credential that made the
    verified assertion of a pending login, or the still active SSH key that a pending
    challenge was issued for signed the message of the challenge.  A session of a user of
    secured connections is proven by a signature with the key that the user of the
    challenge has when the challenge is verified, while the user is active.  The session
    has the kind, the plane and the lifetime that go with the proof. *)
Theorem session_needs_proof :
  (forall t r, as_sessions (aw_store w) !! t = None -> as_sessions (aw_store after_request) !! t = Some r ->
     session_proven w request r) /\
  (forall t r, as_secured_sessions (aw_store w) !! t = None ->
     as_secured_sessions (aw_store after_request) !! t = Some r -> secured_session_proven w request r).
Proof.
  assert (sessions_accounted w request (aw_store after_request)) as [Hs Hc].
  { eapply (rtc_ind_r (fun w' => sessions_accounted w request (aw_store w'))); [| |apply request_permitted].
    - split; intros t r Hr; left; by exists r.
    - intros w1 w2 _ Hstep. by apply permitted_accounted. }
  split; intros t r Hnew Hr; [destruct (Hs t r Hr) as [[? ?]|?]|destruct (Hc t r Hr) as [[? ?]|?]]; try done; congruence.
Qed.

Lemma request_ok : auth_ok (aw_store w) -> auth_ok (aw_store after_request).
Proof.
  intros Hok. eapply (rtc_ind_r (fun w' => auth_ok (aw_store w'))); [done| |apply request_permitted].
  intros w1 w2 _ Hstep. by eapply permitted_ok.
Qed.

Lemma request_owned : owned (aw_store w) -> owned (aw_store after_request).
Proof.
  intros Ho. eapply (rtc_ind_r (fun w' => owned (aw_store w'))); [done| |apply request_permitted].
  intros w1 w2 _ Hstep. by eapply permitted_owned.
Qed.

(** C7. In a store in good order: a request that carries no live web session of an
    administrator leaves the users of secured connections and the terms of the
    invitations as they are, and a request that carries no live web session of a user
    leaves the SSH keys of the user as they are. *)
Theorem rights_guarded :
  auth_ok (aw_store w) ->
  ((forall user, ~ carries_admin w request user) ->
   secured_view (aw_store after_request) = secured_view (aw_store w) /\
   invite_terms (aw_store after_request) = invite_terms (aw_store w)) /\
  (forall user_id, (forall user, carries w request (Some "web") user -> usr_id user <> user_id) ->
   key_terms user_id (aw_store after_request) = key_terms user_id (aw_store w)).
Proof.
  intros Hok. split.
  - intros Hno. eapply (rtc_ind_r (fun w' => secured_view (aw_store w') = secured_view (aw_store w) /\
      invite_terms (aw_store w') = invite_terms (aw_store w))); [done| |apply request_permitted].
    intros w1 w2 _ Hstep [<- <-]. by eapply permitted_admin.
  - intros user_id Hno.
    assert (auth_ok (aw_store after_request) /\
      key_terms user_id (aw_store after_request) = key_terms user_id (aw_store w)) as [_ ?]; [|done].
    eapply (rtc_ind_r (fun w' => auth_ok (aw_store w') /\ key_terms user_id (aw_store w') = key_terms user_id (aw_store w)));
      [done| |apply request_permitted].
    intros w1 w2 _ Hstep [Hok1 <-]. split; [by eapply permitted_ok|by eapply permitted_keys].
Qed.

(** Logging out revokes nothing: the token stays good until it expires. *)
Lemma logout_keeps_session : (HandleLogout current_request request w).1 = w.
Proof. unfold HandleLogout. by destruct (_ !=? _). Qed.

(** ** A challenge is good for one session *)

Definition same_sessions (w' : AuthWorld) : Prop :=
  as_sessions (aw_store w') = as_sessions (aw_store w) /\
  as_secured_sessions (aw_store w') = as_secured_sessions (aw_store w).
Definition spent (challenge_id : string) (w' : AuthWorld) : Prop :=
  same_sessions w' \/ aw_challenges w' !! challenge_id = None.

Lemma verify_user_spent challenge_id signature challenge issue_cookie include_token :
  ends w (verify_user now current_request request challenge_id signature challenge issue_cookie include_token)
    (fun _ => spent challenge_id) (spent challenge_id).
Proof.
  unfold verify_user, CreateControllerSession, session_answer. cbv zeta.
  eapply ends_bind; [apply ends_load|]. intros found w1 [-> ->].
  destruct (LoadActiveUserSshKeyById _ _) as [ssh_key|]; [|by apply ends_respond; left].
  eapply ends_bind; [apply ends_verify|]. intros verified w1 (Hs1 & _ & _).
  destruct verified; cbn [negb]; [|by apply ends_respond; left; unfold same_sessions; rewrite Hs1].
  eapply ends_bind; [apply ends_change|]. intros _ w2 ->. apply ends_assoc.
  eapply ends_bind; [apply ends_draw|]. intros token w3 (Hs3 & _ & _). apply ends_assoc.
  eapply (ends_bind _ _ _ any).
  { apply ends_insert; [|done]. left. unfold same_sessions. by rewrite Hs3, <-Hs1. }
  intros _ w4 _. apply ends_assoc. eapply ends_bind; [apply ends_change|]. intros _ w5 _.
  eapply (ends_bind _ _ _ any); [by apply ends_ret|]. intros session_token w6 _.
  eapply ends_bind; [apply ends_close|]. intros [] w7 Hc. apply ends_respond. by right.
Qed.

Lemma verify_secured_spent challenge_id signature challenge issue_cookie include_token :
  ends w (verify_secured now current_request request challenge_id signature challenge issue_cookie include_token)
    (fun _ => spent challenge_id) (spent challenge_id).
Proof.
  unfold verify_secured, log_secured, session_answer. cbv zeta.
  destruct (IsSecuredRequestTransportAllowed request); cbn [negb].
  2: { eapply ends_bind; [apply ends_change|]. intros _ w1 ->. by apply ends_respond; left. }
  eapply ends_bind; [apply ends_load|]. intros found w1 [-> ->].
  destruct (LoadActiveSecuredConnectionUser _ _) as [user|].
  2: { eapply ends_bind; [apply ends_change|]. intros _ w1 ->. by apply ends_respond; left. }
  eapply ends_bind; [apply ends_verify|]. intros verified w1 (Hs1 & _ & _). destruct verified; cbn [negb].
  2: { eapply ends_bind; [apply ends_change|]. intros _ w2 ->. apply ends_respond. left. unfold same_sessions. by rewrite <-Hs1. }
  eapply ends_bind; [apply ends_change|]. intros _ w2 ->.
  eapply ends_bind; [apply ends_draw|]. intros token w3 (Hs3 & _ & _).
  eapply (ends_bind _ _ _ any).
  { apply ends_insert; [|done]. left. unfold same_sessions. by rewrite Hs3, <-Hs1. }
  intros _ w4 _. eapply ends_bind; [apply ends_change|]. intros _ w5 _.
  eapply ends_bind; [apply ends_close|]. intros [] w7 Hc. apply ends_respond. by right.
Qed.

(** C27. A challenge is good for one session: after an attempt to verify it, whether it
    answers or throws on the way, the sessions are what they were or the challenge is
    gone. *)
Theorem challenge_used_once body challenge_id :
  request_body request = Ok body -> json_value get_string body "challenge_id" "" = Ok challenge_id ->
  spent challenge_id (HandleSshVerify now current_request request w).1.
Proof.
  intros Hbody Hid. unfold HandleSshVerify. destruct (_ !=? _); [by left|].
  eapply (ends_state _ _ (fun _ => spent challenge_id)); [eapply ends_catch; [|intros e w' Hw'; by apply ends_handler]|done|done].
  eapply ends_bind; [by apply ends_pure; left|]. intros parsed w1 [Hp ->].
  eapply ends_bind; [by apply ends_pure; left|]. intros id w1 [Hi ->].
  assert (parsed = body) as -> by (unfold request_body in *; congruence). assert (id = challenge_id) as -> by congruence.
  eapply ends_bind; [by apply ends_pure; left|]. intros signature w1 [_ ->].
  eapply ends_bind; [by apply ends_optional; left|]. intros issue_cookie w1 ->.
  eapply ends_bind; [by apply ends_optional; left|]. intros include_token w1 ->.
  destruct (_ || _); [by apply ends_respond; left|].
  eapply ends_bind; [apply ends_load_challenge|]. intros pending w1 [_ ->].
  destruct pending as [challenge|]; [|by apply ends_respond; left].
  destruct (klt _ _); [by apply ends_respond; left|].
  destruct (chl_secured_connection challenge); [apply verify_secured_spent|apply verify_user_spent].
Qed.
End Request.
End Steps.

(** ** The accounts of a running controller *)

Section Reachable.
Context `{JsonLibrary, OpenSsl, AuthEnvironment}.

(** The worlds of a controller: it begins empty, serves requests at any time, lets
    requests into a plane and drops expired flows. *)
Inductive reachable : AuthWorld -> Prop :=
  | reachable_empty : reachable empty_auth_world
  | reachable_request now current_request render_v2 load_relational controller request w :
      reachable w -> reachable (after_request now current_request render_v2 load_relational controller request w)
  | reachable_session now request kind w :
      reachable w -> reachable (AuthenticateControllerUserSession now request kind w).1
  | reachable_plane now request plane_name w :
      reachable w -> reachable (AuthenticateProtectedPlaneRequest now request plane_name w).1
  | reachable_cleanup now w : reachable w -> reachable (CleanupExpiredPendingAuthFlows now w).1.

(** Looking a session up marks its use and nothing else. *)
Definition same_accounts (w w' : AuthWorld) : Prop :=
  same_identities (aw_store w) (aw_store w') /\
  (forall t r', as_sessions (aw_store w') !! t = Some r' ->
     exists r, as_sessions (aw_store w) !! t = Some r /\ ses_user_id r' = ses_user_id r).

Lemma touch_same_accounts token stamp w : same_accounts w (aw_with_store (TouchAuthSession token stamp (aw_store w)).1 w).
Proof.
  rewrite touch_session_eq. split; [done|]. intros t r' Hr. cbn [aw_store aw_with_store as_sessions as_with_sessions] in Hr.
  apply update_at_lookup in Hr as [Hr|(y & Hy & ->)]; [by exists r'|by exists y].
Qed.
Lemma touch_secured_eq token stamp s :
  as_sessions (TouchSecuredConnectionSession token stamp s).1 = as_sessions s /\
  same_identities s (TouchSecuredConnectionSession token stamp s).1.
Proof. unfold TouchSecuredConnectionSession. by destruct (update_at _ _ _ _). Qed.
Lemma touch_secured_same token stamp w :
  same_accounts w (aw_with_store (TouchSecuredConnectionSession token stamp (aw_store w)).1 w).
Proof.
  destruct (touch_secured_eq token stamp (aw_store w)) as [Hs Hid]. split; [done|]. intros t r. cbn [aw_store aw_with_store].
  rewrite Hs. intros Hr. by exists r.
Qed.
Lemma same_accounts_refl w : same_accounts w w.
Proof. split; [done|]. intros t r Hr. by exists r. Qed.
Lemma same_accounts_kept w w' :
  same_accounts w w' -> auth_ok (aw_store w) /\ owned (aw_store w) -> auth_ok (aw_store w') /\ owned (aw_store w').
Proof.
  intros [Hid Hs] [Hok Ho]. split; [by eapply same_identities_ok|]. intros t r' Hr.
  destruct (Hs t r' Hr) as (r & Hr0 & ->). unfold user_ids. rewrite (same_users _ _ Hid). by eapply Ho.
Qed.

(** What the lookup of a session answers and leaves. *)
Lemma session_lookup now request kind w :
  AuthenticateControllerUserSession now request kind w =
  match FindControllerSessionToken request with
  | Some token =>
      match LoadActiveAuthSession now token kind None (aw_store w) with
      | Some session =>
          match LoadUserById (ses_user_id session) (aw_store w) with
          | Some user =>
              (aw_with_store (TouchAuthSession (ses_token session) (UtcNowSqlTimestamp now) (aw_store w)).1 w,
               Done (Some (user, session)))
          | None => (w, Done None)
          end
      | None => (w, Done None)
      end
  | None => (w, Done None)
  end.
Proof.
  unfold AuthenticateControllerUserSession. destruct (FindControllerSessionToken request) as [token|]; [|done].
  unfold mbind, auth_bind, load, changed, execute. destruct (LoadActiveAuthSession _ _ _ _ _) as [session|]; [|done].
  destruct (LoadUserById _ _) as [user|]; [|done]. by destruct (TouchAuthSession _ _ _).
Qed.

Lemma lookup_same_accounts now request kind w :
  same_accounts w (AuthenticateControllerUserSession now request kind w).1.
Proof.
  rewrite session_lookup. destruct (FindControllerSessionToken request) as [token|]; [|apply same_accounts_refl].
  destruct (LoadActiveAuthSession _ _ _ _ _) as [session|]; [|apply same_accounts_refl].
  destruct (LoadUserById _ _) as [user|]; [apply touch_same_accounts|apply same_accounts_refl].
Qed.

(** The session and the user of a live row; a secured one must name an active user. *)
Definition live (now : Z) (revoked_at expires_at : string) : Prop :=
  revoked_at = "" /\ not_expired now expires_at = true.
Definition opens (now : Z) (plane_name token : string) (s : AuthStore) : Prop :=
  (exists r, as_sessions s !! c_str token = Some r /\ live now (ses_revoked_at r) (ses_expires_at r) /\
     (ses_session_kind r = "web" \/ ses_session_kind r = "ssh" /\ ses_plane_name r = c_str plane_name)) \/
  (exists r u, as_secured_sessions s !! c_str token = Some r /\ live now (scs_revoked_at r) (scs_expires_at r) /\
     scs_plane_name r = c_str plane_name /\
     as_secured_users s !! c_str (scs_user_id r) = Some u /\ scu_revoked_at u = "").

Lemma active_session now token kind plane_name s r :
  LoadActiveAuthSession now token kind plane_name s = Some r <->
  as_sessions s !! c_str token = Some r /\ live now (ses_revoked_at r) (ses_expires_at r) /\
  from_option (fun k => ses_session_kind r = c_str k) True kind /\
  from_option (fun p => ses_plane_name r = c_str p) True plane_name.
Proof.
  assert (forall r', session_matches now kind plane_name r' = true <->
    live now (ses_revoked_at r') (ses_expires_at r') /\ from_option (fun k => ses_session_kind r' = c_str k) True kind /\
    from_option (fun p => ses_plane_name r' = c_str p) True plane_name) as Hm.
  { intros r'. unfold session_matches, live. rewrite !andb_true_iff, str_empty_true.
    assert (forall wanted value, matches (c_str <$> wanted) value = true <->
      from_option (fun k => value = c_str k) True wanted) as Hmatches.
    { intros [k|] value; cbn; [|done]. by rewrite eqb_true. }
    rewrite !Hmatches. tauto. }
  unfold LoadActiveAuthSession. destruct (as_sessions s !! c_str token) as [r'|]; [|naive_solver].
  destruct (session_matches now kind plane_name r') eqn:E; split.
  - intros [= <-]. by split; [|apply Hm].
  - by intros ([= <-] & _).
  - done.
  - intros ([= <-] & Hr). apply Hm in Hr. congruence.
Qed.

Lemma active_secured now token plane_name s r u :
  LoadActiveSecuredConnectionSession now token plane_name s = Some r /\
  LoadActiveSecuredConnectionUser (scs_user_id r) s = Some u <->
  as_secured_sessions s !! c_str token = Some r /\ live now (scs_revoked_at r) (scs_expires_at r) /\
  scs_plane_name r = c_str plane_name /\
  as_secured_users s !! c_str (scs_user_id r) = Some u /\ scu_revoked_at u = "".
Proof.
  unfold LoadActiveSecuredConnectionSession, LoadActiveSecuredConnectionUser, live.
  split.
  - intros [Hr Hu]. destruct (as_secured_sessions s !! c_str token) as [r'|]; [|done].
    destruct (_ && _) eqn:E; [|done]. injection Hr as <-.
    destruct (as_secured_users s !! _) as [u'|]; [|done]. destruct (str_empty (scu_revoked_at u')) eqn:Eu; [|done]. injection Hu as <-.
    rewrite !andb_true_iff, eqb_true, str_empty_true in E. apply str_empty_true in Eu. tauto.
  - intros (-> & [Hrev Hexp] & Hp & Hu & Hurev). rewrite Hu, Hurev, Hrev, Hexp, Hp, eqb_refl. done.
Qed.

Lemma load_bind {A B} (f : AuthStore -> A) (g : A -> auth B) w : (load f ≫= g) w = g (f (aw_store w)) w.
Proof. done. Qed.
Lemma changed_bind {B} f (g : bool -> auth B) w :
  (changed f ≫= g) w = g (f (aw_store w)).2 (aw_with_store (f (aw_store w)).1 w).
Proof. unfold changed, execute, mbind, auth_bind. by destruct (f (aw_store w)). Qed.

Lemma session_user now token kind plane_name s session :
  owned s -> LoadActiveAuthSession now token kind plane_name s = Some session ->
  exists user, LoadUserById (ses_user_id session) s = Some user.
Proof.
  intros Ho (Hr & _)%active_session. apply Ho, user_known in Hr. destruct (LoadUserById _ _); [by eexists|done].
Qed.

(** A plane takes a web session, or one of its own. *)
Definition plane_session (now : Z) (plane_name token : string) (s : AuthStore) : Prop :=
  is_Some (LoadActiveAuthSession now token (Some "web") None s) \/
  is_Some (LoadActiveAuthSession now token (Some "ssh") (Some plane_name) s) \/
  exists r u, LoadActiveSecuredConnectionSession now token plane_name s = Some r /\
    LoadActiveSecuredConnectionUser (scs_user_id r) s = Some u.

Lemma plane_lookup now request plane_name w :
  owned (aw_store w) ->
  exists answer w',
    AuthenticateProtectedPlaneRequest now request plane_name w = (w', Done answer) /\ same_accounts w w' /\
    (is_Some answer <->
     from_option (fun token => plane_session now plane_name token (aw_store w)) False (FindControllerSessionToken request)).
Proof.
  intros Ho. unfold AuthenticateProtectedPlaneRequest. unfold mbind at 1, auth_bind. rewrite session_lookup.
  destruct (FindControllerSessionToken request) as [token|]; cbn [from_option]; unfold plane_session.
  2: { exists None, w. split; [done|]. split; [apply same_accounts_refl|]. naive_solver. }
  destruct (LoadActiveAuthSession now token (Some "web") None (aw_store w)) as [session|] eqn:Hweb.
  { destruct (session_user _ _ _ _ _ _ Ho Hweb) as [user ->]. do 2 eexists. split; [done|].
    split; [apply touch_same_accounts|]. naive_solver. }
  rewrite load_bind.
  destruct (LoadActiveAuthSession now token (Some "ssh") (Some plane_name) (aw_store w)) as [session|] eqn:Hssh.
  { destruct (session_user _ _ _ _ _ _ Ho Hssh) as [user Hu]. rewrite load_bind, Hu, changed_bind. do 2 eexists. split; [done|].
    split; [apply touch_same_accounts|]. naive_solver. }
  rewrite load_bind.
  destruct (LoadActiveSecuredConnectionSession now token plane_name (aw_store w)) as [session|] eqn:Hsec.
  2: { exists None, w. split; [done|]. split; [apply same_accounts_refl|]. naive_solver. }
  rewrite load_bind. destruct (LoadActiveSecuredConnectionUser (scs_user_id session) (aw_store w)) as [user|] eqn:Hu.
  2: { exists None, w. split; [done|]. split; [apply same_accounts_refl|]. naive_solver. }
  rewrite changed_bind. do 2 eexists. split; [done|]. split; [apply touch_secured_same|]. naive_solver.
Qed.

Lemma plane_session_opens now plane_name token s : plane_session now plane_name token s <-> opens now plane_name token s.
Proof.
  unfold plane_session, opens, is_Some. setoid_rewrite active_session. setoid_rewrite active_secured. cbn [from_option].
  naive_solver.
Qed.

(** C15. In every world a controller reaches, whatever it is asked and when: ids and
    names of users are unique, there is at most one administrator, every other user has
    redeemed an invitation of its own, and every session belongs to a user. *)
Theorem accounts_consistent w : reachable w -> auth_ok (aw_store w) /\ owned (aw_store w).
Proof.
  induction 1 as [|now current_request render_v2 load_relational controller request w _ [Hok Ho]|now request kind w _ IH
    |now request plane_name w _ IH|now w _ IH].
  - split; [apply empty_auth_ok|]. intros t r Hr. change ((∅ : gmap string AuthSessionRecord) !! t = Some r) in Hr.
    by rewrite lookup_empty in Hr.
  - split; [by apply request_ok|by apply request_owned].
  - eapply same_accounts_kept; [apply lookup_same_accounts|done].
  - destruct (plane_lookup now request plane_name w) as (answer & w' & -> & Hw & _); [apply IH|].
    by eapply same_accounts_kept.
  - exact IH.
Qed.

(** C14. A protected plane always answers, and it admits a request exactly when its token
    opens the plane: a live web session, a live SSH session of the plane, or a live
    secured session of the plane with an active user.  No account changes. *)
Theorem plane_admission_exact w now request plane_name :
  owned (aw_store w) ->
  exists answer w',
    AuthenticateProtectedPlaneRequest now request plane_name w = (w', Done answer) /\ same_accounts w w' /\
    (is_Some answer <->
     exists token, FindControllerSessionToken request = Some token /\ opens now plane_name token (aw_store w)).
Proof.
  intros Ho. destruct (plane_lookup now request plane_name w Ho) as (answer & w' & Ha & Hw & Hiff).
  exists answer, w'. split; [done|]. split; [done|]. rewrite Hiff.
  destruct (FindControllerSessionToken request) as [token|]; cbn [from_option]; [|naive_solver].
  rewrite plane_session_opens. naive_solver.
Qed.
End Reachable.

(** * Runs *)

Definition fx_openssl : OpenSsl := Build_OpenSsl (fun data => data) (fun _ => true) (fun _ _ _ => true).
(** A token is its number, and a signature repeats the message. *)
Definition fx_auth : AuthEnvironment :=
  Build_AuthEnvironment (fun _ => None) (fun n _ => to_string (Z.of_nat n)) (fun _ password => "hash of " +:+ password)
    (fun _ => (0, "256 SHA256:demo key"))
    (fun _ _ signature message => if signature ==? message then 0 else 255).

Definition fx_noon : Z := 1700000000.
Definition fx_later : string := UtcNowSqlTimestamp (fx_noon + 60).
Definition fx_alice : UserRecord := mkUserRecord 1 "alice" "admin" "" "" "" "".
Definition fx_key : UserSshKeyRecord := mkUserSshKeyRecord 1 1 "laptop" "ssh-ed25519 AAAA" "SHA256:demo" "" "" "".
Definition fx_challenge : PendingSshChallenge :=
  mkPendingSshChallenge "c1" 1 1 "" false "alice" "demo" "SHA256:demo" "t" "sign me" fx_later.
Definition fx_session (plane_name : string) : AuthSessionRecord :=
  mkAuthSessionRecord "s1" 1 "ssh" plane_name fx_later "" "" "".
Definition fx_accounts : AuthStore :=
  mkAuthStore (mkNumberedRows [fx_alice] 1) no_rows no_rows (mkNumberedRows [fx_key] 1)
    {[ "s1" := fx_session "demo" ]} ∅ ∅ no_rows.
Definition fx_auth_world : AuthWorld := mkAuthWorld fx_accounts ∅ {[ "c1" := fx_challenge ]} 7.
Definition fx_request (method path : string) (headers : gmap string string) (body : json) : HttpRequest :=
  mkHttpRequest method path headers ∅ (match dump (JsonLibrary:=tree_json) body with Ok text => text | Throw _ => "" end).

Lemma fx_accounts_ok : auth_ok fx_accounts /\ owned fx_accounts.
Proof.
  split.
  - constructor; try (vm_compute; (discriminate || reflexivity)); cbn; repeat constructor; try lia; try set_solver.
  - intros t r Hr. unfold fx_accounts in Hr. cbn [as_sessions] in Hr. apply lookup_singleton_Some in Hr as [_ <-]. left.
Qed.

Definition fx_verify : HttpRequest :=
  fx_request "POST" "/api/v1/auth/ssh/verify" ∅
    (JObject [("challenge_id", JString "c1"); ("signature", JString "sign me")]).

(** The signed challenge opens a session and is gone. *)
Example challenge_used_once_witness :
  let w' := (@HandleSshVerify tree_json fx_auth fx_noon None fx_verify fx_auth_world).1 in
  has_value (as_sessions (aw_store w') !! "8") = true /\ spent fx_auth_world "c1" w'.
Proof.
  intros w'. split; [vm_compute; reflexivity|].
  eapply (challenge_used_once (H := tree_json) (H1 := fx_auth)); vm_compute; reflexivity.
Defined.

(** A session of the plane opens it, and no other. *)
Example plane_admission_exact_witness :
  let request := fx_request "GET" "/" {[ "x-naim-session-token" := "s1" ]} (JObject []) in
  let ask plane_name := (@AuthenticateProtectedPlaneRequest fx_noon request plane_name fx_auth_world).2 in
  ask "other" = Done None /\ exists answer, ask "demo" = Done (Some answer).
Proof.
  intros request ask. split; [vm_compute; reflexivity|].
  destruct (plane_admission_exact fx_auth_world fx_noon request "demo" (proj2 fx_accounts_ok))
    as (answer & w' & Ha & _ & [_ Hiff]).
  destruct Hiff as [id ->].
  - exists "s1". split; [vm_compute; reflexivity|]. left. exists (fx_session "demo").
    split; [reflexivity|]. split; [split; vm_compute; reflexivity|]. right. split; reflexivity.
  - exists id. unfold ask. by rewrite Ha.
Defined.

Definition fx_no_render (_ : json) : result DesiredState := Throw "no document".
Definition fx_no_relational (_ : string) (_ : ControllerStore) : result DesiredState := Throw "no plane".
Definition fx_after (request : HttpRequest) (w : AuthWorld) : AuthWorld :=
  @after_request tree_json fx_openssl fx_auth fx_noon None fx_no_render fx_no_relational empty_store request w.

(** Nobody's request to invite changes nothing. *)
Example rights_guarded_witness :
  let w' := fx_after (fx_request "POST" "/api/v1/auth/invites" ∅ (JObject [])) fx_auth_world in
  secured_view (aw_store w') = ∅ /\ invite_terms (aw_store w') = [] /\
  key_terms 1 (aw_store w') = [(1, "ssh-ed25519 AAAA", "SHA256:demo", "")].
Proof.
  intros w'.
  destruct (@rights_guarded tree_json fx_openssl fx_auth fx_noon None fx_no_render fx_no_relational empty_store
    (fx_request "POST" "/api/v1/auth/invites" ∅ (JObject [])) fx_auth_world (proj1 fx_accounts_ok)) as [Ha Hk].
  destruct Ha as [Hs Hi]; [by intros user [(token & session & Ht & _) _]|].
  split; [exact Hs|]. split; [exact Hi|]. apply (Hk 1). by intros user (token & session & Ht & _).
Defined.

Example accounts_consistent_witness :
  let w := fx_after (fx_request "POST" "/api/v1/auth/bootstrap/begin" ∅
                       (JObject [("username", JString "alice"); ("password", JString "secret")])) empty_auth_world in
  size (aw_flows w) = 1%nat /\ auth_ok (aw_store w) /\ owned (aw_store w).
Proof.
  intros w. split; [vm_compute; reflexivity|].
  apply (@accounts_consistent tree_json fx_openssl fx_auth). apply reachable_request, reachable_empty.
Defined.

(** The session opened by a signature. *)
Example session_needs_proof_witness :
  exists r, as_sessions (aw_store (fx_after fx_verify fx_auth_world)) !! "8" = Some r /\
    @session_proven tree_json fx_openssl fx_auth fx_noon fx_auth_world fx_verify r.
Proof.
  destruct (as_sessions (aw_store (fx_after fx_verify fx_auth_world)) !! "8") as [r|] eqn:Hr; [|vm_compute in Hr; discriminate].
  exists r. split; [reflexivity|].
  apply (proj1 (@session_needs_proof tree_json fx_openssl fx_auth fx_noon None fx_no_render fx_no_relational empty_store
    fx_verify fx_auth_world) "8"); [reflexivity|exact Hr].
Defined.
